(* ===== verification/_CoqProject ===== *)
-Q . S2P
Prelude.v
Linear.v
Doubles.v
DoublesErr.v
DoublesInt.v
NavBits.v
Bits.v
Edc.v
Viterbi27.v
CnavMsg.v
PerSupport.v
AsnInteger.v
PerSafe.v
PerCodec.v
Rrlp.v
Supl.v
AsnTypes.v
AsnString.v
AsnOpenType.v
AsnConstructed.v
AsnChoice.v
AsnSequence.v
AsnTables.v
UlpTables.v
RrlpTables.v
AsnStable.v
AsnProps.v
SuplWire.v
SuplCodec.v
SuplExample.v
GnssSignal.v
ChannelFsm.v
Flowgraph.v
FlowgraphInv.v
ControlThread.v
ReceiverSync.v
ReceiverSearch.v
ReceiverLive.v
ReceiverProps.v
GpsNav.v
GpsTlm.v
GpsTlmProps.v
GpsTlmLock.v
GpsSafe.v
GpsProps.v
Rtcm.v
Clock.v
RtcmProps.v
RtcmNav.v
RtcmEph.v
RtcmEphProps.v
RtcmMsm.v
RtcmMsmProps.v
RtcmClaims.v
GnavTime.v
Gnav.v
GnavHamming.v
GnavTlm.v
GnavTlmProps.v
GnavStrings.v
GnavProps.v
GnavEph.v
GnavRtcm.v
GnavSafe.v
CnavNav.v
CnavTlm.v
CnavPages.v
CnavTlmProps.v
