(* ===== verification/Prelude.v ===== *)
(** * Verification of GNSS-SDR: receiver control, message decoding and the SUPL client

    GNSS-SDR is a software receiver for satellite navigation: a flow graph of
    signal-processing blocks under a control thread. This library models six parts of it,
    which decide rather than process signals.

    - Receiver control. [ControlThread] ([core/receiver/control_thread.cc]) takes messages
      from a queue and acts on [GNSSFlowgraph] ([core/receiver/gnss_flowgraph.cc]), which
      keeps the lists of signals to search for and gives them to channels. A channel
      ([algorithms/channel]) is a state machine that starts and stops its blocks on the
      commands of the flow graph and on the reports of the blocks, and sends its events to
      the queue.
    - The GPS CNAV message. In [algorithms/telemetry_decoder/libs/libswiftcnav], [cnav_msg.c]
      feeds soft symbols to two Viterbi decoders ([viterbi27.c]), one per phase of the symbol
      pairs, looks for the preamble in the decoded bits with the access routines of [bits.c],
      checks the CRC-24Q ([edc.c]) and hands out messages. The telemetry decoders of L2C and L5
      ([gps_l2c_telemetry_decoder_gs.cc], [gps_l5_...]) have [core/system_parameters/
      gps_cnav_navigation_message.cc] decode them, publish what is complete and add the time of
      week to the symbols.
    - The legacy GPS message. [algorithms/telemetry_decoder/gnuradio_blocks/
      gps_l1_ca_telemetry_decoder_gs.cc] takes the symbols of one satellite from tracking,
      finds subframes, checks their parity, has [core/system_parameters/
      gps_navigation_message.cc] decode them, publishes ephemerides, ionospheric and UTC data
      and adds the time of week to every symbol.
    - The GLONASS message. [glonass_l1_ca_telemetry_decoder_gs.cc] and [glonass_l2_ca_...] of the
      same directory find the time mark of a string, turn its symbols into bits and have
      [core/system_parameters/glonass_gnav_navigation_message.cc] check and decode them;
      [glonass_gnav_ephemeris.cc] converts GLONASS time to GPS time.
    - RTCM output. [algorithms/PVT/libs/rtcm.cc] turns ephemerides, observables and the position
      of the receiver into messages of RTCM 10403.2 for other receivers, and reads some of
      them back.
    - [src/core/libs/supl]: the SUPL client of assisted GNSS. [supl.c] exchanges ULP
      messages with a location server over TLS and collects the assistance data of the
      RRLP messages inside them. Both protocols are ASN.1 in unaligned PER; the codec
      is the asn1c runtime under [asn-supl] (and the same code under [asn-rrlp]), which
      interprets the tables that the ASN.1 compiler wrote for each type.

    ** Files

    - [Prelude] (this file): machine integers as [Z] with explicit wrap-around
      ([uwrap], [swrap]), arrays as lists with checked access ([rd], [wr]: [None] is an
      access outside the array, that is undefined behaviour), bit strings
      ([val_bits], [bits_val], [bitlist]), their lemmas, and the hint and rewrite bases.
    - [GnssSignal]: [Gnss_Satellite], [Gnss_Signal] and the class [ConfigurationInterface].
    - [ChannelFsm]: [channel_fsm.cc], [channel_msg_receiver_cc.cc], [channel.cc], the queue
      and the channel status. The calls on the blocks are recorded in order.
    - [Flowgraph]: the channel management of [gnss_flowgraph.cc]; [FlowgraphInv]: its
      invariant, that no signal is lost.
    - [ControlThread]: the control loop, and the receiver as a step function on inputs:
      reports of blocks, status messages, commands, iterations of the loop. Each of these
      runs under a mutex in the code and is one step here; the inputs come in any order.
    - [ReceiverSync] (agreement of the flow graph with the channels, by induction on
      reachable states), [ReceiverSearch] (exclusive use), [ReceiverLive] (work
      conservation), [ReceiverProps] (the theorems).
    - [Bits], [Edc], [Viterbi27], [CnavMsg]: one file per C file of libswiftcnav, one
      definition per function, records with the members of the C structures. The two
      metric arrays of [v27_t] and the pointers that swap them are modelled as such.
    - [Linear]: maps that commute with exclusive or, equal when they agree on the powers of two,
      and error patterns of bounded weight; [Doubles]: IEEE double arithmetic on
      [SpecFloat] and the constants of [MATH_CONSTANTS.h]; [DoublesErr]: division, rounding
      and the errors of products and quotients; [DoublesInt]: integers in doubles, [floor],
      changes of sign; [Clock]: a time in seconds that is advanced symbol by symbol;
      [NavBits]: the readers of bit fields that the navigation messages share.
    - [GpsNav]: [gps_navigation_message.cc] with the tables of [GPS_L1_CA.h]; [GpsTlm]: the
      telemetry decoder block, one symbol a step; [GpsTlmProps] (parity, the transmitter of
      IS-GPS-200, errors), [GpsTlmLock] (the block in lock), [GpsSafe] (any input),
      [GpsProps] (the theorems).
    - [Rtcm]: frames, data fields, messages 1005 and 1019 of [rtcm.cc]; [RtcmProps]: frames and
      fields from the writer to the reader; [RtcmNav]: ephemerides from the GPS decoder
      through message 1019; [RtcmEph] and [RtcmEphProps]: messages 1045 and 1020; [RtcmMsm] and
      [RtcmMsmProps]: multiple signal messages and lock times; [RtcmClaims]: the theorems on
      damage and on messages 1005, 1045 and 1020. The CRC of Boost is a parameter with the law
      [Crc24Q], [std::sort] one with the law [StdSort] (sorted by the number compared, in any
      order where it is equal); a stable and an unstable instance are given.
    - [GnavTime]: the conversion of time; [Gnav]: [glonass_gnav_navigation_message.cc] with the
      tables of [GLONASS_L1_L2_CA.h]; [GnavHamming]: its checksums as a linear code; [GnavTlm]:
      the two telemetry decoder blocks, which are the same code; [GnavTlmProps] (the block as
      a machine on strings) and [GnavStrings] (transmissions); [GnavProps] and [GnavEph]
      (fields, ephemerides), [GnavRtcm] (on to message 1020), [GnavSafe] (the arrays of the
      almanac). The dates of [boost::gregorian] are a parameter, with the law [Calendar].
    - [CnavNav]: [gps_cnav_navigation_message.cc] with the tables of [GPS_CNAV.h]; [CnavTlm]: the
      L2C and L5 blocks on the decoder of [CnavMsg]; [CnavPages] (the content of a message) and
      [CnavTlmProps] (the theorems).
    - [PerSupport]: [per_support.c], the bit streams of the PER codec. The output
      callback is the class [Sink]; [pd_at] and [po_at] relate a stream to the bits it
      still holds and to the bits written so far.
    - [AsnInteger]: [INTEGER.c] (conversions, UPER) and the UPER part of
      [NativeInteger.c].
    - [PerSafe]: readers that are total on any input ([reads]) and writers ([accepts],
      [encodes]), with the rules by which they compose.
    - [PerCodec]: [per_encoder.c] and [per_decoder.c] over the class [UperType] (a type
      descriptor's encoder and decoder) and the laws [UperLaws] and [CodecLaws] (what they
      promise).
    - [AsnTypes]: values, type descriptors, the interface [implements] between a codec and
      the specification of its type, BOOLEAN, NULL and ENUMERATED; [AsnString]:
      [OCTET_STRING.c]; [AsnOpenType]: [per_opentype.c]; [AsnConstructed]:
      [constr_SEQUENCE.c], [constr_CHOICE.c], [constr_SET_OF.c], [constr_SEQUENCE_OF.c],
      with [implements] proved in [AsnChoice] and [AsnSequence].
    - [AsnTables]: descriptors as data, their codec, their specification and two checks that
      run: of a table ([table_check]) and of a value ([value_check]). [UlpTables] and
      [RrlpTables]: the generated tables of both protocols. [AsnStable]: decoders on
      an input cut short and on its continuations. [AsnProps]: what follows for the messages.
    - [Rrlp]: [supl_collect_rrlp] and [supl_more_rrlp] of [supl.c].
    - [Supl]: the rest of [supl.c]. TLS, sockets and the clock are the class [SslOps]
      with laws [SslLaws]; the lemmas on receiving and on sessions hold for any codecs of
      the messages with laws [CodecLaws] and [UlpLaws].
    - [SuplWire]: the messages that [supl.c] builds, as values of the ULP tables.
    - [SuplCodec]: the codecs of the generated tables satisfy those laws; the theorems on
      receiving and on sessions, for them.
    - [SuplExample]: a scripted connection and messages, with the theorems applied to them.

    ** What the theorems show

    - Receiver control: with more satellites than free channels for each kind of signal no
      sequence of inputs makes the receiver fail, and no satellite is lost; the view of the
      flow graph and the states of the channels agree up to the events under way, if commands
      come one at a time; channels do not share a signal once each has taken its own; idle
      channels are put to work; the channel's machine implements its transition table; the
      order of the lists. With too few satellites, right after the start, or with two
      commands at once these guarantees are lost, by concrete runs.
    - Bits: bit fields written are read back and nothing else changes; shifts and
      copies act on the buffer as one bit string.
    - CRC: the table-driven routine is the bit-serial shift register; every burst of up
      to 24 bits is detected; the bit-aligned variant covers exactly the given bits.
    - Viterbi: the 32-bit metrics are those of the unbounded recurrence up to an offset,
      the path traced back from a state is a maximum-likelihood path into it, and
      encoding then decoding is the identity.
    - CNAV: from initialisation, any symbol sequence is processed without an access out
      of range and without an endless loop, what is delivered has a zero CRC; the lock
      state machine and the preamble search equal their abstract descriptions; a whole
      sample transmission is decoded. Both blocks publish exactly what a machine on messages
      does for the messages that the decoder delivered to them, in any order of symbols and
      calls (L2C: up to 2^25 calls); messages 10 and 11 of one reference time publish an
      ephemeris with the transmitted numbers, whether or not clock data have come; an L5
      message whose time does not fit costs one message of outputs, as at the end of the week.
    - GPS: the parity check is the table of the document; what a transmitter sends is decoded
      to what it sent, in either phase of the carrier loop, and up to three wrong bits in a
      word are noticed; the published ephemeris has the transmitted numbers; a decoder in
      lock stamps every symbol right for as long as subframes follow; no input makes it fail.
      Where it goes wrong is stated too: at the end of the week, when it starts on a
      subframe, with issues of data above 255, in two fields of subframe 2.
    - GLONASS: the block in lock does one step of a machine on strings for every 2000 symbols, and
      two time marks bring lock; a string is recovered in either phase; one or two wrong bits
      do not change what is decoded; strings 1 to 5 publish an ephemeris with the transmitted
      numbers; the arrays of the almanac are safe for slots 1 to 23. Where it goes wrong:
      the time in the last seconds of a day, slot 24 of the almanac, unknown slot numbers,
      ephemerides put together from two transmissions.
    - RTCM: every ephemeris that the GPS decoder publishes is read back from its message to the
      last bit, unless a rate is negative that the code converts to an unsigned number; a
      position is read to a tenth of a millimetre and does not change any more; frames with
      damage within 24 bits are rejected; the masks of a multiple signal message name exactly the
      data that follow, satellite by satellite, and cell by cell if no satellite has two signals
      or the sort is stable; lock time indicators are those
      of their tables. For Galileo and GLONASS ephemerides the theorems say which fields come
      back and how the others change; GLONASS cells are never announced.
    - PER: every primitive of the codec reads back what it wrote at any position of the
      streams, whatever follows; complete encodings succeed exactly when they fit; a
      growing output block is never overrun.
    - ASN.1 types: a descriptor whose table passes the check implements its type; any octets
      are decoded or rejected as ULP and RRLP messages without an access out of range, what
      is accepted is well typed; messages within their constraints survive encoding and
      decoding ([value_check]; left out are extension additions with an empty code and
      alternatives outside the root of a CHOICE, which the codec does not carry); a message cut short makes the decoder ask for more, and what follows a
      message does not change it. What is done with unknown extensions, with extensions without contents and
      with truth values is stated as it is.
    - SUPL, with the generated codecs: an encoded message carries its own size; messages cut
      into records are reassembled; a session with a server that follows the protocol returns 0 with
      the assistance data of all messages, in order, after sending exactly the
      prescribed messages; a collected message has the effect of an abstract
      specification; the messages of the client are valid for the ULP tables.
    - Some theorems state defects: what the code does where it does not do what its
      comments or its counterpart say. They are named in the manifest's findings.

    ** Bounds and fuel

    Loops over arrays recurse on their length. The retry loop of the CNAV framer has
    two steps more than there are collected bits, since each retry drops at least one;
    that it ends is a theorem. [per_get_few_bits] and
    [per_put_few_bits] call themselves at most once more (fuel 1), numbers of up to 64
    bits are read and written in at most three parts (fuel 2), the loops over bit
    strings and fragments get one step per bit or octet. The decoders of fragments, of
    unknown extensions and of their map have one step more than there are bits, since each
    round takes one; that this is enough on any input is part of [implements]. The reading
    loop of a ULP message has one step per octet of the buffer. [supl_get_assist] takes a
    bound on the number of SUPLPOS messages, since the code sets none; its theorem holds for
    every bound above the number the server sends. Nothing of the GPS and GLONASS telemetry decoders needs fuel; the packing
    of bits into octets has one step per bit. Work conservation takes one iteration of
    the control loop per message in the queue and one more.

    Conditions of the receiver theorems: [enough_satellites] (more satellites than free
    channels, for each kind of signal), [distinct_signals] (no satellite twice on the list of
    a kind of signal), fewer than 2^32 channels, and, where named, commands sent one at a time.
    Contents of memory that the code reads before writing it are parameters: [er], the result
    of [BOOLEAN_encode_uper], which has to be other than -1 for an encoder to work, and [tmp],
    the scratch space of the encoder.

    ** Not modelled

    Of the receiver: connecting and configuring the blocks, the FPGA variant with its
    detached threads, the choice of visible satellites (floating point), assistance from
    files and from the SUPL client, the parsing of telecommands, and all signal processing
    (sources, conditioning, acquisition, tracking, the telemetry decoders of Galileo,
    BeiDou and SBAS, the other methods of the GLONASS ephemeris, PVT, RTKLIB, the volk_gnsssdr
    kernels), the other messages of [rtcm.cc] and its server, dump files and vendored code.
    Orbit and clock models (floating point). Of the ASN.1 runtime: BER, DER, XER, printing,
    constraint checkers, [uper_open_type_get_complex], which is not called, and the limit on
    the stack; what the decoder of a simple type leaves when it fails. Memory allocation
    succeeds, and releasing memory and debug output are left out.

    ** Plan

    Next: the navigation messages of Galileo and BeiDou, the clock of the GLONASS block on
    any input, the telecommand interface ([tcp_cmd_interface.cc]) and the rest of the RTCM messages. *)
From Stdlib Require Export ZArith Lia.
From stdpp Require Export base numbers list option.

(** Byte buffers and bit strings are in [Z_scope] by default. *)
#[global] Open Scope Z_scope.

(** ** Machine integers *)

(** [uwrap w z] is [z] reduced to an unsigned [w]-bit integer. *)
Definition uwrap (w z : Z) : Z := z mod 2 ^ w.

(** [swrap w z] is [z] reduced to a two's complement [w]-bit integer. *)
Definition swrap (w z : Z) : Z := (z + 2 ^ (w - 1)) mod 2 ^ w - 2 ^ (w - 1).

Abbreviation u8 := (uwrap 8).
Abbreviation u16 := (uwrap 16).
Abbreviation u32 := (uwrap 32).
Abbreviation u64 := (uwrap 64).
Abbreviation i32 := (swrap 32).
Abbreviation i64 := (swrap 64).

(** ** Memory accesses

    Arrays are lists; an access outside the array is undefined behaviour in
    C and [None] here, so that a theorem concluding [Some] includes memory
    safety. *)
Definition rd {A} (buf : list A) (i : Z) : option A :=
  if decide (0 <= i) then buf !! Z.to_nat i else None.

Definition wr {A} (buf : list A) (i : Z) (v : A) : option (list A) :=
  if decide (0 <= i < Z.of_nat (length buf))
  then Some (<[Z.to_nat i := v]> buf) else None.

(** [for_loop n i body s] runs [body i], [body (i+1)], ..., [n] times. *)
Fixpoint for_loop {S} (n : nat) (i : Z) (body : Z -> S -> option S) (s : S)
  : option S :=
  match n with
  | O => Some s
  | S n' => s' ← body i s; for_loop n' (i + 1) body s'
  end.

(** Checked C arithmetic: a shift count outside [0, w) and a signed result
    outside the type are undefined behaviour. *)
Definition shl_u32 (x n : Z) : option Z :=
  if decide (0 <= n < 32) then Some (u32 (Z.shiftl x n)) else None.

Definition chk_i32 (z : Z) : option Z :=
  if decide (- 2 ^ 31 <= z < 2 ^ 31) then Some z else None.

(** ** Bit strings, most significant bit first *)

Fixpoint val_bits (n : nat) (v : Z) : list bool :=
  match n with
  | O => []
  | S n' => Z.testbit v (Z.of_nat n') :: val_bits n' v
  end.

Definition bits_val (l : list bool) : Z :=
  fold_left (fun acc b => 2 * acc + Z.b2z b) l 0.

Definition byte_bits (b : Z) : list bool := val_bits 8 b.

Definition bitlist (buf : list Z) : list bool := mbind byte_bits buf.

(** [splice l pos m] is [l] with the elements from [pos] on replaced by [m]. *)
Definition splice {A} (l : list A) (pos : nat) (m : list A) : list A :=
  take pos l ++ m ++ drop (pos + length m) l.

(** [signed_val l] reads a bit string as a two's complement number. *)
Definition signed_val (l : list bool) : Z :=
  match l with
  | true :: _ => bits_val l - 2 ^ Z.of_nat (length l)
  | _ => bits_val l
  end.

(** Parity and number of the set bits of a bit string. *)
Definition bits_parity (l : list bool) : bool := foldr xorb false l.
Definition bits_count (l : list bool) : Z := foldr (fun b n => Z.b2z b + n) 0 l.

Definition is_byte (b : Z) : Prop := 0 <= b < 256.

Abbreviation bytes := (Forall is_byte).

#[global] Instance is_byte_dec b : Decision (is_byte b).
Proof. unfold is_byte. apply _. Defined.

(** ** Generic lemmas *)

Create HintDb gnss.

Lemma uwrap_range w z : 0 <= w -> 0 <= uwrap w z < 2 ^ w.
Proof. intros. apply Z.mod_pos_bound. lia. Qed.

Lemma uwrap_small w z : 0 <= z < 2 ^ w -> uwrap w z = z.
Proof. intros. by apply Z.mod_small. Qed.

Lemma swrap_small w z : - 2 ^ (w - 1) <= z < 2 ^ (w - 1) -> 1 <= w -> swrap w z = z.
Proof.
  intros H Hw. unfold swrap. rewrite Z.mod_small; [lia|].
  replace (2 ^ w) with (2 * 2 ^ (w - 1)); [lia|].
  rewrite <- Z.pow_succ_r by lia. f_equal. lia.
Qed.

Lemma uwrap_add_l w x y : 0 <= w -> uwrap w (uwrap w x + y) = uwrap w (x + y).
Proof. intros. unfold uwrap. rewrite Z.add_mod_idemp_l; lia. Qed.

Lemma uwrap_sub_l w x y : 0 <= w -> uwrap w (uwrap w x - y) = uwrap w (x - y).
Proof. intros. unfold uwrap. rewrite Zminus_mod_idemp_l; lia. Qed.

Lemma uwrap_shiftl w x n :
  0 <= w -> 0 <= n -> uwrap w (Z.shiftl (uwrap w x) n) = uwrap w (Z.shiftl x n).
Proof.
  intros. unfold uwrap. rewrite !Z.shiftl_mul_pow2, Z.mul_mod_idemp_l by lia. done.
Qed.

Lemma testbit_uwrap w z k :
  0 <= w -> Z.testbit (uwrap w z) k = (k <? w) && Z.testbit z k.
Proof.
  intros Hw. unfold uwrap. destruct (Z.ltb_spec k w).
  - destruct (decide (0 <= k)).
    + by rewrite Z.mod_pow2_bits_low.
    + by rewrite !Z.testbit_neg_r by lia.
  - by rewrite Z.mod_pow2_bits_high by lia.
Qed.

Lemma testbit_above w z k : 0 <= z < 2 ^ w -> w <= k -> Z.testbit z k = false.
Proof.
  intros Hz Hk. destruct (decide (0 <= w)).
  - rewrite <- (Z.mod_small z (2 ^ w)) by done. apply Z.mod_pow2_bits_high. lia.
  - rewrite Z.pow_neg_r in Hz by lia. lia.
Qed.

Lemma rd_Some {A} (buf : list A) i x :
  rd buf i = Some x <-> 0 <= i /\ buf !! Z.to_nat i = Some x.
Proof. unfold rd. case_decide; naive_solver. Qed.

Lemma rd_in {A} (buf : list A) i :
  0 <= i < Z.of_nat (length buf) -> is_Some (rd buf i).
Proof.
  intros. unfold rd. rewrite decide_True by lia. apply lookup_lt_is_Some. lia.
Qed.

Lemma rd_nonneg {A} (buf : list A) i : 0 <= i -> rd buf i = buf !! Z.to_nat i.
Proof. intros. unfold rd. by rewrite decide_True. Qed.

Lemma rd_nat {A} (buf : list A) (i : nat) : rd buf (Z.of_nat i) = buf !! i.
Proof. rewrite rd_nonneg by lia. by rewrite Nat2Z.id. Qed.

Lemma wr_in {A} (buf : list A) i v :
  0 <= i < Z.of_nat (length buf) -> wr buf i v = Some (<[Z.to_nat i := v]> buf).
Proof. intros. unfold wr. by rewrite decide_True. Qed.

Lemma wr_Some {A} (buf buf' : list A) i v :
  wr buf i v = Some buf' <->
  0 <= i < Z.of_nat (length buf) /\ buf' = <[Z.to_nat i := v]> buf.
Proof. unfold wr. case_decide; naive_solver. Qed.

(** Invariant rule for [for_loop]: the loop returns, and the invariant holds. *)
Lemma for_loop_inv {S} (I : Z -> S -> Prop) n i body s :
  I i s ->
  (forall j s, i <= j < i + Z.of_nat n -> I j s ->
     exists s', body j s = Some s' /\ I (j + 1) s') ->
  exists s', for_loop n i body s = Some s' /\ I (i + Z.of_nat n) s'.
Proof.
  revert i s. induction n as [|n IH]; intros i s Hi Hstep; simpl.
  - exists s. split; [done|]. by replace (i + Z.of_nat 0) with i by lia.
  - destruct (Hstep i s) as (s1 & Hs1 & HI1); [lia|done|].
    rewrite Hs1. simpl.
    destruct (IH (i + 1) s1) as (s2 & Hs2 & HI2).
    + done.
    + intros j s' Hj. apply Hstep. lia.
    + exists s2. split; [done|].
      by replace (i + Z.of_nat (Datatypes.S n)) with (i + 1 + Z.of_nat n) by lia.
Qed.

Lemma length_val_bits n v : length (val_bits n v) = n.
Proof. induction n; simpl; auto. Qed.

Lemma lookup_val_bits n v k :
  val_bits n v !! k =
  if decide (k < n)%nat then Some (Z.testbit v (Z.of_nat n - 1 - Z.of_nat k)) else None.
Proof.
  revert k. induction n as [|n IH]; intros k; cbn [val_bits].
  - by rewrite decide_False by lia.
  - destruct k as [|k]; cbn [lookup list_lookup].
    + rewrite decide_True by lia. do 2 f_equal. lia.
    + rewrite IH. do 2 case_decide; try lia; [|done]. do 2 f_equal. lia.
Qed.

Lemma bits_val_fold l a :
  fold_left (fun acc b => 2 * acc + Z.b2z b) l a = a * 2 ^ Z.of_nat (length l) + bits_val l.
Proof.
  unfold bits_val. revert a. induction l as [|b l IH]; intros a; [simpl; lia|].
  cbn [fold_left length]. rewrite IH, (IH (2 * 0 + _)), Nat2Z.inj_succ, Z.pow_succ_r by lia. lia.
Qed.

Lemma bits_val_app l1 l2 :
  bits_val (l1 ++ l2) = bits_val l1 * 2 ^ Z.of_nat (length l2) + bits_val l2.
Proof. unfold bits_val at 1. rewrite fold_left_app. apply bits_val_fold. Qed.

Lemma bits_val_cons b l :
  bits_val (b :: l) = Z.b2z b * 2 ^ Z.of_nat (length l) + bits_val l.
Proof. change (b :: l) with ([b] ++ l). rewrite bits_val_app. f_equal. Qed.

Lemma bits_val_range l : 0 <= bits_val l < 2 ^ Z.of_nat (length l).
Proof.
  induction l as [|b l IH]; [done|].
  rewrite bits_val_cons. cbn [length]. rewrite Nat2Z.inj_succ, Z.pow_succ_r by lia.
  destruct b; simpl; lia.
Qed.

Lemma bits_val_val_bits n v : bits_val (val_bits n v) = v mod 2 ^ Z.of_nat n.
Proof.
  induction n as [|n IH]; [by rewrite Z.mod_1_r|].
  cbn [val_bits]. rewrite bits_val_cons, IH, length_val_bits.
  rewrite Nat2Z.inj_succ, Z.pow_succ_r, (Z.mul_comm 2), Z.rem_mul_r by lia.
  rewrite Z.testbit_spec' by lia. lia.
Qed.

Lemma testbit_b2z_shift b n x k :
  0 <= k -> 0 <= x < 2 ^ n -> 0 <= n ->
  Z.testbit (Z.b2z b * 2 ^ n + x) k = if decide (k = n) then b else Z.testbit x k.
Proof.
  intros Hk Hx Hn.
  replace (Z.b2z b * 2 ^ n + x) with (Z.lor (Z.shiftl (Z.b2z b) n) x).
  - rewrite Z.lor_spec, Z.shiftl_spec by lia. case_decide.
    + subst. rewrite Z.sub_diag, Z.b2z_bit0, (testbit_above n) by lia. by destruct b.
    + destruct (decide (k < n)).
      * by rewrite Z.testbit_neg_r by lia.
      * rewrite (testbit_above 1), (testbit_above n x) by (destruct b; simpl; lia). done.
  - rewrite <- Z.shiftl_mul_pow2 by lia.
    rewrite <- Z.lxor_lor, Z.add_nocarry_lxor.
    + done.
    + apply Z.bits_inj'. intros j Hj. rewrite Z.land_spec, Z.shiftl_spec, Z.bits_0 by lia.
      destruct (decide (j < n)); [by rewrite Z.testbit_neg_r by lia|].
      rewrite (testbit_above n x) by lia. apply andb_false_r.
    + apply Z.bits_inj'. intros j Hj. rewrite Z.land_spec, Z.shiftl_spec, Z.bits_0 by lia.
      destruct (decide (j < n)); [by rewrite Z.testbit_neg_r by lia|].
      rewrite (testbit_above n x) by lia. apply andb_false_r.
Qed.

Lemma val_bits_bits_val l : val_bits (length l) (bits_val l) = l.
Proof.
  apply list_eq. intros k. rewrite lookup_val_bits.
  case_decide as Hk; [|symmetry; apply lookup_ge_None; lia].
  revert k Hk. induction l as [|b l IH]; intros k Hk; [simpl in Hk; lia|].
  rewrite bits_val_cons. cbn [length] in *.
  pose proof (bits_val_range l).
  rewrite testbit_b2z_shift by lia.
  destruct k as [|k]; simpl.
  - rewrite decide_True by lia. done.
  - rewrite decide_False by lia. rewrite <- IH by lia. do 2 f_equal. lia.
Qed.

Lemma val_bits_inj n v1 v2 :
  0 <= v1 < 2 ^ Z.of_nat n -> 0 <= v2 < 2 ^ Z.of_nat n ->
  val_bits n v1 = val_bits n v2 -> v1 = v2.
Proof.
  intros H1 H2 E. apply (f_equal bits_val) in E.
  rewrite !bits_val_val_bits, !Z.mod_small in E; done.
Qed.

Lemma val_bits_mod n v : val_bits n (v mod 2 ^ Z.of_nat n) = val_bits n v.
Proof.
  apply list_eq. intros k. rewrite !lookup_val_bits. case_decide; [|done].
  by rewrite Z.mod_pow2_bits_low by lia.
Qed.

Lemma val_bits_app n m v :
  val_bits (n + m) v = val_bits n (Z.shiftr v (Z.of_nat m)) ++ val_bits m v.
Proof.
  induction n as [|n IH]; [done|]. cbn [val_bits Nat.add app].
  rewrite IH, Z.shiftr_spec by lia. do 2 f_equal. lia.
Qed.

Lemma bitlist_cons b buf : bitlist (b :: buf) = byte_bits b ++ bitlist buf.
Proof. done. Qed.

Lemma length_bitlist buf : length (bitlist buf) = (8 * length buf)%nat.
Proof.
  induction buf as [|b buf IH]; [done|].
  rewrite bitlist_cons, length_app, IH. cbn [length byte_bits val_bits]. lia.
Qed.

Lemma bitlist_app l1 l2 : bitlist (l1 ++ l2) = bitlist l1 ++ bitlist l2.
Proof. apply bind_app. Qed.

Lemma lookup_byte_bits b k :
  byte_bits b !! k = if decide (k < 8)%nat then Some (Z.testbit b (7 - Z.of_nat k)) else None.
Proof. unfold byte_bits. rewrite lookup_val_bits. case_decide; [|done]. do 2 f_equal. Qed.

Lemma lookup_bitlist buf k :
  bitlist buf !! k =
  (fun b => Z.testbit b (7 - Z.of_nat k mod 8)) <$> buf !! (k / 8)%nat.
Proof.
  revert k. induction buf as [|b buf IH]; intros k; [done|].
  rewrite bitlist_cons. destruct (decide (k < 8)%nat).
  - rewrite lookup_app_l by (cbn; lia).
    rewrite lookup_byte_bits, decide_True by done.
    rewrite Nat.div_small by done. simpl. do 2 f_equal. rewrite Z.mod_small; lia.
  - rewrite lookup_app_r by (cbn; lia). cbn [length byte_bits val_bits].
    rewrite IH. replace (k / 8)%nat with (S ((k - 8) / 8)).
    + simpl. do 3 f_equal. rewrite Nat2Z.inj_sub by lia.
      replace (Z.of_nat k - Z.of_nat 8) with (Z.of_nat k + (-1) * 8) by lia.
      by rewrite Z.mod_add by lia.
    + replace k with ((k - 8) + 1 * 8)%nat at 2 by lia. rewrite Nat.div_add by lia. lia.
Qed.

Lemma lookup_bitlist_at buf n t :
  (t < 8)%nat ->
  bitlist buf !! (8 * n + t)%nat = (fun b => Z.testbit b (7 - Z.of_nat t)) <$> buf !! n.
Proof.
  intros Ht. rewrite lookup_bitlist, (Nat.mul_comm 8), Nat.div_add_l by lia.
  rewrite (Nat.div_small t), Nat.add_0_r by lia.
  replace (Z.of_nat (n * 8 + t) mod 8) with (Z.of_nat t); [done|].
  rewrite Nat2Z.inj_add, Nat2Z.inj_mul, Z.add_comm, Z.mod_add, Z.mod_small by lia. done.
Qed.

Lemma lookup_bitlist_insert buf i v k :
  (i < length buf)%nat ->
  bitlist (<[i := v]> buf) !! k =
  if decide (k / 8 = i)%nat then Some (Z.testbit v (7 - Z.of_nat k mod 8))
  else bitlist buf !! k.
Proof.
  intros Hi. rewrite !lookup_bitlist. case_decide as Hk.
  - subst. by rewrite list_lookup_insert_eq.
  - by rewrite list_lookup_insert_ne.
Qed.

Lemma bitlist_inj l1 l2 : bytes l1 -> bytes l2 -> bitlist l1 = bitlist l2 -> l1 = l2.
Proof.
  intros H1. revert l2. induction H1 as [|b1 l1 Hb1 H1 IH]; intros l2 H2 E.
  - destruct H2; [done|]. apply (f_equal length) in E. by rewrite !length_bitlist in E.
  - destruct H2 as [|b2 l2 Hb2 H2]; [apply (f_equal length) in E; by rewrite !length_bitlist in E|].
    rewrite !bitlist_cons in E. apply app_inj_1 in E; [|done]. destruct E as [E1 E2].
    f_equal; [|by apply IH]. exact (val_bits_inj 8 b1 b2 Hb1 Hb2 E1).
Qed.

Lemma bitlist_take n buf : bitlist (take n buf) = take (8 * n) (bitlist buf).
Proof.
  revert n. induction buf as [|b buf IH]; intros n; [by destruct n|].
  destruct n as [|n]; [done|]. cbn [take]. rewrite !bitlist_cons, IH.
  replace (8 * S n)%nat with (length (byte_bits b) + 8 * n)%nat by (cbn; lia).
  by rewrite take_app_add.
Qed.

Lemma bitlist_drop n buf : bitlist (drop n buf) = drop (8 * n) (bitlist buf).
Proof.
  revert n. induction buf as [|b buf IH]; intros n; [by destruct n|].
  destruct n as [|n]; [done|]. cbn [drop]. rewrite !bitlist_cons, IH.
  replace (8 * S n)%nat with (length (byte_bits b) + 8 * n)%nat by (cbn; lia).
  by rewrite drop_app_add.
Qed.

Lemma bitlist_replicate_0 n : bitlist (replicate n 0) = replicate (8 * n) false.
Proof.
  induction n as [|n IH]; [done|].
  cbn [replicate]. rewrite bitlist_cons, IH.
  replace (8 * S n)%nat with (8 + 8 * n)%nat by lia. by rewrite replicate_add.
Qed.

Lemma bytes_insert buf i v : bytes buf -> is_byte v -> bytes (<[i := v]> buf).
Proof. apply Forall_insert. Qed.

Lemma bytes_lookup buf i b : bytes buf -> buf !! i = Some b -> is_byte b.
Proof. intros. by eapply Forall_lookup_1. Qed.

Lemma bytes_replicate n b : is_byte b -> bytes (replicate n b).
Proof. intros. by apply Forall_replicate. Qed.

Lemma u8_byte z : is_byte (u8 z).
Proof. apply (uwrap_range 8). lia. Qed.

#[export] Hint Resolve bytes_insert bytes_replicate u8_byte : gnss.
#[export] Hint Resolve Forall_take Forall_drop Forall_app_2 : gnss.

(** Rewriting of [Z.testbit] through the bit operations. *)
#[export] Hint Rewrite Z.land_spec Z.lor_spec Z.lxor_spec Z.ldiff_spec Z.bits_0 : tb.
#[export] Hint Rewrite Z.shiftr_spec Z.shiftl_spec Z.lnot_spec testbit_uwrap using lia : tb.

(** [zbits k] proves an equation between integers bit by bit. *)
Ltac zbits k :=
  apply Z.bits_inj'; intros k ?Hk; autorewrite with tb.

Lemma length_splice {A} (l : list A) pos m :
  (pos + length m <= length l)%nat -> length (splice l pos m) = length l.
Proof. intros. unfold splice. rewrite !length_app, length_take, length_drop. lia. Qed.

Lemma lookup_splice {A} (l : list A) pos m k :
  (pos + length m <= length l)%nat ->
  splice l pos m !! k =
  if decide (pos <= k < pos + length m)%nat then m !! (k - pos)%nat else l !! k.
Proof.
  intros Hl. unfold splice. destruct (decide (k < pos)%nat).
  - rewrite decide_False, lookup_app_l, lookup_take_lt by (rewrite ?length_take; lia). done.
  - rewrite lookup_app_r, length_take, Nat.min_l by (rewrite ?length_take; lia).
    case_decide.
    + by rewrite lookup_app_l by lia.
    + rewrite lookup_app_r, lookup_drop by lia. f_equal. lia.
Qed.

Lemma take_splice {A} (l : list A) pos m :
  (pos + length m <= length l)%nat -> take (length m) (drop pos (splice l pos m)) = m.
Proof.
  intros. unfold splice. rewrite drop_app_length' by (rewrite length_take; lia).
  apply take_app_length.
Qed.

(** Setting or flipping one bit of an integer. *)
Lemma lxor_pow2 v k :
  0 <= k -> Z.lxor v (2 ^ k) = if Z.testbit v k then v - 2 ^ k else v + 2 ^ k.
Proof.
  intros Hk.
  assert (Hno : forall w, Z.testbit w k = false -> w + 2 ^ k = Z.lxor w (2 ^ k)).
  { intros w Hw. apply Z.add_nocarry_lxor, Z.bits_inj'. intros j Hj.
    rewrite Z.land_spec, Z.pow2_bits_eqb, Z.bits_0 by lia.
    destruct (Z.eqb_spec k j); [subst; by rewrite Hw|apply andb_false_r]. }
  destruct (Z.testbit v k) eqn:Hv; [|by rewrite Hno].
  cut (Z.lxor v (2 ^ k) + 2 ^ k = v); [lia|].
  rewrite Hno; [by rewrite Z.lxor_assoc, Z.lxor_nilpotent, Z.lxor_0_r|].
  by rewrite Z.lxor_spec, Hv, Z.pow2_bits_true.
Qed.

(** The same with the sign bit of a [w+1]-bit two's complement number. *)
Lemma lxor_sign w x :
  0 <= w -> - 2 ^ w <= x < 2 ^ w ->
  Z.lxor x (- 2 ^ w) = if decide (x < 0) then x + 2 ^ w else x - 2 ^ w.
Proof.
  intros Hw Hx.
  assert (Hno : forall y, 0 <= y < 2 ^ w -> y - 2 ^ w = Z.lxor y (- 2 ^ w)).
  { intros y Hy. replace (y - 2 ^ w) with (y + - 2 ^ w) by lia.
    apply Z.add_nocarry_lxor, Z.bits_inj'. intros j Hj.
    replace (- 2 ^ w) with (Z.shiftl (-1) w) by (rewrite Z.shiftl_mul_pow2; lia).
    rewrite Z.land_spec, Z.shiftl_spec, Z.bits_0 by lia.
    destruct (decide (j < w)); [by rewrite (Z.testbit_neg_r _ (j - w)), andb_false_r by lia|].
    by rewrite (testbit_above w y) by lia. }
  case_decide; [|by rewrite Hno by lia].
  replace x with (Z.lxor (x + 2 ^ w) (- 2 ^ w)) at 1.
  - by rewrite Z.lxor_assoc, Z.lxor_nilpotent, Z.lxor_0_r.
  - rewrite <- Hno by lia. lia.
Qed.

Lemma splice_nil {A} (l : list A) pos : splice l pos [] = l.
Proof. unfold splice. cbn [length app]. rewrite Nat.add_0_r. apply take_drop. Qed.

Lemma splice_splice {A} (l : list A) pos m1 m2 :
  (pos + length m1 + length m2 <= length l)%nat ->
  splice (splice l pos m1) (pos + length m1) m2 = splice l pos (m1 ++ m2).
Proof.
  intros Hl. apply list_eq. intros k.
  rewrite !lookup_splice by (rewrite ?length_splice, ?length_app; lia).
  rewrite length_app. repeat case_decide; try lia; try done.
  - rewrite lookup_app_r by lia. f_equal. lia.
  - rewrite lookup_app_l by lia. done.
Qed.

Lemma bits_parity_app l1 l2 : bits_parity (l1 ++ l2) = xorb (bits_parity l1) (bits_parity l2).
Proof.
  induction l1 as [|b l1 IH]; [symmetry; apply xorb_false_l|].
  cbn. fold (bits_parity (l1 ++ l2)). by rewrite IH, xorb_assoc.
Qed.

Lemma bits_count_app l1 l2 : bits_count (l1 ++ l2) = bits_count l1 + bits_count l2.
Proof.
  induction l1 as [|b l1 IH]; [done|]. cbn. fold (bits_count (l1 ++ l2)). rewrite IH.
  unfold bits_count. lia.
Qed.

Lemma bits_count_range l : 0 <= bits_count l <= Z.of_nat (length l).
Proof. induction l as [|[] l IH]; cbn [bits_count foldr length Z.b2z] in *; [done|..]; unfold bits_count in IH; lia. Qed.

Lemma bits_parity_lxor n a b :
  bits_parity (val_bits n (Z.lxor a b)) =
  xorb (bits_parity (val_bits n a)) (bits_parity (val_bits n b)).
Proof.
  induction n as [|n IH]; [done|]. cbn.
  fold (bits_parity (val_bits n (Z.lxor a b))) (bits_parity (val_bits n a)) (bits_parity (val_bits n b)).
  rewrite IH, Z.lxor_spec.
  destruct (Z.testbit a _), (Z.testbit b _), (bits_parity (val_bits n a)), (bits_parity (val_bits n b)); done.
Qed.

(** Folding the upper half of a word onto the lower half keeps the parity. *)
Lemma bits_parity_fold n x :
  bits_parity (val_bits n (Z.lxor x (Z.shiftr x (Z.of_nat n)))) = bits_parity (val_bits (n + n) x).
Proof. by rewrite val_bits_app, bits_parity_app, bits_parity_lxor, xorb_comm. Qed.

Lemma val_bits_land_ones n x : val_bits n (Z.land x (Z.ones (Z.of_nat n))) = val_bits n x.
Proof. rewrite Z.land_ones by lia. apply val_bits_mod. Qed.

(** Case analysis on the values of a small range. *)
Lemma Z_small_cases (P : Z -> Prop) (n : nat) :
  Forall P (Z.of_nat <$> seq 0 n) -> forall x, 0 <= x < Z.of_nat n -> P x.
Proof.
  intros H x Hx. rewrite Forall_fmap, Forall_forall in H.
  rewrite <- (Z2Nat.id x) by lia. apply H. apply in_seq. lia.
Qed.

Lemma lookup_field {A} (l : list A) pos n k :
  take n (drop pos l) !! k = if decide (k < n)%nat then l !! (pos + k)%nat else None.
Proof.
  case_decide.
  - by rewrite lookup_take_lt, lookup_drop.
  - apply lookup_ge_None. rewrite length_take. lia.
Qed.

Lemma splice_disjoint {A} (l : list A) pos m pos' n :
  (pos + length m <= length l)%nat ->
  (pos' + n <= pos \/ pos + length m <= pos')%nat ->
  take n (drop pos' (splice l pos m)) = take n (drop pos' l).
Proof.
  intros Hl Hd. apply list_eq. intros k. rewrite !lookup_field. case_decide; [|done].
  rewrite lookup_splice, decide_False by lia. done.
Qed.

Lemma uwrap_lxor w a b : 0 <= w -> uwrap w (Z.lxor a b) = Z.lxor (uwrap w a) (uwrap w b).
Proof. intros. zbits k. destruct (k <? w); [done|by rewrite xorb_false_r]. Qed.

Lemma lxor_range w a b :
  0 <= a < 2 ^ w -> 0 <= b < 2 ^ w -> 0 <= Z.lxor a b < 2 ^ w.
Proof.
  intros Ha Hb. destruct (decide (0 <= w)) as [Hw|Hw].
  - rewrite <- (uwrap_small w a), <- (uwrap_small w b), <- uwrap_lxor by done.
    by apply uwrap_range.
  - rewrite Z.pow_neg_r in Ha by lia. lia.
Qed.

(** [lor] of disjoint parts as [lxor] and as a sum. *)
Lemma lxor_shiftl_add a n x :
  0 <= n -> 0 <= x < 2 ^ n -> Z.lxor (Z.shiftl a n) x = Z.shiftl a n + x.
Proof.
  intros Hn Hx. symmetry. apply Z.add_nocarry_lxor, Z.bits_inj'. intros j Hj.
  rewrite Z.land_spec, Z.shiftl_spec, Z.bits_0 by lia.
  destruct (decide (j < n)); [by rewrite Z.testbit_neg_r by lia|].
  rewrite (testbit_above n x) by lia. apply andb_false_r.
Qed.

(** The parallel parity computation both C files carry. *)
Lemma parity32_bits x0 :
  (let x1 := Z.lxor x0 (Z.shiftr x0 16) in
   let x2 := Z.lxor x1 (Z.shiftr x1 8) in
   let x3 := Z.lxor x2 (Z.shiftr x2 4) in
   let x4 := Z.land x3 15 in
   Z.land (Z.shiftr 0x6996 x4) 1) = Z.b2z (bits_parity (val_bits 32 x0)).
Proof.
  cbv zeta. set (x1 := Z.lxor x0 (Z.shiftr x0 16)).
  set (x2 := Z.lxor x1 (Z.shiftr x1 8)). set (x3 := Z.lxor x2 (Z.shiftr x2 4)).
  change (val_bits 32 x0) with (val_bits (16 + 16) x0). rewrite <- bits_parity_fold.
  change (val_bits 16 _) with (val_bits (8 + 8) x1). rewrite <- bits_parity_fold.
  change (val_bits 8 _) with (val_bits (4 + 4) x2). rewrite <- bits_parity_fold.
  change (Z.lxor x2 _) with x3. rewrite <- (val_bits_land_ones 4).
  change (Z.ones (Z.of_nat 4)) with 15. revert x3. intros x3.
  apply (Z_small_cases (fun y => Z.land (Z.shiftr 0x6996 y) 1 = Z.b2z (bits_parity (val_bits 4 y))) 16).
  - repeat constructor.
  - change 15 with (Z.ones 4). rewrite Z.land_ones by lia. apply Z.mod_pos_bound. lia.
Qed.

Lemma bits_parity_val_0 n : bits_parity (val_bits n 0) = false.
Proof. induction n as [|n IH]; [done|]. cbn. by rewrite Z.bits_0. Qed.

Lemma lxor_255 y : is_byte y -> Z.lxor 255 y = 255 - y.
Proof.
  apply (Z_small_cases (fun y => Z.lxor 255 y = 255 - y) 256).
  apply (bool_decide_unpack _). vm_compute. exact I.
Qed.

Lemma land_range_r w a b : 0 <= w -> 0 <= b < 2 ^ w -> 0 <= Z.land a b < 2 ^ w.
Proof.
  intros Hw Hb. replace (Z.land a b) with (uwrap w (Z.land a b)); [by apply uwrap_range|].
  zbits k. destruct (Z.ltb_spec k w); [done|].
  rewrite (testbit_above w b) by done. by rewrite andb_false_r.
Qed.

Lemma lxor_ones n a : 0 <= n -> 0 <= a < 2 ^ n -> Z.lxor a (Z.ones n) = Z.ones n - a.
Proof.
  intros Hn Ha. assert (Z.ldiff a (Z.ones n) = 0) as Hd.
  { rewrite Z.ldiff_ones_r by lia. rewrite Z.shiftr_div_pow2, Z.div_small by lia. apply Z.shiftl_0_l. }
  rewrite (Z.sub_nocarry_ldiff _ _ Hd). apply Z.bits_inj'. intros k Hk.
  apply (f_equal (fun z => Z.testbit z k)) in Hd. rewrite Z.ldiff_spec, Z.bits_0 in Hd.
  rewrite Z.lxor_spec, Z.ldiff_spec. by destruct (Z.testbit a k), (Z.testbit (Z.ones n) k).
Qed.

(** Conversions between the two views of a machine integer lose nothing. *)
Lemma uwrap_swrap w z : 0 <= w -> uwrap w (swrap w z) = uwrap w z.
Proof.
  intros Hw. unfold uwrap, swrap. rewrite Zminus_mod_idemp_l. f_equal. lia.
Qed.

Lemma testbit_swrap_low w z k : 0 <= k < w -> Z.testbit (swrap w z) k = Z.testbit z k.
Proof.
  intros Hk. pose proof (f_equal (fun x => Z.testbit x k) (uwrap_swrap w z ltac:(lia))) as E.
  cbn beta in E. rewrite !testbit_uwrap, (proj2 (Z.ltb_lt k w)) in E by lia. done.
Qed.

Lemma lor_shifted a b k : 0 <= k -> 0 <= b < 2 ^ k -> Z.lor (a * 2 ^ k) b = a * 2 ^ k + b.
Proof.
  intros Hk Hb. rewrite <- Z.shiftl_mul_pow2 by done. symmetry. apply Z.add_nocarry_lor, Z.bits_inj'.
  intros j Hj. rewrite Z.land_spec, Z.shiftl_spec, Z.bits_0 by lia.
  destruct (decide (j < k)); [by rewrite Z.testbit_neg_r by lia|].
  rewrite (testbit_above k b) by lia. apply andb_false_r.
Qed.

Lemma signed_val_cons b l :
  signed_val (b :: l) = bits_val l - Z.b2z b * 2 ^ Z.of_nat (length l).
Proof.
  unfold signed_val. rewrite bits_val_cons.
  cbn [length]. rewrite Nat2Z.inj_succ, Z.pow_succ_r by lia. destruct b; simpl; lia.
Qed.
