(* ===== verification/Linear.v ===== *)
(** * Linear maps on bit vectors

    A bit vector of [n] bits is a number below [2 ^ n], and exclusive or is its addition. The
    checks of the navigation messages (parity of GPS words, Hamming code of GLONASS strings,
    BCH code of BeiDou words, cyclic redundancy checks) are linear for it: two of them are
    equal if they agree on the powers of two, and which errors they detect is known from the
    images of the error patterns alone. *)
From S2P Require Import Prelude.

(** [linear f]: [f] commutes with exclusive or. *)
Definition linear (f : Z -> Z) : Prop :=
  forall a b, 0 <= a -> 0 <= b -> f (Z.lxor a b) = Z.lxor (f a) (f b).

(** Number of set bits among the lowest [n]. *)
Definition weight (n : nat) (e : Z) : Z := bits_count (val_bits n e).

(** The vectors of [n] bits of which at most [d] are set. *)
Fixpoint patterns (n d : nat) : list Z :=
  match n with
  | O => [0]
  | S n' => patterns n' d ++ match d with O => [] | S d' => (fun e => Z.lxor (2 ^ Z.of_nat n') e) <$> patterns n' d' end
  end.

(** The highest bit taken off. *)
Lemma lxor_top_bit n w : 0 <= w < 2 ^ Z.of_nat (S n) ->
  exists b w', 0 <= w' < 2 ^ Z.of_nat n /\ w = Z.lxor (if b : bool then 2 ^ Z.of_nat n else 0) w'.
Proof.
  intros Hw. rewrite Nat2Z.inj_succ, Z.pow_succ_r in Hw by lia.
  set (m := 2 ^ Z.of_nat n) in *. destruct (decide (w < m)).
  - exists false, w. rewrite Z.lxor_0_l. split; [lia|done].
  - exists true, (w - m). split; [lia|].
    assert (Z.land m (w - m) = 0) as Hd.
    { apply Z.bits_inj'. intros k Hk. rewrite Z.land_spec, Z.bits_0. unfold m at 1.
      rewrite Z.pow2_bits_eqb by lia. destruct (Z.eqb_spec (Z.of_nat n) k) as [<-|]; [|done].
      rewrite (testbit_above (Z.of_nat n)) by (fold m; lia). done. }
    rewrite <- Z.add_nocarry_lxor by done. lia.
Qed.

Lemma linear_0 f : linear f -> f 0 = 0.
Proof. intros H. specialize (H 0 0 ltac:(lia) ltac:(lia)). by rewrite !Z.lxor_nilpotent in H. Qed.

(** Linear maps that agree on the powers of two agree. *)
Lemma linear_ext n f g w : linear f -> linear g ->
  forallb (fun i => f (2 ^ Z.of_nat i) =? g (2 ^ Z.of_nat i)) (List.seq 0 n) = true ->
  0 <= w < 2 ^ Z.of_nat n -> f w = g w.
Proof.
  intros Hf Hg Hb. assert (forall i, (i < n)%nat -> f (2 ^ Z.of_nat i) = g (2 ^ Z.of_nat i)) as Hi.
  { intros i Hi. apply Z.eqb_eq. apply (proj1 (forallb_forall _ _) Hb). apply in_seq. lia. }
  clear Hb. revert w. induction n as [|n IH]; intros w Hw.
  - replace w with 0 by (simpl in Hw; lia). by rewrite !linear_0.
  - destruct (lxor_top_bit n w Hw) as (b & w' & Hw' & ->).
    rewrite Hf, Hg by (destruct b; lia). f_equal; [|apply IH; auto with lia].
    destruct b; [apply Hi; lia|by rewrite !linear_0].
Qed.

Lemma linear_id : linear (fun w => w).
Proof. done. Qed.

Lemma linear_lxor f g : linear f -> linear g -> linear (fun w => Z.lxor (f w) (g w)).
Proof.
  intros Hf Hg a b Ha Hb. rewrite Hf, Hg by done.
  rewrite !Z.lxor_assoc. f_equal. rewrite <- !Z.lxor_assoc. f_equal. apply Z.lxor_comm.
Qed.

Lemma linear_land f c : linear f -> linear (fun w => Z.land (f w) c).
Proof.
  intros Hf a b Ha Hb. rewrite Hf by done. apply Z.bits_inj'. intros k Hk.
  rewrite !Z.land_spec, !Z.lxor_spec, !Z.land_spec. by destruct (Z.testbit (f a) k), (Z.testbit (f b) k), (Z.testbit c k).
Qed.

Lemma linear_shiftl f n : linear f -> linear (fun w => Z.shiftl (f w) n).
Proof. intros Hf a b Ha Hb. by rewrite Hf, Z.shiftl_lxor by done. Qed.

Lemma linear_shiftr f n : linear f -> linear (fun w => Z.shiftr (f w) n).
Proof. intros Hf a b Ha Hb. by rewrite Hf, Z.shiftr_lxor by done. Qed.

Lemma linear_uwrap f n : 0 <= n -> linear f -> linear (fun w => uwrap n (f w)).
Proof.
  intros Hn Hf a b Ha Hb. rewrite Hf by done. apply Z.bits_inj'. intros k Hk.
  rewrite Z.lxor_spec, !testbit_uwrap, Z.lxor_spec by done. by destruct (k <? n).
Qed.

(** A selected bit, shifted to a place. *)
Lemma linear_bit i : linear (fun w => Z.b2z (Z.testbit w i)).
Proof. intros a b Ha Hb. rewrite Z.lxor_spec. by destruct (Z.testbit a i), (Z.testbit b i). Qed.

Create HintDb linear.
#[export] Hint Resolve linear_id linear_lxor linear_land linear_shiftl linear_shiftr linear_bit : linear.
#[export] Hint Extern 1 (linear (fun _ => uwrap _ _)) => apply linear_uwrap; [lia|] : linear.

(** Every error pattern of at most [d] bits is in the list. *)
Lemma patterns_complete n d e : 0 <= e < 2 ^ Z.of_nat n -> weight n e <= Z.of_nat d -> e ∈ patterns n d.
Proof.
  revert d e. induction n as [|n IH]; intros d e He Hw; cbn [patterns].
  - replace e with 0 by (simpl in He; lia). by left.
  - destruct (lxor_top_bit n e He) as (b & e' & He' & ->). apply elem_of_app.
    assert (val_bits (S n) (Z.lxor (if b then 2 ^ Z.of_nat n else 0) e') = b :: val_bits n e') as Hv.
    { cbn [val_bits]. f_equal.
      - rewrite Z.lxor_spec, (testbit_above (Z.of_nat n) e'), xorb_false_r by lia.
        destruct b; [by rewrite Z.pow2_bits_true by lia|apply Z.bits_0].
      - apply list_eq. intros k. rewrite !lookup_val_bits. case_decide; [|done]. f_equal. rewrite Z.lxor_spec.
        destruct b; [rewrite Z.pow2_bits_false by lia|rewrite Z.bits_0]; apply xorb_false_l. }
    unfold weight in Hw. rewrite Hv in Hw. cbn [bits_count foldr] in Hw. fold (bits_count (val_bits n e')) in Hw.
    destruct b; cbn [Z.b2z] in Hw.
    + right. destruct d as [|d].
      { pose proof (bits_count_range (val_bits n e')). lia. }
      apply list_elem_of_fmap. exists e'. split; [done|]. apply IH; [done|]. unfold weight. lia.
    + left. rewrite Z.lxor_0_l. apply IH; [done|]. unfold weight. lia.
Qed.

(** A property of all error patterns of at most [d] bits, by evaluation. *)
Lemma patterns_check n d (P : Z -> bool) e : forallb P (patterns n d) = true ->
  0 <= e < 2 ^ Z.of_nat n -> weight n e <= Z.of_nat d -> P e = true.
Proof.
  intros H He Hw. apply (proj1 (forallb_forall P _) H). apply list_elem_of_In. by apply patterns_complete.
Qed.
