(* ===== verification/Doubles.v ===== *)
(** * Floating-point numbers

    The [double] and [float] of the code are IEEE 754 binary64 and binary32 numbers, rounded to
    nearest even. The operations are those of the Standard Library's [SpecFloat]: they run, and
    a result is the correctly rounded one. A decimal constant of the source is the double
    nearest to it ([lit]). [is_value x z e] says that [x] is exactly [z * 2 ^ e].

    The constants are those of [core/system_parameters/MATH_CONSTANTS.h]. *)
From S2P Require Import Prelude.
From Stdlib Require Import SpecFloat.

Abbreviation double := spec_float.
Abbreviation float := spec_float.

Definition dbl_zero : double := S754_zero false.
Definition dbl_mul (x y : double) : double := SFmul 53 1024 x y.
Definition dbl_add (x y : double) : double := SFadd 53 1024 x y.
Definition dbl_opp (x : double) : double := SFopp x.

(** Conversion of an integer. *)
Definition dbl_of_Z (z : Z) : double := binary_normalize 53 1024 z 0 false.

(** The decimal number [m * 10 ^ -k] as a constant. *)
Definition lit (m k : Z) : double :=
  if 0 <=? k then
    let '(mz, ez, lz) := SFdiv_core_binary 53 1024 m 0 (10 ^ k) 0 in binary_round_aux 53 1024 false mz ez lz
  else dbl_of_Z (m * 10 ^ (- k)).

(** Conversion of a [double] to [float]. *)
Definition float_of_double (x : double) : float :=
  match x with
  | S754_finite s m e => binary_round 24 128 s m e
  | _ => x
  end.

(** [x > 0] and [x < 0]; both are false for a number that is not a number. *)
Definition gt0 (x : double) : bool := SFltb dbl_zero x.
Definition lt0 (x : double) : bool := SFltb x dbl_zero.

(** Conversion to an integer type, towards zero. *)
Definition Z_of_dbl (x : double) : option Z :=
  match x with
  | S754_zero _ => Some 0
  | S754_finite s m e => Some (cond_Zopp s (if 0 <=? e then Z.pos m * 2 ^ e else Z.pos m / 2 ^ (- e)))
  | _ => None
  end.

(** [x] is [z * 2 ^ e]. *)
Definition is_value (x : double) (z e : Z) : Prop :=
  match x with
  | S754_zero _ => z = 0
  | S754_finite s m ex => cond_Zopp s (Z.pos m) * 2 ^ (ex - Z.min ex e) = z * 2 ^ (e - Z.min ex e)
  | _ => False
  end.

(** ** The constants *)

Definition GNSS_PI : double := lit 31415926535898 13.
Definition TWO_P3 : double := lit 8 0.
Definition TWO_P4 : double := lit 16 0.
Definition TWO_P8 : double := lit 256 0.
Definition TWO_P11 : double := lit 2048 0.
Definition TWO_P12 : double := lit 4096 0.
Definition TWO_P14 : double := lit 16384 0.
Definition TWO_P16 : double := lit 65536 0.
Definition TWO_P19 : double := lit 524288 0.
Definition TWO_P31 : double := lit 2147483648 0.
Definition TWO_P32 : double := lit 4294967296 0.
Definition TWO_P56 : double := lit 7205759403792794 (-1).
Definition TWO_P57 : double := lit 1441151880758559 (-2).
Definition TWO_N2 : double := lit 25 2.
Definition TWO_N5 : double := lit 3125 5.
Definition TWO_N6 : double := lit 15625 6.
Definition TWO_N8 : double := lit 390625 8.
Definition TWO_N9 : double := lit 1953125 9.
Definition TWO_N10 : double := lit 9765625 10.
Definition TWO_N11 : double := lit 48828125 11.
Definition TWO_N14 : double := lit 6103515625 14.
Definition TWO_N15 : double := lit 3051757813 14.
Definition TWO_N16 : double := lit 152587890625 16.
Definition TWO_N17 : double := lit 762939453125 17.
Definition TWO_N18 : double := lit 3814697265625 18.
Definition TWO_N19 : double := lit 19073486328125 19.
Definition TWO_N20 : double := lit 95367431640625 20.
Definition TWO_N21 : double := lit 476837158203125 21.
Definition TWO_N22 : double := lit 2384185791015625 22.
Definition TWO_N23 : double := lit 119209289550781 21.
Definition TWO_N24 : double := lit 5960464477539063 23.
Definition TWO_N25 : double := lit 2980232238769531 23.
Definition TWO_N26 : double := lit 1490116119384765 24.
Definition TWO_N27 : double := lit 7450580596923828 24.
Definition TWO_N29 : double := lit 1862645149230957 24.
Definition TWO_N30 : double := lit 9313225746154785 25.
Definition TWO_N31 : double := lit 4656612873077393 25.
Definition TWO_N32 : double := lit 2328306436538696 25.
Definition TWO_N33 : double := lit 1164153218269348 25.
Definition TWO_N34 : double := lit 582076609134674 25.
Definition TWO_N35 : double := lit 291038304567337 25.
Definition TWO_N38 : double := lit 3637978807091713 27.
Definition TWO_N39 : double := lit 1818989403545856 27.
Definition TWO_N40 : double := lit 909494701772928 27.
Definition TWO_N43 : double := lit 113686837721616 27.
Definition TWO_N44 : double := lit 5684341886080802 29.
Definition TWO_N46 : double := lit 14210854715202 27.
Definition TWO_N48 : double := lit 3552713678800501 30.
Definition TWO_N50 : double := lit 8881784197001252 31.
Definition TWO_N51 : double := lit 444089209850063 30.
Definition TWO_N55 : double := lit 2775557561562891 32.
Definition TWO_N57 : double := lit 6938893903907228 33.
Definition TWO_N59 : double := lit 173472347597681 32.
Definition TWO_N60 : double := lit 8673617379884036 34.
Definition TWO_N66 : double := lit 13552527156068805425093160010874271392822265625 66.
Definition TWO_N68 : double := lit 3388131789017201 36.
Definition PI_TWO_N19 : double := lit 5992112452678286 21.
Definition PI_TWO_N43 : double := lit 3571577341960839 28.
Definition PI_TWO_N31 : double := lit 146291807926716 23.
Definition PI_TWO_N38 : double := lit 1142904749427469 26.
Definition PI_TWO_N23 : double := lit 3745070282923929 22.

(** [x] differs from [2 ^ k] by at most [t] units of [2 ^ (k - 53)]. *)
Definition near_pow2 (x : double) (k t : Z) : bool :=
  match x with
  | S754_finite false m e => (k - 53 <=? e) && (Z.abs (Z.pos m * 2 ^ (e - (k - 53)) - 2 ^ 53) <=? t)
  | _ => false
  end.

(** The constants [TWO_N<k>] and [TWO_P<k>] with the power that their comments give, but for
    two. *)
Definition pow2_constants : list (double * Z) :=
  [(TWO_P3, 3); (TWO_P4, 4); (TWO_P8, 8); (TWO_P11, 11); (TWO_P12, 12); (TWO_P14, 14); (TWO_P16,
   16); (TWO_P19, 19); (TWO_P31, 31); (TWO_P32, 32); (TWO_P56, 56); (TWO_P57, 57); (TWO_N2, -2);
   (TWO_N5, -5); (TWO_N6, -6); (TWO_N8, -8); (TWO_N9, -9); (TWO_N10, -10); (TWO_N11, -11);
   (TWO_N14, -14); (TWO_N16, -16); (TWO_N17, -17); (TWO_N18, -18); (TWO_N19, -19); (TWO_N20, -20);
   (TWO_N21, -21); (TWO_N22, -22); (TWO_N23, -23); (TWO_N24, -24); (TWO_N25, -25); (TWO_N27, -27);
   (TWO_N29, -29); (TWO_N30, -30); (TWO_N31, -31); (TWO_N32, -32); (TWO_N33, -33); (TWO_N34, -34);
   (TWO_N35, -35); (TWO_N38, -38); (TWO_N39, -39); (TWO_N40, -40); (TWO_N43, -43); (TWO_N44, -44);
   (TWO_N46, -46); (TWO_N48, -48); (TWO_N50, -50); (TWO_N51, -51); (TWO_N55, -55); (TWO_N57, -57);
   (TWO_N59, -59); (TWO_N60, -60); (TWO_N66, -66); (TWO_N68, -68)].

(** ** Exact results *)

Lemma digits2_pos_spec m : 2 ^ (Z.pos (digits2_pos m) - 1) <= Z.pos m < 2 ^ Z.pos (digits2_pos m).
Proof.
  induction m as [m IH|m IH|]; cbn [digits2_pos]; [| |simpl; lia];
    rewrite Pos2Z.inj_succ, Z.pow_succ_r in * by lia;
    replace (Z.succ (Z.pos (digits2_pos m)) - 1) with (Z.succ (Z.pos (digits2_pos m) - 1)) by lia;
    rewrite Z.pow_succ_r by lia; lia.
Qed.

Lemma digits2_unique m n : 2 ^ (n - 1) <= Z.pos m < 2 ^ n -> Z.pos (digits2_pos m) = n.
Proof.
  intros H. pose proof (digits2_pos_spec m) as Hd. set (d := Z.pos (digits2_pos m)) in *.
  assert (0 <= n) by (destruct (decide (0 <= n)); [done|]; rewrite (Z.pow_neg_r 2 n) in H by lia; lia).
  destruct (Z.lt_trichotomy d n) as [Hl|[Hl|Hl]]; [|done|].
  - pose proof (Z.pow_le_mono_r 2 d (n - 1) ltac:(lia) ltac:(lia)). lia.
  - pose proof (Z.pow_le_mono_r 2 n (d - 1) ltac:(lia) ltac:(lia)). lia.
Qed.

Lemma iter_pos_nat {A} (f : A -> A) n x : iter_pos f n x = Nat.iter (Pos.to_nat n) f x.
Proof.
  assert (forall a b y, Nat.iter (a + b) f y = Nat.iter a f (Nat.iter b f y)) as Hadd.
  { intros a b y. induction a as [|a IH]; [done|]. cbn [Nat.add Nat.iter nat_rect]. by f_equal. }
  revert x. induction n as [n IH|n IH|]; intros x; cbn [iter_pos]; [| |done].
  - rewrite !IH, Pos2Nat.inj_xI. change (f x) with (Nat.iter 1 f x). rewrite <- !Hadd. f_equal. lia.
  - rewrite !IH, Pos2Nat.inj_xO, <- Hadd. f_equal. lia.
Qed.

Lemma iter_pos_succ {A} (f : A -> A) n x : iter_pos f (Pos.succ n) x = iter_pos f n (f x).
Proof. rewrite !iter_pos_nat, Pos2Nat.inj_succ. symmetry. apply Nat.iter_swap. Qed.

(** Shifting out zeros is exact. *)
Lemma shr_exact m p : iter_pos shr_1 p (Build_shr_record (Z.pos m * 2 ^ Z.pos p) false false) = Build_shr_record (Z.pos m) false false.
Proof.
  induction p as [|p IH] using Pos.peano_ind.
  - change (2 ^ 1) with 2. rewrite Z.mul_comm. done.
  - rewrite iter_pos_succ, Pos2Z.inj_succ, Z.pow_succ_r by lia.
    replace (Z.pos m * (2 * 2 ^ Z.pos p)) with (2 * (Z.pos m * 2 ^ Z.pos p)) by lia.
    rewrite <- IH. f_equal. rewrite <- Pos2Z.inj_pow. done.
Qed.

(** A number with at most 53 significant bits, [m * 2 ^ p], is rounded to itself. *)
Lemma round_exact s m p e : (p = 0 \/ 0 < p) -> 2 ^ 52 <= Z.pos m < 2 ^ 53 -> -1074 <= e + p <= 971 ->
  binary_round_aux 53 1024 s (Z.pos m * 2 ^ p) e loc_Exact = S754_finite s m (e + p).
Proof.
  intros Hp Hm He. assert (0 <= p) as Hp0 by lia. clear Hp.
  assert (exists q, Z.pos m * 2 ^ p = Z.pos q) as [q Hq].
  { exists (Z.to_pos (Z.pos m * 2 ^ p)). rewrite Z2Pos.id; lia. }
  assert (Zdigits2 (Z.pos m * 2 ^ p) = 53 + p) as Hd.
  { rewrite Hq. cbn [Zdigits2]. apply digits2_unique. rewrite <- Hq.
    replace (53 + p - 1) with (52 + p) by lia. rewrite !Z.pow_add_r by lia. nia. }
  assert (Zdigits2 (Z.pos m) = 53) as Hm53 by (cbn [Zdigits2]; by apply digits2_unique).
  unfold binary_round_aux, shr_fexp. rewrite Hd. unfold fexp, emin.
  replace (Z.max (53 + p + e - 53) (3 - 1024 - 53) - e) with p by lia.
  assert (shr (shr_record_of_loc (Z.pos m * 2 ^ p) loc_Exact) e p = (Build_shr_record (Z.pos m) false false, e + p)) as ->.
  { destruct p as [|p|p]; [|cbn [shr shr_record_of_loc]; by rewrite shr_exact|lia].
    cbn [shr shr_record_of_loc]. rewrite Z.pow_0_r, Z.mul_1_r. f_equal. lia. }
  cbn [shr_m loc_of_shr_record round_nearest_even]. rewrite Hm53.
  replace (Z.max (53 + (e + p) - 53) (3 - 1024 - 53) - (e + p)) with 0 by lia.
  cbn [shr shr_record_of_loc shr_m]. by rewrite (proj2 (Z.leb_le _ _)) by lia.
Qed.

Lemma iter_xO m d : Z.pos (Pos.iter xO m d) = Z.pos m * 2 ^ Z.pos d.
Proof.
  induction d as [|d IH] using Pos.peano_ind; [cbn [Pos.iter]; lia|].
  rewrite Pos.iter_succ, Pos2Z.inj_succ, Z.pow_succ_r by lia. lia.
Qed.

(** Mantissa and exponent of a nonzero integer. *)
Lemma dbl_of_pos q : Z.pos q < 2 ^ 53 ->
  exists m e, -52 <= e <= 0 /\ 2 ^ 52 <= Z.pos m < 2 ^ 53 /\ Z.pos m = Z.pos q * 2 ^ (- e) /\
    forall s, binary_round 53 1024 s q 0 = S754_finite s m e.
Proof.
  intros Hq. pose proof (digits2_pos_spec q) as Hd. set (d := Z.pos (digits2_pos q)) in *.
  assert (1 <= d) by lia. assert (d <= 53).
  { destruct (decide (d <= 53)); [done|]. pose proof (Z.pow_le_mono_r 2 53 (d - 1) ltac:(lia) ltac:(lia)). lia. }
  assert (2 ^ 52 <= Z.pos q * 2 ^ (53 - d) < 2 ^ 53) as Hr.
  { change (2 ^ 52) with (2 ^ (53 - 1)). replace (53 - 1) with ((d - 1) + (53 - d)) by lia.
    replace (2 ^ 53) with (2 ^ d * 2 ^ (53 - d)) by (rewrite <- Z.pow_add_r by lia; f_equal; lia).
    rewrite Z.pow_add_r by lia. nia. }
  exists (Z.to_pos (Z.pos q * 2 ^ (53 - d))), (d - 53).
  assert (Z.pos (Z.to_pos (Z.pos q * 2 ^ (53 - d))) = Z.pos q * 2 ^ (53 - d)) as Hm by (rewrite Z2Pos.id; lia).
  rewrite Hm. split; [lia|]. split; [done|]. split; [do 2 f_equal; lia|].
  intros s. unfold binary_round, shl_align. fold d. clearbody d. unfold fexp, emin.
  replace (Z.max (d + 0 - 53) (3 - 1024 - 53) - 0) with (d - 53) by lia.
  destruct (d - 53) as [|p|p] eqn:E; [|lia|].
  - assert (d = 53) as -> by lia. pose proof (round_exact s q 0 0) as Hx.
    rewrite Z.pow_0_r, Z.mul_1_r in Hx. rewrite Z.sub_diag, Z.pow_0_r, Z.mul_1_r in *. rewrite Hx by lia. done.
  - replace (53 - d) with (Z.pos p) in * by lia.
    replace (Z.max (d + 0 - 53) (3 - 1024 - 53)) with (Z.neg p) by lia.
    pose proof (round_exact s (Pos.iter xO q p) 0 (Z.neg p)) as Hx.
    rewrite Z.pow_0_r, Z.mul_1_r, Z.add_0_r, iter_xO in Hx. rewrite iter_xO, Hx by lia.
    f_equal. apply Pos2Z.inj. rewrite iter_xO. symmetry. done.
Qed.

(** [2 ^ k]. *)
Definition dbl_pow2 (k : Z) : double := S754_finite false 4503599627370496 (k - 52).

Lemma dbl_of_Z_shape z : z <> 0 -> Z.abs z < 2 ^ 53 ->
  exists m e, dbl_of_Z z = S754_finite (z <? 0) m e /\ -52 <= e <= 0 /\ 2 ^ 52 <= Z.pos m < 2 ^ 53 /\
    cond_Zopp (z <? 0) (Z.pos m) = z * 2 ^ (- e).
Proof.
  intros Hz Ha. destruct z as [|q|q]; [done| |]; destruct (dbl_of_pos q ltac:(lia)) as (m & e & He & Hm & Hmq & Hr);
    exists m, e; unfold dbl_of_Z; cbn [binary_normalize]; rewrite Hr; cbn [Z.ltb Z.compare cond_Zopp]; repeat split; lia.
Qed.

(** Integers of up to 53 bits are converted exactly, and the product with a power of two is
    exact. *)
Lemma scaled_value z k : Z.abs z < 2 ^ 53 -> -900 <= k <= 900 -> is_value (dbl_mul (dbl_of_Z z) (dbl_pow2 k)) z k.
Proof.
  intros Ha Hk. destruct (decide (z = 0)) as [->|Hz]; [done|].
  destruct (dbl_of_Z_shape z Hz Ha) as (m & e & -> & He & Hm & Hv).
  unfold dbl_mul, dbl_pow2. cbn [SFmul]. rewrite xorb_false_r.
  pose proof (round_exact (z <? 0) m 52 (e + (k - 52))) as Hx.
  change (Z.pos m * 2 ^ 52) with (Z.pos (m * 4503599627370496)) in Hx. rewrite Hx by lia.
  cbn [is_value]. replace (Z.min (e + (k - 52) + 52) k) with (e + k) by lia.
  replace (e + (k - 52) + 52 - (e + k)) with 0 by lia. replace (k - (e + k)) with (- e) by lia. lia.
Qed.

Lemma integer_value z : Z.abs z < 2 ^ 53 -> is_value (dbl_of_Z z) z 0.
Proof.
  intros Ha. destruct (decide (z = 0)) as [->|Hz]; [done|].
  destruct (dbl_of_Z_shape z Hz Ha) as (m & e & -> & He & Hm & Hv). cbn [is_value].
  replace (Z.min e 0) with e by lia. rewrite Z.sub_diag, Z.sub_0_l. lia.
Qed.

(** Products of integers are exact while they fit. *)
Lemma dbl_mul_int a b : Z.abs a < 2 ^ 53 -> Z.abs b < 2 ^ 53 -> Z.abs (a * b) < 2 ^ 53 -> a <> 0 -> b <> 0 ->
  dbl_mul (dbl_of_Z a) (dbl_of_Z b) = dbl_of_Z (a * b).
Proof.
  intros Ha Hb Hab Ha0 Hb0. destruct (dbl_of_Z_shape a Ha0 Ha) as (m1 & e1 & -> & He1 & Hm1 & Hv1).
  destruct (dbl_of_Z_shape b Hb0 Hb) as (m2 & e2 & -> & He2 & Hm2 & Hv2).
  destruct (dbl_of_Z_shape (a * b) ltac:(nia) Hab) as (m & e & -> & He & Hm & Hv).
  assert (xorb (a <? 0) (b <? 0) = (a * b <? 0)) as Hsg.
  { destruct (Z.ltb_spec a 0), (Z.ltb_spec b 0), (Z.ltb_spec (a * b) 0); try done; nia. }
  unfold dbl_mul. cbn [SFmul]. rewrite Hsg.
  assert (Z.pos m1 * Z.pos m2 * 2 ^ (- e) = Z.pos m * 2 ^ (- e1 - e2)) as Heq.
  { assert (Z.abs a * 2 ^ (- e1) = Z.pos m1 /\ Z.abs b * 2 ^ (- e2) = Z.pos m2 /\ Z.abs (a * b) * 2 ^ (- e) = Z.pos m) as (A1 & A2 & A3).
    { pose proof (Z.pow_pos_nonneg 2 (- e1) ltac:(lia) ltac:(lia)). pose proof (Z.pow_pos_nonneg 2 (- e2) ltac:(lia) ltac:(lia)).
      pose proof (Z.pow_pos_nonneg 2 (- e) ltac:(lia) ltac:(lia)).
      repeat split; [destruct (Z.ltb_spec a 0)|destruct (Z.ltb_spec b 0)|destruct (Z.ltb_spec (a * b) 0)]; cbn [cond_Zopp] in *;
        first [rewrite Z.abs_neq by lia|rewrite Z.abs_eq by lia]; lia. }
    rewrite <- A1, <- A2, <- A3, Z.abs_mul. replace (- e1 - e2) with (- e1 + - e2) by lia. rewrite Z.pow_add_r by lia. ring. }
  assert (52 <= e - e1 - e2) as Hp.
  { destruct (decide (52 <= e - e1 - e2)); [done|exfalso].
    pose proof (Z.pow_le_mono_r 2 (- e1 - e2) (51 + - e) ltac:(lia) ltac:(lia)) as Hle. rewrite Z.pow_add_r in Hle by lia.
    set (w := 2 ^ (- e)) in *. assert (0 < w) by (unfold w; lia). set (v := 2 ^ (- e1 - e2)) in *.
    assert (Z.pos m * v <= Z.pos m * (2 ^ 51 * w)) by (apply Z.mul_le_mono_nonneg_l; lia).
    assert (Z.pos m * (2 ^ 51 * w) < 2 ^ 53 * (2 ^ 51 * w)) by (apply Z.mul_lt_mono_pos_r; lia).
    assert (2 ^ 52 * 2 ^ 52 <= Z.pos m1 * Z.pos m2) by (apply Z.mul_le_mono_nonneg; lia).
    assert (2 ^ 52 * 2 ^ 52 * w <= Z.pos m1 * Z.pos m2 * w) by (apply Z.mul_le_mono_nonneg_r; lia). lia. }
  assert (Z.pos (m1 * m2) = Z.pos m * 2 ^ (e - e1 - e2)) as ->.
  { apply (Z.mul_reg_r _ _ (2 ^ (- e))); [lia|]. rewrite <- Z.mul_assoc, <- Z.pow_add_r by lia. rewrite Pos2Z.inj_mul, Heq. do 2 f_equal. lia. }
  rewrite round_exact by lia. f_equal. lia.
Qed.

(** A scaled integer converted back. *)
Lemma Z_of_dbl_value x z e : is_value x z e -> 0 <= e -> 0 <= z -> Z_of_dbl x = Some (z * 2 ^ e).
Proof.
  destruct x as [s| | |s m ex]; cbn [is_value Z_of_dbl]; try done; [by intros ->|].
  intros H He Hz. f_equal. destruct s; cbn [cond_Zopp] in *.
  { pose proof (Z.pow_pos_nonneg 2 (ex - Z.min ex e) ltac:(lia) ltac:(lia)).
    pose proof (Z.pow_pos_nonneg 2 (e - Z.min ex e) ltac:(lia) ltac:(lia)). nia. }
  destruct (Z.leb_spec 0 ex).
  - destruct (Z.le_ge_cases ex e).
    + replace (Z.min ex e) with ex in H by lia. rewrite Z.sub_diag, Z.mul_1_r in H. rewrite H, <- Z.mul_assoc, <- Z.pow_add_r by lia. do 2 f_equal. lia.
    + replace (Z.min ex e) with e in H by lia. rewrite Z.sub_diag, Z.mul_1_r in H. rewrite <- H, <- Z.mul_assoc, <- Z.pow_add_r by lia. do 2 f_equal. lia.
  - replace (Z.min ex e) with ex in H by lia. rewrite Z.sub_diag, Z.mul_1_r in H. rewrite H.
    replace (e - ex) with (e + - ex) by lia. rewrite Z.pow_add_r, Z.mul_assoc, Z.div_mul by lia. done.
Qed.

(** The literals of the source that are powers of two. *)
Lemma literals_exact :
  TWO_P4 = dbl_pow2 4 /\ TWO_P11 = dbl_pow2 11 /\ TWO_P12 = dbl_pow2 12 /\ TWO_P14 = dbl_pow2 14 /\ TWO_P16 = dbl_pow2 16 /\
  TWO_N5 = dbl_pow2 (-5) /\ TWO_N11 = dbl_pow2 (-11) /\ TWO_N19 = dbl_pow2 (-19) /\ TWO_N20 = dbl_pow2 (-20) /\ TWO_N24 = dbl_pow2 (-24) /\
  TWO_N27 = dbl_pow2 (-27) /\ TWO_N29 = dbl_pow2 (-29) /\ TWO_N30 = dbl_pow2 (-30) /\ TWO_N31 = dbl_pow2 (-31) /\ TWO_N50 = dbl_pow2 (-50).
Proof. vm_compute. repeat split. Qed.
(** The constants that scale the broadcast parameters are the powers of two that their
    comments give, up to 19 units in the last place, with two exceptions: [TWO_N15] is off by
    a part in [2 ^ 32], and [TWO_N26] is a tenth of [2 ^ -26] (its product with ten is within
    one part in [2 ^ 50] of it). *)
Theorem scale_constants :
  (forall x k, (x, k) ∈ pow2_constants -> near_pow2 x k 19 = true) /\
  near_pow2 TWO_N15 (-15) (2 ^ 20) = false /\ near_pow2 TWO_N15 (-15) (2 ^ 21) = true /\
  near_pow2 (dbl_mul (dbl_of_Z 10) TWO_N26) (-26) 8 = true /\ near_pow2 TWO_N26 (-26) (2 ^ 52) = false.
Proof.
  split; [|vm_compute; done]. intros x k H.
  apply (proj1 (forallb_forall (fun p : double * Z => near_pow2 p.1 p.2 19) pow2_constants)) with (x := (x, k)); [by vm_compute|].
  by apply list_elem_of_In.
Qed.
