(* ===== verification/DoublesErr.v ===== *)
(** * Errors of double arithmetic

    Division and rounding of doubles, and how far a product and a quotient are from the exact
    ones: by less than one unit in the last place. It follows that an integer multiplied by a
    scale factor and divided by it again is rounded to itself. *)
From S2P Require Import Prelude Doubles.
From Stdlib Require Import SpecFloat.

#[local] Open Scope Z_scope.

#[global] Instance double_eq_dec : EqDecision double.
Proof. solve_decision. Defined.

Definition dbl_div (x y : double) : double := SFdiv 53 1024 x y.
Definition dbl_sub (x y : double) : double := SFsub 53 1024 x y.
Definition dbl_abs (x : double) : double := SFabs x.

(** [std::round]: to the nearest integer, halves away from zero. *)
Definition dbl_round (x : double) : double :=
  match x with
  | S754_finite s m e =>
      if 0 <=? e then x
      else let r := (Z.pos m + 2 ^ (- e - 1)) / 2 ^ (- e) in if r =? 0 then S754_zero s else dbl_of_Z (cond_Zopp s r)
  | _ => x
  end.

(** ** Rounding *)

Lemma shr_1_m m r s : 0 <= m -> shr_m (shr_1 (Build_shr_record m r s)) = m / 2.
Proof.
  intros Hm. rewrite <- Z.div2_div. destruct m as [|p|p]; [done| |lia]. by destruct p.
Qed.

Lemma shr_iter_m p : forall m r s, 0 <= m -> shr_m (iter_pos shr_1 p (Build_shr_record m r s)) = m / 2 ^ Z.pos p.
Proof.
  induction p as [|p IH] using Pos.peano_ind; intros m r s Hm.
  - change (2 ^ 1) with 2. by apply shr_1_m.
  - rewrite iter_pos_succ. pose proof (shr_1_m m r s Hm) as H1. destruct (shr_1 (Build_shr_record m r s)) as [m1 r1 s1]. cbn in H1. subst m1.
    rewrite IH by (apply Z.div_pos; lia). rewrite Pos2Z.inj_succ, Z.pow_succ_r, Zdiv_Zdiv by lia. done.
Qed.

Lemma shr_record_m m l : shr_m (shr_record_of_loc m l) = m.
Proof. by destruct l as [|[]]. Qed.

Lemma shr_value m e l n : 0 <= m -> 0 <= n -> shr_m (shr (shr_record_of_loc m l) e n).1 = m / 2 ^ n /\ (shr (shr_record_of_loc m l) e n).2 = e + n.
Proof.
  intros Hm Hn. destruct n as [|p|p]; [|cbn [shr fst snd]|lia].
  - cbn [shr fst snd]. rewrite shr_record_m, Z.div_1_r. lia.
  - split; [|done]. destruct (shr_record_of_loc m l) as [m' r s] eqn:E. rewrite shr_iter_m.
    + pose proof (shr_record_m m l) as Hr. rewrite E in Hr. cbn in Hr. by subst.
    + pose proof (shr_record_m m l) as Hr. rewrite E in Hr. cbn in Hr. by subst.
Qed.

Lemma round_up_or_down m l : round_nearest_even m l = m \/ round_nearest_even m l = m + 1.
Proof. destruct l as [|[]]; cbn [round_nearest_even]; try tauto. destruct (Z.even m); tauto. Qed.

(** A number of [53 + n] digits is rounded down or up to 53 digits. *)
Lemma round_faithful s q e l n : 0 <= n -> 2 ^ (52 + n) <= q < 2 ^ (53 + n) -> -1074 <= e + n -> e + n + 1 <= 971 ->
  exists m e', binary_round_aux 53 1024 s q e l = S754_finite s m e' /\ 2 ^ 52 <= Z.pos m < 2 ^ 53 /\
    e + n <= e' <= e + n + 1 /\ q / 2 ^ n * 2 ^ n <= Z.pos m * 2 ^ (e' - e) <= (q / 2 ^ n + 1) * 2 ^ n.
Proof.
  intros Hn Hq He1 He2. assert (0 < 2 ^ n) as Hpn by lia. pose proof (Z.pow_pos_nonneg 2 (52 + n) ltac:(lia) ltac:(lia)).
  assert (Zdigits2 q = 53 + n) as Hd.
  { destruct q as [|p|p]; try lia. cbn [Zdigits2]. apply digits2_unique. replace (53 + n - 1) with (52 + n) by lia. done. }
  assert (2 ^ 52 <= q / 2 ^ n < 2 ^ 53) as Hqn.
  { rewrite Z.pow_add_r in Hq by lia. rewrite (Z.pow_add_r 2 53 n) in Hq by lia.
    split; [apply Z.div_le_lower_bound; lia|apply Z.div_lt_upper_bound; lia]. }
  unfold binary_round_aux, shr_fexp. rewrite Hd. unfold fexp, emin.
  replace (Z.max (53 + n + e - 53) (3 - 1024 - 53) - e) with n by lia.
  destruct (shr_value q e l n ltac:(lia) Hn) as [H1 H2]. destruct (shr (shr_record_of_loc q l) e n) as [mrs e1]. cbn [fst snd] in H1, H2. subst e1.
  destruct mrs as [m1 r1 s1]. cbn [shr_m] in H1 |- *. set (l1 := loc_of_shr_record _). clearbody l1. subst m1.
  assert (exists r, round_nearest_even (q / 2 ^ n) l1 = r /\ q / 2 ^ n <= r <= q / 2 ^ n + 1) as (r & -> & Hr).
  { destruct (round_up_or_down (q / 2 ^ n) l1) as [->| ->]; eexists; (split; [done|lia]). }
  destruct (decide (r = 2 ^ 53)) as [->|Hne].
  - change (Zdigits2 (2 ^ 53)) with 54. replace (Z.max (54 + (e + n) - 53) (3 - 1024 - 53) - (e + n)) with 1 by lia.
    cbn [shr shr_record_of_loc iter_pos shr_1 shr_m]. change (2 ^ 53) with 9007199254740992. cbn [shr_1 shr_m].
    rewrite (proj2 (Z.leb_le _ _)) by lia. do 2 eexists. split; [done|]. split; [lia|]. split; [lia|].
    replace (e + n + 1 - e) with (1 + n) by lia. rewrite Z.pow_add_r by lia. nia.
  - destruct r as [|p|p]; try lia. cbn [Zdigits2]. rewrite (digits2_unique p 53) by (change (53 - 1) with 52; lia).
    replace (Z.max (53 + (e + n) - 53) (3 - 1024 - 53) - (e + n)) with 0 by lia. cbn [shr shr_record_of_loc shr_m].
    rewrite (proj2 (Z.leb_le _ _)) by lia. do 2 eexists. split; [done|]. split; [lia|]. split; [lia|].
    replace (e + n - e) with n by lia. nia.
Qed.

(** ** Products and quotients *)

(** Values in units of [2 ^ -3000]. *)
Definition sv (m e : Z) : Z := m * 2 ^ (e + 3000).

Lemma digits_from a lo : 2 ^ lo <= a -> 0 <= lo -> exists n, 0 <= n /\ 2 ^ (lo + n) <= a < 2 ^ (lo + n + 1).
Proof.
  intros Ha Hlo. pose proof (Z.pow_pos_nonneg 2 lo ltac:(lia) ltac:(lia)). pose proof (Z.log2_spec a ltac:(lia)) as Hl.
  pose proof (Z.log2_le_mono _ _ Ha) as Hm. rewrite Z.log2_pow2 in Hm by lia.
  exists (Z.log2 a - lo). replace (lo + (Z.log2 a - lo)) with (Z.log2 a) by lia. split; [lia|]. exact Hl.
Qed.

Section Normal.
Context (s1 s2 : bool) (m1 m2 : positive) (e1 e2 : Z).
Context (H1 : 2 ^ 52 <= Z.pos m1 < 2 ^ 53) (H2 : 2 ^ 52 <= Z.pos m2 < 2 ^ 53) (E1 : -400 <= e1 <= 400) (E2 : -400 <= e2 <= 400).

Lemma mul_error : exists m e, dbl_mul (S754_finite s1 m1 e1) (S754_finite s2 m2 e2) = S754_finite (xorb s1 s2) m e /\
  2 ^ 52 <= Z.pos m < 2 ^ 53 /\ e1 + e2 + 52 <= e <= e1 + e2 + 54 /\
  Z.abs (sv (Z.pos m) e * 2 ^ 3000 - sv (Z.pos m1) e1 * sv (Z.pos m2) e2) * 2 ^ 52 <= sv (Z.pos m1) e1 * sv (Z.pos m2) e2.
Proof.
  assert (2 ^ 104 <= Z.pos (m1 * m2) < 2 ^ 106) as Hq.
  { rewrite Pos2Z.inj_mul. change (2 ^ 104) with (2 ^ 52 * 2 ^ 52). change (2 ^ 106) with (2 ^ 53 * 2 ^ 53). nia. }
  assert (exists n, 52 <= n <= 53 /\ 2 ^ (52 + n) <= Z.pos (m1 * m2) < 2 ^ (53 + n)) as (n & Hn & Hqn).
  { destruct (decide (Z.pos (m1 * m2) < 2 ^ 105)); [exists 52|exists 53]; (split; [lia|]); cbn [Z.add Pos.add Pos.succ Pos.add_carry]; lia. }
  destruct (round_faithful (xorb s1 s2) _ (e1 + e2) loc_Exact n ltac:(lia) Hqn ltac:(lia) ltac:(lia)) as (m & e & Hr & Hm & He & Hb).
  exists m, e. split; [exact Hr|]. split; [done|]. split; [lia|]. unfold sv.
  set (q := Z.pos (m1 * m2)) in *. set (W := 2 ^ (e1 + e2 + 6000)).
  assert (0 < W) by (unfold W; lia).
  replace (Z.pos m * 2 ^ (e + 3000) * 2 ^ 3000) with (Z.pos m * 2 ^ (e - (e1 + e2)) * W)
    by (unfold W; rewrite <- !Z.mul_assoc, <- !Z.pow_add_r by lia; do 2 f_equal; lia).
  replace (Z.pos m1 * 2 ^ (e1 + 3000) * (Z.pos m2 * 2 ^ (e2 + 3000))) with (q * W).
  2: { unfold W, q. rewrite Pos2Z.inj_mul. replace (e1 + e2 + 6000) with ((e1 + 3000) + (e2 + 3000)) by lia. rewrite (Z.pow_add_r 2 (e1 + 3000)) by lia. ring. }
  rewrite <- Z.mul_sub_distr_r, Z.abs_mul, (Z.abs_eq W) by lia.
  set (y := Z.pos m * 2 ^ (e - (e1 + e2))) in *. rewrite Z.pow_add_r in Hqn by lia.
  pose proof (Z.div_mod q (2 ^ n) ltac:(lia)). pose proof (Z.mod_pos_bound q (2 ^ n) ltac:(lia)).
  assert (Z.abs (y - q) <= 2 ^ n) by nia. assert (Z.abs (y - q) * 2 ^ 52 <= q) by nia. nia.
Qed.

Lemma div_error : exists m e, dbl_div (S754_finite s1 m1 e1) (S754_finite s2 m2 e2) = S754_finite (xorb s1 s2) m e /\
  2 ^ 52 <= Z.pos m < 2 ^ 53 /\ e1 - e2 - 53 <= e <= e1 - e2 - 51 /\
  Z.abs (sv (Z.pos m) e * sv (Z.pos m2) e2 - sv (Z.pos m1) e1 * 2 ^ 3000) * 2 ^ 52 <= sv (Z.pos m1) e1 * 2 ^ 3000.
Proof.
  set (q := Z.pos m1 * 2 ^ 53 / Z.pos m2).
  pose proof (Z.div_mod (Z.pos m1 * 2 ^ 53) (Z.pos m2) ltac:(lia)) as Hdm. pose proof (Z.mod_pos_bound (Z.pos m1 * 2 ^ 53) (Z.pos m2) ltac:(lia)) as Hmb.
  fold q in Hdm. assert (2 ^ 52 <= q < 2 ^ 54) as Hq.
  { unfold q. split; [apply Z.div_le_lower_bound; lia|apply Z.div_lt_upper_bound; lia]. }
  assert (exists n, 0 <= n <= 1 /\ 2 ^ (52 + n) <= q < 2 ^ (53 + n)) as (n & Hn & Hqn).
  { destruct (decide (q < 2 ^ 53)); [exists 0|exists 1]; (split; [lia|]); cbn [Z.add Pos.add Pos.succ Pos.add_carry]; lia. }
  assert (exists l, dbl_div (S754_finite s1 m1 e1) (S754_finite s2 m2 e2) = binary_round_aux 53 1024 (xorb s1 s2) q (e1 - e2 - 53) l) as [l ->].
  { unfold dbl_div. cbn [SFdiv]. unfold SFdiv_core_binary. cbn [Zdigits2].
    rewrite (digits2_unique m1 53), (digits2_unique m2 53) by (change (53 - 1) with 52; lia). unfold fexp, emin.
    replace (Z.min (Z.max (53 + e1 - (53 + e2) - 53) (3 - 1024 - 53)) (e1 - e2)) with (e1 - e2 - 53) by lia.
    replace (e1 - e2 - (e1 - e2 - 53)) with 53 by lia. rewrite Z.shiftl_mul_pow2 by lia.
    pose proof (Z.div_eucl_eq (Z.pos m1 * 2 ^ 53) (Z.pos m2) ltac:(lia)) as He. unfold q, Z.div.
    destruct (Z.div_eucl (Z.pos m1 * 2 ^ 53) (Z.pos m2)) as [q' r']. eexists. done. }
  destruct (round_faithful (xorb s1 s2) q (e1 - e2 - 53) l n ltac:(lia) Hqn ltac:(lia) ltac:(lia)) as (m & e & Hr & Hm & He & Hb).
  exists m, e. split; [exact Hr|]. split; [done|]. split; [lia|]. unfold sv.
  set (W := 2 ^ (e1 - 53 + 6000)). assert (0 < W) by (unfold W; lia).
  replace (Z.pos m * 2 ^ (e + 3000) * (Z.pos m2 * 2 ^ (e2 + 3000))) with (Z.pos m * 2 ^ (e - (e1 - e2 - 53)) * Z.pos m2 * W).
  2: { unfold W. replace (Z.pos m * 2 ^ (e + 3000) * (Z.pos m2 * 2 ^ (e2 + 3000))) with (Z.pos m * Z.pos m2 * (2 ^ (e + 3000) * 2 ^ (e2 + 3000))) by ring.
       replace (Z.pos m * 2 ^ (e - (e1 - e2 - 53)) * Z.pos m2 * 2 ^ (e1 - 53 + 6000)) with (Z.pos m * Z.pos m2 * (2 ^ (e - (e1 - e2 - 53)) * 2 ^ (e1 - 53 + 6000))) by ring.
       rewrite <- !Z.pow_add_r by lia. do 2 f_equal. lia. }
  replace (Z.pos m1 * 2 ^ (e1 + 3000) * 2 ^ 3000) with (Z.pos m1 * 2 ^ 53 * W)
    by (unfold W; rewrite <- !Z.mul_assoc, <- !Z.pow_add_r by lia; do 2 f_equal; lia).
  rewrite <- Z.mul_sub_distr_r, Z.abs_mul, (Z.abs_eq W) by lia.
  set (y := Z.pos m * 2 ^ (e - (e1 - e2 - 53))) in *. rewrite Z.pow_add_r in Hqn by lia. set (N := Z.pos m1 * 2 ^ 53) in *. clearbody N.
  pose proof (Z.div_mod q (2 ^ n) ltac:(lia)). pose proof (Z.mod_pos_bound q (2 ^ n) ltac:(lia)).
  set (c := q / 2 ^ n) in *. assert (0 < 2 ^ n) by lia. set (t := 2 ^ n) in *.
  assert (c * t * Z.pos m2 <= N <= (c + 1) * t * Z.pos m2) as HN by nia.
  assert (c * t * Z.pos m2 <= y * Z.pos m2 <= (c + 1) * t * Z.pos m2) as Hy by nia.
  assert (Z.abs (y * Z.pos m2 - N) <= t * Z.pos m2) by lia.
  assert (2 ^ 52 * t * Z.pos m2 <= N) by nia.
  assert (Z.abs (y * Z.pos m2 - N) * 2 ^ 52 <= N) by nia. nia.
Qed.
End Normal.

(** ** Integers come back *)

Lemma Z_of_dbl_of_Z z : Z.abs z < 2 ^ 53 -> Z_of_dbl (dbl_of_Z z) = Some z.
Proof.
  intros Hz. destruct (decide (z = 0)) as [->|Hn]; [done|]. destruct (dbl_of_Z_shape z Hn Hz) as (m & e & -> & He & Hm & Hv).
  cbn [Z_of_dbl]. f_equal. destruct (decide (e = 0)) as [->|He0].
  - cbn [Z.leb Z.compare]. change (2 ^ (- 0)) with 1 in Hv. change (2 ^ 0) with 1. destruct (z <? 0); cbn [cond_Zopp] in *; lia.
  - rewrite (proj2 (Z.leb_gt _ _)) by lia. pose proof (Z.pow_pos_nonneg 2 (- e) ltac:(lia) ltac:(lia)).
    assert (Z.pos m = Z.abs z * 2 ^ (- e)) as Ha by (destruct (Z.ltb_spec z 0); cbn [cond_Zopp] in *; lia).
    rewrite Ha, Z.div_mul by lia. destruct (Z.ltb_spec z 0); cbn [cond_Zopp]; lia.
Qed.

(** A number nearer than a half to the positive integer [w] is rounded to it. *)
Lemma round_near s m e w : 0 < w < 2 ^ 51 -> 2 ^ 52 <= Z.pos m -> -2000 <= e ->
  2 * Z.abs (sv (Z.pos m) e - w * 2 ^ 3000) < 2 ^ 3000 -> Z_of_dbl (dbl_round (S754_finite s m e)) = Some (cond_Zopp s w).
Proof.
  intros Hw Hm He Hn. unfold sv in Hn.
  assert (e < 0) as Hneg.
  { destruct (decide (e < 0)); [done|exfalso]. replace (e + 3000) with (3000 + e) in Hn by lia. rewrite Z.pow_add_r in Hn by lia.
    pose proof (Z.pow_le_mono_r 2 0 e ltac:(lia) ltac:(lia)) as H1. change (2 ^ 0) with 1 in H1.
    assert (0 < 2 ^ 3000) as HC by (apply Z.pow_pos_nonneg; lia). generalize dependent (2 ^ 3000). intros C Hn HC.
    generalize dependent (2 ^ e). intros t Hn Ht. assert (C * 2 ^ 52 <= C * (Z.pos m * t)) by (apply Z.mul_le_mono_nonneg_l; nia).
    assert (w * C <= 2 ^ 51 * C) by (apply Z.mul_le_mono_nonneg_r; lia). lia. }
  cbn [dbl_round]. rewrite (proj2 (Z.leb_gt _ _)) by lia.
  replace 3000 with (e + 3000 + - e) in Hn at 2 3 by lia. rewrite (Z.pow_add_r 2 (e + 3000)) in Hn by lia.
  pose proof (Z.pow_pos_nonneg 2 (e + 3000) ltac:(lia) ltac:(lia)) as HC. generalize dependent (2 ^ (e + 3000)). intros C Hn HC.
  assert (2 ^ (- e) = 2 * 2 ^ (- e - 1)) as H2 by (rewrite <- Z.pow_succ_r by lia; f_equal; lia).
  pose proof (Z.pow_pos_nonneg 2 (- e - 1) ltac:(lia) ltac:(lia)) as Hh. rewrite H2 in *. generalize dependent (2 ^ (- e - 1)). intros h Hn H2 Hh.
  assert (2 * Z.abs (Z.pos m - w * (2 * h)) < 2 * h) as Hd.
  { replace (Z.pos m * C - w * (C * (2 * h))) with ((Z.pos m - w * (2 * h)) * C) in Hn by ring. rewrite Z.abs_mul, (Z.abs_eq C) in Hn by lia. nia. }
  assert ((Z.pos m + h) / (2 * h) = w) as ->.
  { symmetry. apply (Z.div_unique_pos _ _ _ (Z.pos m + h - 2 * h * w)); lia. }
  rewrite (proj2 (Z.eqb_neq _ _)) by lia. apply Z_of_dbl_of_Z. destruct s; cbn [cond_Zopp]; lia.
Qed.

(** A factor of ordinary size. *)
Definition factor (x : double) : bool :=
  match x with
  | S754_finite false m e => (2 ^ 52 <=? Z.pos m) && (Z.pos m <? 2 ^ 53) && (-200 <=? e) && (e <=? 200)
  | _ => false
  end.

Lemma factor_spec x : factor x = true -> exists m e, x = S754_finite false m e /\ 2 ^ 52 <= Z.pos m < 2 ^ 53 /\ -200 <= e <= 200.
Proof.
  destruct x as [| | |[] m e]; try done. cbn [factor]. rewrite !andb_true_iff, !Z.leb_le, Z.ltb_lt. intros [[[? ?] ?] ?]. exists m, e. repeat split; lia.
Qed.

Lemma int_sv z : z <> 0 -> Z.abs z < 2 ^ 53 ->
  exists m e, dbl_of_Z z = S754_finite (z <? 0) m e /\ 2 ^ 52 <= Z.pos m < 2 ^ 53 /\ -52 <= e <= 0 /\ sv (Z.pos m) e = Z.abs z * 2 ^ 3000.
Proof.
  intros Hz Ha. destruct (dbl_of_Z_shape z Hz Ha) as (m & e & Hx & He & Hm & Hv). exists m, e. split; [done|]. split; [done|]. split; [done|].
  assert (Z.pos m = Z.abs z * 2 ^ (- e)) as Hp by (pose proof (Z.pow_pos_nonneg 2 (- e)); destruct (Z.ltb_spec z 0); cbn [cond_Zopp] in *; lia).
  unfold sv. rewrite Hp, <- Z.mul_assoc, <- Z.pow_add_r by lia. do 2 f_equal. lia.
Qed.

Lemma cond_Zopp_abs z : cond_Zopp (z <? 0) (Z.abs z) = z.
Proof. destruct (Z.ltb_spec z 0); cbn [cond_Zopp]; lia. Qed.

(** Both errors together move an integer of up to 48 bits by less than a half. *)
Lemma two_errors U C v W X Y : 0 < U -> 0 < C -> 0 < v -> 0 < W -> 8 * v < U -> 0 <= X ->
  Z.abs (X * C - v * C * W) * U <= v * C * W -> Z.abs (Y * W - X * C) * U <= X * C -> 2 * Z.abs (Y - v * C) < C.
Proof.
  intros HU HC Hv HW Hs HX H1 H2.
  assert (X * C <= 2 * (v * C * W)) as HXle.
  { assert (X * C - v * C * W <= v * C * W); [|lia]. assert (Z.abs (X * C - v * C * W) * 1 <= Z.abs (X * C - v * C * W) * U) by nia. lia. }
  assert (Z.abs (Y * W - v * C * W) * U <= 3 * (v * C * W)) as H3.
  { assert (Z.abs (Y * W - v * C * W) <= Z.abs (Y * W - X * C) + Z.abs (X * C - v * C * W)) by lia. nia. }
  replace (Y * W - v * C * W) with ((Y - v * C) * W) in H3 by ring. rewrite Z.abs_mul, (Z.abs_eq W) in H3 by lia.
  assert (Z.abs (Y - v * C) * U <= 3 * (v * C)) as H4 by nia. nia.
Qed.

(** Scaling by a factor and back. *)
Lemma scale_near z x : z <> 0 -> Z.abs z < 2 ^ 48 -> factor x = true ->
  exists m e, dbl_div (dbl_mul (dbl_of_Z z) x) x = S754_finite (z <? 0) m e /\ 2 ^ 52 <= Z.pos m /\ -2000 <= e /\
    2 * Z.abs (sv (Z.pos m) e - Z.abs z * 2 ^ 3000) < 2 ^ 3000.
Proof.
  intros Hn Hz Hx. destruct (factor_spec x Hx) as (l & el & -> & Hl & Hel). destruct (int_sv z Hn ltac:(lia)) as (m & e & -> & Hm & He & Hv).
  destruct (mul_error (z <? 0) false m l e el Hm Hl ltac:(lia) ltac:(lia)) as (m3 & e3 & -> & Hm3 & He3 & Herr3). rewrite xorb_false_r.
  destruct (div_error (z <? 0) false m3 l e3 el Hm3 Hl ltac:(lia) ltac:(lia)) as (m4 & e4 & -> & Hm4 & He4 & Herr4). rewrite xorb_false_r.
  exists m4, e4. split; [done|]. split; [lia|]. split; [lia|]. rewrite Hv in Herr3.
  assert (0 < sv (Z.pos l) el) by (unfold sv; pose proof (Z.pow_pos_nonneg 2 (el + 3000)); nia).
  assert (0 <= sv (Z.pos m3) e3) by (unfold sv; pose proof (Z.pow_pos_nonneg 2 (e3 + 3000)); nia).
  assert (0 < 2 ^ 3000) by (apply Z.pow_pos_nonneg; lia).
  generalize dependent (2 ^ 3000). intros C Hv Herr3 Herr4 HC. apply (two_errors (2 ^ 52) C (Z.abs z) (sv (Z.pos l) el) (sv (Z.pos m3) e3)); try lia.
Qed.

Lemma scale_and_back z x : Z.abs z < 2 ^ 48 -> factor x = true -> Z_of_dbl (dbl_round (dbl_div (dbl_mul (dbl_of_Z z) x) x)) = Some z.
Proof.
  intros Hz Hx. destruct (decide (z = 0)) as [->|Hn].
  - destruct (factor_spec x Hx) as (l & el & -> & _). done.
  - destruct (scale_near z x Hn Hz Hx) as (m & e & -> & Hm & He & Hd). rewrite (round_near _ m e (Z.abs z)) by (done || lia). by rewrite cond_Zopp_abs.
Qed.

(** The same with the magnitude only. *)
Lemma scale_and_back_abs z x : Z.abs z < 2 ^ 48 -> factor x = true ->
  Z_of_dbl (dbl_round (dbl_abs (dbl_div (dbl_mul (dbl_of_Z z) x) x))) = Some (Z.abs z).
Proof.
  intros Hz Hx. destruct (decide (z = 0)) as [->|Hn].
  - destruct (factor_spec x Hx) as (l & el & -> & _). done.
  - destruct (scale_near z x Hn Hz Hx) as (m & e & -> & Hm & He & Hd). cbn [dbl_abs SFabs]. by rewrite (round_near _ m e (Z.abs z)) by (done || lia).
Qed.

(** A product has the sign of the integer. *)
Lemma mul_sign z x : Z.abs z < 2 ^ 48 -> factor x = true -> lt0 (dbl_mul (dbl_of_Z z) x) = (z <? 0).
Proof.
  intros Hz Hx. destruct (factor_spec x Hx) as (l & el & -> & Hl & Hel). destruct (decide (z = 0)) as [->|Hn]; [done|].
  destruct (int_sv z Hn ltac:(lia)) as (m & e & -> & Hm & He & _).
  destruct (mul_error (z <? 0) false m l e el Hm Hl ltac:(lia) ltac:(lia)) as (m3 & e3 & -> & _). rewrite xorb_false_r. by destruct (z <? 0).
Qed.

(** Dividing by a factor and back. *)
Lemma divide_and_back z x : Z.abs z < 2 ^ 48 -> factor x = true -> Z_of_dbl (dbl_round (dbl_mul (dbl_div (dbl_of_Z z) x) x)) = Some z.
Proof.
  intros Hz Hx. destruct (factor_spec x Hx) as (l & el & -> & Hl & Hel). destruct (decide (z = 0)) as [->|Hn]; [done|].
  destruct (int_sv z Hn ltac:(lia)) as (m & e & -> & Hm & He & Hv).
  destruct (div_error (z <? 0) false m l e el Hm Hl ltac:(lia) ltac:(lia)) as (m3 & e3 & -> & Hm3 & He3 & Herr3). rewrite xorb_false_r.
  destruct (mul_error (z <? 0) false m3 l e3 el Hm3 Hl ltac:(lia) ltac:(lia)) as (m4 & e4 & -> & Hm4 & He4 & Herr4). rewrite xorb_false_r.
  rewrite <- (cond_Zopp_abs z) at 2. apply round_near; [lia|lia|lia|]. rewrite Hv in Herr3.
  assert (0 < sv (Z.pos l) el) by (unfold sv; pose proof (Z.pow_pos_nonneg 2 (el + 3000)); nia).
  assert (0 <= sv (Z.pos m3) e3) by (unfold sv; pose proof (Z.pow_pos_nonneg 2 (e3 + 3000)); nia).
  assert (0 < 2 ^ 3000) by (apply Z.pow_pos_nonneg; lia).
  generalize dependent (2 ^ 3000). intros C Hv Herr3 Herr4 HC.
  set (W := sv (Z.pos l) el) in *. set (X := sv (Z.pos m3) e3) in *. set (Y := sv (Z.pos m4) e4) in *.
  assert (X * W <= 2 * (Z.abs z * C * C)) as HXle.
  { assert (Z.abs (X * W - Z.abs z * C * C) * 1 <= Z.abs (X * W - Z.abs z * C * C) * 2 ^ 52) by nia. lia. }
  assert (Z.abs (Y * C - Z.abs z * C * C) * 2 ^ 52 <= 3 * (Z.abs z * C * C)) as H3.
  { assert (Z.abs (Y * C - Z.abs z * C * C) <= Z.abs (Y * C - X * W) + Z.abs (X * W - Z.abs z * C * C)) by lia. nia. }
  replace (Y * C - Z.abs z * C * C) with ((Y - Z.abs z * C) * C) in H3 by ring. rewrite Z.abs_mul, (Z.abs_eq C) in H3 by lia.
  assert (Z.abs (Y - Z.abs z * C) * 2 ^ 52 <= 3 * (Z.abs z * C)) as H4 by nia. nia.
Qed.
