(* ===== verification/DoublesInt.v ===== *)
(** * Integers as doubles

    Sums, differences and quotients of integers of up to 53 bits, and the rounding of a quotient
    downwards, are exact. *)
From S2P Require Import Prelude Doubles DoublesErr.
From Stdlib Require Import SpecFloat.

#[local] Open Scope Z_scope.

(** [std::floor] *)
Definition dbl_floor (x : double) : double :=
  match x with
  | S754_finite s m e =>
      if 0 <=? e then x
      else let q := cond_Zopp s (Z.pos m) / 2 ^ (- e) in if q =? 0 then S754_zero s else dbl_of_Z q
  | _ => x
  end.

(** [x >= y] *)
Definition dbl_ge (x y : double) : bool := SFleb y x.

(** [dbl_of_Z] determines mantissa and exponent. *)
Lemma dbl_of_Z_eq z s m e : Z.abs z < 2 ^ 53 -> z <> 0 -> 2 ^ 52 <= Z.pos m < 2 ^ 53 -> e <= 0 -> s = (z <? 0) ->
  Z.pos m = Z.abs z * 2 ^ (- e) -> dbl_of_Z z = S754_finite s m e.
Proof.
  intros Hz Hn Hm He -> Hv. destruct (dbl_of_Z_shape z Hn Hz) as (m' & e' & -> & He' & Hm' & Hv').
  assert (Z.pos m' = Z.abs z * 2 ^ (- e')) as Hp by (pose proof (Z.pow_pos_nonneg 2 (- e')); destruct (Z.ltb_spec z 0); cbn [cond_Zopp] in *; lia).
  assert (e' = e) as ->.
  { destruct (Z.lt_trichotomy e' e) as [H|[H|H]]; [exfalso|done|exfalso].
    - replace (- e') with (- e + (e - e')) in Hp by lia. rewrite Z.pow_add_r, Z.mul_assoc, <- Hv in Hp by lia.
      pose proof (Z.pow_le_mono_r 2 1 (e - e') ltac:(lia) ltac:(lia)). nia.
    - replace (- e) with (- e' + (e' - e)) in Hv by lia. rewrite Z.pow_add_r, Z.mul_assoc, <- Hp in Hv by lia.
      pose proof (Z.pow_le_mono_r 2 1 (e' - e) ltac:(lia) ltac:(lia)). nia. }
  f_equal. lia.
Qed.

(** An integer written with another exponent is rounded to itself. *)
Lemma round_small_int z q e : z <> 0 -> Z.abs z < 2 ^ 53 -> -60 <= e <= 0 -> Z.pos q = Z.abs z * 2 ^ (- e) -> binary_round 53 1024 (z <? 0) q e = dbl_of_Z z.
Proof.
  intros Hn Hz He Hq. destruct (digits_from (Z.abs z) 0 ltac:(cbn; lia) ltac:(lia)) as (d & Hd & Hl). rewrite Z.add_0_l in Hl.
  assert (d < 53) by (destruct (decide (d < 53)); [done|]; pose proof (Z.pow_le_mono_r 2 53 d ltac:(lia) ltac:(lia)); lia).
  assert (Z.pos (digits2_pos q) = d + 1 - e) as Hdg.
  { apply digits2_unique. rewrite Hq. replace (d + 1 - e - 1) with (d + - e) by lia. replace (d + 1 - e) with (d + 1 + - e) by lia.
    rewrite !Z.pow_add_r in * by lia. pose proof (Z.pow_pos_nonneg 2 (- e)). nia. }
  assert (exists m, Z.pos m = Z.abs z * 2 ^ (52 - d) /\ 2 ^ 52 <= Z.pos m < 2 ^ 53) as (m & Hm & Hr).
  { exists (Z.to_pos (Z.abs z * 2 ^ (52 - d))). pose proof (Z.pow_pos_nonneg 2 (52 - d)). rewrite Z2Pos.id by lia. split; [done|].
    replace (2 ^ 52) with (2 ^ (d + (52 - d))) by (f_equal; lia).
    replace (2 ^ 53) with (2 ^ (d + 1 + (52 - d))) by (f_equal; lia). rewrite !(Z.pow_add_r 2 _ (52 - d)) by lia. nia. }
  symmetry. rewrite (dbl_of_Z_eq z (z <? 0) m (d - 52)) by (done || lia || (replace (- (d - 52)) with (52 - d) by lia; exact Hm)).
  unfold binary_round, shl_align. rewrite Hdg. unfold fexp, emin. replace (Z.max (d + 1 - e + e - 53) (3 - 1024 - 53) - e) with (d - 52 - e) by lia.
  replace (Z.max (d + 1 - e + e - 53) (3 - 1024 - 53)) with (d - 52) by lia.
  destruct (d - 52 - e) as [|p|p] eqn:E.
  - assert (q = m) as -> by (replace (52 - d) with (- e) in Hm by lia; lia).
    pose proof (round_exact (z <? 0) m 0 e ltac:(lia) Hr ltac:(lia)) as Hx. rewrite Z.pow_0_r, Z.mul_1_r, Z.add_0_r in Hx. rewrite Hx. f_equal. lia.
  - pose proof (round_exact (z <? 0) m (Z.pos p) e ltac:(lia) Hr ltac:(lia)) as Hx.
    rewrite Hm, <- Z.mul_assoc, <- Z.pow_add_r in Hx by lia. replace (52 - d + Z.pos p) with (- e) in Hx by lia. rewrite Hq, Hx. f_equal. lia.
  - assert (Pos.iter xO q p = m) as ->.
    { apply Pos2Z.inj. rewrite iter_xO, Hq, Hm, <- Z.mul_assoc, <- Z.pow_add_r by lia. do 2 f_equal. lia. }
    pose proof (round_exact (z <? 0) m 0 (d - 52) ltac:(lia) Hr ltac:(lia)) as Hx. rewrite Z.pow_0_r, Z.mul_1_r, Z.add_0_r in Hx. by rewrite Hx.
Qed.

Lemma normalize_int z e : Z.abs z < 2 ^ 53 -> -60 <= e <= 0 -> binary_normalize 53 1024 (z * 2 ^ (- e)) e false = dbl_of_Z z.
Proof.
  intros Hz He. pose proof (Z.pow_pos_nonneg 2 (- e) ltac:(lia) ltac:(lia)) as Hp. destruct (decide (z = 0)) as [->|Hn]; [done|].
  destruct (z * 2 ^ (- e)) as [|q|q] eqn:E; [lia| |]; cbn [binary_normalize].
  - rewrite <- (round_small_int z q e) by (lia || done). f_equal. symmetry. apply Z.ltb_ge. nia.
  - rewrite <- (round_small_int z q e) by (lia || done). f_equal. symmetry. apply Z.ltb_lt. nia.
Qed.

(** An operand of a sum at the common exponent. *)
Lemma aligned z m e ez : z <> 0 -> -60 <= ez <= e -> e <= 0 -> cond_Zopp (z <? 0) (Z.pos m) = z * 2 ^ (- e) ->
  cond_Zopp (z <? 0) (Z.pos (fst (shl_align m e ez))) = z * 2 ^ (- ez).
Proof.
  intros Hn He He0 Hv. unfold shl_align. destruct (ez - e) as [|p|p] eqn:E; [|lia|]; cbn [fst].
  - by replace ez with e by lia.
  - rewrite iter_xO. replace (- ez) with (- e + Z.pos p) by lia. rewrite Z.pow_add_r, Z.mul_assoc, <- Hv by lia. by destruct (z <? 0); cbn [cond_Zopp]; lia.
Qed.

(** Sums and differences of integers are exact while they fit. *)
Lemma dbl_add_int a b : Z.abs a < 2 ^ 53 -> Z.abs b < 2 ^ 53 -> Z.abs (a + b) < 2 ^ 53 -> dbl_add (dbl_of_Z a) (dbl_of_Z b) = dbl_of_Z (a + b).
Proof.
  intros Ha Hb Hab. destruct (decide (a = 0)) as [->|Ha0].
  { rewrite Z.add_0_l. change (dbl_of_Z 0) with (S754_zero false). destruct (decide (b = 0)) as [->|Hb0]; [done|].
    destruct (dbl_of_Z_shape b Hb0 Hb) as (m & e & -> & _). done. }
  destruct (dbl_of_Z_shape a Ha0 Ha) as (m1 & e1 & Ea & He1 & Hm1 & Hv1). destruct (decide (b = 0)) as [->|Hb0].
  { rewrite Z.add_0_r, Ea. done. }
  destruct (dbl_of_Z_shape b Hb0 Hb) as (m2 & e2 & Eb & He2 & Hm2 & Hv2). rewrite Ea, Eb. unfold dbl_add. cbn [SFadd].
  rewrite (aligned a m1 e1), (aligned b m2 e2) by (done || lia). rewrite <- Z.mul_add_distr_r. apply normalize_int; lia.
Qed.

Lemma dbl_sub_int a b : Z.abs a < 2 ^ 53 -> Z.abs b < 2 ^ 53 -> Z.abs (a - b) < 2 ^ 53 -> dbl_sub (dbl_of_Z a) (dbl_of_Z b) = dbl_of_Z (a - b).
Proof.
  intros Ha Hb Hab. destruct (decide (b = 0)) as [->|Hb0].
  { rewrite Z.sub_0_r. change (dbl_of_Z 0) with (S754_zero false). destruct (decide (a = 0)) as [->|Ha0]; [done|].
    destruct (dbl_of_Z_shape a Ha0 Ha) as (m & e & -> & _). done. }
  destruct (dbl_of_Z_shape b Hb0 Hb) as (m2 & e2 & Eb & He2 & Hm2 & Hv2). destruct (decide (a = 0)) as [->|Ha0].
  { rewrite Z.sub_0_l, Eb. change (dbl_of_Z 0) with (S754_zero false). cbn [dbl_sub SFsub]. symmetry.
    assert (Z.pos m2 = Z.abs b * 2 ^ (- e2)) by (pose proof (Z.pow_pos_nonneg 2 (- e2)); destruct (Z.ltb_spec b 0); cbn [cond_Zopp] in *; lia).
    apply dbl_of_Z_eq; lia. }
  destruct (dbl_of_Z_shape a Ha0 Ha) as (m1 & e1 & Ea & He1 & Hm1 & Hv1). rewrite Ea, Eb. unfold dbl_sub. cbn [SFsub].
  rewrite (aligned a m1 e1), (aligned b m2 e2) by (done || lia). rewrite <- Z.mul_sub_distr_r. apply normalize_int; lia.
Qed.

(** The quotient of a multiple is exact. *)
Lemma dbl_div_int k b : 0 < k -> 0 < b -> k * b < 2 ^ 53 -> dbl_div (dbl_of_Z (k * b)) (dbl_of_Z b) = dbl_of_Z k.
Proof.
  intros Hk Hb Hkb. assert (b < 2 ^ 53) by nia. assert (k < 2 ^ 53) by nia.
  destruct (dbl_of_Z_shape (k * b) ltac:(nia) ltac:(lia)) as (m1 & e1 & -> & He1 & Hm1 & Hv1).
  destruct (dbl_of_Z_shape b ltac:(lia) ltac:(lia)) as (m2 & e2 & -> & He2 & Hm2 & Hv2).
  rewrite (proj2 (Z.ltb_ge (k * b) 0)), (proj2 (Z.ltb_ge b 0)) in * by nia. cbn [cond_Zopp] in Hv1, Hv2.
  unfold dbl_div. cbn [SFdiv xorb]. unfold SFdiv_core_binary. cbn [Zdigits2].
  rewrite (digits2_unique m1 53), (digits2_unique m2 53) by (change (53 - 1) with 52; lia). unfold fexp, emin.
  replace (Z.min (Z.max (53 + e1 - (53 + e2) - 53) (3 - 1024 - 53)) (e1 - e2)) with (e1 - e2 - 53) by lia.
  replace (e1 - e2 - (e1 - e2 - 53)) with 53 by lia. rewrite Z.shiftl_mul_pow2 by lia.
  assert (Z.pos m1 * 2 ^ 53 = k * 2 ^ (53 - e1 + e2) * Z.pos m2) as Hq.
  { rewrite Hv1, Hv2. replace (k * 2 ^ (53 - e1 + e2) * (b * 2 ^ (- e2))) with (k * b * (2 ^ (53 - e1 + e2) * 2 ^ (- e2))) by ring.
    rewrite <- Z.mul_assoc, <- !Z.pow_add_r by lia. do 2 f_equal. lia. }
  assert (Z.div_eucl (Z.pos m1 * 2 ^ 53) (Z.pos m2) = (k * 2 ^ (53 - e1 + e2), 0)) as ->.
  { rewrite Hq. pose proof (Z.div_mul (k * 2 ^ (53 - e1 + e2)) (Z.pos m2) ltac:(lia)) as Hd. pose proof (Z_mod_mult (k * 2 ^ (53 - e1 + e2)) (Z.pos m2)) as Hm.
    unfold Z.div in Hd. unfold Z.modulo in Hm. destruct (Z.div_eucl _ _). cbn in *. congruence. }
  assert (new_location (Z.pos m2) 0 = loc_Exact) as -> by (unfold new_location, new_location_even, new_location_odd; by destruct (Z.even _)).
  destruct (dbl_of_Z_shape k ltac:(lia) ltac:(lia)) as (m & e & -> & He & Hm & Hv). rewrite (proj2 (Z.ltb_ge k 0)) in * by lia. cbn [cond_Zopp] in Hv.
  assert (k * 2 ^ (53 - e1 + e2) = Z.pos m * 2 ^ (53 - e1 + e2 + e) /\ 0 <= 53 - e1 + e2 + e) as [-> Hp].
  { assert (0 <= 53 - e1 + e2 + e) as Hp.
    { destruct (decide (0 <= 53 - e1 + e2 + e)); [done|exfalso]. assert (2 ^ (- e1) * k * b = 2 ^ (- e1) * (k * b)) by ring.
      assert (Z.pos m * Z.pos m2 = Z.pos m1 * 2 ^ (e1 - e2 - e)) as Hmm.
      { rewrite Hv, Hv2, Hv1. replace (k * 2 ^ (- e) * (b * 2 ^ (- e2))) with (k * b * (2 ^ (- e) * 2 ^ (- e2))) by ring.
        rewrite <- (Z.mul_assoc (k * b)), <- !Z.pow_add_r by lia. do 2 f_equal. lia. }
      pose proof (Z.pow_le_mono_r 2 54 (e1 - e2 - e) ltac:(lia) ltac:(lia)). assert (2 ^ 52 * 2 ^ 54 <= Z.pos m1 * 2 ^ (e1 - e2 - e)) by nia.
      assert (Z.pos m * Z.pos m2 < 2 ^ 53 * 2 ^ 53) by nia. lia. }
    split; [|done]. rewrite Hv, <- Z.mul_assoc, <- Z.pow_add_r by lia. do 2 f_equal. lia. }
  rewrite round_exact by lia. f_equal. lia.
Qed.

Lemma dbl_floor_int z : Z.abs z < 2 ^ 53 -> dbl_floor (dbl_of_Z z) = dbl_of_Z z.
Proof.
  intros Hz. destruct (decide (z = 0)) as [->|Hn]; [done|]. destruct (dbl_of_Z_shape z Hn Hz) as (m & e & E & He & Hr & Hv). rewrite E at 1. cbn [dbl_floor].
  destruct (Z.leb_spec 0 e); [done|]. rewrite Hv, Z.div_mul by (pose proof (Z.pow_pos_nonneg 2 (- e)); lia). by rewrite (proj2 (Z.eqb_neq z 0)) by lia.
Qed.

(** A number strictly between two integers. *)
Lemma floor_between m e q : -2000 <= e -> 0 <= q < 2 ^ 53 -> q * 2 ^ 3000 < sv (Z.pos m) e < (q + 1) * 2 ^ 3000 -> dbl_floor (S754_finite false m e) = dbl_of_Z q.
Proof.
  intros He Hq Hs. unfold sv in Hs. assert (e < 0) as Hneg.
  { destruct (decide (e < 0)); [done|exfalso]. replace (e + 3000) with (e + 3000) in Hs by lia. rewrite Z.pow_add_r in Hs by lia.
    assert (0 < 2 ^ 3000) as HC by (apply Z.pow_pos_nonneg; lia). generalize dependent (2 ^ 3000). intros C Hs HC. rewrite Z.mul_assoc in Hs.
    destruct Hs as [H1 H2]. apply Z.mul_lt_mono_pos_r in H1, H2; lia. }
  cbn [dbl_floor cond_Zopp]. rewrite (proj2 (Z.leb_gt 0 e)) by lia.
  replace (2 ^ 3000) with (2 ^ (- e) * 2 ^ (e + 3000)) in Hs by (rewrite <- Z.pow_add_r by lia; f_equal; lia). rewrite !Z.mul_assoc in Hs.
  pose proof (Z.pow_pos_nonneg 2 (e + 3000) ltac:(lia) ltac:(lia)) as HC. destruct Hs as [H1 H2]. apply Z.mul_lt_mono_pos_r in H1, H2; [|done..].
  assert (Z.pos m / 2 ^ (- e) = q) as -> by (symmetry; apply (Z.div_unique_pos _ _ _ (Z.pos m - 2 ^ (- e) * q)); lia).
  destruct (Z.eqb_spec q 0) as [->|]; done.
Qed.

(** Rounding a quotient downwards is the integer quotient: away from the multiples of the
    divisor the error is too small to matter. *)
Lemma dbl_floor_div a b : 0 <= a < 2 ^ 48 -> 0 < b < 2 ^ 24 -> dbl_floor (dbl_div (dbl_of_Z a) (dbl_of_Z b)) = dbl_of_Z (a / b).
Proof.
  intros Ha Hb. pose proof (Z.div_mod a b ltac:(lia)) as Hd. pose proof (Z.mod_pos_bound a b ltac:(lia)) as Hr. destruct (decide (a = 0)) as [->|Ha0].
  { destruct (dbl_of_Z_shape b ltac:(lia) ltac:(lia)) as (m & e & -> & _). by rewrite (proj2 (Z.ltb_ge b 0)) by lia. }
  assert (0 <= a / b <= a) as Hq by (split; [apply Z.div_pos; lia|apply Z.div_le_upper_bound; nia]).
  destruct (decide (a mod b = 0)) as [Hm|Hm].
  { replace a with (a / b * b) at 1 by lia. rewrite dbl_div_int by nia. apply dbl_floor_int. lia. }
  destruct (int_sv a Ha0 ltac:(lia)) as (m1 & e1 & -> & Hm1 & He1 & Hv1). destruct (int_sv b ltac:(lia) ltac:(lia)) as (m2 & e2 & -> & Hm2 & He2 & Hv2).
  rewrite (proj2 (Z.ltb_ge a 0)), (proj2 (Z.ltb_ge b 0)) by lia.
  destruct (div_error false false m1 m2 e1 e2 Hm1 Hm2 ltac:(lia) ltac:(lia)) as (m & e & -> & Hr' & He & Herr).
  rewrite Hv1, Hv2, (Z.abs_eq a), (Z.abs_eq b) in Herr by lia. cbn [xorb]. apply floor_between; [lia|lia|].
  assert (0 < 2 ^ 3000) as HC by (apply Z.pow_pos_nonneg; lia). generalize dependent (2 ^ 3000). intros C Hv1 Hv2 Herr HC.
  set (Y := sv (Z.pos m) e) in *. clearbody Y. replace (Y * (b * C) - a * C * C) with ((Y * b - a * C) * C) in Herr by ring.
  rewrite Z.abs_mul, (Z.abs_eq C) in Herr by lia.
  assert (Z.abs (Y * b - a * C) * 2 ^ 52 <= a * C) as H1 by nia. assert (Z.abs (Y * b - a * C) < C) as H2 by nia.
  generalize dependent (a / b). intros q Hd Hq. generalize dependent (a mod b). intros r Hd Hr Hm. nia.
Qed.

Lemma dbl_mul_nat a b : 0 <= a -> 0 <= b -> a * b < 2 ^ 53 -> a < 2 ^ 53 -> b < 2 ^ 53 -> dbl_mul (dbl_of_Z a) (dbl_of_Z b) = dbl_of_Z (a * b).
Proof.
  intros Ha Hb Hab Ha' Hb'. destruct (decide (a = 0)) as [->|Ha0].
  - destruct (decide (b = 0)) as [->|Hb0]; [done|]. destruct (dbl_of_Z_shape b Hb0 ltac:(lia)) as (m & e & -> & _). by rewrite (proj2 (Z.ltb_ge b 0)) by lia.
  - destruct (decide (b = 0)) as [->|Hb0]; [|apply dbl_mul_int; lia]. rewrite Z.mul_0_r.
    destruct (dbl_of_Z_shape a Ha0 ltac:(lia)) as (m & e & -> & _). by rewrite (proj2 (Z.ltb_ge a 0)) by lia.
Qed.

(** ** Sums of positive numbers *)

Lemma align_value m e ez : ez <= e -> Z.pos (fst (shl_align m e ez)) = Z.pos m * 2 ^ (e - ez).
Proof.
  intros H. unfold shl_align. destruct (ez - e) as [|p|p] eqn:E; [|lia|]; cbn [fst].
  - replace (e - ez) with 0 by lia. lia.
  - rewrite iter_xO. do 2 f_equal. lia.
Qed.

Lemma align_none m e f : e <= f -> shl_align m e f = (m, e).
Proof. intros H. unfold shl_align. destruct (f - e) as [|p|p] eqn:E; [done|done|lia]. Qed.

(** A sum is off by less than one unit in the last place. *)
Lemma add_error m1 e1 m2 e2 : 2 ^ 52 <= Z.pos m1 < 2 ^ 53 -> 2 ^ 52 <= Z.pos m2 < 2 ^ 53 -> -400 <= e1 <= 400 -> -400 <= e2 <= 400 ->
  exists m e, dbl_add (S754_finite false m1 e1) (S754_finite false m2 e2) = S754_finite false m e /\ 2 ^ 52 <= Z.pos m < 2 ^ 53 /\ Z.min e1 e2 <= e /\
    Z.abs (sv (Z.pos m) e - (sv (Z.pos m1) e1 + sv (Z.pos m2) e2)) * 2 ^ 52 <= sv (Z.pos m1) e1 + sv (Z.pos m2) e2.
Proof.
  intros H1 H2 E1 E2. unfold dbl_add. cbn [SFadd cond_Zopp]. set (ez := Z.min e1 e2). rewrite <- Pos2Z.inj_add. cbn [binary_normalize].
  set (q := (fst (shl_align m1 e1 ez) + fst (shl_align m2 e2 ez))%positive).
  assert (Z.pos q = Z.pos m1 * 2 ^ (e1 - ez) + Z.pos m2 * 2 ^ (e2 - ez)) as Hq by (unfold q; rewrite Pos2Z.inj_add, !align_value by lia; done).
  pose proof (Z.pow_pos_nonneg 2 (e1 - ez) ltac:(lia) ltac:(lia)). pose proof (Z.pow_pos_nonneg 2 (e2 - ez) ltac:(lia) ltac:(lia)).
  assert (Z.pos q < 2 ^ (455 - ez)) as Hhi.
  { pose proof (Z.pow_le_mono_r 2 (e1 - ez) (400 - ez) ltac:(lia) ltac:(lia)). pose proof (Z.pow_le_mono_r 2 (e2 - ez) (400 - ez) ltac:(lia) ltac:(lia)).
    replace (455 - ez) with (400 - ez + 55) by lia. rewrite Z.pow_add_r by lia. change (2 ^ 55) with (4 * 2 ^ 53). nia. }
  clearbody q. destruct (digits_from (Z.pos q) 52 ltac:(nia) ltac:(lia)) as (n & Hn & Hd).
  assert (n <= 403 - ez) by (destruct (decide (n <= 403 - ez)); [done|]; pose proof (Z.pow_le_mono_r 2 (455 - ez) (52 + n) ltac:(lia) ltac:(lia)); lia).
  unfold binary_round. rewrite (digits2_unique q (53 + n)) by (replace (53 + n - 1) with (52 + n) by lia; replace (53 + n) with (52 + n + 1) by lia; done).
  unfold fexp, emin. replace (Z.max (53 + n + ez - 53) (3 - 1024 - 53)) with (ez + n) by lia. rewrite align_none by lia.
  destruct (round_faithful false (Z.pos q) ez loc_Exact n Hn ltac:(replace (53 + n) with (52 + n + 1) by lia; done) ltac:(lia) ltac:(lia)) as (m & e & -> & Hm & He & Hb).
  exists m, e. split; [done|]. split; [done|]. split; [lia|]. unfold sv. set (W := 2 ^ (ez + 3000)). assert (0 < W) by (apply Z.pow_pos_nonneg; lia).
  replace (Z.pos m * 2 ^ (e + 3000)) with (Z.pos m * 2 ^ (e - ez) * W) by (unfold W; rewrite <- Z.mul_assoc, <- Z.pow_add_r by lia; do 2 f_equal; lia).
  replace (Z.pos m1 * 2 ^ (e1 + 3000) + Z.pos m2 * 2 ^ (e2 + 3000)) with (Z.pos q * W).
  2: { rewrite Hq, Z.mul_add_distr_r. unfold W. rewrite <- !Z.mul_assoc, <- !Z.pow_add_r by lia. replace (e1 - ez + (ez + 3000)) with (e1 + 3000) by lia. by replace (e2 - ez + (ez + 3000)) with (e2 + 3000) by lia. }
  rewrite <- Z.mul_sub_distr_r, Z.abs_mul, (Z.abs_eq W) by lia. set (y := Z.pos m * 2 ^ (e - ez)) in *. clearbody y. rewrite Z.pow_add_r in Hd by lia.
  pose proof (Z.div_mod (Z.pos q) (2 ^ n) ltac:(lia)). pose proof (Z.mod_pos_bound (Z.pos q) (2 ^ n) ltac:(lia)).
  assert (Z.abs (y - Z.pos q) <= 2 ^ n) by nia. assert (Z.abs (y - Z.pos q) * 2 ^ 52 <= Z.pos q) by nia. nia.
Qed.

(** ** Negation *)

(** The same number, zeros of either sign being one. *)
Definition dbl_same (x y : double) : Prop :=
  match x, y with
  | S754_zero _, S754_zero _ => True
  | _, _ => x = y
  end.

Lemma round_aux_opp s m e l : dbl_opp (binary_round_aux 53 1024 s m e l) = binary_round_aux 53 1024 (negb s) m e l.
Proof. unfold binary_round_aux. destruct (shr_fexp _ _ _ _ _) as [a b]. destruct (shr_fexp _ _ _ _ _) as [c d]. destruct (shr_m c); [done| |done]. by destruct (_ <=? _). Qed.

Lemma normalize_opp m e : dbl_same (binary_normalize 53 1024 (- m) e false) (dbl_opp (binary_normalize 53 1024 m e false)).
Proof.
  assert (forall x, dbl_same x x) as Hrefl by by intros [].
  destruct m as [|p|p]; [|change (- Z.pos p) with (Z.neg p)|change (- Z.neg p) with (Z.pos p)]; unfold binary_normalize; [done|..]; unfold binary_round; destruct (shl_align _ _ _); rewrite round_aux_opp; apply Hrefl.
Qed.

Lemma cond_Zopp_negb s z : cond_Zopp (negb s) z = - cond_Zopp s z.
Proof. destruct s; cbn; lia. Qed.

(** The sum of two numbers with the signs changed. *)
Lemma dbl_add_opp x x' y : dbl_same x' (dbl_opp x) -> dbl_same (dbl_add x' (dbl_opp y)) (dbl_opp (dbl_add x y)).
Proof.
  assert (forall x, dbl_same x x) as Hrefl by by intros [].
  intros Hx. destruct x as [sx|sx| |sx mx ex], x' as [sx'|sx'| |sx' mx' ex']; cbn [dbl_same dbl_opp SFopp] in Hx; try done; destruct y as [sy|sy| |sy my ey];
    try (injection Hx; intros; subst); try (by destruct sx, sy); try (by destruct sx, sx', sy); try done.
  unfold dbl_add, dbl_opp. cbn [SFadd SFopp]. rewrite !cond_Zopp_negb, <- Z.opp_add_distr. apply normalize_opp.
Qed.
