(* ===== verification/NavBits.v ===== *)
(** * Fields of navigation messages

    Every navigation message class of [core/system_parameters] keeps a received message in a
    [std::bitset] and reads its fields by lists of slices [(first bit, number of bits)], with
    the bits numbered from 1 in the order of reception, as in the interface documents. The
    readers are the same code in each class but for the length of the message and, in GLONASS,
    the sign.

    A [bitset] is the list of its bits by index. An index outside it is undefined behaviour and
    [None] here. *)
From S2P Require Import Prelude.

Abbreviation slices := (list (Z * Z)).

(** The inner loop of the readers: bits [first], ..., [first + n - 1] appended to a value by
    [push]. *)
Fixpoint read_slice (N : Z) (bits : list bool) (push : Z -> bool -> Z) (first j : Z) (n : nat) (value : Z) : option Z :=
  match n with
  | O => Some value
  | S n' => b ← rd bits (N - first - j); read_slice N bits push first (j + 1) n' (push value b)
  end.

(** The loop over the slices, each from its bit number [j0]. *)
Fixpoint read_slices (N : Z) (bits : list bool) (push : Z -> bool -> Z) (j0 : Z) (parameter : slices) (value : Z) : option Z :=
  match parameter with
  | [] => Some value
  | (first, n) :: rest =>
      v ← read_slice N bits push first j0 (Z.to_nat (n - j0)) value;
      read_slices N bits push j0 rest v
  end.

Definition read_navigation_bool (N : Z) (bits : list bool) (parameter : slices) : option bool :=
  p ← rd parameter 0; rd bits (N - p.1).

(** [value <<= 1; if (bit) value += 1] on 64 bits. *)
Definition push_unsigned (value : Z) (b : bool) : Z := u64 (u64 (Z.shiftl value 1) + Z.b2z b).

Definition read_navigation_unsigned (N : Z) (bits : list bool) (parameter : slices) : option Z :=
  read_slices N bits push_unsigned 0 parameter 0.

(** [value *= 2; value &= 0xFFFFFFFFFFFFFFFE; if (bit) value += 1] on a signed integer of
    64 bits; the mask is applied to its two's complement. *)
Definition push_signed (value : Z) (b : bool) : Z := i64 (Z.land (u64 (value * 2)) 0xFFFFFFFFFFFFFFFE) + Z.b2z b.

Definition read_navigation_signed (N : Z) (bits : list bool) (parameter : slices) : option Z :=
  p ← rd parameter 0;
  msb ← rd bits (N - p.1);
  read_slices N bits push_signed 0 parameter (if msb : bool then -1 else 0).

(** ** Messages in the order of reception *)

(** The bits that [parameter] selects of the message [m]. *)
Definition field (m : list bool) (parameter : slices) : list bool :=
  mbind (fun p : Z * Z => take (Z.to_nat p.2) (drop (Z.to_nat (p.1 - 1)) m)) parameter.

(** The slices lie within [N] bits, and are not empty. *)
Definition slices_in (N : Z) (parameter : slices) : bool :=
  forallb (fun p : Z * Z => (1 <=? p.1) && (1 <=? p.2) && (p.1 + p.2 - 1 <=? N)) parameter.

Definition slices_width (parameter : slices) : Z := foldr (fun (p : Z * Z) n => p.2 + n) 0 parameter.

(** A usable field of up to [w] bits. *)
Definition field_ok (N w : Z) (parameter : slices) : bool :=
  slices_in N parameter && (slices_width parameter <=? w) && match parameter with [] => false | _ => true end.

Lemma rd_bitset N (m : list bool) (k : Z) : Z.of_nat (length m) = N -> 1 <= k <= N -> rd (reverse m) (N - k) = m !! Z.to_nat (k - 1).
Proof.
  intros Hl Hk. rewrite rd_nonneg, reverse_lookup by lia. f_equal. lia.
Qed.

Lemma field_cons m first n p : field m ((first, n) :: p) = take (Z.to_nat n) (drop (Z.to_nat (first - 1)) m) ++ field m p.
Proof. done. Qed.

Lemma read_slice_spec N m push first j n v : Z.of_nat (length m) = N -> 1 <= first + j -> 0 <= j ->
  first + j + Z.of_nat n - 1 <= N ->
  read_slice N (reverse m) push first j n v = Some (fold_left push (take n (drop (Z.to_nat (first + j - 1)) m)) v).
Proof.
  intros Hl. revert j v. induction n as [|n IH]; intros j v H1 Hj Hn; [done|]. cbn [read_slice].
  replace (N - first - j) with (N - (first + j)) by lia. rewrite rd_bitset by lia.
  destruct (lookup_lt_is_Some_2 m (Z.to_nat (first + j - 1))) as [b Hb]; [lia|]. rewrite Hb. cbn [mbind option_bind].
  rewrite IH by lia. rewrite (drop_S _ _ _ Hb). cbn [take fold_left]. do 4 f_equal. lia.
Qed.

Lemma read_slices_spec N m push p v : Z.of_nat (length m) = N -> slices_in N p = true ->
  read_slices N (reverse m) push 0 p v = Some (fold_left push (field m p) v).
Proof.
  intros Hl. revert v. induction p as [|[first n] p IH]; intros v Hp; [done|]. cbn [slices_in forallb] in Hp.
  apply andb_true_iff in Hp as [Hs Hp]. cbn in Hs. cbn [read_slices]. rewrite field_cons, fold_left_app.
  rewrite read_slice_spec by lia. cbn [mbind option_bind]. rewrite Z.sub_0_r, Z.add_0_r. by apply IH.
Qed.

Lemma field_length N m p : Z.of_nat (length m) = N -> slices_in N p = true -> Z.of_nat (length (field m p)) = slices_width p.
Proof.
  intros Hl. induction p as [|[first n] p IH]; intros Hp; [done|]. cbn [slices_in forallb] in Hp.
  apply andb_true_iff in Hp as [Hs Hp]. cbn in Hs. rewrite field_cons, length_app, length_take, length_drop.
  cbn [slices_width foldr snd]. fold (slices_width p). specialize (IH Hp). lia.
Qed.

Lemma fold_unsigned l v : 0 <= v -> v * 2 ^ Z.of_nat (length l) + bits_val l < 2 ^ 64 ->
  fold_left push_unsigned l v = v * 2 ^ Z.of_nat (length l) + bits_val l.
Proof.
  revert v. induction l as [|b l IH]; intros v Hv Hlt; [cbn in *; lia|]. cbn [fold_left].
  rewrite bits_val_cons in *. cbn [length] in *. rewrite Nat2Z.inj_succ, Z.pow_succ_r in * by lia.
  pose proof (bits_val_range l). set (w := 2 ^ Z.of_nat (length l)) in *.
  assert (1 <= w) by (unfold w; lia). assert (0 <= Z.b2z b <= 1) by (destruct b; cbn; lia).
  assert (push_unsigned v b = 2 * v + Z.b2z b) as ->.
  { assert (2 * v + Z.b2z b <= (2 * v + Z.b2z b) * w) by nia.
    unfold push_unsigned. rewrite Z.shiftl_mul_pow2, Z.pow_1_r by lia. rewrite (uwrap_small 64 (v * 2)), uwrap_small by lia. lia. }
  rewrite IH; nia.
Qed.

(** Unsigned fields are read as numbers, most significant bit first. *)
Lemma read_unsigned_field N m p : Z.of_nat (length m) = N -> field_ok N 64 p = true ->
  read_navigation_unsigned N (reverse m) p = Some (bits_val (field m p)).
Proof.
  intros Hl Hp. unfold field_ok in Hp. apply andb_true_iff in Hp as [[Hi Hw]%andb_true_iff _]. apply Z.leb_le in Hw.
  unfold read_navigation_unsigned. rewrite (read_slices_spec N) by done. f_equal.
  pose proof (bits_val_range (field m p)) as Hr. rewrite (field_length N) in Hr by done.
  pose proof (Z.pow_le_mono_r 2 (slices_width p) 64 ltac:(lia) Hw).
  rewrite fold_unsigned; lia.
Qed.

Lemma push_signed_spec v b : - 2 ^ 62 <= v < 2 ^ 62 -> push_signed v b = 2 * v + Z.b2z b.
Proof.
  intros Hv. unfold push_signed. f_equal.
  assert (Z.land (u64 (v * 2)) 0xFFFFFFFFFFFFFFFE = u64 (v * 2)) as ->.
  { apply Z.bits_inj'. intros k Hk. rewrite Z.land_spec, testbit_uwrap by lia.
    destruct (Z.ltb_spec k 64); [|done]. cbn [andb]. destruct (decide (k = 0)) as [->|].
    - rewrite (Z.mul_comm v), Z.testbit_even_0. done.
    - replace (Z.testbit 0xFFFFFFFFFFFFFFFE k) with true; [apply andb_true_r|].
      change 0xFFFFFFFFFFFFFFFE with (Z.ldiff (Z.ones 64) 1). rewrite Z.ldiff_spec, Z.ones_spec_low by lia.
      by rewrite (testbit_above 1 1 k) by lia. }
  unfold uwrap, swrap. rewrite Zplus_mod_idemp_l, Z.mod_small; lia.
Qed.

Lemma fold_signed l v : - 2 ^ 62 <= v * 2 ^ Z.of_nat (length l) -> (v + 1) * 2 ^ Z.of_nat (length l) <= 2 ^ 62 ->
  fold_left push_signed l v = v * 2 ^ Z.of_nat (length l) + bits_val l.
Proof.
  revert v. induction l as [|b l IH]; intros v H1 H2; [cbn in *; lia|]. cbn [fold_left].
  rewrite bits_val_cons in *. cbn [length] in *. rewrite Nat2Z.inj_succ, Z.pow_succ_r in * by lia.
  set (w := 2 ^ Z.of_nat (length l)) in *. assert (1 <= w) by (unfold w; lia).
  rewrite push_signed_spec by nia. destruct b; cbn [Z.b2z] in *; rewrite IH; nia.
Qed.

(** Signed fields are read as two's complement numbers. *)
Lemma read_signed_field N m p : Z.of_nat (length m) = N -> field_ok N 62 p = true ->
  read_navigation_signed N (reverse m) p = Some (signed_val (field m p)).
Proof.
  intros Hl Hp. unfold field_ok in Hp. apply andb_true_iff in Hp as [[Hi Hw]%andb_true_iff Hne]. apply Z.leb_le in Hw.
  pose proof (field_length N m p Hl Hi) as Hf. unfold read_navigation_signed.
  destruct p as [|[first n] p]; [done|]. cbn [slices_in forallb] in Hi.
  pose proof Hi as Hi'. apply andb_true_iff in Hi' as [Hs _]. cbn in Hs.
  change (rd ((first, n) :: p) 0) with (Some (first, n)). cbn [mbind option_bind fst].
  rewrite rd_bitset by lia. destruct (lookup_lt_is_Some_2 m (Z.to_nat (first - 1))) as [b Hb]; [lia|].
  rewrite Hb. cbn [mbind option_bind]. rewrite (read_slices_spec N) by done. f_equal.
  assert (exists l, field m ((first, n) :: p) = b :: l) as [l Hl'].
  { rewrite field_cons, (drop_S _ _ _ Hb). destruct (Z.to_nat n) eqn:E; [lia|]. cbn [take app]. eauto. }
  rewrite Hl' in *. pose proof (Z.pow_le_mono_r 2 (Z.of_nat (length (b :: l))) 62 ltac:(lia) ltac:(lia)).
  pose proof (bits_val_range (b :: l)). destruct b; rewrite fold_signed by lia; cbn [signed_val]; lia.
Qed.

Lemma signed_val_range l : l <> [] -> - 2 ^ (Z.of_nat (length l) - 1) <= signed_val l < 2 ^ (Z.of_nat (length l) - 1).
Proof.
  destruct l as [|b l]; [done|]. intros _. cbn [length signed_val]. rewrite bits_val_cons.
  replace (Z.of_nat (S (length l)) - 1) with (Z.of_nat (length l)) by lia. pose proof (bits_val_range l).
  destruct b; cbn [Z.b2z]; [|lia]. rewrite Nat2Z.inj_succ, Z.pow_succ_r by lia. lia.
Qed.

Lemma read_bool_field N m first n p : Z.of_nat (length m) = N -> 1 <= first <= N ->
  read_navigation_bool N (reverse m) ((first, n) :: p) = m !! Z.to_nat (first - 1).
Proof.
  intros Hl Hf. unfold read_navigation_bool. change (rd ((first, n) :: p) 0) with (Some (first, n)).
  cbn [mbind option_bind fst]. by apply rd_bitset.
Qed.

(** Fields of messages that agree where [P] holds. *)
Definition field_within (P : Z -> bool) (parameter : slices) : bool :=
  forallb (fun p : Z * Z => forallb (fun k => P (p.1 - 1 + Z.of_nat k)) (List.seq 0 (Z.to_nat p.2))) parameter.

Lemma field_ext (P : Z -> bool) N m m' p : slices_in N p = true -> field_within P p = true ->
  (forall k : nat, P (Z.of_nat k) = true -> m !! k = m' !! k) -> field m p = field m' p.
Proof.
  intros Hi Hp Hm. induction p as [|[first n] p IH]; [done|]. cbn [field_within forallb slices_in] in Hi, Hp.
  apply andb_true_iff in Hi as [Hi1 Hi]. apply andb_true_iff in Hp as [Hp1 Hp]. cbn [fst snd] in *. rewrite !field_cons.
  f_equal; [|by apply IH]. apply list_eq. intros k. rewrite !lookup_field. case_decide as Hk; [|done]. apply Hm.
  replace (Z.of_nat (Z.to_nat (first - 1) + k)) with (first - 1 + Z.of_nat k) by lia.
  apply (proj1 (forallb_forall _ _) Hp1). apply in_seq. lia.
Qed.

(** ** Concatenations of parts of the same length *)
Section Uniform.
Context {A B : Type} (f : A -> list B) (n : nat) (Hf : forall x, length (f x) = n).

Lemma mbind_cons x l : mbind f (x :: l) = f x ++ mbind f l.
Proof. done. Qed.

Lemma length_mbind l : length (mbind f l) = (n * length l)%nat.
Proof. induction l as [|x l IH]; [cbn; lia|]. rewrite mbind_cons, length_app, IH, Hf. cbn [length]. lia. Qed.

Lemma lookup_mbind l i x k : l !! i = Some x -> (k < n)%nat -> mbind f l !! (n * i + k)%nat = f x !! k.
Proof.
  intros Hi Hk. pose proof (lookup_lt_Some _ _ _ Hi) as Hlt. rewrite <- (take_drop_middle l i x Hi), bind_app.
  pose proof (length_mbind (take i l)) as Hl. rewrite length_take, Nat.min_l in Hl by lia.
  rewrite lookup_app_r, Hl by lia. rewrite mbind_cons, lookup_app_l by (rewrite Hf; lia). f_equal. lia.
Qed.
End Uniform.
