(* ===== verification/Bits.v ===== *)
(** * Bits: bit fields in byte buffers

    Model of [src/algorithms/telemetry_decoder/libs/libswiftcnav/bits.c].
    Buffers are lists of bytes; the bit view of a buffer is [bitlist], most
    significant bit of each byte first. *)
From S2P Require Import Prelude.

(** ** Operations *)

(** [BITN]: number of set bits in a nibble. *)
Definition BITN : list Z := [0; 1; 1; 2; 1; 2; 2; 3; 1; 2; 2; 3; 2; 3; 3; 4].

Definition parity (x0 : Z) : Z :=
  let x1 := Z.lxor x0 (Z.shiftr x0 16) in
  let x2 := Z.lxor x1 (Z.shiftr x1 8) in
  let x3 := Z.lxor x2 (Z.shiftr x2 4) in
  let x4 := Z.land x3 15 in
  Z.land (Z.shiftr 0x6996 x4) 1.

Definition getbitu_body (buff : list Z) (i bits : Z) : option Z :=
  b ← rd buff (i / 8);
  Some (u32 (u32 (Z.shiftl bits 1) + Z.land (Z.shiftr b (7 - i mod 8)) 1)).

Definition getbitu (buff : list Z) (pos len : Z) : option Z :=
  for_loop (Z.to_nat (u32 (pos + len) - pos)) pos (getbitu_body buff) 0.

Definition getbits (buff : list Z) (pos len : Z) : option Z :=
  u ← getbitu buff pos len;
  let bits := i32 u in
  mu ← shl_u32 1 (len - 1);
  let m := i32 mu in
  chk_i32 (Z.lxor bits m - m).

Definition setbitu_body (data i : Z) (s : list Z * Z) : option (list Z * Z) :=
  let '(buff, mask) := s in
  b ← rd buff (i / 8);
  let b' :=
    if Z.land data mask =? 0
    then u8 (Z.land b (u32 (Z.lnot (Z.shiftl 1 (7 - i mod 8)))))
    else u8 (Z.lor b (Z.shiftl 1 (7 - i mod 8))) in
  buff' ← wr buff (i / 8) b';
  Some (buff', Z.shiftr mask 1).

Definition setbitu (buff : list Z) (pos len data : Z) : option (list Z) :=
  mask ← shl_u32 1 (u32 (len - 1));
  if (len <=? 0) || (32 <? len) then Some buff
  else fst <$> for_loop (Z.to_nat (u32 (pos + len) - pos)) pos (setbitu_body data)
                 (buff, mask).

Definition setbits (buff : list Z) (pos len data : Z) : option (list Z) :=
  setbitu buff pos len (u32 data).

(** The C library's [memset] and [memmove] inside one buffer. *)
Definition memset (buf : list Z) (off : Z) (v n : Z) : option (list Z) :=
  if decide (0 <= off /\ 0 <= n /\ off + n <= Z.of_nat (length buf))
  then Some (take (Z.to_nat off) buf ++ replicate (Z.to_nat n) v
               ++ drop (Z.to_nat (off + n)) buf)
  else None.

Definition memmove (buf : list Z) (dst src n : Z) : option (list Z) :=
  if decide (0 <= dst /\ 0 <= src /\ 0 <= n
             /\ dst + n <= Z.of_nat (length buf) /\ src + n <= Z.of_nat (length buf))
  then Some (take (Z.to_nat dst) buf ++ take (Z.to_nat n) (drop (Z.to_nat src) buf)
               ++ drop (Z.to_nat (dst + n)) buf)
  else None.

Definition bitshl_body (src byte_shift i : Z) (s : list Z * Z) : option (list Z * Z) :=
  let '(b, acc) := s in
  x ← rd b (src + 1 + i);
  let acc' := Z.lor (u32 (Z.shiftl acc 8)) x in
  b' ← wr b i (u8 (Z.shiftr acc' byte_shift));
  Some (b', acc').

Definition bitshl (buf : list Z) (size shift : Z) : option (list Z) :=
  if u32 (size * 8) <? shift then memset buf 0 0 size
  else
    let src := shift / 8 in
    let copy_bits := u32 (u32 (size * 8) - shift) in
    let byte_shift := copy_bits mod 8 in
    let full_bytes := copy_bits / 8 in
    if 0 =? byte_shift then
      buf1 ← memmove buf 0 src full_bytes;
      memset buf1 full_bytes 0 (size - full_bytes)
    else
      acc ← rd buf src;
      '(buf1, acc1) ← for_loop (Z.to_nat full_bytes) 0
        (bitshl_body src byte_shift) (buf, acc);
      buf2 ← wr buf1 full_bytes (u8 (Z.shiftr (u32 (Z.shiftl acc1 8)) byte_shift));
      if full_bytes + 1 <? size
      then memset buf2 (full_bytes + 1) 0 (size - full_bytes - 1)
      else Some buf2.

Definition bitcopy_body (src : list Z) (_ : Z) (s : list Z * Z * Z)
  : option (list Z * Z * Z) :=
  let '(dst, di, si) := s in
  tmp ← getbitu src si 32;
  dst' ← setbitu dst di 32 tmp;
  Some (dst', u32 (di + 32), u32 (si + 32)).

Definition bitcopy (dst : list Z) (dst_index : Z) (src : list Z) (src_index : Z)
    (count : Z) : option (list Z) :=
  let limit1 := count / 32 in
  let limit2 := count mod 32 in
  '(dst1, di, si) ← for_loop (Z.to_nat limit1) 0 (bitcopy_body src)
    (dst, dst_index, src_index);
  if 0 =? limit2 then Some dst1
  else
    tmp ← getbitu src si limit2;
    setbitu dst1 di limit2 tmp.

(** The four population counts differ in the number of nibbles only:
    [n] is 16, 8, 4 or 2; [r] is a [uint8_t]. *)
Definition count_nibbles (n : nat) (v : Z) : option Z :=
  for_loop n 0
    (fun i r =>
       x ← rd BITN (Z.land (Z.shiftr v (i * 4)) 15);
       Some (u8 (r + x)))
    0.

Definition count_bits_u64 (v bv : Z) : option Z :=
  r ← count_nibbles 16 v; Some (if bv =? 1 then r else u8 (64 - r)).
Definition count_bits_u32 (v bv : Z) : option Z :=
  r ← count_nibbles 8 v; Some (if bv =? 1 then r else u8 (32 - r)).
Definition count_bits_u16 (v bv : Z) : option Z :=
  r ← count_nibbles 4 v; Some (if bv =? 1 then r else u8 (16 - r)).
Definition count_bits_u8 (v bv : Z) : option Z :=
  r ← count_nibbles 2 v; Some (if bv =? 1 then r else u8 (8 - r)).

(** ** Reading *)

Lemma bits_val_snoc l b : bits_val (l ++ [b]) = 2 * bits_val l + Z.b2z b.
Proof. rewrite bits_val_app, bits_val_cons. cbn. lia. Qed.

Lemma bit_of_byte (b k : Z) :
  0 <= k -> Z.land (Z.shiftr b k) 1 = Z.b2z (Z.testbit b k).
Proof.
  intros Hk. change 1 with (Z.ones 1). rewrite Z.land_ones, Z.testbit_spec' by lia.
  by rewrite Z.shiftr_div_pow2.
Qed.

(** The byte holding bit [i] of a buffer, and that bit. *)
Lemma rd_bitlist buff i :
  0 <= i < 8 * Z.of_nat (length buff) ->
  exists b, rd buff (i / 8) = Some b /\ buff !! Z.to_nat (i / 8) = Some b /\
    bitlist buff !! Z.to_nat i = Some (Z.testbit b (7 - i mod 8)).
Proof.
  intros Hi. destruct (rd_in buff (i / 8)) as [b Hb].
  { split; [apply Z.div_pos; lia|apply Z.div_lt_upper_bound; lia]. }
  exists b. pose proof Hb as Hb'. apply rd_Some in Hb' as [_ Hb'].
  split_and!; [done..|]. rewrite lookup_bitlist.
  replace (Z.to_nat i / 8)%nat with (Z.to_nat (i / 8)) by (by rewrite Z2Nat.inj_div by lia).
  rewrite Hb'. simpl. do 2 f_equal. by rewrite Z2Nat.id by lia.
Qed.

Lemma getbitu_u32 buff (pos len : nat) :
  Z.of_nat (pos + len) < 2 ^ 32 -> (pos + len <= 8 * length buff)%nat ->
  getbitu buff (Z.of_nat pos) (Z.of_nat len) =
  Some (u32 (bits_val (take len (drop pos (bitlist buff))))).
Proof.
  intros H32 Hlen. unfold getbitu.
  rewrite <- Nat2Z.inj_add, uwrap_small, Nat2Z.inj_add by lia.
  replace (Z.to_nat _) with len by lia.
  destruct (for_loop_inv
    (fun i bits => bits = u32 (bits_val (take (Z.to_nat i - pos) (drop pos (bitlist buff)))))
    len (Z.of_nat pos) (getbitu_body buff) 0) as (r & -> & Hr).
  - by replace (_ - pos)%nat with 0%nat by lia.
  - intros i bits Hi ->. pose proof (Z.mod_pos_bound i 8).
    destruct (rd_bitlist buff i) as (b & Hrd & _ & Hb); [lia|].
    unfold getbitu_body. rewrite Hrd. eexists. split; [done|]. simpl.
    replace (Z.to_nat (i + 1) - pos)%nat with (S (Z.to_nat i - pos)) by lia.
    erewrite take_S_r by (rewrite lookup_drop; replace (pos + (Z.to_nat i - pos))%nat with (Z.to_nat i) by lia; done).
    rewrite bits_val_snoc, bit_of_byte by lia.
    rewrite uwrap_shiftl, uwrap_add_l, Z.shiftl_mul_pow2 by lia. f_equal. lia.
  - rewrite Hr. do 4 f_equal. lia.
Qed.

Lemma getbitu_bits buff (pos len : nat) :
  Z.of_nat (pos + len) < 2 ^ 32 -> (pos + len <= 8 * length buff)%nat -> (len <= 32)%nat ->
  getbitu buff (Z.of_nat pos) (Z.of_nat len) =
  Some (bits_val (take len (drop pos (bitlist buff)))).
Proof.
  intros. rewrite getbitu_u32 by done. f_equal. apply uwrap_small.
  pose proof (bits_val_range (take len (drop pos (bitlist buff)))) as Hr.
  rewrite length_take in Hr. split; [lia|].
  eapply Z.lt_le_trans; [apply Hr|]. apply Z.pow_le_mono_r; lia.
Qed.

(** Sign extension by [(bits ^ m) - m] in 32-bit arithmetic, as [getbits] has it. *)
Lemma sign_extend_i32 l :
  (1 <= length l <= 32)%nat ->
  (mu ← shl_u32 1 (Z.of_nat (length l) - 1);
   chk_i32 (Z.lxor (i32 (bits_val l)) (i32 mu) - i32 mu)) =
  if decide (length l = 32%nat /\ signed_val l < 0) then None else Some (signed_val l).
Proof.
  intros Hl. destruct l as [|b l]; [simpl in Hl; lia|]. cbn [length] in *.
  unfold shl_u32. rewrite decide_True by lia. cbn [mbind option_bind].
  replace (Z.of_nat (S (length l)) - 1) with (Z.of_nat (length l)) by lia.
  rewrite Z.shiftl_1_l, signed_val_cons, bits_val_cons.
  pose proof (bits_val_range l) as Hr. set (n := Z.of_nat (length l)) in *.
  assert (2 ^ n <= 2 ^ 31) by (apply Z.pow_le_mono_r; lia).
  rewrite (uwrap_small 32 (2 ^ n)) by lia.
  destruct (decide (n < 31)).
  - assert (2 ^ n <= 2 ^ 30) by (apply Z.pow_le_mono_r; lia).
    rewrite decide_False by lia.
    rewrite !swrap_small by (destruct b; simpl; lia).
    rewrite lxor_pow2, testbit_b2z_shift, decide_True by lia.
    unfold chk_i32. destruct b; cbn [Z.b2z]; rewrite decide_True by lia; f_equal; lia.
  - assert (n = 31) as Hn by lia. rewrite Hn in *.
    change (i32 (2 ^ 31)) with (- 2 ^ 31).
    assert (i32 (Z.b2z b * 2 ^ 31 + bits_val l) = bits_val l - Z.b2z b * 2 ^ 31) as ->.
    { unfold swrap. destruct b; cbn [Z.b2z].
      - replace (_ mod _) with (bits_val l); [lia|].
        apply (Z.mod_unique_pos _ _ 1); lia.
      - rewrite Z.mod_small; lia. }
    rewrite lxor_sign by (destruct b; simpl; lia).
    unfold chk_i32. destruct b; cbn [Z.b2z];
      repeat case_decide; first [done | lia | f_equal; lia].
Qed.

Lemma getbits_bits buff (pos len : nat) :
  Z.of_nat (pos + len) < 2 ^ 32 -> (pos + len <= 8 * length buff)%nat ->
  (1 <= len <= 32)%nat ->
  getbits buff (Z.of_nat pos) (Z.of_nat len) =
  let field := take len (drop pos (bitlist buff)) in
  if decide (len = 32%nat /\ signed_val field < 0) then None
  else Some (signed_val field).
Proof.
  intros H32 Hlen Hl. unfold getbits. rewrite getbitu_bits by lia.
  cbn [mbind option_bind]. set (field := take len (drop pos (bitlist buff))).
  assert (length field = len) as Hf
    by (unfold field; rewrite length_take, length_drop, length_bitlist; lia).
  rewrite <- Hf. apply sign_extend_i32. lia.
Qed.

(** ** Writing *)

(** The byte [setbitu] writes for one bit. *)
Definition put_bit (b p : Z) (v : bool) : Z :=
  if v then u8 (Z.lor b (Z.shiftl 1 p))
  else u8 (Z.land b (u32 (Z.lnot (Z.shiftl 1 p)))).

Lemma testbit_put_bit b p v q :
  0 <= p < 8 -> 0 <= q < 8 ->
  Z.testbit (put_bit b p v) q = if decide (q = p) then v else Z.testbit b q.
Proof.
  intros Hp Hq. unfold put_bit. rewrite Z.shiftl_1_l.
  destruct v; autorewrite with tb; rewrite Z.pow2_bits_eqb by lia;
    rewrite !(proj2 (Z.ltb_lt _ _)) by lia;
    destruct (Z.eqb_spec p q); case_decide; subst; try lia; simpl;
    rewrite ?orb_true_r, ?orb_false_r, ?andb_true_r, ?andb_false_r; done.
Qed.

Lemma mask_test data k :
  0 <= k -> (Z.land data (2 ^ k) =? 0) = negb (Z.testbit data k).
Proof.
  intros Hk. destruct (Z.testbit data k) eqn:Hd; simpl.
  - apply Z.eqb_neq. intros H. apply (f_equal (fun z => Z.testbit z k)) in H.
    by rewrite Z.land_spec, Hd, Z.pow2_bits_true, Z.bits_0 in H by lia.
  - apply Z.eqb_eq, Z.bits_inj'. intros j Hj.
    rewrite Z.land_spec, Z.pow2_bits_eqb, Z.bits_0 by lia.
    destruct (Z.eqb_spec k j); [subst; by rewrite Hd|apply andb_false_r].
Qed.

(** One iteration of [setbitu] writes one bit. *)
Lemma put_bit_bitlist buff i v :
  bytes buff -> 0 <= i < 8 * Z.of_nat (length buff) ->
  exists b, rd buff (i / 8) = Some b /\
    wr buff (i / 8) (put_bit b (7 - i mod 8) v) =
      Some (<[Z.to_nat (i / 8) := put_bit b (7 - i mod 8) v]> buff) /\
    bytes (<[Z.to_nat (i / 8) := put_bit b (7 - i mod 8) v]> buff) /\
    bitlist (<[Z.to_nat (i / 8) := put_bit b (7 - i mod 8) v]> buff) =
      <[Z.to_nat i := v]> (bitlist buff).
Proof.
  intros Hb Hi. destruct (rd_bitlist buff i Hi) as (b & Hrd & Hlk & Hbit).
  pose proof (Z.mod_pos_bound i 8). pose proof (Z.div_pos i 8).
  assert (i / 8 < Z.of_nat (length buff)) by (apply Z.div_lt_upper_bound; lia).
  exists b. split_and!.
  - done.
  - apply wr_in. lia.
  - apply bytes_insert; [done|]. unfold put_bit. destruct v; apply u8_byte.
  - apply list_eq. intros k. rewrite lookup_bitlist_insert by lia.
    assert (Hkdiv : (k / 8)%nat = Z.to_nat (Z.of_nat k / 8)) by (rewrite Z2Nat.inj_div, Nat2Z.id by lia; done).
    assert (Hlt : (Z.to_nat i < length (bitlist buff))%nat) by (rewrite length_bitlist; lia).
    pose proof (Z.mod_pos_bound (Z.of_nat k) 8).
    pose proof (Z.div_mod (Z.of_nat k) 8). pose proof (Z.div_mod i 8).
    pose proof (Z.div_pos (Z.of_nat k) 8).
    case_decide as Hk.
    + rewrite testbit_put_bit by lia. case_decide.
      * replace k with (Z.to_nat i) by lia. by rewrite list_lookup_insert_eq.
      * rewrite list_lookup_insert_ne by lia. rewrite lookup_bitlist, Hk, Hlk. done.
    + by rewrite list_lookup_insert_ne by lia.
Qed.

(** Invariant of the loop of [setbitu] after the bits before [i] are written. *)
Definition setbitu_inv (buff : list Z) (pos len : nat) (data i : Z) (s : list Z * Z) : Prop :=
  let '(bf, m) := s in
  bytes bf /\ length bf = length buff /\
  (i < Z.of_nat (pos + len) -> m = 2 ^ (Z.of_nat (pos + len) - 1 - i)) /\
  forall k, bitlist bf !! k =
    if decide (pos <= k < Z.to_nat i)%nat
    then Some (Z.testbit data (Z.of_nat (pos + len) - 1 - Z.of_nat k))
    else bitlist buff !! k.

Lemma setbitu_body_inv buff (pos len : nat) data i s :
  (pos + len <= 8 * length buff)%nat ->
  Z.of_nat pos <= i < Z.of_nat (pos + len) ->
  setbitu_inv buff pos len data i s ->
  exists s', setbitu_body data i s = Some s' /\ setbitu_inv buff pos len data (i + 1) s'.
Proof.
  destruct s as [bf m]. intros Hlen Hi (Hbf & Hlf & Hm & Hk).
  specialize (Hm ltac:(lia)). subst m.
  set (v := Z.testbit data (Z.of_nat (pos + len) - 1 - i)).
  destruct (put_bit_bitlist bf i v) as (b & Hrd & Hwr & Hbs & Hbits); [done|lia|].
  unfold setbitu_body. rewrite Hrd. cbn [mbind option_bind].
  rewrite mask_test by lia. fold v.
  replace (if negb v then _ else _) with (put_bit b (7 - i mod 8) v) by (by destruct v).
  rewrite Hwr. eexists (_, _). split; [done|]. cbn beta iota. split_and!; [done| | |].
  - by rewrite length_insert.
  - intros Hlt. rewrite Z.shiftr_div_pow2 by lia. rewrite <- Z.pow_sub_r by lia. f_equal. lia.
  - intros k. rewrite Hbits. destruct (decide (k = Z.to_nat i)) as [->|Hne].
    + rewrite list_lookup_insert_eq by (rewrite length_bitlist; lia).
      rewrite decide_True by lia. unfold v. do 2 f_equal. lia.
    + rewrite list_lookup_insert_ne, Hk by done. do 2 case_decide; try lia; done.
Qed.

Lemma setbitu_bits buff (pos len : nat) data :
  bytes buff -> Z.of_nat (pos + len) < 2 ^ 32 -> (pos + len <= 8 * length buff)%nat ->
  (1 <= len <= 32)%nat ->
  exists buff', setbitu buff (Z.of_nat pos) (Z.of_nat len) data = Some buff' /\
    bytes buff' /\ length buff' = length buff /\
    bitlist buff' = splice (bitlist buff) pos (val_bits len data).
Proof.
  intros Hb H32 Hlen Hl. unfold setbitu, shl_u32.
  rewrite (uwrap_small 32 (Z.of_nat len - 1)), decide_True by lia. cbn [mbind option_bind].
  assert (2 ^ (Z.of_nat len - 1) <= 2 ^ 31) by (apply Z.pow_le_mono_r; lia).
  rewrite Z.shiftl_1_l, (uwrap_small 32 (2 ^ _)) by lia.
  rewrite (proj2 (Z.leb_gt _ _)), (proj2 (Z.ltb_ge _ _)) by lia. cbn [orb].
  rewrite <- Nat2Z.inj_add, uwrap_small by lia.
  replace (Z.to_nat _) with len by lia.
  destruct (for_loop_inv (setbitu_inv buff pos len data) len (Z.of_nat pos)
    (setbitu_body data) (buff, 2 ^ (Z.of_nat len - 1)))
    as ([r m'] & Hr & Hrb & Hrl & _ & Hrk).
  - split_and!; [done..| |].
    + intros _. f_equal. lia.
    + intros k. by rewrite decide_False by lia.
  - intros i s Hi. apply setbitu_body_inv; lia.
  - exists r. rewrite Hr. split_and!; [done..|].
    apply list_eq. intros k. rewrite Hrk, lookup_splice by (rewrite length_val_bits, length_bitlist; lia).
    rewrite length_val_bits. do 2 case_decide; try lia; [|done].
    rewrite lookup_val_bits, decide_True by lia. do 2 f_equal. lia.
Qed.

(** ** Copying *)

(** One block of [bitcopy]: up to 32 bits from [src] to [dst]. *)
Lemma copy_block dst (di : nat) src (si len : nat) :
  bytes dst -> 8 * Z.of_nat (length dst) < 2 ^ 32 -> 8 * Z.of_nat (length src) < 2 ^ 32 ->
  (di + len <= 8 * length dst)%nat -> (si + len <= 8 * length src)%nat ->
  (1 <= len <= 32)%nat ->
  exists dst',
    (tmp ← getbitu src (Z.of_nat si) (Z.of_nat len);
     setbitu dst (Z.of_nat di) (Z.of_nat len) tmp) = Some dst' /\
    bytes dst' /\ length dst' = length dst /\
    bitlist dst' = splice (bitlist dst) di (take len (drop si (bitlist src))).
Proof.
  intros Hb Hd Hs Hdl Hsl Hl. rewrite getbitu_bits by lia. cbn [mbind option_bind].
  set (f := take len (drop si (bitlist src))).
  assert (length f = len) as Hf
    by (unfold f; rewrite length_take, length_drop, length_bitlist; lia).
  destruct (setbitu_bits dst di len (bits_val f)) as (d' & Hset & Hb' & Hl' & Hbits); [done|lia..|].
  exists d'. split_and!; [done..|]. rewrite Hbits. f_equal. rewrite <- Hf. apply val_bits_bits_val.
Qed.

(** State of [bitcopy] after [32 * j] bits. *)
Definition bitcopy_inv (dst : list Z) (di : nat) (src : list Z) (si : nat) (j : Z)
    (s : list Z * Z * Z) : Prop :=
  let '(d, di', si') := s in
  bytes d /\ length d = length dst /\
  di' = Z.of_nat di + 32 * j /\ si' = Z.of_nat si + 32 * j /\
  bitlist d = splice (bitlist dst) di (take (Z.to_nat (32 * j)) (drop si (bitlist src))).

Lemma splice_take_step {A} (l m : list A) di si n len :
  (di + n + len <= length l)%nat -> (si + n + len <= length m)%nat ->
  splice (splice l di (take n (drop si m))) (di + n) (take len (drop (si + n) m)) =
  splice l di (take (n + len) (drop si m)).
Proof.
  intros Hl Hm.
  assert (length (take n (drop si m)) = n) as Hn by (rewrite length_take, length_drop; lia).
  assert (length (take len (drop (si + n) m)) = len) as Hn2 by (rewrite length_take, length_drop; lia).
  rewrite <- Hn at 2. rewrite splice_splice by lia. f_equal.
  rewrite <- drop_drop. apply take_take_drop.
Qed.

Lemma bitcopy_body_inv dst (di : nat) src (si : nat) (count : nat) j s :
  8 * Z.of_nat (length dst) < 2 ^ 32 - 32 -> 8 * Z.of_nat (length src) < 2 ^ 32 - 32 ->
  (di + count <= 8 * length dst)%nat -> (si + count <= 8 * length src)%nat ->
  0 <= j -> 32 * (j + 1) <= Z.of_nat count ->
  bitcopy_inv dst di src si j s ->
  exists s', bitcopy_body src j s = Some s' /\ bitcopy_inv dst di src si (j + 1) s'.
Proof.
  destruct s as [[d di'] si']. intros Hd Hs Hdl Hsl Hj Hc (Hb & Hld & -> & -> & Hbits).
  destruct (copy_block d (di + Z.to_nat (32 * j)) src (si + Z.to_nat (32 * j)) 32)
    as (d' & Hblk & Hb' & Hl' & Hbits'); [done|lia..|].
  replace (Z.of_nat (si + _)) with (Z.of_nat si + 32 * j) in Hblk by lia.
  replace (Z.of_nat (di + _)) with (Z.of_nat di + 32 * j) in Hblk by lia.
  change (Z.of_nat 32) with 32 in Hblk. unfold bitcopy_body.
  destruct (getbitu src _ _) as [tmp|]; cbn [mbind option_bind] in *; [|done].
  rewrite Hblk. eexists (_, _, _). split; [done|]. split_and!; [done|lia| | |].
  - rewrite uwrap_small; lia.
  - rewrite uwrap_small; lia.
  - rewrite Hbits', Hbits, splice_take_step by (rewrite length_bitlist; lia). do 2 f_equal. lia.
Qed.

Lemma bitcopy_bits dst (di : nat) src (si count : nat) :
  bytes dst -> 8 * Z.of_nat (length dst) < 2 ^ 32 - 32 -> 8 * Z.of_nat (length src) < 2 ^ 32 - 32 ->
  (di + count <= 8 * length dst)%nat -> (si + count <= 8 * length src)%nat ->
  exists dst', bitcopy dst (Z.of_nat di) src (Z.of_nat si) (Z.of_nat count) = Some dst' /\
    bytes dst' /\ length dst' = length dst /\
    bitlist dst' = splice (bitlist dst) di (take count (drop si (bitlist src))).
Proof.
  intros Hb Hd Hs Hdl Hsl. unfold bitcopy.
  pose proof (Z.mod_pos_bound (Z.of_nat count) 32). pose proof (Z.div_mod (Z.of_nat count) 32).
  pose proof (Z.div_pos (Z.of_nat count) 32).
  set (q := Z.of_nat count / 32) in *. set (r := Z.of_nat count mod 32) in *.
  destruct (for_loop_inv (bitcopy_inv dst di src si) (Z.to_nat q) 0 (bitcopy_body src)
     (dst, Z.of_nat di, Z.of_nat si)) as ([[d di'] si'] & -> & Hb' & Hl' & -> & -> & Hbits).
  - split_and!; [done..|lia|lia|]. by rewrite Z.mul_0_r, take_0, splice_nil.
  - intros j s Hj. apply bitcopy_body_inv with (count := count); lia.
  - cbn [mbind option_bind]. destruct (Z.eqb_spec 0 r).
    + exists d. split_and!; [done..|]. rewrite Hbits. do 2 f_equal. lia.
    + destruct (copy_block d (di + Z.to_nat (32 * q)) src (si + Z.to_nat (32 * q)) (Z.to_nat r))
        as (d' & Hblk & Hb'' & Hl'' & Hbits'); [done|lia..|].
      exists d'. split_and!; [|done|lia|].
      * rewrite <- Hblk.
        replace (Z.of_nat (si + _)) with (Z.of_nat si + 32 * (0 + Z.of_nat (Z.to_nat q))) by lia.
        replace (Z.of_nat (di + _)) with (Z.of_nat di + 32 * (0 + Z.of_nat (Z.to_nat q))) by lia.
        by rewrite !Z2Nat.id by lia.
      * rewrite Hbits', Hbits.
        replace (0 + Z.of_nat (Z.to_nat q)) with q by lia.
        rewrite splice_take_step by (rewrite length_bitlist; lia). do 2 f_equal. lia.
Qed.

(** ** Shifting *)

(** The byte [bitshl] assembles from two consecutive bytes. *)
Definition merge_byte (hi lo s : Z) : Z := u8 (Z.shiftr (Z.lor (u32 (Z.shiftl hi 8)) lo) s).

Lemma testbit_merge_byte hi lo s p :
  is_byte lo -> 0 < s < 8 -> 0 <= p < 8 ->
  Z.testbit (merge_byte hi lo s) p =
  if decide (p + s < 8) then Z.testbit lo (p + s) else Z.testbit hi (p + s - 8).
Proof.
  intros Hlo Hs Hp. unfold merge_byte. autorewrite with tb.
  rewrite !(proj2 (Z.ltb_lt _ _)) by lia. cbn [andb]. case_decide.
  - by rewrite (Z.testbit_neg_r _ (p + s - 8)) by lia.
  - rewrite (testbit_above 8 lo) by (done || lia). apply orb_false_r.
Qed.

(** State of [bitshl] when the first [i] bytes are final: [L] is the original
    bit string, [acc] ends with the byte under [src]. *)
Definition bitshl_inv (buf : list Z) (shift : nat) (i : Z) (s : list Z * Z) : Prop :=
  let '(b, acc) := s in
  bytes b /\ length b = length buf /\
  (forall k, (k < 8 * Z.to_nat i)%nat -> bitlist b !! k = bitlist buf !! (k + shift)%nat) /\
  (forall k, (8 * Z.to_nat i <= k)%nat -> bitlist b !! k = bitlist buf !! k) /\
  (forall t, (t < 8)%nat ->
     bitlist buf !! (8 * (shift / 8 + Z.to_nat i) + t)%nat = Some (Z.testbit acc (7 - Z.of_nat t))).

(** Writing a merged byte at index [i] makes eight more bits final. *)
Lemma bitshl_write buf (shift : nat) i b acc x :
  bitshl_inv buf shift i (b, acc) -> is_byte x ->
  (shift mod 8 <> 0)%nat -> 0 <= i < Z.of_nat (length buf) ->
  (forall t, (t < shift mod 8)%nat ->
     bitlist buf !! (8 * (shift / 8 + Z.to_nat i + 1) + t)%nat = Some (Z.testbit x (7 - Z.of_nat t))
     \/ bitlist buf !! (8 * (shift / 8 + Z.to_nat i + 1) + t)%nat = None /\ x = 0) ->
  forall k,
  let b' := <[Z.to_nat i := merge_byte acc x (8 - Z.of_nat shift mod 8)]> b in
  bitlist b' !! k =
    if decide (k < 8 * Z.to_nat i + 8)%nat
    then Some (default false (bitlist buf !! (k + shift)%nat))
    else bitlist buf !! k.
Proof.
  intros (Hb & Hl & Hlo & Hhi & Hacc) Hx Hr Hi Hnext k b'. unfold b'.
  rewrite lookup_bitlist_insert by lia.
  pose proof (Nat.div_mod_eq k 8). pose proof (Nat.mod_upper_bound k 8).
  pose proof (Nat.div_mod_eq shift 8). pose proof (Nat.mod_upper_bound shift 8).
  assert (Z.of_nat shift mod 8 = Z.of_nat (shift mod 8)) as -> by (rewrite Nat2Z.inj_mod; done).
  assert (Z.of_nat k mod 8 = Z.of_nat (k mod 8)) as -> by (rewrite Nat2Z.inj_mod; done).
  set (r := (shift mod 8)%nat) in *. set (t := (k mod 8)%nat) in *.
  case_decide as Hk.
  - rewrite decide_True by lia. f_equal.
    rewrite testbit_merge_byte by (done || lia). case_decide.
    + replace (k + shift)%nat with (8 * (shift / 8 + Z.to_nat i + 1) + (t + r - 8))%nat by lia.
      destruct (Hnext (t + r - 8)%nat) as [->|[-> ->]]; [lia| |by rewrite Z.bits_0].
      simpl. f_equal. lia.
    + replace (k + shift)%nat with (8 * (shift / 8 + Z.to_nat i) + (t + r))%nat by lia.
      rewrite Hacc by lia. simpl. f_equal. lia.
  - destruct (decide (k < 8 * Z.to_nat i)%nat).
    + rewrite decide_True, Hlo by lia.
      destruct (bitlist buf !! (k + shift)%nat) eqn:E; [done|]. exfalso.
      apply lookup_ge_None in E. rewrite length_bitlist in E.
      specialize (Hacc 0%nat ltac:(lia)). apply lookup_lt_Some in Hacc.
      rewrite length_bitlist in Hacc. lia.
    + rewrite decide_False by lia. apply Hhi. lia.
Qed.

(** The bit string shifted left, zeros entering from the right. *)
Definition shl_bits (L : list bool) (shift : nat) : list bool :=
  drop shift L ++ replicate (min shift (length L)) false.

Lemma shl_bits_eq L shift M :
  (forall k, M !! k = if decide (k < length L)%nat
                      then Some (default false (L !! (k + shift)%nat)) else None) ->
  M = shl_bits L shift.
Proof.
  intros HM. apply list_eq. intros k. rewrite HM. unfold shl_bits.
  destruct (decide (k + shift < length L)%nat) as [Hk|Hk].
  - rewrite decide_True, lookup_app_l, lookup_drop by (rewrite ?length_drop; lia).
    destruct (lookup_lt_is_Some_2 L (k + shift)%nat Hk) as [x Hx].
    replace (shift + k)%nat with (k + shift)%nat by lia. by rewrite Hx.
  - rewrite lookup_app_r, (proj2 (lookup_ge_None L _)) by (rewrite ?length_drop; lia).
    rewrite length_drop. case_decide; symmetry.
    + apply lookup_replicate_2. lia.
    + apply lookup_replicate_None. lia.
Qed.

Lemma length_shl_bits L shift : length (shl_bits L shift) = length L.
Proof. unfold shl_bits. rewrite length_app, length_drop, length_replicate. lia. Qed.

Lemma bitshl_body_inv buf (shift : nat) i s :
  (shift mod 8 <> 0)%nat -> 0 <= i -> (shift / 8 + Z.to_nat i + 1 < length buf)%nat ->
  bitshl_inv buf shift i s ->
  exists s', bitshl_body (Z.of_nat (shift / 8)) (8 - Z.of_nat shift mod 8) i s = Some s' /\
    bitshl_inv buf shift (i + 1) s'.
Proof.
  destruct s as [b acc]. intros Hr Hi Hlt HI. pose proof HI as (Hb & Hl & Hlo & Hhi & Hacc).
  unfold bitshl_body. set (n := (shift / 8 + Z.to_nat i + 1)%nat) in *.
  replace (Z.of_nat (shift / 8) + 1 + i) with (Z.of_nat n) by lia.
  destruct (rd_in b (Z.of_nat n)) as [x Hx]; [lia|].
  rewrite Hx. apply rd_Some in Hx as [_ Hx]. rewrite Nat2Z.id in Hx.
  assert (is_byte x) as Hxb by (by eapply bytes_lookup).
  assert (Hbits : forall t, (t < 8)%nat ->
    bitlist buf !! (8 * n + t)%nat = Some (Z.testbit x (7 - Z.of_nat t))).
  { intros t Ht. rewrite <- Hhi by lia. by rewrite lookup_bitlist_at, Hx. }
  cbn [mbind option_bind]. rewrite wr_in by lia. eexists (_, _). split; [done|].
  fold (merge_byte acc x (8 - Z.of_nat shift mod 8)).
  pose proof (bitshl_write buf shift i b acc x HI Hxb Hr ltac:(lia)
    ltac:(intros t Ht; left; apply Hbits; pose proof (Nat.mod_upper_bound shift 8); lia)) as Hw.
  cbn zeta in Hw. split_and!.
  - apply bytes_insert; [done|]. apply u8_byte.
  - by rewrite length_insert.
  - intros k Hk. rewrite Hw, decide_True by lia.
    destruct (lookup_lt_is_Some_2 (bitlist buf) (k + shift)%nat) as [y ->]; [|done].
    rewrite length_bitlist. pose proof (Nat.div_mod_eq shift 8).
    pose proof (Nat.mod_upper_bound shift 8). lia.
  - intros k Hk. rewrite Hw, decide_False by lia. done.
  - intros t Ht. replace (shift / 8 + Z.to_nat (i + 1))%nat with n by lia. rewrite Hbits by lia.
    autorewrite with tb. rewrite (Z.testbit_neg_r _ (7 - Z.of_nat t - 8)) by lia.
    rewrite andb_false_r. done.
Qed.

Lemma memset_tail (buf : list Z) (off : nat) :
  (off <= length buf)%nat ->
  memset buf (Z.of_nat off) 0 (Z.of_nat (length buf) - Z.of_nat off) =
  Some (take off buf ++ replicate (length buf - off) 0).
Proof.
  intros H. unfold memset. rewrite decide_True by lia. do 2 f_equal; [f_equal; lia|].
  rewrite drop_ge, app_nil_r by lia. f_equal. lia.
Qed.

Lemma bitlist_zero_tail buf off k :
  (off <= length buf)%nat ->
  bitlist (take off buf ++ replicate (length buf - off) 0) !! k =
  if decide (k < 8 * off)%nat then bitlist buf !! k
  else if decide (k < 8 * length buf)%nat then Some false else None.
Proof.
  intros H. rewrite bitlist_app, bitlist_take, bitlist_replicate_0. case_decide.
  - rewrite lookup_app_l, lookup_take_lt by (rewrite ?length_take, ?length_bitlist; lia). done.
  - rewrite lookup_app_r by (rewrite ?length_take, ?length_bitlist; lia).
    rewrite length_take, length_bitlist. case_decide.
    + apply lookup_replicate_2. lia.
    + apply lookup_replicate_None. lia.
Qed.

Lemma bitshl_aligned buf (q : nat) :
  bytes buf -> (q <= length buf)%nat -> 8 * Z.of_nat (length buf) < 2 ^ 32 ->
  let fb := Z.of_nat (length buf) - Z.of_nat q in
  exists buf', (b ← memmove buf 0 (Z.of_nat q) fb; memset b fb 0 (Z.of_nat (length buf) - fb))
    = Some buf' /\
    bytes buf' /\ length buf' = length buf /\ bitlist buf' = shl_bits (bitlist buf) (8 * q).
Proof.
  intros Hb Hq H32 fb. unfold memmove. rewrite decide_True by lia. cbn [mbind option_bind].
  replace (Z.to_nat 0) with 0%nat by lia.
  rewrite Z.add_0_l. rewrite take_0. cbn [app].
  rewrite take_ge by (rewrite length_drop; lia).
  set (b1 := drop (Z.to_nat (Z.of_nat q)) buf ++ drop (Z.to_nat fb) buf).
  assert (length b1 = length buf) as Hl1 by (unfold b1; rewrite length_app, !length_drop; lia).
  replace (memset b1 fb 0 _)
    with (memset b1 (Z.of_nat (length buf - q)) 0 (Z.of_nat (length b1) - Z.of_nat (length buf - q)))
    by (f_equal; lia).
  rewrite memset_tail by lia. eexists. split; [done|].
  unfold b1. rewrite take_app_length' by (rewrite length_drop; lia).
  rewrite Nat2Z.id. split_and!.
  - apply Forall_app_2; [by apply Forall_drop|]. apply bytes_replicate. done.
  - rewrite !length_app, length_replicate, !length_drop. lia.
  - rewrite bitlist_app, bitlist_drop, bitlist_replicate_0. unfold shl_bits. do 2 f_equal.
    rewrite length_bitlist, length_app, !length_drop. lia.
Qed.

Lemma bitshl_unaligned buf (shift : nat) :
  bytes buf -> (shift < 8 * length buf)%nat -> (shift mod 8 <> 0)%nat ->
  let q := Z.of_nat (shift / 8) in
  let s := 8 - Z.of_nat shift mod 8 in
  let fb := Z.of_nat (length buf) - q - 1 in
  exists buf',
    (acc ← rd buf q;
     '(buf1, acc1) ← for_loop (Z.to_nat fb) 0 (bitshl_body q s) (buf, acc);
     buf2 ← wr buf1 fb (u8 (Z.shiftr (u32 (Z.shiftl acc1 8)) s));
     if fb + 1 <? Z.of_nat (length buf)
     then memset buf2 (fb + 1) 0 (Z.of_nat (length buf) - fb - 1)
     else Some buf2) = Some buf' /\
    bytes buf' /\ length buf' = length buf /\ bitlist buf' = shl_bits (bitlist buf) shift.
Proof.
  intros Hb Hs Hr q s fb.
  pose proof (Nat.div_mod_eq shift 8). pose proof (Nat.mod_upper_bound shift 8).
  destruct (rd_in buf q) as [acc Hacc]; [lia|]. rewrite Hacc. cbn [mbind option_bind].
  apply rd_Some in Hacc as [_ Hacc]. unfold q in Hacc. rewrite Nat2Z.id in Hacc.
  destruct (for_loop_inv (bitshl_inv buf shift) (Z.to_nat fb) 0 (bitshl_body q s) (buf, acc))
    as ([b1 acc1] & -> & HI).
  { split_and!; [done..|lia|done|].
    intros t Ht. rewrite lookup_bitlist_at, Nat.add_0_r, Hacc by done. done. }
  { intros i st Hi. apply bitshl_body_inv; lia. }
  pose proof HI as (Hb1 & Hl1 & _).
  replace (0 + Z.of_nat (Z.to_nat fb)) with fb in HI by lia.
  cbn [mbind option_bind]. rewrite wr_in by lia. cbn [mbind option_bind].
  replace (u8 _) with (merge_byte acc1 0 s) by (unfold merge_byte; by rewrite Z.lor_0_r).
  pose proof (bitshl_write buf shift fb b1 acc1 0 HI ltac:(done) Hr ltac:(lia)
    ltac:(intros t Ht; right; split; [apply lookup_ge_None; rewrite length_bitlist; lia|done])) as Hw.
  cbn zeta in Hw. fold s in Hw.
  set (b2 := <[Z.to_nat fb:=merge_byte acc1 0 s]> b1) in *.
  assert (length b2 = length buf) as Hl2 by (unfold b2; rewrite length_insert; lia).
  assert (bytes b2) by (unfold b2, merge_byte; auto with gnss).
  destruct (Z.ltb_spec (fb + 1) (Z.of_nat (length buf))).
  - replace (memset b2 _ _ _)
      with (memset b2 (Z.of_nat (Z.to_nat fb + 1)) 0 (Z.of_nat (length b2) - Z.of_nat (Z.to_nat fb + 1)))
      by (f_equal; lia).
    rewrite memset_tail by lia. eexists. split; [done|]. split_and!.
    + apply Forall_app_2; [by apply Forall_take|]. by apply bytes_replicate.
    + rewrite length_app, length_take, length_replicate. lia.
    + apply shl_bits_eq. intros k. rewrite bitlist_zero_tail, length_bitlist by lia. case_decide.
      * rewrite Hw, !decide_True by lia. done.
      * rewrite Hl2. case_decide; [|done].
        rewrite (proj2 (lookup_ge_None (bitlist buf) _)) by (rewrite length_bitlist; lia). done.
  - eexists. split; [done|]. split_and!; [done..|].
    apply shl_bits_eq. intros k. rewrite Hw, length_bitlist. do 2 case_decide; try lia; try done.
    apply lookup_ge_None. rewrite length_bitlist. lia.
Qed.

Lemma bitshl_bits buf (shift : nat) :
  bytes buf -> 8 * Z.of_nat (length buf) < 2 ^ 32 -> Z.of_nat shift < 2 ^ 32 ->
  exists buf', bitshl buf (Z.of_nat (length buf)) (Z.of_nat shift) = Some buf' /\
    bytes buf' /\ length buf' = length buf /\ bitlist buf' = shl_bits (bitlist buf) shift.
Proof.
  intros Hb H32 Hs. unfold bitshl.
  rewrite (uwrap_small 32 (Z.of_nat (length buf) * 8)) by lia.
  pose proof (Nat.div_mod_eq shift 8). pose proof (Nat.mod_upper_bound shift 8).
  pose proof (Nat2Z.inj_div shift 8). pose proof (Nat2Z.inj_mod shift 8).
  destruct (Z.ltb_spec (Z.of_nat (length buf) * 8) (Z.of_nat shift)).
  - replace (memset buf _ _ _)
      with (memset buf (Z.of_nat 0) 0 (Z.of_nat (length buf) - Z.of_nat 0)) by (f_equal; lia).
    rewrite memset_tail by lia. eexists. split; [done|].
    rewrite take_0, Nat.sub_0_r. cbn [app]. split_and!.
    + by apply bytes_replicate.
    + by rewrite length_replicate.
    + rewrite bitlist_replicate_0. unfold shl_bits.
      rewrite drop_ge, length_bitlist by (rewrite length_bitlist; lia). cbn [app]. f_equal. lia.
  - rewrite uwrap_small by lia.
    replace (Z.of_nat shift / 8) with (Z.of_nat (shift / 8)) by lia.
    set (q := (shift / 8)%nat) in *. set (r := (shift mod 8)%nat) in *.
    destruct (decide (r = 0%nat)) as [Hr|Hr].
    + replace (Z.of_nat (length buf) * 8 - Z.of_nat shift) with ((Z.of_nat (length buf) - Z.of_nat q) * 8) by lia.
      rewrite Z.mod_mul, Z.div_mul by lia. cbn [Z.eqb].
      replace shift with (8 * q)%nat by lia. apply bitshl_aligned; lia || done.
    + replace (Z.of_nat (length buf) * 8 - Z.of_nat shift)
        with ((8 - Z.of_nat r) + (Z.of_nat (length buf) - Z.of_nat q - 1) * 8) by lia.
      rewrite Z.mod_add, Z.div_add, Z.div_small, Z.mod_small, Z.add_0_l by lia.
      rewrite (proj2 (Z.eqb_neq 0 _)) by lia.
      replace (8 - Z.of_nat r) with (8 - Z.of_nat shift mod 8) by lia.
      apply bitshl_unaligned; [done|lia|done].
Qed.

(** ** Parity and population counts *)

Lemma BITN_count y : 0 <= y < 16 -> rd BITN y = Some (bits_count (val_bits 4 y)).
Proof. apply (Z_small_cases (fun y => rd BITN y = Some (bits_count (val_bits 4 y))) 16). repeat constructor. Qed.

Lemma count_nibbles_bits n v :
  (n <= 16)%nat -> count_nibbles n v = Some (bits_count (val_bits (4 * n) v)).
Proof.
  intros Hn. unfold count_nibbles.
  destruct (for_loop_inv (fun i r => r = bits_count (val_bits (4 * Z.to_nat i) v)) n 0
    (fun i r => x ← rd BITN (Z.land (Z.shiftr v (i * 4)) 15); Some (u8 (r + x))) 0)
    as (r & -> & ->).
  - done.
  - intros i r Hi ->. eexists. change 15 with (Z.ones 4). rewrite BITN_count.
    2:{ rewrite Z.land_ones by lia. apply Z.mod_pos_bound. lia. }
    split; [done|]. cbn [mbind option_bind].
    rewrite (val_bits_land_ones 4). replace (4 * Z.to_nat (i + 1))%nat with (4 + 4 * Z.to_nat i)%nat by lia.
    rewrite val_bits_app, bits_count_app.
    replace (Z.of_nat (4 * Z.to_nat i)) with (i * 4) by lia.
    pose proof (bits_count_range (val_bits 4 (Z.shiftr v (i * 4)))) as H1.
    pose proof (bits_count_range (val_bits (4 * Z.to_nat i) v)) as H2.
    rewrite length_val_bits in H1, H2. rewrite uwrap_small; lia.
  - do 3 f_equal. lia.
Qed.

(** ** Properties *)

(** A bit field written by [setbitu] is read back by [getbitu], reduced to the
    field's width, the buffer keeps its size and stays a byte buffer, and every
    disjoint field is left alone. *)
Theorem setbitu_getbitu_roundtrip buff (pos len : nat) data :
  bytes buff -> 8 * Z.of_nat (length buff) < 2 ^ 32 ->
  (pos + len <= 8 * length buff)%nat -> (1 <= len <= 32)%nat ->
  exists buff', setbitu buff (Z.of_nat pos) (Z.of_nat len) data = Some buff' /\
    bytes buff' /\ length buff' = length buff /\
    getbitu buff' (Z.of_nat pos) (Z.of_nat len) = Some (data mod 2 ^ Z.of_nat len) /\
    forall pos' len' : nat,
      (pos' + len' <= 8 * length buff)%nat -> (len' <= 32)%nat ->
      (pos' + len' <= pos \/ pos + len <= pos')%nat ->
      getbitu buff' (Z.of_nat pos') (Z.of_nat len') = getbitu buff (Z.of_nat pos') (Z.of_nat len').
Proof.
  intros Hb H32 Hl Hlen.
  destruct (setbitu_bits buff pos len data) as (b' & Hset & Hb' & Hl' & Hbits); [done|lia..|].
  exists b'. split_and!; [done..| |].
  - rewrite getbitu_bits, Hbits by lia. rewrite <- (length_val_bits len data) at 1.
    rewrite take_splice by (rewrite length_val_bits, length_bitlist; lia).
    by rewrite bits_val_val_bits.
  - intros pos' len' Hp Hle Hd. rewrite !getbitu_bits, Hbits by lia.
    rewrite splice_disjoint; rewrite ?length_val_bits, ?length_bitlist; done.
Qed.

Lemma setbitu_getbitu_roundtrip_witness :
  exists buff', setbitu [0x12; 0x34; 0x56] 5 11 0x7FF = Some buff' /\
    getbitu buff' 5 11 = Some 0x7FF.
Proof.
  destruct (setbitu_getbitu_roundtrip [0x12; 0x34; 0x56] 5 11 0x7FF) as (b & H1 & _ & _ & H2 & _).
  - repeat constructor; done.
  - done.
  - simpl. lia.
  - lia.
  - exists b. exact (conj H1 H2).
Defined.

(** [getbits] sign-extends the field as a two's complement number for every
    width up to 31 bits; at the documented maximum of 32 bits the final
    subtraction overflows [int32_t], undefined behaviour, exactly when the field
    is negative. *)
Theorem getbits_sign_extend buff (pos len : nat) :
  8 * Z.of_nat (length buff) < 2 ^ 32 -> (pos + len <= 8 * length buff)%nat ->
  (1 <= len <= 32)%nat ->
  getbits buff (Z.of_nat pos) (Z.of_nat len) =
  let field := take len (drop pos (bitlist buff)) in
  if decide (len = 32%nat /\ signed_val field < 0) then None
  else Some (signed_val field).
Proof. intros. apply getbits_bits; lia. Qed.

Lemma getbits_sign_extend_witness :
  getbits [0x12; 0xF4] 8 5 = Some (-2) /\ getbits [0xFF; 0xFF; 0xFF; 0xFE] 0 32 = None.
Proof.
  split.
  - apply (getbits_sign_extend [0x12; 0xF4] 8 5); [done|simpl; lia|lia].
  - apply (getbits_sign_extend [0xFF; 0xFF; 0xFF; 0xFE] 0 32); [done|simpl; lia|lia].
Defined.

(** [bitshl] is a left shift of the whole buffer as one bit string: after it
    the field at [pos] is the one that was at [pos + shift], and the bits entering
    from the right are zero; it stays within the buffer for every shift. *)
Theorem bitshl_shifts_fields buf (shift : nat) :
  bytes buf -> 8 * Z.of_nat (length buf) < 2 ^ 32 -> Z.of_nat shift < 2 ^ 32 ->
  exists buf', bitshl buf (Z.of_nat (length buf)) (Z.of_nat shift) = Some buf' /\
    bytes buf' /\ length buf' = length buf /\
    (forall pos len : nat, (pos + shift + len <= 8 * length buf)%nat -> (len <= 32)%nat ->
       getbitu buf' (Z.of_nat pos) (Z.of_nat len) = getbitu buf (Z.of_nat (pos + shift)) (Z.of_nat len)) /\
    (forall pos : nat, (pos < 8 * length buf <= pos + shift)%nat ->
       getbitu buf' (Z.of_nat pos) 1 = Some 0).
Proof.
  intros Hb H32 Hs. destruct (bitshl_bits buf shift) as (b' & Hsh & Hb' & Hl' & Hbits); [done..|].
  exists b'. split_and!; [done..| |].
  - intros pos len Hp Hlen. rewrite !getbitu_bits, Hbits by lia. do 2 f_equal.
    apply list_eq. intros k. rewrite !lookup_field. case_decide; [|done].
    unfold shl_bits. rewrite lookup_app_l, lookup_drop by (rewrite length_drop, length_bitlist; lia).
    f_equal. lia.
  - intros pos Hp. change 1 with (Z.of_nat 1). rewrite getbitu_bits, Hbits by lia.
    unfold shl_bits. f_equal. replace (take 1 _) with [false]; [done|]. symmetry.
    apply list_eq. intros k. rewrite lookup_field. destruct k as [|k]; [|done].
    rewrite decide_True, lookup_app_r, Nat.add_0_r by (rewrite ?length_drop, ?length_bitlist; lia).
    apply lookup_replicate_2. rewrite length_drop, length_bitlist. lia.
Qed.

Lemma bitshl_shifts_fields_witness :
  exists buf', bitshl [0x8B; 0x12; 0x34] 3 9 = Some buf' /\
    getbitu buf' 3 8 = getbitu [0x8B; 0x12; 0x34] 12 8.
Proof.
  destruct (bitshl_shifts_fields [0x8B; 0x12; 0x34] 9) as (b & H1 & _ & _ & H2 & _).
  - repeat constructor; done.
  - done.
  - done.
  - exists b. split; [exact H1|]. apply (H2 3%nat 8%nat); [simpl; lia|lia].
Defined.

(** [bitcopy] copies an arbitrary bit range between two buffers, whatever the
    alignments, and touches no other bit of the destination. *)
Theorem bitcopy_copies dst (di : nat) src (si count : nat) :
  bytes dst -> 8 * Z.of_nat (length dst) < 2 ^ 32 - 32 -> 8 * Z.of_nat (length src) < 2 ^ 32 - 32 ->
  (di + count <= 8 * length dst)%nat -> (si + count <= 8 * length src)%nat ->
  exists dst', bitcopy dst (Z.of_nat di) src (Z.of_nat si) (Z.of_nat count) = Some dst' /\
    bytes dst' /\ length dst' = length dst /\
    forall k, bitlist dst' !! k =
      if decide (di <= k < di + count)%nat then bitlist src !! (si + (k - di))%nat
      else bitlist dst !! k.
Proof.
  intros Hb H1 H2 H3 H4. destruct (bitcopy_bits dst di src si count) as (d' & Hc & Hb' & Hl' & Hbits); [done..|].
  exists d'. split_and!; [done..|]. intros k.
  assert (length (take count (drop si (bitlist src))) = count) as Hf
    by (rewrite length_take, length_drop, length_bitlist; lia).
  rewrite Hbits, lookup_splice, Hf by (rewrite Hf, length_bitlist; lia).
  case_decide; [|done]. rewrite lookup_field, decide_True by lia. done.
Qed.

Lemma bitcopy_copies_witness :
  exists dst', bitcopy [0; 0; 0; 0; 0; 0] 3 [0xFF; 0xA5; 0x12; 0x34; 0x56] 1 37 = Some dst' /\
    bitlist dst' !! 20%nat = bitlist [0xFF; 0xA5; 0x12; 0x34; 0x56] !! 18%nat.
Proof.
  destruct (bitcopy_copies [0; 0; 0; 0; 0; 0] 3 [0xFF; 0xA5; 0x12; 0x34; 0x56] 1 37)
    as (d & H1 & _ & _ & H2).
  - repeat constructor; done.
  - done.
  - done.
  - simpl. lia.
  - simpl. lia.
  - exists d. split; [exact H1|]. exact (H2 20%nat).
Defined.

(** [parity] and the four population counts compute the parity and the number
    of set (or clear) bits of their word, for every word. *)
Theorem bit_counts_correct v bv :
  parity v = Z.b2z (bits_parity (val_bits 32 v)) /\
  (let count n := let c := bits_count (val_bits n v) in
                  Some (if bv =? 1 then c else Z.of_nat n - c) in
   count_bits_u64 v bv = count 64%nat /\ count_bits_u32 v bv = count 32%nat /\
   count_bits_u16 v bv = count 16%nat /\ count_bits_u8 v bv = count 8%nat).
Proof.
  split; [apply parity32_bits|].
  assert (forall n, (n <= 64)%nat -> u8 (Z.of_nat n - bits_count (val_bits n v)) = Z.of_nat n - bits_count (val_bits n v)) as Hw.
  { intros n Hn. pose proof (bits_count_range (val_bits n v)) as H. rewrite length_val_bits in H.
    apply uwrap_small. lia. }
  unfold count_bits_u64, count_bits_u32, count_bits_u16, count_bits_u8.
  rewrite !count_nibbles_bits by lia. cbn [mbind option_bind].
  split_and!; f_equal; (destruct (bv =? 1); [done|]);
    [apply (Hw 64%nat)|apply (Hw 32%nat)|apply (Hw 16%nat)|apply (Hw 8%nat)]; lia.
Qed.
