(* ===== verification/Edc.v ===== *)
(** * Edc: CRC-24Q

    Model of [src/algorithms/telemetry_decoder/libs/libswiftcnav/edc.c]. The
    specification is the bit-serial shift register of the generator polynomial
    0x1864CFB; the table-driven byte loop and the variant for left-aligned bit
    messages are proved to compute it. *)
From S2P Require Import Prelude.

(** ** Operations *)

Definition CRC24QTAB : list Z :=
  [0x000000; 0x864CFB; 0x8AD50D; 0x0C99F6; 0x93E6E1; 0x15AA1A; 0x1933EC; 0x9F7F17;
   0xA18139; 0x27CDC2; 0x2B5434; 0xAD18CF; 0x3267D8; 0xB42B23; 0xB8B2D5; 0x3EFE2E;
   0xC54E89; 0x430272; 0x4F9B84; 0xC9D77F; 0x56A868; 0xD0E493; 0xDC7D65; 0x5A319E;
   0x64CFB0; 0xE2834B; 0xEE1ABD; 0x685646; 0xF72951; 0x7165AA; 0x7DFC5C; 0xFBB0A7;
   0x0CD1E9; 0x8A9D12; 0x8604E4; 0x00481F; 0x9F3708; 0x197BF3; 0x15E205; 0x93AEFE;
   0xAD50D0; 0x2B1C2B; 0x2785DD; 0xA1C926; 0x3EB631; 0xB8FACA; 0xB4633C; 0x322FC7;
   0xC99F60; 0x4FD39B; 0x434A6D; 0xC50696; 0x5A7981; 0xDC357A; 0xD0AC8C; 0x56E077;
   0x681E59; 0xEE52A2; 0xE2CB54; 0x6487AF; 0xFBF8B8; 0x7DB443; 0x712DB5; 0xF7614E;
   0x19A3D2; 0x9FEF29; 0x9376DF; 0x153A24; 0x8A4533; 0x0C09C8; 0x00903E; 0x86DCC5;
   0xB822EB; 0x3E6E10; 0x32F7E6; 0xB4BB1D; 0x2BC40A; 0xAD88F1; 0xA11107; 0x275DFC;
   0xDCED5B; 0x5AA1A0; 0x563856; 0xD074AD; 0x4F0BBA; 0xC94741; 0xC5DEB7; 0x43924C;
   0x7D6C62; 0xFB2099; 0xF7B96F; 0x71F594; 0xEE8A83; 0x68C678; 0x645F8E; 0xE21375;
   0x15723B; 0x933EC0; 0x9FA736; 0x19EBCD; 0x8694DA; 0x00D821; 0x0C41D7; 0x8A0D2C;
   0xB4F302; 0x32BFF9; 0x3E260F; 0xB86AF4; 0x2715E3; 0xA15918; 0xADC0EE; 0x2B8C15;
   0xD03CB2; 0x567049; 0x5AE9BF; 0xDCA544; 0x43DA53; 0xC596A8; 0xC90F5E; 0x4F43A5;
   0x71BD8B; 0xF7F170; 0xFB6886; 0x7D247D; 0xE25B6A; 0x641791; 0x688E67; 0xEEC29C;
   0x3347A4; 0xB50B5F; 0xB992A9; 0x3FDE52; 0xA0A145; 0x26EDBE; 0x2A7448; 0xAC38B3;
   0x92C69D; 0x148A66; 0x181390; 0x9E5F6B; 0x01207C; 0x876C87; 0x8BF571; 0x0DB98A;
   0xF6092D; 0x7045D6; 0x7CDC20; 0xFA90DB; 0x65EFCC; 0xE3A337; 0xEF3AC1; 0x69763A;
   0x578814; 0xD1C4EF; 0xDD5D19; 0x5B11E2; 0xC46EF5; 0x42220E; 0x4EBBF8; 0xC8F703;
   0x3F964D; 0xB9DAB6; 0xB54340; 0x330FBB; 0xAC70AC; 0x2A3C57; 0x26A5A1; 0xA0E95A;
   0x9E1774; 0x185B8F; 0x14C279; 0x928E82; 0x0DF195; 0x8BBD6E; 0x872498; 0x016863;
   0xFAD8C4; 0x7C943F; 0x700DC9; 0xF64132; 0x693E25; 0xEF72DE; 0xE3EB28; 0x65A7D3;
   0x5B59FD; 0xDD1506; 0xD18CF0; 0x57C00B; 0xC8BF1C; 0x4EF3E7; 0x426A11; 0xC426EA;
   0x2AE476; 0xACA88D; 0xA0317B; 0x267D80; 0xB90297; 0x3F4E6C; 0x33D79A; 0xB59B61;
   0x8B654F; 0x0D29B4; 0x01B042; 0x87FCB9; 0x1883AE; 0x9ECF55; 0x9256A3; 0x141A58;
   0xEFAAFF; 0x69E604; 0x657FF2; 0xE33309; 0x7C4C1E; 0xFA00E5; 0xF69913; 0x70D5E8;
   0x4E2BC6; 0xC8673D; 0xC4FECB; 0x42B230; 0xDDCD27; 0x5B81DC; 0x57182A; 0xD154D1;
   0x26359F; 0xA07964; 0xACE092; 0x2AAC69; 0xB5D37E; 0x339F85; 0x3F0673; 0xB94A88;
   0x87B4A6; 0x01F85D; 0x0D61AB; 0x8B2D50; 0x145247; 0x921EBC; 0x9E874A; 0x18CBB1;
   0xE37B16; 0x6537ED; 0x69AE1B; 0xEFE2E0; 0x709DF7; 0xF6D10C; 0xFA48FA; 0x7C0401;
   0x42FA2F; 0xC4B6D4; 0xC82F22; 0x4E63D9; 0xD11CCE; 0x575035; 0x5BC9C3; 0xDD8538].

(** One byte through the table, the body shared by both loops. *)
Definition crc24q_byte (crc b : Z) : option Z :=
  x ← rd CRC24QTAB (Z.land (Z.lxor (Z.shiftr crc 16) b) 0xFF);
  Some (Z.lxor (Z.land (u32 (Z.shiftl crc 8)) 0xFFFFFF) x).

Definition crc24q_body (buf : list Z) (i crc : Z) : option Z :=
  b ← rd buf i; crc24q_byte crc b.

Definition crc24q (buf : list Z) (len crc : Z) : option Z :=
  for_loop (Z.to_nat len) 0 (crc24q_body buf) crc.

(** State: the accumulator [acc] ([uint16_t]) and [crc]. *)
Definition crc24q_bits_body (buf : list Z) (shift : Z) (invert : bool) (i : Z)
    (s : Z * Z) : option (Z * Z) :=
  let '(acc, crc) := s in
  x ← rd buf i;
  let acc1 := u16 (Z.lor (Z.shiftl acc 8) x) in
  let acc2 := if invert then Z.lxor acc1 0xFF else acc1 in
  let b := Z.land (Z.shiftr acc2 shift) 0xFF in
  crc' ← crc24q_byte crc b;
  Some (acc2, crc').

(** The code after the loop repeats the body once more, on the next byte. *)
Definition crc24q_bits (crc : Z) (buf : list Z) (n_bits : Z) (invert : bool) : option Z :=
  let shift := 8 - n_bits mod 8 in
  s ← for_loop (Z.to_nat (n_bits / 8)) 0 (crc24q_bits_body buf shift invert) (0, crc);
  s' ← crc24q_bits_body buf shift invert (n_bits / 8) s;
  Some (snd s').

(** ** Specification: the bit-serial register *)

Definition POLY24Q : Z := 0x864CFB.

Definition crc_bit (c : Z) (b : bool) : Z :=
  Z.lxor (uwrap 24 (Z.shiftl c 1)) (if xorb (Z.testbit c 23) b then POLY24Q else 0).

Definition crc_bits (c : Z) (l : list bool) : Z := fold_left crc_bit l c.

(** The register clocked [n] times with zero input. *)
Definition crc_zeros (n : nat) (c : Z) : Z := crc_bits c (replicate n false).

(** ** The register is linear over GF(2) and reversible *)

Lemma crc_bit_range c b : 0 <= crc_bit c b < 2 ^ 24.
Proof.
  unfold crc_bit. apply lxor_range; [apply uwrap_range; lia|].
  destruct (xorb _ _); done.
Qed.

Lemma crc_bits_range c l : 0 <= c < 2 ^ 24 -> 0 <= crc_bits c l < 2 ^ 24.
Proof.
  revert c. induction l as [|b l IH]; intros c Hc; [done|]. apply IH, crc_bit_range.
Qed.

Lemma crc_bits_cons c b l : crc_bits c (b :: l) = crc_bits (crc_bit c b) l.
Proof. done. Qed.

Lemma crc_bits_app c l1 l2 : crc_bits c (l1 ++ l2) = crc_bits (crc_bits c l1) l2.
Proof. apply fold_left_app. Qed.

Lemma crc_bit_lxor c1 c2 b1 b2 :
  crc_bit (Z.lxor c1 c2) (xorb b1 b2) = Z.lxor (crc_bit c1 b1) (crc_bit c2 b2).
Proof.
  unfold crc_bit. rewrite Z.shiftl_lxor, uwrap_lxor, Z.lxor_spec by lia.
  set (x := uwrap 24 _). set (y := uwrap 24 _).
  assert (forall u v, Z.lxor (Z.lxor x y) (Z.lxor u v) = Z.lxor (Z.lxor x u) (Z.lxor y v)) as E.
  { intros. rewrite !Z.lxor_assoc. f_equal. rewrite <- !Z.lxor_assoc. f_equal. apply Z.lxor_comm. }
  rewrite <- E. f_equal.
  destruct (Z.testbit c1 23), (Z.testbit c2 23), b1, b2; reflexivity.
Qed.

Lemma crc_bits_lxor c1 c2 l1 l2 :
  length l1 = length l2 ->
  crc_bits (Z.lxor c1 c2) (zip_with xorb l1 l2) = Z.lxor (crc_bits c1 l1) (crc_bits c2 l2).
Proof.
  revert c1 c2 l2. induction l1 as [|b1 l1 IH]; intros c1 c2 [|b2 l2] Hl; try done.
  cbn [zip_with]. rewrite !crc_bits_cons, crc_bit_lxor. apply IH. simpl in Hl. lia.
Qed.

Lemma crc_zeros_S n c : crc_zeros (S n) c = crc_zeros n (crc_bit c false).
Proof. done. Qed.

Lemma crc_zeros_add n m c : crc_zeros (n + m) c = crc_zeros m (crc_zeros n c).
Proof. unfold crc_zeros. by rewrite replicate_add, crc_bits_app. Qed.

Lemma crc_zeros_lxor n c1 c2 : crc_zeros n (Z.lxor c1 c2) = Z.lxor (crc_zeros n c1) (crc_zeros n c2).
Proof.
  unfold crc_zeros. rewrite <- crc_bits_lxor by done. f_equal.
  induction n as [|n IH]; [done|]. cbn. by rewrite <- IH.
Qed.

Lemma crc_zeros_0 n : crc_zeros n 0 = 0.
Proof. induction n as [|n IH]; [done|]. rewrite crc_zeros_S. apply IH. Qed.

Lemma crc_zeros_range n c : 0 <= c < 2 ^ 24 -> 0 <= crc_zeros n c < 2 ^ 24.
Proof. apply crc_bits_range. Qed.

(** Clocking a register whose top bits are clear is a shift. *)
Lemma crc_zeros_shift n c :
  0 <= c < 2 ^ (24 - Z.of_nat n) -> (n <= 24)%nat -> crc_zeros n c = Z.shiftl c (Z.of_nat n).
Proof.
  revert c. induction n as [|n IH]; intros c Hc Hn; [by rewrite Z.shiftl_0_r|].
  assert (2 ^ (24 - Z.of_nat (S n)) * 2 = 2 ^ (24 - Z.of_nat n)) as Hp.
  { rewrite Z.mul_comm, <- Z.pow_succ_r by lia. f_equal. lia. }
  assert (2 ^ (24 - Z.of_nat (S n)) <= 2 ^ 23) by (apply Z.pow_le_mono_r; lia).
  assert (crc_bit c false = 2 * c) as E.
  { unfold crc_bit. rewrite (testbit_above 23), Z.shiftl_mul_pow2 by lia.
    cbn [xorb]. rewrite Z.lxor_0_r, uwrap_small; lia. }
  rewrite crc_zeros_S, E, IH by lia.
  rewrite !Z.shiftl_mul_pow2, Nat2Z.inj_succ, Z.pow_succ_r by lia. lia.
Qed.

(** The register determines its predecessor: the constant term of the
    polynomial is 1. *)
Lemma crc_bit_zero c : 0 <= c < 2 ^ 24 -> crc_bit c false = 0 -> c = 0.
Proof.
  intros Hc H. unfold crc_bit in H.
  assert (Z.testbit c 23 = false) as H23.
  { destruct (Z.testbit c 23); [|done]. apply (f_equal (fun z => Z.testbit z 0)) in H.
    rewrite Z.lxor_spec, testbit_uwrap, Z.shiftl_spec in H by lia. done. }
  rewrite H23 in H. cbn [xorb] in H. rewrite Z.lxor_0_r in H.
  assert (c < 2 ^ 23).
  { destruct (decide (c < 2 ^ 23)); [done|]. exfalso.
    rewrite Z.testbit_false in H23 by lia.
    replace (c / 2 ^ 23) with 1 in H23 by (apply (Z.div_unique_pos _ _ _ (c - 2 ^ 23)); lia). done. }
  rewrite Z.shiftl_mul_pow2, uwrap_small in H; lia.
Qed.

Lemma crc_zeros_zero n c : 0 <= c < 2 ^ 24 -> crc_zeros n c = 0 -> c = 0.
Proof.
  revert c. induction n as [|n IH]; intros c Hc H; [done|].
  apply crc_bit_zero; [done|]. apply IH; [apply crc_bit_range|done].
Qed.

(** Up to 24 input bits can be folded into the register before clocking. *)
Lemma crc_bits_absorb l c :
  (length l <= 24)%nat ->
  crc_bits c l =
  crc_zeros (length l) (Z.lxor c (Z.shiftl (bits_val l) (24 - Z.of_nat (length l)))).
Proof.
  revert c. induction l as [|b l IH]; intros c Hl; [by rewrite Z.shiftl_0_l, Z.lxor_0_r|].
  cbn [length] in *. rewrite crc_bits_cons, IH by lia. rewrite crc_zeros_S.
  set (n := Z.of_nat (length l)). pose proof (bits_val_range l) as Hr. fold n in Hr.
  f_equal. rewrite bits_val_cons. fold n.
  replace (Z.shiftl (Z.b2z b * 2 ^ n + bits_val l) (24 - Z.of_nat (S (length l))))
    with (Z.lxor (Z.shiftl (Z.b2z b) 23) (Z.shiftl (bits_val l) (23 - n))).
  2:{ rewrite lxor_shiftl_add; rewrite ?Z.shiftl_mul_pow2 by lia.
      - rewrite Z.mul_add_distr_r, <- Z.mul_assoc, <- Z.pow_add_r by lia. do 2 f_equal; f_equal; lia.
      - lia.
      - replace (2 ^ 23) with (2 ^ n * 2 ^ (23 - n)) by (rewrite <- Z.pow_add_r by lia; f_equal; lia).
        pose proof (Z.pow_pos_nonneg 2 (23 - n)). nia. }
  rewrite <- Z.lxor_assoc, <- (xorb_false_r false) at 1. rewrite crc_bit_lxor. f_equal.
  - unfold crc_bit. rewrite Z.shiftl_lxor, uwrap_lxor, Z.lxor_spec, Z.shiftl_spec, Z.sub_diag, Z.b2z_bit0, xorb_false_r by lia.
    f_equal. replace (uwrap 24 (Z.shiftl (Z.shiftl (Z.b2z b) 23) 1)) with 0 by (by destruct b).
    by rewrite Z.lxor_0_r.
  - change (crc_bit ?x false) with (crc_zeros 1 x). rewrite crc_zeros_shift; [|..].
    + rewrite Z.shiftl_shiftl by lia. f_equal. lia.
    + rewrite Z.shiftl_mul_pow2 by lia.
      change (24 - Z.of_nat 1) with 23.
      replace (2 ^ 23) with (2 ^ n * 2 ^ (23 - n)) by (rewrite <- Z.pow_add_r by lia; f_equal; lia).
      pose proof (Z.pow_pos_nonneg 2 (23 - n)). nia.
    + lia.
Qed.

(** ** The table *)

Lemma bits_val_byte b : is_byte b -> bits_val (byte_bits b) = b.
Proof. intros H. unfold byte_bits. rewrite bits_val_val_bits. by apply Z.mod_small. Qed.

Lemma crc_byte_absorb c b :
  is_byte b -> crc_bits c (byte_bits b) = crc_zeros 8 (Z.lxor c (Z.shiftl b 16)).
Proof. intros H. rewrite crc_bits_absorb by (simpl; lia). by rewrite bits_val_byte. Qed.

Lemma CRC24QTAB_correct i :
  is_byte i -> rd CRC24QTAB i = Some (crc_bits 0 (byte_bits i)).
Proof.
  apply (Z_small_cases (fun i => rd CRC24QTAB i = Some (crc_bits 0 (byte_bits i))) 256).
  apply (bool_decide_unpack _). vm_compute. exact I.
Qed.

Lemma crc24q_byte_bits c b :
  0 <= c < 2 ^ 24 -> is_byte b -> crc24q_byte c b = Some (crc_bits c (byte_bits b)).
Proof.
  intros Hc Hb. unfold crc24q_byte.
  set (hi := Z.shiftr c 16). set (lo := uwrap 16 c).
  assert (is_byte hi) as Hhi.
  { unfold hi, is_byte. rewrite Z.shiftr_div_pow2 by lia. split; [apply Z.div_pos; lia|].
    apply Z.div_lt_upper_bound; lia. }
  assert (is_byte (Z.lxor hi b)) as Hx by (by apply (lxor_range 8)).
  replace (Z.land (Z.lxor hi b) 0xFF) with (Z.lxor hi b)
    by (change 0xFF with (Z.ones 8); rewrite Z.land_ones by lia; symmetry; by apply Z.mod_small).
  rewrite CRC24QTAB_correct by done. cbn [mbind option_bind]. f_equal.
  rewrite !crc_byte_absorb, Z.lxor_0_l by done.
  replace (Z.lxor c (Z.shiftl b 16)) with (Z.lxor lo (Z.shiftl (Z.lxor hi b) 16)).
  - rewrite crc_zeros_lxor. f_equal. rewrite crc_zeros_shift; [|apply uwrap_range; lia|lia].
    change 0xFFFFFF with (Z.ones 24). zbits k. rewrite Z.testbit_ones_nonneg by lia.
    change (Z.of_nat 8) with 8. unfold lo. rewrite testbit_uwrap by lia.
    destruct (Z.ltb_spec k 32), (Z.ltb_spec k 24), (Z.ltb_spec (k - 8) 16); try lia; cbn [andb];
      rewrite ?andb_true_r, ?andb_false_r; done.
  - unfold lo, hi. rewrite Z.shiftl_lxor, <- Z.lxor_assoc. f_equal. zbits k.
    destruct (Z.ltb_spec k 16); cbn [andb].
    + by rewrite (Z.testbit_neg_r _ (k - 16)), xorb_false_r by lia.
    + rewrite Z.shiftr_spec by lia. cbn [xorb]. f_equal. lia.
Qed.

Lemma crc24q_correct buf (len : nat) c :
  bytes buf -> (len <= length buf)%nat -> 0 <= c < 2 ^ 24 ->
  crc24q buf (Z.of_nat len) c = Some (crc_bits c (take (8 * len) (bitlist buf))).
Proof.
  intros Hb Hl Hc. unfold crc24q. rewrite Nat2Z.id.
  destruct (for_loop_inv (fun i r => r = crc_bits c (bitlist (take (Z.to_nat i) buf)))
    len 0 (crc24q_body buf) c) as (r & -> & ->).
  - done.
  - intros i r Hi ->. destruct (rd_in buf i) as [b Hbi]; [lia|].
    unfold crc24q_body. rewrite Hbi. cbn [mbind option_bind].
    apply rd_Some in Hbi as [_ Hbi].
    rewrite crc24q_byte_bits; [|by apply crc_bits_range|by eapply bytes_lookup].
    eexists. split; [done|]. replace (Z.to_nat (i + 1)) with (S (Z.to_nat i)) by lia.
    rewrite (take_S_r _ _ b), bitlist_app, crc_bits_app by done.
    rewrite bitlist_cons. cbn [bitlist mbind list_bind]. by rewrite app_nil_r.
  - rewrite bitlist_take. do 4 f_equal. lia.
Qed.

(** ** Left-aligned bit messages *)

(** The bits [crc24q_bits] reads, after the eight zero bits it starts from. *)
Definition padded (invert : bool) (buf : list Z) : list bool :=
  replicate 8 false ++ (xorb invert <$> bitlist buf).

Definition crc24q_bits_inv (c0 : Z) (buf : list Z) (d : nat) (invert : bool) (i : Z)
    (s : Z * Z) : Prop :=
  let '(acc, crc) := s in
  crc = crc_bits c0 (take (8 * Z.to_nat i) (drop d (padded invert buf))) /\
  forall t, (t < 8)%nat ->
    padded invert buf !! (8 * Z.to_nat i + t)%nat = Some (Z.testbit acc (7 - Z.of_nat t)).

Lemma lookup_padded_next invert buf n t :
  (t < 8)%nat ->
  padded invert buf !! (8 * (n + 1) + t)%nat =
  (fun x => xorb invert (Z.testbit x (7 - Z.of_nat t))) <$> buf !! n.
Proof.
  intros Ht. unfold padded. rewrite lookup_app_r by (rewrite length_replicate; lia).
  rewrite length_replicate, list_lookup_fmap.
  replace (8 * (n + 1) + t - 8)%nat with (8 * n + t)%nat by lia.
  rewrite lookup_bitlist_at by done. by destruct (buf !! n).
Qed.

(** The accumulator after one more byte: old low byte above, new byte below. *)
Lemma acc_next acc x (invert : bool) m :
  is_byte x -> 0 <= m < 16 ->
  let acc1 := u16 (Z.lor (Z.shiftl acc 8) x) in
  Z.testbit (if invert then Z.lxor acc1 0xFF else acc1) m =
  if decide (m < 8) then xorb invert (Z.testbit x m) else Z.testbit acc (m - 8).
Proof.
  intros Hx Hm acc1.
  assert (Z.testbit acc1 m = if decide (m < 8) then Z.testbit x m else Z.testbit acc (m - 8)) as E.
  { unfold acc1. autorewrite with tb. rewrite (proj2 (Z.ltb_lt _ _)) by lia. cbn [andb].
    case_decide.
    - by rewrite (Z.testbit_neg_r _ (m - 8)) by lia.
    - rewrite (testbit_above 8 x) by (done || lia). apply orb_false_r. }
  destruct invert; [|rewrite E; case_decide; [by destruct (Z.testbit x m)|done]].
  change 0xFF with (Z.ones 8). rewrite Z.lxor_spec, E, Z.testbit_ones_nonneg by lia.
  case_decide.
  - rewrite (proj2 (Z.ltb_lt _ _)) by lia. by destruct (Z.testbit x m).
  - rewrite (proj2 (Z.ltb_ge _ _)) by lia. apply xorb_false_r.
Qed.

Lemma crc24q_bits_body_inv c0 buf (d : nat) invert i s :
  bytes buf -> 0 <= c0 < 2 ^ 24 -> (d < 8)%nat -> 0 <= i < Z.of_nat (length buf) ->
  crc24q_bits_inv c0 buf d invert i s ->
  exists s', crc24q_bits_body buf (8 - Z.of_nat d) invert i s = Some s' /\
    crc24q_bits_inv c0 buf d invert (i + 1) s'.
Proof.
  destruct s as [acc crc]. intros Hb Hc Hd Hi [-> Hacc]. unfold crc24q_bits_body.
  destruct (rd_in buf i) as [x Hx]; [lia|]. rewrite Hx. cbn [mbind option_bind].
  apply rd_Some in Hx as [_ Hx].
  pose proof (fun m => acc_next acc x invert m ltac:(by eapply bytes_lookup)) as Hbit. cbn zeta in Hbit.
  set (acc2 := if invert then _ else _) in *.
  set (b := Z.land (Z.shiftr acc2 (8 - Z.of_nat d)) 0xFF).
  assert (is_byte b) as Hbb.
  { unfold b, is_byte. change 0xFF with (Z.ones 8). rewrite Z.land_ones by lia. apply Z.mod_pos_bound. lia. }
  assert (Hnew : forall t, (t < 8)%nat ->
    padded invert buf !! (8 * Z.to_nat (i + 1) + t)%nat = Some (xorb invert (Z.testbit x (7 - Z.of_nat t)))).
  { intros t Ht. replace (Z.to_nat (i + 1)) with (Z.to_nat i + 1)%nat by lia.
    by rewrite lookup_padded_next, Hx. }
  assert (byte_bits b = take 8 (drop (8 * Z.to_nat i) (drop d (padded invert buf)))) as Hbits.
  { apply list_eq. intros t. rewrite lookup_byte_bits, drop_drop, lookup_field.
    case_decide; [|done]. unfold b. change 0xFF with (Z.ones 8).
    autorewrite with tb. rewrite Z.testbit_ones_nonneg, (proj2 (Z.ltb_lt _ 8)), andb_true_r by lia.
    rewrite Hbit by lia. case_decide.
    - replace (d + 8 * Z.to_nat i + t)%nat with (8 * Z.to_nat (i + 1) + (d + t - 8))%nat by lia.
      rewrite Hnew by lia. do 3 f_equal. lia.
    - replace (d + 8 * Z.to_nat i + t)%nat with (8 * Z.to_nat i + (d + t))%nat by lia.
      rewrite Hacc by lia. do 2 f_equal. lia. }
  rewrite crc24q_byte_bits; [|by apply crc_bits_range|done].
  eexists (_, _). split; [done|]. split.
  - rewrite Hbits, <- crc_bits_app, take_take_drop. do 2 f_equal. lia.
  - intros t Ht. rewrite Hnew, Hbit, decide_True by lia. done.
Qed.

Lemma crc24q_bits_correct c0 buf (n : nat) invert :
  bytes buf -> 0 <= c0 < 2 ^ 24 -> (n / 8 < length buf)%nat ->
  crc24q_bits c0 buf (Z.of_nat n) invert =
  Some (crc_bits c0 (replicate (8 - n mod 8) false
                       ++ (xorb invert <$> take n (bitlist buf)))).
Proof.
  intros Hb Hc Hn. unfold crc24q_bits.
  pose proof (Nat.div_mod_eq n 8). pose proof (Nat.mod_upper_bound n 8).
  replace (Z.of_nat n / 8) with (Z.of_nat (n / 8)) by (rewrite Nat2Z.inj_div; done).
  replace (Z.of_nat n mod 8) with (Z.of_nat (n mod 8)) by (rewrite Nat2Z.inj_mod; done).
  rewrite Nat2Z.id. set (d := (n mod 8)%nat) in *. set (q := (n / 8)%nat) in *.
  destruct (for_loop_inv (crc24q_bits_inv c0 buf d invert) q 0
    (crc24q_bits_body buf (8 - Z.of_nat d) invert) (0, c0)) as (s1 & -> & H1).
  - split; [done|]. intros t Ht. unfold padded. rewrite lookup_app_l by (rewrite length_replicate; lia).
    rewrite Z.bits_0. apply lookup_replicate_2. lia.
  - intros i s Hi. apply crc24q_bits_body_inv; lia || done.
  - destruct (crc24q_bits_body_inv c0 buf d invert (Z.of_nat q) s1) as ([acc2 crc2] & Hs2 & [H2 _]);
      [done|done|lia|lia|done|].
    cbn [mbind option_bind]. rewrite Hs2. cbn [mbind option_bind snd]. f_equal. rewrite H2. f_equal.
    unfold padded. rewrite drop_app_le by (rewrite length_replicate; lia).
    rewrite drop_replicate, take_app_ge by (rewrite length_replicate; lia).
    rewrite length_replicate. f_equal. rewrite fmap_take. f_equal. lia.
Qed.

Lemma crc_bits_zeros_prefix k l : crc_bits 0 (replicate k false ++ l) = crc_bits 0 l.
Proof. rewrite crc_bits_app. fold (crc_zeros k 0). by rewrite crc_zeros_0. Qed.

(** ** Error detection *)

Lemma crc_short_zero w : (length w <= 24)%nat -> crc_bits 0 w = 0 -> w = replicate (length w) false.
Proof.
  intros Hw H. rewrite crc_bits_absorb, Z.lxor_0_l in H by done.
  pose proof (bits_val_range w) as Hr. set (n := Z.of_nat (length w)) in *.
  assert (0 <= Z.shiftl (bits_val w) (24 - n) < 2 ^ 24) as Hs.
  { rewrite Z.shiftl_mul_pow2 by lia. pose proof (Z.pow_pos_nonneg 2 (24 - n)).
    replace (2 ^ 24) with (2 ^ n * 2 ^ (24 - n)) by (rewrite <- Z.pow_add_r by lia; f_equal; lia). nia. }
  apply crc_zeros_zero in H; [|done]. apply Z.shiftl_eq_0_iff in H; [|lia].
  rewrite <- (val_bits_bits_val w) at 1. rewrite H. clear. induction w as [|b w IH]; [done|].
  cbn [length val_bits replicate]. by rewrite Z.bits_0, IH.
Qed.

Lemma crc_check_field c w :
  0 <= c < 2 ^ 24 -> length w = 24%nat -> crc_bits c w = 0 <-> bits_val w = c.
Proof.
  intros Hc Hw. pose proof (bits_val_range w) as Hr. rewrite crc_bits_absorb, Hw by lia.
  rewrite Hw in Hr. change (24 - Z.of_nat 24) with 0. rewrite Z.shiftl_0_r. split.
  - intros H. apply crc_zeros_zero in H; [|by apply lxor_range]. by apply Z.lxor_eq in H.
  - intros ->. rewrite Z.lxor_nilpotent. apply crc_zeros_0.
Qed.

Lemma all_false (l : list bool) :
  (forall k b, l !! k = Some b -> b = false) -> l = replicate (length l) false.
Proof.
  intros H. apply list_eq. intros k. destruct (l !! k) as [b|] eqn:E.
  - rewrite (H k b E). symmetry. apply lookup_replicate_2. by apply lookup_lt_Some in E.
  - symmetry. apply lookup_replicate_None. by apply lookup_ge_None in E.
Qed.

(** A non-zero error pattern confined to 24 bits leaves the register non-zero. *)
Lemma crc_window (E : list bool) (p : nat) :
  crc_bits 0 E = 0 ->
  (forall k b, E !! k = Some b -> ~ (p <= k < p + 24)%nat -> b = false) ->
  forall k b, E !! k = Some b -> b = false.
Proof.
  intros HE Hout.
  assert (E = take p E ++ take 24 (drop p E) ++ drop (p + 24) E) as HsE.
  { rewrite <- (take_drop p E) at 1. f_equal.
    rewrite <- (take_drop 24 (drop p E)) at 1. by rewrite drop_drop. }
  assert (take 24 (drop p E) = replicate (length (take 24 (drop p E))) false) as Hw.
  { apply crc_short_zero; [rewrite length_take; lia|].
    rewrite HsE, (all_false (take p E)), crc_bits_zeros_prefix in HE.
    2:{ intros k b Hk. rewrite lookup_take_Some in Hk. destruct Hk as [Hk ?].
        eapply Hout; [done|lia]. }
    rewrite crc_bits_app, (all_false (drop (p + 24) E)) in HE.
    2:{ intros k b Hk. rewrite lookup_drop in Hk. eapply Hout; [done|lia]. }
    fold (crc_zeros (length (drop (p + 24) E)) (crc_bits 0 (take 24 (drop p E)))) in HE.
    apply crc_zeros_zero in HE; [done|]. by apply crc_bits_range. }
  intros k b Hk. destruct (decide (p <= k < p + 24)%nat) as [Hin|Hin]; [|eauto].
  assert (take 24 (drop p E) !! (k - p)%nat = Some b) as Hwk.
  { rewrite lookup_field, decide_True by lia. by replace (p + (k - p))%nat with k by lia. }
  rewrite Hw in Hwk. by apply lookup_replicate in Hwk as [-> _].
Qed.

(** Two bit strings of one length that agree outside a 24-bit window and have
    equal registers are equal. *)
Lemma crc_burst c (L1 L2 : list bool) (p : nat) :
  length L1 = length L2 -> crc_bits c L1 = crc_bits c L2 ->
  (forall k, L1 !! k <> L2 !! k -> (p <= k < p + 24)%nat) -> L1 = L2.
Proof.
  intros Hl Hc Hd. set (E := zip_with xorb L1 L2).
  assert (crc_bits 0 E = 0) as HE.
  { replace 0 with (Z.lxor c c) at 1 by apply Z.lxor_nilpotent.
    unfold E. rewrite crc_bits_lxor, Hc by done. apply Z.lxor_nilpotent. }
  assert (HEk : forall k b, E !! k = Some b <->
    exists b1 b2, L1 !! k = Some b1 /\ L2 !! k = Some b2 /\ b = xorb b1 b2).
  { intros k b. unfold E. rewrite lookup_zip_with_Some. naive_solver. }
  pose proof (crc_window E p HE) as HW.
  assert (Hall : forall k b, E !! k = Some b -> b = false).
  { apply HW. intros k b Hb Hk. apply HEk in Hb as (b1 & b2 & H1 & H2 & ->).
    destruct (decide (L1 !! k = L2 !! k)) as [e|]; [|naive_solver].
    rewrite H1, H2 in e. simplify_eq. apply xorb_nilpotent. }
  apply list_eq. intros k.
  destruct (L1 !! k) as [b1|] eqn:H1, (L2 !! k) as [b2|] eqn:H2; try done.
  - f_equal. apply xorb_eq. apply (Hall k). apply HEk. eauto.
  - apply lookup_lt_Some in H1. apply lookup_ge_None in H2. lia.
  - apply lookup_lt_Some in H2. apply lookup_ge_None in H1. lia.
Qed.

(** ** Properties *)

(** C13: the table-driven byte loop of [crc24q] computes the bit-serial CRC of the
    generator polynomial 0x1864CFB over the bits of the buffer, for every buffer and
    every initial value. *)
Theorem crc24q_is_bit_serial buf (len : nat) crc :
  bytes buf -> (len <= length buf)%nat -> 0 <= crc < 2 ^ 24 ->
  crc24q buf (Z.of_nat len) crc = Some (crc_bits crc (take (8 * len) (bitlist buf))) /\
  0 <= crc_bits crc (take (8 * len) (bitlist buf)) < 2 ^ 24.
Proof. intros. split; [by apply crc24q_correct|by apply crc_bits_range]. Qed.

Lemma crc24q_is_bit_serial_witness :
  crc24q [0x31; 0x32; 0x33] 3 0 = Some (crc_bits 0 (bitlist [0x31; 0x32; 0x33])).
Proof.
  apply (crc24q_is_bit_serial [0x31; 0x32; 0x33] 3 0); [repeat constructor; done|simpl; lia|lia].
Defined.

(** C23: [crc24q_bits] with a zero initial value computes the CRC of exactly the
    first [n_bits] bits of a left-aligned message, inverted when asked; when
    [n_bits] is a multiple of 8 it also reads the byte after the message, an
    out-of-bounds read on a buffer of exactly that size. *)
Theorem crc24q_bits_left_aligned buf (n : nat) invert :
  bytes buf ->
  ((n / 8 < length buf)%nat ->
     crc24q_bits 0 buf (Z.of_nat n) invert =
     Some (crc_bits 0 (xorb invert <$> take n (bitlist buf)))) /\
  (n = (8 * length buf)%nat -> crc24q_bits 0 buf (Z.of_nat n) invert = None).
Proof.
  intros Hb. split; intros Hn.
  - rewrite crc24q_bits_correct by done. by rewrite crc_bits_zeros_prefix.
  - unfold crc24q_bits. subst n. rewrite Nat2Z.inj_mul.
    rewrite (Z.mul_comm (Z.of_nat 8)), Z.div_mul by done.
    destruct (for_loop _ _ _ _) as [[acc crc]|]; [|done]. cbn [mbind option_bind].
    unfold crc24q_bits_body, rd. rewrite decide_True, Nat2Z.id by lia.
    by rewrite lookup_ge_None_2 by lia.
Qed.

Lemma crc24q_bits_left_aligned_witness :
  crc24q_bits 0 [0x8B; 0xF0] 12 true = Some (crc_bits 0 (negb <$> take 12 (bitlist [0x8B; 0xF0]))) /\
  crc24q_bits 0 [0x8B; 0xF0] 16 false = None.
Proof.
  split.
  - apply (proj1 (crc24q_bits_left_aligned [0x8B; 0xF0] 12 true ltac:(repeat constructor; done))).
    simpl. lia.
  - apply (proj2 (crc24q_bits_left_aligned [0x8B; 0xF0] 16 false ltac:(repeat constructor; done))).
    reflexivity.
Defined.

(** CRC-24Q detects every burst error of up to 24 bits: two buffers of one
    length that differ only inside a window of 24 bits and have the same CRC are
    equal. *)
Theorem crc24q_detects_bursts buf1 buf2 crc (p : nat) :
  bytes buf1 -> bytes buf2 -> length buf1 = length buf2 -> 0 <= crc < 2 ^ 24 ->
  (forall k, bitlist buf1 !! k <> bitlist buf2 !! k -> (p <= k < p + 24)%nat) ->
  crc24q buf1 (Z.of_nat (length buf1)) crc = crc24q buf2 (Z.of_nat (length buf2)) crc ->
  buf1 = buf2.
Proof.
  intros H1 H2 Hl Hc Hd He. rewrite !crc24q_correct in He by done. injection He as He.
  rewrite !take_ge in He by (rewrite length_bitlist; lia).
  apply bitlist_inj; [done..|]. apply (crc_burst crc _ _ p); [|done|done].
  rewrite !length_bitlist. lia.
Qed.

Lemma crc24q_detects_bursts_witness :
  [1; 2; 3] = [1; 2; 3] /\ crc24q [1; 2; 3] 3 0 <> crc24q [1; 2; 7] 3 0.
Proof.
  assert (bytes [1; 2; 3]) as B1 by (repeat constructor; done).
  assert (bytes [1; 2; 7]) as B2 by (repeat constructor; done).
  split.
  - apply (crc24q_detects_bursts [1; 2; 3] [1; 2; 3] 0 0 B1 B1 eq_refl ltac:(lia)); [|reflexivity].
    intros k Hk. destruct (Hk eq_refl).
  - intros H.
    enough ([1; 2; 3] = [1; 2; 7]) by done.
    apply (crc24q_detects_bursts [1; 2; 3] [1; 2; 7] 0 0 B1 B2 eq_refl ltac:(lia)); [|exact H].
    intros k Hk. destruct (decide (k < 24)%nat); [lia|]. destruct Hk.
    rewrite !lookup_ge_None_2 by (simpl; lia). done.
Defined.
