(* ===== verification/Viterbi27.v ===== *)
(** * Viterbi27: the K=7, r=1/2 Viterbi decoder

    Model of [src/algorithms/telemetry_decoder/libs/libswiftcnav/viterbi27.c]
    and [fec.h]. The decoder state keeps the two path-metric buffers and the
    pointers [old_metrics] and [new_metrics] that are swapped on every bit, so
    that what a stale pointer reads is part of the model. *)
From S2P Require Import Prelude.

(** ** Data *)

Record v27_poly_t := { c0 : list Z; c1 : list Z }.

(** [v27_decision_t]: two 32-bit words of decision bits, one bit per state. *)
Record v27_decision_t := { w : list Z }.

Inductive metrics_ptr := Metrics1 | Metrics2.

Record v27_t := {
  metrics1 : list Z;
  metrics2 : list Z;
  old_metrics : metrics_ptr;
  new_metrics : metrics_ptr;
  poly : v27_poly_t;
  decisions : list v27_decision_t;
  decisions_index : Z;
  decisions_count : Z
}.

#[global] Instance metrics_ptr_eq_dec : EqDecision metrics_ptr.
Proof. solve_decision. Defined.

(** Dereferencing the metric pointers. *)
Definition deref (v : v27_t) (p : metrics_ptr) : list Z :=
  match p with Metrics1 => metrics1 v | Metrics2 => metrics2 v end.

Definition set_metrics (p : metrics_ptr) (m : list Z) (v : v27_t) : v27_t :=
  {| metrics1 := match p with Metrics1 => m | Metrics2 => metrics1 v end;
     metrics2 := match p with Metrics1 => metrics2 v | Metrics2 => m end;
     old_metrics := old_metrics v; new_metrics := new_metrics v; poly := poly v;
     decisions := decisions v; decisions_index := decisions_index v;
     decisions_count := decisions_count v |}.

Definition set_decisions (d : list v27_decision_t) (v : v27_t) : v27_t :=
  {| metrics1 := metrics1 v; metrics2 := metrics2 v;
     old_metrics := old_metrics v; new_metrics := new_metrics v; poly := poly v;
     decisions := d; decisions_index := decisions_index v;
     decisions_count := decisions_count v |}.

(** ** Operations *)

Definition parity (x0 : Z) : Z :=
  let x1 := Z.lxor x0 (Z.shiftr x0 16) in
  let x2 := Z.lxor x1 (Z.shiftr x1 8) in
  let x3 := Z.lxor x2 (Z.shiftr x2 4) in
  let x4 := Z.land x3 0xF in
  Z.land (Z.shiftr 0x6996 x4) 1.

(** One entry of the branch table for polynomial [p] (a [signed char]). *)
Definition poly_entry (p state : Z) : Z :=
  if Z.lxor (if p <? 0 then 1 else 0) (parity (Z.land (2 * state) (Z.abs p))) =? 0
  then 0 else 255.

Definition v27_poly_init (p0 p1 : Z) : v27_poly_t :=
  {| c0 := (fun s => poly_entry p0 (Z.of_nat s)) <$> seq 0 32;
     c1 := (fun s => poly_entry p1 (Z.of_nat s)) <$> seq 0 32 |}.

(** [v] supplies the previous contents of the structure: only [old_metrics]'s
    buffer is initialised. *)
Definition v27_init (v : v27_t) (dec : list v27_decision_t) (count : Z)
    (p : v27_poly_t) (initial_state : Z) : v27_t :=
  {| metrics1 := <[Z.to_nat (Z.land initial_state 63) := 0]> (replicate 64 63);
     metrics2 := metrics2 v;
     old_metrics := Metrics1;
     new_metrics := Metrics2;
     poly := p;
     decisions := dec;
     decisions_index := 0;
     decisions_count := count |}.

(** [d->w[i] |= x], for the decision record at [decisions_index]. *)
Definition or_decision (i x : Z) (v : v27_t) : option v27_t :=
  d ← rd (decisions v) (decisions_index v);
  y ← rd (w d) i;
  w' ← wr (w d) i (Z.lor y (u32 x));
  ds ← wr (decisions v) (decisions_index v) {| w := w' |};
  Some (set_decisions ds v).

Definition write_new (i x : Z) (v : v27_t) : option v27_t :=
  m ← wr (deref v (new_metrics v)) i x;
  Some (set_metrics (new_metrics v) m v).

(** [(signed int)(m0 - m1) > 0] *)
Definition decide_gt (m0 m1 : Z) : bool := 0 <? i32 (u32 (m0 - m1)).

(** The [BFLY] macro. *)
Definition BFLY (sym0 sym1 i : Z) (v : v27_t) : option v27_t :=
  x0 ← rd (c0 (poly v)) i;
  x1 ← rd (c1 (poly v)) i;
  let metric := Z.lxor x0 sym0 + Z.lxor x1 sym1 in
  o0 ← rd (deref v (old_metrics v)) i;
  o1 ← rd (deref v (old_metrics v)) (i + 32);
  let m0 := u32 (o0 + metric) in
  let m1 := u32 (o1 + u32 (510 - metric)) in
  let decision := decide_gt m0 m1 in
  v1 ← write_new (2 * i) (if decision then m1 else m0) v;
  v2 ← or_decision (i / 16) (Z.shiftl (Z.b2z decision) (Z.land (2 * i) 31)) v1;
  let m0' := u32 (m0 - u32 (metric + metric - 510)) in
  let m1' := u32 (m1 + u32 (metric + metric - 510)) in
  let decision' := decide_gt m0' m1' in
  v3 ← write_new (2 * i + 1) (if decision' then m1' else m0') v2;
  or_decision (i / 16) (Z.shiftl (Z.b2z decision') (Z.land (2 * i + 1) 31)) v3.

(** Normalisation of the metrics that are near overflow. *)
Definition normalize (v : v27_t) : option v27_t :=
  m0 ← rd (deref v (new_metrics v)) 0;
  if 2 ^ 30 <? m0 then
    minmetric ← for_loop 64 0
      (fun i mn => x ← rd (deref v (new_metrics v)) i; Some (if x <? mn then x else mn)) (2 ^ 31);
    for_loop 64 0
      (fun i v => x ← rd (deref v (new_metrics v)) i; write_new i (u32 (x - minmetric)) v) v
  else Some v.

(** One bit: the body of the [while] loop of [v27_update]. *)
Definition v27_update_bit (sym0 sym1 : Z) (v : v27_t) : option v27_t :=
  ds ← wr (decisions v) (decisions_index v) {| w := [0; 0] |};
  v1 ← for_loop 32 0 (BFLY sym0 sym1) (set_decisions ds v);
  v2 ← normalize v1;
  let idx := u32 (decisions_index v2 + 1) in
  Some {| metrics1 := metrics1 v2; metrics2 := metrics2 v2;
          old_metrics := new_metrics v2; new_metrics := old_metrics v2;
          poly := poly v2; decisions := decisions v2;
          decisions_index := if decisions_count v2 <=? idx then 0 else idx;
          decisions_count := decisions_count v2 |}.

Definition v27_update (v : v27_t) (syms : list Z) (nbits : Z) : option v27_t :=
  for_loop (Z.to_nat nbits) 0
    (fun k v => s0 ← rd syms (2 * k); s1 ← rd syms (2 * k + 1); v27_update_bit s0 s1 v) v.

(** State of the chainback loop: index, shift register, output. *)
Definition chainback_body (v : v27_t) (n : nat) (s : Z * Z * list Z)
  : option (Z * Z * list Z) :=
  let '(idx, final_state, data) := s in
  let idx' := if idx =? 0 then u32 (decisions_count v - 1) else idx - 1 in
  d ← rd (decisions v) idx';
  x ← rd (w d) (Z.shiftr final_state 2 / 32);
  let k := Z.land (Z.shiftr x (Z.shiftr final_state 2 mod 32)) 1 in
  let fs' := u8 (Z.lor (Z.shiftr final_state 1) (Z.shiftl k 7)) in
  data' ← wr data (Z.shiftr (Z.of_nat n) 3) fs';
  Some (idx', fs', data').

Fixpoint chainback_loop (v : v27_t) (nbits : nat) (s : Z * Z * list Z)
  : option (Z * Z * list Z) :=
  match nbits with
  | O => Some s
  | S n => s' ← chainback_body v n s; chainback_loop v n s'
  end.

Definition v27_chainback_fixed (v : v27_t) (data : list Z) (nbits : Z)
    (final_state : Z) : option (list Z) :=
  let fs := u8 (Z.shiftl (final_state mod 64) 2) in
  snd <$> chainback_loop v (Z.to_nat nbits) (decisions_index v, fs, data).

(** The state with the least metric in a buffer, as the source scans it. *)
Definition best_state (m : list Z) : option Z :=
  snd <$> for_loop 64 0
    (fun i '(best_metric, best) =>
       x ← rd m i; Some (if x <? best_metric then (x, i) else (best_metric, best)))
    (0xffffffff, 0).

Definition v27_chainback_likely (v : v27_t) (data : list Z) (nbits : Z) : option (list Z) :=
  s ← best_state (deref v (new_metrics v));
  v27_chainback_fixed v data nbits s.

(** ** Specification: the convolutional encoder and trellis paths *)

(** Output bit of polynomial [p] for the 7-bit register [r]. *)
Definition conv_out (p r : Z) : bool :=
  xorb (p <? 0) (bits_parity (val_bits 7 (Z.land r (Z.abs p)))).

(** The trellis: from state [s] (the last six input bits) input [b] leads to
    the low six bits of [2 s + b]. *)
Definition reg (s : Z) (b : bool) : Z := 2 * s + Z.b2z b.
Definition next (s : Z) (b : bool) : Z := reg s b mod 64.

Definition encode_bit (p0 p1 s : Z) (b : bool) : Z * Z :=
  (if conv_out p0 (reg s b) then 255 else 0, if conv_out p1 (reg s b) then 255 else 0).

Fixpoint encode (p0 p1 s : Z) (bs : list bool) : list Z :=
  match bs with
  | [] => []
  | b :: bs' => let '(x, y) := encode_bit p0 p1 s b in
                x :: y :: encode p0 p1 (next s b) bs'
  end.

(** Distance of a soft symbol to a hard one, cost of a branch, cost of a path. *)
Definition dist (o y : Z) : Z := Z.abs (o - y).

Definition branch_cost (p0 p1 s : Z) (b : bool) (y : Z * Z) : Z :=
  let '(o0, o1) := encode_bit p0 p1 s b in dist o0 (fst y) + dist o1 (snd y).

Fixpoint path_cost (p0 p1 s : Z) (bs : list bool) (ys : list (Z * Z)) : Z :=
  match bs, ys with
  | b :: bs', y :: ys' => branch_cost p0 p1 s b y + path_cost p0 p1 (next s b) bs' ys'
  | _, _ => 0
  end.

Definition path_end (s : Z) (bs : list bool) : Z := fold_left next bs s.

(** Add-compare-select on unbounded integers: the two predecessors of state [t]
    are [t / 2] and [t / 2 + 32], the input bit is [t mod 2]. *)
Definition acs_in (p0 p1 : Z) (M : list Z) (y : Z * Z) (t : nat) (p : Z) : Z :=
  M !!! Z.to_nat p + branch_cost p0 p1 p (Z.odd (Z.of_nat t)) y.

Definition pred0 (t : nat) : Z := Z.of_nat t / 2.
Definition pred1 (t : nat) : Z := Z.of_nat t / 2 + 32.

Definition acs_dec (p0 p1 : Z) (M : list Z) (y : Z * Z) (t : nat) : bool :=
  acs_in p0 p1 M y t (pred1 t) <? acs_in p0 p1 M y t (pred0 t).

Definition acs_at (p0 p1 : Z) (M : list Z) (y : Z * Z) (t : nat) : Z :=
  Z.min (acs_in p0 p1 M y t (pred0 t)) (acs_in p0 p1 M y t (pred1 t)).

Definition acs (p0 p1 : Z) (M : list Z) (y : Z * Z) : list Z :=
  acs_at p0 p1 M y <$> seq 0 64.

(** The metrics after a sequence of symbol pairs, without normalisation. *)
Definition trellis (p0 p1 : Z) (M0 : list Z) (ys : list (Z * Z)) : list Z :=
  fold_left (acs p0 p1) ys M0.

(** The survivor path into state [t] after [n] pairs: its first state and its
    input bits. *)
Fixpoint survivor (p0 p1 : Z) (M0 : list Z) (ys : list (Z * Z)) (n t : nat) : nat * list bool :=
  match n with
  | O => (t, [])
  | S k =>
      let d := acs_dec p0 p1 (trellis p0 p1 M0 (take k ys)) (ys !!! k) t in
      let '(s, bs) := survivor p0 p1 M0 ys k (t / 2 + 32 * Z.to_nat (Z.b2z d)) in
      (s, bs ++ [Nat.odd t])
  end.

(** The decision bit of state [t], and the record with that bit or-ed in. *)
Definition dec_bit (D : v27_decision_t) (t : nat) : bool :=
  Z.testbit (w D !!! (t / 32)%nat) (Z.of_nat (t mod 32)).

Definition or_bit (D : v27_decision_t) (t : nat) (b : bool) : v27_decision_t :=
  {| w := <[(t / 32)%nat := Z.lor (w D !!! (t / 32)%nat) (Z.shiftl (Z.b2z b) (Z.of_nat (t mod 32)))]> (w D) |}.

(** ** The branch table *)

(** The polynomials the butterfly structure is right for: both end taps set. *)
Definition good_poly (p : Z) : Prop :=
  Z.abs p < 128 /\ Z.testbit (Z.abs p) 0 = true /\ Z.testbit (Z.abs p) 6 = true.

Lemma conv_out_flip p r j :
  good_poly p -> (j = 0 \/ j = 6) -> conv_out p (Z.lxor r (2 ^ j)) = negb (conv_out p r).
Proof.
  intros (Hp & H0 & H6) Hj. unfold conv_out.
  assert (Z.land (Z.lxor r (2 ^ j)) (Z.abs p) = Z.lxor (Z.land r (Z.abs p)) (2 ^ j)) as ->.
  { apply Z.bits_inj'. intros k Hk. autorewrite with tb. rewrite Z.pow2_bits_eqb by lia.
    destruct (Z.eqb_spec j k) as [<-|].
    - assert (Z.testbit (Z.abs p) j = true) as -> by (destruct Hj; subst; done).
      by rewrite !andb_true_r.
    - by rewrite !xorb_false_r. }
  rewrite bits_parity_lxor.
  assert (bits_parity (val_bits 7 (2 ^ j)) = true) as -> by (destruct Hj; subst; done).
  destruct (p <? 0), (bits_parity _); done.
Qed.

Lemma poly_entry_out p i :
  good_poly p -> 0 <= i < 32 -> poly_entry p i = if conv_out p (2 * i) then 255 else 0.
Proof.
  intros (Hp & _) Hi. unfold poly_entry, conv_out, parity. rewrite parity32_bits.
  set (z := Z.land (2 * i) (Z.abs p)).
  assert (0 <= z < 2 ^ 7) as Hz by (apply land_range_r; lia).
  change (val_bits 32 z) with (val_bits (25 + 7) z). rewrite val_bits_app, bits_parity_app.
  rewrite Z.shiftr_div_pow2, Z.div_small, bits_parity_val_0, xorb_false_l by lia.
  destruct (p <? 0), (bits_parity _); done.
Qed.

Lemma dist_xor (o : bool) y :
  is_byte y -> Z.lxor (if o then 255 else 0) y = dist (if o then 255 else 0) y.
Proof.
  unfold dist. intros Hy. destruct o.
  - rewrite lxor_255 by done. unfold is_byte in Hy. lia.
  - rewrite Z.lxor_0_l. unfold is_byte in Hy. lia.
Qed.

Lemma dist_negb (o : bool) y :
  is_byte y -> dist (if negb o then 255 else 0) y = 255 - dist (if o then 255 else 0) y.
Proof. unfold dist, is_byte. intros Hy. destruct o; simpl; lia. Qed.

Lemma dist_range (o : bool) y : is_byte y -> 0 <= dist (if o then 255 else 0) y <= 255.
Proof. unfold dist, is_byte. intros Hy. destruct o; simpl; lia. Qed.

Lemma reg_xor i b : 0 <= i < 32 ->
  reg i b = Z.lxor (2 * i) (if b then 2 ^ 0 else 0) /\
  reg (i + 32) b = Z.lxor (reg i b) (2 ^ 6).
Proof.
  intros Hi. unfold reg.
  apply (Z_small_cases (fun i => 2 * i + Z.b2z b = Z.lxor (2 * i) (if b then 2 ^ 0 else 0) /\
    2 * (i + 32) + Z.b2z b = Z.lxor (2 * i + Z.b2z b) (2 ^ 6)) 32); [|lia].
  destruct b; apply (bool_decide_unpack _); vm_compute; exact I.
Qed.

Section decoder.
Context (p0 p1 : Z) (Hp0 : good_poly p0) (Hp1 : good_poly p1).

(** The four branches of one butterfly. *)
Lemma branch_butterfly i y :
  0 <= i < 32 -> is_byte (fst y) -> is_byte (snd y) ->
  let metric := Z.lxor (poly_entry p0 i) (fst y) + Z.lxor (poly_entry p1 i) (snd y) in
  branch_cost p0 p1 i false y = metric /\
  branch_cost p0 p1 (i + 32) false y = 510 - metric /\
  branch_cost p0 p1 i true y = 510 - metric /\
  branch_cost p0 p1 (i + 32) true y = metric.
Proof.
  intros Hi H0 H1 metric. unfold metric. rewrite !poly_entry_out, !dist_xor by done.
  unfold branch_cost, encode_bit.
  destruct (reg_xor i false Hi) as [E1 E2], (reg_xor i true Hi) as [E3 E4].
  cbn beta iota in E1, E3.
  rewrite E2, E4, E1, E3, !Z.lxor_0_r.
  rewrite !conv_out_flip by (done || lia).
  rewrite !negb_involutive, !dist_negb by (done || lia).
  lia.
Qed.

Lemma branch_cost_range s b y :
  is_byte (fst y) -> is_byte (snd y) -> 0 <= branch_cost p0 p1 s b y <= 510.
Proof.
  intros H0 H1. unfold branch_cost, encode_bit.
  pose proof (dist_range (conv_out p0 (reg s b)) (fst y) H0).
  pose proof (dist_range (conv_out p1 (reg s b)) (snd y) H1). lia.
Qed.

(** *** The state during one bit: new metrics and current decisions vary *)

Definition upd (v : v27_t) (nm : list Z) (D : v27_decision_t) : v27_t :=
  set_metrics (new_metrics v) nm
    (set_decisions (<[Z.to_nat (decisions_index v) := D]> (decisions v)) v).

(** Shape of a decoder: buffer sizes, distinct pointers, index in range. *)
Record v27_ok (v : v27_t) : Prop := {
  ok_m1 : length (metrics1 v) = 64%nat;
  ok_m2 : length (metrics2 v) = 64%nat;
  ok_ptr : old_metrics v <> new_metrics v;
  ok_poly : poly v = v27_poly_init p0 p1;
  ok_count : decisions_count v = Z.of_nat (length (decisions v));
  ok_count32 : decisions_count v < 2 ^ 32;
  ok_idx : 0 <= decisions_index v < decisions_count v;
  ok_dec : Forall (fun d => length (w d) = 2%nat) (decisions v)
}.

Lemma deref_upd_old v nm D : old_metrics v <> new_metrics v ->
  deref (upd v nm D) (old_metrics (upd v nm D)) = deref v (old_metrics v).
Proof. unfold upd, set_metrics, set_decisions, deref. simpl. by destruct (old_metrics v), (new_metrics v). Qed.

Lemma deref_upd_new v nm D : deref (upd v nm D) (new_metrics (upd v nm D)) = nm.
Proof. unfold upd, set_metrics, set_decisions, deref. simpl. by destruct (new_metrics v). Qed.

Lemma write_new_upd v nm D i x :
  (i < length nm)%nat -> write_new (Z.of_nat i) x (upd v nm D) = Some (upd v (<[i := x]> nm) D).
Proof.
  intros Hi. unfold write_new. rewrite deref_upd_new, wr_in, Nat2Z.id by lia.
  cbn [mbind option_bind]. f_equal.
  unfold upd, set_metrics, set_decisions. simpl. by destruct (new_metrics v).
Qed.

Lemma or_decision_upd v nm D t b :
  v27_ok v -> length (w D) = 2%nat -> (t < 64)%nat ->
  or_decision (Z.of_nat (t / 32)) (Z.shiftl (Z.b2z b) (Z.of_nat (t mod 32))) (upd v nm D) =
  Some (upd v nm (or_bit D t b)).
Proof.
  intros Hv HD Ht. unfold or_decision, upd. cbn [set_metrics set_decisions decisions decisions_index].
  pose proof (ok_idx v Hv). pose proof (ok_count v Hv).
  assert ((t / 32 < 2)%nat) by (apply Nat.Div0.div_lt_upper_bound; lia).
  rewrite rd_nonneg, list_lookup_insert_eq by lia. cbn [mbind option_bind]. rewrite rd_nat.
  destruct (lookup_lt_is_Some_2 (w D) (t / 32)%nat) as [x Hx]; [lia|].
  rewrite Hx. cbn [mbind option_bind].
  rewrite wr_in by lia. cbn [mbind option_bind]. rewrite wr_in by (rewrite length_insert; lia).
  cbn [mbind option_bind]. rewrite list_insert_insert_eq, Nat2Z.id. unfold or_bit.
  rewrite (list_lookup_total_correct _ _ _ Hx). pose proof (Nat.mod_upper_bound t 32).
  rewrite uwrap_small; [done|]. rewrite Z.shiftl_mul_pow2 by lia.
  assert (2 ^ Z.of_nat (t mod 32) <= 2 ^ 31) by (apply Z.pow_le_mono_r; lia).
  destruct b; cbn [Z.b2z]; lia.
Qed.

(** The arithmetic of one comparison, on metrics that do not overflow. *)
Lemma decide_gt_small m0 m1 :
  0 <= m0 < 2 ^ 31 -> 0 <= m1 < 2 ^ 31 -> decide_gt m0 m1 = (m1 <? m0).
Proof.
  intros H0 H1. unfold decide_gt.
  assert (i32 (u32 (m0 - m1)) = m0 - m1) as ->.
  { unfold swrap, uwrap. rewrite Z.add_mod_idemp_l by lia. rewrite Z.mod_small; lia. }
  destruct (Z.ltb_spec m1 m0), (Z.ltb_spec 0 (m0 - m1)); lia.
Qed.

Lemma select_min m0 m1 : (if m1 <? m0 then m1 else m0) = Z.min m0 m1.
Proof. destruct (Z.ltb_spec m1 m0); lia. Qed.

Definition metric_max : Z := 2 ^ 30 + 3123.

Definition bounded (M : list Z) : Prop :=
  length M = 64%nat /\ forall s, (s < 64)%nat -> 0 <= M !!! s <= metric_max.

Lemma length_deref v p : v27_ok v -> length (deref v p) = 64%nat.
Proof. intros []. by destruct p. Qed.

Lemma rd_total (M : list Z) i : (i < length M)%nat -> rd M (Z.of_nat i) = Some (M !!! i).
Proof. intros. rewrite rd_nat. by apply list_lookup_lookup_total_lt. Qed.

Lemma rd_poly i : (i < 32)%nat ->
  rd (c0 (v27_poly_init p0 p1)) (Z.of_nat i) = Some (poly_entry p0 (Z.of_nat i)) /\
  rd (c1 (v27_poly_init p0 p1)) (Z.of_nat i) = Some (poly_entry p1 (Z.of_nat i)).
Proof.
  intros Hi. cbn [v27_poly_init c0 c1]. rewrite !rd_nat, !list_lookup_fmap, lookup_seq_lt by lia. done.
Qed.

(** The two successors of a butterfly in terms of the four branches. *)
Lemma acs_even M y i : (i < 32)%nat ->
  acs_at p0 p1 M y (2 * i) =
    Z.min (M !!! i + branch_cost p0 p1 (Z.of_nat i) false y)
          (M !!! (i + 32)%nat + branch_cost p0 p1 (Z.of_nat i + 32) false y) /\
  acs_dec p0 p1 M y (2 * i) =
    (M !!! (i + 32)%nat + branch_cost p0 p1 (Z.of_nat i + 32) false y <?
     M !!! i + branch_cost p0 p1 (Z.of_nat i) false y).
Proof.
  intros Hi. unfold acs_at, acs_dec, acs_in, pred0, pred1.
  rewrite Nat2Z.inj_mul, (Z.mul_comm (Z.of_nat 2)), Z.div_mul, Z.odd_mul, andb_false_r by done.
  rewrite Nat2Z.id, Z2Nat.inj_add, Nat2Z.id by lia. done.
Qed.

Lemma acs_odd M y i : (i < 32)%nat ->
  acs_at p0 p1 M y (2 * i + 1) =
    Z.min (M !!! i + branch_cost p0 p1 (Z.of_nat i) true y)
          (M !!! (i + 32)%nat + branch_cost p0 p1 (Z.of_nat i + 32) true y) /\
  acs_dec p0 p1 M y (2 * i + 1) =
    (M !!! (i + 32)%nat + branch_cost p0 p1 (Z.of_nat i + 32) true y <?
     M !!! i + branch_cost p0 p1 (Z.of_nat i) true y).
Proof.
  intros Hi. unfold acs_at, acs_dec, acs_in, pred0, pred1.
  rewrite Nat2Z.inj_add, Nat2Z.inj_mul, (Z.mul_comm (Z.of_nat 2)), Z.div_add_l by done.
  rewrite Z.odd_add, Z.odd_mul, andb_false_r, Z.add_0_r by done.
  rewrite Nat2Z.id, Z2Nat.inj_add, Nat2Z.id by lia. done.
Qed.

Lemma BFLY_upd v nm D i y :
  v27_ok v -> is_byte (fst y) -> is_byte (snd y) -> bounded (deref v (old_metrics v)) ->
  (i < 32)%nat -> length nm = 64%nat -> length (w D) = 2%nat ->
  let M := deref v (old_metrics v) in
  BFLY (fst y) (snd y) (Z.of_nat i) (upd v nm D) =
  Some (upd v
    (<[(2 * i + 1)%nat := acs_at p0 p1 M y (2 * i + 1)]>
       (<[(2 * i)%nat := acs_at p0 p1 M y (2 * i)]> nm))
    (or_bit (or_bit D (2 * i) (acs_dec p0 p1 M y (2 * i)))
       (2 * i + 1) (acs_dec p0 p1 M y (2 * i + 1)))).
Proof.
  intros Hv H0 H1 [HlM HM] Hi Hnm HD M. unfold BFLY.
  change (poly (upd v nm D)) with (poly v). rewrite (ok_poly v Hv).
  destruct (rd_poly i Hi) as [-> ->]. cbn [mbind option_bind].
  rewrite deref_upd_old by apply Hv. fold M in HlM, HM |- *.
  replace (Z.of_nat i + 32) with (Z.of_nat (i + 32)) by lia.
  rewrite !rd_total by lia. cbn [mbind option_bind].
  destruct (branch_butterfly (Z.of_nat i) y) as (B0 & B1 & B2 & B3); [lia|done..|].
  pose proof (branch_cost_range (Z.of_nat i) false y H0 H1) as Hr. rewrite B0 in Hr.
  destruct (acs_even M y i Hi) as [-> ->], (acs_odd M y i Hi) as [-> ->].
  rewrite B0, B1, B2, B3.
  set (metric := Z.lxor _ _ + Z.lxor _ _) in *.
  pose proof (HM i ltac:(lia)) as Hm0. pose proof (HM (i + 32)%nat ltac:(lia)) as Hm1.
  set (o0 := M !!! i) in *. set (o1 := M !!! (i + 32)%nat) in *. unfold metric_max in *.
  rewrite (uwrap_small 32 (510 - metric)), (uwrap_small 32 (o0 + metric)),
    (uwrap_small 32 (o1 + (510 - metric))) by lia.
  assert (u32 (o0 + metric - u32 (metric + metric - 510)) = o0 + (510 - metric)) as ->.
  { unfold uwrap. rewrite Zminus_mod_idemp_r, Z.mod_small; lia. }
  assert (u32 (o1 + (510 - metric) + u32 (metric + metric - 510)) = o1 + metric) as ->.
  { unfold uwrap. rewrite Z.add_mod_idemp_r, Z.mod_small; lia. }
  rewrite !decide_gt_small, !select_min by lia.
  assert ((2 * i < 64)%nat /\ (2 * i + 1 < 64)%nat) as [Ht0 Ht1] by lia.
  assert (Hw : Z.of_nat i / 16 = Z.of_nat (2 * i / 32) /\ Z.of_nat i / 16 = Z.of_nat ((2 * i + 1) / 32)).
  { rewrite !Nat2Z.inj_div. change (Z.of_nat 32) with 32. split; Z.div_mod_to_equations; lia. }
  assert (Hs : Z.land (2 * Z.of_nat i) 31 = Z.of_nat ((2 * i) mod 32) /\
               Z.land (2 * Z.of_nat i + 1) 31 = Z.of_nat ((2 * i + 1) mod 32)).
  { change 31 with (Z.ones 5). rewrite !Z.land_ones, !Nat2Z.inj_mod by lia. split; f_equal; lia. }
  destruct Hw as [Hw0 Hw1], Hs as [-> ->].
  replace (2 * Z.of_nat i) with (Z.of_nat (2 * i)) by lia.
  replace (Z.of_nat (2 * i) + 1) with (Z.of_nat (2 * i + 1)) by lia.
  rewrite write_new_upd by lia. cbn [mbind option_bind].
  rewrite Hw0 at 1. rewrite or_decision_upd by done. cbn [mbind option_bind].
  rewrite write_new_upd by (rewrite length_insert; lia). cbn [mbind option_bind].
  rewrite Hw1. rewrite or_decision_upd; [done|done| |done].
  unfold or_bit. cbn [w]. by rewrite length_insert.
Qed.

Lemma dec_bit_or_bit D t b t' :
  length (w D) = 2%nat -> (t < 64)%nat -> (t' < 64)%nat ->
  dec_bit (or_bit D t b) t' = dec_bit D t' || (bool_decide (t = t') && b).
Proof.
  intros HD Ht Ht'. unfold dec_bit, or_bit. cbn [w].
  pose proof (Nat.div_mod_eq t 32). pose proof (Nat.div_mod_eq t' 32).
  pose proof (Nat.mod_upper_bound t 32). pose proof (Nat.mod_upper_bound t' 32).
  destruct (decide (t / 32 = t' / 32)%nat) as [E|E].
  - rewrite <- E, list_lookup_total_insert_eq by lia.
    rewrite Z.lor_spec, Z.shiftl_spec by lia. f_equal.
    case_bool_decide as Et.
    + subst t'. rewrite Z.sub_diag. by destruct b.
    + cbn [andb]. destruct (decide (t' mod 32 < t mod 32)%nat).
      * apply Z.testbit_neg_r. lia.
      * apply (testbit_above 1); [destruct b; simpl; lia|lia].
  - rewrite list_lookup_total_insert_ne by done.
    rewrite bool_decide_eq_false_2, andb_false_l, orb_false_r by congruence. done.
Qed.

Lemma length_or_bit D t b : length (w (or_bit D t b)) = length (w D).
Proof. unfold or_bit. cbn [w]. apply length_insert. Qed.

(** Decisions of one bit: the record holds exactly the comparison results. *)
Definition dec_ok (M : list Z) (y : Z * Z) (D : v27_decision_t) : Prop :=
  length (w D) = 2%nat /\ forall t, (t < 64)%nat -> dec_bit D t = acs_dec p0 p1 M y t.

Definition bfly_inv (v : v27_t) (y : Z * Z) (i : Z) (st : v27_t) : Prop :=
  let M := deref v (old_metrics v) in
  exists nm D, st = upd v nm D /\ length nm = 64%nat /\ length (w D) = 2%nat /\
    (forall t, (t < 2 * Z.to_nat i)%nat -> nm !! t = Some (acs_at p0 p1 M y t)) /\
    (forall t, (t < 64)%nat ->
       dec_bit D t = bool_decide (t < 2 * Z.to_nat i)%nat && acs_dec p0 p1 M y t).

Lemma bfly_inv_step v y i st :
  v27_ok v -> is_byte (fst y) -> is_byte (snd y) -> bounded (deref v (old_metrics v)) ->
  0 <= i < 32 -> bfly_inv v y i st ->
  exists st', BFLY (fst y) (snd y) i st = Some st' /\ bfly_inv v y (i + 1) st'.
Proof.
  intros Hv H0 H1 HM Hi (nm & D & -> & Hnm & HD & Hacs & Hdec).
  pose proof (BFLY_upd v nm D (Z.to_nat i) y Hv H0 H1 HM ltac:(lia) Hnm HD) as HB.
  rewrite Z2Nat.id in HB by lia. rewrite HB. eexists. split; [done|].
  set (j := Z.to_nat i) in *. replace (Z.to_nat (i + 1)) with (S j) by lia.
  eexists _, _. split; [done|]. replace (Z.to_nat (i + 1)) with (S j) by lia. split_and!.
  - by rewrite !length_insert.
  - by rewrite !length_or_bit.
  - intros t Ht. destruct (decide (t = 2 * j + 1)%nat) as [->|].
    { rewrite list_lookup_insert_eq; [done|rewrite length_insert; lia]. }
    rewrite list_lookup_insert_ne by done. destruct (decide (t = 2 * j)%nat) as [->|].
    { rewrite list_lookup_insert_eq; [done|lia]. }
    rewrite list_lookup_insert_ne by done. apply Hacs. lia.
  - intros t Ht. rewrite !dec_bit_or_bit, Hdec by (rewrite ?length_or_bit; lia).
    destruct (decide (t = 2 * j + 1)%nat) as [->|].
    { rewrite (bool_decide_eq_false_2 (_ < 2 * j)%nat), (bool_decide_eq_false_2 (2 * j = _)%nat) by lia.
      rewrite !bool_decide_eq_true_2 by lia. done. }
    rewrite (bool_decide_eq_false_2 (2 * j + 1 = t)%nat), orb_false_r by done.
    destruct (decide (t = 2 * j)%nat) as [->|].
    { rewrite (bool_decide_eq_false_2 (_ < 2 * j)%nat) by lia.
      rewrite !bool_decide_eq_true_2 by lia. done. }
    rewrite (bool_decide_eq_false_2 (2 * j = t)%nat), orb_false_r by done.
    f_equal. apply bool_decide_ext. lia.
Qed.

Lemma length_acs M y : length (acs p0 p1 M y) = 64%nat.
Proof. unfold acs. by rewrite length_fmap, length_seq. Qed.

Lemma lookup_acs M y t : (t < 64)%nat -> acs p0 p1 M y !! t = Some (acs_at p0 p1 M y t).
Proof. intros. unfold acs. by rewrite list_lookup_fmap, lookup_seq_lt. Qed.

Lemma lookup_total_acs M y t : (t < 64)%nat -> acs p0 p1 M y !!! t = acs_at p0 p1 M y t.
Proof. intros. apply list_lookup_total_correct. by apply lookup_acs. Qed.

Lemma bfly_loop v y :
  v27_ok v -> is_byte (fst y) -> is_byte (snd y) -> bounded (deref v (old_metrics v)) ->
  let M := deref v (old_metrics v) in
  exists D, dec_ok M y D /\
    (ds ← wr (decisions v) (decisions_index v) {| w := [0; 0] |};
     for_loop 32 0 (BFLY (fst y) (snd y)) (set_decisions ds v)) = Some (upd v (acs p0 p1 M y) D).
Proof.
  intros Hv H0 H1 HM M. pose proof (ok_idx v Hv). pose proof (ok_count v Hv).
  rewrite wr_in by lia. cbn [mbind option_bind].
  destruct (for_loop_inv (bfly_inv v y) 32 0 (BFLY (fst y) (snd y))
    (set_decisions (<[Z.to_nat (decisions_index v):={| w := [0; 0] |}]> (decisions v)) v))
    as (st & -> & nm & D & -> & Hnm & HD & Hacs & Hdec).
  - exists (deref v (new_metrics v)), {| w := [0; 0] |}. split_and!.
    + unfold upd, set_metrics, set_decisions, deref. simpl. by destruct (new_metrics v).
    + by apply length_deref.
    + done.
    + intros t Ht. lia.
    + intros t Ht. rewrite bool_decide_eq_false_2 by lia. unfold dec_bit. cbn [w].
      assert ((t / 32 < 2)%nat) by (apply Nat.Div0.div_lt_upper_bound; lia).
      destruct (t / 32)%nat as [|[|]]; [apply Z.bits_0..|lia].
  - intros i st Hi. apply bfly_inv_step; lia || done.
  - exists D. split.
    + split; [done|]. intros t Ht. rewrite Hdec, bool_decide_eq_true_2 by (done || lia). done.
    + do 2 f_equal. apply list_eq. intros t. destruct (decide (t < 64)%nat).
      * rewrite lookup_acs by done. apply Hacs. lia.
      * rewrite !lookup_ge_None_2 by (rewrite ?length_acs; lia). done.
Qed.

(** *** Normalisation *)

Definition sub_all (off : Z) (M : list Z) : list Z := (fun x => x - off) <$> M.

Lemma lookup_total_sub_all off M t :
  (t < length M)%nat -> sub_all off M !!! t = M !!! t - off.
Proof.
  intros. apply list_lookup_total_correct. unfold sub_all.
  by rewrite list_lookup_fmap, (list_lookup_lookup_total_lt M).
Qed.

Lemma sub_all_0 M : sub_all 0 M = M.
Proof. unfold sub_all. rewrite <- (list_fmap_id M) at 2. apply list_fmap_ext. intros. simpl. lia. Qed.

Definition new_min_body (v : v27_t) (i mn : Z) : option Z :=
  x ← rd (deref v (new_metrics v)) i; Some (if x <? mn then x else mn).

Definition new_sub_body (minmetric i : Z) (v : v27_t) : option v27_t :=
  x ← rd (deref v (new_metrics v)) i; write_new i (u32 (x - minmetric)) v.

Lemma min_loop v nm D :
  length nm = 64%nat -> (forall s, (s < 64)%nat -> 0 <= nm !!! s < 2 ^ 31) ->
  exists mn, for_loop 64 0 (new_min_body (upd v nm D)) (2 ^ 31) = Some mn /\
    (forall s, (s < 64)%nat -> mn <= nm !!! s) /\ exists s, (s < 64)%nat /\ nm !!! s = mn.
Proof.
  intros Hl Hb.
  destruct (for_loop_inv (fun i mn => (forall s, (s < Z.to_nat i)%nat -> mn <= nm !!! s) /\
      (mn = 2 ^ 31 \/ exists s, (s < 64)%nat /\ nm !!! s = mn)) 64 0
      (new_min_body (upd v nm D)) (2 ^ 31)) as (mn & Hmn & Hle & Hex).
  - split; [intros; lia|by left].
  - intros i mn Hi [Hle Hex]. unfold new_min_body. rewrite deref_upd_new.
    rewrite <- (Z2Nat.id i) by lia. rewrite rd_total by lia. eexists. split; [done|].
    cbn [mbind option_bind]. destruct (Z.ltb_spec (nm !!! Z.to_nat i) mn); split.
    + intros s Hs. destruct (decide (s = Z.to_nat i)) as [->|]; [lia|].
      transitivity mn; [lia|apply Hle; lia].
    + right. exists (Z.to_nat i). split; [lia|done].
    + intros s Hs. destruct (decide (s = Z.to_nat i)) as [->|]; [lia|apply Hle; lia].
    + done.
  - exists mn. split; [done|]. split; [intros; apply Hle; lia|].
    destruct Hex as [->|Hex]; [|done]. specialize (Hle 0%nat ltac:(lia)). specialize (Hb 0%nat ltac:(lia)). lia.
Qed.

Lemma sub_loop v nm D mn :
  length nm = 64%nat -> (forall s, (s < 64)%nat -> 0 <= nm !!! s - mn < 2 ^ 32) ->
  for_loop 64 0 (new_sub_body mn) (upd v nm D) = Some (upd v (sub_all mn nm) D).
Proof.
  intros Hl Hb.
  destruct (for_loop_inv (fun i st => exists m, st = upd v m D /\ length m = 64%nat /\
      forall s, (s < 64)%nat -> m !! s = Some (nm !!! s - if decide (s < Z.to_nat i)%nat then mn else 0)) 64 0
      (new_sub_body mn) (upd v nm D)) as (st & -> & m & -> & Hlm & Hm).
  - exists nm. split_and!; [done..|]. intros s Hs. rewrite decide_False, Z.sub_0_r by lia.
    apply list_lookup_lookup_total_lt. lia.
  - intros i st Hi (m & -> & Hlm & Hm). unfold new_sub_body. rewrite deref_upd_new.
    rewrite <- (Z2Nat.id i) by lia. rewrite rd_nat, Hm by lia. cbn [mbind option_bind].
    rewrite write_new_upd by lia. eexists. split; [done|]. eexists. split; [done|].
    split; [by rewrite length_insert|]. intros s Hs.
    rewrite decide_False, Z.sub_0_r, uwrap_small by (lia || apply Hb; lia).
    destruct (decide (s = Z.to_nat i)) as [->|].
    + rewrite list_lookup_insert_eq, decide_True by lia. done.
    + rewrite list_lookup_insert_ne, Hm by done. do 2 f_equal. do 2 case_decide; lia.
  - do 2 f_equal. apply list_eq. intros s. unfold sub_all. rewrite list_lookup_fmap.
    destruct (decide (s < 64)%nat).
    + rewrite Hm, decide_True by lia. by rewrite (list_lookup_lookup_total_lt nm) by lia.
    + rewrite !lookup_ge_None_2 by lia. done.
Qed.

Lemma normalize_upd v nm D :
  length nm = 64%nat -> (forall s, (s < 64)%nat -> 0 <= nm !!! s < 2 ^ 31) ->
  exists off, normalize (upd v nm D) = Some (upd v (sub_all off nm) D) /\
    (off = 0 /\ nm !!! 0%nat <= 2 ^ 30 \/
     (forall s, (s < 64)%nat -> off <= nm !!! s) /\ exists s, (s < 64)%nat /\ nm !!! s = off).
Proof.
  intros Hl Hb. unfold normalize. rewrite deref_upd_new.
  assert (rd nm 0 = Some (nm !!! 0%nat)) as -> by (apply (rd_total nm 0); lia).
  cbn [mbind option_bind]. destruct (Z.ltb_spec (2 ^ 30) (nm !!! 0%nat)).
  - destruct (min_loop v nm D Hl Hb) as (mn & Hmn & Hle & s0 & Hs0 & Hs).
    unfold new_min_body in Hmn. rewrite deref_upd_new in Hmn. rewrite Hmn. cbn [mbind option_bind].
    exists mn. split; [|right; eauto].
    apply sub_loop; [done|]. intros s Hs'. specialize (Hle s Hs'). specialize (Hb s Hs') as Hb1.
    specialize (Hb s0 Hs0). lia.
  - exists 0. split; [by rewrite sub_all_0|left; split; [done|lia]].
Qed.

(** *** Metrics stay close to each other *)

(** States that agree but for their [j] newest bits differ by at most [j] branches. *)
Definition spread (M : list Z) : Prop :=
  forall s t j, (s < 64)%nat -> (t < 64)%nat -> (j <= 6)%nat ->
    (s / 2 ^ j = t / 2 ^ j)%nat -> M !!! s - M !!! t <= 510 * Z.of_nat j + 63.

Lemma acs_at_pred M y t : exists e, (e = 0 \/ e = 1)%nat /\
  acs_at p0 p1 M y t = acs_in p0 p1 M y t (Z.of_nat (t / 2 + 32 * e)).
Proof.
  unfold acs_at. assert (pred0 t = Z.of_nat (t / 2)) as ->.
  { unfold pred0. by rewrite Nat2Z.inj_div. }
  assert (pred1 t = Z.of_nat (t / 2 + 32)) as ->.
  { unfold pred1. rewrite Nat2Z.inj_add, Nat2Z.inj_div. done. }
  destruct (Z.min_spec (acs_in p0 p1 M y t (Z.of_nat (t / 2))) (acs_in p0 p1 M y t (Z.of_nat (t / 2 + 32)))) as [[_ ->]|[_ ->]].
  - exists 0%nat. split; [by left|]. do 2 f_equal. lia.
  - exists 1%nat. split; [by right|]. do 2 f_equal. 
Qed.

Lemma acs_at_le M y t e : (e = 0 \/ e = 1)%nat ->
  acs_at p0 p1 M y t <= acs_in p0 p1 M y t (Z.of_nat (t / 2 + 32 * e)).
Proof.
  intros He. unfold acs_at, pred0, pred1.
  replace (Z.of_nat (t / 2 + 32 * e)) with (Z.of_nat t / 2 + 32 * Z.of_nat e)
    by (rewrite Nat2Z.inj_add, Nat2Z.inj_div, Nat2Z.inj_mul; done).
  destruct He as [-> | ->].
  - replace (Z.of_nat t / 2 + 32 * Z.of_nat 0) with (Z.of_nat t / 2) by lia. apply Z.le_min_l.
  - apply Z.le_min_r.
Qed.

Lemma spread_acs M y :
  is_byte (fst y) -> is_byte (snd y) -> spread M -> spread (acs p0 p1 M y).
Proof.
  intros H0 H1 HM s t j Hs Ht Hj Hst.
  rewrite !lookup_total_acs by done.
  destruct j as [|j]; [rewrite !Nat.div_1_r in Hst; subst; simpl; lia|].
  destruct (acs_at_pred M y t) as (e & He & Het).
  rewrite Het.
  pose proof (acs_at_le M y s e He) as Hle. unfold acs_in in *. rewrite Nat2Z.id in *.
  pose proof (branch_cost_range (Z.of_nat (s / 2 + 32 * e)) (Z.odd (Z.of_nat s)) y H0 H1).
  pose proof (branch_cost_range (Z.of_nat (t / 2 + 32 * e)) (Z.odd (Z.of_nat t)) y H0 H1).
  assert (s / 2 < 32)%nat by (apply Nat.Div0.div_lt_upper_bound; lia).
  assert (t / 2 < 32)%nat by (apply Nat.Div0.div_lt_upper_bound; lia).
  assert (M !!! (s / 2 + 32 * e)%nat - M !!! (t / 2 + 32 * e)%nat <= 510 * Z.of_nat j + 63).
  { apply HM; [lia..|].
    replace (32 * e)%nat with (e * 2 ^ (5 - j) * 2 ^ j)%nat.
    - rewrite !Nat.div_add by (apply Nat.pow_nonzero; lia). f_equal.
      rewrite !Nat.Div0.div_div. by rewrite Nat.pow_succ_r' in Hst.
    - rewrite <- Nat.mul_assoc, <- Nat.pow_add_r.
      replace (5 - j + j)%nat with 5%nat by lia. simpl. lia. }
  lia.
Qed.

Lemma spread_sub_all off M : length M = 64%nat -> spread M -> spread (sub_all off M).
Proof.
  intros Hl HM s t j Hs Ht Hj Hst. rewrite !lookup_total_sub_all by lia.
  specialize (HM s t j Hs Ht Hj Hst). lia.
Qed.

Lemma spread_all M s t : spread M -> (s < 64)%nat -> (t < 64)%nat -> M !!! s - M !!! t <= 3123.
Proof.
  intros HM Hs Ht. specialize (HM s t 6%nat Hs Ht ltac:(lia)).
  rewrite !Nat.div_small in HM by (simpl; lia). specialize (HM eq_refl). lia.
Qed.

(** *** One bit *)

Definition metrics_ok (M : list Z) : Prop := bounded M /\ spread M.

Lemma acs_bounds M y t :
  is_byte (fst y) -> is_byte (snd y) -> bounded M -> (t < 64)%nat ->
  0 <= acs_at p0 p1 M y t <= metric_max + 510.
Proof.
  intros H0 H1 [Hl HM] Ht. destruct (acs_at_pred M y t) as (e & He & ->). unfold acs_in.
  assert (t / 2 < 32)%nat by (apply Nat.Div0.div_lt_upper_bound; lia).
  specialize (HM (t / 2 + 32 * e)%nat ltac:(lia)). rewrite Nat2Z.id.
  pose proof (branch_cost_range (Z.of_nat (t / 2 + 32 * e)) (Z.odd (Z.of_nat t)) y H0 H1). lia.
Qed.

(** The metrics after normalisation are again in range and close to each other. *)
Lemma metrics_ok_next M y off :
  is_byte (fst y) -> is_byte (snd y) -> metrics_ok M ->
  let A := acs p0 p1 M y in
  (off = 0 /\ A !!! 0%nat <= 2 ^ 30 \/
   (forall s, (s < 64)%nat -> off <= A !!! s) /\ exists s, (s < 64)%nat /\ A !!! s = off) ->
  metrics_ok (sub_all off A).
Proof.
  intros H0 H1 [HM HS] A Hoff.
  assert (spread A) as HSA by (by apply spread_acs).
  assert (length A = 64%nat) as HlA by apply length_acs.
  split; [split|by apply spread_sub_all].
  - unfold sub_all. by rewrite length_fmap.
  - intros s Hs. rewrite lookup_total_sub_all by lia. unfold metric_max.
    assert (0 <= A !!! s) by (unfold A; rewrite lookup_total_acs by done; by apply acs_bounds).
    destruct Hoff as [[-> Hz]|(Hle & s0 & Hs0 & <-)].
    + pose proof (spread_all A s 0 HSA Hs ltac:(lia)). lia.
    + pose proof (spread_all A s s0 HSA Hs Hs0). specialize (Hle s Hs). lia.
Qed.

Definition ring_next (idx count : Z) : Z := (idx + 1) mod count.

Lemma v27_ok_upd v nm D :
  v27_ok v -> length nm = 64%nat -> length (w D) = 2%nat -> v27_ok (upd v nm D).
Proof.
  intros [] Hnm HD. unfold upd, set_metrics, set_decisions. split; cbn; try done.
  - by destruct (new_metrics v).
  - by destruct (new_metrics v).
  - by rewrite length_insert.
  - by apply Forall_insert.
Qed.

Lemma v27_update_bit_spec v y :
  v27_ok v -> is_byte (fst y) -> is_byte (snd y) -> metrics_ok (deref v (old_metrics v)) ->
  let M := deref v (old_metrics v) in
  exists v' off D, v27_update_bit (fst y) (snd y) v = Some v' /\
    v27_ok v' /\ metrics_ok (deref v' (old_metrics v')) /\
    deref v' (old_metrics v') = sub_all off (acs p0 p1 M y) /\
    deref v' (new_metrics v') = M /\ dec_ok M y D /\
    decisions v' = <[Z.to_nat (decisions_index v) := D]> (decisions v) /\
    decisions_index v' = ring_next (decisions_index v) (decisions_count v) /\
    decisions_count v' = decisions_count v.
Proof.
  intros Hv H0 H1 HM M. pose proof HM as [HB HS].
  destruct (bfly_loop v y Hv H0 H1 HB) as (D & HD & Hloop). fold M in HD, Hloop.
  unfold v27_update_bit. destruct (wr _ _ _) as [ds|]; [|done]. cbn [mbind option_bind] in *.
  rewrite Hloop. cbn [mbind option_bind]. pose proof HD as [HwD _].
  destruct (normalize_upd v (acs p0 p1 M y) D) as (off & -> & Hoff).
  { apply length_acs. }
  { intros s Hs. rewrite lookup_total_acs by done.
    pose proof (acs_bounds M y s H0 H1 HB Hs). unfold metric_max in *. lia. }
  cbn [mbind option_bind]. set (v1 := upd v (sub_all off (acs p0 p1 M y)) D).
  assert (v27_ok v1) as Hv1.
  { apply v27_ok_upd; [done| |done]. unfold sub_all. by rewrite length_fmap, length_acs. }
  pose proof (ok_idx v Hv). pose proof (ok_count32 v Hv).
  eexists _, off, D. split; [done|].
  change (decisions_index v1) with (decisions_index v). change (decisions_count v1) with (decisions_count v).
  assert ((if decisions_count v <=? u32 (decisions_index v + 1) then 0 else u32 (decisions_index v + 1)) =
    ring_next (decisions_index v) (decisions_count v)) as ->.
  { rewrite uwrap_small by lia. unfold ring_next. destruct (Z.leb_spec (decisions_count v) (decisions_index v + 1)).
    - replace (decisions_index v + 1) with (decisions_count v) by lia. by rewrite Z.mod_same by lia.
    - by rewrite Z.mod_small by lia. }
  match goal with |- v27_ok ?x /\ _ => set (v' := x) end.
  assert (deref v' (old_metrics v') = sub_all off (acs p0 p1 M y)) as Eold by apply (deref_upd_new v).
  assert (deref v' (new_metrics v') = M) as Enew by (apply (deref_upd_old v), Hv).
  assert (Hring : 0 <= ring_next (decisions_index v) (decisions_count v) < decisions_count v)
    by (unfold ring_next; apply Z.mod_pos_bound; lia).
  split_and!; try done.
  - destruct Hv1. by split; cbn; try done; apply not_eq_sym.
  - rewrite Eold. by apply metrics_ok_next.
Qed.

(** *** Paths through the trellis *)

Lemma next_range s b : 0 <= next s b < 64.
Proof. apply Z.mod_pos_bound. lia. Qed.

Lemma path_end_snoc s bs b : path_end s (bs ++ [b]) = next (path_end s bs) b.
Proof. unfold path_end. by rewrite fold_left_app. Qed.

Lemma path_end_range s bs : 0 <= s < 64 -> 0 <= path_end s bs < 64.
Proof.
  intros Hs. induction bs as [|b bs IH] using rev_ind; [done|]. rewrite path_end_snoc. apply next_range.
Qed.

Lemma path_cost_snoc s bs b ys y :
  length bs = length ys ->
  path_cost p0 p1 s (bs ++ [b]) (ys ++ [y]) =
  path_cost p0 p1 s bs ys + branch_cost p0 p1 (path_end s bs) b y.
Proof.
  revert s ys. induction bs as [|b' bs IH]; intros s [|y' ys] Hl; try done.
  - simpl. lia.
  - cbn [app path_cost]. rewrite IH by (simpl in Hl; lia). unfold path_end. cbn [fold_left]. lia.
Qed.

Lemma trellis_snoc M0 ys y : trellis p0 p1 M0 (ys ++ [y]) = acs p0 p1 (trellis p0 p1 M0 ys) y.
Proof. unfold trellis. by rewrite fold_left_app. Qed.

(** The two views of a transition into [t]. *)
Lemma next_pred t e : (t < 64)%nat -> (e = 0 \/ e = 1)%nat ->
  next (Z.of_nat (t / 2 + 32 * e)) (Nat.odd t) = Z.of_nat t.
Proof.
  intros Ht He. unfold next, reg. pose proof (Nat.div_mod_eq t 2).
  assert (Z.b2z (Nat.odd t) = Z.of_nat (t mod 2)) as ->.
  { rewrite <- Nat.bit0_mod, Nat.bit0_odd. by destruct (Nat.odd t). }
  replace (2 * Z.of_nat (t / 2 + 32 * e) + Z.of_nat (t mod 2)) with (Z.of_nat t + Z.of_nat e * 64) by lia.
  rewrite Z.mod_add, Z.mod_small by lia. done.
Qed.

Lemma pred_next s b : 0 <= s < 64 ->
  exists e, (e = 0 \/ e = 1)%nat /\ s = Z.of_nat (Z.to_nat (next s b) / 2 + 32 * e) /\
    Z.odd (Z.of_nat (Z.to_nat (next s b))) = b.
Proof.
  intros Hs. unfold next, reg.
  exists (Z.to_nat (s / 32)).
  assert (s / 32 = 0 \/ s / 32 = 1) as He by (Z.div_mod_to_equations; lia).
  assert ((2 * s + Z.b2z b) mod 64 = 2 * (s mod 32) + Z.b2z b) as ->.
  { symmetry. apply (Z.mod_unique_pos _ _ (s / 32)); destruct b; cbn [Z.b2z]; Z.div_mod_to_equations; lia. }
  pose proof (Z.mod_pos_bound s 32). pose proof (Z.div_mod s 32).
  split_and!.
  - lia.
  - rewrite Nat2Z.inj_add, Nat2Z.inj_mul, Nat2Z.inj_div, !Z2Nat.id by (destruct b; cbn [Z.b2z]; lia).
    change (Z.of_nat 2) with 2. change (Z.of_nat 32) with 32.
    destruct b; cbn [Z.b2z]; Z.div_mod_to_equations; lia.
  - rewrite Z2Nat.id by (destruct b; cbn [Z.b2z]; lia).
    rewrite Z.odd_add, Z.odd_mul. by destruct b.
Qed.

Lemma Zodd_of_nat t : Z.odd (Z.of_nat t) = Nat.odd t.
Proof.
  destruct (Nat.Even_or_Odd t) as [[k ->]|[k ->]].
  - by rewrite Nat2Z.inj_mul, Z.odd_mul, Nat.odd_mul.
  - by rewrite Nat2Z.inj_add, Nat2Z.inj_mul, Z.odd_add, Z.odd_mul, Nat.odd_add, Nat.odd_mul.
Qed.

(** No path into a state is cheaper than the state's metric. *)
Lemma trellis_lower M0 ys s bs :
  length bs = length ys -> 0 <= s < 64 ->
  trellis p0 p1 M0 ys !!! Z.to_nat (path_end s bs) <= M0 !!! Z.to_nat s + path_cost p0 p1 s bs ys.
Proof.
  revert bs. induction ys as [|y ys IH] using rev_ind; intros bs Hl Hs.
  - destruct bs; [|done]. cbn. lia.
  - destruct bs as [|b bs _] using rev_ind; [rewrite length_app in Hl; simpl in Hl; lia|].
    rewrite !length_app in Hl. cbn [length] in Hl.
    rewrite trellis_snoc, path_end_snoc, path_cost_snoc by lia.
    pose proof (path_end_range s bs Hs) as Hr. pose proof (next_range (path_end s bs) b).
    rewrite lookup_total_acs by lia.
    destruct (pred_next (path_end s bs) b Hr) as (e & He & Hpe & Hodd).
    pose proof (acs_at_le (trellis p0 p1 M0 ys) y (Z.to_nat (next (path_end s bs) b)) e He) as Hle.
    rewrite <- Hpe in Hle. unfold acs_in in Hle. rewrite Hodd in Hle.
    specialize (IH bs ltac:(lia) Hs). lia.
Qed.

(** The survivor path ends where it should and attains the metric. *)
Lemma survivor_ok M0 ys n t s bs :
  (n <= length ys)%nat -> (t < 64)%nat -> survivor p0 p1 M0 ys n t = (s, bs) ->
  (s < 64)%nat /\ length bs = n /\ path_end (Z.of_nat s) bs = Z.of_nat t /\
  trellis p0 p1 M0 (take n ys) !!! t = M0 !!! s + path_cost p0 p1 (Z.of_nat s) bs (take n ys).
Proof.
  revert t s bs. induction n as [|k IH]; intros t s bs Hn Ht Hsv.
  - injection Hsv as <- <-. split_and!; [done..|].
    change (M0 !!! t = M0 !!! t + 0). lia.
  - cbn [survivor] in Hsv. set (M := trellis p0 p1 M0 (take k ys)) in *.
    destruct (lookup_lt_is_Some_2 ys k) as [y Hy]; [lia|].
    rewrite (list_lookup_total_correct _ _ _ Hy) in Hsv.
    set (e := Z.to_nat (Z.b2z (acs_dec p0 p1 M y t))) in *.
    assert (e = 0 \/ e = 1)%nat as He by (unfold e; destruct (acs_dec _ _ _ _ _); [by right|by left]).
    assert (t / 2 < 32)%nat by (apply Nat.Div0.div_lt_upper_bound; lia).
    destruct (survivor p0 p1 M0 ys k (t / 2 + 32 * e)) as [s' bs'] eqn:Es. injection Hsv as <- <-.
    destruct (IH (t / 2 + 32 * e)%nat _ _ ltac:(lia) ltac:(lia) Es) as (Hs & Hlb & Hend & Hcost). fold M in Hcost.
    assert (length (take k ys) = k) as Hlk by (rewrite length_take; lia).
    split_and!; [done| | |].
    + rewrite length_app, Hlb. simpl. lia.
    + rewrite path_end_snoc, Hend. by apply next_pred.
    + rewrite (take_S_r _ _ _ Hy), trellis_snoc, lookup_total_acs, path_cost_snoc by lia.
      fold M. rewrite Hend.
      assert (acs_at p0 p1 M y t = acs_in p0 p1 M y t (Z.of_nat (t / 2 + 32 * e))) as ->.
      { unfold acs_at. replace (Z.of_nat (t / 2 + 32 * e)) with (if acs_dec p0 p1 M y t then pred1 t else pred0 t).
        - unfold acs_dec. destruct (Z.ltb_spec (acs_in p0 p1 M y t (pred1 t)) (acs_in p0 p1 M y t (pred0 t))); lia.
        - unfold e, pred0, pred1. rewrite Nat2Z.inj_add, Nat2Z.inj_div.
          change (Z.of_nat 2) with 2.
          destruct (acs_dec p0 p1 M y t); [done|change (Z.of_nat (32 * Z.to_nat (Z.b2z false))) with 0; lia]. }
      unfold acs_in. rewrite Nat2Z.id, Hcost, Zodd_of_nat. lia.
Qed.

(** *** The decoder after a sequence of symbol pairs *)

Lemma acs_in_sub_all off M y t p :
  length M = 64%nat -> 0 <= p < 64 ->
  acs_in p0 p1 (sub_all off M) y t p = acs_in p0 p1 M y t p - off.
Proof. intros Hl Hp. unfold acs_in. rewrite lookup_total_sub_all by lia. lia. Qed.

Lemma pred_range t : (t < 64)%nat -> 0 <= pred0 t < 64 /\ 0 <= pred1 t < 64.
Proof. intros Ht. unfold pred0, pred1. Z.div_mod_to_equations. lia. Qed.

Lemma acs_sub_all off M y t :
  length M = 64%nat -> (t < 64)%nat ->
  acs_dec p0 p1 (sub_all off M) y t = acs_dec p0 p1 M y t /\
  acs_at p0 p1 (sub_all off M) y t = acs_at p0 p1 M y t - off.
Proof.
  intros Hl Ht. destruct (pred_range t Ht) as [H0 H1]. unfold acs_dec, acs_at.
  rewrite !acs_in_sub_all by done. split; [|lia].
  apply eq_bool_prop_intro. rewrite !Is_true_true, !Z.ltb_lt. lia.
Qed.

Lemma acs_shift off M y :
  length M = 64%nat -> acs p0 p1 (sub_all off M) y = sub_all off (acs p0 p1 M y).
Proof.
  intros Hl. apply list_eq. intros t. unfold acs, sub_all. rewrite !list_lookup_fmap.
  destruct (decide (t < 64)%nat).
  - rewrite lookup_seq_lt by done. cbn. f_equal. by apply acs_sub_all.
  - rewrite lookup_seq_ge by lia. done.
Qed.

Lemma sub_all_sub_all a b M : sub_all a (sub_all b M) = sub_all (a + b) M.
Proof. unfold sub_all. rewrite <- list_fmap_compose. apply list_fmap_ext. intros. simpl. lia. Qed.

Lemma length_trellis M0 ys : length M0 = 64%nat -> length (trellis p0 p1 M0 ys) = 64%nat.
Proof. intros. destruct ys as [|y ys _] using rev_ind; [done|]. rewrite trellis_snoc. apply length_acs. Qed.

(** Slot of the decision record written [back] bits ago. *)
Definition ring_slot (idx count : Z) (back : nat) : nat := Z.to_nat ((idx - Z.of_nat back) mod count).

Record viterbi_rep (M0 : list Z) (ys : list (Z * Z)) (v : v27_t) : Prop := {
  rep_ok : v27_ok v;
  rep_metrics : metrics_ok (deref v (old_metrics v));
  rep_old : exists off, deref v (old_metrics v) = sub_all off (trellis p0 p1 M0 ys);
  rep_new : forall ys' y, ys = ys' ++ [y] ->
    metrics_ok (deref v (new_metrics v)) /\
    exists off, deref v (new_metrics v) = sub_all off (trellis p0 p1 M0 ys');
  rep_ring : forall back, (1 <= back <= length ys)%nat -> Z.of_nat back <= decisions_count v ->
    exists D, decisions v !! ring_slot (decisions_index v) (decisions_count v) back = Some D /\
      dec_ok (trellis p0 p1 M0 (take (length ys - back) ys)) (ys !!! (length ys - back)%nat) D
}.

Definition pair_ok (y : Z * Z) : Prop := is_byte (fst y) /\ is_byte (snd y).

Lemma ring_slot_1 idx count :
  0 <= idx < count -> ring_slot (ring_next idx count) count 1 = Z.to_nat idx.
Proof.
  intros H. unfold ring_slot, ring_next. rewrite Zminus_mod_idemp_l. f_equal.
  rewrite Z.mod_small; lia.
Qed.

Lemma ring_slot_S idx count back :
  0 <= idx < count -> ring_slot (ring_next idx count) count (S back) = ring_slot idx count back.
Proof. intros H. unfold ring_slot, ring_next. rewrite Zminus_mod_idemp_l. do 2 f_equal. lia. Qed.

Lemma ring_slot_ne idx count back :
  0 <= idx < count -> (1 <= back)%nat -> Z.of_nat back < count ->
  ring_slot idx count back <> Z.to_nat idx.
Proof.
  intros H Hb Hc E. unfold ring_slot in E.
  pose proof (Z.mod_pos_bound (idx - Z.of_nat back) count ltac:(lia)).
  apply Z2Nat.inj in E; [|lia..].
  destruct (decide (Z.of_nat back <= idx)).
  - rewrite Z.mod_small in E; lia.
  - rewrite <- (Z.mod_add _ 1), Z.mod_small in E; lia.
Qed.

Lemma viterbi_rep_step M0 ys v y :
  length M0 = 64%nat -> viterbi_rep M0 ys v -> pair_ok y ->
  exists v', v27_update_bit (fst y) (snd y) v = Some v' /\ viterbi_rep M0 (ys ++ [y]) v' /\
    decisions_count v' = decisions_count v.
Proof.
  intros HM0 [Hok Hmet [off Hold] _ Hring] [H0 H1].
  pose proof (length_trellis M0 ys HM0) as Hlt.
  destruct (v27_update_bit_spec v y Hok H0 H1 Hmet) as
    (v' & off' & D & -> & Hok' & Hmet' & Hold' & Hnew' & HD & Hds & Hidx & Hcnt).
  eexists. split; [done|]. split; [|done].
  rewrite Hold in Hold', Hnew', HD. rewrite acs_shift in Hold' by done.
  pose proof (ok_idx v Hok) as Hi. pose proof (ok_count v Hok) as Hc.
  split; try done.
  - exists (off' + off). by rewrite Hold', trellis_snoc, sub_all_sub_all.
  - intros ys1 y1 [<- <-]%app_inj_tail. rewrite Hold in Hmet. rewrite Hnew'. eauto.
  - intros [|back] Hb Hbc; [lia|]. rewrite Hcnt, Hidx, Hds in *.
    rewrite length_app. cbn [length].
    replace (length ys + 1 - S back)%nat with (length ys - back)%nat by lia.
    rewrite length_app in Hb. cbn [length] in Hb.
    destruct back as [|back].
    + rewrite ring_slot_1, list_lookup_insert_eq by lia. exists D. split; [done|].
      rewrite Nat.sub_0_r, take_app_length, lookup_total_app_r, Nat.sub_diag by lia.
      destruct HD as [HlD HD]. split; [done|]. intros t Ht. rewrite HD by done.
      by apply acs_sub_all.
    + rewrite ring_slot_S by done.
      rewrite list_lookup_insert_ne by (apply not_eq_sym, ring_slot_ne; lia).
      destruct (Hring (S back)) as (D' & HD' & Hdec); [lia|lia|]. exists D'. split; [done|].
      rewrite take_app_le, lookup_total_app_l by lia. done.
Qed.

Definition init_metrics (initial_state : Z) : list Z :=
  <[Z.to_nat (Z.land initial_state 63) := 0]> (replicate 64 63).

Lemma viterbi_rep_init v dec count initial_state :
  length (metrics2 v) = 64%nat -> count = Z.of_nat (length dec) -> 0 < count < 2 ^ 32 ->
  Forall (fun d => length (w d) = 2%nat) dec ->
  viterbi_rep (init_metrics initial_state) [] (v27_init v dec count (v27_poly_init p0 p1) initial_state).
Proof.
  intros Hm2 Hc Hc32 Hd.
  assert (Hin : forall s, (s < 64)%nat -> 0 <= init_metrics initial_state !!! s <= 63).
  { intros s Hs. unfold init_metrics. destruct (decide (s = Z.to_nat (Z.land initial_state 63))) as [->|].
    - rewrite list_lookup_total_insert_eq by (rewrite length_replicate; lia). lia.
    - rewrite list_lookup_total_insert_ne, lookup_total_replicate_2 by done. lia. }
  assert (Hl : length (init_metrics initial_state) = 64%nat) by (unfold init_metrics; by rewrite length_insert).
  split.
  - split; try done; cbn [v27_init decisions_index decisions_count]; lia.
  - split; [split|].
    + done.
    + intros s Hs. specialize (Hin s Hs). unfold metric_max.
      change (deref _ _) with (init_metrics initial_state). lia.
    + intros s t j Hs Ht Hj _. pose proof (Hin s Hs). pose proof (Hin t Ht).
      change (deref _ _) with (init_metrics initial_state). lia.
  - exists 0. by rewrite sub_all_0.
  - intros ys' y E. by destruct ys'.
  - intros back Hb. simpl in Hb. lia.
Qed.

(** The symbols of [v27_update] as pairs. *)
Definition sym_pairs (syms : list Z) (n : nat) : list (Z * Z) :=
  (fun k => (syms !!! (2 * k)%nat, syms !!! (2 * k + 1)%nat)) <$> seq 0 n.

Lemma sym_pairs_S syms n :
  sym_pairs syms (S n) = sym_pairs syms n ++ [(syms !!! (2 * n)%nat, syms !!! (2 * n + 1)%nat)].
Proof. unfold sym_pairs. by rewrite seq_S, fmap_app. Qed.

Lemma length_sym_pairs syms n : length (sym_pairs syms n) = n.
Proof. unfold sym_pairs. by rewrite length_fmap, length_seq. Qed.

Definition update_body (syms : list Z) (k : Z) (v : v27_t) : option v27_t :=
  s0 ← rd syms (2 * k); s1 ← rd syms (2 * k + 1); v27_update_bit s0 s1 v.

Lemma v27_update_rep M0 ys v syms nbits :
  length M0 = 64%nat -> viterbi_rep M0 ys v -> bytes syms ->
  0 <= nbits -> 2 * nbits <= Z.of_nat (length syms) ->
  exists v', v27_update v syms nbits = Some v' /\
    viterbi_rep M0 (ys ++ sym_pairs syms (Z.to_nat nbits)) v' /\ decisions_count v' = decisions_count v.
Proof.
  intros HM0 Hv Hb Hn Hl.
  destruct (for_loop_inv (fun k v' => viterbi_rep M0 (ys ++ sym_pairs syms (Z.to_nat k)) v' /\
      decisions_count v' = decisions_count v) (Z.to_nat nbits) 0 (update_body syms) v)
    as (v' & Hv' & Hrep & Hc).
  - cbn. by rewrite app_nil_r.
  - intros k v1 Hk [Hrep Hc]. unfold update_body.
    assert (Hlt : forall j, (j < length syms)%nat -> is_byte (syms !!! j)).
    { intros j Hj. eapply bytes_lookup; [done|]. by apply list_lookup_lookup_total_lt. }
    replace (2 * k) with (Z.of_nat (2 * Z.to_nat k)) by lia.
    replace (Z.of_nat (2 * Z.to_nat k) + 1) with (Z.of_nat (2 * Z.to_nat k + 1)) by lia.
    rewrite !rd_total by lia. cbn [mbind option_bind].
    destruct (viterbi_rep_step M0 _ v1 (syms !!! (2 * Z.to_nat k)%nat, syms !!! (2 * Z.to_nat k + 1)%nat) HM0 Hrep)
      as (v2 & Hv2 & Hrep2 & Hc2); [split; apply Hlt; lia|].
    exists v2. split; [done|]. split; [|congruence].
    rewrite Z2Nat.inj_add by lia. rewrite Nat.add_1_r, sym_pairs_S, app_assoc. done.
  - exists v'. split; [done|]. by rewrite Z.add_0_l, Z2Nat.id in Hrep by lia.
Qed.

(** *** Chainback *)

Lemma val_bits_next s b : 0 <= s < 64 -> val_bits 6 (next s b) = drop 1 (val_bits 6 s) ++ [b].
Proof.
  intros Hs. apply (Z_small_cases (fun s => val_bits 6 (next s b) = drop 1 (val_bits 6 s) ++ [b]) 64); [|lia].
  destruct b; apply (bool_decide_unpack _); vm_compute; exact I.
Qed.

(** The bits that pass through the register along a path: the six bits of the
    first state, then the input bits. A state is a window of that sequence. *)
Lemma path_bits s bs :
  0 <= s < 64 -> val_bits 6 (path_end s bs) = drop (length bs) (val_bits 6 s ++ bs).
Proof.
  intros Hs. induction bs as [|b bs IH] using rev_ind; [by rewrite app_nil_r|].
  rewrite path_end_snoc, val_bits_next, IH by by apply path_end_range.
  rewrite drop_drop, length_app, app_assoc. cbn [length].
  rewrite (drop_app_le (_ ++ bs)) by (rewrite length_app, length_val_bits; lia).
  by rewrite Nat.add_comm.
Qed.

Lemma pred_top_bit j (d : bool) :
  (j < 32)%nat -> Z.testbit (Z.of_nat (j + 32 * Z.to_nat (Z.b2z d))) 5 = d.
Proof.
  intros Hj. rewrite <- (Nat2Z.id j).
  apply (Z_small_cases (fun z => Z.testbit (Z.of_nat (Z.to_nat z + 32 * Z.to_nat (Z.b2z d))) 5 = d) 32); [|lia].
  destruct d; apply (bool_decide_unpack _); vm_compute; exact I.
Qed.

Definition path_stream (s : nat) (bs : list bool) : list bool :=
  val_bits 6 (Z.of_nat s) ++ bs ++ [false; false].

(** The byte of the stream that starts at bit [k]. *)
Definition stream_byte (X : list bool) (k : nat) : Z := bits_val (take 8 (drop k X)).

Lemma stream_state s bs k :
  (s < 64)%nat -> (k <= length bs)%nat ->
  take 6 (drop k (path_stream s bs)) = val_bits 6 (path_end (Z.of_nat s) (take k bs)).
Proof.
  intros Hs Hk. rewrite path_bits by lia. unfold path_stream.
  rewrite length_take_le by lia. rewrite <- (take_drop k bs) at 1. rewrite <- !app_assoc, app_assoc.
  rewrite drop_app_le, take_app_le; rewrite ?length_drop, ?length_app, ?length_val_bits, ?length_take; [|lia..].
  apply take_ge. rewrite length_drop, length_app, length_val_bits, length_take. lia.
Qed.

Lemma length_stream s bs : length (path_stream s bs) = (length bs + 8)%nat.
Proof. unfold path_stream. rewrite !length_app, length_val_bits. simpl. lia. Qed.

Lemma val_bits_stream_byte X k :
  (k + 8 <= length X)%nat -> val_bits 8 (stream_byte X k) = take 8 (drop k X).
Proof.
  intros H. unfold stream_byte.
  replace 8%nat with (length (take 8 (drop k X))) at 1; [apply val_bits_bits_val|].
  rewrite length_take, length_drop. lia.
Qed.

Lemma stream_byte_range X k : is_byte (stream_byte X k).
Proof.
  unfold stream_byte, is_byte. pose proof (bits_val_range (take 8 (drop k X))).
  assert (2 ^ Z.of_nat (length (take 8 (drop k X))) <= 2 ^ 8).
  { apply Z.pow_le_mono_r; [lia|]. rewrite length_take. lia. }
  lia.
Qed.

(** One shift of the chainback register. *)
Lemma chain_shift b (d : bool) : is_byte b ->
  u8 (Z.lor (Z.shiftr b 1) (Z.shiftl (Z.b2z d) 7)) = bits_val (d :: take 7 (val_bits 8 b)).
Proof.
  intros Hb. apply (Z_small_cases (fun b => u8 (Z.lor (Z.shiftr b 1) (Z.shiftl (Z.b2z d) 7)) =
    bits_val (d :: take 7 (val_bits 8 b))) 256); [|unfold is_byte in Hb; lia].
  destruct d; apply (bool_decide_unpack _); vm_compute; exact I.
Qed.

Lemma shiftr2_byte b : is_byte b -> Z.shiftr b 2 = bits_val (take 6 (val_bits 8 b)).
Proof.
  intros Hb. apply (Z_small_cases (fun b => Z.shiftr b 2 = bits_val (take 6 (val_bits 8 b))) 256);
    [|unfold is_byte in Hb; lia].
  apply (bool_decide_unpack _); vm_compute; exact I.
Qed.

Lemma bits_val_state t : (t < 64)%nat -> bits_val (val_bits 6 (Z.of_nat t)) = Z.of_nat t.
Proof. intros. rewrite bits_val_val_bits, Z.mod_small; [done|]. simpl. lia. Qed.

(** The register after going [N - k] pairs back holds bits [k .. k+8) of the stream. *)
Lemma chainback_register M0 ys k t s bs d :
  (S k <= length ys)%nat -> (t < 64)%nat -> survivor p0 p1 M0 ys (S k) t = (s, take (S k) bs) ->
  (S k <= length bs)%nat ->
  d = acs_dec p0 p1 (trellis p0 p1 M0 (take k ys)) (ys !!! k) t ->
  let X := path_stream s bs in
  Z.shiftr (stream_byte X (S k)) 2 = Z.of_nat t /\
  u8 (Z.lor (Z.shiftr (stream_byte X (S k)) 1) (Z.shiftl (Z.b2z d) 7)) = stream_byte X k /\
  survivor p0 p1 M0 ys k (t / 2 + 32 * Z.to_nat (Z.b2z d)) = (s, take k bs).
Proof.
  intros Hk Ht Hsv Hlb Hd X. pose proof Hsv as Hsv0.
  destruct (survivor_ok M0 ys (S k) t s _ Hk Ht Hsv) as (Hs & _ & Hend & _).
  cbn [survivor] in Hsv. rewrite <- Hd in Hsv. set (t' := (t / 2 + 32 * Z.to_nat (Z.b2z d))%nat) in *.
  destruct (survivor p0 p1 M0 ys k t') as [s' bs'] eqn:E. injection Hsv as -> Hbs.
  assert (t / 2 < 32)%nat by (apply Nat.Div0.div_lt_upper_bound; lia).
  assert (t' < 64)%nat as Ht' by (unfold t'; destruct d; [change (Z.to_nat (Z.b2z true)) with 1%nat|change (Z.to_nat (Z.b2z false)) with 0%nat]; lia).
  destruct (survivor_ok M0 ys k t' s bs' ltac:(lia) Ht' E) as (_ & Hlb' & Hend' & _).
  assert (bs' = take k bs) as ->.
  { rewrite <- (take_app_length bs' [Nat.odd t]), Hbs, take_take, Hlb'. f_equal. lia. }
  assert (HlX : length X = (length bs + 8)%nat) by apply length_stream.
  split_and!; [|..|done].
  - rewrite shiftr2_byte by apply stream_byte_range. rewrite val_bits_stream_byte by lia.
    rewrite take_take. change (6 `min` 8)%nat with 6%nat. unfold X. rewrite stream_state, Hend by lia.
    by apply bits_val_state.
  - rewrite chain_shift by apply stream_byte_range. rewrite val_bits_stream_byte by lia.
    unfold stream_byte. f_equal. rewrite take_take. change (7 `min` 8)%nat with 7%nat.
    destruct (lookup_lt_is_Some_2 X k) as [x Hx]; [lia|].
    rewrite (drop_S _ _ _ Hx). cbn [take]. f_equal.
    assert (Hst : take 6 (drop k X) !! 0%nat = val_bits 6 (Z.of_nat t') !! 0%nat).
    { unfold X. rewrite stream_state, Hend' by lia. done. }
    rewrite lookup_take_lt, lookup_drop, Nat.add_0_r, Hx in Hst by lia.
    rewrite lookup_val_bits, decide_True in Hst by lia. apply (inj Some) in Hst.
    rewrite Hst. symmetry. by apply pred_top_bit.
Qed.

Lemma dec_bit_read D t : (t < 64)%nat -> length (w D) = 2%nat ->
  exists x, rd (w D) (Z.of_nat t / 32) = Some x /\
    Z.land (Z.shiftr x (Z.of_nat t mod 32)) 1 = Z.b2z (dec_bit D t).
Proof.
  intros Ht HD. exists (w D !!! (t / 32)%nat).
  assert (t / 32 < 2)%nat by (apply Nat.Div0.div_lt_upper_bound; lia).
  change 32 with (Z.of_nat 32). rewrite <- Nat2Z.inj_div, <- Nat2Z.inj_mod. split.
  - rewrite rd_nat. apply list_lookup_lookup_total_lt. lia.
  - change 1 with (Z.ones 1). rewrite Z.land_ones by lia. unfold dec_bit.
    change (2 ^ 1) with 2. rewrite <- Z.bit0_mod, Z.shiftr_spec by lia. done.
Qed.

Lemma ring_back idx count b :
  0 <= idx < count -> count < 2 ^ 32 ->
  (if Z.of_nat (ring_slot idx count b) =? 0 then u32 (count - 1)
   else Z.of_nat (ring_slot idx count b) - 1) = Z.of_nat (ring_slot idx count (S b)).
Proof.
  intros H Hc. unfold ring_slot.
  set (a := idx - Z.of_nat b). replace (idx - Z.of_nat (S b)) with (a - 1) by lia.
  pose proof (Z.mod_pos_bound a count ltac:(lia)). pose proof (Z.mod_pos_bound (a - 1) count ltac:(lia)).
  rewrite !Z2Nat.id by lia. rewrite <- Zminus_mod_idemp_l.
  destruct (Z.eqb_spec (a mod count) 0) as [E|E].
  - rewrite E, uwrap_small by lia. rewrite <- (Z.mod_add _ 1), Z.mod_small; lia.
  - rewrite (Z.mod_small (_ - 1)); lia.
Qed.

(** Invariant of the chainback loop with [n] bits to go, of [nbits]. *)
Definition chain_inv (v : v27_t) (M0 : list Z) (ys : list (Z * Z)) (s : nat) (bs : list bool)
    (data0 : list Z) (nbits n : nat) (st : Z * Z * list Z) : Prop :=
  let X := path_stream s bs in
  let base := (length ys - nbits)%nat in
  exists data t, st = (Z.of_nat (ring_slot (decisions_index v) (decisions_count v) (nbits - n)),
                       stream_byte X (base + n), data) /\
    (t < 64)%nat /\ survivor p0 p1 M0 ys (base + n) t = (s, take (base + n) bs) /\
    length data = length data0 /\
    (forall m, (n <= 8 * m < nbits)%nat -> data !! m = Some (stream_byte X (base + 8 * m))) /\
    (forall m, (nbits <= 8 * m)%nat -> data !! m = data0 !! m).

Lemma chain_inv_step v M0 ys s bs data0 nbits n st :
  viterbi_rep M0 ys v -> length bs = length ys -> (s < 64)%nat ->
  (nbits <= length ys)%nat -> Z.of_nat nbits <= decisions_count v ->
  (nbits <= 8 * length data0)%nat -> (S n <= nbits)%nat ->
  chain_inv v M0 ys s bs data0 nbits (S n) st ->
  exists st', chainback_body v n st = Some st' /\ chain_inv v M0 ys s bs data0 nbits n st'.
Proof.
  intros Hrep Hlb Hs HN Hc Hd Hn (data & t & -> & Ht & Hsv & Hld & Hdone & Hsame).
  pose proof (rep_ok _ _ _ Hrep) as Hok. pose proof (ok_idx v Hok). pose proof (ok_count32 v Hok).
  set (base := (length ys - nbits)%nat) in *. set (X := path_stream s bs) in *.
  replace (base + S n)%nat with (S (base + n)) in * by lia.
  destruct (rep_ring _ _ _ Hrep (nbits - n)) as (D & HD & HwD & Hdec); [lia..|].
  replace (length ys - (nbits - n))%nat with (base + n)%nat in Hdec by lia.
  destruct (chainback_register M0 ys (base + n) t s bs (dec_bit D t)) as (Hst & Hfs & Hsv');
    [lia|done..|lia|by apply Hdec|].
  fold X in Hst, Hfs. unfold chainback_body.
  rewrite ring_back by done. replace (S (nbits - S n)) with (nbits - n)%nat by lia.
  rewrite rd_nat, HD. cbn [mbind option_bind]. rewrite Hst.
  destruct (dec_bit_read D t Ht HwD) as (x & -> & Hx). cbn [mbind option_bind]. rewrite Hx, Hfs.
  assert (Hsh : Z.shiftr (Z.of_nat n) 3 = Z.of_nat (n / 8)).
  { rewrite Z.shiftr_div_pow2, Nat2Z.inj_div by lia. done. }
  pose proof (Nat.div_mod_eq n 8). pose proof (Nat.mod_upper_bound n 8).
  rewrite Hsh, wr_in by lia. cbn [mbind option_bind]. rewrite Nat2Z.id.
  eexists. split; [done|]. eexists _, _. split; [done|]. split_and!.
  - assert (t / 2 < 32)%nat by (apply Nat.Div0.div_lt_upper_bound; lia).
    instantiate (1 := (t / 2 + 32 * Z.to_nat (Z.b2z (dec_bit D t)))%nat).
    destruct (dec_bit D t); [change (Z.to_nat (Z.b2z true)) with 1%nat|change (Z.to_nat (Z.b2z false)) with 0%nat]; lia.
  - done.
  - by rewrite length_insert.
  - intros m Hm. destruct (decide (m = n / 8)%nat) as [->|].
    + rewrite list_lookup_insert_eq by lia. do 2 f_equal. lia.
    + rewrite list_lookup_insert_ne by done. apply Hdone. lia.
  - intros m Hm. rewrite list_lookup_insert_ne by lia. by apply Hsame.
Qed.

Lemma chainback_fixed_spec v M0 ys data nbits t s bs :
  viterbi_rep M0 ys v -> (t < 64)%nat -> survivor p0 p1 M0 ys (length ys) t = (s, bs) ->
  0 <= nbits <= Z.of_nat (length ys) -> nbits <= decisions_count v ->
  nbits <= 8 * Z.of_nat (length data) ->
  exists data', v27_chainback_fixed v data nbits (Z.of_nat t) = Some data' /\
    length data' = length data /\
    (forall m, 8 * Z.of_nat m < nbits ->
       data' !! m = Some (stream_byte (path_stream s bs) (length ys - Z.to_nat nbits + 8 * m))) /\
    (forall m, nbits <= 8 * Z.of_nat m -> data' !! m = data !! m).
Proof.
  intros Hrep Ht Hsv Hn Hc Hd.
  destruct (survivor_ok M0 ys (length ys) t s bs ltac:(lia) Ht Hsv) as (Hs & Hlb & Hend & _).
  set (nb := Z.to_nat nbits).
  assert (Hloop : forall n st, (n <= nb)%nat -> chain_inv v M0 ys s bs data nb n st ->
    exists st', chainback_loop v n st = Some st' /\ chain_inv v M0 ys s bs data nb 0 st').
  { induction n as [|n IH]; intros st Hle Hi; [by exists st|]. cbn [chainback_loop].
    destruct (chain_inv_step v M0 ys s bs data nb n st Hrep) as (st' & -> & Hi'); [done|done|lia..|done|].
    apply IH; [lia|done]. }
  pose proof (rep_ok _ _ _ Hrep) as Hok. pose proof (ok_idx v Hok).
  destruct (Hloop nb (decisions_index v, u8 (Z.shiftl (Z.of_nat t mod 64) 2), data)) as (st & Hst & Hi).
  - lia.
  - exists data, t. replace (length ys - nb + nb)%nat with (length ys) by lia.
    rewrite Nat.sub_diag, take_ge by lia. split_and!; try done.
    + unfold ring_slot. rewrite Z.sub_0_r, (Z.mod_small (decisions_index v)), Z2Nat.id by lia. do 2 f_equal.
      unfold stream_byte, path_stream. rewrite app_assoc, drop_app_le by (rewrite length_app, length_val_bits; lia).
      rewrite <- Hlb, <- path_bits, Hend by lia.
      rewrite take_ge by (rewrite length_app, length_val_bits; done).
      rewrite bits_val_app, bits_val_state by done. cbn [length].
      rewrite Z.mod_small by lia. change (bits_val [false; false]) with 0.
      rewrite Z.shiftl_mul_pow2, uwrap_small by lia. lia.
    + intros m Hm. lia.
  - destruct Hi as (data' & t' & -> & _ & _ & Hl & Hdone & Hsame).
    unfold v27_chainback_fixed. fold nb. rewrite Hst. cbn. exists data'.
    split_and!; [done..| |].
    + intros m Hm. apply Hdone. lia.
    + intros m Hm. apply Hsame. lia.
Qed.

(** *** Paths the decoder starts from *)

Lemma survivor_optimal M0 ys t s bs :
  (t < 64)%nat -> survivor p0 p1 M0 ys (length ys) t = (s, bs) ->
  forall s' bs', 0 <= s' < 64 -> length bs' = length ys -> path_end s' bs' = Z.of_nat t ->
    M0 !!! s + path_cost p0 p1 (Z.of_nat s) bs ys <= M0 !!! Z.to_nat s' + path_cost p0 p1 s' bs' ys.
Proof.
  intros Ht Hsv s' bs' Hs' Hl Hend.
  destruct (survivor_ok M0 ys (length ys) t s bs ltac:(lia) Ht Hsv) as (_ & _ & _ & Hc).
  rewrite firstn_all in Hc. rewrite <- Hc.
  pose proof (trellis_lower M0 ys s' bs' Hl Hs') as Hlow. by rewrite Hend, Nat2Z.id in Hlow.
Qed.

Lemma path_cost_nonneg s bs ys : Forall pair_ok ys -> 0 <= path_cost p0 p1 s bs ys.
Proof.
  intros Hys. revert s bs. induction Hys as [|y ys [H0 H1] _ IH]; intros s [|b bs]; cbn [path_cost]; try lia.
  pose proof (branch_cost_range s b y H0 H1). specialize (IH (next s b) bs). lia.
Qed.

Lemma conv_out_inj s b b' : 0 <= s < 64 -> conv_out p0 (reg s b) = conv_out p0 (reg s b') -> b = b'.
Proof.
  intros Hs. assert (conv_out p0 (reg s true) = negb (conv_out p0 (reg s false))) as Hf.
  { rewrite <- (conv_out_flip p0 _ 0) by (done || by left). f_equal. unfold reg.
    apply (Z_small_cases (fun s => 2 * s + Z.b2z true = Z.lxor (2 * s + Z.b2z false) (2 ^ 0)) 64); [|lia].
    apply (bool_decide_unpack _); vm_compute; exact I. }
  destruct b, b'; try done; rewrite Hf; by destruct (conv_out p0 (reg s false)).
Qed.

Lemma encode_pairs s bs :
  sym_pairs (encode p0 p1 s bs) (length bs) =
  match bs with [] => [] | b :: bs' =>
    encode_bit p0 p1 s b :: sym_pairs (encode p0 p1 (next s b) bs') (length bs') end.
Proof.
  destruct bs as [|b bs]; [done|]. cbn [encode length]. destruct (encode_bit p0 p1 s b) as [x y].
  unfold sym_pairs. cbn [seq fmap list_fmap]. f_equal. rewrite <- seq_shift.
  rewrite <- list_fmap_compose. apply list_fmap_ext. intros i k _. cbn.
  replace (k + S (k + 0))%nat with (S (2 * k)) by lia.
  replace (S (2 * k) + 1)%nat with (S (2 * k + 1)) by lia. done.
Qed.

Lemma length_encode s bs : length (encode p0 p1 s bs) = (2 * length bs)%nat.
Proof.
  revert s. induction bs as [|b bs IH]; intros s; [done|]. cbn [encode].
  destruct (encode_bit p0 p1 s b). cbn [length]. rewrite IH. lia.
Qed.

Lemma encode_bytes s bs : bytes (encode p0 p1 s bs).
Proof.
  revert s. induction bs as [|b bs IH]; intros s; cbn [encode]; [constructor|].
  unfold encode_bit. repeat constructor; try apply IH; destruct (conv_out _ _); unfold is_byte; lia.
Qed.

Lemma sym_pairs_ok syms n : bytes syms -> (2 * n <= length syms)%nat -> Forall pair_ok (sym_pairs syms n).
Proof.
  intros Hb Hl. unfold sym_pairs. apply Forall_fmap, list.Forall_forall. intros k Hk%elem_of_seq.
  assert (H : forall j, (j < length syms)%nat -> is_byte (syms !!! j)).
  { intros j Hj. eapply bytes_lookup; [done|]. by apply list_lookup_lookup_total_lt. }
  split; apply H; cbn; lia.
Qed.

(** The encoder's own path costs nothing, and it is the only such path from its
    first state. *)
Lemma encode_cost s bs : path_cost p0 p1 s bs (sym_pairs (encode p0 p1 s bs) (length bs)) = 0.
Proof.
  revert s. induction bs as [|b bs IH]; intros s; [done|]. rewrite encode_pairs. cbn [path_cost].
  rewrite IH. unfold branch_cost. destruct (encode_bit p0 p1 s b). unfold dist. simpl. lia.
Qed.

Lemma encode_cost_unique s bs bs' :
  0 <= s < 64 -> length bs' = length bs ->
  path_cost p0 p1 s bs' (sym_pairs (encode p0 p1 s bs) (length bs)) <= 0 -> bs' = bs.
Proof.
  revert s bs'. induction bs as [|b bs IH]; intros s [|b' bs'] Hs Hl Hc; try done.
  rewrite encode_pairs in Hc. cbn [path_cost] in Hc. injection Hl as Hl.
  assert (Hok : Forall pair_ok (sym_pairs (encode p0 p1 (next s b) bs) (length bs))).
  { apply sym_pairs_ok; [apply encode_bytes|rewrite length_encode; lia]. }
  pose proof (path_cost_nonneg (next s b') bs' _ Hok) as Hn.
  assert (b' = b) as ->.
  { destruct (decide (b' = b)) as [|Hne]; [done|]. exfalso.
    unfold branch_cost, encode_bit, dist in Hc.
    destruct (conv_out p0 (reg s b')) eqn:E1, (conv_out p0 (reg s b)) eqn:E2.
    - apply Hne, (conv_out_inj s); [done|congruence].
    - destruct (conv_out p1 (reg s b')), (conv_out p1 (reg s b)); simpl in Hc; lia.
    - destruct (conv_out p1 (reg s b')), (conv_out p1 (reg s b)); simpl in Hc; lia.
    - apply Hne, (conv_out_inj s); [done|congruence]. }
  f_equal. apply (IH (next s b)); [apply next_range|done|].
  assert (branch_cost p0 p1 s b (encode_bit p0 p1 s b) = 0) as Hz; [|lia].
  unfold branch_cost. destruct (encode_bit p0 p1 s b). unfold dist. simpl. lia.
Qed.

Lemma init_metrics_at i s :
  0 <= i < 64 -> (s < 64)%nat -> init_metrics i !!! s = if decide (Z.of_nat s = i) then 0 else 63.
Proof.
  intros Hi Hs. unfold init_metrics. change 63 with (Z.ones 6) at 1. rewrite Z.land_ones, Z.mod_small by lia.
  case_decide.
  - replace s with (Z.to_nat i) by lia. rewrite list_lookup_total_insert_eq by (rewrite length_replicate; lia). done.
  - rewrite list_lookup_total_insert_ne, lookup_total_replicate_2 by lia. done.
Qed.

Lemma survivor_encode i bs t s bs' :
  0 <= i < 64 -> Z.of_nat t = path_end i bs ->
  survivor p0 p1 (init_metrics i) (sym_pairs (encode p0 p1 i bs) (length bs)) (length bs) t = (s, bs') ->
  Z.of_nat s = i /\ bs' = bs.
Proof.
  intros Hi Ht Hsv. set (ys := sym_pairs _ _) in *.
  assert (Hly : length ys = length bs) by apply length_sym_pairs. rewrite <- Hly in Hsv.
  pose proof (path_end_range i bs Hi). assert (t < 64)%nat as Ht64 by lia.
  destruct (survivor_ok _ ys _ t s bs' ltac:(done) Ht64 Hsv) as (Hs & Hlb & _ & _).
  assert (Forall pair_ok ys) as Hok.
  { apply sym_pairs_ok; [apply encode_bytes|rewrite length_encode; lia]. }
  pose proof (survivor_optimal _ ys t s bs' Ht64 Hsv i bs Hi ltac:(done) ltac:(done)) as Hopt.
  pose proof (path_cost_nonneg (Z.of_nat s) bs' ys Hok).
  unfold ys in Hopt at 2. rewrite encode_cost, !init_metrics_at in Hopt by lia.
  rewrite (decide_True (P := Z.of_nat (Z.to_nat i) = i)) in Hopt by lia.
  case_decide as E; [|lia]. split; [done|]. rewrite E in Hopt.
  apply (encode_cost_unique i); [done|congruence|]. fold ys. lia.
Qed.

Definition best_body (m : list Z) (i : Z) (s : Z * Z) : option (Z * Z) :=
  let '(best_metric, best) := s in
  x ← rd m i; Some (if x <? best_metric then (x, i) else (best_metric, best)).

Lemma best_state_spec M :
  length M = 64%nat -> (forall s, (s < 64)%nat -> 0 <= M !!! s < 0xffffffff) ->
  exists b, best_state M = Some (Z.of_nat b) /\ (b < 64)%nat /\
    forall s, (s < 64)%nat -> M !!! b <= M !!! s.
Proof.
  intros Hl Hr.
  destruct (for_loop_inv (fun i '(mn, b) => (i = 0 /\ mn = 0xffffffff) \/ exists n, b = Z.of_nat n /\
      (n < 64)%nat /\ M !!! n = mn /\ forall s, Z.of_nat s < i -> mn <= M !!! s) 64 0
      (best_body M) (0xffffffff, 0)) as ((mn & b) & Hb & Hinv).
  - by left.
  - intros i (mn & b) Hi Hinv. unfold best_body. rewrite <- (Z2Nat.id i) by lia.
    rewrite rd_total by lia. cbn [mbind option_bind]. eexists. split; [done|].
    pose proof (Hr (Z.to_nat i) ltac:(lia)).
    destruct (Z.ltb_spec (M !!! Z.to_nat i) mn).
    + right. exists (Z.to_nat i). split_and!; [done|lia|done|]. intros s Hs.
      destruct (decide (s = Z.to_nat i)) as [->|]; [lia|].
      destruct Hinv as [[-> ->]|(n1 & _ & _ & _ & Hle)]; [lia|]. specialize (Hle s ltac:(lia)). lia.
    + destruct Hinv as [[-> ->]|(n & -> & Hn & Hmn & Hle)]; [lia|]. right. exists n.
      split_and!; [done..|]. intros s Hs. destruct (decide (s = Z.to_nat i)) as [->|]; [done|]. apply Hle. lia.
  - destruct Hinv as [[? _]|(n & -> & Hn & <- & Hle)]; [lia|]. exists n. split_and!.
    + unfold best_state. unfold best_body in Hb. by rewrite Hb.
    + done.
    + intros s Hs. apply Hle. lia.
Qed.

(** The bits of the output are bits of the stream, [base] bits after its start. *)
Lemma chainback_fixed_bits v M0 ys data nbits t s bs :
  viterbi_rep M0 ys v -> (t < 64)%nat -> survivor p0 p1 M0 ys (length ys) t = (s, bs) ->
  0 <= nbits <= Z.of_nat (length ys) -> nbits <= decisions_count v ->
  nbits <= 8 * Z.of_nat (length data) ->
  exists data', v27_chainback_fixed v data nbits (Z.of_nat t) = Some data' /\
    length data' = length data /\
    forall i, Z.of_nat i < nbits ->
      bitlist data' !! i = (val_bits 6 (Z.of_nat s) ++ bs) !! (length ys - Z.to_nat nbits + i)%nat.
Proof.
  intros Hrep Ht Hsv Hn Hc Hd.
  destruct (survivor_ok M0 ys (length ys) t s bs ltac:(lia) Ht Hsv) as (_ & Hlb & _ & _).
  destruct (chainback_fixed_spec v M0 ys data nbits t s bs) as (data' & -> & Hl & Hin & _); [done..|].
  exists data'. split_and!; [done..|]. intros i Hi.
  pose proof (Nat.div_mod_eq i 8). pose proof (Nat.mod_upper_bound i 8).
  set (base := (length ys - Z.to_nat nbits)%nat) in *.
  set (X := path_stream s bs) in *. assert (length X = (length bs + 8)%nat) by apply length_stream.
  transitivity (byte_bits (stream_byte X (base + 8 * (i / 8))) !! (i mod 8)%nat).
  - rewrite lookup_byte_bits, decide_True by lia.
    replace i with (8 * (i / 8) + i mod 8)%nat at 1 by lia.
    rewrite lookup_bitlist_at, Hin by lia. done.
  - unfold byte_bits. rewrite val_bits_stream_byte by lia.
    rewrite lookup_take_lt, lookup_drop by lia. unfold X, path_stream.
    rewrite app_assoc, lookup_app_l by (rewrite length_app, length_val_bits; lia). f_equal. lia.
Qed.

(** [v27_chainback_likely] on a decoder that has seen symbols: it always returns,
    and outputs the end of a survivor path. *)
Lemma chainback_likely_bits v M0 ys data nbits :
  viterbi_rep M0 ys v -> ys <> [] -> bytes data ->
  0 <= nbits <= Z.of_nat (length ys) -> nbits <= decisions_count v ->
  nbits <= 8 * Z.of_nat (length data) ->
  exists data' t s bs, v27_chainback_likely v data nbits = Some data' /\
    bytes data' /\ length data' = length data /\
    (t < 64)%nat /\ survivor p0 p1 M0 ys (length ys) t = (s, bs) /\
    (forall i, Z.of_nat i < nbits ->
      bitlist data' !! i = (val_bits 6 (Z.of_nat s) ++ bs) !! (length ys - Z.to_nat nbits + i)%nat).
Proof.
  intros Hrep Hne Hb Hn Hc Hd.
  destruct ys as [|y ys' _] using rev_ind; [done|]. clear Hne.
  destruct (rep_new _ _ _ Hrep ys' y eq_refl) as [[[Hlm Hm] _] _].
  destruct (best_state_spec (deref v (new_metrics v))) as (t & Hbest & Ht & _); [done| |].
  { intros s Hs. specialize (Hm s Hs). unfold metric_max in Hm. lia. }
  unfold v27_chainback_likely. rewrite Hbest. cbn [mbind option_bind].
  destruct (survivor p0 p1 M0 (ys' ++ [y]) (length (ys' ++ [y])) t) as [s bs] eqn:Esv.
  destruct (chainback_fixed_bits v M0 _ data nbits t s bs Hrep Ht Esv Hn Hc Hd) as (data' & Hr & Hl & Hbits).
  destruct (chainback_fixed_spec v M0 _ data nbits t s bs Hrep Ht Esv Hn Hc Hd) as (data2 & Hr2 & _ & Hin & Hout).
  rewrite Hr in Hr2. injection Hr2 as <-.
  exists data', t, s, bs. split_and!; try done.
  apply Forall_lookup. intros m x Hx. destruct (decide (8 * Z.of_nat m < nbits)).
  - rewrite Hin in Hx by done. injection Hx as <-. apply stream_byte_range.
  - rewrite Hout in Hx by lia. by apply (bytes_lookup data m).
Qed.

End decoder.

(** ** Properties *)

(** A decoder as [v27_init] leaves it. *)
Definition fresh_decoder (p0 p1 : Z) (initial_state : Z) (d : v27_t) : Prop :=
  exists v dec count, d = v27_init v dec count (v27_poly_init p0 p1) initial_state /\
    length (metrics2 v) = 64%nat /\ count = Z.of_nat (length dec) /\ 0 < count < 2 ^ 32 /\
    Forall (fun d => length (w d) = 2%nat) dec.

Lemma fresh_rep p0 p1 i d :
  good_poly p0 -> good_poly p1 -> fresh_decoder p0 p1 i d ->
  viterbi_rep p0 p1 (init_metrics i) [] d.
Proof. intros Hp0 Hp1 (v & dec & count & -> & Hm & Hc & Hr & Hd). by apply viterbi_rep_init. Qed.

Lemma length_init_metrics i : length (init_metrics i) = 64%nat.
Proof. unfold init_metrics. by rewrite length_insert. Qed.

Lemma fresh_update p0 p1 i d syms nbits :
  good_poly p0 -> good_poly p1 -> fresh_decoder p0 p1 i d ->
  bytes syms -> 0 <= nbits -> 2 * nbits <= Z.of_nat (length syms) ->
  exists d', v27_update d syms nbits = Some d' /\
    viterbi_rep p0 p1 (init_metrics i) (sym_pairs syms (Z.to_nat nbits)) d' /\
    decisions_count d' = decisions_count d.
Proof.
  intros Hp0 Hp1 Hd Hb Hn Hl.
  destruct (v27_update_rep p0 p1 Hp0 Hp1 (init_metrics i) [] d syms nbits) as (d' & Hd' & Hrep & Hc);
    [apply length_init_metrics|by apply fresh_rep|done..|]. eauto.
Qed.

(** A concrete decoder for the witnesses: 16 decision records, K=7 NASA polynomials. *)
Definition sample_decoder : v27_t :=
  v27_init {| metrics1 := []; metrics2 := replicate 64 7; old_metrics := Metrics1;
              new_metrics := Metrics1; poly := {| c0 := []; c1 := [] |}; decisions := [];
              decisions_index := 5; decisions_count := 0 |}
    (replicate 32 {| w := [99; 98] |}) 32 (v27_poly_init 0x4F (-0x6D)) 0.

Lemma sample_fresh : fresh_decoder 0x4F (-0x6D) 0 sample_decoder.
Proof.
  eexists _, _, _. split; [reflexivity|]. split_and!; try done.
  apply (bool_decide_unpack _). vm_compute. exact I.
Defined.

Lemma sample_polys : good_poly 0x4F /\ good_poly (-0x6D).
Proof. repeat split. Defined.

(** C12: For any byte symbols the update runs without reading or writing outside
    its buffers and its 32-bit metrics never overflow: they stay in
    [0 .. 2^30 + 3123] and differ from the add-compare-select recurrence on
    unbounded integers only by one common offset, the normalisation. *)
Theorem v27_update_metrics_exact p0 p1 i d syms nbits :
  good_poly p0 -> good_poly p1 -> fresh_decoder p0 p1 i d ->
  bytes syms -> 0 <= nbits -> 2 * nbits <= Z.of_nat (length syms) ->
  exists d' off, v27_update d syms nbits = Some d' /\
    deref d' (old_metrics d') =
      sub_all off (trellis p0 p1 (init_metrics i) (sym_pairs syms (Z.to_nat nbits))) /\
    Forall (fun m => 0 <= m <= 2 ^ 30 + 3123) (deref d' (old_metrics d')).
Proof.
  intros Hp0 Hp1 Hd Hb Hn Hl.
  destruct (fresh_update p0 p1 i d syms nbits) as (d' & Hd' & [Hok [[Hlm Hm] _] [off Hoff] _ _] & _); [done..|].
  exists d', off. split_and!; [done..|]. apply Forall_lookup. intros k m Hk.
  rewrite <- (list_lookup_total_correct _ _ _ Hk). apply Hm. apply lookup_lt_Some in Hk. lia.
Qed.

Lemma v27_update_metrics_exact_witness : exists d' off,
  v27_update sample_decoder [255; 0; 12; 200] 2 = Some d' /\
  deref d' (old_metrics d') =
    sub_all off (trellis 0x4F (-0x6D) (init_metrics 0) (sym_pairs [255; 0; 12; 200] 2)) /\
  Forall (fun m => 0 <= m <= 2 ^ 30 + 3123) (deref d' (old_metrics d')).
Proof.
  apply (v27_update_metrics_exact 0x4F (-0x6D) 0 sample_decoder [255; 0; 12; 200] 2);
    [apply sample_polys..|apply sample_fresh|repeat constructor; done|done|done].
Defined.

(** C11: Maximum likelihood: chaining back from state [t] outputs the bits of a
    path into [t], of which no other path into [t] has a smaller cost (initial
    metric plus the distances of its code symbols to the received ones). The
    six bits of the path's first state come first, so the output is six bits
    behind the input. *)
Theorem v27_chainback_maximum_likelihood p0 p1 i d syms nbits t data :
  good_poly p0 -> good_poly p1 -> fresh_decoder p0 p1 i d ->
  bytes syms -> 0 <= nbits <= decisions_count d -> 2 * nbits <= Z.of_nat (length syms) ->
  nbits <= 8 * Z.of_nat (length data) -> 0 <= t < 64 ->
  let ys := sym_pairs syms (Z.to_nat nbits) in
  exists d' data' s bs, v27_update d syms nbits = Some d' /\
    v27_chainback_fixed d' data nbits t = Some data' /\
    0 <= s < 64 /\ Z.of_nat (length bs) = nbits /\ path_end s bs = t /\
    (forall k, Z.of_nat k < nbits -> bitlist data' !! k = (val_bits 6 s ++ bs) !! k) /\
    (forall s' bs', 0 <= s' < 64 -> Z.of_nat (length bs') = nbits -> path_end s' bs' = t ->
       init_metrics i !!! Z.to_nat s + path_cost p0 p1 s bs ys <=
       init_metrics i !!! Z.to_nat s' + path_cost p0 p1 s' bs' ys).
Proof.
  intros Hp0 Hp1 Hd Hb Hn Hl Hdata Ht ys.
  destruct (fresh_update p0 p1 i d syms nbits) as (d' & Hd' & Hrep & Hc); [done..|lia|done|]. fold ys in Hrep.
  destruct (survivor p0 p1 (init_metrics i) ys (length ys) (Z.to_nat t)) as [s bs] eqn:Esv.
  assert (Hly : length ys = Z.to_nat nbits) by apply length_sym_pairs.
  destruct (survivor_ok p0 p1 _ ys _ (Z.to_nat t) s bs ltac:(done) ltac:(lia) Esv) as (Hs & Hlb & Hend & _).
  destruct (chainback_fixed_bits p0 p1 d' (init_metrics i) ys data nbits (Z.to_nat t) s bs) as (data' & Hdata' & _ & Hbits);
    [done|lia|done|lia..|].
  rewrite Z2Nat.id in Hend, Hdata' by lia. rewrite Hly, Nat.sub_diag in Hbits.
  exists d', data', (Z.of_nat s), bs. split_and!; [done|done|lia|lia|lia|done|exact Hbits|].
  intros s' bs' Hs' Hl' Hend'. rewrite Nat2Z.id.
  apply (survivor_optimal p0 p1 _ ys (Z.to_nat t)); [lia|done|done|lia|lia].
Qed.

Lemma v27_chainback_maximum_likelihood_witness :
  let ys := sym_pairs [255; 0; 12; 200] 2 in
  exists d' data' s bs, v27_update sample_decoder [255; 0; 12; 200] 2 = Some d' /\
    v27_chainback_fixed d' [0] 2 5 = Some data' /\
    0 <= s < 64 /\ Z.of_nat (length bs) = 2 /\ path_end s bs = 5 /\
    (forall k, Z.of_nat k < 2 -> bitlist data' !! k = (val_bits 6 s ++ bs) !! k) /\
    (forall s' bs', 0 <= s' < 64 -> Z.of_nat (length bs') = 2 -> path_end s' bs' = 5 ->
       init_metrics 0 !!! Z.to_nat s + path_cost 0x4F (-0x6D) s bs ys <=
       init_metrics 0 !!! Z.to_nat s' + path_cost 0x4F (-0x6D) s' bs' ys).
Proof.
  apply (v27_chainback_maximum_likelihood 0x4F (-0x6D) 0 sample_decoder [255; 0; 12; 200] 2 5 [0]);
    [apply sample_polys..|apply sample_fresh|repeat constructor; done|done|done|done|done].
Defined.

(** Noise-free round trip: the symbols of the convolutional encoder, decoded
    and chained back from the encoder's last state, give the encoder's input,
    preceded by the six bits of its first state. *)
Theorem v27_encode_decode_roundtrip p0 p1 i d bs data :
  good_poly p0 -> good_poly p1 -> fresh_decoder p0 p1 i d -> 0 <= i < 64 ->
  Z.of_nat (length bs) <= decisions_count d ->
  Z.of_nat (length bs) <= 8 * Z.of_nat (length data) ->
  exists d' data', v27_update d (encode p0 p1 i bs) (Z.of_nat (length bs)) = Some d' /\
    v27_chainback_fixed d' data (Z.of_nat (length bs)) (path_end i bs) = Some data' /\
    take (length bs) (bitlist data') = take (length bs) (val_bits 6 i ++ bs).
Proof.
  intros Hp0 Hp1 Hd Hi Hn Hdata. pose proof (path_end_range i bs Hi) as Hpe.
  destruct (fresh_update p0 p1 i d (encode p0 p1 i bs) (Z.of_nat (length bs))) as (d' & Hd' & Hrep & Hc);
    [done..|apply encode_bytes|lia|rewrite length_encode; lia|].
  rewrite Nat2Z.id in Hrep. set (ys := sym_pairs _ _) in Hrep.
  assert (Hly : length ys = length bs) by apply length_sym_pairs.
  destruct (survivor p0 p1 (init_metrics i) ys (length ys) (Z.to_nat (path_end i bs))) as [s bs'] eqn:Esv.
  pose proof Esv as Esv'. rewrite Hly in Esv'.
  destruct (survivor_encode p0 p1 Hp0 i bs (Z.to_nat (path_end i bs)) s bs' Hi ltac:(lia) Esv') as [<- ->].
  destruct (chainback_fixed_bits p0 p1 d' (init_metrics (Z.of_nat s)) ys data (Z.of_nat (length bs))
      (Z.to_nat (path_end (Z.of_nat s) bs)) s bs Hrep ltac:(lia) Esv)
    as (data' & Hdata' & Hl & Hbits); [lia..|].
  rewrite Z2Nat.id in Hdata' by lia. exists d', data'. split_and!; [done..|].
  apply list_eq. intros k. destruct (decide (k < length bs)%nat).
  - rewrite !lookup_take_lt by done. rewrite Hbits by lia. f_equal. lia.
  - rewrite !lookup_take_ge by lia. done.
Qed.

Lemma v27_encode_decode_roundtrip_witness :
  let bs := val_bits 16 0xB5C3 in
  exists d' data', v27_update sample_decoder (encode 0x4F (-0x6D) 0 bs) 16 = Some d' /\
    v27_chainback_fixed d' [1; 2] 16 (path_end 0 bs) = Some data' /\
    take 16 (bitlist data') = take 16 (val_bits 6 0 ++ bs).
Proof.
  apply (v27_encode_decode_roundtrip 0x4F (-0x6D) 0 sample_decoder (val_bits 16 0xB5C3) [1; 2]);
    [apply sample_polys..|apply sample_fresh|done|done|done].
Defined.

(** [v27_chainback_likely] starts from a state with the least metric of the
    buffer [new_metrics], which after the pointer swap of [v27_update] is the
    buffer of the metrics {e before} the last symbol pair; from that state it
    chains back as [v27_chainback_fixed] does. *)
Theorem v27_chainback_likely_stale p0 p1 i d syms nbits d' data n :
  good_poly p0 -> good_poly p1 -> fresh_decoder p0 p1 i d ->
  bytes syms -> 0 < nbits -> 2 * nbits <= Z.of_nat (length syms) ->
  v27_update d syms nbits = Some d' ->
  let M := trellis p0 p1 (init_metrics i) (sym_pairs syms (Z.to_nat (nbits - 1))) in
  exists b, (b < 64)%nat /\ v27_chainback_likely d' data n = v27_chainback_fixed d' data n (Z.of_nat b) /\
    forall s, (s < 64)%nat -> M !!! b <= M !!! s.
Proof.
  intros Hp0 Hp1 Hd Hb Hn Hl Hup M.
  destruct (fresh_update p0 p1 i d syms nbits) as (d1 & Hd1 & Hrep & _); [done..|lia|done|].
  rewrite Hup in Hd1. injection Hd1 as <-.
  replace (Z.to_nat nbits) with (S (Z.to_nat (nbits - 1))) in Hrep by lia. rewrite sym_pairs_S in Hrep.
  destruct (rep_new _ _ _ _ _ Hrep _ _ eq_refl) as [[[Hlm Hm] _] [off Hoff]]. fold M in Hoff.
  destruct (best_state_spec (deref d' (new_metrics d'))) as (b & Hbest & Hb64 & Hle); [done| |].
  { intros s Hs. specialize (Hm s Hs). unfold metric_max in Hm. lia. }
  exists b. split_and!; [done| |].
  - unfold v27_chainback_likely. by rewrite Hbest.
  - intros s Hs. specialize (Hle s Hs).
    assert (length M = 64%nat) as HlM by (apply length_trellis, length_init_metrics).
    rewrite Hoff, !lookup_total_sub_all in Hle by lia. lia.
Qed.

(** The symbols of the sixteen-bit message of the witness below. *)
Definition likely_syms : list Z := encode 0x4F (-0x6D) 0 (val_bits 16 0xB5C3).

Lemma likely_sample_Some : exists d', v27_update sample_decoder likely_syms 16 = Some d'.
Proof.
  assert (match v27_update sample_decoder likely_syms 16 with Some _ => True | None => False end) as H
    by (vm_compute; exact I).
  destruct (v27_update sample_decoder likely_syms 16); [eauto|done].
Qed.

Lemma v27_chainback_likely_stale_witness :
  exists d', v27_update sample_decoder likely_syms 16 = Some d' /\
  let M := trellis 0x4F (-0x6D) (init_metrics 0) (sym_pairs likely_syms (Z.to_nat (16 - 1))) in
  exists b, (b < 64)%nat /\
    v27_chainback_likely d' [0; 0] 16 = v27_chainback_fixed d' [0; 0] 16 (Z.of_nat b) /\
    forall s, (s < 64)%nat -> M !!! b <= M !!! s.
Proof.
  destruct likely_sample_Some as [d' E]. exists d'. split; [exact E|].
  refine (v27_chainback_likely_stale 0x4F (-0x6D) 0 sample_decoder likely_syms 16 d' [0; 0] 16
           (proj1 sample_polys) (proj2 sample_polys) sample_fresh _ _ _ E).
  - apply encode_bytes.
  - lia.
  - unfold likely_syms. rewrite length_encode, length_val_bits. lia.
Defined.

(** The last bit [v27_chainback_likely] decodes can be wrong on a noise-free
    message: for the sixteen bits [0xB5C3] it starts from a state that is not
    the one with the least metric after the last symbol pair, and its output
    differs from the maximum-likelihood path's. *)
Theorem v27_chainback_likely_not_optimal :
  exists d' data', v27_update sample_decoder likely_syms 16 = Some d' /\
    v27_chainback_likely d' [0; 0] 16 = Some data' /\
    best_state (deref d' (old_metrics d')) = Some (path_end 0 (val_bits 16 0xB5C3)) /\
    best_state (deref d' (new_metrics d')) <> best_state (deref d' (old_metrics d')) /\
    v27_chainback_fixed d' [0; 0] 16 (path_end 0 (val_bits 16 0xB5C3)) <> Some data'.
Proof.
  assert (match v27_update sample_decoder likely_syms 16 with
    | Some d' =>
        match v27_chainback_likely d' [0; 0] 16 with
        | Some data' =>
            bool_decide (best_state (deref d' (old_metrics d')) = Some (path_end 0 (val_bits 16 0xB5C3)) /\
            best_state (deref d' (new_metrics d')) <> best_state (deref d' (old_metrics d')) /\
            v27_chainback_fixed d' [0; 0] 16 (path_end 0 (val_bits 16 0xB5C3)) <> Some data')
        | None => false
        end
    | None => false
    end = true) as H by (vm_compute; reflexivity).
  destruct (v27_update sample_decoder likely_syms 16) as [d'|]; [|done].
  destruct (v27_chainback_likely d' [0; 0] 16) as [data'|] eqn:E; [|done].
  apply bool_decide_eq_true in H. eauto.
Qed.
