(* ===== verification/CnavMsg.v ===== *)
(** * CnavMsg: message lock and decoding of GPS CNAV

    Model of [src/algorithms/telemetry_decoder/libs/libswiftcnav/cnav_msg.c]
    and [cnav_msg.h]. Two instances of the Viterbi decoder run on the two
    possible symbol phases; each collects decoded bits, searches the message
    preamble and checks the CRC. [None] is an access outside a buffer.

    The array [part->decisions] is the one [part->dec.decisions] points to; it
    is kept once, in the decoder. *)
From S2P Require Import Prelude Bits Edc Viterbi27.

(** ** Constants *)

Definition GPS_L2C_V27_POLY_A : Z := 0x4F.
Definition GPS_L2C_V27_POLY_B : Z := 0x6D.
Definition GPS_CNAV_PREAMBLE1 : Z := 0x8B.
Definition GPS_CNAV_PREAMBLE2 : Z := 0x74.
Definition GPS_CNAV_PREAMBLE_LENGTH : Z := 8.
Definition GPS_CNAV_MSG_LENGTH : Z := 300.
Definition GPS_CNAV_MSG_CRC_LENGTH : Z := 24.
Definition GPS_CNAV_MSG_DATA_LENGTH : Z := GPS_CNAV_MSG_LENGTH - GPS_CNAV_MSG_CRC_LENGTH.
Definition GPS_CNAV_LOCK_MAX_CRC_FAILS : Z := 10.
Definition GPS_L2_V27_HISTORY_LENGTH_BITS : Z := 64.
Definition GPS_L2C_V27_INIT_BITS : Z := 32.
Definition GPS_L2C_V27_DECODE_BITS : Z := 32.
Definition GPS_L2C_V27_DELAY_BITS : Z := 32.

(** ** Data *)

Record cnav_msg_t := {
  prn : Z;
  msg_id : Z;
  tow : Z;
  alert : bool;
  raw_msg : list Z
}.

Record cnav_v27_part_t := {
  dec : v27_t;
  symbols : list Z;
  n_symbols : Z;
  decoded : list Z;
  n_decoded : Z;
  preamble_seen : bool;
  invert : bool;
  message_lock : bool;
  crc_ok : bool;
  n_crc_fail : Z;
  init : bool
}.

Record cnav_msg_decoder_t := { part1 : cnav_v27_part_t; part2 : cnav_v27_part_t }.

(** Field updates. *)
Definition set_decoder (d : v27_t) (p : cnav_v27_part_t) : cnav_v27_part_t :=
  {| dec := d; symbols := symbols p; n_symbols := n_symbols p; decoded := decoded p;
     n_decoded := n_decoded p; preamble_seen := preamble_seen p; invert := invert p;
     message_lock := message_lock p; crc_ok := crc_ok p; n_crc_fail := n_crc_fail p; init := init p |}.

Definition set_symbols (s : list Z) (n : Z) (p : cnav_v27_part_t) : cnav_v27_part_t :=
  {| dec := dec p; symbols := s; n_symbols := n; decoded := decoded p;
     n_decoded := n_decoded p; preamble_seen := preamble_seen p; invert := invert p;
     message_lock := message_lock p; crc_ok := crc_ok p; n_crc_fail := n_crc_fail p; init := init p |}.

Definition set_decoded (d : list Z) (n : Z) (p : cnav_v27_part_t) : cnav_v27_part_t :=
  {| dec := dec p; symbols := symbols p; n_symbols := n_symbols p; decoded := d;
     n_decoded := n; preamble_seen := preamble_seen p; invert := invert p;
     message_lock := message_lock p; crc_ok := crc_ok p; n_crc_fail := n_crc_fail p; init := init p |}.

Definition set_preamble (seen inv : bool) (p : cnav_v27_part_t) : cnav_v27_part_t :=
  {| dec := dec p; symbols := symbols p; n_symbols := n_symbols p; decoded := decoded p;
     n_decoded := n_decoded p; preamble_seen := seen; invert := inv;
     message_lock := message_lock p; crc_ok := crc_ok p; n_crc_fail := n_crc_fail p; init := init p |}.

Definition set_lock (lock ok : bool) (fails : Z) (p : cnav_v27_part_t) : cnav_v27_part_t :=
  {| dec := dec p; symbols := symbols p; n_symbols := n_symbols p; decoded := decoded p;
     n_decoded := n_decoded p; preamble_seen := preamble_seen p; invert := invert p;
     message_lock := lock; crc_ok := ok; n_crc_fail := fails; init := init p |}.

Definition set_init (b : bool) (p : cnav_v27_part_t) : cnav_v27_part_t :=
  {| dec := dec p; symbols := symbols p; n_symbols := n_symbols p; decoded := decoded p;
     n_decoded := n_decoded p; preamble_seen := preamble_seen p; invert := invert p;
     message_lock := message_lock p; crc_ok := crc_ok p; n_crc_fail := n_crc_fail p; init := b |}.

(** [sizeof(part->decoded)] *)
Definition sizeof_decoded : Z := GPS_L2C_V27_DECODE_BITS + GPS_L2C_V27_DELAY_BITS.

(** ** Operations *)

Definition cnav_compute_crc_ (part : cnav_v27_part_t) : option Z :=
  crc24q_bits 0 (decoded part) GPS_CNAV_MSG_DATA_LENGTH (invert part).

Definition cnav_extract_crc_ (part : cnav_v27_part_t) : option Z :=
  crc ← getbitu (decoded part) GPS_CNAV_MSG_DATA_LENGTH GPS_CNAV_MSG_CRC_LENGTH;
  Some (if invert part then Z.lxor crc 0xFFFFFF else crc).

(** The [for] loop of the rescan: the first offset in [i .. i + n - 1] at which
    one of the preambles stands, with the octet found there. *)
Fixpoint rescan_loop (buf : list Z) (n : nat) (i : Z) : option (option (Z * Z)) :=
  match n with
  | O => Some None
  | S n' =>
      c ← getbitu buf i GPS_CNAV_PREAMBLE_LENGTH;
      if (GPS_CNAV_PREAMBLE1 =? c) || (GPS_CNAV_PREAMBLE2 =? c)
      then Some (Some (i, c)) else rescan_loop buf n' (i + 1)
  end.

Definition cnav_rescan_preamble_ (part0 : cnav_v27_part_t) : option cnav_v27_part_t :=
  let part := set_preamble false (invert part0) part0 in
  part1 ←
    (if GPS_CNAV_PREAMBLE_LENGTH + 1 <? n_decoded part then
       let j := u64 (n_decoded part - GPS_CNAV_PREAMBLE_LENGTH) in
       found ← rescan_loop (decoded part) (Z.to_nat (j - 1)) 1;
       match found with
       | Some (i, c) =>
           buf ← bitshl (decoded part) sizeof_decoded i;
           Some (set_decoded buf (u64 (n_decoded part - i))
                   (set_preamble true (GPS_CNAV_PREAMBLE2 =? c) part))
       | None => Some part
       end
     else Some part);
  if negb (preamble_seen part1) && (GPS_CNAV_PREAMBLE_LENGTH <=? n_decoded part1) then
    buf ← bitshl (decoded part1) sizeof_decoded
            (u64 (u64 (n_decoded part1 - GPS_CNAV_PREAMBLE_LENGTH) + 1));
    Some (set_decoded buf (GPS_CNAV_PREAMBLE_LENGTH - 1) part1)
  else Some part1.

(** The body of the [while (retry)] loop of [cnav_add_symbol_]. *)
Definition cnav_lock_step (part0 : cnav_v27_part_t) : option (cnav_v27_part_t * bool) :=
  part ← (if negb (preamble_seen part0) then cnav_rescan_preamble_ part0 else Some part0);
  if preamble_seen part && (GPS_CNAV_MSG_LENGTH <=? n_decoded part) then
    crc ← cnav_compute_crc_ part;
    crc2 ← cnav_extract_crc_ part;
    let ok := crc =? crc2 in
    if message_lock part then
      if ok then Some (set_lock true true 0 part, false)
      else
        let fails := u64 (n_crc_fail part + 1) in
        if GPS_CNAV_LOCK_MAX_CRC_FAILS <? fails
        then Some (set_preamble false (invert part) (set_lock false false 0 part), true)
        else Some (set_lock true false fails part, false)
    else if ok then Some (set_lock true true 0 part, false)
    else Some (set_preamble false (invert part) (set_lock false false (n_crc_fail part) part), true)
  else Some (part, false).

Fixpoint cnav_lock_loop (fuel : nat) (part : cnav_v27_part_t) : option cnav_v27_part_t :=
  match fuel with
  | O => None
  | S f =>
      '(part', retry) ← cnav_lock_step part;
      if (retry : bool) then cnav_lock_loop f part' else Some part'
  end.

(** The part of [cnav_add_symbol_] that follows the early returns. [tmp_bits]
    is uninitialised in the source; all its eight bytes are written. *)
Definition cnav_decode_block (part : cnav_v27_part_t) : option cnav_v27_part_t :=
  d ← v27_update (dec part) (symbols part) (n_symbols part / 2);
  let part := set_symbols (symbols part) 0 (set_decoder d part) in
  tmp_bits ← v27_chainback_likely d (replicate 8 0)
               (GPS_L2C_V27_DECODE_BITS + GPS_L2C_V27_DELAY_BITS);
  buf ← bitcopy (decoded part) (n_decoded part) tmp_bits 0 GPS_L2C_V27_DECODE_BITS;
  let part := set_decoded buf (u64 (n_decoded part + GPS_L2C_V27_DECODE_BITS)) part in
  cnav_lock_loop (2 + Z.to_nat (n_decoded part)) part.

Definition cnav_add_symbol_ (part0 : cnav_v27_part_t) (ch : Z) : option cnav_v27_part_t :=
  syms ← wr (symbols part0) (n_symbols part0) ch;
  let part := set_symbols syms (u64 (n_symbols part0 + 1)) part0 in
  if init part then
    if n_symbols part <? (GPS_L2C_V27_INIT_BITS + GPS_L2C_V27_DECODE_BITS) * 2
    then Some part
    else cnav_decode_block (set_init false part)
  else if n_symbols part <? GPS_L2C_V27_DECODE_BITS * 2 then Some part
  else cnav_decode_block part.

Definition cnav_msg_invert_ (part : cnav_v27_part_t) : option cnav_v27_part_t :=
  buf ← for_loop (Z.to_nat sizeof_decoded) 0
    (fun i b => x ← rd b i; wr b i (u8 (Z.lxor x 0xFF))) (decoded part);
  Some (set_decoded buf (n_decoded part) part).

(** [res], [*msg] and [*delay] as one optional result: the out parameters are
    written exactly when the function returns [true]. *)
Definition cnav_msg_decode_ (part : cnav_v27_part_t)
  : option (cnav_v27_part_t * option (cnav_msg_t * Z)) :=
  if GPS_CNAV_MSG_LENGTH <=? n_decoded part then
    '(part1, res) ←
      (if crc_ok part then
         p1 ← (if invert part then cnav_msg_invert_ part else Some part);
         prn ← getbitu (decoded p1) 8 6;
         msg_id ← getbitu (decoded p1) 14 6;
         tow ← getbitu (decoded p1) 20 17;
         alert ← getbitu (decoded p1) 37 1;
         let msg := {| prn := u8 prn; msg_id := u8 msg_id; tow := tow;
                       alert := negb (alert =? 0);
                       raw_msg := take (Z.to_nat sizeof_decoded) (decoded p1) |} in
         let delay := u32 (u64 (u64 (n_decoded p1 - GPS_CNAV_MSG_LENGTH + GPS_L2C_V27_DELAY_BITS) * 2
                                + n_symbols p1)) in
         p2 ← (if invert p1 then cnav_msg_invert_ p1 else Some p1);
         Some (p2, Some (msg, delay))
       else Some (part, None));
    buf ← bitshl (decoded part1) sizeof_decoded GPS_CNAV_MSG_LENGTH;
    Some (set_decoded buf (u64 (n_decoded part1 - GPS_CNAV_MSG_LENGTH)) part1, res)
  else Some (part, None).

(** The polynomial is a function of two constants, whenever it is initialised. *)
Definition cnav_msg_decoder_get_poly : v27_poly_t :=
  v27_poly_init GPS_L2C_V27_POLY_A GPS_L2C_V27_POLY_B.

Definition zero_v27 : v27_t :=
  {| metrics1 := replicate 64 0; metrics2 := replicate 64 0; old_metrics := Metrics1;
     new_metrics := Metrics1; poly := {| c0 := []; c1 := [] |};
     decisions := replicate 64 {| w := [0; 0] |}; decisions_index := 0; decisions_count := 0 |}.

(** A part after [memset(dec, 0, sizeof( *dec))], [v27_init] and [init = true]. *)
Definition init_part : cnav_v27_part_t :=
  {| dec := v27_init zero_v27 (replicate 64 {| w := [0; 0] |}) GPS_L2_V27_HISTORY_LENGTH_BITS
              cnav_msg_decoder_get_poly 0;
     symbols := replicate 128 0; n_symbols := 0; decoded := replicate 64 0; n_decoded := 0;
     preamble_seen := false; invert := false; message_lock := false; crc_ok := false;
     n_crc_fail := 0; init := true |}.

Definition cnav_msg_decoder_init : option cnav_msg_decoder_t :=
  p2 ← cnav_add_symbol_ init_part 0x80;
  Some {| part1 := init_part; part2 := p2 |}.

Definition flush (p : cnav_v27_part_t) : cnav_v27_part_t :=
  set_decoded (decoded p) 0 (set_symbols (symbols p) 0 p).

Definition cnav_msg_decoder_add_symbol (d : cnav_msg_decoder_t) (symbol : Z)
  : option (cnav_msg_decoder_t * option (cnav_msg_t * Z)) :=
  p1 ← cnav_add_symbol_ (part1 d) symbol;
  p2 ← cnav_add_symbol_ (part2 d) symbol;
  if message_lock p1 then
    '(p1', res) ← cnav_msg_decode_ p1;
    Some ({| part1 := p1'; part2 := flush p2 |}, res)
  else if message_lock p2 then
    '(p2', res) ← cnav_msg_decode_ p2;
    Some ({| part1 := flush p1; part2 := p2' |}, res)
  else Some ({| part1 := p1; part2 := p2 |}, None).

(** The decoder driven by a sequence of symbols: its state and the messages with
    their delays, in order. *)
Fixpoint cnav_run (d : cnav_msg_decoder_t) (syms : list Z)
  : option (cnav_msg_decoder_t * list (cnav_msg_t * Z)) :=
  match syms with
  | [] => Some (d, [])
  | s :: syms' =>
      '(d1, res) ← cnav_msg_decoder_add_symbol d s;
      '(d2, msgs) ← cnav_run d1 syms';
      Some (d2, match res with Some m => m :: msgs | None => msgs end)
  end.

(** ** Abstract framer

    What the parts do with the decoded bits, on lists of bits: the bits
    collected since the preamble candidate, and the flags. *)

Record framer := {
  fbits : list bool;
  fseen : bool;
  finv : bool;
  flock : bool;
  fok : bool;
  ffails : Z
}.

(** The preamble at offset [i], direct ([false]) or inverted ([true]). *)
Definition preamble_at (L : list bool) (i : nat) : option bool :=
  let c := bits_val (take 8 (drop i L)) in
  if c =? GPS_CNAV_PREAMBLE1 then Some false
  else if c =? GPS_CNAV_PREAMBLE2 then Some true else None.

Fixpoint find_from {A} (f : nat -> option A) (n i : nat) : option (nat * A) :=
  match n with
  | O => None
  | S n' => match f i with Some x => Some (i, x) | None => find_from f n' (S i) end
  end.

(** A message of 300 bits passes the check when the CRC of all of them is 0. *)
Definition crc_valid (inv : bool) (L : list bool) : bool :=
  crc_bits 0 (xorb inv <$> take 300 L) =? 0.

Definition fr_rescan (f : framer) : framer :=
  let L := fbits f in
  match find_from (preamble_at L) (length L - 9) 1 with
  | Some (i, inv) => {| fbits := drop i L; fseen := true; finv := inv; flock := flock f;
                        fok := fok f; ffails := ffails f |}
  | None => {| fbits := drop (length L - 7) L; fseen := false; finv := finv f; flock := flock f;
               fok := fok f; ffails := ffails f |}
  end.

Definition fr_flags (f : framer) (seen lock ok : bool) (fails : Z) : framer :=
  {| fbits := fbits f; fseen := seen; finv := finv f; flock := lock; fok := ok; ffails := fails |}.

Definition fr_check (f : framer) : framer * bool :=
  if fseen f && bool_decide (300 <= length (fbits f))%nat then
    if crc_valid (finv f) (fbits f) then (fr_flags f true true true 0, false)
    else if flock f then
      if 10 <? ffails f + 1 then (fr_flags f false false false 0, true)
      else (fr_flags f true true false (ffails f + 1), false)
    else (fr_flags f false false false (ffails f), true)
  else (f, false).

Definition fr_step (f : framer) : framer * bool :=
  fr_check (if fseen f then f else fr_rescan f).

Fixpoint fr_loop (fuel : nat) (f : framer) : option framer :=
  match fuel with
  | O => None
  | S n => let '(f', retry) := fr_step f in if (retry : bool) then fr_loop n f' else Some f'
  end.

(** ** The parts implement the framer *)

Definition framer_of (p : cnav_v27_part_t) : framer :=
  {| fbits := take (Z.to_nat (n_decoded p)) (bitlist (decoded p)); fseen := preamble_seen p;
     finv := invert p; flock := message_lock p; fok := crc_ok p; ffails := n_crc_fail p |}.

Record buf_ok (p : cnav_v27_part_t) : Prop := {
  bo_bytes : bytes (decoded p);
  bo_length : length (decoded p) = 64%nat;
  bo_n : 0 <= n_decoded p <= 512;
  bo_fails : 0 <= n_crc_fail p <= 10
}.

(** The fields the framer does not touch. *)
Definition same_rest (p q : cnav_v27_part_t) : Prop :=
  dec q = dec p /\ symbols q = symbols p /\ n_symbols q = n_symbols p /\ init q = init p.

Lemma length_fbits p : buf_ok p -> length (fbits (framer_of p)) = Z.to_nat (n_decoded p).
Proof. intros [_ Hl Hn _]. cbn. rewrite length_take, length_bitlist, Hl. lia. Qed.

Lemma take_drop_take {A} (l : list A) i n m :
  (i + m <= n)%nat -> take m (drop i (take n l)) = take m (drop i l).
Proof. intros H. rewrite skipn_firstn_comm, take_take. f_equal. lia. Qed.

Lemma getbitu_framer p (pos len : nat) :
  buf_ok p -> (Z.of_nat (pos + len) <= n_decoded p) -> (len <= 32)%nat ->
  getbitu (decoded p) (Z.of_nat pos) (Z.of_nat len) =
  Some (bits_val (take len (drop pos (fbits (framer_of p))))).
Proof.
  intros [_ Hl Hn _] Hp Hlen. rewrite getbitu_bits by lia. cbn [framer_of fbits].
  rewrite take_drop_take by lia. done.
Qed.

Lemma rescan_loop_find p (n i : nat) :
  buf_ok p -> Z.of_nat (i + n + 7) <= n_decoded p ->
  exists r, rescan_loop (decoded p) n (Z.of_nat i) = Some r /\
    match find_from (preamble_at (fbits (framer_of p))) n i with
    | Some (j, inv) => exists c, r = Some (Z.of_nat j, c) /\ (GPS_CNAV_PREAMBLE2 =? c) = inv /\
        (i <= j < i + n)%nat
    | None => r = None
    end.
Proof.
  intros Hp. revert i. induction n as [|n IH]; intros i Hi; [by exists None|].
  cbn [rescan_loop find_from]. change GPS_CNAV_PREAMBLE_LENGTH with (Z.of_nat 8).
  rewrite getbitu_framer by (done || lia). cbn [mbind option_bind].
  unfold preamble_at. set (c := bits_val _).
  rewrite (Z.eqb_sym GPS_CNAV_PREAMBLE1), (Z.eqb_sym GPS_CNAV_PREAMBLE2).
  destruct (Z.eqb_spec c GPS_CNAV_PREAMBLE1) as [->|]; cbn [orb].
  - eexists. split; [done|]. exists GPS_CNAV_PREAMBLE1. split_and!; [done|done|lia..].
  - destruct (Z.eqb_spec c GPS_CNAV_PREAMBLE2) as [->|].
    + eexists. split; [done|]. exists GPS_CNAV_PREAMBLE2. split_and!; [done|done|lia..].
    + replace (Z.of_nat i + 1) with (Z.of_nat (S i)) by lia.
      destruct (IH (S i)) as (r & Hr & Hf); [lia|]. exists r. split; [done|].
      unfold preamble_at in Hf. destruct (find_from _ n (S i)) as [[j inv]|]; [|done].
      destruct Hf as (c' & ? & ? & ?). exists c'. split_and!; [done|done|lia..].
Qed.

(** Dropping the first [s] of the collected bits. *)
Lemma shift_framer p (s : nat) :
  buf_ok p -> Z.of_nat s <= n_decoded p ->
  exists buf, bitshl (decoded p) sizeof_decoded (Z.of_nat s) = Some buf /\
    bytes buf /\ length buf = 64%nat /\
    take (Z.to_nat (n_decoded p - Z.of_nat s)) (bitlist buf) = drop s (fbits (framer_of p)).
Proof.
  intros [Hb Hl Hn _] Hs. change sizeof_decoded with (Z.of_nat 64). rewrite <- Hl.
  destruct (bitshl_bits (decoded p) s) as (buf & -> & Hbb & Hlb & Hbits); [done|lia..|].
  exists buf. split_and!; [done..|congruence|]. rewrite Hbits. unfold shl_bits. cbn [framer_of fbits].
  rewrite take_app_le by (rewrite length_drop, length_bitlist; lia).
  rewrite skipn_firstn_comm. f_equal. lia.
Qed.

Lemma find_from_range {A} (f : nat -> option A) n i j x :
  find_from f n i = Some (j, x) -> (i <= j < i + n)%nat /\ f j = Some x /\
    forall k, (i <= k < j)%nat -> f k = None.
Proof.
  revert i. induction n as [|n IH]; intros i H; [done|]. cbn [find_from] in H.
  destruct (f i) as [y|] eqn:E.
  - injection H as <- <-. split_and!; [lia..|done|]. intros. lia.
  - destruct (IH _ H) as (? & ? & Hk). split_and!; [lia..|done|]. intros k Hk'.
    destruct (decide (k = i)) as [->|]; [done|]. apply Hk. lia.
Qed.

Lemma rescan_refines p :
  buf_ok p ->
  exists p', cnav_rescan_preamble_ p = Some p' /\ buf_ok p' /\ same_rest p p' /\
    framer_of p' = fr_rescan (framer_of p).
Proof.
  intros Hp. pose proof Hp as [Hb Hl Hn Hf]. unfold cnav_rescan_preamble_, fr_rescan.
  rewrite length_fbits by done. set (L := fbits (framer_of p)).
  cbn [set_preamble n_decoded decoded].
  change (GPS_CNAV_PREAMBLE_LENGTH + 1) with 9. change GPS_CNAV_PREAMBLE_LENGTH with 8.
  assert (Hscan : exists r,
    (if 9 <? n_decoded p
     then rescan_loop (decoded p) (Z.to_nat (u64 (n_decoded p - 8) - 1)) 1 else Some None) = Some r /\
    match find_from (preamble_at L) (Z.to_nat (n_decoded p) - 9) 1 with
    | Some (j, inv) => 9 < n_decoded p /\ exists c, r = Some (Z.of_nat j, c) /\
        (GPS_CNAV_PREAMBLE2 =? c) = inv /\ (1 <= j < 1 + (Z.to_nat (n_decoded p) - 9))%nat
    | None => r = None
    end).
  { destruct (Z.ltb_spec 9 (n_decoded p)).
    - rewrite uwrap_small by lia.
      replace (Z.to_nat (n_decoded p - 8 - 1)) with (Z.to_nat (n_decoded p) - 9)%nat by lia.
      destruct (rescan_loop_find p (Z.to_nat (n_decoded p) - 9) 1 Hp) as (r & Hr & Hm); [lia|].
      exists r. split; [done|]. fold L in Hm. by destruct (find_from _ _ _) as [[j inv]|].
    - exists None. split; [done|]. by replace (Z.to_nat (n_decoded p) - 9)%nat with 0%nat by lia. }
  destruct Hscan as (r & Hr & Hm).
  destruct (find_from (preamble_at L) (Z.to_nat (n_decoded p) - 9) 1) as [[j inv]|].
  - destruct Hm as (H9 & c & -> & Hinv & Hj). rewrite (proj2 (Z.ltb_lt 9 (n_decoded p))) in * by done.
    rewrite Hr. cbn [mbind option_bind].
    destruct (shift_framer p j) as (buf & -> & Hbb & Hlb & Hbits); [done|lia|].
    cbn [mbind option_bind set_decoded set_preamble preamble_seen negb andb]. rewrite Hinv.
    rewrite uwrap_small by lia. eexists. split; [done|]. split_and!; [split; cbn; try done; lia|done|].
    unfold framer_of. cbn. f_equal. exact Hbits.
  - subst r. match goal with |- context [mbind _ ?x] => assert (x = Some (set_preamble false (invert p) p)) as -> end.
    { destruct (9 <? n_decoded p); [|done]. by rewrite Hr. }
    cbn [mbind option_bind set_preamble preamble_seen n_decoded decoded negb andb].
    destruct (Z.leb_spec 8 (n_decoded p)).
    + rewrite !uwrap_small by (rewrite ?uwrap_small by lia; lia).
      destruct (shift_framer p (Z.to_nat (n_decoded p) - 7)) as (buf & Hsh & Hbb & Hlb & Hbits); [done|lia|].
      replace (Z.of_nat (Z.to_nat (n_decoded p) - 7)) with (n_decoded p - 8 + 1) in * by lia.
      rewrite Hsh. cbn [mbind option_bind]. eexists. split; [done|].
      split_and!; [split; cbn; try done; lia|done|].
      unfold framer_of. cbn. f_equal.
      replace (n_decoded p - (n_decoded p - 8 + 1)) with 7 in Hbits by lia. exact Hbits.
    + eexists. split; [done|]. split_and!; [split; cbn; try done; lia|done|].
      replace (Z.to_nat (n_decoded p) - 7)%nat with 0%nat by lia. done.
Qed.

(** Inverting a field of bits is [xor] with ones. *)
Lemma bits_val_invert l : bits_val (xorb true <$> l) = 2 ^ Z.of_nat (length l) - 1 - bits_val l.
Proof.
  induction l as [|b l IH]; [done|]. rewrite fmap_cons, !bits_val_cons, IH, length_fmap. cbn [length].
  rewrite Nat2Z.inj_succ, Z.pow_succ_r by lia. destruct b; cbn [xorb negb Z.b2z]; lia.
Qed.

Lemma crc_field_invert l : length l = 24%nat ->
  Z.lxor (bits_val l) 0xFFFFFF = bits_val (xorb true <$> l).
Proof.
  intros Hl. rewrite bits_val_invert, Hl. pose proof (bits_val_range l) as Hr. rewrite Hl in Hr.
  change 0xFFFFFF with (Z.ones 24). rewrite lxor_ones by lia. rewrite Z.ones_equiv. lia.
Qed.

Lemma crc_check_refines p :
  buf_ok p -> 300 <= n_decoded p ->
  exists crc crc2, cnav_compute_crc_ p = Some crc /\ cnav_extract_crc_ p = Some crc2 /\
    (crc =? crc2) = crc_valid (invert p) (fbits (framer_of p)).
Proof.
  intros Hp Hn. pose proof Hp as [Hb Hl Hn' _]. set (L := fbits (framer_of p)).
  assert (HL : (300 <= length L)%nat) by (unfold L; rewrite length_fbits by done; lia).
  set (D := xorb (invert p) <$> take 276 L). set (W := xorb (invert p) <$> take 24 (drop 276 L)).
  exists (crc_bits 0 D), (bits_val W). split_and!.
  - unfold cnav_compute_crc_. change GPS_CNAV_MSG_DATA_LENGTH with (Z.of_nat 276).
    rewrite crc24q_bits_correct by (done || (rewrite Hl; cbn; lia)).
    rewrite crc_bits_zeros_prefix. unfold D, L. cbn [framer_of fbits].
    rewrite take_take. do 4 f_equal. lia.
  - unfold cnav_extract_crc_. change GPS_CNAV_MSG_DATA_LENGTH with (Z.of_nat 276).
    change GPS_CNAV_MSG_CRC_LENGTH with (Z.of_nat 24). rewrite getbitu_framer by (done || lia).
    cbn [mbind option_bind]. fold L. f_equal. unfold W.
    assert (length (take 24 (drop 276 L)) = 24%nat) by (rewrite length_take, length_drop; lia).
    destruct (invert p); [by apply crc_field_invert|].
    f_equal. rewrite <- (list_fmap_id (take 24 _)) at 1. done.
  - unfold crc_valid. replace (take 300 L) with (take 276 L ++ take 24 (drop 276 L)).
    + rewrite fmap_app, crc_bits_app. fold D W.
      assert (0 <= crc_bits 0 D < 2 ^ 24) by (apply crc_bits_range; lia).
      assert (length W = 24%nat) as HW.
      { unfold W. rewrite length_fmap, length_take, length_drop. lia. }
      pose proof (crc_check_field (crc_bits 0 D) W ltac:(done) HW) as Hc.
      apply eq_bool_prop_intro. rewrite !Is_true_true, !Z.eqb_eq. split; intros E.
      * by apply Hc.
      * symmetry. by apply Hc.
    + rewrite <- (take_drop 276 (take 300 L)), take_take, skipn_firstn_comm. done.
Qed.

Lemma lock_step_refines p :
  buf_ok p ->
  exists p' retry, cnav_lock_step p = Some (p', retry) /\ buf_ok p' /\ same_rest p p' /\
    (framer_of p', retry) = fr_step (framer_of p).
Proof.
  intros Hp. unfold cnav_lock_step, fr_step. change (fseen (framer_of p)) with (preamble_seen p).
  assert (exists q, (if negb (preamble_seen p) then cnav_rescan_preamble_ p else Some p) = Some q /\
    buf_ok q /\ same_rest p q /\
    framer_of q = if preamble_seen p then framer_of p else fr_rescan (framer_of p))
    as (q & -> & Hq & Hr & <-).
  { destruct (preamble_seen p); cbn [negb]; [by exists p|by apply rescan_refines]. }
  cbn [mbind option_bind]. unfold fr_check. rewrite length_fbits by done.
  change (fseen (framer_of q)) with (preamble_seen q). change (flock (framer_of q)) with (message_lock q).
  change (ffails (framer_of q)) with (n_crc_fail q). change (finv (framer_of q)) with (invert q).
  pose proof Hq as [Hb Hl Hn Hf].
  assert ((GPS_CNAV_MSG_LENGTH <=? n_decoded q) = bool_decide (300 <= Z.to_nat (n_decoded q))%nat) as ->.
  { unfold GPS_CNAV_MSG_LENGTH. destruct (Z.leb_spec 300 (n_decoded q)); case_bool_decide; lia || done. }
  destruct (preamble_seen q) eqn:Es; cbn [andb].
  2: { eexists q, false. split_and!; done. }
  case_bool_decide.
  2: { eexists q, false. split_and!; done. }
  destruct (crc_check_refines q Hq) as (crc & crc2 & -> & -> & Hok); [lia|].
  cbn [mbind option_bind]. rewrite Hok. rewrite (uwrap_small 64) by lia.
  change GPS_CNAV_LOCK_MAX_CRC_FAILS with 10.
  destruct (crc_valid _ _), (message_lock q);
    try destruct (Z.ltb_spec 10 (n_crc_fail q + 1)); (eexists _, _; split; [done|]; split_and!;
      [split; cbn; try done; lia|done|unfold framer_of, fr_flags; cbn; by rewrite ?Es]).
Qed.

Lemma lock_loop_refines fuel p :
  buf_ok p ->
  match fr_loop fuel (framer_of p) with
  | Some f => exists p', cnav_lock_loop fuel p = Some p' /\ buf_ok p' /\ same_rest p p' /\ framer_of p' = f
  | None => cnav_lock_loop fuel p = None
  end.
Proof.
  revert p. induction fuel as [|fuel IH]; intros p Hp; [done|]. cbn [fr_loop cnav_lock_loop].
  destruct (lock_step_refines p Hp) as (p' & retry & -> & Hp' & Hr & Hs). rewrite <- Hs.
  cbn [mbind option_bind]. destruct retry; [|by exists p'].
  specialize (IH p' Hp'). destruct (fr_loop fuel (framer_of p')) as [f|]; [|done].
  destruct IH as (q & -> & Hq & Hq' & Hf). exists q. split_and!; [done..| |done].
  destruct Hr as (? & ? & ? & ?), Hq' as (? & ? & ? & ?). split_and!; congruence.
Qed.

(** ** The framer's loop is a search *)

(** Offset [i] is where the search stops: a preamble stands there, and the 300
    bits from it are not complete or pass the check. *)
Definition good_offset (L : list bool) (i : nat) : option bool :=
  match preamble_at L i with
  | Some inv =>
      if bool_decide (length L - i < 300)%nat || crc_valid inv (drop i L) then Some inv else None
  | None => None
  end.

Definition acquire (L : list bool) : option (nat * bool) :=
  find_from (good_offset L) (length L - 9) 1.

(** What the loop leaves for the bits [L] when there is no lock. *)
Definition acquired (L : list bool) (f : framer) : Prop :=
  match acquire L with
  | Some (i, inv) =>
      fbits f = drop i L /\ fseen f = true /\ finv f = inv /\
      flock f = bool_decide (300 <= length L - i)%nat /\
      (flock f = true -> fok f = true /\ ffails f = 0 /\ crc_valid inv (drop i L) = true)
  | None => fbits f = drop (length L - 7) L /\ fseen f = false /\ flock f = false
  end.

Lemma find_from_ext {A} (f g : nat -> option A) n i :
  (forall k, (i <= k < i + n)%nat -> f k = g k) -> find_from f n i = find_from g n i.
Proof.
  revert i. induction n as [|n IH]; intros i H; [done|]. cbn [find_from].
  rewrite H by lia. destruct (g i); [done|]. apply IH. intros. apply H. lia.
Qed.

Lemma find_from_shift {A} (f : nat -> option A) n i d :
  find_from f n (i + d) = prod_map (fun j => j + d)%nat id <$> find_from (fun k => f (k + d)%nat) n i.
Proof.
  revert i. induction n as [|n IH]; intros i; [done|]. cbn [find_from].
  destruct (f (i + d)%nat); [done|]. apply (IH (S i)).
Qed.

(** Skipping a prefix in which nothing is found. *)
Lemma find_from_skip {A} (f : nat -> option A) n i d :
  (d <= n)%nat -> (forall k, (i <= k < i + d)%nat -> f k = None) ->
  find_from f n i = find_from f (n - d) (i + d).
Proof.
  revert n i. induction d as [|d IH]; intros n i Hd Hn; [by rewrite Nat.sub_0_r, Nat.add_0_r|].
  destruct n as [|n]; [lia|]. cbn [find_from]. rewrite Hn by lia.
  rewrite IH; [|lia|intros; apply Hn; lia]. f_equal; lia.
Qed.

Lemma preamble_at_drop L d k : preamble_at (drop d L) k = preamble_at L (k + d).
Proof. unfold preamble_at. rewrite drop_drop. by rewrite Nat.add_comm. Qed.

Lemma good_offset_drop L d k : good_offset (drop d L) k = good_offset L (k + d).
Proof.
  unfold good_offset. rewrite preamble_at_drop, length_drop, drop_drop, (Nat.add_comm d).
  destruct (preamble_at L (k + d)); [|done].
  replace (length L - d - k)%nat with (length L - (k + d))%nat by lia. done.
Qed.

(** The search on the bits from a rejected offset is the rest of the search. *)
Lemma acquire_drop L d :
  (1 <= d)%nat -> (d < length L - 8)%nat -> (forall k, (1 <= k <= d)%nat -> good_offset L k = None) ->
  acquire L = prod_map (fun j => j + d)%nat id <$> acquire (drop d L).
Proof.
  intros H1 Hd Hn. unfold acquire. rewrite length_drop.
  rewrite (find_from_skip _ _ 1 d) by (lia || (intros; apply Hn; lia)).
  rewrite find_from_shift. f_equal.
  replace (length L - 9 - d)%nat with (length L - d - 9)%nat by lia.
  apply find_from_ext. intros k _. symmetry. apply good_offset_drop.
Qed.

Lemma find_from_None {A} (f : nat -> option A) n i :
  find_from f n i = None <-> forall k, (i <= k < i + n)%nat -> f k = None.
Proof.
  split.
  - revert i. induction n as [|n IH]; intros i H k Hk; [lia|]. cbn [find_from] in H.
    destruct (f i) eqn:E; [done|]. destruct (decide (k = i)) as [->|]; [done|]. apply (IH (S i) H). lia.
  - revert i. induction n as [|n IH]; intros i H; [done|]. cbn [find_from]. rewrite H by lia.
    apply IH. intros. apply H. lia.
Qed.

Lemma find_from_Some {A} (f : nat -> option A) n i j x :
  (i <= j < i + n)%nat -> f j = Some x -> (forall k, (i <= k < j)%nat -> f k = None) ->
  find_from f n i = Some (j, x).
Proof.
  intros Hj Hx Hn. rewrite (find_from_skip f n i (j - i)) by (lia || (intros; apply Hn; lia)).
  replace (i + (j - i))%nat with j by lia. destruct (n - (j - i))%nat eqn:E; [lia|].
  cbn [find_from]. by rewrite Hx.
Qed.

(** Relation of the two searches: all preambles, and good ones. *)
Lemma acquire_cases L :
  match find_from (preamble_at L) (length L - 9) 1 with
  | None => acquire L = None
  | Some (i, inv) =>
      (1 <= i < length L - 8)%nat /\
      if bool_decide (length L - i < 300)%nat || crc_valid inv (drop i L)
      then acquire L = Some (i, inv)
      else acquire L = prod_map (fun j => j + i)%nat id <$> acquire (drop i L)
  end.
Proof.
  destruct (find_from (preamble_at L) _ 1) as [[i inv]|] eqn:E.
  - apply find_from_range in E as (Hi & Hp & Hn). split; [lia|].
    assert (forall k, (1 <= k < i)%nat -> good_offset L k = None) as Hg.
    { intros k Hk. unfold good_offset. by rewrite Hn. }
    destruct (_ || _) eqn:Ec.
    + apply find_from_Some; [lia| |done]. unfold good_offset. by rewrite Hp, Ec.
    + apply acquire_drop; [lia..|]. intros k Hk. destruct (decide (k = i)) as [->|]; [|apply Hg; lia].
      unfold good_offset. by rewrite Hp, Ec.
  - apply find_from_None. intros k Hk. unfold good_offset.
    by rewrite (proj1 (find_from_None _ _ _) E k Hk).
Qed.

Lemma acquired_drop L i f :
  (i < length L - 8)%nat -> acquire L = prod_map (fun j => j + i)%nat id <$> acquire (drop i L) ->
  acquired (drop i L) f -> acquired L f.
Proof.
  intros Hi E. unfold acquired. rewrite E, length_drop, drop_drop.
  destruct (acquire (drop i L)) as [[j inv]|]; cbn [fmap option_fmap option_map prod_map fst snd].
  - rewrite drop_drop. replace (length L - (j + i))%nat with (length L - i - j)%nat by lia.
    by rewrite (Nat.add_comm j i).
  - by replace (i + (length L - i - 7))%nat with (length L - 7)%nat by lia.
Qed.

(** Without a lock the loop ends within [length + 1] steps and has done the search. *)
Lemma fr_loop_acquire n f fuel :
  fseen f = false -> flock f = false -> (length (fbits f) <= n)%nat -> (n < fuel)%nat ->
  exists f', fr_loop fuel f = Some f' /\ acquired (fbits f) f' /\ 
    (flock f' = false -> ffails f' = ffails f).
Proof.
  revert f fuel. induction n as [n IH] using lt_wf_ind. intros f fuel Hs Hl Hn Hf.
  destruct fuel as [|fuel]; [lia|]. cbn [fr_loop]. unfold fr_step. rewrite Hs.
  pose proof (acquire_cases (fbits f)) as Hc. unfold fr_rescan.
  destruct (find_from (preamble_at (fbits f)) (length (fbits f) - 9) 1) as [[i inv]|].
  2: { cbn. eexists. split; [done|]. cbn. split; [|done]. unfold acquired. by rewrite Hc. }
  destruct Hc as [Hi Hc]. set (L := fbits f) in *. unfold fr_check. cbn [fseen fbits finv flock ffails].
  rewrite length_drop, Hl. cbn [andb].
  destruct (decide (300 <= length L - i)%nat) as [H3|H3].
  - rewrite bool_decide_eq_false_2 in Hc by lia. rewrite bool_decide_eq_true_2 by done. cbn [orb] in Hc.
    destruct (crc_valid inv (drop i L)) eqn:Ec.
    + eexists. split; [done|]. split; [|done]. unfold acquired. rewrite Hc. cbn.
      rewrite bool_decide_eq_true_2 by lia. done.
    + destruct (IH (length L - i)%nat ltac:(lia)
        (fr_flags {| fbits := drop i L; fseen := true; finv := inv; flock := false; fok := fok f;
                     ffails := ffails f |} false false false (ffails f)) fuel) as (f' & -> & Ha & Hff);
        [done|done|cbn; rewrite length_drop; lia|lia|].
      exists f'. split_and!; [done| |done]. eapply acquired_drop; [|done|exact Ha]. lia.
  - rewrite bool_decide_eq_true_2 in Hc by lia. rewrite bool_decide_eq_false_2 by done. cbn [orb] in Hc.
    eexists. split; [done|]. cbn. split; [|done]. unfold acquired. rewrite Hc. cbn.
    rewrite bool_decide_eq_false_2 by lia. done.
Qed.

(** The loop on every state it is entered with. *)
Lemma fr_loop_spec f fuel :
  (flock f = true -> fseen f = true) -> (length (fbits f) + 2 <= fuel)%nat -> ffails f <= 10 ->
  exists f', fr_loop fuel f = Some f' /\
    if fseen f then
      if decide (300 <= length (fbits f))%nat then
        if crc_valid (finv f) (fbits f) then f' = fr_flags f true true true 0
        else if flock f && (ffails f <? 10) then f' = fr_flags f true true false (ffails f + 1)
        else acquired (fbits f) f'
      else f' = f
    else acquired (fbits f) f'.
Proof.
  intros Hls Hf Hle. destruct (fseen f) eqn:Es.
  - destruct fuel as [|fuel]; [lia|]. cbn [fr_loop]. unfold fr_step, fr_check. rewrite !Es. cbn [andb].
    case_decide as H3.
    2: { rewrite bool_decide_eq_false_2 by done. by exists f. }
    rewrite bool_decide_eq_true_2 by done. destruct (crc_valid _ _); [eauto|].
    assert (Hacq : forall fl, exists f', fr_loop fuel (fr_flags f false false false fl) = Some f' /\
      acquired (fbits f) f').
    { intros fl. destruct (fr_loop_acquire (length (fbits f)) (fr_flags f false false false fl) fuel)
        as (f' & ? & ? & _); [done..|lia|]. by exists f'. }
    destruct (flock f); cbn [andb]; [|apply Hacq].
    destruct (Z.ltb_spec 10 (ffails f + 1)), (Z.ltb_spec (ffails f) 10); try lia; [apply Hacq|eauto].
  - assert (flock f = false) as El by (destruct (flock f); [by specialize (Hls eq_refl)|done]).
    destruct (fr_loop_acquire (length (fbits f)) f fuel) as (f' & ? & ? & _); [done..|lia|]. eauto.
Qed.

(** What holds of a part between its own step and the decoding of its message. *)
Definition framer_post (f : framer) : Prop :=
  (flock f = true -> fseen f = true) /\
  (flock f = false -> (length (fbits f) < 300)%nat) /\
  ((300 <= length (fbits f))%nat -> fok f = crc_valid (finv f) (fbits f)).

Lemma acquired_post L f : acquired L f -> framer_post f /\ (length (fbits f) <= length L)%nat.
Proof.
  unfold acquired, acquire. destruct (find_from _ _ _) as [[i inv]|] eqn:E.
  - apply find_from_range in E as (Hi & _). intros (Hb & Hs & Hv & Hl & Hok).
    rewrite Hb, length_drop. split; [|lia]. split_and!; [done| |].
    + intros Hf. rewrite Hf in Hl. symmetry in Hl. apply bool_decide_eq_false in Hl. rewrite Hb, length_drop. lia.
    + rewrite Hb, length_drop. intros H3. rewrite bool_decide_eq_true_2 in Hl by done.
      destruct (Hok Hl) as (-> & _ & Hc). by rewrite Hv, Hc.
  - intros (Hb & Hs & Hl). rewrite Hb, length_drop. split; [|lia].
    split_and!; [by rewrite Hl|rewrite Hb, length_drop; lia|rewrite Hb, length_drop; lia].
Qed.

Lemma fr_loop_post f fuel f' :
  (flock f = true -> fseen f = true) -> (length (fbits f) + 2 <= fuel)%nat -> ffails f <= 10 ->
  fr_loop fuel f = Some f' ->
  framer_post f' /\ (length (fbits f') <= length (fbits f))%nat.
Proof.
  intros Hls Hf Hle Hr. destruct (fr_loop_spec f fuel Hls Hf Hle) as (f1 & Hf1 & Hspec).
  rewrite Hr in Hf1. injection Hf1 as <-.
  destruct (fseen f) eqn:Es; [|by apply acquired_post].
  case_decide.
  - destruct (crc_valid _ _) eqn:Ec; [subst; cbn; split; [|lia]; by split_and!|].
    destruct (flock f && _); [subst; cbn; split; [|lia]; by split_and!|by apply acquired_post].
  - subst f'. split; [|lia]. split_and!; [done|lia..].
Qed.

(** ** The symbol side of a part *)

(** The Viterbi decoder of a part has seen the pairs [ys]. *)
Definition part_rep (ys : list (Z * Z)) (p : cnav_v27_part_t) : Prop :=
  viterbi_rep GPS_L2C_V27_POLY_A GPS_L2C_V27_POLY_B (init_metrics 0) ys (dec p) /\
  decisions_count (dec p) = 64.

Lemma cnav_polys : good_poly GPS_L2C_V27_POLY_A /\ good_poly GPS_L2C_V27_POLY_B.
Proof. repeat split. Qed.

Record part_ok (p : cnav_v27_part_t) : Prop := {
  po_buf : buf_ok p;
  po_symbols : bytes (symbols p) /\ length (symbols p) = 128%nat;
  po_n_symbols : 0 <= n_symbols p < if init p then 128 else 64;
  po_dec : exists ys, part_rep ys p /\ (init p = false -> (64 <= length ys)%nat);
  po_post : framer_post (framer_of p)
}.

Definition push (bs : list bool) (f : framer) : framer :=
  {| fbits := fbits f ++ bs; fseen := fseen f; finv := finv f; flock := flock f; fok := fok f;
     ffails := ffails f |}.

Lemma take_splice_app {A} (l m : list A) n :
  (n + length m <= length l)%nat -> take (n + length m) (splice l n m) = take n l ++ m.
Proof.
  intros H. unfold splice. rewrite app_assoc, take_app_le by (rewrite length_app, length_take; lia).
  apply take_ge. rewrite length_app, length_take. lia.
Qed.

Lemma take_bitlist_lookup (l m : list bool) n :
  (n <= length l)%nat -> (n <= length m)%nat -> (forall i, (i < n)%nat -> l !! i = m !! i) ->
  take n l = take n m.
Proof.
  intros Hl Hm H. apply list_eq. intros i. destruct (decide (i < n)%nat).
  - rewrite !lookup_take_lt by done. by apply H.
  - rewrite !lookup_take_ge by lia. done.
Qed.

(** One block: the symbols go to the Viterbi decoder, the 32 oldest of its last
    64 path bits are appended to the collected bits, and the framer runs. *)
Lemma decode_block_spec p ys :
  buf_ok p -> n_decoded p < 300 -> framer_post (framer_of p) ->
  bytes (symbols p) -> length (symbols p) = 128%nat -> 0 < n_symbols p <= 128 ->
  part_rep ys p -> 64 <= Z.of_nat (length ys) + n_symbols p / 2 -> 1 <= n_symbols p / 2 ->
  let ys' := ys ++ sym_pairs (symbols p) (Z.to_nat (n_symbols p / 2)) in
  exists p' t s bs, cnav_decode_block p = Some p' /\
    buf_ok p' /\ n_symbols p' = 0 /\ symbols p' = symbols p /\ init p' = init p /\
    part_rep ys' p' /\ n_decoded p' < 332 /\ framer_post (framer_of p') /\
    (t < 64)%nat /\
    survivor GPS_L2C_V27_POLY_A GPS_L2C_V27_POLY_B (init_metrics 0) ys' (length ys') t = (s, bs) /\
    let block := take 32 (drop (length ys' - 64) (val_bits 6 (Z.of_nat s) ++ bs)) in
    fr_loop (2 + Z.to_nat (n_decoded p + 32)) (push block (framer_of p)) = Some (framer_of p').
Proof.
  intros Hp Hn Hpost Hb Hls Hns [Hrep Hcnt] H64 H1 ys'. destruct cnav_polys as [HA HB].
  pose proof Hp as [Hbd Hld Hnd Hfl]. unfold cnav_decode_block.
  assert (n_symbols p / 2 <= 64) by (Z.div_mod_to_equations; lia).
  destruct (v27_update_rep _ _ HA HB (init_metrics 0) ys (dec p) (symbols p) (n_symbols p / 2)) as (d & -> & Hd & Hc);
    [apply length_init_metrics|done|done|lia|lia|].
  fold ys' in Hd. cbn [mbind option_bind].
  assert (Hly : length ys' = (length ys + Z.to_nat (n_symbols p / 2))%nat).
  { unfold ys'. by rewrite length_app, length_sym_pairs. }
  change (GPS_L2C_V27_DECODE_BITS + GPS_L2C_V27_DELAY_BITS) with 64.
  destruct (chainback_likely_bits _ _ d (init_metrics 0) ys' (replicate 8 0) 64 Hd) as
    (tmp & t & s & bs & -> & Hbt & Hlt & Ht & Hsv & Hbits).
  { intros E. apply (f_equal length) in E. rewrite Hly in E. cbn in E. lia. }
  { apply bytes_replicate. done. }
  { lia. }
  { lia. }
  { done. }
  cbn [mbind option_bind set_symbols set_decoder decoded n_decoded].
  destruct (survivor_ok _ _ _ ys' (length ys') t s bs ltac:(lia) Ht Hsv) as (_ & Hlbs & _ & _).
  destruct (bitcopy_bits (decoded p) (Z.to_nat (n_decoded p)) tmp 0 32) as (buf & Hcp & Hbb & Hlb & Hbuf);
    [done|rewrite Hld; lia|rewrite Hlt; cbn; lia|lia|rewrite Hlt; cbn; lia|].
  rewrite Z2Nat.id in Hcp by lia. change (Z.of_nat 0) with 0 in Hcp.
  change GPS_L2C_V27_DECODE_BITS with (Z.of_nat 32). rewrite Hcp. cbn [mbind option_bind set_decoded n_decoded].
  change (Z.of_nat 32) with 32. rewrite uwrap_small by lia.
  set (p1 := set_decoded buf (n_decoded p + 32) (set_symbols (symbols p) 0 (set_decoder d p))).
  set (block := take 32 (drop (length ys' - 64) (val_bits 6 (Z.of_nat s) ++ bs))).
  assert (Hblk : take 32 (drop 0 (bitlist tmp)) = block).
  { rewrite drop_0. apply take_bitlist_lookup.
    - rewrite length_bitlist, Hlt. cbn. lia.
    - rewrite length_drop, length_app, length_val_bits, Hlbs. lia.
    - intros i Hi. rewrite Hbits, lookup_drop by lia. done. }
  assert (Hlblk : length block = 32%nat) by (rewrite <- Hblk, drop_0, length_take, length_bitlist, Hlt; done).
  assert (Hp1 : buf_ok p1) by (split; cbn; try done; try congruence; lia).
  assert (Hf1 : framer_of p1 = push block (framer_of p)).
  { unfold framer_of, push, p1.
    cbn [set_decoded set_symbols set_decoder decoded n_decoded preamble_seen invert message_lock
         crc_ok n_crc_fail fbits fseen finv flock fok ffails].
    f_equal. rewrite Hbuf, Hblk.
    replace (Z.to_nat (n_decoded p + 32)) with (Z.to_nat (n_decoded p) + length block)%nat by lia.
    apply take_splice_app. rewrite length_bitlist, Hld, Hlblk. lia. }
  change (2 + Z.to_nat (n_decoded p + 32))%nat with (S (S (Z.to_nat (n_decoded p + 32)))) in *.
  set (fuel := S (S (Z.to_nat (n_decoded p + 32)))).
  pose proof (lock_loop_refines fuel p1 Hp1) as Hloop.
  assert (Hlf : length (fbits (framer_of p1)) = Z.to_nat (n_decoded p + 32)) by by apply length_fbits.
  destruct (fr_loop_spec (framer_of p1) fuel) as (f' & Hf' & _); [by apply Hpost|unfold fuel; lia|cbn; lia|].
  destruct (fr_loop_post (framer_of p1) fuel f') as [Hpost' Hlen']; [by apply Hpost|unfold fuel; lia|cbn; lia|done|].
  rewrite Hf' in Hloop. destruct Hloop as (p' & Hrun & Hp' & (E1 & E2 & E3 & E4) & Hff).
  exists p', t, s, bs. rewrite <- Hff in *. rewrite length_fbits in Hlen' by done.
  split_and!; try done.
  - split; [by rewrite E1|]. rewrite E1. cbn. congruence.
  - pose proof (bo_n _ Hp'). lia.
  - change (fr_loop fuel (push block (framer_of p)) = Some (framer_of p')). rewrite <- Hf1. exact Hf'.
Qed.

(** One symbol, on a part as it is between calls. *)
Lemma add_symbol_spec p ch :
  part_ok p -> n_decoded p < 300 -> is_byte ch ->
  exists p', cnav_add_symbol_ p ch = Some p' /\ part_ok p' /\ n_decoded p' < 332 /\
    (n_symbols p' = n_symbols p + 1 /\ framer_of p' = framer_of p \/
     n_symbols p' = 0 /\ Z.odd (n_symbols p) = true).
Proof.
  intros [Hbuf [Hb Hl] Hns (ys & Hrep & Hys) Hpost] Hn Hch. unfold cnav_add_symbol_.
  rewrite wr_in by (rewrite Hl; destruct (init p); lia). cbn [mbind option_bind].
  set (syms := <[Z.to_nat (n_symbols p) := ch]> (symbols p)).
  assert (bytes syms /\ length syms = 128%nat) as [Hsb Hsl].
  { split; [by apply bytes_insert|]. unfold syms. by rewrite length_insert. }
  rewrite uwrap_small by (destruct (init p); lia).
  change ((GPS_L2C_V27_INIT_BITS + GPS_L2C_V27_DECODE_BITS) * 2) with 128.
  change (GPS_L2C_V27_DECODE_BITS * 2) with 64. cbn [set_symbols init n_symbols].
  assert (Hwait : (n_symbols p + 1 < if init p then 128 else 64) ->
    part_ok (set_symbols syms (n_symbols p + 1) p) /\ n_decoded p < 332).
  { intros Hlt. split; [|lia]. split; try done; [by destruct Hbuf|cbn; lia|]. by exists ys. }
  destruct (init p) eqn:Ei.
  - destruct (Z.ltb_spec (n_symbols p + 1) 128) as [Hlt|Hge].
    + eexists. split; [done|]. destruct (Hwait Hlt). split_and!; [done..|]. by left.
    + assert (n_symbols p + 1 = 128) as E by lia.
      destruct (decode_block_spec (set_init false (set_symbols syms (n_symbols p + 1) p)) ys)
        as (p' & t & s & bs & -> & Hp' & Hn0 & Hs' & Hi' & Hr' & Hn' & Hpost' & _);
        [by destruct Hbuf|done|done|done|done|cbn; lia|done|cbn; rewrite E; change (128 / 2) with 64; lia..|].
      exists p'. split_and!; [done| |done|right; split; [done|]].
      * split; [done|rewrite Hs'; done|rewrite Hi', Hn0; cbn; lia| |done].
        eexists. split; [exact Hr'|]. intros _. rewrite length_app, length_sym_pairs. cbn. rewrite E.
        change (128 / 2) with 64. lia.
      * replace (n_symbols p) with 127 by lia. done.
  - destruct (Z.ltb_spec (n_symbols p + 1) 64) as [Hlt|Hge].
    + eexists. split; [done|]. destruct (Hwait Hlt). split_and!; [done..|]. by left.
    + assert (n_symbols p + 1 = 64) as E by lia. specialize (Hys eq_refl).
      destruct (decode_block_spec (set_symbols syms (n_symbols p + 1) p) ys)
        as (p' & t & s & bs & -> & Hp' & Hn0 & Hs' & Hi' & Hr' & Hn' & Hpost' & _);
        [by destruct Hbuf|done|done|done|done|cbn; lia|done|cbn; rewrite E; change (64 / 2) with 32; lia..|].
      exists p'. split_and!; [done| |done|right; split; [done|]].
      * split; [done|rewrite Hs'; done|rewrite Hi', Hn0; cbn; rewrite Ei; lia| |done].
        eexists. split; [exact Hr'|]. intros _. rewrite length_app. lia.
      * replace (n_symbols p) with 63 by lia. done.
Qed.

(** ** Delivering a message *)

Definition inv_bytes (l : list Z) : list Z := (fun x => 255 - x) <$> l.

Definition invert_body (i : Z) (b : list Z) : option (list Z) := x ← rd b i; wr b i (u8 (Z.lxor x 0xFF)).

Lemma msg_invert_spec p :
  bytes (decoded p) -> length (decoded p) = 64%nat ->
  cnav_msg_invert_ p = Some (set_decoded (inv_bytes (decoded p)) (n_decoded p) p).
Proof.
  intros Hb Hl. unfold cnav_msg_invert_. change (Z.to_nat sizeof_decoded) with 64%nat.
  destruct (for_loop_inv (fun i b => length b = 64%nat /\ forall k, b !! k =
      if decide (Z.of_nat k < i) then inv_bytes (decoded p) !! k else decoded p !! k) 64 0
      invert_body (decoded p)) as (b & Hr & Hlb & Hk).
  - split; [done|]. intros k. by rewrite decide_False by lia.
  - intros i b Hi [Hlb Hk]. unfold invert_body. rewrite <- (Z2Nat.id i) by lia. rewrite rd_nat, Hk.
    rewrite decide_False by lia.
    destruct (lookup_lt_is_Some_2 (decoded p) (Z.to_nat i)) as [x Hx]; [lia|]. rewrite Hx. cbn [mbind option_bind].
    rewrite wr_in by lia. eexists. split; [done|]. rewrite length_insert. split; [done|].
    intros k. rewrite Nat2Z.id. destruct (decide (k = Z.to_nat i)) as [->|].
    + rewrite list_lookup_insert_eq, decide_True by lia. unfold inv_bytes.
      rewrite list_lookup_fmap, Hx. cbn [fmap option_fmap option_map].
      assert (is_byte x) by by eapply bytes_lookup.
      rewrite Z.lxor_comm, lxor_255 by done. f_equal. apply uwrap_small. unfold is_byte in *. lia.
    + rewrite list_lookup_insert_ne, Hk by done. do 2 case_decide; lia || done.
  - unfold invert_body in Hr. rewrite Hr. cbn [mbind option_bind]. do 2 f_equal.
    apply list_eq. intros k. rewrite Hk. case_decide; [done|].
    rewrite !lookup_ge_None_2; [done|unfold inv_bytes; rewrite ?length_fmap; lia..].
Qed.

Lemma inv_bytes_ok l : bytes l -> bytes (inv_bytes l) /\ inv_bytes (inv_bytes l) = l.
Proof.
  intros Hb. split.
  - apply Forall_fmap. eapply list.Forall_impl; [exact Hb|]. unfold is_byte. cbn. lia.
  - unfold inv_bytes. rewrite <- list_fmap_compose. rewrite <- (list_fmap_id l) at 2.
    apply list_fmap_ext. intros ?? _. cbn. lia.
Qed.

Lemma bitlist_inv_bytes l : bytes l -> bitlist (inv_bytes l) = xorb true <$> bitlist l.
Proof.
  intros Hb. induction Hb as [|x l Hx _ IH]; [done|].
  unfold inv_bytes in *. rewrite fmap_cons, !bitlist_cons, fmap_app, IH. f_equal.
  apply (Z_small_cases (fun x => byte_bits (255 - x) = xorb true <$> byte_bits x) 256); [|unfold is_byte in Hx; lia].
  apply (bool_decide_unpack _). vm_compute. exact I.
Qed.

(** The message carried by 300 bits. *)
Definition carries (W : list bool) (m : cnav_msg_t) : Prop :=
  prn m = bits_val (take 6 (drop 8 W)) /\ msg_id m = bits_val (take 6 (drop 14 W)) /\
  tow m = bits_val (take 17 (drop 20 W)) /\ alert m = (W !!! 37%nat) /\
  take 300 (bitlist (raw_msg m)) = W.

Definition window (f : framer) : list bool := xorb (finv f) <$> take 300 (fbits f).

Lemma bits_val_take_range l n : 0 <= bits_val (take n l) < 2 ^ Z.of_nat n.
Proof.
  pose proof (bits_val_range (take n l)) as H. rewrite length_take in H.
  assert (2 ^ Z.of_nat (n `min` length l) <= 2 ^ Z.of_nat n) by (apply Z.pow_le_mono_r; lia). lia.
Qed.

Lemma getbitu_window (buf : list Z) (pos len : Z) :
  length buf = 64%nat -> 0 <= pos -> 0 <= len <= 32 -> pos + len <= 300 ->
  getbitu buf pos len =
  Some (bits_val (take (Z.to_nat len) (drop (Z.to_nat pos) (take 300 (bitlist buf))))).
Proof.
  intros Hl H0 H1 H2. rewrite <- (Z2Nat.id pos), <- (Z2Nat.id len) at 1 by lia.
  rewrite getbitu_bits by lia. by rewrite take_drop_take by lia.
Qed.

Lemma set_decoded_undo p d n : set_decoded (decoded p) (n_decoded p) (set_decoded d n p) = p.
Proof. by destruct p. Qed.

Lemma msg_decode_spec p :
  buf_ok p -> 300 <= n_decoded p < 332 -> 0 <= n_symbols p < 128 ->
  exists p' res, cnav_msg_decode_ p = Some (p', res) /\ buf_ok p' /\ same_rest p p' /\
    n_decoded p' = n_decoded p - 300 /\
    framer_of p' = {| fbits := drop 300 (fbits (framer_of p)); fseen := preamble_seen p;
                      finv := invert p; flock := message_lock p; fok := crc_ok p;
                      ffails := n_crc_fail p |} /\
    match res with
    | Some (m, delay) => crc_ok p = true /\ carries (window (framer_of p)) m /\
                         delay = (n_decoded p - 300 + 32) * 2 + n_symbols p
    | None => crc_ok p = false
    end.
Proof.
  intros Hp Hn Hns. pose proof Hp as [Hb Hl _ Hf]. unfold cnav_msg_decode_.
  rewrite (proj2 (Z.leb_le GPS_CNAV_MSG_LENGTH (n_decoded p))) by apply Hn.
  destruct (shift_framer p 300) as (buf & Hsh & Hbb & Hlb & Hbits); [done|lia|].
  change (Z.of_nat 300) with GPS_CNAV_MSG_LENGTH in Hsh, Hbits.
  change GPS_CNAV_MSG_LENGTH with 300 in *. change GPS_L2C_V27_DELAY_BITS with 32.
  assert (Hend : forall res : option (cnav_msg_t * Z), exists p',
    (buf0 ← bitshl (decoded p) sizeof_decoded 300;
     Some (set_decoded buf0 (u64 (n_decoded p - 300)) p, res)) = Some (p', res) /\ buf_ok p' /\ same_rest p p' /\
    n_decoded p' = n_decoded p - 300 /\
    framer_of p' = {| fbits := drop 300 (fbits (framer_of p)); fseen := preamble_seen p;
                      finv := invert p; flock := message_lock p; fok := crc_ok p;
                      ffails := n_crc_fail p |}).
  { intros res. rewrite Hsh. cbn [mbind option_bind]. rewrite uwrap_small by lia.
    eexists. split; [done|]. split_and!; [split; cbn; try done; lia|done|done|].
    unfold framer_of. cbn [set_decoded n_decoded decoded preamble_seen invert message_lock crc_ok n_crc_fail].
    f_equal. exact Hbits. }
  destruct (crc_ok p) eqn:Eok.
  2: { cbn [mbind option_bind]. destruct (Hend None) as (p' & -> & ? & ? & ? & ?). by exists p', None. }
  set (p1 := if invert p then set_decoded (inv_bytes (decoded p)) (n_decoded p) p else p).
  assert ((if invert p then cnav_msg_invert_ p else Some p) = Some p1) as ->.
  { unfold p1. destruct (invert p); [|done]. by apply msg_invert_spec. }
  destruct (inv_bytes_ok (decoded p) Hb) as [Hib Hii].
  assert (bytes (decoded p1) /\ length (decoded p1) = 64%nat /\ n_decoded p1 = n_decoded p /\
    n_symbols p1 = n_symbols p /\ invert p1 = invert p /\
    take 300 (bitlist (decoded p1)) = window (framer_of p)) as (Hb1 & Hl1 & Hn1 & Hs1 & Hi1 & HW).
  { unfold p1, window. destruct (invert p) eqn:Ei; cbn [set_decoded decoded n_decoded n_symbols invert framer_of fbits finv].
    - rewrite bitlist_inv_bytes, Ei by done. rewrite take_take, fmap_take. split_and!; try done.
      + unfold inv_bytes. by rewrite length_fmap.
      + do 2 f_equal. lia.
    - rewrite Ei, take_take. split_and!; try done. rewrite <- (list_fmap_id (take 300 _)) at 1.
      do 2 f_equal. lia. }
  cbn [mbind option_bind].
  rewrite !getbitu_window by (done || lia). rewrite HW. set (W := window (framer_of p)) in *. cbn [mbind option_bind].
  assert ((if invert p1 then cnav_msg_invert_ p1 else Some p1) = Some p) as ->.
  { rewrite Hi1. unfold p1. destruct (invert p) eqn:Ei; [|done].
    rewrite msg_invert_spec by (cbn; done). cbn [set_decoded decoded n_decoded]. rewrite Hii.
    by rewrite set_decoded_undo. }
  cbn [mbind option_bind].
  match goal with |- context [(set_decoded _ _ _, Some ?r)] =>
    destruct (Hend (Some r)) as (p' & -> & ? & ? & ? & ?) end.
  eexists p', _. split; [done|]. split_and!; try done.
  - unfold carries. cbn [prn msg_id tow alert raw_msg].
    pose proof (bits_val_take_range (drop 8 W) 6). pose proof (bits_val_take_range (drop 14 W) 6).
    change (Z.to_nat 8) with 8%nat. change (Z.to_nat 14) with 14%nat. change (Z.to_nat 6) with 6%nat.
    change (Z.to_nat 37) with 37%nat. change (Z.to_nat 1) with 1%nat.
    rewrite !uwrap_small by lia. split_and!; try done.
    + assert (length W = 300%nat) as HlW.
      { unfold W, window. rewrite length_fmap, length_take, length_fbits by done. lia. }
      rewrite (drop_S W (W !!! 37%nat) 37) by (apply list_lookup_lookup_total_lt; lia).
      rewrite firstn_cons, take_0. by destruct (W !!! 37%nat).
    + change (Z.to_nat sizeof_decoded) with 64%nat. rewrite (take_ge (decoded p1)) by lia. done.
  - rewrite Hn1, Hs1, (uwrap_small 64 (n_decoded p - 300 + 32)) by lia.
    rewrite (uwrap_small 64), uwrap_small by (rewrite ?uwrap_small by lia; lia). done.
Qed.

(** ** The pair of decoders *)

Definition part_between (p : cnav_v27_part_t) : Prop := part_ok p /\ n_decoded p < 300.

(** Between calls: both parts are well formed, a part that waits while the other
    is locked has no symbol, and without a lock the parts hold numbers of symbols
    of different parity, so that they pair the symbols in the two ways. *)
Record decoder_ok (d : cnav_msg_decoder_t) : Prop := {
  do_1 : part_between (part1 d);
  do_2 : part_between (part2 d);
  do_lock1 : message_lock (part1 d) = true -> n_symbols (part2 d) = 0;
  do_lock2 : message_lock (part1 d) = false -> message_lock (part2 d) = true -> n_symbols (part1 d) = 0;
  do_phase : message_lock (part1 d) = false -> message_lock (part2 d) = false ->
    Z.odd (n_symbols (part1 d)) = negb (Z.odd (n_symbols (part2 d)))
}.

Lemma flush_ok p : part_ok p -> part_between (flush p).
Proof.
  intros [[] Hs Hns Hd (Hl & _ & _)]. split; [|cbn; lia]. split; [|done| |done|].
  - split; cbn; try done; lia.
  - cbn. destruct (init p); lia.
  - assert (fbits (framer_of (flush p)) = []) as E by apply take_0.
    unfold framer_post. rewrite E. split_and!; [done|cbn [length]; lia..].
Qed.

(** Delivery from a locked part: what is returned carries a valid CRC. *)
Lemma msg_decode_ok p :
  part_ok p -> n_decoded p < 332 ->
  exists p' res, cnav_msg_decode_ p = Some (p', res) /\ part_between p' /\
    message_lock p' = message_lock p /\ n_symbols p' = n_symbols p /\
    match res with
    | Some (m, delay) => 300 <= n_decoded p /\ crc_bits 0 (window (framer_of p)) = 0 /\
        carries (window (framer_of p)) m /\ delay = (n_decoded p - 300 + 32) * 2 + n_symbols p
    | None => True
    end.
Proof.
  intros Hp Hn. pose proof Hp as [Hbuf Hs Hns Hd Hpost]. destruct (decide (300 <= n_decoded p)).
  - destruct (msg_decode_spec p Hbuf) as (p' & res & -> & Hb' & (E1 & E2 & E3 & E4) & Hn' & Hf' & Hres);
      [lia|destruct (init p); lia|].
    pose proof (length_fbits p Hbuf) as HL.
    exists p', res. split; [done|]. split_and!.
    + split; [|lia]. split; [done|by rewrite E2|by rewrite E3, E4| |].
      * unfold part_rep. rewrite E1, E4. done.
      * rewrite Hf'. destruct Hpost as (Hl & _ & _). unfold framer_post. cbn [flock fseen fbits fok].
        rewrite length_drop, HL. split_and!; [done|lia..].
    + by apply (f_equal flock) in Hf'.
    + done.
    + destruct res as [[m delay]|]; [|done]. destruct Hres as (Hok & Hc & Hdl). split_and!; [lia| |done..].
      destruct Hpost as (_ & _ & Hv). specialize (Hv ltac:(lia)). cbn [framer_of fok] in Hv.
      rewrite Hok in Hv. symmetry in Hv. by apply Z.eqb_eq in Hv.
  - unfold cnav_msg_decode_. change GPS_CNAV_MSG_LENGTH with 300.
    rewrite (proj2 (Z.leb_gt 300 (n_decoded p))) by lia. exists p, None.
    split_and!; [done|split; [done|lia]|done..].
Qed.

Lemma unlocked_between p : part_ok p -> message_lock p = false -> part_between p.
Proof.
  intros Hp Hl. split; [done|]. destruct Hp as [Hb _ _ _ (_ & Hpost & _)].
  specialize (Hpost Hl). rewrite length_fbits in Hpost by done. lia.
Qed.

(** The parity of the symbol count flips with every symbol. *)
Lemma parity_flip p p' :
  n_symbols p' = n_symbols p + 1 /\ framer_of p' = framer_of p \/
  n_symbols p' = 0 /\ Z.odd (n_symbols p) = true ->
  Z.odd (n_symbols p') = negb (Z.odd (n_symbols p)).
Proof.
  intros [[-> _]|[-> ->]]; [|done]. by rewrite Z.odd_add, xorb_true_r.
Qed.

(** One symbol: no access outside the buffers, the invariant is kept, and a
    returned message has a valid CRC. *)
Lemma add_symbol_ok d s :
  decoder_ok d -> is_byte s ->
  exists d' res, cnav_msg_decoder_add_symbol d s = Some (d', res) /\ decoder_ok d' /\
    match res with
    | Some (m, delay) => exists W, length W = 300%nat /\ crc_bits 0 W = 0 /\ carries W m /\
        0 <= delay < 256
    | None => True
    end.
Proof.
  intros [[H1 N1] [H2 N2] L1 L2 Ph] Hs. unfold cnav_msg_decoder_add_symbol.
  destruct (add_symbol_spec (part1 d) s H1 N1 Hs) as (p1 & -> & O1 & M1 & S1).
  destruct (add_symbol_spec (part2 d) s H2 N2 Hs) as (p2 & -> & O2 & M2 & S2).
  cbn [mbind option_bind].
  assert (Hmsg : forall p, part_ok p -> n_decoded p < 332 -> 300 <= n_decoded p ->
    length (window (framer_of p)) = 300%nat /\ 0 <= (n_decoded p - 300 + 32) * 2 + n_symbols p < 256).
  { intros p [Hb _ Hns _ _] ??. split.
    - unfold window. rewrite length_fmap, length_take, length_fbits by done. lia.
    - destruct (init p); lia. }
  destruct (message_lock p1) eqn:K1; [|destruct (message_lock p2) eqn:K2].
  - destruct (msg_decode_ok p1 O1 M1) as (p1' & res & -> & B1 & K1' & Hs1 & Hres).
    cbn [mbind option_bind]. eexists _, res. split; [done|]. split.
    + split; cbn [part1 part2]; [done|by apply flush_ok|done|intros; congruence..].
    + destruct res as [[m delay]|]; [|done]. destruct Hres as (H3 & Hc & Hm & ->).
      destruct (Hmsg p1 O1 M1 H3). exists (window (framer_of p1)). split_and!; done || lia.
  - destruct (msg_decode_ok p2 O2 M2) as (p2' & res & -> & B2 & K2' & Hs2 & Hres).
    cbn [mbind option_bind]. eexists _, res. split; [done|]. split.
    + split; cbn [part1 part2]; [by apply flush_ok|done|cbn; intros; congruence|done|intros; congruence].
    + destruct res as [[m delay]|]; [|done]. destruct Hres as (H3 & Hc & Hm & ->).
      destruct (Hmsg p2 O2 M2 H3). exists (window (framer_of p2)). split_and!; done || lia.
  - eexists _, None. split; [done|]. split; [|done].
    split; cbn [part1 part2]; [by apply unlocked_between..|intros; congruence|intros; congruence|]. intros _ _.
    rewrite (parity_flip _ _ S1), (parity_flip _ _ S2).
    destruct (message_lock (part1 d)) eqn:E1.
    + destruct S1 as [[_ Ef]|[_ Ho]]; [apply (f_equal flock) in Ef; cbn in Ef; congruence|].
      by rewrite (L1 eq_refl), Ho.
    + destruct (message_lock (part2 d)) eqn:E2.
      * destruct S2 as [[_ Ef]|[_ Ho]]; [apply (f_equal flock) in Ef; cbn in Ef; congruence|].
        by rewrite (L2 eq_refl eq_refl), Ho.
      * by rewrite Ph by done.
Qed.

Lemma init_part_ok : part_between init_part.
Proof.
  split; [|cbn; lia]. split.
  - split; [apply bytes_replicate; done|done|cbn; lia..].
  - split; [apply bytes_replicate; done|done].
  - cbn. lia.
  - exists []. split; [|done]. split; [|done]. destruct cnav_polys as [HA HB].
    apply viterbi_rep_init; try done. apply Forall_replicate. done.
  - assert (fbits (framer_of init_part) = []) as E by apply take_0.
    unfold framer_post. rewrite E. split_and!; [done|cbn [length]; lia..].
Qed.

Lemma decoder_init_ok : exists d, cnav_msg_decoder_init = Some d /\ decoder_ok d.
Proof.
  destruct init_part_ok as [Hok Hn].
  destruct (add_symbol_spec init_part 0x80 Hok Hn) as (p2 & Hp2 & Hok2 & _ & Hcase); [done|].
  unfold cnav_msg_decoder_init. rewrite Hp2. cbn [mbind option_bind]. eexists. split; [done|].
  destruct Hcase as [[Hns Hf]|[_ Ho]]; [|done].
  assert (message_lock p2 = false) as Hl by by apply (f_equal flock) in Hf.
  split; cbn [part1 part2]; try done; [by apply unlocked_between|]. intros _ _. by rewrite Hns.
Qed.

Lemma run_ok d syms :
  decoder_ok d -> bytes syms ->
  exists d' msgs, cnav_run d syms = Some (d', msgs) /\ decoder_ok d' /\
    Forall (fun '(m, delay) => exists W, length W = 300%nat /\ crc_bits 0 W = 0 /\ carries W m /\
              0 <= delay < 256) msgs.
Proof.
  intros Hd Hb. revert d Hd. induction Hb as [|s syms Hs _ IH]; intros d Hd.
  - exists d, []. by split_and!.
  - cbn [cnav_run]. destruct (add_symbol_ok d s Hd Hs) as (d1 & res & -> & Hd1 & Hres).
    cbn [mbind option_bind]. destruct (IH d1 Hd1) as (d' & msgs & -> & Hd' & Hm).
    cbn [mbind option_bind]. eexists _, _. split; [done|]. split; [done|].
    destruct res as [[m delay]|]; [|done]. by constructor.
Qed.

(** ** Polarity *)

Definition fr_flip (f : framer) : framer :=
  {| fbits := negb <$> fbits f; fseen := fseen f; finv := negb (finv f); flock := flock f;
     fok := fok f; ffails := ffails f |}.

Lemma bits_val_negb l : bits_val (negb <$> l) = 2 ^ Z.of_nat (length l) - 1 - bits_val l.
Proof. rewrite <- bits_val_invert. done. Qed.

Lemma preamble_at_flip L i : (i + 8 <= length L)%nat ->
  preamble_at (negb <$> L) i = negb <$> preamble_at L i.
Proof.
  intros Hi. unfold preamble_at. rewrite <- fmap_drop, <- fmap_take, bits_val_negb.
  rewrite length_take, length_drop. replace (8 `min` (length L - i))%nat with 8%nat by lia.
  set (c := bits_val _). change (2 ^ Z.of_nat 8 - 1) with 255.
  unfold GPS_CNAV_PREAMBLE1, GPS_CNAV_PREAMBLE2.
  destruct (Z.eqb_spec c 0x8B), (Z.eqb_spec c 0x74), (Z.eqb_spec (255 - c) 0x8B),
    (Z.eqb_spec (255 - c) 0x74); lia || done.
Qed.

Lemma crc_valid_flip inv L : crc_valid (negb inv) (negb <$> L) = crc_valid inv L.
Proof.
  unfold crc_valid. rewrite <- fmap_take, <- list_fmap_compose. do 2 f_equal.
  apply list_fmap_ext. intros _ b _. cbn. by destruct inv, b.
Qed.

Lemma find_from_flip f g n i :
  (forall k, (i <= k < i + n)%nat -> g k = negb <$> (f k : option bool)) ->
  find_from g n i = prod_map id negb <$> find_from f n i.
Proof.
  revert i. induction n as [|n IH]; intros i H; [done|]. cbn [find_from]. rewrite H by lia.
  destruct (f i); cbn; [done|]. apply IH. intros. apply H. lia.
Qed.

Lemma fr_step_flip f : fr_step (fr_flip f) = prod_map fr_flip id (fr_step f).
Proof.
  unfold fr_step. change (fseen (fr_flip f)) with (fseen f).
  assert ((if fseen f then fr_flip f else fr_rescan (fr_flip f)) =
    fr_flip (if fseen f then f else fr_rescan f)) as ->.
  { destruct (fseen f); [done|]. unfold fr_rescan. cbn [fr_flip fbits finv flock fok ffails].
    rewrite length_fmap, (find_from_flip (preamble_at (fbits f))).
    - destruct (find_from (preamble_at (fbits f)) _ _) as [[i inv]|]; cbn; unfold fr_flip; cbn;
        by rewrite fmap_drop.
    - intros k Hk. apply preamble_at_flip. lia. }
  set (g := if fseen f then f else fr_rescan f). unfold fr_check.
  cbn [fr_flip fseen finv fbits flock ffails]. rewrite length_fmap, crc_valid_flip.
  destruct (fseen g && _); [|done]. destruct (crc_valid _ _); [done|].
  destruct (flock g); [|done]. by destruct (10 <? ffails g + 1).
Qed.

Lemma fr_loop_flip fuel f : fr_loop fuel (fr_flip f) = fr_flip <$> fr_loop fuel f.
Proof.
  revert f. induction fuel as [|fuel IH]; intros f; [done|]. cbn [fr_loop].
  rewrite fr_step_flip. destruct (fr_step f) as [f' [|]]; cbn; [apply IH|done].
Qed.

(** ** Properties *)

(** A CNAV message for the witnesses: preamble, PRN 17, message type 10, time of
    week 12345, alert flag set, 238 further bits and the CRC. *)
Definition sample_payload : list bool :=
  val_bits 8 0x8B ++ val_bits 6 17 ++ val_bits 6 10 ++ val_bits 17 12345 ++ [true] ++
  val_bits 238 (7 ^ 84).
Definition sample_msg : list bool := sample_payload ++ val_bits 24 (crc_bits 0 sample_payload).

Definition pack (L : list bool) : list Z :=
  (fun i => bits_val (take 8 (drop (8 * i) (L ++ replicate (512 - length L) false)))) <$> seq 0 64.

(** A part whose buffer holds the bits [L]. *)
Definition sample_part (L : list bool) (seen lock ok : bool) (fails : Z) : cnav_v27_part_t :=
  {| dec := dec init_part; symbols := symbols init_part; n_symbols := 0; decoded := pack L;
     n_decoded := Z.of_nat (length L); preamble_seen := seen; invert := false;
     message_lock := lock; crc_ok := ok; n_crc_fail := fails; init := false |}.

(** Three bits of noise before the message. *)
Definition sample_seek : cnav_v27_part_t := sample_part ([true; false; true] ++ sample_msg) false false false 0.
(** A locked part whose message has a wrong bit. *)
Definition sample_bad : cnav_v27_part_t :=
  sample_part (<[100%nat := true]> (<[101%nat := true]> sample_msg)) true true true 3.
(** A part with a complete message. *)
Definition sample_full : cnav_v27_part_t := sample_part sample_msg true true true 0.

Ltac sample_buf_ok :=
  split; [apply (bool_decide_unpack _); vm_compute; exact I|vm_compute; reflexivity|vm_compute; split; discriminate..].

#[global] Instance is_byte_dec b : Decision (is_byte b).
Proof. unfold is_byte. apply _. Defined.

Lemma sample_seek_ok : buf_ok sample_seek.
Proof. sample_buf_ok. Qed.
Lemma sample_bad_ok : buf_ok sample_bad.
Proof. sample_buf_ok. Qed.
Lemma sample_full_ok : buf_ok sample_full.
Proof. sample_buf_ok. Qed.

(** C7: For every sequence of symbols the decoder pair runs without any access
    outside its buffers and without exhausting the retry loop, and every message
    it returns consists of 300 bits whose CRC-24Q is zero: its fields and its
    raw copy are those bits. *)
Theorem cnav_decoder_delivers_valid_messages syms :
  bytes syms ->
  exists d d' msgs, cnav_msg_decoder_init = Some d /\ cnav_run d syms = Some (d', msgs) /\
    Forall (fun '(m, delay) => exists W, length W = 300%nat /\ crc_bits 0 W = 0 /\ carries W m /\
              0 <= delay < 256) msgs.
Proof.
  intros Hb. destruct decoder_init_ok as (d & Hd & Hok).
  destruct (run_ok d syms Hok Hb) as (d' & msgs & Hr & _ & Hm). by exists d, d', msgs.
Qed.

Lemma cnav_decoder_delivers_valid_messages_witness :
  exists d d' msgs, cnav_msg_decoder_init = Some d /\ cnav_run d [0; 255; 128; 7] = Some (d', msgs) /\
    Forall (fun '(m, delay) => exists W, length W = 300%nat /\ crc_bits 0 W = 0 /\ carries W m /\
              0 <= delay < 256) msgs.
Proof. apply (cnav_decoder_delivers_valid_messages [0; 255; 128; 7]). repeat constructor; done. Defined.

(** Both symbol phases are covered for as long as there is no lock: after any
    sequence of symbols the two parts hold numbers of symbols of different
    parity, so one of them pairs the symbols as the encoder emitted them; and
    the part that does not carry the lock holds no symbols and no bits. *)
Theorem cnav_decoder_covers_both_phases syms :
  bytes syms ->
  exists d d' msgs, cnav_msg_decoder_init = Some d /\ cnav_run d syms = Some (d', msgs) /\
    (message_lock (part1 d') = false -> message_lock (part2 d') = false ->
     Z.odd (n_symbols (part1 d')) = negb (Z.odd (n_symbols (part2 d')))) /\
    (message_lock (part1 d') = true -> n_symbols (part2 d') = 0) /\
    (message_lock (part1 d') = false -> message_lock (part2 d') = true -> n_symbols (part1 d') = 0) /\
    n_decoded (part1 d') < 300 /\ n_decoded (part2 d') < 300.
Proof.
  intros Hb. destruct decoder_init_ok as (d & Hd & Hok).
  destruct (run_ok d syms Hok Hb) as (d' & msgs & Hr & [[_ N1] [_ N2] ? ? ?] & _).
  exists d, d', msgs. by split_and!.
Qed.

Lemma cnav_decoder_covers_both_phases_witness :
  exists d d' msgs, cnav_msg_decoder_init = Some d /\ cnav_run d [0; 255; 128] = Some (d', msgs) /\
    (message_lock (part1 d') = false -> message_lock (part2 d') = false ->
     Z.odd (n_symbols (part1 d')) = negb (Z.odd (n_symbols (part2 d')))) /\
    (message_lock (part1 d') = true -> n_symbols (part2 d') = 0) /\
    (message_lock (part1 d') = false -> message_lock (part2 d') = true -> n_symbols (part1 d') = 0) /\
    n_decoded (part1 d') < 300 /\ n_decoded (part2 d') < 300.
Proof. apply (cnav_decoder_covers_both_phases [0; 255; 128]). repeat constructor; done. Defined.

(** C8: Message acquisition. In a part that has neither a lock nor a preamble the retry
    loop terminates, and what it does is one search: the first offset from 1 on, with at least nine bits from
    it to the end, where a preamble stands whose 300 bits are still incomplete or pass the CRC.
    The bits before it are dropped, the polarity is the preamble's, and the lock
    is taken exactly when the message is complete. When there is no such offset
    seven bits are kept. *)
Theorem cnav_acquisition_is_search p :
  buf_ok p -> preamble_seen p = false -> message_lock p = false ->
  exists p', cnav_lock_loop (2 + Z.to_nat (n_decoded p)) p = Some p' /\
    same_rest p p' /\ acquired (fbits (framer_of p)) (framer_of p').
Proof.
  intros Hp Hs Hl. pose proof (length_fbits p Hp) as HL.
  destruct (fr_loop_acquire (length (fbits (framer_of p))) (framer_of p) (2 + Z.to_nat (n_decoded p)))
    as (f' & Hf & Ha & _); [done|done|lia|lia|].
  pose proof (lock_loop_refines (2 + Z.to_nat (n_decoded p)) p Hp) as Hr. rewrite Hf in Hr.
  destruct Hr as (p' & Hr & _ & Hrest & <-). by exists p'.
Qed.

Lemma cnav_acquisition_is_search_witness :
  exists p', cnav_lock_loop (2 + Z.to_nat (n_decoded sample_seek)) sample_seek = Some p' /\
    same_rest sample_seek p' /\ acquired (fbits (framer_of sample_seek)) (framer_of p').
Proof. apply (cnav_acquisition_is_search sample_seek); [apply sample_seek_ok|reflexivity|reflexivity]. Defined.

(** C9: A lock is kept through up to ten consecutive CRC failures. A locked part
    waits for 300 bits; a message that passes the CRC clears the failure count,
    one that fails adds to it, and only the failure after the tenth gives the
    lock up and starts a new search on the bits at hand. *)
Theorem cnav_lock_maintenance p :
  buf_ok p -> preamble_seen p = true -> message_lock p = true ->
  exists p', cnav_lock_loop (2 + Z.to_nat (n_decoded p)) p = Some p' /\ same_rest p p' /\
    (n_decoded p < 300 -> framer_of p' = framer_of p) /\
    (300 <= n_decoded p -> crc_valid (invert p) (fbits (framer_of p)) = true ->
       framer_of p' = fr_flags (framer_of p) true true true 0) /\
    (300 <= n_decoded p -> crc_valid (invert p) (fbits (framer_of p)) = false ->
       if n_crc_fail p <? 10
       then framer_of p' = fr_flags (framer_of p) true true false (n_crc_fail p + 1)
       else acquired (fbits (framer_of p)) (framer_of p')).
Proof.
  intros Hp Hs Hl. pose proof (length_fbits p Hp) as HL. pose proof Hp as [_ _ _ Hf].
  destruct (fr_loop_spec (framer_of p) (2 + Z.to_nat (n_decoded p))) as (f' & Hf' & Hspec);
    [done|lia|cbn; lia|].
  pose proof (lock_loop_refines (2 + Z.to_nat (n_decoded p)) p Hp) as Hr. rewrite Hf' in Hr.
  destruct Hr as (p' & Hr & _ & Hrest & <-). exists p'. split; [done|]. split; [done|].
  change (fseen (framer_of p)) with (preamble_seen p) in Hspec.
  change (flock (framer_of p)) with (message_lock p) in Hspec. rewrite Hs, Hl in Hspec. cbn [andb] in Hspec.
  change (finv (framer_of p)) with (invert p) in Hspec. change (ffails (framer_of p)) with (n_crc_fail p) in Hspec.
  split_and!; intros Hn; [by rewrite decide_False in Hspec by lia|..];
    rewrite decide_True in Hspec by lia; intros Hc; by rewrite Hc in Hspec.
Qed.

Lemma cnav_lock_maintenance_witness :
  exists p', cnav_lock_loop (2 + Z.to_nat (n_decoded sample_bad)) sample_bad = Some p' /\
    framer_of p' = fr_flags (framer_of sample_bad) true true false 4.
Proof.
  destruct (cnav_lock_maintenance sample_bad) as (p' & Hr & _ & _ & _ & Hc);
    [apply sample_bad_ok|reflexivity|reflexivity|].
  exists p'. split; [exact Hr|]. apply Hc; vm_compute; congruence.
Defined.

(** Polarity. When every collected bit is inverted and the polarity flag with
    them, the retry loop takes the same decisions: the result is that of the
    direct bits, inverted. *)
Theorem cnav_lock_loop_polarity p q :
  buf_ok p -> buf_ok q -> framer_of q = fr_flip (framer_of p) ->
  (message_lock p = true -> preamble_seen p = true) ->
  exists p' q', cnav_lock_loop (2 + Z.to_nat (n_decoded p)) p = Some p' /\
    cnav_lock_loop (2 + Z.to_nat (n_decoded q)) q = Some q' /\
    framer_of q' = fr_flip (framer_of p').
Proof.
  intros Hp Hq Hpq Hls. pose proof (length_fbits p Hp) as HL. pose proof (length_fbits q Hq) as HLq.
  rewrite Hpq in HLq. cbn [fr_flip fbits] in HLq. rewrite length_fmap, HL in HLq. rewrite <- HLq.
  destruct (fr_loop_spec (framer_of p) (2 + Z.to_nat (n_decoded p))) as (f' & Hf' & _);
    [done|lia|destruct Hp; cbn; lia|].
  pose proof (lock_loop_refines (2 + Z.to_nat (n_decoded p)) p Hp) as Hr. rewrite Hf' in Hr.
  pose proof (lock_loop_refines (2 + Z.to_nat (n_decoded p)) q Hq) as Hrq.
  rewrite Hpq, fr_loop_flip, Hf' in Hrq. cbn [fmap option_fmap option_map] in Hrq.
  destruct Hr as (p' & Hr & _ & _ & <-), Hrq as (q' & Hrq & _ & _ & Hq'). by exists p', q'.
Qed.

Definition sample_flipped : cnav_v27_part_t :=
  set_preamble false true (sample_part (negb <$> [true; false; true] ++ sample_msg) false false false 0).

Lemma cnav_lock_loop_polarity_witness :
  exists p' q', cnav_lock_loop (2 + Z.to_nat (n_decoded sample_seek)) sample_seek = Some p' /\
    cnav_lock_loop (2 + Z.to_nat (n_decoded sample_flipped)) sample_flipped = Some q' /\
    framer_of q' = fr_flip (framer_of p').
Proof.
  apply (cnav_lock_loop_polarity sample_seek sample_flipped);
    [apply sample_seek_ok|sample_buf_ok|vm_compute; reflexivity|done].
Defined.

(** C10: One block of symbols. The Viterbi decoder consumes all the symbols of the
    block; the oldest 32 of the last 64 bits of a survivor path are appended to
    the collected bits; the abstract framer run on the extended bits gives the
    state the part is left in; the symbol buffer is empty. *)
Theorem cnav_block_refines_framer p ys :
  buf_ok p -> n_decoded p < 300 -> framer_post (framer_of p) ->
  bytes (symbols p) -> length (symbols p) = 128%nat -> 0 < n_symbols p <= 128 ->
  part_rep ys p -> 64 <= Z.of_nat (length ys) + n_symbols p / 2 -> 1 <= n_symbols p / 2 ->
  let ys' := ys ++ sym_pairs (symbols p) (Z.to_nat (n_symbols p / 2)) in
  exists p' t s bs, cnav_decode_block p = Some p' /\ n_symbols p' = 0 /\ part_rep ys' p' /\
    survivor GPS_L2C_V27_POLY_A GPS_L2C_V27_POLY_B (init_metrics 0) ys' (length ys') t = (s, bs) /\
    let block := take 32 (drop (length ys' - 64) (val_bits 6 (Z.of_nat s) ++ bs)) in
    fr_loop (2 + Z.to_nat (n_decoded p + 32)) (push block (framer_of p)) = Some (framer_of p').
Proof.
  intros H1 H2 H3 H4 H5 H6 H7 H8 H9 ys'.
  destruct (decode_block_spec p ys H1 H2 H3 H4 H5 H6 H7 H8 H9)
    as (p' & t & s & bs & Hr & _ & Hn & _ & _ & Hrep & _ & _ & _ & Hsv & Hf).
  by exists p', t, s, bs.
Qed.

(** The first block: 128 symbols in a part as [cnav_msg_decoder_init] leaves it. *)
Definition sample_block : cnav_v27_part_t :=
  set_symbols (replicate 128 200) 128 (set_init false init_part).

Lemma cnav_block_refines_framer_witness :
  let ys' := [] ++ sym_pairs (symbols sample_block) (Z.to_nat (n_symbols sample_block / 2)) in
  exists p' t s bs, cnav_decode_block sample_block = Some p' /\ n_symbols p' = 0 /\ part_rep ys' p' /\
    survivor GPS_L2C_V27_POLY_A GPS_L2C_V27_POLY_B (init_metrics 0) ys' (length ys') t = (s, bs) /\
    let block := take 32 (drop (length ys' - 64) (val_bits 6 (Z.of_nat s) ++ bs)) in
    fr_loop (2 + Z.to_nat (n_decoded sample_block + 32)) (push block (framer_of sample_block)) =
    Some (framer_of p').
Proof.
  destruct init_part_ok as [[Hb _ _ (ys & Hr & _) Hp] Hn].
  apply (cnav_block_refines_framer sample_block []).
  - destruct Hb. by split.
  - exact Hn.
  - exact Hp.
  - apply bytes_replicate. done.
  - reflexivity.
  - cbn. lia.
  - split; [|done]. destruct cnav_polys as [HA HB].
    apply viterbi_rep_init; try done. apply Forall_replicate. done.
  - vm_compute. discriminate.
  - vm_compute. discriminate.
Defined.

(** The message taken from a complete buffer: 300 bits in the polarity of the
    preamble, the fields at their places in it, the delay in symbols counted
    from the end of the message; the bits after the message are kept and
    the buffer is restored to its own polarity. Without a good CRC the 300 bits
    are dropped and nothing is returned. *)
Theorem cnav_msg_decode_fields p :
  buf_ok p -> 300 <= n_decoded p < 332 -> 0 <= n_symbols p < 128 ->
  exists p' res, cnav_msg_decode_ p = Some (p', res) /\ same_rest p p' /\
    n_decoded p' = n_decoded p - 300 /\ fbits (framer_of p') = drop 300 (fbits (framer_of p)) /\
    invert p' = invert p /\
    match res with
    | Some (m, delay) => crc_ok p = true /\ carries (window (framer_of p)) m /\
                         delay = (n_decoded p - 300 + 32) * 2 + n_symbols p
    | None => crc_ok p = false
    end.
Proof.
  intros H1 H2 H3. destruct (msg_decode_spec p H1 H2 H3) as (p' & res & Hr & _ & Hs & Hn & Hf & Hm).
  exists p', res. split_and!; try done.
  - by rewrite Hf.
  - by apply (f_equal finv) in Hf.
Qed.

Lemma cnav_msg_decode_fields_witness :
  exists p' m, cnav_msg_decode_ sample_full = Some (p', Some (m, 64)) /\ n_decoded p' = 0 /\
    carries (window (framer_of sample_full)) m.
Proof.
  destruct (cnav_msg_decode_fields sample_full) as (p' & res & Hr & _ & Hn & _ & _ & Hm);
    [apply sample_full_ok|vm_compute; split; congruence|vm_compute; split; congruence|].
  destruct res as [[m delay]|]; [|discriminate Hm]. destruct Hm as (_ & Hc & ->).
  exists p', m. by split_and!.
Defined.

(** A preamble that stands at the last eight collected bits is not seen by the
    rescan, and it is lost: its first bit is dropped with the other bits, so no
    later rescan can see it either. *)
Theorem cnav_rescan_misses_last_offset p inv :
  buf_ok p -> 9 < n_decoded p ->
  preamble_at (fbits (framer_of p)) (Z.to_nat (n_decoded p) - 8) = Some inv ->
  (forall i, (1 <= i < Z.to_nat (n_decoded p) - 8)%nat -> preamble_at (fbits (framer_of p)) i = None) ->
  exists p', cnav_rescan_preamble_ p = Some p' /\ preamble_seen p' = false /\ n_decoded p' = 7 /\
    fbits (framer_of p') = drop (Z.to_nat (n_decoded p) - 7) (fbits (framer_of p)).
Proof.
  intros Hp Hn _ Hno. destruct (rescan_refines p Hp) as (p' & Hr & Hp' & _ & Hf).
  pose proof (length_fbits p Hp) as HL. unfold fr_rescan in Hf.
  rewrite (proj2 (find_from_None (preamble_at (fbits (framer_of p))) _ _)) in Hf
    by (intros k Hk; apply Hno; lia).
  exists p'. split_and!; [done| |..].
  - by apply (f_equal fseen) in Hf.
  - apply (f_equal (fun f => length (fbits f))) in Hf. cbn [fbits] in Hf.
    rewrite length_fbits, length_drop in Hf by done. pose proof (bo_n _ Hp'). lia.
  - rewrite Hf. cbn [fbits]. by rewrite HL.
Qed.

Definition sample_last : cnav_v27_part_t := sample_part (replicate 31 false ++ val_bits 8 0x8B) false false false 0.

Lemma cnav_rescan_misses_last_offset_witness :
  exists p', cnav_rescan_preamble_ sample_last = Some p' /\ preamble_seen p' = false /\ n_decoded p' = 7 /\
    fbits (framer_of p') = drop (Z.to_nat (n_decoded sample_last) - 7) (fbits (framer_of sample_last)).
Proof.
  apply (cnav_rescan_misses_last_offset sample_last false); [sample_buf_ok|reflexivity|vm_compute; reflexivity|].
  apply (proj1 (find_from_None _ 30 1)). vm_compute. reflexivity.
Defined.

(** The symbols of the sample message from the K=7 encoder, followed by 52 bits. *)
Definition sample_syms : list Z :=
  encode GPS_L2C_V27_POLY_A GPS_L2C_V27_POLY_B 0 (sample_msg ++ val_bits 52 0x123456789abcd).

(** From symbols to message: the 704 symbols of the sample transmission are
    fed one by one; no message comes out before the last of them, and that one
    returns the transmitted fields. The last symbol of the message is the
    600th, so the true delay is 104 symbols; the delay reported is 12 less, the
    six bits by which the Viterbi decoder's output is behind its input. *)
Theorem cnav_decodes_sample_transmission :
  length sample_syms = 704%nat /\
  exists d d1 d2 m, cnav_msg_decoder_init = Some d /\
    cnav_run d (take 703 sample_syms) = Some (d1, []) /\
    cnav_msg_decoder_add_symbol d1 (sample_syms !!! 703%nat) = Some (d2, Some (m, (704 - 600) - 12)) /\
    prn m = 17 /\ msg_id m = 10 /\ tow m = 12345 /\ alert m = true.
Proof.
  split; [vm_compute; reflexivity|].
  assert (match (d ← cnav_msg_decoder_init; cnav_run d (take 703 sample_syms)) with
    | Some (d1, []) =>
        match cnav_msg_decoder_add_symbol d1 (sample_syms !!! 703%nat) with
        | Some (_, Some (m, delay)) =>
            (delay =? 92) && (prn m =? 17) && (msg_id m =? 10) && (tow m =? 12345) && alert m
        | _ => false
        end
    | _ => false
    end = true) as H by (vm_compute; reflexivity).
  destruct cnav_msg_decoder_init as [d|]; [|discriminate H]. cbn [mbind option_bind] in H.
  destruct (cnav_run d (take 703 sample_syms)) as [[d1 [|]]|] eqn:E1; [|discriminate H..].
  destruct (cnav_msg_decoder_add_symbol d1 (sample_syms !!! 703%nat)) as [[d2 [[m delay]|]]|] eqn:E2;
    [|discriminate H..].
  apply andb_prop in H as [H ?]. rewrite !andb_true_iff, !Z.eqb_eq in H. destruct H as (((-> & ?) & ?) & ?).
  by exists d, d1, d2, m.
Qed.
