(* ===== verification/PerSupport.v ===== *)
(** * PerSupport: bit streams of the packed encoding rules

    Model of [src/core/libs/supl/asn-supl/per_support.c] and [per_support.h], the
    bit-level layer of the ASN.1 codec the SUPL client uses (the copy under
    [asn-rrlp] is the same). Operations return the C return value with the new
    stream; [None] is undefined behaviour (an access outside a buffer).

    [asn_per_data_t.refill] is NULL in every stream the program builds, so the
    branch that refills returns -1 as the source does for NULL. *)
From S2P Require Import Prelude.

(** ** Input stream *)

(** [buffer] is the octet stream from the pointer on. *)
Record asn_per_data_t := { buffer : list Z; nboff : Z; nbits : Z; moved : Z }.

(** The [assert] of the first branch holds whenever it is reached. *)
Definition per_get_undo (pd : asn_per_data_t) (n : Z) : asn_per_data_t :=
  if nboff pd <? n then pd
  else {| buffer := buffer pd; nboff := nboff pd - n; nbits := nbits pd; moved := moved pd - n |}.

(** "Normalize position indicator." *)
Definition pd_normalize (pd : asn_per_data_t) : asn_per_data_t :=
  if 8 <=? nboff pd then
    {| buffer := drop (Z.to_nat (Z.shiftr (nboff pd) 3)) (buffer pd);
       nboff := Z.land (nboff pd) 7;
       nbits := nbits pd - Z.land (nboff pd) (Z.lnot 7);
       moved := moved pd |}
  else pd.

(** "Extract specified number of bits", for the offsets that fit 32 bits. The
    four-octet sum is a signed 32-bit integer. *)
Definition extract_bits (buf : list Z) (n off : Z) : option Z :=
  if off <=? 8 then
    (if n =? 0 then Some 0 else b0 ← rd buf 0; Some (Z.shiftr b0 (8 - off)))
  else if off <=? 16 then
    b0 ← rd buf 0; b1 ← rd buf 1;
    Some (Z.shiftr (Z.shiftl b0 8 + b1) (16 - off))
  else if off <=? 24 then
    b0 ← rd buf 0; b1 ← rd buf 1; b2 ← rd buf 2;
    Some (Z.shiftr (Z.shiftl b0 16 + Z.shiftl b1 8 + b2) (24 - off))
  else
    b0 ← rd buf 0; b1 ← rd buf 1; b2 ← rd buf 2; b3 ← rd buf 3;
    Some (u32 (Z.shiftr (i32 (Z.shiftl b0 24 + Z.shiftl b1 16 + Z.shiftl b2 8 + b3)) (32 - off))).

Fixpoint get_few_bits (fuel : nat) (pd : asn_per_data_t) (n : Z) : option (Z * asn_per_data_t) :=
  if n <? 0 then Some (-1, pd)
  else
    let nleft := nbits pd - nboff pd in
    if nleft <? n then Some (-1, pd)
    else
      let pd1 := pd_normalize pd in
      let pd2 := {| buffer := buffer pd1; nboff := nboff pd1 + n; nbits := nbits pd1;
                    moved := moved pd1 + n |} in
      let off := nboff pd2 in
      if off <=? 31 then
        accum ← extract_bits (buffer pd2) n off;
        Some (i32 (Z.land accum (u32 (Z.shiftl 1 n - 1))), pd2)
      else if n <=? 31 then
        match fuel with
        | O => None
        | S f =>
            let tpd := per_get_undo pd2 n in
            '(hi, tpd1) ← get_few_bits f tpd (n - 24);
            '(lo, _) ← get_few_bits f tpd1 24;
            let accum := Z.lor (u32 (hi * 16777216)) (u32 lo) in
            Some (i32 (Z.land accum (u32 (Z.shiftl 1 n - 1))), pd2)
        end
      else Some (-1, per_get_undo pd2 n).

(** The recursion is one level deep: the halves have at most 24 bits. *)
Definition per_get_few_bits (pd : asn_per_data_t) (n : Z) : option (Z * asn_per_data_t) :=
  get_few_bits 1 pd n.

(** The octets written to [dst] are returned in order. *)
Definition get_last_bits (value nb : Z) : list Z :=
  let '(value, nb, first) :=
    if Z.land nb 7 =? 0 then (value, nb, [])
    else
      let value' := Z.shiftl value (8 - Z.land nb 7) in
      let nb' := nb + (8 - Z.land nb 7) in
      (value', nb', if 24 <? nb' then [u8 (Z.shiftr value' 24)] else []) in
  first ++ (if 16 <? nb then [u8 (Z.shiftr value 16)] else [])
        ++ (if 8 <? nb then [u8 (Z.shiftr value 8)] else []) ++ [u8 value].

Fixpoint get_many_loop (fuel : nat) (pd : asn_per_data_t) (nb : Z)
  : option (Z * list Z * asn_per_data_t) :=
  match fuel with
  | O => None
  | S f =>
      if nb =? 0 then Some (0, [], pd)
      else if 24 <=? nb then
        '(value, pd1) ← per_get_few_bits pd 24;
        if value <? 0 then Some (-1, [], pd1)
        else
          '(r, rest, pd2) ← get_many_loop f pd1 (nb - 24);
          Some (r, [u8 (Z.shiftr value 16); u8 (Z.shiftr value 8); u8 value] ++ rest, pd2)
      else
        '(value, pd1) ← per_get_few_bits pd nb;
        if value <? 0 then Some (-1, [], pd1)
        else Some (0, get_last_bits value nb, pd1)
  end.

Definition per_get_many_bits (pd : asn_per_data_t) (alright : bool) (n : Z)
  : option (Z * list Z * asn_per_data_t) :=
  if alright && negb (Z.land n 7 =? 0) then
    '(value, pd1) ← per_get_few_bits pd (Z.land n 7);
    if value <? 0 then Some (-1, [], pd1)
    else
      '(r, rest, pd2) ← get_many_loop (S (Z.to_nat n)) pd1 (Z.land n (Z.lnot 7));
      Some (r, u8 value :: rest, pd2)
  else get_many_loop (S (Z.to_nat n)) pd n.

(** Returns the length, the [repeat] flag and the stream. *)
Definition uper_get_length (pd : asn_per_data_t) (ebits : Z) : option (Z * bool * asn_per_data_t) :=
  if (0 <=? ebits) && (ebits <=? 16) then
    '(v, pd1) ← per_get_few_bits pd ebits; Some (v, false, pd1)
  else
    '(value, pd1) ← per_get_few_bits pd 8;
    if Z.land value 0x80 =? 0 then Some (Z.land value 0x7F, false, pd1)
    else if Z.land value 0x40 =? 0 then
      '(lo, pd2) ← per_get_few_bits pd1 8;
      Some (Z.lor (Z.shiftl (Z.land value 0x3f) 8) lo, false, pd2)
    else if value <? 0 then Some (-1, false, pd1)
    else
      let m := Z.land value 0x3f in
      if (m <? 1) || (4 <? m) then Some (-1, false, pd1)
      else Some (16384 * m, true, pd1).

Definition uper_get_nslength (pd : asn_per_data_t) : option (Z * asn_per_data_t) :=
  '(b, pd1) ← per_get_few_bits pd 1;
  if b =? 0 then
    '(v, pd2) ← per_get_few_bits pd1 6;
    let length := v + 1 in
    if length <=? 0 then Some (-1, pd2) else Some (length, pd2)
  else
    '(length, repeat, pd2) ← uper_get_length pd1 (-1);
    if (0 <=? length) && negb repeat then Some (length, pd2) else Some (-1, pd2).

Definition uper_get_nsnnwn (pd : asn_per_data_t) : option (Z * asn_per_data_t) :=
  '(value, pd1) ← per_get_few_bits pd 7;
  if negb (Z.land value 64 =? 0) then
    '(lo, pd2) ← per_get_few_bits pd1 2;
    let value := Z.lor (Z.shiftl (Z.land value 63) 2) lo in
    if negb (Z.land value 128 =? 0) then Some (-1, pd2)
    else if value =? 0 then Some (0, pd2)
    else if 3 <=? value then Some (-1, pd2)
    else per_get_few_bits pd2 (8 * value)
  else Some (value, pd1).

(** [fuel] is the number of 31-bit halves, at most three for 64 bits. The value is
    [None] when the function returns -1. *)
Fixpoint get_constrained (fuel : nat) (pd : asn_per_data_t) (n : Z)
  : option (option Z * asn_per_data_t) :=
  if n <=? 31 then
    '(half, pd1) ← per_get_few_bits pd n;
    if half <? 0 then Some (None, pd1) else Some (Some half, pd1)
  else if 64 <? n then Some (None, pd)
  else
    match fuel with
    | O => None
    | S f =>
        '(half, pd1) ← per_get_few_bits pd 31;
        if half <? 0 then Some (None, pd1)
        else
          '(r, pd2) ← get_constrained f pd1 (n - 31);
          match r with
          | None => Some (None, pd2)
          | Some lhalf => Some (Some (Z.lor (u64 (Z.shiftl half (n - 31))) lhalf), pd2)
          end
    end.

Definition uper_get_constrained_whole_number (pd : asn_per_data_t) (n : Z)
  : option (option Z * asn_per_data_t) := get_constrained 2 pd n.

(** ** Specification of the input stream *)

(** The bits that are still to be read. *)
Definition pd_bits (pd : asn_per_data_t) : list bool :=
  take (Z.to_nat (nbits pd - nboff pd)) (drop (Z.to_nat (nboff pd)) (bitlist (buffer pd))).

Record pd_ok (pd : asn_per_data_t) : Prop := {
  pd_bytes : bytes (buffer pd);
  pd_off : 0 <= nboff pd <= nbits pd;
  pd_room : nbits pd <= 8 * Z.of_nat (length (buffer pd))
}.

(** The stream [pd] has exactly the bits [L] left. *)
Definition pd_at (L : list bool) (pd : asn_per_data_t) : Prop := pd_ok pd /\ pd_bits pd = L.

Lemma length_pd_bits pd : pd_ok pd -> length (pd_bits pd) = Z.to_nat (nbits pd - nboff pd).
Proof.
  intros [_ Ho Hr]. unfold pd_bits. rewrite length_take, length_drop, length_bitlist. lia.
Qed.

Lemma pd_normalize_ok pd : pd_ok pd ->
  pd_ok (pd_normalize pd) /\ pd_bits (pd_normalize pd) = pd_bits pd /\
  0 <= nboff (pd_normalize pd) < 8 /\
  nbits (pd_normalize pd) - nboff (pd_normalize pd) = nbits pd - nboff pd.
Proof.
  intros [Hb Ho Hr]. unfold pd_normalize. destruct (Z.leb_spec 8 (nboff pd)); [|split_and!; [by split|done|lia..]].
  assert (Z.land (nboff pd) 7 = nboff pd mod 8) as E1 by (apply (Z.land_ones _ 3); lia).
  assert (Z.land (nboff pd) (Z.lnot 7) = 8 * (nboff pd / 8)) as E2.
  { change 7 with (Z.ones 3). rewrite <- Z.ldiff_land, Z.ldiff_ones_r, Z.shiftl_mul_pow2, Z.shiftr_div_pow2 by lia.
    change (2 ^ 3) with 8. lia. }
  assert (Z.shiftr (nboff pd) 3 = nboff pd / 8) as E3 by (apply (Z.shiftr_div_pow2 _ 3); lia).
  pose proof (Z.mod_pos_bound (nboff pd) 8). pose proof (Z.div_mod (nboff pd) 8).
  pose proof (Z.div_pos (nboff pd) 8).
  rewrite E1, E2, E3. split_and!; cbn; [|..|lia|lia|lia].
  - split; cbn; [by apply Forall_drop|lia|rewrite length_drop; lia].
  - unfold pd_bits. cbn [nbits nboff buffer]. rewrite bitlist_drop, drop_drop. f_equal; [lia|f_equal; lia].
Qed.

(** Reading bits out of the integer that big-endian octets form. *)
Lemma bits_val_extract L (off n : nat) :
  (n <= off)%nat -> (off <= length L)%nat ->
  Z.land (Z.shiftr (bits_val L) (Z.of_nat (length L - off))) (Z.ones (Z.of_nat n)) =
  bits_val (take n (drop (off - n) L)).
Proof.
  intros Hn Ho.
  rewrite <- (take_drop off L) at 1. rewrite bits_val_app, length_drop.
  rewrite Z.shiftr_div_pow2, Z.div_add_l by (try apply Z.pow_nonzero; lia).
  pose proof (bits_val_range (drop off L)) as Hr. rewrite length_drop in Hr.
  rewrite Z.div_small, Z.add_0_r by done.
  rewrite <- (take_drop (off - n) (take off L)), bits_val_app, Z.land_ones by lia.
  rewrite skipn_firstn_comm. replace (off - (off - n))%nat with n by lia.
  pose proof (bits_val_range (take n (drop (off - n) L))) as Hr2. rewrite length_take, length_drop in Hr2 |- *.
  replace (n `min` (length L - (off - n)))%nat with n in * by lia.
  rewrite Z.add_comm, Z.mod_add, Z.mod_small by (try apply Z.pow_nonzero; lia). done.
Qed.

Lemma mask_few n accum : 0 <= n <= 31 ->
  i32 (Z.land accum (u32 (Z.shiftl 1 n - 1))) = Z.land accum (Z.ones n).
Proof.
  intros Hn. assert (2 ^ 0 <= 2 ^ n <= 2 ^ 31) by (split; apply Z.pow_le_mono_r; lia).
  rewrite Z.shiftl_1_l, uwrap_small by lia. rewrite Z.sub_1_r, <- Z.ones_equiv.
  apply swrap_small; [|lia]. rewrite Z.land_ones by lia.
  pose proof (Z.mod_pos_bound accum (2 ^ n)). lia.
Qed.

(** The octet [j] of a stream, when it has that many bits. *)
Lemma pd_octet pd (j : nat) :
  pd_ok pd -> 8 * Z.of_nat j < nbits pd ->
  exists b, rd (buffer pd) (Z.of_nat j) = Some b /\ buffer pd !! j = Some b /\ is_byte b.
Proof.
  intros [Hb Ho Hr] Hj. destruct (lookup_lt_is_Some_2 (buffer pd) j) as [b E]; [lia|].
  exists b. rewrite rd_nat. split_and!; [done..|by eapply bytes_lookup].
Qed.

(** The first octets as one integer. *)
Lemma octets_val buf k : bytes buf -> (k <= length buf)%nat ->
  bits_val (take (8 * k) (bitlist buf)) = fold_left (fun a b => a * 256 + b) (take k buf) 0.
Proof.
  intros Hb Hk. rewrite <- bitlist_take. generalize (Forall_take is_byte k buf Hb). generalize (take k buf).
  clear. intros l Hl. induction l as [|b l IH] using rev_ind; [done|].
  apply Forall_app in Hl as [Hl Hb]. inversion Hb as [|?? Hb1 _]; subst.
  rewrite bitlist_app, bits_val_app, fold_left_app, IH by done. cbn [fold_left].
  rewrite length_bitlist, bitlist_cons, app_nil_r. cbn [length].
  unfold byte_bits. rewrite bits_val_val_bits, Z.mod_small by (unfold is_byte in Hb1; cbn; lia).
  change (2 ^ Z.of_nat (8 * 1)) with 256. lia.
Qed.

Lemma take_buffer (buf : list Z) k : (k <= length buf)%nat ->
  take k buf = (fun j => buf !!! j) <$> seq 0 k.
Proof.
  intros Hk. apply list_eq. intros j. rewrite list_lookup_fmap. destruct (decide (j < k)%nat).
  - rewrite lookup_take_lt, lookup_seq_lt by done. cbn. apply list_lookup_lookup_total_lt. lia.
  - rewrite lookup_take_ge, lookup_seq_ge by lia. done.
Qed.

(** The value of [n] bits read inside the first [k] octets. *)
Lemma extract_spec pd (k : nat) (n : Z) accum :
  pd_ok pd -> 0 <= n -> nboff pd + n <= nbits pd -> nboff pd + n <= 8 * Z.of_nat k ->
  (k <= length (buffer pd))%nat ->
  accum = fold_left (fun a b => a * 256 + b) (take k (buffer pd)) 0 ->
  Z.land (Z.shiftr accum (8 * Z.of_nat k - (nboff pd + n))) (Z.ones n) =
  bits_val (take (Z.to_nat n) (pd_bits pd)).
Proof.
  intros [Hb Ho Hr] Hn Hle Hk Hlen ->. rewrite <- octets_val by done.
  set (L := take (8 * k) (bitlist (buffer pd))).
  assert (HL : length L = (8 * k)%nat) by (unfold L; rewrite length_take, length_bitlist; lia).
  pose proof (bits_val_extract L (Z.to_nat (nboff pd + n)) (Z.to_nat n) ltac:(lia) ltac:(lia)) as E.
  rewrite HL, Z2Nat.id in E by lia.
  replace (Z.of_nat (8 * k - Z.to_nat (nboff pd + n))) with (8 * Z.of_nat k - (nboff pd + n)) in E by lia.
  rewrite E. f_equal. unfold pd_bits, L.
  replace (Z.to_nat (nboff pd + n) - Z.to_nat n)%nat with (Z.to_nat (nboff pd)) by lia.
  rewrite skipn_firstn_comm, !take_take. f_equal. lia.
Qed.

Lemma fold_octets (buf : list Z) k : (k <= length buf)%nat ->
  fold_left (fun a b => a * 256 + b) (take k buf) 0 =
  fold_left (fun a j => a * 256 + buf !!! j) (seq 0 k) 0.
Proof.
  intros Hk. rewrite take_buffer by done. generalize (seq 0 k) 0. intros l.
  induction l as [|j l IH]; intros a; [done|]. cbn [fmap list_fmap fold_left]. apply IH.
Qed.

(** The stream after [n] bits of a normalised stream. *)
Definition pd_advance (pd : asn_per_data_t) (n : Z) : asn_per_data_t :=
  {| buffer := buffer pd; nboff := nboff pd + n; nbits := nbits pd; moved := moved pd + n |}.

Lemma pd_advance_at pd n : pd_ok pd -> 0 <= n -> nboff pd + n <= nbits pd ->
  pd_at (drop (Z.to_nat n) (pd_bits pd)) (pd_advance pd n).
Proof.
  intros [Hb Ho Hr] Hn Hle. split; [by split; cbn; [|lia|]|].
  unfold pd_bits, pd_advance. cbn [nbits nboff buffer].
  rewrite skipn_firstn_comm, drop_drop. f_equal; [lia|f_equal; lia].
Qed.

Lemma extract_bits_spec pd n :
  pd_ok pd -> 0 <= nboff pd < 8 -> 0 <= n -> nboff pd + n <= nbits pd -> nboff pd + n <= 31 ->
  exists accum, extract_bits (buffer pd) n (nboff pd + n) = Some accum /\
    Z.land accum (Z.ones n) = bits_val (take (Z.to_nat n) (pd_bits pd)).
Proof.
  intros Hok Ho Hn Hle H31. pose proof Hok as [Hb _ Hr]. unfold extract_bits.
  assert (Hrd : forall j, 8 * Z.of_nat j < nbits pd -> rd (buffer pd) (Z.of_nat j) = Some (buffer pd !!! j)).
  { intros j Hj. rewrite rd_nat. apply list_lookup_lookup_total_lt. lia. }
  pose proof (Hrd 0%nat) as R0. pose proof (Hrd 1%nat) as R1. pose proof (Hrd 2%nat) as R2. pose proof (Hrd 3%nat) as R3.
  change (Z.of_nat 0) with 0 in R0. change (Z.of_nat 1) with 1 in R1.
  change (Z.of_nat 2) with 2 in R2. change (Z.of_nat 3) with 3 in R3. clear Hrd.
  assert (Hval : forall (k : nat) accum, nboff pd + n <= 8 * Z.of_nat k -> 8 * Z.of_nat k <= 8 * Z.of_nat (length (buffer pd)) ->
    accum = fold_left (fun a j => a * 256 + buffer pd !!! j) (seq 0 k) 0 ->
    Z.land (Z.shiftr accum (8 * Z.of_nat k - (nboff pd + n))) (Z.ones n) = bits_val (take (Z.to_nat n) (pd_bits pd))).
  { intros k accum H1 H2 H3. apply extract_spec; try done; [lia|]. rewrite fold_octets by lia. done. }
  destruct (Z.leb_spec (nboff pd + n) 8).
  { destruct (Z.eqb_spec n 0) as [->|].
    - exists 0. split; [done|]. by rewrite Z.land_0_l, take_0.
    - rewrite R0 by lia. eexists. split; [done|]. apply (Hval 1%nat); [lia|lia|]. cbn [seq fold_left]. lia. }
  destruct (Z.leb_spec (nboff pd + n) 16).
  { rewrite R0, R1 by lia. eexists. split; [done|]. apply (Hval 2%nat); [lia|lia|].
    cbn [seq fold_left]. rewrite Z.shiftl_mul_pow2 by lia. lia. }
  destruct (Z.leb_spec (nboff pd + n) 24).
  { rewrite R0, R1, R2 by lia. eexists. split; [done|]. apply (Hval 3%nat); [lia|lia|].
    cbn [seq fold_left]. rewrite !Z.shiftl_mul_pow2 by lia. lia. }
  rewrite R0, R1, R2, R3 by lia. eexists. split; [done|].
  set (C := Z.shiftl _ 24 + _ + _ + _).
  rewrite <- (Hval 4%nat C); [|lia|lia|unfold C; cbn [seq fold_left]; rewrite !Z.shiftl_mul_pow2 by lia; lia].
  apply Z.bits_inj'. intros i Hi. rewrite !Z.land_spec, Z.testbit_ones_nonneg by lia.
  destruct (Z.ltb_spec i n); [|by rewrite !andb_false_r]. f_equal.
  rewrite testbit_uwrap, (proj2 (Z.ltb_lt i 32)), andb_true_l, !Z.shiftr_spec by lia.
  apply testbit_swrap_low. lia.
Qed.

(** Reading bits that stay within 31 bits of the octet they start in. *)
Lemma get_few_bits_short fuel pd n :
  pd_ok pd -> 0 <= n -> nboff (pd_normalize pd) + n <= 31 -> n <= nbits pd - nboff pd ->
  get_few_bits fuel pd n =
  Some (bits_val (take (Z.to_nat n) (pd_bits pd)), pd_advance (pd_normalize pd) n).
Proof.
  intros Hok Hn H31 Hav. destruct (pd_normalize_ok pd Hok) as (Hok1 & Hbits & Ho8 & Hdiff).
  destruct (extract_bits_spec (pd_normalize pd) n) as (accum & Hex & Hval); [done|done|done|lia|done|].
  assert (forall A B C : option (Z * asn_per_data_t),
    (if n <? 0 then A else if nbits pd - nboff pd <? n then B else C) = C) as Hif.
  { intros. rewrite (proj2 (Z.ltb_ge n 0)), (proj2 (Z.ltb_ge _ n)) by lia. done. }
  destruct fuel; cbn [get_few_bits]; rewrite Hif; cbn [nboff buffer];
    rewrite (proj2 (Z.leb_le _ 31)), Hex by done; cbn [mbind option_bind];
    rewrite mask_few, Hval, Hbits by lia; done.
Qed.

Lemma undo_advance pd n : 0 <= nboff pd -> per_get_undo (pd_advance pd n) n = pd.
Proof.
  intros H. unfold per_get_undo, pd_advance. cbn [nboff moved buffer nbits].
  rewrite (proj2 (Z.ltb_ge _ n)), !Z.add_simpl_r by lia. by destruct pd.
Qed.

Lemma get_few_bits_long f pd n :
  0 <= n <= 31 -> n <= nbits pd - nboff pd -> 31 < nboff (pd_normalize pd) + n ->
  get_few_bits (S f) pd n =
  ('(hi, tpd1) ← get_few_bits f (per_get_undo (pd_advance (pd_normalize pd) n) n) (n - 24);
   '(lo, _) ← get_few_bits f tpd1 24;
   Some (i32 (Z.land (Z.lor (u32 (hi * 16777216)) (u32 lo)) (u32 (Z.shiftl 1 n - 1))),
         pd_advance (pd_normalize pd) n)).
Proof.
  intros Hn Hav H. cbn [get_few_bits].
  rewrite (proj2 (Z.ltb_ge n 0)), (proj2 (Z.ltb_ge _ n)) by lia. cbn [nboff].
  rewrite (proj2 (Z.leb_gt _ 31)), (proj2 (Z.leb_le n 31)) by lia. done.
Qed.

(** Up to 31 bits from a stream that has them. *)
Lemma per_get_few_bits_at L pd n bs :
  pd_at (bs ++ L) pd -> Z.of_nat (length bs) = n -> n <= 31 ->
  exists pd', per_get_few_bits pd n = Some (bits_val bs, pd') /\ pd_at L pd' /\ moved pd' = moved pd + n.
Proof.
  intros [Hok Hbits] Hl Hn. pose proof (length_pd_bits pd Hok) as HL. rewrite Hbits, length_app in HL.
  destruct (pd_normalize_ok pd Hok) as (Hok1 & Hbits1 & Ho8 & Hdiff).
  assert (Hav : n <= nbits pd - nboff pd) by (pose proof (pd_off pd Hok); lia).
  assert (Hmv : moved (pd_normalize pd) = moved pd) by (unfold pd_normalize; by destruct (8 <=? nboff pd)).
  exists (pd_advance (pd_normalize pd) n). split_and!.
  - destruct (decide (nboff (pd_normalize pd) + n <= 31)).
    { unfold per_get_few_bits. rewrite get_few_bits_short by (done || lia). do 3 f_equal.
      rewrite Hbits. replace (Z.to_nat n) with (length bs) by lia. apply take_app_length. }
    unfold per_get_few_bits. rewrite get_few_bits_long by lia.
    set (q := pd_normalize pd) in *. rewrite undo_advance by lia.
    assert (Hnq : pd_normalize q = q).
    { unfold pd_normalize at 1. by rewrite (proj2 (Z.leb_gt 8 (nboff q))) by lia. }
    rewrite get_few_bits_short by (rewrite ?Hnq; done || lia). cbn [mbind option_bind]. rewrite Hnq.
    destruct (pd_advance_at q (n - 24) Hok1) as [Hok2 Hbits2]; [lia|lia|].
    destruct (pd_normalize_ok _ Hok2) as (_ & _ & Ho2 & _).
    rewrite get_few_bits_short by (done || (cbn; lia)). cbn [mbind option_bind].
    rewrite Hbits2, Hbits1, Hbits. rewrite mask_few by lia. do 2 f_equal.
    assert (Hsplit : bs = take (Z.to_nat (n - 24)) bs ++ drop (Z.to_nat (n - 24)) bs) by by rewrite take_drop.
    rewrite take_app_le, drop_app_le by lia.
    rewrite take_app_le by (rewrite length_drop; lia). change (Z.to_nat 24) with 24%nat.
    rewrite (take_ge (drop _ bs)) by (rewrite length_drop; lia).
    rewrite Hsplit at 3. rewrite bits_val_app, length_drop.
    replace (2 ^ Z.of_nat (length bs - Z.to_nat (n - 24))) with 16777216 by (replace (length bs - Z.to_nat (n - 24))%nat with 24%nat by lia; done).
    pose proof (bits_val_range (take (Z.to_nat (n - 24)) bs)) as R1. rewrite length_take in R1.
    pose proof (bits_val_range (drop (Z.to_nat (n - 24)) bs)) as R2. rewrite length_drop in R2.
    replace (length bs - Z.to_nat (n - 24))%nat with 24%nat in R2 by lia.
    replace (Z.to_nat (n - 24) `min` length bs)%nat with (Z.to_nat (n - 24)) in R1 by lia.
    set (hi := bits_val (take _ bs)) in *. set (lo := bits_val (drop _ bs)) in *.
    assert (2 ^ Z.of_nat (Z.to_nat (n - 24)) <= 2 ^ 7) by (apply Z.pow_le_mono_r; lia).
    assert (2 ^ Z.of_nat (Z.to_nat (n - 24)) * 2 ^ 24 = 2 ^ n).
    { rewrite <- Z.pow_add_r by lia. f_equal. lia. }
    rewrite !uwrap_small by lia. change 16777216 with (2 ^ 24).
    rewrite lor_shifted, Z.land_ones, Z.mod_small by (cbn in *; nia). done.
  - destruct (pd_advance_at (pd_normalize pd) n Hok1) as [Hok2 Hb2]; [lia|lia|].
    split; [done|]. rewrite Hb2, Hbits1, Hbits. replace (Z.to_nat n) with (length bs) by lia. apply drop_app_length.
  - cbn. lia.
Qed.

(** A stream with fewer bits: -1, and nothing is consumed. *)
Lemma per_get_few_bits_short_stream L pd n :
  pd_at L pd -> Z.of_nat (length L) < n -> per_get_few_bits pd n = Some (-1, pd).
Proof.
  intros [Hok Hbits] Hn. pose proof (length_pd_bits pd Hok) as HL. rewrite Hbits in HL.
  pose proof (pd_off pd Hok). unfold per_get_few_bits. cbn [get_few_bits].
  rewrite (proj2 (Z.ltb_ge n 0)), (proj2 (Z.ltb_lt _ n)) by lia. done.
Qed.

(** *** Many bits *)

Lemma byte_bits_u8 x : byte_bits (u8 x) = val_bits 8 x.
Proof. apply (val_bits_mod 8). Qed.

Lemma bitlist_octets1 x : bitlist [u8 x] = val_bits 8 x.
Proof. rewrite bitlist_cons, byte_bits_u8. apply app_nil_r. Qed.

Lemma bitlist_octets2 x : bitlist [u8 (Z.shiftr x 8); u8 x] = val_bits 16 x.
Proof. rewrite bitlist_cons, byte_bits_u8, bitlist_octets1. symmetry. apply (val_bits_app 8 8). Qed.

Lemma bitlist_octets3 x : bitlist [u8 (Z.shiftr x 16); u8 (Z.shiftr x 8); u8 x] = val_bits 24 x.
Proof. rewrite bitlist_cons, byte_bits_u8, bitlist_octets2. symmetry. apply (val_bits_app 8 16). Qed.

(** Number of bits that fill the last octet. *)
Definition pad_of (n : nat) : nat := ((8 - n mod 8) mod 8)%nat.

Lemma val_bits_shift_pad bs pad :
  val_bits (length bs + pad) (Z.shiftl (bits_val bs) (Z.of_nat pad)) = bs ++ replicate pad false.
Proof.
  rewrite val_bits_app, Z.shiftr_shiftl_l, Z.sub_diag, Z.shiftl_0_r, val_bits_bits_val by lia. f_equal.
  apply list_eq. intros k. rewrite lookup_val_bits. case_decide.
  - rewrite Z.shiftl_spec_low, lookup_replicate_2 by lia. done.
  - symmetry. apply lookup_replicate_None. lia.
Qed.

Lemma get_last_bits_spec bs :
  (1 <= length bs <= 23)%nat ->
  bitlist (get_last_bits (bits_val bs) (Z.of_nat (length bs))) = bs ++ replicate (pad_of (length bs)) false /\
  bytes (get_last_bits (bits_val bs) (Z.of_nat (length bs))).
Proof.
  intros Hl. unfold get_last_bits. set (n := length bs) in *.
  assert (Hland : Z.land (Z.of_nat n) 7 = Z.of_nat (n mod 8)).
  { change 7 with (Z.ones 3). rewrite Z.land_ones, Nat2Z.inj_mod by lia. done. }
  rewrite Hland. pose proof (Nat.div_mod_eq n 8). pose proof (Nat.mod_upper_bound n 8).
  pose proof (val_bits_shift_pad bs (pad_of n)) as Hv. fold n in Hv.
  assert (Hpad : pad_of n = if decide (n mod 8 = 0)%nat then 0%nat else (8 - n mod 8)%nat).
  { unfold pad_of. case_decide as E; [by rewrite E|]. apply Nat.mod_small. lia. }
  assert (Hfin : forall V m, m = (n + pad_of n)%nat -> V = Z.shiftl (bits_val bs) (Z.of_nat (pad_of n)) ->
    let r := (if 16 <? Z.of_nat m then [u8 (Z.shiftr V 16)] else []) ++
             (if 8 <? Z.of_nat m then [u8 (Z.shiftr V 8)] else []) ++ [u8 V] in
    bitlist r = bs ++ replicate (pad_of n) false /\ bytes r).
  { intros V m Hm HV. cbv zeta. rewrite <- Hv, <- HV, <- Hm.
    assert (m = 8 \/ m = 16 \/ m = 24)%nat as Hc.
    { rewrite Hpad in Hm. case_decide; lia. }
    destruct Hc as [-> | [-> | ->]]; cbn -[bitlist val_bits uwrap Z.shiftr].
    - split; [apply bitlist_octets1|]. repeat constructor; apply u8_byte.
    - split; [apply bitlist_octets2|]. repeat constructor; apply u8_byte.
    - split; [apply bitlist_octets3|]. repeat constructor; apply u8_byte. }
  destruct (Z.eqb_spec (Z.of_nat (n mod 8)) 0) as [E|E].
  - apply (Hfin (bits_val bs) n); rewrite Hpad, decide_True by lia; [lia|by rewrite Z.shiftl_0_r].
  - replace (Z.of_nat n + (8 - Z.of_nat (n mod 8))) with (Z.of_nat (n + pad_of n)) by (rewrite Hpad, decide_False by lia; lia).
    rewrite (proj2 (Z.ltb_ge 24 _)) by (rewrite Hpad, decide_False by lia; lia).
    apply Hfin; [done|]. f_equal. rewrite Hpad, decide_False by lia. lia.
Qed.

Lemma pad_of_24 n : (24 <= n)%nat -> pad_of (n - 24) = pad_of n.
Proof.
  intros H. unfold pad_of. do 2 f_equal. replace n with (n - 24 + 3 * 8)%nat at 2 by lia.
  by rewrite Nat.Div0.mod_add.
Qed.

(** [n] bits, left aligned, when the stream has them. *)
Lemma get_many_loop_at fuel L pd bs :
  pd_at (bs ++ L) pd -> (length bs < fuel)%nat ->
  exists dst pd', get_many_loop fuel pd (Z.of_nat (length bs)) = Some (0, dst, pd') /\
    pd_at L pd' /\ bytes dst /\ bitlist dst = bs ++ replicate (pad_of (length bs)) false.
Proof.
  revert pd bs. induction fuel as [|fuel IH]; intros pd bs Hpd Hf; [lia|]. cbn [get_many_loop].
  destruct (Z.eqb_spec (Z.of_nat (length bs)) 0) as [E|E].
  { destruct bs; [|done]. exists [], pd. by split_and!. }
  destruct (Z.leb_spec 24 (Z.of_nat (length bs))).
  - assert (Hsp : bs = take 24 bs ++ drop 24 bs) by by rewrite take_drop.
    rewrite Hsp, <- app_assoc in Hpd.
    destruct (per_get_few_bits_at _ _ 24 _ Hpd) as (pd1 & -> & Hpd1 & _); [rewrite length_take; lia|lia|].
    cbn [mbind option_bind]. pose proof (bits_val_range (take 24 bs)) as Hr.
    rewrite (proj2 (Z.ltb_ge _ 0)) by lia.
    destruct (IH pd1 (drop 24 bs) Hpd1) as (dst & pd2 & Hgo & Hpd2 & Hb & Hbits); [rewrite length_drop; lia|].
    rewrite length_drop in Hgo. replace (Z.of_nat (length bs) - 24) with (Z.of_nat (length bs - 24)) by lia.
    rewrite Hgo. cbn [mbind option_bind]. eexists _, pd2. split; [done|]. split; [done|]. split.
    + apply Forall_app; split; [|done]. repeat constructor; apply u8_byte.
    + rewrite bitlist_app, bitlist_octets3, Hbits, length_drop, pad_of_24 by lia.
      rewrite app_assoc. f_equal. rewrite Hsp at 3. f_equal.
      replace 24%nat with (length (take 24 bs)) at 1 by (rewrite length_take; lia). apply val_bits_bits_val.
  - destruct (per_get_few_bits_at _ _ (Z.of_nat (length bs)) _ Hpd) as (pd1 & -> & Hpd1 & _); [done|lia|].
    cbn [mbind option_bind]. pose proof (bits_val_range bs) as Hr.
    rewrite (proj2 (Z.ltb_ge _ 0)) by lia.
    destruct (get_last_bits_spec bs) as [H1 H2]; [lia|]. eexists _, pd1. by split_and!.
Qed.

Lemma per_get_many_bits_left L pd bs :
  pd_at (bs ++ L) pd ->
  exists dst pd', per_get_many_bits pd false (Z.of_nat (length bs)) = Some (0, dst, pd') /\
    pd_at L pd' /\ bytes dst /\ bitlist dst = bs ++ replicate (pad_of (length bs)) false.
Proof. intros Hpd. apply get_many_loop_at; [done|]. lia. Qed.

Lemma land7_mod n : Z.land (Z.of_nat n) 7 = Z.of_nat (n mod 8).
Proof. change 7 with (Z.ones 3). rewrite Z.land_ones, Nat2Z.inj_mod by lia. done. Qed.

Lemma per_get_many_bits_right L pd bs :
  pd_at (bs ++ L) pd ->
  exists dst pd', per_get_many_bits pd true (Z.of_nat (length bs)) = Some (0, dst, pd') /\
    pd_at L pd' /\ bytes dst /\ bitlist dst = replicate (pad_of (length bs)) false ++ bs.
Proof.
  intros Hpd. unfold per_get_many_bits. rewrite land7_mod. cbn [andb].
  pose proof (Nat.div_mod_eq (length bs) 8). pose proof (Nat.mod_upper_bound (length bs) 8).
  destruct (Z.eqb_spec (Z.of_nat (length bs mod 8)) 0) as [E|E]; cbn [negb].
  - destruct (get_many_loop_at (S (Z.to_nat (Z.of_nat (length bs)))) L pd bs Hpd)
      as (dst & pd' & Hr & Hpd' & Hb & Hbits); [lia|].
    exists dst, pd'. split_and!; [done..|]. rewrite Hbits. unfold pad_of.
    replace (length bs mod 8)%nat with 0%nat by lia. apply app_nil_r.
  - set (r := (length bs mod 8)%nat) in *.
    assert (Hsp : bs = take r bs ++ drop r bs) by by rewrite take_drop.
    rewrite Hsp, <- app_assoc in Hpd.
    destruct (per_get_few_bits_at _ _ (Z.of_nat r) _ Hpd) as (pd1 & -> & Hpd1 & _); [rewrite length_take; lia|lia|].
    cbn [mbind option_bind]. pose proof (bits_val_range (take r bs)) as Hr.
    rewrite (proj2 (Z.ltb_ge _ 0)) by lia.
    assert (Z.land (Z.of_nat (length bs)) (Z.lnot 7) = Z.of_nat (length (drop r bs))) as ->.
    { rewrite length_drop. change 7 with (Z.ones 3).
      rewrite <- Z.ldiff_land, Z.ldiff_ones_r, Z.shiftl_mul_pow2, Z.shiftr_div_pow2 by lia.
      change (2 ^ 3) with (Z.of_nat 8). rewrite <- Nat2Z.inj_div. lia. }
    destruct (get_many_loop_at (S (Z.to_nat (Z.of_nat (length bs)))) L pd1 (drop r bs) Hpd1)
      as (dst & pd' & Hr2 & Hpd' & Hb & Hbits); [rewrite length_drop; lia|].
    rewrite Hr2. cbn [mbind option_bind]. eexists _, pd'. split; [done|]. split; [done|]. split.
    + constructor; [apply u8_byte|done].
    + rewrite bitlist_cons, byte_bits_u8, Hbits, length_drop.
      assert (pad_of (length bs - r) = 0%nat) as ->.
      { unfold pad_of. replace (length bs - r)%nat with (length bs / 8 * 8)%nat by lia.
        by rewrite Nat.Div0.mod_mul. }
      rewrite app_nil_r. rewrite Hsp at 4. rewrite app_assoc. f_equal.
      assert (pad_of (length bs) = (8 - r)%nat) as -> by (unfold pad_of; fold r; apply Nat.mod_small; lia).
      replace 8%nat with ((8 - r) + r)%nat at 1 by lia. rewrite val_bits_app.
      assert (length (take r bs) = r) as Hlr by (rewrite length_take; lia).
      rewrite <- Hlr at 4. rewrite val_bits_bits_val. f_equal.
      rewrite Z.shiftr_div_pow2, Z.div_small by (rewrite Hlr in Hr; lia).
      rewrite <- (val_bits_bits_val (replicate (8 - r) false)), length_replicate. f_equal.
      clear. induction (8 - r)%nat as [|k IH]; [done|]. cbn [replicate]. rewrite bits_val_cons, <- IH. cbn. lia.
Qed.

(** *** Lengths and small numbers *)

(** The general length determinant: the bits, and the units they announce. *)
Definition length_code (n : Z) : list bool * Z :=
  if n <=? 127 then (val_bits 8 n, n)
  else if n <? 16384 then (val_bits 16 (Z.lor n 0x8000), n)
  else let m := Z.min (n / 16384) 4 in (val_bits 8 (Z.lor 0xC0 m), 16384 * m).

Lemma bits_val_small n v : 0 <= v < 2 ^ Z.of_nat n -> bits_val (val_bits n v) = v.
Proof. intros H. rewrite bits_val_val_bits. by apply Z.mod_small. Qed.

Lemma short_form n : 0 <= n <= 127 -> Z.land n 0x80 = 0 /\ Z.land n 0x7F = n.
Proof.
  intros H. apply (Z_small_cases (fun n => Z.land n 0x80 = 0 /\ Z.land n 0x7F = n) 128); [|lia].
  apply (bool_decide_unpack _). vm_compute. exact I.
Qed.

Lemma long_form h : 0 <= h < 64 ->
  Z.land (128 + h) 0x80 = 128 /\ Z.land (128 + h) 0x40 = 0 /\ Z.land (128 + h) 0x3f = h.
Proof.
  intros H. apply (Z_small_cases (fun h => Z.land (128 + h) 0x80 = 128 /\
    Z.land (128 + h) 0x40 = 0 /\ Z.land (128 + h) 0x3f = h) 64); [|lia].
  apply (bool_decide_unpack _). vm_compute. exact I.
Qed.

(** The two-octet form as its octets. *)
Lemma long_form_octets n : 0 <= n < 16384 ->
  val_bits 16 (Z.lor n 0x8000) = val_bits 8 (128 + n / 256) ++ val_bits 8 (n mod 256).
Proof.
  intros Hn. assert (Z.lor n 0x8000 = 32768 + n) as ->.
  { rewrite Z.lor_comm. apply (lor_shifted 1 n 15); lia. }
  rewrite (val_bits_app 8 8). rewrite Z.shiftr_div_pow2 by lia. change (2 ^ Z.of_nat 8) with 256.
  replace (32768 + n) with (128 * 256 + n) by lia. rewrite Z.div_add_l by lia. f_equal.
  rewrite <- (val_bits_mod 8 (128 * 256 + n)). change (2 ^ Z.of_nat 8) with 256.
  by rewrite Z.add_comm, Z.mod_add by lia.
Qed.

Lemma uper_get_length_general L pd n :
  0 <= n -> pd_at (fst (length_code n) ++ L) pd ->
  exists pd', uper_get_length pd (-1) = Some (snd (length_code n), 16384 <=? n, pd') /\ pd_at L pd'.
Proof.
  intros Hn Hpd. unfold uper_get_length. cbn [andb Z.leb Z.compare]. revert Hpd. unfold length_code.
  destruct (Z.leb_spec n 127); [|destruct (Z.ltb_spec n 16384)]; cbn [fst snd]; intros Hpd.
  - rewrite (proj2 (Z.leb_gt 16384 n)) by lia.
    destruct (per_get_few_bits_at _ _ 8 _ Hpd) as (pd1 & -> & Hpd1 & _); [done|lia|].
    cbn [mbind option_bind]. rewrite bits_val_small by lia. exists pd1. split; [|done].
    destruct (short_form n) as [-> ->]; [lia|done].
  - rewrite (proj2 (Z.leb_gt 16384 n)) by lia. rewrite long_form_octets, <- app_assoc in Hpd by lia.
    assert (0 <= n / 256 < 64) by (Z.div_mod_to_equations; lia).
    pose proof (Z.mod_pos_bound n 256). pose proof (Z.div_mod n 256).
    destruct (per_get_few_bits_at _ _ 8 _ Hpd) as (pd1 & -> & Hpd1 & _); [done|lia|].
    cbn [mbind option_bind]. rewrite bits_val_small by lia.
    destruct (long_form (n / 256)) as (-> & -> & ->); [lia|]. cbn [Z.eqb].
    destruct (per_get_few_bits_at _ _ 8 _ Hpd1) as (pd2 & -> & Hpd2 & _); [done|lia|].
    cbn [mbind option_bind]. rewrite bits_val_small by lia. exists pd2. split; [|done].
    rewrite Z.shiftl_mul_pow2, lor_shifted by lia. do 3 f_equal. lia.
  - rewrite (proj2 (Z.leb_le 16384 n)) by lia.
    destruct (per_get_few_bits_at _ _ 8 _ Hpd) as (pd1 & -> & Hpd1 & _); [done|lia|].
    cbn [mbind option_bind]. exists pd1. split; [|done].
    assert (1 <= n / 16384) by (Z.div_mod_to_equations; lia).
    assert (Z.min (n / 16384) 4 = 1 \/ Z.min (n / 16384) 4 = 2 \/ Z.min (n / 16384) 4 = 3 \/ Z.min (n / 16384) 4 = 4)
      as [-> | [-> | [-> | ->]]] by lia; reflexivity.
Qed.

Lemma uper_get_length_fixed L pd bs :
  pd_at (bs ++ L) pd -> (length bs <= 16)%nat ->
  exists pd', uper_get_length pd (Z.of_nat (length bs)) = Some (bits_val bs, false, pd') /\ pd_at L pd'.
Proof.
  intros Hpd Hl. unfold uper_get_length.
  rewrite (proj2 (Z.leb_le 0 _)), (proj2 (Z.leb_le _ 16)) by lia. cbn [andb].
  destruct (per_get_few_bits_at _ _ _ _ Hpd eq_refl) as (pd1 & -> & Hpd1 & _); [lia|]. by exists pd1.
Qed.

(** Normally small length: up to 64 in seven bits, else a flag and a general length. *)
Definition nslength_code (n : Z) : list bool :=
  if n <=? 64 then val_bits 7 (n - 1) else true :: fst (length_code n).

Lemma uper_get_nslength_at L pd n :
  1 <= n < 16384 -> pd_at (nslength_code n ++ L) pd ->
  exists pd', uper_get_nslength pd = Some (n, pd') /\ pd_at L pd'.
Proof.
  intros Hn. unfold nslength_code, uper_get_nslength. destruct (Z.leb_spec n 64); intros Hpd.
  - change (val_bits 7 (n - 1)) with (val_bits (1 + 6) (n - 1)) in Hpd. rewrite val_bits_app, <- app_assoc in Hpd.
    destruct (per_get_few_bits_at _ _ 1 _ Hpd) as (pd1 & -> & Hpd1 & _); [done|lia|].
    cbn [mbind option_bind]. rewrite bits_val_val_bits, Z.shiftr_div_pow2 by lia.
    change (2 ^ Z.of_nat 6) with 64. rewrite Z.div_small by lia. cbn [Z.modulo Z.eqb].
    destruct (per_get_few_bits_at _ _ 6 _ Hpd1) as (pd2 & -> & Hpd2 & _); [done|lia|].
    cbn [mbind option_bind]. rewrite bits_val_small by lia.
    rewrite (proj2 (Z.leb_gt _ 0)) by lia. exists pd2. split; [|done]. do 2 f_equal. lia.
  - change (true :: fst (length_code n)) with ([true] ++ fst (length_code n)) in Hpd. rewrite <- app_assoc in Hpd.
    destruct (per_get_few_bits_at _ _ 1 _ Hpd) as (pd1 & -> & Hpd1 & _); [done|lia|].
    cbn [mbind option_bind]. change (bits_val [true] =? 0) with false. cbn iota.
    destruct (uper_get_length_general L pd1 n ltac:(lia) Hpd1) as (pd2 & -> & Hpd2).
    cbn [mbind option_bind]. exists pd2. split; [|done].
    rewrite (proj2 (Z.leb_gt 16384 n)) by lia.
    assert (snd (length_code n) = n) as ->.
    { unfold length_code. destruct (n <=? 127); [done|]. by rewrite (proj2 (Z.ltb_lt n 16384)) by lia. }
    by rewrite (proj2 (Z.leb_le 0 n)) by lia.
Qed.

(** Normally small number: up to 63 in seven bits, else a flag, a count of octets and the octets. *)
Definition nsnnwn_code (n : Z) : list bool :=
  if n <=? 63 then val_bits 7 n
  else if n <? 256 then true :: val_bits 8 1 ++ val_bits 8 n
  else true :: val_bits 8 2 ++ val_bits 16 n.

Lemma uper_get_nsnnwn_at L pd n :
  0 <= n < 65536 -> pd_at (nsnnwn_code n ++ L) pd ->
  exists pd', uper_get_nsnnwn pd = Some (n, pd') /\ pd_at L pd'.
Proof.
  intros Hn. unfold nsnnwn_code, uper_get_nsnnwn. destruct (Z.leb_spec n 63); intros Hpd.
  - destruct (per_get_few_bits_at _ _ 7 _ Hpd) as (pd1 & -> & Hpd1 & _); [done|lia|].
    cbn [mbind option_bind]. rewrite bits_val_small by lia. exists pd1. split; [|done].
    assert (Z.land n 64 = 0) as ->; [|done].
    apply (Z_small_cases (fun n => Z.land n 64 = 0) 64); [|lia].
    apply (bool_decide_unpack _). vm_compute. exact I.
  - assert (exists k : nat, (k = 1 \/ k = 2)%nat /\ n < 2 ^ Z.of_nat (8 * k) /\
      pd_at ((true :: val_bits 6 0) ++ val_bits 2 (Z.of_nat k) ++ val_bits (8 * k) n ++ L) pd) as (k & Hk & Hnk & Hpd').
    { destruct (Z.ltb_spec n 256); [exists 1%nat|exists 2%nat]; (split; [lia|]; split; [simpl; lia|exact Hpd]). }
    clear Hpd. destruct (per_get_few_bits_at _ _ 7 _ Hpd') as (pd1 & -> & Hpd1 & _); [done|lia|].
    cbn [mbind option_bind]. change (bits_val (true :: val_bits 6 0)) with 64. cbn [Z.land Z.eqb negb].
    destruct (per_get_few_bits_at _ _ 2 _ Hpd1) as (pd2 & -> & Hpd2 & _); [done|lia|].
    cbn [mbind option_bind]. rewrite bits_val_small by (simpl; lia).
    destruct (per_get_few_bits_at _ _ (8 * Z.of_nat k) _ Hpd2) as (pd3 & Hg & Hpd3 & _);
      [rewrite length_val_bits; lia|lia|].
    rewrite bits_val_small in Hg by lia. exists pd3. split; [|done].
    destruct Hk as [-> | ->]; exact Hg.
Qed.

Lemma uper_get_constrained_at L pd n v :
  0 <= n <= 64 -> 0 <= v < 2 ^ n -> pd_at (val_bits (Z.to_nat n) v ++ L) pd ->
  exists pd', uper_get_constrained_whole_number pd n = Some (Some v, pd') /\ pd_at L pd'.
Proof.
  intros Hn. unfold uper_get_constrained_whole_number.
  assert (Hgen : forall fuel n v pd, 0 <= n -> n <= 31 * (Z.of_nat fuel + 1) -> n <= 64 -> 0 <= v < 2 ^ n ->
    pd_at (val_bits (Z.to_nat n) v ++ L) pd ->
    exists pd', get_constrained fuel pd n = Some (Some v, pd') /\ pd_at L pd').
  { clear. induction fuel as [|fuel IH]; intros n v pd H0 H1 H64 Hv Hpd; cbn [get_constrained].
    - rewrite (proj2 (Z.leb_le n 31)) by lia.
      destruct (per_get_few_bits_at _ _ n _ Hpd) as (pd1 & -> & Hpd1 & _); [rewrite length_val_bits; lia|lia|].
      cbn [mbind option_bind]. rewrite bits_val_small by (rewrite Z2Nat.id; lia).
      rewrite (proj2 (Z.ltb_ge v 0)) by lia. by exists pd1.
    - destruct (Z.leb_spec n 31).
      + destruct (per_get_few_bits_at _ _ n _ Hpd) as (pd1 & -> & Hpd1 & _); [rewrite length_val_bits; lia|lia|].
        cbn [mbind option_bind]. rewrite bits_val_small by (rewrite Z2Nat.id; lia).
        rewrite (proj2 (Z.ltb_ge v 0)) by lia. by exists pd1.
      + rewrite (proj2 (Z.ltb_ge 64 n)) by lia.
        replace (Z.to_nat n) with (31 + Z.to_nat (n - 31))%nat in Hpd by lia.
        rewrite val_bits_app, <- app_assoc, Z2Nat.id in Hpd by lia.
        assert (Hp : 2 ^ n = 2 ^ 31 * 2 ^ (n - 31)) by (rewrite <- Z.pow_add_r by lia; f_equal; lia).
        assert (0 <= Z.shiftr v (n - 31) < 2 ^ 31).
        { rewrite Z.shiftr_div_pow2 by lia. split; [apply Z.div_pos; lia|apply Z.div_lt_upper_bound; lia]. }
        destruct (per_get_few_bits_at _ _ 31 _ Hpd) as (pd1 & -> & Hpd1 & _); [done|lia|].
        cbn [mbind option_bind]. rewrite bits_val_small by done. rewrite (proj2 (Z.ltb_ge _ 0)) by lia.
        assert (0 <= v mod 2 ^ (n - 31) < 2 ^ (n - 31)) by (apply Z.mod_pos_bound; lia).
        destruct (IH (n - 31) (v mod 2 ^ (n - 31)) pd1) as (pd2 & -> & Hpd2); [lia..| |].
        { rewrite <- (Z2Nat.id (n - 31)) at 2 by lia. by rewrite val_bits_mod. }
        cbn [mbind option_bind]. exists pd2. split; [|done]. do 3 f_equal.
        assert (2 ^ n <= 2 ^ 64) by (apply Z.pow_le_mono_r; lia).
        rewrite Z.shiftl_mul_pow2, uwrap_small by nia.
        rewrite lor_shifted, Z.shiftr_div_pow2 by lia.
        pose proof (Z.div_mod v (2 ^ (n - 31))). lia. }
  apply Hgen; lia.
Qed.

(** *** Position

    Whatever it returns, a reader moves the stream forward inside its buffer, and
    [moved] counts the bits it has passed. *)
Definition pd_step (pd pd' : asn_per_data_t) : Prop :=
  pd_ok pd -> pd_ok pd' /\ exists k : nat,
    (k <= length (buffer pd))%nat /\ buffer pd' = drop k (buffer pd) /\
    nbits pd' = nbits pd - 8 * Z.of_nat k /\
    moved pd' - moved pd = 8 * Z.of_nat k + nboff pd' - nboff pd /\ moved pd <= moved pd'.

#[global] Instance pd_step_preorder : PreOrder pd_step.
Proof.
  split.
  - intros pd Hok. split; [done|]. exists 0%nat. rewrite drop_0. split_and!; [lia|done|lia|lia|lia].
  - intros p1 p2 p3 H12 H23 Hok. destruct (H12 Hok) as (Hok2 & k & Hk & Hb & Hn & Hm).
    destruct (H23 Hok2) as (Hok3 & k' & Hk' & Hb' & Hn' & Hm'). split; [done|]. exists (k + k')%nat.
    rewrite Hb, length_drop in Hk'. rewrite Hb', Hb, drop_drop. split_and!; [lia|done|lia|lia|lia].
Qed.

Lemma pd_normalize_step pd : pd_step pd (pd_normalize pd).
Proof.
  intros Hok. split; [by apply pd_normalize_ok|]. pose proof Hok as [Hb Ho Hr]. unfold pd_normalize.
  destruct (Z.leb_spec 8 (nboff pd)).
  2: { exists 0%nat. rewrite drop_0. split_and!; [lia|done|lia|lia|lia]. }
  assert (Z.land (nboff pd) 7 = nboff pd mod 8) as E1 by (apply (Z.land_ones _ 3); lia).
  assert (Z.land (nboff pd) (Z.lnot 7) = 8 * (nboff pd / 8)) as E2.
  { change 7 with (Z.ones 3). rewrite <- Z.ldiff_land, Z.ldiff_ones_r, Z.shiftl_mul_pow2, Z.shiftr_div_pow2 by lia.
    change (2 ^ 3) with 8. lia. }
  assert (Z.shiftr (nboff pd) 3 = nboff pd / 8) as E3 by (apply (Z.shiftr_div_pow2 _ 3); lia).
  pose proof (Z.mod_pos_bound (nboff pd) 8). pose proof (Z.div_mod (nboff pd) 8). pose proof (Z.div_pos (nboff pd) 8).
  rewrite E1, E2, E3. cbn [buffer nbits nboff moved]. exists (Z.to_nat (nboff pd / 8)). split_and!; [lia|done|lia|lia|lia].
Qed.

Lemma pd_advance_step pd n : 0 <= n -> nboff pd + n <= nbits pd -> pd_step pd (pd_advance pd n).
Proof.
  intros Hn Hle Hok. split; [by apply pd_advance_at|]. exists 0%nat. cbn [pd_advance buffer nbits nboff moved].
  rewrite drop_0. split_and!; [lia|done|lia|lia|lia].
Qed.

Lemma get_few_bits_step f pd n v pd' : get_few_bits (S f) pd n = Some (v, pd') -> pd_step pd pd'.
Proof.
  intros E Hok. revert E. cbn [get_few_bits].
  destruct (Z.ltb_spec n 0); [intros [= _ <-]; by apply pd_step_preorder|].
  destruct (Z.ltb_spec (nbits pd - nboff pd) n); [intros [= _ <-]; by apply pd_step_preorder|].
  destruct (pd_normalize_ok pd Hok) as (Hok1 & _ & H8 & Hleft). set (pd1 := pd_normalize pd) in *.
  change {| buffer := buffer pd1; nboff := nboff pd1 + n; nbits := nbits pd1; moved := moved pd1 + n |}
    with (pd_advance pd1 n).
  assert (Ha : pd_step pd (pd_advance pd1 n)).
  { transitivity pd1; [apply pd_normalize_step|]. apply pd_advance_step; lia. }
  destruct (nboff (pd_advance pd1 n) <=? 31).
  { destruct (extract_bits _ _ _); [|done]. intros [= _ <-]. by apply Ha. }
  destruct (n <=? 31).
  - destruct (get_few_bits f _ (n - 24)) as [[hi t1]|]; [|done]. cbn [mbind option_bind].
    destruct (get_few_bits f t1 24) as [[lo t2]|]; [|done]. intros [= _ <-]. by apply Ha.
  - intros [= _ <-]. rewrite undo_advance by lia. by apply pd_normalize_step.
Qed.

Lemma per_get_few_bits_step pd n v pd' : per_get_few_bits pd n = Some (v, pd') -> pd_step pd pd'.
Proof. apply get_few_bits_step. Qed.

(** Case analysis through binds and conditionals, with the steps of the readers. *)
Ltac step_bind :=
  repeat match goal with
  | H : mbind _ ?x = Some _ |- _ =>
      let E := fresh "E" in destruct x as [[]|] eqn:E; [|discriminate H]; cbn [mbind option_bind] in H
  | H : (let '(_, _) := ?x in _) = Some _ |- _ => destruct x; cbn [mbind option_bind] in H
  | H : (if ?b then _ else _) = Some _ |- _ => destruct b
  | H : Some _ = Some _ |- _ => injection H; intros; subst; clear H
  | H : per_get_few_bits _ _ = Some _ |- _ => apply per_get_few_bits_step in H
  end.
Ltac step_chain :=
  first [reflexivity | eassumption
        | match goal with H : pd_step ?a ?b |- pd_step ?a _ => transitivity b; [exact H|clear H; step_chain] end].

Lemma get_many_loop_step fuel : forall pd n r dst pd', get_many_loop fuel pd n = Some (r, dst, pd') -> pd_step pd pd'.
Proof.
  induction fuel as [|fuel IH]; intros pd n r dst pd' H; [done|]. cbn [get_many_loop] in H.
  step_bind; try step_chain. eapply IH in E0. step_chain.
Qed.

Lemma per_get_many_bits_step pd alright n r dst pd' :
  per_get_many_bits pd alright n = Some (r, dst, pd') -> pd_step pd pd'.
Proof.
  intros H. unfold per_get_many_bits in H. destruct (alright && _); [|by eapply get_many_loop_step].
  step_bind; try step_chain. apply get_many_loop_step in E0. step_chain.
Qed.

Lemma uper_get_length_step pd ebits len rep pd' :
  uper_get_length pd ebits = Some (len, rep, pd') -> pd_step pd pd'.
Proof. intros H. unfold uper_get_length in H. step_bind; step_chain. Qed.

(** ** Output stream

    The callback [outper] with its key is an interface: it takes octets, fails or
    appends them to what it has taken before. An invariant of the key may rely on
    the sizes with which [per_put_few_bits] calls it. *)

Definition flush_size (d : list Z) : Prop := (28 <= length d <= 32)%nat.

Class Sink (K : Type) := {
  outper : list Z -> K -> option K;
  sink_bytes : K -> list Z;
  sink_inv : K -> Prop;
  outper_inv d k k' : sink_inv k -> flush_size d -> outper d k = Some k' -> sink_inv k';
  outper_bytes d k k' : outper d k = Some k' -> sink_bytes k' = sink_bytes k ++ d
}.

(** A sink that never refuses. *)
Class TotalSink (K : Type) `{Sink K} := outper_total d k : is_Some (outper d k).

(** [out_buffer] is the offset of the pointer into [tmpspace]; [None] is NULL. *)
Record asn_per_outp_t (K : Type) := {
  out_buffer : option Z;
  out_nboff : Z;
  out_nbits : Z;
  tmpspace : list Z;
  op_key : K;
  flushed_bytes : Z
}.
Arguments out_buffer {K}.
Arguments out_nboff {K}.
Arguments out_nbits {K}.
Arguments tmpspace {K}.
Arguments op_key {K}.
Arguments flushed_bytes {K}.

Definition sizeof_tmpspace : Z := 32.

Section output.
Context {K : Type} `{Sink K}.

Definition per_put_aligned_flush (po : asn_per_outp_t K) : option (Z * asn_per_outp_t K) :=
  let unused_bits := Z.land 7 (8 - Z.land (out_nboff po) 7) in
  let complete_bytes := default 0 (out_buffer po) + Z.shiftr (out_nboff po + 7) 3 in
  tmp ← (if unused_bits =? 0 then Some (tmpspace po)
         else
           o ← out_buffer po;
           b ← rd (tmpspace po) (o + Z.shiftr (out_nboff po) 3);
           wr (tmpspace po) (o + Z.shiftr (out_nboff po) 3)
             (u8 (Z.land b (Z.shiftl (-1) unused_bits))));
  match outper (take (Z.to_nat complete_bytes) tmp) (op_key po) with
  | None => Some (-1, {| out_buffer := out_buffer po; out_nboff := out_nboff po;
                         out_nbits := out_nbits po; tmpspace := tmp; op_key := op_key po;
                         flushed_bytes := flushed_bytes po |})
  | Some k => Some (0, {| out_buffer := Some 0; out_nboff := 0; out_nbits := 8 * sizeof_tmpspace;
                          tmpspace := tmp; op_key := k;
                          flushed_bytes := flushed_bytes po + complete_bytes |})
  end.

(** "Normalize position indicator." *)
Definition po_normalize (po : asn_per_outp_t K) : asn_per_outp_t K :=
  if 8 <=? out_nboff po then
    {| out_buffer := (fun o => o + Z.shiftr (out_nboff po) 3) <$> out_buffer po;
       out_nboff := Z.land (out_nboff po) 7;
       out_nbits := out_nbits po - Z.land (out_nboff po) (Z.lnot 7);
       tmpspace := tmpspace po; op_key := op_key po; flushed_bytes := flushed_bytes po |}
  else po.

(** "Flush whole-bytes output, if necessary." *)
Definition po_flush (po : asn_per_outp_t K) (obits : Z) : option (Z * asn_per_outp_t K) :=
  if out_nbits po <? out_nboff po + obits then
    let complete_bytes := default 0 (out_buffer po) in
    match outper (take (Z.to_nat complete_bytes) (tmpspace po)) (op_key po) with
    | None => Some (-1, po)
    | Some k =>
        tmp ← (if out_nboff po =? 0 then Some (tmpspace po)
               else b ← rd (tmpspace po) complete_bytes; wr (tmpspace po) 0 b);
        Some (0, {| out_buffer := Some 0; out_nboff := out_nboff po; out_nbits := 8 * sizeof_tmpspace;
                    tmpspace := tmp; op_key := k; flushed_bytes := flushed_bytes po + complete_bytes |})
    end
  else Some (0, po).

(** The stores of the branches [off <= 8] to [off <= 31], at octet [o]. *)
Definition put_octets (tmp : list Z) (o nboff off bits : Z) : option (list Z) :=
  let omsk := Z.lnot (Z.shiftl 1 (8 - nboff) - 1) in
  b0 ← rd tmp o;
  if off <=? 8 then
    let v := u32 (Z.shiftl bits (8 - off)) in
    wr tmp o (u8 (Z.lor (Z.land b0 omsk) v))
  else if off <=? 16 then
    let v := u32 (Z.shiftl bits (16 - off)) in
    t0 ← wr tmp o (u8 (Z.lor (Z.land b0 omsk) (Z.shiftr v 8)));
    wr t0 (o + 1) (u8 v)
  else if off <=? 24 then
    let v := u32 (Z.shiftl bits (24 - off)) in
    t0 ← wr tmp o (u8 (Z.lor (Z.land b0 omsk) (Z.shiftr v 16)));
    t1 ← wr t0 (o + 1) (u8 (Z.shiftr v 8));
    wr t1 (o + 2) (u8 v)
  else
    let v := u32 (Z.shiftl bits (32 - off)) in
    t0 ← wr tmp o (u8 (Z.lor (Z.land b0 omsk) (Z.shiftr v 24)));
    t1 ← wr t0 (o + 1) (u8 (Z.shiftr v 16));
    t2 ← wr t1 (o + 2) (u8 (Z.shiftr v 8));
    wr t2 (o + 3) (u8 v).

Fixpoint put_few_bits (fuel : nat) (po : asn_per_outp_t K) (bits obits : Z)
  : option (Z * asn_per_outp_t K) :=
  if (obits <=? 0) || (32 <=? obits) then Some (if obits =? 0 then 0 else -1, po)
  else
    '(st, po1) ← po_flush (po_normalize po) obits;
    if st <? 0 then Some (-1, po1)
    else
      let off := out_nboff po1 + obits in
      let bits := Z.land (u32 bits) (u32 (Z.shiftl 1 obits - 1)) in
      if off <=? 31 then
        o ← out_buffer po1;
        tmp ← put_octets (tmpspace po1) o (out_nboff po1) off bits;
        Some (0, {| out_buffer := out_buffer po1; out_nboff := off; out_nbits := out_nbits po1;
                    tmpspace := tmp; op_key := op_key po1; flushed_bytes := flushed_bytes po1 |})
      else
        match fuel with
        | O => None
        | S f =>
            '(r1, po2) ← (if 0 <? obits - 24 then put_few_bits f po1 (Z.shiftr bits (obits - 24)) 24
                          else Some (0, po1));
            if negb (r1 =? 0) then Some (-1, po2)
            else
              '(r2, po3) ← put_few_bits f po2 bits (obits - 24);
              if negb (r2 =? 0) then Some (-1, po3) else Some (0, po3)
        end.

Definition per_put_few_bits (po : asn_per_outp_t K) (bits obits : Z) : option (Z * asn_per_outp_t K) :=
  put_few_bits 1 po bits obits.

(** [src] is the octets from the pointer on. *)
Fixpoint put_many_bits (fuel : nat) (po : asn_per_outp_t K) (src : list Z) (nb : Z)
  : option (Z * asn_per_outp_t K) :=
  match fuel with
  | O => None
  | S f =>
      if nb =? 0 then Some (0, po)
      else if 24 <=? nb then
        b0 ← rd src 0; b1 ← rd src 1; b2 ← rd src 2;
        '(r, po1) ← per_put_few_bits po (Z.lor (Z.lor (Z.shiftl b0 16) (Z.shiftl b1 8)) b2) 24;
        if negb (r =? 0) then Some (-1, po1) else put_many_bits f po1 (drop 3 src) (nb - 24)
      else
        b0 ← rd src 0;
        v1 ← (if 8 <? nb then b1 ← rd src 1; Some (Z.lor (Z.shiftl b0 8) b1) else Some b0);
        v2 ← (if 16 <? nb then b2 ← rd src 2; Some (Z.lor (Z.shiftl v1 8) b2) else Some v1);
        let value := if Z.land nb 7 =? 0 then v2 else Z.shiftr v2 (8 - Z.land nb 7) in
        '(r, po1) ← per_put_few_bits po value nb;
        if negb (r =? 0) then Some (-1, po1) else Some (0, po1)
  end.

Definition per_put_many_bits (po : asn_per_outp_t K) (src : list Z) (nb : Z)
  : option (Z * asn_per_outp_t K) := put_many_bits (S (Z.to_nat nb)) po src nb.

Definition uper_put_nsnnwn (po : asn_per_outp_t K) (n : Z) : option (Z * asn_per_outp_t K) :=
  if n <=? 63 then
    if n <? 0 then Some (-1, po) else per_put_few_bits po n 7
  else
    let put bytes :=
      '(r, po1) ← per_put_few_bits po bytes 8;
      if negb (r =? 0) then Some (-1, po1) else per_put_few_bits po1 n (8 * bytes) in
    if n <? 256 then put 1
    else if n <? 65536 then put 2
    else if n <? 256 * 65536 then put 3
    else Some (-1, po).

Fixpoint put_constrained (fuel : nat) (po : asn_per_outp_t K) (v nb : Z) : option (Z * asn_per_outp_t K) :=
  if nb <=? 31 then per_put_few_bits po (u32 v) nb
  else
    match fuel with
    | O => None
    | S f =>
        '(r, po1) ← put_constrained f po (Z.shiftr v 31) (nb - 31);
        if negb (r =? 0) then Some (-1, po1) else per_put_few_bits po1 (u32 v) 31
    end.

(** [v] is an [unsigned long]; every call has [nb <= 64]. *)
Definition uper_put_constrained_whole_number_u (po : asn_per_outp_t K) (v nb : Z)
  : option (Z * asn_per_outp_t K) := put_constrained 2 po v nb.

Definition uper_put_constrained_whole_number_s (po : asn_per_outp_t K) (v nb : Z)
  : option (Z * asn_per_outp_t K) := uper_put_constrained_whole_number_u po (u64 v) nb.

Definition uper_put_length (po : asn_per_outp_t K) (length : Z) : option (Z * asn_per_outp_t K) :=
  if length <=? 127 then
    '(r, po1) ← per_put_few_bits po length 8; Some (if r =? 0 then length else -1, po1)
  else if length <? 16384 then
    '(r, po1) ← per_put_few_bits po (Z.lor length 0x8000) 16; Some (if r =? 0 then length else -1, po1)
  else
    let l1 := Z.shiftr length 14 in
    let l2 := if 4 <? l1 then 4 else l1 in
    '(r, po1) ← per_put_few_bits po (Z.lor 0xC0 l2) 8; Some (if r =? 0 then Z.shiftl l2 14 else -1, po1).

Definition uper_put_nslength (po : asn_per_outp_t K) (length : Z) : option (Z * asn_per_outp_t K) :=
  if length <=? 64 then
    if length =? 0 then Some (-1, po)
    else '(r, po1) ← per_put_few_bits po (length - 1) 7; Some (if r =? 0 then 0 else -1, po1)
  else
    '(r, po1) ← uper_put_length po length;
    if r =? length then Some (0, po1) else Some (-1, po1).

End output.

(** ** Specification of the output stream *)

(** Testing a bit of an octet of the shifted value. *)
Lemma testbit_octet b s i m :
  0 <= s -> 0 <= i -> 0 <= m < 8 -> m + i < 32 ->
  Z.testbit (u8 (Z.shiftr (u32 (Z.shiftl b s)) i)) m = Z.testbit b (m + i - s).
Proof.
  intros Hs Hi Hm H. rewrite testbit_uwrap, (proj2 (Z.ltb_lt m 8)), andb_true_l by lia.
  rewrite Z.shiftr_spec, testbit_uwrap, (proj2 (Z.ltb_lt _ 32)), andb_true_l, Z.shiftl_spec by lia. done.
Qed.

(** The first octet keeps its [p] leading bits. *)
Lemma testbit_first b0 p v m :
  0 <= p < 8 -> 0 <= m < 8 ->
  Z.testbit (u8 (Z.lor (Z.land b0 (Z.lnot (Z.shiftl 1 (8 - p) - 1))) v)) m =
  (Z.testbit b0 m && bool_decide (8 - p <= m)) || Z.testbit v m.
Proof.
  intros Hp Hm. rewrite testbit_uwrap, (proj2 (Z.ltb_lt m 8)), andb_true_l by lia.
  rewrite Z.lor_spec, Z.land_spec, Z.lnot_spec, Z.shiftl_1_l, Z.sub_1_r, <- Z.ones_equiv by lia.
  do 2 f_equal. rewrite Z.testbit_ones_nonneg by lia.
  destruct (Z.ltb_spec m (8 - p)); case_bool_decide; lia || done.
Qed.

Definition put_value (k : nat) (o : nat) (tmp : list Z) (p off b : Z) (j : nat) : Z :=
  let v := u32 (Z.shiftl b (8 * Z.of_nat k - off)) in
  if decide (j = 0%nat)
  then u8 (Z.lor (Z.land (tmp !!! o) (Z.lnot (Z.shiftl 1 (8 - p) - 1))) (Z.shiftr v (8 * (Z.of_nat k - 1))))
  else u8 (Z.shiftr v (8 * (Z.of_nat k - 1 - Z.of_nat j))).

Lemma put_value_bit k o tmp p off b j t :
  (o < length tmp)%nat -> 0 <= p < 8 -> p < off -> off <= 8 * Z.of_nat k -> 8 * Z.of_nat k - 8 < off ->
  (k <= 4)%nat -> (j < k)%nat -> (t < 8)%nat ->
  0 <= b < 2 ^ (off - p) ->
  let q := Z.of_nat (8 * j + t) in
  Z.testbit (put_value k o tmp p off b j) (7 - Z.of_nat t) =
  if decide (q < p) then Z.testbit (tmp !!! o) (7 - Z.of_nat t) else Z.testbit b (off - 1 - q).
Proof.
  intros Ho Hp Hoff Hk1 Hk2 Hk4 Hj Ht Hb q. unfold put_value. case_decide as E.
  - subst j. rewrite testbit_first by lia.
    assert (Z.testbit (Z.shiftr (u32 (Z.shiftl b (8 * Z.of_nat k - off))) (8 * (Z.of_nat k - 1))) (7 - Z.of_nat t)
      = Z.testbit b (off - 1 - q)) as ->.
    { rewrite Z.shiftr_spec, testbit_uwrap, (proj2 (Z.ltb_lt _ 32)), andb_true_l, Z.shiftl_spec by lia.
      f_equal. unfold q. lia. }
    unfold q. case_decide.
    + rewrite bool_decide_eq_true_2, andb_true_r by lia.
      rewrite (testbit_above (off - p) b) by lia. apply orb_false_r.
    + rewrite bool_decide_eq_false_2, andb_false_r by lia. done.
  - rewrite decide_False by (unfold q; lia). rewrite testbit_octet by lia. f_equal. unfold q. lia.
Qed.

Section output_spec.
Context {K : Type} `{HS : Sink K}.

(** Bits of the stores of [put_octets]: the first [p] bits of octet [o] stay, the
    [n] bits of [b] follow. *)
Lemma put_octets_spec (tmp : list Z) (o : nat) p n b :
  bytes tmp -> 0 <= p < 8 -> 0 < n -> p + n <= 31 -> Z.of_nat (8 * o) + p + n <= 8 * Z.of_nat (length tmp) ->
  0 <= b < 2 ^ n ->
  exists tmp', put_octets tmp (Z.of_nat o) p (p + n) b = Some tmp' /\ bytes tmp' /\ length tmp' = length tmp /\
    take (8 * o + Z.to_nat (p + n)) (bitlist tmp') =
    take (8 * o + Z.to_nat p) (bitlist tmp) ++ val_bits (Z.to_nat n) b.
Proof.
  intros Hb Hp Hn H31 Hroom Hbr. set (off := p + n).
  assert (Ho : (o < length tmp)%nat) by lia.
  set (k := Z.to_nat ((off + 7) / 8)).
  assert (Hk : off <= 8 * Z.of_nat k /\ 8 * Z.of_nat k - 8 < off /\ (1 <= k <= 4)%nat /\ (o + k <= length tmp)%nat).
  { unfold k, off. pose proof (Z.div_mod (p + n + 7) 8). pose proof (Z.mod_pos_bound (p + n + 7) 8). lia. }
  destruct Hk as (Hk1 & Hk2 & Hk4 & Hok).
  set (val := put_value k o tmp p off b).
  assert (Hput : exists tmp', put_octets tmp (Z.of_nat o) p off b = Some tmp' /\ length tmp' = length tmp /\
    forall m, tmp' !! m = if decide (o <= m < o + k)%nat then Some (val (m - o)%nat) else tmp !! m).
  { unfold put_octets. rewrite rd_nat, (list_lookup_lookup_total_lt tmp o) by done. cbn [mbind option_bind].
    assert (Hk_case : (k = 1 \/ k = 2 \/ k = 3 \/ k = 4)%nat) by lia. unfold val, put_value.
    destruct Hk_case as [E | [E | [E | E]]]; rewrite E in *;
      repeat (first [rewrite (proj2 (Z.leb_le off _)) by lia | rewrite (proj2 (Z.leb_gt off _)) by lia]);
      repeat (rewrite wr_in by (rewrite ?length_insert; lia); cbn [mbind option_bind]);
      (eexists; split; [done|]; split; [by rewrite ?length_insert|]);
      intros m; rewrite !list_lookup_insert, ?length_insert, ?Z.shiftr_0_r;
      repeat case_decide; try lia; try done;
      do 2 f_equal; match goal with |- _ = Z.shiftr _ ?z =>
        first [replace z with 0 by lia; by rewrite Z.shiftr_0_r | f_equal; lia] end. }
  destruct Hput as (tmp' & Hput & Hlen & Hlk). exists tmp'. split_and!; [done| |done|].
  - apply Forall_lookup. intros m x Hx. rewrite Hlk in Hx. case_decide.
    + injection Hx as <-. unfold val, put_value. case_decide; apply u8_byte.
    + by eapply bytes_lookup.
  - apply list_eq. intros m. destruct (decide (m < 8 * o + Z.to_nat off)%nat) as [Hm|Hm].
    2: { rewrite lookup_take_ge by lia. symmetry. apply lookup_ge_None.
         rewrite length_app, length_take, length_bitlist, length_val_bits. unfold off in Hm. lia. }
    rewrite lookup_take_lt, lookup_bitlist by done. pose proof (Nat.div_mod_eq m 8).
    pose proof (Nat.mod_upper_bound m 8). rewrite Hlk.
    destruct (decide (m < 8 * o + Z.to_nat p)%nat).
    + rewrite lookup_app_l by (rewrite length_take, length_bitlist; lia).
      rewrite lookup_take_lt, lookup_bitlist by done. case_decide as Hd; [|done].
      cbn [fmap option_fmap option_map]. replace (m / 8)%nat with o in * by lia. rewrite Nat.sub_diag.
      rewrite (list_lookup_lookup_total_lt tmp o) by done. cbn [fmap option_fmap option_map]. f_equal.
      change 8 with (Z.of_nat 8). rewrite <- Nat2Z.inj_mod. change (Z.of_nat 8) with 8. unfold val.
      rewrite (put_value_bit k o tmp p off b 0 (m mod 8)) by (done || (replace (off - p) with n by (unfold off; lia); done) || (unfold off in *; lia)).
      rewrite decide_True by lia. done.
    + rewrite lookup_app_r by (rewrite length_take, length_bitlist; lia).
      rewrite length_take, length_bitlist, lookup_val_bits. rewrite !decide_True by (unfold off in *; lia).
      cbn [fmap option_fmap option_map]. f_equal.
      change 8 with (Z.of_nat 8). rewrite <- Nat2Z.inj_mod. change (Z.of_nat 8) with 8. unfold val.
      rewrite (put_value_bit k o tmp p off b (m / 8 - o) (m mod 8)) by (done || (replace (off - p) with n by (unfold off; lia); done) || (unfold off in *; lia)).
      rewrite decide_False by lia. f_equal. unfold off in *. lia.
Qed.

Definition out_off (po : asn_per_outp_t K) : nat := Z.to_nat (default 0 (out_buffer po)).

(** Everything written so far: what the sink has taken and what is in [tmpspace]. *)
Definition out_bits (po : asn_per_outp_t K) : list bool :=
  bitlist (sink_bytes (op_key po)) ++ take (8 * out_off po + Z.to_nat (out_nboff po)) (bitlist (tmpspace po)).

Record po_ok (po : asn_per_outp_t K) : Prop := {
  po_bytes : bytes (tmpspace po);
  po_length : length (tmpspace po) = 32%nat;
  po_buffer : out_buffer po = Some (Z.of_nat (out_off po));
  po_nbits : out_nbits po = 8 * (32 - Z.of_nat (out_off po));
  po_nboff : 0 <= out_nboff po <= out_nbits po;
  po_count : flushed_bytes po = Z.of_nat (length (sink_bytes (op_key po)));
  po_key : sink_inv (op_key po);
  po_sink : bytes (sink_bytes (op_key po))
}.

Definition po_at (B : list bool) (po : asn_per_outp_t K) : Prop := po_ok po /\ out_bits po = B.

Lemma prefix_take_le {A} (l : list A) n m : (n <= m)%nat -> take n l `prefix_of` take m l.
Proof. intros Hnm. rewrite <- (Nat.min_l n m), <- take_take by done. apply prefix_take. Qed.

(** The sink has refused octets that are, with those it has, a prefix of [B]. *)
Definition refused (B : list bool) : Prop :=
  exists d k, sink_inv k /\ flush_size d /\ outper d k = None /\ bitlist (sink_bytes k ++ d) `prefix_of` B.

(** Outcome of an output operation: 0 and the bits [B] in the stream, or -1 and the
    sink has refused octets. *)
Definition put_done (B : list bool) (x : option (Z * asn_per_outp_t K)) : Prop :=
  (exists po', x = Some (0, po') /\ po_at B po') \/
  (exists po', x = Some (-1, po') /\ refused B).

Lemma refused_mono B B' : refused B -> B `prefix_of` B' -> refused B'.
Proof. intros (d & k & Hi & Hs & Hd & Hp) HB. exists d, k. split_and!; [done..|]. by etrans. Qed.

Lemma refused_app B C : refused B -> refused (B ++ C).
Proof. intros Hr. apply (refused_mono B); [done|]. by apply prefix_app_r. Qed.

Lemma po_normalize_at B po : po_at B po ->
  po_at B (po_normalize po) /\ 0 <= out_nboff (po_normalize po) < 8.
Proof.
  intros [[Hb Hl Hbuf Hnb Ho Hc Hi Hsb] HB]. unfold po_normalize.
  destruct (Z.leb_spec 8 (out_nboff po)); [|split; [by split|lia]].
  assert (Z.land (out_nboff po) 7 = out_nboff po mod 8) as E1 by (apply (Z.land_ones _ 3); lia).
  assert (Z.land (out_nboff po) (Z.lnot 7) = 8 * (out_nboff po / 8)) as E2.
  { change 7 with (Z.ones 3). rewrite <- Z.ldiff_land, Z.ldiff_ones_r, Z.shiftl_mul_pow2, Z.shiftr_div_pow2 by lia.
    change (2 ^ 3) with 8. lia. }
  assert (Z.shiftr (out_nboff po) 3 = out_nboff po / 8) as E3 by (apply (Z.shiftr_div_pow2 _ 3); lia).
  pose proof (Z.mod_pos_bound (out_nboff po) 8). pose proof (Z.div_mod (out_nboff po) 8).
  pose proof (Z.div_pos (out_nboff po) 8). rewrite E1, E2, E3, Hbuf. cbn [fmap option_fmap option_map].
  set (po' := {| out_buffer := _ |}).
  assert (Hoff : out_off po' = (out_off po + Z.to_nat (out_nboff po / 8))%nat).
  { unfold out_off at 1. cbn [po' out_buffer default]. unfold default. cbn. lia. }
  split; [|cbn; lia]. split.
  - split; try done; rewrite ?Hoff; cbn [po' out_buffer out_nbits out_nboff]; [f_equal; lia|lia..].
  - rewrite <- HB. unfold out_bits. rewrite Hoff. cbn [po' op_key tmpspace out_nboff]. do 2 f_equal. lia.
Qed.

Lemma po_flush_at B po n : po_at B po -> 0 <= out_nboff po < 8 -> 0 <= n <= 31 ->
  (exists po', po_flush po n = Some (0, po') /\ po_at B po' /\ out_nboff po' = out_nboff po /\
     out_nboff po' + n <= out_nbits po') \/
  (po_flush po n = Some (-1, po) /\ refused B).
Proof.
  intros Hat Ho8 Hn. pose proof Hat as [[Hb Hl Hbuf Hnb Ho Hc Hi Hsb] HB]. unfold po_flush.
  destruct (Z.ltb_spec (out_nbits po) (out_nboff po + n)); [|left; exists po; by split_and!].
  rewrite Hbuf. cbn [default]. unfold default, from_option, id. rewrite Nat2Z.id.
  assert (Hsz : flush_size (take (out_off po) (tmpspace po))) by (unfold flush_size; rewrite length_take; lia).
  destruct (outper (take (out_off po) (tmpspace po)) (op_key po)) as [k|] eqn:E; [left|right].
  2: { split; [done|]. eexists _, _. split_and!; [exact Hi|exact Hsz|exact E|]. rewrite <- HB. unfold out_bits.
       rewrite bitlist_app, bitlist_take. apply prefix_app.
       rewrite <- (take_drop (8 * out_off po) (take (8 * out_off po + _) _)), take_take, Nat.min_l by lia.
       by apply prefix_app_r. }
  pose proof (outper_bytes _ _ _ E) as Hk. set (o := out_off po) in *.
  assert (exists tmp, (if out_nboff po =? 0 then Some (tmpspace po)
      else b ← rd (tmpspace po) (Z.of_nat o); wr (tmpspace po) 0 b) = Some tmp /\ bytes tmp /\ length tmp = 32%nat /\
      take (Z.to_nat (out_nboff po)) (bitlist tmp) =
      take (Z.to_nat (out_nboff po)) (drop (8 * o) (bitlist (tmpspace po)))) as (tmp & -> & Htb & Htl & Htk).
  { destruct (Z.eqb_spec (out_nboff po) 0) as [E0|E0].
    - exists (tmpspace po). rewrite E0. by rewrite !take_0.
    - rewrite rd_nat, (list_lookup_lookup_total_lt (tmpspace po) o) by lia. cbn [mbind option_bind].
      rewrite wr_in by lia. eexists. split; [done|]. rewrite length_insert.
      assert (Hin : tmpspace po !! o = Some (tmpspace po !!! o)) by (apply list_lookup_lookup_total_lt; lia).
      split_and!; [apply bytes_insert; [done|by apply (bytes_lookup (tmpspace po) o)]|done|].
      apply list_eq. intros m. destruct (decide (m < Z.to_nat (out_nboff po))%nat).
      + rewrite !lookup_take_lt, lookup_drop by done. rewrite lookup_bitlist_insert by (cbn; lia).
        rewrite decide_True by (rewrite Nat.div_small; lia).
        rewrite lookup_bitlist_at, Hin by lia. cbn. f_equal. f_equal. rewrite Z.mod_small; lia.
      + rewrite !lookup_take_ge by lia. done. }
  cbn [mbind option_bind]. eexists. split; [done|]. cbn [out_nboff out_nbits]. split_and!; [|done|unfold sizeof_tmpspace; lia].
  split.
  - split; try done; cbn [flushed_bytes op_key out_nbits out_nboff]; [unfold sizeof_tmpspace; lia|..].
    + rewrite Hk, length_app, length_take, Hl. lia.
    + by eapply outper_inv.
    + rewrite Hk. apply Forall_app; split; [done|by apply Forall_take].
  - rewrite <- HB. unfold out_bits. cbn [op_key tmpspace out_nboff]. fold o.
    rewrite Hk, bitlist_app, <- app_assoc. f_equal. rewrite bitlist_take.
    change (8 * out_off _ + Z.to_nat (out_nboff po))%nat with (Z.to_nat (out_nboff po)). rewrite Htk.
    rewrite <- (take_drop (8 * o) (take (8 * o + Z.to_nat (out_nboff po)) (bitlist (tmpspace po)))).
    rewrite take_take, skipn_firstn_comm. f_equal; f_equal; lia.
Qed.

(** The stores of one call, on a stream with room. *)
Lemma put_store_at B po v n : po_at B po -> 0 <= out_nboff po < 8 -> 0 < n -> out_nboff po + n <= 31 ->
  out_nboff po + n <= out_nbits po -> 0 <= v < 2 ^ n ->
  exists tmp, put_octets (tmpspace po) (Z.of_nat (out_off po)) (out_nboff po) (out_nboff po + n) v = Some tmp /\
    po_at (B ++ val_bits (Z.to_nat n) v)
      {| out_buffer := out_buffer po; out_nboff := out_nboff po + n; out_nbits := out_nbits po;
         tmpspace := tmp; op_key := op_key po; flushed_bytes := flushed_bytes po |}.
Proof.
  intros [[Hb Hl Hbuf Hnb Ho Hc Hi Hsb] HB] Ho8 Hn H31 Hroom Hv.
  destruct (put_octets_spec (tmpspace po) (out_off po) (out_nboff po) n v) as (tmp & Hp & Htb & Htl & Hbits);
    [done|done|done|done|rewrite Hl; lia|done|].
  exists tmp. split; [done|]. split.
  - split; try done; cbn [tmpspace out_nboff out_nbits]; [congruence|lia].
  - rewrite <- HB. unfold out_bits. cbn [op_key tmpspace out_nboff]. rewrite <- app_assoc. f_equal.
    exact Hbits.
Qed.

Lemma val_bits_masked n v : 0 <= n <= 31 ->
  let b := Z.land (u32 v) (u32 (Z.shiftl 1 n - 1)) in
  0 <= b < 2 ^ n /\ val_bits (Z.to_nat n) b = val_bits (Z.to_nat n) v.
Proof.
  intros Hn b. assert (2 ^ 0 <= 2 ^ n <= 2 ^ 31) by (split; apply Z.pow_le_mono_r; lia).
  assert (b = v mod 2 ^ n) as ->.
  { unfold b. rewrite Z.shiftl_1_l, (uwrap_small 32 (2 ^ n - 1)), Z.sub_1_r, <- Z.ones_equiv, Z.land_ones by lia.
    unfold uwrap. replace 32 with (n + (32 - n)) by lia. rewrite Z.pow_add_r by lia.
    rewrite Z.rem_mul_r by (try apply Z.pow_nonzero; try apply Z.pow_pos_nonneg; lia).
    rewrite Z.mul_comm, Z.mod_add by (apply Z.pow_nonzero; lia). apply Z.mod_mod. apply Z.pow_nonzero; lia. }
  split; [apply Z.mod_pos_bound; lia|]. rewrite <- (Z2Nat.id n) at 2 by lia. apply val_bits_mod.
Qed.

Lemma put_few_bits_short fuel B po v n : po_at B po -> 0 < n <= 24 ->
  put_done (B ++ val_bits (Z.to_nat n) v) (put_few_bits fuel po v n).
Proof.
  intros Hat Hn. destruct (po_normalize_at B po Hat) as [Hat1 H8].
  assert (put_few_bits fuel po v n =
    '(st, po1) ← po_flush (po_normalize po) n;
    if st <? 0 then Some (-1, po1) else
    o ← out_buffer po1;
    tmp ← put_octets (tmpspace po1) o (out_nboff po1) (out_nboff po1 + n) (Z.land (u32 v) (u32 (Z.shiftl 1 n - 1)));
    Some (0, {| out_buffer := out_buffer po1; out_nboff := out_nboff po1 + n; out_nbits := out_nbits po1;
                tmpspace := tmp; op_key := op_key po1; flushed_bytes := flushed_bytes po1 |})) as ->.
  { destruct (po_flush_at B (po_normalize po) n Hat1 H8) as [(po1 & E & _ & E8 & _)|[E _]]; [lia| |];
      destruct fuel; cbn [put_few_bits]; rewrite (proj2 (Z.leb_gt n 0)), (proj2 (Z.leb_gt 32 n)) by lia;
      cbn [orb]; rewrite E; cbn [mbind option_bind]; try done;
      rewrite (proj2 (Z.leb_le _ 31)) by lia; done. }
  destruct (po_flush_at B (po_normalize po) n Hat1 H8) as [(po1 & -> & Hat2 & E8 & Hroom)|[-> Hno]]; [lia| |].
  - left. cbn [mbind option_bind]. change (0 <? 0) with false. cbn iota.
    destruct (val_bits_masked n v) as [Hr Hv]; [lia|].
    destruct (put_store_at B po1 (Z.land (u32 v) (u32 (Z.shiftl 1 n - 1))) n Hat2) as (tmp & Htmp & Hat3); [lia..|].
    pose proof (po_buffer _ (proj1 Hat2)) as ->. cbn [mbind option_bind]. rewrite Htmp. cbn [mbind option_bind].
    eexists. split; [done|]. rewrite <- Hv. pose proof (po_buffer _ (proj1 Hat2)) as Hbuf. by rewrite <- Hbuf.
  - right. cbn [mbind option_bind]. eexists. split; [done|]. by apply refused_app.
Qed.

Lemma per_put_few_bits_at B po v n : po_at B po -> 0 <= n <= 31 ->
  put_done (B ++ val_bits (Z.to_nat n) v) (per_put_few_bits po v n).
Proof.
  intros Hat Hn. destruct (Z.eq_dec n 0) as [->|].
  { left. exists po. split; [done|]. change (val_bits (Z.to_nat 0) v) with (@nil bool). by rewrite app_nil_r. }
  unfold per_put_few_bits.
  destruct (po_normalize_at B po Hat) as [Hat1 H8].
  destruct (decide (out_nboff (po_normalize po) + n <= 31)) as [H31|H31].
  - destruct (po_flush_at B (po_normalize po) n Hat1 H8) as [(po1 & E & Hat2 & E8 & Hroom)|[E Hno]]; [lia| |];
      cbn [put_few_bits]; rewrite (proj2 (Z.leb_gt n 0)), (proj2 (Z.leb_gt 32 n)) by lia;
      cbn [orb]; rewrite E; cbn [mbind option_bind].
    + change (0 <? 0) with false. cbn iota. rewrite (proj2 (Z.leb_le _ 31)) by lia.
      destruct (val_bits_masked n v) as [Hr Hv]; [lia|].
      destruct (put_store_at B po1 (Z.land (u32 v) (u32 (Z.shiftl 1 n - 1))) n Hat2) as (tmp & Htmp & Hat3); [lia..|].
      pose proof (po_buffer _ (proj1 Hat2)) as Hbuf. rewrite Hbuf. cbn [mbind option_bind]. rewrite Htmp.
      cbn [mbind option_bind]. left. eexists. split; [done|]. rewrite <- Hv. by rewrite <- Hbuf.
    + right. eexists. split; [done|]. by apply refused_app.
  - assert (Hstep : put_few_bits 1 po v n =
      '(st, po1) ← po_flush (po_normalize po) n;
      if st <? 0 then Some (-1, po1) else
      let b := Z.land (u32 v) (u32 (Z.shiftl 1 n - 1)) in
      '(r1, po2) ← put_few_bits 0 po1 (Z.shiftr b (n - 24)) 24;
      if negb (r1 =? 0) then Some (-1, po2)
      else '(r2, po3) ← put_few_bits 0 po2 b (n - 24);
           if negb (r2 =? 0) then Some (-1, po3) else Some (0, po3)).
    { assert (forall f, put_few_bits (S f) po v n =
      '(st, po1) ← po_flush (po_normalize po) n;
      if st <? 0 then Some (-1, po1) else
      let b := Z.land (u32 v) (u32 (Z.shiftl 1 n - 1)) in
      '(r1, po2) ← put_few_bits f po1 (Z.shiftr b (n - 24)) 24;
      if negb (r1 =? 0) then Some (-1, po2)
      else '(r2, po3) ← put_few_bits f po2 b (n - 24);
           if negb (r2 =? 0) then Some (-1, po3) else Some (0, po3)) as Hf; [|apply Hf].
      intros f. cbn [put_few_bits]. rewrite (proj2 (Z.leb_gt n 0)), (proj2 (Z.leb_gt 32 n)) by lia. cbn [orb].
      destruct (po_flush_at B (po_normalize po) n Hat1 H8) as [(po1 & -> & _ & E8 & _)|[-> _]]; [lia| |done].
      cbn [mbind option_bind]. change (0 <? 0) with false. cbn iota.
      rewrite (proj2 (Z.leb_gt _ 31)), (proj2 (Z.ltb_lt 0 (n - 24))) by lia. done. }
    rewrite Hstep. clear Hstep.
    destruct (po_flush_at B (po_normalize po) n Hat1 H8) as [(po1 & -> & Hat2 & E8 & Hroom)|[-> Hno]]; [lia| |].
    2: { right. eexists. split; [done|]. by apply refused_app. }
    cbn [mbind option_bind]. change (0 <? 0) with false. cbn iota zeta.
    destruct (val_bits_masked n v) as [Hr Hv]; [lia|]. set (b := Z.land (u32 v) (u32 (Z.shiftl 1 n - 1))) in *.
    rewrite <- Hv. replace (Z.to_nat n) with (Z.to_nat 24 + Z.to_nat (n - 24))%nat by lia.
    rewrite val_bits_app, Z2Nat.id, app_assoc by lia.
    destruct (put_few_bits_short 0 B po1 (Z.shiftr b (n - 24)) 24 Hat2) as [(po2 & -> & Hat3)|(po2 & -> & Hno)];
      [lia| |right; eexists; split; [done|by apply refused_app]]. cbn [mbind option_bind].
    change (negb (0 =? 0)) with false. cbn iota.
    destruct (put_few_bits_short 0 _ po2 b (n - 24) Hat3) as [(po3 & -> & Hat4)|(po3 & -> & Hno)];
      [lia| |right; by eexists]. cbn [mbind option_bind]. left. by exists po3.
Qed.

(** Composition: an operation that continues after a successful one. *)
Lemma put_done_bind B B' x (f : asn_per_outp_t K -> option (Z * asn_per_outp_t K)) :
  put_done B x -> (forall po, po_at B po -> put_done B' (f po)) -> B `prefix_of` B' ->
  put_done B' ('(r, po1) ← x; if negb (r =? 0) then Some (-1, po1) else f po1).
Proof.
  intros [(po & -> & Hat)|(po & -> & Hno)] Hf Hp; cbn [mbind option_bind].
  - by apply Hf.
  - right. eexists. split; [done|]. by eapply refused_mono.
Qed.

Lemma put_done_seq B C x (f : asn_per_outp_t K -> option (Z * asn_per_outp_t K)) :
  put_done B x -> (forall po, po_at B po -> put_done (B ++ C) (f po)) ->
  put_done (B ++ C) ('(r, po1) ← x; if negb (r =? 0) then Some (-1, po1) else f po1).
Proof. intros Hx Hf. eapply put_done_bind; [exact Hx|exact Hf|by apply prefix_app_r]. Qed.

(** The same for the operation that comes last. *)
Lemma put_done_last B x : put_done B x ->
  put_done B ('(r, po1) ← x; if negb (r =? 0) then Some (-1, po1) else Some (0, po1)).
Proof. intros Hx. eapply put_done_bind; [exact Hx| |done]. intros po Hat. left. by exists po. Qed.

Lemma octets_take3 (src : list Z) : bytes src -> (3 <= length src)%nat ->
  exists b0 b1 b2, rd src 0 = Some b0 /\ rd src 1 = Some b1 /\ rd src 2 = Some b2 /\
    val_bits 24 (Z.lor (Z.lor (Z.shiftl b0 16) (Z.shiftl b1 8)) b2) = take 24 (bitlist src).
Proof.
  intros Hb Hl. destruct src as [|b0 [|b1 [|b2 src]]]; try (simpl in Hl; lia).
  exists b0, b1, b2. split_and!; try done.
  inversion Hb as [|?? H0 Hb1]; subst. inversion Hb1 as [|?? H1 Hb2]; subst. inversion Hb2 as [|?? H2 _]; subst.
  unfold is_byte in *.
  assert (Z.lor (Z.lor (Z.shiftl b0 16) (Z.shiftl b1 8)) b2 = (b0 * 256 + b1) * 256 + b2) as ->.
  { rewrite (Z.shiftl_mul_pow2 b0), (Z.shiftl_mul_pow2 b1) by lia.
    rewrite (lor_shifted b0 (b1 * 2 ^ 8) 16) by lia.
    replace (b0 * 2 ^ 16 + b1 * 2 ^ 8) with ((b0 * 256 + b1) * 2 ^ 8) by lia. rewrite lor_shifted by lia. done. }
  rewrite !bitlist_cons. rewrite !app_assoc.
  rewrite take_app_le, take_ge by (rewrite !length_app; done).
  change 24%nat with (8 + 8 + 8)%nat. rewrite !val_bits_app.
  rewrite !Z.shiftr_div_pow2 by lia. change (2 ^ Z.of_nat 8) with 256.
  assert (((b0 * 256 + b1) * 256 + b2) / 256 = b0 * 256 + b1) as -> by (rewrite Z.div_add_l, Z.div_small by lia; lia).
  assert ((b0 * 256 + b1) / 256 = b0) as -> by (rewrite Z.div_add_l, Z.div_small by lia; lia).
  unfold byte_bits. rewrite <- (val_bits_mod 8 (b0 * 256 + b1)), <- (val_bits_mod 8 ((b0 * 256 + b1) * 256 + b2)).
  change (2 ^ Z.of_nat 8) with 256. rewrite !(Z.add_comm (_ * 256)), !Z.mod_add, !Z.mod_small by lia. done.
Qed.

Lemma val_bits_prefix L n : (n <= length L)%nat ->
  val_bits n (Z.shiftr (bits_val L) (Z.of_nat (length L - n))) = take n L.
Proof.
  intros Hn. pose proof (val_bits_bits_val L) as E.
  replace (length L) with (n + (length L - n))%nat in E at 1 by lia. rewrite val_bits_app in E.
  rewrite <- E at 3. rewrite take_app_le by (rewrite length_val_bits; lia).
  by rewrite take_ge by (rewrite length_val_bits; lia).
Qed.

(** The last octets of [per_put_many_bits] as one integer. *)
Lemma put_last_value (src : list Z) nb : bytes src -> 1 <= nb <= 23 -> nb <= 8 * Z.of_nat (length src) ->
  exists b0 v1 v2, rd src 0 = Some b0 /\
    (if 8 <? nb then b1 ← rd src 1; Some (Z.lor (Z.shiftl b0 8) b1) else Some b0) = Some v1 /\
    (if 16 <? nb then b2 ← rd src 2; Some (Z.lor (Z.shiftl v1 8) b2) else Some v1) = Some v2 /\
    val_bits (Z.to_nat nb) (if Z.land nb 7 =? 0 then v2 else Z.shiftr v2 (8 - Z.land nb 7)) =
    take (Z.to_nat nb) (bitlist src).
Proof.
  intros Hb Hnb Hl.
  assert (Hrd : forall j, 8 * Z.of_nat j < nb -> rd src (Z.of_nat j) = Some (src !!! j) /\ is_byte (src !!! j)).
  { intros j Hj. assert (src !! j = Some (src !!! j)) as E by (apply list_lookup_lookup_total_lt; lia).
    rewrite rd_nat. split; [done|]. by eapply bytes_lookup. }
  set (k := Z.to_nat ((nb + 7) / 8)).
  assert (Hk : nb <= 8 * Z.of_nat k < nb + 8 /\ (1 <= k <= 3)%nat).
  { unfold k. pose proof (Z.div_mod (nb + 7) 8). pose proof (Z.mod_pos_bound (nb + 7) 8). lia. }
  assert (Hshift : forall v, (if Z.land nb 7 =? 0 then v else Z.shiftr v (8 - Z.land nb 7)) = Z.shiftr v (8 * Z.of_nat k - nb)).
  { intros v. change 7 with (Z.ones 3). rewrite Z.land_ones by lia. change (2 ^ 3) with 8.
    pose proof (Z.div_mod nb 8). pose proof (Z.mod_pos_bound nb 8). destruct (Z.eqb_spec (nb mod 8) 0).
    - replace (8 * Z.of_nat k - nb) with 0 by lia. by rewrite Z.shiftr_0_r.
    - f_equal. lia. }
  assert (Hval : forall v, v = fold_left (fun a j => a * 256 + src !!! j) (seq 0 k) 0 ->
    val_bits (Z.to_nat nb) (Z.shiftr v (8 * Z.of_nat k - nb)) = take (Z.to_nat nb) (bitlist src)).
  { intros v ->. rewrite <- fold_octets, <- octets_val by (done || lia).
    set (L := take (8 * k) (bitlist src)).
    assert (length L = 8 * k)%nat as HL by (unfold L; rewrite length_take, length_bitlist; lia).
    replace (8 * Z.of_nat k - nb) with (Z.of_nat (length L - Z.to_nat nb)) by lia.
    rewrite val_bits_prefix by lia. unfold L. rewrite take_take. f_equal. lia. }
  destruct (Hrd 0%nat) as [R0 I0]; [lia|]. change (Z.of_nat 0) with 0 in R0.
  assert (Hlor : forall a b, is_byte b -> Z.lor (Z.shiftl a 8) b = a * 256 + b).
  { intros a b Hbb. unfold is_byte in Hbb. rewrite Z.shiftl_mul_pow2, lor_shifted by lia. lia. }
  exists (src !!! 0%nat).
  destruct (Z.ltb_spec 8 nb) as [H8|H8].
  - destruct (Hrd 1%nat) as [R1 I1]; [lia|]. change (Z.of_nat 1) with 1 in R1. rewrite R1. cbn [mbind option_bind].
    rewrite Hlor by done. eexists.
    destruct (Z.ltb_spec 16 nb) as [H16|H16].
    + destruct (Hrd 2%nat) as [R2 I2]; [lia|]. change (Z.of_nat 2) with 2 in R2. rewrite R2. cbn [mbind option_bind].
      rewrite Hlor by done. eexists. split_and!; [done..|]. rewrite Hshift. apply Hval.
      replace k with 3%nat by lia. cbn [seq fold_left]. lia.
    + eexists. split_and!; [done..|]. rewrite Hshift. apply Hval.
      replace k with 2%nat by lia. cbn [seq fold_left]. lia.
  - rewrite (proj2 (Z.ltb_ge 16 nb)) by lia. eexists _, _. split_and!; [done..|]. rewrite Hshift. apply Hval.
    replace k with 1%nat by lia. cbn [seq fold_left]. lia.
Qed.

Lemma per_put_many_bits_at B po src nb : po_at B po -> bytes src ->
  0 <= nb <= 8 * Z.of_nat (length src) ->
  put_done (B ++ take (Z.to_nat nb) (bitlist src)) (per_put_many_bits po src nb).
Proof.
  unfold per_put_many_bits. intros Hat Hb Hnb.
  assert (Hgen : forall fuel B po src nb, po_at B po -> bytes src -> 0 <= nb <= 8 * Z.of_nat (length src) ->
    (Z.to_nat nb < fuel)%nat -> put_done (B ++ take (Z.to_nat nb) (bitlist src)) (put_many_bits fuel po src nb)).
  { clear. induction fuel as [|fuel IH]; intros B po src nb Hat Hb Hnb Hf; [lia|]. cbn [put_many_bits].
    destruct (Z.eqb_spec nb 0) as [->|].
    { left. exists po. split; [done|]. by rewrite take_0, app_nil_r. }
    destruct (Z.leb_spec 24 nb).
    - destruct (octets_take3 src Hb) as (b0 & b1 & b2 & -> & -> & -> & Hv); [lia|]. cbn [mbind option_bind].
      pose proof (per_put_few_bits_at B po (Z.lor (Z.lor (Z.shiftl b0 16) (Z.shiftl b1 8)) b2) 24 Hat ltac:(lia)) as Hd.
      eapply put_done_bind; [exact Hd| |].
      2: { change (Z.to_nat 24) with 24%nat. rewrite Hv. apply prefix_app, prefix_take_le. lia. }
      intros po1 Hat1. change (Z.to_nat 24) with 24%nat in Hat1. rewrite Hv in Hat1.
      specialize (IH _ po1 (drop 3 src) (nb - 24) Hat1 (Forall_drop _ _ _ Hb)).
      rewrite length_drop, <- app_assoc in IH.
      replace (take (Z.to_nat nb) (bitlist src)) with
        (take 24 (bitlist src) ++ take (Z.to_nat (nb - 24)) (bitlist (drop 3 src))); [apply IH; lia|].
      rewrite bitlist_drop. change (8 * 3)%nat with 24%nat.
      rewrite <- (take_drop 24 (take (Z.to_nat nb) (bitlist src))), take_take, skipn_firstn_comm.
      f_equal; f_equal; lia.
    - destruct (put_last_value src nb Hb) as (b0 & v1 & v2 & -> & H1 & H2 & Hv); [lia|lia|].
      cbn [mbind option_bind]. rewrite H1. cbn [mbind option_bind]. rewrite H2. cbn [mbind option_bind].
      rewrite <- Hv. apply put_done_last, per_put_few_bits_at; [done|lia]. }
  apply Hgen; try done. lia.
Qed.

(** Numbers and lengths: what the code writes. *)
Lemma uper_put_length_at B po n : po_at B po -> 0 <= n ->
  (exists po', uper_put_length po n = Some (snd (length_code n), po') /\ po_at (B ++ fst (length_code n)) po') \/
  (exists po', uper_put_length po n = Some (-1, po') /\ refused (B ++ fst (length_code n))).
Proof.
  intros Hat Hn. unfold uper_put_length, length_code.
  destruct (Z.leb_spec n 127); [|destruct (Z.ltb_spec n 16384)]; cbn [fst snd].
  - destruct (per_put_few_bits_at B po n 8 Hat ltac:(lia)) as [(po' & -> & H')|(po' & -> & Hno)];
      cbn [mbind option_bind]; [left|right]; by eexists.
  - destruct (per_put_few_bits_at B po (Z.lor n 0x8000) 16 Hat ltac:(lia)) as [(po' & -> & H')|(po' & -> & Hno)];
      cbn [mbind option_bind]; [left|right]; by eexists.
  - assert ((if 4 <? Z.shiftr n 14 then 4 else Z.shiftr n 14) = Z.min (n / 16384) 4) as ->.
    { rewrite Z.shiftr_div_pow2 by lia. change (2 ^ 14) with 16384. destruct (Z.ltb_spec 4 (n / 16384)); lia. }
    destruct (per_put_few_bits_at B po (Z.lor 0xC0 (Z.min (n / 16384) 4)) 8 Hat ltac:(lia)) as [(po' & -> & H')|(po' & -> & Hno)];
      cbn [mbind option_bind]; [left|right]; eexists; (split; [|done]).
    + change (0 =? 0) with true. cbn iota. rewrite Z.shiftl_mul_pow2 by lia. change (2 ^ 14) with 16384.
      do 2 f_equal. lia.
    + done.
Qed.

Lemma uper_put_constrained_at B po v n : po_at B po -> 0 <= n <= 64 ->
  put_done (B ++ val_bits (Z.to_nat n) v) (uper_put_constrained_whole_number_u po v n).
Proof.
  intros Hat Hn. unfold uper_put_constrained_whole_number_u.
  assert (Hgen : forall fuel n v po B, po_at B po -> 0 <= n -> n <= 31 * (Z.of_nat fuel + 1) ->
    put_done (B ++ val_bits (Z.to_nat n) v) (put_constrained fuel po v n)).
  { clear. assert (Hu : forall v n, 0 <= n <= 31 -> val_bits (Z.to_nat n) (u32 v) = val_bits (Z.to_nat n) v).
    { intros v n Hn. apply list_eq. intros k. rewrite !lookup_val_bits. case_decide; [|done].
      rewrite testbit_uwrap, (proj2 (Z.ltb_lt _ 32)) by lia. done. }
    induction fuel as [|fuel IH]; intros n v po B Hat H0 H1; cbn [put_constrained].
    - rewrite (proj2 (Z.leb_le n 31)) by lia. rewrite <- Hu by lia. apply per_put_few_bits_at; [done|lia].
    - destruct (Z.leb_spec n 31); [rewrite <- Hu by lia; apply per_put_few_bits_at; [done|lia]|].
      replace (Z.to_nat n) with (Z.to_nat (n - 31) + 31)%nat by lia. rewrite val_bits_app, app_assoc.
      apply put_done_seq; [apply IH; [done|lia..]|]. intros po1 Hat1.
      change (val_bits 31 v) with (val_bits (Z.to_nat 31) v). rewrite <- (Hu v 31) by lia.
      apply per_put_few_bits_at; [done|lia]. }
  apply Hgen; [done|lia..].
Qed.

End output_spec.

(** ** Properties *)

(** With a sink that never refuses, an output operation succeeds. *)
Lemma put_done_total {K} `{HT : TotalSink K} B x :
  put_done B x -> exists po', x = Some (0, po') /\ po_at B po'.
Proof.
  intros [?|(po & _ & d & k & _ & _ & E & _)]; [done|]. destruct (outper_total d k) as [k' E']. congruence.
Qed.

(** A sink for the examples: it keeps all octets. *)
#[global] Instance list_sink : Sink (list Z) :=
  {| outper d k := Some (k ++ d); sink_bytes k := k; sink_inv _ := True; outper_inv _ _ _ _ _ _ := I;
     outper_bytes d k k' H := eq_sym (f_equal (default []) H) |}.
#[global] Instance list_sink_total : TotalSink (list Z).
Proof. intros d k. by eexists. Defined.

(** An output stream as [uper_encode_internal] initialises it. *)
Definition fresh_outp {K} (tmp : list Z) (k : K) : asn_per_outp_t K :=
  {| out_buffer := Some 0; out_nboff := 0; out_nbits := 8 * sizeof_tmpspace; tmpspace := tmp;
     op_key := k; flushed_bytes := 0 |}.

Lemma fresh_outp_at {K} `{Sink K} tmp k :
  bytes tmp -> length tmp = 32%nat -> sink_bytes k = [] -> sink_inv k -> po_at [] (fresh_outp tmp k).
Proof.
  intros Hb Hl Hk Hi. split; [split|].
  - done.
  - done.
  - done.
  - done.
  - cbn [fresh_outp out_nboff out_nbits]. unfold sizeof_tmpspace. lia.
  - cbn [fresh_outp flushed_bytes op_key]. by rewrite Hk.
  - exact Hi.
  - cbn [fresh_outp op_key]. by rewrite Hk.
  - unfold out_bits. cbn [fresh_outp op_key tmpspace out_nboff]. rewrite Hk. apply take_0.
Qed.

Definition sample_outp : asn_per_outp_t (list Z) := fresh_outp (replicate 32 0xA5) [].
Lemma sample_outp_at : po_at [] sample_outp.
Proof. apply fresh_outp_at; [apply bytes_replicate; done|done|done|done]. Qed.

(** Bits written by [per_put_few_bits] come out of [per_get_few_bits]: up to
    31 bits at any position of either stream, whatever follows; a stream that
    does not hold enough bits gives -1 and is left where it was. *)
Theorem per_few_bits_roundtrip {K} `{TotalSink K} B (po : asn_per_outp_t K) v n :
  po_at B po -> 0 <= n <= 31 ->
  exists po' bs, per_put_few_bits po v n = Some (0, po') /\ po_at (B ++ bs) po' /\
    Z.of_nat (length bs) = n /\
    (forall pd L, pd_at (bs ++ L) pd ->
       exists pd', per_get_few_bits pd n = Some (v mod 2 ^ n, pd') /\ pd_at L pd') /\
    (forall pd L, pd_at L pd -> Z.of_nat (length L) < n -> per_get_few_bits pd n = Some (-1, pd)).
Proof.
  intros Hat Hn. destruct (put_done_total _ _ (per_put_few_bits_at B po v n Hat Hn)) as (po' & Hp & Hat').
  exists po', (val_bits (Z.to_nat n) v). split_and!; [done|done|rewrite length_val_bits; lia| |].
  - intros pd L Hpd. destruct (per_get_few_bits_at L pd n _ Hpd) as (pd' & Hg & Hpd' & _);
      [rewrite length_val_bits; lia|lia|].
    exists pd'. split; [|done]. by rewrite bits_val_val_bits, Z2Nat.id in Hg by lia.
  - intros pd L Hpd Hl. by apply (per_get_few_bits_short_stream L).
Qed.

Lemma per_few_bits_roundtrip_witness :
  exists po' bs, per_put_few_bits sample_outp 0x2B67 29 = Some (0, po') /\ po_at ([] ++ bs) po' /\
    Z.of_nat (length bs) = 29 /\
    (forall pd L, pd_at (bs ++ L) pd ->
       exists pd', per_get_few_bits pd 29 = Some (0x2B67 mod 2 ^ 29, pd') /\ pd_at L pd') /\
    (forall pd L, pd_at L pd -> Z.of_nat (length L) < 29 -> per_get_few_bits pd 29 = Some (-1, pd)).
Proof. apply (per_few_bits_roundtrip [] sample_outp 0x2B67 29); [apply sample_outp_at|lia]. Defined.

(** Bit strings of any length: [per_put_many_bits] writes the first [n] bits of
    the octets; [per_get_many_bits] returns them left aligned with zero bits
    behind, or right aligned with zero bits in front. *)
Theorem per_many_bits_roundtrip {K} `{TotalSink K} B (po : asn_per_outp_t K) src n :
  po_at B po -> bytes src -> 0 <= n <= 8 * Z.of_nat (length src) ->
  exists po' bs, per_put_many_bits po src n = Some (0, po') /\ po_at (B ++ bs) po' /\
    bs = take (Z.to_nat n) (bitlist src) /\
    forall pd L, pd_at (bs ++ L) pd ->
      (exists dst pd', per_get_many_bits pd false n = Some (0, dst, pd') /\ pd_at L pd' /\
         bitlist dst = bs ++ replicate (pad_of (Z.to_nat n)) false) /\
      (exists dst pd', per_get_many_bits pd true n = Some (0, dst, pd') /\ pd_at L pd' /\
         bitlist dst = replicate (pad_of (Z.to_nat n)) false ++ bs).
Proof.
  intros Hat Hb Hn. destruct (put_done_total _ _ (per_put_many_bits_at B po src n Hat Hb Hn)) as (po' & Hp & Hat').
  exists po', (take (Z.to_nat n) (bitlist src)). split_and!; [done..|].
  assert (Hl : length (take (Z.to_nat n) (bitlist src)) = Z.to_nat n) by (rewrite length_take, length_bitlist; lia).
  intros pd L Hpd. split.
  - destruct (per_get_many_bits_left L pd _ Hpd) as (dst & pd' & Hg & Hpd' & _ & Hd).
    rewrite Hl, Z2Nat.id in * by lia. by exists dst, pd'.
  - destruct (per_get_many_bits_right L pd _ Hpd) as (dst & pd' & Hg & Hpd' & _ & Hd).
    rewrite Hl, Z2Nat.id in * by lia. by exists dst, pd'.
Qed.

Lemma per_many_bits_roundtrip_witness :
  exists po' bs, per_put_many_bits sample_outp [0xDE; 0xAD; 0xBE; 0xEF] 29 = Some (0, po') /\
    po_at ([] ++ bs) po' /\ bs = take (Z.to_nat 29) (bitlist [0xDE; 0xAD; 0xBE; 0xEF]) /\
    forall pd L, pd_at (bs ++ L) pd ->
      (exists dst pd', per_get_many_bits pd false 29 = Some (0, dst, pd') /\ pd_at L pd' /\
         bitlist dst = bs ++ replicate (pad_of (Z.to_nat 29)) false) /\
      (exists dst pd', per_get_many_bits pd true 29 = Some (0, dst, pd') /\ pd_at L pd' /\
         bitlist dst = replicate (pad_of (Z.to_nat 29)) false ++ bs).
Proof.
  apply (per_many_bits_roundtrip [] sample_outp [0xDE; 0xAD; 0xBE; 0xEF] 29);
    [apply sample_outp_at|repeat constructor; done|done].
Defined.

(** The length determinant: the units announced by [uper_put_length] are those
    [uper_get_length] returns, with [repeat] set exactly when the length is 16384
    or more; below that the whole length is announced, else a multiple of 16384
    of at most 65536. *)
Theorem uper_length_roundtrip {K} `{TotalSink K} B (po : asn_per_outp_t K) n :
  po_at B po -> 0 <= n ->
  exists po' bs units, uper_put_length po n = Some (units, po') /\ po_at (B ++ bs) po' /\
    (n < 16384 -> units = n) /\ (16384 <= n -> units = 16384 * Z.min (n / 16384) 4) /\
    forall pd L, pd_at (bs ++ L) pd ->
      exists pd', uper_get_length pd (-1) = Some (units, 16384 <=? n, pd') /\ pd_at L pd'.
Proof.
  intros Hat Hn. destruct (uper_put_length_at B po n Hat Hn) as [(po' & Hp & Hat')|(po' & _ & d & k & _ & _ & E & _)].
  2: { destruct (outper_total d k) as [k' E']. congruence. }
  exists po', (fst (length_code n)), (snd (length_code n)). split_and!; [done|done|..].
  - intros Hlt. unfold length_code. destruct (n <=? 127); [done|]. by rewrite (proj2 (Z.ltb_lt n 16384)).
  - intros Hge. unfold length_code. by rewrite (proj2 (Z.leb_gt n 127)), (proj2 (Z.ltb_ge n 16384)) by lia.
  - intros pd L Hpd. by apply uper_get_length_general.
Qed.

Lemma uper_length_roundtrip_witness :
  exists po' bs units, uper_put_length sample_outp 70000 = Some (units, po') /\ po_at ([] ++ bs) po' /\
    (70000 < 16384 -> units = 70000) /\ (16384 <= 70000 -> units = 16384 * Z.min (70000 / 16384) 4) /\
    forall pd L, pd_at (bs ++ L) pd ->
      exists pd', uper_get_length pd (-1) = Some (units, 16384 <=? 70000, pd') /\ pd_at L pd'.
Proof. apply (uper_length_roundtrip [] sample_outp 70000); [apply sample_outp_at|lia]. Defined.

(** Constrained whole numbers of up to 64 bits, in halves of 31 bits. *)
Theorem uper_constrained_roundtrip {K} `{TotalSink K} B (po : asn_per_outp_t K) v n :
  po_at B po -> 0 <= n <= 64 -> 0 <= v < 2 ^ n ->
  exists po' bs, uper_put_constrained_whole_number_u po v n = Some (0, po') /\ po_at (B ++ bs) po' /\
    Z.of_nat (length bs) = n /\
    forall pd L, pd_at (bs ++ L) pd ->
      exists pd', uper_get_constrained_whole_number pd n = Some (Some v, pd') /\ pd_at L pd'.
Proof.
  intros Hat Hn Hv. destruct (put_done_total _ _ (uper_put_constrained_at B po v n Hat Hn)) as (po' & Hp & Hat').
  exists po', (val_bits (Z.to_nat n) v). split_and!; [done|done|rewrite length_val_bits; lia|].
  intros pd L Hpd. by apply uper_get_constrained_at.
Qed.

Lemma uper_constrained_roundtrip_witness :
  exists po' bs, uper_put_constrained_whole_number_u sample_outp (2 ^ 63 + 5) 64 = Some (0, po') /\
    po_at ([] ++ bs) po' /\ Z.of_nat (length bs) = 64 /\
    forall pd L, pd_at (bs ++ L) pd ->
      exists pd', uper_get_constrained_whole_number pd 64 = Some (Some (2 ^ 63 + 5), pd') /\ pd_at L pd'.
Proof. apply (uper_constrained_roundtrip [] sample_outp (2 ^ 63 + 5) 64); [apply sample_outp_at|lia|lia]. Defined.

(** Octets of a normally small number of 64 or more. *)
Definition nsnnwn_octets (n : Z) : Z := if n <? 256 then 1 else if n <? 65536 then 2 else 3.

Lemma uper_put_nsnnwn_at {K} `{Sink K} B (po : asn_per_outp_t K) n : po_at B po -> 0 <= n < 2 ^ 24 ->
  put_done (B ++ if n <=? 63 then val_bits 7 n
                 else val_bits 8 (nsnnwn_octets n) ++ val_bits (Z.to_nat (8 * nsnnwn_octets n)) n)
    (uper_put_nsnnwn po n).
Proof.
  intros Hat Hn. unfold uper_put_nsnnwn, nsnnwn_octets. destruct (Z.leb_spec n 63).
  { rewrite (proj2 (Z.ltb_ge n 0)) by lia. by apply (per_put_few_bits_at B po n 7). }
  assert (Hput : forall k, 1 <= k <= 3 -> put_done (B ++ val_bits 8 k ++ val_bits (Z.to_nat (8 * k)) n)
    ('(r, po1) ← per_put_few_bits po k 8;
     if negb (r =? 0) then Some (-1, po1) else per_put_few_bits po1 n (8 * k))).
  { intros k Hk. rewrite app_assoc. apply put_done_seq; [apply (per_put_few_bits_at B po k 8 Hat); lia|].
    intros po1 Hat1. apply per_put_few_bits_at; [exact Hat1|lia]. }
  destruct (Z.ltb_spec n 256); [by apply Hput|]. destruct (Z.ltb_spec n 65536); [by apply Hput|].
  rewrite (proj2 (Z.ltb_lt n _)) by lia. by apply Hput.
Qed.

(** Normally small numbers are read back up to 63; from 64 on the writer leaves
    out the bit that announces the long form, and the reader returns half the
    number of octets, 0 or 1, instead of the number. *)
Theorem uper_nsnnwn_long_form_mismatch {K} `{TotalSink K} B (po : asn_per_outp_t K) n :
  po_at B po -> 0 <= n < 2 ^ 24 ->
  exists po' bs, uper_put_nsnnwn po n = Some (0, po') /\ po_at (B ++ bs) po' /\
    forall pd L, pd_at (bs ++ L) pd ->
      exists pd', uper_get_nsnnwn pd = Some (if n <=? 63 then n else nsnnwn_octets n / 2, pd') /\
        (64 <= n -> nsnnwn_octets n / 2 < n).
Proof.
  intros Hat Hn. destruct (put_done_total _ _ (uper_put_nsnnwn_at B po n Hat Hn)) as (po' & Hp & Hat').
  eexists po', _. split_and!; [done|exact Hat'|]. intros pd L. destruct (Z.leb_spec n 63); intros Hpd.
  - destruct (uper_get_nsnnwn_at L pd n) as (pd' & Hg & _); [lia| |].
    { unfold nsnnwn_code. by rewrite (proj2 (Z.leb_le n 63)). }
    exists pd'. split; [done|lia].
  - assert (Ho : 1 <= nsnnwn_octets n <= 3).
    { unfold nsnnwn_octets. destruct (n <? 256), (n <? 65536); lia. }
    change (val_bits 8 (nsnnwn_octets n)) with (val_bits (7 + 1) (nsnnwn_octets n)) in Hpd.
    rewrite val_bits_app, <- !app_assoc in Hpd. unfold uper_get_nsnnwn.
    destruct (per_get_few_bits_at _ _ 7 _ Hpd) as (pd1 & -> & _ & _); [done|lia|]. cbn [mbind option_bind].
    rewrite Z.shiftr_div_pow2 by lia. change (2 ^ Z.of_nat 1) with 2.
    assert (0 <= nsnnwn_octets n / 2 < 2) by (split; [apply Z.div_pos|apply Z.div_lt_upper_bound]; lia).
    rewrite bits_val_small by (simpl; lia). exists pd1. split; [|lia].
    assert (nsnnwn_octets n / 2 = 0 \/ nsnnwn_octets n / 2 = 1) as [-> | ->] by lia; done.
Qed.

Lemma uper_nsnnwn_long_form_mismatch_witness :
  exists po' bs, uper_put_nsnnwn sample_outp 300 = Some (0, po') /\ po_at ([] ++ bs) po' /\
    forall pd L, pd_at (bs ++ L) pd ->
      exists pd', uper_get_nsnnwn pd = Some (if 300 <=? 63 then 300 else nsnnwn_octets 300 / 2, pd') /\
        (64 <= 300 -> nsnnwn_octets 300 / 2 < 300).
Proof. apply (uper_nsnnwn_long_form_mismatch [] sample_outp 300); [apply sample_outp_at|lia]. Defined.

Lemma uper_put_nslength_at {K} `{Sink K} B (po : asn_per_outp_t K) n : po_at B po -> 1 <= n < 16384 ->
  put_done (B ++ if n <=? 64 then val_bits 7 (n - 1) else fst (length_code n)) (uper_put_nslength po n).
Proof.
  intros Hat Hn. unfold uper_put_nslength. destruct (Z.leb_spec n 64).
  - rewrite (proj2 (Z.eqb_neq n 0)) by lia.
    destruct (per_put_few_bits_at B po (n - 1) 7 Hat ltac:(lia)) as [(po' & -> & H')|(po' & -> & Hno)];
      cbn [mbind option_bind]; [left|right]; by eexists.
  - destruct (uper_put_length_at B po n Hat ltac:(lia)) as [(po' & -> & Hat')|(po' & -> & Hno)];
      cbn [mbind option_bind].
    + assert (snd (length_code n) = n) as ->.
      { unfold length_code. destruct (n <=? 127); [done|]. by rewrite (proj2 (Z.ltb_lt n 16384)) by lia. }
      rewrite Z.eqb_refl. left. by eexists.
    + rewrite (proj2 (Z.eqb_neq (-1) n)) by lia. right. by eexists.
Qed.

(** Normally small lengths are read back from 1 to 64; for 65 to 127 the bit that
    announces the general form is missing, and the reader returns about half the
    length. *)
Theorem uper_nslength_long_form_mismatch {K} `{TotalSink K} B (po : asn_per_outp_t K) n :
  po_at B po -> 1 <= n <= 127 ->
  exists po' bs, uper_put_nslength po n = Some (0, po') /\ po_at (B ++ bs) po' /\
    forall pd L, pd_at (bs ++ L) pd ->
      exists pd', uper_get_nslength pd = Some (if n <=? 64 then n else n / 2 + 1, pd') /\
        (65 <= n -> n / 2 + 1 < n).
Proof.
  intros Hat Hn. destruct (put_done_total _ _ (uper_put_nslength_at B po n Hat ltac:(lia))) as (po' & Hp & Hat').
  eexists po', _. split_and!; [done|exact Hat'|]. intros pd L. destruct (Z.leb_spec n 64); intros Hpd.
  - destruct (uper_get_nslength_at L pd n) as (pd' & Hg & _); [lia| |].
    { unfold nslength_code. by rewrite (proj2 (Z.leb_le n 64)). }
    exists pd'. split; [done|lia].
  - unfold length_code in Hpd. rewrite (proj2 (Z.leb_le n 127)) in Hpd by lia. cbn [fst] in Hpd.
    change (val_bits 8 n) with (val_bits (1 + (6 + 1)) n) in Hpd. rewrite !val_bits_app, <- !app_assoc in Hpd.
    unfold uper_get_nslength. destruct (per_get_few_bits_at _ _ 1 _ Hpd) as (pd1 & -> & Hpd1 & _); [done|lia|].
    cbn [mbind option_bind]. rewrite bits_val_val_bits, Z.shiftr_div_pow2 by lia.
    change (2 ^ Z.of_nat (6 + 1)) with 128. rewrite Z.div_small by lia.
    change (0 mod 2 ^ Z.of_nat 1 =? 0) with true. cbn iota.
    destruct (per_get_few_bits_at _ _ 6 _ Hpd1) as (pd2 & -> & Hpd2 & _); [done|lia|]. cbn [mbind option_bind].
    rewrite Z.shiftr_div_pow2 by lia. change (2 ^ Z.of_nat 1) with 2.
    assert (0 <= n / 2 < 64) by (split; [apply Z.div_pos|apply Z.div_lt_upper_bound]; lia).
    rewrite bits_val_small by (simpl; lia). rewrite (proj2 (Z.leb_gt _ 0)) by lia.
    exists pd2. split; [done|]. intros _. pose proof (Z.div_mod n 2). pose proof (Z.mod_pos_bound n 2). lia.
Qed.

Lemma uper_nslength_long_form_mismatch_witness :
  exists po' bs, uper_put_nslength sample_outp 100 = Some (0, po') /\ po_at ([] ++ bs) po' /\
    forall pd L, pd_at (bs ++ L) pd ->
      exists pd', uper_get_nslength pd = Some (if 100 <=? 64 then 100 else 100 / 2 + 1, pd') /\
        (65 <= 100 -> 100 / 2 + 1 < 100).
Proof. apply (uper_nslength_long_form_mismatch [] sample_outp 100); [apply sample_outp_at|lia]. Defined.
