(* ===== verification/AsnInteger.v ===== *)
(** * AsnInteger: the INTEGER type of the ASN.1 codec

    Model of [src/core/libs/supl/asn-supl/INTEGER.c] (conversions and the UPER
    codec) and of the UPER part of [NativeInteger.c]. An [INTEGER_t] is the list
    of its contents octets, [None] when [buf] is NULL. Allocation succeeds.
    Decoders return the value with [RC_OK] only: with another code the callers
    free the structure. *)
From S2P Require Import Prelude PerSupport.

Definition INTEGER_t := option (list Z).

(** Result codes of the decoders; [RC_WMORE] is what [_ASN_DECODE_STARVED] returns. *)
Inductive asn_dec_rval_code_e := RC_OK | RC_WMORE | RC_FAIL.

#[global] Instance asn_dec_rval_code_eq_dec : EqDecision asn_dec_rval_code_e.
Proof. solve_decision. Defined.

(** PER-visible constraint; [flags] as in [enum asn_per_constraint_flags]. *)
Record asn_per_constraint_t := {
  flags : Z;
  range_bits : Z;
  effective_bits : Z;
  lower_bound : Z;
  upper_bound : Z
}.

Definition APC_UNCONSTRAINED : Z := 0.
Definition APC_SEMI_CONSTRAINED : Z := 1.
Definition APC_CONSTRAINED : Z := 2.
Definition APC_EXTENSIBLE : Z := 4.

Definition has_flag (ct : asn_per_constraint_t) (f : Z) : bool := negb (Z.land (flags ct) f =? 0).

(** ** Conversions *)

(** Skipping the leading octets that only repeat the sign. *)
Fixpoint skip_leading (l : list Z) : list Z :=
  match l with
  | b :: (b1 :: _) as rest =>
      if ((b =? 0x00) && (Z.land b1 0x80 =? 0)) || ((b =? 0xff) && negb (Z.land b1 0x80 =? 0))
      then skip_leading rest else l
  | _ => l
  end.

(** The octets of an [int64_t], most significant first. *)
Definition long_octets (value : Z) : list Z :=
  (fun i => u8 (Z.shiftr value (8 * (7 - Z.of_nat i)))) <$> seq 0 8.

Definition asn_long2INTEGER (value : Z) : INTEGER_t := Some (skip_leading (long_octets value)).

Definition asn_ulong2INTEGER (value : Z) : INTEGER_t :=
  if value <=? 2 ^ 63 - 1 then asn_long2INTEGER value else Some (0 :: long_octets value).

(** [None] is the return value -1. *)
Definition asn_INTEGER2long (iptr : INTEGER_t) : option Z :=
  match iptr with
  | None => None
  | Some b0 =>
      let b := if 8 <? Z.of_nat (length b0) then skip_leading b0 else b0 in
      if 8 <? Z.of_nat (length b) then None
      else
        match b with
        | [] => Some 0
        | x :: _ =>
            let l := if negb (Z.shiftr x 7 =? 0) then -1 else 0 in
            Some (fold_left (fun l x => Z.lor (i64 (l * 256)) x) b l)
        end
  end.

(** Extra leading octets must be zero. *)
Fixpoint skip_zeros (size : nat) (b : list Z) : option (list Z) :=
  match size with
  | O => Some b
  | S n => match b with
           | x :: b' => if 8 <? Z.of_nat size then (if x =? 0 then skip_zeros n b' else None) else Some b
           | [] => Some b
           end
  end.

Definition asn_INTEGER2ulong (iptr : INTEGER_t) : option Z :=
  match iptr with
  | None => None
  | Some b0 =>
      b ← skip_zeros (length b0) b0;
      Some (fold_left (fun l x => Z.lor (u64 (Z.shiftl l 8)) x) b 0)
  end.

(** ** UPER *)

(** The loop over length-prefixed chunks of the decoder. *)
Fixpoint get_chunks (fuel : nat) (pd : asn_per_data_t) (st : list Z)
  : option (asn_dec_rval_code_e * list Z * asn_per_data_t) :=
  match fuel with
  | O => None
  | S f =>
      '(len, repeat, pd1) ← uper_get_length pd (-1);
      if len <? 0 then Some (RC_WMORE, [], pd1)
      else
        '(ret, dst, pd2) ← per_get_many_bits pd1 false (8 * len);
        if ret <? 0 then Some (RC_WMORE, [], pd2)
        else if (repeat : bool) then get_chunks f pd2 (st ++ dst) else Some (RC_OK, st ++ dst, pd2)
  end.

(** [#12.2.3, #12.2.4]: length-prefixed octets, moved by the lower bound. *)
Definition decode_octets (ct : option asn_per_constraint_t) (pd : asn_per_data_t)
  : option (asn_dec_rval_code_e * INTEGER_t * asn_per_data_t) :=
  let buf := match ct with
             | Some c => if has_flag c APC_SEMI_CONSTRAINED then [0] else []
             | None => []
             end in
  '(code, st, pd1) ← get_chunks (S (Z.to_nat (nbits pd))) pd buf;
  match code with
  | RC_OK =>
      match ct with
      | Some c =>
          if negb (lower_bound c =? 0) then
            match asn_INTEGER2long (Some st) with
            | None => Some (RC_FAIL, None, pd1)
            | Some value => Some (RC_OK, asn_long2INTEGER (i64 (value + lower_bound c)), pd1)
            end
          else Some (RC_OK, Some st, pd1)
      | None => Some (RC_OK, Some st, pd1)
      end
  | _ => Some (code, None, pd1)
  end.

(** The decoder after the extension bit: [#10.5.6] a field of the range, or octets. *)
Definition decode_value (unsigned : bool) (ct : option asn_per_constraint_t) (pd : asn_per_data_t)
  : option (asn_dec_rval_code_e * INTEGER_t * asn_per_data_t) :=
  match ct with
  | Some c =>
      if negb (flags c =? APC_UNCONSTRAINED) && (0 <=? range_bits c) then
        '(value, pd1) ←
          (if range_bits c =? 32 then
             '(hi, pd1) ← per_get_few_bits pd 16;
             if hi <? 0 then Some (-1, pd1)
             else
               '(lhalf, pd2) ← per_get_few_bits pd1 16;
               if lhalf <? 0 then Some (-1, pd2) else Some (Z.lor (Z.shiftl hi 16) lhalf, pd2)
           else per_get_few_bits pd (range_bits c));
        if value <? 0 then Some (RC_WMORE, None, pd1)
        else
          let v := i64 (value + lower_bound c) in
          Some (RC_OK, if unsigned then asn_ulong2INTEGER (u64 v) else asn_long2INTEGER v, pd1)
      else decode_octets ct pd
  | None => decode_octets ct pd
  end.

Definition INTEGER_decode_uper (unsigned : bool) (ct : option asn_per_constraint_t) (pd : asn_per_data_t)
  : option (asn_dec_rval_code_e * INTEGER_t * asn_per_data_t) :=
  match ct with
  | Some c =>
      if has_flag c APC_EXTENSIBLE then
        '(inext, pd1) ← per_get_few_bits pd 1;
        if inext <? 0 then Some (RC_WMORE, None, pd1)
        else decode_value unsigned (if negb (inext =? 0) then None else ct) pd1
      else decode_value unsigned ct pd
  | None => decode_value unsigned ct pd
  end.

Section encode.
Context {K : Type} `{Sink K}.

(** The loop over length-prefixed chunks of the encoder. *)
Fixpoint put_chunks (fuel : nat) (po : asn_per_outp_t K) (buf : list Z) : option (Z * asn_per_outp_t K) :=
  match buf with
  | [] => Some (0, po)
  | _ =>
      match fuel with
      | O => None
      | S f =>
          '(mayEncode, po1) ← uper_put_length po (Z.of_nat (length buf));
          if mayEncode <? 0 then Some (-1, po1)
          else
            '(r, po2) ← per_put_many_bits po1 buf (8 * mayEncode);
            if negb (r =? 0) then Some (-1, po2)
            else put_chunks f po2 (drop (Z.to_nat mayEncode) buf)
      end
  end.

(** The value and whether it is outside the root of the constraint. *)
Definition encode_range (unsigned : bool) (c : asn_per_constraint_t) (st : list Z) : option (Z * bool) :=
  if unsigned then
    uval ← asn_INTEGER2ulong (Some st);
    let lb := u64 (lower_bound c) in let ub := u64 (upper_bound c) in
    Some (i64 uval,
      if has_flag c APC_SEMI_CONSTRAINED then uval <? lb
      else if 0 <=? range_bits c then (uval <? lb) || (ub <? uval) else false)
  else
    value ← asn_INTEGER2long (Some st);
    Some (value,
      if has_flag c APC_SEMI_CONSTRAINED then value <? lower_bound c
      else if 0 <=? range_bits c then (value <? lower_bound c) || (upper_bound c <? value) else false).

(** The encoder after the range check: [#12.2.2] a field of the range, or the octets. *)
Definition encode_value (ct : option asn_per_constraint_t) (value : Z) (st : list Z) (po : asn_per_outp_t K)
  : option (Z * asn_per_outp_t K) :=
  match ct with
  | Some c =>
      if 0 <=? range_bits c then
        if range_bits c =? 32 then
          let v := i64 (value - lower_bound c) in
          '(r, po1) ← per_put_few_bits po (Z.shiftr v 1) 31;
          if negb (r =? 0) then Some (-1, po1)
          else
            '(r2, po2) ← per_put_few_bits po1 v 1;
            if negb (r2 =? 0) then Some (-1, po2) else Some (0, po2)
        else
          '(r, po1) ← per_put_few_bits po (i64 (value - lower_bound c)) (range_bits c);
          if negb (r =? 0) then Some (-1, po1) else Some (0, po1)
      else if negb (lower_bound c =? 0) then Some (-1, po)
      else put_chunks (length st) po st
  | None => put_chunks (length st) po st
  end.

(** [Some (-1, po)] is [_ASN_ENCODE_FAILED]. *)
Definition INTEGER_encode_uper (unsigned : bool) (ct0 : option asn_per_constraint_t) (st0 : INTEGER_t)
    (po0 : asn_per_outp_t K) : option (Z * asn_per_outp_t K) :=
  match st0 with
  | None | Some [] => Some (-1, po0)
  | Some st =>
      match ct0 with
      | None => encode_value None 0 st po0
      | Some c =>
          match encode_range unsigned c st with
          | None => Some (-1, po0)
          | Some (value, inext) =>
              if has_flag c APC_EXTENSIBLE then
                '(r, po1) ← per_put_few_bits po0 (Z.b2z inext) 1;
                if negb (r =? 0) then Some (-1, po1)
                else encode_value (if inext then None else Some c) value st po1
              else if inext then Some (-1, po0)
              else encode_value (Some c) value st po0
          end
      end
  end.

Definition NativeInteger_encode_uper (unsigned : bool) (ct : option asn_per_constraint_t) (native : Z)
    (po : asn_per_outp_t K) : option (Z * asn_per_outp_t K) :=
  INTEGER_encode_uper unsigned ct
    (if unsigned then asn_ulong2INTEGER (u64 native) else asn_long2INTEGER native) po.

End encode.

(** [native] is the previous contents of the destination. *)
Definition NativeInteger_decode_uper (unsigned : bool) (ct : option asn_per_constraint_t) (native : Z)
    (pd : asn_per_data_t) : option (asn_dec_rval_code_e * Z * asn_per_data_t) :=
  '(code, tmpint, pd1) ← INTEGER_decode_uper unsigned ct pd;
  match code with
  | RC_OK =>
      match (if unsigned then asn_INTEGER2ulong tmpint else asn_INTEGER2long tmpint) with
      | None => Some (RC_FAIL, native, pd1)
      | Some v => Some (RC_OK, i64 v, pd1)
      end
  | _ => Some (code, native, pd1)
  end.

(** ** Specification of the conversions *)

(** The number that contents octets denote. *)
Definition int_value (b : list Z) : Z := signed_val (bitlist b).

(** No leading octet that only repeats the sign (X.690, 8.3.2). *)
Definition redundant (x y : Z) : bool :=
  ((x =? 0x00) && (Z.land y 0x80 =? 0)) || ((x =? 0xff) && negb (Z.land y 0x80 =? 0)).

Definition minimal (b : list Z) : Prop :=
  match b with
  | [] => False
  | [_] => True
  | x :: y :: _ => redundant x y = false
  end.

Lemma bytes_cases (P : Z -> Prop) :
  Forall P (Z.of_nat <$> seq 0 256) -> forall x, is_byte x -> P x.
Proof. intros H x Hx. by apply (Z_small_cases P 256). Qed.

Lemma top_bit x : is_byte x ->
  negb (Z.land x 0x80 =? 0) = (128 <=? x) /\ negb (Z.shiftr x 7 =? 0) = (128 <=? x) /\
  byte_bits x = (128 <=? x) :: val_bits 7 x.
Proof.
  apply (bytes_cases (fun x => negb (Z.land x 0x80 =? 0) = (128 <=? x) /\
    negb (Z.shiftr x 7 =? 0) = (128 <=? x) /\ byte_bits x = (128 <=? x) :: val_bits 7 x)).
  apply (bool_decide_unpack _). vm_compute. exact I.
Qed.

(** The value of octets as an integer in base 256 with a signed first digit. *)
Lemma int_value_cons x b : is_byte x ->
  int_value (x :: b) = (if 128 <=? x then x - 256 else x) * 2 ^ (8 * Z.of_nat (length b)) + bits_val (bitlist b).
Proof.
  intros Hx. unfold int_value. rewrite bitlist_cons.
  destruct (top_bit x Hx) as (_ & _ & Ht). pose proof (bits_val_small 8 x Hx) as Hv.
  unfold byte_bits in *. rewrite Ht in Hv |- *. cbn [app]. rewrite signed_val_cons, bits_val_app, length_app, length_val_bits, length_bitlist.
  rewrite bits_val_cons, length_val_bits in Hv. change (2 ^ Z.of_nat 7) with 128 in Hv.
  rewrite Nat2Z.inj_add, Z.pow_add_r by lia. change (2 ^ Z.of_nat 7) with 128.
  replace (Z.of_nat (8 * length b)) with (8 * Z.of_nat (length b)) by lia.
  set (p := 2 ^ (8 * Z.of_nat (length b))). destruct (128 <=? x); cbn [Z.b2z] in *; nia.
Qed.

Lemma octets_val_range b : 0 <= bits_val (bitlist b) < 2 ^ (8 * Z.of_nat (length b)).
Proof.
  pose proof (bits_val_range (bitlist b)) as H. rewrite length_bitlist in H.
  by replace (8 * Z.of_nat (length b)) with (Z.of_nat (8 * length b)) by lia.
Qed.

Lemma octets_val_cons x b : is_byte x ->
  bits_val (bitlist (x :: b)) = x * 2 ^ (8 * Z.of_nat (length b)) + bits_val (bitlist b).
Proof.
  intros Hx. rewrite bitlist_cons, bits_val_app, length_bitlist. unfold byte_bits. rewrite bits_val_small by done.
  do 3 f_equal. lia.
Qed.

Lemma redundant_eq x y : is_byte y -> redundant x y = if 128 <=? y then x =? 255 else x =? 0.
Proof.
  intros Hy. destruct (top_bit y Hy) as (Ht & _). unfold redundant. rewrite <- Ht.
  destruct (Z.land y 128 =? 0); cbn [negb]; rewrite ?andb_true_r, ?andb_false_r, ?orb_false_r; done.
Qed.

Lemma redundant_value x y b : is_byte x -> is_byte y -> redundant x y = true ->
  int_value (x :: y :: b) = int_value (y :: b).
Proof.
  intros Hx Hy Hr. rewrite !int_value_cons, octets_val_cons by done. cbn [length].
  rewrite redundant_eq in Hr by done.
  replace (8 * Z.of_nat (S (length b))) with (8 + 8 * Z.of_nat (length b)) by lia. rewrite Z.pow_add_r by lia.
  change (2 ^ 8) with 256. set (p := 2 ^ (8 * Z.of_nat (length b))).
  unfold is_byte in *. destruct (Z.leb_spec 128 x), (Z.leb_spec 128 y); apply Z.eqb_eq in Hr; subst x; lia.
Qed.

Lemma skip_leading_spec b : bytes b -> b <> [] ->
  int_value (skip_leading b) = int_value b /\ bytes (skip_leading b) /\ minimal (skip_leading b) /\
  (length (skip_leading b) <= length b)%nat.
Proof.
  induction 1 as [|x b Hx Hb IH]; [done|]. intros _. destruct b as [|y b]; [split_and!; [done|by constructor|done|done]|].
  inversion Hb as [|?? Hy Hb']; subst. change (skip_leading (x :: y :: b)) with (if redundant x y then skip_leading (y :: b) else x :: y :: b).
  destruct (redundant x y) eqn:E.
  - destruct (IH ltac:(done)) as (H1 & H2 & H3 & H4). split_and!; [|done|done|cbn [length] in *; lia].
    rewrite H1. symmetry. by apply redundant_value.
  - split_and!; [done|by apply Forall_cons_2, Forall_cons_2|done|done].
Qed.

(** A minimal encoding of [n] octets needs them all. *)
Lemma minimal_large x b : bytes (x :: b) -> minimal (x :: b) -> b <> [] ->
  ~ (- 2 ^ (8 * Z.of_nat (length b) - 1) <= int_value (x :: b) < 2 ^ (8 * Z.of_nat (length b) - 1)).
Proof.
  intros Hb Hm Hne. destruct b as [|y b]; [done|]. cbn [minimal] in Hm. apply Forall_cons_1 in Hb as [Hx Hb].
  apply Forall_cons_1 in Hb as [Hy Hb]. rewrite int_value_cons, octets_val_cons by done. cbn [length].
  replace (8 * Z.of_nat (S (length b)) - 1) with (7 + 8 * Z.of_nat (length b)) by lia.
  replace (8 * Z.of_nat (S (length b))) with (8 + 8 * Z.of_nat (length b)) by lia. rewrite !Z.pow_add_r by lia.
  pose proof (octets_val_range b) as Hr. change (2 ^ 8) with 256. change (2 ^ 7) with 128.
  set (p := 2 ^ (8 * Z.of_nat (length b))) in *.
  rewrite redundant_eq in Hm by done.
  unfold is_byte in *.
  destruct (Z.leb_spec 128 x), (Z.leb_spec 128 y); apply Z.eqb_neq in Hm; nia.
Qed.

(** The conversion loops. *)
Lemma fold_long b : bytes b -> forall l, - 2 ^ (63 - 8 * Z.of_nat (length b)) <= l < 2 ^ (63 - 8 * Z.of_nat (length b)) ->
  (length b <= 7)%nat ->
  fold_left (fun l x => Z.lor (i64 (l * 256)) x) b l = l * 2 ^ (8 * Z.of_nat (length b)) + bits_val (bitlist b).
Proof.
  induction 1 as [|x b Hx Hb IH]; intros l Hl Hlen; [cbn; lia|]. cbn [fold_left length] in *.
  replace (63 - 8 * Z.of_nat (S (length b))) with (55 - 8 * Z.of_nat (length b)) in Hl by lia.
  replace (63 - 8 * Z.of_nat (length b)) with (8 + (55 - 8 * Z.of_nat (length b))) in IH by lia.
  rewrite (Z.pow_add_r 2 8) in IH by lia. change (2 ^ 8) with 256 in IH.
  assert (2 ^ (55 - 8 * Z.of_nat (length b)) <= 2 ^ 55) by (apply Z.pow_le_mono_r; lia).
  rewrite swrap_small by (change (2 ^ (64 - 1)) with (256 * 2 ^ 55); lia).
  change 256 with (2 ^ 8). rewrite lor_shifted by (unfold is_byte in Hx; lia). change (2 ^ 8) with 256.
  unfold is_byte in Hx. rewrite IH, octets_val_cons by (try lia; done).
  replace (8 * Z.of_nat (S (length b))) with (8 + 8 * Z.of_nat (length b)) by lia.
  rewrite Z.pow_add_r by lia. change (2 ^ 8) with 256. lia.
Qed.

(** Any number of octets: the value when it fits, an error when it does not. *)
Lemma INTEGER2long_value b :
  bytes b ->
  asn_INTEGER2long (Some b) =
  if decide (- 2 ^ 63 <= int_value b < 2 ^ 63) then Some (int_value b) else None.
Proof.
  intros Hb. unfold asn_INTEGER2long.
  set (c := if 8 <? Z.of_nat (length b) then skip_leading b else b).
  assert (Hc : bytes c /\ int_value c = int_value b /\ (c = [] <-> b = []) /\ ((8 < length c)%nat -> minimal c)).
  { unfold c. destruct (Z.ltb_spec 8 (Z.of_nat (length b))); [|split_and!; [done..|lia]].
    destruct (skip_leading_spec b Hb) as (H1 & H2 & H3 & H4); [by intros ->|].
    split_and!; [done..| |done]. split; [intros E; by rewrite E in H3|by intros ->]. }
  clearbody c. destruct Hc as (Hbc & <- & _ & Hm). clear b Hb.
  destruct c as [|x c].
  { cbn. by rewrite decide_True by lia. }
  apply Forall_cons_1 in Hbc as [Hx Hbc]. pose proof (octets_val_range c) as Hr.
  destruct (Z.ltb_spec 8 (Z.of_nat (length (x :: c)))) as [Hlen|Hlen].
  - cbn [length] in *. pose proof (minimal_large x c ltac:(by constructor) ltac:(apply Hm; lia)) as Hl.
    rewrite decide_False; [done|]. intros Hv. apply Hl; [intros ->; simpl in *; lia|].
    assert (2 ^ 63 <= 2 ^ (8 * Z.of_nat (length c) - 1)) by (apply Z.pow_le_mono_r; lia). lia.
  - cbn [length] in Hlen. destruct (top_bit x Hx) as (_ & Ht & _). rewrite Ht. cbn [fold_left].
    rewrite int_value_cons by done. set (d := if 128 <=? x then x - 256 else x).
    assert (Hd : Z.lor (i64 ((if 128 <=? x then -1 else 0) * 256)) x = d).
    { unfold d. unfold is_byte in Hx. destruct (Z.leb_spec 128 x); rewrite swrap_small by lia;
        change 256 with (2 ^ 8); rewrite lor_shifted by lia; lia. }
    rewrite Hd. assert (- 2 ^ 7 <= d < 2 ^ 7) by (unfold d, is_byte in *; destruct (Z.leb_spec 128 x); lia).
    assert (2 ^ 7 <= 2 ^ (63 - 8 * Z.of_nat (length c))) by (apply Z.pow_le_mono_r; lia).
    rewrite fold_long by (try done; lia). rewrite decide_True; [done|].
    assert (Hp : 2 ^ 63 = 2 ^ (63 - 8 * Z.of_nat (length c)) * 2 ^ (8 * Z.of_nat (length c))).
    { rewrite <- Z.pow_add_r by lia. f_equal. lia. }
    rewrite Hp. nia.
Qed.

Lemma signed_val_bits n v : (0 < n)%nat -> signed_val (val_bits n v) = swrap (Z.of_nat n) v.
Proof.
  intros Hn. destruct n as [|n]; [lia|]. cbn [val_bits]. rewrite signed_val_cons, bits_val_val_bits, length_val_bits.
  unfold swrap. replace (Z.of_nat (S n) - 1) with (Z.of_nat n) by lia.
  rewrite Nat2Z.inj_succ, Z.pow_succ_r by lia. set (p := 2 ^ Z.of_nat n).
  assert (0 < p) by (apply Z.pow_pos_nonneg; lia).
  rewrite (Z.mul_comm 2 p), Z.rem_mul_r by lia.
  replace (v + p) with (v + 1 * p) by lia. rewrite Z.mod_add, Z.div_add by lia.
  assert (Z.b2z (Z.testbit v (Z.of_nat n)) = (v / p) mod 2) as -> by (apply Z.testbit_spec'; lia).
  pose proof (Z.mod_pos_bound (v / p) 2 ltac:(lia)).
  rewrite Z.add_mod by lia. assert ((v / p) mod 2 = 0 \/ (v / p) mod 2 = 1) as [-> | ->] by lia;
    [change ((0 + 1 mod 2) mod 2) with 1|change ((1 + 1 mod 2) mod 2) with 0]; lia.
Qed.

Lemma long_octets_bits v : bitlist (long_octets v) = val_bits 64 v.
Proof.
  unfold long_octets. cbn [seq fmap list_fmap]. rewrite !bitlist_cons, !byte_bits_u8.
  change (val_bits 64 v) with (val_bits (8 + (8 + (8 + (8 + (8 + (8 + (8 + 8))))))) v).
  rewrite !val_bits_app. reflexivity.
Qed.

Lemma long_octets_bytes v : bytes (long_octets v).
Proof. unfold long_octets. apply Forall_fmap, list.Forall_forall. intros; apply u8_byte. Qed.

Lemma long2INTEGER_value v : - 2 ^ 63 <= v < 2 ^ 63 ->
  exists b, asn_long2INTEGER v = Some b /\ bytes b /\ minimal b /\ int_value b = v /\ (length b <= 8)%nat.
Proof.
  intros Hv. unfold asn_long2INTEGER.
  destruct (skip_leading_spec (long_octets v) (long_octets_bytes v)) as (H1 & H2 & H3 & H4); [done|].
  exists (skip_leading (long_octets v)). split_and!; [reflexivity|exact H2|exact H3| |exact H4].
  rewrite H1. unfold int_value. rewrite long_octets_bits, signed_val_bits by lia.
  change (Z.of_nat 64) with 64. apply swrap_small; lia.
Qed.

(** Reading octets as an unsigned number: zero octets in front are skipped. *)
Lemma fold_ulong b : bytes b -> forall l, 0 <= l < 2 ^ (64 - 8 * Z.of_nat (length b)) -> (length b <= 8)%nat ->
  fold_left (fun l x => Z.lor (u64 (Z.shiftl l 8)) x) b l = l * 2 ^ (8 * Z.of_nat (length b)) + bits_val (bitlist b).
Proof.
  induction 1 as [|x b Hx Hb IH]; intros l Hl Hlen; [cbn; lia|]. cbn [fold_left length] in *.
  replace (64 - 8 * Z.of_nat (S (length b))) with (56 - 8 * Z.of_nat (length b)) in Hl by lia.
  replace (64 - 8 * Z.of_nat (length b)) with (8 + (56 - 8 * Z.of_nat (length b))) in IH by lia.
  rewrite (Z.pow_add_r 2 8) in IH by lia. change (2 ^ 8) with 256 in IH.
  assert (2 ^ (56 - 8 * Z.of_nat (length b)) <= 2 ^ 56) by (apply Z.pow_le_mono_r; lia).
  rewrite Z.shiftl_mul_pow2, uwrap_small by lia. unfold is_byte in Hx.
  rewrite lor_shifted by lia. change (2 ^ 8) with 256.
  rewrite IH, octets_val_cons by (try lia; done).
  replace (8 * Z.of_nat (S (length b))) with (8 + 8 * Z.of_nat (length b)) by lia.
  rewrite Z.pow_add_r by lia. change (2 ^ 8) with 256. lia.
Qed.

Lemma skip_zeros_value b : bytes b -> bits_val (bitlist b) < 2 ^ 64 ->
  exists c, skip_zeros (length b) b = Some c /\ bytes c /\ (length c <= 8)%nat /\
    bits_val (bitlist c) = bits_val (bitlist b).
Proof.
  induction 1 as [|x b Hx Hb IH]; intros Hv; [exists []; split_and!; [done..|cbn; lia|done]|].
  cbn [skip_zeros length]. destruct (Z.ltb_spec 8 (Z.of_nat (S (length b)))) as [Hl|Hl].
  - rewrite octets_val_cons in Hv |- * by done. pose proof (octets_val_range b).
    assert (2 ^ 64 <= 2 ^ (8 * Z.of_nat (length b))) by (apply Z.pow_le_mono_r; lia).
    destruct (Z.eqb_spec x 0) as [->|]; [|unfold is_byte in Hx; nia].
    rewrite Z.mul_0_l, Z.add_0_l in *. by apply IH.
  - eexists. split_and!; [done|by constructor|cbn [length]; lia|done].
Qed.

Lemma INTEGER2ulong_value b : bytes b -> bits_val (bitlist b) < 2 ^ 64 ->
  asn_INTEGER2ulong (Some b) = Some (bits_val (bitlist b)).
Proof.
  intros Hb Hv. unfold asn_INTEGER2ulong. destruct (skip_zeros_value b Hb Hv) as (c & -> & Hc & Hl & <-).
  cbn [mbind option_bind]. f_equal. rewrite fold_ulong; [lia|done| |done].
  assert (2 ^ 0 <= 2 ^ (64 - 8 * Z.of_nat (length c))) by (apply Z.pow_le_mono_r; lia). lia.
Qed.

Lemma ulong2INTEGER_value v : 0 <= v < 2 ^ 64 ->
  exists b, asn_ulong2INTEGER v = Some b /\ bytes b /\ int_value b = v /\ bits_val (bitlist b) = v /\
    minimal b /\ (length b <= 9)%nat.
Proof.
  intros Hv. unfold asn_ulong2INTEGER. destruct (Z.leb_spec v (2 ^ 63 - 1)).
  - destruct (long2INTEGER_value v) as (b & -> & Hb & Hm & Hi & Hl); [lia|]. exists b. split_and!; try done; [|lia].
    destruct b as [|x b]; [done|]. apply Forall_cons_1 in Hb as [Hx Hb]. rewrite int_value_cons in Hi by done.
    rewrite octets_val_cons by done. pose proof (octets_val_range b). unfold is_byte in Hx.
    destruct (Z.leb_spec 128 x); [nia|done].
  - assert (Hu : bits_val (bitlist (long_octets v)) = v).
    { rewrite long_octets_bits, bits_val_val_bits. by apply Z.mod_small. }
    exists (0 :: long_octets v). pose proof (long_octets_bytes v) as Hb.
    split_and!; [done|by constructor|rewrite int_value_cons by done; cbn [Z.leb Z.compare]; lia
      |rewrite octets_val_cons by done; lia| |done].
    change (long_octets v) with (u8 (Z.shiftr v 56) :: drop 1 (long_octets v)) in Hb |- *. cbn [minimal].
    apply Forall_cons_1 in Hb as [Hy _]. rewrite redundant_eq by done.
    assert (128 <= Z.shiftr v 56 < 256).
    { rewrite Z.shiftr_div_pow2 by lia. split; [apply Z.div_le_lower_bound|apply Z.div_lt_upper_bound]; lia. }
    rewrite uwrap_small by lia. by rewrite (proj2 (Z.leb_le 128 _)) by lia.
Qed.

(** Conversions between [INTEGER] contents and machine integers. Octets of any
    length are read as an [int64_t] exactly when their value fits, with an error
    otherwise; every [int64_t] and every [uint64_t] is written as a minimal string
    of octets with its value, which reads back. *)
Theorem asn_INTEGER_conversions :
  (forall b, bytes b -> asn_INTEGER2long (Some b) =
     if decide (- 2 ^ 63 <= int_value b < 2 ^ 63) then Some (int_value b) else None) /\
  (forall v, - 2 ^ 63 <= v < 2 ^ 63 ->
     exists b, asn_long2INTEGER v = Some b /\ minimal b /\ int_value b = v /\
       asn_INTEGER2long (Some b) = Some v) /\
  (forall v, 0 <= v < 2 ^ 64 ->
     exists b, asn_ulong2INTEGER v = Some b /\ minimal b /\ int_value b = v /\
       asn_INTEGER2ulong (Some b) = Some v).
Proof.
  split_and!.
  - apply INTEGER2long_value.
  - intros v Hv. destruct (long2INTEGER_value v Hv) as (b & H1 & H2 & H3 & H4 & _). exists b.
    split_and!; try done. by rewrite INTEGER2long_value, H4, decide_True.
  - intros v Hv. destruct (ulong2INTEGER_value v Hv) as (b & H1 & H2 & H3 & H4 & H5 & _). exists b.
    split_and!; try done. rewrite INTEGER2ulong_value, H4 by (rewrite ?H4; try done; lia). done.
Qed.

(** ** Specification of the UPER codec *)

(** Contents octets as length-prefixed fragments (X.691, 10.9.3). *)
Fixpoint frag_code (fuel : nat) (buf : list Z) : list bool :=
  match fuel with
  | O => []
  | S f =>
      match buf with
      | [] => []
      | _ =>
          let '(code, units) := length_code (Z.of_nat (length buf)) in
          code ++ take (Z.to_nat (8 * units)) (bitlist buf) ++ frag_code f (drop (Z.to_nat units) buf)
      end
  end.

Lemma length_code_units n : 1 <= n -> 1 <= snd (length_code n) <= n /\
  (n < 16384 -> snd (length_code n) = n) /\
  (16384 <= n -> snd (length_code n) = 16384 * Z.min (n / 16384) 4).
Proof.
  intros Hn. unfold length_code. destruct (Z.leb_spec n 127); [|destruct (Z.ltb_spec n 16384)]; cbn [snd]; [lia|lia|].
  assert (1 <= n / 16384) by (apply Z.div_le_lower_bound; lia). pose proof (Z.mul_div_le n 16384). lia.
Qed.

Lemma length_code_nonnil n : (0 < length (fst (length_code n)))%nat.
Proof. unfold length_code. destruct (n <=? 127); [|destruct (n <? 16384)]; cbn [fst]; rewrite length_val_bits; lia. Qed.

Lemma frag_code_step f x buf : let n := Z.of_nat (length (x :: buf)) in
  frag_code (S f) (x :: buf) = fst (length_code n) ++
    take (Z.to_nat (8 * snd (length_code n))) (bitlist (x :: buf)) ++
    frag_code f (drop (Z.to_nat (snd (length_code n))) (x :: buf)).
Proof. cbv zeta. cbn [frag_code]. by destruct (length_code _). Qed.

Lemma put_chunks_at {K} `{Sink K} fuel : forall B (po : asn_per_outp_t K) buf,
  po_at B po -> bytes buf -> (length buf <= fuel)%nat ->
  put_done (B ++ frag_code fuel buf) (put_chunks fuel po buf).
Proof.
  induction fuel as [|f IH]; intros B po buf Hat Hb Hf; destruct buf as [|x buf]; try (cbn [length] in Hf; lia).
  1, 2: left; exists po; split; [done|]; cbn; by rewrite app_nil_r.
  rewrite frag_code_step. set (n := Z.of_nat (length (x :: buf))).
  assert (Hn : 1 <= n) by (unfold n; cbn [length]; lia).
  destruct (length_code_units n Hn) as (Hu & _).
  cbn [put_chunks]. fold n.
  destruct (uper_put_length_at B po n Hat ltac:(lia)) as [(po1 & -> & Hat1)|(po1 & -> & Hno)];
    cbn [mbind option_bind].
  2: { rewrite (proj2 (Z.ltb_lt (-1) 0)) by lia. right. eexists. split; [done|]. rewrite app_assoc. by apply refused_app. }
  rewrite (proj2 (Z.ltb_ge _ 0)) by lia. rewrite !app_assoc.
  apply put_done_seq; [apply (per_put_many_bits_at (B ++ fst (length_code n)) po1 (x :: buf)); [exact Hat1|done|unfold n in *; lia]|].
  intros po2 Hat2. apply IH; [exact Hat2|by apply Forall_drop|rewrite length_drop; lia].
Qed.

(** The chunk loop of the decoder on the fragments of [buf]: the octets when the last
    fragment is a short one, starvation when there is none to end the sequence. *)
Lemma get_chunks_at fuel f : forall L pd buf st,
  pd_at (frag_code f buf ++ L) pd -> bytes buf -> (length buf <= f)%nat ->
  (length (frag_code f buf ++ L) < fuel)%nat -> buf <> [] ->
  (Z.of_nat (length buf) mod 16384 <> 0 ->
     exists pd', get_chunks fuel pd st = Some (RC_OK, st ++ buf, pd') /\ pd_at L pd') /\
  (Z.of_nat (length buf) mod 16384 = 0 -> L = [] ->
     exists pd', get_chunks fuel pd st = Some (RC_WMORE, [], pd')).
Proof.
  revert f. induction fuel as [|fuel IH]; intros f L pd buf st Hpd Hb Hf Hfuel Hne; [lia|].
  destruct buf as [|x buf]; [done|]. destruct f as [|f]; [cbn [length] in Hf; lia|].
  rewrite frag_code_step in Hpd, Hfuel. set (n := Z.of_nat (length (x :: buf))) in *.
  assert (Hn : 1 <= n) by (unfold n; cbn [length]; lia).
  destruct (length_code_units n Hn) as (Hu & Hu1 & Hu2). pose proof (length_code_nonnil n) as Hnn.
  rewrite <- app_assoc in Hpd. destruct (uper_get_length_general _ pd n ltac:(lia) Hpd) as (pd1 & Hg & Hpd1).
  cbn [get_chunks]. rewrite Hg. cbn [mbind option_bind]. rewrite (proj2 (Z.ltb_ge _ 0)) by lia.
  rewrite <- app_assoc in Hpd1.
  destruct (per_get_many_bits_left _ _ _ Hpd1) as (dst & pd2 & Hm & Hpd2 & Hdb & Hdst).
  set (u := snd (length_code n)) in *.
  assert (Hlen : length (take (Z.to_nat (8 * u)) (bitlist (x :: buf))) = (8 * Z.to_nat u)%nat).
  { rewrite length_take, length_bitlist. unfold n in *. lia. }
  rewrite Hlen in Hm, Hdst. replace (Z.of_nat (8 * Z.to_nat u)) with (8 * u) in Hm by lia.
  rewrite Hm. cbn [mbind option_bind]. change (0 <? 0) with false. cbn iota.
  assert (Hd : dst = take (Z.to_nat u) (x :: buf)).
  { apply bitlist_inj; [done|by apply Forall_take|]. rewrite Hdst, bitlist_take.
    unfold pad_of. rewrite Nat.mul_comm, Nat.Div0.mod_mul. change (replicate _ false) with (@nil bool).
    rewrite app_nil_r. f_equal. lia. }
  subst dst. rewrite !length_app in Hfuel.
  destruct (Z.leb_spec 16384 n) as [Hge|Hlt].
  - set (rest := drop (Z.to_nat u) (x :: buf)) in *.
    assert (Hrest : Z.of_nat (length rest) = n - u) by (unfold rest; rewrite length_drop; unfold n; lia).
    assert (Hmod : Z.of_nat (length rest) mod 16384 = n mod 16384).
    { rewrite Hrest, Hu2 by done. replace (n - 16384 * Z.min (n / 16384) 4) with (n + (- Z.min (n / 16384) 4) * 16384) by lia.
      by rewrite Z.mod_add by lia. }
    assert (Hrb : bytes rest) by by apply Forall_drop.
    assert (Hrf : (length rest <= f)%nat) by (cbn [length] in *; lia).
    destruct (decide (rest = [])) as [Hnil|Hnn2].
    + rewrite Hnil in Hpd2, Hmod. cbn [length] in Hmod. split; [rewrite <- Hmod; done|]. intros _ ->.
      assert (frag_code f [] = []) as E by by destruct f. rewrite E in Hpd2. cbn [app] in Hpd2.
      destruct fuel as [|fuel]; [lia|]. cbn [get_chunks]. unfold uper_get_length. cbn [andb Z.leb Z.compare].
      rewrite (per_get_few_bits_short_stream [] pd2 8 Hpd2) by (cbn; lia). cbn [mbind option_bind].
      change (Z.land (-1) 128 =? 0) with false. change (Z.land (-1) 64 =? 0) with false. cbn. by eexists.
    + destruct (IH f L pd2 rest (st ++ take (Z.to_nat u) (x :: buf)) Hpd2 Hrb Hrf) as [H1 H2]; [|done|].
      { rewrite length_app. lia. }
      rewrite Hmod in H1, H2. rewrite <- app_assoc in H1. unfold rest in H1. rewrite take_drop in H1. done.
  - rewrite Hu1 in * by done. assert (drop (Z.to_nat n) (x :: buf) = []) as E.
    { apply drop_ge. unfold n. lia. }
    rewrite E in Hpd2. assert (frag_code f [] = []) as E2 by by destruct f. rewrite E2 in Hpd2.
    rewrite take_ge by (unfold n; lia). split; [intros _; by exists pd2|].
    rewrite Z.mod_small by lia. lia.
Qed.

(** An unconstrained INTEGER of any length survives the UPER codec, unless its
    length is a multiple of 16384 octets: the encoder then writes only fragments
    that announce another one, and the decoder waits for more input. *)
Theorem INTEGER_uper_fragments {K} `{TotalSink K} B (po : asn_per_outp_t K) unsigned st :
  po_at B po -> bytes st -> st <> [] ->
  exists po' bs, INTEGER_encode_uper unsigned None (Some st) po = Some (0, po') /\ po_at (B ++ bs) po' /\
    (Z.of_nat (length st) mod 16384 <> 0 -> forall pd L, pd_at (bs ++ L) pd ->
       exists pd', INTEGER_decode_uper unsigned None pd = Some (RC_OK, Some st, pd') /\ pd_at L pd') /\
    (Z.of_nat (length st) mod 16384 = 0 -> forall pd, pd_at bs pd ->
       exists pd', INTEGER_decode_uper unsigned None pd = Some (RC_WMORE, None, pd')).
Proof.
  intros Hat Hb Hne.
  destruct (put_done_total _ _ (put_chunks_at (length st) B po st Hat Hb (le_n _))) as (po' & Hp & Hat').
  exists po', (frag_code (length st) st). split_and!; [by destruct st|done|..].
  - intros Hmod pd L Hpd. pose proof Hpd as [Hok Hbits]. pose proof (length_pd_bits pd Hok) as HL.
    pose proof (pd_off pd Hok). rewrite Hbits in HL.
    destruct (get_chunks_at (S (Z.to_nat (nbits pd))) (length st) L pd st [] Hpd Hb) as [HA _]; [lia|lia|done|].
    destruct (HA Hmod) as (pd' & Hg & Hpd'). exists pd'. split; [|done].
    unfold INTEGER_decode_uper, decode_value, decode_octets. by rewrite Hg.
  - intros Hmod pd Hpd. pose proof Hpd as [Hok Hbits]. pose proof (length_pd_bits pd Hok) as HL.
    pose proof (pd_off pd Hok). rewrite Hbits in HL. rewrite <- (app_nil_r (frag_code _ _)) in Hpd, HL.
    destruct (get_chunks_at (S (Z.to_nat (nbits pd))) (length st) [] pd st [] Hpd Hb) as [_ HA]; [lia|lia|done|].
    destruct (HA Hmod eq_refl) as (pd' & Hg). exists pd'.
    unfold INTEGER_decode_uper, decode_value, decode_octets. by rewrite Hg.
Qed.

Lemma INTEGER_uper_fragments_witness :
  let st := [0x01; 0x00; 0x00; 0x00; 0x00; 0x00; 0x00; 0x00; 0x00; 0x00] in
  exists po' bs, INTEGER_encode_uper false None (Some st) sample_outp = Some (0, po') /\ po_at ([] ++ bs) po' /\
    (Z.of_nat (length st) mod 16384 <> 0 -> forall pd L, pd_at (bs ++ L) pd ->
       exists pd', INTEGER_decode_uper false None pd = Some (RC_OK, Some st, pd') /\ pd_at L pd') /\
    (Z.of_nat (length st) mod 16384 = 0 -> forall pd, pd_at bs pd ->
       exists pd', INTEGER_decode_uper false None pd = Some (RC_WMORE, None, pd')).
Proof.
  intros st. apply (INTEGER_uper_fragments [] sample_outp false st); [apply sample_outp_at| |done].
  repeat constructor; done.
Defined.

(** *** Machine integers *)

Lemma swrap_uwrap w z : 0 <= w -> swrap w (uwrap w z) = swrap w z.
Proof. intros Hw. unfold swrap, uwrap. by rewrite Z.add_mod_idemp_l by lia. Qed.

(** The value as the range check compares it. *)
Definition as_field (unsigned : bool) (v : Z) : Z := if unsigned then u64 v else v.

Definition in_root (unsigned : bool) (c : asn_per_constraint_t) (v : Z) : bool :=
  let f := as_field unsigned in
  if has_flag c APC_SEMI_CONSTRAINED then f (lower_bound c) <=? f v
  else if 0 <=? range_bits c then (f (lower_bound c) <=? f v) && (f v <=? f (upper_bound c)) else true.

Definition native_octets (unsigned : bool) (v : Z) : list Z :=
  default [] (if unsigned then asn_ulong2INTEGER (u64 v) else asn_long2INTEGER v).

(** The bits of an integer field. *)
Definition native_code (unsigned : bool) (ct : option asn_per_constraint_t) (v : Z) : list bool :=
  let o := native_octets unsigned v in
  match ct with
  | None => frag_code (length o) o
  | Some c =>
      let ext := negb (in_root unsigned c v) in
      (if has_flag c APC_EXTENSIBLE then [ext] else []) ++
      if negb ext && (0 <=? range_bits c) then val_bits (Z.to_nat (range_bits c)) (v - lower_bound c)
      else frag_code (length o) o
  end.

(** Constraints of the ASN.1 compiler: a range of up to 32 bits, or no finite
    range and lower bound zero. *)
Definition ct_wf (unsigned : bool) (ct : option asn_per_constraint_t) : Prop :=
  match ct with
  | None => True
  | Some c =>
      (0 <= range_bits c <= 32 /\ flags c <> APC_UNCONSTRAINED /\ has_flag c APC_SEMI_CONSTRAINED = false /\
       (if unsigned then 0 else - 2 ^ 63) <= lower_bound c <= upper_bound c /\
       upper_bound c < 2 ^ 63 /\ upper_bound c < lower_bound c + 2 ^ range_bits c) \/
      (range_bits c < 0 /\ lower_bound c = 0)
  end.

(** Values a constraint admits. *)
Definition encodable (unsigned : bool) (ct : option asn_per_constraint_t) (v : Z) : bool :=
  match ct with
  | None => true
  | Some c => in_root unsigned c v || has_flag c APC_EXTENSIBLE
  end.

Lemma native_octets_spec unsigned v : - 2 ^ 63 <= v < 2 ^ 63 ->
  let o := native_octets unsigned v in
  (if unsigned then asn_ulong2INTEGER (u64 v) else asn_long2INTEGER v) = Some o /\ bytes o /\
  o <> [] /\ (length o <= 9)%nat /\ int_value o = as_field unsigned v /\
  (unsigned = true -> bits_val (bitlist o) = u64 v).
Proof.
  intros Hv o. unfold o, native_octets, as_field. destruct unsigned.
  - destruct (ulong2INTEGER_value (u64 v) (uwrap_range 64 v ltac:(lia))) as (b & -> & H1 & H2 & H3 & H4 & H5).
    change (default [] (Some b)) with b. split_and!; try done. by intros ->.
  - destruct (long2INTEGER_value v Hv) as (b & -> & H1 & H2 & H3 & H4).
    change (default [] (Some b)) with b.
    split_and!; try done; [by intros ->|lia].
Qed.

Lemma i64_u64 v : - 2 ^ 63 <= v < 2 ^ 63 -> i64 (u64 v) = v.
Proof. intros Hv. rewrite swrap_uwrap by lia. apply swrap_small; lia. Qed.

(** Reading the contents octets back, with or without the octet a semi-constrained
    field has in front. *)
Lemma native_read unsigned v (lead : bool) :
  - 2 ^ 63 <= v < 2 ^ 63 -> (lead = true -> 0 <= as_field unsigned v) ->
  exists x, (if unsigned then asn_INTEGER2ulong (Some ((if lead then [0] else []) ++ native_octets unsigned v))
             else asn_INTEGER2long (Some ((if lead then [0] else []) ++ native_octets unsigned v))) = Some x /\
    i64 x = v.
Proof.
  intros Hv Hl. destruct (native_octets_spec unsigned v Hv) as (_ & Hb & Hne & Hlen & Hi & Hu).
  set (o := native_octets unsigned v) in *. destruct unsigned; cbn [as_field] in *.
  - specialize (Hu eq_refl). pose proof (uwrap_range 64 v ltac:(lia)) as Hr. exists (u64 v). split; [|by apply i64_u64].
    destruct lead; cbn [app].
    + rewrite INTEGER2ulong_value, octets_val_cons, Hu; [f_equal; lia|done|by constructor|].
      rewrite octets_val_cons, Hu by done. lia.
    + rewrite INTEGER2ulong_value, Hu; [done|done|]. rewrite Hu. lia.
  - exists v. split; [|apply swrap_small; lia].
    assert (int_value ((if lead then [0] else []) ++ o) = v) as E.
    { destruct lead; cbn [app]; [|done]. destruct o as [|y o]; [done|]. apply Forall_cons_1 in Hb as [Hy Hb].
      rewrite redundant_value; [done..|]. rewrite redundant_eq by done. specialize (Hl eq_refl).
      rewrite int_value_cons in Hi by done. pose proof (octets_val_range o). unfold is_byte in Hy.
      destruct (Z.leb_spec 128 y); [nia|done]. }
    rewrite INTEGER2long_value, E, decide_True; [done|lia|]. destruct lead; [by constructor|done].
Qed.

Lemma encode_range_native unsigned c v : - 2 ^ 63 <= v < 2 ^ 63 ->
  encode_range unsigned c (native_octets unsigned v) = Some (v, negb (in_root unsigned c v)).
Proof.
  intros Hv. destruct (native_octets_spec unsigned v Hv) as (_ & Hb & _ & _ & Hi & Hu).
  unfold encode_range, in_root, as_field in *. destruct unsigned.
  - pose proof (uwrap_range 64 v ltac:(lia)). rewrite INTEGER2ulong_value, Hu by (rewrite ?Hu; done || lia).
    cbn [mbind option_bind]. rewrite i64_u64 by done. do 2 f_equal.
    destruct (has_flag c _); [by rewrite Z.leb_antisym, negb_involutive|].
    destruct (0 <=? range_bits c); [|done]. by rewrite !(Z.leb_antisym), negb_andb, !negb_involutive.
  - rewrite INTEGER2long_value, Hi, decide_True by done. cbn [mbind option_bind]. do 2 f_equal.
    destruct (has_flag c _); [by rewrite Z.leb_antisym, negb_involutive|].
    destruct (0 <=? range_bits c); [|done]. by rewrite !(Z.leb_antisym), negb_andb, !negb_involutive.
Qed.

(** In range, the distance to the lower bound fits the field. *)
Lemma in_root_distance unsigned c v : - 2 ^ 63 <= v < 2 ^ 63 -> ct_wf unsigned (Some c) ->
  0 <= range_bits c -> in_root unsigned c v = true ->
  0 <= range_bits c <= 32 /\ flags c <> APC_UNCONSTRAINED /\ has_flag c APC_SEMI_CONSTRAINED = false /\
  0 <= v - lower_bound c < 2 ^ range_bits c.
Proof.
  intros Hv [(Hr & Hf & Hs & Hlb & Hub & Hd)|[? _]] Hr0 Hin; [|lia].
  unfold in_root in Hin. rewrite Hs, (proj2 (Z.leb_le 0 _)) in Hin by lia.
  apply andb_true_iff in Hin as [H1%Z.leb_le H2%Z.leb_le].
  assert (lower_bound c <= v <= upper_bound c); [|split_and!; [lia|lia|done|done|lia|lia]].
  unfold as_field in *. destruct unsigned; [|lia]. rewrite (uwrap_small 64 (lower_bound c)) in H1 by lia.
  rewrite (uwrap_small 64 (upper_bound c)) in H2 by lia.
  assert (E : v = u64 v); [|lia]. rewrite <- (i64_u64 v Hv) at 1. apply swrap_small; lia.
Qed.

Lemma encode_value_at {K} `{Sink K} B (po : asn_per_outp_t K) unsigned c v st :
  po_at B po -> - 2 ^ 63 <= v < 2 ^ 63 -> ct_wf unsigned (Some c) -> in_root unsigned c v = true -> bytes st ->
  put_done (B ++ if 0 <=? range_bits c then val_bits (Z.to_nat (range_bits c)) (v - lower_bound c)
                 else frag_code (length st) st) (encode_value (Some c) v st po).
Proof.
  intros Hat Hv Hwf Hin Hb. unfold encode_value. destruct (Z.leb_spec 0 (range_bits c)).
  - destruct (in_root_distance unsigned c v Hv Hwf) as (Hr & _ & _ & Hd); [done|done|].
    assert (2 ^ range_bits c <= 2 ^ 32) by (apply Z.pow_le_mono_r; lia).
    rewrite swrap_small by lia. set (x := v - lower_bound c) in *. destruct (Z.eqb_spec (range_bits c) 32) as [E|E].
    + rewrite E. change (Z.to_nat 32) with (31 + 1)%nat. rewrite val_bits_app, app_assoc.
      apply put_done_seq; [apply (per_put_few_bits_at B po (Z.shiftr x 1) 31 Hat); lia|].
      intros po1 Hat1. apply put_done_last, (per_put_few_bits_at _ po1 x 1 Hat1). lia.
    + apply put_done_last, per_put_few_bits_at; [done|lia].
  - assert (lower_bound c = 0) as -> by (destruct Hwf as [[? _]|[_ ?]]; [lia|done]).
    change (negb (0 =? 0)) with false. cbn iota. by apply put_chunks_at.
Qed.

Lemma NativeInteger_encode_at {K} `{Sink K} B (po : asn_per_outp_t K) unsigned ct v :
  po_at B po -> - 2 ^ 63 <= v < 2 ^ 63 -> ct_wf unsigned ct -> encodable unsigned ct v = true ->
  put_done (B ++ native_code unsigned ct v) (NativeInteger_encode_uper unsigned ct v po).
Proof.
  intros Hat Hv Hwf Henc. destruct (native_octets_spec unsigned v Hv) as (Ho & Hb & Hne & _ & _ & _).
  unfold NativeInteger_encode_uper. rewrite Ho. unfold native_code, INTEGER_encode_uper.
  set (o := native_octets unsigned v) in *. destruct o as [|y o'] eqn:Eo; [done|]. rewrite <- Eo in *. clear Eo.
  destruct ct as [c|]; [|by apply put_chunks_at].
  unfold o. rewrite encode_range_native by done. fold o. cbn [encodable] in Henc.
  destruct (has_flag c APC_EXTENSIBLE) eqn:Hext.
  - rewrite app_assoc. destruct (in_root unsigned c v) eqn:Hin; cbn [negb andb].
    + apply put_done_seq; [apply (per_put_few_bits_at B po (Z.b2z false) 1 Hat); lia|].
      intros po1 Hat1. by eapply encode_value_at.
    + apply put_done_seq; [apply (per_put_few_bits_at B po (Z.b2z true) 1 Hat); lia|].
      intros po1 Hat1. by apply put_chunks_at.
  - rewrite orb_false_r in Henc. rewrite Henc. cbn [negb andb app]. by eapply encode_value_at.
Qed.

(** Values outside a constraint that is not extensible are refused. *)
Lemma NativeInteger_encode_refused {K} `{Sink K} (po : asn_per_outp_t K) unsigned ct v :
  - 2 ^ 63 <= v < 2 ^ 63 -> encodable unsigned ct v = false ->
  NativeInteger_encode_uper unsigned ct v po = Some (-1, po).
Proof.
  intros Hv Henc. destruct (native_octets_spec unsigned v Hv) as (Ho & _ & Hne & _).
  unfold NativeInteger_encode_uper. rewrite Ho. unfold INTEGER_encode_uper.
  destruct ct as [c|]; [|done]. cbn [encodable] in Henc. apply orb_false_iff in Henc as [Hin Hext].
  destruct (native_octets unsigned v) as [|y o'] eqn:Eo; [done|]. rewrite <- Eo, encode_range_native, Hin, Hext by done. done.
Qed.

(** Decoding the octets of a machine integer. *)
Lemma get_chunks_native unsigned v L pd st : - 2 ^ 63 <= v < 2 ^ 63 ->
  let o := native_octets unsigned v in
  pd_at (frag_code (length o) o ++ L) pd ->
  exists pd', get_chunks (S (Z.to_nat (nbits pd))) pd st = Some (RC_OK, st ++ o, pd') /\ pd_at L pd'.
Proof.
  intros Hv o Hpd. destruct (native_octets_spec unsigned v Hv) as (_ & Hb & Hne & Hlen & _). fold o in Hb, Hne, Hlen.
  pose proof Hpd as [Hok Hbits]. pose proof (length_pd_bits pd Hok) as HL.
  pose proof (pd_off pd Hok). rewrite Hbits in HL.
  destruct (get_chunks_at (S (Z.to_nat (nbits pd))) (length o) L pd o st Hpd Hb) as [HA _]; [lia|lia|done|].
  apply HA. assert (0 < length o)%nat by (destruct o; [done|cbn [length]; lia]). rewrite Z.mod_small by lia. lia.
Qed.

(** What the conversion of a decoded field yields. *)
Definition field_read (unsigned : bool) (t : INTEGER_t) (v : Z) : Prop :=
  exists x, (if unsigned then asn_INTEGER2ulong t else asn_INTEGER2long t) = Some x /\ i64 x = v.

Lemma decode_octets_at unsigned ct v L pd :
  - 2 ^ 63 <= v < 2 ^ 63 ->
  (forall c, ct = Some c -> lower_bound c = 0 /\ in_root unsigned c v = true) ->
  pd_at (frag_code (length (native_octets unsigned v)) (native_octets unsigned v) ++ L) pd ->
  exists t pd', decode_octets ct pd = Some (RC_OK, t, pd') /\ field_read unsigned t v /\ pd_at L pd'.
Proof.
  intros Hv Hct Hpd. unfold decode_octets.
  set (lead := match ct with Some c => has_flag c APC_SEMI_CONSTRAINED | None => false end).
  replace (match ct with Some c => if has_flag c APC_SEMI_CONSTRAINED then [0] else [] | None => [] end)
    with (if lead then [0] else []) by (unfold lead; by destruct ct).
  destruct (get_chunks_native unsigned v L pd (if lead then [0] else []) Hv Hpd) as (pd' & -> & Hpd').
  cbn [mbind option_bind].
  exists (Some ((if lead then [0] else []) ++ native_octets unsigned v)), pd'. split_and!; [|apply native_read; [done|]|done].
  - destruct ct as [c|]; [|done]. destruct (Hct c eq_refl) as [-> _]. done.
  - unfold lead. destruct ct as [c|]; [|done]. destruct (Hct c eq_refl) as [Hlb Hin]. intros Hs.
    unfold in_root in Hin. rewrite Hs, Hlb in Hin. apply Z.leb_le in Hin. unfold as_field in *. by destruct unsigned.
Qed.

Lemma decode_value_at unsigned c v L pd :
  - 2 ^ 63 <= v < 2 ^ 63 -> ct_wf unsigned (Some c) -> in_root unsigned c v = true ->
  pd_at ((if 0 <=? range_bits c then val_bits (Z.to_nat (range_bits c)) (v - lower_bound c)
          else frag_code (length (native_octets unsigned v)) (native_octets unsigned v)) ++ L) pd ->
  exists t pd', decode_value unsigned (Some c) pd = Some (RC_OK, t, pd') /\ field_read unsigned t v /\ pd_at L pd'.
Proof.
  intros Hv Hwf Hin Hpd. unfold decode_value. destruct (Z.leb_spec 0 (range_bits c)).
  2: { rewrite andb_false_r. destruct Hwf as [[? _]|[_ Hlb]]; [lia|].
       apply decode_octets_at; [done| |done]. intros c' [= <-]. done. }
  destruct (in_root_distance unsigned c v Hv Hwf) as (Hr & Hf & _ & Hd); [done|done|].
  rewrite (proj2 (Z.eqb_neq (flags c) _)) by done. cbn [negb andb].
  assert (exists pd', (if range_bits c =? 32 then
             '(hi, pd1) ← per_get_few_bits pd 16;
             if hi <? 0 then Some (-1, pd1)
             else
               '(lhalf, pd2) ← per_get_few_bits pd1 16;
               if lhalf <? 0 then Some (-1, pd2) else Some (Z.lor (Z.shiftl hi 16) lhalf, pd2)
           else per_get_few_bits pd (range_bits c)) = Some (v - lower_bound c, pd') /\ pd_at L pd') as (pd' & -> & Hpd').
  { set (x := v - lower_bound c) in *. destruct (Z.eqb_spec (range_bits c) 32) as [E|E].
    - rewrite E in *. change (Z.to_nat 32) with (16 + 16)%nat in Hpd. rewrite val_bits_app, <- app_assoc in Hpd.
      assert (0 <= x / 2 ^ 16 < 2 ^ 16) by (split; [apply Z.div_pos; lia|apply Z.div_lt_upper_bound; lia]).
      pose proof (Z.mod_pos_bound x (2 ^ 16)).
      destruct (per_get_few_bits_at _ _ 16 _ Hpd) as (pd1 & -> & Hpd1 & _); [done|lia|]. cbn [mbind option_bind].
      rewrite Z.shiftr_div_pow2, bits_val_small by (simpl; lia). rewrite (proj2 (Z.ltb_ge _ 0)) by (simpl; lia).
      destruct (per_get_few_bits_at _ _ 16 _ Hpd1) as (pd2 & -> & Hpd2 & _); [done|lia|]. cbn [mbind option_bind].
      rewrite bits_val_val_bits. change (Z.of_nat 16) with 16. rewrite (proj2 (Z.ltb_ge _ 0)) by lia.
      exists pd2. split; [|done]. rewrite Z.shiftl_mul_pow2, lor_shifted by lia. do 2 f_equal.
      pose proof (Z.div_mod x (2 ^ 16)). lia.
    - destruct (per_get_few_bits_at _ _ (range_bits c) _ Hpd) as (pd1 & -> & Hpd1 & _); [rewrite length_val_bits; lia|lia|].
      rewrite bits_val_small by (rewrite Z2Nat.id; lia). by exists pd1. }
  cbn [mbind option_bind]. rewrite (proj2 (Z.ltb_ge _ 0)) by lia. rewrite Z.sub_add, swrap_small by lia.
  eexists _, pd'. split_and!; [done| |done]. destruct (native_octets_spec unsigned v Hv) as (Ho & _).
  destruct (native_read unsigned v false Hv) as (x & Hx & Hvx); [done|]. exists x. split; [|done].
  cbn [app] in Hx. destruct unsigned; by rewrite Ho.
Qed.

Lemma NativeInteger_decode_at unsigned ct v native L pd :
  - 2 ^ 63 <= v < 2 ^ 63 -> ct_wf unsigned ct -> encodable unsigned ct v = true ->
  pd_at (native_code unsigned ct v ++ L) pd ->
  exists pd', NativeInteger_decode_uper unsigned ct native pd = Some (RC_OK, v, pd') /\ pd_at L pd'.
Proof.
  intros Hv Hwf Henc Hpd. unfold NativeInteger_decode_uper.
  cut (exists t pd', INTEGER_decode_uper unsigned ct pd = Some (RC_OK, t, pd') /\ field_read unsigned t v /\ pd_at L pd').
  { intros (t & pd' & -> & (x & Hx & Hvx) & Hpd'). cbn [mbind option_bind]. rewrite Hx, Hvx. by exists pd'. }
  unfold INTEGER_decode_uper, native_code in *. destruct ct as [c|]; [|by apply decode_octets_at].
  cbn [encodable] in Henc. destruct (has_flag c APC_EXTENSIBLE).
  - rewrite <- app_assoc in Hpd. destruct (per_get_few_bits_at _ _ 1 _ Hpd) as (pd1 & -> & Hpd1 & _); [done|lia|].
    cbn [mbind option_bind]. destruct (in_root unsigned c v) eqn:Hin; cbn [negb andb bits_val fold_left Z.b2z] in *.
    + by apply decode_value_at.
    + by apply decode_octets_at.
  - rewrite orb_false_r in Henc. rewrite Henc in Hpd. cbn [negb andb app] in Hpd. by apply decode_value_at.
Qed.

(** *** Position of the stream after decoding *)

Lemma get_chunks_step fuel : forall pd st code st' pd', get_chunks fuel pd st = Some (code, st', pd') -> pd_step pd pd'.
Proof.
  induction fuel as [|fuel IH]; intros pd st code st' pd' H; [done|]. cbn [get_chunks] in H.
  destruct (uper_get_length pd (-1)) as [[[len rep] pd1]|] eqn:E1; [|done]. cbn [mbind option_bind] in H.
  apply uper_get_length_step in E1. destruct (len <? 0); [by simplify_eq|].
  destruct (per_get_many_bits pd1 false (8 * len)) as [[[ret dst] pd2]|] eqn:E2; [|done]. cbn [mbind option_bind] in H.
  apply per_get_many_bits_step in E2.
  destruct (ret <? 0); [simplify_eq; step_chain|]. destruct rep; [apply IH in H; step_chain|simplify_eq; step_chain].
Qed.

Lemma decode_octets_step ct pd code t pd' : decode_octets ct pd = Some (code, t, pd') -> pd_step pd pd'.
Proof.
  unfold decode_octets. destruct (get_chunks _ _ _) as [[[c st] pd1]|] eqn:E; [|done]. cbn [mbind option_bind].
  apply get_chunks_step in E. intros H. repeat (case_match; simplify_eq; try done).
Qed.

Lemma decode_value_step unsigned ct pd code t pd' :
  decode_value unsigned ct pd = Some (code, t, pd') -> pd_step pd pd'.
Proof.
  unfold decode_value. intros H. destruct ct as [c|]; [|by eapply decode_octets_step].
  destruct (negb _ && _); [|by eapply decode_octets_step]. destruct (range_bits c =? 32); step_bind; step_chain.
Qed.

Lemma INTEGER_decode_step unsigned ct pd code t pd' :
  INTEGER_decode_uper unsigned ct pd = Some (code, t, pd') -> pd_step pd pd'.
Proof.
  unfold INTEGER_decode_uper. intros H. destruct ct as [c|]; [|by eapply decode_value_step].
  destruct (has_flag c APC_EXTENSIBLE); [|by eapply decode_value_step]. step_bind; [step_chain|].
  apply decode_value_step in H. step_chain.
Qed.

Lemma NativeInteger_decode_step unsigned ct native pd code v pd' :
  NativeInteger_decode_uper unsigned ct native pd = Some (code, v, pd') -> pd_step pd pd'.
Proof.
  unfold NativeInteger_decode_uper. destruct (INTEGER_decode_uper unsigned ct pd) as [[[c t] pd1]|] eqn:E; [|done].
  cbn [mbind option_bind]. apply INTEGER_decode_step in E. intros H. repeat (case_match; simplify_eq; try done).
Qed.

(** A machine integer under a constraint of the ASN.1 compiler (a range of at most
    32 bits, semi-constrained from zero, or unconstrained; extensible or not;
    signed or unsigned): a value the constraint admits is written and read back
    whatever follows it in the stream, any other value is refused before a bit is
    written. *)
Theorem NativeInteger_uper_roundtrip {K} `{TotalSink K} B (po : asn_per_outp_t K) unsigned ct v :
  po_at B po -> - 2 ^ 63 <= v < 2 ^ 63 -> ct_wf unsigned ct ->
  if encodable unsigned ct v then
    exists po' bs, NativeInteger_encode_uper unsigned ct v po = Some (0, po') /\ po_at (B ++ bs) po' /\
      forall pd L native, pd_at (bs ++ L) pd ->
        exists pd', NativeInteger_decode_uper unsigned ct native pd = Some (RC_OK, v, pd') /\ pd_at L pd'
  else NativeInteger_encode_uper unsigned ct v po = Some (-1, po).
Proof.
  intros Hat Hv Hwf. destruct (encodable unsigned ct v) eqn:Henc; [|by apply NativeInteger_encode_refused].
  destruct (put_done_total _ _ (NativeInteger_encode_at B po unsigned ct v Hat Hv Hwf Henc)) as (po' & Hp & Hat').
  exists po', (native_code unsigned ct v). split_and!; [done..|]. intros pd L native Hpd. by apply NativeInteger_decode_at.
Qed.

(** A three-bit extensible range from -2, as the compiler writes it. *)
Definition sample_ct : asn_per_constraint_t :=
  {| flags := 6; range_bits := 3; effective_bits := 3; lower_bound := -2; upper_bound := 5 |}.

Lemma NativeInteger_uper_roundtrip_witness :
  (exists po' bs, NativeInteger_encode_uper false (Some sample_ct) (-70000) sample_outp = Some (0, po') /\
      po_at ([] ++ bs) po' /\
      forall pd L native, pd_at (bs ++ L) pd ->
        exists pd', NativeInteger_decode_uper false (Some sample_ct) native pd = Some (RC_OK, -70000, pd') /\ pd_at L pd').
Proof.
  apply (NativeInteger_uper_roundtrip [] sample_outp false (Some sample_ct) (-70000)); [apply sample_outp_at|lia|].
  left. split_and!; done.
Defined.
