(* ===== verification/PerSafe.v ===== *)
(** * PerSafe: readers on any input, writers into an accepting sink

    Two outcome predicates that the codecs of the types are composed with. [reads]: on a
    well-formed stream, whatever bits it holds, a reader returns (no access outside the
    buffer, no loop that does not end) and leaves a well-formed stream behind. [accepts]:
    a writer appends given bits whenever the sink does not refuse them. *)
From S2P Require Import Prelude PerSupport AsnInteger.

(** ** Readers *)

(** Bits that are left. *)
Definition pd_left (pd : asn_per_data_t) : Z := nbits pd - nboff pd.

Definition reads {A} (pd : asn_per_data_t) (x : option (A * asn_per_data_t)) (Q : A -> asn_per_data_t -> Prop) : Prop :=
  pd_ok pd -> exists a pd', x = Some (a, pd') /\ pd_step pd pd' /\ Q a pd'.

(** Readers never give bits back. *)
Lemma pd_step_left pd pd' : pd_ok pd -> pd_step pd pd' -> pd_left pd' <= pd_left pd.
Proof. intros Hok Hs. destruct (Hs Hok) as (_ & k & _ & _ & ? & ?). unfold pd_left. lia. Qed.

Lemma reads_ret {A} pd (a : A) (Q : A -> asn_per_data_t -> Prop) : Q a pd -> reads pd (Some (a, pd)) Q.
Proof. intros HQ _. by exists a, pd. Qed.

(** A reader that comes after what has been read from [pd] to [pd1]. *)
Lemma reads_from {A} pd pd1 (x : option (A * asn_per_data_t)) Q : pd_step pd pd1 -> reads pd1 x Q -> reads pd x Q.
Proof.
  intros Hs Hx Hok. destruct (Hs Hok) as [Hok1 _]. destruct (Hx Hok1) as (a & pd' & -> & Hs' & HQ).
  exists a, pd'. split_and!; [done|by etrans|done].
Qed.

Lemma reads_bind {A B} pd (x : option (A * asn_per_data_t)) (k : A * asn_per_data_t -> option (B * asn_per_data_t)) Q R :
  reads pd x Q -> (forall a pd', pd_ok pd' -> Q a pd' -> reads pd' (k (a, pd')) R) -> reads pd (x ≫= k) R.
Proof.
  intros Hx Hk Hok. destruct (Hx Hok) as (a & pd' & -> & Hs & HQ). cbn [mbind option_bind].
  apply (reads_from pd pd'); [done|by apply Hk, HQ; apply Hs|done].
Qed.

(** The same, with the bits that are left. *)
Lemma reads_bind_left {A B} pd (x : option (A * asn_per_data_t)) (k : A * asn_per_data_t -> option (B * asn_per_data_t)) Q R :
  reads pd x Q -> (forall a pd', pd_ok pd' -> pd_left pd' <= pd_left pd -> Q a pd' -> reads pd' (k (a, pd')) R) ->
  reads pd (x ≫= k) R.
Proof.
  intros Hx Hk Hok. destruct (Hx Hok) as (a & pd' & -> & Hs & HQ). cbn [mbind option_bind].
  apply (reads_from pd pd'); [done| |done]. apply Hk; [by apply Hs|by apply pd_step_left|done].
Qed.

Lemma reads_mono {A} pd (x : option (A * asn_per_data_t)) Q R :
  reads pd x Q -> (forall a pd', Q a pd' -> R a pd') -> reads pd x R.
Proof. intros Hx HQR Hok. destruct (Hx Hok) as (a & pd' & H1 & H2 & H3). exists a, pd'. auto. Qed.

Lemma reads_step {A} pd (x : option (A * asn_per_data_t)) Q a pd' :
  reads pd x Q -> x = Some (a, pd') -> pd_step pd pd'.
Proof. intros Hx E Hok. destruct (Hx Hok) as (a' & p' & E' & Hs & _). simplify_eq. by apply Hs. Qed.

Lemma reads_value {A} pd (x : option (A * asn_per_data_t)) Q a pd' :
  pd_ok pd -> reads pd x Q -> x = Some (a, pd') -> Q a pd'.
Proof. intros Hok Hx E. destruct (Hx Hok) as (a' & p' & E' & _ & HQ). by simplify_eq. Qed.

Lemma pd_at_self pd : pd_ok pd -> pd_at (pd_bits pd) pd.
Proof. by split. Qed.

Lemma pd_at_left L pd : pd_at L pd -> pd_left pd = Z.of_nat (length L).
Proof.
  intros [Hok <-]. rewrite length_pd_bits by done. pose proof (pd_off pd Hok). unfold pd_left. lia.
Qed.

(** A field, or -1 when there are not enough bits (or more than a field can have). *)
Definition few_bits (pd : asn_per_data_t) (n v : Z) (pd' : asn_per_data_t) : Prop :=
  (v = -1 /\ pd_left pd' = pd_left pd) \/ (0 <= n <= 31 /\ 0 <= v < 2 ^ n /\ pd_left pd' = pd_left pd - n).

Lemma per_get_few_bits_reads pd n : reads pd (per_get_few_bits pd n) (few_bits pd n).
Proof.
  intros Hok. pose proof (pd_off pd Hok). pose proof (length_pd_bits pd Hok) as HL.
  assert (Hfail : forall pd', per_get_few_bits pd n = Some (-1, pd') -> pd_left pd' = pd_left pd ->
    exists a p, per_get_few_bits pd n = Some (a, p) /\ pd_step pd p /\ few_bits pd n a p).
  { intros pd' E Hl. exists (-1), pd'. split_and!; [done|by eapply per_get_few_bits_step|by left]. }
  destruct (Z.ltb_spec n 0) as [Hn|Hn].
  { apply (Hfail pd); [|done]. unfold per_get_few_bits. cbn [get_few_bits]. by rewrite (proj2 (Z.ltb_lt n 0)). }
  destruct (Z.ltb_spec (pd_left pd) n) as [Hl|Hl].
  { apply (Hfail pd); [|done]. apply (per_get_few_bits_short_stream (pd_bits pd)); [by apply pd_at_self|].
    rewrite HL. unfold pd_left in Hl. lia. }
  destruct (Z.leb_spec n 31) as [H31|H31].
  - pose proof (pd_at_self pd Hok) as Hat. rewrite <- (take_drop (Z.to_nat n) (pd_bits pd)) in Hat.
    unfold pd_left in Hl. assert (Hlen : Z.of_nat (length (take (Z.to_nat n) (pd_bits pd))) = n) by (rewrite length_take; lia).
    destruct (per_get_few_bits_at _ _ n _ Hat Hlen H31) as (pd' & E & Hat' & _).
    exists (bits_val (take (Z.to_nat n) (pd_bits pd))), pd'. split_and!; [done|by eapply per_get_few_bits_step|right].
    pose proof (bits_val_range (take (Z.to_nat n) (pd_bits pd))) as Hr. rewrite Hlen in Hr.
    split_and!; [lia|lia|lia|lia|]. rewrite (pd_at_left _ _ Hat'), length_drop, HL. unfold pd_left. lia.
  - destruct (pd_normalize_ok pd Hok) as (Hok1 & _ & H8 & Hleft).
    apply (Hfail (pd_normalize pd)); [|done]. unfold per_get_few_bits. cbn [get_few_bits]. unfold pd_left in Hl.
    rewrite (proj2 (Z.ltb_ge n 0)), (proj2 (Z.ltb_ge (nbits pd - nboff pd) n)) by lia. cbn [nboff].
    rewrite (proj2 (Z.leb_gt _ 31)), (proj2 (Z.leb_gt n 31)) by lia.
    change {| buffer := buffer (pd_normalize pd); nboff := nboff (pd_normalize pd) + n; nbits := nbits (pd_normalize pd);
              moved := moved (pd_normalize pd) + n |} with (pd_advance (pd_normalize pd) n).
    by rewrite undo_advance by lia.
Qed.

(** Sequencing a reader whose outcome nothing depends on. *)
Lemma few_bits_bind {B} pd n (k : Z * asn_per_data_t -> option (B * asn_per_data_t)) R :
  (forall v pd', pd_ok pd' -> few_bits pd n v pd' -> reads pd' (k (v, pd')) R) -> reads pd (per_get_few_bits pd n ≫= k) R.
Proof. intros Hk. eapply reads_bind; [apply per_get_few_bits_reads|exact Hk]. Qed.

(** At most [n] bits have been read, and [dst] is what they fill. *)
Lemma get_many_loop_reads fuel : forall pd n, 0 <= n < Z.of_nat fuel ->
  reads pd (get_many_loop fuel pd n) (fun '(r, dst) pd' =>
    (r = -1 /\ pd_left pd' <= pd_left pd) \/
    (r = 0 /\ bytes dst /\ Z.of_nat (length dst) = (n + 7) / 8 /\ pd_left pd' = pd_left pd - n)).
Proof.
  induction fuel as [|fuel IH]; intros pd n Hn; [lia|]. cbn [get_many_loop].
  destruct (Z.eqb_spec n 0) as [->|Hn0].
  { apply reads_ret. right. split_and!; [done|constructor|done|lia]. }
  destruct (Z.leb_spec 24 n) as [H24|H24].
  - apply few_bits_bind. intros v pd' _ Hv. destruct (Z.ltb_spec v 0).
    { apply reads_ret. left. destruct Hv as [[_ ?]|(? & ? & ?)]; split; [done|lia|done|lia]. }
    destruct Hv as [[? _]|(_ & Hv & Hl)]; [lia|]. apply (reads_bind _ _ _ _ _ (IH pd' (n - 24) ltac:(lia))).
    intros [r rest] pd2 _ Hr. apply reads_ret. destruct Hr as [[-> ?]|(-> & Hb & Hlen & Hl2)]; [left; split; [done|lia]|right].
    split_and!; [done|by repeat (constructor; [apply u8_byte|])| |lia].
    cbn [app length]. replace (n + 7) with (n - 24 + 7 + 3 * 8) by lia. rewrite Z.div_add by lia. lia.
  - apply few_bits_bind. intros v pd' _ Hv. destruct (Z.ltb_spec v 0).
    { apply reads_ret. left. destruct Hv as [[_ ?]|(? & ? & ?)]; split; [done|lia|done|lia]. }
    destruct Hv as [[? _]|(_ & Hv & Hl)]; [lia|]. apply reads_ret. right.
    destruct (get_last_bits_spec (val_bits (Z.to_nat n) v) ltac:(rewrite length_val_bits; lia)) as [H1 H2].
    rewrite bits_val_val_bits, length_val_bits, Z2Nat.id, Z.mod_small in H1, H2 by lia.
    split_and!; [done|done| |done]. apply (f_equal length) in H1.
    rewrite length_bitlist, length_app, length_val_bits, length_replicate in H1.
    assert (n = 1 \/ 2 <= n) as Hc by lia. unfold pad_of in H1.
    pose proof (Nat.div_mod (Z.to_nat n) 8 ltac:(lia)) as Hdm. pose proof (Nat.mod_upper_bound (Z.to_nat n) 8 ltac:(lia)).
    destruct (decide (Z.to_nat n mod 8 = 0)%nat) as [E|E].
    + rewrite E in H1. change ((8 - 0) mod 8)%nat with 0%nat in H1.
      replace (n + 7) with (Z.of_nat (length (get_last_bits v n)) * 8 + 7) by lia.
      rewrite Z.div_add_l, Z.div_small by lia. lia.
    + rewrite (Nat.mod_small (8 - _)) in H1 by lia.
      replace (n + 7) with (Z.of_nat (length (get_last_bits v n)) * 8 + (Z.of_nat (Z.to_nat n mod 8) - 1)) by lia.
      rewrite Z.div_add_l, Z.div_small by lia. lia.
Qed.

Lemma per_get_many_bits_reads pd n : 0 <= n ->
  reads pd (per_get_many_bits pd false n) (fun '(r, dst) pd' =>
    (r = -1 /\ pd_left pd' <= pd_left pd) \/
    (r = 0 /\ bytes dst /\ Z.of_nat (length dst) = (n + 7) / 8 /\ pd_left pd' = pd_left pd - n)).
Proof. intros Hn. apply get_many_loop_reads. lia. Qed.

(** A length determinant: the announcement of another fragment takes 8 bits. *)
Lemma uper_get_length_reads pd ebits :
  reads pd (uper_get_length pd ebits) (fun '(len, rep) pd' =>
    pd_left pd' <= pd_left pd /\ len <= 65536 /\ (0 <= len -> rep = true -> 16384 <= len /\ pd_left pd' <= pd_left pd - 8)).
Proof.
  unfold uper_get_length. destruct (Z.leb_spec 0 ebits), (Z.leb_spec ebits 16); cbn [andb];
    try (apply few_bits_bind; intros v pd' _ Hv).
  1: { apply reads_ret. destruct Hv as [[-> Hl]|(? & ? & ?)]; [split_and!; [lia|lia|done]|].
       assert (2 ^ ebits <= 2 ^ 16) by (apply Z.pow_le_mono_r; lia). split_and!; [lia|lia|done]. }
  all: assert (Hle : pd_left pd' <= pd_left pd) by (destruct Hv as [[_ ?]|(? & ? & ?)]; lia).
  all: destruct (Z.land v 0x80 =? 0).
  1, 3, 5: apply reads_ret; split_and!; [lia| |done];
    pose proof (land_range_r 7 v 0x7F ltac:(lia) ltac:(lia)); lia.
  all: destruct (Z.land v 0x40 =? 0).
  1, 3, 5: apply few_bits_bind; intros v2 pd2 _ Hv2; apply reads_ret; split_and!; [|..|done];
    [destruct Hv2 as [[_ ?]|(? & ? & ?)]; lia|]; destruct Hv2 as [[-> _]|(_ & ? & _)];
    [rewrite Z.lor_m1_r; lia|];
    rewrite Z.shiftl_mul_pow2, lor_shifted by lia; pose proof (land_range_r 6 v 0x3f ltac:(lia) ltac:(lia)); lia.
  all: destruct (Z.ltb_spec v 0); [apply reads_ret; split_and!; [lia|lia|done]|].
  all: destruct Hv as [[? _]|(_ & _ & Hl)]; [lia|].
  all: destruct (Z.ltb_spec (Z.land v 0x3f) 1), (Z.ltb_spec 4 (Z.land v 0x3f)); cbn [orb]; apply reads_ret; split_and!; lia || done.
Qed.

Lemma uper_get_nslength_reads pd : reads pd (uper_get_nslength pd) (fun len _ => -1 <= len < 65536 + 1).
Proof.
  unfold uper_get_nslength. apply few_bits_bind. intros b pd1 _ _. destruct (b =? 0).
  - apply few_bits_bind. intros v pd2 _ Hv. destruct (Z.leb_spec (v + 1) 0); apply reads_ret; [lia|].
    destruct Hv as [[-> _]|(_ & Hv & _)]; lia.
  - apply (reads_bind _ _ _ _ _ (uper_get_length_reads pd1 (-1))). intros [len rep] pd2 _ (_ & Hl & _).
    destruct (Z.leb_spec 0 len), rep; cbn [andb negb]; apply reads_ret; lia.
Qed.

Lemma uper_get_nsnnwn_reads pd : reads pd (uper_get_nsnnwn pd) (fun v _ => -1 <= v).
Proof.
  unfold uper_get_nsnnwn. apply few_bits_bind. intros v pd1 _ Hv. destruct (negb _).
  - apply few_bits_bind. intros lo pd2 _ _. cbv zeta. case_match; [apply reads_ret; lia|]. case_match; [apply reads_ret; lia|].
    case_match; [apply reads_ret; lia|]. eapply reads_mono; [apply per_get_few_bits_reads|].
    intros x ? [[-> _]|(_ & ? & _)]; lia.
  - apply reads_ret. destruct Hv as [[-> _]|(_ & ? & _)]; lia.
Qed.

(** Fragments: every turn takes the bits of a length determinant. *)
Lemma get_chunks_reads fuel : forall pd st, bytes st -> pd_left pd < Z.of_nat fuel ->
  reads pd (get_chunks fuel pd st) (fun '(_, st') _ => bytes st').
Proof.
  induction fuel as [|fuel IH]; intros pd st Hst Hf.
  { intros Hok. pose proof (pd_off pd Hok). unfold pd_left in Hf. lia. }
  cbn [get_chunks]. apply (reads_bind _ _ _ _ _ (uper_get_length_reads pd (-1))).
  intros [len rep] pd1 _ (Hl & _ & Hrep). destruct (Z.ltb_spec len 0); [by apply reads_ret|].
  apply (reads_bind _ _ _ _ _ (per_get_many_bits_reads pd1 (8 * len) ltac:(lia))).
  intros [r dst] pd2 _ Hr. destruct (Z.ltb_spec r 0); [by apply reads_ret|].
  destruct Hr as [[-> _]|(-> & Hb & _ & Hl2)]; [lia|].
  destruct rep; [|apply reads_ret; by apply Forall_app].
  apply IH; [by apply Forall_app|]. specialize (Hrep ltac:(lia) eq_refl). lia.
Qed.

(** *** Integers *)

Lemma i64_range z : - 2 ^ 63 <= i64 z < 2 ^ 63.
Proof. unfold swrap. pose proof (Z.mod_pos_bound (z + 2 ^ (64 - 1)) (2 ^ 64)). lia. Qed.

Lemma decode_octets_reads ct pd : reads pd (decode_octets ct pd) (fun _ _ => True).
Proof.
  intros Hok. revert Hok. unfold decode_octets. intros Hok.
  refine (reads_bind _ _ _ _ _ (get_chunks_reads _ _ _ _ _) _ Hok).
  - destruct ct as [c|]; [|constructor]. destruct (has_flag c _); by repeat constructor.
  - pose proof (pd_off pd Hok). unfold pd_left. lia.
  - intros [[] st] pd1 _ _; repeat case_match; by apply reads_ret.
Qed.

Lemma decode_value_reads unsigned ct pd : reads pd (decode_value unsigned ct pd) (fun _ _ => True).
Proof.
  unfold decode_value. destruct ct as [c|]; [|apply decode_octets_reads].
  destruct (_ && _); [|apply decode_octets_reads].
  eapply (reads_bind _ _ _ (fun _ _ => True)).
  - destruct (range_bits c =? 32); [|by eapply reads_mono; [apply per_get_few_bits_reads|]].
    apply few_bits_bind. intros hi pd1 _ _. destruct (hi <? 0); [by apply reads_ret|].
    apply few_bits_bind. intros lo pd2 _ _. destruct (lo <? 0); by apply reads_ret.
  - intros v pd1 _ _. destruct (v <? 0); by apply reads_ret.
Qed.

Lemma INTEGER_decode_reads unsigned ct pd : reads pd (INTEGER_decode_uper unsigned ct pd) (fun _ _ => True).
Proof.
  unfold INTEGER_decode_uper. destruct ct as [c|]; [|apply decode_value_reads].
  destruct (has_flag c _); [|apply decode_value_reads].
  apply few_bits_bind. intros v pd1 _ _. destruct (v <? 0); [by apply reads_ret|]. apply decode_value_reads.
Qed.

Lemma NativeInteger_decode_reads unsigned ct native pd : - 2 ^ 63 <= native < 2 ^ 63 ->
  reads pd (NativeInteger_decode_uper unsigned ct native pd) (fun '(_, v) _ => - 2 ^ 63 <= v < 2 ^ 63).
Proof.
  intros Hn. unfold NativeInteger_decode_uper. apply (reads_bind _ _ _ _ _ (INTEGER_decode_reads unsigned ct pd)).
  intros [[] t] pd1 _ _; try by apply reads_ret. case_match; [|by apply reads_ret]. apply reads_ret. apply i64_range.
Qed.

(** ** Writers *)

(** The bits [C] are in the stream, unless the sink refuses some of them. *)
Definition accepts {K} {HS : Sink K} (C : list bool) (x : option (Z * asn_per_outp_t K)) : Prop :=
  ~ refused C -> exists po, x = Some (0, po) /\ po_at C po.

Section accepts.
Context {K : Type} {HS : Sink K}.

Lemma accepts_done C (x : option (Z * asn_per_outp_t K)) : put_done C x -> accepts C x.
Proof. intros [H|(po & _ & Hr)] Hn; [done|by destruct Hn]. Qed.

Lemma accepts_ret C (po : asn_per_outp_t K) : po_at C po -> accepts C (Some (0, po)).
Proof. intros H _. by exists po. Qed.

Lemma accepts_bind C D x (k : Z * asn_per_outp_t K -> option (Z * asn_per_outp_t K)) :
  accepts C x -> (forall po, po_at C po -> accepts (C ++ D) (k (0, po))) -> accepts (C ++ D) (x ≫= k).
Proof.
  intros Hx Hk Hn. destruct Hx as (po & -> & Hat); [intros Hr; by apply Hn, refused_app|]. by apply Hk.
Qed.

(** The last of a sequence of writers. *)
Lemma accepts_last C x (k : Z * asn_per_outp_t K -> option (Z * asn_per_outp_t K)) :
  accepts C x -> (forall po, po_at C po -> k (0, po) = Some (0, po)) -> accepts C (x ≫= k).
Proof. intros Hx Hk Hn. destruct (Hx Hn) as (po & -> & Hat). cbn. rewrite Hk by done. by exists po. Qed.

Lemma accepts_few B (po : asn_per_outp_t K) v n :
  po_at B po -> 0 <= n <= 31 -> accepts (B ++ val_bits (Z.to_nat n) v) (per_put_few_bits po v n).
Proof. intros Hat Hn. by apply accepts_done, per_put_few_bits_at. Qed.

(** One bit. *)
Lemma accepts_bit B (po : asn_per_outp_t K) (b : bool) :
  po_at B po -> accepts (B ++ [b]) (per_put_few_bits po (Z.b2z b) 1).
Proof. intros Hat. pose proof (accepts_few B po (Z.b2z b) 1 Hat ltac:(lia)) as H. by destruct b. Qed.

(** The encoder of a type: [er.encoded] says no more than whether it failed. *)
Definition encodes (C : list bool) (x : option (Z * asn_per_outp_t K)) : Prop :=
  ~ refused C -> exists e po, x = Some (e, po) /\ e <> -1 /\ po_at C po.

Lemma accepts_encodes C x : accepts C x -> encodes C x.
Proof. intros Hx Hn. destruct (Hx Hn) as (po & -> & Hat). by exists 0, po. Qed.

Lemma encodes_ret C e (po : asn_per_outp_t K) : po_at C po -> e <> -1 -> encodes C (Some (e, po)).
Proof. intros H He _. by exists e, po. Qed.

Lemma encodes_bind C D x (k : Z * asn_per_outp_t K -> option (Z * asn_per_outp_t K)) :
  encodes C x -> (forall e po, e <> -1 -> po_at C po -> encodes (C ++ D) (k (e, po))) -> encodes (C ++ D) (x ≫= k).
Proof.
  intros Hx Hk Hn. destruct Hx as (e & po & -> & He & Hat); [intros Hr; by apply Hn, refused_app|]. by apply Hk.
Qed.

Lemma accepts_then C D x (k : Z * asn_per_outp_t K -> option (Z * asn_per_outp_t K)) :
  accepts C x -> (forall po, po_at C po -> encodes (C ++ D) (k (0, po))) -> encodes (C ++ D) (x ≫= k).
Proof.
  intros Hx Hk Hn. destruct Hx as (po & -> & Hat); [intros Hr; by apply Hn, refused_app|]. by apply Hk.
Qed.

(** A length determinant returns the number of units it announces. *)
Lemma length_then B (po : asn_per_outp_t K) n D (k : Z * asn_per_outp_t K -> option (Z * asn_per_outp_t K)) :
  po_at B po -> 0 <= n ->
  (forall po', po_at (B ++ fst (length_code n)) po' ->
     encodes ((B ++ fst (length_code n)) ++ D) (k (snd (length_code n), po'))) ->
  encodes ((B ++ fst (length_code n)) ++ D) (uper_put_length po n ≫= k).
Proof.
  intros Hat Hn Hk Hnr. destruct (uper_put_length_at B po n Hat Hn) as [(po' & -> & Hat')|(po' & _ & Hr)].
  - by apply Hk.
  - by destruct Hnr; apply refused_app.
Qed.

End accepts.

Lemma encodes_total {K} `{HT : TotalSink K} C (x : option (Z * asn_per_outp_t K)) :
  encodes C x -> exists e po, x = Some (e, po) /\ e <> -1 /\ po_at C po.
Proof. intros Hx. apply Hx. intros (d & k & _ & _ & E & _). destruct (outper_total d k) as [k' E']. congruence. Qed.
