(* ===== verification/PerCodec.v ===== *)
(** * PerCodec: complete encodings

    Model of [src/core/libs/supl/asn-supl/per_encoder.c] and [per_decoder.c]: a
    value is encoded into a caller's buffer or into a growing one, and decoded from
    a buffer. The type descriptor [td] is the interface [UperType], with what the
    functions rely on in [UperLaws]; structures handed to a decoder are zeroed, as
    the callers do. The stack limit of the codec context is not modelled. *)
From S2P Require Import Prelude PerSupport AsnInteger PerSafe.

(** [td->uper_encoder] and [td->uper_decoder]. *)
Class UperType (A : Type) := {
  uper_encoder : forall K (HS : Sink K), A -> asn_per_outp_t K -> option (Z * asn_per_outp_t K);
  uper_decoder : asn_per_data_t -> option (asn_dec_rval_code_e * A * asn_per_data_t)
}.

(** What a type promises: valid values have a code, which is what the encoder
    appends and what the decoder accepts, whatever follows. *)
Class UperLaws (A : Type) `{UperType A} := {
  uper_code : A -> list bool;
  uper_valid : A -> Prop;
  uper_encoder_at K (HS : Sink K) B po a :
    uper_valid a -> po_at B po -> put_done (B ++ uper_code a) (uper_encoder K HS a po);
  uper_decoder_at a L pd :
    uper_valid a -> pd_at (uper_code a ++ L) pd ->
    exists pd', uper_decoder pd = Some (RC_OK, a, pd') /\ pd_at L pd';
  uper_decoder_step pd c a pd' : uper_decoder pd = Some (c, a, pd') -> pd_step pd pd'
}.

(** What a type promises to a program that sends some of its values and receives others:
    [uper_sends a C] when the encoder appends [C] for [a], as long as the sink takes it, and
    [uper_receives a C] when the decoder takes [C], whatever follows, and gives [a]. *)
Class CodecLaws (A : Type) `{UperType A} := {
  uper_sends : A -> list bool -> Prop;
  uper_receives : A -> list bool -> Prop;
  sends_at K (HS : Sink K) B po a C : uper_sends a C -> po_at B po -> encodes (B ++ C) (uper_encoder K HS a po);
  receives_at a C L pd : uper_receives a C -> pd_at (C ++ L) pd ->
    exists pd', uper_decoder pd = Some (RC_OK, a, pd') /\ pd_at L pd';
  codec_decoder_step pd c a pd' : uper_decoder pd = Some (c, a, pd') -> pd_step pd pd'
}.

(** ** Output callbacks *)

(** [buffer] is what has been copied to the caller's buffer. *)
Record enc_to_buf_arg := { eb_buffer : list Z; left : Z }.

Definition encode_to_buffer_cb (d : list Z) (arg : enc_to_buf_arg) : option enc_to_buf_arg :=
  if left arg <? Z.of_nat (length d) then None
  else Some {| eb_buffer := eb_buffer arg ++ d; left := left arg - Z.of_nat (length d) |}.

Definition buf_sink (size : Z) : Sink enc_to_buf_arg.
Proof.
  refine {| outper := encode_to_buffer_cb; sink_bytes := eb_buffer;
            sink_inv arg := Z.of_nat (length (eb_buffer arg)) + left arg = size /\ 0 <= left arg |};
    unfold encode_to_buffer_cb.
  - intros d k k' Hi _. destruct (Z.ltb_spec (left k) (Z.of_nat (length d))); [done|]. intros [= <-].
    cbn. rewrite length_app. lia.
  - intros d k k'. destruct (_ <? _); [done|]. by intros [= <-].
Defined.

(** [bytes] is the first [length] octets of [buffer]. [REALLOC] succeeds; [None] is a
    copy that runs past the allocated block. *)
Record enc_dyn_arg := { dyn_bytes : list Z; allocated : Z }.

Definition encode_dyn_cb (d : list Z) (arg : enc_dyn_arg) : option enc_dyn_arg :=
  let size := Z.of_nat (length d) in
  let len := Z.of_nat (length (dyn_bytes arg)) in
  let allocated' :=
    if allocated arg <=? len + size then
      (if negb (allocated arg =? 0) then u64 (Z.shiftl (allocated arg) 2) else size)
    else allocated arg in
  if allocated' <? len + size then None
  else Some {| dyn_bytes := dyn_bytes arg ++ d; allocated := allocated' |}.

(** The block grows by a factor of four, starting from the first flush. *)
Definition dyn_inv (arg : enc_dyn_arg) : Prop :=
  (dyn_bytes arg = [] /\ allocated arg = 0) \/
  (28 <= Z.of_nat (length (dyn_bytes arg)) <= allocated arg /\
   allocated arg <= 4 * Z.of_nat (length (dyn_bytes arg))).

Definition dyn_sink : Sink enc_dyn_arg.
Proof.
  refine {| outper := encode_dyn_cb; sink_bytes := dyn_bytes; sink_inv := dyn_inv |}.
  - intros d k k' Hi [Hd1 Hd2]. unfold encode_dyn_cb. case_match eqn:Hlt; [done|]. intros [= <-].
    apply Z.ltb_ge in Hlt. right. cbn [dyn_bytes allocated]. rewrite length_app.
    assert (u64 (Z.shiftl (allocated k) 2) <= 4 * allocated k).
    { rewrite Z.shiftl_mul_pow2 by lia. unfold uwrap. change (2 ^ 2) with 4. rewrite (Z.mul_comm _ 4).
      apply Z.mod_le; [|done]. destruct Hi as [[_ Ha]|[? ?]]; lia. }
    destruct (Z.leb_spec (allocated k) (Z.of_nat (length (dyn_bytes k)) + Z.of_nat (length d)));
      (destruct Hi as [[Hb Ha]|[? ?]]; [rewrite Hb in *; cbn [length] in *|]);
      try destruct (Z.eqb_spec (allocated k) 0); cbn [negb] in *; try lia.
  - intros d k k'. unfold encode_dyn_cb. case_match; [done|]. by intros [= <-].
Defined.

(** ** Encoder *)

Section encoder.
Context {A : Type} `{UperType A}.

(** The octets in [tmpspace] that are filled, the last one padded with zeros; [None]
    when the sink refuses them. *)
Definition uper_encode_flush_outp {K} {HS : Sink K} (po : asn_per_outp_t K) : option (option K) :=
  o ← out_buffer po;
  if (out_nboff po =? 0) && (o =? 0) then Some (Some (op_key po))
  else
    let buf := o + Z.shiftr (out_nboff po) 3 in
    let r := Z.land (out_nboff po) 0x07 in
    if negb (r =? 0) then
      b ← rd (tmpspace po) buf;
      tmp ← wr (tmpspace po) buf (Z.land b (Z.shiftl 0xff (8 - r)));
      Some (outper (take (Z.to_nat (buf + 1)) tmp) (op_key po))
    else Some (outper (take (Z.to_nat buf) (tmpspace po)) (op_key po)).

(** [tmp] is the initial contents of [po.tmpspace]. Returns [er.encoded] in bits, and
    the key as the callback leaves it. *)
Definition uper_encode_internal {K} (HS : Sink K) (tmp : list Z) (sptr : A) (app_key : K) : option (Z * K) :=
  '(r, po) ← uper_encoder K HS sptr (fresh_outp tmp app_key);
  if r =? -1 then Some (-1, op_key po)
  else
    o ← out_buffer po;
    let bits_to_flush := Z.shiftl o 3 + out_nboff po in
    let encoded := Z.shiftl (flushed_bytes po) 3 + bits_to_flush in
    k ← uper_encode_flush_outp po;
    match k with
    | None => Some (-1, op_key po)
    | Some k' => Some (encoded, k')
    end.

(** Returns the new contents of the caller's buffer. *)
Definition uper_encode_to_buffer (tmp : list Z) (sptr : A) (buffer : list Z) : option (Z * list Z) :=
  let size := Z.of_nat (length buffer) in
  '(e, key) ← uper_encode_internal (buf_sink size) tmp sptr {| eb_buffer := []; left := size |};
  Some (e, eb_buffer key ++ drop (length (eb_buffer key)) buffer).

(** Returns the size and the contents of the new block; -1 and nothing on failure. *)
Definition uper_encode_to_new_buffer (tmp : list Z) (sptr : A) : option (Z * option (list Z)) :=
  '(e, key) ← uper_encode_internal dyn_sink tmp sptr {| dyn_bytes := []; allocated := 0 |};
  if e =? -1 then Some (-1, None)
  else if e =? 0 then Some (1, Some [0])
  else Some (Z.shiftr (e + 7) 3, Some (dyn_bytes key)).

(** ** Decoder *)

(** [_ASN_DECODE_FAILED] is [RC_FAIL] with nothing consumed; [zero] is the structure
    as it was handed in. A failed [assert] is [None]. *)
Definition uper_decode (zero : A) (buf : list Z) (skip_bits unused_bits : Z)
  : option (asn_dec_rval_code_e * Z * A) :=
  let size := Z.of_nat (length buf) in
  if (skip_bits <? 0) || (7 <? skip_bits) || (unused_bits <? 0) || (7 <? unused_bits)
     || ((0 <? unused_bits) && (size =? 0))
  then Some (RC_FAIL, 0, zero)
  else
    let pd := {| buffer := buf; nboff := skip_bits; nbits := 8 * size - unused_bits; moved := 0 |} in
    if nbits pd <? nboff pd then Some (RC_FAIL, 0, zero)
    else
      '(code, st, pd') ← uper_decoder pd;
      match code with
      | RC_OK =>
          let consumed := Z.shiftl (size - Z.of_nat (length (buffer pd'))) 3 + nboff pd' - skip_bits in
          if consumed =? moved pd' then Some (RC_OK, consumed, st) else None
      | _ => Some (code, 0, st)
      end.

Definition uper_decode_complete (zero : A) (buf : list Z) : option (asn_dec_rval_code_e * Z * A) :=
  '(code, consumed, st) ← uper_decode zero buf 0 0;
  if negb (consumed =? 0) then Some (code, Z.shiftr (consumed + 7) 3, st)
  else
    match code with
    | RC_OK =>
        match buf with
        | b :: _ => if b =? 0 then Some (RC_OK, 1, st) else Some (RC_FAIL, 0, st)
        | [] => Some (RC_WMORE, 0, st)
        end
    | _ => Some (code, consumed, st)
    end.

End encoder.

(** ** Specification *)

(** Octets that hold the bits [B] and zero bits up to the octet boundary. *)
Definition octets_of (B : list bool) (o : list Z) : Prop :=
  bytes o /\ bitlist o = B ++ replicate (pad_of (length B)) false.

(** Number of octets that [n] bits need. *)
Definition octets_needed (n : nat) : Z := Z.shiftr (Z.of_nat n + 7) 3.

Lemma pad_of_add k n : pad_of (8 * k + n) = pad_of n.
Proof. unfold pad_of. rewrite Nat.mul_comm, Nat.add_comm, Nat.Div0.mod_add. done. Qed.

Lemma pad_of_spec n : (n + pad_of n = 8 * Z.to_nat (octets_needed n))%nat.
Proof.
  unfold octets_needed, pad_of. rewrite Z.shiftr_div_pow2 by lia. change (2 ^ 3) with 8.
  pose proof (Nat.div_mod n 8 ltac:(lia)). pose proof (Nat.mod_upper_bound n 8 ltac:(lia)).
  set (q := (n / 8)%nat) in *. set (r := (n mod 8)%nat) in *. rewrite H.
  destruct (decide (r = 0)%nat) as [E|E].
  - rewrite E. change ((8 - 0) mod 8)%nat with 0%nat.
    replace (Z.of_nat (8 * q + 0) + 7) with (Z.of_nat q * 8 + 7) by lia. rewrite Z.div_add_l, Z.div_small by lia. lia.
  - rewrite Nat.mod_small by lia.
    replace (Z.of_nat (8 * q + r) + 7) with ((Z.of_nat q + 1) * 8 + (Z.of_nat r - 1)) by lia.
    rewrite Z.div_add_l, Z.div_small by lia. lia.
Qed.

Lemma octets_needed_nonneg n : 0 <= octets_needed n.
Proof. unfold octets_needed. apply Z.shiftr_nonneg. lia. Qed.

Lemma octets_of_length B o : octets_of B o -> Z.of_nat (length o) = octets_needed (length B).
Proof.
  intros [_ E]. apply (f_equal length) in E. rewrite length_bitlist, length_app, length_replicate, pad_of_spec in E.
  pose proof (octets_needed_nonneg (length B)). lia.
Qed.

(** Clearing the unused bits of the last octet. *)
Lemma mask_octet b r : is_byte b -> (0 < r < 8)%nat ->
  is_byte (Z.land b (Z.shiftl 0xff (8 - Z.of_nat r))) /\
  byte_bits (Z.land b (Z.shiftl 0xff (8 - Z.of_nat r))) = take r (byte_bits b) ++ replicate (8 - r) false.
Proof.
  intros Hb Hr. split.
  - rewrite Z.land_comm. apply (land_range_r 8); [lia|done].
  - apply list_eq. intros k. rewrite lookup_byte_bits.
    destruct (decide (k < r)%nat).
    + rewrite lookup_app_l by (rewrite length_take; cbn; lia). rewrite lookup_take_lt, lookup_byte_bits by done.
      rewrite !decide_True by lia. f_equal. rewrite Z.land_spec, Z.shiftl_spec by lia.
      replace (Z.testbit 255 (7 - Z.of_nat k - (8 - Z.of_nat r))) with true; [apply andb_true_r|].
      change 255 with (Z.ones 8). symmetry. apply Z.ones_spec_low. lia.
    + rewrite lookup_app_r by (rewrite length_take; cbn; lia). rewrite length_take. change (length (byte_bits b)) with 8%nat.
      destruct (decide (k < 8)%nat).
      * rewrite lookup_replicate_2 by lia. f_equal. rewrite Z.land_spec, Z.shiftl_spec by lia.
        rewrite (Z.testbit_neg_r 255) by lia. apply andb_false_r.
      * symmetry. apply lookup_replicate_None. lia.
Qed.

Lemma pending_octets tmp m : bytes tmp -> (m <= 8 * length tmp)%nat -> (m mod 8 <> 0)%nat ->
  exists b, tmp !! (m / 8)%nat = Some b /\
    octets_of (take m (bitlist tmp))
      (take (m / 8 + 1) (<[(m / 8)%nat := Z.land b (Z.shiftl 0xff (8 - Z.of_nat (m mod 8)))]> tmp)).
Proof.
  intros Hb Hm Hr. pose proof (Nat.div_mod m 8 ltac:(lia)) as E. pose proof (Nat.mod_upper_bound m 8 ltac:(lia)).
  set (j := (m / 8)%nat) in *. set (r := (m mod 8)%nat) in *.
  destruct (lookup_lt_is_Some_2 tmp j ltac:(lia)) as [b Hj]. exists b. split; [done|].
  pose proof (bytes_lookup _ _ _ Hb Hj) as Hbb. destruct (mask_octet b r Hbb ltac:(lia)) as [H1 H2].
  assert (Hlj : (j < length tmp)%nat) by lia.
  assert (Ht : take (j + 1) (<[j := Z.land b (Z.shiftl 255 (8 - Z.of_nat r))]> tmp) =
               take j tmp ++ [Z.land b (Z.shiftl 255 (8 - Z.of_nat r))]).
  { rewrite Nat.add_1_r. erewrite take_S_r by (apply list_lookup_insert_eq; done).
    by rewrite take_insert_ge by lia. }
  rewrite Ht. split; [apply Forall_app; split; [by apply Forall_take|by constructor]|].
  rewrite bitlist_app, bitlist_take. cbn [bitlist mbind list_bind]. rewrite app_nil_r, H2.
  rewrite length_take, length_bitlist, Nat.min_l, app_assoc by lia. f_equal.
  - rewrite E, <- (take_drop (8 * j) (take (8 * j + r) _)), take_take, Nat.min_l, skipn_firstn_comm by lia.
    f_equal. replace (8 * j + r - 8 * j)%nat with r by lia. rewrite <- bitlist_drop.
    rewrite (drop_S _ b) by done. rewrite bitlist_cons, take_app_le by (cbn; lia). done.
  - f_equal. unfold pad_of. fold r. rewrite Nat.mod_small by lia. done.
Qed.

Lemma flush_outp_at {K} {HS : Sink K} B (po : asn_per_outp_t K) : po_at B po ->
  exists d, octets_of B (sink_bytes (op_key po) ++ d) /\
    uper_encode_flush_outp po = Some (match d with [] => Some (op_key po) | _ => outper d (op_key po) end).
Proof.
  intros [[Hb Hl Hbuf Hnb Ho Hc Hi Hsb] HB]. unfold uper_encode_flush_outp. rewrite Hbuf. cbn [mbind option_bind].
  set (o := out_off po) in *. set (m := (8 * o + Z.to_nat (out_nboff po))%nat).
  assert (Hm : (m <= 8 * length (tmpspace po))%nat) by lia.
  pose proof (Nat.div_mod m 8 ltac:(lia)) as E. pose proof (Nat.mod_upper_bound m 8 ltac:(lia)).
  assert (E1 : Z.of_nat o + Z.shiftr (out_nboff po) 3 = Z.of_nat (m / 8)).
  { rewrite Z.shiftr_div_pow2 by lia. unfold m. rewrite (Nat.mul_comm 8), Nat.div_add_l by lia.
    rewrite Nat2Z.inj_add, Nat2Z.inj_div, Z2Nat.id by lia. done. }
  assert (E2 : Z.land (out_nboff po) 7 = Z.of_nat (m mod 8)).
  { change 7 with (Z.ones 3). rewrite Z.land_ones by lia. unfold m. rewrite Nat.add_comm, Nat.mul_comm, Nat.Div0.mod_add.
    rewrite Nat2Z.inj_mod, Z2Nat.id by lia. done. }
  rewrite E1, E2.
  assert (Hmo : forall d, octets_of (take m (bitlist (tmpspace po))) d -> octets_of B (sink_bytes (op_key po) ++ d)).
  { intros d [Hd1 Hd2]. split; [by apply Forall_app|]. rewrite bitlist_app, Hd2, app_assoc, <- HB. unfold out_bits.
    fold o m. f_equal. f_equal. rewrite length_app, length_bitlist. by rewrite pad_of_add. }
  destruct (Z.eqb_spec (Z.of_nat (m mod 8)) 0) as [E0|E0]; cbn [negb].
  - assert (Hd : octets_of (take m (bitlist (tmpspace po))) (take (m / 8) (tmpspace po))).
    { split; [by apply Forall_take|]. rewrite bitlist_take, length_take, length_bitlist, Nat.min_l by lia.
      unfold pad_of. replace (m mod 8)%nat with 0%nat by lia. change (replicate _ false) with (@nil bool).
      rewrite app_nil_r. f_equal. lia. }
    destruct (Z.eqb_spec (out_nboff po) 0) as [Z0|Z0], (Z.eqb_spec (Z.of_nat o) 0) as [Z1|Z1]; cbn [andb];
      try (exists (take (m / 8) (tmpspace po)); split; [by apply Hmo|]; rewrite Nat2Z.id;
           destruct (take (m / 8) (tmpspace po)) eqn:Et; [|done]; apply (f_equal length) in Et;
           rewrite length_take in Et; cbn [length] in Et; lia).
    exists []. split; [|done]. apply Hmo. replace m with 0%nat by lia. rewrite take_0. by split.
  - destruct (pending_octets (tmpspace po) m Hb Hm ltac:(lia)) as (b & Hlk & Hd).
    rewrite (proj2 (andb_false_iff _ _)).
    2: { destruct (Z.eqb_spec (out_nboff po) 0) as [Z0|]; [|by left]. exfalso. apply E0. unfold m.
         rewrite Z0, Nat.mul_comm, Nat.add_0_r, Nat.Div0.mod_mul. done. }
    rewrite rd_nat, Hlk. cbn [mbind option_bind]. rewrite wr_in by lia. cbn [mbind option_bind]. rewrite Nat2Z.id.
    replace (Z.to_nat (Z.of_nat (m / 8) + 1)) with (m / 8 + 1)%nat by lia.
    eexists. split; [by apply Hmo|]. f_equal. case_match eqn:Et; [|done].
    apply (f_equal length) in Et. rewrite length_take, length_insert in Et. cbn [length] in Et. lia.
Qed.

(** *** Decoding complete encodings *)

Section decode_gen.
Context {A : Type} `{UperType A}.

(** A decoder run on the octets of a value with the code [C]. *)
Lemma decode_complete_gen (C : list bool) zero a o rest :
  (forall L pd, pd_at (C ++ L) pd -> exists pd', uper_decoder pd = Some (RC_OK, a, pd') /\ pd_at L pd') ->
  (forall pd c a' pd', uper_decoder pd = Some (c, a', pd') -> pd_step pd pd') ->
  octets_of C o -> bytes rest -> C <> [] ->
  uper_decode_complete zero (o ++ rest) = Some (RC_OK, Z.of_nat (length o), a).
Proof.
  intros Hdecode Hstep Ho Hr Hne. pose proof (octets_of_length _ _ Ho) as Hlen. destruct Ho as [Hb Hbits].
  unfold uper_decode_complete, uper_decode. cbn [Z.ltb Z.compare orb andb].
  set (buf := o ++ rest). rewrite (proj2 (Z.ltb_ge _ _)) by (cbn; lia).
  set (pd := {| buffer := buf; nboff := 0; nbits := 8 * Z.of_nat (length buf) - 0; moved := 0 |}).
  assert (Hok : pd_ok pd) by (split; cbn [pd buffer nboff nbits]; [by apply Forall_app|lia|lia]).
  set (L := replicate (pad_of (length C)) false ++ bitlist rest).
  assert (Hpd : pd_at (C ++ L) pd).
  { split; [done|]. unfold pd_bits. cbn [pd buffer nboff nbits]. rewrite drop_0, take_ge by (rewrite length_bitlist; lia).
    unfold buf, L. by rewrite bitlist_app, Hbits, app_assoc. }
  destruct (Hdecode L pd Hpd) as (pd' & Hdec & Hpd'). rewrite Hdec. cbn [mbind option_bind].
  destruct (Hstep _ _ _ _ Hdec Hok) as (Hok' & k & Hk & Hbuf' & Hnb' & Hm').
  pose proof (length_pd_bits pd' Hok') as HL. destruct Hpd' as [_ HL']. rewrite HL' in HL. unfold L in HL.
  rewrite length_app, length_replicate, length_bitlist in HL. pose proof (pd_off pd' Hok').
  rewrite Hbuf', length_drop. cbn [pd buffer nboff nbits moved] in *.
  pose proof (pad_of_spec (length C)) as Hp. unfold buf in *. rewrite length_app in *.
  assert (Hc : moved pd' = Z.of_nat (length C)) by lia.
  rewrite Z.shiftl_mul_pow2 by lia. change (2 ^ 3) with 8.
  replace ((Z.of_nat (length o + length rest) - Z.of_nat (length o + length rest - k)) * 8 + nboff pd' - 0)
    with (moved pd') by lia.
  rewrite Z.eqb_refl. cbn [mbind option_bind].
  assert (0 < length C)%nat by (destruct C; [done|cbn; lia]).
  rewrite Hc, (proj2 (Z.eqb_neq _ 0)) by lia. cbn [negb]. by rewrite Hlen.
Qed.

(** A value without bits is one zero octet. *)
Lemma decode_complete_empty_gen zero a :
  (forall L pd, pd_at L pd -> exists pd', uper_decoder pd = Some (RC_OK, a, pd') /\ pd_at L pd') ->
  (forall pd c a' pd', uper_decoder pd = Some (c, a', pd') -> pd_step pd pd') ->
  uper_decode_complete zero [0] = Some (RC_OK, 1, a).
Proof.
  intros Hdecode Hstep. unfold uper_decode_complete, uper_decode. cbn [Z.ltb Z.compare orb andb length nbits nboff].
  set (pd := {| buffer := [0]; nboff := 0; nbits := 8 * Z.of_nat 1 - 0; moved := 0 |}).
  assert (Hok : pd_ok pd) by (split; cbn [pd buffer nboff nbits length]; [by repeat constructor|lia|lia]).
  assert (Hpd : pd_at (bitlist [0]) pd) by by split.
  destruct (Hdecode _ pd Hpd) as (pd' & Hdec & Hpd'). rewrite Hdec. cbn [mbind option_bind].
  destruct (Hstep _ _ _ _ Hdec Hok) as (Hok' & k & Hk & Hbuf' & Hnb' & Hm').
  pose proof (length_pd_bits pd' Hok') as HL. destruct Hpd' as [_ HL']. rewrite HL' in HL.
  pose proof (pd_off pd' Hok'). cbn [length bitlist mbind list_bind byte_bits val_bits app] in HL.
  rewrite Hbuf', length_drop. cbn [pd buffer nboff nbits moved length] in *.
  rewrite Z.shiftl_mul_pow2 by lia. change (2 ^ 3) with 8.
  replace ((Z.of_nat 1 - Z.of_nat (1 - k)) * 8 + nboff pd' - 0) with 0 by lia.
  replace (moved pd') with 0 by lia. done.
Qed.

End decode_gen.

Section finish.
Context {A : Type} `{UperType A}.

Lemma octets_needed_bound n k : (n <= 8 * k)%nat -> octets_needed n <= Z.of_nat k.
Proof.
  intros Hn. unfold octets_needed. rewrite Z.shiftr_div_pow2 by lia. change (2 ^ 3) with 8.
  apply Z.lt_succ_r, Z.div_lt_upper_bound; lia.
Qed.

(** A call of the callback that failed, with octets of the complete encoding. *)
Definition refused_last {K} {HS : Sink K} (B : list bool) : Prop :=
  exists d k, sink_inv k /\ outper d k = None /\ octets_of B (sink_bytes k ++ d) /\ (length d <= 32)%nat.

(** The end of the encoder: the number of bits and the padded octets, unless the callback
    refuses them. *)
Lemma encode_internal_finish {K} (HS : Sink K) tmp (v : A) key C e po :
  uper_encoder K HS v (fresh_outp tmp key) = Some (e, po) -> e <> -1 -> po_at C po ->
  (exists k, uper_encode_internal HS tmp v key = Some (Z.of_nat (length C), k) /\ octets_of C (sink_bytes k) /\
     (sink_inv k \/ exists d k0, sink_inv k0 /\ outper d k0 = Some k)) \/
  (exists k, uper_encode_internal HS tmp v key = Some (-1, k) /\ refused_last C).
Proof.
  intros He Hne Hat. unfold uper_encode_internal. rewrite He. cbn [mbind option_bind].
  pose proof Hat as [[Hb Hl Hbuf Hnb Ho Hc Hinv Hsb] HB]. rewrite Hbuf, (proj2 (Z.eqb_neq e (-1))) by done.
  cbn [mbind option_bind].
  assert (Henc : Z.shiftl (flushed_bytes po) 3 + (Z.shiftl (Z.of_nat (out_off po)) 3 + out_nboff po) = Z.of_nat (length C)).
  { rewrite <- HB. unfold out_bits. rewrite length_app, length_take, !length_bitlist, Nat.min_l, Hc by lia.
    rewrite !Z.shiftl_mul_pow2 by lia. change (2 ^ 3) with 8. lia. }
  destruct (flush_outp_at C po Hat) as (d & Hd & ->). cbn [mbind option_bind]. rewrite Henc.
  assert (Hdl : (length d <= 32)%nat).
  { pose proof (octets_of_length _ _ Hd) as E. rewrite length_app in E.
    pose proof (octets_needed_bound (length C) (length (sink_bytes (op_key po)) + 32)) as H0.
    rewrite <- HB in H0, E. unfold out_bits in H0, E. rewrite length_app, length_take, !length_bitlist in H0, E. lia. }
  destruct d as [|x d].
  - left. exists (op_key po). split_and!; [done|by rewrite app_nil_r in Hd|by left].
  - destruct (outper (x :: d) (op_key po)) as [k'|] eqn:E.
    + left. exists k'. split_and!; [done|by rewrite (outper_bytes _ _ _ E)|]. right. by exists (x :: d), (op_key po).
    + right. exists (op_key po). split; [done|]. by exists (x :: d), (op_key po).
Qed.

End finish.

Section complete.
Context {A : Type} `{UL : UperLaws A}.

(** The whole encoder. *)
Lemma encode_internal_at {K} (HS : Sink K) tmp a key :
  uper_valid a -> bytes tmp -> length tmp = 32%nat -> sink_bytes key = [] -> sink_inv key ->
  (exists k, uper_encode_internal HS tmp a key = Some (Z.of_nat (length (uper_code a)), k) /\
     octets_of (uper_code a) (sink_bytes k) /\
     (sink_inv k \/ exists d k0, sink_inv k0 /\ outper d k0 = Some k)) \/
  (exists k, uper_encode_internal HS tmp a key = Some (-1, k) /\
     (refused (uper_code a) \/ refused_last (uper_code a))).
Proof.
  intros Hv Htb Htl Hk Hi.
  destruct (uper_encoder_at K HS [] (fresh_outp tmp key) a Hv (fresh_outp_at tmp key Htb Htl Hk Hi))
    as [(po & He & Hat)|(po & He & Href)].
  - destruct (encode_internal_finish HS tmp a key _ 0 po He ltac:(done) Hat) as [?|(k & ? & ?)]; [by left|right]. exists k. auto.
  - right. exists (op_key po). split; [unfold uper_encode_internal; by rewrite He|]. by left.
Qed.

(** A refusal of the caller's buffer means that the encoding does not fit. *)
Lemma buf_refused size (B : list bool) :
  @refused _ (buf_sink size) B \/ @refused_last _ (buf_sink size) B -> size < octets_needed (length B).
Proof.
  intros [(d & k & Hi & _ & Ho & Hp)|(d & k & Hi & Ho & Hp & _)]; cbn in Hi, Ho; unfold encode_to_buffer_cb in Ho;
    case_match eqn:E; try done; apply Z.ltb_lt in E.
  - apply prefix_length in Hp. rewrite length_bitlist, length_app in Hp. cbn [sink_bytes buf_sink] in Hp.
    pose proof (pad_of_spec (length B)). pose proof (octets_needed_nonneg (length B)). lia.
  - apply octets_of_length in Hp. rewrite length_app in Hp. cbn [sink_bytes buf_sink] in Hp. lia.
Qed.

(** The growing block never overruns. *)
Lemma dyn_no_overrun d k : dyn_inv k -> (length d <= 32)%nat ->
  Z.of_nat (length (dyn_bytes k)) < 2 ^ 59 -> encode_dyn_cb d k <> None.
Proof.
  intros Hi Hd Hlen. unfold encode_dyn_cb. case_match eqn:E; [|done]. apply Z.ltb_lt in E. exfalso. revert E.
  destruct (Z.leb_spec (allocated k) (Z.of_nat (length (dyn_bytes k)) + Z.of_nat (length d))); [|lia].
  destruct Hi as [[Hb Ha]|[H1 H2]]; [rewrite Hb, Ha; cbn [length negb Z.eqb]; lia|].
  destruct (Z.eqb_spec (allocated k) 0); [lia|]. cbn [negb]. rewrite Z.shiftl_mul_pow2 by lia. change (2 ^ 2) with 4.
  rewrite uwrap_small by lia. lia.
Qed.

Lemma dyn_refused (B : list bool) : Z.of_nat (length B) < 2 ^ 59 ->
  ~ (@refused _ dyn_sink B \/ @refused_last _ dyn_sink B).
Proof.
  intros HB [(d & k & Hi & Hs & Ho & Hp)|(d & k & Hi & Ho & Hp & Hl)]; apply (dyn_no_overrun d k); try done.
  - apply Hs.
  - apply prefix_length in Hp. rewrite length_bitlist, length_app in Hp. cbn [sink_bytes dyn_sink] in Hp. lia.
  - apply octets_of_length in Hp. rewrite length_app in Hp. cbn [sink_bytes dyn_sink] in Hp.
    pose proof (octets_needed_bound (length B) (length B) ltac:(lia)). lia.
Qed.

Lemma decode_complete_at zero a o rest :
  uper_valid a -> octets_of (uper_code a) o -> bytes rest -> uper_code a <> [] ->
  uper_decode_complete zero (o ++ rest) = Some (RC_OK, Z.of_nat (length o), a).
Proof.
  intros Hv. apply decode_complete_gen; [|exact uper_decoder_step]. intros L pd. by apply uper_decoder_at.
Qed.

Lemma decode_complete_whole zero a o :
  uper_valid a -> octets_of (uper_code a) o -> uper_code a <> [] ->
  uper_decode_complete zero o = Some (RC_OK, Z.of_nat (length o), a).
Proof. intros Hv Ho Hne. rewrite <- (app_nil_r o) at 1. by apply decode_complete_at. Qed.

Lemma decode_complete_empty zero a : uper_valid a -> uper_code a = [] ->
  uper_decode_complete zero [0] = Some (RC_OK, 1, a).
Proof.
  intros Hv Hc. apply decode_complete_empty_gen; [|exact uper_decoder_step]. intros L pd Hpd.
  apply (uper_decoder_at a); [done|]. by rewrite Hc.
Qed.

Lemma buf_room size (k : enc_to_buf_arg) :
  @sink_inv _ (buf_sink size) k \/ (exists d k0, @sink_inv _ (buf_sink size) k0 /\ @outper _ (buf_sink size) d k0 = Some k) ->
  Z.of_nat (length (eb_buffer k)) <= size.
Proof.
  cbn. intros [?|(d & k0 & Hi & Ho)]; [lia|]. revert Ho. unfold encode_to_buffer_cb.
  destruct (Z.ltb_spec (left k0) (Z.of_nat (length d))); [done|]. intros [= <-]. cbn. rewrite length_app. lia.
Qed.

End complete.

Lemma encode_to_buffer_at {A} `{UperLaws A} tmp (a : A) buffer :
  uper_valid a -> bytes tmp -> length tmp = 32%nat ->
  let n := length (uper_code a) in
  if Z.of_nat (length buffer) <? octets_needed n then
    exists buffer', uper_encode_to_buffer tmp a buffer = Some (-1, buffer')
  else
    exists o, octets_of (uper_code a) o /\ Z.of_nat (length o) = octets_needed n /\
      uper_encode_to_buffer tmp a buffer = Some (Z.of_nat n, o ++ drop (length o) buffer).
Proof.
  intros Hv Htb Htl n. unfold uper_encode_to_buffer. set (size := Z.of_nat (length buffer)).
  destruct (encode_internal_at (buf_sink size) tmp a {| eb_buffer := []; left := size |} Hv Htb Htl)
    as [(k & -> & Ho & Hinv)|(k & -> & Href)]; [done|cbn; lia|..]; cbn [mbind option_bind].
  - cbn [sink_bytes buf_sink] in Ho. pose proof (octets_of_length _ _ Ho) as Hl. fold n in Hl.
    assert (Hfit : Z.of_nat (length (eb_buffer k)) <= size) by by apply (buf_room size).
    rewrite (proj2 (Z.ltb_ge _ _)) by lia. by exists (eb_buffer k).
  - apply buf_refused in Href. rewrite (proj2 (Z.ltb_lt _ _)) by done. by eexists.
Qed.

Lemma encode_to_new_buffer_at {A} `{UperLaws A} tmp (a zero : A) :
  uper_valid a -> bytes tmp -> length tmp = 32%nat -> Z.of_nat (length (uper_code a)) < 2 ^ 59 ->
  exists o, uper_encode_to_new_buffer tmp a = Some (Z.of_nat (length o), Some o) /\ (0 < length o)%nat /\
    (uper_code a <> [] -> octets_of (uper_code a) o) /\
    uper_decode_complete zero o = Some (RC_OK, Z.of_nat (length o), a).
Proof.
  intros Hv Htb Htl Hsmall. unfold uper_encode_to_new_buffer.
  destruct (encode_internal_at dyn_sink tmp a {| dyn_bytes := []; allocated := 0 |} Hv Htb Htl)
    as [(k & -> & Ho & _)|(k & _ & Href)]; [done|by left| |by apply dyn_refused in Href].
  cbn [mbind option_bind]. rewrite (proj2 (Z.eqb_neq _ (-1))) by lia.
  destruct (uper_code a) as [|b code] eqn:Hcode.
  - exists [0]. split_and!; [done|cbn; lia|done|]. by apply decode_complete_empty.
  - rewrite (proj2 (Z.eqb_neq _ 0)) by (cbn [length]; lia). rewrite <- Hcode in *. cbn [sink_bytes dyn_sink] in Ho.
    pose proof (octets_of_length _ _ Ho) as Hl. exists (dyn_bytes k).
    assert (Hne : uper_code a <> []) by by rewrite Hcode.
    split_and!; [by rewrite Hl| |done|].
    + destruct (dyn_bytes k); [|cbn; lia]. destruct Ho as [_ Hb]. by rewrite Hcode in Hb.
    + by apply decode_complete_whole.
Qed.

(** The same for a type that sends and receives. *)
Section messages.
Context {A : Type} `{CL : CodecLaws A}.

Lemma sent_internal {K} (HS : Sink K) tmp (a : A) C key :
  uper_sends a C -> bytes tmp -> length tmp = 32%nat -> sink_bytes key = [] -> sink_inv key -> ~ refused C -> ~ refused_last C ->
  exists k, uper_encode_internal HS tmp a key = Some (Z.of_nat (length C), k) /\ octets_of C (sink_bytes k).
Proof.
  intros Ha Htb Htl Hk Hi Hn1 Hn2. destruct (sends_at K HS [] _ a C Ha (fresh_outp_at tmp key Htb Htl Hk Hi) Hn1) as (e & po & He & Hne & Hat).
  destruct (encode_internal_finish HS tmp a key _ e po He Hne Hat) as [(k & ? & ? & _)|(k & _ & ?)]; [by exists k|by destruct Hn2].
Qed.

Lemma sent_to_buffer tmp (a : A) C buffer :
  uper_sends a C -> bytes tmp -> length tmp = 32%nat -> octets_needed (length C) <= Z.of_nat (length buffer) ->
  exists o, octets_of C o /\ Z.of_nat (length o) = octets_needed (length C) /\
    uper_encode_to_buffer tmp a buffer = Some (Z.of_nat (length C), o ++ drop (length o) buffer).
Proof.
  intros Ha Htb Htl Hfit. unfold uper_encode_to_buffer. set (size := Z.of_nat (length buffer)) in *.
  destruct (sent_internal (buf_sink size) tmp a C {| eb_buffer := []; left := size |} Ha Htb Htl) as (k & -> & Ho);
    [done|cbn; lia|intros ?; apply Zlt_not_le in Hfit; [done|]; apply (buf_refused size); by left|
     intros ?; apply Zlt_not_le in Hfit; [done|]; apply (buf_refused size); by right|].
  cbn [mbind option_bind sink_bytes buf_sink] in Ho |- *. exists (eb_buffer k). by rewrite (octets_of_length _ _ Ho).
Qed.

Lemma received_whole (zero a : A) C o : uper_receives a C -> octets_of C o -> C <> [] ->
  uper_decode_complete zero o = Some (RC_OK, Z.of_nat (length o), a).
Proof.
  intros Ha Ho Hne. rewrite <- (app_nil_r o) at 1. apply (decode_complete_gen C); try done; [|exact codec_decoder_step].
  intros L pd. by apply receives_at.
Qed.

Lemma sent_and_received tmp (a zero : A) C :
  uper_sends a C -> uper_receives a C -> bytes tmp -> length tmp = 32%nat -> C <> [] -> Z.of_nat (length C) < 2 ^ 59 ->
  exists o, uper_encode_to_new_buffer tmp a = Some (Z.of_nat (length o), Some o) /\
    uper_decode_complete zero o = Some (RC_OK, Z.of_nat (length o), a).
Proof.
  intros Hs Hr Htb Htl Hne Hsmall. unfold uper_encode_to_new_buffer.
  destruct (sent_internal dyn_sink tmp a C {| dyn_bytes := []; allocated := 0 |} Hs Htb Htl) as (k & -> & Ho);
    [done|by left|intros ?; apply (dyn_refused _ Hsmall); by left|intros ?; apply (dyn_refused _ Hsmall); by right|].
  cbn [mbind option_bind]. rewrite (proj2 (Z.eqb_neq _ (-1))), (proj2 (Z.eqb_neq _ 0)) by (destruct C; cbn [length]; done || lia).
  cbn [sink_bytes dyn_sink] in Ho. exists (dyn_bytes k). split; [by rewrite (octets_of_length _ _ Ho)|by apply (received_whole zero a C)].
Qed.
End messages.

(** ** Machine integers as a type *)

Record native_field := { native_unsigned : bool; native_ct : option asn_per_constraint_t }.

(** A value of the field [fld]. *)
Definition Native (fld : native_field) : Type := Z.

#[global] Instance native_type fld : UperType (Native fld) :=
  {| uper_encoder K HS v po := @NativeInteger_encode_uper K HS (native_unsigned fld) (native_ct fld) v po;
     uper_decoder pd := NativeInteger_decode_uper (native_unsigned fld) (native_ct fld) 0 pd |}.

#[global] Instance native_laws fld : UperLaws (Native fld).
Proof.
  refine {| uper_code v := native_code (native_unsigned fld) (native_ct fld) v;
            uper_valid v := - 2 ^ 63 <= v < 2 ^ 63 /\ ct_wf (native_unsigned fld) (native_ct fld) /\
                            encodable (native_unsigned fld) (native_ct fld) v = true |}.
  - intros K HS B po a (H1 & H2 & H3) Hat. exact (NativeInteger_encode_at B po _ _ a Hat H1 H2 H3).
  - intros a L pd (H1 & H2 & H3) Hpd. exact (NativeInteger_decode_at _ _ a 0 L pd H1 H2 H3 Hpd).
  - intros pd c a pd' H. exact (NativeInteger_decode_step _ _ _ _ _ _ _ H).
Defined.

(** ** Properties *)

(** A complete encoding in a caller's buffer: when it fits, the number of bits is
    returned, the buffer holds the code padded with zeros and is unchanged behind,
    and the decoder gives back the value with the octets it took; when it does not
    fit, the encoder fails. *)
Theorem uper_buffer_roundtrip {A} `{UperLaws A} tmp (a zero : A) buffer :
  uper_valid a -> bytes tmp -> length tmp = 32%nat -> bytes buffer ->
  let n := length (uper_code a) in
  if Z.of_nat (length buffer) <? octets_needed n then
    exists buffer', uper_encode_to_buffer tmp a buffer = Some (-1, buffer')
  else
    exists o, octets_of (uper_code a) o /\ Z.of_nat (length o) = octets_needed n /\
      uper_encode_to_buffer tmp a buffer = Some (Z.of_nat n, o ++ drop (length o) buffer) /\
      (uper_code a <> [] ->
       uper_decode_complete zero (o ++ drop (length o) buffer) = Some (RC_OK, octets_needed n, a)).
Proof.
  intros Hv Htb Htl Hbb n. pose proof (encode_to_buffer_at tmp a buffer Hv Htb Htl) as Henc.
  cbv zeta in Henc. fold n in Henc.
  destruct (Z.of_nat (length buffer) <? octets_needed n); [done|]. destruct Henc as (o & Ho & Hl & He). exists o. split_and!; [done..|]. intros Hne.
  rewrite (decode_complete_at zero a o); [by rewrite Hl|done..|by apply Forall_drop|done].
Qed.

Lemma uper_buffer_roundtrip_witness :
  let a : Native {| native_unsigned := false; native_ct := Some sample_ct |} := 3 in
  exists o, octets_of (uper_code a) o /\ Z.of_nat (length o) = octets_needed (length (uper_code a)) /\
      uper_encode_to_buffer (replicate 32 0x5A) a [1; 2; 3] =
        Some (Z.of_nat (length (uper_code a)), o ++ drop (length o) [1; 2; 3]) /\
      (uper_code a <> [] ->
       uper_decode_complete a (o ++ drop (length o) [1; 2; 3]) = Some (RC_OK, octets_needed (length (uper_code a)), a)).
Proof.
  intros a. assert (Hfit : (Z.of_nat (length [1; 2; 3]) <? octets_needed (length (uper_code a))) = false).
  { vm_compute. reflexivity. }
  pose proof (uper_buffer_roundtrip (replicate 32 0x5A) a a [1; 2; 3]) as Hrt. cbv zeta in Hrt. rewrite Hfit in Hrt.
  apply Hrt.
  - split_and!; [done..| |done]. left. split_and!; done.
  - by apply bytes_replicate.
  - done.
  - repeat constructor; done.
Defined.

(** A complete encoding in a new block: it always succeeds, no copy runs past the
    block (sizes below 2^59 bits), the block holds the padded code, or one zero
    octet for an empty code, and the decoder gives back the value and takes the
    whole block. *)
Theorem uper_new_buffer_roundtrip {A} `{UperLaws A} tmp (a zero : A) :
  uper_valid a -> bytes tmp -> length tmp = 32%nat -> Z.of_nat (length (uper_code a)) < 2 ^ 59 ->
  exists o, uper_encode_to_new_buffer tmp a = Some (Z.of_nat (length o), Some o) /\ (0 < length o)%nat /\
    (uper_code a <> [] -> octets_of (uper_code a) o) /\
    uper_decode_complete zero o = Some (RC_OK, Z.of_nat (length o), a).
Proof. apply encode_to_new_buffer_at. Qed.

Lemma uper_new_buffer_roundtrip_witness :
  let a : Native {| native_unsigned := false; native_ct := Some sample_ct |} := -70000 in
  exists o, uper_encode_to_new_buffer (replicate 32 0x5A) a = Some (Z.of_nat (length o), Some o) /\ (0 < length o)%nat /\
    (uper_code a <> [] -> octets_of (uper_code a) o) /\
    uper_decode_complete a o = Some (RC_OK, Z.of_nat (length o), a).
Proof.
  intros a. apply (uper_new_buffer_roundtrip (replicate 32 0x5A) a a).
  - split_and!; [done..| |done]. left. split_and!; done.
  - by apply bytes_replicate.
  - done.
  - done.
Defined.
