(* ===== verification/Rrlp.v ===== *)
(** * Rrlp: collecting the assistance data of an RRLP message

    Model of [supl_collect_rrlp] and [supl_more_rrlp] of
    [src/core/libs/supl/supl.c], with the structures of [supl.h] and the decoded
    RRLP structures they read ([asn-rrlp/PDU.h] and the headers it includes, less
    the members no code here reads). Members of the destination are stored at the
    width of their C type. [None] is an access outside an array.

    The coordinates are doubles in the code; 90/2^23 and 360/2^24 times a 24-bit
    integer are exact, so they are rationals here. *)
From Stdlib Require Import QArith.
From S2P Require Import Prelude AsnInteger.

#[local] Open Scope Z_scope.

Abbreviation i8 := (swrap 8).
Abbreviation i16 := (swrap 16).

(** ** RRLP message *)

Record AddionalDopplerFields := { doppler1 : Z; dopplerUncertainty : Z }.
Record AddionalAngleFields := { azimuth : Z; elevation : Z }.

Record AcquisElement := {
  svid : Z; doppler0 : Z; addionalDoppler : option AddionalDopplerFields; codePhase : Z;
  intCodePhase : Z; gpsBitNumber : Z; codePhaseSearchWindow : Z;
  addionalAngle : option AddionalAngleFields }.

Record AlmanacElement := {
  alm_satelliteID : Z; almanacE : Z; alamanacToa : Z; almanacKsii : Z; almanacOmegaDot : Z;
  almanacAPowerHalf : Z; almanacOmega0 : Z; almanacW : Z; almanacM0 : Z; almanacAF0 : Z; almanacAF1 : Z }.

Record UncompressedEphemeris := {
  ephemCodeOnL2 : Z; ephemURA : Z; ephemSVhealth : Z; ephemIODC : Z; ephemTgd : Z; ephemToc : Z;
  ephemAF2 : Z; ephemAF1 : Z; ephemAF0 : Z; ephemCrs : Z; ephemDeltaN : Z; ephemM0 : Z; ephemCuc : Z;
  ephemE : Z; ephemCus : Z; ephemAPowerHalf : Z; ephemToe : Z; ephemAODA : Z; ephemCic : Z;
  ephemOmegaA0 : Z; ephemCis : Z; ephemI0 : Z; ephemCrc : Z; ephemW : Z; ephemOmegaADot : Z; ephemIDot : Z }.

Inductive SatStatus :=
  | SatStatus_NOTHING
  | newSatelliteAndModelUC (ue : UncompressedEphemeris)
  | oldSatelliteAndModel
  | newNaviModelUC (ue : UncompressedEphemeris).

Record NavModelElement := { nav_satelliteID : Z; satStatus : SatStatus }.

Record IonosphericModel := {
  alfa0 : Z; alfa1 : Z; alfa2 : Z; alfa3 : Z; beta0 : Z; beta1 : Z; beta2 : Z; beta3 : Z }.

Record UTCModel := {
  utcA1 : Z; utcA0 : Z; utcTot : Z; utcWNt : Z; utcDeltaTls : Z; utcWNlsf : Z; utcDN : Z; utcDeltaTlsf : Z }.

Record GPSTime := { gpsTOW23b : Z; gpsWeek : Z }.
Record AcquisAssist := { acq_gpsTOW : Z; acquisList : list AcquisElement }.

Record ControlHeader := {
  referenceTime : option GPSTime;
  refLocation : option (list Z);
  navigationModel : option (list NavModelElement);
  ionosphericModel : option IonosphericModel;
  utcModel : option UTCModel;
  almanac : option (list AlmanacElement);
  acquisAssist : option AcquisAssist }.

Record AssistanceData := {
  gps_AssistData : option ControlHeader;
  moreAssDataToBeSent : option INTEGER_t }.

Inductive RRLP_Component :=
  | RRLP_NOTHING | msrPositionReq | msrPositionRsp
  | assistanceData (ad : AssistanceData)
  | assistanceDataAck | protocolError.

Record PDU_t := { referenceNumber : Z; component : RRLP_Component }.

(** ** Assistance data *)

Definition SUPL_RRLP_ASSIST_REFTIME : Z := 1.
Definition SUPL_RRLP_ASSIST_REFLOC : Z := 2.
Definition SUPL_RRLP_ASSIST_IONO : Z := 4.
Definition SUPL_RRLP_ASSIST_EPHEMERIS : Z := 8.
Definition SUPL_RRLP_ASSIST_UTC : Z := 16.
Definition SUPL_ACQUIS_DOPPLER : Z := 1.
Definition SUPL_ACQUIS_ANGLE : Z := 2.
Definition MAX_EPHEMERIS : Z := 32.

Record supl_acquis_s := {
  acq_prn : Z; acq_parts : Z; acq_doppler0 : Z; acq_doppler1 : Z; acq_d_win : Z; acq_code_ph : Z;
  acq_code_ph_int : Z; acq_bit_num : Z; acq_code_ph_win : Z; acq_az : Z; acq_el : Z }.

Record supl_almanac_s := {
  alm_prn : Z; alm_e : Z; alm_toa : Z; alm_Ksii : Z; alm_OMEGA_dot : Z; alm_A_sqrt : Z; alm_OMEGA_0 : Z;
  alm_w : Z; alm_M0 : Z; alm_AF0 : Z; alm_AF1 : Z }.

(** The members that a navigation model sets. *)
Record supl_ephemeris_s := {
  eph_delta_n : Z; eph_M0 : Z; eph_e : Z; eph_A_sqrt : Z; eph_OMEGA_0 : Z; eph_i0 : Z; eph_w : Z;
  eph_OMEGA_dot : Z; eph_i_dot : Z; eph_Cuc : Z; eph_Cus : Z; eph_Crc : Z; eph_Crs : Z; eph_Cic : Z;
  eph_Cis : Z; eph_toe : Z; eph_IODC : Z; eph_toc : Z; eph_AF0 : Z; eph_AF1 : Z; eph_AF2 : Z;
  eph_nav_model : Z; eph_bits : Z; eph_ura : Z; eph_health : Z; eph_tgd : Z; eph_AODA : Z }.

Record supl_ionospheric_s := {
  iono_a0 : Z; iono_a1 : Z; iono_a2 : Z; iono_a3 : Z; iono_b0 : Z; iono_b1 : Z; iono_b2 : Z; iono_b3 : Z }.

Record supl_utc_s := {
  utc_a0 : Z; utc_a1 : Z; utc_delta_tls : Z; utc_tot : Z; utc_wnt : Z; utc_wnlsf : Z; utc_dn : Z;
  utc_delta_tlsf : Z }.

Record supl_time_s := { gps_tow : Z; gps_week : Z; stamp : Z * Z }.
Record supl_pos_s := { uncertainty : Z; lat : Q; lon : Q }.

(** [eph] pairs [prn] with the other members of an entry. *)
Record supl_assist_t := {
  set : Z;
  time : supl_time_s;
  pos : supl_pos_s;
  iono : supl_ionospheric_s;
  utc : supl_utc_s;
  cnt_eph : Z;
  eph : list (Z * supl_ephemeris_s);
  cnt_alm : Z;
  alm_week : Z;
  alm : list supl_almanac_s;
  cnt_acq : Z;
  acq_time : Z;
  acq : list supl_acquis_s }.

(** ** Entries *)

Definition collect_acquis (e : AcquisElement) (old : supl_acquis_s) : supl_acquis_s :=
  {| acq_prn := u8 (svid e + 1);
     acq_parts :=
       Z.lor (match addionalDoppler e with Some _ => SUPL_ACQUIS_DOPPLER | None => 0 end)
             (match addionalAngle e with Some _ => SUPL_ACQUIS_ANGLE | None => 0 end);
     acq_doppler0 := i16 (doppler0 e);
     acq_doppler1 := match addionalDoppler e with Some d => i8 (doppler1 d) | None => acq_doppler1 old end;
     acq_d_win := match addionalDoppler e with Some d => u8 (dopplerUncertainty d) | None => acq_d_win old end;
     acq_code_ph := u16 (codePhase e);
     acq_code_ph_int := u8 (intCodePhase e);
     acq_bit_num := u8 (gpsBitNumber e);
     acq_code_ph_win := u16 (codePhaseSearchWindow e);
     acq_az := match addionalAngle e with Some a => u8 (azimuth a) | None => acq_az old end;
     acq_el := match addionalAngle e with Some a => u8 (elevation a) | None => acq_el old end |}.

Definition collect_almanac (e : AlmanacElement) (old : supl_almanac_s) : supl_almanac_s :=
  {| alm_prn := u8 (alm_satelliteID e + 1); alm_e := u16 (almanacE e); alm_toa := u8 (alamanacToa e);
     alm_Ksii := i16 (almanacKsii e); alm_OMEGA_dot := i16 (almanacOmegaDot e);
     alm_A_sqrt := u32 (almanacAPowerHalf e); alm_OMEGA_0 := i32 (almanacOmega0 e);
     alm_w := i32 (almanacW e); alm_M0 := i32 (almanacM0 e); alm_AF0 := i16 (almanacAF0 e);
     alm_AF1 := i16 (almanacAF1 e) |}.

Definition collect_ue (ue : UncompressedEphemeris) : supl_ephemeris_s :=
  {| eph_delta_n := u16 (ephemDeltaN ue); eph_M0 := i32 (ephemM0 ue); eph_e := u32 (ephemE ue);
     eph_A_sqrt := u32 (ephemAPowerHalf ue); eph_OMEGA_0 := i32 (ephemOmegaA0 ue); eph_i0 := i32 (ephemI0 ue);
     eph_w := i32 (ephemW ue); eph_OMEGA_dot := i32 (ephemOmegaADot ue); eph_i_dot := i16 (ephemIDot ue);
     eph_Cuc := i16 (ephemCuc ue); eph_Cus := i16 (ephemCus ue); eph_Crc := i16 (ephemCrc ue);
     eph_Crs := i16 (ephemCrs ue); eph_Cic := i16 (ephemCic ue); eph_Cis := i16 (ephemCis ue);
     eph_toe := u16 (ephemToe ue); eph_IODC := u16 (ephemIODC ue); eph_toc := u16 (ephemToc ue);
     eph_AF0 := i32 (ephemAF0 ue); eph_AF1 := i16 (ephemAF1 ue); eph_AF2 := i8 (ephemAF2 ue);
     eph_nav_model := 1; eph_bits := u8 (ephemCodeOnL2 ue); eph_ura := u8 (ephemURA ue);
     eph_health := u8 (ephemSVhealth ue); eph_tgd := i8 (ephemTgd ue); eph_AODA := u8 (ephemAODA ue) |}.

(** Only the two kinds of status with a model carry one. *)
Definition collect_ephemeris (e : NavModelElement) (old : Z * supl_ephemeris_s) : Z * supl_ephemeris_s :=
  (u8 (nav_satelliteID e + 1),
   match satStatus e with
   | newNaviModelUC ue | newSatelliteAndModelUC ue => collect_ue ue
   | _ => snd old
   end).

Definition collect_iono (m : IonosphericModel) : supl_ionospheric_s :=
  {| iono_a0 := i8 (alfa0 m); iono_a1 := i8 (alfa1 m); iono_a2 := i8 (alfa2 m); iono_a3 := i8 (alfa3 m);
     iono_b0 := i8 (beta0 m); iono_b1 := i8 (beta1 m); iono_b2 := i8 (beta2 m); iono_b3 := i8 (beta3 m) |}.

Definition collect_utc (m : UTCModel) : supl_utc_s :=
  {| utc_a0 := i32 (utcA0 m); utc_a1 := i32 (utcA1 m); utc_delta_tls := i8 (utcDeltaTls m);
     utc_tot := u8 (utcTot m); utc_wnt := u8 (utcWNt m); utc_wnlsf := u8 (utcWNlsf m);
     utc_dn := u8 (utcDN m); utc_delta_tlsf := u8 (utcDeltaTlsf m) |}.

(** 3GPP TS 23.032: ellipsoid point with altitude and uncertainty ellipsoid. *)
Definition collect_location (loc : list Z) : option (option supl_pos_s) :=
  if Z.of_nat (length loc) =? 14 then
    b0 ← rd loc 0;
    if b0 =? 0x90 then
      b1 ← rd loc 1; b2 ← rd loc 2; b3 ← rd loc 3; b4 ← rd loc 4; b5 ← rd loc 5; b6 ← rd loc 6;
      b9 ← rd loc 9; b10 ← rd loc 10;
      let l := Z.lor (Z.lor (Z.shiftl (Z.land b1 0x7f) 16) (Z.shiftl b2 8)) b3 in
      let l := if negb (Z.land b1 0x80 =? 0) then l * -1 else l in
      let m := Z.lor (Z.lor (Z.shiftl b4 16) (Z.shiftl b5 8)) b6 in
      Some (Some {| uncertainty := if b9 <? b10 then b10 else b9;
                    lat := (90 * l) # (2 ^ 23); lon := (360 * m) # (2 ^ 24) |})
    else Some None
  else Some None.

(** The loops: [int i = cnt++], then the entry [i] of the array is filled. *)
Fixpoint collect_list {E S} (f : E -> S -> S) (els : list E) (cnt : Z) (arr : list S) : option (Z * list S) :=
  match els with
  | [] => Some (cnt, arr)
  | e :: els' =>
      old ← rd arr cnt;
      arr' ← wr arr cnt (f e old);
      collect_list f els' (i32 (cnt + 1)) arr'
  end.

(** [set |= flag] when the part is there. *)
Definition flag_if {T} (o : option T) (flag : Z) : Z := match o with Some _ => flag | None => 0 end.

Definition supl_collect_rrlp (a : supl_assist_t) (rrlp : PDU_t) (t : Z * Z) : option (Z * supl_assist_t) :=
  match component rrlp with
  | assistanceData ad =>
      match gps_AssistData ad with
      | None => Some (0, a)
      | Some hdr =>
          loc ← match refLocation hdr with Some loc => collect_location loc | None => Some None end;
          '(cnt_acq', acq') ←
            match acquisAssist hdr with
            | Some q => collect_list collect_acquis (acquisList q) (cnt_acq a) (acq a)
            | None => Some (cnt_acq a, acq a)
            end;
          '(cnt_alm', alm') ←
            match almanac hdr with
            | Some l => collect_list collect_almanac l (cnt_alm a) (alm a)
            | None => Some (cnt_alm a, alm a)
            end;
          '(cnt_eph', eph') ←
            match navigationModel hdr with
            | Some l => collect_list collect_ephemeris l (cnt_eph a) (eph a)
            | None => Some (cnt_eph a, eph a)
            end;
          Some (1,
            {| set := Z.lor (Z.lor (Z.lor (Z.lor (set a) (flag_if (referenceTime hdr) SUPL_RRLP_ASSIST_REFTIME))
                        (flag_if loc SUPL_RRLP_ASSIST_REFLOC))
                        (flag_if (ionosphericModel hdr) SUPL_RRLP_ASSIST_IONO))
                        (flag_if (utcModel hdr) SUPL_RRLP_ASSIST_UTC);
               time := match referenceTime hdr with
                       | Some g => {| gps_tow := gpsTOW23b g; gps_week := gpsWeek g; stamp := t |}
                       | None => time a
                       end;
               pos := default (pos a) loc;
               iono := match ionosphericModel hdr with Some m => collect_iono m | None => iono a end;
               utc := match utcModel hdr with Some m => collect_utc m | None => utc a end;
               cnt_eph := cnt_eph'; eph := eph';
               cnt_alm := cnt_alm'; alm_week := alm_week a; alm := alm';
               cnt_acq := cnt_acq';
               acq_time := match acquisAssist hdr with Some q => i32 (acq_gpsTOW q) | None => acq_time a end;
               acq := acq' |})
      end
  | _ => Some (0, a)
  end.

Definition MoreAssDataToBeSent_moreMessagesOnTheWay : Z := 1.

Definition supl_more_rrlp (rrlp : PDU_t) : bool :=
  match component rrlp with
  | assistanceData ad =>
      match moreAssDataToBeSent ad with
      | None => false
      | Some v =>
          match asn_INTEGER2long v with
          | Some value => value =? MoreAssDataToBeSent_moreMessagesOnTheWay
          | None => false
          end
      end
  | _ => false
  end.

(** [memset(assist, 0, sizeof(supl_assist_t))] *)
Definition zero_acquis : supl_acquis_s := Build_supl_acquis_s 0 0 0 0 0 0 0 0 0 0 0.
Definition zero_almanac : supl_almanac_s := Build_supl_almanac_s 0 0 0 0 0 0 0 0 0 0 0.
Definition zero_ephemeris : supl_ephemeris_s :=
  Build_supl_ephemeris_s 0 0 0 0 0 0 0 0 0 0 0 0 0 0 0 0 0 0 0 0 0 0 0 0 0 0 0.
Definition zero_assist : supl_assist_t :=
  {| set := 0; time := {| gps_tow := 0; gps_week := 0; stamp := (0, 0) |};
     pos := {| uncertainty := 0; lat := 0; lon := 0 |};
     iono := Build_supl_ionospheric_s 0 0 0 0 0 0 0 0; utc := Build_supl_utc_s 0 0 0 0 0 0 0 0;
     cnt_eph := 0; eph := replicate 32 (0, zero_ephemeris);
     cnt_alm := 0; alm_week := 0; alm := replicate 32 zero_almanac;
     cnt_acq := 0; acq_time := 0; acq := replicate 32 zero_acquis |}.

(** ** Specification *)

(** The ranges of the ASN.1 module ([asn-rrlp/*.c], the [_constraint_] functions). *)
Definition in_range (lo hi v : Z) : bool := (lo <=? v) && (v <=? hi).
Definition s8 := in_range (-128) 127.
Definition s16 := in_range (-32768) 32767.
Definition s24 := in_range (-8388608) 8388607.
Definition s32 := in_range (-2147483648) 2147483647.

Definition acquis_ranges (e : AcquisElement) : bool :=
  in_range 0 63 (svid e) && in_range (-2048) 2047 (doppler0 e) && in_range 0 1022 (codePhase e) &&
  in_range 0 19 (intCodePhase e) && in_range 0 3 (gpsBitNumber e) && in_range 0 15 (codePhaseSearchWindow e) &&
  match addionalDoppler e with Some d => in_range 0 63 (doppler1 d) && in_range 0 7 (dopplerUncertainty d) | None => true end &&
  match addionalAngle e with Some a => in_range 0 31 (azimuth a) && in_range 0 7 (elevation a) | None => true end.

Definition almanac_ranges (e : AlmanacElement) : bool :=
  in_range 0 63 (alm_satelliteID e) && in_range 0 65535 (almanacE e) && in_range 0 255 (alamanacToa e) &&
  s16 (almanacKsii e) && s16 (almanacOmegaDot e) && in_range 0 16777215 (almanacAPowerHalf e) &&
  s24 (almanacOmega0 e) && s24 (almanacW e) && s24 (almanacM0 e) &&
  in_range (-1024) 1023 (almanacAF0 e) && in_range (-1024) 1023 (almanacAF1 e).

Definition ue_ranges (u : UncompressedEphemeris) : bool :=
  in_range 0 3 (ephemCodeOnL2 u) && in_range 0 15 (ephemURA u) && in_range 0 63 (ephemSVhealth u) &&
  in_range 0 1023 (ephemIODC u) && s8 (ephemTgd u) && in_range 0 37799 (ephemToc u) && s8 (ephemAF2 u) &&
  s16 (ephemAF1 u) && in_range (-2097152) 2097151 (ephemAF0 u) && s16 (ephemCrs u) && s16 (ephemDeltaN u) &&
  s32 (ephemM0 u) && s16 (ephemCuc u) && in_range 0 4294967295 (ephemE u) && s16 (ephemCus u) &&
  in_range 0 4294967295 (ephemAPowerHalf u) && in_range 0 37799 (ephemToe u) && in_range 0 31 (ephemAODA u) &&
  s16 (ephemCic u) && s32 (ephemOmegaA0 u) && s16 (ephemCis u) && s32 (ephemI0 u) && s16 (ephemCrc u) &&
  s32 (ephemW u) && s24 (ephemOmegaADot u) && in_range (-8192) 8191 (ephemIDot u).

Definition nav_ranges (e : NavModelElement) : bool :=
  in_range 0 63 (nav_satelliteID e) &&
  match satStatus e with newNaviModelUC u | newSatelliteAndModelUC u => ue_ranges u | _ => true end.

Definition iono_ranges (m : IonosphericModel) : bool :=
  s8 (alfa0 m) && s8 (alfa1 m) && s8 (alfa2 m) && s8 (alfa3 m) &&
  s8 (beta0 m) && s8 (beta1 m) && s8 (beta2 m) && s8 (beta3 m).

Definition utc_ranges (m : UTCModel) : bool :=
  s24 (utcA1 m) && s32 (utcA0 m) && in_range 0 255 (utcTot m) && in_range 0 255 (utcWNt m) &&
  s8 (utcDeltaTls m) && in_range 0 255 (utcWNlsf m) && s8 (utcDN m) && s8 (utcDeltaTlsf m).

Definition opt_all {T} (f : T -> bool) (o : option T) : bool := match o with Some x => f x | None => true end.

Definition header_ranges (h : ControlHeader) : bool :=
  opt_all (fun g => in_range 0 7559999 (gpsTOW23b g) && in_range 0 1023 (gpsWeek g)) (referenceTime h) &&
  opt_all (fun l => in_range 1 20 (Z.of_nat (length l)) && forallb (in_range 0 255) l) (refLocation h) &&
  opt_all (fun l => in_range 1 16 (Z.of_nat (length l)) && forallb nav_ranges l) (navigationModel h) &&
  opt_all iono_ranges (ionosphericModel h) && opt_all utc_ranges (utcModel h) &&
  opt_all (fun l => in_range 1 64 (Z.of_nat (length l)) && forallb almanac_ranges l) (almanac h) &&
  opt_all (fun q => in_range 0 7559999 (acq_gpsTOW q) && in_range 1 16 (Z.of_nat (length (acquisList q)))
                    && forallb acquis_ranges (acquisList q)) (acquisAssist h).

(** The entries without the narrowing of the C types. The members [delta_n], [dn] and
    [delta_tlsf] are unsigned in [supl.h] and signed in the message. *)
Definition exact_acquis (e : AcquisElement) (old : supl_acquis_s) : supl_acquis_s :=
  {| acq_prn := svid e + 1;
     acq_parts := flag_if (addionalDoppler e) SUPL_ACQUIS_DOPPLER + flag_if (addionalAngle e) SUPL_ACQUIS_ANGLE;
     acq_doppler0 := doppler0 e;
     acq_doppler1 := match addionalDoppler e with Some d => doppler1 d | None => acq_doppler1 old end;
     acq_d_win := match addionalDoppler e with Some d => dopplerUncertainty d | None => acq_d_win old end;
     acq_code_ph := codePhase e; acq_code_ph_int := intCodePhase e; acq_bit_num := gpsBitNumber e;
     acq_code_ph_win := codePhaseSearchWindow e;
     acq_az := match addionalAngle e with Some a => azimuth a | None => acq_az old end;
     acq_el := match addionalAngle e with Some a => elevation a | None => acq_el old end |}.

Definition exact_almanac (e : AlmanacElement) (old : supl_almanac_s) : supl_almanac_s :=
  {| alm_prn := alm_satelliteID e + 1; alm_e := almanacE e; alm_toa := alamanacToa e; alm_Ksii := almanacKsii e;
     alm_OMEGA_dot := almanacOmegaDot e; alm_A_sqrt := almanacAPowerHalf e; alm_OMEGA_0 := almanacOmega0 e;
     alm_w := almanacW e; alm_M0 := almanacM0 e; alm_AF0 := almanacAF0 e; alm_AF1 := almanacAF1 e |}.

(** The value a signed number has when it is read as unsigned. *)
Definition as_unsigned (w v : Z) : Z := if v <? 0 then v + 2 ^ w else v.

Definition exact_ue (ue : UncompressedEphemeris) : supl_ephemeris_s :=
  {| eph_delta_n := as_unsigned 16 (ephemDeltaN ue); eph_M0 := ephemM0 ue; eph_e := ephemE ue;
     eph_A_sqrt := ephemAPowerHalf ue; eph_OMEGA_0 := ephemOmegaA0 ue; eph_i0 := ephemI0 ue; eph_w := ephemW ue;
     eph_OMEGA_dot := ephemOmegaADot ue; eph_i_dot := ephemIDot ue; eph_Cuc := ephemCuc ue; eph_Cus := ephemCus ue;
     eph_Crc := ephemCrc ue; eph_Crs := ephemCrs ue; eph_Cic := ephemCic ue; eph_Cis := ephemCis ue;
     eph_toe := ephemToe ue; eph_IODC := ephemIODC ue; eph_toc := ephemToc ue; eph_AF0 := ephemAF0 ue;
     eph_AF1 := ephemAF1 ue; eph_AF2 := ephemAF2 ue; eph_nav_model := 1; eph_bits := ephemCodeOnL2 ue;
     eph_ura := ephemURA ue; eph_health := ephemSVhealth ue; eph_tgd := ephemTgd ue; eph_AODA := ephemAODA ue |}.

Definition exact_ephemeris (e : NavModelElement) (old : Z * supl_ephemeris_s) : Z * supl_ephemeris_s :=
  (nav_satelliteID e + 1,
   match satStatus e with newNaviModelUC ue | newSatelliteAndModelUC ue => exact_ue ue | _ => snd old end).

Definition exact_iono (m : IonosphericModel) : supl_ionospheric_s :=
  Build_supl_ionospheric_s (alfa0 m) (alfa1 m) (alfa2 m) (alfa3 m) (beta0 m) (beta1 m) (beta2 m) (beta3 m).

Definition exact_utc (m : UTCModel) : supl_utc_s :=
  {| utc_a0 := utcA0 m; utc_a1 := utcA1 m; utc_delta_tls := utcDeltaTls m; utc_tot := utcTot m; utc_wnt := utcWNt m;
     utc_wnlsf := utcWNlsf m; utc_dn := as_unsigned 8 (utcDN m); utc_delta_tlsf := as_unsigned 8 (utcDeltaTlsf m) |}.

(** The entries of [els] from [cnt] on, the others as they were. *)
Definition append_entries {E S} (f : E -> S -> S) (els : list E) (cnt : Z) (arr : list S) : list S :=
  splice arr (Z.to_nat cnt) (zip_with f els (drop (Z.to_nat cnt) arr)).

Definition els_of {E} (o : option (list E)) : list E := default [] o.

Definition acquis_of (hdr : ControlHeader) : list AcquisElement := els_of (acquisList <$> acquisAssist hdr).

(** The abstract effect of a message on the assistance data. *)
Definition collect_spec (a : supl_assist_t) (hdr : ControlHeader) (loc : option supl_pos_s) (t : Z * Z)
  : supl_assist_t :=
  {| set := Z.lor (Z.lor (Z.lor (Z.lor (set a) (flag_if (referenceTime hdr) SUPL_RRLP_ASSIST_REFTIME))
              (flag_if loc SUPL_RRLP_ASSIST_REFLOC))
              (flag_if (ionosphericModel hdr) SUPL_RRLP_ASSIST_IONO))
              (flag_if (utcModel hdr) SUPL_RRLP_ASSIST_UTC);
     time := default (time a)
       ((fun g => {| gps_tow := gpsTOW23b g; gps_week := gpsWeek g; stamp := t |}) <$> referenceTime hdr);
     pos := default (pos a) loc;
     iono := default (iono a) (exact_iono <$> ionosphericModel hdr);
     utc := default (utc a) (exact_utc <$> utcModel hdr);
     cnt_eph := cnt_eph a + Z.of_nat (length (els_of (navigationModel hdr)));
     eph := append_entries exact_ephemeris (els_of (navigationModel hdr)) (cnt_eph a) (eph a);
     cnt_alm := cnt_alm a + Z.of_nat (length (els_of (almanac hdr)));
     alm_week := alm_week a;
     alm := append_entries exact_almanac (els_of (almanac hdr)) (cnt_alm a) (alm a);
     cnt_acq := cnt_acq a + Z.of_nat (length (acquis_of hdr));
     acq_time := default (acq_time a) (acq_gpsTOW <$> acquisAssist hdr);
     acq := append_entries exact_acquis (acquis_of hdr) (cnt_acq a) (acq a) |}.

(** The arrays have their size, the counters are in bounds. *)
Record assist_ok (a : supl_assist_t) : Prop := {
  ok_eph : Z.of_nat (length (eph a)) = MAX_EPHEMERIS; ok_cnt_eph : 0 <= cnt_eph a <= MAX_EPHEMERIS;
  ok_alm : Z.of_nat (length (alm a)) = MAX_EPHEMERIS; ok_cnt_alm : 0 <= cnt_alm a <= MAX_EPHEMERIS;
  ok_acq : Z.of_nat (length (acq a)) = MAX_EPHEMERIS; ok_cnt_acq : 0 <= cnt_acq a <= MAX_EPHEMERIS }.

(** There is room for the entries of the message. *)
Definition has_room (a : supl_assist_t) (hdr : ControlHeader) : bool :=
  (cnt_eph a + Z.of_nat (length (els_of (navigationModel hdr))) <=? MAX_EPHEMERIS) &&
  (cnt_alm a + Z.of_nat (length (els_of (almanac hdr))) <=? MAX_EPHEMERIS) &&
  (cnt_acq a + Z.of_nat (length (acquis_of hdr)) <=? MAX_EPHEMERIS).

(** *** Lemmas *)

Ltac in_ranges :=
  repeat match goal with
  | H : _ && _ = true |- _ => apply andb_true_iff in H; destruct H
  | H : in_range _ _ _ = true |- _ => unfold in_range in H; apply andb_true_iff in H; destruct H
  | H : (_ <=? _) = true |- _ => apply Z.leb_le in H
  end.

Lemma as_unsigned_uwrap w v : 0 <= w -> - 2 ^ w <= v < 2 ^ w -> uwrap w v = as_unsigned w v.
Proof.
  intros Hw Hv. unfold as_unsigned. destruct (Z.ltb_spec v 0); [|apply uwrap_small; lia].
  unfold uwrap. rewrite <- (Z.mod_add v 1) by lia. rewrite Z.mod_small; lia.
Qed.

Ltac exact_fields :=
  unfold s8, s16, s24, s32 in *; in_ranges;
  f_equal; first [reflexivity | apply uwrap_small; lia | apply swrap_small; lia | apply as_unsigned_uwrap; lia].

Lemma collect_acquis_exact e old : acquis_ranges e = true -> collect_acquis e old = exact_acquis e old.
Proof.
  intros H. unfold acquis_ranges, collect_acquis, exact_acquis in *.
  destruct (addionalDoppler e) as [d|], (addionalAngle e) as [g|]; exact_fields.
Qed.

Lemma collect_almanac_exact e old : almanac_ranges e = true -> collect_almanac e old = exact_almanac e old.
Proof. intros H. unfold almanac_ranges, collect_almanac, exact_almanac in *. exact_fields. Qed.

Lemma collect_ue_exact u : ue_ranges u = true -> collect_ue u = exact_ue u.
Proof. intros H. unfold ue_ranges, collect_ue, exact_ue in *. exact_fields. Qed.

Lemma collect_ephemeris_exact e old : nav_ranges e = true -> collect_ephemeris e old = exact_ephemeris e old.
Proof.
  intros H. unfold nav_ranges, collect_ephemeris, exact_ephemeris in *. apply andb_true_iff in H as [H1 H2].
  in_ranges. rewrite uwrap_small by lia. destruct (satStatus e); by rewrite ?collect_ue_exact.
Qed.

Lemma collect_iono_exact m : iono_ranges m = true -> collect_iono m = exact_iono m.
Proof. intros H. unfold iono_ranges, collect_iono, exact_iono in *. exact_fields. Qed.

Lemma collect_utc_exact m : utc_ranges m = true -> collect_utc m = exact_utc m.
Proof. intros H. unfold utc_ranges, collect_utc, exact_utc in *. exact_fields. Qed.

Lemma collect_list_room {E T} (f g : E -> T -> T) els : forall cnt arr,
  Forall (fun e => forall old, f e old = g e old) els ->
  0 <= cnt -> cnt + Z.of_nat (length els) <= Z.of_nat (length arr) -> Z.of_nat (length arr) < 2 ^ 31 ->
  collect_list f els cnt arr = Some (cnt + Z.of_nat (length els), append_entries g els cnt arr).
Proof.
  unfold append_entries. induction els as [|e els IH]; intros cnt arr Hfg Hc Hr Hl.
  - cbn [collect_list length zip_with]. rewrite splice_nil. do 2 f_equal. lia.
  - apply Forall_cons_1 in Hfg as [He Hfg]. cbn [length] in Hr. cbn [collect_list].
    destruct (lookup_lt_is_Some_2 arr (Z.to_nat cnt)) as [old Ho]; [lia|].
    rewrite rd_nonneg, Ho by lia. cbn [mbind option_bind]. rewrite wr_in by lia. cbn [mbind option_bind].
    rewrite swrap_small by lia. rewrite He, IH by (rewrite ?length_insert; done || lia). cbn [length].
    do 2 f_equal; [lia|]. rewrite (drop_S arr old (Z.to_nat cnt) Ho). cbn [zip_with].
    replace (Z.to_nat (cnt + 1)) with (S (Z.to_nat cnt)) by lia.
    rewrite drop_insert_lt by lia. set (tl := zip_with g els (drop (S (Z.to_nat cnt)) arr)).
    assert (Htl : (length tl <= length els)%nat) by (unfold tl; rewrite length_zip_with; lia).
    replace (<[Z.to_nat cnt := g e old]> arr) with (splice arr (Z.to_nat cnt) [g e old]).
    + pose proof (splice_splice arr (Z.to_nat cnt) [g e old] tl) as Hs. cbn [length app] in Hs.
      rewrite Nat.add_1_r in Hs. apply Hs. lia.
    + apply list_eq. intros k. rewrite lookup_splice by (cbn; lia). cbn [length]. case_decide.
      * replace k with (Z.to_nat cnt) by lia. rewrite Nat.sub_diag, list_lookup_insert_eq by lia. done.
      * rewrite list_lookup_insert_ne by lia. done.
Qed.

Lemma collect_list_overrun {E T} (f : E -> T -> T) els : forall cnt arr,
  0 <= cnt <= Z.of_nat (length arr) -> Z.of_nat (length arr) < cnt + Z.of_nat (length els) ->
  Z.of_nat (length arr) < 2 ^ 31 - 1 -> collect_list f els cnt arr = None.
Proof.
  induction els as [|e els IH]; intros cnt arr Hc Hr Hl; [cbn [length] in Hr; lia|]. cbn [collect_list length] in *.
  destruct (decide (cnt = Z.of_nat (length arr))) as [Heq|Hne].
  - rewrite rd_nonneg, lookup_ge_None_2 by lia. done.
  - destruct (lookup_lt_is_Some_2 arr (Z.to_nat cnt)) as [old Ho]; [lia|].
    rewrite rd_nonneg, Ho by lia. cbn [mbind option_bind]. rewrite wr_in by lia. cbn [mbind option_bind].
    rewrite swrap_small by lia. apply IH; rewrite length_insert; lia.
Qed.

Lemma forallb_exact {E T} (p : E -> bool) (f g : E -> T -> T) (o : option (list E)) lo hi :
  (forall e old, p e = true -> f e old = g e old) ->
  opt_all (fun l => in_range lo hi (Z.of_nat (length l)) && forallb p l) o = true ->
  Forall (fun e => forall old, f e old = g e old) (els_of o).
Proof.
  intros Hfg H. destruct o as [l|]; [|constructor]. cbn [opt_all els_of default from_option id] in *.
  apply andb_true_iff in H as [_ H]. apply list.Forall_forall. intros e He old. apply Hfg.
  rewrite forallb_forall in H. apply H. by apply list_elem_of_In.
Qed.

(** The octets of a reference location that is used are all there. *)
Lemma collect_location_total loc : exists r, collect_location loc = Some r.
Proof.
  unfold collect_location. destruct (Z.eqb_spec (Z.of_nat (length loc)) 14) as [E|]; [|by eexists].
  assert (Hrd : forall i, 0 <= i < 14 -> is_Some (rd loc i)) by (intros; apply rd_in; lia).
  destruct (Hrd 0 ltac:(lia)) as [b0 ->]. cbn [mbind option_bind]. destruct (b0 =? 0x90); [|by eexists].
  destruct (Hrd 1 ltac:(lia)) as [? ->], (Hrd 2 ltac:(lia)) as [? ->], (Hrd 3 ltac:(lia)) as [? ->],
    (Hrd 4 ltac:(lia)) as [? ->], (Hrd 5 ltac:(lia)) as [? ->], (Hrd 6 ltac:(lia)) as [? ->],
    (Hrd 9 ltac:(lia)) as [? ->], (Hrd 10 ltac:(lia)) as [? ->].
  cbn [mbind option_bind]. by eexists.
Qed.

(** With room, the C code does what [collect_spec] says. *)
Lemma collect_with_room a rrlp ad hdr t :
  component rrlp = assistanceData ad -> gps_AssistData ad = Some hdr ->
  assist_ok a -> header_ranges hdr = true -> has_room a hdr = true ->
  exists loc, match refLocation hdr with Some l => collect_location l | None => Some None end = Some loc /\
    supl_collect_rrlp a rrlp t = Some (1, collect_spec a hdr loc t).
Proof.
  intros Hc Hg [He Hce Hal Hca Hac Hcq] Hr Hroom. unfold supl_collect_rrlp. rewrite Hc, Hg.
  assert (exists loc, match refLocation hdr with Some l => collect_location l | None => Some None end = Some loc) as [loc Hloc].
  { destruct (refLocation hdr) as [l|]; [apply collect_location_total|by eexists]. }
  exists loc. split; [done|]. rewrite Hloc. cbn [mbind option_bind].
  unfold has_room in Hroom. apply andb_true_iff in Hroom as [Hroom R3%Z.leb_le].
  apply andb_true_iff in Hroom as [R1%Z.leb_le R2%Z.leb_le].
  unfold header_ranges in Hr. apply andb_true_iff in Hr as [Hr Racq]. apply andb_true_iff in Hr as [Hr Ralm].
  apply andb_true_iff in Hr as [Hr Rutc]. apply andb_true_iff in Hr as [Hr Riono].
  apply andb_true_iff in Hr as [_ Reph]. unfold MAX_EPHEMERIS in *.
  pose proof (forallb_exact _ _ _ _ _ _ collect_almanac_exact Ralm) as Falm.
  pose proof (forallb_exact _ _ _ _ _ _ collect_ephemeris_exact Reph) as Feph.
  assert (Facq : Forall (fun e => forall old, collect_acquis e old = exact_acquis e old) (acquis_of hdr)).
  { unfold acquis_of. apply (forallb_exact acquis_ranges _ _ _ 1 16 collect_acquis_exact).
    destruct (acquisAssist hdr) as [q|]; [|done]. cbn [opt_all fmap option_fmap option_map] in *.
    apply andb_true_iff in Racq as [Racq ->]. by apply andb_true_iff in Racq as [_ ->]. }
  replace (match acquisAssist hdr with
           | Some q => collect_list collect_acquis (acquisList q) (cnt_acq a) (acq a)
           | None => Some (cnt_acq a, acq a) end)
    with (collect_list collect_acquis (acquis_of hdr) (cnt_acq a) (acq a))
    by (unfold acquis_of; by destruct (acquisAssist hdr)).
  replace (match almanac hdr with
           | Some l => collect_list collect_almanac l (cnt_alm a) (alm a)
           | None => Some (cnt_alm a, alm a) end)
    with (collect_list collect_almanac (els_of (almanac hdr)) (cnt_alm a) (alm a)) by by destruct (almanac hdr).
  replace (match navigationModel hdr with
           | Some l => collect_list collect_ephemeris l (cnt_eph a) (eph a)
           | None => Some (cnt_eph a, eph a) end)
    with (collect_list collect_ephemeris (els_of (navigationModel hdr)) (cnt_eph a) (eph a))
    by by destruct (navigationModel hdr).
  rewrite (collect_list_room _ exact_acquis), (collect_list_room _ exact_almanac), (collect_list_room _ exact_ephemeris)
    by (try done; lia).
  cbn [mbind option_bind]. unfold collect_spec. do 3 f_equal.
  - by destruct (referenceTime hdr).
  - destruct (ionosphericModel hdr); [by apply collect_iono_exact|done].
  - destruct (utcModel hdr); [by apply collect_utc_exact|done].
  - destruct (acquisAssist hdr) as [q|]; [|done]. cbn [opt_all] in Racq. in_ranges.
    change (i32 (acq_gpsTOW q) = acq_gpsTOW q). apply swrap_small; lia.
Qed.

Lemma length_append_entries {E T} (f : E -> T -> T) els cnt arr :
  0 <= cnt -> cnt + Z.of_nat (length els) <= Z.of_nat (length arr) ->
  length (append_entries f els cnt arr) = length arr.
Proof. intros H1 H2. apply length_splice. rewrite length_zip_with, length_drop. lia. Qed.

Lemma collect_spec_ok a hdr loc t : assist_ok a -> has_room a hdr = true -> assist_ok (collect_spec a hdr loc t).
Proof.
  intros [He Hce Hal Hca Hac Hcq] Hroom. unfold has_room in Hroom. in_ranges. unfold MAX_EPHEMERIS in *.
  split; cbn [collect_spec eph alm acq cnt_eph cnt_alm cnt_acq]; rewrite ?length_append_entries by lia;
    unfold MAX_EPHEMERIS; lia.
Qed.

(** ** Properties *)

(** C37: A message in the ranges of its ASN.1 module, with room for its entries:
    [supl_collect_rrlp] has the effect of [collect_spec]. Every member of every
    entry is stored exactly, the optional parts only where present, except that
    the negative values of [delta_n], [dn] and [delta_tlsf] come out as unsigned.
    Counters stay within the arrays. *)
Theorem supl_collect_rrlp_exact a rrlp ad hdr t :
  component rrlp = assistanceData ad -> gps_AssistData ad = Some hdr ->
  assist_ok a -> header_ranges hdr = true -> has_room a hdr = true ->
  exists loc, match refLocation hdr with Some l => collect_location l | None => Some None end = Some loc /\
    supl_collect_rrlp a rrlp t = Some (1, collect_spec a hdr loc t) /\ assist_ok (collect_spec a hdr loc t).
Proof.
  intros Hc Hg Hok Hr Hroom. destruct (collect_with_room a rrlp ad hdr t Hc Hg Hok Hr Hroom) as (loc & Hl & H).
  exists loc. split_and!; [done..|]. by apply collect_spec_ok.
Qed.

Lemma zero_assist_ok : assist_ok zero_assist.
Proof. by split. Qed.

(** A sample message: one satellite with a negative mean motion difference. *)
Definition sample_ue : UncompressedEphemeris :=
  Build_UncompressedEphemeris 1 0 0 77 (-11) 21600 0 (-5) 3000 (-120) (-12345) 7 9 8 (-6) 2702000000 21600 27 4
    (-1500000000) 3 650000000 5000 (-40000000) (-20000) 500.
Definition sample_header : ControlHeader :=
  {| referenceTime := Some {| gpsTOW23b := 1000000; gpsWeek := 42 |};
     refLocation := Some [0x90; 0x80; 0; 1; 0xFF; 0xFF; 0xFF; 0; 0; 7; 9; 0; 0; 0];
     navigationModel := Some [{| nav_satelliteID := 4; satStatus := newNaviModelUC sample_ue |}];
     ionosphericModel := Some (Build_IonosphericModel 1 (-2) 3 (-4) 5 (-6) 7 (-8));
     utcModel := Some (Build_UTCModel 1 2 3 4 18 6 (-7) (-18));
     almanac := None; acquisAssist := None |}.
Definition sample_pdu (hdr : ControlHeader) : PDU_t :=
  {| referenceNumber := 1;
     component := assistanceData {| gps_AssistData := Some hdr; moreAssDataToBeSent := None |} |}.

Lemma supl_collect_rrlp_exact_witness :
  exists loc, match refLocation sample_header with Some l => collect_location l | None => Some None end = Some loc /\
    supl_collect_rrlp zero_assist (sample_pdu sample_header) (5, 6) = Some (1, collect_spec zero_assist sample_header loc (5, 6)) /\
    assist_ok (collect_spec zero_assist sample_header loc (5, 6)).
Proof. eapply (supl_collect_rrlp_exact zero_assist); [done|done|by split|done|done]. Defined.

(** A message with more entries than the arrays have left, which its ASN.1 type
    allows (64 almanac elements in one message, any number over several messages),
    writes past the end of an array. *)
Theorem supl_collect_rrlp_overrun a rrlp ad hdr t :
  component rrlp = assistanceData ad -> gps_AssistData ad = Some hdr ->
  assist_ok a -> has_room a hdr = false -> supl_collect_rrlp a rrlp t = None.
Proof.
  intros Hc Hg [He Hce Hal Hca Hac Hcq] Hroom. unfold supl_collect_rrlp. rewrite Hc, Hg. unfold MAX_EPHEMERIS in *.
  assert (exists loc, match refLocation hdr with Some l => collect_location l | None => Some None end = Some loc) as [loc ->].
  { destruct (refLocation hdr) as [l|]; [apply collect_location_total|by eexists]. }
  cbn [mbind option_bind].
  assert (Hacq : match acquisAssist hdr with
                 | Some q => collect_list collect_acquis (acquisList q) (cnt_acq a) (acq a)
                 | None => Some (cnt_acq a, acq a) end = collect_list collect_acquis (acquis_of hdr) (cnt_acq a) (acq a))
    by (unfold acquis_of; by destruct (acquisAssist hdr)).
  assert (Halm : match almanac hdr with
                 | Some l => collect_list collect_almanac l (cnt_alm a) (alm a)
                 | None => Some (cnt_alm a, alm a) end = collect_list collect_almanac (els_of (almanac hdr)) (cnt_alm a) (alm a))
    by by destruct (almanac hdr).
  assert (Heph : match navigationModel hdr with
                 | Some l => collect_list collect_ephemeris l (cnt_eph a) (eph a)
                 | None => Some (cnt_eph a, eph a) end =
                 collect_list collect_ephemeris (els_of (navigationModel hdr)) (cnt_eph a) (eph a))
    by by destruct (navigationModel hdr).
  rewrite Hacq, Halm, Heph. clear Hacq Halm Heph.
  destruct (collect_list collect_acquis _ _ _) as [[? ?]|] eqn:Eq; [|done]. cbn [mbind option_bind].
  destruct (collect_list collect_almanac _ _ _) as [[? ?]|] eqn:Ea; [|done]. cbn [mbind option_bind].
  destruct (collect_list collect_ephemeris _ _ _) as [[? ?]|] eqn:Ee; [|done]. exfalso.
  assert (H1 := fun H => collect_list_overrun collect_acquis (acquis_of hdr) (cnt_acq a) (acq a) ltac:(lia) H ltac:(lia)).
  assert (H2 := fun H => collect_list_overrun collect_almanac (els_of (almanac hdr)) (cnt_alm a) (alm a) ltac:(lia) H ltac:(lia)).
  assert (H3 := fun H => collect_list_overrun collect_ephemeris (els_of (navigationModel hdr)) (cnt_eph a) (eph a) ltac:(lia) H ltac:(lia)).
  rewrite Eq in H1. rewrite Ea in H2. rewrite Ee in H3. unfold has_room, MAX_EPHEMERIS in Hroom.
  apply andb_false_iff in Hroom as [Hroom|Hroom%Z.leb_gt]; [apply andb_false_iff in Hroom as [Hroom%Z.leb_gt|Hroom%Z.leb_gt]|].
  - discriminate H3; lia.
  - discriminate H2; lia.
  - discriminate H1; lia.
Qed.

Definition sample_almanac (n : Z) : AlmanacElement := Build_AlmanacElement n 100 20 (-3) (-40) 5153 6 7 8 9 10.
Definition large_header : ControlHeader :=
  {| referenceTime := None; refLocation := None; navigationModel := None; ionosphericModel := None; utcModel := None;
     almanac := Some ((fun n => sample_almanac (Z.of_nat n)) <$> seq 0 33); acquisAssist := None |}.

Lemma supl_collect_rrlp_overrun_witness :
  header_ranges large_header = true /\ supl_collect_rrlp zero_assist (sample_pdu large_header) (5, 6) = None.
Proof. split; [done|]. eapply (supl_collect_rrlp_overrun zero_assist); [done|done|by split|done]. Defined.

(** Three octets as one number. *)
Lemma three_octets x y z : is_byte x -> is_byte y -> is_byte z ->
  Z.lor (Z.lor (Z.shiftl x 16) (Z.shiftl y 8)) z = bits_val (bitlist [x; y; z]).
Proof.
  intros Hx Hy Hz. rewrite !octets_val_cons by done. cbn [length]. unfold is_byte in *.
  change (bits_val (bitlist [])) with 0.
  rewrite !Z.shiftl_mul_pow2 by lia. change (8 * Z.of_nat 2) with 16. change (8 * Z.of_nat 1) with 8.
  change (8 * Z.of_nat 0) with 0. rewrite (lor_shifted x (y * 2 ^ 8) 16) by lia.
  replace (x * 2 ^ 16 + y * 2 ^ 8) with ((x * 2 ^ 8 + y) * 2 ^ 8) by lia.
  rewrite lor_shifted by lia. lia.
Qed.

Lemma latitude_value b1 b2 b3 : is_byte b1 -> is_byte b2 -> is_byte b3 ->
  (let l := Z.lor (Z.lor (Z.shiftl (Z.land b1 0x7f) 16) (Z.shiftl b2 8)) b3 in
   if negb (Z.land b1 0x80 =? 0) then l * -1 else l) =
  (if 128 <=? b1 then -1 else 1) * (bits_val (bitlist [b1; b2; b3]) mod 2 ^ 23).
Proof.
  intros H1 H2 H3. cbv zeta. destruct (top_bit b1 H1) as (-> & _).
  assert (E : Z.land b1 0x7f = b1 mod 128) by (apply (Z.land_ones b1 7); lia). rewrite E.
  pose proof (Z.mod_pos_bound b1 128 ltac:(lia)). unfold is_byte in *.
  rewrite three_octets by (unfold is_byte; lia). rewrite !octets_val_cons by (unfold is_byte; lia).
  change (bits_val (bitlist [])) with 0. cbn [length]. change (8 * Z.of_nat 2) with 16.
  change (8 * Z.of_nat 1) with 8. change (8 * Z.of_nat 0) with 0.
  assert ((b1 * 2 ^ 16 + (b2 * 2 ^ 8 + (b3 * 2 ^ 0 + 0))) mod 2 ^ 23 = b1 mod 128 * 2 ^ 16 + (b2 * 2 ^ 8 + (b3 * 2 ^ 0 + 0))) as ->.
  { pose proof (Z.div_mod b1 128 ltac:(lia)).
    replace (b1 * 2 ^ 16 + (b2 * 2 ^ 8 + (b3 * 2 ^ 0 + 0)))
      with (b1 mod 128 * 2 ^ 16 + (b2 * 2 ^ 8 + (b3 * 2 ^ 0 + 0)) + b1 / 128 * 2 ^ 23) by lia.
    rewrite Z.mod_add, Z.mod_small by lia. done. }
  destruct (128 <=? b1); lia.
Qed.

(** The reference location (TS 23.032, ellipsoid point with altitude and
    uncertainty ellipsoid, type octet 0x90): the latitude is the sign and the
    23-bit magnitude in units of 90/2^23 degrees, strictly between the poles; the
    longitude is the 24-bit field in units of 360/2^24 degrees, in [0, 360) and a
    whole number of turns from its two's complement reading; the uncertainty is
    the larger semi-axis code. Other shapes and sizes are ignored. *)
Theorem collect_location_ts23032 :
  (forall b1 b2 b3 b4 b5 b6 b7 b8 b9 b10 b11 b12 b13,
     bytes [b1; b2; b3; b4; b5; b6; b9; b10] ->
     exists p, collect_location [0x90; b1; b2; b3; b4; b5; b6; b7; b8; b9; b10; b11; b12; b13] = Some (Some p) /\
       lat p = (90 * ((if 128 <=? b1 then -1 else 1) * (bits_val (bitlist [b1; b2; b3]) mod 2 ^ 23))) # (2 ^ 23) /\
       (-90 < lat p)%Q /\ (lat p < 90)%Q /\
       lon p = (360 * bits_val (bitlist [b4; b5; b6])) # (2 ^ 24) /\ (0 <= lon p)%Q /\ (lon p < 360)%Q /\
       (exists k : Z, lon p == ((360 * int_value [b4; b5; b6]) # (2 ^ 24)) + 360 * inject_Z k)%Q /\
       uncertainty p = Z.max b9 b10) /\
  (forall loc, length loc <> 14%nat \/ loc !! 0%nat <> Some 0x90 -> collect_location loc = Some None).
Proof.
  split.
  - intros b1 b2 b3 b4 b5 b6 b7 b8 b9 b10 b11 b12 b13 Hb.
    apply Forall_cons_1 in Hb as [H1 Hb]. apply Forall_cons_1 in Hb as [H2 Hb]. apply Forall_cons_1 in Hb as [H3 Hb].
    apply Forall_cons_1 in Hb as [H4 Hb]. apply Forall_cons_1 in Hb as [H5 Hb]. apply Forall_cons_1 in Hb as [H6 _].
    eexists. split; [reflexivity|]. cbn [lat lon uncertainty].
    rewrite (three_octets b4 b5 b6) by done. rewrite latitude_value by done. split_and!.
    + done.
    + pose proof (Z.mod_pos_bound (bits_val (bitlist [b1; b2; b3])) (2 ^ 23) ltac:(lia)).
      unfold Qlt. cbn [Qnum Qden Qopp]. change (QDen (90 # 1)) with 1. destruct (128 <=? b1); lia.
    + pose proof (Z.mod_pos_bound (bits_val (bitlist [b1; b2; b3])) (2 ^ 23) ltac:(lia)).
      unfold Qlt. cbn [Qnum Qden]. destruct (128 <=? b1); lia.
    + done.
    + pose proof (octets_val_range [b4; b5; b6]). unfold Qle. cbn [Qnum Qden]. lia.
    + pose proof (octets_val_range [b4; b5; b6]) as Hr. change (8 * Z.of_nat (length [b4; b5; b6])) with 24 in Hr.
      unfold Qlt. cbn [Qnum Qden]. lia.
    + exists (if 128 <=? b4 then 1 else 0). rewrite int_value_cons, octets_val_cons by done.
      change (8 * Z.of_nat (length [b5; b6])) with 16. unfold Qeq, Qplus, Qmult, inject_Z. cbn [Qnum Qden].
      destruct (128 <=? b4); lia.
    + destruct (Z.ltb_spec b9 b10); lia.
  - intros loc Hl. unfold collect_location. destruct (Z.eqb_spec (Z.of_nat (length loc)) 14) as [E|]; [|done].
    destruct Hl as [Hl|Hl]; [lia|]. destruct (rd_in loc 0 ltac:(lia)) as [b Hb]. rewrite Hb. cbn [mbind option_bind].
    rewrite rd_nonneg in Hb by lia. change (Z.to_nat 0) with 0%nat in Hb. rewrite Hb in Hl.
    destruct (Z.eqb_spec b 0x90) as [->|]; [done|done].
Qed.
