(* ===== verification/Supl.v ===== *)
(** * Supl: the SUPL client

    Model of the session of [src/core/libs/supl/supl.c]: construction of the
    ULP messages, their encoding, sending and reception, and [supl_get_assist].
    The PER codecs of ULP-PDU, RRLP PDU and SlpSessionID are the interface
    [UperType]; the TLS connection and the clock are the interface [SslOps].
    [None] is undefined behaviour (or too little fuel where a function has fuel).
    Allocation succeeds and releasing memory is not modelled. *)
From S2P Require Import Prelude PerSupport AsnInteger PerCodec Rrlp.

(** ** ULP messages, less the members no code here sets or reads *)

Record Version := { maj : Z; min : Z; servind : Z }.
Inductive SETId :=
  | SETId_NOTHING | SETId_msisdn (o : list Z) | SETId_mdn (o : list Z) | SETId_min (b : list bool)
  | SETId_imsi (o : list Z) | SETId_nai (o : list Z) | SETId_iPAddress (o : list Z).
Record SetSessionID := { sessionId : Z; setId : SETId }.
Inductive SLPAddress := SLPAddress_NOTHING | SLPAddress_iPAddress (o : list Z) | SLPAddress_fQDN (o : list Z).
Record SlpSessionID := { slp_sessionID : list Z; slpId : SLPAddress }.

Record PosTechnology := {
  agpsSETassisted : bool; agpsSETBased : bool; autonomousGPS : bool; aFLT : bool; eCID : bool; eOTD : bool;
  oTDOA : bool }.
Record PosProtocol := { tia801 : bool; rrlp : bool; rrc : bool }.
Record SETCapabilities := { posTechnology : PosTechnology; prefMethod : INTEGER_t; posProtocol : PosProtocol }.

Inductive CellInfo :=
  | CellInfo_NOTHING | gsmCell (refMCC refMNC refLAC refCI : Z) | wcdmaCell (refMCC refMNC refUC : Z) | cdmaCell.
Record LocationId := { cellInfo : CellInfo; status : INTEGER_t }.

Record RequestedAssistData := {
  almanacRequested : bool; utcModelRequested : bool; ionosphericModelRequested : bool;
  dgpsCorrectionsRequested : bool; referenceLocationRequested : bool; referenceTimeRequested : bool;
  acquisitionAssistanceRequested : bool; realTimeIntegrityRequested : bool; navigationModelRequested : bool }.

Record Position := { timestamp : list Z; latitudeSign : INTEGER_t; latitude : Z; longitude : Z }.

Inductive PosPayLoad :=
  | PosPayLoad_NOTHING | tia801payload (o : list Z) | rrcPayload (o : list Z) | rrlpPayload (o : list Z).

Inductive UlpMessage :=
  | UlpMessage_NOTHING
  | msSUPLINIT
  | msSUPLSTART (caps : SETCapabilities) (loc : LocationId)
  | msSUPLRESPONSE
  | msSUPLPOSINIT (caps : SETCapabilities) (req : RequestedAssistData) (loc : LocationId) (posn : option Position)
  | msSUPLPOS (pay : PosPayLoad)
  | msSUPLEND
  | msDUMMY2 | msDUMMY3.

Record ULP_PDU_t := {
  ulp_length : Z;
  version : Version;
  setSessionID : option SetSessionID;
  slpSessionID : option SlpSessionID;
  message : UlpMessage }.

Definition calloc_ulp : ULP_PDU_t :=
  {| ulp_length := 0; version := {| maj := 0; min := 0; servind := 0 |}; setSessionID := None;
     slpSessionID := None; message := UlpMessage_NOTHING |}.

Definition with_length (u : ULP_PDU_t) (n : Z) : ULP_PDU_t :=
  {| ulp_length := n; version := version u; setSessionID := setSessionID u; slpSessionID := slpSessionID u;
     message := message u |}.

Definition calloc_pdu : PDU_t := {| referenceNumber := 0; component := RRLP_NOTHING |}.

(** ** State *)

Definition E_SUPL_CONNECT : Z := -1.
Definition E_SUPL_ENCODE_START : Z := -2.
Definition E_SUPL_RECV_RESPONSE : Z := -3.
Definition E_SUPL_SUPLRESPONSE : Z := -4.
Definition E_SUPL_ENCODE_POSINIT : Z := -5.
Definition E_SUPL_RECV_SUPLPOS : Z := -6.
Definition E_SUPL_SUPLPOS : Z := -7.
Definition E_SUPL_DECODE_RRLP : Z := -8.
Definition E_SUPL_RRLP_ACK : Z := -9.
Definition E_SUPL_ENCODE : Z := -10.
Definition E_SUPL_WRITE : Z := -11.
Definition E_SUPL_READ : Z := -12.
Definition E_SUPL_DECODE : Z := -14.
Definition E_SUPL_ENCODE_RRLP : Z := -15.

Definition PARAM_GSM_CELL_CURRENT : Z := 1.
Definition PARAM_GSM_CELL_KNOWN : Z := 2.
Definition PARAM_WCDMA_CELL_CURRENT : Z := 4.

Record gsm_cell := { mcc : Z; mnc : Z; lac : Z; ci : Z }.
Record wcdma_cell := { w_mcc : Z; w_mnc : Z; w_uc : Z }.

(** [known] pairs the cell with the identifier of its position, two doubles and an
    uncertainty. *)
Record supl_ctx_t := {
  p_set : Z; p_request : Z; p_gsm : gsm_cell; p_wcdma : wcdma_cell; p_known : gsm_cell * QArith_base.Q * QArith_base.Q * Z;
  p_msisdn : list Z;
  slp_session_id : option (list Z) }.

(** A message with its encoding; [pdu] is [None] for NULL. *)
Record supl_ulp_t := { pdu : option ULP_PDU_t; size : Z; ubuffer : list Z }.
Definition sizeof_buffer : nat := Z.to_nat 8192.

Definition supl_ctx_new : supl_ctx_t :=
  {| p_set := 0; p_request := 0; p_gsm := Build_gsm_cell 0 0 0 0; p_wcdma := Build_wcdma_cell 0 0 0;
     p_known := (Build_gsm_cell 0 0 0 0, QArith_base.Qmake 0 1, QArith_base.Qmake 0 1, 0);
     p_msisdn := replicate 8 0; slp_session_id := None |}.

Definition supl_ctx_free (ctx : supl_ctx_t) : supl_ctx_t :=
  {| p_set := p_set ctx; p_request := p_request ctx; p_gsm := p_gsm ctx; p_wcdma := p_wcdma ctx;
     p_known := p_known ctx; p_msisdn := p_msisdn ctx; slp_session_id := None |}.

Definition supl_set_gsm_cell (ctx : supl_ctx_t) (c : gsm_cell) : supl_ctx_t :=
  {| p_set := Z.lor (p_set ctx) PARAM_GSM_CELL_CURRENT; p_request := p_request ctx; p_gsm := c;
     p_wcdma := p_wcdma ctx; p_known := p_known ctx; p_msisdn := p_msisdn ctx;
     slp_session_id := slp_session_id ctx |}.

Definition supl_set_gsm_cell_known (ctx : supl_ctx_t) (c : gsm_cell) (latd lond : QArith_base.Q) (uncert : Z)
  : supl_ctx_t :=
  {| p_set := Z.lor (p_set ctx) PARAM_GSM_CELL_KNOWN; p_request := p_request ctx; p_gsm := p_gsm ctx;
     p_wcdma := p_wcdma ctx; p_known := (c, latd, lond, uncert); p_msisdn := p_msisdn ctx;
     slp_session_id := slp_session_id ctx |}.

Definition supl_set_wcdma_cell (ctx : supl_ctx_t) (c : wcdma_cell) : supl_ctx_t :=
  {| p_set := Z.lor (p_set ctx) PARAM_WCDMA_CELL_CURRENT; p_request := p_request ctx; p_gsm := p_gsm ctx;
     p_wcdma := c; p_known := p_known ctx; p_msisdn := p_msisdn ctx; slp_session_id := slp_session_id ctx |}.

Definition supl_request (ctx : supl_ctx_t) (request : Z) : supl_ctx_t :=
  {| p_set := p_set ctx; p_request := request; p_gsm := p_gsm ctx; p_wcdma := p_wcdma ctx; p_known := p_known ctx;
     p_msisdn := p_msisdn ctx; slp_session_id := slp_session_id ctx |}.

Definition with_msisdn (ctx : supl_ctx_t) (m : list Z) : supl_ctx_t :=
  {| p_set := p_set ctx; p_request := p_request ctx; p_gsm := p_gsm ctx; p_wcdma := p_wcdma ctx; p_known := p_known ctx;
     p_msisdn := m; slp_session_id := slp_session_id ctx |}.

Definition with_slp (ctx : supl_ctx_t) (b : option (list Z)) : supl_ctx_t :=
  {| p_set := p_set ctx; p_request := p_request ctx; p_gsm := p_gsm ctx; p_wcdma := p_wcdma ctx; p_known := p_known ctx;
     p_msisdn := p_msisdn ctx; slp_session_id := b |}.

Definition ctx_flag (ctx : supl_ctx_t) (f : Z) : bool := negb (Z.land (p_set ctx) f =? 0).

(** ** The connection *)

(** OpenSSL and sockets. A pointer that may be NULL is an option; [SSL_read] returns
    its result and the octets read. [server_connect] is the TCP connection. *)
Class SslOps (S : Type) := {
  SSL_CTX_new : S -> option S;
  SSL_new : S -> option S;
  server_connect : S -> option S;
  SSL_connect : S -> Z * S;
  SSL_write : S -> list Z -> Z * S;
  SSL_read : S -> Z -> Z * list Z * S;
  ssl_close : S -> S;
  gettimeofday : S -> (Z * Z) * S
}.

Section client.
Context {S : Type} `{SslOps S}.
Context `{UperType ULP_PDU_t} `{UperType PDU_t} `{UperType SlpSessionID}.

(** [tmp] is what the stack holds where the encoder has its scratch space, and
    [known_position] the position of a known cell, computed in double arithmetic with
    the time of day. *)
Context (tmp : list Z) (known_position : gsm_cell * QArith_base.Q * QArith_base.Q * Z -> Position).

(** *** Encoding and decoding *)

Definition supl_ulp_decode (u : supl_ulp_t) : option (Z * supl_ulp_t) :=
  '(code, _, ulp) ← uper_decode_complete calloc_ulp (take (Z.to_nat (size u)) (ubuffer u));
  match code with
  | RC_OK => Some (0, {| pdu := Some ulp; size := size u; ubuffer := ubuffer u |})
  | _ => Some (E_SUPL_DECODE, {| pdu := None; size := size u; ubuffer := ubuffer u |})
  end.

Definition supl_ulp_encode (u : supl_ulp_t) : option (Z * supl_ulp_t) :=
  p ← pdu u;
  '(e1, buf1) ← uper_encode_to_buffer tmp p (ubuffer u);
  if negb (e1 =? -1) then
    let buf2 := replicate (length (ubuffer u)) 0 in
    let pdu_len := Z.shiftr (e1 + 7) 3 in
    let p' := with_length p pdu_len in
    '(e2, buf3) ← uper_encode_to_buffer tmp p' buf2;
    if (0 <? e2) && (Z.shiftr (e2 + 7) 3 =? pdu_len) then
      Some (0, {| pdu := Some p'; size := pdu_len; ubuffer := buf3 |})
    else Some (E_SUPL_ENCODE, {| pdu := Some p'; size := size u; ubuffer := buf3 |})
  else Some (E_SUPL_ENCODE, {| pdu := Some p; size := size u; ubuffer := buf1 |}).

(** *** Sending and receiving *)

Definition supl_ulp_send (s : S) (u : supl_ulp_t) : Z * S :=
  let '(err, s1) := SSL_write s (take (Z.to_nat (size u)) (ubuffer u)) in
  if err <=? 0 then (E_SUPL_WRITE, s1) else (0, s1).

(** [for (n = err; n < length->length; n += err)]; the octets read go to [buffer[n]]. *)
Fixpoint recv_loop (fuel : nat) (s : S) (buf : list Z) (n len : Z) : option (Z * Z * list Z * S) :=
  if n <? len then
    match fuel with
    | O => None
    | Datatypes.S f =>
        let '(err, data, s1) := SSL_read s (Z.of_nat (length buf) - n) in
        if err <=? 0 then Some (E_SUPL_READ, n, buf, s1)
        else recv_loop f s1 (splice buf (Z.to_nat n) data) (n + err) len
    end
  else Some (0, n, buf, s).

Definition supl_ulp_recv (s : S) (u : supl_ulp_t) : option (Z * supl_ulp_t * S) :=
  let '(err, data, s1) := SSL_read s (Z.of_nat (length (ubuffer u))) in
  let buf := splice (ubuffer u) 0 data in
  if err <=? 0 then Some (E_SUPL_READ, {| pdu := pdu u; size := size u; ubuffer := buf |}, s1)
  else
    '(code, _, first) ← uper_decode_complete calloc_ulp (take (Z.to_nat (if err <? 6 then err else 6)) buf);
    '(r, n, buf2, s2) ←
      match code with
      | RC_WMORE => recv_loop (length (ubuffer u)) s1 buf err (ulp_length first)
      | _ => Some (0, err, buf, s1)
      end;
    if r <? 0 then Some (r, {| pdu := pdu u; size := size u; ubuffer := buf2 |}, s2)
    else
      '(d, u2) ← supl_ulp_decode {| pdu := pdu u; size := n; ubuffer := buf2 |};
      if negb (d =? 0) then Some (E_SUPL_DECODE, u2, s2) else Some (0, u2, s2).

(** [ret_rrlp]: [None] when [*ret_rrlp] is not assigned. *)
Definition supl_decode_rrlp (u : supl_ulp_t) : option (Z * option PDU_t) :=
  p ← pdu u;
  match message p with
  | msSUPLPOS (rrlpPayload o) =>
      '(code, _, r) ← uper_decode_complete calloc_pdu o;
      match code with
      | RC_OK => Some (0, Some r)
      | _ => Some (E_SUPL_DECODE_RRLP, None)
      end
  | _ => Some (0, None)
  end.

Definition supl_server_connect (s : S) : Z * S :=
  match SSL_CTX_new s with
  | None => (E_SUPL_CONNECT, s)
  | Some s1 =>
      match SSL_new s1 with
      | None => (E_SUPL_CONNECT, s1)
      | Some s2 =>
          match server_connect s2 with
          | None => (E_SUPL_CONNECT, s2)
          | Some s3 =>
              let '(err, s4) := SSL_connect s3 in
              if err =? -1 then (E_SUPL_CONNECT, s4) else (0, s4)
          end
      end
  end.

(** *** Messages of the client *)

Definition PrefMethod_agpsSETBasedPreferred : Z := 1.
Definition Status_stale : Z := 0.
Definition Status_current : Z := 1.

Definition set_session (ctx : supl_ctx_t) : SetSessionID :=
  {| sessionId := 1; setId := SETId_imsi (take 8 (p_msisdn ctx)) |}.

Definition set_capabilities : SETCapabilities :=
  {| posTechnology := {| agpsSETassisted := false; agpsSETBased := true; autonomousGPS := false; aFLT := false;
                         eCID := false; eOTD := false; oTDOA := false |};
     prefMethod := asn_long2INTEGER PrefMethod_agpsSETBasedPreferred;
     posProtocol := {| tia801 := false; rrlp := true; rrc := false |} |}.

Definition current_cell (ctx : supl_ctx_t) : CellInfo :=
  if ctx_flag ctx PARAM_GSM_CELL_CURRENT then
    gsmCell (mcc (p_gsm ctx)) (mnc (p_gsm ctx)) (lac (p_gsm ctx)) (ci (p_gsm ctx))
  else if ctx_flag ctx PARAM_WCDMA_CELL_CURRENT then
    wcdmaCell (w_mcc (p_wcdma ctx)) (w_mnc (p_wcdma ctx)) (w_uc (p_wcdma ctx))
  else CellInfo_NOTHING.

Definition ulp_version : Version := {| maj := 1; min := 0; servind := 0 |}.

Definition start_pdu (ctx : supl_ctx_t) : ULP_PDU_t :=
  {| ulp_length := 0; version := ulp_version; setSessionID := Some (set_session ctx); slpSessionID := None;
     message := msSUPLSTART set_capabilities
       {| cellInfo := current_cell ctx; status := asn_long2INTEGER Status_current |} |}.

Definition pdu_make_ulp_start (ctx : supl_ctx_t) (u : supl_ulp_t) : option (Z * supl_ulp_t) :=
  '(err, u1) ← supl_ulp_encode {| pdu := Some (start_pdu ctx); size := size u; ubuffer := ubuffer u |};
  if err <? 0 then Some (err, u1) else Some (0, u1).

(** "get slpSessionID from SUPLRESPONSE pdu if preset" *)
Definition supl_response_harvest (ctx : supl_ctx_t) (u : supl_ulp_t) : option (Z * supl_ctx_t) :=
  p ← pdu u;
  '(ret, buf) ←
    match slpSessionID p with
    | None => Some (-1, None)
    | Some slp => uper_encode_to_new_buffer tmp slp
    end;
  if ret =? -1 then Some (-1, with_slp ctx None) else Some (0, with_slp ctx buf).

(** The session identifier of the server as it was remembered; when it does not
    decode, what the decoder left behind. *)
Definition slp_session (ctx : supl_ctx_t) : option (option SlpSessionID) :=
  match slp_session_id ctx with
  | Some buf =>
      '(_, _, v) ← uper_decode_complete {| slp_sessionID := []; slpId := SLPAddress_NOTHING |} buf;
      Some (Some v)
  | None => Some None
  end.

Definition requested (request : Z) : RequestedAssistData :=
  let base acq nav utcm ion loc alm rti :=
    {| almanacRequested := alm; utcModelRequested := utcm; ionosphericModelRequested := ion;
       dgpsCorrectionsRequested := false; referenceLocationRequested := loc; referenceTimeRequested := true;
       acquisitionAssistanceRequested := acq; realTimeIntegrityRequested := rti; navigationModelRequested := nav |} in
  if request =? 1 then base false true false false false false false
  else if request =? 2 then base true false true true true true true
  else base false false true true true true true.

Definition pos_init_pdu (ctx : supl_ctx_t) (slp : option SlpSessionID) : ULP_PDU_t :=
  let known := ctx_flag ctx PARAM_GSM_CELL_KNOWN in
  {| ulp_length := 0; version := ulp_version; setSessionID := Some (set_session ctx); slpSessionID := slp;
     message := msSUPLPOSINIT set_capabilities (requested (p_request ctx))
       {| cellInfo := current_cell ctx; status := asn_long2INTEGER (if known then Status_stale else Status_current) |}
       (if known then Some (known_position (p_known ctx)) else None) |}.

Definition pdu_make_ulp_pos_init (ctx : supl_ctx_t) (u : supl_ulp_t) : option (Z * supl_ulp_t) :=
  slp ← slp_session ctx;
  '(err, u1) ← supl_ulp_encode {| pdu := Some (pos_init_pdu ctx slp); size := size u; ubuffer := ubuffer u |};
  if err <? 0 then Some (err, u1) else Some (0, u1).

Definition rrlp_ack (r : PDU_t) : PDU_t := {| referenceNumber := referenceNumber r; component := assistanceDataAck |}.

Definition ack_pdu (ctx : supl_ctx_t) (slp : option SlpSessionID) (payload : list Z) : ULP_PDU_t :=
  {| ulp_length := 0; version := ulp_version; setSessionID := Some (set_session ctx); slpSessionID := slp;
     message := msSUPLPOS (rrlpPayload payload) |}.

(** [stack] is what [char buffer[1024]] holds before. *)
Definition pdu_make_ulp_rrlp_ack (stack : list Z) (ctx : supl_ctx_t) (u : supl_ulp_t) (r : PDU_t)
  : option (Z * supl_ulp_t) :=
  '(encoded, buf) ← uper_encode_to_buffer tmp (rrlp_ack r) stack;
  if encoded =? -1 then Some (E_SUPL_ENCODE_RRLP, u)
  else
    let pdu_len := Z.shiftr (encoded + 7) 3 in
    slp ← slp_session ctx;
    '(err, u1) ← supl_ulp_encode
      {| pdu := Some (ack_pdu ctx slp (take (Z.to_nat pdu_len) buf)); size := size u; ubuffer := ubuffer u |};
    if err <? 0 then Some (err, u1) else Some (0, u1).

(** *** The session *)

(** "bounce back and forth until all messages have arrived" *)
Fixpoint assist_loop (fuel : nat) (stack : list Z) (ctx : supl_ctx_t) (u : supl_ulp_t) (a : supl_assist_t) (s : S)
  : option (Z * supl_assist_t * S) :=
  match fuel with
  | O => None
  | Datatypes.S f =>
      let '(t, s0) := gettimeofday s in
      '(r, u1, s1) ← supl_ulp_recv s0 u;
      if r <? 0 then Some (E_SUPL_RECV_SUPLPOS, a, s1)
      else
        p ← pdu u1;
        match message p with
        | msSUPLEND => Some (0, a, ssl_close s1)
        | msSUPLPOS _ =>
            '(d, rr) ← supl_decode_rrlp u1;
            if d <? 0 then Some (E_SUPL_DECODE_RRLP, a, s1)
            else
              r1 ← rr;
              '(_, a1) ← supl_collect_rrlp a r1 t;
              if supl_more_rrlp r1 then
                '(e, u2) ← pdu_make_ulp_rrlp_ack stack ctx u1 r1;
                if e <? 0 then Some (E_SUPL_RRLP_ACK, a1, s1)
                else let '(_, s2) := supl_ulp_send s1 u2 in assist_loop f stack ctx u2 a1 s2
              else Some (0, a1, ssl_close s1)
        | _ => Some (E_SUPL_SUPLPOS, a, s1)
        end
  end.

Definition set_msisdn : list Z := [0xFF; 0xFF; 0x91; 0x94; 0x48; 0x45; 0x83; 0x98].

(** [u0] is the uninitialised [ulp]; [fuel] bounds the SUPLPOS messages. *)
Definition supl_get_assist (fuel : nat) (stack : list Z) (u0 : supl_ulp_t) (ctx0 : supl_ctx_t) (a0 : supl_assist_t)
    (s : S) : option (Z * supl_ctx_t * supl_assist_t * S) :=
  let ctx := with_msisdn ctx0 set_msisdn in
  let '(c, s1) := supl_server_connect s in
  if c <? 0 then Some (E_SUPL_CONNECT, ctx, a0, s1)
  else
    '(e, u1) ← pdu_make_ulp_start ctx u0;
    if e <? 0 then Some (E_SUPL_ENCODE_START, ctx, a0, s1)
    else
      let '(_, s2) := supl_ulp_send s1 u1 in
      '(r, u2, s3) ← supl_ulp_recv s2 u1;
      if r <? 0 then Some (E_SUPL_RECV_RESPONSE, ctx, a0, s3)
      else
        p ← pdu u2;
        match message p with
        | msSUPLRESPONSE =>
            '(_, ctx1) ← supl_response_harvest ctx u2;
            '(e2, u3) ← pdu_make_ulp_pos_init ctx1 u2;
            if e2 <? 0 then Some (E_SUPL_ENCODE_POSINIT, ctx1, a0, s3)
            else
              let '(_, s4) := supl_ulp_send s3 u3 in
              '(res, a, s5) ← assist_loop fuel stack ctx1 u3 zero_assist s4;
              Some (res, ctx1, a, s5)
        | _ => Some (E_SUPL_SUPLRESPONSE, ctx, a0, s3)
        end.

End client.

(** ** What the client relies on *)

(** ULP-PDU starts with its 16-bit length, no other part of the code depends on it,
    and an incomplete message makes the decoder ask for more with the length
    already stored, if it was all there. *)
Class UlpLaws `{UL : CodecLaws ULP_PDU_t} := {
  ulp_sends_length p C n : uper_sends p C -> 0 <= n < 65536 ->
    (16 <= length C)%nat /\ exists C', uper_sends (with_length p n) C' /\ length C' = length C;
  ulp_prefix p C k pd : uper_receives p C -> (k < length C)%nat -> pd_at (take k C) pd ->
    exists first pd', uper_decoder pd = Some (RC_WMORE, first, pd') /\
      ulp_length first = if (16 <=? k)%nat then ulp_length p else 0
}.

(** A connection that works: what is written is sent as one record, a read returns
    octets of one record. [ssl_pending] is what the server sends from now on. *)
Class SslLaws (S : Type) `{SslOps S} := {
  ssl_up : S -> Prop;
  ssl_pending : S -> list (list Z);
  ssl_sent : S -> list (list Z);
  ssl_write_up s d : ssl_up s -> d <> [] ->
    exists s', SSL_write s d = (Z.of_nat (length d), s') /\ ssl_up s' /\
      ssl_pending s' = ssl_pending s /\ ssl_sent s' = ssl_sent s ++ [d];
  ssl_read_up s n c cs : ssl_up s -> ssl_pending s = c :: cs -> c <> [] -> (0 < n)%nat ->
    exists s', SSL_read s (Z.of_nat n) = (Z.of_nat (Nat.min n (length c)), take n c, s') /\ ssl_up s' /\
      ssl_pending s' = (if (n <? length c)%nat then drop n c :: cs else cs) /\ ssl_sent s' = ssl_sent s;
  ssl_clock s : ssl_up s -> exists t s', gettimeofday s = (t, s') /\ ssl_up s' /\
      ssl_pending s' = ssl_pending s /\ ssl_sent s' = ssl_sent s;
  ssl_close_sent s : ssl_sent (ssl_close s) = ssl_sent s
}.

Section properties.
Context {S : Type} `{HSO : SslOps S} `{HSL : !SslLaws S}.
Context `{HU : UperType ULP_PDU_t} `{HUL : !CodecLaws ULP_PDU_t} `{HULP : !UlpLaws}.
Context `{HR : UperType PDU_t} `{HRL : !CodecLaws PDU_t}.
Context `{HP : UperType SlpSessionID} `{HPL : !CodecLaws SlpSessionID}.

(** The octets [m] of the message [p] with its own size in octets as its length. *)
Definition wire (p : ULP_PDU_t) (m : list Z) : Prop :=
  exists C, uper_sends (with_length p (Z.of_nat (length m))) C /\ octets_of C m.

(** *** Reception *)

Lemma no_records (cs : list (list Z)) : concat cs = [] -> Forall (fun c => c <> []) cs -> cs = [].
Proof.
  intros Hcat Hne. destruct cs as [|c cs]; [done|]. apply Forall_cons_1 in Hne as [Hc _].
  cbn [concat] in Hcat. by apply app_eq_nil in Hcat as [? _].
Qed.

(** Reading the records that complete the message [o], of which [n] octets are there. *)
Lemma recv_loop_at o rest fuel : forall cs s buf (n : nat),
  ssl_up s -> ssl_pending s = cs ++ rest -> concat cs = drop n o -> Forall (fun c => c <> []) cs ->
  take n buf = take n o -> (n <= length o)%nat -> (length o <= length buf)%nat -> (length o - n <= fuel)%nat ->
  exists buf' s', recv_loop fuel s buf (Z.of_nat n) (Z.of_nat (length o)) = Some (0, Z.of_nat (length o), buf', s') /\
    take (length o) buf' = o /\ length buf' = length buf /\
    ssl_up s' /\ ssl_pending s' = rest /\ ssl_sent s' = ssl_sent s.
Proof.
  induction fuel as [|f IH]; intros cs s buf n Hup Hpend Hcat Hne Htk Hn Hlen Hf; cbn [recv_loop].
  - rewrite (proj2 (Z.ltb_ge _ _)) by lia. exists buf, s. replace n with (length o) in * by lia.
    rewrite drop_all in Hcat. rewrite (take_ge o) in Htk by lia. apply no_records in Hcat; [|done]. subst cs.
    by split_and!.
  - destruct (Z.ltb_spec (Z.of_nat n) (Z.of_nat (length o))) as [Hlt|Hge].
    + destruct cs as [|c cs].
      { apply (f_equal length) in Hcat. rewrite length_drop in Hcat. cbn in Hcat. lia. }
      apply Forall_cons_1 in Hne as [Hc Hne]. cbn [concat app] in Hcat, Hpend.
      pose proof (f_equal length Hcat) as Hcl. rewrite length_app, length_drop in Hcl.
      destruct (ssl_read_up s (length buf - n) c (cs ++ rest) Hup Hpend Hc ltac:(lia)) as (s1 & Hrd & Hup1 & Hp1 & Hs1).
      replace (Z.of_nat (length buf) - Z.of_nat n) with (Z.of_nat (length buf - n)) by lia. rewrite Hrd.
      rewrite (Nat.min_r (length buf - n) (length c)), take_ge by lia.
      rewrite (proj2 (Nat.ltb_ge _ _)) in Hp1 by lia.
      assert (0 < length c)%nat by (destruct c; [done|cbn; lia]).
      rewrite (proj2 (Z.leb_gt _ 0)) by lia. rewrite Nat2Z.id. rewrite <- Nat2Z.inj_add.
      destruct (IH cs s1 (splice buf n c) (n + length c)%nat) as (buf' & s' & Hgo & Htk' & Hl' & Hup' & Hp' & Hs'); [done|done|..].
      * rewrite <- drop_drop, <- Hcat, drop_app_length. done.
      * done.
      * unfold splice. rewrite app_assoc, take_app_le by (rewrite length_app, length_take; lia).
        rewrite take_ge by (rewrite length_app, length_take; lia). rewrite Htk.
        rewrite <- (take_drop n (take (n + length c) o)), take_take, skipn_firstn_comm, <- Hcat.
        replace (n + length c - n)%nat with (length c) by lia. rewrite take_app_length. f_equal. f_equal. lia.
      * lia.
      * rewrite length_splice; lia.
      * lia.
      * exists buf', s'. split_and!; try done; [by rewrite Hl', length_splice by lia|by rewrite Hs'].
    + exists buf, s. replace n with (length o) in * by lia.
      rewrite drop_all in Hcat. rewrite (take_ge o) in Htk by lia. apply no_records in Hcat; [|done]. subst cs.
      by split_and!.
Qed.

(** The records of a message: its octets, cut anywhere after the second. *)
Definition ulp_records (room : nat) (p : ULP_PDU_t) (cs : list (list Z)) : Prop :=
  (exists C, uper_receives p C /\ octets_of C (concat cs)) /\ ulp_length p = Z.of_nat (length (concat cs)) /\
  (length (concat cs) <= room)%nat /\ Forall (fun c => c <> []) cs /\ (2 <= length (default [] (head cs)))%nat.

(** Octets that are not the whole message are a proper prefix of its code. *)
Lemma decode_prefix p C o k :
  uper_receives p C -> octets_of C o -> (k < length o)%nat ->
  exists first, uper_decode_complete calloc_ulp (take k o) = Some (RC_WMORE, 0, first) /\
    ulp_length first = if (2 <=? k)%nat then ulp_length p else 0.
Proof.
  intros Hv Ho Hk. pose proof (octets_of_length _ _ Ho) as Hl. destruct Ho as [Hb Hbits].
  pose proof (pad_of_spec (length C)) as Hpad.
  assert (pad_of (length C) < 8)%nat by (apply Nat.mod_upper_bound; lia).
  unfold uper_decode_complete, uper_decode. cbn [Z.ltb Z.compare orb andb nbits nboff].
  rewrite (proj2 (Z.ltb_ge _ _)) by lia.
  set (pd := {| buffer := take k o; nboff := 0; nbits := 8 * Z.of_nat (length (take k o)) - 0; moved := 0 |}).
  assert (Hpd : pd_at (take (8 * k) C) pd).
  { split; [split; cbn [pd buffer nboff nbits]; [by apply Forall_take|lia|lia]|].
    unfold pd_bits. cbn [pd buffer nboff nbits]. rewrite drop_0, take_ge by (rewrite length_bitlist; lia).
    rewrite bitlist_take, Hbits, take_app_le by lia. done. }
  destruct (ulp_prefix p C (8 * k) pd Hv ltac:(lia) Hpd) as (first & pd' & -> & Hf).
  cbn [mbind option_bind]. exists first. split; [done|]. rewrite Hf.
  destruct (Nat.leb_spec 16 (8 * k)), (Nat.leb_spec 2 k); try done; lia.
Qed.

Lemma ulp_recv_at s u p cs rest :
  ssl_up s -> ssl_pending s = cs ++ rest -> ulp_records (length (ubuffer u)) p cs ->
  exists u' s', supl_ulp_recv s u = Some (0, u', s') /\ pdu u' = Some p /\
    size u' = Z.of_nat (length (concat cs)) /\ length (ubuffer u') = length (ubuffer u) /\
    ssl_up s' /\ ssl_pending s' = rest /\ ssl_sent s' = ssl_sent s.
Proof.
  intros Hup Hpend ((C & Hv & Ho) & Hl & Hroom & Hne & H2). destruct cs as [|c cs]; [cbn in H2; lia|].
  change (default [] (head (c :: cs))) with c in H2. apply Forall_cons_1 in Hne as [Hc Hne].
  set (o := concat (c :: cs)) in *. assert (Eo : o = c ++ concat cs) by done.
  pose proof (f_equal length Eo) as Hol. rewrite length_app in Hol. set (N := length (ubuffer u)) in *.
  unfold supl_ulp_recv.
  destruct (ssl_read_up s N c (cs ++ rest) Hup Hpend Hc ltac:(lia)) as (s1 & Hrd & Hup1 & Hp1 & Hs1).
  fold N. rewrite Hrd, Nat.min_r, (take_ge c) by lia. rewrite (proj2 (Nat.ltb_ge _ _)) in Hp1 by lia.
  rewrite (proj2 (Z.leb_gt _ 0)) by lia. set (buf := splice (ubuffer u) 0 c).
  assert (Hbl : length buf = N) by (apply length_splice; unfold N in *; lia).
  assert (Hbt : take (length c) buf = take (length c) o).
  { unfold buf, splice. rewrite take_0. cbn [app]. rewrite Eo, !take_app_length. done. }
  set (k := Nat.min (length c) 6).
  assert (Hk : take (Z.to_nat (if Z.of_nat (length c) <? 6 then Z.of_nat (length c) else 6)) buf = take k o).
  { replace (Z.to_nat _) with k by (unfold k; destruct (Z.ltb_spec (Z.of_nat (length c)) 6); lia).
    rewrite <- (Nat.min_l k (length c)), <- !take_take by (unfold k; lia). by rewrite Hbt. }
  rewrite Hk.
  assert (Hcode : C <> []).
  { intros E. apply octets_of_length in Ho. rewrite E in Ho. change (octets_needed (length [])) with 0 in Ho. lia. }
  assert (Hfin : forall buf' s', take (length o) buf' = o -> length buf' = N -> ssl_up s' -> ssl_pending s' = rest ->
    ssl_sent s' = ssl_sent s -> exists u' s'',
      ('(d, u2) ← supl_ulp_decode {| pdu := pdu u; size := Z.of_nat (length o); ubuffer := buf' |};
       if negb (d =? 0) then Some (E_SUPL_DECODE, u2, s') else Some (0, u2, s')) = Some (0, u', s'') /\
      pdu u' = Some p /\ size u' = Z.of_nat (length o) /\ length (ubuffer u') = N /\
      ssl_up s'' /\ ssl_pending s'' = rest /\ ssl_sent s'' = ssl_sent s).
  { intros buf' s' Ht Hlb Hu' Hp' Hs'. unfold supl_ulp_decode. cbn [size ubuffer pdu]. rewrite Nat2Z.id, Ht.
    rewrite (received_whole calloc_ulp p C o) by done. cbn [mbind option_bind].
    eexists _, s'. split; [done|]. cbn [pdu size ubuffer]. by split_and!. }
  destruct (decide (k < length o)%nat) as [Hlt|Hge].
  - destruct (decode_prefix p C o k Hv Ho Hlt) as (first & -> & Hf). cbn [mbind option_bind].
    rewrite (proj2 (Nat.leb_le 2 k)) in Hf by (unfold k; lia). rewrite Hf, Hl.
    destruct (recv_loop_at o rest N cs s1 buf (length c)) as (buf' & s' & -> & Ht' & Hl' & Hu' & Hp' & Hs');
      [done|done|by rewrite Eo, drop_app_length|done|done|lia|lia|lia|].
    cbn [mbind option_bind]. change (0 <? 0) with false. cbn iota.
    apply Hfin; [done|by rewrite Hl'|done|done|by rewrite Hs'].
  - assert (Hcs : length c = length o) by (unfold k in Hge; lia).
    assert (cs = []) as ->.
    { destruct cs as [|c2 cs]; [done|]. apply Forall_cons_1 in Hne as [Hc2 _]. cbn [concat] in Hol.
      rewrite length_app in Hol. destruct c2; [done|]. cbn [length] in Hol. lia. }
    rewrite take_ge by lia. rewrite (received_whole calloc_ulp p C o) by done.
    cbn [mbind option_bind]. change (0 <? 0) with false. cbn iota. rewrite Hcs.
    apply Hfin; try done. rewrite <- Hcs, Hbt. by rewrite take_ge by lia.
Qed.

(** A first read of one octet: the length is not there yet, and the rest is not read. *)
Lemma ulp_recv_one_octet s u (p : ULP_PDU_t) C x o rest :
  ssl_up s -> ssl_pending s = [x] :: rest -> uper_receives p C -> octets_of C (x :: o) -> o <> [] ->
  (0 < length (ubuffer u))%nat ->
  exists u' s', supl_ulp_recv s u = Some (E_SUPL_DECODE, u', s') /\ ssl_pending s' = rest.
Proof.
  intros Hup Hpend Hv Ho Hne Hroom. unfold supl_ulp_recv.
  destruct (ssl_read_up s (length (ubuffer u)) [x] rest Hup Hpend) as (s1 & -> & _ & Hp1 & _); [done|done|].
  cbn [length] in Hp1 |- *. rewrite (proj2 (Nat.ltb_ge _ _)) in Hp1 by lia. rewrite Nat.min_r by lia.
  rewrite (take_ge [x]) by (cbn; lia). change (Z.of_nat 1 <=? 0) with false. change (Z.of_nat 1 <? 6) with true. cbn iota.
  assert (Hb : take 1 (splice (ubuffer u) 0 [x]) = take 1 (x :: o)) by done.
  change (Z.to_nat (Z.of_nat 1)) with 1%nat. rewrite Hb.
  assert (1 < length (x :: o))%nat by (destruct o; [done|cbn; lia]).
  destruct (decode_prefix p C (x :: o) 1 Hv Ho) as (first & Hdec & Hf); [done|]. rewrite Hdec. cbn [mbind option_bind].
  change (2 <=? 1)%nat with false in Hf. cbn iota in Hf. rewrite Hf.
  assert (Hl : recv_loop (length (ubuffer u)) s1 (splice (ubuffer u) 0 [x]) (Z.of_nat 1) 0 =
               Some (0, Z.of_nat 1, splice (ubuffer u) 0 [x], s1)) by by destruct (length (ubuffer u)).
  rewrite Hl. cbn [mbind option_bind]. change (0 <? 0) with false. cbn iota.
  unfold supl_ulp_decode. cbn [size ubuffer]. change (Z.to_nat (Z.of_nat 1)) with 1%nat. rewrite Hb, Hdec.
  cbn [mbind option_bind]. eexists _, s1. split; [done|done].
Qed.

(** *** Encoding *)

(** [tmp] is the scratch space of the encoder. *)
Context (tmp : list Z) (Htmp : bytes tmp) (Htmp32 : length tmp = 32%nat).

(** The messages of the client can be encoded and fit the buffer of a [supl_ulp_t]. *)
Definition client_ok (room : nat) (p : ULP_PDU_t) : Prop :=
  exists C, uper_sends p C /\ octets_needed (length C) <= Z.of_nat room < 65536.

(** Encoding a ULP message that fits: the second encoding has the message's own size in octets
    in its length field and the same size, and the buffer is zero behind it. *)
Lemma ulp_encode_at u p : pdu u = Some p -> client_ok (length (ubuffer u)) p ->
  exists m, wire p m /\ (2 <= length m <= length (ubuffer u))%nat /\
    supl_ulp_encode tmp u =
      Some (0, {| pdu := Some (with_length p (Z.of_nat (length m))); size := Z.of_nat (length m);
                  ubuffer := m ++ replicate (length (ubuffer u) - length m) 0 |}).
Proof.
  intros Hp (C & Hv & Hfit & Hroom). unfold supl_ulp_encode. rewrite Hp. cbn [mbind option_bind].
  destruct (sent_to_buffer tmp p C (ubuffer u) Hv Htmp Htmp32 Hfit) as (o & _ & _ & ->). cbn [mbind option_bind].
  rewrite (proj2 (Z.eqb_neq _ (-1))) by lia. cbn [negb].
  change (Z.shiftr (Z.of_nat (length C) + 7) 3) with (octets_needed (length C)). pose proof (octets_needed_nonneg (length C)).
  destruct (ulp_sends_length p C (octets_needed (length C)) Hv ltac:(lia)) as (H16 & C' & Hv' & HC').
  destruct (sent_to_buffer tmp _ C' (replicate (length (ubuffer u)) 0) Hv' Htmp Htmp32) as (m & Hm & Hml & ->); [by rewrite length_replicate, HC'|].
  cbn [mbind option_bind]. rewrite HC' in Hml |- *. rewrite (proj2 (Z.ltb_lt 0 _)) by lia.
  change (Z.shiftr (Z.of_nat (length C) + 7) 3) with (octets_needed (length C)). rewrite Z.eqb_refl. cbn [andb].
  exists m. rewrite Hml, drop_replicate. split; [by exists C'; rewrite Hml|]. split; [|done].
  assert (2 <= octets_needed (length C)); [|lia]. unfold octets_needed. rewrite Z.shiftr_div_pow2 by lia. apply Z.div_le_lower_bound; lia.
Qed.

(** *** The session *)

Lemma client_encode_at room u p :
  client_ok room p -> length (ubuffer u) = room ->
  exists u' m, wire p m /\ m <> [] /\ take (Z.to_nat (size u')) (ubuffer u') = m /\ length (ubuffer u') = room /\
    supl_ulp_encode tmp {| pdu := Some p; size := size u; ubuffer := ubuffer u |} = Some (0, u').
Proof.
  intros Hok Hl. destruct (ulp_encode_at {| pdu := Some p; size := size u; ubuffer := ubuffer u |} p eq_refl) as (m & Hm & Hml & He);
    [cbn [ubuffer]; by rewrite Hl|]. cbn [ubuffer] in Hml, He.
  eexists _, m. split; [done|]. split; [by intros ->; cbn in Hml; lia|]. split; [|split; [|exact He]]; cbn [size ubuffer].
  - rewrite Nat2Z.id. apply take_app_length.
  - rewrite length_app, length_replicate. lia.
Qed.

Lemma client_send_at s u m :
  ssl_up s -> take (Z.to_nat (size u)) (ubuffer u) = m -> m <> [] ->
  exists s', supl_ulp_send s u = (0, s') /\ ssl_up s' /\ ssl_pending s' = ssl_pending s /\ ssl_sent s' = ssl_sent s ++ [m].
Proof.
  intros Hup Ht Hne. unfold supl_ulp_send. rewrite Ht.
  destruct (ssl_write_up s m Hup Hne) as (s' & -> & Hu & Hp & Hs).
  assert (0 < length m)%nat by (destruct m; [done|cbn; lia]). rewrite (proj2 (Z.leb_gt _ 0)) by lia. by exists s'.
Qed.

(** An acknowledgement of [r] with the payload that encodes it. *)
Definition ack_sent (ctx : supl_ctx_t) (slp : option SlpSessionID) (r : PDU_t) (m : list Z) : Prop :=
  exists C o, uper_sends (rrlp_ack r) C /\ octets_of C o /\ wire (ack_pdu ctx slp o) m.

Definition ack_ok (room : nat) (ctx : supl_ctx_t) (slp : option SlpSessionID) (r : PDU_t) : Prop :=
  exists C, uper_sends (rrlp_ack r) C /\ octets_needed (length C) <= 1024 /\
    forall o, octets_of C o -> client_ok room (ack_pdu ctx slp o).

Lemma client_ack_at room stack ctx slp u r :
  length stack = 1024%nat -> slp_session ctx = Some slp -> ack_ok room ctx slp r -> length (ubuffer u) = room ->
  exists u' m, ack_sent ctx slp r m /\ m <> [] /\ take (Z.to_nat (size u')) (ubuffer u') = m /\
    length (ubuffer u') = room /\ pdu_make_ulp_rrlp_ack tmp stack ctx u r = Some (0, u').
Proof.
  intros Hst Hslp (C & Hv & Hsz & Hack) Hl. unfold pdu_make_ulp_rrlp_ack.
  destruct (sent_to_buffer tmp (rrlp_ack r) C stack Hv Htmp Htmp32) as (o & Ho & Hol & ->); [by rewrite Hst|]. cbn [mbind option_bind].
  rewrite (proj2 (Z.eqb_neq _ (-1))) by lia. rewrite Hslp. cbn [mbind option_bind].
  replace (take (Z.to_nat (Z.shiftr (Z.of_nat (length C) + 7) 3)) (o ++ drop (length o) stack)) with o.
  2: { change (Z.shiftr _ 3) with (octets_needed (length C)). rewrite <- Hol, Nat2Z.id. by rewrite take_app_length. }
  destruct (client_encode_at room u (ack_pdu ctx slp o) (Hack o Ho) Hl) as (u' & m & Hm & Hne & Ht & Hl' & ->).
  cbn [mbind option_bind]. exists u', m. split_and!; [by exists C, o|done..].
Qed.

(** [r] as the octets of a payload. *)
Definition rrlp_octets (r : PDU_t) (o : list Z) : Prop := exists C, uper_receives r C /\ C <> [] /\ octets_of C o.

(** What a server sends after SUPLPOSINIT: RRLP messages that announce more, then one
    that does not, or SUPLEND. *)
Inductive serves (room : nat) : list PDU_t -> list (list Z) -> Prop :=
  | serves_end p cs : ulp_records room p cs -> message p = msSUPLEND -> serves room [] cs
  | serves_last p o r cs : ulp_records room p cs -> message p = msSUPLPOS (rrlpPayload o) -> rrlp_octets r o ->
      supl_more_rrlp r = false -> serves room [r] cs
  | serves_more p o r cs rs css : ulp_records room p cs -> message p = msSUPLPOS (rrlpPayload o) -> rrlp_octets r o ->
      supl_more_rrlp r = true -> serves room rs css -> serves room (r :: rs) (cs ++ css).

(** The messages collected one after the other, received at the times [ts]. *)
Fixpoint collect_all (rs : list PDU_t) (ts : list (Z * Z)) (a : supl_assist_t) : option supl_assist_t :=
  match rs, ts with
  | r :: rs', t :: ts' => '(_, a1) ← supl_collect_rrlp a r t; collect_all rs' ts' a1
  | _, _ => Some a
  end.

(** One round of the loop, up to the use of the RRLP message. *)
Lemma assist_loop_recv f stack ctx u a s p cs rest :
  ssl_up s -> ssl_pending s = cs ++ rest -> ulp_records (length (ubuffer u)) p cs ->
  exists t u1 s1, pdu u1 = Some p /\ length (ubuffer u1) = length (ubuffer u) /\
    ssl_up s1 /\ ssl_pending s1 = rest /\ ssl_sent s1 = ssl_sent s /\
    assist_loop tmp (Datatypes.S f) stack ctx u a s =
      match message p with
      | msSUPLEND => Some (0, a, ssl_close s1)
      | msSUPLPOS _ =>
          '(d, rr) ← supl_decode_rrlp u1;
          if d <? 0 then Some (E_SUPL_DECODE_RRLP, a, s1)
          else
            r1 ← rr;
            '(_, a1) ← supl_collect_rrlp a r1 t;
            if supl_more_rrlp r1 then
              '(e, u2) ← pdu_make_ulp_rrlp_ack tmp stack ctx u1 r1;
              if e <? 0 then Some (E_SUPL_RRLP_ACK, a1, s1)
              else let '(_, s2) := supl_ulp_send s1 u2 in assist_loop tmp f stack ctx u2 a1 s2
            else Some (0, a1, ssl_close s1)
      | _ => Some (E_SUPL_SUPLPOS, a, s1)
      end.
Proof.
  intros Hup Hpend Hrec. destruct (ssl_clock s Hup) as (t & s0 & Hclk & Hup0 & Hp0 & Hs0). rewrite <- Hp0 in Hpend.
  destruct (ulp_recv_at s0 u p cs rest Hup0 Hpend Hrec) as (u1 & s1 & Hrecv & Hpdu & _ & Hl1 & Hup1 & Hp1 & Hs1).
  exists t, u1, s1. split_and!; [done..|by rewrite Hs1|]. cbn [assist_loop]. rewrite Hclk, Hrecv. cbn [mbind option_bind].
  change (0 <? 0) with false. cbn iota. rewrite Hpdu. done.
Qed.

Lemma decode_rrlp_at u p o r : pdu u = Some p -> message p = msSUPLPOS (rrlpPayload o) -> rrlp_octets r o ->
  supl_decode_rrlp u = Some (0, Some r).
Proof.
  intros Hpdu Hmsg (C & Hv & Hne & Ho). unfold supl_decode_rrlp. rewrite Hpdu. cbn [mbind option_bind]. rewrite Hmsg.
  by rewrite (received_whole calloc_pdu r C o) by done.
Qed.

Lemma assist_loop_at room stack ctx slp rs cs : length stack = 1024%nat -> slp_session ctx = Some slp ->
  serves room rs cs -> forall fuel u a s rest,
  (length rs < fuel)%nat -> length (ubuffer u) = room -> ssl_up s -> ssl_pending s = cs ++ rest ->
  Forall (ack_ok room ctx slp) rs ->
  (forall ts, length ts = length rs -> is_Some (collect_all rs ts a)) ->
  exists ts a' s' acks, assist_loop tmp fuel stack ctx u a s = Some (0, a', s') /\
    length ts = length rs /\ collect_all rs ts a = Some a' /\ ssl_sent s' = ssl_sent s ++ acks /\
    Forall2 (ack_sent ctx slp) (filter (fun r => supl_more_rrlp r = true) rs) acks.
Proof.
  intros Hst Hslp Hserve. induction Hserve as [p cs Hrec Hmsg|p o r cs Hrec Hmsg Hr Hmore|p o r cs rs css Hrec Hmsg Hr Hmore Hserve IH];
    intros fuel u a s rest Hfuel Hl Hup Hpend Hack Hcol; subst room; (destruct fuel as [|f]; [lia|]).
  - destruct (assist_loop_recv f stack ctx u a s p cs rest Hup Hpend Hrec) as (t & u1 & s1 & _ & _ & _ & _ & Hs1 & ->).
    rewrite Hmsg. exists [], a, (ssl_close s1), []. split_and!; [done..| |constructor].
    by rewrite app_nil_r, ssl_close_sent, Hs1.
  - destruct (assist_loop_recv f stack ctx u a s p cs rest Hup Hpend Hrec) as (t & u1 & s1 & Hpdu & _ & _ & _ & Hs1 & ->).
    rewrite Hmsg, (decode_rrlp_at u1 p o r Hpdu Hmsg Hr). cbn [mbind option_bind]. change (0 <? 0) with false. cbn iota.
    destruct (Hcol [t] eq_refl) as [a' Ha]. cbn [collect_all] in Ha.
    destruct (supl_collect_rrlp a r t) as [[c a1]|] eqn:Ec; [|done]. cbn [mbind option_bind] in Ha |- *. rewrite Hmore.
    exists [t], a1, (ssl_close s1), []. split_and!; [done|done|cbn [collect_all]; by rewrite Ec|..].
    + by rewrite app_nil_r, ssl_close_sent, Hs1.
    + rewrite filter_cons_False by (by rewrite Hmore). constructor.
  - rewrite <- app_assoc in Hpend. apply Forall_cons_1 in Hack as [Hackr Hack].
    destruct (assist_loop_recv f stack ctx u a s p cs (css ++ rest) Hup Hpend Hrec)
      as (t & u1 & s1 & Hpdu & Hl1 & Hup1 & Hp1 & Hs1 & ->).
    rewrite Hmsg, (decode_rrlp_at u1 p o r Hpdu Hmsg Hr). cbn [mbind option_bind]. change (0 <? 0) with false. cbn iota.
    destruct (supl_collect_rrlp a r t) as [[c a1]|] eqn:Ec.
    2: { destruct (Hcol (replicate (length (r :: rs)) t) (length_replicate _ _)) as [a' Ha].
         cbn [replicate length collect_all] in Ha. by rewrite Ec in Ha. }
    cbn [mbind option_bind]. rewrite Hmore.
    destruct (client_ack_at _ stack ctx slp u1 r Hst Hslp Hackr Hl1) as (u2 & m & Hm & Hmne & Ht & Hl2 & ->).
    cbn [mbind option_bind]. change (0 <? 0) with false. cbn iota.
    destruct (client_send_at s1 u2 m Hup1 Ht Hmne) as (s2 & -> & Hup2 & Hp2 & Hs2).
    destruct (IH f u2 a1 s2 rest) as (ts & a' & s' & acks & Hgo & Hts & Hca & Hsent & Hacks);
      [cbn [length] in Hfuel; lia|done|done|by rewrite Hp2|done| |].
    { intros ts Hts. destruct (Hcol (t :: ts)) as [a' Ha]; [cbn; lia|]. exists a'. cbn [collect_all] in Ha. by rewrite Ec in Ha. }
    exists (t :: ts), a', s', (m :: acks). split_and!; [done|cbn; lia|cbn [collect_all]; by rewrite Ec| |].
    + by rewrite Hsent, Hs2, Hs1, <- app_assoc.
    + rewrite filter_cons_True by done. by constructor.
Qed.

Context (known_position : gsm_cell * QArith_base.Q * QArith_base.Q * Z -> Position).

(** A session identifier that can be encoded and decoded again. *)
Definition slp_ok (slp : SlpSessionID) : Prop := exists C, uper_sends slp C /\ uper_receives slp C /\ 0 < Z.of_nat (length C) < 2 ^ 59.

(** The session identifier of the response is remembered and used again. *)
Lemma harvest_at ctx u p :
  pdu u = Some p -> (forall slp, slpSessionID p = Some slp -> slp_ok slp) ->
  exists r b, supl_response_harvest tmp ctx u = Some (r, with_slp ctx b) /\
    slp_session (with_slp ctx b) = Some (slpSessionID p).
Proof.
  intros Hp Hslp. unfold supl_response_harvest. rewrite Hp. cbn [mbind option_bind].
  destruct (slpSessionID p) as [slp|]; [|eexists _, None; done]. destruct (Hslp slp eq_refl) as (C & Hs & Hr & Hl).
  destruct (sent_and_received tmp slp {| slp_sessionID := []; slpId := SLPAddress_NOTHING |} C Hs Hr Htmp Htmp32)
    as (o & -> & Hdec); [intros ->; cbn in Hl; lia|lia|].
  cbn [mbind option_bind]. rewrite (proj2 (Z.eqb_neq _ (-1))) by lia. eexists _, (Some o). split; [done|].
  unfold slp_session, with_slp. cbn [slp_session_id]. by rewrite Hdec.
Qed.

(** A session with a server that answers SUPLSTART by SUPLRESPONSE and SUPLPOSINIT by RRLP
    messages, the last of which does not announce more, or SUPLEND: the client returns 0, has
    sent SUPLSTART, SUPLPOSINIT with the session identifier of the response and one
    acknowledgement for each message that announces more, in that order, and the assistance data
    are those of the messages collected in order. *)
Lemma get_assist_at room fuel stack u0 ctx0 a0 s s1 p0 cs0 rs cs rest :
  length stack = 1024%nat -> length (ubuffer u0) = room ->
  supl_server_connect s = (0, s1) -> ssl_up s1 -> ssl_pending s1 = cs0 ++ cs ++ rest ->
  ulp_records room p0 cs0 -> message p0 = msSUPLRESPONSE -> (forall slp, slpSessionID p0 = Some slp -> slp_ok slp) ->
  let ctx := with_msisdn ctx0 set_msisdn in
  let slp := slpSessionID p0 in
  client_ok room (start_pdu ctx) -> client_ok room (pos_init_pdu known_position ctx slp) ->
  serves room rs cs -> (length rs < fuel)%nat -> Forall (ack_ok room ctx slp) rs ->
  (forall ts, length ts = length rs -> is_Some (collect_all rs ts zero_assist)) ->
  exists ctx1 ts a s' m1 m2 acks,
    supl_get_assist tmp known_position fuel stack u0 ctx0 a0 s = Some (0, ctx1, a, s') /\
    length ts = length rs /\ collect_all rs ts zero_assist = Some a /\
    ssl_sent s' = ssl_sent s1 ++ m1 :: m2 :: acks /\
    wire (start_pdu ctx) m1 /\ wire (pos_init_pdu known_position ctx slp) m2 /\
    Forall2 (ack_sent ctx slp) (filter (fun r => supl_more_rrlp r = true) rs) acks.
Proof.
  intros Hst Hl Hcon Hup Hpend Hrec Hmsg Hslp ctx slp Hstart Hpos Hserve Hfuel Hack Hcol.
  unfold supl_get_assist. fold ctx. rewrite Hcon. change (0 <? 0) with false. cbn iota.
  unfold pdu_make_ulp_start.
  destruct (client_encode_at room u0 _ Hstart Hl) as (u1 & m1 & Hm1 & Hne1 & Ht1 & Hl1 & ->).
  cbn [mbind option_bind]. change (0 <? 0) with false. cbn iota. cbn [mbind option_bind]. change (0 <? 0) with false. cbn iota.
  destruct (client_send_at s1 u1 m1 Hup Ht1 Hne1) as (s2 & -> & Hup2 & Hp2 & Hs2). rewrite <- Hp2 in Hpend.
  destruct (ulp_recv_at s2 u1 p0 cs0 (cs ++ rest) Hup2 Hpend) as (u2 & s3 & -> & Hpdu2 & _ & Hl2 & Hup3 & Hp3 & Hs3);
    [by rewrite Hl1|].
  cbn [mbind option_bind]. change (0 <? 0) with false. cbn iota. rewrite Hpdu2. cbn [mbind option_bind]. rewrite Hmsg.
  destruct (harvest_at ctx u2 p0 Hpdu2 Hslp) as (h & b & -> & Hses). cbn [mbind option_bind].
  unfold pdu_make_ulp_pos_init. rewrite Hses. cbn [mbind option_bind].
  change (pos_init_pdu known_position (with_slp ctx b) (slpSessionID p0)) with (pos_init_pdu known_position ctx slp).
  destruct (client_encode_at room u2 _ Hpos ltac:(congruence)) as (u3 & m2 & Hm2 & Hne2 & Ht2 & Hl3 & ->).
  cbn [mbind option_bind]. change (0 <? 0) with false. cbn iota. cbn [mbind option_bind]. change (0 <? 0) with false. cbn iota.
  destruct (client_send_at s3 u3 m2 Hup3 Ht2 Hne2) as (s4 & -> & Hup4 & Hp4 & Hs4). rewrite <- Hp4 in Hp3.
  destruct (assist_loop_at room stack (with_slp ctx b) slp rs cs Hst Hses Hserve fuel u3 zero_assist s4 rest)
    as (ts & a & s' & acks & -> & Hts & Hca & Hsent & Hacks); [done..|].
  cbn [mbind option_bind]. exists (with_slp ctx b), ts, a, s', m1, m2, acks. split_and!; try done.
  by rewrite Hsent, Hs4, Hs3, Hs2, <- !app_assoc.
Qed.

(** A SUPLPOS message whose payload is not RRLP passes the checks of the loop, and
    the RRLP pointer is used without having been assigned. *)
Lemma assist_loop_uninitialised f stack ctx u a s p cs rest payload :
  ssl_up s -> ssl_pending s = cs ++ rest -> ulp_records (length (ubuffer u)) p cs ->
  message p = msSUPLPOS payload -> (forall o, payload <> rrlpPayload o) ->
  assist_loop tmp (Datatypes.S f) stack ctx u a s = None.
Proof.
  intros Hup Hpend Hrec Hmsg Hpay.
  destruct (assist_loop_recv f stack ctx u a s p cs rest Hup Hpend Hrec) as (t & u1 & s1 & Hpdu & _ & _ & _ & _ & ->).
  rewrite Hmsg. unfold supl_decode_rrlp. rewrite Hpdu. cbn [mbind option_bind]. rewrite Hmsg.
  destruct payload; try done. by destruct (Hpay o).
Qed.

End properties.
