(* ===== verification/AsnTypes.v ===== *)
(** * AsnTypes: type descriptors and the simple types

    The structures that the decoders of the ASN.1 runtime build, type descriptors with
    their codec functions ([constr_TYPE.h]), what a codec promises, complete encodings of
    the values of a codec, and the UPER codecs of machine integers, BOOLEAN
    ([BOOLEAN.c]) and ENUMERATED ([NativeEnumerated.c]) as types. *)
From S2P Require Import Prelude PerSupport AsnInteger PerSafe PerCodec.

(** ** Values and descriptors *)

(** A structure in memory; a pointer that is NULL is [None]. [V_zero] is storage that no
    decoder has filled. *)
Inductive asn_value :=
  | V_zero
  | V_int (z : Z)
  | V_str (buf : list Z) (bits_unused : Z)
  | V_seq (members : list (option asn_value))
  | V_choice (present : Z) (member : option asn_value)
  | V_list (array : list (option asn_value)).

(** The functions that translate characters are NULL or total. *)
Record asn_per_constraints_t := {
  value : asn_per_constraint_t; size : asn_per_constraint_t;
  value2code : option (Z -> Z); code2value : option (Z -> Z) }.

(** The UPER functions of a type, for the constraints of a place where it is used; the
    encoder is given a structure that is there. *)
Record codec := {
  enc : forall K (HS : Sink K), asn_value -> asn_per_outp_t K -> option (Z * asn_per_outp_t K);
  dec : asn_per_data_t -> option (asn_dec_rval_code_e * asn_value * asn_per_data_t) }.

(** A descriptor, as far as UPER is concerned: [td->uper_encoder] and [td->uper_decoder]
    take the constraints of the place and fall back on those of the type. *)
Record asn_TYPE_descriptor_t := { uper_codec : option asn_per_constraints_t -> codec }.

(** [default_value]: the value it sets, and its comparison. *)
Record asn_TYPE_member_t := {
  pointer : bool; optional : bool; type : asn_TYPE_descriptor_t;
  per_constraints : option asn_per_constraints_t;
  default_value : option (asn_value * (asn_value -> bool)) }.

Definition member_codec (elm : asn_TYPE_member_t) : codec := uper_codec (type elm) (per_constraints elm).

(** The constraints that apply: those of the place, or those of the type. *)
Definition which (constraints own : option asn_per_constraints_t) : option asn_per_constraints_t :=
  match constraints with Some c => Some c | None => own end.

(** ** What a codec promises *)

(** The bits of a value, the values that have a code, and the values of the type. *)
Record type_spec := { code : asn_value -> list bool; valid : asn_value -> Prop; typed : asn_value -> Prop }.

(** Valid values are encoded as their code and decoded from it, whatever follows; any input
    is decoded to a value of the type or rejected. *)
Record implements (c : codec) (s : type_spec) : Prop := {
  enc_at K (HS : Sink K) B po v : valid s v -> po_at B po -> encodes (B ++ code s v) (enc c K HS v po);
  dec_at v L pd : valid s v -> pd_at (code s v ++ L) pd -> exists pd', dec c pd = Some (RC_OK, v, pd') /\ pd_at L pd';
  dec_reads pd : reads pd (dec c pd) (fun '(r, v) _ => r = RC_OK -> typed s v) }.

(** ** Complete encodings *)

(** The values of a codec, as the functions of [per_encoder.c] and [per_decoder.c] see them. *)
Definition Val (c : codec) : Type := asn_value.

#[global] Instance val_type c : UperType (Val c) := {| uper_encoder K HS v po := enc c K HS v po; uper_decoder := dec c |}.

Section complete.
Context (c : codec) (s : type_spec) (Hc : implements c s).

Lemma val_decoder_step pd r (a : Val c) pd' : uper_decoder pd = Some (r, a, pd') -> pd_step pd pd'.
Proof. intros E. exact (reads_step pd _ _ _ _ (dec_reads c s Hc pd) E). Qed.

Lemma encode_internal_accepted {K} (HS : Sink K) tmp (v : Val c) key :
  valid s v -> bytes tmp -> length tmp = 32%nat -> sink_bytes key = [] -> sink_inv key ->
  ~ refused (code s v) -> ~ refused_last (code s v) ->
  exists k, uper_encode_internal HS tmp v key = Some (Z.of_nat (length (code s v)), k) /\
    octets_of (code s v) (sink_bytes k) /\ (sink_inv k \/ exists d k0, sink_inv k0 /\ outper d k0 = Some k).
Proof.
  intros Hv Htb Htl Hk Hi Hn1 Hn2.
  destruct (enc_at c s Hc K HS [] _ v Hv (fresh_outp_at tmp key Htb Htl Hk Hi) Hn1) as (e & po & He & Hne & Hat).
  destruct (encode_internal_finish (H := val_type c) HS tmp v key _ e po He Hne Hat) as [?|(k & _ & ?)]; [done|by destruct Hn2].
Qed.

Lemma val_decode_complete (zero v : Val c) o rest : valid s v -> octets_of (code s v) o -> bytes rest -> code s v <> [] ->
  uper_decode_complete zero (o ++ rest) = Some (RC_OK, Z.of_nat (length o), v).
Proof.
  intros Hv. apply decode_complete_gen; [|exact val_decoder_step]. intros L pd. exact (dec_at c s Hc v L pd Hv).
Qed.

(** A new block of the heap: it is never too small. *)
Lemma val_new_buffer tmp (v : Val c) : valid s v -> bytes tmp -> length tmp = 32%nat -> Z.of_nat (length (code s v)) < 2 ^ 59 ->
  exists o, uper_encode_to_new_buffer tmp v = Some (Z.of_nat (length o), Some o) /\ bytes o /\
    (if decide (code s v = []) then o = [0] else octets_of (code s v) o).
Proof.
  intros Hv Htb Htl Hsmall. unfold uper_encode_to_new_buffer.
  destruct (encode_internal_accepted dyn_sink tmp v {| dyn_bytes := []; allocated := 0 |} Hv Htb Htl)
    as (k & -> & Ho & _); [done|by left|intros ?; apply (dyn_refused _ Hsmall); by left|
                                    intros ?; apply (dyn_refused _ Hsmall); by right|].
  cbn [mbind option_bind]. rewrite (proj2 (Z.eqb_neq _ (-1))) by lia. case_decide as Hnil.
  - exists [0]. rewrite Hnil. split_and!; [done|by repeat constructor|done].
  - rewrite (proj2 (Z.eqb_neq _ 0)) by (destruct (code s v); cbn [length]; done || lia).
    cbn [sink_bytes dyn_sink] in Ho. exists (dyn_bytes k). split_and!; [by rewrite (octets_of_length _ _ Ho)|apply Ho|done].
Qed.

Lemma val_new_buffer_roundtrip tmp (v zero : Val c) :
  valid s v -> bytes tmp -> length tmp = 32%nat -> Z.of_nat (length (code s v)) < 2 ^ 59 ->
  exists o, uper_encode_to_new_buffer tmp v = Some (Z.of_nat (length o), Some o) /\
    uper_decode_complete zero o = Some (RC_OK, Z.of_nat (length o), v).
Proof.
  intros Hv Htb Htl Hsmall. destruct (val_new_buffer tmp v Hv Htb Htl Hsmall) as (o & He & _ & Ho). exists o. split; [done|].
  case_decide as Hnil.
  - subst o. apply decode_complete_empty_gen; [|exact val_decoder_step]. intros L pd Hpd.
    apply (dec_at c s Hc v); [done|]. by rewrite Hnil.
  - rewrite <- (app_nil_r o) at 1. by apply val_decode_complete.
Qed.

(** A caller's buffer that is large enough. *)
Lemma val_buffer_roundtrip tmp (v zero : Val c) buffer :
  valid s v -> bytes tmp -> length tmp = 32%nat -> bytes buffer -> code s v <> [] ->
  octets_needed (length (code s v)) <= Z.of_nat (length buffer) ->
  exists o, uper_encode_to_buffer tmp v buffer = Some (Z.of_nat (length (code s v)), o ++ drop (length o) buffer) /\
    octets_of (code s v) o /\
    uper_decode_complete zero (o ++ drop (length o) buffer) = Some (RC_OK, octets_needed (length (code s v)), v).
Proof.
  intros Hv Htb Htl Hbb Hne Hfit. unfold uper_encode_to_buffer. set (size := Z.of_nat (length buffer)) in *.
  destruct (encode_internal_accepted (buf_sink size) tmp v {| eb_buffer := []; left := size |} Hv Htb Htl)
    as (k & -> & Ho & _); [done|cbn; lia|intros ?; apply Zlt_not_le in Hfit; [done|]; apply (buf_refused size); by left|
                           intros ?; apply Zlt_not_le in Hfit; [done|]; apply (buf_refused size); by right|].
  cbn [mbind option_bind sink_bytes buf_sink] in Ho |- *. exists (eb_buffer k). split_and!; [done..|].
  rewrite (val_decode_complete zero v (eb_buffer k)); [by rewrite (octets_of_length _ _ Ho)|done..|by apply Forall_drop|done].
Qed.

(** Whatever the octets are, decoding them returns, and a value that is accepted is one of
    the type. *)
Lemma val_decode_any (zero : Val c) buf : bytes buf ->
  exists r consumed v, uper_decode_complete zero buf = Some (r, consumed, v) /\ (r = RC_OK -> typed s v).
Proof.
  intros Hb. unfold uper_decode_complete, uper_decode. cbn [Z.ltb Z.compare orb andb].
  rewrite (proj2 (Z.ltb_ge _ _)) by (cbn [nbits nboff]; lia).
  set (pd := {| buffer := buf; nboff := 0; nbits := 8 * Z.of_nat (length buf) - 0; moved := 0 |}).
  assert (Hok : pd_ok pd) by (split; cbn; [done|lia|lia]).
  destruct (dec_reads c s Hc pd Hok) as ([r v] & pd' & E & Hstep & Ht). change (uper_decoder pd) with (dec c pd). rewrite E.
  cbn [mbind option_bind]. destruct (Hstep Hok) as (Hok' & k & Hk & Hbuf & Hnb & Hm).
  assert (Z.shiftl (Z.of_nat (length buf) - Z.of_nat (length (buffer pd'))) 3 + nboff pd' - 0 = moved pd') as Hc'.
  { rewrite Hbuf, length_drop, Z.shiftl_mul_pow2 by lia. change (2 ^ 3) with 8. cbn [pd buffer nbits nboff moved] in *. lia. }
  destruct r; cbn [mbind option_bind]; [|by eexists _, _, _..].
  rewrite Hc', Z.eqb_refl. cbn [mbind option_bind]. case_match; [by eexists _, _, _|].
  destruct buf as [|b buf']; [by eexists _, _, _|]. destruct (b =? 0); by eexists _, _, _.
Qed.

End complete.

(** ** NativeInteger *)

Definition NativeInteger (unsigned : bool) (own : option asn_per_constraints_t) : asn_TYPE_descriptor_t :=
  {| uper_codec constraints :=
       let ct := value <$> which constraints own in
       {| enc K HS v po := match v with V_int z => NativeInteger_encode_uper unsigned ct z po | _ => None end;
          dec pd := '(r, z, pd') ← NativeInteger_decode_uper unsigned ct 0 pd; Some (r, V_int z, pd') |} |}.

Definition native_spec (unsigned : bool) (ct : option asn_per_constraint_t) : type_spec :=
  {| code v := match v with V_int z => native_code unsigned ct z | _ => [] end;
     valid v := exists z, v = V_int z /\ - 2 ^ 63 <= z < 2 ^ 63 /\ encodable unsigned ct z = true;
     typed v := exists z, v = V_int z /\ - 2 ^ 63 <= z < 2 ^ 63 |}.

Lemma NativeInteger_implements unsigned own constraints : ct_wf unsigned (value <$> which constraints own) ->
  implements (uper_codec (NativeInteger unsigned own) constraints) (native_spec unsigned (value <$> which constraints own)).
Proof.
  intros Hwf. split; cbn [enc dec uper_codec NativeInteger].
  - intros K HS B po v (z & -> & H1 & H3) Hat. apply accepts_encodes, accepts_done. exact (NativeInteger_encode_at B po _ _ z Hat H1 Hwf H3).
  - intros v L pd (z & -> & H1 & H3) Hpd. destruct (NativeInteger_decode_at _ _ z 0 L pd H1 Hwf H3 Hpd) as (pd' & -> & H').
    by exists pd'.
  - intros pd. eapply reads_bind; [apply NativeInteger_decode_reads; lia|]. intros [r z] pd' _ Hz. apply reads_ret.
    intros _. by exists z.
Qed.

(** ** INTEGER *)

(** The structure holds the contents octets. *)
Definition INTEGER (unsigned : bool) (own : option asn_per_constraints_t) : asn_TYPE_descriptor_t :=
  {| uper_codec constraints :=
       let ct := value <$> which constraints own in
       {| enc K HS v po := match v with V_str buf _ => INTEGER_encode_uper unsigned ct (Some buf) po | _ => None end;
          dec pd :=
            '(r, st, pd') ← INTEGER_decode_uper unsigned ct pd;
            Some (r, match st with Some buf => V_str buf 0 | None => V_zero end, pd') |} |}.

(** Numbers of any size, without constraints. *)
Definition integer_spec : type_spec :=
  {| code v := match v with V_str buf _ => frag_code (length buf) buf | _ => [] end;
     valid v := exists buf, v = V_str buf 0 /\ bytes buf /\ buf <> [] /\ Z.of_nat (length buf) mod 16384 <> 0;
     typed v := exists buf, v = V_str buf 0 /\ bytes buf |}.

(** The fragments are read to their end. *)
Lemma get_fragments_at o L pd : bytes o -> o <> [] -> Z.of_nat (length o) mod 16384 <> 0 ->
  pd_at (frag_code (length o) o ++ L) pd ->
  exists pd', get_chunks (S (Z.to_nat (nbits pd))) pd [] = Some (RC_OK, o, pd') /\ pd_at L pd'.
Proof.
  intros Hb Hne Hmod Hpd. pose proof Hpd as [Hok Hbits]. pose proof (length_pd_bits pd Hok) as HL.
  pose proof (pd_off pd Hok). rewrite Hbits in HL.
  destruct (get_chunks_at (S (Z.to_nat (nbits pd))) (length o) L pd o [] Hpd Hb) as [HA _]; [lia|lia|done|]. by apply HA.
Qed.

Lemma INTEGER_implements unsigned own constraints : which constraints own = None ->
  implements (uper_codec (INTEGER unsigned own) constraints) integer_spec.
Proof.
  intros Hct. split; cbn [enc dec uper_codec INTEGER code valid typed integer_spec]; rewrite Hct; cbn [fmap option_fmap option_map].
  - intros K HS B po v (buf & -> & Hb & Hne & _) Hat. apply accepts_encodes, accepts_done.
    destruct buf as [|x buf]; [done|]. by apply put_chunks_at.
  - intros v L pd (buf & -> & Hb & Hne & Hmod) Hpd. destruct (get_fragments_at buf L pd Hb Hne Hmod Hpd) as (pd' & E & Hpd').
    exists pd'. unfold INTEGER_decode_uper, decode_value, decode_octets. by rewrite E.
  - intros pd Hok. revert Hok. unfold INTEGER_decode_uper, decode_value, decode_octets. intros Hok.
    assert (Hg : reads pd (get_chunks (S (Z.to_nat (nbits pd))) pd []) (fun '(_, st) _ => bytes st)).
    { apply get_chunks_reads; [constructor|]. pose proof (pd_off pd Hok). unfold pd_left. lia. }
    destruct (Hg Hok) as ([r st] & pd' & -> & Hst & Hb). cbn [mbind option_bind].
    destruct r; eexists (_, _), pd'; (split_and!; [done|done|]); [intros _; by exists st|done|done].
Qed.

(** ** BOOLEAN *)

(** The result of [per_put_few_bits] is ignored, and [er.encoded] is returned as it was on
    the stack: [er] is what it held. *)
Definition BOOLEAN_encode_uper {K} {HS : Sink K} (er : Z) (st : Z) (po : asn_per_outp_t K) : option (Z * asn_per_outp_t K) :=
  '(_, po1) ← per_put_few_bits po (if negb (st =? 0) then 1 else 0) 1; Some (er, po1).

Definition BOOLEAN_decode_uper (pd : asn_per_data_t) : option (asn_dec_rval_code_e * asn_value * asn_per_data_t) :=
  '(b, pd1) ← per_get_few_bits pd 1;
  if b =? 1 then Some (RC_OK, V_int 1, pd1)
  else if b =? 0 then Some (RC_OK, V_int 0, pd1)
  else Some (RC_WMORE, V_zero, pd1).

Definition BOOLEAN (er : Z) : asn_TYPE_descriptor_t :=
  {| uper_codec _ :=
       {| enc K HS v po := match v with V_int z => BOOLEAN_encode_uper er z po | _ => None end; dec := BOOLEAN_decode_uper |} |}.

Definition boolean_spec : type_spec :=
  {| code v := match v with V_int z => [negb (z =? 0)] | _ => [] end;
     valid v := v = V_int 0 \/ v = V_int 1; typed v := v = V_int 0 \/ v = V_int 1 |}.

Lemma BOOLEAN_implements er constraints : er <> -1 -> implements (uper_codec (BOOLEAN er) constraints) boolean_spec.
Proof.
  intros Her. split; cbn [enc dec uper_codec BOOLEAN code valid typed boolean_spec]; unfold BOOLEAN_encode_uper, BOOLEAN_decode_uper.
  - intros K HS B po v Hv Hat. rewrite <- (app_nil_r (B ++ _)).
    assert (exists b : bool, v = V_int (Z.b2z b)) as [b ->] by (destruct Hv as [-> | ->]; [by exists false|by exists true]).
    eapply accepts_then.
    + destruct b; apply (accepts_bit B po _ Hat).
    + intros po' Hat'. rewrite app_nil_r. by apply encodes_ret.
  - intros v L pd Hv Hpd.
    assert (exists b : bool, v = V_int (Z.b2z b)) as [b ->] by (destruct Hv as [-> | ->]; [by exists false|by exists true]).
    destruct (per_get_few_bits_at L pd 1 [b]) as (pd' & -> & Hpd' & _); [by destruct b|done|done|].
    exists pd'. by destruct b.
  - intros pd. apply few_bits_bind. intros b pd1 _ _. destruct (b =? 1); [apply reads_ret; by right|].
    destruct (b =? 0); apply reads_ret; [by left|done].
Qed.

(** ** NULL *)

(** The value has no octets; a new one is set to zero. *)
Definition NULL_decode_uper (pd : asn_per_data_t) : option (asn_dec_rval_code_e * asn_value * asn_per_data_t) :=
  Some (RC_OK, V_int 0, pd).

Definition NULL_encode_uper {K} {HS : Sink K} (po : asn_per_outp_t K) : option (Z * asn_per_outp_t K) := Some (0, po).

Definition NULL : asn_TYPE_descriptor_t :=
  {| uper_codec _ := {| enc K HS v po := NULL_encode_uper po; dec := NULL_decode_uper |} |}.

Definition null_spec : type_spec := {| code _ := []; valid v := v = V_int 0; typed v := v = V_int 0 |}.

Lemma NULL_implements constraints : implements (uper_codec NULL constraints) null_spec.
Proof.
  split; cbn [enc dec uper_codec NULL code valid typed null_spec].
  - intros K HS B po v -> Hat. rewrite app_nil_r. by apply encodes_ret.
  - intros v L pd -> Hpd. by exists pd.
  - intros pd. by apply reads_ret.
Qed.

(** ** ENUMERATED *)

(** [value2enum] lists the [nat_value]s. *)
Record asn_INTEGER_specifics_t := { value2enum : list Z; map_count : Z; extension : Z }.

(** [bsearch] of the C library over the [u] first entries: the index of the entry, or
    [None]; the outer [None] is a read outside the table. *)
Fixpoint bsearch (fuel : nat) (key : Z) (base : list Z) (l u : Z) : option (option Z) :=
  if l <? u then
    match fuel with
    | O => None
    | S f =>
        let idx := (l + u) / 2 in
        p ← rd base idx;
        if key <? p then bsearch f key base l idx
        else if p <? key then bsearch f key base (idx + 1) u
        else Some (Some idx)
    end
  else Some None.

(** Number of the first enumeration item that is an extension. *)
Definition enum_root (specs : asn_INTEGER_specifics_t) : Z :=
  if negb (extension specs =? 0) then extension specs - 1 else map_count specs.

(** The decoder after the extension bit. *)
Definition decode_enum (specs : asn_INTEGER_specifics_t) (ct : option asn_per_constraint_t) (pd : asn_per_data_t)
  : option (asn_dec_rval_code_e * asn_value * asn_per_data_t) :=
  let finish value pd1 :=
    nat_value ← rd (value2enum specs) value; Some (RC_OK, V_int nat_value, pd1) in
  let unrestricted :=
    if extension specs =? 0 then Some (RC_FAIL, V_zero, pd)
    else
      '(value, pd1) ← uper_get_nsnnwn pd;
      if value <? 0 then Some (RC_WMORE, V_zero, pd1)
      else if map_count specs <=? value + (extension specs - 1) then Some (RC_FAIL, V_zero, pd1)
      else finish (value + (extension specs - 1)) pd1 in
  match ct with
  | Some c =>
      if 0 <=? range_bits c then
        '(value, pd1) ← per_get_few_bits pd (range_bits c);
        if value <? 0 then Some (RC_WMORE, V_zero, pd1)
        else if enum_root specs <=? value then Some (RC_FAIL, V_zero, pd1)
        else finish value pd1
      else unrestricted
  | None => unrestricted
  end.

Definition NativeEnumerated_decode_uper (specs : asn_INTEGER_specifics_t) (ct : option asn_per_constraint_t)
    (pd : asn_per_data_t) : option (asn_dec_rval_code_e * asn_value * asn_per_data_t) :=
  match ct with
  | None => Some (RC_FAIL, V_zero, pd)
  | Some c =>
      if has_flag c APC_EXTENSIBLE then
        '(inext, pd1) ← per_get_few_bits pd 1;
        if inext <? 0 then Some (RC_WMORE, V_zero, pd1)
        else decode_enum specs (if negb (inext =? 0) then None else ct) pd1
      else decode_enum specs ct pd
  end.

(** The encoder after the extension bit, for the item number [value]. *)
Definition encode_enum {K} {HS : Sink K} (specs : asn_INTEGER_specifics_t) (ct : option asn_per_constraint_t)
    (inext : bool) (value : Z) (po : asn_per_outp_t K) : option (Z * asn_per_outp_t K) :=
  let unrestricted :=
    if extension specs =? 0 then Some (-1, po)
    else
      '(r, po1) ← uper_put_nsnnwn po (value - (if inext then extension specs - 1 else 0));
      if negb (r =? 0) then Some (-1, po1) else Some (0, po1) in
  match ct with
  | Some c =>
      if 0 <=? range_bits c then
        '(r, po1) ← per_put_few_bits po value (range_bits c);
        if negb (r =? 0) then Some (-1, po1) else Some (0, po1)
      else unrestricted
  | None => unrestricted
  end.

Definition NativeEnumerated_encode_uper {K} {HS : Sink K} (specs : asn_INTEGER_specifics_t)
    (ct : option asn_per_constraint_t) (native : Z) (po : asn_per_outp_t K) : option (Z * asn_per_outp_t K) :=
  match ct with
  | None => Some (-1, po)
  | Some c =>
      if native <? 0 then Some (-1, po)
      else
        kf ← bsearch (length (value2enum specs)) native (value2enum specs) 0 (map_count specs);
        match kf with
        | None => Some (-1, po)
        | Some value =>
            let inext := (0 <=? range_bits c) && (enum_root specs <=? value) in
            if has_flag c APC_EXTENSIBLE then
              '(r, po1) ← per_put_few_bits po (Z.b2z inext) 1;
              if negb (r =? 0) then Some (-1, po1)
              else encode_enum specs (if inext then None else ct) inext value po1
            else if inext then Some (-1, po)
            else encode_enum specs ct inext value po
        end
  end.

Definition NativeEnumerated (specs : asn_INTEGER_specifics_t) (own : option asn_per_constraints_t) : asn_TYPE_descriptor_t :=
  {| uper_codec constraints :=
       let ct := AsnTypes.value <$> which constraints own in
       {| enc K HS v po := match v with V_int z => NativeEnumerated_encode_uper specs ct z po | _ => None end;
          dec := NativeEnumerated_decode_uper specs ct |} |}.

(** *** Specification *)

Fixpoint increasing (l : list Z) : bool :=
  match l with
  | x :: (y :: _) as t => (x <? y) && increasing t
  | _ => true
  end.

Fixpoint index_of (z : Z) (l : list Z) : nat :=
  match l with
  | [] => 0
  | x :: t => if x =? z then 0 else S (index_of z t)
  end.

(** Tables of the ASN.1 compiler: a field that holds the numbers of the root. *)
Record enum_wf (specs : asn_INTEGER_specifics_t) (c : asn_per_constraint_t) : Prop := {
  enum_count : map_count specs = Z.of_nat (length (value2enum specs));
  enum_increasing : increasing (value2enum specs) = true;
  enum_extension : extension specs = 0 \/ 1 <= extension specs <= map_count specs + 1;
  enum_bits : 0 <= range_bits c <= 31;
  enum_fits : enum_root specs <= 2 ^ range_bits c }.

Definition enum_code (specs : asn_INTEGER_specifics_t) (c : asn_per_constraint_t) (z : Z) : list bool :=
  let i := Z.of_nat (index_of z (value2enum specs)) in
  let inext := enum_root specs <=? i in
  (if has_flag c APC_EXTENSIBLE then [inext] else []) ++
  if inext then val_bits 7 (i - enum_root specs) else val_bits (Z.to_nat (range_bits c)) i.

(** Items of the root, and the first 64 extensions of an extensible type. *)
Definition enum_valid (specs : asn_INTEGER_specifics_t) (c : asn_per_constraint_t) (z : Z) : Prop :=
  0 <= z /\ z ∈ value2enum specs /\
  let i := Z.of_nat (index_of z (value2enum specs)) in
  enum_root specs <= i -> has_flag c APC_EXTENSIBLE = true /\ extension specs <> 0 /\ i - enum_root specs <= 63.

Definition enum_spec (specs : asn_INTEGER_specifics_t) (c : asn_per_constraint_t) : type_spec :=
  {| code v := match v with V_int z => enum_code specs c z | _ => [] end;
     valid v := exists z, v = V_int z /\ enum_valid specs c z;
     typed v := exists z, v = V_int z /\ z ∈ value2enum specs |}.

Lemma increasing_lookup l : increasing l = true -> forall i j x y, (i < j)%nat -> l !! i = Some x -> l !! j = Some y -> x < y.
Proof.
  induction l as [|a l IH]; intros Hl i j x y Hij Hi Hj; [done|].
  assert (Htl : increasing l = true) by (destruct l; [done|]; by apply andb_prop in Hl as [_ ?]).
  destruct j as [|j]; [lia|]. cbn in Hj. destruct i as [|i]; [|by apply (IH Htl i j x y ltac:(lia))].
  injection Hi as <-. destruct l as [|b l]; [done|]. apply andb_prop in Hl as [Hab _]. apply Z.ltb_lt in Hab.
  destruct j as [|j]; [by injection Hj as <-|]. specialize (IH Htl 0%nat (S j) b y ltac:(lia) eq_refl Hj). lia.
Qed.

Lemma index_of_lookup z l : z ∈ l -> l !! index_of z l = Some z.
Proof.
  induction l as [|x l IH]; intros H; [by apply elem_of_nil in H|]. cbn [index_of].
  destruct (Z.eqb_spec x z) as [->|]; [done|]. apply IH. by apply elem_of_cons in H as [->|].
Qed.

(** Binary search finds an entry of a sorted table. *)
Lemma bsearch_found l (i : nat) key : increasing l = true -> l !! i = Some key ->
  forall fuel lo hi, 0 <= lo <= Z.of_nat i -> Z.of_nat i < hi <= Z.of_nat (length l) -> hi - lo <= Z.of_nat fuel ->
  bsearch fuel key l lo hi = Some (Some (Z.of_nat i)).
Proof.
  intros Hl Hi. induction fuel as [|fuel IH]; intros lo hi Hlo Hhi Hf; [lia|].
  cbn [bsearch]. rewrite (proj2 (Z.ltb_lt lo hi)) by lia.
  pose proof (Z.div_mod (lo + hi) 2 ltac:(lia)). pose proof (Z.mod_pos_bound (lo + hi) 2 ltac:(lia)).
  set (idx := (lo + hi) / 2) in *. assert (lo <= idx < hi) by lia.
  destruct (lookup_lt_is_Some_2 l (Z.to_nat idx) ltac:(lia)) as [p Hp].
  rewrite rd_nonneg, Hp by lia. cbn [mbind option_bind].
  destruct (Z.ltb_spec key p) as [Hk|Hk]; [|destruct (Z.ltb_spec p key) as [Hk2|Hk2]].
  - apply IH; [lia| |lia]. split; [|lia]. destruct (Z.lt_trichotomy (Z.of_nat i) idx) as [|[E|E]]; [lia|..].
    + replace (Z.to_nat idx) with i in Hp by lia. simplify_eq. lia.
    + pose proof (increasing_lookup l Hl (Z.to_nat idx) i p key ltac:(lia) Hp Hi). lia.
  - apply IH; [|lia|lia]. split; [lia|]. destruct (Z.lt_trichotomy (Z.of_nat i) idx) as [E|[E|E]]; [|..|lia].
    + pose proof (increasing_lookup l Hl i (Z.to_nat idx) key p ltac:(lia) Hi Hp). lia.
    + replace (Z.to_nat idx) with i in Hp by lia. simplify_eq. lia.
  - assert (p = key) as -> by lia. destruct (Z.lt_trichotomy (Z.of_nat i) idx) as [E|[E|E]].
    + pose proof (increasing_lookup l Hl i (Z.to_nat idx) key key ltac:(lia) Hi Hp). lia.
    + by rewrite E.
    + pose proof (increasing_lookup l Hl (Z.to_nat idx) i key key ltac:(lia) Hp Hi). lia.
Qed.

(** It returns whatever the table is, and finds only entries. *)
Lemma bsearch_absent l key : key ∉ l -> forall fuel lo hi, 0 <= lo -> hi <= Z.of_nat (length l) -> hi - lo <= Z.of_nat fuel ->
  bsearch fuel key l lo hi = Some None.
Proof.
  intros Hn. induction fuel as [|fuel IH]; intros lo hi Hlo Hhi Hf; cbn [bsearch]; (destruct (Z.ltb_spec lo hi); [|done]); [lia|].
  pose proof (Z.div_mod (lo + hi) 2 ltac:(lia)). pose proof (Z.mod_pos_bound (lo + hi) 2 ltac:(lia)).
  set (idx := (lo + hi) / 2) in *. assert (lo <= idx < hi) by lia.
  destruct (lookup_lt_is_Some_2 l (Z.to_nat idx) ltac:(lia)) as [p Hp].
  rewrite rd_nonneg, Hp by lia. cbn [mbind option_bind].
  destruct (Z.ltb_spec key p); [apply IH; lia|]. destruct (Z.ltb_spec p key); [apply IH; lia|].
  destruct Hn. replace key with p by lia. by apply list_elem_of_lookup_2 in Hp.
Qed.

Section enumerated.
Context (specs : asn_INTEGER_specifics_t) (c : asn_per_constraint_t) (Hwf : enum_wf specs c).

Lemma enum_root_bound : 0 <= enum_root specs <= map_count specs.
Proof.
  destruct Hwf as [Hc _ He _ _]. unfold enum_root. destruct (Z.eqb_spec (extension specs) 0); cbn [negb]; lia.
Qed.

Lemma encode_enum_at {K} {HS : Sink K} B (po : asn_per_outp_t K) (i : Z) (inext : bool) :
  po_at B po -> inext = (enum_root specs <=? i) -> (inext = true -> extension specs <> 0 /\ i - enum_root specs <= 63) ->
  accepts (B ++ if inext then val_bits 7 (i - enum_root specs) else val_bits (Z.to_nat (range_bits c)) i)
    (encode_enum specs (if inext then None else Some c) inext i po).
Proof.
  intros Hat Hin Hx. pose proof (enum_bits _ _ Hwf). unfold encode_enum. destruct inext.
  - destruct (Hx eq_refl) as [Hne H63]. rewrite (proj2 (Z.eqb_neq _ 0)) by done. symmetry in Hin. apply Z.leb_le in Hin.
    assert (extension specs - 1 = enum_root specs) as -> by (unfold enum_root; by rewrite (proj2 (Z.eqb_neq _ 0))).
    apply accepts_last; [|done]. unfold uper_put_nsnnwn. rewrite (proj2 (Z.leb_le _ 63)), (proj2 (Z.ltb_ge _ 0)) by lia.
    by apply (accepts_few B po _ 7).
  - rewrite (proj2 (Z.leb_le 0 _)) by lia. apply accepts_last; [|done]. by apply accepts_few.
Qed.

Lemma decode_enum_at L pd (i : nat) z (inext : bool) :
  value2enum specs !! i = Some z -> inext = (enum_root specs <=? Z.of_nat i) ->
  (inext = true -> extension specs <> 0 /\ Z.of_nat i - enum_root specs <= 63) ->
  pd_at ((if inext then val_bits 7 (Z.of_nat i - enum_root specs) else val_bits (Z.to_nat (range_bits c)) (Z.of_nat i)) ++ L) pd ->
  exists pd', decode_enum specs (if inext then None else Some c) pd = Some (RC_OK, V_int z, pd') /\ pd_at L pd'.
Proof.
  intros Hi Hin Hx Hpd. pose proof (enum_bits _ _ Hwf) as Hb. pose proof (lookup_lt_Some _ _ _ Hi). pose proof (enum_count _ _ Hwf).
  unfold decode_enum. destruct inext; symmetry in Hin.
  - destruct (Hx eq_refl) as [Hne H63]. rewrite (proj2 (Z.eqb_neq _ 0)) by done. apply Z.leb_le in Hin.
    destruct (uper_get_nsnnwn_at L pd (Z.of_nat i - enum_root specs)) as (pd' & -> & Hpd').
    { lia. } { unfold nsnnwn_code. by rewrite (proj2 (Z.leb_le _ 63)) by lia. }
    cbn [mbind option_bind]. rewrite (proj2 (Z.ltb_ge _ 0)) by lia.
    assert (extension specs - 1 = enum_root specs) as -> by (unfold enum_root; by rewrite (proj2 (Z.eqb_neq _ 0))).
    rewrite Z.sub_add, (proj2 (Z.leb_gt _ _)), rd_nat, Hi by lia. by exists pd'.
  - apply Z.leb_gt in Hin. rewrite (proj2 (Z.leb_le 0 _)) by lia.
    destruct (per_get_few_bits_at L pd (range_bits c) _ Hpd) as (pd' & -> & Hpd' & _); [rewrite length_val_bits; lia|lia|].
    cbn [mbind option_bind]. pose proof (enum_fits _ _ Hwf).
    rewrite bits_val_small by (rewrite Z2Nat.id; lia).
    rewrite (proj2 (Z.ltb_ge _ 0)), (proj2 (Z.leb_gt _ _)), rd_nat, Hi by lia. by exists pd'.
Qed.

Lemma decode_enum_reads ct pd : reads pd (decode_enum specs ct pd) (fun '(r, v) _ => r = RC_OK -> typed (enum_spec specs c) v).
Proof.
  assert (Hfin : forall value pd1, 0 <= value < map_count specs ->
    reads pd1 (nat_value ← rd (value2enum specs) value; Some (RC_OK, V_int nat_value, pd1))
      (fun '(r, v) _ => r = RC_OK -> typed (enum_spec specs c) v)).
  { intros v pd1 Hv. pose proof (enum_count _ _ Hwf). destruct (lookup_lt_is_Some_2 (value2enum specs) (Z.to_nat v) ltac:(lia)) as [z Hz].
    rewrite rd_nonneg, Hz by lia. apply reads_ret. intros _. exists z. split; [done|]. by eapply list_elem_of_lookup_2. }
  pose proof enum_root_bound. pose proof (enum_extension _ _ Hwf).
  assert (Hun : reads pd (if extension specs =? 0 then Some (RC_FAIL, V_zero, pd)
    else '(value, pd1) ← uper_get_nsnnwn pd;
      if value <? 0 then Some (RC_WMORE, V_zero, pd1)
      else if map_count specs <=? value + (extension specs - 1) then Some (RC_FAIL, V_zero, pd1)
      else nat_value ← rd (value2enum specs) (value + (extension specs - 1)); Some (RC_OK, V_int nat_value, pd1))
      (fun '(r, v) _ => r = RC_OK -> typed (enum_spec specs c) v)).
  { destruct (Z.eqb_spec (extension specs) 0); [by apply reads_ret|].
    apply (reads_bind _ _ _ _ _ (uper_get_nsnnwn_reads pd)). intros v pd1 _ _. destruct (Z.ltb_spec v 0); [by apply reads_ret|].
    destruct (Z.leb_spec (map_count specs) (v + (extension specs - 1))); [by apply reads_ret|]. apply Hfin. lia. }
  unfold decode_enum. destruct ct as [c'|]; [|exact Hun]. destruct (0 <=? range_bits c'); [|exact Hun].
  apply few_bits_bind. intros v pd1 _ _. destruct (Z.ltb_spec v 0); [by apply reads_ret|].
  destruct (Z.leb_spec (enum_root specs) v); [by apply reads_ret|]. apply Hfin. lia.
Qed.

End enumerated.

Lemma NativeEnumerated_implements specs own constraints c :
  AsnTypes.value <$> which constraints own = Some c -> enum_wf specs c ->
  implements (uper_codec (NativeEnumerated specs own) constraints) (enum_spec specs c).
Proof.
  intros Hct Hwf. pose proof (enum_bits _ _ Hwf) as Hrb. pose proof (enum_count _ _ Hwf) as Hcnt.
  split; cbn [enc dec uper_codec NativeEnumerated code valid enum_spec]; rewrite Hct; cbv zeta;
    unfold NativeEnumerated_encode_uper, NativeEnumerated_decode_uper.
  - intros K HS B po v (z & -> & Hz & Hin & Hx) Hat. cbv zeta in Hx. rewrite (proj2 (Z.ltb_ge z 0)) by done.
    pose proof (index_of_lookup _ _ Hin) as Hi. pose proof (lookup_lt_Some _ _ _ Hi).
    rewrite (bsearch_found _ _ _ (enum_increasing _ _ Hwf) Hi) by lia. cbn [mbind option_bind]. unfold enum_code.
    set (i := Z.of_nat (index_of z (value2enum specs))) in *. rewrite (proj2 (Z.leb_le 0 (range_bits c))), andb_true_l by lia.
    apply accepts_encodes. destruct (Z.leb_spec (enum_root specs) i) as [Hr|Hr].
    + destruct (Hx Hr) as (-> & H1 & H2). rewrite app_assoc. apply accepts_bind; [by apply (accepts_bit B po true)|].
      intros po1 Hat1. cbn [negb Z.eqb]. apply (encode_enum_at specs c Hwf _ _ i true); [done|symmetry; by apply Z.leb_le|done].
    + destruct (has_flag c _).
      * rewrite app_assoc. apply accepts_bind; [by apply (accepts_bit B po false)|]. intros po1 Hat1. cbn [negb Z.eqb].
        apply (encode_enum_at specs c Hwf _ _ i false); [done|symmetry; by apply Z.leb_gt|done].
      * cbn [app]. apply (encode_enum_at specs c Hwf _ _ i false); [done|symmetry; by apply Z.leb_gt|done].
  - intros v L pd (z & -> & Hz & Hin & Hx) Hpd. cbv zeta in Hx. pose proof (index_of_lookup _ _ Hin) as Hi.
    unfold enum_code in Hpd. set (i := index_of _ _) in *.
    pose proof (decode_enum_at specs c Hwf L) as Hd.
    destruct (Z.leb_spec (enum_root specs) (Z.of_nat i)) as [Hr|Hr].
    + destruct (Hx Hr) as (Hf & H1 & H2). rewrite Hf in *. rewrite <- app_assoc in Hpd.
      destruct (per_get_few_bits_at _ pd 1 _ Hpd) as (pd1 & -> & Hpd1 & _); [done|done|]. cbn [mbind option_bind].
      change (bits_val [true] <? 0) with false. change (negb (bits_val [true] =? 0)) with true. cbn iota.
      apply (Hd pd1 i z true); [done|symmetry; by apply Z.leb_le|done|done].
    + destruct (has_flag c _).
      * rewrite <- app_assoc in Hpd. destruct (per_get_few_bits_at _ pd 1 _ Hpd) as (pd1 & -> & Hpd1 & _); [done|done|].
        cbn [mbind option_bind]. change (bits_val [false] <? 0) with false. change (negb (bits_val [false] =? 0)) with false. cbn iota.
        apply (Hd pd1 i z false); [done|symmetry; by apply Z.leb_gt|done|done].
      * apply (Hd pd i z false); [done|symmetry; by apply Z.leb_gt|done|done].
  - intros pd. destruct (has_flag c _); [|by apply decode_enum_reads].
    apply few_bits_bind. intros b pd1 _ _. destruct (b <? 0); [by apply reads_ret|]. by apply decode_enum_reads.
Qed.

(** *** ENUMERATED in an INTEGER

    [ENUMERATED.c]: the structure is an [INTEGER_t], the contents octets of the number; all
    the enumerations of the generated files are of this kind. *)

Definition ENUMERATED_decode_uper (specs : asn_INTEGER_specifics_t) (ct : option asn_per_constraint_t)
    (pd : asn_per_data_t) : option (asn_dec_rval_code_e * asn_value * asn_per_data_t) :=
  '(r, v, pd1) ← NativeEnumerated_decode_uper specs ct pd;
  match r, v with
  | RC_OK, V_int z => st ← asn_long2INTEGER z; Some (RC_OK, V_str st 0, pd1)
  | RC_OK, _ => None
  | _, _ => Some (r, V_zero, pd1)
  end.

Definition ENUMERATED_encode_uper {K} {HS : Sink K} (specs : asn_INTEGER_specifics_t)
    (ct : option asn_per_constraint_t) (st : INTEGER_t) (po : asn_per_outp_t K) : option (Z * asn_per_outp_t K) :=
  match asn_INTEGER2long st with
  | None => Some (-1, po)
  | Some value => NativeEnumerated_encode_uper specs ct value po
  end.

Definition ENUMERATED (specs : asn_INTEGER_specifics_t) (own : option asn_per_constraints_t) : asn_TYPE_descriptor_t :=
  {| uper_codec constraints :=
       let ct := AsnTypes.value <$> which constraints own in
       {| enc K HS v po := match v with V_str buf _ => ENUMERATED_encode_uper specs ct (Some buf) po | _ => None end;
          dec := ENUMERATED_decode_uper specs ct |} |}.

(** The structure of a number. *)
Definition V_enum (z : Z) : asn_value := V_str (default [] (asn_long2INTEGER z)) 0.

Definition enumerated_spec (specs : asn_INTEGER_specifics_t) (c : asn_per_constraint_t) : type_spec :=
  {| code v := match v with V_str buf _ => enum_code specs c (int_value buf) | _ => [] end;
     valid v := exists z, v = V_enum z /\ z < 2 ^ 63 /\ enum_valid specs c z;
     typed v := exists z, v = V_enum z /\ z ∈ value2enum specs |}.

Lemma ENUMERATED_implements specs own constraints c :
  AsnTypes.value <$> which constraints own = Some c -> enum_wf specs c ->
  implements (uper_codec (ENUMERATED specs own) constraints) (enumerated_spec specs c).
Proof.
  intros Hct Hwf. pose proof (NativeEnumerated_implements specs own constraints c Hct Hwf) as [He Hd Hr].
  cbn [enc dec uper_codec NativeEnumerated] in He, Hd, Hr.
  split; cbn [enc dec uper_codec ENUMERATED code valid typed enumerated_spec]; unfold ENUMERATED_encode_uper, ENUMERATED_decode_uper, V_enum.
  - intros K HS B po v (z & -> & Hz & Hv) Hat. assert (- 2 ^ 63 <= z < 2 ^ 63) as Hr64 by (destruct Hv; lia).
    destruct (long2INTEGER_value z Hr64) as (b & -> & Hb & _ & Hi & _). cbn [default from_option id].
    rewrite INTEGER2long_value, Hi, decide_True by done. exact (He K HS B po (V_int z) (ex_intro _ z (conj eq_refl Hv)) Hat).
  - intros v L pd (z & -> & Hz & Hv) Hpd. assert (- 2 ^ 63 <= z < 2 ^ 63) as Hr64 by (destruct Hv; lia).
    destruct (long2INTEGER_value z Hr64) as (b & Eb & Hb & _ & Hi & _). rewrite Eb in Hpd |- *. cbn [default from_option id] in Hpd |- *.
    rewrite Hi in Hpd. destruct (Hd (V_int z) L pd (ex_intro _ z (conj eq_refl Hv)) Hpd) as (pd' & -> & Hpd').
    cbn [mbind option_bind]. rewrite Eb. by exists pd'.
  - intros pd. eapply reads_bind; [apply Hr|]. intros [r v] pd1 _ Ht. destruct r; try by apply reads_ret.
    destruct (Ht eq_refl) as (z & -> & Hz). cbn [mbind option_bind asn_long2INTEGER]. apply reads_ret. intros _. by exists z.
Qed.
