(* ===== verification/AsnString.v ===== *)
(** * AsnString: strings

    Model of the UPER codec of [OCTET_STRING.c], which serves OCTET STRING, BIT STRING and
    the character strings: characters of one, two or four octets squeezed into the bits
    their alphabet needs, sizes that are fixed, bounded, extensible or free. *)
From S2P Require Import Prelude PerSupport AsnInteger PerSafe PerCodec AsnTypes.

Inductive asn_OS_Subvariant := ASN_OSUBV_ANY | ASN_OSUBV_BIT | ASN_OSUBV_STR | ASN_OSUBV_U16 | ASN_OSUBV_U32.

Definition ASN_DEF_OCTET_STRING_CONSTRAINTS : asn_per_constraints_t :=
  {| value := {| flags := APC_CONSTRAINED; range_bits := 8; effective_bits := 8; lower_bound := 0; upper_bound := 255 |};
     size := {| flags := APC_SEMI_CONSTRAINED; range_bits := -1; effective_bits := -1; lower_bound := 0; upper_bound := 0 |};
     value2code := None; code2value := None |}.

(** ** Characters *)

(** The octets of a character of [bpc] octets, and back; [None] is the [default] branch. *)
Definition char_octets (bpc v : Z) : list Z :=
  if bpc =? 1 then [u8 v]
  else if bpc =? 2 then [u8 (Z.shiftr v 8); u8 v]
  else if bpc =? 4 then [u8 (Z.shiftr v 24); u8 (Z.shiftr v 16); u8 (Z.shiftr v 8); u8 v]
  else [].

Definition char_value (bpc : Z) (buf : list Z) : option (option Z) :=
  if bpc =? 1 then b0 ← rd buf 0; Some (Some b0)
  else if bpc =? 2 then b0 ← rd buf 0; b1 ← rd buf 1; Some (Some (Z.lor (Z.shiftl b0 8) b1))
  else if bpc =? 4 then
    b0 ← rd buf 0; b1 ← rd buf 1; b2 ← rd buf 2; b3 ← rd buf 3;
    Some (Some (u32 (Z.lor (Z.lor (Z.lor (Z.shiftl b0 24) (Z.shiftl b1 16)) (Z.shiftl b2 8)) b3)))
  else Some None.

(** The two loops that read characters; the first number is the function's result. *)
Fixpoint get_translated (units : nat) (pd : asn_per_data_t) (bpc unit_bits : Z) (c2v : Z -> Z)
  : option (Z * list Z * asn_per_data_t) :=
  match units with
  | O => Some (0, [], pd)
  | S n =>
      '(code, pd1) ← per_get_few_bits pd unit_bits;
      if code <? 0 then Some (-1, [], pd1)
      else
        let v := c2v code in
        if v <? 0 then Some (1, [], pd1)
        else '(r, rest, pd2) ← get_translated n pd1 bpc unit_bits c2v; Some (r, char_octets bpc v ++ rest, pd2)
  end.

Fixpoint get_ranged (units : nat) (pd : asn_per_data_t) (bpc unit_bits lb ub : Z)
  : option (Z * list Z * asn_per_data_t) :=
  match units with
  | O => Some (0, [], pd)
  | S n =>
      '(code, pd1) ← per_get_few_bits pd unit_bits;
      let ch := i32 (code + lb) in
      if code <? 0 then Some (-1, [], pd1)
      else if ub <? ch then Some (1, [], pd1)
      else '(r, rest, pd2) ← get_ranged n pd1 bpc unit_bits lb ub; Some (r, char_octets bpc ch ++ rest, pd2)
  end.

(** [X.691: 27.5.4]. The shift is not defined for characters of no bits. *)
Definition encoded_as_is (unit_bits ub : Z) : option bool :=
  if unit_bits <? 1 then None else Some (u64 ub <=? u64 (Z.shiftl 2 (unit_bits - 1))).

Definition OCTET_STRING_per_get_characters (pd : asn_per_data_t) (units bpc unit_bits lb ub : Z)
    (pc : option asn_per_constraints_t) : option (Z * list Z * asn_per_data_t) :=
  as_is ← encoded_as_is unit_bits ub;
  let rest lb :=
    if (lb =? 0) && (unit_bits =? 8 * bpc) then per_get_many_bits pd false (unit_bits * units)
    else get_ranged (Z.to_nat units) pd bpc unit_bits lb ub in
  if (as_is : bool) then rest 0
  else
    match pc ≫= code2value with
    | Some c2v => if 16 <? unit_bits then Some (1, [], pd) else get_translated (Z.to_nat units) pd bpc unit_bits c2v
    | None => rest lb
    end.

Section put_characters.
Context {K : Type} {HS : Sink K}.

(** The loops that write characters return what is left of the buffer. *)
Fixpoint put_translated (units : nat) (po : asn_per_outp_t K) (buf : list Z) (bpc unit_bits : Z) (v2c : Z -> Z)
  : option (Z * list Z * asn_per_outp_t K) :=
  match units with
  | O => Some (0, buf, po)
  | S n =>
      v ← char_value bpc buf;
      match v with
      | None => Some (-1, buf, po)
      | Some v =>
          let code := v2c v in
          if code <? 0 then Some (-1, buf, po)
          else
            '(r, po1) ← per_put_few_bits po code unit_bits;
            if negb (r =? 0) then Some (-1, buf, po1)
            else put_translated n po1 (drop (Z.to_nat bpc) buf) bpc unit_bits v2c
      end
  end.

Fixpoint put_ranged (units : nat) (po : asn_per_outp_t K) (buf : list Z) (bpc unit_bits lb ub : Z)
  : option (Z * asn_per_outp_t K) :=
  match units with
  | O => Some (0, po)
  | S n =>
      v ← char_value bpc buf;
      match v with
      | None => Some (-1, po)
      | Some v =>
          let ch := i32 (v - lb) in
          if (ch <? 0) || (ub - lb <? ch) then Some (-1, po)
          else
            '(r, po1) ← per_put_few_bits po ch unit_bits;
            if negb (r =? 0) then Some (-1, po1)
            else put_ranged n po1 (drop (Z.to_nat bpc) buf) bpc unit_bits lb ub
      end
  end.

(** After a translation the buffer is at its end, and the rest has nothing to do: [left] is
    the number of characters that are still in it. *)
Definition OCTET_STRING_per_put_characters (po : asn_per_outp_t K) (buf : list Z) (units bpc unit_bits lb ub : Z)
    (pc : option asn_per_constraints_t) : option (Z * asn_per_outp_t K) :=
  as_is ← encoded_as_is unit_bits ub;
  let rest po buf left lb :=
    if (lb =? 0) && (unit_bits =? 8 * bpc) then per_put_many_bits po buf (unit_bits * units)
    else put_ranged left po buf bpc unit_bits lb ub in
  if (as_is : bool) then rest po buf (Z.to_nat units) 0
  else
    match pc ≫= value2code with
    | Some v2c =>
        '(r, buf1, po1) ← put_translated (Z.to_nat units) po buf bpc unit_bits v2c;
        if negb (r =? 0) then Some (-1, po1) else rest po1 buf1 0%nat lb
    | None => rest po buf (Z.to_nat units) lb
    end.

End put_characters.

(** ** Strings *)

(** Octets per character and bits of a unit, for the value constraint that applies. *)
Definition string_units (subvariant : asn_OS_Subvariant) (cval : asn_per_constraint_t) : option (Z * Z * Z) :=
  let squeeze canonical := if has_flag cval APC_CONSTRAINED then range_bits cval else canonical in
  match subvariant with
  | ASN_OSUBV_ANY => None
  | ASN_OSUBV_BIT => Some (0, 1, 1)
  | ASN_OSUBV_STR => Some (1, 8, squeeze 8)
  | ASN_OSUBV_U16 => Some (2, 16, squeeze 16)
  | ASN_OSUBV_U32 => Some (4, 32, squeeze 32)
  end.

(** [units] characters or bits: what the branches of both loops call. *)
Definition get_units (pd : asn_per_data_t) (units bpc unit_bits : Z) (cval : asn_per_constraint_t)
    (pc : option asn_per_constraints_t) : option (Z * list Z * asn_per_data_t) :=
  if negb (bpc =? 0) then
    OCTET_STRING_per_get_characters pd units bpc unit_bits (lower_bound cval) (upper_bound cval) pc
  else per_get_many_bits pd false (unit_bits * units).

Definition unused_bits (n : Z) : Z := if negb (Z.land n 7 =? 0) then 8 - Z.land n 7 else 0.

(** The loop over the lengths, from the octets [st] on; the units of a BIT STRING have one
    bit. *)
Fixpoint get_string (fuel : nat) (pd : asn_per_data_t) (bpc unit_bits : Z) (csiz cval : asn_per_constraint_t)
    (pc : option asn_per_constraints_t) (st : list Z) (bits_unused : Z)
  : option (asn_dec_rval_code_e * asn_value * asn_per_data_t) :=
  match fuel with
  | O => None
  | S f =>
      '(raw_len, repeat, pd1) ← uper_get_length pd (effective_bits csiz);
      if raw_len <? 0 then Some (RC_WMORE, V_zero, pd1)
      else
        let raw_len := raw_len + lower_bound csiz in
        let bits_unused :=
          if negb (bpc =? 0) then bits_unused
          else if negb (Z.land raw_len 7 =? 0) then 8 - Z.land raw_len 7 else bits_unused in
        '(ret, dst, pd2) ← get_units pd1 raw_len bpc unit_bits cval pc;
        if 0 <? ret then Some (RC_FAIL, V_zero, pd2)
        else if ret <? 0 then Some (RC_WMORE, V_zero, pd2)
        else if (repeat : bool) then get_string f pd2 bpc unit_bits csiz cval pc (st ++ dst) bits_unused
        else Some (RC_OK, V_str (st ++ dst) bits_unused, pd2)
  end.

(** The decoder after the extension bit. *)
Definition decode_string (pd : asn_per_data_t) (bpc unit_bits : Z) (csiz cval : asn_per_constraint_t)
    (pc : option asn_per_constraints_t) : option (asn_dec_rval_code_e * asn_value * asn_per_data_t) :=
  if effective_bits csiz =? 0 then
    '(ret, dst, pd1) ← get_units pd (upper_bound csiz) bpc unit_bits cval pc;
    if 0 <? ret then Some (RC_FAIL, V_zero, pd1)
    else if ret <? 0 then Some (RC_WMORE, V_zero, pd1)
    else Some (RC_OK, V_str dst (if bpc =? 0 then unused_bits (upper_bound csiz) else 0), pd1)
  else get_string (S (Z.to_nat (nbits pd))) pd bpc unit_bits csiz cval pc [] 0.

Definition OCTET_STRING_decode_uper (subvariant : asn_OS_Subvariant) (pc : option asn_per_constraints_t)
    (pd : asn_per_data_t) : option (asn_dec_rval_code_e * asn_value * asn_per_data_t) :=
  let c := default ASN_DEF_OCTET_STRING_CONSTRAINTS pc in
  match string_units subvariant (value c) with
  | None => Some (RC_FAIL, V_zero, pd)
  | Some (bpc, canonical_unit_bits, unit_bits) =>
      if has_flag (size c) APC_EXTENSIBLE then
        '(inext, pd1) ← per_get_few_bits pd 1;
        if inext <? 0 then Some (RC_WMORE, V_zero, pd1)
        else if negb (inext =? 0) then
          decode_string pd1 bpc canonical_unit_bits (size ASN_DEF_OCTET_STRING_CONSTRAINTS)
            (value ASN_DEF_OCTET_STRING_CONSTRAINTS) pc
        else decode_string pd1 bpc unit_bits (size c) (value c) pc
      else decode_string pd bpc unit_bits (size c) (value c) pc
  end.

Section encode_string.
Context {K : Type} {HS : Sink K}.

Definition put_units (po : asn_per_outp_t K) (buf : list Z) (units bpc unit_bits : Z) (cval : asn_per_constraint_t)
    (pc : option asn_per_constraints_t) : option (Z * asn_per_outp_t K) :=
  if negb (bpc =? 0) then
    OCTET_STRING_per_put_characters po buf units bpc unit_bits (lower_bound cval) (upper_bound cval) pc
  else per_put_many_bits po buf (units * unit_bits).

(** A failed [assert] is [None]. *)
Fixpoint put_string (fuel : nat) (po : asn_per_outp_t K) (buf : list Z) (sizeinunits bpc unit_bits : Z)
    (cval : asn_per_constraint_t) (pc : option asn_per_constraints_t) : option (Z * asn_per_outp_t K) :=
  if sizeinunits =? 0 then Some (0, po)
  else
    match fuel with
    | O => None
    | S f =>
        '(maySave, po1) ← uper_put_length po sizeinunits;
        if maySave <? 0 then Some (-1, po1)
        else
          '(ret, po2) ← put_units po1 buf maySave bpc unit_bits cval pc;
          if negb (ret =? 0) then Some (-1, po2)
          else
            let buf' := drop (Z.to_nat (if negb (bpc =? 0) then maySave * bpc else Z.shiftr maySave 3)) buf in
            if (Z.land maySave 7 =? 0) || (sizeinunits - maySave =? 0)
            then put_string f po2 buf' (sizeinunits - maySave) bpc unit_bits cval pc
            else None
    end.

(** The encoder after the extension bit. *)
Definition encode_string (po : asn_per_outp_t K) (buf : list Z) (sizeinunits bpc unit_bits : Z)
    (csiz cval : asn_per_constraint_t) (pc : option asn_per_constraints_t) : option (Z * asn_per_outp_t K) :=
  if 0 <=? effective_bits csiz then
    '(ret, po1) ← per_put_few_bits po (sizeinunits - lower_bound csiz) (effective_bits csiz);
    if negb (ret =? 0) then Some (-1, po1)
    else
      '(ret2, po2) ← put_units po1 buf sizeinunits bpc unit_bits cval pc;
      if negb (ret2 =? 0) then Some (-1, po2) else Some (0, po2)
  else if sizeinunits =? 0 then
    '(r, po1) ← uper_put_length po 0; if negb (r =? 0) then Some (-1, po1) else Some (0, po1)
  else put_string (Z.to_nat sizeinunits) po buf sizeinunits bpc unit_bits cval pc.

Definition OCTET_STRING_encode_uper (subvariant : asn_OS_Subvariant) (pc : option asn_per_constraints_t)
    (buf : list Z) (bits_unused : Z) (po : asn_per_outp_t K) : option (Z * asn_per_outp_t K) :=
  let c := default ASN_DEF_OCTET_STRING_CONSTRAINTS pc in
  match string_units subvariant (value c) with
  | None => Some (-1, po)
  | Some (bpc, canonical_unit_bits, unit_bits) =>
      let len := Z.of_nat (length buf) in
      let sizeinunits :=
        u32 (match subvariant with
             | ASN_OSUBV_BIT => len * 8 - Z.land bits_unused 7
             | ASN_OSUBV_U16 => len / 2
             | ASN_OSUBV_U32 => len / 4
             | _ => len
             end) in
      let outside := (0 <=? effective_bits (size c)) &&
        ((i32 sizeinunits <? lower_bound (size c)) || (upper_bound (size c) <? i32 sizeinunits)) in
      let go po (inext : bool) :=
        if inext then encode_string po buf sizeinunits bpc canonical_unit_bits (size ASN_DEF_OCTET_STRING_CONSTRAINTS)
                        (value ASN_DEF_OCTET_STRING_CONSTRAINTS) pc
        else encode_string po buf sizeinunits bpc unit_bits (size c) (value c) pc in
      if has_flag (size c) APC_EXTENSIBLE then
        '(r, po1) ← per_put_few_bits po (Z.b2z outside) 1;
        if negb (r =? 0) then Some (-1, po1) else go po1 outside
      else if outside then Some (-1, po)
      else go po false
  end.

End encode_string.

Definition OCTET_STRING (subvariant : asn_OS_Subvariant) (own : option asn_per_constraints_t) : asn_TYPE_descriptor_t :=
  {| uper_codec constraints :=
       let pc := which constraints own in
       {| enc K HS v po := match v with V_str buf u => OCTET_STRING_encode_uper subvariant pc buf u po | _ => None end;
          dec := OCTET_STRING_decode_uper subvariant pc |} |}.

(** ** Specification *)

(** Characters of one octet. *)
Definition char_code (unit_bits : Z) (cval : asn_per_constraint_t) (pc : option asn_per_constraints_t) (x : Z) : list bool :=
  val_bits (Z.to_nat unit_bits)
    (if upper_bound cval <=? 2 ^ unit_bits then x
     else match pc ≫= value2code with Some v2c => v2c x | None => x - lower_bound cval end).

(** Characters that the alphabet admits, with tables that are inverse to each other. *)
Definition char_ok (unit_bits : Z) (cval : asn_per_constraint_t) (pc : option asn_per_constraints_t) (x : Z) : Prop :=
  is_byte x /\
  if upper_bound cval <=? 2 ^ unit_bits then x < 2 ^ unit_bits /\ (unit_bits = 8 \/ x <= upper_bound cval)
  else
    match pc ≫= value2code, pc ≫= code2value with
    | Some v2c, Some c2v => 0 <= v2c x < 2 ^ unit_bits /\ c2v (v2c x) = x
    | None, None => 0 <= lower_bound cval <= x /\ x <= upper_bound cval /\ x - lower_bound cval < 2 ^ unit_bits
    | _, _ => False
    end.

(** Alphabets of up to eight bits; the translated ones, of fewer. *)
Definition alphabet_wf (unit_bits : Z) (cval : asn_per_constraint_t) : Prop :=
  1 <= unit_bits <= 8 /\ 0 <= upper_bound cval < 2 ^ 31 /\ (2 ^ unit_bits < upper_bound cval -> unit_bits < 8).

Lemma as_is_eq unit_bits cval : alphabet_wf unit_bits cval ->
  encoded_as_is unit_bits (upper_bound cval) = Some (upper_bound cval <=? 2 ^ unit_bits).
Proof.
  intros (Hb & Hu & _). unfold encoded_as_is. rewrite (proj2 (Z.ltb_ge _ 1)) by lia. f_equal.
  assert (2 ^ unit_bits <= 2 ^ 8) by (apply Z.pow_le_mono_r; lia).
  assert (0 < 2 ^ unit_bits) by (apply Z.pow_pos_nonneg; lia).
  rewrite Z.shiftl_mul_pow2, <- Z.pow_succ_r by lia. replace (Z.succ (unit_bits - 1)) with unit_bits by lia.
  by rewrite !uwrap_small by lia.
Qed.

Lemma i32_small z : - 2 ^ 31 <= z < 2 ^ 31 -> i32 z = z.
Proof. intros Hz. apply swrap_small; lia. Qed.

Lemma u8_small x : is_byte x -> u8 x = x.
Proof. intros Hx. apply uwrap_small. exact Hx. Qed.

Lemma put_ranged_at {K} {HS : Sink K} unit_bits lb ub : 0 <= lb -> 0 <= unit_bits <= 31 ->
  forall buf B (po : asn_per_outp_t K), po_at B po ->
  Forall (fun x => is_byte x /\ lb <= x <= ub) buf ->
  accepts (B ++ (buf ≫= fun x => val_bits (Z.to_nat unit_bits) (x - lb))) (put_ranged (length buf) po buf 1 unit_bits lb ub).
Proof.
  intros Hlb Hub. induction buf as [|x buf IH]; intros B po Hat Hall.
  { rewrite app_nil_r. by apply accepts_ret. }
  apply Forall_cons_1 in Hall as [[Hx Hr] Hall]. unfold is_byte in Hx. cbn [put_ranged length char_value Z.eqb Pos.eqb].
  change (rd (x :: buf) 0) with (Some x). cbn [mbind option_bind]. rewrite i32_small by lia.
  rewrite (proj2 (Z.ltb_ge _ 0)), (proj2 (Z.ltb_ge _ (x - lb))) by lia. cbn [orb list_bind].
  rewrite app_assoc. apply accepts_bind; [by apply accepts_few|]. intros po1 Hat1. cbn [negb Z.eqb]. by apply IH.
Qed.

Lemma get_ranged_at unit_bits lb ub : 0 <= lb -> 0 <= unit_bits <= 31 ->
  forall buf L pd, pd_at ((buf ≫= fun x => val_bits (Z.to_nat unit_bits) (x - lb)) ++ L) pd ->
  Forall (fun x => is_byte x /\ lb <= x <= ub /\ x - lb < 2 ^ unit_bits) buf ->
  exists pd', get_ranged (length buf) pd 1 unit_bits lb ub = Some (0, buf, pd') /\ pd_at L pd'.
Proof.
  intros Hlb Hub. induction buf as [|x buf IH]; intros L pd Hpd Hall; [by exists pd|].
  apply Forall_cons_1 in Hall as [(Hx & Hr & Hl) Hall]. pose proof Hx as Hx'. unfold is_byte in Hx. cbn [list_bind mbind] in Hpd. rewrite <- app_assoc in Hpd.
  cbn [get_ranged length].
  destruct (per_get_few_bits_at _ pd unit_bits _ Hpd) as (pd1 & -> & Hpd1 & _); [rewrite length_val_bits; lia|lia|].
  cbn [mbind option_bind]. rewrite bits_val_small by (rewrite Z2Nat.id; lia). rewrite Z.sub_add, i32_small by lia.
  rewrite (proj2 (Z.ltb_ge _ 0)), (proj2 (Z.ltb_ge _ x)) by lia.
  destruct (IH L pd1 Hpd1 Hall) as (pd' & -> & Hpd'). cbn [mbind option_bind char_octets Z.eqb Pos.eqb app].
  rewrite u8_small by done. by exists pd'.
Qed.

Lemma put_translated_at {K} {HS : Sink K} unit_bits v2c : 0 <= unit_bits <= 31 ->
  forall buf B (po : asn_per_outp_t K), po_at B po -> Forall (fun x => 0 <= v2c x) buf ->
  let C := B ++ (buf ≫= fun x => val_bits (Z.to_nat unit_bits) (v2c x)) in
  ~ refused C -> exists po', put_translated (length buf) po buf 1 unit_bits v2c = Some (0, [], po') /\ po_at C po'.
Proof.
  intros Hub. induction buf as [|x buf IH]; intros B po Hat Hall C Hn; subst C.
  { rewrite app_nil_r in *. by exists po. }
  apply Forall_cons_1 in Hall as [Hx Hall]. cbn [list_bind mbind] in Hn |- *. cbn [put_translated length char_value Z.eqb Pos.eqb].
  change (rd (x :: buf) 0) with (Some x). cbn [mbind option_bind]. rewrite (proj2 (Z.ltb_ge _ 0)) by done.
  rewrite app_assoc in Hn |- *.
  destruct (accepts_few B po (v2c x) unit_bits Hat ltac:(lia)) as (po1 & -> & Hat1); [intros Hr; by apply Hn, refused_app|].
  cbn [mbind option_bind negb Z.eqb]. by apply IH.
Qed.

Lemma get_translated_at unit_bits v2c c2v : 0 <= unit_bits <= 31 ->
  forall buf L pd, pd_at ((buf ≫= fun x => val_bits (Z.to_nat unit_bits) (v2c x)) ++ L) pd ->
  Forall (fun x => is_byte x /\ 0 <= v2c x < 2 ^ unit_bits /\ c2v (v2c x) = x) buf ->
  exists pd', get_translated (length buf) pd 1 unit_bits c2v = Some (0, buf, pd') /\ pd_at L pd'.
Proof.
  intros Hub. induction buf as [|x buf IH]; intros L pd Hpd Hall; [by exists pd|].
  apply Forall_cons_1 in Hall as [(Hx & Hr & Hl) Hall]. cbn [list_bind mbind] in Hpd. rewrite <- app_assoc in Hpd.
  cbn [get_translated length].
  destruct (per_get_few_bits_at _ pd unit_bits _ Hpd) as (pd1 & -> & Hpd1 & _); [rewrite length_val_bits; lia|lia|].
  cbn [mbind option_bind]. rewrite bits_val_small, Hl by (rewrite Z2Nat.id; lia). unfold is_byte in Hx.
  rewrite !(proj2 (Z.ltb_ge _ 0)) by lia.
  destruct (IH L pd1 Hpd1 Hall) as (pd' & -> & Hpd'). cbn [mbind option_bind char_octets Z.eqb Pos.eqb app].
  rewrite u8_small by done. by exists pd'.
Qed.

(** *** Units *)

Definition units_code (bpc unit_bits : Z) (cval : asn_per_constraint_t) (pc : option asn_per_constraints_t)
    (buf : list Z) (n : Z) : list bool :=
  if bpc =? 0 then take (Z.to_nat n) (bitlist buf) else buf ≫= char_code unit_bits cval pc.

(** [n] bits in as few octets as they need, or [n] characters of one octet. *)
Definition units_ok (bpc unit_bits : Z) (cval : asn_per_constraint_t) (pc : option asn_per_constraints_t)
    (buf : list Z) (n : Z) : Prop :=
  if bpc =? 0 then
    unit_bits = 1 /\ 0 <= n /\ bytes buf /\
    bitlist buf = take (Z.to_nat n) (bitlist buf) ++ replicate (pad_of (Z.to_nat n)) false /\ n <= 8 * Z.of_nat (length buf)
  else bpc = 1 /\ n = Z.of_nat (length buf) /\ alphabet_wf unit_bits cval /\ Forall (char_ok unit_bits cval pc) buf.

Section characters.
Context (unit_bits : Z) (cval : asn_per_constraint_t) (pc : option asn_per_constraints_t) (buf : list Z).
Context (Hwf : alphabet_wf unit_bits cval) (Hall : Forall (char_ok unit_bits cval pc) buf).

Lemma chars_bytes : bytes buf.
Proof. apply (list.Forall_impl _ _ _ Hall). by intros x [? _]. Qed.

Lemma chars_octets : upper_bound cval <= 2 ^ unit_bits -> unit_bits = 8 -> buf ≫= char_code unit_bits cval pc = bitlist buf.
Proof.
  intros Hle E. unfold bitlist. apply list_bind_ext; [|done]. intros x. unfold char_code. rewrite (proj2 (Z.leb_le _ _)) by done.
  by rewrite E.
Qed.

Lemma chars_code f :
  (forall x, (if upper_bound cval <=? 2 ^ unit_bits then x
              else match pc ≫= value2code with Some v2c => v2c x | None => x - lower_bound cval end) = f x) ->
  buf ≫= char_code unit_bits cval pc = buf ≫= fun x => val_bits (Z.to_nat unit_bits) (f x).
Proof. intros Hf. apply list_bind_ext; [|done]. intros x. unfold char_code. by rewrite Hf. Qed.

(** Characters of a range that is not translated. *)
Lemma chars_range : 2 ^ unit_bits < upper_bound cval -> pc ≫= value2code = None -> buf <> [] ->
  0 <= lower_bound cval /\ pc ≫= code2value = None /\
  Forall (fun x => is_byte x /\ lower_bound cval <= x <= upper_bound cval /\ x - lower_bound cval < 2 ^ unit_bits) buf.
Proof.
  intros Hgt Hv Hne.
  assert (Hr : Forall (fun x => pc ≫= code2value = None /\ is_byte x /\ 0 <= lower_bound cval <= x /\
                                x <= upper_bound cval /\ x - lower_bound cval < 2 ^ unit_bits) buf).
  { apply (list.Forall_impl _ _ _ Hall). intros x [Hx Hc]. rewrite (proj2 (Z.leb_gt _ _)), Hv in Hc by done.
    by destruct (pc ≫= code2value). }
  split_and!; [..|apply (list.Forall_impl _ _ _ Hr); intros x (_ & ? & ? & ? & ?); split_and!; [done|lia|lia|lia]];
    destruct buf; try done; apply Forall_cons_1 in Hr as [(? & _ & ? & _) _]; [lia|done].
Qed.

Lemma put_characters_at {K} {HS : Sink K} B (po : asn_per_outp_t K) : po_at B po ->
  accepts (B ++ (buf ≫= char_code unit_bits cval pc))
    (OCTET_STRING_per_put_characters po buf (Z.of_nat (length buf)) 1 unit_bits (lower_bound cval) (upper_bound cval) pc).
Proof.
  intros Hat. pose proof Hwf as (Hb & Hu & Hsm). unfold OCTET_STRING_per_put_characters. rewrite as_is_eq by done.
  cbn [mbind option_bind]. rewrite Nat2Z.id. destruct (Z.leb_spec (upper_bound cval) (2 ^ unit_bits)) as [Hle|Hgt].
  - cbn [Z.eqb andb]. destruct (Z.eqb_spec unit_bits (8 * 1)) as [E|E].
    + rewrite chars_octets by (done || lia). rewrite E. pose proof (per_put_many_bits_at B po buf (8 * 1 * Z.of_nat (length buf)) Hat chars_bytes ltac:(lia)) as Hp.
      rewrite take_ge in Hp by (rewrite length_bitlist; lia). by apply accepts_done.
    + rewrite (chars_code (fun x => x - 0)) by (intros x; by rewrite (proj2 (Z.leb_le _ _)), Z.sub_0_r by done).
      apply put_ranged_at; [done|lia|done|]. apply (list.Forall_impl _ _ _ Hall). intros x [Hx Hc]. split; [done|].
      rewrite (proj2 (Z.leb_le _ _)) in Hc by done. destruct Hx. lia.
  - specialize (Hsm Hgt). destruct (pc ≫= value2code) as [v2c|] eqn:Hv.
    + rewrite (chars_code (fun x => v2c x)) by (intros x; by rewrite (proj2 (Z.leb_gt _ _)), Hv by done).
      intros Hn. destruct (put_translated_at unit_bits v2c ltac:(lia) buf B po Hat) with (2 := Hn) as (po' & -> & Hat').
      { apply (list.Forall_impl _ _ _ Hall). intros x [_ Hc]. rewrite (proj2 (Z.leb_gt _ _)), Hv in Hc by done.
        destruct (pc ≫= code2value); [lia|done]. }
      cbn [mbind option_bind negb Z.eqb]. rewrite (proj2 (Z.eqb_neq unit_bits (8 * 1))), andb_false_r by lia. by exists po'.
    + rewrite (proj2 (Z.eqb_neq unit_bits (8 * 1))), andb_false_r by lia.
      rewrite (chars_code (fun x => x - lower_bound cval)) by (intros x; by rewrite (proj2 (Z.leb_gt _ _)), Hv by done).
      destruct (decide (buf = [])) as [Hnil|Hne]; [rewrite Hnil, app_nil_r; by apply accepts_ret|].
      destruct (chars_range Hgt Hv Hne) as (Hlb & _ & Hr). apply put_ranged_at; [done|lia|done|].
      apply (list.Forall_impl _ _ _ Hr). by intros x (? & ? & _).
Qed.

Lemma get_characters_at L pd : pd_at ((buf ≫= char_code unit_bits cval pc) ++ L) pd ->
  exists pd', OCTET_STRING_per_get_characters pd (Z.of_nat (length buf)) 1 unit_bits (lower_bound cval) (upper_bound cval) pc
      = Some (0, buf, pd') /\ pd_at L pd'.
Proof.
  intros Hpd. pose proof Hwf as (Hb & Hu & Hsm). unfold OCTET_STRING_per_get_characters. rewrite as_is_eq by done.
  cbn [mbind option_bind]. rewrite Nat2Z.id. destruct (Z.leb_spec (upper_bound cval) (2 ^ unit_bits)) as [Hle|Hgt].
  - cbn [Z.eqb andb]. destruct (Z.eqb_spec unit_bits (8 * 1)) as [E|E].
    + rewrite chars_octets in Hpd by (done || lia). rewrite E.
      destruct (per_get_many_bits_left _ _ _ Hpd) as (dst & pd' & Hg & Hpd' & Hdb & Hdst).
      rewrite length_bitlist in Hg, Hdst. replace (Z.of_nat (8 * length buf)) with (8 * 1 * Z.of_nat (length buf)) in Hg by lia.
      exists pd'. split; [|done]. rewrite Hg. do 3 f_equal. apply bitlist_inj; [done|apply chars_bytes|]. rewrite Hdst.
      unfold pad_of. rewrite Nat.mul_comm, Nat.Div0.mod_mul. apply app_nil_r.
    + rewrite (chars_code (fun x => x - 0)) in Hpd by (intros x; by rewrite (proj2 (Z.leb_le _ _)), Z.sub_0_r by done).
      apply get_ranged_at; [done|lia|done|]. apply (list.Forall_impl _ _ _ Hall). intros x [Hx Hc].
      rewrite (proj2 (Z.leb_le _ _)) in Hc by done. split; [done|]. destruct Hx. lia.
  - specialize (Hsm Hgt). destruct (pc ≫= value2code) as [v2c|] eqn:Hv, (pc ≫= code2value) as [c2v|] eqn:Hcv.
    + rewrite (proj2 (Z.ltb_ge 16 _)) by lia.
      rewrite (chars_code (fun x => v2c x)) in Hpd by (intros x; by rewrite (proj2 (Z.leb_gt _ _)), Hv by done).
      apply (get_translated_at unit_bits v2c c2v); [lia|done|].
      apply (list.Forall_impl _ _ _ Hall). intros x [Hx Hc]. by rewrite (proj2 (Z.leb_gt _ _)), Hv, Hcv in Hc by done.
    + assert (Hnil : buf = []).
      { destruct buf as [|x ?]; [done|]. apply Forall_cons_1 in Hall as [[_ Hc] _].
        by rewrite (proj2 (Z.leb_gt _ _)), Hv, Hcv in Hc by done. }
      rewrite Hnil in *. rewrite (proj2 (Z.eqb_neq unit_bits (8 * 1))), andb_false_r by lia. by exists pd.
    + assert (Hnil : buf = []).
      { destruct buf as [|x ?]; [done|]. apply Forall_cons_1 in Hall as [[_ Hc] _].
        by rewrite (proj2 (Z.leb_gt _ _)), Hv, Hcv in Hc by done. }
      rewrite Hnil in *. rewrite (proj2 (Z.ltb_ge 16 _)) by lia. by exists pd.
    + rewrite (proj2 (Z.eqb_neq unit_bits (8 * 1))), andb_false_r by lia.
      rewrite (chars_code (fun x => x - lower_bound cval)) in Hpd by (intros x; by rewrite (proj2 (Z.leb_gt _ _)), Hv by done).
      destruct (decide (buf = [])) as [Hnil|Hne]; [rewrite Hnil in *; by exists pd|].
      destruct (chars_range Hgt Hv Hne) as (Hlb & _ & Hr). by apply get_ranged_at; [|lia|..].
Qed.

End characters.

Lemma put_units_at {K} {HS : Sink K} B (po : asn_per_outp_t K) bpc unit_bits cval pc buf n :
  units_ok bpc unit_bits cval pc buf n -> po_at B po ->
  accepts (B ++ units_code bpc unit_bits cval pc buf n) (put_units po buf n bpc unit_bits cval pc).
Proof.
  unfold units_ok, units_code, put_units. destruct (bpc =? 0); cbn [negb].
  - intros (-> & Hn & Hb & _ & Hle) Hat. rewrite Z.mul_1_r. by apply accepts_done, per_put_many_bits_at.
  - intros (-> & -> & Hwf & Hall) Hat. by apply put_characters_at.
Qed.

Lemma get_units_at L pd bpc unit_bits cval pc buf n :
  units_ok bpc unit_bits cval pc buf n -> pd_at (units_code bpc unit_bits cval pc buf n ++ L) pd ->
  exists pd', get_units pd n bpc unit_bits cval pc = Some (0, buf, pd') /\ pd_at L pd'.
Proof.
  unfold units_ok, units_code, get_units. destruct (bpc =? 0); cbn [negb].
  - intros (-> & Hn & Hb & Hpad & Hle) Hpd. destruct (per_get_many_bits_left _ _ _ Hpd) as (dst & pd' & Hg & Hpd' & Hdb & Hdst).
    rewrite length_take, length_bitlist, Nat.min_l in Hg, Hdst by lia. rewrite Z2Nat.id in Hg by done. rewrite Z.mul_1_l, Hg.
    exists pd'. split; [|done]. do 3 f_equal. apply bitlist_inj; [done|done|]. by rewrite Hdst.
  - intros (-> & -> & Hwf & Hall) Hpd. by apply get_characters_at.
Qed.

(** *** Sizes *)

Definition size_code (csiz : asn_per_constraint_t) (n : Z) : list bool :=
  if 0 <=? effective_bits csiz then val_bits (Z.to_nat (effective_bits csiz)) (n - lower_bound csiz)
  else fst (length_code n).

Definition size_ok (csiz : asn_per_constraint_t) (n : Z) : Prop :=
  0 <= n /\
  if 0 <=? effective_bits csiz then
    effective_bits csiz <= 16 /\ lower_bound csiz <= n <= upper_bound csiz /\
    n - lower_bound csiz < 2 ^ effective_bits csiz /\ (effective_bits csiz = 0 -> n = upper_bound csiz)
  else n < 16384 /\ lower_bound csiz = 0.

Section strings.
Context (csiz cval : asn_per_constraint_t) (pc : option asn_per_constraints_t) (bpc unit_bits : Z) (buf : list Z) (n : Z).
Context (Hsize : size_ok csiz n) (Hunits : units_ok bpc unit_bits cval pc buf n).

Lemma length_code_short : effective_bits csiz < 0 -> snd (length_code n) = n /\ (16384 <=? n) = false.
Proof.
  intros He. destruct Hsize as [Hn Hs]. rewrite (proj2 (Z.leb_gt _ _)) in Hs by done. destruct Hs as [Hlt _].
  split; [|by apply Z.leb_gt]. unfold length_code. destruct (n <=? 127); [done|]. by rewrite (proj2 (Z.ltb_lt _ _)).
Qed.

Lemma encode_string_at {K} {HS : Sink K} B (po : asn_per_outp_t K) : po_at B po ->
  accepts (B ++ size_code csiz n ++ units_code bpc unit_bits cval pc buf n)
    (encode_string po buf n bpc unit_bits csiz cval pc).
Proof.
  intros Hat. pose proof Hsize as [Hn Hs]. unfold encode_string, size_code. rewrite app_assoc.
  destruct (Z.leb_spec 0 (effective_bits csiz)) as [He|He].
  - apply accepts_bind; [apply accepts_few; [done|lia]|]. intros po1 Hat1. cbn [negb Z.eqb].
    apply accepts_last; [by apply put_units_at|done].
  - destruct (length_code_short He) as [Hsnd _].
    assert (Hput : forall D (k : Z * asn_per_outp_t K -> option (Z * asn_per_outp_t K)),
      (forall po', po_at (B ++ fst (length_code n)) po' -> accepts ((B ++ fst (length_code n)) ++ D) (k (n, po'))) ->
      accepts ((B ++ fst (length_code n)) ++ D) (uper_put_length po n ≫= k)).
    { intros D k Hk Hnr. destruct (uper_put_length_at B po n Hat Hn) as [(po' & -> & Hat')|(po' & _ & Hr)].
      - rewrite Hsnd. by apply Hk.
      - by destruct Hnr; apply refused_app. }
    destruct (Z.eqb_spec n 0) as [->|Hn0].
    + apply Hput. intros po1 Hat1. cbn [negb Z.eqb].
      assert (units_code bpc unit_bits cval pc buf 0 = []) as ->.
      { unfold units_code, units_ok in *. destruct (bpc =? 0); [done|]. destruct Hunits as (_ & Hlen & _). by destruct buf. }
      rewrite app_nil_r. by apply accepts_ret.
    + destruct (Z.to_nat n) as [|f] eqn:Ef; [lia|]. cbn [put_string]. rewrite (proj2 (Z.eqb_neq n 0)) by done.
      apply Hput. intros po1 Hat1. rewrite (proj2 (Z.ltb_ge n 0)) by done. apply accepts_last; [by apply put_units_at|].
      intros po2 Hat2. cbn [negb Z.eqb]. rewrite Z.sub_diag, orb_true_r. by destruct f.
Qed.

Lemma decode_string_at L pd : pd_at (size_code csiz n ++ units_code bpc unit_bits cval pc buf n ++ L) pd ->
  exists pd', decode_string pd bpc unit_bits csiz cval pc =
      Some (RC_OK, V_str buf (if bpc =? 0 then unused_bits n else 0), pd') /\ pd_at L pd'.
Proof.
  intros Hpd. pose proof Hsize as [Hn Hs]. unfold decode_string, size_code in *.
  destruct (Z.eqb_spec (effective_bits csiz) 0) as [E0|E0].
  - rewrite E0 in *. cbn in Hpd. destruct Hs as (_ & _ & _ & Hu). rewrite <- (Hu eq_refl).
    destruct (get_units_at L pd _ _ _ _ _ _ Hunits Hpd) as (pd' & -> & Hpd'). by exists pd'.
  - assert (Hlen : exists pd1, uper_get_length pd (effective_bits csiz) = Some (n - lower_bound csiz, false, pd1) /\
      pd_at (units_code bpc unit_bits cval pc buf n ++ L) pd1 /\ 0 <= n - lower_bound csiz).
    { destruct (Z.leb_spec 0 (effective_bits csiz)) as [He|He].
      - destruct Hs as (H16 & Hr & Hf & _).
        destruct (uper_get_length_fixed _ pd _ Hpd ltac:(rewrite length_val_bits; lia)) as (pd1 & Hg & Hpd1).
        rewrite length_val_bits, Z2Nat.id in Hg by done. rewrite bits_val_small in Hg by (rewrite Z2Nat.id; lia).
        exists pd1. split_and!; [done|done|lia].
      - destruct (length_code_short He) as [Hsnd H16]. destruct Hs as [_ Hlb]. rewrite Hlb, Z.sub_0_r.
        destruct (uper_get_length_general _ pd n Hn Hpd) as (pd1 & Hg & Hpd1). rewrite Hsnd, H16 in Hg.
        exists pd1. split_and!; [|done|done]. rewrite <- Hg. unfold uper_get_length.
        by rewrite (proj2 (Z.leb_gt 0 (effective_bits csiz))) by done. }
    destruct Hlen as (pd1 & Hg & Hpd1 & Hnn). cbn [get_string]. rewrite Hg. cbn [mbind option_bind].
    rewrite (proj2 (Z.ltb_ge _ 0)) by done. rewrite Z.sub_add.
    destruct (get_units_at L pd1 _ _ _ _ _ _ Hunits Hpd1) as (pd' & -> & Hpd'). cbn [mbind option_bind app].
    exists pd'. split; [|done]. unfold unused_bits. destruct (bpc =? 0); done.
Qed.

End strings.

(** *** Any input *)

Lemma bytes_char_octets bpc v : bytes (char_octets bpc v).
Proof. unfold char_octets. repeat case_match; repeat (constructor; [apply u8_byte|]); constructor. Qed.

Lemma get_translated_reads units : forall pd bpc unit_bits c2v,
  reads pd (get_translated units pd bpc unit_bits c2v) (fun '(_, dst) pd' => bytes dst /\ pd_left pd' <= pd_left pd).
Proof.
  induction units as [|n IH]; intros pd bpc unit_bits c2v; cbn [get_translated].
  { apply reads_ret. split; [constructor|lia]. }
  apply few_bits_bind. intros v pd1 _ Hv. assert (pd_left pd1 <= pd_left pd) by (destruct Hv as [[_ ?]|(? & ? & ?)]; lia).
  destruct (v <? 0); [apply reads_ret; by split; [constructor|]|]. destruct (c2v v <? 0); [apply reads_ret; by split; [constructor|]|].
  eapply reads_bind; [apply IH|]. intros [r rest] pd2 _ [Hb Hl]. apply reads_ret.
  split; [apply Forall_app; split; [apply bytes_char_octets|done]|lia].
Qed.

Lemma get_ranged_reads units : forall pd bpc unit_bits lb ub,
  reads pd (get_ranged units pd bpc unit_bits lb ub) (fun '(_, dst) pd' => bytes dst /\ pd_left pd' <= pd_left pd).
Proof.
  induction units as [|n IH]; intros pd bpc unit_bits lb ub; cbn [get_ranged].
  { apply reads_ret. split; [constructor|lia]. }
  apply few_bits_bind. intros v pd1 _ Hv. assert (pd_left pd1 <= pd_left pd) by (destruct Hv as [[_ ?]|(? & ? & ?)]; lia).
  destruct (v <? 0); [apply reads_ret; by split; [constructor|]|]. destruct (ub <? _); [apply reads_ret; by split; [constructor|]|].
  eapply reads_bind; [apply IH|]. intros [r rest] pd2 _ [Hb Hl]. apply reads_ret.
  split; [apply Forall_app; split; [apply bytes_char_octets|done]|lia].
Qed.

Lemma get_units_reads pd units bpc unit_bits cval pc : 0 <= units -> 1 <= unit_bits ->
  reads pd (get_units pd units bpc unit_bits cval pc)
    (fun '(r, dst) pd' => (r < 0 \/ bytes dst) /\ pd_left pd' <= pd_left pd).
Proof.
  intros Hu Hb.
  assert (Hmany : reads pd (per_get_many_bits pd false (unit_bits * units))
    (fun '(r, dst) pd' => (r < 0 \/ bytes dst) /\ pd_left pd' <= pd_left pd)).
  { eapply reads_mono; [apply per_get_many_bits_reads; lia|]. intros [r dst] pd' [[-> ?]|(-> & ? & _ & ?)].
    - split; [left; lia|done].
    - split; [by right|lia]. }
  unfold get_units. destruct (negb _); [|done]. unfold OCTET_STRING_per_get_characters, encoded_as_is.
  rewrite (proj2 (Z.ltb_ge _ 1)) by done. cbn [mbind option_bind].
  assert (Hrest : forall lb, reads pd (if (lb =? 0) && (unit_bits =? 8 * bpc) then per_get_many_bits pd false (unit_bits * units)
      else get_ranged (Z.to_nat units) pd bpc unit_bits lb (upper_bound cval))
    (fun '(r, dst) pd' => (r < 0 \/ bytes dst) /\ pd_left pd' <= pd_left pd)).
  { intros lb. destruct (_ && _); [done|]. eapply reads_mono; [apply get_ranged_reads|]. intros [r dst] pd' [? ?]. auto. }
  destruct (_ <=? _); [done|]. destruct (pc ≫= code2value); [|done]. destruct (16 <? unit_bits).
  - apply reads_ret. split; [right; constructor|lia].
  - eapply reads_mono; [apply get_translated_reads|]. intros [r dst] pd' [? ?]. auto.
Qed.

(** The value is a string of octets, with fewer than eight unused bits. *)
Definition string_typed (v : asn_value) : Prop := exists buf u, v = V_str buf u /\ bytes buf /\ 0 <= u < 8.

Lemma unused_bits_range n : 0 <= unused_bits n < 8.
Proof.
  unfold unused_bits. pose proof (land_range_r 3 n 7 ltac:(lia) ltac:(lia)).
  destruct (Z.eqb_spec (Z.land n 7) 0); cbn [negb]; lia.
Qed.

Lemma get_string_reads fuel : forall pd bpc unit_bits csiz cval pc st u,
  pd_left pd < Z.of_nat fuel -> 1 <= unit_bits -> 0 <= lower_bound csiz -> bytes st -> 0 <= u < 8 ->
  reads pd (get_string fuel pd bpc unit_bits csiz cval pc st u) (fun '(r, v) _ => r = RC_OK -> string_typed v).
Proof.
  induction fuel as [|fuel IH]; intros pd bpc unit_bits csiz cval pc st u Hf Hb Hlb Hst Hu.
  { intros Hok. pose proof (pd_off pd Hok). unfold pd_left in Hf. lia. }
  cbn [get_string]. apply (reads_bind _ _ _ _ _ (uper_get_length_reads pd (effective_bits csiz))).
  intros [len rep] pd1 _ (Hl & _ & Hrep). destruct (Z.ltb_spec len 0); [by apply reads_ret|].
  set (u' := if negb (bpc =? 0) then u else _). assert (Hu' : 0 <= u' < 8).
  { unfold u'. destruct (negb (bpc =? 0)); [done|]. destruct (Z.eqb_spec (Z.land (len + lower_bound csiz) 7) 0); cbn [negb]; [done|].
    pose proof (land_range_r 3 (len + lower_bound csiz) 7 ltac:(lia) ltac:(lia)). lia. }
  eapply reads_bind; [apply get_units_reads; lia|]. intros [ret dst] pd2 _ [Hd Hl2].
  destruct (Z.ltb_spec 0 ret); [by apply reads_ret|]. destruct (Z.ltb_spec ret 0); [by apply reads_ret|].
  destruct Hd as [?|Hd]; [lia|]. assert (bytes (st ++ dst)) by by apply Forall_app.
  destruct rep; [|apply reads_ret; intros _; by exists (st ++ dst), u'].
  apply IH; [|done..]. specialize (Hrep ltac:(lia) eq_refl). lia.
Qed.

Lemma decode_string_reads pd bpc unit_bits csiz cval pc :
  1 <= unit_bits -> 0 <= lower_bound csiz -> 0 <= upper_bound csiz ->
  reads pd (decode_string pd bpc unit_bits csiz cval pc) (fun '(r, v) _ => r = RC_OK -> string_typed v).
Proof.
  intros Hb Hlb Hub. unfold decode_string. destruct (effective_bits csiz =? 0).
  - eapply reads_bind; [by apply get_units_reads|]. intros [ret dst] pd2 _ [Hd _].
    destruct (Z.ltb_spec 0 ret); [by apply reads_ret|]. destruct (Z.ltb_spec ret 0); [by apply reads_ret|].
    destruct Hd as [?|Hd]; [lia|]. apply reads_ret. intros _. eexists _, _. split; [done|]. split; [done|].
    destruct (bpc =? 0); [apply unused_bits_range|lia].
  - intros Hok. apply get_string_reads; try done. pose proof (pd_off pd Hok). unfold pd_left. lia.
Qed.

(** *** The type *)

Definition string_size (subvariant : asn_OS_Subvariant) (buf : list Z) (bits_unused : Z) : Z :=
  match subvariant with
  | ASN_OSUBV_BIT => 8 * Z.of_nat (length buf) - bits_unused
  | _ => Z.of_nat (length buf)
  end.

(** Sizes outside the constraint need the extension bit. *)
Definition string_outside (csiz : asn_per_constraint_t) (n : Z) : bool :=
  (0 <=? effective_bits csiz) && ((n <? lower_bound csiz) || (upper_bound csiz <? n)).

Definition string_spec (subvariant : asn_OS_Subvariant) (pc : option asn_per_constraints_t) : type_spec :=
  let c := default ASN_DEF_OCTET_STRING_CONSTRAINTS pc in
  let csiz n := if string_outside (size c) n then size ASN_DEF_OCTET_STRING_CONSTRAINTS else size c in
  let cval n := if string_outside (size c) n then value ASN_DEF_OCTET_STRING_CONSTRAINTS else value c in
  {| code v :=
       match v, string_units subvariant (value c) with
       | V_str buf u, Some (bpc, canonical, unit_bits) =>
           let n := string_size subvariant buf u in
           (if has_flag (size c) APC_EXTENSIBLE then [string_outside (size c) n] else []) ++
           size_code (csiz n) n ++
           units_code bpc (if string_outside (size c) n then canonical else unit_bits) (cval n) pc buf n
       | _, _ => []
       end;
     valid v := exists buf u bpc canonical unit_bits,
       v = V_str buf u /\ (subvariant = ASN_OSUBV_BIT \/ subvariant = ASN_OSUBV_STR) /\
       string_units subvariant (value c) = Some (bpc, canonical, unit_bits) /\
       let n := string_size subvariant buf u in
       u = (if bpc =? 0 then unused_bits n else 0) /\ n < 2 ^ 31 /\
       (string_outside (size c) n = true -> has_flag (size c) APC_EXTENSIBLE = true) /\
       size_ok (csiz n) n /\
       units_ok bpc (if string_outside (size c) n then canonical else unit_bits) (cval n) pc buf n;
     typed := string_typed |}.

Definition string_wf (subvariant : asn_OS_Subvariant) (pc : option asn_per_constraints_t) : Prop :=
  let c := default ASN_DEF_OCTET_STRING_CONSTRAINTS pc in
  (has_flag (value c) APC_CONSTRAINED = true -> 1 <= range_bits (value c)) /\
  0 <= lower_bound (size c) /\ 0 <= upper_bound (size c).

Lemma OCTET_STRING_implements subvariant own constraints : string_wf subvariant (which constraints own) ->
  implements (uper_codec (OCTET_STRING subvariant own) constraints) (string_spec subvariant (which constraints own)).
Proof.
  intros (Hrb & Hlb & Hub). set (pc := which constraints own) in *.
  split; cbn [enc dec uper_codec OCTET_STRING]; fold pc; unfold OCTET_STRING_encode_uper, OCTET_STRING_decode_uper;
    set (c := default ASN_DEF_OCTET_STRING_CONSTRAINTS pc) in *.
  - intros K HS B po v (buf & u & bpc & canonical & unit_bits & -> & Hsub & Hun & Hu & Hn & Hout & Hsz & Huo) Hat.
    fold c in Hun, Hu, Hn, Hout, Hsz, Huo. cbn [code string_spec]. fold c. rewrite Hun. cbv zeta in *.
    set (n := string_size subvariant buf u) in *. assert (Hn0 : 0 <= n) by apply Hsz.
    assert (u32 (match subvariant with ASN_OSUBV_BIT => Z.of_nat (length buf) * 8 - Z.land u 7
        | ASN_OSUBV_U16 => Z.of_nat (length buf) / 2 | ASN_OSUBV_U32 => Z.of_nat (length buf) / 4
        | _ => Z.of_nat (length buf) end) = n) as ->.
    { destruct Hsub as [-> | ->]; cbn [string_size] in *; [|by rewrite uwrap_small by lia].
      injection Hun as <- <- <-. cbn [Z.eqb] in Hu. pose proof (unused_bits_range n).
      assert (Z.land u 7 = u) as ->.
      { change 7 with (Z.ones 3). rewrite Z.land_ones, Z.mod_small by lia. done. }
      rewrite (Z.mul_comm _ 8). fold n. by rewrite uwrap_small by lia. }
    rewrite i32_small by lia. change ((0 <=? _) && _) with (string_outside (size c) n).
    apply accepts_encodes. destruct (string_outside (size c) n) eqn:Ho; cbn iota.
    + rewrite (Hout eq_refl), app_assoc. apply accepts_bind; [by apply (accepts_bit B po true)|].
      intros po1 Hat1. cbn [negb Z.eqb]. by apply encode_string_at.
    + destruct (has_flag (size c) _).
      * rewrite app_assoc. apply accepts_bind; [by apply (accepts_bit B po false)|].
        intros po1 Hat1. cbn [negb Z.eqb]. by apply encode_string_at.
      * by apply encode_string_at.
  - intros v L pd (buf & u & bpc & canonical & unit_bits & -> & Hsub & Hun & Hu & Hn & Hout & Hsz & Huo) Hpd.
    fold c in Hun, Hu, Hn, Hout, Hsz, Huo. cbn [code string_spec] in Hpd. fold c in Hpd. rewrite Hun in Hpd |- *. cbv zeta in *.
    set (n := string_size subvariant buf u) in *. rewrite Hu. rewrite <- !app_assoc in Hpd.
    destruct (string_outside (size c) n) eqn:Ho; cbn iota in *.
    + rewrite (Hout eq_refl) in *. destruct (per_get_few_bits_at _ pd 1 _ Hpd) as (pd1 & -> & Hpd1 & _); [done|done|].
      by apply decode_string_at.
    + destruct (has_flag (size c) _).
      * destruct (per_get_few_bits_at _ pd 1 _ Hpd) as (pd1 & -> & Hpd1 & _); [done|done|]. by apply decode_string_at.
      * by apply decode_string_at.
  - intros pd. destruct (string_units subvariant (value c)) as [[[bpc canonical] unit_bits]|] eqn:Hun; [|by apply reads_ret].
    assert (1 <= canonical /\ 1 <= unit_bits) as [Hc1 Hu1].
    { destruct subvariant; cbn [string_units] in Hun; simplify_eq; try lia; destruct (has_flag (value c) _); auto with lia. }
    destruct (has_flag (size c) _); [|by apply decode_string_reads].
    apply few_bits_bind. intros b pd1 _ _. destruct (b <? 0); [by apply reads_ret|].
    destruct (negb _); [|by apply decode_string_reads]. by apply decode_string_reads.
Qed.
