(* ===== verification/AsnOpenType.v ===== *)
(** * AsnOpenType: open types

    Model of [per_opentype.c]: a value is encoded on its own, padded to octets and written
    with a length, so that a reader that does not know its type can skip it. The decoder
    compiled in is [uper_open_type_get_simple]; [uper_open_type_get_complex] is not called.
    The check of the stack depth is ignored there. *)
From S2P Require Import Prelude PerSupport AsnInteger PerSafe PerCodec AsnTypes.

(** [tmp] is what the stack holds where the encoder of the open type has its [tmpspace]. The
    loop over the chunks is the one of INTEGER. *)
Definition uper_open_type_put {K} {HS : Sink K} (tmp : list Z) (c : codec) (sptr : asn_value) (po : asn_per_outp_t K)
  : option (Z * asn_per_outp_t K) :=
  '(size, buf) ← uper_encode_to_new_buffer tmp (sptr : Val c);
  if size <=? 0 then Some (-1, po)
  else b ← (buf : option (list Z)); put_chunks (length b) po b.

Definition uper_open_type_get (c : codec) (pd : asn_per_data_t)
  : option (asn_dec_rval_code_e * asn_value * asn_per_data_t) :=
  '(r, buf, pd1) ← get_chunks (S (Z.to_nat (nbits pd))) pd [];
  match r with
  | RC_OK =>
      let spd := {| buffer := buf; nboff := 0; nbits := 8 * Z.of_nat (length buf); moved := 0 |} in
      '(rc, st, spd1) ← dec c spd;
      match rc with
      | RC_OK =>
          let padding := nbits spd1 - nboff spd1 in
          if padding <? 8 then
            '(bits, _) ← per_get_few_bits spd1 padding;
            if bits =? 0 then Some (RC_OK, st, pd1) else Some (RC_FAIL, st, pd1)
          else Some (RC_FAIL, st, pd1)
      | _ => Some (RC_FAIL, st, pd1)
      end
  | _ => Some (RC_WMORE, V_zero, pd1)
  end.

Fixpoint sot_suck (fuel : nat) (pd : asn_per_data_t) : option asn_per_data_t :=
  match fuel with
  | O => None
  | S f => '(v, pd1) ← per_get_few_bits pd 24; if 0 <=? v then sot_suck f pd1 else Some pd1
  end.

Definition uper_sot_suck (pd : asn_per_data_t) : option (asn_dec_rval_code_e * asn_value * asn_per_data_t) :=
  pd1 ← sot_suck (S (Z.to_nat (nbits pd))) pd; Some (RC_OK, V_zero, pd1).

Definition unknown_extension : codec := {| enc K HS v po := None; dec := uper_sot_suck |}.

Definition uper_open_type_skip (pd : asn_per_data_t) : option (Z * asn_per_data_t) :=
  '(r, _, pd1) ← uper_open_type_get unknown_extension pd;
  match r with RC_OK => Some (0, pd1) | _ => Some (-1, pd1) end.

(** The two functions as a codec. *)
Definition open_type (tmp : list Z) (c : codec) : codec :=
  {| enc K HS v po := uper_open_type_put tmp c v po; dec := uper_open_type_get c |}.

(** ** Specification *)

Fixpoint pack (n : nat) (P : list bool) : list Z :=
  match n with
  | O => []
  | S n => bits_val (take 8 P) :: pack n (drop 8 P)
  end.

(** The octets of some bits, the last one padded with zeros; there is at least one. *)
Definition octets (C : list bool) : list Z :=
  match C with [] => [0] | _ => pack (Z.to_nat (octets_needed (length C))) (C ++ replicate (pad_of (length C)) false) end.

Definition open_code (C : list bool) : list bool := frag_code (length (octets C)) (octets C).

Lemma pack_spec n : forall P, length P = (8 * n)%nat -> bytes (pack n P) /\ bitlist (pack n P) = P.
Proof.
  induction n as [|n IH]; intros P HP; cbn [pack].
  { destruct P; [|done]. by split. }
  destruct (IH (drop 8 P) ltac:(rewrite length_drop; lia)) as [H1 H2].
  assert (Hl : length (take 8 P) = 8%nat) by (rewrite length_take; lia).
  split.
  - constructor; [|done]. pose proof (bits_val_range (take 8 P)) as Hr. rewrite Hl in Hr. exact Hr.
  - rewrite bitlist_cons, H2. unfold byte_bits. rewrite <- Hl at 1. by rewrite val_bits_bits_val, take_drop.
Qed.

Lemma octets_spec C : C <> [] -> octets_of C (octets C).
Proof.
  intros Hne. unfold octets. destruct C as [|b C]; [done|]. apply pack_spec.
  rewrite length_app, length_replicate. apply pad_of_spec.
Qed.

Lemma octets_unique C o : C <> [] -> octets_of C o -> o = octets C.
Proof.
  intros Hne [Hb Ho]. destruct (octets_spec C Hne) as [Hb' Ho']. apply bitlist_inj; [done|done|]. by rewrite Ho, Ho'.
Qed.

Lemma octets_nonnil C : octets C <> [].
Proof.
  destruct C as [|b C]; [done|]. intros E. destruct (octets_spec (b :: C) ltac:(done)) as [_ Ho]. by rewrite E in Ho.
Qed.

Lemma bytes_octets C : bytes (octets C).
Proof. destruct C as [|b C]; [by repeat constructor|]. by apply octets_spec. Qed.

(** Values that survive in an open type: there must be a bit to encode. *)
Definition open_spec (s : type_spec) : type_spec :=
  {| code v := open_code (code s v);
     valid v := valid s v /\ code s v <> [] /\ Z.of_nat (length (code s v)) < 2 ^ 59 /\
                Z.of_nat (length (octets (code s v))) mod 16384 <> 0;
     typed := typed s |}.

(** The stream of the octets of an open type. *)
Lemma spd_at o : bytes o ->
  pd_at (bitlist o) {| buffer := o; nboff := 0; nbits := 8 * Z.of_nat (length o); moved := 0 |}.
Proof.
  intros Hb. split; [split; cbn; [done|lia|lia]|]. unfold pd_bits. cbn [nbits nboff buffer]. rewrite drop_0.
  apply take_ge. rewrite length_bitlist. lia.
Qed.

Lemma open_type_get_reads c s pd : (forall pd, reads pd (dec c pd) (fun '(r, v) _ => r = RC_OK -> typed s v)) ->
  reads pd (uper_open_type_get c pd) (fun '(r, v) _ => r = RC_OK -> typed s v).
Proof.
  intros Hdec Hok. revert Hok. unfold uper_open_type_get. intros Hok.
  refine (reads_bind _ _ _ _ _ (get_chunks_reads _ _ [] _ _) _ Hok); [constructor| |].
  { pose proof (pd_off pd Hok). unfold pd_left. lia. }
  intros [[] o] pd1 _ Ho; try by apply reads_ret. destruct (spd_at o Ho) as [Hsok _].
  destruct (Hdec _ Hsok) as ([rc st] & spd1 & -> & Hstep & Ht). destruct (Hstep Hsok) as [Hok1 _]. cbn [mbind option_bind].
  destruct rc; try by apply reads_ret. cbv zeta. destruct (_ <? 8); [|by apply reads_ret].
  destruct (per_get_few_bits_reads spd1 (nbits spd1 - nboff spd1) Hok1) as (b & ? & -> & _). cbn [mbind option_bind].
  destruct (b =? 0); apply reads_ret; [intros _; by apply Ht|done].
Qed.

(** Decoding the octets [o], where [dec] leaves the bits [R]. *)
Lemma open_type_get_at c o R st L pd : bytes o -> o <> [] -> Z.of_nat (length o) mod 16384 <> 0 ->
  (forall spd, pd_at (bitlist o) spd -> exists spd', dec c spd = Some (RC_OK, st, spd') /\ pd_at R spd') ->
  pd_at (frag_code (length o) o ++ L) pd ->
  exists pd', uper_open_type_get c pd =
      Some (if bool_decide (length R < 8)%nat && (bits_val R =? 0) then RC_OK else RC_FAIL, st, pd') /\ pd_at L pd'.
Proof.
  intros Hb Hne Hmod Hdec Hpd. unfold uper_open_type_get.
  destruct (get_fragments_at o L pd Hb Hne Hmod Hpd) as (pd' & -> & Hpd'). cbn [mbind option_bind].
  destruct (Hdec _ (spd_at o Hb)) as (spd' & -> & HR). cbn [mbind option_bind].
  exists pd'. split; [|done]. pose proof (pd_at_left _ _ HR) as Hl. unfold pd_left in Hl. rewrite Hl.
  destruct (Z.ltb_spec (Z.of_nat (length R)) 8).
  - rewrite bool_decide_eq_true_2 by lia. rewrite <- (app_nil_r R) in HR.
    destruct (per_get_few_bits_at [] spd' _ R HR eq_refl ltac:(lia)) as (? & -> & _). cbn [mbind option_bind andb].
    by destruct (bits_val R =? 0).
  - by rewrite bool_decide_eq_false_2 by lia.
Qed.

Lemma bits_val_zeros n : bits_val (replicate n false) = 0.
Proof.
  induction n as [|n IH]; [done|]. cbn [replicate]. rewrite bits_val_cons, IH. cbn. lia.
Qed.

Lemma pad_of_lt n : (pad_of n < 8)%nat.
Proof. unfold pad_of. apply Nat.mod_upper_bound. lia. Qed.

Section open_type.
Context (tmp : list Z) (Htb : bytes tmp) (Htl : length tmp = 32%nat).

(** What is put, whatever the value: its octets, or one zero octet. *)
Lemma open_type_put_at c s {K} {HS : Sink K} B (po : asn_per_outp_t K) v : implements c s ->
  valid s v -> Z.of_nat (length (code s v)) < 2 ^ 59 -> po_at B po ->
  accepts (B ++ open_code (code s v)) (uper_open_type_put tmp c v po).
Proof.
  intros Hc Hv Hsm Hat. unfold uper_open_type_put, open_code.
  destruct (val_new_buffer c s Hc tmp v Hv Htb Htl Hsm) as (o & -> & Hb & Ho).
  assert (o = octets (code s v)) as <-.
  { case_decide as Hnil; [by rewrite Hnil|by apply octets_unique]. }
  cbn [mbind option_bind]. rewrite (proj2 (Z.leb_gt _ 0)).
  2: { destruct o; [|cbn; lia]. case_decide; [done|]. by destruct Ho as [_ Ho], (code s v). }
  by apply accepts_done, put_chunks_at.
Qed.

Lemma open_type_implements c s : implements c s -> implements (open_type tmp c) (open_spec s).
Proof.
  intros Hc. split; cbn [enc dec open_type code valid typed open_spec].
  - intros K HS B po v (Hv & _ & Hsm & _) Hat. by apply accepts_encodes, open_type_put_at.
  - intros v L pd (Hv & Hne & _ & Hmod) Hpd.
    destruct (open_type_get_at c (octets (code s v)) (replicate (pad_of (length (code s v))) false) v L pd) as (pd' & E & Hpd');
      [apply bytes_octets|apply octets_nonnil|done| |done|].
    + intros spd Hspd. destruct (octets_spec _ Hne) as [_ Ho]. rewrite Ho in Hspd. by apply (dec_at c s Hc v).
    + rewrite bits_val_zeros, length_replicate, bool_decide_eq_true_2 in E by apply pad_of_lt. by exists pd'.
  - intros pd. by apply open_type_get_reads; apply Hc.
Qed.

End open_type.

(** ** Skipping *)

(** Whole groups of 24 bits are taken. *)
Lemma sot_suck_at fuel : forall L pd, pd_at L pd -> (length L < fuel)%nat ->
  exists pd', sot_suck fuel pd = Some pd' /\ pd_at (drop (24 * (length L / 24)) L) pd'.
Proof.
  induction fuel as [|fuel IH]; intros L pd Hpd Hf; [lia|]. cbn [sot_suck].
  destruct (decide (length L < 24)%nat) as [Hlt|Hge].
  - rewrite (per_get_few_bits_short_stream L pd 24 Hpd) by lia. exists pd. split; [done|].
    by rewrite Nat.div_small, Nat.mul_0_r, drop_0 by done.
  - rewrite <- (take_drop 24 L) in Hpd.
    destruct (per_get_few_bits_at _ pd 24 _ Hpd) as (pd1 & -> & Hpd1 & _); [rewrite length_take; lia|lia|].
    cbn [mbind option_bind]. pose proof (bits_val_range (take 24 L)). rewrite (proj2 (Z.leb_le 0 _)) by lia.
    destruct (IH _ pd1 Hpd1) as (pd' & -> & Hpd'); [rewrite length_drop; lia|]. exists pd'. split; [done|].
    rewrite length_drop, drop_drop in Hpd'. replace (length L) with (1 * 24 + (length L - 24))%nat at 1 by lia.
    rewrite Nat.div_add_l by lia. by replace (24 * (1 + (length L - 24) / 24))%nat with (24 + 24 * ((length L - 24) / 24))%nat by lia.
Qed.

Lemma unknown_reads pd : reads pd (dec unknown_extension pd) (fun '(r, v) _ => r = RC_OK -> v = V_zero).
Proof.
  assert (Hs : forall fuel pd, pd_left pd < Z.of_nat fuel ->
    reads pd (pd1 ← sot_suck fuel pd; Some (RC_OK, V_zero, pd1)) (fun '(r, v) _ => r = RC_OK -> v = V_zero)).
  { induction fuel as [|fuel IH]; intros pd' Hf.
    { intros Hok. pose proof (pd_off pd' Hok). unfold pd_left in Hf. lia. }
    cbn [sot_suck]. intros Hok. destruct (per_get_few_bits_reads pd' 24 Hok) as (v & pd1 & -> & Hst & Hv).
    cbn [mbind option_bind]. destruct (Z.leb_spec 0 v).
    - apply (reads_from pd' pd1); [done| |done]. apply IH. destruct Hv as [[? _]|(_ & _ & ?)]; lia.
    - by exists (RC_OK, V_zero), pd1. }
  intros Hok. apply Hs; [|done]. pose proof (pd_off pd Hok). unfold pd_left. lia.
Qed.

Lemma open_type_skip_reads pd : reads pd (uper_open_type_skip pd) (fun _ _ => True).
Proof.
  unfold uper_open_type_skip. eapply reads_bind.
  - apply (open_type_get_reads unknown_extension {| code _ := []; valid _ := False; typed v := v = V_zero |}).
    exact unknown_reads.
  - intros [[] v] pd1 _ _; by apply reads_ret.
Qed.

(** An open type of [o] is skipped when its size is a multiple of three octets. *)
Lemma open_type_skip_at o L pd : bytes o -> o <> [] -> Z.of_nat (length o) mod 16384 <> 0 ->
  pd_at (frag_code (length o) o ++ L) pd ->
  exists pd', uper_open_type_skip pd = Some (if bool_decide (length o mod 3 = 0)%nat then 0 else -1, pd') /\ pd_at L pd'.
Proof.
  intros Hb Hne Hmod Hpd. unfold uper_open_type_skip.
  pose proof (Nat.div_mod (length o) 3 ltac:(lia)) as Hdm. pose proof (Nat.mod_upper_bound (length o) 3 ltac:(lia)).
  set (R := drop (24 * (length (bitlist o) / 24)) (bitlist o)).
  assert (HR : length R = (8 * (length o mod 3))%nat).
  { unfold R. rewrite length_drop, length_bitlist. change 24%nat with (8 * 3)%nat. rewrite Nat.Div0.div_mul_cancel_l by lia. lia. }
  destruct (open_type_get_at unknown_extension o R V_zero L pd) as (pd' & -> & Hpd'); [done..| |done|].
  - intros spd Hspd. cbn [dec unknown_extension]. unfold uper_sot_suck. pose proof Hspd as [Hok Hbits].
    pose proof (length_pd_bits spd Hok) as HL. pose proof (pd_off spd Hok). rewrite Hbits in HL.
    destruct (sot_suck_at (S (Z.to_nat (nbits spd))) _ spd Hspd) as (spd' & -> & Hspd'); [lia|]. by exists spd'.
  - cbn [mbind option_bind]. exists pd'. split; [|done]. rewrite HR.
    destruct (decide (length o mod 3 = 0)%nat) as [E|E].
    + rewrite !bool_decide_eq_true_2 by lia. assert (R = []) as -> by (apply nil_length_inv; lia). done.
    + rewrite !bool_decide_eq_false_2 by lia. done.
Qed.
