(* ===== verification/AsnConstructed.v ===== *)
(** * AsnConstructed: SEQUENCE, CHOICE and SEQUENCE OF

    Model of the UPER codecs of [constr_SEQUENCE.c], [constr_CHOICE.c], [constr_SET_OF.c]
    (whose decoder is also the one of SEQUENCE OF) and [constr_SEQUENCE_OF.c]. A constructed
    type is a function of the tables of its descriptor, which hold the codecs of its members,
    so descriptors nest as the tables do. A value that is not accepted is given as [V_zero]:
    its structure is freed by the callers. Memory for the structures is always found, and
    the limit on the depth of the recursion is not modelled. *)
From S2P Require Import Prelude PerSupport AsnInteger PerSafe PerCodec AsnTypes AsnOpenType.

(** ** SEQUENCE *)

Record asn_SEQUENCE_specifics_t := {
  oms : list Z; roms_count : Z; aoms_count : Z; ext_after : Z; ext_before : Z }.

Definition IN_EXTENSION_GROUP (specs : asn_SEQUENCE_specifics_t) (memb_idx : Z) : bool :=
  (ext_after specs <? memb_idx) && (memb_idx <? ext_before specs).

(** A member of a zeroed structure, and one that is absent from the input. *)
Definition zero_member (elm : asn_TYPE_member_t) : option asn_value := if pointer elm then None else Some V_zero.

Definition absent_member (elm : asn_TYPE_member_t) : option asn_value :=
  match default_value elm with Some (d, _) => Some d | None => zero_member elm end.

Section sequence.
Context (specs : asn_SEQUENCE_specifics_t) (elements : list asn_TYPE_member_t).

(** *** Decoder *)

(** "Get the sequence ROOT elements": [opmd] is the presence map. *)
Fixpoint decode_root (elms : list asn_TYPE_member_t) (edx : Z) (opmd pd : asn_per_data_t)
  : option (asn_dec_rval_code_e * list (option asn_value) * asn_per_data_t) :=
  match elms with
  | [] => Some (RC_OK, [], pd)
  | elm :: elms' =>
      let keep m opmd pd :=
        '(r, st, pd') ← decode_root elms' (edx + 1) opmd pd; Some (r, m :: st, pd') in
      let fetch opmd :=
        '(r, v, pd1) ← dec (member_codec elm) pd;
        match r with RC_OK => keep (Some v) opmd pd1 | _ => Some (r, Some v :: (zero_member <$> elms'), pd1) end in
      if IN_EXTENSION_GROUP specs edx then keep (zero_member elm) opmd pd
      else if optional elm then
        '(present, opmd1) ← per_get_few_bits opmd 1;
        if present =? 0 then keep (absent_member elm) opmd1 pd else fetch opmd1
      else fetch opmd
  end.

(** "Go over extensions and read them in"; the map [epmd] is left for the overflow. *)
Fixpoint decode_additions (elms : list asn_TYPE_member_t) (edx : Z) (epmd : asn_per_data_t)
    (st : list (option asn_value)) (pd : asn_per_data_t)
  : option (asn_dec_rval_code_e * (list (option asn_value) * asn_per_data_t) * asn_per_data_t) :=
  match elms with
  | [] => Some (RC_OK, (st, epmd), pd)
  | elm :: elms' =>
      if negb (IN_EXTENSION_GROUP specs edx) then decode_additions elms' (edx + 1) epmd st pd
      else
        '(present, epmd1) ← per_get_few_bits epmd 1;
        if present <=? 0 then
          if present <? 0 then Some (RC_OK, (st, epmd1), pd)
          else decode_additions elms' (edx + 1) epmd1 st pd
        else
          '(r, v, pd1) ← uper_open_type_get (member_codec elm) pd;
          match r with
          | RC_OK => decode_additions elms' (edx + 1) epmd1 (<[Z.to_nat edx := Some v]> st) pd1
          | RC_FAIL => Some (r, (<[Z.to_nat edx := Some v]> st, epmd1), pd1)
          | RC_WMORE => Some (r, (st, epmd1), pd1)
          end
  end.

(** "Skip over overflow extensions": the loop ends with the first one it skips. *)
Fixpoint skip_overflow (fuel : nat) (epmd pd : asn_per_data_t) : option (Z * asn_per_data_t) :=
  match fuel with
  | O => None
  | S f =>
      '(bit, epmd1) ← per_get_few_bits epmd 1;
      if bit =? -1 then Some (0, pd)
      else if bit =? 0 then skip_overflow f epmd1 pd
      else uper_open_type_skip pd
  end.

(** "Fill DEFAULT members in extensions", from the element number [edx] on. *)
Fixpoint fill_defaults (n : nat) (edx : Z) (st : list (option asn_value)) : option (list (option asn_value)) :=
  match n with
  | O => Some st
  | S n' =>
      elm ← rd elements edx;
      st' ←
        (match default_value elm with
         | None => Some st
         | Some (d, _) =>
             if pointer elm then
               m ← rd st edx;
               match m with Some _ => Some st | None => wr st edx (Some d) end
             else Some st
         end);
      fill_defaults n' (edx + 1) st'
  end.

Definition bit_stream (buf : list Z) (n : Z) : asn_per_data_t := {| buffer := buf; nboff := 0; nbits := n; moved := 0 |}.

(** The extension additions after the root. *)
Definition decode_extensions (st : list (option asn_value)) (pd : asn_per_data_t)
  : option (asn_dec_rval_code_e * list (option asn_value) * asn_per_data_t) :=
  '(bmlength, pd1) ← uper_get_nslength pd;
  if bmlength <? 0 then Some (RC_WMORE, st, pd1)
  else
    '(r, epres, pd2) ← per_get_many_bits pd1 false bmlength;
    if negb (r =? 0) then Some (RC_WMORE, st, pd2)
    else
      '(rv, (st1, epmd), pd3) ←
        decode_additions (drop (Z.to_nat (ext_after specs + 1)) elements) (ext_after specs + 1)
          (bit_stream epres bmlength) st pd2;
      match rv with
      | RC_OK =>
          '(skipped, pd4) ← skip_overflow (S (Z.to_nat (nbits epmd))) epmd pd3;
          if negb (skipped =? 0) then Some (RC_WMORE, st1, pd4) else Some (RC_OK, st1, pd4)
      | _ => Some (rv, st1, pd3)
      end.

Definition SEQUENCE_decode_uper (pd : asn_per_data_t) : option (asn_dec_rval_code_e * asn_value * asn_per_data_t) :=
  '(extpresent, pd0) ← (if 0 <=? ext_before specs then per_get_few_bits pd 1 else Some (0, pd));
  if extpresent <? 0 then Some (RC_WMORE, V_zero, pd0)
  else
    '(r, opres, pd1) ←
      (if negb (roms_count specs =? 0) then per_get_many_bits pd0 false (roms_count specs) else Some (0, [], pd0));
    if negb (r =? 0) then Some (RC_WMORE, V_zero, pd1)
    else
      '(rv, st, pd2) ← decode_root elements 0 (bit_stream opres (roms_count specs)) pd1;
      match rv with
      | RC_OK =>
          '(rv', st', pd3) ←
            (if negb (extpresent =? 0) then decode_extensions st pd2 else Some (RC_OK, st, pd2));
          match rv' with
          | RC_OK =>
              st'' ← fill_defaults (Z.to_nat (aoms_count specs)) (roms_count specs) st';
              Some (RC_OK, V_seq st'', pd3)
          | _ => Some (rv', V_seq st', pd3)
          end
      | _ => Some (rv, V_seq st, pd2)
      end.

(** *** Encoder *)

Definition is_default (elm : asn_TYPE_member_t) (v : asn_value) : bool :=
  match default_value elm with Some (_, eq) => eq v | None => false end.

(** A member that is there: a pointer that is not NULL, or one inside the structure. *)
Definition is_present (elm : asn_TYPE_member_t) (m : option asn_value) : bool :=
  if pointer elm then match m with Some _ => true | None => false end else true.

Section encode.
Context {K : Type} {HS : Sink K} (tmp : list Z) (st : list (option asn_value)).

(** [SEQUENCE_handle_extensions]: [marks] stands for [po1] and [fields] for [po2], which are
    not both given; returns the counters, or -1 in the first one. *)
Fixpoint extensions_loop (elms : list asn_TYPE_member_t) (edx : Z) (marks fields : bool) (exts_present exts_count : Z)
    (po : asn_per_outp_t K) : option (Z * asn_per_outp_t K) :=
  match elms with
  | [] => Some (if negb (exts_present =? 0) then exts_count else 0, po)
  | elm :: elms' =>
      if negb (IN_EXTENSION_GROUP specs edx) then extensions_loop elms' (edx + 1) marks fields exts_present exts_count po
      else
        m ← rd st edx;
        let present := is_present elm m in
        '(r1, po1) ← (if marks then per_put_few_bits po (Z.b2z present) 1 else Some (0, po));
        if negb (r1 =? 0) then Some (-1, po1)
        else
          '(r2, po2) ←
            (if fields && present then v ← m; uper_open_type_put tmp (member_codec elm) v po1 else Some (0, po1));
          if negb (r2 =? 0) then Some (-1, po2)
          else extensions_loop elms' (edx + 1) marks fields (exts_present + Z.b2z present) (exts_count + 1) po2
  end.

Definition SEQUENCE_handle_extensions (marks fields : bool) (po : asn_per_outp_t K) : option (Z * asn_per_outp_t K) :=
  if ext_before specs <? 0 then Some (0, po)
  else extensions_loop (drop (Z.to_nat (ext_after specs + 1)) elements) (ext_after specs + 1) marks fields 0 0 po.

(** "Encode a presence bitmap". *)
Fixpoint put_presence (n : nat) (i : Z) (po : asn_per_outp_t K) : option (Z * asn_per_outp_t K) :=
  match n with
  | O => Some (0, po)
  | S n' =>
      edx ← rd (oms specs) i;
      elm ← rd elements edx;
      m ← rd st edx;
      let present := is_present elm m && negb (match m with Some v => is_default elm v | None => false end) in
      '(r, po1) ← per_put_few_bits po (Z.b2z present) 1;
      if negb (r =? 0) then Some (-1, po1) else put_presence n' (i + 1) po1
  end.

(** "Encode the sequence ROOT elements"; [er] is the result of the last encoder. *)
Fixpoint encode_root (n : nat) (edx : Z) (er : Z) (po : asn_per_outp_t K) : option (Z * asn_per_outp_t K) :=
  match n with
  | O => Some (er, po)
  | S n' =>
      elm ← rd elements edx;
      m ← rd st edx;
      if IN_EXTENSION_GROUP specs edx then encode_root n' (edx + 1) er po
      else if negb (is_present elm m) then
        if optional elm then encode_root n' (edx + 1) er po else Some (-1, po)
      else
        v ← m;
        if is_default elm v then encode_root n' (edx + 1) er po
        else
          '(e, po1) ← enc (member_codec elm) K HS v po;
          if e =? -1 then Some (-1, po1) else encode_root n' (edx + 1) e po1
  end.

Definition SEQUENCE_encode_uper (po : asn_per_outp_t K) : option (Z * asn_per_outp_t K) :=
  '(n_extensions, po0) ←
    (if 0 <=? ext_before specs then
       '(n, po') ← SEQUENCE_handle_extensions false false po;
       '(_, po'') ← per_put_few_bits po' (if negb (n =? 0) then 1 else 0) 1;
       Some (n, po'')
     else Some (0, po));
  '(r1, po1) ← put_presence (Z.to_nat (roms_count specs)) 0 po0;
  if negb (r1 =? 0) then Some (-1, po1)
  else
    let limit := if ext_after specs <? 0 then Z.of_nat (length elements) else ext_before specs - 1 in
    '(er, po2) ← encode_root (Z.to_nat limit) 0 0 po1;
    if er =? -1 then Some (-1, po2)
    else if n_extensions =? 0 then Some (er, po2)
    else
      '(r2, po3) ← uper_put_nslength po2 n_extensions;
      if negb (r2 =? 0) then Some (-1, po3)
      else
        '(n1, po4) ← SEQUENCE_handle_extensions true false po3;
        if negb (n1 =? n_extensions) then Some (-1, po4)
        else
          '(n2, po5) ← SEQUENCE_handle_extensions false true po4;
          if negb (n2 =? n_extensions) then Some (-1, po5) else Some (er, po5).

End encode.
End sequence.

(** [tmp] as in [uper_open_type_put]. *)
Definition SEQUENCE (tmp : list Z) (specs : asn_SEQUENCE_specifics_t) (elements : list asn_TYPE_member_t)
  : asn_TYPE_descriptor_t :=
  {| uper_codec _ :=
       {| enc K HS v po := match v with V_seq st => SEQUENCE_encode_uper specs elements tmp st po | _ => None end;
          dec := SEQUENCE_decode_uper specs elements |} |}.

(** ** CHOICE *)

Record asn_CHOICE_specifics_t := { canonical_order : option (list Z); ext_start : Z }.

Section choice.
Context (specs : asn_CHOICE_specifics_t) (elements : list asn_TYPE_member_t).

(** The alternative number [value], after the index. *)
Definition decode_alternative (ct : option asn_per_constraint_t) (value : Z) (pd : asn_per_data_t)
  : option (asn_dec_rval_code_e * asn_value * asn_per_data_t) :=
  value' ← (match canonical_order specs with Some order => rd order value | None => Some value end);
  elm ← rd elements value';
  '(r, v, pd1) ←
    (match ct with
     | Some c => if 0 <=? range_bits c then dec (member_codec elm) pd else uper_open_type_get (member_codec elm) pd
     | None => uper_open_type_get (member_codec elm) pd
     end);
  Some (r, V_choice (value' + 1) (Some v), pd1).

(** The decoder after the extension bit. *)
Definition decode_choice (ct : option asn_per_constraint_t) (pd : asn_per_data_t)
  : option (asn_dec_rval_code_e * asn_value * asn_per_data_t) :=
  let unrestricted :=
    if ext_start specs =? -1 then Some (RC_FAIL, V_zero, pd)
    else
      '(value, pd1) ← uper_get_nsnnwn pd;
      if value <? 0 then Some (RC_WMORE, V_zero, pd1)
      else if Z.of_nat (length elements) <=? value + ext_start specs then Some (RC_FAIL, V_zero, pd1)
      else decode_alternative ct (value + ext_start specs) pd1 in
  match ct with
  | Some c =>
      if 0 <=? range_bits c then
        '(value, pd1) ← per_get_few_bits pd (range_bits c);
        if value <? 0 then Some (RC_WMORE, V_zero, pd1)
        else if upper_bound c <? value then Some (RC_FAIL, V_zero, pd1)
        else decode_alternative ct value pd1
      else unrestricted
  | None => unrestricted
  end.

Definition CHOICE_decode_uper (ct : option asn_per_constraint_t) (pd : asn_per_data_t)
  : option (asn_dec_rval_code_e * asn_value * asn_per_data_t) :=
  match ct with
  | Some c =>
      if has_flag c APC_EXTENSIBLE then
        '(bit, pd1) ← per_get_few_bits pd 1;
        if bit <? 0 then Some (RC_WMORE, V_zero, pd1)
        else decode_choice (if negb (bit =? 0) then None else ct) pd1
      else decode_choice ct pd
  | None => decode_choice ct pd
  end.

Section encode.
Context {K : Type} {HS : Sink K} (tmp : list Z).

(** The encoder after the extension bit, for the alternative [present]; [None] is also the
    use of a member of the union that is not the one that was set. *)
Definition encode_choice (ct : option asn_per_constraint_t) (present : Z) (elm : asn_TYPE_member_t) (v : asn_value)
    (po : asn_per_outp_t K) : option (Z * asn_per_outp_t K) :=
  let unrestricted :=
    if ext_start specs =? -1 then Some (-1, po)
    else
      '(r, po1) ← uper_put_nsnnwn po (present - ext_start specs);
      if negb (r =? 0) then Some (-1, po1)
      else
        '(r2, po2) ← uper_open_type_put tmp (member_codec elm) v po1;
        if negb (r2 =? 0) then Some (-1, po2) else Some (0, po2) in
  match ct with
  | Some c =>
      if 0 <=? range_bits c then
        '(r, po1) ← per_put_few_bits po present (range_bits c);
        if negb (r =? 0) then Some (-1, po1) else enc (member_codec elm) K HS v po1
      else unrestricted
  | None => unrestricted
  end.

Definition CHOICE_encode_uper (ct : option asn_per_constraint_t) (present : Z) (member : option asn_value)
    (po : asn_per_outp_t K) : option (Z * asn_per_outp_t K) :=
  if (present <=? 0) || (Z.of_nat (length elements) <? present) then Some (-1, po)
  else
    idx ← (match canonical_order specs with Some order => rd order (present - 1) | None => Some (present - 1) end);
    '(r, ct', po') ←
      (match ct with
       | Some c =>
           if (0 <=? range_bits c) && ((idx <? lower_bound c) || (upper_bound c <? idx)) then
             if has_flag c APC_EXTENSIBLE then '(r, po1) ← per_put_few_bits po 1 1; Some (r, None, po1)
             else Some (-1, None, po)
           else if has_flag c APC_EXTENSIBLE then '(r, po1) ← per_put_few_bits po 0 1; Some (r, ct, po1)
           else Some (0, ct, po)
       | None => Some (0, None, po)
       end);
    if negb (r =? 0) then Some (-1, po')
    else
      elm ← rd elements idx;
      if negb (idx =? present - 1) then None
      else
        match member with
        | Some v => encode_choice ct' idx elm v po'
        | None => if pointer elm then Some (-1, po') else None
        end.

End encode.
End choice.

Definition CHOICE (tmp : list Z) (specs : asn_CHOICE_specifics_t) (elements : list asn_TYPE_member_t)
    (own : option asn_per_constraints_t) : asn_TYPE_descriptor_t :=
  {| uper_codec constraints :=
       let ct := value <$> which constraints own in
       {| enc K HS v po :=
            match v with V_choice present m => CHOICE_encode_uper specs elements tmp ct present m po | _ => None end;
          dec := CHOICE_decode_uper specs elements ct |} |}.

(** ** SEQUENCE OF *)

Section list_of.
Context (elm : asn_TYPE_member_t).

Fixpoint decode_elements (n : nat) (pd : asn_per_data_t)
  : option (asn_dec_rval_code_e * list (option asn_value) * asn_per_data_t) :=
  match n with
  | O => Some (RC_OK, [], pd)
  | S n' =>
      '(r, v, pd1) ← dec (member_codec elm) pd;
      match r with
      | RC_OK => '(r', vs, pd2) ← decode_elements n' pd1; Some (r', Some v :: vs, pd2)
      | _ => Some (r, [], pd1)
      end
  end.

(** The loop with length determinants, from the elements [list] on. *)
Fixpoint decode_fragments (fuel : nat) (ebits : Z) (list : list (option asn_value)) (pd : asn_per_data_t)
  : option (asn_dec_rval_code_e * asn_value * asn_per_data_t) :=
  match fuel with
  | O => None
  | S f =>
      '(nelems, repeat, pd1) ← uper_get_length pd ebits;
      if nelems <? 0 then Some (RC_WMORE, V_list list, pd1)
      else
        '(r, vs, pd2) ← decode_elements (Z.to_nat nelems) pd1;
        match r with
        | RC_OK =>
            if (repeat : bool) then decode_fragments f ebits (list ++ vs) pd2
            else Some (RC_OK, V_list (list ++ vs), pd2)
        | _ => Some (r, V_list (list ++ vs), pd2)
        end
  end.

(** The decoder after the extension bit. *)
Definition decode_list (ct : option asn_per_constraint_t) (pd : asn_per_data_t)
  : option (asn_dec_rval_code_e * asn_value * asn_per_data_t) :=
  let ebits := match ct with Some c => effective_bits c | None => -1 end in
  match ct with
  | Some c =>
      if 0 <=? effective_bits c then
        '(n, pd1) ← per_get_few_bits pd (effective_bits c);
        if n <? 0 then Some (RC_WMORE, V_zero, pd1)
        else if n + lower_bound c <? 0 then decode_fragments (S (Z.to_nat (nbits pd1))) ebits [] pd1
        else
          '(r, vs, pd2) ← decode_elements (Z.to_nat (n + lower_bound c)) pd1;
          Some (r, V_list vs, pd2)
      else decode_fragments (S (Z.to_nat (nbits pd))) ebits [] pd
  | None => decode_fragments (S (Z.to_nat (nbits pd))) ebits [] pd
  end.

Definition SET_OF_decode_uper (ct : option asn_per_constraint_t) (pd : asn_per_data_t)
  : option (asn_dec_rval_code_e * asn_value * asn_per_data_t) :=
  match ct with
  | Some c =>
      if has_flag c APC_EXTENSIBLE then
        '(bit, pd1) ← per_get_few_bits pd 1;
        if bit <? 0 then Some (RC_WMORE, V_zero, pd1)
        else decode_list (if negb (bit =? 0) then None else ct) pd1
      else decode_list ct pd
  | None => decode_list ct pd
  end.

Section encode.
Context {K : Type} {HS : Sink K}.

(** The first [n] elements; a NULL element fails. *)
Fixpoint encode_elements (n : nat) (array : list (option asn_value)) (er : Z) (po : asn_per_outp_t K)
  : option (Z * asn_per_outp_t K) :=
  match n with
  | O => Some (er, po)
  | S n' =>
      match array with
      | [] => None
      | None :: _ => Some (-1, po)
      | Some v :: array' =>
          '(e, po1) ← enc (member_codec elm) K HS v po;
          if e =? -1 then Some (-1, po1) else encode_elements n' array' e po1
      end
  end.

(** The loop over [list->array] from [seq] on; it runs at least once. *)
Fixpoint encode_fragments (fuel : nat) (array : list (option asn_value)) (er : Z) (po : asn_per_outp_t K)
  : option (Z * asn_per_outp_t K) :=
  match fuel with
  | O => None
  | S f =>
      '(mayEncode, po1) ← uper_put_length po (Z.of_nat (length array));
      if mayEncode <? 0 then Some (-1, po1)
      else
        '(e, po2) ← encode_elements (Z.to_nat mayEncode) array er po1;
        if e =? -1 then Some (-1, po2)
        else
          match drop (Z.to_nat mayEncode) array with
          | [] => Some (e, po2)
          | rest => encode_fragments f rest e po2
          end
  end.

(** The encoder after the extension bit. *)
Definition encode_list (ct : option asn_per_constraint_t) (array : list (option asn_value)) (po : asn_per_outp_t K)
  : option (Z * asn_per_outp_t K) :=
  let free := encode_fragments (S (length array)) array 0 po in
  match ct with
  | Some c =>
      if 0 <=? effective_bits c then
        '(r, po1) ← per_put_few_bits po (Z.of_nat (length array) - lower_bound c) (effective_bits c);
        if negb (r =? 0) then Some (-1, po1) else encode_elements (length array) array 0 po1
      else free
  | None => free
  end.

Definition SEQUENCE_OF_encode_uper (ct : option asn_per_constraint_t) (array : list (option asn_value))
    (po : asn_per_outp_t K) : option (Z * asn_per_outp_t K) :=
  match ct with
  | Some c =>
      let count := Z.of_nat (length array) in
      let not_in_root := (count <? lower_bound c) || (upper_bound c <? count) in
      if has_flag c APC_EXTENSIBLE then
        '(r, po1) ← per_put_few_bits po (Z.b2z not_in_root) 1;
        if negb (r =? 0) then Some (-1, po1) else encode_list (if not_in_root then None else ct) array po1
      else if not_in_root && (0 <=? effective_bits c) then Some (-1, po)
      else encode_list ct array po
  | None => encode_list None array po
  end.

End encode.
End list_of.

Definition SEQUENCE_OF (elm : asn_TYPE_member_t) (own : option asn_per_constraints_t) : asn_TYPE_descriptor_t :=
  {| uper_codec constraints :=
       let ct := size <$> which constraints own in
       {| enc K HS v po := match v with V_list array => SEQUENCE_OF_encode_uper elm ct array po | _ => None end;
          dec := SET_OF_decode_uper elm ct |} |}.
