(* ===== verification/AsnChoice.v ===== *)
(** * AsnChoice: CHOICE and SEQUENCE OF keep their promises

    When the codecs of the members implement their specifications, the codecs of CHOICE and
    of SEQUENCE OF implement the ones built here from them. *)
From S2P Require Import Prelude PerSupport AsnInteger PerSafe PerCodec AsnTypes AsnString AsnOpenType AsnConstructed.

(** A member with the specification of its type. *)
Abbreviation field := (asn_TYPE_member_t * type_spec)%type.

Definition field_ok (f : field) : Prop := implements (member_codec f.1) f.2.

(** ** CHOICE *)

(** Tables of the ASN.1 compiler: the indices of the root are 0 to the upper bound and fit
    the field; no canonical order. *)
Record choice_wf (specs : asn_CHOICE_specifics_t) (fields : list field) (c : asn_per_constraint_t) : Prop := {
  choice_order : canonical_order specs = None;
  choice_bits : 0 <= range_bits c <= 31;
  choice_lower : lower_bound c = 0;
  choice_upper : 0 <= upper_bound c < Z.of_nat (length fields);
  choice_fits : upper_bound c < 2 ^ range_bits c;
  choice_ext : -1 <= ext_start specs }.

Definition choice_code (specs : asn_CHOICE_specifics_t) (fields : list field) (c : asn_per_constraint_t) (i : Z) (v : asn_value)
  : list bool :=
  match fields !! Z.to_nat i with
  | None => []
  | Some (_, s) =>
      (if has_flag c APC_EXTENSIBLE then [upper_bound c <? i] else []) ++
      if upper_bound c <? i then val_bits 7 (i - ext_start specs) ++ open_code (code s v)
      else val_bits (Z.to_nat (range_bits c)) i ++ code s v
  end.

(** A root alternative, or one of the first 64 additions, in an open type. *)
Definition choice_valid (specs : asn_CHOICE_specifics_t) (fields : list field) (c : asn_per_constraint_t) (i : Z) (v : asn_value) : Prop :=
  0 <= i /\ exists e s, fields !! Z.to_nat i = Some (e, s) /\
  if upper_bound c <? i then
    has_flag c APC_EXTENSIBLE = true /\ ext_start specs <> -1 /\ ext_start specs <= i <= ext_start specs + 63 /\ valid (open_spec s) v
  else valid s v.

Definition choice_spec (specs : asn_CHOICE_specifics_t) (fields : list field) (c : asn_per_constraint_t) : type_spec :=
  {| code v := match v with V_choice p (Some v) => choice_code specs fields c (p - 1) v | _ => [] end;
     valid v := exists i v', v = V_choice (i + 1) (Some v') /\ choice_valid specs fields c i v';
     typed v := exists (i : nat) v' e s, v = V_choice (Z.of_nat i + 1) (Some v') /\ fields !! i = Some (e, s) /\ typed s v' |}.

Section choice.
Context (tmp : list Z) (Htb : bytes tmp) (Htl : length tmp = 32%nat).
Context (specs : asn_CHOICE_specifics_t) (fields : list field) (c : asn_per_constraint_t).
Context (Hwf : choice_wf specs fields c) (Hf : Forall field_ok fields).

Lemma field_lookup i e s : fields !! i = Some (e, s) -> implements (member_codec e) s.
Proof. intros E. exact (list.Forall_lookup_1 _ _ _ _ Hf E). Qed.

Lemma rd_fields i e s : 0 <= i -> fields !! Z.to_nat i = Some (e, s) -> rd fields.*1 i = Some e.
Proof. intros Hi E. by rewrite rd_nonneg, list_lookup_fmap, E. Qed.

Lemma CHOICE_encode_at {K} {HS : Sink K} B (po : asn_per_outp_t K) i v :
  choice_valid specs fields c i v -> po_at B po ->
  encodes (B ++ choice_code specs fields c i v) (CHOICE_encode_uper specs fields.*1 tmp (Some c) (i + 1) (Some v) po).
Proof.
  intros (Hi & e & s & Hlk & Hv) Hat. pose proof (field_lookup _ _ _ Hlk) as Himp. pose proof (lookup_lt_Some _ _ _ Hlk).
  destruct Hwf as [Hord Hbits Hlow Hup Hfit Hext]. unfold CHOICE_encode_uper, choice_code. rewrite Hlk, Hord.
  rewrite length_fmap, (proj2 (Z.leb_gt _ 0)), (proj2 (Z.ltb_ge _ (i + 1))), Z.add_simpl_r by lia. cbn [orb mbind option_bind].
  rewrite Hlow, (proj2 (Z.leb_le 0 _)), (proj2 (Z.ltb_ge i 0)) by lia. cbn [orb andb].
  rewrite (rd_fields i e s Hi Hlk), Z.eqb_refl. unfold encode_choice.
  destruct (Z.ltb_spec (upper_bound c) i) as [Hgt|Hle].
  - destruct Hv as (-> & Hne & Hr & Hv & _ & Hsm & _). rewrite (proj2 (Z.eqb_neq _ (-1))) by done.
    rewrite !app_assoc. intros Hn.
    destruct (accepts_bit B po true Hat) as (po1 & E & Hat1).
    { intros Hr'. by apply Hn, refused_app, refused_app. }
    change (Z.b2z true) with 1 in E. rewrite E. cbn [mbind option_bind negb Z.eqb]. revert Hn.
    apply accepts_then.
    + unfold uper_put_nsnnwn. rewrite (proj2 (Z.leb_le _ 63)), (proj2 (Z.ltb_ge _ 0)) by lia. by apply (accepts_few _ _ _ 7).
    + intros po2 Hat2. cbn [negb Z.eqb]. apply accepts_encodes, accepts_last; [by apply open_type_put_at|done].
  - rewrite app_assoc. destruct (has_flag c APC_EXTENSIBLE).
    + rewrite (app_assoc (B ++ _)). intros Hn. destruct (accepts_bit B po false Hat) as (po1 & E & Hat1).
      { intros Hr'. by apply Hn, refused_app, refused_app. }
      change (Z.b2z false) with 0 in E. rewrite E. cbn [mbind option_bind negb Z.eqb].
      rewrite (proj2 (Z.leb_le 0 _)) by lia. revert Hn. apply accepts_then; [by apply accepts_few; [|lia]|].
      intros po2 Hat2. cbn [negb Z.eqb]. by apply Himp.
    + rewrite app_nil_r. cbn [mbind option_bind negb Z.eqb].
      rewrite (proj2 (Z.leb_le 0 _)), app_assoc by lia. apply accepts_then; [by apply accepts_few; [|lia]|].
      intros po2 Hat2. cbn [negb Z.eqb]. by apply Himp.
Qed.

Lemma CHOICE_decode_at L pd i v : choice_valid specs fields c i v ->
  pd_at (choice_code specs fields c i v ++ L) pd ->
  exists pd', CHOICE_decode_uper specs fields.*1 (Some c) pd = Some (RC_OK, V_choice (i + 1) (Some v), pd') /\ pd_at L pd'.
Proof.
  intros (Hi & e & s & Hlk & Hv) Hpd. pose proof (field_lookup _ _ _ Hlk) as Himp. pose proof (lookup_lt_Some _ _ _ Hlk).
  destruct Hwf as [Hord Hbits Hlow Hup Hfit Hext]. unfold CHOICE_decode_uper. unfold choice_code in Hpd. rewrite Hlk in Hpd.
  assert (Hroot : i <= upper_bound c -> valid s v -> forall pd1, pd_at (val_bits (Z.to_nat (range_bits c)) i ++ code s v ++ L) pd1 ->
    exists pd', decode_choice specs fields.*1 (Some c) pd1 = Some (RC_OK, V_choice (i + 1) (Some v), pd') /\ pd_at L pd').
  { intros Hle Hvv pd1 Hpd1. unfold decode_choice, decode_alternative. rewrite Hord, (proj2 (Z.leb_le 0 _)) by lia.
    destruct (per_get_few_bits_at _ pd1 (range_bits c) _ Hpd1) as (pd2 & -> & Hpd2 & _); [rewrite length_val_bits, Z2Nat.id; lia|lia|].
    cbn [mbind option_bind]. rewrite bits_val_small by (rewrite Z2Nat.id; lia).
    rewrite (proj2 (Z.ltb_ge _ 0)), (proj2 (Z.ltb_ge _ i)), (rd_fields i e s) by (done || lia). cbn [mbind option_bind].
    destruct (dec_at _ _ Himp v L pd2 Hvv Hpd2) as (pd' & -> & Hpd'). by exists pd'. }
  destruct (Z.ltb_spec (upper_bound c) i) as [Hgt|Hle].
  - destruct Hv as (Hflag & Hne & Hr & Hv). rewrite Hflag in *. rewrite <- !app_assoc in Hpd.
    destruct (per_get_few_bits_at _ pd 1 _ Hpd) as (pd1 & -> & Hpd1 & _); [done|done|]. cbn [mbind option_bind].
    change (bits_val [true] <? 0) with false. change (negb (bits_val [true] =? 0)) with true. cbn iota.
    unfold decode_choice, decode_alternative. rewrite (proj2 (Z.eqb_neq _ (-1))) by done.
    destruct (uper_get_nsnnwn_at (open_code (code s v) ++ L) pd1 (i - ext_start specs)) as (pd2 & -> & Hpd2); [lia| |].
    { unfold nsnnwn_code. by rewrite (proj2 (Z.leb_le _ 63)) by lia. }
    cbn [mbind option_bind]. rewrite (proj2 (Z.ltb_ge _ 0)), Z.sub_add, length_fmap, (proj2 (Z.leb_gt _ i)), Hord by lia.
    cbn [mbind option_bind]. rewrite (rd_fields i e s) by done. cbn [mbind option_bind].
    destruct (dec_at _ _ (open_type_implements tmp Htb Htl _ _ Himp) v L pd2 Hv Hpd2) as (pd' & E & Hpd').
    cbn [dec open_type] in E. rewrite E. by exists pd'.
  - destruct (has_flag c APC_EXTENSIBLE); rewrite <- !app_assoc in Hpd; [|by apply Hroot].
    destruct (per_get_few_bits_at _ pd 1 _ Hpd) as (pd1 & -> & Hpd1 & _); [done|done|]. by apply Hroot.
Qed.

Lemma decode_choice_reads ct pd : (forall c', ct = Some c' -> c' = c) ->
  reads pd (decode_choice specs fields.*1 ct pd) (fun '(r, v) _ => r = RC_OK -> typed (choice_spec specs fields c) v).
Proof.
  intros Hct. destruct Hwf as [Hord Hbits Hlow Hup Hfit Hext].
  assert (Halt : forall v pd1, 0 <= v < Z.of_nat (length fields) ->
    reads pd1 (decode_alternative specs fields.*1 ct v pd1) (fun '(r, v) _ => r = RC_OK -> typed (choice_spec specs fields c) v)).
  { intros v pd1 Hv. unfold decode_alternative. rewrite Hord. cbn [mbind option_bind].
    destruct (lookup_lt_is_Some_2 fields (Z.to_nat v) ltac:(lia)) as [[e s] Hlk]. pose proof (field_lookup _ _ _ Hlk) as Himp.
    rewrite (rd_fields v e s) by (done || lia). cbn [mbind option_bind].
    eapply (reads_bind _ _ _ (fun '(r, v) _ => r = RC_OK -> typed s v)).
    - destruct ct as [c'|]; [destruct (0 <=? range_bits c')|]; [by apply Himp|by apply open_type_get_reads; apply Himp..].
    - intros [r v'] pd2 _ Ht. apply reads_ret. intros Hr. exists (Z.to_nat v), v', e, s. rewrite Z2Nat.id by lia. auto. }
  assert (Hun : reads pd (if ext_start specs =? -1 then Some (RC_FAIL, V_zero, pd)
    else '(value, pd1) ← uper_get_nsnnwn pd;
      if value <? 0 then Some (RC_WMORE, V_zero, pd1)
      else if Z.of_nat (length fields.*1) <=? value + ext_start specs then Some (RC_FAIL, V_zero, pd1)
      else decode_alternative specs fields.*1 ct (value + ext_start specs) pd1)
      (fun '(r, v) _ => r = RC_OK -> typed (choice_spec specs fields c) v)).
  { destruct (Z.eqb_spec (ext_start specs) (-1)); [by apply reads_ret|].
    apply (reads_bind _ _ _ _ _ (uper_get_nsnnwn_reads pd)). intros v pd1 _ _. destruct (Z.ltb_spec v 0); [by apply reads_ret|].
    rewrite length_fmap. destruct (Z.leb_spec (Z.of_nat (length fields)) (v + ext_start specs)); [by apply reads_ret|].
    apply Halt. lia. }
  unfold decode_choice. destruct ct as [c'|]; [|exact Hun]. rewrite (Hct c' eq_refl) in *. destruct (0 <=? range_bits c); [|exact Hun].
  apply few_bits_bind. intros v pd1 _ _. destruct (Z.ltb_spec v 0); [by apply reads_ret|].
  destruct (Z.ltb_spec (upper_bound c) v); [by apply reads_ret|]. apply Halt. lia.
Qed.

End choice.

Lemma CHOICE_implements tmp specs fields own constraints c :
  bytes tmp -> length tmp = 32%nat -> value <$> which constraints own = Some c -> choice_wf specs fields c ->
  Forall field_ok fields ->
  implements (uper_codec (CHOICE tmp specs fields.*1 own) constraints) (choice_spec specs fields c).
Proof.
  intros Htb Htl Hct Hwf Hf. split; cbn [enc dec uper_codec CHOICE]; rewrite Hct.
  - intros K HS B po v (i & v' & -> & Hv) Hat. cbn [code choice_spec]. rewrite Z.add_simpl_r. by apply CHOICE_encode_at.
  - intros v L pd (i & v' & -> & Hv) Hpd. cbn [code choice_spec] in Hpd. rewrite Z.add_simpl_r in Hpd.
    by apply (CHOICE_decode_at tmp).
  - intros pd. unfold CHOICE_decode_uper. destruct (has_flag c _); [|by apply (decode_choice_reads tmp); [..|by intros ? [= <-]]].
    apply few_bits_bind. intros b pd1 _ _. destruct (b <? 0); [by apply reads_ret|].
    apply (decode_choice_reads tmp); [done..|]. destruct (negb _); [done|by intros ? [= <-]].
Qed.

(** ** SEQUENCE OF *)

Definition element_code (s : type_spec) (m : option asn_value) : list bool :=
  match m with Some v => code s v | None => [] end.

Definition element_valid (s : type_spec) (m : option asn_value) : Prop := exists v, m = Some v /\ valid s v.

Definition list_outside (c : asn_per_constraint_t) (n : Z) : bool := (n <? lower_bound c) || (upper_bound c <? n).

(** The constraint that is left after the extension bit. *)
Definition list_ct (ct : option asn_per_constraint_t) (n : Z) : option asn_per_constraint_t :=
  c ← ct; if has_flag c APC_EXTENSIBLE && list_outside c n then None else Some c.

Definition list_size_code (ct : option asn_per_constraint_t) (n : Z) : list bool :=
  match ct with Some c => size_code c n | None => fst (length_code n) end.

Definition list_size_ok (ct : option asn_per_constraint_t) (n : Z) : Prop :=
  match ct with Some c => size_ok c n | None => 0 <= n < 16384 end.

Definition list_spec (s : type_spec) (ct : option asn_per_constraint_t) : type_spec :=
  {| code v :=
       match v with
       | V_list array =>
           let n := Z.of_nat (length array) in
           match ct with
           | Some c => if has_flag c APC_EXTENSIBLE then [list_outside c n] else []
           | None => []
           end ++ list_size_code (list_ct ct n) n ++ (array ≫= element_code s)
       | _ => []
       end;
     valid v := exists array, v = V_list array /\ Forall (element_valid s) array /\
       list_size_ok (list_ct ct (Z.of_nat (length array))) (Z.of_nat (length array));
     typed v := exists array, v = V_list array /\ Forall (fun m => exists v', m = Some v' /\ typed s v') array |}.

Section list_of.
Context (elm : asn_TYPE_member_t) (s : type_spec) (Himp : implements (member_codec elm) s).

Lemma encode_elements_at {K} {HS : Sink K} array : forall B er (po : asn_per_outp_t K),
  po_at B po -> er <> -1 -> Forall (element_valid s) array ->
  encodes (B ++ (array ≫= element_code s)) (encode_elements elm (length array) array er po).
Proof.
  induction array as [|m array IH]; intros B er po Hat Her Hall.
  { rewrite app_nil_r. by apply encodes_ret. }
  apply Forall_cons_1 in Hall as [(v & -> & Hv) Hall]. cbn [encode_elements length]. cbn [mbind list_bind element_code].
  rewrite app_assoc. apply encodes_bind; [by apply Himp|]. intros e po1 He Hat1.
  rewrite (proj2 (Z.eqb_neq e (-1))) by done. by apply IH.
Qed.

Lemma decode_elements_at array : forall L pd, Forall (element_valid s) array ->
  pd_at ((array ≫= element_code s) ++ L) pd ->
  exists pd', decode_elements elm (length array) pd = Some (RC_OK, array, pd') /\ pd_at L pd'.
Proof.
  induction array as [|m array IH]; intros L pd Hall Hpd; [by exists pd|].
  apply Forall_cons_1 in Hall as [(v & -> & Hv) Hall]. cbn [mbind list_bind element_code] in Hpd. rewrite <- app_assoc in Hpd.
  cbn [decode_elements length]. destruct (dec_at _ _ Himp v _ pd Hv Hpd) as (pd1 & -> & Hpd1). cbn [mbind option_bind].
  destruct (IH L pd1 Hall Hpd1) as (pd' & -> & Hpd'). by exists pd'.
Qed.

Lemma decode_elements_reads n : forall pd, reads pd (decode_elements elm n pd)
  (fun '(r, vs) _ => r = RC_OK -> Forall (fun m => exists v', m = Some v' /\ typed s v') vs).
Proof.
  induction n as [|n IH]; intros pd; cbn [decode_elements].
  { apply reads_ret. constructor. }
  eapply reads_bind; [apply Himp|]. intros [[] v] pd1 _ Ht; try by apply reads_ret.
  eapply reads_bind; [apply IH|]. intros [r vs] pd2 _ Hvs. apply reads_ret. intros Hr.
  constructor; [exists v; auto|by apply Hvs].
Qed.

Lemma decode_fragments_reads fuel : forall ebits list pd, pd_left pd < Z.of_nat fuel ->
  Forall (fun m => exists v', m = Some v' /\ typed s v') list ->
  reads pd (decode_fragments elm fuel ebits list pd) (fun '(r, v) _ => r = RC_OK -> typed (list_spec s None) v).
Proof.
  induction fuel as [|fuel IH]; intros ebits list pd Hf Hl.
  { intros Hok. pose proof (pd_off pd Hok). unfold pd_left in Hf. lia. }
  cbn [decode_fragments]. apply (reads_bind _ _ _ _ _ (uper_get_length_reads pd ebits)).
  intros [n rep] pd1 _ (Hle & _ & Hrep). destruct (Z.ltb_spec n 0); [by apply reads_ret|].
  eapply reads_bind_left; [apply decode_elements_reads|]. intros [r vs] pd2 _ Hle2 Hvs.
  destruct r; try by apply reads_ret.
  assert (Forall (fun m => exists v', m = Some v' /\ typed s v') (list ++ vs)) by (apply Forall_app; auto).
  destruct rep; [|apply reads_ret; intros _; by exists (list ++ vs)].
  apply IH; [|done]. specialize (Hrep ltac:(lia) eq_refl). lia.
Qed.

Lemma decode_list_reads ct pd :
  reads pd (decode_list elm ct pd) (fun '(r, v) _ => r = RC_OK -> typed (list_spec s None) v).
Proof.
  assert (Hfr : forall ebits pd, reads pd (decode_fragments elm (S (Z.to_nat (nbits pd))) ebits [] pd)
    (fun '(r, v) _ => r = RC_OK -> typed (list_spec s None) v)).
  { intros ebits pd' Hok. apply decode_fragments_reads; [|constructor|done]. pose proof (pd_off pd' Hok). unfold pd_left. lia. }
  unfold decode_list. destruct ct as [c|]; [|apply Hfr]. destruct (0 <=? effective_bits c); [|apply Hfr].
  apply few_bits_bind. intros n pd1 _ _. destruct (n <? 0); [by apply reads_ret|]. destruct (_ <? 0); [apply Hfr|].
  eapply reads_bind; [apply decode_elements_reads|]. intros [[] vs] pd2 _ Hvs; try by apply reads_ret.
  apply reads_ret. intros _. exists vs. auto.
Qed.

(** The encoder and the decoder after the extension bit. *)
Lemma encode_list_at {K} {HS : Sink K} B (po : asn_per_outp_t K) ct array :
  po_at B po -> Forall (element_valid s) array -> list_size_ok ct (Z.of_nat (length array)) ->
  encodes (B ++ list_size_code ct (Z.of_nat (length array)) ++ (array ≫= element_code s)) (encode_list elm ct array po).
Proof.
  intros Hat Hall Hsz. set (n := Z.of_nat (length array)) in *. rewrite app_assoc.
  assert (Hfree : 0 <= n < 16384 -> encodes ((B ++ fst (length_code n)) ++ (array ≫= element_code s))
    (encode_fragments elm (S (length array)) array 0 po)).
  { intros Hn. cbn [encode_fragments]. fold n. apply length_then; [done|lia|]. intros po1 Hat1.
    assert (snd (length_code n) = n) as ->.
    { unfold length_code. destruct (n <=? 127); [done|]. by rewrite (proj2 (Z.ltb_lt _ _)) by lia. }
    rewrite (proj2 (Z.ltb_ge n 0)) by lia. assert (Z.to_nat n = length array) as -> by apply Nat2Z.id. rewrite <- (app_nil_r ((B ++ _) ++ _)).
    apply encodes_bind; [by apply encode_elements_at|]. intros e po2 He Hat2. rewrite (proj2 (Z.eqb_neq e (-1))) by done.
    rewrite drop_all, app_nil_r. by apply encodes_ret. }
  unfold encode_list. destruct ct as [c|]; [|exact (Hfree Hsz)]. cbn [list_size_code list_size_ok] in *.
  destruct Hsz as [Hn Hs]. unfold size_code in *. destruct (Z.leb_spec 0 (effective_bits c)); [|apply Hfree; lia].
  apply accepts_then; [by apply accepts_few; [|lia]|]. intros po1 Hat1. cbn [negb Z.eqb]. by apply encode_elements_at.
Qed.

Lemma decode_list_at L pd ct array : Forall (element_valid s) array -> list_size_ok ct (Z.of_nat (length array)) ->
  pd_at (list_size_code ct (Z.of_nat (length array)) ++ (array ≫= element_code s) ++ L) pd ->
  exists pd', decode_list elm ct pd = Some (RC_OK, V_list array, pd') /\ pd_at L pd'.
Proof.
  intros Hall Hsz Hpd. set (n := Z.of_nat (length array)) in *.
  assert (Hfree : forall ebits, ebits < 0 -> 0 <= n < 16384 -> pd_at (fst (length_code n) ++ (array ≫= element_code s) ++ L) pd ->
    exists pd', decode_fragments elm (S (Z.to_nat (nbits pd))) ebits [] pd = Some (RC_OK, V_list array, pd') /\ pd_at L pd').
  { intros ebits He Hn Hpd'. cbn [decode_fragments].
    assert (uper_get_length pd ebits = uper_get_length pd (-1)) as ->.
    { unfold uper_get_length. by rewrite (proj2 (Z.leb_gt 0 ebits)) by done. }
    destruct (uper_get_length_general _ pd n ltac:(lia) Hpd') as (pd1 & -> & Hpd1). cbn [mbind option_bind].
    assert (snd (length_code n) = n) as ->.
    { unfold length_code. destruct (n <=? 127); [done|]. by rewrite (proj2 (Z.ltb_lt _ _)) by lia. }
    rewrite (proj2 (Z.ltb_ge n 0)), (proj2 (Z.leb_gt 16384 n)) by lia. unfold n. rewrite Nat2Z.id.
    destruct (decode_elements_at array L pd1 Hall Hpd1) as (pd' & -> & Hpd''). by exists pd'. }
  unfold decode_list. destruct ct as [c|]; [|exact (Hfree (-1) eq_refl Hsz Hpd)]. cbn [list_size_code list_size_ok] in *.
  destruct Hsz as [Hn Hs]. unfold size_code in *. destruct (Z.leb_spec 0 (effective_bits c)); [|apply Hfree; [done|lia|done]].
  destruct Hs as (H16 & Hr & Hfit & _).
  destruct (per_get_few_bits_at _ pd (effective_bits c) _ Hpd) as (pd1 & -> & Hpd1 & _); [rewrite length_val_bits, Z2Nat.id; lia|lia|].
  cbn [mbind option_bind]. rewrite bits_val_small by (rewrite Z2Nat.id; lia). rewrite Z.sub_add.
  rewrite !(proj2 (Z.ltb_ge _ 0)) by lia. unfold n. rewrite Nat2Z.id.
  destruct (decode_elements_at array L pd1 Hall Hpd1) as (pd' & -> & Hpd''). by exists pd'.
Qed.

End list_of.

Lemma SEQUENCE_OF_implements elm s own constraints : implements (member_codec elm) s ->
  implements (uper_codec (SEQUENCE_OF elm own) constraints) (list_spec s (size <$> which constraints own)).
Proof.
  intros Himp. split; cbn [enc dec uper_codec SEQUENCE_OF]; set (ct := size <$> which constraints own).
  - intros K HS B po v (array & -> & Hall & Hsz) Hat. cbn [code list_spec]. set (n := Z.of_nat (length array)) in *.
    unfold SEQUENCE_OF_encode_uper. destruct ct as [c|]; [|by apply (encode_list_at elm s)].
    fold n. change ((n <? lower_bound c) || (upper_bound c <? n)) with (list_outside c n).
    unfold list_ct in *. cbn [mbind option_bind] in *. destruct (has_flag c _); cbn [andb] in *.
    + rewrite app_assoc. apply accepts_then; [by apply accepts_bit|]. intros po1 Hat1. cbn [negb Z.eqb].
      by destruct (list_outside c n); apply encode_list_at.
    + destruct (list_outside c n && (0 <=? effective_bits c)) eqn:Ho; [exfalso|by apply (encode_list_at elm s)].
      apply andb_prop in Ho as [Ho He]. destruct Hsz as [_ Hs]. rewrite He in Hs. unfold list_outside in Ho.
      apply orb_prop in Ho as [Ho|Ho]; apply Z.ltb_lt in Ho; lia.
  - intros v L pd (array & -> & Hall & Hsz) Hpd. cbn [code list_spec] in Hpd. set (n := Z.of_nat (length array)) in *.
    rewrite <- !app_assoc in Hpd. unfold SET_OF_decode_uper. destruct ct as [c|]; [|by apply (decode_list_at elm s)].
    unfold list_ct in *. cbn [mbind option_bind] in *. destruct (has_flag c _); cbn [andb] in *; [|by apply (decode_list_at elm s)].
    destruct (per_get_few_bits_at _ pd 1 _ Hpd) as (pd1 & -> & Hpd1 & _); [done|done|]. cbn [mbind option_bind].
    destruct (list_outside c n); by apply (decode_list_at elm s).
  - intros pd. unfold SET_OF_decode_uper. destruct ct as [c|]; [|by apply decode_list_reads].
    destruct (has_flag c _); [|by apply decode_list_reads].
    apply few_bits_bind. intros b pd1 _ _. destruct (b <? 0); [by apply reads_ret|]. by apply decode_list_reads.
Qed.
