(* ===== verification/AsnSequence.v ===== *)
(** * AsnSequence: SEQUENCE keeps its promises

    When the codecs of the members implement their specifications, the codec of SEQUENCE
    implements the one built here from them: the extension bit, the presence map, the root
    members and the extension additions in open types. *)
From S2P Require Import Prelude PerSupport AsnInteger PerSafe PerCodec AsnTypes AsnOpenType AsnConstructed AsnChoice.

(** ** Specification *)

(** Numbers of the optional members, from [k] on. *)
Fixpoint optional_indices (k : Z) (root : list field) : list Z :=
  match root with
  | [] => []
  | f :: root' => (if optional f.1 then [k] else []) ++ optional_indices (k + 1) root'
  end.

(** Tables of the ASN.1 compiler for a type with the members [root] and the extension
    additions [adds]: no extension marker, or additions up to the end; [oms] numbers the
    optional members of the root; only optional members have defaults; the last loop of the
    decoder meets no default. *)
Record sequence_wf (specs : asn_SEQUENCE_specifics_t) (root adds : list field) : Prop := {
  seq_ext :
    (ext_before specs < 0 /\ ext_after specs < 0 /\ adds = []) \/
    (ext_after specs = Z.of_nat (length root) - 1 /\ ext_before specs = Z.of_nat (length (root ++ adds)) + 1);
  seq_roms : roms_count specs = Z.of_nat (length (optional_indices 0 root));
  seq_oms : take (Z.to_nat (roms_count specs)) (oms specs) = optional_indices 0 root;
  seq_default : Forall (fun f : field => default_value f.1 <> None -> optional f.1 = true) root;
  seq_fill : forall i, roms_count specs <= i < roms_count specs + aoms_count specs ->
    exists f : field, (root ++ adds) !! Z.to_nat i = Some f /\ (default_value f.1 = None \/ pointer f.1 = false);
  seq_adds : Z.of_nat (length adds) <= 64 }.

(** A member of the root: encoded, or equal to its default, or absent. *)
Definition shown (e : asn_TYPE_member_t) (m : option asn_value) : bool :=
  match m with Some v => negb (is_default e v) | None => false end.

Definition presence_code (f : field) (m : option asn_value) : list bool := if optional f.1 then [shown f.1 m] else [].

Definition member_code (f : field) (m : option asn_value) : list bool :=
  match m with Some v => if is_default f.1 v then [] else code f.2 v | None => [] end.

Definition root_valid (f : field) (m : option asn_value) : Prop :=
  match m with
  | None => pointer f.1 = true /\ optional f.1 = true /\ default_value f.1 = None
  | Some v => if is_default f.1 v then exists eq, default_value f.1 = Some (v, eq) else valid f.2 v
  end.

(** An extension addition. *)
Definition is_there (m : option asn_value) : bool := match m with Some _ => true | None => false end.

Definition addition_code (marks fields : bool) (f : field) (m : option asn_value) : list bool :=
  (if marks then [is_there m] else []) ++
  (if fields then match m with Some v => open_code (code f.2 v) | None => [] end else []).

Definition add_valid (f : field) (m : option asn_value) : Prop :=
  match m with None => pointer f.1 = true | Some v => valid (open_spec f.2) v end.

Definition sequence_code (specs : asn_SEQUENCE_specifics_t) (root adds : list field) (ms : list (option asn_value)) : list bool :=
  let rms := take (length root) ms in
  let ams := drop (length root) ms in
  let ext := existsb is_there ams in
  (if 0 <=? ext_before specs then [ext] else []) ++
  concat (zip_with presence_code root rms) ++ concat (zip_with member_code root rms) ++
  (if ext then
     val_bits 7 (Z.of_nat (length adds) - 1) ++
     concat (zip_with (addition_code true false) adds ams) ++ concat (zip_with (addition_code false true) adds ams)
   else []).

(** Members as the decoder may leave them. *)
Definition root_typed (f : field) (m : option asn_value) : Prop :=
  (exists v, m = Some v /\ typed f.2 v) \/ (optional f.1 = true /\ m = absent_member f.1).

Definition add_typed (f : field) (m : option asn_value) : Prop :=
  (exists v, m = Some v /\ typed f.2 v) \/ m = zero_member f.1.

Definition sequence_spec (specs : asn_SEQUENCE_specifics_t) (root adds : list field) : type_spec :=
  {| code v := match v with V_seq ms => sequence_code specs root adds ms | _ => [] end;
     valid v := exists rms ams, v = V_seq (rms ++ ams) /\ Forall2 root_valid root rms /\ Forall2 add_valid adds ams;
     typed v := exists rms ams, v = V_seq (rms ++ ams) /\ Forall2 root_typed root rms /\ Forall2 add_typed adds ams |}.

(** ** Proofs *)

Lemma rd_drop {A} (l : list A) i x l' : 0 <= i -> drop (Z.to_nat i) l = x :: l' ->
  rd l i = Some x /\ drop (Z.to_nat (i + 1)) l = l'.
Proof.
  intros Hi E. rewrite rd_nonneg by done. split.
  - by rewrite <- (Nat.add_0_r (Z.to_nat i)), <- lookup_drop, E.
  - replace (Z.to_nat (i + 1)) with (Z.to_nat i + 1)%nat by lia. by rewrite <- drop_drop, E.
Qed.

Section sequence.
Context (tmp : list Z) (Htb : bytes tmp) (Htl : length tmp = 32%nat).
Context (specs : asn_SEQUENCE_specifics_t) (root adds : list field) (Hwf : sequence_wf specs root adds).
Context (Hroot : Forall field_ok root) (Hadds : Forall field_ok adds).

Abbreviation elements := ((root ++ adds).*1).

Lemma in_root edx : 0 <= edx < Z.of_nat (length root) -> IN_EXTENSION_GROUP specs edx = false.
Proof.
  intros He. unfold IN_EXTENSION_GROUP. destruct (seq_ext _ _ _ Hwf) as [(H1 & H2 & _)|(H1 & H2)].
  - by rewrite (proj2 (Z.ltb_ge edx _)), andb_false_r by lia.
  - by rewrite (proj2 (Z.ltb_ge _ edx)) by lia.
Qed.

Lemma in_adds edx : Z.of_nat (length root) <= edx < Z.of_nat (length (root ++ adds)) -> IN_EXTENSION_GROUP specs edx = true.
Proof.
  intros He. unfold IN_EXTENSION_GROUP. destruct (seq_ext _ _ _ Hwf) as [(H1 & H2 & Ha)|(H1 & H2)].
  - rewrite Ha, app_nil_r in He. lia.
  - by rewrite !(proj2 (Z.ltb_lt _ _)) by lia.
Qed.

(** *** Encoder *)

Section encoder.
Context {K : Type} {HS : Sink K} (rms ams : list (option asn_value)).
Context (Hrms : Forall2 root_valid root rms) (Hams : Forall2 add_valid adds ams).

Abbreviation st := (rms ++ ams).

Lemma root_present f m : root_valid f m -> is_present f.1 m = is_there m.
Proof. unfold root_valid, is_present. destruct m; [by destruct (pointer f.1)|]. by intros (-> & _). Qed.

Lemma add_present f m : add_valid f m -> is_present f.1 m = is_there m.
Proof. unfold add_valid, is_present. destruct m; [by destruct (pointer f.1)|]. by intros ->. Qed.

(** Additions: their marks, or their fields, and how many there are. *)
Lemma extensions_loop_at marks fields fs : forall ms edx p c B (po : asn_per_outp_t K),
  Forall2 add_valid fs ms -> Forall field_ok fs -> drop (Z.to_nat edx) st = ms ->
  Z.of_nat (length root) <= edx -> edx + Z.of_nat (length fs) <= Z.of_nat (length (root ++ adds)) ->
  0 <= p -> po_at B po -> ~ refused (B ++ concat (zip_with (addition_code marks fields) fs ms)) ->
  exists po', extensions_loop specs tmp st fs.*1 edx marks fields p c po =
      Some (if (p =? 0) && negb (existsb is_there ms) then 0 else c + Z.of_nat (length fs), po') /\
    po_at (B ++ concat (zip_with (addition_code marks fields) fs ms)) po'.
Proof.
  induction fs as [|f fs IH]; intros ms edx p c B po Hv Hok Hd Hlo Hhi Hp Hat Hn.
  { apply Forall2_nil_inv_l in Hv as ->. exists po. cbn [fmap list_fmap extensions_loop zip_with concat existsb negb length]. rewrite app_nil_r, andb_true_r. split; [|done].
    do 2 f_equal. destruct (Z.eqb_spec p 0); cbn [negb]; [done|lia]. }
  apply Forall2_cons_inv_l in Hv as (m & ms' & Hf & Hv' & ->).
  apply Forall_cons_1 in Hok as [Hfok Hok]. cbn [length] in Hhi.
  destruct (rd_drop _ edx _ _ ltac:(lia) Hd) as [Hrd Hd'].
  change ((f :: fs).*1) with (f.1 :: fs.*1). cbn [extensions_loop]. rewrite in_adds by lia. cbn [negb]. rewrite Hrd. cbn [mbind option_bind].
  rewrite (add_present f m Hf). cbn [zip_with concat] in Hn |- *.
  set (F := if fields then match m with Some v => open_code (code f.2 v) | None => [] end else []).
  assert (EB : forall D, B ++ addition_code marks fields f m ++ D = ((B ++ if marks then [is_there m] else []) ++ F) ++ D).
  { intros D. unfold addition_code. by rewrite <- !app_assoc. }
  rewrite EB in Hn |- *.
  assert (Hmark : exists po1, (if marks then per_put_few_bits po (Z.b2z (is_there m)) 1 else Some (0, po)) = Some (0, po1) /\
    po_at (B ++ if marks then [is_there m] else []) po1).
  { destruct marks; [|exists po; by rewrite app_nil_r]. apply accepts_bit; [done|]. intros Hr. by apply Hn, refused_app, refused_app. }
  destruct Hmark as (po1 & -> & Hat1). cbn [mbind option_bind negb Z.eqb].
  set (B1 := B ++ if marks then [is_there m] else []) in *.
  assert (Hfield : exists po2, (if fields && is_there m then v ← m; uper_open_type_put tmp (member_codec f.1) v po1 else Some (0, po1)) = Some (0, po2) /\
    po_at (B1 ++ F) po2).
  { unfold F in *. destruct fields; [|exists po1; by rewrite app_nil_r]. destruct m as [v|]; [|exists po1; by rewrite app_nil_r].
    cbn [andb is_there mbind option_bind]. destruct Hf as (Hvv & _ & Hsm & _).
    apply (open_type_put_at tmp Htb Htl _ f.2); [done..|]. intros Hr. by apply Hn, refused_app. }
  destruct Hfield as (po2 & -> & Hat2). cbn [mbind option_bind negb Z.eqb].
  destruct (IH ms' (edx + 1) (p + Z.b2z (is_there m)) (c + 1) (B1 ++ F) po2 Hv' Hok) as (po' & E & Hat'); [done|lia|lia|by destruct (is_there m); cbn; lia|done|done|].
  exists po'. rewrite E. split; [|done]. do 2 f_equal. cbn [existsb length]. destruct (is_there m); cbn [orb Z.b2z].
  - rewrite (proj2 (Z.eqb_neq (p + 1) 0)) by lia. cbn [andb negb]. rewrite andb_false_r. lia.
  - rewrite Z.add_0_r. destruct ((p =? 0) && _); [done|lia].
Qed.

Lemma st_root_drop : drop (length root) st = ams.
Proof. rewrite (Forall2_length Hrms). apply drop_app_length. Qed.

Lemma handle_extensions_at marks fields B (po : asn_per_outp_t K) : 0 <= ext_before specs -> po_at B po ->
  ~ refused (B ++ concat (zip_with (addition_code marks fields) adds ams)) ->
  exists po', SEQUENCE_handle_extensions specs elements tmp st marks fields po =
      Some (if existsb is_there ams then Z.of_nat (length adds) else 0, po') /\
    po_at (B ++ concat (zip_with (addition_code marks fields) adds ams)) po'.
Proof.
  intros He Hat Hn. unfold SEQUENCE_handle_extensions. rewrite (proj2 (Z.ltb_ge _ 0)) by done.
  destruct (seq_ext _ _ _ Hwf) as [(H1 & _)|(H1 & H2)]; [lia|]. rewrite H1, Z.sub_add.
  assert (drop (Z.to_nat (Z.of_nat (length root))) elements = adds.*1) as ->.
  { rewrite Nat2Z.id, fmap_app. rewrite <- (length_fmap fst root). apply drop_app_length. }
  destruct (extensions_loop_at marks fields adds ams (Z.of_nat (length root)) 0 0 B po Hams Hadds) as (po' & E & Hat');
    [by rewrite Nat2Z.id, st_root_drop|lia|rewrite length_app; lia|done|done|done|].
  exists po'. rewrite E. split; [|done]. do 2 f_equal. cbn [Z.eqb andb]. by destruct (existsb is_there ams).
Qed.

(** The presence map. *)
Lemma put_presence_at fs : forall ms k i B (po : asn_per_outp_t K), Forall2 root_valid fs ms -> 0 <= k -> 0 <= i ->
  drop (Z.to_nat k) elements = fs.*1 ++ adds.*1 -> drop (Z.to_nat k) st = ms ++ ams ->
  (exists l', drop (Z.to_nat i) (oms specs) = optional_indices k fs ++ l') -> po_at B po ->
  accepts (B ++ concat (zip_with presence_code fs ms)) (put_presence specs elements st (length (optional_indices k fs)) i po).
Proof.
  induction fs as [|f fs IH]; intros ms k i B po Hv Hk Hi He Hs [l' Ho] Hat.
  { apply Forall2_nil_inv_l in Hv as ->. cbn [zip_with concat optional_indices length put_presence]. rewrite app_nil_r. by apply accepts_ret. }
  apply Forall2_cons_inv_l in Hv as (m & ms' & Hf & Hv' & ->).
  change ((f :: fs).*1 ++ adds.*1) with (f.1 :: (fs.*1 ++ adds.*1)) in He. cbn [app] in Hs.
  destruct (rd_drop _ k _ _ Hk He) as [Hre He']. destruct (rd_drop _ k _ _ Hk Hs) as [Hrs Hs'].
  cbn [optional_indices zip_with concat] in Ho |- *. unfold presence_code at 1. destruct (optional f.1) eqn:Hopt; cbn [app length] in Ho |- *.
  - destruct (rd_drop _ i _ _ Hi Ho) as [Hro Ho']. cbn [put_presence]. rewrite Hro. cbn [mbind option_bind].
    rewrite Hre. cbn [mbind option_bind]. rewrite Hrs. cbn [mbind option_bind]. rewrite (root_present f m Hf).
    assert (is_there m && negb (match m with Some v => is_default f.1 v | None => false end) = shown f.1 m) as -> by by destruct m.
    change (B ++ shown f.1 m :: ?x) with (B ++ [shown f.1 m] ++ x). rewrite app_assoc.
    apply accepts_bind; [by apply accepts_bit|]. intros po1 Hat1. cbn [negb Z.eqb]. apply IH; [done|lia|lia|done|done|by exists l'|done].
  - apply IH; [done|lia|done|done|done|by exists l'|done].
Qed.

(** Behind the root there is nothing to do. *)
Lemma encode_root_skip (fs : list field) : forall edx er (po : asn_per_outp_t K),
  Z.of_nat (length root) <= edx -> edx + Z.of_nat (length fs) = Z.of_nat (length (root ++ adds)) ->
  drop (Z.to_nat edx) elements = fs.*1 -> length (drop (Z.to_nat edx) st) = length fs ->
  encode_root specs elements st (length fs) edx er po = Some (er, po).
Proof.
  induction fs as [|f fs IH]; intros edx er po Hlo Hhi He Hs; [done|]. cbn [length] in *.
  change ((f :: fs).*1) with (f.1 :: fs.*1) in He. destruct (rd_drop _ edx _ _ ltac:(lia) He) as [Hre He'].
  destruct (drop (Z.to_nat edx) st) as [|m ms] eqn:Hst; [done|]. destruct (rd_drop _ edx _ _ ltac:(lia) Hst) as [Hrs Hs'].
  cbn [encode_root]. rewrite Hre. cbn [mbind option_bind]. rewrite Hrs. cbn [mbind option_bind]. rewrite in_adds by lia.
  apply IH; [lia|lia|done|]. rewrite Hs'. cbn [length] in Hs. lia.
Qed.

Lemma encode_root_at fs : forall ms edx er B (po : asn_per_outp_t K), Forall2 root_valid fs ms -> Forall field_ok fs ->
  Forall (fun f : field => default_value f.1 <> None -> optional f.1 = true) fs ->
  0 <= edx -> edx + Z.of_nat (length fs) = Z.of_nat (length root) ->
  drop (Z.to_nat edx) elements = fs.*1 ++ adds.*1 -> drop (Z.to_nat edx) st = ms ++ ams -> po_at B po -> er <> -1 ->
  encodes (B ++ concat (zip_with member_code fs ms)) (encode_root specs elements st (length fs + length adds) edx er po).
Proof.
  induction fs as [|f fs IH]; intros ms edx er B po Hv Hok Hdef Hlo Hhi He Hs Hat Her.
  { apply Forall2_nil_inv_l in Hv as ->. cbn [zip_with concat length Nat.add]. rewrite app_nil_r, encode_root_skip; [by apply encodes_ret|..].
    - cbn [length] in Hhi. lia.
    - cbn [length] in Hhi. rewrite length_app. lia.
    - done.
    - rewrite Hs. cbn [app]. by rewrite <- (Forall2_length Hams). }
  apply Forall2_cons_inv_l in Hv as (m & ms' & Hf & Hv' & ->).
  apply Forall_cons_1 in Hok as [Hfok Hok]. apply Forall_cons_1 in Hdef as [Hd1 Hdef]. cbn [length] in Hhi.
  change ((f :: fs).*1 ++ adds.*1) with (f.1 :: (fs.*1 ++ adds.*1)) in He. cbn [app] in Hs.
  destruct (rd_drop _ edx _ _ Hlo He) as [Hre He']. destruct (rd_drop _ edx _ _ Hlo Hs) as [Hrs Hs'].
  cbn [length Nat.add encode_root zip_with concat]. rewrite Hre. cbn [mbind option_bind]. rewrite Hrs. cbn [mbind option_bind].
  rewrite in_root, (root_present f m Hf) by lia. unfold member_code at 1. destruct m as [v|]; cbn [is_there negb root_valid] in *.
  - cbn [mbind option_bind]. destruct (is_default f.1 v).
    + cbn [app]. apply IH; [done..|lia|lia|done|done|done|done].
    + rewrite app_assoc. apply encodes_bind; [by apply Hfok|]. intros e po1 Hne Hat1. rewrite (proj2 (Z.eqb_neq e (-1))) by done.
      apply IH; [done..|lia|lia|done|done|done|done].
  - destruct Hf as (_ & -> & _). cbn [app]. apply IH; [done..|lia|lia|done|done|done|done].
Qed.

Lemma encode_limit : Z.to_nat (if ext_after specs <? 0 then Z.of_nat (length elements) else ext_before specs - 1) =
  (length root + length adds)%nat.
Proof.
  rewrite length_fmap, length_app. destruct (seq_ext _ _ _ Hwf) as [(H1 & H2 & _)|(H1 & H2)].
  - rewrite (proj2 (Z.ltb_lt _ 0)) by lia. lia.
  - rewrite length_app in H2. destruct (_ <? 0); lia.
Qed.

Lemma addition_code_none fs ms : concat (zip_with (addition_code false false) fs ms) = [].
Proof. revert ms. induction fs as [|f fs IH]; intros [|m ms]; [done..|]. apply IH. Qed.

Abbreviation ext := (existsb is_there ams).
Abbreviation n_ext := (if ext then Z.of_nat (length adds) else 0).

Lemma n_ext_range : (n_ext = 0 <-> ext = false) /\ 0 <= n_ext <= 64 /\ (ext = true -> 0 <= ext_before specs).
Proof.
  pose proof (seq_adds _ _ _ Hwf). pose proof (Forall2_length Hams) as Hl. destruct ext eqn:E; [|split_and!; [done|lia|lia|done]].
  destruct ams as [|m ams']; [done|]. destruct adds as [|f adds'] eqn:Ha; [done|]. cbn [length] in *. split_and!; [split; [lia|done]|lia|lia|].
  intros _. destruct (seq_ext _ _ _ Hwf) as [(_ & _ & ?)|(_ & ->)]; [done|lia].
Qed.

(** The extension bit. *)
Lemma extension_bit_at B (po : asn_per_outp_t K) : po_at B po ->
  ~ refused (B ++ if 0 <=? ext_before specs then [ext] else []) ->
  exists po0,
    (if 0 <=? ext_before specs then
       '(n, po') ← SEQUENCE_handle_extensions specs elements tmp st false false po;
       '(_, po'') ← per_put_few_bits po' (if negb (n =? 0) then 1 else 0) 1;
       Some (n, po'')
     else Some (0, po)) = Some (n_ext, po0) /\ po_at (B ++ if 0 <=? ext_before specs then [ext] else []) po0.
Proof.
  intros Hat Hn. destruct n_ext_range as (H0 & _ & Hx). destruct (Z.leb_spec 0 (ext_before specs)) as [He|He].
  - destruct (handle_extensions_at false false B po He Hat) as (po' & -> & Hat').
    { rewrite addition_code_none, app_nil_r. intros Hr. by apply Hn, refused_app. }
    rewrite addition_code_none, app_nil_r in Hat'. cbn [mbind option_bind].
    destruct (accepts_bit B po' ext Hat' Hn) as (po0 & E & Hat0).
    assert ((if negb (n_ext =? 0) then 1 else 0) = Z.b2z ext) as ->.
    { destruct ext; [|done]. rewrite (proj2 (Z.eqb_neq _ 0)); [done|]. intros E0. by apply H0 in E0. }
    rewrite E. by exists po0.
  - exists po. rewrite app_nil_r. split; [|done]. destruct ext; [|done]. specialize (Hx eq_refl). lia.
Qed.

(** The map and the fields of the additions. *)
Lemma encode_additions_at B er (po2 : asn_per_outp_t K) : po_at B po2 -> er <> -1 -> ext = true ->
  encodes (B ++ val_bits 7 (Z.of_nat (length adds) - 1) ++
     concat (zip_with (addition_code true false) adds ams) ++ concat (zip_with (addition_code false true) adds ams))
    ('(r2, po3) ← uper_put_nslength po2 n_ext;
     if negb (r2 =? 0) then Some (-1, po3)
     else
       '(n1, po4) ← SEQUENCE_handle_extensions specs elements tmp st true false po3;
       if negb (n1 =? n_ext) then Some (-1, po4)
       else
         '(n2, po5) ← SEQUENCE_handle_extensions specs elements tmp st false true po4;
         if negb (n2 =? n_ext) then Some (-1, po5) else Some (er, po5)).
Proof.
  intros Hat Her Hext. destruct n_ext_range as (H0 & Hr & Hx). specialize (Hx Hext). rewrite Hext in *. rewrite !app_assoc. intros Hn.
  set (n := Z.of_nat (length adds)) in *. assert (1 <= n) by (destruct (decide (n = 0)); [exfalso; by apply H0 in e|lia]).
  pose proof (uper_put_nslength_at B po2 n Hat ltac:(lia)) as Hns. rewrite (proj2 (Z.leb_le n 64)) in Hns by lia.
  destruct (accepts_done _ _ Hns) as (po3 & -> & Hat3); [intros Hr'; by apply Hn, refused_app, refused_app|].
  cbn [mbind option_bind negb Z.eqb].
  destruct (handle_extensions_at true false _ po3 Hx Hat3) as (po4 & -> & Hat4); [intros Hr'; by apply Hn, refused_app|].
  rewrite Hext. cbn [mbind option_bind]. fold n. rewrite Z.eqb_refl. cbn [negb].
  destruct (handle_extensions_at false true _ po4 Hx Hat4 Hn) as (po5 & -> & Hat5).
  rewrite Hext. cbn [mbind option_bind]. fold n. rewrite Z.eqb_refl. by exists er, po5.
Qed.

Lemma SEQUENCE_encode_at B (po : asn_per_outp_t K) : po_at B po ->
  encodes (B ++ sequence_code specs root adds st) (SEQUENCE_encode_uper specs elements tmp st po).
Proof.
  intros Hat. unfold SEQUENCE_encode_uper, sequence_code. rewrite st_root_drop.
  assert (take (length root) st = rms) as -> by (rewrite (Forall2_length Hrms); apply take_app_length).
  set (E := if 0 <=? ext_before specs then [ext] else []).
  rewrite (app_assoc B). intros Hn.
  destruct (extension_bit_at B po Hat) as (po0 & -> & Hat0); [intros Hr; by apply Hn, refused_app|]. fold E in Hat0.
  cbn [mbind option_bind]. rewrite (app_assoc (B ++ E)) in Hn |- *. revert Hn. rewrite (seq_roms _ _ _ Hwf), Nat2Z.id. apply accepts_then.
  { apply put_presence_at; try done; [by rewrite drop_0, fmap_app|].
    exists (drop (Z.to_nat (roms_count specs)) (oms specs)). rewrite <- (seq_oms _ _ _ Hwf). by rewrite drop_0, take_drop. }
  intros po1 Hat1. cbn [negb Z.eqb]. rewrite encode_limit, app_assoc. apply encodes_bind.
  { apply encode_root_at; [done|done|apply (seq_default _ _ _ Hwf)|lia|lia|by rewrite drop_0, fmap_app|done|done|done]. }
  intros er po2 Her Hat2. rewrite (proj2 (Z.eqb_neq er (-1))) by done. destruct n_ext_range as (H0 & _).
  destruct (Z.eqb_spec n_ext 0) as [En|En].
  - apply H0 in En. rewrite En, app_nil_r. by apply encodes_ret.
  - destruct ext eqn:Hext; [|done]. pose proof (encode_additions_at _ er po2 Hat2 Her Hext) as Hadd. by rewrite Hext in Hadd.
Qed.

End encoder.

(** *** Decoder *)

Abbreviation zeros fs := ((fun f : field => zero_member f.1) <$> fs).

Lemma decode_root_skip (fs : list field) : forall edx opmd pd,
  Z.of_nat (length root) <= edx -> edx + Z.of_nat (length fs) = Z.of_nat (length (root ++ adds)) ->
  decode_root specs fs.*1 edx opmd pd = Some (RC_OK, zeros fs, pd).
Proof.
  induction fs as [|f fs IH]; intros edx opmd pd Hlo Hhi; [done|]. cbn [length] in Hhi.
  change ((f :: fs).*1) with (f.1 :: fs.*1). cbn [decode_root]. rewrite in_adds, IH by lia. done.
Qed.

Lemma decode_root_at fs : forall ms edx opmd pd L, Forall2 root_valid fs ms -> Forall field_ok fs ->
  Forall (fun f : field => default_value f.1 <> None -> optional f.1 = true) fs ->
  0 <= edx -> edx + Z.of_nat (length fs) = Z.of_nat (length root) ->
  pd_at (concat (zip_with presence_code fs ms)) opmd -> pd_at (concat (zip_with member_code fs ms) ++ L) pd ->
  exists pd', decode_root specs (fs.*1 ++ adds.*1) edx opmd pd = Some (RC_OK, ms ++ zeros adds, pd') /\ pd_at L pd'.
Proof.
  induction fs as [|f fs IH]; intros ms edx opmd pd L Hv Hok Hdef Hlo Hhi Hop Hpd.
  { apply Forall2_nil_inv_l in Hv as ->. exists pd. split; [|done]. cbn [length] in Hhi. apply decode_root_skip; [lia|].
    rewrite length_app. lia. }
  apply Forall2_cons_inv_l in Hv as (m & ms' & Hf & Hv' & ->).
  apply Forall_cons_1 in Hok as [Hfok Hok]. apply Forall_cons_1 in Hdef as [Hd1 Hdef]. cbn [length] in Hhi.
  cbn [zip_with concat] in Hop, Hpd. rewrite <- app_assoc in Hpd.
  change ((f :: fs).*1 ++ adds.*1) with (f.1 :: (fs.*1 ++ adds.*1)). cbn [decode_root]. rewrite in_root by lia.
  assert (Hkeep : forall opmd pd1, pd_at (concat (zip_with presence_code fs ms')) opmd ->
    pd_at (concat (zip_with member_code fs ms') ++ L) pd1 ->
    exists pd', ('(r, st, pd') ← decode_root specs (fs.*1 ++ adds.*1) (edx + 1) opmd pd1; Some (r, m :: st, pd')) =
      Some (RC_OK, (m :: ms') ++ zeros adds, pd') /\ pd_at L pd').
  { intros opmd1 pd1 Ho1 Hp1. destruct (IH ms' (edx + 1) opmd1 pd1 L Hv' Hok Hdef ltac:(lia) ltac:(lia) Ho1 Hp1) as (pd' & -> & Hp').
    by exists pd'. }
  assert (Hfetch : forall v opmd, m = Some v -> is_default f.1 v = false -> pd_at (concat (zip_with presence_code fs ms')) opmd ->
    exists pd', ('(r, v, pd1) ← dec (member_codec f.1) pd;
        match r with
        | RC_OK => '(r0, st, pd') ← decode_root specs (fs.*1 ++ adds.*1) (edx + 1) opmd pd1; Some (r0, Some v :: st, pd')
        | _ => Some (r, Some v :: (zero_member <$> (fs.*1 ++ adds.*1)), pd1)
        end) = Some (RC_OK, (m :: ms') ++ zeros adds, pd') /\ pd_at L pd').
  { intros v opmd1 -> Hnd Ho1. cbn [root_valid member_code] in Hf, Hpd. rewrite Hnd in Hf, Hpd.
    destruct (dec_at _ _ Hfok v _ pd Hf Hpd) as (pd1 & -> & Hp1). cbn [mbind option_bind]. by apply Hkeep. }
  unfold presence_code at 1 in Hop. destruct (optional f.1) eqn:Hopt.
  - destruct (per_get_few_bits_at _ opmd 1 _ Hop) as (opmd1 & -> & Ho1 & _); [done|done|]. cbn [mbind option_bind].
    destruct m as [v|]; cbn [shown root_valid member_code] in *.
    + destruct (is_default f.1 v) eqn:Hd; cbn [negb].
      * change (bits_val [false] =? 0) with true. cbn iota. destruct Hf as [eq Heq]. unfold absent_member. rewrite Heq.
        by apply Hkeep.
      * change (bits_val [true] =? 0) with false. cbn iota. by apply Hfetch with (v := v).
    + change (bits_val [false] =? 0) with true. cbn iota. destruct Hf as (Hp & _ & Hd). unfold absent_member, zero_member.
      rewrite Hd, Hp. by apply Hkeep.
  - cbn [app] in Hop. destruct m as [v|]; [|destruct Hf as (_ & ? & _); congruence]. cbn [root_valid] in Hf.
    destruct (is_default f.1 v) eqn:Hd; [|by apply Hfetch with (v := v)].
    destruct Hf as [eq Heq]. rewrite Heq in Hd1. specialize (Hd1 ltac:(done)). congruence.
Qed.

Lemma decode_additions_at fs : forall ms pre edx epmd pd R L, Forall2 add_valid fs ms -> Forall field_ok fs ->
  Z.of_nat (length root) <= edx -> edx + Z.of_nat (length fs) = Z.of_nat (length (root ++ adds)) -> edx = Z.of_nat (length pre) ->
  pd_at (concat (zip_with (addition_code true false) fs ms) ++ R) epmd ->
  pd_at (concat (zip_with (addition_code false true) fs ms) ++ L) pd ->
  exists epmd' pd', decode_additions specs fs.*1 edx epmd (pre ++ zeros fs) pd = Some (RC_OK, (pre ++ ms, epmd'), pd') /\
    pd_at R epmd' /\ pd_at L pd'.
Proof.
  induction fs as [|f fs IH]; intros ms pre edx epmd pd R L Hv Hok Hlo Hhi Hpre Hep Hpd.
  { apply Forall2_nil_inv_l in Hv as ->. by exists epmd, pd. }
  apply Forall2_cons_inv_l in Hv as (m & ms' & Hf & Hv' & ->).
  apply Forall_cons_1 in Hok as [Hfok Hok]. cbn [length] in Hhi. cbn [zip_with concat] in Hep, Hpd.
  unfold addition_code at 1 in Hep. unfold addition_code at 1 in Hpd. rewrite app_nil_r, <- app_assoc in Hep. cbn [app] in Hpd. rewrite <- app_assoc in Hpd.
  change ((f :: fs).*1) with (f.1 :: fs.*1). change (zeros (f :: fs)) with (zero_member f.1 :: zeros fs).
  cbn [decode_additions]. rewrite in_adds by lia. cbn [negb].
  destruct (per_get_few_bits_at _ epmd 1 _ Hep) as (epmd1 & -> & Hep1 & _); [done|done|]. cbn [mbind option_bind].
  assert (Hnext : forall pd1, pd_at (concat (zip_with (addition_code false true) fs ms') ++ L) pd1 ->
    exists epmd' pd', decode_additions specs fs.*1 (edx + 1) epmd1 (pre ++ m :: zeros fs) pd1 =
      Some (RC_OK, (pre ++ m :: ms', epmd'), pd') /\ pd_at R epmd' /\ pd_at L pd').
  { intros pd1 Hpd1. destruct (IH ms' (pre ++ [m]) (edx + 1) epmd1 pd1 R L Hv' Hok) as (epmd' & pd' & E & H1 & H2);
      [lia|lia|rewrite length_app; cbn; lia|done|done|]. rewrite <- !app_assoc in E. by exists epmd', pd'. }
  destruct m as [v|]; cbn [is_there add_valid] in *.
  - change (bits_val [true] <=? 0) with false. cbn iota.
    destruct (dec_at _ _ (open_type_implements tmp Htb Htl _ _ Hfok) v _ pd Hf Hpd) as (pd1 & E & Hpd1).
    cbn [dec open_type] in E. rewrite E. cbn [mbind option_bind].
    assert (<[Z.to_nat edx := Some v]> (pre ++ zero_member f.1 :: zeros fs) = pre ++ Some v :: zeros fs) as ->.
    { rewrite Hpre, Nat2Z.id. replace (length pre) with (length pre + 0)%nat by lia. by rewrite insert_app_r. }
    by apply Hnext.
  - change (bits_val [false] <=? 0) with true. change (bits_val [false] <? 0) with false. cbn iota.
    unfold zero_member at 1. rewrite Hf. by apply Hnext.
Qed.

Lemma fill_defaults_none n : forall edx st, 0 <= edx ->
  (forall i, edx <= i < edx + Z.of_nat n -> exists f : field, (root ++ adds) !! Z.to_nat i = Some f /\ (default_value f.1 = None \/ pointer f.1 = false)) ->
  fill_defaults elements n edx st = Some st.
Proof.
  induction n as [|n IH]; intros edx st He Hi; [done|]. cbn [fill_defaults].
  destruct (Hi edx ltac:(lia)) as (f & Hlk & Hc). assert (rd elements edx = Some f.1) as ->.
  { rewrite rd_nonneg by done. rewrite list_lookup_fmap. by rewrite Hlk. }
  cbn [mbind option_bind].
  assert (match default_value f.1 with
          | Some (d, _) => if pointer f.1 then m ← rd st edx; match m with Some _ => Some st | None => wr st edx (Some d) end else Some st
          | None => Some st end = Some st) as ->.
  { destruct Hc as [-> | ->]; [done|]. by destruct (default_value f.1) as [[]|]. }
  cbn [mbind option_bind]. apply IH; [lia|]. intros i Hr. apply Hi. lia.
Qed.

Lemma fill_none st : fill_defaults elements (Z.to_nat (aoms_count specs)) (roms_count specs) st = Some st.
Proof.
  apply fill_defaults_none; [rewrite (seq_roms _ _ _ Hwf); lia|]. intros i Hi. apply (seq_fill _ _ _ Hwf). lia.
Qed.

(** A bit map as a stream. *)
Lemma bit_stream_at bs dst : bytes dst -> bitlist dst = bs ++ replicate (pad_of (length bs)) false ->
  pd_at bs (bit_stream dst (Z.of_nat (length bs))).
Proof.
  intros Hb E. pose proof (f_equal length E) as Hl. rewrite length_bitlist, length_app in Hl. split.
  - split; cbn; [done|lia|lia].
  - unfold pd_bits, bit_stream. cbn [nbits nboff buffer]. rewrite drop_0, E. rewrite Z.sub_0_r, Nat2Z.id. apply take_app_length.
Qed.

Lemma length_marks fs : forall ms, length fs = length ms -> length (concat (zip_with (addition_code true false) fs ms)) = length fs.
Proof.
  induction fs as [|f fs IH]; intros [|m ms] Hl; [done..|]. cbn [zip_with concat length] in *. rewrite length_app, IH by lia. done.
Qed.

Lemma length_presence fs : forall k ms, length fs = length ms ->
  length (concat (zip_with presence_code fs ms)) = length (optional_indices k fs).
Proof.
  induction fs as [|f fs IH]; intros k [|m ms] Hl; [done..|]. cbn [zip_with concat length optional_indices] in *.
  rewrite !length_app, (IH (k + 1)) by lia. unfold presence_code. by destruct (optional f.1).
Qed.

(** The map [R] of the extensions that are not known; the first one that is there is [o]. *)
Definition overflow_code (R : list bool) (o : list Z) : list bool := if existsb id R then frag_code (length o) o else [].

Definition overflow_result (R : list bool) (o : list Z) : Z :=
  if existsb id R && negb (bool_decide (length o mod 3 = 0)%nat) then -1 else 0.

Lemma skip_overflow_at R o L fuel : forall epmd pd, bytes o -> o <> [] -> Z.of_nat (length o) mod 16384 <> 0 ->
  pd_at R epmd -> (length R < fuel)%nat -> pd_at (overflow_code R o ++ L) pd ->
  exists pd', skip_overflow fuel epmd pd = Some (overflow_result R o, pd') /\ pd_at L pd'.
Proof.
  revert fuel. unfold overflow_code, overflow_result. induction R as [|b R IH]; intros fuel epmd pd Hb Hne Hmod Hep Hf Hpd;
    (destruct fuel as [|fuel]; [lia|]); cbn [skip_overflow].
  { rewrite (per_get_few_bits_short_stream [] epmd 1 Hep) by (cbn; lia). by exists pd. }
  destruct (per_get_few_bits_at R epmd 1 [b] Hep) as (epmd1 & -> & Hep1 & _); [done|done|]. cbn [mbind option_bind].
  cbn [existsb] in *. destruct b; cbn [id orb] in *.
  - destruct (open_type_skip_at o L pd Hb Hne Hmod Hpd) as (pd' & E & Hpd'). exists pd'.
    change (bits_val [true] =? -1) with false. change (bits_val [true] =? 0) with false. cbn iota. rewrite E. by destruct (bool_decide _).
  - apply IH; [done..|cbn [length] in Hf; lia|done].
Qed.

Lemma decode_extensions_at rms ams R o pd L : length rms = length root -> Forall2 add_valid adds ams ->
  1 <= Z.of_nat (length adds + length R) < 16384 -> 0 <= ext_before specs ->
  bytes o -> o <> [] -> Z.of_nat (length o) mod 16384 <> 0 ->
  pd_at (nslength_code (Z.of_nat (length adds + length R)) ++ (concat (zip_with (addition_code true false) adds ams) ++ R) ++
         concat (zip_with (addition_code false true) adds ams) ++ overflow_code R o ++ L) pd ->
  exists pd', decode_extensions specs elements (rms ++ zeros adds) pd =
    Some (if overflow_result R o =? 0 then RC_OK else RC_WMORE, rms ++ ams, pd') /\ pd_at L pd'.
Proof.
  intros Hrl Hams Hn He Hb Hne Hmod Hpd. unfold decode_extensions.
  destruct (uper_get_nslength_at _ pd _ Hn Hpd) as (pd1 & -> & Hpd1).
  cbn [mbind option_bind]. rewrite (proj2 (Z.ltb_ge _ 0)) by lia.
  destruct (per_get_many_bits_left _ _ _ Hpd1) as (dst & pd2 & Hg & Hpd2 & Hdb & Hdst).
  pose proof (length_marks adds ams (Forall2_length Hams)) as Hml. pose proof (bit_stream_at _ dst Hdb Hdst) as Hep.
  rewrite length_app, Hml in Hg, Hep. rewrite Hg. cbn [mbind option_bind negb Z.eqb].
  destruct (seq_ext _ _ _ Hwf) as [(? & _)|(H1 & _)]; [lia|]. rewrite H1, Z.sub_add.
  assert (drop (Z.to_nat (Z.of_nat (length root))) elements = adds.*1) as ->.
  { rewrite Nat2Z.id, fmap_app. rewrite <- (length_fmap fst root). apply drop_app_length. }
  destruct (decode_additions_at adds ams rms (Z.of_nat (length root)) _ pd2 R (overflow_code R o ++ L) Hams Hadds
    ltac:(lia) ltac:(rewrite length_app; lia) ltac:(lia) Hep Hpd2) as (epmd & pd3 & -> & Hep3 & Hpd3).
  cbn [mbind option_bind]. pose proof Hep3 as [Hok Hbits]. pose proof (length_pd_bits epmd Hok) as HL. pose proof (pd_off epmd Hok).
  rewrite Hbits in HL. destruct (skip_overflow_at R o L (S (Z.to_nat (nbits epmd))) epmd pd3) as (pd4 & -> & Hpd4); [done..|lia|done|].
  cbn [mbind option_bind]. exists pd4. by destruct (overflow_result R o =? 0).
Qed.

Lemma no_additions fs ms : Forall2 add_valid fs ms -> existsb is_there ms = false -> zeros fs = ms.
Proof.
  induction 1 as [|f m fs ms Hf Hfs IH]; intros Hext; [done|]. cbn [existsb] in Hext. apply orb_false_iff in Hext as [Hm Hms].
  cbn [fmap list_fmap]. rewrite IH by done. f_equal. destruct m; [done|]. unfold zero_member. cbn [add_valid] in Hf. by rewrite Hf.
Qed.

(** The decoder up to the extensions, of which [ext] says whether there are some. *)
Lemma decode_to_extensions (ext : bool) rms pd T : Forall2 root_valid root rms -> (ext = true -> 0 <= ext_before specs) ->
  pd_at ((if 0 <=? ext_before specs then [ext] else []) ++ concat (zip_with presence_code root rms) ++
         concat (zip_with member_code root rms) ++ T) pd ->
  exists pd2, pd_at T pd2 /\ SEQUENCE_decode_uper specs elements pd =
    ('(rv, st, pd3) ← (if ext then decode_extensions specs elements (rms ++ zeros adds) pd2
                       else Some (RC_OK, rms ++ zeros adds, pd2));
     Some (rv, V_seq st, pd3)).
Proof.
  intros Hrms Hx Hpd. unfold SEQUENCE_decode_uper. pose proof (Forall2_length Hrms) as Hrl.
  assert (exists pd0, (if 0 <=? ext_before specs then per_get_few_bits pd 1 else Some (0, pd)) = Some (Z.b2z ext, pd0) /\
    pd_at (concat (zip_with presence_code root rms) ++ concat (zip_with member_code root rms) ++ T) pd0) as (pd0 & -> & Hpd0).
  { destruct (Z.leb_spec 0 (ext_before specs)) as [He|He].
    - destruct (per_get_few_bits_at _ pd 1 _ Hpd) as (pd0 & -> & Hpd0 & _); [done|done|]. exists pd0. by destruct ext.
    - exists pd. split; [|done]. destruct ext; [specialize (Hx eq_refl); lia|done]. }
  cbn [mbind option_bind]. rewrite (proj2 (Z.ltb_ge _ 0)) by by destruct ext.
  assert (exists opres pd1, (if negb (roms_count specs =? 0) then per_get_many_bits pd0 false (roms_count specs) else Some (0, [], pd0)) =
      Some (0, opres, pd1) /\ pd_at (concat (zip_with presence_code root rms)) (bit_stream opres (roms_count specs)) /\
    pd_at (concat (zip_with member_code root rms) ++ T) pd1) as (opres & pd1 & -> & Hop & Hpd1).
  { pose proof (length_presence root 0 rms Hrl) as Hl. rewrite (seq_roms _ _ _ Hwf), <- Hl.
    destruct (Z.eqb_spec (Z.of_nat (length (concat (zip_with presence_code root rms)))) 0) as [E|E]; cbn [negb].
    - assert (concat (zip_with presence_code root rms) = []) as E' by (apply nil_length_inv; lia). rewrite E' in *.
      exists [], pd0. split_and!; [done| |done]. by apply (bit_stream_at [] []).
    - destruct (per_get_many_bits_left _ _ _ Hpd0) as (dst & pd1 & Hg & Hpd1 & Hdb & Hdst). exists dst, pd1.
      split_and!; [done|by apply bit_stream_at|done]. }
  cbn [mbind option_bind negb Z.eqb]. rewrite fmap_app.
  destruct (decode_root_at root rms 0 _ pd1 _ Hrms Hroot (seq_default _ _ _ Hwf) ltac:(lia) ltac:(lia) Hop Hpd1) as (pd2 & -> & Hpd2).
  cbn [mbind option_bind]. rewrite <- fmap_app. exists pd2. split; [done|].
  assert (Hb : (if negb (Z.b2z ext =? 0) then decode_extensions specs elements (rms ++ zeros adds) pd2
    else Some (RC_OK, rms ++ zeros adds, pd2)) = (if ext then decode_extensions specs elements (rms ++ zeros adds) pd2
    else Some (RC_OK, rms ++ zeros adds, pd2))) by by destruct ext.
  rewrite Hb. destruct (if ext then _ else _) as [[[[] st] pd3]|]; cbn [mbind option_bind]; by rewrite ?fill_none.
Qed.

Lemma SEQUENCE_decode_at rms ams pd L : Forall2 root_valid root rms -> Forall2 add_valid adds ams ->
  pd_at (sequence_code specs root adds (rms ++ ams) ++ L) pd ->
  exists pd', SEQUENCE_decode_uper specs elements pd = Some (RC_OK, V_seq (rms ++ ams), pd') /\ pd_at L pd'.
Proof.
  intros Hrms Hams Hpd. unfold sequence_code in Hpd. pose proof (Forall2_length Hrms) as Hrl. pose proof (seq_adds _ _ _ Hwf).
  rewrite Hrl, take_app_length, drop_app_length, <- !app_assoc in Hpd. set (ext := existsb is_there ams) in *.
  destruct (n_ext_range ams Hams) as (H0 & _ & Hx). fold ext in H0, Hx.
  destruct (decode_to_extensions ext rms pd _ Hrms Hx Hpd) as (pd2 & Hpd2 & ->).
  destruct ext eqn:Hext.
  - assert (Z.of_nat (length adds) <> 0) by (intros E; by apply H0 in E).
    destruct (decode_extensions_at rms ams [] [0] pd2 L) as (pd3 & -> & Hpd3); [done|done|cbn; lia|by apply Hx|by repeat constructor|done|done| |].
    + unfold nslength_code. rewrite app_nil_r, Nat.add_0_r, (proj2 (Z.leb_le _ 64)) by lia. by rewrite <- !app_assoc in Hpd2.
    + by exists pd3.
  - exists pd2. by rewrite (no_additions adds ams Hams Hext) in *.
Qed.

(** A value with extensions that this version of the protocol does not have: the first of
    them that is there is skipped, if its size is a multiple of three octets; what follows
    it is left in the stream. *)
Lemma SEQUENCE_decode_overflow rms ams R o pd L : Forall2 root_valid root rms -> Forall2 add_valid adds ams ->
  1 <= Z.of_nat (length adds + length R) < 16384 -> 0 <= ext_before specs ->
  bytes o -> o <> [] -> Z.of_nat (length o) mod 16384 <> 0 ->
  pd_at ([true] ++ concat (zip_with presence_code root rms) ++ concat (zip_with member_code root rms) ++
         nslength_code (Z.of_nat (length adds + length R)) ++ (concat (zip_with (addition_code true false) adds ams) ++ R) ++
         concat (zip_with (addition_code false true) adds ams) ++ overflow_code R o ++ L) pd ->
  exists pd', SEQUENCE_decode_uper specs elements pd =
    Some (if overflow_result R o =? 0 then RC_OK else RC_WMORE, V_seq (rms ++ ams), pd') /\ pd_at L pd'.
Proof.
  intros Hrms Hams Hn He Hb Hne Hmod Hpd. 
  edestruct (decode_to_extensions true rms pd) as (pd2 & Hpd2 & ->); [done|done|rewrite (proj2 (Z.leb_le _ _) He); exact Hpd|].
  destruct (decode_extensions_at rms ams R o pd2 L) as (pd3 & -> & Hpd3); try done; [by rewrite (Forall2_length Hrms)|].
  by exists pd3.
Qed.

(** *** Any input *)

Lemma decode_root_reads fs : forall edx opmd pd, Forall field_ok fs -> pd_ok opmd ->
  0 <= edx -> edx + Z.of_nat (length fs) = Z.of_nat (length root) ->
  reads pd (decode_root specs (fs.*1 ++ adds.*1) edx opmd pd)
    (fun '(r, st) _ => r = RC_OK -> exists rms, st = rms ++ zeros adds /\ Forall2 root_typed fs rms).
Proof.
  induction fs as [|f fs IH]; intros edx opmd pd Hok Hop Hlo Hhi.
  { cbn [length] in Hhi. change ([].*1 ++ adds.*1) with (adds.*1). rewrite decode_root_skip; [|lia|rewrite length_app; lia].
    apply reads_ret. intros _. by exists []. }
  apply Forall_cons_1 in Hok as [Hfok Hok]. cbn [length] in Hhi.
  change ((f :: fs).*1 ++ adds.*1) with (f.1 :: (fs.*1 ++ adds.*1)). cbn [decode_root]. rewrite in_root by lia.
  assert (Hkeep : forall m opmd pd, pd_ok opmd -> root_typed f m ->
    reads pd ('(r, st, pd') ← decode_root specs (fs.*1 ++ adds.*1) (edx + 1) opmd pd; Some (r, m :: st, pd'))
      (fun '(r, st) _ => r = RC_OK -> exists rms, st = rms ++ zeros adds /\ Forall2 root_typed (f :: fs) rms)).
  { intros m opmd1 pd1 Ho1 Hm. eapply reads_bind; [apply IH; [done|done|lia|lia]|]. intros [r st] pd2 _ Hst. apply reads_ret.
    intros Hr. destruct (Hst Hr) as (rms & -> & Hrms). exists (m :: rms). split; [done|by constructor]. }
  assert (Hfetch : forall opmd, pd_ok opmd ->
    reads pd ('(r, v, pd1) ← dec (member_codec f.1) pd;
        match r with
        | RC_OK => '(r0, st, pd') ← decode_root specs (fs.*1 ++ adds.*1) (edx + 1) opmd pd1; Some (r0, Some v :: st, pd')
        | _ => Some (r, Some v :: (zero_member <$> (fs.*1 ++ adds.*1)), pd1)
        end) (fun '(r, st) _ => r = RC_OK -> exists rms, st = rms ++ zeros adds /\ Forall2 root_typed (f :: fs) rms)).
  { intros opmd1 Ho1. eapply reads_bind; [apply Hfok|]. intros [[] v] pd1 _ Hv; try by apply reads_ret.
    apply Hkeep; [done|]. left. exists v. auto. }
  destruct (optional f.1) eqn:Hopt; [|by apply Hfetch].
  destruct (per_get_few_bits_reads opmd 1 Hop) as (b & opmd1 & -> & Hst & _). destruct (Hst Hop) as [Ho1 _]. cbn [mbind option_bind].
  destruct (b =? 0); [|by apply Hfetch]. apply Hkeep; [done|]. by right.
Qed.

Lemma decode_additions_reads fs : forall ms pre edx epmd pd, Forall field_ok fs -> Forall2 add_typed fs ms -> pd_ok epmd ->
  Z.of_nat (length root) <= edx -> edx + Z.of_nat (length fs) = Z.of_nat (length (root ++ adds)) -> edx = Z.of_nat (length pre) ->
  reads pd (decode_additions specs fs.*1 edx epmd (pre ++ ms) pd)
    (fun '(r, (st, epmd')) _ => r = RC_OK -> pd_ok epmd' /\ exists ms', st = pre ++ ms' /\ Forall2 add_typed fs ms').
Proof.
  induction fs as [|f fs IH]; intros ms pre edx epmd pd Hok Hms Hep Hlo Hhi Hpre.
  { apply reads_ret. intros _. split; [done|]. by exists ms. }
  apply Forall2_cons_inv_l in Hms as (m & ms' & Hm & Hms' & ->). apply Forall_cons_1 in Hok as [Hfok Hok]. cbn [length] in Hhi.
  change ((f :: fs).*1) with (f.1 :: fs.*1). cbn [decode_additions]. rewrite in_adds by lia. cbn [negb].
  destruct (per_get_few_bits_reads epmd 1 Hep) as (b & epmd1 & -> & Hst & _). destruct (Hst Hep) as [Hep1 _]. cbn [mbind option_bind].
  assert (Hnext : forall m' pd1, add_typed f m' -> reads pd1 (decode_additions specs fs.*1 (edx + 1) epmd1 (pre ++ m' :: ms') pd1)
    (fun '(r, (st, epmd')) _ => r = RC_OK -> pd_ok epmd' /\ exists ms', st = pre ++ ms' /\ Forall2 add_typed (f :: fs) ms')).
  { intros m' pd1 Hm'. eapply reads_mono; [rewrite cons_middle, app_assoc; apply IH; try done; [lia|lia|rewrite length_app; cbn; lia]|].
    intros [r [st e]] pd2 Hr E. destruct (Hr E) as (He & ms2 & -> & Hf2). split; [done|]. exists (m' :: ms2).
    split; [by rewrite <- app_assoc|by constructor]. }
  destruct (b <=? 0); [destruct (b <? 0)|].
  - apply reads_ret. intros _. split; [done|]. exists (m :: ms'). split; [done|by constructor].
  - by apply Hnext.
  - eapply reads_bind; [apply (open_type_get_reads _ f.2); apply Hfok|]. intros [[] v] pd1 _ Hv; try by apply reads_ret.
    assert (<[Z.to_nat edx := Some v]> (pre ++ m :: ms') = pre ++ Some v :: ms') as ->.
    { rewrite Hpre, Nat2Z.id. replace (length pre) with (length pre + 0)%nat by lia. by rewrite insert_app_r. }
    apply Hnext. left. exists v. auto.
Qed.

Lemma skip_overflow_reads fuel : forall epmd pd, pd_ok epmd -> pd_left epmd < Z.of_nat fuel ->
  reads pd (skip_overflow fuel epmd pd) (fun _ _ => True).
Proof.
  induction fuel as [|fuel IH]; intros epmd pd Hep Hf.
  { pose proof (pd_off epmd Hep). unfold pd_left in Hf. lia. }
  cbn [skip_overflow]. destruct (per_get_few_bits_reads epmd 1 Hep) as (b & epmd1 & -> & Hst & Hb). destruct (Hst Hep) as [Hep1 _].
  cbn [mbind option_bind]. destruct (Z.eqb_spec b (-1)); [by apply reads_ret|]. destruct (b =? 0); [|apply open_type_skip_reads].
  apply IH; [done|]. destruct Hb as [[? _]|(_ & _ & ?)]; lia.
Qed.

Lemma bit_stream_ok dst n : 0 <= n -> bytes dst -> Z.of_nat (length dst) = (n + 7) / 8 -> pd_ok (bit_stream dst n).
Proof.
  intros Hn Hb Hl. pose proof (Z.div_mod (n + 7) 8 ltac:(lia)). pose proof (Z.mod_pos_bound (n + 7) 8 ltac:(lia)).
  split; cbn; [done|lia|lia].
Qed.

Lemma decode_extensions_reads rms pd : Forall2 root_typed root rms -> 0 <= ext_before specs ->
  reads pd (decode_extensions specs elements (rms ++ zeros adds) pd)
    (fun '(r, st) _ => r = RC_OK -> typed (sequence_spec specs root adds) (V_seq st)).
Proof.
  intros Hrms He. unfold decode_extensions. apply (reads_bind _ _ _ _ _ (uper_get_nslength_reads pd)). intros n pd1 _ Hn.
  destruct (Z.ltb_spec n 0); [by apply reads_ret|].
  apply (reads_bind _ _ _ _ _ (per_get_many_bits_reads pd1 n ltac:(lia))). intros [r dst] pd2 _ Hr.
  destruct Hr as [[-> _]|(-> & Hb & Hl & _)]; cbn [negb Z.eqb]; [by apply reads_ret|].
  destruct (seq_ext _ _ _ Hwf) as [(? & _)|(H1 & _)]; [lia|]. rewrite H1, Z.sub_add.
  assert (drop (Z.to_nat (Z.of_nat (length root))) elements = adds.*1) as ->.
  { rewrite Nat2Z.id, fmap_app. rewrite <- (length_fmap fst root). apply drop_app_length. }
  eapply reads_bind.
  { apply decode_additions_reads; [done| |by apply bit_stream_ok|lia|rewrite length_app; lia|by rewrite (Forall2_length Hrms)].
    clear. induction adds as [|f fs IH]; constructor; [by right|done]. }
  intros [r [st epmd]] pd3 _ Hst. destruct r; try by apply reads_ret. destruct (Hst eq_refl) as (Hep & ams & -> & Hams).
  eapply reads_bind; [apply skip_overflow_reads; [done|]|].
  - pose proof (pd_off epmd Hep). unfold pd_left. lia.
  - intros r pd4 _ _. destruct (negb _); apply reads_ret; [done|]. intros _. by exists rms, ams.
Qed.

Lemma SEQUENCE_decode_reads pd : reads pd (SEQUENCE_decode_uper specs elements pd)
  (fun '(r, v) _ => r = RC_OK -> typed (sequence_spec specs root adds) v).
Proof.
  unfold SEQUENCE_decode_uper. eapply (reads_bind _ _ _ (fun b _ => b = 0 \/ 0 <= ext_before specs)).
  { destruct (Z.leb_spec 0 (ext_before specs)); [|apply reads_ret; by left]. eapply reads_mono; [apply per_get_few_bits_reads|]. auto. }
  intros b pd0 _ Hb. destruct (b <? 0); [by apply reads_ret|].
  eapply (reads_bind _ _ _ (fun '(r, dst) _ => r = 0 -> pd_ok (bit_stream dst (roms_count specs)))).
  { rewrite (seq_roms _ _ _ Hwf). destruct (Z.eqb_spec (Z.of_nat (length (optional_indices 0 root))) 0) as [E|E]; cbn [negb].
    - apply reads_ret. intros _. rewrite E. by apply bit_stream_ok; [|constructor|].
    - eapply reads_mono; [apply per_get_many_bits_reads; lia|]. intros [r dst] pd1 [[-> _]|(-> & Hd & Hl & _)]; [done|].
      intros _. apply bit_stream_ok; [lia|done|done]. }
  intros [r opres] pd1 _ Hop. destruct (Z.eqb_spec r 0) as [->|]; cbn [negb]; [|by apply reads_ret]. specialize (Hop eq_refl).
  rewrite fmap_app. eapply reads_bind; [apply decode_root_reads; [done|done|lia|lia]|]. rewrite <- fmap_app.
  intros [r st] pd2 _ Hst. destruct r; try by apply reads_ret. destruct (Hst eq_refl) as (rms & -> & Hrms).
  eapply (reads_bind _ _ _ (fun '(r, st) _ => r = RC_OK -> typed (sequence_spec specs root adds) (V_seq st))).
  { destruct (Z.eqb_spec b 0) as [->|Hb0]; cbn [negb].
    - apply reads_ret. intros _. exists rms, (zeros adds). split_and!; [done|done|].
      clear. induction adds as [|f fs IH]; constructor; [by right|done].
    - apply decode_extensions_reads; [done|]. by destruct Hb. }
  intros [r st] pd3 _ Ht. destruct r; try by apply reads_ret. rewrite fill_none. apply reads_ret. intros _. by apply Ht.
Qed.

End sequence.

Lemma SEQUENCE_implements tmp specs root adds constraints :
  bytes tmp -> length tmp = 32%nat -> sequence_wf specs root adds -> Forall field_ok root -> Forall field_ok adds ->
  implements (uper_codec (SEQUENCE tmp specs (root ++ adds).*1) constraints) (sequence_spec specs root adds).
Proof.
  intros Htb Htl Hwf Hr Ha. split; cbn [enc dec uper_codec SEQUENCE].
  - intros K HS B po v (rms & ams & -> & Hrms & Hams) Hat. by apply SEQUENCE_encode_at.
  - intros v L pd (rms & ams & -> & Hrms & Hams) Hpd. by apply (SEQUENCE_decode_at tmp).
  - intros pd. by apply (SEQUENCE_decode_reads tmp).
Qed.
