(* ===== verification/AsnTables.v ===== *)
(** * AsnTables: the tables of the ASN.1 compiler

    The descriptors [asn_DEF_...] of the generated files are trees of tables. Here they are
    data, with the codec of a table, its specification, a check that a table is as the codecs
    need it, and a check that a value can be encoded: both run, so that the tables of a
    protocol are verified by evaluation. *)
From S2P Require Import Prelude PerSupport AsnInteger PerSafe PerCodec AsnTypes AsnString AsnOpenType AsnConstructed AsnChoice AsnSequence.

(** ** Tables *)

(** An entry of a table [asn_MBR_...]: [ATF_POINTER], [optional], the type and the PER
    constraints of the place. No generated table has a default. *)
Record member (T : Type) := Member {
  m_pointer : bool; m_optional : bool; m_type : T; m_constraints : option asn_per_constraints_t }.
Arguments Member {T}.
Arguments m_pointer {T}.
Arguments m_optional {T}.
Arguments m_type {T}.
Arguments m_constraints {T}.

(** A descriptor: its codec, its specifics, its members and its own PER constraints. *)
Inductive asn_table :=
  | T_NativeInteger (unsigned : bool) (own : option asn_per_constraints_t)
  | T_INTEGER (own : option asn_per_constraints_t)
  | T_BOOLEAN
  | T_NULL
  | T_ENUMERATED (specs : asn_INTEGER_specifics_t) (own : option asn_per_constraints_t)
  | T_OCTET_STRING (subvariant : asn_OS_Subvariant) (own : option asn_per_constraints_t)
  | T_SEQUENCE (specs : asn_SEQUENCE_specifics_t) (elements : list (member asn_table))
  | T_CHOICE (specs : asn_CHOICE_specifics_t) (elements : list (member asn_table)) (own : option asn_per_constraints_t)
  | T_SEQUENCE_OF (element : member asn_table) (own : option asn_per_constraints_t).

(** PER constraints, each given by flags, range bits, effective bits, lower and upper bound. *)
Definition per (v s : Z * Z * Z * Z * Z) (v2c c2v : option (Z -> Z)) : asn_per_constraints_t :=
  let constraint '(f, r, e, l, u) :=
    {| flags := f; range_bits := r; effective_bits := e; lower_bound := l; upper_bound := u |} in
  {| value := constraint v; size := constraint s; value2code := v2c; code2value := c2v |}.

(** Induction through the members. *)
Fixpoint asn_table_rect' (P : asn_table -> Prop)
    (Hint : forall u own, P (T_NativeInteger u own)) (Hinteger : forall own, P (T_INTEGER own)) (Hbool : P T_BOOLEAN) (Hnull : P T_NULL)
    (Henum : forall specs own, P (T_ENUMERATED specs own)) (Hstr : forall sub own, P (T_OCTET_STRING sub own))
    (Hseq : forall specs ms, Forall (fun m => P (m_type m)) ms -> P (T_SEQUENCE specs ms))
    (Hcho : forall specs ms own, Forall (fun m => P (m_type m)) ms -> P (T_CHOICE specs ms own))
    (Hlist : forall m own, P (m_type m) -> P (T_SEQUENCE_OF m own)) (t : asn_table) : P t :=
  let rec := asn_table_rect' P Hint Hinteger Hbool Hnull Henum Hstr Hseq Hcho Hlist in
  let go := fix go ms : Forall (fun m => P (m_type m)) ms :=
    match ms with
    | [] => List.Forall_nil _
    | m :: ms' => List.Forall_cons _ m ms' (match m as m0 return P (m_type m0) with Member p o t c => rec t end) (go ms')
    end in
  match t with
  | T_NativeInteger u own => Hint u own
  | T_INTEGER own => Hinteger own
  | T_BOOLEAN => Hbool
  | T_NULL => Hnull
  | T_ENUMERATED specs own => Henum specs own
  | T_OCTET_STRING sub own => Hstr sub own
  | T_SEQUENCE specs ms => Hseq specs ms (go ms)
  | T_CHOICE specs ms own => Hcho specs ms own (go ms)
  | T_SEQUENCE_OF m own => Hlist m own (match m as m0 return P (m_type m0) with Member p o t c => rec t end)
  end.

(** ** Codec *)

(** [er] and [tmp] are what the stack holds, as in [BOOLEAN_encode_uper] and
    [uper_open_type_put]. *)
Fixpoint descriptor (er : Z) (tmp : list Z) (t : asn_table) : asn_TYPE_descriptor_t :=
  let element m :=
    match m with
    | Member p o t c =>
        {| pointer := p; optional := o; type := descriptor er tmp t; per_constraints := c; default_value := None |}
    end in
  match t with
  | T_NativeInteger u own => NativeInteger u own
  | T_INTEGER own => INTEGER false own
  | T_BOOLEAN => BOOLEAN er
  | T_NULL => NULL
  | T_ENUMERATED specs own => ENUMERATED specs own
  | T_OCTET_STRING sub own => OCTET_STRING sub own
  | T_SEQUENCE specs ms => SEQUENCE tmp specs (element <$> ms)
  | T_CHOICE specs ms own => CHOICE tmp specs (element <$> ms) own
  | T_SEQUENCE_OF m own => SEQUENCE_OF (element m) own
  end.

(** The codec of a descriptor that is used on its own, without constraints of a place. *)
Definition asn_DEF (er : Z) (tmp : list Z) (t : asn_table) : codec := uper_codec (descriptor er tmp t) None.

(** ** Specification *)

(** The type that has no values. *)
Definition no_spec : type_spec := {| code _ := []; valid _ := False; typed _ := False |}.

Definition elm_of (er : Z) (tmp : list Z) (m : member asn_table) : asn_TYPE_member_t :=
  {| pointer := m_pointer m; optional := m_optional m; type := descriptor er tmp (m_type m);
     per_constraints := m_constraints m; default_value := None |}.

(** The members before the extension additions, which are the last ones. *)
Definition root_count (specs : asn_SEQUENCE_specifics_t) (n : nat) : nat :=
  if ext_before specs <? 0 then n else Z.to_nat (ext_after specs + 1).

Fixpoint spec_of (er : Z) (tmp : list Z) (t : asn_table) (constraints : option asn_per_constraints_t) : type_spec :=
  let field m :=
    match m with
    | Member p o t c =>
        ({| pointer := p; optional := o; type := descriptor er tmp t; per_constraints := c; default_value := None |},
         spec_of er tmp t c)
    end in
  match t with
  | T_NativeInteger u own => native_spec u (value <$> which constraints own)
  | T_INTEGER own => integer_spec
  | T_BOOLEAN => boolean_spec
  | T_NULL => null_spec
  | T_ENUMERATED specs own =>
      match value <$> which constraints own with Some c => enumerated_spec specs c | None => no_spec end
  | T_OCTET_STRING sub own => string_spec sub (which constraints own)
  | T_SEQUENCE specs ms =>
      let k := root_count specs (length ms) in sequence_spec specs (take k (field <$> ms)) (drop k (field <$> ms))
  | T_CHOICE specs ms own =>
      match value <$> which constraints own with Some c => choice_spec specs (field <$> ms) c | None => no_spec end
  | T_SEQUENCE_OF m own => list_spec (field m).2 (size <$> which constraints own)
  end.

Definition field_of (er : Z) (tmp : list Z) (m : member asn_table) : field :=
  (elm_of er tmp m, spec_of er tmp (m_type m) (m_constraints m)).

(** ** Tables that the codecs can work with *)

#[global] Instance ct_wf_dec u ct : Decision (ct_wf u ct).
Proof. unfold ct_wf. destruct ct; apply _. Defined.

#[global] Instance string_wf_dec sub pc : Decision (string_wf sub pc).
Proof. unfold string_wf. apply _. Defined.

Definition enum_check (specs : asn_INTEGER_specifics_t) (c : asn_per_constraint_t) : bool :=
  bool_decide (map_count specs = Z.of_nat (length (value2enum specs))) && increasing (value2enum specs) &&
  bool_decide (extension specs = 0 \/ 1 <= extension specs <= map_count specs + 1) &&
  bool_decide (0 <= range_bits c <= 31) && bool_decide (enum_root specs <= 2 ^ range_bits c).

Definition choice_check (specs : asn_CHOICE_specifics_t) (n : nat) (c : asn_per_constraint_t) : bool :=
  bool_decide (canonical_order specs = None) && bool_decide (0 <= range_bits c <= 31) &&
  bool_decide (lower_bound c = 0) && bool_decide (0 <= upper_bound c < Z.of_nat n) &&
  bool_decide (upper_bound c < 2 ^ range_bits c) && bool_decide (-1 <= ext_start specs).

Fixpoint optional_numbers (k : Z) (ms : list (member asn_table)) : list Z :=
  match ms with
  | [] => []
  | m :: ms' => (if m_optional m then [k] else []) ++ optional_numbers (k + 1) ms'
  end.

Definition sequence_check (specs : asn_SEQUENCE_specifics_t) (ms : list (member asn_table)) : bool :=
  let n := Z.of_nat (length ms) in
  let k := root_count specs (length ms) in
  let oms' := optional_numbers 0 (take k ms) in
  (bool_decide (ext_before specs < 0 /\ ext_after specs < 0) ||
   bool_decide (0 <= ext_after specs + 1 <= n /\ ext_before specs = n + 1)) &&
  bool_decide (roms_count specs = Z.of_nat (length oms')) &&
  bool_decide (take (Z.to_nat (roms_count specs)) (oms specs) = oms') &&
  bool_decide (roms_count specs + aoms_count specs <= n) && bool_decide (Z.of_nat (length (drop k ms)) <= 64).

Fixpoint table_check (t : asn_table) (constraints : option asn_per_constraints_t) : bool :=
  let element m := match m with Member _ _ t c => table_check t c end in
  match t with
  | T_NativeInteger u own => bool_decide (ct_wf u (value <$> which constraints own))
  | T_INTEGER own => match which constraints own with None => true | Some _ => false end
  | T_BOOLEAN | T_NULL => true
  | T_ENUMERATED specs own =>
      match value <$> which constraints own with Some c => enum_check specs c | None => false end
  | T_OCTET_STRING sub own => bool_decide (string_wf sub (which constraints own))
  | T_SEQUENCE specs ms => sequence_check specs ms && forallb element ms
  | T_CHOICE specs ms own =>
      match value <$> which constraints own with
      | Some c => choice_check specs (length ms) c && forallb element ms
      | None => false
      end
  | T_SEQUENCE_OF m own => element m
  end.

Lemma enum_check_wf specs c : enum_check specs c = true -> enum_wf specs c.
Proof.
  unfold enum_check. intros H. repeat (apply andb_prop in H as [H ?]). split; try done; by eapply bool_decide_eq_true_1.
Qed.

Lemma choice_check_wf specs fields c : choice_check specs (length fields) c = true -> choice_wf specs fields c.
Proof.
  unfold choice_check. intros H. repeat (apply andb_prop in H as [H ?]). split; by eapply bool_decide_eq_true_1.
Qed.

Lemma optional_numbers_eq er tmp ms : forall k, optional_indices k (field_of er tmp <$> ms) = optional_numbers k ms.
Proof. induction ms as [|m ms IH]; intros k; [done|]. cbn [fmap list_fmap optional_indices optional_numbers]. by rewrite IH. Qed.

Lemma root_count_neg specs n : ext_before specs < 0 -> root_count specs n = n.
Proof. intros H. unfold root_count. by rewrite (proj2 (Z.ltb_lt _ _) H). Qed.

Lemma root_count_ext specs n : 0 <= ext_before specs -> root_count specs n = Z.to_nat (ext_after specs + 1).
Proof. intros H. unfold root_count. by rewrite (proj2 (Z.ltb_ge _ _) H). Qed.

Lemma sequence_check_wf er tmp specs ms : sequence_check specs ms = true ->
  let k := root_count specs (length ms) in
  sequence_wf specs (take k (field_of er tmp <$> ms)) (drop k (field_of er tmp <$> ms)).
Proof.
  unfold sequence_check. intros H. set (k := root_count specs (length ms)) in *. cbv zeta. repeat (apply andb_prop in H as [H ?]).
  repeat match goal with E : bool_decide _ = true |- _ => apply bool_decide_eq_true_1 in E end.
  rewrite <- fmap_take, <- fmap_drop.
  split; rewrite ?optional_numbers_eq, <- ?fmap_app, ?take_drop, ?length_fmap; try done.
  - apply orb_prop in H as [H|H]; apply bool_decide_eq_true_1 in H as [? ?]; [left|right].
    + split_and!; [done|done|]. unfold k. rewrite root_count_neg by done. by rewrite drop_all.
    + split; [|done]. unfold k. rewrite root_count_ext, length_take by lia. lia.
  - apply list.Forall_forall. intros f Hf. apply list_elem_of_fmap in Hf as (m & -> & _). done.
  - intros i Hi. destruct (lookup_lt_is_Some_2 ms (Z.to_nat i)) as [m Hm]; [lia|].
    exists (field_of er tmp m). rewrite list_lookup_fmap, Hm. split; [done|]. by left.
Qed.

Section correct.
Context (er : Z) (tmp : list Z) (Her : er <> -1) (Htb : bytes tmp) (Htl : length tmp = 32%nat).

Lemma descriptor_element (ms : list (member asn_table)) :
  ((fun m => match m with
    | Member p o t c => {| pointer := p; optional := o; type := descriptor er tmp t; per_constraints := c; default_value := None |}
    end) <$> ms) = (field_of er tmp <$> ms).*1.
Proof. rewrite <- list_fmap_compose. apply list_fmap_ext. by intros i []. Qed.

Lemma spec_field (ms : list (member asn_table)) :
  ((fun m => match m with
    | Member p o t c => ({| pointer := p; optional := o; type := descriptor er tmp t; per_constraints := c; default_value := None |}, spec_of er tmp t c)
    end) <$> ms) = field_of er tmp <$> ms.
Proof. apply list_fmap_ext. by intros i []. Qed.

Lemma fields_ok ms :
  Forall (fun m => forall constraints, table_check (m_type m) constraints = true ->
    implements (uper_codec (descriptor er tmp (m_type m)) constraints) (spec_of er tmp (m_type m) constraints)) ms ->
  forallb (fun m => match m with Member _ _ t c => table_check t c end) ms = true ->
  Forall field_ok (field_of er tmp <$> ms).
Proof.
  intros IH Hc. induction IH as [|[p o t c] ms Hm _ IHms]; [constructor|]. cbn [forallb] in Hc. apply andb_prop in Hc as [Hc1 Hc2].
  constructor; [|by apply IHms]. exact (Hm c Hc1).
Qed.

(** A table that passes the check is implemented by its codec. *)
Lemma table_implements t : forall constraints, table_check t constraints = true ->
  implements (uper_codec (descriptor er tmp t) constraints) (spec_of er tmp t constraints).
Proof.
  induction t as [u own|own| | |specs own|sub own|specs ms IH|specs ms own IH|m own IH] using asn_table_rect'; intros constraints Hc;
    cbn [descriptor spec_of table_check] in *.
  - apply NativeInteger_implements. by eapply bool_decide_eq_true_1.
  - apply INTEGER_implements. by destruct (which constraints own).
  - by apply BOOLEAN_implements.
  - apply NULL_implements.
  - destruct (value <$> which constraints own) as [c|] eqn:E; [|done].
    apply ENUMERATED_implements; [done|by apply enum_check_wf].
  - apply OCTET_STRING_implements. by eapply bool_decide_eq_true_1.
  - apply andb_prop in Hc as [Hs Hm]. rewrite descriptor_element, spec_field.
    set (k := root_count specs (length ms)). rewrite <- (take_drop k (field_of er tmp <$> ms)) at 1.
    pose proof (fields_ok ms IH Hm) as Hok.
    apply SEQUENCE_implements; [done|done|by apply sequence_check_wf|by apply list.Forall_take|by apply list.Forall_drop].
  - destruct (value <$> which constraints own) as [c|] eqn:E; [|done]. apply andb_prop in Hc as [Hs Hm].
    rewrite descriptor_element, spec_field.
    apply CHOICE_implements; [done|done|done| |by apply fields_ok]. apply choice_check_wf. by rewrite length_fmap.
  - destruct m as [p o t c]. apply SEQUENCE_OF_implements. by apply IH.
Qed.

End correct.

(** ** Values that can be encoded *)

Definition int_check (u : bool) (ct : option asn_per_constraint_t) (z : Z) : bool :=
  bool_decide (- 2 ^ 63 <= z < 2 ^ 63) && encodable u ct z.

Definition octets_check (buf : list Z) (u : Z) : bool :=
  forallb (fun b => bool_decide (is_byte b)) buf && (u =? 0) && negb (Z.of_nat (length buf) mod 16384 =? 0).

(** Items of the root, and the first 64 extensions. *)
Definition item_check (specs : asn_INTEGER_specifics_t) (c : asn_per_constraint_t) (buf : list Z) (u : Z) : bool :=
  let z := int_value buf in
  let i := Z.of_nat (index_of z (value2enum specs)) in
  bool_decide (asn_long2INTEGER z = Some buf) && (u =? 0) && (z <? 2 ^ 63) && (0 <=? z) && bool_decide (z ∈ value2enum specs) &&
  (if enum_root specs <=? i
   then has_flag c APC_EXTENSIBLE && negb (extension specs =? 0) && (i - enum_root specs <=? 63) else true).

Definition char_check (unit_bits : Z) (cval : asn_per_constraint_t) (pc : option asn_per_constraints_t) (x : Z) : bool :=
  bool_decide (is_byte x) &&
  if upper_bound cval <=? 2 ^ unit_bits then (x <? 2 ^ unit_bits) && ((unit_bits =? 8) || (x <=? upper_bound cval))
  else
    match pc ≫= value2code, pc ≫= code2value with
    | Some v2c, Some c2v => (0 <=? v2c x) && (v2c x <? 2 ^ unit_bits) && (c2v (v2c x) =? x)
    | None, None => (0 <=? lower_bound cval) && (lower_bound cval <=? x) && (x <=? upper_bound cval) &&
                    (x - lower_bound cval <? 2 ^ unit_bits)
    | _, _ => false
    end.

Definition units_check (bpc unit_bits : Z) (cval : asn_per_constraint_t) (pc : option asn_per_constraints_t)
    (buf : list Z) (n : Z) : bool :=
  if bpc =? 0 then
    (unit_bits =? 1) && (0 <=? n) && forallb (fun b => bool_decide (is_byte b)) buf &&
    bool_decide (bitlist buf = take (Z.to_nat n) (bitlist buf) ++ replicate (pad_of (Z.to_nat n)) false) &&
    (n <=? 8 * Z.of_nat (length buf))
  else
    (bpc =? 1) && (n =? Z.of_nat (length buf)) &&
    bool_decide (1 <= unit_bits <= 8 /\ 0 <= upper_bound cval < 2 ^ 31) &&
    ((upper_bound cval <=? 2 ^ unit_bits) || (unit_bits <? 8)) && forallb (char_check unit_bits cval pc) buf.

Definition size_check (csiz : asn_per_constraint_t) (n : Z) : bool :=
  (0 <=? n) &&
  if 0 <=? effective_bits csiz then
    (effective_bits csiz <=? 16) && (lower_bound csiz <=? n) && (n <=? upper_bound csiz) &&
    (n - lower_bound csiz <? 2 ^ effective_bits csiz) &&
    (negb (effective_bits csiz =? 0) || (n =? upper_bound csiz))
  else (n <? 16384) && (lower_bound csiz =? 0).

Definition string_check (sub : asn_OS_Subvariant) (pc : option asn_per_constraints_t) (buf : list Z) (u : Z) : bool :=
  let c := default ASN_DEF_OCTET_STRING_CONSTRAINTS pc in
  let n := string_size sub buf u in
  let out := string_outside (size c) n in
  match sub with ASN_OSUBV_BIT | ASN_OSUBV_STR => true | _ => false end &&
  match string_units sub (value c) with
  | Some (bpc, canonical, unit_bits) =>
      (u =? (if bpc =? 0 then unused_bits n else 0)) && (n <? 2 ^ 31) && (negb out || has_flag (size c) APC_EXTENSIBLE) &&
      size_check (if out then size ASN_DEF_OCTET_STRING_CONSTRAINTS else size c) n &&
      units_check bpc (if out then canonical else unit_bits) (if out then value ASN_DEF_OCTET_STRING_CONSTRAINTS else value c) pc buf n
  | None => false
  end.

Definition list_check (ct : option asn_per_constraint_t) (n : Z) : bool :=
  match list_ct ct n with Some c => size_check c n | None => (0 <=? n) && (n <? 16384) end.

(** A code that can be the contents of an open type. *)
Definition open_check (C : list bool) : bool :=
  negb (bool_decide (C = [])) && (Z.of_nat (length C) <? 2 ^ 59) && negb (Z.of_nat (length (octets C)) mod 16384 =? 0).

(** The code of a value does not depend on what the stack holds. *)
Definition code_of (t : asn_table) (constraints : option asn_per_constraints_t) (v : asn_value) : list bool :=
  code (spec_of 0 [] t constraints) v.

(** The value is within the constraints of its table and the codec carries it: alternatives of
    a CHOICE are those of its root, and extension additions have a code that is not empty
    ([open_check]), since the open type of an empty code is not read back. [k] counts the members
    of a SEQUENCE that are left in its root. *)
Fixpoint value_check (t : asn_table) (constraints : option asn_per_constraints_t) (v : asn_value) : bool :=
  let element m v := match m with Member _ _ t c => value_check t c v end in
  match t, v with
  | T_NativeInteger u own, V_int z => int_check u (value <$> which constraints own) z
  | T_INTEGER own, V_str buf u => octets_check buf u
  | T_BOOLEAN, V_int z => (z =? 0) || (z =? 1)
  | T_NULL, V_int z => z =? 0
  | T_ENUMERATED specs own, V_str buf u =>
      match value <$> which constraints own with Some c => item_check specs c buf u | None => false end
  | T_OCTET_STRING sub own, V_str buf u => string_check sub (which constraints own) buf u
  | T_SEQUENCE specs ms, V_seq vs =>
      (fix go k ms vs :=
         match ms, vs with
         | [], [] => true
         | m :: ms', None :: vs' => m_pointer m && (m_optional m || (k =? 0)%nat) && go (pred k) ms' vs'
         | m :: ms', Some v :: vs' =>
             element m v && (negb (k =? 0)%nat || open_check (code_of (m_type m) (m_constraints m) v)) && go (pred k) ms' vs'
         | _, _ => false
         end) (root_count specs (length ms)) ms vs
  | T_CHOICE specs ms own, V_choice p (Some v) =>
      match value <$> which constraints own with
      | Some c =>
          (1 <=? p) && (p - 1 <=? upper_bound c) &&
          (fix pick ms i :=
             match ms, i with
             | m :: _, O => element m v
             | _ :: ms', S i' => pick ms' i'
             | [], _ => false
             end) ms (Z.to_nat (p - 1))
      | None => false
      end
  | T_SEQUENCE_OF m own, V_list array =>
      forallb (fun x => match x with Some v => element m v | None => false end) array &&
      list_check (size <$> which constraints own) (Z.of_nat (length array))
  | _, _ => false
  end.

(** From boolean checks to propositions. *)
Ltac checks :=
  repeat match goal with
  | H : _ && _ = true |- _ => apply andb_prop in H as [? ?]
  | H : _ || _ = true |- _ => apply orb_prop in H as [?|?]
  | H : bool_decide _ = true |- _ => apply bool_decide_eq_true_1 in H
  | H : (_ <=? _) = true |- _ => apply Z.leb_le in H
  | H : (_ <? _) = true |- _ => apply Z.ltb_lt in H
  | H : (_ =? _) = true |- _ => apply Z.eqb_eq in H
  | H : negb _ = true |- _ => apply negb_true_iff in H
  | H : (_ =? _) = false |- _ => apply Z.eqb_neq in H
  end.

Lemma forallb_impl {A} (f : A -> bool) (P : A -> Prop) l : (forall x, f x = true -> P x) -> forallb f l = true -> Forall P l.
Proof.
  intros Hf. induction l as [|x l IH]; intros H; [constructor|]. apply andb_prop in H as [? ?]. constructor; auto.
Qed.

Lemma char_check_ok unit_bits cval pc x : char_check unit_bits cval pc x = true -> char_ok unit_bits cval pc x.
Proof.
  unfold char_check, char_ok. intros H. apply andb_prop in H as [Hb H]. checks. split; [done|].
  destruct (upper_bound cval <=? 2 ^ unit_bits); [checks; auto|].
  destruct (pc ≫= value2code), (pc ≫= code2value); try done; checks; split_and!; done.
Qed.

Lemma units_check_ok bpc unit_bits cval pc buf n : units_check bpc unit_bits cval pc buf n = true -> units_ok bpc unit_bits cval pc buf n.
Proof.
  unfold units_check, units_ok. destruct (bpc =? 0); intros H; apply andb_prop in H as [H Hlast].
  - checks. split_and!; try done. eapply forallb_impl; [|done]. intros b. apply bool_decide_eq_true_1.
  - assert (Forall (char_ok unit_bits cval pc) buf) by (eapply forallb_impl; [|done]; apply char_check_ok).
    apply andb_prop in H as [H Hfew]. checks; split_and!; try done; unfold alphabet_wf; split_and!; try done; lia.
Qed.

Lemma size_check_ok csiz n : size_check csiz n = true -> size_ok csiz n.
Proof.
  unfold size_check, size_ok. intros H. apply andb_prop in H as [Hn H]. checks. split; [done|].
  destruct (0 <=? effective_bits csiz); [|by checks]. apply andb_prop in H as [H Hz]. checks; split_and!; done || lia.
Qed.

Lemma string_check_valid sub pc buf u : string_check sub pc buf u = true -> valid (string_spec sub pc) (V_str buf u).
Proof.
  unfold string_check. intros H. apply andb_prop in H as [Hs H].
  destruct (string_units sub _) as [[[bpc canonical] unit_bits]|] eqn:Hu; [|done].
  apply andb_prop in H as [H Hunits]. apply andb_prop in H as [H Hsize]. apply andb_prop in H as [H Hout]. checks.
  all: exists buf, u, bpc, canonical, unit_bits; cbv zeta; split_and!; try done; try (by apply size_check_ok); try (by apply units_check_ok).
  1, 3: by destruct sub; auto.
  intros E. congruence.
Qed.

Lemma item_check_valid specs c buf u : item_check specs c buf u = true -> valid (enumerated_spec specs c) (V_str buf u).
Proof.
  unfold item_check. intros H. apply andb_prop in H as [H Hx]. checks. exists (int_value buf). unfold V_enum.
  match goal with E : asn_long2INTEGER _ = _ |- _ => rewrite E end. subst. split; [done|]. split; [done|]. split; [done|]. split; [done|]. intros i Hr. unfold i in *.
  rewrite (proj2 (Z.leb_le _ _)) in Hx by done. by checks.
Qed.

Lemma zip_with_same {A A' B C} (f : A -> B -> C) (g : A' -> B -> C) {M} (h : M -> A) (h' : M -> A') ms (vs : list B) :
  Forall (fun m => forall v, f (h m) v = g (h' m) v) ms -> zip_with f (h <$> ms) vs = zip_with g (h' <$> ms) vs.
Proof. intros H. revert vs. induction H as [|m ms Hm _ IH]; intros [|v vs]; [done..|]. cbn. by rewrite Hm, IH. Qed.

Lemma code_same er tmp er' tmp' t : forall constraints v,
  code (spec_of er tmp t constraints) v = code (spec_of er' tmp' t constraints) v.
Proof.
  induction t as [u own|own| | |specs own|sub own|specs ms IH|specs ms own IH|[p o t c] own IH] using asn_table_rect';
    intros constraints v; cbn [spec_of]; try done.
  - rewrite !spec_field. set (k := root_count specs (length ms)). destruct v; try done. cbn [code sequence_spec].
    pose proof (list.Forall_take _ k ms IH) as IHr. pose proof (list.Forall_drop _ k ms IH) as IHa. cbn beta in IHr, IHa.
    unfold sequence_code. rewrite <- !fmap_take, <- !fmap_drop, !length_fmap.
    rewrite (zip_with_same presence_code presence_code (field_of er tmp) (field_of er' tmp')).
    2: { eapply list.Forall_impl; [exact IHr|]. by intros m Hm [v'|]. }
    rewrite (zip_with_same member_code member_code (field_of er tmp) (field_of er' tmp')).
    2: { eapply list.Forall_impl; [exact IHr|]. intros m Hm [v'|]; [|done]. unfold member_code. cbn. by rewrite Hm. }
    rewrite (zip_with_same (addition_code true false) (addition_code true false) (field_of er tmp) (field_of er' tmp')).
    2: { eapply list.Forall_impl; [exact IHa|]. by intros m Hm [v'|]. }
    rewrite (zip_with_same (addition_code false true) (addition_code false true) (field_of er tmp) (field_of er' tmp')); [done|].
    eapply list.Forall_impl; [exact IHa|]. intros m Hm [v'|]; [|done]. unfold addition_code. cbn. by rewrite Hm.
  - destruct (value <$> which constraints own); [|done]. rewrite !spec_field. destruct v as [| | | |i [v|]|]; try done.
    cbn [code choice_spec]. unfold choice_code. rewrite !list_lookup_fmap.
    destruct (ms !! Z.to_nat (i - 1)) as [m|] eqn:Hm; [|done]. cbn.
    by rewrite (list.Forall_lookup_1 _ _ _ _ IH Hm (m_constraints m) v).
  - destruct v; try done. cbn. do 2 f_equal. apply list_bind_ext; [|done]. intros [v|]; [apply IH|done].
Qed.

(** The members of a sequence that pass the check. *)
Lemma members_check er tmp ms k vs :
  Forall (fun m => forall constraints v, value_check (m_type m) constraints v = true -> valid (spec_of er tmp (m_type m) constraints) v) ms ->
  (fix go k ms vs :=
     match ms, vs with
     | [], [] => true
     | m :: ms', None :: vs' => m_pointer m && (m_optional m || (k =? 0)%nat) && go (pred k) ms' vs'
     | m :: ms', Some v :: vs' =>
         match m with Member _ _ t c => value_check t c v end &&
         (negb (k =? 0)%nat || open_check (code_of (m_type m) (m_constraints m) v)) && go (pred k) ms' vs'
     | _, _ => false
     end) k ms vs = true ->
  exists rms ams, vs = rms ++ ams /\ Forall2 root_valid (take k (field_of er tmp <$> ms)) rms /\
                  Forall2 add_valid (drop k (field_of er tmp <$> ms)) ams.
Proof.
  intros IH. revert k vs. induction IH as [|[p o t c] ms Hm _ IHms]; intros k vs Hc.
  { destruct vs; [|done]. exists [], []. rewrite fmap_nil, take_nil, drop_nil. split_and!; constructor. }
  assert (exists m vs', vs = m :: vs' /\ (if (k =? 0)%nat then add_valid else root_valid) (field_of er tmp (Member p o t c)) m /\
    exists rms ams, vs' = rms ++ ams /\ Forall2 root_valid (take (pred k) (field_of er tmp <$> ms)) rms /\
                    Forall2 add_valid (drop (pred k) (field_of er tmp <$> ms)) ams) as (m & vs' & -> & Hv & rms & ams & -> & Hr & Ha).
  { destruct vs as [|[v|] vs]; [done|..]; apply andb_prop in Hc as [Hc Hgo]; eexists _, _; (split; [done|]); (split; [|by apply IHms]);
      apply andb_prop in Hc as [Hv Hk].
    - specialize (Hm c v Hv). destruct (k =? 0)%nat; [|done]. cbn [negb orb] in Hk. unfold open_check, code_of in Hk.
      cbn [add_valid open_spec valid field_of snd m_type m_constraints] in *. rewrite (code_same er tmp 0 [] t c v). checks.
      split_and!; [done| |done|done]. intros E. by rewrite bool_decide_eq_true_2 in * by done.
    - cbn in Hv. destruct k; [exact Hv|]. cbn [Nat.eqb orb] in *. rewrite orb_false_r in Hk. by cbn. }
  destruct k as [|k]; cbn [Nat.eqb pred] in *.
  - rewrite take_0 in Hr. apply Forall2_nil_inv_l in Hr as ->. exists [], (m :: ams). split_and!; [done|constructor|]. by constructor.
  - exists (m :: rms), ams. split_and!; [done|by constructor|done].
Qed.

(** A value that passes the check is valid. *)
Lemma value_check_valid er tmp t : forall constraints v, value_check t constraints v = true -> valid (spec_of er tmp t constraints) v.
Proof.
  induction t as [u own|own| | |specs own|sub own|specs ms IH|specs ms own IH|m own IH] using asn_table_rect'; intros constraints v Hc;
    destruct v as [|z|buf bu|vs|p [v|]|array]; try done; cbn [value_check spec_of] in *.
  - exists z. unfold int_check in Hc. by checks.
  - unfold octets_check in Hc. checks. subst. exists buf. split_and!; [done| |by intros ->|done].
    eapply forallb_impl; [|done]. intros b. apply bool_decide_eq_true_1.
  - cbn. checks; subst; auto.
  - cbn. by checks; subst.
  - destruct (value <$> which constraints own) as [c|]; [|done]. by apply item_check_valid.
  - by apply string_check_valid.
  - rewrite spec_field. revert vs Hc. generalize (root_count specs (length ms)) as k. intros k vs Hc.
    destruct (members_check er tmp ms k vs IH Hc) as (rms & ams & -> & Hr & Ha). by exists rms, ams.
  - destruct (value <$> which constraints own) as [c|]; [|done]. apply andb_prop in Hc as [Hp Hc]. checks.
    rewrite spec_field. exists (p - 1), v. split; [by rewrite Z.sub_add|]. split; [lia|].
    assert (exists m, ms !! Z.to_nat (p - 1) = Some m /\ valid (spec_of er tmp (m_type m) (m_constraints m)) v) as (m & Hm & Hv).
    { revert Hc. generalize (Z.to_nat (p - 1)). induction IH as [|[p' o t c'] ms Hm _ IHms]; intros [|i] Hc; try done.
      - eexists. split; [done|]. by apply Hm.
      - by apply IHms. }
    exists (elm_of er tmp m), (spec_of er tmp (m_type m) (m_constraints m)). rewrite list_lookup_fmap, Hm. split; [done|].
    by rewrite (proj2 (Z.ltb_ge _ _)) by lia.
  - destruct m as [p o t c]. apply andb_prop in Hc as [Ha Hl]. exists array. split_and!; [done| |].
    + eapply forallb_impl; [|done]. intros [v|] Hv; [|done]. exists v. split; [done|]. by apply IH.
    + revert Hl. unfold list_check, list_size_ok. destruct (list_ct _ _); [apply size_check_ok|]. intros H. by checks.
Qed.
