(* ===== verification/UlpTables.v ===== *)
(** * UlpTables: the tables of the SUPL messages

    The descriptors that the ASN.1 compiler wrote for [ULP-PDU], with the types below it, one
    section for each file of [asn-supl]. Of a descriptor the tables keep the UPER codec, the
    PER constraints, the members and the specifics; a type that takes over the descriptor of
    another ([..._inherit_TYPE_descriptor]) has the codec and the specifics of that type and
    its constraints when it has none. *)
From S2P Require Import Prelude PerSupport AsnInteger PerSafe PerCodec AsnTypes AsnString AsnOpenType AsnConstructed AsnChoice AsnSequence AsnTables.

(** ** [NativeInteger.c] *)

Definition asn_DEF_NativeInteger : asn_table := T_NativeInteger false None.

(** ** [Version.c] *)

Definition ASN_PER_MEMB_MAJ_CONSTR_2 := per (APC_CONSTRAINED, 8, 8, 0, 255) (APC_UNCONSTRAINED, -1, -1, 0, 0) None None.

Definition ASN_PER_MEMB_MIN_CONSTR_3 := per (APC_CONSTRAINED, 8, 8, 0, 255) (APC_UNCONSTRAINED, -1, -1, 0, 0) None None.

Definition ASN_PER_MEMB_SERVIND_CONSTR_4 := per (APC_CONSTRAINED, 8, 8, 0, 255) (APC_UNCONSTRAINED, -1, -1, 0, 0) None None.

Definition asn_MBR_Version_1 : list (member asn_table) :=
  [
   (* maj *) Member false false asn_DEF_NativeInteger (Some ASN_PER_MEMB_MAJ_CONSTR_2);
   (* min *) Member false false asn_DEF_NativeInteger (Some ASN_PER_MEMB_MIN_CONSTR_3);
   (* servind *) Member false false asn_DEF_NativeInteger (Some ASN_PER_MEMB_SERVIND_CONSTR_4) ].

Definition asn_SPC_Version_specs_1 : asn_SEQUENCE_specifics_t :=
  {| oms := []; roms_count := 0; aoms_count := 0; ext_after := -1; ext_before := -1 |}.

Definition asn_DEF_Version : asn_table := T_SEQUENCE asn_SPC_Version_specs_1 asn_MBR_Version_1.

(** ** [OCTET_STRING.c] *)

Definition asn_DEF_OCTET_STRING : asn_table := T_OCTET_STRING ASN_OSUBV_STR None.

(** ** [BIT_STRING.c] *)

Definition asn_DEF_BIT_STRING : asn_table := T_OCTET_STRING ASN_OSUBV_BIT None.

(** ** [IA5String.c] *)

Definition ASN_DEF_I_A5_STRING_CONSTRAINTS := per (APC_CONSTRAINED, 7, 7, 0, 127) (APC_SEMI_CONSTRAINED, -1, -1, 0, 0) None None.

Definition asn_DEF_IA5String : asn_table := T_OCTET_STRING ASN_OSUBV_STR (Some ASN_DEF_I_A5_STRING_CONSTRAINTS).

(** ** [IPAddress.c] *)

Definition ASN_PER_TYPE_IP_ADDRESS_CONSTR_1 := per (APC_CONSTRAINED, 1, 1, 0, 1) (APC_UNCONSTRAINED, -1, -1, 0, 0) None None.

Definition ASN_PER_MEMB_IPV4_ADDRESS_CONSTR_2 := per (APC_UNCONSTRAINED, -1, -1, 0, 0) (APC_CONSTRAINED, 0, 0, 4, 4) None None.

Definition ASN_PER_MEMB_IPV6_ADDRESS_CONSTR_3 := per (APC_UNCONSTRAINED, -1, -1, 0, 0) (APC_CONSTRAINED, 0, 0, 16, 16) None None.

Definition asn_MBR_IPAddress_1 : list (member asn_table) :=
  [
   (* ipv4Address *) Member false false asn_DEF_OCTET_STRING (Some ASN_PER_MEMB_IPV4_ADDRESS_CONSTR_2);
   (* ipv6Address *) Member false false asn_DEF_OCTET_STRING (Some ASN_PER_MEMB_IPV6_ADDRESS_CONSTR_3) ].

Definition asn_SPC_IPAddress_specs_1 : asn_CHOICE_specifics_t := {| canonical_order := None; ext_start := -1 |}.

Definition asn_DEF_IPAddress : asn_table := T_CHOICE asn_SPC_IPAddress_specs_1 asn_MBR_IPAddress_1 (Some ASN_PER_TYPE_IP_ADDRESS_CONSTR_1).

(** ** [SETId.c] *)

Definition ASN_PER_TYPE_SET_ID_CONSTR_1 := per (Z.lor APC_CONSTRAINED APC_EXTENSIBLE, 3, 3, 0, 5) (APC_UNCONSTRAINED, -1, -1, 0, 0) None None.

Definition ASN_PER_MEMB_MSISDN_CONSTR_2 := per (APC_UNCONSTRAINED, -1, -1, 0, 0) (APC_CONSTRAINED, 0, 0, 8, 8) None None.

Definition ASN_PER_MEMB_MDN_CONSTR_3 := per (APC_UNCONSTRAINED, -1, -1, 0, 0) (APC_CONSTRAINED, 0, 0, 8, 8) None None.

Definition ASN_PER_MEMB_MIN_CONSTR_4 := per (APC_UNCONSTRAINED, -1, -1, 0, 0) (APC_CONSTRAINED, 0, 0, 34, 34) None None.

Definition ASN_PER_MEMB_IMSI_CONSTR_5 := per (APC_UNCONSTRAINED, -1, -1, 0, 0) (APC_CONSTRAINED, 0, 0, 8, 8) None None.

Definition ASN_PER_MEMB_NAI_CONSTR_6 := per (APC_CONSTRAINED, 7, 7, 0, 127) (APC_CONSTRAINED, 10, 10, 1, 1000) None None.

Definition asn_MBR_SETId_1 : list (member asn_table) :=
  [
   (* msisdn *) Member false false asn_DEF_OCTET_STRING (Some ASN_PER_MEMB_MSISDN_CONSTR_2);
   (* mdn *) Member false false asn_DEF_OCTET_STRING (Some ASN_PER_MEMB_MDN_CONSTR_3);
   (* min *) Member false false asn_DEF_BIT_STRING (Some ASN_PER_MEMB_MIN_CONSTR_4);
   (* imsi *) Member false false asn_DEF_OCTET_STRING (Some ASN_PER_MEMB_IMSI_CONSTR_5);
   (* nai *) Member false false asn_DEF_IA5String (Some ASN_PER_MEMB_NAI_CONSTR_6);
   (* iPAddress *) Member false false asn_DEF_IPAddress None ].

Definition asn_SPC_SETId_specs_1 : asn_CHOICE_specifics_t := {| canonical_order := None; ext_start := 6 |}.

Definition asn_DEF_SETId : asn_table := T_CHOICE asn_SPC_SETId_specs_1 asn_MBR_SETId_1 (Some ASN_PER_TYPE_SET_ID_CONSTR_1).

(** ** [SetSessionID.c] *)

Definition ASN_PER_MEMB_SESSION_ID_CONSTR_2 := per (APC_CONSTRAINED, 16, 16, 0, 65535) (APC_UNCONSTRAINED, -1, -1, 0, 0) None None.

Definition asn_MBR_SetSessionID_1 : list (member asn_table) :=
  [
   (* sessionId *) Member false false asn_DEF_NativeInteger (Some ASN_PER_MEMB_SESSION_ID_CONSTR_2);
   (* setId *) Member false false asn_DEF_SETId None ].

Definition asn_SPC_SetSessionID_specs_1 : asn_SEQUENCE_specifics_t :=
  {| oms := []; roms_count := 0; aoms_count := 0; ext_after := -1; ext_before := -1 |}.

Definition asn_DEF_SetSessionID : asn_table := T_SEQUENCE asn_SPC_SetSessionID_specs_1 asn_MBR_SetSessionID_1.

(** ** [VisibleString.c] *)

Definition ASN_DEF_VISIBLE_STRING_CONSTRAINTS := per (APC_CONSTRAINED, 7, 7, 32, 126) (APC_SEMI_CONSTRAINED, -1, -1, 0, 0) None None.

Definition asn_DEF_VisibleString : asn_table := T_OCTET_STRING ASN_OSUBV_STR (Some ASN_DEF_VISIBLE_STRING_CONSTRAINTS).

(** ** [FQDN.c] *)

(** The initializer; the other 128 entries of the table are zero. *)
Definition permitted_alphabet_table_1 : list Z :=
  [0; 0; 0; 0; 0; 0; 0; 0; 0; 0; 0; 0; 0; 0; 0; 0;
   0; 0; 0; 0; 0; 0; 0; 0; 0; 0; 0; 0; 0; 0; 0; 0;
   0; 0; 0; 0; 0; 0; 0; 0; 0; 0; 0; 0; 0; 1; 2; 0;
   3; 4; 5; 6; 7; 8; 9; 10; 11; 12; 0; 0; 0; 0; 0; 0;
   0; 13; 14; 15; 16; 17; 18; 19; 20; 21; 22; 23; 24; 25; 26; 27;
   28; 29; 30; 31; 32; 33; 34; 35; 36; 37; 38; 0; 0; 0; 0; 0;
   0; 39; 40; 41; 42; 43; 44; 45; 46; 47; 48; 49; 50; 51; 52; 53;
   54; 55; 56; 57; 58; 59; 60; 61; 62; 63; 64; 0; 0; 0; 0; 0]
  ++ replicate 128 0.

Definition permitted_alphabet_code2value_1 : list Z :=
  [45; 46; 48; 49; 50; 51; 52; 53; 54; 55; 56; 57; 65; 66; 67; 68;
   69; 70; 71; 72; 73; 74; 75; 76; 77; 78; 79; 80; 81; 82; 83; 84;
   85; 86; 87; 88; 89; 90; 97; 98; 99; 100; 101; 102; 103; 104; 105; 106;
   107; 108; 109; 110; 111; 112; 113; 114; 115; 116; 117; 118; 119; 120; 121; 122].

Definition asn_PER_MAP_FQDN_1_v2c (value : Z) : Z :=
  if Z.of_nat (length permitted_alphabet_table_1) <=? value then -1
  else nth (Z.to_nat value) permitted_alphabet_table_1 0 - 1.

Definition asn_PER_MAP_FQDN_1_c2v (code : Z) : Z :=
  if Z.of_nat (length permitted_alphabet_code2value_1) <=? code then -1
  else nth (Z.to_nat code) permitted_alphabet_code2value_1 0.

Definition ASN_PER_TYPE_FQDN_CONSTR_1 := per (APC_CONSTRAINED, 6, 6, 45, 122) (APC_CONSTRAINED, 8, 8, 1, 255) (Some asn_PER_MAP_FQDN_1_v2c) (Some asn_PER_MAP_FQDN_1_c2v).

Definition asn_DEF_FQDN : asn_table := T_OCTET_STRING ASN_OSUBV_STR (Some ASN_PER_TYPE_FQDN_CONSTR_1).

(** ** [SLPAddress.c] *)

Definition ASN_PER_TYPE_SLP_ADDRESS_CONSTR_1 := per (Z.lor APC_CONSTRAINED APC_EXTENSIBLE, 1, 1, 0, 1) (APC_UNCONSTRAINED, -1, -1, 0, 0) None None.

Definition asn_MBR_SLPAddress_1 : list (member asn_table) :=
  [
   (* iPAddress *) Member false false asn_DEF_IPAddress None;
   (* fQDN *) Member false false asn_DEF_FQDN None ].

Definition asn_SPC_SLPAddress_specs_1 : asn_CHOICE_specifics_t := {| canonical_order := None; ext_start := 2 |}.

Definition asn_DEF_SLPAddress : asn_table := T_CHOICE asn_SPC_SLPAddress_specs_1 asn_MBR_SLPAddress_1 (Some ASN_PER_TYPE_SLP_ADDRESS_CONSTR_1).

(** ** [SlpSessionID.c] *)

Definition ASN_PER_MEMB_SESSION_ID_CONSTR_2_SlpSessionID := per (APC_UNCONSTRAINED, -1, -1, 0, 0) (APC_CONSTRAINED, 0, 0, 4, 4) None None.

Definition asn_MBR_SlpSessionID_1 : list (member asn_table) :=
  [
   (* sessionID *) Member false false asn_DEF_OCTET_STRING (Some ASN_PER_MEMB_SESSION_ID_CONSTR_2_SlpSessionID);
   (* slpId *) Member false false asn_DEF_SLPAddress None ].

Definition asn_SPC_SlpSessionID_specs_1 : asn_SEQUENCE_specifics_t :=
  {| oms := []; roms_count := 0; aoms_count := 0; ext_after := -1; ext_before := -1 |}.

Definition asn_DEF_SlpSessionID : asn_table := T_SEQUENCE asn_SPC_SlpSessionID_specs_1 asn_MBR_SlpSessionID_1.

(** ** [SessionID.c] *)

Definition asn_MBR_SessionID_1 : list (member asn_table) :=
  [
   (* setSessionID *) Member true true asn_DEF_SetSessionID None;
   (* slpSessionID *) Member true true asn_DEF_SlpSessionID None ].

Definition asn_MAP_SessionID_oms_1 : list Z := [0; 1].
Definition asn_SPC_SessionID_specs_1 : asn_SEQUENCE_specifics_t :=
  {| oms := asn_MAP_SessionID_oms_1; roms_count := 2; aoms_count := 0; ext_after := -1; ext_before := -1 |}.

Definition asn_DEF_SessionID : asn_table := T_SEQUENCE asn_SPC_SessionID_specs_1 asn_MBR_SessionID_1.

(** ** [PosMethod.c] *)

Definition ASN_PER_TYPE_POS_METHOD_CONSTR_1 := per (Z.lor APC_CONSTRAINED APC_EXTENSIBLE, 4, 4, 0, 9) (APC_UNCONSTRAINED, -1, -1, 0, 0) None None.

Definition asn_MAP_PosMethod_value2enum_1 : list Z := [0; 1; 2; 3; 4; 5; 6; 7; 8; 9].
Definition asn_SPC_PosMethod_specs_1 : asn_INTEGER_specifics_t :=
  {| value2enum := asn_MAP_PosMethod_value2enum_1; map_count := 10; extension := 11 |}.

Definition asn_DEF_PosMethod : asn_table := T_ENUMERATED asn_SPC_PosMethod_specs_1 (Some ASN_PER_TYPE_POS_METHOD_CONSTR_1).

(** ** [NotificationType.c] *)

Definition ASN_PER_TYPE_NOTIFICATION_TYPE_CONSTR_1 := per (Z.lor APC_CONSTRAINED APC_EXTENSIBLE, 3, 3, 0, 4) (APC_UNCONSTRAINED, -1, -1, 0, 0) None None.

Definition asn_MAP_NotificationType_value2enum_1 : list Z := [0; 1; 2; 3; 4].
Definition asn_SPC_NotificationType_specs_1 : asn_INTEGER_specifics_t :=
  {| value2enum := asn_MAP_NotificationType_value2enum_1; map_count := 5; extension := 6 |}.

Definition asn_DEF_NotificationType : asn_table := T_ENUMERATED asn_SPC_NotificationType_specs_1 (Some ASN_PER_TYPE_NOTIFICATION_TYPE_CONSTR_1).

(** ** [EncodingType.c] *)

Definition ASN_PER_TYPE_ENCODING_TYPE_CONSTR_1 := per (Z.lor APC_CONSTRAINED APC_EXTENSIBLE, 2, 2, 0, 2) (APC_UNCONSTRAINED, -1, -1, 0, 0) None None.

Definition asn_MAP_EncodingType_value2enum_1 : list Z := [0; 1; 2].
Definition asn_SPC_EncodingType_specs_1 : asn_INTEGER_specifics_t :=
  {| value2enum := asn_MAP_EncodingType_value2enum_1; map_count := 3; extension := 4 |}.

Definition asn_DEF_EncodingType : asn_table := T_ENUMERATED asn_SPC_EncodingType_specs_1 (Some ASN_PER_TYPE_ENCODING_TYPE_CONSTR_1).

(** ** [FormatIndicator.c] *)

Definition ASN_PER_TYPE_FORMAT_INDICATOR_CONSTR_1 := per (Z.lor APC_CONSTRAINED APC_EXTENSIBLE, 3, 3, 0, 7) (APC_UNCONSTRAINED, -1, -1, 0, 0) None None.

Definition asn_MAP_FormatIndicator_value2enum_1 : list Z := [0; 1; 2; 3; 4; 5; 6; 7].
Definition asn_SPC_FormatIndicator_specs_1 : asn_INTEGER_specifics_t :=
  {| value2enum := asn_MAP_FormatIndicator_value2enum_1; map_count := 8; extension := 9 |}.

Definition asn_DEF_FormatIndicator : asn_table := T_ENUMERATED asn_SPC_FormatIndicator_specs_1 (Some ASN_PER_TYPE_FORMAT_INDICATOR_CONSTR_1).

(** ** [Notification.c] *)

Definition ASN_PER_MEMB_REQUESTOR_ID_CONSTR_4 := per (APC_UNCONSTRAINED, -1, -1, 0, 0) (APC_CONSTRAINED, 6, 6, 1, 50) None None.

Definition ASN_PER_MEMB_CLIENT_NAME_CONSTR_6 := per (APC_UNCONSTRAINED, -1, -1, 0, 0) (APC_CONSTRAINED, 6, 6, 1, 50) None None.

Definition asn_MBR_Notification_1 : list (member asn_table) :=
  [
   (* notificationType *) Member false false asn_DEF_NotificationType None;
   (* encodingType *) Member true true asn_DEF_EncodingType None;
   (* requestorId *) Member true true asn_DEF_OCTET_STRING (Some ASN_PER_MEMB_REQUESTOR_ID_CONSTR_4);
   (* requestorIdType *) Member true true asn_DEF_FormatIndicator None;
   (* clientName *) Member true true asn_DEF_OCTET_STRING (Some ASN_PER_MEMB_CLIENT_NAME_CONSTR_6);
   (* clientNameType *) Member true true asn_DEF_FormatIndicator None ].

Definition asn_MAP_Notification_oms_1 : list Z := [1; 2; 3; 4; 5].
Definition asn_SPC_Notification_specs_1 : asn_SEQUENCE_specifics_t :=
  {| oms := asn_MAP_Notification_oms_1; roms_count := 5; aoms_count := 0; ext_after := 5; ext_before := 7 |}.

Definition asn_DEF_Notification : asn_table := T_SEQUENCE asn_SPC_Notification_specs_1 asn_MBR_Notification_1.

(** ** [QoP.c] *)

Definition ASN_PER_MEMB_HORACC_CONSTR_2 := per (APC_CONSTRAINED, 7, 7, 0, 127) (APC_UNCONSTRAINED, -1, -1, 0, 0) None None.

Definition ASN_PER_MEMB_VERACC_CONSTR_3 := per (APC_CONSTRAINED, 7, 7, 0, 127) (APC_UNCONSTRAINED, -1, -1, 0, 0) None None.

Definition ASN_PER_MEMB_MAX_LOC_AGE_CONSTR_4 := per (APC_CONSTRAINED, 16, 16, 0, 65535) (APC_UNCONSTRAINED, -1, -1, 0, 0) None None.

Definition ASN_PER_MEMB_DELAY_CONSTR_5 := per (APC_CONSTRAINED, 3, 3, 0, 7) (APC_UNCONSTRAINED, -1, -1, 0, 0) None None.

Definition asn_MBR_QoP_1 : list (member asn_table) :=
  [
   (* horacc *) Member false false asn_DEF_NativeInteger (Some ASN_PER_MEMB_HORACC_CONSTR_2);
   (* veracc *) Member true true asn_DEF_NativeInteger (Some ASN_PER_MEMB_VERACC_CONSTR_3);
   (* maxLocAge *) Member true true asn_DEF_NativeInteger (Some ASN_PER_MEMB_MAX_LOC_AGE_CONSTR_4);
   (* delay *) Member true true asn_DEF_NativeInteger (Some ASN_PER_MEMB_DELAY_CONSTR_5) ].

Definition asn_MAP_QoP_oms_1 : list Z := [1; 2; 3].
Definition asn_SPC_QoP_specs_1 : asn_SEQUENCE_specifics_t :=
  {| oms := asn_MAP_QoP_oms_1; roms_count := 3; aoms_count := 0; ext_after := 3; ext_before := 5 |}.

Definition asn_DEF_QoP : asn_table := T_SEQUENCE asn_SPC_QoP_specs_1 asn_MBR_QoP_1.

(** ** [SLPMode.c] *)

Definition ASN_PER_TYPE_SLP_MODE_CONSTR_1 := per (APC_CONSTRAINED, 1, 1, 0, 1) (APC_UNCONSTRAINED, -1, -1, 0, 0) None None.

Definition asn_MAP_SLPMode_value2enum_1 : list Z := [0; 1].
Definition asn_SPC_SLPMode_specs_1 : asn_INTEGER_specifics_t :=
  {| value2enum := asn_MAP_SLPMode_value2enum_1; map_count := 2; extension := 0 |}.

Definition asn_DEF_SLPMode : asn_table := T_ENUMERATED asn_SPC_SLPMode_specs_1 (Some ASN_PER_TYPE_SLP_MODE_CONSTR_1).

(** ** [MAC.c] *)

Definition ASN_PER_TYPE_MAC_CONSTR_1 := per (APC_UNCONSTRAINED, -1, -1, 0, 0) (APC_CONSTRAINED, 0, 0, 64, 64) None None.

Definition asn_DEF_MAC : asn_table := T_OCTET_STRING ASN_OSUBV_BIT (Some ASN_PER_TYPE_MAC_CONSTR_1).

(** ** [KeyIdentity.c] *)

Definition ASN_PER_TYPE_KEY_IDENTITY_CONSTR_1 := per (APC_UNCONSTRAINED, -1, -1, 0, 0) (APC_CONSTRAINED, 0, 0, 128, 128) None None.

Definition asn_DEF_KeyIdentity : asn_table := T_OCTET_STRING ASN_OSUBV_BIT (Some ASN_PER_TYPE_KEY_IDENTITY_CONSTR_1).

(** ** [SUPLINIT.c] *)

Definition asn_MBR_SUPLINIT_1 : list (member asn_table) :=
  [
   (* posMethod *) Member false false asn_DEF_PosMethod None;
   (* notification *) Member true true asn_DEF_Notification None;
   (* sLPAddress *) Member true true asn_DEF_SLPAddress None;
   (* qoP *) Member true true asn_DEF_QoP None;
   (* sLPMode *) Member false false asn_DEF_SLPMode None;
   (* mAC *) Member true true asn_DEF_MAC None;
   (* keyIdentity *) Member true true asn_DEF_KeyIdentity None ].

Definition asn_MAP_SUPLINIT_oms_1 : list Z := [1; 2; 3; 5; 6].
Definition asn_SPC_SUPLINIT_specs_1 : asn_SEQUENCE_specifics_t :=
  {| oms := asn_MAP_SUPLINIT_oms_1; roms_count := 5; aoms_count := 0; ext_after := 6; ext_before := 8 |}.

Definition asn_DEF_SUPLINIT : asn_table := T_SEQUENCE asn_SPC_SUPLINIT_specs_1 asn_MBR_SUPLINIT_1.

(** ** [BOOLEAN.c] *)

Definition asn_DEF_BOOLEAN : asn_table := T_BOOLEAN.

(** ** [PosTechnology.c] *)

Definition asn_MBR_PosTechnology_1 : list (member asn_table) :=
  [
   (* agpsSETassisted *) Member false false asn_DEF_BOOLEAN None;
   (* agpsSETBased *) Member false false asn_DEF_BOOLEAN None;
   (* autonomousGPS *) Member false false asn_DEF_BOOLEAN None;
   (* aFLT *) Member false false asn_DEF_BOOLEAN None;
   (* eCID *) Member false false asn_DEF_BOOLEAN None;
   (* eOTD *) Member false false asn_DEF_BOOLEAN None;
   (* oTDOA *) Member false false asn_DEF_BOOLEAN None ].

Definition asn_SPC_PosTechnology_specs_1 : asn_SEQUENCE_specifics_t :=
  {| oms := []; roms_count := 0; aoms_count := 0; ext_after := 6; ext_before := 8 |}.

Definition asn_DEF_PosTechnology : asn_table := T_SEQUENCE asn_SPC_PosTechnology_specs_1 asn_MBR_PosTechnology_1.

(** ** [PrefMethod.c] *)

Definition ASN_PER_TYPE_PREF_METHOD_CONSTR_1 := per (APC_CONSTRAINED, 2, 2, 0, 2) (APC_UNCONSTRAINED, -1, -1, 0, 0) None None.

Definition asn_MAP_PrefMethod_value2enum_1 : list Z := [0; 1; 2].
Definition asn_SPC_PrefMethod_specs_1 : asn_INTEGER_specifics_t :=
  {| value2enum := asn_MAP_PrefMethod_value2enum_1; map_count := 3; extension := 0 |}.

Definition asn_DEF_PrefMethod : asn_table := T_ENUMERATED asn_SPC_PrefMethod_specs_1 (Some ASN_PER_TYPE_PREF_METHOD_CONSTR_1).

(** ** [PosProtocol.c] *)

Definition asn_MBR_PosProtocol_1 : list (member asn_table) :=
  [
   (* tia801 *) Member false false asn_DEF_BOOLEAN None;
   (* rrlp *) Member false false asn_DEF_BOOLEAN None;
   (* rrc *) Member false false asn_DEF_BOOLEAN None ].

Definition asn_SPC_PosProtocol_specs_1 : asn_SEQUENCE_specifics_t :=
  {| oms := []; roms_count := 0; aoms_count := 0; ext_after := 2; ext_before := 4 |}.

Definition asn_DEF_PosProtocol : asn_table := T_SEQUENCE asn_SPC_PosProtocol_specs_1 asn_MBR_PosProtocol_1.

(** ** [SETCapabilities.c] *)

Definition asn_MBR_SETCapabilities_1 : list (member asn_table) :=
  [
   (* posTechnology *) Member false false asn_DEF_PosTechnology None;
   (* prefMethod *) Member false false asn_DEF_PrefMethod None;
   (* posProtocol *) Member false false asn_DEF_PosProtocol None ].

Definition asn_SPC_SETCapabilities_specs_1 : asn_SEQUENCE_specifics_t :=
  {| oms := []; roms_count := 0; aoms_count := 0; ext_after := 2; ext_before := 4 |}.

Definition asn_DEF_SETCapabilities : asn_table := T_SEQUENCE asn_SPC_SETCapabilities_specs_1 asn_MBR_SETCapabilities_1.

(** ** [NMRelement.c] *)

Definition ASN_PER_MEMB_A_RFCN_CONSTR_2 := per (APC_CONSTRAINED, 10, 10, 0, 1023) (APC_UNCONSTRAINED, -1, -1, 0, 0) None None.

Definition ASN_PER_MEMB_B_SIC_CONSTR_3 := per (APC_CONSTRAINED, 6, 6, 0, 63) (APC_UNCONSTRAINED, -1, -1, 0, 0) None None.

Definition ASN_PER_MEMB_RX_LEV_CONSTR_4 := per (APC_CONSTRAINED, 6, 6, 0, 63) (APC_UNCONSTRAINED, -1, -1, 0, 0) None None.

Definition asn_MBR_NMRelement_1 : list (member asn_table) :=
  [
   (* aRFCN *) Member false false asn_DEF_NativeInteger (Some ASN_PER_MEMB_A_RFCN_CONSTR_2);
   (* bSIC *) Member false false asn_DEF_NativeInteger (Some ASN_PER_MEMB_B_SIC_CONSTR_3);
   (* rxLev *) Member false false asn_DEF_NativeInteger (Some ASN_PER_MEMB_RX_LEV_CONSTR_4) ].

Definition asn_SPC_NMRelement_specs_1 : asn_SEQUENCE_specifics_t :=
  {| oms := []; roms_count := 0; aoms_count := 0; ext_after := 2; ext_before := 4 |}.

Definition asn_DEF_NMRelement : asn_table := T_SEQUENCE asn_SPC_NMRelement_specs_1 asn_MBR_NMRelement_1.

(** ** [NMR.c] *)

Definition ASN_PER_TYPE_NMR_CONSTR_1 := per (APC_UNCONSTRAINED, -1, -1, 0, 0) (APC_CONSTRAINED, 4, 4, 1, 15) None None.

Definition asn_MBR_NMR_1 : member asn_table :=
   (* element *) Member true false asn_DEF_NMRelement None.

Definition asn_DEF_NMR : asn_table := T_SEQUENCE_OF asn_MBR_NMR_1 (Some ASN_PER_TYPE_NMR_CONSTR_1).

(** ** [GsmCellInformation.c] *)

Definition ASN_PER_MEMB_REF_MCC_CONSTR_2 := per (APC_CONSTRAINED, 10, 10, 0, 999) (APC_UNCONSTRAINED, -1, -1, 0, 0) None None.

Definition ASN_PER_MEMB_REF_MNC_CONSTR_3 := per (APC_CONSTRAINED, 10, 10, 0, 999) (APC_UNCONSTRAINED, -1, -1, 0, 0) None None.

Definition ASN_PER_MEMB_REF_LAC_CONSTR_4 := per (APC_CONSTRAINED, 16, 16, 0, 65535) (APC_UNCONSTRAINED, -1, -1, 0, 0) None None.

Definition ASN_PER_MEMB_REF_CI_CONSTR_5 := per (APC_CONSTRAINED, 16, 16, 0, 65535) (APC_UNCONSTRAINED, -1, -1, 0, 0) None None.

Definition ASN_PER_MEMB_T_A_CONSTR_7 := per (APC_CONSTRAINED, 8, 8, 0, 255) (APC_UNCONSTRAINED, -1, -1, 0, 0) None None.

Definition asn_MBR_GsmCellInformation_1 : list (member asn_table) :=
  [
   (* refMCC *) Member false false asn_DEF_NativeInteger (Some ASN_PER_MEMB_REF_MCC_CONSTR_2);
   (* refMNC *) Member false false asn_DEF_NativeInteger (Some ASN_PER_MEMB_REF_MNC_CONSTR_3);
   (* refLAC *) Member false false asn_DEF_NativeInteger (Some ASN_PER_MEMB_REF_LAC_CONSTR_4);
   (* refCI *) Member false false asn_DEF_NativeInteger (Some ASN_PER_MEMB_REF_CI_CONSTR_5);
   (* nMR *) Member true true asn_DEF_NMR None;
   (* tA *) Member true true asn_DEF_NativeInteger (Some ASN_PER_MEMB_T_A_CONSTR_7) ].

Definition asn_MAP_GsmCellInformation_oms_1 : list Z := [4; 5].
Definition asn_SPC_GsmCellInformation_specs_1 : asn_SEQUENCE_specifics_t :=
  {| oms := asn_MAP_GsmCellInformation_oms_1; roms_count := 2; aoms_count := 0; ext_after := 5; ext_before := 7 |}.

Definition asn_DEF_GsmCellInformation : asn_table := T_SEQUENCE asn_SPC_GsmCellInformation_specs_1 asn_MBR_GsmCellInformation_1.

(** ** [UARFCN.c] *)

Definition ASN_PER_TYPE_UARFCN_CONSTR_1 := per (APC_CONSTRAINED, 14, 14, 0, 16383) (APC_UNCONSTRAINED, -1, -1, 0, 0) None None.

Definition asn_DEF_UARFCN : asn_table := T_NativeInteger false (Some ASN_PER_TYPE_UARFCN_CONSTR_1).

(** ** [FrequencyInfoFDD.c] *)

Definition asn_MBR_FrequencyInfoFDD_1 : list (member asn_table) :=
  [
   (* uarfcn-UL *) Member true true asn_DEF_UARFCN None;
   (* uarfcn-DL *) Member false false asn_DEF_UARFCN None ].

Definition asn_MAP_FrequencyInfoFDD_oms_1 : list Z := [0].
Definition asn_SPC_FrequencyInfoFDD_specs_1 : asn_SEQUENCE_specifics_t :=
  {| oms := asn_MAP_FrequencyInfoFDD_oms_1; roms_count := 1; aoms_count := 0; ext_after := 1; ext_before := 3 |}.

Definition asn_DEF_FrequencyInfoFDD : asn_table := T_SEQUENCE asn_SPC_FrequencyInfoFDD_specs_1 asn_MBR_FrequencyInfoFDD_1.

(** ** [FrequencyInfoTDD.c] *)

Definition asn_MBR_FrequencyInfoTDD_1 : list (member asn_table) :=
  [
   (* uarfcn-Nt *) Member false false asn_DEF_UARFCN None ].

Definition asn_SPC_FrequencyInfoTDD_specs_1 : asn_SEQUENCE_specifics_t :=
  {| oms := []; roms_count := 0; aoms_count := 0; ext_after := 0; ext_before := 2 |}.

Definition asn_DEF_FrequencyInfoTDD : asn_table := T_SEQUENCE asn_SPC_FrequencyInfoTDD_specs_1 asn_MBR_FrequencyInfoTDD_1.

(** ** [FrequencyInfo.c] *)

Definition ASN_PER_TYPE_FMODE_SPECIFIC_INFO_CONSTR_2 := per (Z.lor APC_CONSTRAINED APC_EXTENSIBLE, 1, 1, 0, 1) (APC_UNCONSTRAINED, -1, -1, 0, 0) None None.

Definition asn_MBR_fmodeSpecificInfo_2 : list (member asn_table) :=
  [
   (* fdd *) Member false false asn_DEF_FrequencyInfoFDD None;
   (* tdd *) Member false false asn_DEF_FrequencyInfoTDD None ].

Definition asn_SPC_fmodeSpecificInfo_specs_2 : asn_CHOICE_specifics_t := {| canonical_order := None; ext_start := 2 |}.

Definition asn_DEF_fmodeSpecificInfo_2 : asn_table := T_CHOICE asn_SPC_fmodeSpecificInfo_specs_2 asn_MBR_fmodeSpecificInfo_2 (Some ASN_PER_TYPE_FMODE_SPECIFIC_INFO_CONSTR_2).

Definition asn_MBR_FrequencyInfo_1 : list (member asn_table) :=
  [
   (* fmodeSpecificInfo *) Member false false asn_DEF_fmodeSpecificInfo_2 None ].

Definition asn_SPC_FrequencyInfo_specs_1 : asn_SEQUENCE_specifics_t :=
  {| oms := []; roms_count := 0; aoms_count := 0; ext_after := 0; ext_before := 2 |}.

Definition asn_DEF_FrequencyInfo : asn_table := T_SEQUENCE asn_SPC_FrequencyInfo_specs_1 asn_MBR_FrequencyInfo_1.

(** ** [UTRA-CarrierRSSI.c] *)

Definition ASN_PER_TYPE_UTRA_CARRIER_RSSI_CONSTR_1 := per (APC_CONSTRAINED, 7, 7, 0, 127) (APC_UNCONSTRAINED, -1, -1, 0, 0) None None.

Definition asn_DEF_UTRA_CarrierRSSI : asn_table := T_NativeInteger false (Some ASN_PER_TYPE_UTRA_CARRIER_RSSI_CONSTR_1).

(** ** [PrimaryCPICH-Info.c] *)

Definition ASN_PER_MEMB_PRIMARY_SCRAMBLING_CODE_CONSTR_2 := per (APC_CONSTRAINED, 9, 9, 0, 511) (APC_UNCONSTRAINED, -1, -1, 0, 0) None None.

Definition asn_MBR_PrimaryCPICH_Info_1 : list (member asn_table) :=
  [
   (* primaryScramblingCode *) Member false false asn_DEF_NativeInteger (Some ASN_PER_MEMB_PRIMARY_SCRAMBLING_CODE_CONSTR_2) ].

Definition asn_SPC_PrimaryCPICH_Info_specs_1 : asn_SEQUENCE_specifics_t :=
  {| oms := []; roms_count := 0; aoms_count := 0; ext_after := -1; ext_before := -1 |}.

Definition asn_DEF_PrimaryCPICH_Info : asn_table := T_SEQUENCE asn_SPC_PrimaryCPICH_Info_specs_1 asn_MBR_PrimaryCPICH_Info_1.

(** ** [CPICH-Ec-N0.c] *)

Definition ASN_PER_TYPE_CPICH_EC_N0_CONSTR_1 := per (APC_CONSTRAINED, 6, 6, 0, 63) (APC_UNCONSTRAINED, -1, -1, 0, 0) None None.

Definition asn_DEF_CPICH_Ec_N0 : asn_table := T_NativeInteger false (Some ASN_PER_TYPE_CPICH_EC_N0_CONSTR_1).

(** ** [CPICH-RSCP.c] *)

Definition ASN_PER_TYPE_CPICH_RSCP_CONSTR_1 := per (APC_CONSTRAINED, 7, 7, 0, 127) (APC_UNCONSTRAINED, -1, -1, 0, 0) None None.

Definition asn_DEF_CPICH_RSCP : asn_table := T_NativeInteger false (Some ASN_PER_TYPE_CPICH_RSCP_CONSTR_1).

(** ** [Pathloss.c] *)

Definition ASN_PER_TYPE_PATHLOSS_CONSTR_1 := per (APC_CONSTRAINED, 7, 7, 46, 173) (APC_UNCONSTRAINED, -1, -1, 0, 0) None None.

Definition asn_DEF_Pathloss : asn_table := T_NativeInteger false (Some ASN_PER_TYPE_PATHLOSS_CONSTR_1).

(** ** [CellParametersID.c] *)

Definition ASN_PER_TYPE_CELL_PARAMETERS_ID_CONSTR_1 := per (APC_CONSTRAINED, 7, 7, 0, 127) (APC_UNCONSTRAINED, -1, -1, 0, 0) None None.

Definition asn_DEF_CellParametersID : asn_table := T_NativeInteger false (Some ASN_PER_TYPE_CELL_PARAMETERS_ID_CONSTR_1).

(** ** [TGSN.c] *)

Definition ASN_PER_TYPE_TGSN_CONSTR_1 := per (APC_CONSTRAINED, 4, 4, 0, 14) (APC_UNCONSTRAINED, -1, -1, 0, 0) None None.

Definition asn_DEF_TGSN : asn_table := T_NativeInteger false (Some ASN_PER_TYPE_TGSN_CONSTR_1).

(** ** [PrimaryCCPCH-RSCP.c] *)

Definition ASN_PER_TYPE_PRIMARY_CCPCH_RSCP_CONSTR_1 := per (APC_CONSTRAINED, 7, 7, 0, 127) (APC_UNCONSTRAINED, -1, -1, 0, 0) None None.

Definition asn_DEF_PrimaryCCPCH_RSCP : asn_table := T_NativeInteger false (Some ASN_PER_TYPE_PRIMARY_CCPCH_RSCP_CONSTR_1).

(** ** [TimeslotISCP.c] *)

Definition ASN_PER_TYPE_TIMESLOT_ISCP_CONSTR_1 := per (APC_CONSTRAINED, 7, 7, 0, 127) (APC_UNCONSTRAINED, -1, -1, 0, 0) None None.

Definition asn_DEF_TimeslotISCP : asn_table := T_NativeInteger false (Some ASN_PER_TYPE_TIMESLOT_ISCP_CONSTR_1).

(** ** [TimeslotISCP-List.c] *)

Definition ASN_PER_TYPE_TIMESLOT_ISCP_LIST_CONSTR_1 := per (APC_UNCONSTRAINED, -1, -1, 0, 0) (APC_CONSTRAINED, 4, 4, 1, 14) None None.

Definition asn_MBR_TimeslotISCP_List_1 : member asn_table :=
   (* element *) Member true false asn_DEF_TimeslotISCP None.

Definition asn_DEF_TimeslotISCP_List : asn_table := T_SEQUENCE_OF asn_MBR_TimeslotISCP_List_1 (Some ASN_PER_TYPE_TIMESLOT_ISCP_LIST_CONSTR_1).

(** ** [CellMeasuredResults.c] *)

Definition ASN_PER_MEMB_CELL_IDENTITY_CONSTR_2 := per (APC_CONSTRAINED, 28, -1, 0, 268435455) (APC_UNCONSTRAINED, -1, -1, 0, 0) None None.

Definition ASN_PER_TYPE_MODE_SPECIFIC_INFO_CONSTR_3 := per (APC_CONSTRAINED, 1, 1, 0, 1) (APC_UNCONSTRAINED, -1, -1, 0, 0) None None.

Definition asn_MBR_fdd_4 : list (member asn_table) :=
  [
   (* primaryCPICH-Info *) Member false false asn_DEF_PrimaryCPICH_Info None;
   (* cpich-Ec-N0 *) Member true true asn_DEF_CPICH_Ec_N0 None;
   (* cpich-RSCP *) Member true true asn_DEF_CPICH_RSCP None;
   (* pathloss *) Member true true asn_DEF_Pathloss None ].

Definition asn_MAP_fdd_oms_4 : list Z := [1; 2; 3].
Definition asn_SPC_fdd_specs_4 : asn_SEQUENCE_specifics_t :=
  {| oms := asn_MAP_fdd_oms_4; roms_count := 3; aoms_count := 0; ext_after := -1; ext_before := -1 |}.

Definition asn_DEF_fdd_4 : asn_table := T_SEQUENCE asn_SPC_fdd_specs_4 asn_MBR_fdd_4.
Definition asn_MBR_tdd_9 : list (member asn_table) :=
  [
   (* cellParametersID *) Member false false asn_DEF_CellParametersID None;
   (* proposedTGSN *) Member true true asn_DEF_TGSN None;
   (* primaryCCPCH-RSCP *) Member true true asn_DEF_PrimaryCCPCH_RSCP None;
   (* pathloss *) Member true true asn_DEF_Pathloss None;
   (* timeslotISCP-List *) Member true true asn_DEF_TimeslotISCP_List None ].

Definition asn_MAP_tdd_oms_9 : list Z := [1; 2; 3; 4].
Definition asn_SPC_tdd_specs_9 : asn_SEQUENCE_specifics_t :=
  {| oms := asn_MAP_tdd_oms_9; roms_count := 4; aoms_count := 0; ext_after := -1; ext_before := -1 |}.

Definition asn_DEF_tdd_9 : asn_table := T_SEQUENCE asn_SPC_tdd_specs_9 asn_MBR_tdd_9.
Definition asn_MBR_modeSpecificInfo_3 : list (member asn_table) :=
  [
   (* fdd *) Member false false asn_DEF_fdd_4 None;
   (* tdd *) Member false false asn_DEF_tdd_9 None ].

Definition asn_SPC_modeSpecificInfo_specs_3 : asn_CHOICE_specifics_t := {| canonical_order := None; ext_start := -1 |}.

Definition asn_DEF_modeSpecificInfo_3 : asn_table := T_CHOICE asn_SPC_modeSpecificInfo_specs_3 asn_MBR_modeSpecificInfo_3 (Some ASN_PER_TYPE_MODE_SPECIFIC_INFO_CONSTR_3).

Definition asn_MBR_CellMeasuredResults_1 : list (member asn_table) :=
  [
   (* cellIdentity *) Member true true asn_DEF_NativeInteger (Some ASN_PER_MEMB_CELL_IDENTITY_CONSTR_2);
   (* modeSpecificInfo *) Member false false asn_DEF_modeSpecificInfo_3 None ].

Definition asn_MAP_CellMeasuredResults_oms_1 : list Z := [0].
Definition asn_SPC_CellMeasuredResults_specs_1 : asn_SEQUENCE_specifics_t :=
  {| oms := asn_MAP_CellMeasuredResults_oms_1; roms_count := 1; aoms_count := 0; ext_after := -1; ext_before := -1 |}.

Definition asn_DEF_CellMeasuredResults : asn_table := T_SEQUENCE asn_SPC_CellMeasuredResults_specs_1 asn_MBR_CellMeasuredResults_1.

(** ** [CellMeasuredResultsList.c] *)

Definition ASN_PER_TYPE_CELL_MEASURED_RESULTS_LIST_CONSTR_1 := per (APC_UNCONSTRAINED, -1, -1, 0, 0) (APC_CONSTRAINED, 5, 5, 1, 32) None None.

Definition asn_MBR_CellMeasuredResultsList_1 : member asn_table :=
   (* element *) Member true false asn_DEF_CellMeasuredResults None.

Definition asn_DEF_CellMeasuredResultsList : asn_table := T_SEQUENCE_OF asn_MBR_CellMeasuredResultsList_1 (Some ASN_PER_TYPE_CELL_MEASURED_RESULTS_LIST_CONSTR_1).

(** ** [MeasuredResults.c] *)

Definition asn_MBR_MeasuredResults_1 : list (member asn_table) :=
  [
   (* frequencyInfo *) Member true true asn_DEF_FrequencyInfo None;
   (* utra-CarrierRSSI *) Member true true asn_DEF_UTRA_CarrierRSSI None;
   (* cellMeasuredResultsList *) Member true true asn_DEF_CellMeasuredResultsList None ].

Definition asn_MAP_MeasuredResults_oms_1 : list Z := [0; 1; 2].
Definition asn_SPC_MeasuredResults_specs_1 : asn_SEQUENCE_specifics_t :=
  {| oms := asn_MAP_MeasuredResults_oms_1; roms_count := 3; aoms_count := 0; ext_after := -1; ext_before := -1 |}.

Definition asn_DEF_MeasuredResults : asn_table := T_SEQUENCE asn_SPC_MeasuredResults_specs_1 asn_MBR_MeasuredResults_1.

(** ** [MeasuredResultsList.c] *)

Definition ASN_PER_TYPE_MEASURED_RESULTS_LIST_CONSTR_1 := per (APC_UNCONSTRAINED, -1, -1, 0, 0) (APC_CONSTRAINED, 3, 3, 1, 8) None None.

Definition asn_MBR_MeasuredResultsList_1 : member asn_table :=
   (* element *) Member true false asn_DEF_MeasuredResults None.

Definition asn_DEF_MeasuredResultsList : asn_table := T_SEQUENCE_OF asn_MBR_MeasuredResultsList_1 (Some ASN_PER_TYPE_MEASURED_RESULTS_LIST_CONSTR_1).

(** ** [WcdmaCellInformation.c] *)

Definition ASN_PER_MEMB_REF_MCC_CONSTR_2_WcdmaCellInformation := per (APC_CONSTRAINED, 10, 10, 0, 999) (APC_UNCONSTRAINED, -1, -1, 0, 0) None None.

Definition ASN_PER_MEMB_REF_MNC_CONSTR_3_WcdmaCellInformation := per (APC_CONSTRAINED, 10, 10, 0, 999) (APC_UNCONSTRAINED, -1, -1, 0, 0) None None.

Definition ASN_PER_MEMB_REF_UC_CONSTR_4 := per (APC_CONSTRAINED, 28, -1, 0, 268435455) (APC_UNCONSTRAINED, -1, -1, 0, 0) None None.

Definition ASN_PER_MEMB_PRIMARY_SCRAMBLING_CODE_CONSTR_6 := per (APC_CONSTRAINED, 9, 9, 0, 511) (APC_UNCONSTRAINED, -1, -1, 0, 0) None None.

Definition asn_MBR_WcdmaCellInformation_1 : list (member asn_table) :=
  [
   (* refMCC *) Member false false asn_DEF_NativeInteger (Some ASN_PER_MEMB_REF_MCC_CONSTR_2_WcdmaCellInformation);
   (* refMNC *) Member false false asn_DEF_NativeInteger (Some ASN_PER_MEMB_REF_MNC_CONSTR_3_WcdmaCellInformation);
   (* refUC *) Member false false asn_DEF_NativeInteger (Some ASN_PER_MEMB_REF_UC_CONSTR_4);
   (* frequencyInfo *) Member true true asn_DEF_FrequencyInfo None;
   (* primaryScramblingCode *) Member true true asn_DEF_NativeInteger (Some ASN_PER_MEMB_PRIMARY_SCRAMBLING_CODE_CONSTR_6);
   (* measuredResultsList *) Member true true asn_DEF_MeasuredResultsList None ].

Definition asn_MAP_WcdmaCellInformation_oms_1 : list Z := [3; 4; 5].
Definition asn_SPC_WcdmaCellInformation_specs_1 : asn_SEQUENCE_specifics_t :=
  {| oms := asn_MAP_WcdmaCellInformation_oms_1; roms_count := 3; aoms_count := 0; ext_after := 5; ext_before := 7 |}.

Definition asn_DEF_WcdmaCellInformation : asn_table := T_SEQUENCE asn_SPC_WcdmaCellInformation_specs_1 asn_MBR_WcdmaCellInformation_1.

(** ** [CdmaCellInformation.c] *)

Definition ASN_PER_MEMB_REF_NID_CONSTR_2 := per (APC_CONSTRAINED, 16, 16, 0, 65535) (APC_UNCONSTRAINED, -1, -1, 0, 0) None None.

Definition ASN_PER_MEMB_REF_SID_CONSTR_3 := per (APC_CONSTRAINED, 15, 15, 0, 32767) (APC_UNCONSTRAINED, -1, -1, 0, 0) None None.

Definition ASN_PER_MEMB_REF_BASEID_CONSTR_4 := per (APC_CONSTRAINED, 16, 16, 0, 65535) (APC_UNCONSTRAINED, -1, -1, 0, 0) None None.

Definition ASN_PER_MEMB_REF_BASELAT_CONSTR_5 := per (APC_CONSTRAINED, 22, -1, 0, 4194303) (APC_UNCONSTRAINED, -1, -1, 0, 0) None None.

Definition ASN_PER_MEMB_RE_BASELONG_CONSTR_6 := per (APC_CONSTRAINED, 23, -1, 0, 8388607) (APC_UNCONSTRAINED, -1, -1, 0, 0) None None.

Definition ASN_PER_MEMB_REF_REFPN_CONSTR_7 := per (APC_CONSTRAINED, 9, 9, 0, 511) (APC_UNCONSTRAINED, -1, -1, 0, 0) None None.

Definition ASN_PER_MEMB_REF_WEEK_NUMBER_CONSTR_8 := per (APC_CONSTRAINED, 16, 16, 0, 65535) (APC_UNCONSTRAINED, -1, -1, 0, 0) None None.

Definition ASN_PER_MEMB_REF_SECONDS_CONSTR_9 := per (APC_CONSTRAINED, 22, -1, 0, 4194303) (APC_UNCONSTRAINED, -1, -1, 0, 0) None None.

Definition asn_MBR_CdmaCellInformation_1 : list (member asn_table) :=
  [
   (* refNID *) Member false false asn_DEF_NativeInteger (Some ASN_PER_MEMB_REF_NID_CONSTR_2);
   (* refSID *) Member false false asn_DEF_NativeInteger (Some ASN_PER_MEMB_REF_SID_CONSTR_3);
   (* refBASEID *) Member false false asn_DEF_NativeInteger (Some ASN_PER_MEMB_REF_BASEID_CONSTR_4);
   (* refBASELAT *) Member false false asn_DEF_NativeInteger (Some ASN_PER_MEMB_REF_BASELAT_CONSTR_5);
   (* reBASELONG *) Member false false asn_DEF_NativeInteger (Some ASN_PER_MEMB_RE_BASELONG_CONSTR_6);
   (* refREFPN *) Member false false asn_DEF_NativeInteger (Some ASN_PER_MEMB_REF_REFPN_CONSTR_7);
   (* refWeekNumber *) Member false false asn_DEF_NativeInteger (Some ASN_PER_MEMB_REF_WEEK_NUMBER_CONSTR_8);
   (* refSeconds *) Member false false asn_DEF_NativeInteger (Some ASN_PER_MEMB_REF_SECONDS_CONSTR_9) ].

Definition asn_SPC_CdmaCellInformation_specs_1 : asn_SEQUENCE_specifics_t :=
  {| oms := []; roms_count := 0; aoms_count := 0; ext_after := 7; ext_before := 9 |}.

Definition asn_DEF_CdmaCellInformation : asn_table := T_SEQUENCE asn_SPC_CdmaCellInformation_specs_1 asn_MBR_CdmaCellInformation_1.

(** ** [CellInfo.c] *)

Definition ASN_PER_TYPE_CELL_INFO_CONSTR_1 := per (Z.lor APC_CONSTRAINED APC_EXTENSIBLE, 2, 2, 0, 2) (APC_UNCONSTRAINED, -1, -1, 0, 0) None None.

Definition asn_MBR_CellInfo_1 : list (member asn_table) :=
  [
   (* gsmCell *) Member false false asn_DEF_GsmCellInformation None;
   (* wcdmaCell *) Member false false asn_DEF_WcdmaCellInformation None;
   (* cdmaCell *) Member false false asn_DEF_CdmaCellInformation None ].

Definition asn_SPC_CellInfo_specs_1 : asn_CHOICE_specifics_t := {| canonical_order := None; ext_start := 3 |}.

Definition asn_DEF_CellInfo : asn_table := T_CHOICE asn_SPC_CellInfo_specs_1 asn_MBR_CellInfo_1 (Some ASN_PER_TYPE_CELL_INFO_CONSTR_1).

(** ** [Status.c] *)

Definition ASN_PER_TYPE_STATUS_CONSTR_1 := per (Z.lor APC_CONSTRAINED APC_EXTENSIBLE, 2, 2, 0, 2) (APC_UNCONSTRAINED, -1, -1, 0, 0) None None.

Definition asn_MAP_Status_value2enum_1 : list Z := [0; 1; 2].
Definition asn_SPC_Status_specs_1 : asn_INTEGER_specifics_t :=
  {| value2enum := asn_MAP_Status_value2enum_1; map_count := 3; extension := 4 |}.

Definition asn_DEF_Status : asn_table := T_ENUMERATED asn_SPC_Status_specs_1 (Some ASN_PER_TYPE_STATUS_CONSTR_1).

(** ** [LocationId.c] *)

Definition asn_MBR_LocationId_1 : list (member asn_table) :=
  [
   (* cellInfo *) Member false false asn_DEF_CellInfo None;
   (* status *) Member false false asn_DEF_Status None ].

Definition asn_SPC_LocationId_specs_1 : asn_SEQUENCE_specifics_t :=
  {| oms := []; roms_count := 0; aoms_count := 0; ext_after := 1; ext_before := 3 |}.

Definition asn_DEF_LocationId : asn_table := T_SEQUENCE asn_SPC_LocationId_specs_1 asn_MBR_LocationId_1.

(** ** [SUPLSTART.c] *)

Definition asn_MBR_SUPLSTART_1 : list (member asn_table) :=
  [
   (* sETCapabilities *) Member false false asn_DEF_SETCapabilities None;
   (* locationId *) Member false false asn_DEF_LocationId None;
   (* qoP *) Member true true asn_DEF_QoP None ].

Definition asn_MAP_SUPLSTART_oms_1 : list Z := [2].
Definition asn_SPC_SUPLSTART_specs_1 : asn_SEQUENCE_specifics_t :=
  {| oms := asn_MAP_SUPLSTART_oms_1; roms_count := 1; aoms_count := 0; ext_after := 2; ext_before := 4 |}.

Definition asn_DEF_SUPLSTART : asn_table := T_SEQUENCE asn_SPC_SUPLSTART_specs_1 asn_MBR_SUPLSTART_1.

(** ** [SETAuthKey.c] *)

Definition ASN_PER_TYPE_SET_AUTH_KEY_CONSTR_1 := per (Z.lor APC_CONSTRAINED APC_EXTENSIBLE, 1, 1, 0, 1) (APC_UNCONSTRAINED, -1, -1, 0, 0) None None.

Definition ASN_PER_MEMB_SHORT_KEY_CONSTR_2 := per (APC_UNCONSTRAINED, -1, -1, 0, 0) (APC_CONSTRAINED, 0, 0, 128, 128) None None.

Definition ASN_PER_MEMB_LONG_KEY_CONSTR_3 := per (APC_UNCONSTRAINED, -1, -1, 0, 0) (APC_CONSTRAINED, 0, 0, 256, 256) None None.

Definition asn_MBR_SETAuthKey_1 : list (member asn_table) :=
  [
   (* shortKey *) Member false false asn_DEF_BIT_STRING (Some ASN_PER_MEMB_SHORT_KEY_CONSTR_2);
   (* longKey *) Member false false asn_DEF_BIT_STRING (Some ASN_PER_MEMB_LONG_KEY_CONSTR_3) ].

Definition asn_SPC_SETAuthKey_specs_1 : asn_CHOICE_specifics_t := {| canonical_order := None; ext_start := 2 |}.

Definition asn_DEF_SETAuthKey : asn_table := T_CHOICE asn_SPC_SETAuthKey_specs_1 asn_MBR_SETAuthKey_1 (Some ASN_PER_TYPE_SET_AUTH_KEY_CONSTR_1).

(** ** [KeyIdentity4.c] *)

Definition ASN_PER_TYPE_KEY_IDENTITY4_CONSTR_1 := per (APC_UNCONSTRAINED, -1, -1, 0, 0) (APC_CONSTRAINED, 0, 0, 128, 128) None None.

Definition asn_DEF_KeyIdentity4 : asn_table := T_OCTET_STRING ASN_OSUBV_BIT (Some ASN_PER_TYPE_KEY_IDENTITY4_CONSTR_1).

(** ** [SUPLRESPONSE.c] *)

Definition asn_MBR_SUPLRESPONSE_1 : list (member asn_table) :=
  [
   (* posMethod *) Member false false asn_DEF_PosMethod None;
   (* sLPAddress *) Member true true asn_DEF_SLPAddress None;
   (* sETAuthKey *) Member true true asn_DEF_SETAuthKey None;
   (* keyIdentity4 *) Member true true asn_DEF_KeyIdentity4 None ].

Definition asn_MAP_SUPLRESPONSE_oms_1 : list Z := [1; 2; 3].
Definition asn_SPC_SUPLRESPONSE_specs_1 : asn_SEQUENCE_specifics_t :=
  {| oms := asn_MAP_SUPLRESPONSE_oms_1; roms_count := 3; aoms_count := 0; ext_after := 3; ext_before := 5 |}.

Definition asn_DEF_SUPLRESPONSE : asn_table := T_SEQUENCE asn_SPC_SUPLRESPONSE_specs_1 asn_MBR_SUPLRESPONSE_1.

(** ** [SatelliteInfoElement.c] *)

Definition ASN_PER_MEMB_SAT_ID_CONSTR_2 := per (APC_CONSTRAINED, 6, 6, 0, 63) (APC_UNCONSTRAINED, -1, -1, 0, 0) None None.

Definition ASN_PER_MEMB_I_ODE_CONSTR_3 := per (APC_CONSTRAINED, 8, 8, 0, 255) (APC_UNCONSTRAINED, -1, -1, 0, 0) None None.

Definition asn_MBR_SatelliteInfoElement_1 : list (member asn_table) :=
  [
   (* satId *) Member false false asn_DEF_NativeInteger (Some ASN_PER_MEMB_SAT_ID_CONSTR_2);
   (* iODE *) Member false false asn_DEF_NativeInteger (Some ASN_PER_MEMB_I_ODE_CONSTR_3) ].

Definition asn_SPC_SatelliteInfoElement_specs_1 : asn_SEQUENCE_specifics_t :=
  {| oms := []; roms_count := 0; aoms_count := 0; ext_after := 1; ext_before := 3 |}.

Definition asn_DEF_SatelliteInfoElement : asn_table := T_SEQUENCE asn_SPC_SatelliteInfoElement_specs_1 asn_MBR_SatelliteInfoElement_1.

(** ** [SatelliteInfo.c] *)

Definition ASN_PER_TYPE_SATELLITE_INFO_CONSTR_1 := per (APC_UNCONSTRAINED, -1, -1, 0, 0) (APC_CONSTRAINED, 5, 5, 1, 31) None None.

Definition asn_MBR_SatelliteInfo_1 : member asn_table :=
   (* element *) Member true false asn_DEF_SatelliteInfoElement None.

Definition asn_DEF_SatelliteInfo : asn_table := T_SEQUENCE_OF asn_MBR_SatelliteInfo_1 (Some ASN_PER_TYPE_SATELLITE_INFO_CONSTR_1).

(** ** [XNavigationModel.c] *)

Definition ASN_PER_MEMB_GPS_WEEK_CONSTR_2 := per (APC_CONSTRAINED, 10, 10, 0, 1023) (APC_UNCONSTRAINED, -1, -1, 0, 0) None None.

Definition ASN_PER_MEMB_GPS_TOE_CONSTR_3 := per (APC_CONSTRAINED, 8, 8, 0, 167) (APC_UNCONSTRAINED, -1, -1, 0, 0) None None.

Definition ASN_PER_MEMB_N_SAT_CONSTR_4 := per (APC_CONSTRAINED, 5, 5, 0, 31) (APC_UNCONSTRAINED, -1, -1, 0, 0) None None.

Definition ASN_PER_MEMB_TOE_LIMIT_CONSTR_5 := per (APC_CONSTRAINED, 4, 4, 0, 10) (APC_UNCONSTRAINED, -1, -1, 0, 0) None None.

Definition asn_MBR_XNavigationModel_1 : list (member asn_table) :=
  [
   (* gpsWeek *) Member false false asn_DEF_NativeInteger (Some ASN_PER_MEMB_GPS_WEEK_CONSTR_2);
   (* gpsToe *) Member false false asn_DEF_NativeInteger (Some ASN_PER_MEMB_GPS_TOE_CONSTR_3);
   (* nSAT *) Member false false asn_DEF_NativeInteger (Some ASN_PER_MEMB_N_SAT_CONSTR_4);
   (* toeLimit *) Member false false asn_DEF_NativeInteger (Some ASN_PER_MEMB_TOE_LIMIT_CONSTR_5);
   (* satInfo *) Member true true asn_DEF_SatelliteInfo None ].

Definition asn_MAP_XNavigationModel_oms_1 : list Z := [4].
Definition asn_SPC_XNavigationModel_specs_1 : asn_SEQUENCE_specifics_t :=
  {| oms := asn_MAP_XNavigationModel_oms_1; roms_count := 1; aoms_count := 0; ext_after := 4; ext_before := 6 |}.

Definition asn_DEF_XNavigationModel : asn_table := T_SEQUENCE asn_SPC_XNavigationModel_specs_1 asn_MBR_XNavigationModel_1.

(** ** [RequestedAssistData.c] *)

Definition asn_MBR_RequestedAssistData_1 : list (member asn_table) :=
  [
   (* almanacRequested *) Member false false asn_DEF_BOOLEAN None;
   (* utcModelRequested *) Member false false asn_DEF_BOOLEAN None;
   (* ionosphericModelRequested *) Member false false asn_DEF_BOOLEAN None;
   (* dgpsCorrectionsRequested *) Member false false asn_DEF_BOOLEAN None;
   (* referenceLocationRequested *) Member false false asn_DEF_BOOLEAN None;
   (* referenceTimeRequested *) Member false false asn_DEF_BOOLEAN None;
   (* acquisitionAssistanceRequested *) Member false false asn_DEF_BOOLEAN None;
   (* realTimeIntegrityRequested *) Member false false asn_DEF_BOOLEAN None;
   (* navigationModelRequested *) Member false false asn_DEF_BOOLEAN None;
   (* navigationModelData *) Member true true asn_DEF_XNavigationModel None ].

Definition asn_MAP_RequestedAssistData_oms_1 : list Z := [9].
Definition asn_SPC_RequestedAssistData_specs_1 : asn_SEQUENCE_specifics_t :=
  {| oms := asn_MAP_RequestedAssistData_oms_1; roms_count := 1; aoms_count := 0; ext_after := 9; ext_before := 11 |}.

Definition asn_DEF_RequestedAssistData : asn_table := T_SEQUENCE asn_SPC_RequestedAssistData_specs_1 asn_MBR_RequestedAssistData_1.

(** ** [UTCTime.c] *)

Definition ASN_DEF_UTC_TIME_CONSTRAINTS := per (APC_CONSTRAINED, 7, 7, 32, 126) (APC_SEMI_CONSTRAINED, -1, -1, 0, 0) None None.

Definition asn_DEF_UTCTime : asn_table := T_OCTET_STRING ASN_OSUBV_STR (Some ASN_DEF_UTC_TIME_CONSTRAINTS).

(** ** [AltitudeInfo.c] *)

Definition ASN_PER_TYPE_ALTITUDE_DIRECTION_CONSTR_2 := per (APC_CONSTRAINED, 1, 1, 0, 1) (APC_UNCONSTRAINED, -1, -1, 0, 0) None None.

Definition asn_MAP_altitudeDirection_value2enum_2 : list Z := [0; 1].
Definition asn_SPC_altitudeDirection_specs_2 : asn_INTEGER_specifics_t :=
  {| value2enum := asn_MAP_altitudeDirection_value2enum_2; map_count := 2; extension := 0 |}.

Definition asn_DEF_altitudeDirection_2 : asn_table := T_ENUMERATED asn_SPC_altitudeDirection_specs_2 (Some ASN_PER_TYPE_ALTITUDE_DIRECTION_CONSTR_2).

Definition ASN_PER_MEMB_ALTITUDE_CONSTR_5 := per (APC_CONSTRAINED, 15, 15, 0, 32767) (APC_UNCONSTRAINED, -1, -1, 0, 0) None None.

Definition ASN_PER_MEMB_ALT_UNCERTAINTY_CONSTR_6 := per (APC_CONSTRAINED, 7, 7, 0, 127) (APC_UNCONSTRAINED, -1, -1, 0, 0) None None.

Definition asn_MBR_AltitudeInfo_1 : list (member asn_table) :=
  [
   (* altitudeDirection *) Member false false asn_DEF_altitudeDirection_2 None;
   (* altitude *) Member false false asn_DEF_NativeInteger (Some ASN_PER_MEMB_ALTITUDE_CONSTR_5);
   (* altUncertainty *) Member false false asn_DEF_NativeInteger (Some ASN_PER_MEMB_ALT_UNCERTAINTY_CONSTR_6) ].

Definition asn_SPC_AltitudeInfo_specs_1 : asn_SEQUENCE_specifics_t :=
  {| oms := []; roms_count := 0; aoms_count := 0; ext_after := 2; ext_before := 4 |}.

Definition asn_DEF_AltitudeInfo : asn_table := T_SEQUENCE asn_SPC_AltitudeInfo_specs_1 asn_MBR_AltitudeInfo_1.

(** ** [PositionEstimate.c] *)

Definition ASN_PER_TYPE_LATITUDE_SIGN_CONSTR_2 := per (APC_CONSTRAINED, 1, 1, 0, 1) (APC_UNCONSTRAINED, -1, -1, 0, 0) None None.

Definition asn_MAP_latitudeSign_value2enum_2 : list Z := [0; 1].
Definition asn_SPC_latitudeSign_specs_2 : asn_INTEGER_specifics_t :=
  {| value2enum := asn_MAP_latitudeSign_value2enum_2; map_count := 2; extension := 0 |}.

Definition asn_DEF_latitudeSign_2 : asn_table := T_ENUMERATED asn_SPC_latitudeSign_specs_2 (Some ASN_PER_TYPE_LATITUDE_SIGN_CONSTR_2).

Definition ASN_PER_MEMB_LATITUDE_CONSTR_5 := per (APC_CONSTRAINED, 23, -1, 0, 8388607) (APC_UNCONSTRAINED, -1, -1, 0, 0) None None.

Definition ASN_PER_MEMB_LONGITUDE_CONSTR_6 := per (APC_CONSTRAINED, 24, -1, -8388608, 8388607) (APC_UNCONSTRAINED, -1, -1, 0, 0) None None.

Definition ASN_PER_MEMB_UNCERTAINTY_SEMI_MAJOR_CONSTR_8 := per (APC_CONSTRAINED, 7, 7, 0, 127) (APC_UNCONSTRAINED, -1, -1, 0, 0) None None.

Definition ASN_PER_MEMB_UNCERTAINTY_SEMI_MINOR_CONSTR_9 := per (APC_CONSTRAINED, 7, 7, 0, 127) (APC_UNCONSTRAINED, -1, -1, 0, 0) None None.

Definition ASN_PER_MEMB_ORIENTATION_MAJOR_AXIS_CONSTR_10 := per (APC_CONSTRAINED, 8, 8, 0, 180) (APC_UNCONSTRAINED, -1, -1, 0, 0) None None.

Definition asn_MBR_uncertainty_7 : list (member asn_table) :=
  [
   (* uncertaintySemiMajor *) Member false false asn_DEF_NativeInteger (Some ASN_PER_MEMB_UNCERTAINTY_SEMI_MAJOR_CONSTR_8);
   (* uncertaintySemiMinor *) Member false false asn_DEF_NativeInteger (Some ASN_PER_MEMB_UNCERTAINTY_SEMI_MINOR_CONSTR_9);
   (* orientationMajorAxis *) Member false false asn_DEF_NativeInteger (Some ASN_PER_MEMB_ORIENTATION_MAJOR_AXIS_CONSTR_10) ].

Definition asn_SPC_uncertainty_specs_7 : asn_SEQUENCE_specifics_t :=
  {| oms := []; roms_count := 0; aoms_count := 0; ext_after := -1; ext_before := -1 |}.

Definition asn_DEF_uncertainty_7 : asn_table := T_SEQUENCE asn_SPC_uncertainty_specs_7 asn_MBR_uncertainty_7.

Definition ASN_PER_MEMB_CONFIDENCE_CONSTR_11 := per (APC_CONSTRAINED, 7, 7, 0, 100) (APC_UNCONSTRAINED, -1, -1, 0, 0) None None.

Definition asn_MBR_PositionEstimate_1 : list (member asn_table) :=
  [
   (* latitudeSign *) Member false false asn_DEF_latitudeSign_2 None;
   (* latitude *) Member false false asn_DEF_NativeInteger (Some ASN_PER_MEMB_LATITUDE_CONSTR_5);
   (* longitude *) Member false false asn_DEF_NativeInteger (Some ASN_PER_MEMB_LONGITUDE_CONSTR_6);
   (* uncertainty *) Member true true asn_DEF_uncertainty_7 None;
   (* confidence *) Member true true asn_DEF_NativeInteger (Some ASN_PER_MEMB_CONFIDENCE_CONSTR_11);
   (* altitudeInfo *) Member true true asn_DEF_AltitudeInfo None ].

Definition asn_MAP_PositionEstimate_oms_1 : list Z := [3; 4; 5].
Definition asn_SPC_PositionEstimate_specs_1 : asn_SEQUENCE_specifics_t :=
  {| oms := asn_MAP_PositionEstimate_oms_1; roms_count := 3; aoms_count := 0; ext_after := 5; ext_before := 7 |}.

Definition asn_DEF_PositionEstimate : asn_table := T_SEQUENCE asn_SPC_PositionEstimate_specs_1 asn_MBR_PositionEstimate_1.

(** ** [Horvel.c] *)

Definition ASN_PER_MEMB_BEARING_CONSTR_2 := per (APC_UNCONSTRAINED, -1, -1, 0, 0) (APC_CONSTRAINED, 0, 0, 9, 9) None None.

Definition ASN_PER_MEMB_HORSPEED_CONSTR_3 := per (APC_UNCONSTRAINED, -1, -1, 0, 0) (APC_CONSTRAINED, 0, 0, 16, 16) None None.

Definition asn_MBR_Horvel_1 : list (member asn_table) :=
  [
   (* bearing *) Member false false asn_DEF_BIT_STRING (Some ASN_PER_MEMB_BEARING_CONSTR_2);
   (* horspeed *) Member false false asn_DEF_BIT_STRING (Some ASN_PER_MEMB_HORSPEED_CONSTR_3) ].

Definition asn_SPC_Horvel_specs_1 : asn_SEQUENCE_specifics_t :=
  {| oms := []; roms_count := 0; aoms_count := 0; ext_after := 1; ext_before := 3 |}.

Definition asn_DEF_Horvel : asn_table := T_SEQUENCE asn_SPC_Horvel_specs_1 asn_MBR_Horvel_1.

(** ** [Horandvervel.c] *)

Definition ASN_PER_MEMB_VERDIRECT_CONSTR_2 := per (APC_UNCONSTRAINED, -1, -1, 0, 0) (APC_CONSTRAINED, 0, 0, 1, 1) None None.

Definition ASN_PER_MEMB_BEARING_CONSTR_3 := per (APC_UNCONSTRAINED, -1, -1, 0, 0) (APC_CONSTRAINED, 0, 0, 9, 9) None None.

Definition ASN_PER_MEMB_HORSPEED_CONSTR_4 := per (APC_UNCONSTRAINED, -1, -1, 0, 0) (APC_CONSTRAINED, 0, 0, 16, 16) None None.

Definition ASN_PER_MEMB_VERSPEED_CONSTR_5 := per (APC_UNCONSTRAINED, -1, -1, 0, 0) (APC_CONSTRAINED, 0, 0, 8, 8) None None.

Definition asn_MBR_Horandvervel_1 : list (member asn_table) :=
  [
   (* verdirect *) Member false false asn_DEF_BIT_STRING (Some ASN_PER_MEMB_VERDIRECT_CONSTR_2);
   (* bearing *) Member false false asn_DEF_BIT_STRING (Some ASN_PER_MEMB_BEARING_CONSTR_3);
   (* horspeed *) Member false false asn_DEF_BIT_STRING (Some ASN_PER_MEMB_HORSPEED_CONSTR_4);
   (* verspeed *) Member false false asn_DEF_BIT_STRING (Some ASN_PER_MEMB_VERSPEED_CONSTR_5) ].

Definition asn_SPC_Horandvervel_specs_1 : asn_SEQUENCE_specifics_t :=
  {| oms := []; roms_count := 0; aoms_count := 0; ext_after := 3; ext_before := 5 |}.

Definition asn_DEF_Horandvervel : asn_table := T_SEQUENCE asn_SPC_Horandvervel_specs_1 asn_MBR_Horandvervel_1.

(** ** [Horveluncert.c] *)

Definition ASN_PER_MEMB_BEARING_CONSTR_2_Horveluncert := per (APC_UNCONSTRAINED, -1, -1, 0, 0) (APC_CONSTRAINED, 0, 0, 9, 9) None None.

Definition ASN_PER_MEMB_HORSPEED_CONSTR_3_Horveluncert := per (APC_UNCONSTRAINED, -1, -1, 0, 0) (APC_CONSTRAINED, 0, 0, 16, 16) None None.

Definition ASN_PER_MEMB_UNCERTSPEED_CONSTR_4 := per (APC_UNCONSTRAINED, -1, -1, 0, 0) (APC_CONSTRAINED, 0, 0, 8, 8) None None.

Definition asn_MBR_Horveluncert_1 : list (member asn_table) :=
  [
   (* bearing *) Member false false asn_DEF_BIT_STRING (Some ASN_PER_MEMB_BEARING_CONSTR_2_Horveluncert);
   (* horspeed *) Member false false asn_DEF_BIT_STRING (Some ASN_PER_MEMB_HORSPEED_CONSTR_3_Horveluncert);
   (* uncertspeed *) Member false false asn_DEF_BIT_STRING (Some ASN_PER_MEMB_UNCERTSPEED_CONSTR_4) ].

Definition asn_SPC_Horveluncert_specs_1 : asn_SEQUENCE_specifics_t :=
  {| oms := []; roms_count := 0; aoms_count := 0; ext_after := 2; ext_before := 4 |}.

Definition asn_DEF_Horveluncert : asn_table := T_SEQUENCE asn_SPC_Horveluncert_specs_1 asn_MBR_Horveluncert_1.

(** ** [Horandveruncert.c] *)

Definition ASN_PER_MEMB_VERDIRECT_CONSTR_2_Horandveruncert := per (APC_UNCONSTRAINED, -1, -1, 0, 0) (APC_CONSTRAINED, 0, 0, 1, 1) None None.

Definition ASN_PER_MEMB_BEARING_CONSTR_3_Horandveruncert := per (APC_UNCONSTRAINED, -1, -1, 0, 0) (APC_CONSTRAINED, 0, 0, 9, 9) None None.

Definition ASN_PER_MEMB_HORSPEED_CONSTR_4_Horandveruncert := per (APC_UNCONSTRAINED, -1, -1, 0, 0) (APC_CONSTRAINED, 0, 0, 16, 16) None None.

Definition ASN_PER_MEMB_VERSPEED_CONSTR_5_Horandveruncert := per (APC_UNCONSTRAINED, -1, -1, 0, 0) (APC_CONSTRAINED, 0, 0, 8, 8) None None.

Definition ASN_PER_MEMB_HORUNCERTSPEED_CONSTR_6 := per (APC_UNCONSTRAINED, -1, -1, 0, 0) (APC_CONSTRAINED, 0, 0, 8, 8) None None.

Definition ASN_PER_MEMB_VERUNCERTSPEED_CONSTR_7 := per (APC_UNCONSTRAINED, -1, -1, 0, 0) (APC_CONSTRAINED, 0, 0, 8, 8) None None.

Definition asn_MBR_Horandveruncert_1 : list (member asn_table) :=
  [
   (* verdirect *) Member false false asn_DEF_BIT_STRING (Some ASN_PER_MEMB_VERDIRECT_CONSTR_2_Horandveruncert);
   (* bearing *) Member false false asn_DEF_BIT_STRING (Some ASN_PER_MEMB_BEARING_CONSTR_3_Horandveruncert);
   (* horspeed *) Member false false asn_DEF_BIT_STRING (Some ASN_PER_MEMB_HORSPEED_CONSTR_4_Horandveruncert);
   (* verspeed *) Member false false asn_DEF_BIT_STRING (Some ASN_PER_MEMB_VERSPEED_CONSTR_5_Horandveruncert);
   (* horuncertspeed *) Member false false asn_DEF_BIT_STRING (Some ASN_PER_MEMB_HORUNCERTSPEED_CONSTR_6);
   (* veruncertspeed *) Member false false asn_DEF_BIT_STRING (Some ASN_PER_MEMB_VERUNCERTSPEED_CONSTR_7) ].

Definition asn_SPC_Horandveruncert_specs_1 : asn_SEQUENCE_specifics_t :=
  {| oms := []; roms_count := 0; aoms_count := 0; ext_after := 5; ext_before := 7 |}.

Definition asn_DEF_Horandveruncert : asn_table := T_SEQUENCE asn_SPC_Horandveruncert_specs_1 asn_MBR_Horandveruncert_1.

(** ** [Velocity.c] *)

Definition ASN_PER_TYPE_VELOCITY_CONSTR_1 := per (Z.lor APC_CONSTRAINED APC_EXTENSIBLE, 2, 2, 0, 3) (APC_UNCONSTRAINED, -1, -1, 0, 0) None None.

Definition asn_MBR_Velocity_1 : list (member asn_table) :=
  [
   (* horvel *) Member false false asn_DEF_Horvel None;
   (* horandvervel *) Member false false asn_DEF_Horandvervel None;
   (* horveluncert *) Member false false asn_DEF_Horveluncert None;
   (* horandveruncert *) Member false false asn_DEF_Horandveruncert None ].

Definition asn_SPC_Velocity_specs_1 : asn_CHOICE_specifics_t := {| canonical_order := None; ext_start := 4 |}.

Definition asn_DEF_Velocity : asn_table := T_CHOICE asn_SPC_Velocity_specs_1 asn_MBR_Velocity_1 (Some ASN_PER_TYPE_VELOCITY_CONSTR_1).

(** ** [Position.c] *)

Definition asn_MBR_Position_1 : list (member asn_table) :=
  [
   (* timestamp *) Member false false asn_DEF_UTCTime None;
   (* positionEstimate *) Member false false asn_DEF_PositionEstimate None;
   (* velocity *) Member true true asn_DEF_Velocity None ].

Definition asn_MAP_Position_oms_1 : list Z := [2].
Definition asn_SPC_Position_specs_1 : asn_SEQUENCE_specifics_t :=
  {| oms := asn_MAP_Position_oms_1; roms_count := 1; aoms_count := 0; ext_after := 2; ext_before := 4 |}.

Definition asn_DEF_Position : asn_table := T_SEQUENCE asn_SPC_Position_specs_1 asn_MBR_Position_1.

(** ** [PosPayLoad.c] *)

Definition ASN_PER_TYPE_POS_PAY_LOAD_CONSTR_1 := per (Z.lor APC_CONSTRAINED APC_EXTENSIBLE, 2, 2, 0, 2) (APC_UNCONSTRAINED, -1, -1, 0, 0) None None.

Definition ASN_PER_MEMB_TIA801PAYLOAD_CONSTR_2 := per (APC_UNCONSTRAINED, -1, -1, 0, 0) (APC_CONSTRAINED, 13, 13, 1, 8192) None None.

Definition ASN_PER_MEMB_RRC_PAYLOAD_CONSTR_3 := per (APC_UNCONSTRAINED, -1, -1, 0, 0) (APC_CONSTRAINED, 13, 13, 1, 8192) None None.

Definition ASN_PER_MEMB_RRLP_PAYLOAD_CONSTR_4 := per (APC_UNCONSTRAINED, -1, -1, 0, 0) (APC_CONSTRAINED, 13, 13, 1, 8192) None None.

Definition asn_MBR_PosPayLoad_1 : list (member asn_table) :=
  [
   (* tia801payload *) Member false false asn_DEF_OCTET_STRING (Some ASN_PER_MEMB_TIA801PAYLOAD_CONSTR_2);
   (* rrcPayload *) Member false false asn_DEF_OCTET_STRING (Some ASN_PER_MEMB_RRC_PAYLOAD_CONSTR_3);
   (* rrlpPayload *) Member false false asn_DEF_OCTET_STRING (Some ASN_PER_MEMB_RRLP_PAYLOAD_CONSTR_4) ].

Definition asn_SPC_PosPayLoad_specs_1 : asn_CHOICE_specifics_t := {| canonical_order := None; ext_start := 3 |}.

Definition asn_DEF_PosPayLoad : asn_table := T_CHOICE asn_SPC_PosPayLoad_specs_1 asn_MBR_PosPayLoad_1 (Some ASN_PER_TYPE_POS_PAY_LOAD_CONSTR_1).

(** ** [SUPLPOS.c] *)

Definition asn_MBR_SUPLPOS_1 : list (member asn_table) :=
  [
   (* posPayLoad *) Member false false asn_DEF_PosPayLoad None;
   (* velocity *) Member true true asn_DEF_Velocity None ].

Definition asn_MAP_SUPLPOS_oms_1 : list Z := [1].
Definition asn_SPC_SUPLPOS_specs_1 : asn_SEQUENCE_specifics_t :=
  {| oms := asn_MAP_SUPLPOS_oms_1; roms_count := 1; aoms_count := 0; ext_after := 1; ext_before := 3 |}.

Definition asn_DEF_SUPLPOS : asn_table := T_SEQUENCE asn_SPC_SUPLPOS_specs_1 asn_MBR_SUPLPOS_1.

(** ** [Ver.c] *)

Definition ASN_PER_TYPE_VER_CONSTR_1 := per (APC_UNCONSTRAINED, -1, -1, 0, 0) (APC_CONSTRAINED, 0, 0, 64, 64) None None.

Definition asn_DEF_Ver : asn_table := T_OCTET_STRING ASN_OSUBV_BIT (Some ASN_PER_TYPE_VER_CONSTR_1).

(** ** [SUPLPOSINIT.c] *)

Definition asn_MBR_SUPLPOSINIT_1 : list (member asn_table) :=
  [
   (* sETCapabilities *) Member false false asn_DEF_SETCapabilities None;
   (* requestedAssistData *) Member true true asn_DEF_RequestedAssistData None;
   (* locationId *) Member false false asn_DEF_LocationId None;
   (* position *) Member true true asn_DEF_Position None;
   (* sUPLPOS *) Member true true asn_DEF_SUPLPOS None;
   (* ver *) Member true true asn_DEF_Ver None ].

Definition asn_MAP_SUPLPOSINIT_oms_1 : list Z := [1; 3; 4; 5].
Definition asn_SPC_SUPLPOSINIT_specs_1 : asn_SEQUENCE_specifics_t :=
  {| oms := asn_MAP_SUPLPOSINIT_oms_1; roms_count := 4; aoms_count := 0; ext_after := 5; ext_before := 7 |}.

Definition asn_DEF_SUPLPOSINIT : asn_table := T_SEQUENCE asn_SPC_SUPLPOSINIT_specs_1 asn_MBR_SUPLPOSINIT_1.

(** ** [StatusCode.c] *)

Definition ASN_PER_TYPE_STATUS_CODE_CONSTR_1 := per (Z.lor APC_CONSTRAINED APC_EXTENSIBLE, 5, 5, 0, 19) (APC_UNCONSTRAINED, -1, -1, 0, 0) None None.

Definition asn_MAP_StatusCode_value2enum_1 : list Z := [0; 1; 2; 3; 4; 5; 6; 7; 8; 9; 10; 11; 12; 13; 14; 15; 16; 17; 100; 101].

Definition asn_SPC_StatusCode_specs_1 : asn_INTEGER_specifics_t :=
  {| value2enum := asn_MAP_StatusCode_value2enum_1; map_count := 20; extension := 21 |}.

Definition asn_DEF_StatusCode : asn_table := T_ENUMERATED asn_SPC_StatusCode_specs_1 (Some ASN_PER_TYPE_STATUS_CODE_CONSTR_1).

(** ** [SUPLEND.c] *)

Definition asn_MBR_SUPLEND_1 : list (member asn_table) :=
  [
   (* position *) Member true true asn_DEF_Position None;
   (* statusCode *) Member true true asn_DEF_StatusCode None;
   (* ver *) Member true true asn_DEF_Ver None ].

Definition asn_MAP_SUPLEND_oms_1 : list Z := [0; 1; 2].
Definition asn_SPC_SUPLEND_specs_1 : asn_SEQUENCE_specifics_t :=
  {| oms := asn_MAP_SUPLEND_oms_1; roms_count := 3; aoms_count := 0; ext_after := 2; ext_before := 4 |}.

Definition asn_DEF_SUPLEND : asn_table := T_SEQUENCE asn_SPC_SUPLEND_specs_1 asn_MBR_SUPLEND_1.

(** ** [INTEGER.c] *)

Definition asn_DEF_INTEGER : asn_table := T_INTEGER None.

(** ** [DUMMY.c] *)

Definition asn_DEF_DUMMY : asn_table := T_INTEGER None.

(** ** [UlpMessage.c] *)

Definition ASN_PER_TYPE_ULP_MESSAGE_CONSTR_1 := per (Z.lor APC_CONSTRAINED APC_EXTENSIBLE, 3, 3, 0, 7) (APC_UNCONSTRAINED, -1, -1, 0, 0) None None.

Definition asn_MBR_UlpMessage_1 : list (member asn_table) :=
  [
   (* msSUPLINIT *) Member false false asn_DEF_SUPLINIT None;
   (* msSUPLSTART *) Member false false asn_DEF_SUPLSTART None;
   (* msSUPLRESPONSE *) Member false false asn_DEF_SUPLRESPONSE None;
   (* msSUPLPOSINIT *) Member false false asn_DEF_SUPLPOSINIT None;
   (* msSUPLPOS *) Member false false asn_DEF_SUPLPOS None;
   (* msSUPLEND *) Member false false asn_DEF_SUPLEND None;
   (* msDUMMY2 *) Member false false asn_DEF_DUMMY None;
   (* msDUMMY3 *) Member false false asn_DEF_DUMMY None ].

Definition asn_SPC_UlpMessage_specs_1 : asn_CHOICE_specifics_t := {| canonical_order := None; ext_start := 8 |}.

Definition asn_DEF_UlpMessage : asn_table := T_CHOICE asn_SPC_UlpMessage_specs_1 asn_MBR_UlpMessage_1 (Some ASN_PER_TYPE_ULP_MESSAGE_CONSTR_1).

(** ** [ULP-PDU.c] *)

Definition ASN_PER_MEMB_LENGTH_CONSTR_2 := per (APC_CONSTRAINED, 16, 16, 0, 65535) (APC_UNCONSTRAINED, -1, -1, 0, 0) None None.

Definition asn_MBR_ULP_PDU_1 : list (member asn_table) :=
  [
   (* length *) Member false false asn_DEF_NativeInteger (Some ASN_PER_MEMB_LENGTH_CONSTR_2);
   (* version *) Member false false asn_DEF_Version None;
   (* sessionID *) Member false false asn_DEF_SessionID None;
   (* message *) Member false false asn_DEF_UlpMessage None ].

Definition asn_SPC_ULP_PDU_specs_1 : asn_SEQUENCE_specifics_t :=
  {| oms := []; roms_count := 0; aoms_count := 0; ext_after := -1; ext_before := -1 |}.

Definition asn_DEF_ULP_PDU : asn_table := T_SEQUENCE asn_SPC_ULP_PDU_specs_1 asn_MBR_ULP_PDU_1.
