(* ===== verification/RrlpTables.v ===== *)
(** * RrlpTables: the tables of the RRLP messages

    The descriptors that the ASN.1 compiler wrote for the [PDU] of RRLP, with the types below
    it, one section for each file of [asn-rrlp], as in [UlpTables]. *)
From S2P Require Import Prelude PerSupport AsnInteger PerSafe PerCodec AsnTypes AsnString AsnOpenType AsnConstructed AsnChoice AsnSequence AsnTables.

(** ** [NativeInteger.c] *)

Definition asn_DEF_NativeInteger : asn_table := T_NativeInteger false None.

(** ** [Accuracy.c] *)

Definition ASN_PER_TYPE_ACCURACY_CONSTR_1 := per (APC_CONSTRAINED, 7, 7, 0, 127) (APC_UNCONSTRAINED, -1, -1, 0, 0) None None.

Definition asn_DEF_Accuracy : asn_table := T_NativeInteger false (Some ASN_PER_TYPE_ACCURACY_CONSTR_1).

(** ** [AccuracyOpt.c] *)

Definition asn_MBR_AccuracyOpt_1 : list (member asn_table) :=
  [
   (* accuracy *) Member true true asn_DEF_Accuracy None ].

Definition asn_MAP_AccuracyOpt_oms_1 : list Z := [0].
Definition asn_SPC_AccuracyOpt_specs_1 : asn_SEQUENCE_specifics_t :=
  {| oms := asn_MAP_AccuracyOpt_oms_1; roms_count := 1; aoms_count := 0; ext_after := -1; ext_before := -1 |}.

Definition asn_DEF_AccuracyOpt : asn_table := T_SEQUENCE asn_SPC_AccuracyOpt_specs_1 asn_MBR_AccuracyOpt_1.

(** ** [MethodType.c] *)

Definition ASN_PER_TYPE_METHOD_TYPE_CONSTR_1 := per (APC_CONSTRAINED, 2, 2, 0, 3) (APC_UNCONSTRAINED, -1, -1, 0, 0) None None.

Definition asn_MBR_MethodType_1 : list (member asn_table) :=
  [
   (* msAssisted *) Member false false asn_DEF_AccuracyOpt None;
   (* msBased *) Member false false asn_DEF_Accuracy None;
   (* msBasedPref *) Member false false asn_DEF_Accuracy None;
   (* msAssistedPref *) Member false false asn_DEF_Accuracy None ].

Definition asn_SPC_MethodType_specs_1 : asn_CHOICE_specifics_t := {| canonical_order := None; ext_start := -1 |}.

Definition asn_DEF_MethodType : asn_table := T_CHOICE asn_SPC_MethodType_specs_1 asn_MBR_MethodType_1 (Some ASN_PER_TYPE_METHOD_TYPE_CONSTR_1).

(** ** [PositionMethod.c] *)

Definition ASN_PER_TYPE_POSITION_METHOD_CONSTR_1 := per (APC_CONSTRAINED, 2, 2, 0, 2) (APC_UNCONSTRAINED, -1, -1, 0, 0) None None.

Definition asn_MAP_PositionMethod_value2enum_1 : list Z := [0; 1; 2].
Definition asn_SPC_PositionMethod_specs_1 : asn_INTEGER_specifics_t :=
  {| value2enum := asn_MAP_PositionMethod_value2enum_1; map_count := 3; extension := 0 |}.

Definition asn_DEF_PositionMethod : asn_table := T_ENUMERATED asn_SPC_PositionMethod_specs_1 (Some ASN_PER_TYPE_POSITION_METHOD_CONSTR_1).

(** ** [MeasureResponseTime.c] *)

Definition ASN_PER_TYPE_MEASURE_RESPONSE_TIME_CONSTR_1 := per (APC_CONSTRAINED, 3, 3, 0, 7) (APC_UNCONSTRAINED, -1, -1, 0, 0) None None.

Definition asn_DEF_MeasureResponseTime : asn_table := T_NativeInteger false (Some ASN_PER_TYPE_MEASURE_RESPONSE_TIME_CONSTR_1).

(** ** [UseMultipleSets.c] *)

Definition ASN_PER_TYPE_USE_MULTIPLE_SETS_CONSTR_1 := per (APC_CONSTRAINED, 1, 1, 0, 1) (APC_UNCONSTRAINED, -1, -1, 0, 0) None None.

Definition asn_MAP_UseMultipleSets_value2enum_1 : list Z := [0; 1].
Definition asn_SPC_UseMultipleSets_specs_1 : asn_INTEGER_specifics_t :=
  {| value2enum := asn_MAP_UseMultipleSets_value2enum_1; map_count := 2; extension := 0 |}.

Definition asn_DEF_UseMultipleSets : asn_table := T_ENUMERATED asn_SPC_UseMultipleSets_specs_1 (Some ASN_PER_TYPE_USE_MULTIPLE_SETS_CONSTR_1).

(** ** [EnvironmentCharacter.c] *)

Definition ASN_PER_TYPE_ENVIRONMENT_CHARACTER_CONSTR_1 := per (Z.lor APC_CONSTRAINED APC_EXTENSIBLE, 2, 2, 0, 2) (APC_UNCONSTRAINED, -1, -1, 0, 0) None None.

Definition asn_MAP_EnvironmentCharacter_value2enum_1 : list Z := [0; 1; 2].
Definition asn_SPC_EnvironmentCharacter_specs_1 : asn_INTEGER_specifics_t :=
  {| value2enum := asn_MAP_EnvironmentCharacter_value2enum_1; map_count := 3; extension := 4 |}.

Definition asn_DEF_EnvironmentCharacter : asn_table := T_ENUMERATED asn_SPC_EnvironmentCharacter_specs_1 (Some ASN_PER_TYPE_ENVIRONMENT_CHARACTER_CONSTR_1).

(** ** [PositionInstruct.c] *)

Definition asn_MBR_PositionInstruct_1 : list (member asn_table) :=
  [
   (* methodType *) Member false false asn_DEF_MethodType None;
   (* positionMethod *) Member false false asn_DEF_PositionMethod None;
   (* measureResponseTime *) Member false false asn_DEF_MeasureResponseTime None;
   (* useMultipleSets *) Member false false asn_DEF_UseMultipleSets None;
   (* environmentCharacter *) Member true true asn_DEF_EnvironmentCharacter None ].

Definition asn_MAP_PositionInstruct_oms_1 : list Z := [4].
Definition asn_SPC_PositionInstruct_specs_1 : asn_SEQUENCE_specifics_t :=
  {| oms := asn_MAP_PositionInstruct_oms_1; roms_count := 1; aoms_count := 0; ext_after := -1; ext_before := -1 |}.

Definition asn_DEF_PositionInstruct : asn_table := T_SEQUENCE asn_SPC_PositionInstruct_specs_1 asn_MBR_PositionInstruct_1.

(** ** [BCCHCarrier.c] *)

Definition ASN_PER_TYPE_BCCH_CARRIER_CONSTR_1 := per (APC_CONSTRAINED, 10, 10, 0, 1023) (APC_UNCONSTRAINED, -1, -1, 0, 0) None None.

Definition asn_DEF_BCCHCarrier : asn_table := T_NativeInteger false (Some ASN_PER_TYPE_BCCH_CARRIER_CONSTR_1).

(** ** [BSIC.c] *)

Definition ASN_PER_TYPE_BSIC_CONSTR_1 := per (APC_CONSTRAINED, 6, 6, 0, 63) (APC_UNCONSTRAINED, -1, -1, 0, 0) None None.

Definition asn_DEF_BSIC : asn_table := T_NativeInteger false (Some ASN_PER_TYPE_BSIC_CONSTR_1).

(** ** [TimeSlotScheme.c] *)

Definition ASN_PER_TYPE_TIME_SLOT_SCHEME_CONSTR_1 := per (APC_CONSTRAINED, 1, 1, 0, 1) (APC_UNCONSTRAINED, -1, -1, 0, 0) None None.

Definition asn_MAP_TimeSlotScheme_value2enum_1 : list Z := [0; 1].
Definition asn_SPC_TimeSlotScheme_specs_1 : asn_INTEGER_specifics_t :=
  {| value2enum := asn_MAP_TimeSlotScheme_value2enum_1; map_count := 2; extension := 0 |}.

Definition asn_DEF_TimeSlotScheme : asn_table := T_ENUMERATED asn_SPC_TimeSlotScheme_specs_1 (Some ASN_PER_TYPE_TIME_SLOT_SCHEME_CONSTR_1).

(** ** [OCTET_STRING.c] *)

Definition asn_DEF_OCTET_STRING : asn_table := T_OCTET_STRING ASN_OSUBV_STR None.

(** ** [Ext-GeographicalInformation.c] *)

Definition ASN_PER_TYPE_EXT_GEOGRAPHICAL_INFORMATION_CONSTR_1 := per (APC_UNCONSTRAINED, -1, -1, 0, 0) (APC_CONSTRAINED, 5, 5, 1, 20) None None.

Definition asn_DEF_Ext_GeographicalInformation : asn_table := T_OCTET_STRING ASN_OSUBV_STR (Some ASN_PER_TYPE_EXT_GEOGRAPHICAL_INFORMATION_CONSTR_1).

(** ** [BTSPosition.c] *)

Definition asn_DEF_BTSPosition : asn_table := T_OCTET_STRING ASN_OSUBV_STR (Some ASN_PER_TYPE_EXT_GEOGRAPHICAL_INFORMATION_CONSTR_1).

(** ** [ReferenceAssistData.c] *)

Definition asn_MBR_ReferenceAssistData_1 : list (member asn_table) :=
  [
   (* bcchCarrier *) Member false false asn_DEF_BCCHCarrier None;
   (* bsic *) Member false false asn_DEF_BSIC None;
   (* timeSlotScheme *) Member false false asn_DEF_TimeSlotScheme None;
   (* btsPosition *) Member true true asn_DEF_BTSPosition None ].

Definition asn_MAP_ReferenceAssistData_oms_1 : list Z := [3].
Definition asn_SPC_ReferenceAssistData_specs_1 : asn_SEQUENCE_specifics_t :=
  {| oms := asn_MAP_ReferenceAssistData_oms_1; roms_count := 1; aoms_count := 0; ext_after := -1; ext_before := -1 |}.

Definition asn_DEF_ReferenceAssistData : asn_table := T_SEQUENCE asn_SPC_ReferenceAssistData_specs_1 asn_MBR_ReferenceAssistData_1.

(** ** [MultiFrameOffset.c] *)

Definition ASN_PER_TYPE_MULTI_FRAME_OFFSET_CONSTR_1 := per (APC_CONSTRAINED, 6, 6, 0, 51) (APC_UNCONSTRAINED, -1, -1, 0, 0) None None.

Definition asn_DEF_MultiFrameOffset : asn_table := T_NativeInteger false (Some ASN_PER_TYPE_MULTI_FRAME_OFFSET_CONSTR_1).

(** ** [RoughRTD.c] *)

Definition ASN_PER_TYPE_ROUGH_RTD_CONSTR_1 := per (APC_CONSTRAINED, 11, 11, 0, 1250) (APC_UNCONSTRAINED, -1, -1, 0, 0) None None.

Definition asn_DEF_RoughRTD : asn_table := T_NativeInteger false (Some ASN_PER_TYPE_ROUGH_RTD_CONSTR_1).

(** ** [FineRTD.c] *)

Definition ASN_PER_TYPE_FINE_RTD_CONSTR_1 := per (APC_CONSTRAINED, 8, 8, 0, 255) (APC_UNCONSTRAINED, -1, -1, 0, 0) None None.

Definition asn_DEF_FineRTD : asn_table := T_NativeInteger false (Some ASN_PER_TYPE_FINE_RTD_CONSTR_1).

(** ** [RelDistance.c] *)

Definition ASN_PER_TYPE_REL_DISTANCE_CONSTR_1 := per (APC_CONSTRAINED, 19, -1, -200000, 200000) (APC_UNCONSTRAINED, -1, -1, 0, 0) None None.

Definition asn_DEF_RelDistance : asn_table := T_NativeInteger false (Some ASN_PER_TYPE_REL_DISTANCE_CONSTR_1).

(** ** [RelativeAlt.c] *)

Definition ASN_PER_TYPE_RELATIVE_ALT_CONSTR_1 := per (APC_CONSTRAINED, 13, 13, -4000, 4000) (APC_UNCONSTRAINED, -1, -1, 0, 0) None None.

Definition asn_DEF_RelativeAlt : asn_table := T_NativeInteger false (Some ASN_PER_TYPE_RELATIVE_ALT_CONSTR_1).

(** ** [ReferenceWGS84.c] *)

Definition asn_MBR_ReferenceWGS84_1 : list (member asn_table) :=
  [
   (* relativeNorth *) Member false false asn_DEF_RelDistance None;
   (* relativeEast *) Member false false asn_DEF_RelDistance None;
   (* relativeAlt *) Member true true asn_DEF_RelativeAlt None ].

Definition asn_MAP_ReferenceWGS84_oms_1 : list Z := [2].
Definition asn_SPC_ReferenceWGS84_specs_1 : asn_SEQUENCE_specifics_t :=
  {| oms := asn_MAP_ReferenceWGS84_oms_1; roms_count := 1; aoms_count := 0; ext_after := -1; ext_before := -1 |}.

Definition asn_DEF_ReferenceWGS84 : asn_table := T_SEQUENCE asn_SPC_ReferenceWGS84_specs_1 asn_MBR_ReferenceWGS84_1.

(** ** [CalcAssistanceBTS.c] *)

Definition asn_MBR_CalcAssistanceBTS_1 : list (member asn_table) :=
  [
   (* fineRTD *) Member false false asn_DEF_FineRTD None;
   (* referenceWGS84 *) Member false false asn_DEF_ReferenceWGS84 None ].

Definition asn_SPC_CalcAssistanceBTS_specs_1 : asn_SEQUENCE_specifics_t :=
  {| oms := []; roms_count := 0; aoms_count := 0; ext_after := -1; ext_before := -1 |}.

Definition asn_DEF_CalcAssistanceBTS : asn_table := T_SEQUENCE asn_SPC_CalcAssistanceBTS_specs_1 asn_MBR_CalcAssistanceBTS_1.

(** ** [MsrAssistBTS.c] *)

Definition asn_MBR_MsrAssistBTS_1 : list (member asn_table) :=
  [
   (* bcchCarrier *) Member false false asn_DEF_BCCHCarrier None;
   (* bsic *) Member false false asn_DEF_BSIC None;
   (* multiFrameOffset *) Member false false asn_DEF_MultiFrameOffset None;
   (* timeSlotScheme *) Member false false asn_DEF_TimeSlotScheme None;
   (* roughRTD *) Member false false asn_DEF_RoughRTD None;
   (* calcAssistanceBTS *) Member true true asn_DEF_CalcAssistanceBTS None ].

Definition asn_MAP_MsrAssistBTS_oms_1 : list Z := [5].
Definition asn_SPC_MsrAssistBTS_specs_1 : asn_SEQUENCE_specifics_t :=
  {| oms := asn_MAP_MsrAssistBTS_oms_1; roms_count := 1; aoms_count := 0; ext_after := -1; ext_before := -1 |}.

Definition asn_DEF_MsrAssistBTS : asn_table := T_SEQUENCE asn_SPC_MsrAssistBTS_specs_1 asn_MBR_MsrAssistBTS_1.

(** ** [SeqOfMsrAssistBTS.c] *)

Definition ASN_PER_TYPE_SEQ_OF_MSR_ASSIST_BTS_CONSTR_1 := per (APC_UNCONSTRAINED, -1, -1, 0, 0) (APC_CONSTRAINED, 4, 4, 1, 15) None None.

Definition asn_MBR_SeqOfMsrAssistBTS_1 : member asn_table :=
   (* element *) Member true false asn_DEF_MsrAssistBTS None.

Definition asn_DEF_SeqOfMsrAssistBTS : asn_table := T_SEQUENCE_OF asn_MBR_SeqOfMsrAssistBTS_1 (Some ASN_PER_TYPE_SEQ_OF_MSR_ASSIST_BTS_CONSTR_1).

(** ** [MsrAssistData.c] *)

Definition asn_MBR_MsrAssistData_1 : list (member asn_table) :=
  [
   (* msrAssistList *) Member false false asn_DEF_SeqOfMsrAssistBTS None ].

Definition asn_SPC_MsrAssistData_specs_1 : asn_SEQUENCE_specifics_t :=
  {| oms := []; roms_count := 0; aoms_count := 0; ext_after := -1; ext_before := -1 |}.

Definition asn_DEF_MsrAssistData : asn_table := T_SEQUENCE asn_SPC_MsrAssistData_specs_1 asn_MBR_MsrAssistData_1.

(** ** [NULL.c] *)

Definition asn_DEF_NULL : asn_table := T_NULL.

(** ** [AssistBTSData.c] *)

Definition asn_MBR_AssistBTSData_1 : list (member asn_table) :=
  [
   (* bsic *) Member false false asn_DEF_BSIC None;
   (* multiFrameOffset *) Member false false asn_DEF_MultiFrameOffset None;
   (* timeSlotScheme *) Member false false asn_DEF_TimeSlotScheme None;
   (* roughRTD *) Member false false asn_DEF_RoughRTD None;
   (* calcAssistanceBTS *) Member true true asn_DEF_CalcAssistanceBTS None ].

Definition asn_MAP_AssistBTSData_oms_1 : list Z := [4].
Definition asn_SPC_AssistBTSData_specs_1 : asn_SEQUENCE_specifics_t :=
  {| oms := asn_MAP_AssistBTSData_oms_1; roms_count := 1; aoms_count := 0; ext_after := -1; ext_before := -1 |}.

Definition asn_DEF_AssistBTSData : asn_table := T_SEQUENCE asn_SPC_AssistBTSData_specs_1 asn_MBR_AssistBTSData_1.

(** ** [SystemInfoAssistBTS.c] *)

Definition ASN_PER_TYPE_SYSTEM_INFO_ASSIST_BTS_CONSTR_1 := per (APC_CONSTRAINED, 1, 1, 0, 1) (APC_UNCONSTRAINED, -1, -1, 0, 0) None None.

Definition asn_MBR_SystemInfoAssistBTS_1 : list (member asn_table) :=
  [
   (* notPresent *) Member false false asn_DEF_NULL None;
   (* present *) Member false false asn_DEF_AssistBTSData None ].

Definition asn_SPC_SystemInfoAssistBTS_specs_1 : asn_CHOICE_specifics_t := {| canonical_order := None; ext_start := -1 |}.

Definition asn_DEF_SystemInfoAssistBTS : asn_table := T_CHOICE asn_SPC_SystemInfoAssistBTS_specs_1 asn_MBR_SystemInfoAssistBTS_1 (Some ASN_PER_TYPE_SYSTEM_INFO_ASSIST_BTS_CONSTR_1).

(** ** [SeqOfSystemInfoAssistBTS.c] *)

Definition ASN_PER_TYPE_SEQ_OF_SYSTEM_INFO_ASSIST_BTS_CONSTR_1 := per (APC_UNCONSTRAINED, -1, -1, 0, 0) (APC_CONSTRAINED, 5, 5, 1, 32) None None.

Definition asn_MBR_SeqOfSystemInfoAssistBTS_1 : member asn_table :=
   (* element *) Member true false asn_DEF_SystemInfoAssistBTS None.

Definition asn_DEF_SeqOfSystemInfoAssistBTS : asn_table := T_SEQUENCE_OF asn_MBR_SeqOfSystemInfoAssistBTS_1 (Some ASN_PER_TYPE_SEQ_OF_SYSTEM_INFO_ASSIST_BTS_CONSTR_1).

(** ** [SystemInfoAssistData.c] *)

Definition asn_MBR_SystemInfoAssistData_1 : list (member asn_table) :=
  [
   (* systemInfoAssistList *) Member false false asn_DEF_SeqOfSystemInfoAssistBTS None ].

Definition asn_SPC_SystemInfoAssistData_specs_1 : asn_SEQUENCE_specifics_t :=
  {| oms := []; roms_count := 0; aoms_count := 0; ext_after := -1; ext_before := -1 |}.

Definition asn_DEF_SystemInfoAssistData : asn_table := T_SEQUENCE asn_SPC_SystemInfoAssistData_specs_1 asn_MBR_SystemInfoAssistData_1.

(** ** [GPSTOW23b.c] *)

Definition ASN_PER_TYPE_GPSTO_W23B_CONSTR_1 := per (APC_CONSTRAINED, 23, -1, 0, 7559999) (APC_UNCONSTRAINED, -1, -1, 0, 0) None None.

Definition asn_DEF_GPSTOW23b : asn_table := T_NativeInteger false (Some ASN_PER_TYPE_GPSTO_W23B_CONSTR_1).

(** ** [GPSWeek.c] *)

Definition ASN_PER_TYPE_GPS_WEEK_CONSTR_1 := per (APC_CONSTRAINED, 10, 10, 0, 1023) (APC_UNCONSTRAINED, -1, -1, 0, 0) None None.

Definition asn_DEF_GPSWeek : asn_table := T_NativeInteger false (Some ASN_PER_TYPE_GPS_WEEK_CONSTR_1).

(** ** [GPSTime.c] *)

Definition asn_MBR_GPSTime_1 : list (member asn_table) :=
  [
   (* gpsTOW23b *) Member false false asn_DEF_GPSTOW23b None;
   (* gpsWeek *) Member false false asn_DEF_GPSWeek None ].

Definition asn_SPC_GPSTime_specs_1 : asn_SEQUENCE_specifics_t :=
  {| oms := []; roms_count := 0; aoms_count := 0; ext_after := -1; ext_before := -1 |}.

Definition asn_DEF_GPSTime : asn_table := T_SEQUENCE asn_SPC_GPSTime_specs_1 asn_MBR_GPSTime_1.

(** ** [FrameNumber.c] *)

Definition ASN_PER_TYPE_FRAME_NUMBER_CONSTR_1 := per (APC_CONSTRAINED, 21, -1, 0, 2097151) (APC_UNCONSTRAINED, -1, -1, 0, 0) None None.

Definition asn_DEF_FrameNumber : asn_table := T_NativeInteger false (Some ASN_PER_TYPE_FRAME_NUMBER_CONSTR_1).

(** ** [TimeSlot.c] *)

Definition ASN_PER_TYPE_TIME_SLOT_CONSTR_1 := per (APC_CONSTRAINED, 3, 3, 0, 7) (APC_UNCONSTRAINED, -1, -1, 0, 0) None None.

Definition asn_DEF_TimeSlot : asn_table := T_NativeInteger false (Some ASN_PER_TYPE_TIME_SLOT_CONSTR_1).

(** ** [BitNumber.c] *)

Definition ASN_PER_TYPE_BIT_NUMBER_CONSTR_1 := per (APC_CONSTRAINED, 8, 8, 0, 156) (APC_UNCONSTRAINED, -1, -1, 0, 0) None None.

Definition asn_DEF_BitNumber : asn_table := T_NativeInteger false (Some ASN_PER_TYPE_BIT_NUMBER_CONSTR_1).

(** ** [GSMTime.c] *)

Definition asn_MBR_GSMTime_1 : list (member asn_table) :=
  [
   (* bcchCarrier *) Member false false asn_DEF_BCCHCarrier None;
   (* bsic *) Member false false asn_DEF_BSIC None;
   (* frameNumber *) Member false false asn_DEF_FrameNumber None;
   (* timeSlot *) Member false false asn_DEF_TimeSlot None;
   (* bitNumber *) Member false false asn_DEF_BitNumber None ].

Definition asn_SPC_GSMTime_specs_1 : asn_SEQUENCE_specifics_t :=
  {| oms := []; roms_count := 0; aoms_count := 0; ext_after := -1; ext_before := -1 |}.

Definition asn_DEF_GSMTime : asn_table := T_SEQUENCE asn_SPC_GSMTime_specs_1 asn_MBR_GSMTime_1.

(** ** [SatelliteID.c] *)

Definition ASN_PER_TYPE_SATELLITE_ID_CONSTR_1 := per (APC_CONSTRAINED, 6, 6, 0, 63) (APC_UNCONSTRAINED, -1, -1, 0, 0) None None.

Definition asn_DEF_SatelliteID : asn_table := T_NativeInteger false (Some ASN_PER_TYPE_SATELLITE_ID_CONSTR_1).

(** ** [TLMWord.c] *)

Definition ASN_PER_TYPE_TLM_WORD_CONSTR_1 := per (APC_CONSTRAINED, 14, 14, 0, 16383) (APC_UNCONSTRAINED, -1, -1, 0, 0) None None.

Definition asn_DEF_TLMWord : asn_table := T_NativeInteger false (Some ASN_PER_TYPE_TLM_WORD_CONSTR_1).

(** ** [AntiSpoofFlag.c] *)

Definition ASN_PER_TYPE_ANTI_SPOOF_FLAG_CONSTR_1 := per (APC_CONSTRAINED, 1, 1, 0, 1) (APC_UNCONSTRAINED, -1, -1, 0, 0) None None.

Definition asn_DEF_AntiSpoofFlag : asn_table := T_NativeInteger false (Some ASN_PER_TYPE_ANTI_SPOOF_FLAG_CONSTR_1).

(** ** [AlertFlag.c] *)

Definition ASN_PER_TYPE_ALERT_FLAG_CONSTR_1 := per (APC_CONSTRAINED, 1, 1, 0, 1) (APC_UNCONSTRAINED, -1, -1, 0, 0) None None.

Definition asn_DEF_AlertFlag : asn_table := T_NativeInteger false (Some ASN_PER_TYPE_ALERT_FLAG_CONSTR_1).

(** ** [TLMReservedBits.c] *)

Definition ASN_PER_TYPE_TLM_RESERVED_BITS_CONSTR_1 := per (APC_CONSTRAINED, 2, 2, 0, 3) (APC_UNCONSTRAINED, -1, -1, 0, 0) None None.

Definition asn_DEF_TLMReservedBits : asn_table := T_NativeInteger false (Some ASN_PER_TYPE_TLM_RESERVED_BITS_CONSTR_1).

(** ** [GPSTOWAssistElement.c] *)

Definition asn_MBR_GPSTOWAssistElement_1 : list (member asn_table) :=
  [
   (* satelliteID *) Member false false asn_DEF_SatelliteID None;
   (* tlmWord *) Member false false asn_DEF_TLMWord None;
   (* antiSpoof *) Member false false asn_DEF_AntiSpoofFlag None;
   (* alert *) Member false false asn_DEF_AlertFlag None;
   (* tlmRsvdBits *) Member false false asn_DEF_TLMReservedBits None ].

Definition asn_SPC_GPSTOWAssistElement_specs_1 : asn_SEQUENCE_specifics_t :=
  {| oms := []; roms_count := 0; aoms_count := 0; ext_after := -1; ext_before := -1 |}.

Definition asn_DEF_GPSTOWAssistElement : asn_table := T_SEQUENCE asn_SPC_GPSTOWAssistElement_specs_1 asn_MBR_GPSTOWAssistElement_1.

(** ** [GPSTOWAssist.c] *)

Definition ASN_PER_TYPE_GPSTOW_ASSIST_CONSTR_1 := per (APC_UNCONSTRAINED, -1, -1, 0, 0) (APC_CONSTRAINED, 4, 4, 1, 12) None None.

Definition asn_MBR_GPSTOWAssist_1 : member asn_table :=
   (* element *) Member true false asn_DEF_GPSTOWAssistElement None.

Definition asn_DEF_GPSTOWAssist : asn_table := T_SEQUENCE_OF asn_MBR_GPSTOWAssist_1 (Some ASN_PER_TYPE_GPSTOW_ASSIST_CONSTR_1).

(** ** [ReferenceTime.c] *)

Definition asn_MBR_ReferenceTime_1 : list (member asn_table) :=
  [
   (* gpsTime *) Member false false asn_DEF_GPSTime None;
   (* gsmTime *) Member true true asn_DEF_GSMTime None;
   (* gpsTowAssist *) Member true true asn_DEF_GPSTOWAssist None ].

Definition asn_MAP_ReferenceTime_oms_1 : list Z := [1; 2].
Definition asn_SPC_ReferenceTime_specs_1 : asn_SEQUENCE_specifics_t :=
  {| oms := asn_MAP_ReferenceTime_oms_1; roms_count := 2; aoms_count := 0; ext_after := -1; ext_before := -1 |}.

Definition asn_DEF_ReferenceTime : asn_table := T_SEQUENCE asn_SPC_ReferenceTime_specs_1 asn_MBR_ReferenceTime_1.

(** ** [RefLocation.c] *)

Definition asn_MBR_RefLocation_1 : list (member asn_table) :=
  [
   (* threeDLocation *) Member false false asn_DEF_Ext_GeographicalInformation None ].

Definition asn_SPC_RefLocation_specs_1 : asn_SEQUENCE_specifics_t :=
  {| oms := []; roms_count := 0; aoms_count := 0; ext_after := -1; ext_before := -1 |}.

Definition asn_DEF_RefLocation : asn_table := T_SEQUENCE asn_SPC_RefLocation_specs_1 asn_MBR_RefLocation_1.

(** ** [SatElement.c] *)

Definition ASN_PER_MEMB_IODE_CONSTR_3 := per (APC_CONSTRAINED, 8, 8, 0, 239) (APC_UNCONSTRAINED, -1, -1, 0, 0) None None.

Definition ASN_PER_MEMB_UDRE_CONSTR_4 := per (APC_CONSTRAINED, 2, 2, 0, 3) (APC_UNCONSTRAINED, -1, -1, 0, 0) None None.

Definition ASN_PER_MEMB_PSEUDO_RANGE_COR_CONSTR_5 := per (APC_CONSTRAINED, 12, 12, -2047, 2047) (APC_UNCONSTRAINED, -1, -1, 0, 0) None None.

Definition ASN_PER_MEMB_RANGE_RATE_COR_CONSTR_6 := per (APC_CONSTRAINED, 8, 8, -127, 127) (APC_UNCONSTRAINED, -1, -1, 0, 0) None None.

Definition ASN_PER_MEMB_DELTA_PSEUDO_RANGE_COR2_CONSTR_7 := per (APC_CONSTRAINED, 8, 8, -127, 127) (APC_UNCONSTRAINED, -1, -1, 0, 0) None None.

Definition ASN_PER_MEMB_DELTA_RANGE_RATE_COR2_CONSTR_8 := per (APC_CONSTRAINED, 4, 4, -7, 7) (APC_UNCONSTRAINED, -1, -1, 0, 0) None None.

Definition ASN_PER_MEMB_DELTA_PSEUDO_RANGE_COR3_CONSTR_9 := per (APC_CONSTRAINED, 8, 8, -127, 127) (APC_UNCONSTRAINED, -1, -1, 0, 0) None None.

Definition ASN_PER_MEMB_DELTA_RANGE_RATE_COR3_CONSTR_10 := per (APC_CONSTRAINED, 4, 4, -7, 7) (APC_UNCONSTRAINED, -1, -1, 0, 0) None None.

Definition asn_MBR_SatElement_1 : list (member asn_table) :=
  [
   (* satelliteID *) Member false false asn_DEF_SatelliteID None;
   (* iode *) Member false false asn_DEF_NativeInteger (Some ASN_PER_MEMB_IODE_CONSTR_3);
   (* udre *) Member false false asn_DEF_NativeInteger (Some ASN_PER_MEMB_UDRE_CONSTR_4);
   (* pseudoRangeCor *) Member false false asn_DEF_NativeInteger (Some ASN_PER_MEMB_PSEUDO_RANGE_COR_CONSTR_5);
   (* rangeRateCor *) Member false false asn_DEF_NativeInteger (Some ASN_PER_MEMB_RANGE_RATE_COR_CONSTR_6);
   (* deltaPseudoRangeCor2 *) Member false false asn_DEF_NativeInteger (Some ASN_PER_MEMB_DELTA_PSEUDO_RANGE_COR2_CONSTR_7);
   (* deltaRangeRateCor2 *) Member false false asn_DEF_NativeInteger (Some ASN_PER_MEMB_DELTA_RANGE_RATE_COR2_CONSTR_8);
   (* deltaPseudoRangeCor3 *) Member false false asn_DEF_NativeInteger (Some ASN_PER_MEMB_DELTA_PSEUDO_RANGE_COR3_CONSTR_9);
   (* deltaRangeRateCor3 *) Member false false asn_DEF_NativeInteger (Some ASN_PER_MEMB_DELTA_RANGE_RATE_COR3_CONSTR_10) ].

Definition asn_SPC_SatElement_specs_1 : asn_SEQUENCE_specifics_t :=
  {| oms := []; roms_count := 0; aoms_count := 0; ext_after := -1; ext_before := -1 |}.

Definition asn_DEF_SatElement : asn_table := T_SEQUENCE asn_SPC_SatElement_specs_1 asn_MBR_SatElement_1.

(** ** [SeqOfSatElement.c] *)

Definition ASN_PER_TYPE_SEQ_OF_SAT_ELEMENT_CONSTR_1 := per (APC_UNCONSTRAINED, -1, -1, 0, 0) (APC_CONSTRAINED, 4, 4, 1, 16) None None.

Definition asn_MBR_SeqOfSatElement_1 : member asn_table :=
   (* element *) Member true false asn_DEF_SatElement None.

Definition asn_DEF_SeqOfSatElement : asn_table := T_SEQUENCE_OF asn_MBR_SeqOfSatElement_1 (Some ASN_PER_TYPE_SEQ_OF_SAT_ELEMENT_CONSTR_1).

(** ** [DGPSCorrections.c] *)

Definition ASN_PER_MEMB_GPS_TOW_CONSTR_2 := per (APC_CONSTRAINED, 20, -1, 0, 604799) (APC_UNCONSTRAINED, -1, -1, 0, 0) None None.

Definition ASN_PER_MEMB_STATUS_CONSTR_3 := per (APC_CONSTRAINED, 3, 3, 0, 7) (APC_UNCONSTRAINED, -1, -1, 0, 0) None None.

Definition asn_MBR_DGPSCorrections_1 : list (member asn_table) :=
  [
   (* gpsTOW *) Member false false asn_DEF_NativeInteger (Some ASN_PER_MEMB_GPS_TOW_CONSTR_2);
   (* status *) Member false false asn_DEF_NativeInteger (Some ASN_PER_MEMB_STATUS_CONSTR_3);
   (* satList *) Member false false asn_DEF_SeqOfSatElement None ].

Definition asn_SPC_DGPSCorrections_specs_1 : asn_SEQUENCE_specifics_t :=
  {| oms := []; roms_count := 0; aoms_count := 0; ext_after := -1; ext_before := -1 |}.

Definition asn_DEF_DGPSCorrections : asn_table := T_SEQUENCE asn_SPC_DGPSCorrections_specs_1 asn_MBR_DGPSCorrections_1.

(** ** [EphemerisSubframe1Reserved.c] *)

Definition ASN_PER_MEMB_RESERVED1_CONSTR_2 := per (APC_CONSTRAINED, 23, -1, 0, 8388607) (APC_UNCONSTRAINED, -1, -1, 0, 0) None None.

Definition ASN_PER_MEMB_RESERVED2_CONSTR_3 := per (APC_CONSTRAINED, 24, -1, 0, 16777215) (APC_UNCONSTRAINED, -1, -1, 0, 0) None None.

Definition ASN_PER_MEMB_RESERVED3_CONSTR_4 := per (APC_CONSTRAINED, 24, -1, 0, 16777215) (APC_UNCONSTRAINED, -1, -1, 0, 0) None None.

Definition ASN_PER_MEMB_RESERVED4_CONSTR_5 := per (APC_CONSTRAINED, 16, 16, 0, 65535) (APC_UNCONSTRAINED, -1, -1, 0, 0) None None.

Definition asn_MBR_EphemerisSubframe1Reserved_1 : list (member asn_table) :=
  [
   (* reserved1 *) Member false false asn_DEF_NativeInteger (Some ASN_PER_MEMB_RESERVED1_CONSTR_2);
   (* reserved2 *) Member false false asn_DEF_NativeInteger (Some ASN_PER_MEMB_RESERVED2_CONSTR_3);
   (* reserved3 *) Member false false asn_DEF_NativeInteger (Some ASN_PER_MEMB_RESERVED3_CONSTR_4);
   (* reserved4 *) Member false false asn_DEF_NativeInteger (Some ASN_PER_MEMB_RESERVED4_CONSTR_5) ].

Definition asn_SPC_EphemerisSubframe1Reserved_specs_1 : asn_SEQUENCE_specifics_t :=
  {| oms := []; roms_count := 0; aoms_count := 0; ext_after := -1; ext_before := -1 |}.

Definition asn_DEF_EphemerisSubframe1Reserved : asn_table := T_SEQUENCE asn_SPC_EphemerisSubframe1Reserved_specs_1 asn_MBR_EphemerisSubframe1Reserved_1.

(** ** [UncompressedEphemeris.c] *)

Definition ASN_PER_MEMB_EPHEM_CODE_ON_L2_CONSTR_2 := per (APC_CONSTRAINED, 2, 2, 0, 3) (APC_UNCONSTRAINED, -1, -1, 0, 0) None None.

Definition ASN_PER_MEMB_EPHEM_URA_CONSTR_3 := per (APC_CONSTRAINED, 4, 4, 0, 15) (APC_UNCONSTRAINED, -1, -1, 0, 0) None None.

Definition ASN_PER_MEMB_EPHEM_S_VHEALTH_CONSTR_4 := per (APC_CONSTRAINED, 6, 6, 0, 63) (APC_UNCONSTRAINED, -1, -1, 0, 0) None None.

Definition ASN_PER_MEMB_EPHEM_IODC_CONSTR_5 := per (APC_CONSTRAINED, 10, 10, 0, 1023) (APC_UNCONSTRAINED, -1, -1, 0, 0) None None.

Definition ASN_PER_MEMB_EPHEM_L2_PFLAG_CONSTR_6 := per (APC_CONSTRAINED, 1, 1, 0, 1) (APC_UNCONSTRAINED, -1, -1, 0, 0) None None.

Definition ASN_PER_MEMB_EPHEM_TGD_CONSTR_8 := per (APC_CONSTRAINED, 8, 8, -128, 127) (APC_UNCONSTRAINED, -1, -1, 0, 0) None None.

Definition ASN_PER_MEMB_EPHEM_TOC_CONSTR_9 := per (APC_CONSTRAINED, 16, 16, 0, 37799) (APC_UNCONSTRAINED, -1, -1, 0, 0) None None.

Definition ASN_PER_MEMB_EPHEM_A_F2_CONSTR_10 := per (APC_CONSTRAINED, 8, 8, -128, 127) (APC_UNCONSTRAINED, -1, -1, 0, 0) None None.

Definition ASN_PER_MEMB_EPHEM_A_F1_CONSTR_11 := per (APC_CONSTRAINED, 16, 16, -32768, 32767) (APC_UNCONSTRAINED, -1, -1, 0, 0) None None.

Definition ASN_PER_MEMB_EPHEM_A_F0_CONSTR_12 := per (APC_CONSTRAINED, 22, -1, -2097152, 2097151) (APC_UNCONSTRAINED, -1, -1, 0, 0) None None.

Definition ASN_PER_MEMB_EPHEM_CRS_CONSTR_13 := per (APC_CONSTRAINED, 16, 16, -32768, 32767) (APC_UNCONSTRAINED, -1, -1, 0, 0) None None.

Definition ASN_PER_MEMB_EPHEM_DELTA_N_CONSTR_14 := per (APC_CONSTRAINED, 16, 16, -32768, 32767) (APC_UNCONSTRAINED, -1, -1, 0, 0) None None.

Definition ASN_PER_MEMB_EPHEM_M0_CONSTR_15 := per (APC_CONSTRAINED, 32, -1, -2147483648, 2147483647) (APC_UNCONSTRAINED, -1, -1, 0, 0) None None.

Definition ASN_PER_MEMB_EPHEM_CUC_CONSTR_16 := per (APC_CONSTRAINED, 16, 16, -32768, 32767) (APC_UNCONSTRAINED, -1, -1, 0, 0) None None.

Definition ASN_PER_TYPE_EPHEM_E_CONSTR_17 := per (APC_CONSTRAINED, 32, -1, 0, 4294967295) (APC_UNCONSTRAINED, -1, -1, 0, 0) None None.

Definition asn_DEF_ephemE_17 : asn_table := T_NativeInteger true (Some ASN_PER_TYPE_EPHEM_E_CONSTR_17).

Definition ASN_PER_MEMB_EPHEM_E_CONSTR_17 := per (APC_CONSTRAINED, 32, -1, 0, 4294967295) (APC_UNCONSTRAINED, -1, -1, 0, 0) None None.

Definition ASN_PER_MEMB_EPHEM_CUS_CONSTR_18 := per (APC_CONSTRAINED, 16, 16, -32768, 32767) (APC_UNCONSTRAINED, -1, -1, 0, 0) None None.

Definition ASN_PER_TYPE_EPHEM_A_POWER_HALF_CONSTR_19 := per (APC_CONSTRAINED, 32, -1, 0, 4294967295) (APC_UNCONSTRAINED, -1, -1, 0, 0) None None.

Definition asn_DEF_ephemAPowerHalf_19 : asn_table := T_NativeInteger true (Some ASN_PER_TYPE_EPHEM_A_POWER_HALF_CONSTR_19).

Definition ASN_PER_MEMB_EPHEM_A_POWER_HALF_CONSTR_19 := per (APC_CONSTRAINED, 32, -1, 0, 4294967295) (APC_UNCONSTRAINED, -1, -1, 0, 0) None None.

Definition ASN_PER_MEMB_EPHEM_TOE_CONSTR_20 := per (APC_CONSTRAINED, 16, 16, 0, 37799) (APC_UNCONSTRAINED, -1, -1, 0, 0) None None.

Definition ASN_PER_MEMB_EPHEM_FIT_FLAG_CONSTR_21 := per (APC_CONSTRAINED, 1, 1, 0, 1) (APC_UNCONSTRAINED, -1, -1, 0, 0) None None.

Definition ASN_PER_MEMB_EPHEM_AODA_CONSTR_22 := per (APC_CONSTRAINED, 5, 5, 0, 31) (APC_UNCONSTRAINED, -1, -1, 0, 0) None None.

Definition ASN_PER_MEMB_EPHEM_CIC_CONSTR_23 := per (APC_CONSTRAINED, 16, 16, -32768, 32767) (APC_UNCONSTRAINED, -1, -1, 0, 0) None None.

Definition ASN_PER_MEMB_EPHEM_OMEGA_A0_CONSTR_24 := per (APC_CONSTRAINED, 32, -1, -2147483648, 2147483647) (APC_UNCONSTRAINED, -1, -1, 0, 0) None None.

Definition ASN_PER_MEMB_EPHEM_CIS_CONSTR_25 := per (APC_CONSTRAINED, 16, 16, -32768, 32767) (APC_UNCONSTRAINED, -1, -1, 0, 0) None None.

Definition ASN_PER_MEMB_EPHEM_I0_CONSTR_26 := per (APC_CONSTRAINED, 32, -1, -2147483648, 2147483647) (APC_UNCONSTRAINED, -1, -1, 0, 0) None None.

Definition ASN_PER_MEMB_EPHEM_CRC_CONSTR_27 := per (APC_CONSTRAINED, 16, 16, -32768, 32767) (APC_UNCONSTRAINED, -1, -1, 0, 0) None None.

Definition ASN_PER_MEMB_EPHEM_W_CONSTR_28 := per (APC_CONSTRAINED, 32, -1, -2147483648, 2147483647) (APC_UNCONSTRAINED, -1, -1, 0, 0) None None.

Definition ASN_PER_MEMB_EPHEM_OMEGA_A_DOT_CONSTR_29 := per (APC_CONSTRAINED, 24, -1, -8388608, 8388607) (APC_UNCONSTRAINED, -1, -1, 0, 0) None None.

Definition ASN_PER_MEMB_EPHEM_I_DOT_CONSTR_30 := per (APC_CONSTRAINED, 14, 14, -8192, 8191) (APC_UNCONSTRAINED, -1, -1, 0, 0) None None.

Definition asn_MBR_UncompressedEphemeris_1 : list (member asn_table) :=
  [
   (* ephemCodeOnL2 *) Member false false asn_DEF_NativeInteger (Some ASN_PER_MEMB_EPHEM_CODE_ON_L2_CONSTR_2);
   (* ephemURA *) Member false false asn_DEF_NativeInteger (Some ASN_PER_MEMB_EPHEM_URA_CONSTR_3);
   (* ephemSVhealth *) Member false false asn_DEF_NativeInteger (Some ASN_PER_MEMB_EPHEM_S_VHEALTH_CONSTR_4);
   (* ephemIODC *) Member false false asn_DEF_NativeInteger (Some ASN_PER_MEMB_EPHEM_IODC_CONSTR_5);
   (* ephemL2Pflag *) Member false false asn_DEF_NativeInteger (Some ASN_PER_MEMB_EPHEM_L2_PFLAG_CONSTR_6);
   (* ephemSF1Rsvd *) Member false false asn_DEF_EphemerisSubframe1Reserved None;
   (* ephemTgd *) Member false false asn_DEF_NativeInteger (Some ASN_PER_MEMB_EPHEM_TGD_CONSTR_8);
   (* ephemToc *) Member false false asn_DEF_NativeInteger (Some ASN_PER_MEMB_EPHEM_TOC_CONSTR_9);
   (* ephemAF2 *) Member false false asn_DEF_NativeInteger (Some ASN_PER_MEMB_EPHEM_A_F2_CONSTR_10);
   (* ephemAF1 *) Member false false asn_DEF_NativeInteger (Some ASN_PER_MEMB_EPHEM_A_F1_CONSTR_11);
   (* ephemAF0 *) Member false false asn_DEF_NativeInteger (Some ASN_PER_MEMB_EPHEM_A_F0_CONSTR_12);
   (* ephemCrs *) Member false false asn_DEF_NativeInteger (Some ASN_PER_MEMB_EPHEM_CRS_CONSTR_13);
   (* ephemDeltaN *) Member false false asn_DEF_NativeInteger (Some ASN_PER_MEMB_EPHEM_DELTA_N_CONSTR_14);
   (* ephemM0 *) Member false false asn_DEF_NativeInteger (Some ASN_PER_MEMB_EPHEM_M0_CONSTR_15);
   (* ephemCuc *) Member false false asn_DEF_NativeInteger (Some ASN_PER_MEMB_EPHEM_CUC_CONSTR_16);
   (* ephemE *) Member false false asn_DEF_ephemE_17 (Some ASN_PER_MEMB_EPHEM_E_CONSTR_17);
   (* ephemCus *) Member false false asn_DEF_NativeInteger (Some ASN_PER_MEMB_EPHEM_CUS_CONSTR_18);
   (* ephemAPowerHalf *) Member false false asn_DEF_ephemAPowerHalf_19 (Some ASN_PER_MEMB_EPHEM_A_POWER_HALF_CONSTR_19);
   (* ephemToe *) Member false false asn_DEF_NativeInteger (Some ASN_PER_MEMB_EPHEM_TOE_CONSTR_20);
   (* ephemFitFlag *) Member false false asn_DEF_NativeInteger (Some ASN_PER_MEMB_EPHEM_FIT_FLAG_CONSTR_21);
   (* ephemAODA *) Member false false asn_DEF_NativeInteger (Some ASN_PER_MEMB_EPHEM_AODA_CONSTR_22);
   (* ephemCic *) Member false false asn_DEF_NativeInteger (Some ASN_PER_MEMB_EPHEM_CIC_CONSTR_23);
   (* ephemOmegaA0 *) Member false false asn_DEF_NativeInteger (Some ASN_PER_MEMB_EPHEM_OMEGA_A0_CONSTR_24);
   (* ephemCis *) Member false false asn_DEF_NativeInteger (Some ASN_PER_MEMB_EPHEM_CIS_CONSTR_25);
   (* ephemI0 *) Member false false asn_DEF_NativeInteger (Some ASN_PER_MEMB_EPHEM_I0_CONSTR_26);
   (* ephemCrc *) Member false false asn_DEF_NativeInteger (Some ASN_PER_MEMB_EPHEM_CRC_CONSTR_27);
   (* ephemW *) Member false false asn_DEF_NativeInteger (Some ASN_PER_MEMB_EPHEM_W_CONSTR_28);
   (* ephemOmegaADot *) Member false false asn_DEF_NativeInteger (Some ASN_PER_MEMB_EPHEM_OMEGA_A_DOT_CONSTR_29);
   (* ephemIDot *) Member false false asn_DEF_NativeInteger (Some ASN_PER_MEMB_EPHEM_I_DOT_CONSTR_30) ].

Definition asn_SPC_UncompressedEphemeris_specs_1 : asn_SEQUENCE_specifics_t :=
  {| oms := []; roms_count := 0; aoms_count := 0; ext_after := -1; ext_before := -1 |}.

Definition asn_DEF_UncompressedEphemeris : asn_table := T_SEQUENCE asn_SPC_UncompressedEphemeris_specs_1 asn_MBR_UncompressedEphemeris_1.

(** ** [SatStatus.c] *)

Definition ASN_PER_TYPE_SAT_STATUS_CONSTR_1 := per (Z.lor APC_CONSTRAINED APC_EXTENSIBLE, 2, 2, 0, 2) (APC_UNCONSTRAINED, -1, -1, 0, 0) None None.

Definition asn_MBR_SatStatus_1 : list (member asn_table) :=
  [
   (* newSatelliteAndModelUC *) Member false false asn_DEF_UncompressedEphemeris None;
   (* oldSatelliteAndModel *) Member false false asn_DEF_NULL None;
   (* newNaviModelUC *) Member false false asn_DEF_UncompressedEphemeris None ].

Definition asn_SPC_SatStatus_specs_1 : asn_CHOICE_specifics_t := {| canonical_order := None; ext_start := 3 |}.

Definition asn_DEF_SatStatus : asn_table := T_CHOICE asn_SPC_SatStatus_specs_1 asn_MBR_SatStatus_1 (Some ASN_PER_TYPE_SAT_STATUS_CONSTR_1).

(** ** [NavModelElement.c] *)

Definition asn_MBR_NavModelElement_1 : list (member asn_table) :=
  [
   (* satelliteID *) Member false false asn_DEF_SatelliteID None;
   (* satStatus *) Member false false asn_DEF_SatStatus None ].

Definition asn_SPC_NavModelElement_specs_1 : asn_SEQUENCE_specifics_t :=
  {| oms := []; roms_count := 0; aoms_count := 0; ext_after := -1; ext_before := -1 |}.

Definition asn_DEF_NavModelElement : asn_table := T_SEQUENCE asn_SPC_NavModelElement_specs_1 asn_MBR_NavModelElement_1.

(** ** [SeqOfNavModelElement.c] *)

Definition ASN_PER_TYPE_SEQ_OF_NAV_MODEL_ELEMENT_CONSTR_1 := per (APC_UNCONSTRAINED, -1, -1, 0, 0) (APC_CONSTRAINED, 4, 4, 1, 16) None None.

Definition asn_MBR_SeqOfNavModelElement_1 : member asn_table :=
   (* element *) Member true false asn_DEF_NavModelElement None.

Definition asn_DEF_SeqOfNavModelElement : asn_table := T_SEQUENCE_OF asn_MBR_SeqOfNavModelElement_1 (Some ASN_PER_TYPE_SEQ_OF_NAV_MODEL_ELEMENT_CONSTR_1).

(** ** [NavigationModel.c] *)

Definition asn_MBR_NavigationModel_1 : list (member asn_table) :=
  [
   (* navModelList *) Member false false asn_DEF_SeqOfNavModelElement None ].

Definition asn_SPC_NavigationModel_specs_1 : asn_SEQUENCE_specifics_t :=
  {| oms := []; roms_count := 0; aoms_count := 0; ext_after := -1; ext_before := -1 |}.

Definition asn_DEF_NavigationModel : asn_table := T_SEQUENCE asn_SPC_NavigationModel_specs_1 asn_MBR_NavigationModel_1.

(** ** [IonosphericModel.c] *)

Definition ASN_PER_MEMB_ALFA0_CONSTR_2 := per (APC_CONSTRAINED, 8, 8, -128, 127) (APC_UNCONSTRAINED, -1, -1, 0, 0) None None.

Definition ASN_PER_MEMB_ALFA1_CONSTR_3 := per (APC_CONSTRAINED, 8, 8, -128, 127) (APC_UNCONSTRAINED, -1, -1, 0, 0) None None.

Definition ASN_PER_MEMB_ALFA2_CONSTR_4 := per (APC_CONSTRAINED, 8, 8, -128, 127) (APC_UNCONSTRAINED, -1, -1, 0, 0) None None.

Definition ASN_PER_MEMB_ALFA3_CONSTR_5 := per (APC_CONSTRAINED, 8, 8, -128, 127) (APC_UNCONSTRAINED, -1, -1, 0, 0) None None.

Definition ASN_PER_MEMB_BETA0_CONSTR_6 := per (APC_CONSTRAINED, 8, 8, -128, 127) (APC_UNCONSTRAINED, -1, -1, 0, 0) None None.

Definition ASN_PER_MEMB_BETA1_CONSTR_7 := per (APC_CONSTRAINED, 8, 8, -128, 127) (APC_UNCONSTRAINED, -1, -1, 0, 0) None None.

Definition ASN_PER_MEMB_BETA2_CONSTR_8 := per (APC_CONSTRAINED, 8, 8, -128, 127) (APC_UNCONSTRAINED, -1, -1, 0, 0) None None.

Definition ASN_PER_MEMB_BETA3_CONSTR_9 := per (APC_CONSTRAINED, 8, 8, -128, 127) (APC_UNCONSTRAINED, -1, -1, 0, 0) None None.

Definition asn_MBR_IonosphericModel_1 : list (member asn_table) :=
  [
   (* alfa0 *) Member false false asn_DEF_NativeInteger (Some ASN_PER_MEMB_ALFA0_CONSTR_2);
   (* alfa1 *) Member false false asn_DEF_NativeInteger (Some ASN_PER_MEMB_ALFA1_CONSTR_3);
   (* alfa2 *) Member false false asn_DEF_NativeInteger (Some ASN_PER_MEMB_ALFA2_CONSTR_4);
   (* alfa3 *) Member false false asn_DEF_NativeInteger (Some ASN_PER_MEMB_ALFA3_CONSTR_5);
   (* beta0 *) Member false false asn_DEF_NativeInteger (Some ASN_PER_MEMB_BETA0_CONSTR_6);
   (* beta1 *) Member false false asn_DEF_NativeInteger (Some ASN_PER_MEMB_BETA1_CONSTR_7);
   (* beta2 *) Member false false asn_DEF_NativeInteger (Some ASN_PER_MEMB_BETA2_CONSTR_8);
   (* beta3 *) Member false false asn_DEF_NativeInteger (Some ASN_PER_MEMB_BETA3_CONSTR_9) ].

Definition asn_SPC_IonosphericModel_specs_1 : asn_SEQUENCE_specifics_t :=
  {| oms := []; roms_count := 0; aoms_count := 0; ext_after := -1; ext_before := -1 |}.

Definition asn_DEF_IonosphericModel : asn_table := T_SEQUENCE asn_SPC_IonosphericModel_specs_1 asn_MBR_IonosphericModel_1.

(** ** [UTCModel.c] *)

Definition ASN_PER_MEMB_UTC_A1_CONSTR_2 := per (APC_CONSTRAINED, 24, -1, -8388608, 8388607) (APC_UNCONSTRAINED, -1, -1, 0, 0) None None.

Definition ASN_PER_MEMB_UTC_A0_CONSTR_3 := per (APC_CONSTRAINED, 32, -1, -2147483648, 2147483647) (APC_UNCONSTRAINED, -1, -1, 0, 0) None None.

Definition ASN_PER_MEMB_UTC_TOT_CONSTR_4 := per (APC_CONSTRAINED, 8, 8, 0, 255) (APC_UNCONSTRAINED, -1, -1, 0, 0) None None.

Definition ASN_PER_MEMB_UTC_W_NT_CONSTR_5 := per (APC_CONSTRAINED, 8, 8, 0, 255) (APC_UNCONSTRAINED, -1, -1, 0, 0) None None.

Definition ASN_PER_MEMB_UTC_DELTA_TLS_CONSTR_6 := per (APC_CONSTRAINED, 8, 8, -128, 127) (APC_UNCONSTRAINED, -1, -1, 0, 0) None None.

Definition ASN_PER_MEMB_UTC_W_NLSF_CONSTR_7 := per (APC_CONSTRAINED, 8, 8, 0, 255) (APC_UNCONSTRAINED, -1, -1, 0, 0) None None.

Definition ASN_PER_MEMB_UTC_DN_CONSTR_8 := per (APC_CONSTRAINED, 8, 8, -128, 127) (APC_UNCONSTRAINED, -1, -1, 0, 0) None None.

Definition ASN_PER_MEMB_UTC_DELTA_TLSF_CONSTR_9 := per (APC_CONSTRAINED, 8, 8, -128, 127) (APC_UNCONSTRAINED, -1, -1, 0, 0) None None.

Definition asn_MBR_UTCModel_1 : list (member asn_table) :=
  [
   (* utcA1 *) Member false false asn_DEF_NativeInteger (Some ASN_PER_MEMB_UTC_A1_CONSTR_2);
   (* utcA0 *) Member false false asn_DEF_NativeInteger (Some ASN_PER_MEMB_UTC_A0_CONSTR_3);
   (* utcTot *) Member false false asn_DEF_NativeInteger (Some ASN_PER_MEMB_UTC_TOT_CONSTR_4);
   (* utcWNt *) Member false false asn_DEF_NativeInteger (Some ASN_PER_MEMB_UTC_W_NT_CONSTR_5);
   (* utcDeltaTls *) Member false false asn_DEF_NativeInteger (Some ASN_PER_MEMB_UTC_DELTA_TLS_CONSTR_6);
   (* utcWNlsf *) Member false false asn_DEF_NativeInteger (Some ASN_PER_MEMB_UTC_W_NLSF_CONSTR_7);
   (* utcDN *) Member false false asn_DEF_NativeInteger (Some ASN_PER_MEMB_UTC_DN_CONSTR_8);
   (* utcDeltaTlsf *) Member false false asn_DEF_NativeInteger (Some ASN_PER_MEMB_UTC_DELTA_TLSF_CONSTR_9) ].

Definition asn_SPC_UTCModel_specs_1 : asn_SEQUENCE_specifics_t :=
  {| oms := []; roms_count := 0; aoms_count := 0; ext_after := -1; ext_before := -1 |}.

Definition asn_DEF_UTCModel : asn_table := T_SEQUENCE asn_SPC_UTCModel_specs_1 asn_MBR_UTCModel_1.

(** ** [AlmanacElement.c] *)

Definition ASN_PER_MEMB_ALMANAC_E_CONSTR_3 := per (APC_CONSTRAINED, 16, 16, 0, 65535) (APC_UNCONSTRAINED, -1, -1, 0, 0) None None.

Definition ASN_PER_MEMB_ALAMANAC_TOA_CONSTR_4 := per (APC_CONSTRAINED, 8, 8, 0, 255) (APC_UNCONSTRAINED, -1, -1, 0, 0) None None.

Definition ASN_PER_MEMB_ALMANAC_KSII_CONSTR_5 := per (APC_CONSTRAINED, 16, 16, -32768, 32767) (APC_UNCONSTRAINED, -1, -1, 0, 0) None None.

Definition ASN_PER_MEMB_ALMANAC_OMEGA_DOT_CONSTR_6 := per (APC_CONSTRAINED, 16, 16, -32768, 32767) (APC_UNCONSTRAINED, -1, -1, 0, 0) None None.

Definition ASN_PER_MEMB_ALMANAC_S_VHEALTH_CONSTR_7 := per (APC_CONSTRAINED, 8, 8, 0, 255) (APC_UNCONSTRAINED, -1, -1, 0, 0) None None.

Definition ASN_PER_MEMB_ALMANAC_A_POWER_HALF_CONSTR_8 := per (APC_CONSTRAINED, 24, -1, 0, 16777215) (APC_UNCONSTRAINED, -1, -1, 0, 0) None None.

Definition ASN_PER_MEMB_ALMANAC_OMEGA0_CONSTR_9 := per (APC_CONSTRAINED, 24, -1, -8388608, 8388607) (APC_UNCONSTRAINED, -1, -1, 0, 0) None None.

Definition ASN_PER_MEMB_ALMANAC_W_CONSTR_10 := per (APC_CONSTRAINED, 24, -1, -8388608, 8388607) (APC_UNCONSTRAINED, -1, -1, 0, 0) None None.

Definition ASN_PER_MEMB_ALMANAC_M0_CONSTR_11 := per (APC_CONSTRAINED, 24, -1, -8388608, 8388607) (APC_UNCONSTRAINED, -1, -1, 0, 0) None None.

Definition ASN_PER_MEMB_ALMANAC_A_F0_CONSTR_12 := per (APC_CONSTRAINED, 11, 11, -1024, 1023) (APC_UNCONSTRAINED, -1, -1, 0, 0) None None.

Definition ASN_PER_MEMB_ALMANAC_A_F1_CONSTR_13 := per (APC_CONSTRAINED, 11, 11, -1024, 1023) (APC_UNCONSTRAINED, -1, -1, 0, 0) None None.

Definition asn_MBR_AlmanacElement_1 : list (member asn_table) :=
  [
   (* satelliteID *) Member false false asn_DEF_SatelliteID None;
   (* almanacE *) Member false false asn_DEF_NativeInteger (Some ASN_PER_MEMB_ALMANAC_E_CONSTR_3);
   (* alamanacToa *) Member false false asn_DEF_NativeInteger (Some ASN_PER_MEMB_ALAMANAC_TOA_CONSTR_4);
   (* almanacKsii *) Member false false asn_DEF_NativeInteger (Some ASN_PER_MEMB_ALMANAC_KSII_CONSTR_5);
   (* almanacOmegaDot *) Member false false asn_DEF_NativeInteger (Some ASN_PER_MEMB_ALMANAC_OMEGA_DOT_CONSTR_6);
   (* almanacSVhealth *) Member false false asn_DEF_NativeInteger (Some ASN_PER_MEMB_ALMANAC_S_VHEALTH_CONSTR_7);
   (* almanacAPowerHalf *) Member false false asn_DEF_NativeInteger (Some ASN_PER_MEMB_ALMANAC_A_POWER_HALF_CONSTR_8);
   (* almanacOmega0 *) Member false false asn_DEF_NativeInteger (Some ASN_PER_MEMB_ALMANAC_OMEGA0_CONSTR_9);
   (* almanacW *) Member false false asn_DEF_NativeInteger (Some ASN_PER_MEMB_ALMANAC_W_CONSTR_10);
   (* almanacM0 *) Member false false asn_DEF_NativeInteger (Some ASN_PER_MEMB_ALMANAC_M0_CONSTR_11);
   (* almanacAF0 *) Member false false asn_DEF_NativeInteger (Some ASN_PER_MEMB_ALMANAC_A_F0_CONSTR_12);
   (* almanacAF1 *) Member false false asn_DEF_NativeInteger (Some ASN_PER_MEMB_ALMANAC_A_F1_CONSTR_13) ].

Definition asn_SPC_AlmanacElement_specs_1 : asn_SEQUENCE_specifics_t :=
  {| oms := []; roms_count := 0; aoms_count := 0; ext_after := -1; ext_before := -1 |}.

Definition asn_DEF_AlmanacElement : asn_table := T_SEQUENCE asn_SPC_AlmanacElement_specs_1 asn_MBR_AlmanacElement_1.

(** ** [SeqOfAlmanacElement.c] *)

Definition ASN_PER_TYPE_SEQ_OF_ALMANAC_ELEMENT_CONSTR_1 := per (APC_UNCONSTRAINED, -1, -1, 0, 0) (APC_CONSTRAINED, 6, 6, 1, 64) None None.

Definition asn_MBR_SeqOfAlmanacElement_1 : member asn_table :=
   (* element *) Member true false asn_DEF_AlmanacElement None.

Definition asn_DEF_SeqOfAlmanacElement : asn_table := T_SEQUENCE_OF asn_MBR_SeqOfAlmanacElement_1 (Some ASN_PER_TYPE_SEQ_OF_ALMANAC_ELEMENT_CONSTR_1).

(** ** [Almanac.c] *)

Definition ASN_PER_MEMB_ALAMANAC_W_NA_CONSTR_2 := per (APC_CONSTRAINED, 8, 8, 0, 255) (APC_UNCONSTRAINED, -1, -1, 0, 0) None None.

Definition asn_MBR_Almanac_1 : list (member asn_table) :=
  [
   (* alamanacWNa *) Member false false asn_DEF_NativeInteger (Some ASN_PER_MEMB_ALAMANAC_W_NA_CONSTR_2);
   (* almanacList *) Member false false asn_DEF_SeqOfAlmanacElement None ].

Definition asn_SPC_Almanac_specs_1 : asn_SEQUENCE_specifics_t :=
  {| oms := []; roms_count := 0; aoms_count := 0; ext_after := -1; ext_before := -1 |}.

Definition asn_DEF_Almanac : asn_table := T_SEQUENCE asn_SPC_Almanac_specs_1 asn_MBR_Almanac_1.

(** ** [TimeRelation.c] *)

Definition asn_MBR_TimeRelation_1 : list (member asn_table) :=
  [
   (* gpsTOW *) Member false false asn_DEF_GPSTOW23b None;
   (* gsmTime *) Member true true asn_DEF_GSMTime None ].

Definition asn_MAP_TimeRelation_oms_1 : list Z := [1].
Definition asn_SPC_TimeRelation_specs_1 : asn_SEQUENCE_specifics_t :=
  {| oms := asn_MAP_TimeRelation_oms_1; roms_count := 1; aoms_count := 0; ext_after := -1; ext_before := -1 |}.

Definition asn_DEF_TimeRelation : asn_table := T_SEQUENCE asn_SPC_TimeRelation_specs_1 asn_MBR_TimeRelation_1.

(** ** [AddionalDopplerFields.c] *)

Definition ASN_PER_MEMB_DOPPLER1_CONSTR_2 := per (APC_CONSTRAINED, 6, 6, 0, 63) (APC_UNCONSTRAINED, -1, -1, 0, 0) None None.

Definition ASN_PER_MEMB_DOPPLER_UNCERTAINTY_CONSTR_3 := per (APC_CONSTRAINED, 3, 3, 0, 7) (APC_UNCONSTRAINED, -1, -1, 0, 0) None None.

Definition asn_MBR_AddionalDopplerFields_1 : list (member asn_table) :=
  [
   (* doppler1 *) Member false false asn_DEF_NativeInteger (Some ASN_PER_MEMB_DOPPLER1_CONSTR_2);
   (* dopplerUncertainty *) Member false false asn_DEF_NativeInteger (Some ASN_PER_MEMB_DOPPLER_UNCERTAINTY_CONSTR_3) ].

Definition asn_SPC_AddionalDopplerFields_specs_1 : asn_SEQUENCE_specifics_t :=
  {| oms := []; roms_count := 0; aoms_count := 0; ext_after := -1; ext_before := -1 |}.

Definition asn_DEF_AddionalDopplerFields : asn_table := T_SEQUENCE asn_SPC_AddionalDopplerFields_specs_1 asn_MBR_AddionalDopplerFields_1.

(** ** [AddionalAngleFields.c] *)

Definition ASN_PER_MEMB_AZIMUTH_CONSTR_2 := per (APC_CONSTRAINED, 5, 5, 0, 31) (APC_UNCONSTRAINED, -1, -1, 0, 0) None None.

Definition ASN_PER_MEMB_ELEVATION_CONSTR_3 := per (APC_CONSTRAINED, 3, 3, 0, 7) (APC_UNCONSTRAINED, -1, -1, 0, 0) None None.

Definition asn_MBR_AddionalAngleFields_1 : list (member asn_table) :=
  [
   (* azimuth *) Member false false asn_DEF_NativeInteger (Some ASN_PER_MEMB_AZIMUTH_CONSTR_2);
   (* elevation *) Member false false asn_DEF_NativeInteger (Some ASN_PER_MEMB_ELEVATION_CONSTR_3) ].

Definition asn_SPC_AddionalAngleFields_specs_1 : asn_SEQUENCE_specifics_t :=
  {| oms := []; roms_count := 0; aoms_count := 0; ext_after := -1; ext_before := -1 |}.

Definition asn_DEF_AddionalAngleFields : asn_table := T_SEQUENCE asn_SPC_AddionalAngleFields_specs_1 asn_MBR_AddionalAngleFields_1.

(** ** [AcquisElement.c] *)

Definition ASN_PER_MEMB_DOPPLER0_CONSTR_3 := per (APC_CONSTRAINED, 12, 12, -2048, 2047) (APC_UNCONSTRAINED, -1, -1, 0, 0) None None.

Definition ASN_PER_MEMB_CODE_PHASE_CONSTR_5 := per (APC_CONSTRAINED, 10, 10, 0, 1022) (APC_UNCONSTRAINED, -1, -1, 0, 0) None None.

Definition ASN_PER_MEMB_INT_CODE_PHASE_CONSTR_6 := per (APC_CONSTRAINED, 5, 5, 0, 19) (APC_UNCONSTRAINED, -1, -1, 0, 0) None None.

Definition ASN_PER_MEMB_GPS_BIT_NUMBER_CONSTR_7 := per (APC_CONSTRAINED, 2, 2, 0, 3) (APC_UNCONSTRAINED, -1, -1, 0, 0) None None.

Definition ASN_PER_MEMB_CODE_PHASE_SEARCH_WINDOW_CONSTR_8 := per (APC_CONSTRAINED, 4, 4, 0, 15) (APC_UNCONSTRAINED, -1, -1, 0, 0) None None.

Definition asn_MBR_AcquisElement_1 : list (member asn_table) :=
  [
   (* svid *) Member false false asn_DEF_SatelliteID None;
   (* doppler0 *) Member false false asn_DEF_NativeInteger (Some ASN_PER_MEMB_DOPPLER0_CONSTR_3);
   (* addionalDoppler *) Member true true asn_DEF_AddionalDopplerFields None;
   (* codePhase *) Member false false asn_DEF_NativeInteger (Some ASN_PER_MEMB_CODE_PHASE_CONSTR_5);
   (* intCodePhase *) Member false false asn_DEF_NativeInteger (Some ASN_PER_MEMB_INT_CODE_PHASE_CONSTR_6);
   (* gpsBitNumber *) Member false false asn_DEF_NativeInteger (Some ASN_PER_MEMB_GPS_BIT_NUMBER_CONSTR_7);
   (* codePhaseSearchWindow *) Member false false asn_DEF_NativeInteger (Some ASN_PER_MEMB_CODE_PHASE_SEARCH_WINDOW_CONSTR_8);
   (* addionalAngle *) Member true true asn_DEF_AddionalAngleFields None ].

Definition asn_MAP_AcquisElement_oms_1 : list Z := [2; 7].
Definition asn_SPC_AcquisElement_specs_1 : asn_SEQUENCE_specifics_t :=
  {| oms := asn_MAP_AcquisElement_oms_1; roms_count := 2; aoms_count := 0; ext_after := -1; ext_before := -1 |}.

Definition asn_DEF_AcquisElement : asn_table := T_SEQUENCE asn_SPC_AcquisElement_specs_1 asn_MBR_AcquisElement_1.

(** ** [SeqOfAcquisElement.c] *)

Definition ASN_PER_TYPE_SEQ_OF_ACQUIS_ELEMENT_CONSTR_1 := per (APC_UNCONSTRAINED, -1, -1, 0, 0) (APC_CONSTRAINED, 4, 4, 1, 16) None None.

Definition asn_MBR_SeqOfAcquisElement_1 : member asn_table :=
   (* element *) Member true false asn_DEF_AcquisElement None.

Definition asn_DEF_SeqOfAcquisElement : asn_table := T_SEQUENCE_OF asn_MBR_SeqOfAcquisElement_1 (Some ASN_PER_TYPE_SEQ_OF_ACQUIS_ELEMENT_CONSTR_1).

(** ** [AcquisAssist.c] *)

Definition asn_MBR_AcquisAssist_1 : list (member asn_table) :=
  [
   (* timeRelation *) Member false false asn_DEF_TimeRelation None;
   (* acquisList *) Member false false asn_DEF_SeqOfAcquisElement None ].

Definition asn_SPC_AcquisAssist_specs_1 : asn_SEQUENCE_specifics_t :=
  {| oms := []; roms_count := 0; aoms_count := 0; ext_after := -1; ext_before := -1 |}.

Definition asn_DEF_AcquisAssist : asn_table := T_SEQUENCE asn_SPC_AcquisAssist_specs_1 asn_MBR_AcquisAssist_1.

(** ** [SeqOf-BadSatelliteSet.c] *)

Definition ASN_PER_TYPE_SEQ_OF_BAD_SATELLITE_SET_CONSTR_1 := per (APC_UNCONSTRAINED, -1, -1, 0, 0) (APC_CONSTRAINED, 4, 4, 1, 16) None None.

Definition asn_MBR_SeqOf_BadSatelliteSet_1 : member asn_table :=
   (* element *) Member true false asn_DEF_SatelliteID None.

Definition asn_DEF_SeqOf_BadSatelliteSet : asn_table := T_SEQUENCE_OF asn_MBR_SeqOf_BadSatelliteSet_1 (Some ASN_PER_TYPE_SEQ_OF_BAD_SATELLITE_SET_CONSTR_1).

(** ** [ControlHeader.c] *)

Definition asn_MBR_ControlHeader_1 : list (member asn_table) :=
  [
   (* referenceTime *) Member true true asn_DEF_ReferenceTime None;
   (* refLocation *) Member true true asn_DEF_RefLocation None;
   (* dgpsCorrections *) Member true true asn_DEF_DGPSCorrections None;
   (* navigationModel *) Member true true asn_DEF_NavigationModel None;
   (* ionosphericModel *) Member true true asn_DEF_IonosphericModel None;
   (* utcModel *) Member true true asn_DEF_UTCModel None;
   (* almanac *) Member true true asn_DEF_Almanac None;
   (* acquisAssist *) Member true true asn_DEF_AcquisAssist None;
   (* realTimeIntegrity *) Member true true asn_DEF_SeqOf_BadSatelliteSet None ].

Definition asn_MAP_ControlHeader_oms_1 : list Z := [0; 1; 2; 3; 4; 5; 6; 7; 8].
Definition asn_SPC_ControlHeader_specs_1 : asn_SEQUENCE_specifics_t :=
  {| oms := asn_MAP_ControlHeader_oms_1; roms_count := 9; aoms_count := 0; ext_after := -1; ext_before := -1 |}.

Definition asn_DEF_ControlHeader : asn_table := T_SEQUENCE asn_SPC_ControlHeader_specs_1 asn_MBR_ControlHeader_1.

(** ** [GPS-AssistData.c] *)

Definition asn_MBR_GPS_AssistData_1 : list (member asn_table) :=
  [
   (* controlHeader *) Member false false asn_DEF_ControlHeader None ].

Definition asn_SPC_GPS_AssistData_specs_1 : asn_SEQUENCE_specifics_t :=
  {| oms := []; roms_count := 0; aoms_count := 0; ext_after := -1; ext_before := -1 |}.

Definition asn_DEF_GPS_AssistData : asn_table := T_SEQUENCE asn_SPC_GPS_AssistData_specs_1 asn_MBR_GPS_AssistData_1.

(** ** [INTEGER.c] *)

Definition asn_DEF_INTEGER : asn_table := T_INTEGER None.

(** ** [ExtensionContainer.c] *)

Definition asn_DEF_ExtensionContainer : asn_table := T_INTEGER None.

(** ** [ExpectedOTD.c] *)

Definition ASN_PER_TYPE_EXPECTED_OTD_CONSTR_1 := per (APC_CONSTRAINED, 11, 11, 0, 1250) (APC_UNCONSTRAINED, -1, -1, 0, 0) None None.

Definition asn_DEF_ExpectedOTD : asn_table := T_NativeInteger false (Some ASN_PER_TYPE_EXPECTED_OTD_CONSTR_1).

(** ** [ExpOTDUncertainty.c] *)

Definition ASN_PER_TYPE_EXP_OTD_UNCERTAINTY_CONSTR_1 := per (APC_CONSTRAINED, 3, 3, 0, 7) (APC_UNCONSTRAINED, -1, -1, 0, 0) None None.

Definition asn_DEF_ExpOTDUncertainty : asn_table := T_NativeInteger false (Some ASN_PER_TYPE_EXP_OTD_UNCERTAINTY_CONSTR_1).

(** ** [MsrAssistBTS-R98-ExpOTD.c] *)

Definition asn_MBR_MsrAssistBTS_R98_ExpOTD_1 : list (member asn_table) :=
  [
   (* expectedOTD *) Member false false asn_DEF_ExpectedOTD None;
   (* expOTDUncertainty *) Member false false asn_DEF_ExpOTDUncertainty None ].

Definition asn_SPC_MsrAssistBTS_R98_ExpOTD_specs_1 : asn_SEQUENCE_specifics_t :=
  {| oms := []; roms_count := 0; aoms_count := 0; ext_after := -1; ext_before := -1 |}.

Definition asn_DEF_MsrAssistBTS_R98_ExpOTD : asn_table := T_SEQUENCE asn_SPC_MsrAssistBTS_R98_ExpOTD_specs_1 asn_MBR_MsrAssistBTS_R98_ExpOTD_1.

(** ** [SeqOfMsrAssistBTS-R98-ExpOTD.c] *)

Definition ASN_PER_TYPE_SEQ_OF_MSR_ASSIST_BTS_R98_EXP_OTD_CONSTR_1 := per (APC_UNCONSTRAINED, -1, -1, 0, 0) (APC_CONSTRAINED, 4, 4, 1, 15) None None.

Definition asn_MBR_SeqOfMsrAssistBTS_R98_ExpOTD_1 : member asn_table :=
   (* element *) Member true false asn_DEF_MsrAssistBTS_R98_ExpOTD None.

Definition asn_DEF_SeqOfMsrAssistBTS_R98_ExpOTD : asn_table := T_SEQUENCE_OF asn_MBR_SeqOfMsrAssistBTS_R98_ExpOTD_1 (Some ASN_PER_TYPE_SEQ_OF_MSR_ASSIST_BTS_R98_EXP_OTD_CONSTR_1).

(** ** [MsrAssistData-R98-ExpOTD.c] *)

Definition asn_MBR_MsrAssistData_R98_ExpOTD_1 : list (member asn_table) :=
  [
   (* msrAssistList-R98-ExpOTD *) Member false false asn_DEF_SeqOfMsrAssistBTS_R98_ExpOTD None ].

Definition asn_SPC_MsrAssistData_R98_ExpOTD_specs_1 : asn_SEQUENCE_specifics_t :=
  {| oms := []; roms_count := 0; aoms_count := 0; ext_after := -1; ext_before := -1 |}.

Definition asn_DEF_MsrAssistData_R98_ExpOTD : asn_table := T_SEQUENCE asn_SPC_MsrAssistData_R98_ExpOTD_specs_1 asn_MBR_MsrAssistData_R98_ExpOTD_1.

(** ** [AssistBTSData-R98-ExpOTD.c] *)

Definition asn_MBR_AssistBTSData_R98_ExpOTD_1 : list (member asn_table) :=
  [
   (* expectedOTD *) Member false false asn_DEF_ExpectedOTD None;
   (* expOTDuncertainty *) Member false false asn_DEF_ExpOTDUncertainty None ].

Definition asn_SPC_AssistBTSData_R98_ExpOTD_specs_1 : asn_SEQUENCE_specifics_t :=
  {| oms := []; roms_count := 0; aoms_count := 0; ext_after := -1; ext_before := -1 |}.

Definition asn_DEF_AssistBTSData_R98_ExpOTD : asn_table := T_SEQUENCE asn_SPC_AssistBTSData_R98_ExpOTD_specs_1 asn_MBR_AssistBTSData_R98_ExpOTD_1.

(** ** [SystemInfoAssistBTS-R98-ExpOTD.c] *)

Definition ASN_PER_TYPE_SYSTEM_INFO_ASSIST_BTS_R98_EXP_OTD_CONSTR_1 := per (APC_CONSTRAINED, 1, 1, 0, 1) (APC_UNCONSTRAINED, -1, -1, 0, 0) None None.

Definition asn_MBR_SystemInfoAssistBTS_R98_ExpOTD_1 : list (member asn_table) :=
  [
   (* notPresent *) Member false false asn_DEF_NULL None;
   (* present *) Member false false asn_DEF_AssistBTSData_R98_ExpOTD None ].

Definition asn_SPC_SystemInfoAssistBTS_R98_ExpOTD_specs_1 : asn_CHOICE_specifics_t := {| canonical_order := None; ext_start := -1 |}.

Definition asn_DEF_SystemInfoAssistBTS_R98_ExpOTD : asn_table := T_CHOICE asn_SPC_SystemInfoAssistBTS_R98_ExpOTD_specs_1 asn_MBR_SystemInfoAssistBTS_R98_ExpOTD_1 (Some ASN_PER_TYPE_SYSTEM_INFO_ASSIST_BTS_R98_EXP_OTD_CONSTR_1).

(** ** [SeqOfSystemInfoAssistBTS-R98-ExpOTD.c] *)

Definition ASN_PER_TYPE_SEQ_OF_SYSTEM_INFO_ASSIST_BTS_R98_EXP_OTD_CONSTR_1 := per (APC_UNCONSTRAINED, -1, -1, 0, 0) (APC_CONSTRAINED, 5, 5, 1, 32) None None.

Definition asn_MBR_SeqOfSystemInfoAssistBTS_R98_ExpOTD_1 : member asn_table :=
   (* element *) Member true false asn_DEF_SystemInfoAssistBTS_R98_ExpOTD None.

Definition asn_DEF_SeqOfSystemInfoAssistBTS_R98_ExpOTD : asn_table := T_SEQUENCE_OF asn_MBR_SeqOfSystemInfoAssistBTS_R98_ExpOTD_1 (Some ASN_PER_TYPE_SEQ_OF_SYSTEM_INFO_ASSIST_BTS_R98_EXP_OTD_CONSTR_1).

(** ** [SystemInfoAssistData-R98-ExpOTD.c] *)

Definition asn_MBR_SystemInfoAssistData_R98_ExpOTD_1 : list (member asn_table) :=
  [
   (* systemInfoAssistListR98-ExpOTD *) Member false false asn_DEF_SeqOfSystemInfoAssistBTS_R98_ExpOTD None ].

Definition asn_SPC_SystemInfoAssistData_R98_ExpOTD_specs_1 : asn_SEQUENCE_specifics_t :=
  {| oms := []; roms_count := 0; aoms_count := 0; ext_after := -1; ext_before := -1 |}.

Definition asn_DEF_SystemInfoAssistData_R98_ExpOTD : asn_table := T_SEQUENCE asn_SPC_SystemInfoAssistData_R98_ExpOTD_specs_1 asn_MBR_SystemInfoAssistData_R98_ExpOTD_1.

(** ** [Rel98-Ext-ExpOTD.c] *)

Definition asn_MBR_Rel98_Ext_ExpOTD_1 : list (member asn_table) :=
  [
   (* msrAssistData-R98-ExpOTD *) Member true true asn_DEF_MsrAssistData_R98_ExpOTD None;
   (* systemInfoAssistData-R98-ExpOTD *) Member true true asn_DEF_SystemInfoAssistData_R98_ExpOTD None ].

Definition asn_MAP_Rel98_Ext_ExpOTD_oms_1 : list Z := [0; 1].
Definition asn_SPC_Rel98_Ext_ExpOTD_specs_1 : asn_SEQUENCE_specifics_t :=
  {| oms := asn_MAP_Rel98_Ext_ExpOTD_oms_1; roms_count := 2; aoms_count := 0; ext_after := -1; ext_before := -1 |}.

Definition asn_DEF_Rel98_Ext_ExpOTD : asn_table := T_SEQUENCE asn_SPC_Rel98_Ext_ExpOTD_specs_1 asn_MBR_Rel98_Ext_ExpOTD_1.

(** ** [GPSReferenceTimeUncertainty.c] *)

Definition ASN_PER_TYPE_GPS_REFERENCE_TIME_UNCERTAINTY_CONSTR_1 := per (APC_CONSTRAINED, 7, 7, 0, 127) (APC_UNCONSTRAINED, -1, -1, 0, 0) None None.

Definition asn_DEF_GPSReferenceTimeUncertainty : asn_table := T_NativeInteger false (Some ASN_PER_TYPE_GPS_REFERENCE_TIME_UNCERTAINTY_CONSTR_1).

(** ** [Rel98-MsrPosition-Req-Extension.c] *)

Definition asn_MBR_Rel98_MsrPosition_Req_Extension_1 : list (member asn_table) :=
  [
   (* rel98-Ext-ExpOTD *) Member true true asn_DEF_Rel98_Ext_ExpOTD None;
   (* gpsTimeAssistanceMeasurementRequest *) Member true true asn_DEF_NULL None;
   (* gpsReferenceTimeUncertainty *) Member true true asn_DEF_GPSReferenceTimeUncertainty None ].

Definition asn_MAP_Rel98_MsrPosition_Req_Extension_oms_1 : list Z := [0; 1; 2].
Definition asn_SPC_Rel98_MsrPosition_Req_Extension_specs_1 : asn_SEQUENCE_specifics_t :=
  {| oms := asn_MAP_Rel98_MsrPosition_Req_Extension_oms_1; roms_count := 1; aoms_count := 2; ext_after := 0; ext_before := 4 |}.

Definition asn_DEF_Rel98_MsrPosition_Req_Extension : asn_table := T_SEQUENCE asn_SPC_Rel98_MsrPosition_Req_Extension_specs_1 asn_MBR_Rel98_MsrPosition_Req_Extension_1.

(** ** [Extended-reference.c] *)

Definition ASN_PER_MEMB_SMLC_CODE_CONSTR_2 := per (APC_CONSTRAINED, 6, 6, 0, 63) (APC_UNCONSTRAINED, -1, -1, 0, 0) None None.

Definition ASN_PER_MEMB_TRANSACTION_ID_CONSTR_3 := per (APC_CONSTRAINED, 18, -1, 0, 262143) (APC_UNCONSTRAINED, -1, -1, 0, 0) None None.

Definition asn_MBR_Extended_reference_1 : list (member asn_table) :=
  [
   (* smlc-code *) Member false false asn_DEF_NativeInteger (Some ASN_PER_MEMB_SMLC_CODE_CONSTR_2);
   (* transaction-ID *) Member false false asn_DEF_NativeInteger (Some ASN_PER_MEMB_TRANSACTION_ID_CONSTR_3) ].

Definition asn_SPC_Extended_reference_specs_1 : asn_SEQUENCE_specifics_t :=
  {| oms := []; roms_count := 0; aoms_count := 0; ext_after := -1; ext_before := -1 |}.

Definition asn_DEF_Extended_reference : asn_table := T_SEQUENCE asn_SPC_Extended_reference_specs_1 asn_MBR_Extended_reference_1.

(** ** [Rel5-MsrPosition-Req-Extension.c] *)

Definition asn_MBR_Rel5_MsrPosition_Req_Extension_1 : list (member asn_table) :=
  [
   (* extended-reference *) Member false false asn_DEF_Extended_reference None ].

Definition asn_SPC_Rel5_MsrPosition_Req_Extension_specs_1 : asn_SEQUENCE_specifics_t :=
  {| oms := []; roms_count := 0; aoms_count := 0; ext_after := 0; ext_before := 2 |}.

Definition asn_DEF_Rel5_MsrPosition_Req_Extension : asn_table := T_SEQUENCE asn_SPC_Rel5_MsrPosition_Req_Extension_specs_1 asn_MBR_Rel5_MsrPosition_Req_Extension_1.

(** ** [MsrPosition-Req.c] *)

Definition asn_MBR_MsrPosition_Req_1 : list (member asn_table) :=
  [
   (* positionInstruct *) Member false false asn_DEF_PositionInstruct None;
   (* referenceAssistData *) Member true true asn_DEF_ReferenceAssistData None;
   (* msrAssistData *) Member true true asn_DEF_MsrAssistData None;
   (* systemInfoAssistData *) Member true true asn_DEF_SystemInfoAssistData None;
   (* gps-AssistData *) Member true true asn_DEF_GPS_AssistData None;
   (* extensionContainer *) Member true true asn_DEF_ExtensionContainer None;
   (* rel98-MsrPosition-Req-extension *) Member true true asn_DEF_Rel98_MsrPosition_Req_Extension None;
   (* rel5-MsrPosition-Req-extension *) Member true true asn_DEF_Rel5_MsrPosition_Req_Extension None ].

Definition asn_MAP_MsrPosition_Req_oms_1 : list Z := [1; 2; 3; 4; 5; 6; 7].
Definition asn_SPC_MsrPosition_Req_specs_1 : asn_SEQUENCE_specifics_t :=
  {| oms := asn_MAP_MsrPosition_Req_oms_1; roms_count := 5; aoms_count := 2; ext_after := 5; ext_before := 9 |}.

Definition asn_DEF_MsrPosition_Req : asn_table := T_SEQUENCE asn_SPC_MsrPosition_Req_specs_1 asn_MBR_MsrPosition_Req_1.

(** ** [ReferenceRelation.c] *)

Definition ASN_PER_TYPE_REFERENCE_RELATION_CONSTR_1 := per (APC_CONSTRAINED, 2, 2, 0, 2) (APC_UNCONSTRAINED, -1, -1, 0, 0) None None.

Definition asn_MAP_ReferenceRelation_value2enum_1 : list Z := [0; 1; 2].
Definition asn_SPC_ReferenceRelation_specs_1 : asn_INTEGER_specifics_t :=
  {| value2enum := asn_MAP_ReferenceRelation_value2enum_1; map_count := 3; extension := 0 |}.

Definition asn_DEF_ReferenceRelation : asn_table := T_ENUMERATED asn_SPC_ReferenceRelation_specs_1 (Some ASN_PER_TYPE_REFERENCE_RELATION_CONSTR_1).

(** ** [MultipleSets.c] *)

Definition ASN_PER_MEMB_NBR_OF_SETS_CONSTR_2 := per (APC_CONSTRAINED, 1, 1, 2, 3) (APC_UNCONSTRAINED, -1, -1, 0, 0) None None.

Definition ASN_PER_MEMB_NBR_OF_REFERENCE_BT_SS_CONSTR_3 := per (APC_CONSTRAINED, 2, 2, 1, 3) (APC_UNCONSTRAINED, -1, -1, 0, 0) None None.

Definition asn_MBR_MultipleSets_1 : list (member asn_table) :=
  [
   (* nbrOfSets *) Member false false asn_DEF_NativeInteger (Some ASN_PER_MEMB_NBR_OF_SETS_CONSTR_2);
   (* nbrOfReferenceBTSs *) Member false false asn_DEF_NativeInteger (Some ASN_PER_MEMB_NBR_OF_REFERENCE_BT_SS_CONSTR_3);
   (* referenceRelation *) Member true true asn_DEF_ReferenceRelation None ].

Definition asn_MAP_MultipleSets_oms_1 : list Z := [2].
Definition asn_SPC_MultipleSets_specs_1 : asn_SEQUENCE_specifics_t :=
  {| oms := asn_MAP_MultipleSets_oms_1; roms_count := 1; aoms_count := 0; ext_after := -1; ext_before := -1 |}.

Definition asn_DEF_MultipleSets : asn_table := T_SEQUENCE asn_SPC_MultipleSets_specs_1 asn_MBR_MultipleSets_1.

(** ** [BSICAndCarrier.c] *)

Definition asn_MBR_BSICAndCarrier_1 : list (member asn_table) :=
  [
   (* carrier *) Member false false asn_DEF_BCCHCarrier None;
   (* bsic *) Member false false asn_DEF_BSIC None ].

Definition asn_SPC_BSICAndCarrier_specs_1 : asn_SEQUENCE_specifics_t :=
  {| oms := []; roms_count := 0; aoms_count := 0; ext_after := -1; ext_before := -1 |}.

Definition asn_DEF_BSICAndCarrier : asn_table := T_SEQUENCE asn_SPC_BSICAndCarrier_specs_1 asn_MBR_BSICAndCarrier_1.

(** ** [CellID.c] *)

Definition ASN_PER_TYPE_CELL_ID_CONSTR_1 := per (APC_CONSTRAINED, 16, 16, 0, 65535) (APC_UNCONSTRAINED, -1, -1, 0, 0) None None.

Definition asn_DEF_CellID : asn_table := T_NativeInteger false (Some ASN_PER_TYPE_CELL_ID_CONSTR_1).

(** ** [RequestIndex.c] *)

Definition ASN_PER_TYPE_REQUEST_INDEX_CONSTR_1 := per (APC_CONSTRAINED, 4, 4, 1, 16) (APC_UNCONSTRAINED, -1, -1, 0, 0) None None.

Definition asn_DEF_RequestIndex : asn_table := T_NativeInteger false (Some ASN_PER_TYPE_REQUEST_INDEX_CONSTR_1).

(** ** [SystemInfoIndex.c] *)

Definition ASN_PER_TYPE_SYSTEM_INFO_INDEX_CONSTR_1 := per (APC_CONSTRAINED, 5, 5, 1, 32) (APC_UNCONSTRAINED, -1, -1, 0, 0) None None.

Definition asn_DEF_SystemInfoIndex : asn_table := T_NativeInteger false (Some ASN_PER_TYPE_SYSTEM_INFO_INDEX_CONSTR_1).

(** ** [LAC.c] *)

Definition ASN_PER_TYPE_LAC_CONSTR_1 := per (APC_CONSTRAINED, 16, 16, 0, 65535) (APC_UNCONSTRAINED, -1, -1, 0, 0) None None.

Definition asn_DEF_LAC : asn_table := T_NativeInteger false (Some ASN_PER_TYPE_LAC_CONSTR_1).

(** ** [CellIDAndLAC.c] *)

Definition asn_MBR_CellIDAndLAC_1 : list (member asn_table) :=
  [
   (* referenceLAC *) Member false false asn_DEF_LAC None;
   (* referenceCI *) Member false false asn_DEF_CellID None ].

Definition asn_SPC_CellIDAndLAC_specs_1 : asn_SEQUENCE_specifics_t :=
  {| oms := []; roms_count := 0; aoms_count := 0; ext_after := -1; ext_before := -1 |}.

Definition asn_DEF_CellIDAndLAC : asn_table := T_SEQUENCE asn_SPC_CellIDAndLAC_specs_1 asn_MBR_CellIDAndLAC_1.

(** ** [ReferenceIdentityType.c] *)

Definition ASN_PER_TYPE_REFERENCE_IDENTITY_TYPE_CONSTR_1 := per (APC_CONSTRAINED, 3, 3, 0, 4) (APC_UNCONSTRAINED, -1, -1, 0, 0) None None.

Definition asn_MBR_ReferenceIdentityType_1 : list (member asn_table) :=
  [
   (* bsicAndCarrier *) Member false false asn_DEF_BSICAndCarrier None;
   (* ci *) Member false false asn_DEF_CellID None;
   (* requestIndex *) Member false false asn_DEF_RequestIndex None;
   (* systemInfoIndex *) Member false false asn_DEF_SystemInfoIndex None;
   (* ciAndLAC *) Member false false asn_DEF_CellIDAndLAC None ].

Definition asn_SPC_ReferenceIdentityType_specs_1 : asn_CHOICE_specifics_t := {| canonical_order := None; ext_start := -1 |}.

Definition asn_DEF_ReferenceIdentityType : asn_table := T_CHOICE asn_SPC_ReferenceIdentityType_specs_1 asn_MBR_ReferenceIdentityType_1 (Some ASN_PER_TYPE_REFERENCE_IDENTITY_TYPE_CONSTR_1).

(** ** [SeqOfReferenceIdentityType.c] *)

Definition ASN_PER_TYPE_SEQ_OF_REFERENCE_IDENTITY_TYPE_CONSTR_1 := per (APC_UNCONSTRAINED, -1, -1, 0, 0) (APC_CONSTRAINED, 2, 2, 1, 3) None None.

Definition asn_MBR_SeqOfReferenceIdentityType_1 : member asn_table :=
   (* element *) Member true false asn_DEF_ReferenceIdentityType None.

Definition asn_DEF_SeqOfReferenceIdentityType : asn_table := T_SEQUENCE_OF asn_MBR_SeqOfReferenceIdentityType_1 (Some ASN_PER_TYPE_SEQ_OF_REFERENCE_IDENTITY_TYPE_CONSTR_1).

(** ** [ReferenceIdentity.c] *)

Definition asn_MBR_ReferenceIdentity_1 : list (member asn_table) :=
  [
   (* refBTSList *) Member false false asn_DEF_SeqOfReferenceIdentityType None ].

Definition asn_SPC_ReferenceIdentity_specs_1 : asn_SEQUENCE_specifics_t :=
  {| oms := []; roms_count := 0; aoms_count := 0; ext_after := -1; ext_before := -1 |}.

Definition asn_DEF_ReferenceIdentity : asn_table := T_SEQUENCE asn_SPC_ReferenceIdentity_specs_1 asn_MBR_ReferenceIdentity_1.

(** ** [ModuloTimeSlot.c] *)

Definition ASN_PER_TYPE_MODULO_TIME_SLOT_CONSTR_1 := per (APC_CONSTRAINED, 2, 2, 0, 3) (APC_UNCONSTRAINED, -1, -1, 0, 0) None None.

Definition asn_DEF_ModuloTimeSlot : asn_table := T_NativeInteger false (Some ASN_PER_TYPE_MODULO_TIME_SLOT_CONSTR_1).

(** ** [RefQuality.c] *)

Definition ASN_PER_TYPE_REF_QUALITY_CONSTR_1 := per (APC_CONSTRAINED, 5, 5, 0, 31) (APC_UNCONSTRAINED, -1, -1, 0, 0) None None.

Definition asn_DEF_RefQuality : asn_table := T_NativeInteger false (Some ASN_PER_TYPE_REF_QUALITY_CONSTR_1).

(** ** [NumOfMeasurements.c] *)

Definition ASN_PER_TYPE_NUM_OF_MEASUREMENTS_CONSTR_1 := per (APC_CONSTRAINED, 3, 3, 0, 7) (APC_UNCONSTRAINED, -1, -1, 0, 0) None None.

Definition asn_DEF_NumOfMeasurements : asn_table := T_NativeInteger false (Some ASN_PER_TYPE_NUM_OF_MEASUREMENTS_CONSTR_1).

(** ** [TOA-MeasurementsOfRef.c] *)

Definition asn_MBR_TOA_MeasurementsOfRef_1 : list (member asn_table) :=
  [
   (* refQuality *) Member false false asn_DEF_RefQuality None;
   (* numOfMeasurements *) Member false false asn_DEF_NumOfMeasurements None ].

Definition asn_SPC_TOA_MeasurementsOfRef_specs_1 : asn_SEQUENCE_specifics_t :=
  {| oms := []; roms_count := 0; aoms_count := 0; ext_after := -1; ext_before := -1 |}.

Definition asn_DEF_TOA_MeasurementsOfRef : asn_table := T_SEQUENCE asn_SPC_TOA_MeasurementsOfRef_specs_1 asn_MBR_TOA_MeasurementsOfRef_1.

(** ** [StdResolution.c] *)

Definition ASN_PER_TYPE_STD_RESOLUTION_CONSTR_1 := per (APC_CONSTRAINED, 2, 2, 0, 3) (APC_UNCONSTRAINED, -1, -1, 0, 0) None None.

Definition asn_DEF_StdResolution : asn_table := T_NativeInteger false (Some ASN_PER_TYPE_STD_RESOLUTION_CONSTR_1).

(** ** [MultiFrameCarrier.c] *)

Definition asn_MBR_MultiFrameCarrier_1 : list (member asn_table) :=
  [
   (* bcchCarrier *) Member false false asn_DEF_BCCHCarrier None;
   (* multiFrameOffset *) Member false false asn_DEF_MultiFrameOffset None ].

Definition asn_SPC_MultiFrameCarrier_specs_1 : asn_SEQUENCE_specifics_t :=
  {| oms := []; roms_count := 0; aoms_count := 0; ext_after := -1; ext_before := -1 |}.

Definition asn_DEF_MultiFrameCarrier : asn_table := T_SEQUENCE asn_SPC_MultiFrameCarrier_specs_1 asn_MBR_MultiFrameCarrier_1.

(** ** [NeighborIdentity.c] *)

Definition ASN_PER_TYPE_NEIGHBOR_IDENTITY_CONSTR_1 := per (APC_CONSTRAINED, 3, 3, 0, 5) (APC_UNCONSTRAINED, -1, -1, 0, 0) None None.

Definition asn_MBR_NeighborIdentity_1 : list (member asn_table) :=
  [
   (* bsicAndCarrier *) Member false false asn_DEF_BSICAndCarrier None;
   (* ci *) Member false false asn_DEF_CellID None;
   (* multiFrameCarrier *) Member false false asn_DEF_MultiFrameCarrier None;
   (* requestIndex *) Member false false asn_DEF_RequestIndex None;
   (* systemInfoIndex *) Member false false asn_DEF_SystemInfoIndex None;
   (* ciAndLAC *) Member false false asn_DEF_CellIDAndLAC None ].

Definition asn_SPC_NeighborIdentity_specs_1 : asn_CHOICE_specifics_t := {| canonical_order := None; ext_start := -1 |}.

Definition asn_DEF_NeighborIdentity : asn_table := T_CHOICE asn_SPC_NeighborIdentity_specs_1 asn_MBR_NeighborIdentity_1 (Some ASN_PER_TYPE_NEIGHBOR_IDENTITY_CONSTR_1).

(** ** [EOTDQuality.c] *)

Definition ASN_PER_MEMB_NBR_OF_MEASUREMENTS_CONSTR_2 := per (APC_CONSTRAINED, 3, 3, 0, 7) (APC_UNCONSTRAINED, -1, -1, 0, 0) None None.

Definition ASN_PER_MEMB_STD_OF_EOTD_CONSTR_3 := per (APC_CONSTRAINED, 5, 5, 0, 31) (APC_UNCONSTRAINED, -1, -1, 0, 0) None None.

Definition asn_MBR_EOTDQuality_1 : list (member asn_table) :=
  [
   (* nbrOfMeasurements *) Member false false asn_DEF_NativeInteger (Some ASN_PER_MEMB_NBR_OF_MEASUREMENTS_CONSTR_2);
   (* stdOfEOTD *) Member false false asn_DEF_NativeInteger (Some ASN_PER_MEMB_STD_OF_EOTD_CONSTR_3) ].

Definition asn_SPC_EOTDQuality_specs_1 : asn_SEQUENCE_specifics_t :=
  {| oms := []; roms_count := 0; aoms_count := 0; ext_after := -1; ext_before := -1 |}.

Definition asn_DEF_EOTDQuality : asn_table := T_SEQUENCE asn_SPC_EOTDQuality_specs_1 asn_MBR_EOTDQuality_1.

(** ** [OTDValue.c] *)

Definition ASN_PER_TYPE_OTD_VALUE_CONSTR_1 := per (APC_CONSTRAINED, 16, 16, 0, 39999) (APC_UNCONSTRAINED, -1, -1, 0, 0) None None.

Definition asn_DEF_OTDValue : asn_table := T_NativeInteger false (Some ASN_PER_TYPE_OTD_VALUE_CONSTR_1).

(** ** [OTD-MeasurementWithID.c] *)

Definition asn_MBR_OTD_MeasurementWithID_1 : list (member asn_table) :=
  [
   (* neighborIdentity *) Member false false asn_DEF_NeighborIdentity None;
   (* nborTimeSlot *) Member false false asn_DEF_ModuloTimeSlot None;
   (* eotdQuality *) Member false false asn_DEF_EOTDQuality None;
   (* otdValue *) Member false false asn_DEF_OTDValue None ].

Definition asn_SPC_OTD_MeasurementWithID_specs_1 : asn_SEQUENCE_specifics_t :=
  {| oms := []; roms_count := 0; aoms_count := 0; ext_after := -1; ext_before := -1 |}.

Definition asn_DEF_OTD_MeasurementWithID : asn_table := T_SEQUENCE asn_SPC_OTD_MeasurementWithID_specs_1 asn_MBR_OTD_MeasurementWithID_1.

(** ** [OTD-FirstSetMsrs.c] *)

Definition asn_DEF_OTD_FirstSetMsrs : asn_table := asn_DEF_OTD_MeasurementWithID.

(** ** [SeqOfOTD-FirstSetMsrs.c] *)

Definition ASN_PER_TYPE_SEQ_OF_OTD_FIRST_SET_MSRS_CONSTR_1 := per (APC_UNCONSTRAINED, -1, -1, 0, 0) (APC_CONSTRAINED, 4, 4, 1, 10) None None.

Definition asn_MBR_SeqOfOTD_FirstSetMsrs_1 : member asn_table :=
   (* element *) Member true false asn_DEF_OTD_FirstSetMsrs None.

Definition asn_DEF_SeqOfOTD_FirstSetMsrs : asn_table := T_SEQUENCE_OF asn_MBR_SeqOfOTD_FirstSetMsrs_1 (Some ASN_PER_TYPE_SEQ_OF_OTD_FIRST_SET_MSRS_CONSTR_1).

(** ** [OTD-MsrElementFirst.c] *)

Definition ASN_PER_MEMB_REF_FRAME_NUMBER_CONSTR_2 := per (APC_CONSTRAINED, 16, 16, 0, 42431) (APC_UNCONSTRAINED, -1, -1, 0, 0) None None.

Definition ASN_PER_MEMB_TA_CORRECTION_CONSTR_6 := per (APC_CONSTRAINED, 10, 10, 0, 960) (APC_UNCONSTRAINED, -1, -1, 0, 0) None None.

Definition asn_MBR_OTD_MsrElementFirst_1 : list (member asn_table) :=
  [
   (* refFrameNumber *) Member false false asn_DEF_NativeInteger (Some ASN_PER_MEMB_REF_FRAME_NUMBER_CONSTR_2);
   (* referenceTimeSlot *) Member false false asn_DEF_ModuloTimeSlot None;
   (* toaMeasurementsOfRef *) Member true true asn_DEF_TOA_MeasurementsOfRef None;
   (* stdResolution *) Member false false asn_DEF_StdResolution None;
   (* taCorrection *) Member true true asn_DEF_NativeInteger (Some ASN_PER_MEMB_TA_CORRECTION_CONSTR_6);
   (* otd-FirstSetMsrs *) Member true true asn_DEF_SeqOfOTD_FirstSetMsrs None ].

Definition asn_MAP_OTD_MsrElementFirst_oms_1 : list Z := [2; 4; 5].
Definition asn_SPC_OTD_MsrElementFirst_specs_1 : asn_SEQUENCE_specifics_t :=
  {| oms := asn_MAP_OTD_MsrElementFirst_oms_1; roms_count := 3; aoms_count := 0; ext_after := -1; ext_before := -1 |}.

Definition asn_DEF_OTD_MsrElementFirst : asn_table := T_SEQUENCE asn_SPC_OTD_MsrElementFirst_specs_1 asn_MBR_OTD_MsrElementFirst_1.

(** ** [OTD-Measurement.c] *)

Definition asn_MBR_OTD_Measurement_1 : list (member asn_table) :=
  [
   (* nborTimeSlot *) Member false false asn_DEF_ModuloTimeSlot None;
   (* eotdQuality *) Member false false asn_DEF_EOTDQuality None;
   (* otdValue *) Member false false asn_DEF_OTDValue None ].

Definition asn_SPC_OTD_Measurement_specs_1 : asn_SEQUENCE_specifics_t :=
  {| oms := []; roms_count := 0; aoms_count := 0; ext_after := -1; ext_before := -1 |}.

Definition asn_DEF_OTD_Measurement : asn_table := T_SEQUENCE asn_SPC_OTD_Measurement_specs_1 asn_MBR_OTD_Measurement_1.

(** ** [OTD-MsrsOfOtherSets.c] *)

Definition ASN_PER_TYPE_OTD_MSRS_OF_OTHER_SETS_CONSTR_1 := per (APC_CONSTRAINED, 1, 1, 0, 1) (APC_UNCONSTRAINED, -1, -1, 0, 0) None None.

Definition asn_MBR_OTD_MsrsOfOtherSets_1 : list (member asn_table) :=
  [
   (* identityNotPresent *) Member false false asn_DEF_OTD_Measurement None;
   (* identityPresent *) Member false false asn_DEF_OTD_MeasurementWithID None ].

Definition asn_SPC_OTD_MsrsOfOtherSets_specs_1 : asn_CHOICE_specifics_t := {| canonical_order := None; ext_start := -1 |}.

Definition asn_DEF_OTD_MsrsOfOtherSets : asn_table := T_CHOICE asn_SPC_OTD_MsrsOfOtherSets_specs_1 asn_MBR_OTD_MsrsOfOtherSets_1 (Some ASN_PER_TYPE_OTD_MSRS_OF_OTHER_SETS_CONSTR_1).

(** ** [SeqOfOTD-MsrsOfOtherSets.c] *)

Definition ASN_PER_TYPE_SEQ_OF_OTD_MSRS_OF_OTHER_SETS_CONSTR_1 := per (APC_UNCONSTRAINED, -1, -1, 0, 0) (APC_CONSTRAINED, 4, 4, 1, 10) None None.

Definition asn_MBR_SeqOfOTD_MsrsOfOtherSets_1 : member asn_table :=
   (* element *) Member true false asn_DEF_OTD_MsrsOfOtherSets None.

Definition asn_DEF_SeqOfOTD_MsrsOfOtherSets : asn_table := T_SEQUENCE_OF asn_MBR_SeqOfOTD_MsrsOfOtherSets_1 (Some ASN_PER_TYPE_SEQ_OF_OTD_MSRS_OF_OTHER_SETS_CONSTR_1).

(** ** [OTD-MsrElementRest.c] *)

Definition ASN_PER_MEMB_REF_FRAME_NUMBER_CONSTR_2_OTD_MsrElementRest := per (APC_CONSTRAINED, 16, 16, 0, 42431) (APC_UNCONSTRAINED, -1, -1, 0, 0) None None.

Definition ASN_PER_MEMB_TA_CORRECTION_CONSTR_6_OTD_MsrElementRest := per (APC_CONSTRAINED, 10, 10, 0, 960) (APC_UNCONSTRAINED, -1, -1, 0, 0) None None.

Definition asn_MBR_OTD_MsrElementRest_1 : list (member asn_table) :=
  [
   (* refFrameNumber *) Member false false asn_DEF_NativeInteger (Some ASN_PER_MEMB_REF_FRAME_NUMBER_CONSTR_2_OTD_MsrElementRest);
   (* referenceTimeSlot *) Member false false asn_DEF_ModuloTimeSlot None;
   (* toaMeasurementsOfRef *) Member true true asn_DEF_TOA_MeasurementsOfRef None;
   (* stdResolution *) Member false false asn_DEF_StdResolution None;
   (* taCorrection *) Member true true asn_DEF_NativeInteger (Some ASN_PER_MEMB_TA_CORRECTION_CONSTR_6_OTD_MsrElementRest);
   (* otd-MsrsOfOtherSets *) Member true true asn_DEF_SeqOfOTD_MsrsOfOtherSets None ].

Definition asn_MAP_OTD_MsrElementRest_oms_1 : list Z := [2; 4; 5].
Definition asn_SPC_OTD_MsrElementRest_specs_1 : asn_SEQUENCE_specifics_t :=
  {| oms := asn_MAP_OTD_MsrElementRest_oms_1; roms_count := 3; aoms_count := 0; ext_after := -1; ext_before := -1 |}.

Definition asn_DEF_OTD_MsrElementRest : asn_table := T_SEQUENCE asn_SPC_OTD_MsrElementRest_specs_1 asn_MBR_OTD_MsrElementRest_1.

(** ** [SeqOfOTD-MsrElementRest.c] *)

Definition ASN_PER_TYPE_SEQ_OF_OTD_MSR_ELEMENT_REST_CONSTR_1 := per (APC_UNCONSTRAINED, -1, -1, 0, 0) (APC_CONSTRAINED, 1, 1, 1, 2) None None.

Definition asn_MBR_SeqOfOTD_MsrElementRest_1 : member asn_table :=
   (* element *) Member true false asn_DEF_OTD_MsrElementRest None.

Definition asn_DEF_SeqOfOTD_MsrElementRest : asn_table := T_SEQUENCE_OF asn_MBR_SeqOfOTD_MsrElementRest_1 (Some ASN_PER_TYPE_SEQ_OF_OTD_MSR_ELEMENT_REST_CONSTR_1).

(** ** [OTD-MeasureInfo.c] *)

Definition asn_MBR_OTD_MeasureInfo_1 : list (member asn_table) :=
  [
   (* otdMsrFirstSets *) Member false false asn_DEF_OTD_MsrElementFirst None;
   (* otdMsrRestSets *) Member true true asn_DEF_SeqOfOTD_MsrElementRest None ].

Definition asn_MAP_OTD_MeasureInfo_oms_1 : list Z := [1].
Definition asn_SPC_OTD_MeasureInfo_specs_1 : asn_SEQUENCE_specifics_t :=
  {| oms := asn_MAP_OTD_MeasureInfo_oms_1; roms_count := 1; aoms_count := 0; ext_after := -1; ext_before := -1 |}.

Definition asn_DEF_OTD_MeasureInfo : asn_table := T_SEQUENCE asn_SPC_OTD_MeasureInfo_specs_1 asn_MBR_OTD_MeasureInfo_1.

(** ** [FixType.c] *)

Definition ASN_PER_TYPE_FIX_TYPE_CONSTR_1 := per (APC_CONSTRAINED, 1, 1, 0, 1) (APC_UNCONSTRAINED, -1, -1, 0, 0) None None.

Definition asn_DEF_FixType : asn_table := T_NativeInteger false (Some ASN_PER_TYPE_FIX_TYPE_CONSTR_1).

(** ** [LocationInfo.c] *)

Definition ASN_PER_MEMB_REF_FRAME_CONSTR_2 := per (APC_CONSTRAINED, 16, 16, 0, 65535) (APC_UNCONSTRAINED, -1, -1, 0, 0) None None.

Definition ASN_PER_MEMB_GPS_TOW_CONSTR_3 := per (APC_CONSTRAINED, 24, -1, 0, 14399999) (APC_UNCONSTRAINED, -1, -1, 0, 0) None None.

Definition asn_MBR_LocationInfo_1 : list (member asn_table) :=
  [
   (* refFrame *) Member false false asn_DEF_NativeInteger (Some ASN_PER_MEMB_REF_FRAME_CONSTR_2);
   (* gpsTOW *) Member true true asn_DEF_NativeInteger (Some ASN_PER_MEMB_GPS_TOW_CONSTR_3);
   (* fixType *) Member false false asn_DEF_FixType None;
   (* posEstimate *) Member false false asn_DEF_Ext_GeographicalInformation None ].

Definition asn_MAP_LocationInfo_oms_1 : list Z := [1].
Definition asn_SPC_LocationInfo_specs_1 : asn_SEQUENCE_specifics_t :=
  {| oms := asn_MAP_LocationInfo_oms_1; roms_count := 1; aoms_count := 0; ext_after := -1; ext_before := -1 |}.

Definition asn_DEF_LocationInfo : asn_table := T_SEQUENCE asn_SPC_LocationInfo_specs_1 asn_MBR_LocationInfo_1.

(** ** [GPSTOW24b.c] *)

Definition ASN_PER_TYPE_GPSTO_W24B_CONSTR_1 := per (APC_CONSTRAINED, 24, -1, 0, 14399999) (APC_UNCONSTRAINED, -1, -1, 0, 0) None None.

Definition asn_DEF_GPSTOW24b : asn_table := T_NativeInteger false (Some ASN_PER_TYPE_GPSTO_W24B_CONSTR_1).

(** ** [MpathIndic.c] *)

Definition ASN_PER_TYPE_MPATH_INDIC_CONSTR_1 := per (APC_CONSTRAINED, 2, 2, 0, 3) (APC_UNCONSTRAINED, -1, -1, 0, 0) None None.

Definition asn_MAP_MpathIndic_value2enum_1 : list Z := [0; 1; 2; 3].
Definition asn_SPC_MpathIndic_specs_1 : asn_INTEGER_specifics_t :=
  {| value2enum := asn_MAP_MpathIndic_value2enum_1; map_count := 4; extension := 0 |}.

Definition asn_DEF_MpathIndic : asn_table := T_ENUMERATED asn_SPC_MpathIndic_specs_1 (Some ASN_PER_TYPE_MPATH_INDIC_CONSTR_1).

(** ** [GPS-MsrElement.c] *)

Definition ASN_PER_MEMB_C_NO_CONSTR_3 := per (APC_CONSTRAINED, 6, 6, 0, 63) (APC_UNCONSTRAINED, -1, -1, 0, 0) None None.

Definition ASN_PER_MEMB_DOPPLER_CONSTR_4 := per (APC_CONSTRAINED, 16, 16, -32768, 32767) (APC_UNCONSTRAINED, -1, -1, 0, 0) None None.

Definition ASN_PER_MEMB_WHOLE_CHIPS_CONSTR_5 := per (APC_CONSTRAINED, 10, 10, 0, 1022) (APC_UNCONSTRAINED, -1, -1, 0, 0) None None.

Definition ASN_PER_MEMB_FRAC_CHIPS_CONSTR_6 := per (APC_CONSTRAINED, 11, 11, 0, 1024) (APC_UNCONSTRAINED, -1, -1, 0, 0) None None.

Definition ASN_PER_MEMB_PSEU_RANGE_RMS_ERR_CONSTR_8 := per (APC_CONSTRAINED, 6, 6, 0, 63) (APC_UNCONSTRAINED, -1, -1, 0, 0) None None.

Definition asn_MBR_GPS_MsrElement_1 : list (member asn_table) :=
  [
   (* satelliteID *) Member false false asn_DEF_SatelliteID None;
   (* cNo *) Member false false asn_DEF_NativeInteger (Some ASN_PER_MEMB_C_NO_CONSTR_3);
   (* doppler *) Member false false asn_DEF_NativeInteger (Some ASN_PER_MEMB_DOPPLER_CONSTR_4);
   (* wholeChips *) Member false false asn_DEF_NativeInteger (Some ASN_PER_MEMB_WHOLE_CHIPS_CONSTR_5);
   (* fracChips *) Member false false asn_DEF_NativeInteger (Some ASN_PER_MEMB_FRAC_CHIPS_CONSTR_6);
   (* mpathIndic *) Member false false asn_DEF_MpathIndic None;
   (* pseuRangeRMSErr *) Member false false asn_DEF_NativeInteger (Some ASN_PER_MEMB_PSEU_RANGE_RMS_ERR_CONSTR_8) ].

Definition asn_SPC_GPS_MsrElement_specs_1 : asn_SEQUENCE_specifics_t :=
  {| oms := []; roms_count := 0; aoms_count := 0; ext_after := -1; ext_before := -1 |}.

Definition asn_DEF_GPS_MsrElement : asn_table := T_SEQUENCE asn_SPC_GPS_MsrElement_specs_1 asn_MBR_GPS_MsrElement_1.

(** ** [SeqOfGPS-MsrElement.c] *)

Definition ASN_PER_TYPE_SEQ_OF_GPS_MSR_ELEMENT_CONSTR_1 := per (APC_UNCONSTRAINED, -1, -1, 0, 0) (APC_CONSTRAINED, 4, 4, 1, 16) None None.

Definition asn_MBR_SeqOfGPS_MsrElement_1 : member asn_table :=
   (* element *) Member true false asn_DEF_GPS_MsrElement None.

Definition asn_DEF_SeqOfGPS_MsrElement : asn_table := T_SEQUENCE_OF asn_MBR_SeqOfGPS_MsrElement_1 (Some ASN_PER_TYPE_SEQ_OF_GPS_MSR_ELEMENT_CONSTR_1).

(** ** [GPS-MsrSetElement.c] *)

Definition ASN_PER_MEMB_REF_FRAME_CONSTR_2_GPS_MsrSetElement := per (APC_CONSTRAINED, 16, 16, 0, 65535) (APC_UNCONSTRAINED, -1, -1, 0, 0) None None.

Definition asn_MBR_GPS_MsrSetElement_1 : list (member asn_table) :=
  [
   (* refFrame *) Member true true asn_DEF_NativeInteger (Some ASN_PER_MEMB_REF_FRAME_CONSTR_2_GPS_MsrSetElement);
   (* gpsTOW *) Member false false asn_DEF_GPSTOW24b None;
   (* gps-msrList *) Member false false asn_DEF_SeqOfGPS_MsrElement None ].

Definition asn_MAP_GPS_MsrSetElement_oms_1 : list Z := [0].
Definition asn_SPC_GPS_MsrSetElement_specs_1 : asn_SEQUENCE_specifics_t :=
  {| oms := asn_MAP_GPS_MsrSetElement_oms_1; roms_count := 1; aoms_count := 0; ext_after := -1; ext_before := -1 |}.

Definition asn_DEF_GPS_MsrSetElement : asn_table := T_SEQUENCE asn_SPC_GPS_MsrSetElement_specs_1 asn_MBR_GPS_MsrSetElement_1.

(** ** [SeqOfGPS-MsrSetElement.c] *)

Definition ASN_PER_TYPE_SEQ_OF_GPS_MSR_SET_ELEMENT_CONSTR_1 := per (APC_UNCONSTRAINED, -1, -1, 0, 0) (APC_CONSTRAINED, 2, 2, 1, 3) None None.

Definition asn_MBR_SeqOfGPS_MsrSetElement_1 : member asn_table :=
   (* element *) Member true false asn_DEF_GPS_MsrSetElement None.

Definition asn_DEF_SeqOfGPS_MsrSetElement : asn_table := T_SEQUENCE_OF asn_MBR_SeqOfGPS_MsrSetElement_1 (Some ASN_PER_TYPE_SEQ_OF_GPS_MSR_SET_ELEMENT_CONSTR_1).

(** ** [GPS-MeasureInfo.c] *)

Definition asn_MBR_GPS_MeasureInfo_1 : list (member asn_table) :=
  [
   (* gpsMsrSetList *) Member false false asn_DEF_SeqOfGPS_MsrSetElement None ].

Definition asn_SPC_GPS_MeasureInfo_specs_1 : asn_SEQUENCE_specifics_t :=
  {| oms := []; roms_count := 0; aoms_count := 0; ext_after := -1; ext_before := -1 |}.

Definition asn_DEF_GPS_MeasureInfo : asn_table := T_SEQUENCE asn_SPC_GPS_MeasureInfo_specs_1 asn_MBR_GPS_MeasureInfo_1.

(** ** [LocErrorReason.c] *)

Definition ASN_PER_TYPE_LOC_ERROR_REASON_CONSTR_1 := per (Z.lor APC_CONSTRAINED APC_EXTENSIBLE, 4, 4, 0, 10) (APC_UNCONSTRAINED, -1, -1, 0, 0) None None.

Definition asn_MAP_LocErrorReason_value2enum_1 : list Z := [0; 1; 2; 3; 4; 5; 6; 7; 8; 9; 10; 11; 12; 13].

Definition asn_SPC_LocErrorReason_specs_1 : asn_INTEGER_specifics_t :=
  {| value2enum := asn_MAP_LocErrorReason_value2enum_1; map_count := 14; extension := 12 |}.

Definition asn_DEF_LocErrorReason : asn_table := T_ENUMERATED asn_SPC_LocErrorReason_specs_1 (Some ASN_PER_TYPE_LOC_ERROR_REASON_CONSTR_1).

(** ** [GPSAssistanceData.c] *)

Definition ASN_PER_TYPE_GPS_ASSISTANCE_DATA_CONSTR_1 := per (APC_UNCONSTRAINED, -1, -1, 0, 0) (APC_CONSTRAINED, 6, 6, 1, 40) None None.

Definition asn_DEF_GPSAssistanceData : asn_table := T_OCTET_STRING ASN_OSUBV_STR (Some ASN_PER_TYPE_GPS_ASSISTANCE_DATA_CONSTR_1).

(** ** [GANSSAssistanceData.c] *)

Definition ASN_PER_TYPE_GANSS_ASSISTANCE_DATA_CONSTR_1 := per (APC_UNCONSTRAINED, -1, -1, 0, 0) (APC_CONSTRAINED, 6, 6, 1, 40) None None.

Definition asn_DEF_GANSSAssistanceData : asn_table := T_OCTET_STRING ASN_OSUBV_STR (Some ASN_PER_TYPE_GANSS_ASSISTANCE_DATA_CONSTR_1).

(** ** [AdditionalAssistanceData.c] *)

Definition asn_MBR_AdditionalAssistanceData_1 : list (member asn_table) :=
  [
   (* gpsAssistanceData *) Member true true asn_DEF_GPSAssistanceData None;
   (* extensionContainer *) Member true true asn_DEF_ExtensionContainer None;
   (* ganssAssistanceData *) Member true true asn_DEF_GANSSAssistanceData None ].

Definition asn_MAP_AdditionalAssistanceData_oms_1 : list Z := [0; 1; 2].
Definition asn_SPC_AdditionalAssistanceData_specs_1 : asn_SEQUENCE_specifics_t :=
  {| oms := asn_MAP_AdditionalAssistanceData_oms_1; roms_count := 2; aoms_count := 1; ext_after := 1; ext_before := 4 |}.

Definition asn_DEF_AdditionalAssistanceData : asn_table := T_SEQUENCE asn_SPC_AdditionalAssistanceData_specs_1 asn_MBR_AdditionalAssistanceData_1.

(** ** [LocationError.c] *)

Definition asn_MBR_LocationError_1 : list (member asn_table) :=
  [
   (* locErrorReason *) Member false false asn_DEF_LocErrorReason None;
   (* additionalAssistanceData *) Member true true asn_DEF_AdditionalAssistanceData None ].

Definition asn_MAP_LocationError_oms_1 : list Z := [1].
Definition asn_SPC_LocationError_specs_1 : asn_SEQUENCE_specifics_t :=
  {| oms := asn_MAP_LocationError_oms_1; roms_count := 1; aoms_count := 0; ext_after := 1; ext_before := 3 |}.

Definition asn_DEF_LocationError : asn_table := T_SEQUENCE asn_SPC_LocationError_specs_1 asn_MBR_LocationError_1.

(** ** [SeqOfOTD-FirstSetMsrs-R98-Ext.c] *)

Definition ASN_PER_TYPE_SEQ_OF_OTD_FIRST_SET_MSRS_R98_EXT_CONSTR_1 := per (APC_UNCONSTRAINED, -1, -1, 0, 0) (APC_CONSTRAINED, 3, 3, 1, 5) None None.

Definition asn_MBR_SeqOfOTD_FirstSetMsrs_R98_Ext_1 : member asn_table :=
   (* element *) Member true false asn_DEF_OTD_FirstSetMsrs None.

Definition asn_DEF_SeqOfOTD_FirstSetMsrs_R98_Ext : asn_table := T_SEQUENCE_OF asn_MBR_SeqOfOTD_FirstSetMsrs_R98_Ext_1 (Some ASN_PER_TYPE_SEQ_OF_OTD_FIRST_SET_MSRS_R98_EXT_CONSTR_1).

(** ** [OTD-MsrElementFirst-R98-Ext.c] *)

Definition asn_MBR_OTD_MsrElementFirst_R98_Ext_1 : list (member asn_table) :=
  [
   (* otd-FirstSetMsrs-R98-Ext *) Member true true asn_DEF_SeqOfOTD_FirstSetMsrs_R98_Ext None ].

Definition asn_MAP_OTD_MsrElementFirst_R98_Ext_oms_1 : list Z := [0].
Definition asn_SPC_OTD_MsrElementFirst_R98_Ext_specs_1 : asn_SEQUENCE_specifics_t :=
  {| oms := asn_MAP_OTD_MsrElementFirst_R98_Ext_oms_1; roms_count := 1; aoms_count := 0; ext_after := -1; ext_before := -1 |}.

Definition asn_DEF_OTD_MsrElementFirst_R98_Ext : asn_table := T_SEQUENCE asn_SPC_OTD_MsrElementFirst_R98_Ext_specs_1 asn_MBR_OTD_MsrElementFirst_R98_Ext_1.

(** ** [OTD-MeasureInfo-R98-Ext.c] *)

Definition asn_MBR_OTD_MeasureInfo_R98_Ext_1 : list (member asn_table) :=
  [
   (* otdMsrFirstSets-R98-Ext *) Member false false asn_DEF_OTD_MsrElementFirst_R98_Ext None ].

Definition asn_SPC_OTD_MeasureInfo_R98_Ext_specs_1 : asn_SEQUENCE_specifics_t :=
  {| oms := []; roms_count := 0; aoms_count := 0; ext_after := -1; ext_before := -1 |}.

Definition asn_DEF_OTD_MeasureInfo_R98_Ext : asn_table := T_SEQUENCE asn_SPC_OTD_MeasureInfo_R98_Ext_specs_1 asn_MBR_OTD_MeasureInfo_R98_Ext_1.

(** ** [GPSTimeAssistanceMeasurements.c] *)

Definition ASN_PER_MEMB_REFERENCE_FRAME_MSB_CONSTR_2 := per (APC_CONSTRAINED, 6, 6, 0, 63) (APC_UNCONSTRAINED, -1, -1, 0, 0) None None.

Definition ASN_PER_MEMB_GPS_TOW_SUBMS_CONSTR_3 := per (APC_CONSTRAINED, 14, 14, 0, 9999) (APC_UNCONSTRAINED, -1, -1, 0, 0) None None.

Definition ASN_PER_MEMB_DELTA_TOW_CONSTR_4 := per (APC_CONSTRAINED, 7, 7, 0, 127) (APC_UNCONSTRAINED, -1, -1, 0, 0) None None.

Definition asn_MBR_GPSTimeAssistanceMeasurements_1 : list (member asn_table) :=
  [
   (* referenceFrameMSB *) Member false false asn_DEF_NativeInteger (Some ASN_PER_MEMB_REFERENCE_FRAME_MSB_CONSTR_2);
   (* gpsTowSubms *) Member true true asn_DEF_NativeInteger (Some ASN_PER_MEMB_GPS_TOW_SUBMS_CONSTR_3);
   (* deltaTow *) Member true true asn_DEF_NativeInteger (Some ASN_PER_MEMB_DELTA_TOW_CONSTR_4);
   (* gpsReferenceTimeUncertainty *) Member true true asn_DEF_GPSReferenceTimeUncertainty None ].

Definition asn_MAP_GPSTimeAssistanceMeasurements_oms_1 : list Z := [1; 2; 3].
Definition asn_SPC_GPSTimeAssistanceMeasurements_specs_1 : asn_SEQUENCE_specifics_t :=
  {| oms := asn_MAP_GPSTimeAssistanceMeasurements_oms_1; roms_count := 3; aoms_count := 0; ext_after := -1; ext_before := -1 |}.

Definition asn_DEF_GPSTimeAssistanceMeasurements : asn_table := T_SEQUENCE asn_SPC_GPSTimeAssistanceMeasurements_specs_1 asn_MBR_GPSTimeAssistanceMeasurements_1.

(** ** [Rel-98-MsrPosition-Rsp-Extension.c] *)

Definition asn_MBR_rel_98_Ext_MeasureInfo_2 : list (member asn_table) :=
  [
   (* otd-MeasureInfo-R98-Ext *) Member true true asn_DEF_OTD_MeasureInfo_R98_Ext None ].

Definition asn_MAP_rel_98_Ext_MeasureInfo_oms_2 : list Z := [0].
Definition asn_SPC_rel_98_Ext_MeasureInfo_specs_2 : asn_SEQUENCE_specifics_t :=
  {| oms := asn_MAP_rel_98_Ext_MeasureInfo_oms_2; roms_count := 1; aoms_count := 0; ext_after := -1; ext_before := -1 |}.

Definition asn_DEF_rel_98_Ext_MeasureInfo_2 : asn_table := T_SEQUENCE asn_SPC_rel_98_Ext_MeasureInfo_specs_2 asn_MBR_rel_98_Ext_MeasureInfo_2.

Definition asn_MBR_Rel_98_MsrPosition_Rsp_Extension_1 : list (member asn_table) :=
  [
   (* rel-98-Ext-MeasureInfo *) Member false false asn_DEF_rel_98_Ext_MeasureInfo_2 None;
   (* timeAssistanceMeasurements *) Member true true asn_DEF_GPSTimeAssistanceMeasurements None ].

Definition asn_MAP_Rel_98_MsrPosition_Rsp_Extension_oms_1 : list Z := [1].
Definition asn_SPC_Rel_98_MsrPosition_Rsp_Extension_specs_1 : asn_SEQUENCE_specifics_t :=
  {| oms := asn_MAP_Rel_98_MsrPosition_Rsp_Extension_oms_1; roms_count := 0; aoms_count := 1; ext_after := 0; ext_before := 3 |}.

Definition asn_DEF_Rel_98_MsrPosition_Rsp_Extension : asn_table := T_SEQUENCE asn_SPC_Rel_98_MsrPosition_Rsp_Extension_specs_1 asn_MBR_Rel_98_MsrPosition_Rsp_Extension_1.

(** ** [OTD-MeasureInfo-5-Ext.c] *)

Definition asn_DEF_OTD_MeasureInfo_5_Ext : asn_table := asn_DEF_SeqOfOTD_MsrElementRest.

(** ** [UlPseudoSegInd.c] *)

Definition ASN_PER_TYPE_UL_PSEUDO_SEG_IND_CONSTR_1 := per (APC_CONSTRAINED, 1, 1, 0, 1) (APC_UNCONSTRAINED, -1, -1, 0, 0) None None.

Definition asn_MAP_UlPseudoSegInd_value2enum_1 : list Z := [0; 1].
Definition asn_SPC_UlPseudoSegInd_specs_1 : asn_INTEGER_specifics_t :=
  {| value2enum := asn_MAP_UlPseudoSegInd_value2enum_1; map_count := 2; extension := 0 |}.

Definition asn_DEF_UlPseudoSegInd : asn_table := T_ENUMERATED asn_SPC_UlPseudoSegInd_specs_1 (Some ASN_PER_TYPE_UL_PSEUDO_SEG_IND_CONSTR_1).

(** ** [Rel-5-MsrPosition-Rsp-Extension.c] *)

Definition asn_MBR_Rel_5_MsrPosition_Rsp_Extension_1 : list (member asn_table) :=
  [
   (* extended-reference *) Member true true asn_DEF_Extended_reference None;
   (* otd-MeasureInfo-5-Ext *) Member true true asn_DEF_OTD_MeasureInfo_5_Ext None;
   (* ulPseudoSegInd *) Member true true asn_DEF_UlPseudoSegInd None ].

Definition asn_MAP_Rel_5_MsrPosition_Rsp_Extension_oms_1 : list Z := [0; 1; 2].
Definition asn_SPC_Rel_5_MsrPosition_Rsp_Extension_specs_1 : asn_SEQUENCE_specifics_t :=
  {| oms := asn_MAP_Rel_5_MsrPosition_Rsp_Extension_oms_1; roms_count := 3; aoms_count := 0; ext_after := 2; ext_before := 4 |}.

Definition asn_DEF_Rel_5_MsrPosition_Rsp_Extension : asn_table := T_SEQUENCE asn_SPC_Rel_5_MsrPosition_Rsp_Extension_specs_1 asn_MBR_Rel_5_MsrPosition_Rsp_Extension_1.

(** ** [MsrPosition-Rsp.c] *)

Definition asn_MBR_MsrPosition_Rsp_1 : list (member asn_table) :=
  [
   (* multipleSets *) Member true true asn_DEF_MultipleSets None;
   (* referenceIdentity *) Member true true asn_DEF_ReferenceIdentity None;
   (* otd-MeasureInfo *) Member true true asn_DEF_OTD_MeasureInfo None;
   (* locationInfo *) Member true true asn_DEF_LocationInfo None;
   (* gps-MeasureInfo *) Member true true asn_DEF_GPS_MeasureInfo None;
   (* locationError *) Member true true asn_DEF_LocationError None;
   (* extensionContainer *) Member true true asn_DEF_ExtensionContainer None;
   (* rel-98-MsrPosition-Rsp-Extension *) Member true true asn_DEF_Rel_98_MsrPosition_Rsp_Extension None;
   (* rel-5-MsrPosition-Rsp-Extension *) Member true true asn_DEF_Rel_5_MsrPosition_Rsp_Extension None ].

Definition asn_MAP_MsrPosition_Rsp_oms_1 : list Z := [0; 1; 2; 3; 4; 5; 6; 7; 8].
Definition asn_SPC_MsrPosition_Rsp_specs_1 : asn_SEQUENCE_specifics_t :=
  {| oms := asn_MAP_MsrPosition_Rsp_oms_1; roms_count := 7; aoms_count := 2; ext_after := 6; ext_before := 10 |}.

Definition asn_DEF_MsrPosition_Rsp : asn_table := T_SEQUENCE asn_SPC_MsrPosition_Rsp_specs_1 asn_MBR_MsrPosition_Rsp_1.

(** ** [MoreAssDataToBeSent.c] *)

Definition ASN_PER_TYPE_MORE_ASS_DATA_TO_BE_SENT_CONSTR_1 := per (APC_CONSTRAINED, 1, 1, 0, 1) (APC_UNCONSTRAINED, -1, -1, 0, 0) None None.

Definition asn_MAP_MoreAssDataToBeSent_value2enum_1 : list Z := [0; 1].
Definition asn_SPC_MoreAssDataToBeSent_specs_1 : asn_INTEGER_specifics_t :=
  {| value2enum := asn_MAP_MoreAssDataToBeSent_value2enum_1; map_count := 2; extension := 0 |}.

Definition asn_DEF_MoreAssDataToBeSent : asn_table := T_ENUMERATED asn_SPC_MoreAssDataToBeSent_specs_1 (Some ASN_PER_TYPE_MORE_ASS_DATA_TO_BE_SENT_CONSTR_1).

(** ** [Rel98-AssistanceData-Extension.c] *)

Definition asn_MBR_Rel98_AssistanceData_Extension_1 : list (member asn_table) :=
  [
   (* rel98-Ext-ExpOTD *) Member true true asn_DEF_Rel98_Ext_ExpOTD None;
   (* gpsTimeAssistanceMeasurementRequest *) Member true true asn_DEF_NULL None;
   (* gpsReferenceTimeUncertainty *) Member true true asn_DEF_GPSReferenceTimeUncertainty None ].

Definition asn_MAP_Rel98_AssistanceData_Extension_oms_1 : list Z := [0; 1; 2].
Definition asn_SPC_Rel98_AssistanceData_Extension_specs_1 : asn_SEQUENCE_specifics_t :=
  {| oms := asn_MAP_Rel98_AssistanceData_Extension_oms_1; roms_count := 1; aoms_count := 2; ext_after := 0; ext_before := 4 |}.

Definition asn_DEF_Rel98_AssistanceData_Extension : asn_table := T_SEQUENCE asn_SPC_Rel98_AssistanceData_Extension_specs_1 asn_MBR_Rel98_AssistanceData_Extension_1.

(** ** [Rel5-AssistanceData-Extension.c] *)

Definition asn_MBR_Rel5_AssistanceData_Extension_1 : list (member asn_table) :=
  [
   (* extended-reference *) Member false false asn_DEF_Extended_reference None ].

Definition asn_SPC_Rel5_AssistanceData_Extension_specs_1 : asn_SEQUENCE_specifics_t :=
  {| oms := []; roms_count := 0; aoms_count := 0; ext_after := 0; ext_before := 2 |}.

Definition asn_DEF_Rel5_AssistanceData_Extension : asn_table := T_SEQUENCE asn_SPC_Rel5_AssistanceData_Extension_specs_1 asn_MBR_Rel5_AssistanceData_Extension_1.

(** ** [AssistanceData.c] *)

Definition asn_MBR_AssistanceData_1 : list (member asn_table) :=
  [
   (* referenceAssistData *) Member true true asn_DEF_ReferenceAssistData None;
   (* msrAssistData *) Member true true asn_DEF_MsrAssistData None;
   (* systemInfoAssistData *) Member true true asn_DEF_SystemInfoAssistData None;
   (* gps-AssistData *) Member true true asn_DEF_GPS_AssistData None;
   (* moreAssDataToBeSent *) Member true true asn_DEF_MoreAssDataToBeSent None;
   (* extensionContainer *) Member true true asn_DEF_ExtensionContainer None;
   (* rel98-AssistanceData-Extension *) Member true true asn_DEF_Rel98_AssistanceData_Extension None;
   (* rel5-AssistanceData-Extension *) Member true true asn_DEF_Rel5_AssistanceData_Extension None ].

Definition asn_MAP_AssistanceData_oms_1 : list Z := [0; 1; 2; 3; 4; 5; 6; 7].
Definition asn_SPC_AssistanceData_specs_1 : asn_SEQUENCE_specifics_t :=
  {| oms := asn_MAP_AssistanceData_oms_1; roms_count := 6; aoms_count := 2; ext_after := 5; ext_before := 9 |}.

Definition asn_DEF_AssistanceData : asn_table := T_SEQUENCE asn_SPC_AssistanceData_specs_1 asn_MBR_AssistanceData_1.

(** ** [ErrorCodes.c] *)

Definition ASN_PER_TYPE_ERROR_CODES_CONSTR_1 := per (Z.lor APC_CONSTRAINED APC_EXTENSIBLE, 3, 3, 0, 5) (APC_UNCONSTRAINED, -1, -1, 0, 0) None None.

Definition asn_MAP_ErrorCodes_value2enum_1 : list Z := [0; 1; 2; 3; 4; 5].
Definition asn_SPC_ErrorCodes_specs_1 : asn_INTEGER_specifics_t :=
  {| value2enum := asn_MAP_ErrorCodes_value2enum_1; map_count := 6; extension := 7 |}.

Definition asn_DEF_ErrorCodes : asn_table := T_ENUMERATED asn_SPC_ErrorCodes_specs_1 (Some ASN_PER_TYPE_ERROR_CODES_CONSTR_1).

(** ** [Rel-5-ProtocolError-Extension.c] *)

Definition asn_MBR_Rel_5_ProtocolError_Extension_1 : list (member asn_table) :=
  [
   (* extended-reference *) Member true true asn_DEF_Extended_reference None ].

Definition asn_MAP_Rel_5_ProtocolError_Extension_oms_1 : list Z := [0].
Definition asn_SPC_Rel_5_ProtocolError_Extension_specs_1 : asn_SEQUENCE_specifics_t :=
  {| oms := asn_MAP_Rel_5_ProtocolError_Extension_oms_1; roms_count := 1; aoms_count := 0; ext_after := 0; ext_before := 2 |}.

Definition asn_DEF_Rel_5_ProtocolError_Extension : asn_table := T_SEQUENCE asn_SPC_Rel_5_ProtocolError_Extension_specs_1 asn_MBR_Rel_5_ProtocolError_Extension_1.

(** ** [ProtocolError.c] *)

Definition asn_MBR_ProtocolError_1 : list (member asn_table) :=
  [
   (* errorCause *) Member false false asn_DEF_ErrorCodes None;
   (* extensionContainer *) Member true true asn_DEF_ExtensionContainer None;
   (* rel-5-ProtocolError-Extension *) Member true true asn_DEF_Rel_5_ProtocolError_Extension None ].

Definition asn_MAP_ProtocolError_oms_1 : list Z := [1; 2].
Definition asn_SPC_ProtocolError_specs_1 : asn_SEQUENCE_specifics_t :=
  {| oms := asn_MAP_ProtocolError_oms_1; roms_count := 1; aoms_count := 1; ext_after := 1; ext_before := 4 |}.

Definition asn_DEF_ProtocolError : asn_table := T_SEQUENCE asn_SPC_ProtocolError_specs_1 asn_MBR_ProtocolError_1.

(** ** [RRLP-Component.c] *)

Definition ASN_PER_TYPE_RRLP_COMPONENT_CONSTR_1 := per (Z.lor APC_CONSTRAINED APC_EXTENSIBLE, 3, 3, 0, 4) (APC_UNCONSTRAINED, -1, -1, 0, 0) None None.

Definition asn_MBR_RRLP_Component_1 : list (member asn_table) :=
  [
   (* msrPositionReq *) Member false false asn_DEF_MsrPosition_Req None;
   (* msrPositionRsp *) Member false false asn_DEF_MsrPosition_Rsp None;
   (* assistanceData *) Member false false asn_DEF_AssistanceData None;
   (* assistanceDataAck *) Member false false asn_DEF_NULL None;
   (* protocolError *) Member false false asn_DEF_ProtocolError None ].

Definition asn_SPC_RRLP_Component_specs_1 : asn_CHOICE_specifics_t := {| canonical_order := None; ext_start := 5 |}.

Definition asn_DEF_RRLP_Component : asn_table := T_CHOICE asn_SPC_RRLP_Component_specs_1 asn_MBR_RRLP_Component_1 (Some ASN_PER_TYPE_RRLP_COMPONENT_CONSTR_1).

(** ** [PDU.c] *)

Definition ASN_PER_MEMB_REFERENCE_NUMBER_CONSTR_2 := per (APC_CONSTRAINED, 3, 3, 0, 7) (APC_UNCONSTRAINED, -1, -1, 0, 0) None None.

Definition asn_MBR_PDU_1 : list (member asn_table) :=
  [
   (* referenceNumber *) Member false false asn_DEF_NativeInteger (Some ASN_PER_MEMB_REFERENCE_NUMBER_CONSTR_2);
   (* component *) Member false false asn_DEF_RRLP_Component None ].

Definition asn_SPC_PDU_specs_1 : asn_SEQUENCE_specifics_t :=
  {| oms := []; roms_count := 0; aoms_count := 0; ext_after := -1; ext_before := -1 |}.

Definition asn_DEF_PDU : asn_table := T_SEQUENCE asn_SPC_PDU_specs_1 asn_MBR_PDU_1.
