(* ===== verification/AsnStable.v ===== *)
(** * AsnStable: what follows a value does not change it

    A decoder that does not ask for more input gives the same result when more bits follow
    its input. From this and from the decoding of complete values follows that a value that
    is cut short makes every decoder ask for more, which is how the client recognises a
    message that has not arrived in full. *)
From S2P Require Import Prelude PerSupport AsnInteger PerSafe PerCodec AsnTypes AsnString AsnOpenType AsnConstructed AsnChoice AsnSequence AsnTables.

(** ** Readers *)

(** [x] is the outcome on the bits [L] and [y] the one on the bits [L ++ R]. Outcomes that
    are [starved] say that bits were missing. *)
Definition extends {A} (L R : list bool) (starved : A -> Prop) (x y : option (A * asn_per_data_t)) : Prop :=
  forall a pd', x = Some (a, pd') ->
    starved a \/ exists D L' pdR', L = D ++ L' /\ y = Some (a, pdR') /\ pd_at L' pd' /\ pd_at (L' ++ R) pdR'.

Definition stable {A} (starved : A -> Prop) (f : asn_per_data_t -> option (A * asn_per_data_t)) : Prop :=
  forall L R pd pdR, pd_at L pd -> pd_at (L ++ R) pdR -> extends L R starved (f pd) (f pdR).

Lemma extends_ret {A} L R (st : A -> Prop) a pd pdR : pd_at L pd -> pd_at (L ++ R) pdR -> extends L R st (Some (a, pd)) (Some (a, pdR)).
Proof. intros H1 H2 b pd' [= <- <-]. right. by exists [], L, pdR. Qed.

Lemma extends_starved {A} L R (st : A -> Prop) a pd y : st a -> extends L R st (Some (a, pd)) y.
Proof. intros H b pd' [= <- <-]. by left. Qed.

Lemma extends_none {A} L R (st : A -> Prop) y : extends L R st None y.
Proof. done. Qed.

Lemma extends_bind {A B} L R (st : A -> Prop) (st' : B -> Prop) x y k k' :
  extends L R st x y ->
  (forall a pd b pd', st a -> k (a, pd) = Some (b, pd') -> st' b) ->
  (forall a D L' pd pdR, L = D ++ L' -> pd_at L' pd -> pd_at (L' ++ R) pdR -> extends L' R st' (k (a, pd)) (k' (a, pdR))) ->
  extends L R st' (x ≫= k) (y ≫= k').
Proof.
  intros Hx Hst Hk b pd' E. destruct x as [[a pd]|] eqn:Ex; [|done]. cbn [mbind option_bind] in E.
  destruct (Hx a pd eq_refl) as [Ha|(D & L' & pdR & HL & -> & H1 & H2)]; [left; by eapply Hst|].
  destruct (Hk a D L' pd pdR HL H1 H2 b pd' E) as [Hb|(D2 & L2 & pdR2 & HL2 & E2 & H3 & H4)]; [by left|right].
  exists (D ++ D2), L2, pdR2. rewrite HL, HL2, app_assoc. by cbn [mbind option_bind].
Qed.

(** Outcomes with a number, with a number and a flag or octets, and with a result code. *)
Definition neg (v : Z) : Prop := v = -1.
Definition neg1 {B} (p : Z * B) : Prop := p.1 = -1.
Definition wmore {B} (p : asn_dec_rval_code_e * B) : Prop := p.1 = RC_WMORE.

Lemma few_stable n : stable neg (fun pd => per_get_few_bits pd n).
Proof.
  intros L R pd pdR H1 H2 v pd' E. destruct (per_get_few_bits_reads pd n (proj1 H1)) as (v0 & pd0 & E0 & _ & Hf).
  rewrite E in E0. injection E0 as <- <-. destruct Hf as [[-> _]|(Hn & _ & Hl)]; [by left|right].
  pose proof (pd_at_left _ _ H1) as HL. assert (Hle : n <= Z.of_nat (length L)).
  { pose proof (per_get_few_bits_reads pd n (proj1 H1)) as (? & ? & E' & Hs & _). rewrite E in E'. injection E' as <- <-.
    destruct (Hs (proj1 H1)) as [Hok _]. pose proof (pd_off _ Hok). unfold pd_left in *. lia. }
  rewrite <- (take_drop (Z.to_nat n) L) in H1, H2. rewrite <- app_assoc in H2.
  assert (Hlen : Z.of_nat (length (take (Z.to_nat n) L)) = n) by (rewrite length_take; lia).
  destruct (per_get_few_bits_at _ _ n _ H1 Hlen ltac:(lia)) as (p1 & E1 & Hp1 & _). rewrite E in E1. injection E1 as -> ->.
  destruct (per_get_few_bits_at _ _ n _ H2 Hlen ltac:(lia)) as (p2 & E2 & Hp2 & _).
  exists (take (Z.to_nat n) L), (drop (Z.to_nat n) L), p2. by rewrite take_drop.
Qed.

(** A field of bits, where a missing one is reported at once. *)
Lemma few_then {B} L R n pd pdR (st : B -> Prop) k k' : pd_at L pd -> pd_at (L ++ R) pdR ->
  (forall pd b pd', k (-1, pd) = Some (b, pd') -> st b) ->
  (forall v L' pd pdR, (length L' <= length L)%nat -> pd_at L' pd -> pd_at (L' ++ R) pdR -> extends L' R st (k (v, pd)) (k' (v, pdR))) ->
  extends L R st (per_get_few_bits pd n ≫= k) (per_get_few_bits pdR n ≫= k').
Proof.
  intros H1 H2 Hst Hk. eapply extends_bind; [by apply few_stable|by intros v p b p' ->; apply Hst|].
  intros v D L' p pR -> Hp HpR. apply Hk; [rewrite length_app; lia|done|done].
Qed.

(** The usual test for missing bits. *)
Ltac starving :=
  let E := fresh "E" in
  intros; cbn beta iota zeta in *;
  match goal with H : _ = Some _ |- _ => rename H into E end;
  try change (-1 =? 1) with false in E; try change (-1 =? 0) with false in E;
  try change (-1 <? 0) with true in E; try change (-1 + 1 <=? 0) with true in E; try change (Z.land (-1) 128 =? 0) with false in E;
  try change (Z.land (-1) 64 =? 0) with false in E; cbn beta iota zeta in E; simplify_eq; done.

Ltac few :=
  let v := fresh "v" in let L := fresh "L" in let p := fresh "p" in let pR := fresh "pR" in
  eapply few_then; [done|done|starving|intros v L p pR ? ? ?].

Lemma many_stable fuel : forall n, stable neg1 (fun pd => get_many_loop fuel pd n).
Proof.
  induction fuel as [|fuel IH]; intros n L R pd pdR H1 H2; [done|]. cbn [get_many_loop].
  destruct (n =? 0); [by apply extends_ret|]. destruct (24 <=? n); few.
  - destruct (v <? 0); [by apply extends_starved|]. eapply extends_bind; [by apply IH| |].
    + intros [r rest] q [r' l'] q' Hr [= <- <- <-]. exact Hr.
    + intros [r rest] ? ? ? ? ? ? ?. by apply extends_ret.
  - destruct (v <? 0); [by apply extends_starved|]. by apply extends_ret.
Qed.

Lemma many_bits_stable n : stable neg1 (fun pd => per_get_many_bits pd false n).
Proof. exact (many_stable _ n). Qed.

(** Lengths: whatever is wrong is reported as missing bits. *)
Lemma length_stable ebits : stable neg1 (fun pd => uper_get_length pd ebits).
Proof.
  intros L R pd pdR H1 H2. unfold uper_get_length. destruct (_ && _); few; [by apply extends_ret|].
  destruct (Z.land v 128 =? 0); [by apply extends_ret|]. destruct (Z.land v 64 =? 0).
  - eapply few_then; [done|done| |].
    + intros q [len rep] q'. rewrite Z.lor_m1_r. by intros [= <- <- <-].
    + intros v2 L2 q qR _ ? ?. by apply extends_ret.
  - destruct (v <? 0); [by apply extends_starved|]. cbv zeta. destruct (_ || _); [by apply extends_starved|]. by apply extends_ret.
Qed.

Lemma nslength_stable : stable neg uper_get_nslength.
Proof.
  intros L R pd pdR H1 H2. unfold uper_get_nslength. destruct L as [|b L].
  { rewrite (per_get_few_bits_short_stream [] pd 1 H1) by (cbn; lia). cbn [mbind option_bind]. change (-1 =? 0) with false.
    unfold uper_get_length. cbn [andb Z.leb Z.compare]. rewrite (per_get_few_bits_short_stream [] pd 8 H1) by (cbn; lia).
    cbn [mbind option_bind]. change (Z.land (-1) 128 =? 0) with false. change (Z.land (-1) 64 =? 0) with false. by apply extends_starved. }
  destruct (per_get_few_bits_at L pd 1 [b] H1) as (p & -> & Hp & _); [done|done|].
  destruct (per_get_few_bits_at (L ++ R) pdR 1 [b] H2) as (pR & -> & HpR & _); [done|done|]. cbn [mbind option_bind].
  assert (HL : forall x y, extends L R neg x y -> extends (b :: L) R neg x y).
  { intros x y Hx a q E. destruct (Hx a q E) as [?|(D & L' & qR & -> & ?)]; [by left|right]. by exists (b :: D), L', qR. }
  apply HL. destruct (_ =? 0).
  - few. destruct (_ <=? 0); [by apply extends_starved|by apply extends_ret].
  - eapply extends_bind; [by apply length_stable| |].
    + intros [len rep] q v q' Hl. change (len = -1) in Hl. subst len. cbn. by intros [= <- <-].
    + intros [len rep] D L' q qR -> Hq HqR. destruct (_ && _); [by apply extends_ret|by apply extends_starved].
Qed.

Lemma nsnnwn_stable : stable neg uper_get_nsnnwn.
Proof.
  intros L R pd pdR H1 H2. unfold uper_get_nsnnwn. eapply few_then; [done|done| |].
  - intros p b p'. change (negb (Z.land (-1) 64 =? 0)) with true. cbn iota.
    destruct (per_get_few_bits p 2) as [[lo q]|]; [|done]. cbn [mbind option_bind].
    destruct (negb (Z.land _ 128 =? 0)) eqn:E; [by intros [= <- <-]|]. apply negb_false_iff, Z.eqb_eq in E.
    apply (f_equal (fun z => Z.testbit z 7)) in E. rewrite Z.land_spec, Z.lor_spec in E. by cbn in E.
  - intros v L' p pR _ Hp HpR. destruct (negb _); [|by apply extends_ret]. eapply few_then; [done|done| |].
    + intros q b q'. rewrite Z.lor_m1_r. by intros [= <- <-].
    + intros lo L2 q qR _ Hq HqR. cbv zeta. destruct (negb _); [by apply extends_starved|]. destruct (_ =? 0); [by apply extends_ret|].
      destruct (3 <=? _); [by apply extends_starved|]. by apply few_stable.
Qed.

(** A length, after which there is less input when another fragment follows. *)
Lemma stable_length_then {B} L R ebits pd pdR (st : B -> Prop) k k' : pd_at L pd -> pd_at (L ++ R) pdR ->
  (forall rep pd b pd', k (-1, rep, pd) = Some (b, pd') -> st b) ->
  (forall len rep L' p pR, (length L' <= length L)%nat -> (0 <= len -> rep = true -> (length L' < length L)%nat) ->
     pd_at L' p -> pd_at (L' ++ R) pR -> extends L' R st (k (len, rep, p)) (k' (len, rep, pR))) ->
  extends L R st (uper_get_length pd ebits ≫= k) (uper_get_length pdR ebits ≫= k').
Proof.
  intros H1 H2 Hst Hk b q E. destruct (uper_get_length_reads pd ebits (proj1 H1)) as ([len rep] & p & El & _ & Hle & _ & Hrep).
  rewrite El in E. cbn [mbind option_bind] in E.
  destruct (length_stable ebits L R pd pdR H1 H2 _ _ El) as [Hl|(D & L' & pR & HL & -> & Hp & HpR)].
  { change (len = -1) in Hl. subst len. left. by eapply Hst. }
  rewrite (pd_at_left _ _ H1), (pd_at_left _ _ Hp) in Hle, Hrep.
  destruct (Hk len rep L' p pR ltac:(lia) ltac:(intros Ha Hb; specialize (Hrep Ha Hb); lia) Hp HpR b q E) as [Hb|(D2 & L2 & qR & HL2 & E2 & Hq)]; [by left|right].
  exists (D ++ D2), L2, qR. rewrite HL, HL2, app_assoc. by cbn [mbind option_bind].
Qed.

(** Fragments: each round takes a length, so that [fuel] is not used up. *)
Lemma chunks_stable n : forall m L R pd pdR st, pd_at L pd -> pd_at (L ++ R) pdR -> (length (L ++ R) < m)%nat ->
  extends L R wmore (get_chunks n pd st) (get_chunks m pdR st).
Proof.
  induction n as [|n IH]; intros m L R pd pdR st H1 H2 Hm; [done|]. destruct m as [|m]; [lia|]. cbn [get_chunks].
  apply stable_length_then; [done|done|starving|]. intros len rep L' p pR Hle Hlt Hp HpR.
  destruct (Z.ltb_spec len 0); [by apply extends_starved|]. eapply extends_bind; [by apply many_bits_stable| |].
  - intros [r dst] q b q' Hr. change (r = -1) in Hr. subst r. by intros [= <- <-].
  - intros [r dst] D L2 q qR -> Hq HqR. destruct (r <? 0); [by apply extends_starved|].
    destruct rep; [|by apply extends_ret]. apply IH; [done|done|]. specialize (Hlt ltac:(lia) eq_refl).
    rewrite !length_app in *. lia.
Qed.

(** Steps that a decoder makes after its last bit. *)
Lemma extends_map {A B} L R (st : A -> Prop) (st' : B -> Prop) x y (k : A * asn_per_data_t -> option (B * asn_per_data_t)) :
  extends L R st x y ->
  (forall a pd b pd', st a -> k (a, pd) = Some (b, pd') -> st' b) ->
  (forall a pd b pd', k (a, pd) = Some (b, pd') -> pd' = pd /\ forall pd2, k (a, pd2) = Some (b, pd2)) ->
  extends L R st' (x ≫= k) (y ≫= k).
Proof.
  intros Hx Hst Hk. eapply extends_bind; [exact Hx|exact Hst|]. intros a D L' p pR -> Hp HpR b p' E.
  destruct (Hk _ _ _ _ E) as [-> Hk2]. right. exists [], L', pR. by rewrite Hk2.
Qed.

(** The room that the fragments of the longer input need. *)
Lemma fuel_enough L pd : pd_at L pd -> (length L < S (Z.to_nat (nbits pd)))%nat.
Proof.
  intros H. pose proof (pd_at_left _ _ H) as Hl. pose proof (pd_off _ (proj1 H)). unfold pd_left in Hl. lia.
Qed.

(** ** Types *)

Abbreviation type_stable c := (stable wmore (dec c)).

Lemma INTEGER_stable unsigned ct : stable wmore (INTEGER_decode_uper unsigned ct).
Proof.
  assert (Ho : forall ct, stable wmore (decode_octets ct)).
  { intros ct' L R pd pdR H1 H2. unfold decode_octets. cbv zeta.
    eapply extends_map; [apply chunks_stable; [done|done|by apply fuel_enough]| |].
    - intros [r st] p b p' Hr. change (r = RC_WMORE) in Hr. subst r. by intros [= <- <-].
    - intros [[] st] p b p' E; repeat (case_match; try done); by simplify_eq. }
  assert (Hv : forall ct, stable wmore (decode_value unsigned ct)).
  { intros [c|] L R pd pdR H1 H2; [|by apply Ho]. cbn [decode_value]. destruct (_ && _); [|by apply Ho].
    eapply (extends_bind _ _ neg).
    - destruct (range_bits c =? 32); [|by apply few_stable]. few. destruct (v <? 0); [by apply extends_starved|]. few.
      destruct (v0 <? 0); [by apply extends_starved|by apply extends_ret].
    - intros v p b p' ->. by intros [= <- <-].
    - intros v D L' p pR -> Hp HpR. destruct (v <? 0); [by apply extends_starved|]. cbv zeta. by apply extends_ret. }
  intros L R pd pdR H1 H2. unfold INTEGER_decode_uper. destruct ct as [c|]; [|by apply Hv].
  destruct (has_flag _ _); [|by apply Hv]. few. destruct (v <? 0); [by apply extends_starved|by apply Hv].
Qed.

Lemma NativeInteger_stable unsigned own constraints : type_stable (uper_codec (NativeInteger unsigned own) constraints).
Proof.
  intros L R pd pdR H1 H2. cbn [dec uper_codec NativeInteger]. unfold NativeInteger_decode_uper.
  eapply (extends_map _ _ wmore).
  - eapply extends_map; [by apply INTEGER_stable| |].
    + intros [r st] p b p' Hr. change (r = RC_WMORE) in Hr. subst r. by intros [= <- <-].
    + intros [[] st] p b p' E; repeat (case_match; try done); by simplify_eq.
  - intros [r z] p b p' Hr. by intros [= <- <-].
  - intros [r z] p b p'. intros [= <- <-]. done.
Qed.

Lemma INTEGER_type_stable unsigned own constraints : type_stable (uper_codec (INTEGER unsigned own) constraints).
Proof.
  intros L R pd pdR H1 H2. cbn [dec uper_codec INTEGER]. eapply extends_map; [by apply INTEGER_stable| |].
  - intros [r st] p b p' Hr. by intros [= <- <-].
  - intros [r st] p b p'. intros [= <- <-]. done.
Qed.

Lemma BOOLEAN_stable er constraints : type_stable (uper_codec (BOOLEAN er) constraints).
Proof.
  intros L R pd pdR H1 H2. cbn [dec uper_codec BOOLEAN]. unfold BOOLEAN_decode_uper. few.
  destruct (v =? 1); [by apply extends_ret|]. destruct (v =? 0); [by apply extends_ret|by apply extends_starved].
Qed.

Lemma enum_stable specs ct : stable wmore (NativeEnumerated_decode_uper specs ct).
Proof.
  assert (Hf : forall L R v pd pdR, pd_at L pd -> pd_at (L ++ R) pdR ->
    extends L R wmore (nat_value ← rd (value2enum specs) v; Some (RC_OK, V_int nat_value, pd))
      (nat_value ← rd (value2enum specs) v; Some (RC_OK, V_int nat_value, pdR))).
  { intros L R v pd pdR H1 H2. destruct (rd _ v); [by apply extends_ret|done]. }
  assert (Hd : forall ct, stable wmore (decode_enum specs ct)).
  { intros ct' L R pd pdR H1 H2. unfold decode_enum. cbv zeta.
    assert (Hu : extends L R wmore
      (if extension specs =? 0 then Some (RC_FAIL, V_zero, pd) else
         '(value, pd1) ← uper_get_nsnnwn pd;
         if value <? 0 then Some (RC_WMORE, V_zero, pd1)
         else if map_count specs <=? value + (extension specs - 1) then Some (RC_FAIL, V_zero, pd1)
         else nat_value ← rd (value2enum specs) (value + (extension specs - 1)); Some (RC_OK, V_int nat_value, pd1))
      (if extension specs =? 0 then Some (RC_FAIL, V_zero, pdR) else
         '(value, pd1) ← uper_get_nsnnwn pdR;
         if value <? 0 then Some (RC_WMORE, V_zero, pd1)
         else if map_count specs <=? value + (extension specs - 1) then Some (RC_FAIL, V_zero, pd1)
         else nat_value ← rd (value2enum specs) (value + (extension specs - 1)); Some (RC_OK, V_int nat_value, pd1))).
    { destruct (_ =? 0); [by apply extends_ret|]. eapply extends_bind; [by apply nsnnwn_stable|by intros v p b p' -> [= <- <-]|].
      intros v D L' p pR -> Hp HpR. destruct (v <? 0); [by apply extends_starved|]. destruct (_ <=? _); [by apply extends_ret|by apply Hf]. }
    destruct ct' as [c|]; [|exact Hu]. destruct (0 <=? range_bits c); [|exact Hu]. few.
    destruct (v <? 0); [by apply extends_starved|]. destruct (_ <=? _); [by apply extends_ret|by apply Hf]. }
  intros L R pd pdR H1 H2. unfold NativeEnumerated_decode_uper. destruct ct as [c|]; [|by apply extends_ret].
  destruct (has_flag _ _); [|by apply Hd]. few. destruct (v <? 0); [by apply extends_starved|by apply Hd].
Qed.

Lemma ENUMERATED_stable specs own constraints : type_stable (uper_codec (ENUMERATED specs own) constraints).
Proof.
  intros L R pd pdR H1 H2. cbn [dec uper_codec ENUMERATED]. unfold ENUMERATED_decode_uper.
  eapply extends_map; [by apply enum_stable| |].
  - intros [r v] p b p' Hr. change (r = RC_WMORE) in Hr. subst r. by intros [= <- <-].
  - intros [[] v] p b p' E; [destruct v; try done; destruct (asn_long2INTEGER z); [|done]|..]; cbn in E; simplify_eq; done.
Qed.

(** *** Strings *)

Lemma translated_stable bpc unit_bits c2v n : stable neg1 (fun pd => get_translated n pd bpc unit_bits c2v).
Proof.
  induction n as [|n IH]; intros L R pd pdR H1 H2; cbn [get_translated]; [by apply extends_ret|]. few.
  destruct (v <? 0); [by apply extends_starved|]. cbv zeta. destruct (c2v v <? 0); [by apply extends_ret|].
  eapply extends_map; [by apply IH|by intros [r l] p' b q Hr [= <- <-]|by intros [r l] p' b q [= <- <-]].
Qed.

Lemma ranged_stable bpc unit_bits lb ub n : stable neg1 (fun pd => get_ranged n pd bpc unit_bits lb ub).
Proof.
  induction n as [|n IH]; intros L R pd pdR H1 H2; cbn [get_ranged]; [by apply extends_ret|]. few.
  destruct (v <? 0); [by apply extends_starved|]. destruct (ub <? _); [by apply extends_ret|].
  eapply extends_map; [by apply IH|by intros [r l] p' b q Hr [= <- <-]|by intros [r l] p' b q [= <- <-]].
Qed.

Lemma units_stable units bpc unit_bits cval pc : stable neg1 (fun pd => get_units pd units bpc unit_bits cval pc).
Proof.
  intros L R pd pdR H1 H2. unfold get_units. destruct (negb _); [|by apply many_bits_stable].
  unfold OCTET_STRING_per_get_characters. destruct (encoded_as_is _ _) as [as_is|]; [|done]. cbn [mbind option_bind].
  assert (Hr : forall lb, extends L R neg1
    (if (lb =? 0) && (unit_bits =? 8 * bpc) then per_get_many_bits pd false (unit_bits * units)
     else get_ranged (Z.to_nat units) pd bpc unit_bits lb (upper_bound cval))
    (if (lb =? 0) && (unit_bits =? 8 * bpc) then per_get_many_bits pdR false (unit_bits * units)
     else get_ranged (Z.to_nat units) pdR bpc unit_bits lb (upper_bound cval))).
  { intros lb. destruct (_ && _); [by apply many_bits_stable|by apply ranged_stable]. }
  destruct as_is; [apply (Hr 0)|]. destruct (pc ≫= code2value); [|apply Hr].
  destruct (16 <? unit_bits); [by apply extends_ret|by apply translated_stable].
Qed.

Lemma string_loop_stable bpc unit_bits csiz cval pc n : forall m L R pd pdR st u, pd_at L pd -> pd_at (L ++ R) pdR ->
  (length (L ++ R) < m)%nat ->
  extends L R wmore (get_string n pd bpc unit_bits csiz cval pc st u) (get_string m pdR bpc unit_bits csiz cval pc st u).
Proof.
  induction n as [|n IH]; intros m L R pd pdR st u H1 H2 Hm; [done|]. destruct m as [|m]; [lia|]. cbn [get_string].
  apply stable_length_then; [done|done|starving|]. intros len rep L' p pR Hle Hlt Hp HpR.
  destruct (Z.ltb_spec len 0); [by apply extends_starved|]. cbv zeta. eapply extends_bind; [by apply units_stable| |].
  - intros [r dst] q b q' Hr. change (r = -1) in Hr. subst r. by intros [= <- <-].
  - intros [r dst] D L2 q qR -> Hq HqR. destruct (0 <? r); [by apply extends_ret|]. destruct (r <? 0); [by apply extends_starved|].
    destruct rep; [|by apply extends_ret]. apply IH; [done|done|]. specialize (Hlt ltac:(lia) eq_refl). rewrite !length_app in *. lia.
Qed.

Lemma OCTET_STRING_stable sub own constraints : type_stable (uper_codec (OCTET_STRING sub own) constraints).
Proof.
  assert (Hs : forall bpc unit_bits csiz cval pc, stable wmore (fun pd => decode_string pd bpc unit_bits csiz cval pc)).
  { intros bpc unit_bits csiz cval pc L R pd pdR H1 H2. unfold decode_string. destruct (_ =? 0).
    - eapply extends_map; [by apply units_stable| |].
      + intros [r dst] p b p' Hr. change (r = -1) in Hr. subst r. by intros [= <- <-].
      + intros [r dst] p b p' E. destruct (0 <? r); [|destruct (r <? 0)]; by simplify_eq.
    - apply string_loop_stable; [done|done|by apply fuel_enough]. }
  intros L R pd pdR H1 H2. cbn [dec uper_codec OCTET_STRING]. unfold OCTET_STRING_decode_uper. cbv zeta.
  destruct (string_units _ _) as [[[bpc canonical] unit_bits]|]; [|by apply extends_ret].
  destruct (has_flag _ _); [|by apply Hs]. few. destruct (v <? 0); [by apply extends_starved|]. destruct (negb _); by apply Hs.
Qed.

(** *** Open types *)

(** What is inside has an input of its own. *)
Lemma open_type_stable c : stable wmore (uper_open_type_get c).
Proof.
  intros L R pd pdR H1 H2. unfold uper_open_type_get.
  eapply extends_map; [apply chunks_stable; [done|done|by apply fuel_enough]| |].
  - intros [r st] p b p' Hr. change (r = RC_WMORE) in Hr. subst r. by intros [= <- <-].
  - intros [[] o] p b p' E; [|by simplify_eq..]. cbv zeta in *.
    destruct (dec c _) as [[[rc st] spd]|]; [|done]. cbn [mbind option_bind] in *. destruct rc; [|by simplify_eq..].
    destruct (_ <? 8); [|by simplify_eq]. destruct (per_get_few_bits _ _) as [[bits q]|]; [|done]. cbn [mbind option_bind] in *.
    destruct (bits =? 0); by simplify_eq.
Qed.

Lemma skip_stable : stable (fun r => r <> 0) uper_open_type_skip.
Proof.
  intros L R pd pdR H1 H2. unfold uper_open_type_skip. eapply extends_map; [by apply open_type_stable| |].
  - intros [r v] p b p' Hr. change (r = RC_WMORE) in Hr. subst r. by intros [= <- <-].
  - intros [[] v] p b p' E; by simplify_eq.
Qed.

(** *** SEQUENCE *)

Abbreviation members_stable := (Forall (fun e => type_stable (member_codec e))).

Lemma root_stable specs elms : members_stable elms ->
  forall edx opmd, stable wmore (decode_root specs elms edx opmd).
Proof.
  induction 1 as [|e elms He Hes IH]; intros edx opmd L R pd pdR H1 H2; cbn [decode_root]; [by apply extends_ret|].
  assert (Hkeep : forall m opmd L pd pdR, pd_at L pd -> pd_at (L ++ R) pdR ->
    extends L R wmore ('(r, st, pd') ← decode_root specs elms (edx + 1) opmd pd; Some (r, m :: st, pd'))
      ('(r, st, pd') ← decode_root specs elms (edx + 1) opmd pdR; Some (r, m :: st, pd'))).
  { intros m opmd' L' p pR Hp HpR. eapply extends_map; [by apply IH|by intros [r st] q b q' Hr [= <- <-]|by intros [r st] q b q' [= <- <-]]. }
  assert (Hfetch : forall opmd, extends L R wmore
    ('(r, v, pd1) ← dec (member_codec e) pd;
     match r with
     | RC_OK => '(r, st, pd') ← decode_root specs elms (edx + 1) opmd pd1; Some (r, Some v :: st, pd')
     | _ => Some (r, Some v :: (zero_member <$> elms), pd1)
     end)
    ('(r, v, pd1) ← dec (member_codec e) pdR;
     match r with
     | RC_OK => '(r, st, pd') ← decode_root specs elms (edx + 1) opmd pd1; Some (r, Some v :: st, pd')
     | _ => Some (r, Some v :: (zero_member <$> elms), pd1)
     end)).
  { intros opmd'. eapply extends_bind; [by apply He| |].
    - intros [r v] q b q' Hr. change (r = RC_WMORE) in Hr. subst r. by intros [= <- <-].
    - intros [[] v] D L' q qR -> Hq HqR; [by apply Hkeep|by apply extends_starved|by apply extends_ret]. }
  destruct (IN_EXTENSION_GROUP _ _); [by apply Hkeep|]. destruct (optional e); [|apply Hfetch].
  destruct (per_get_few_bits opmd 1) as [[present opmd1]|]; [|done]. cbn [mbind option_bind].
  destruct (present =? 0); [by apply Hkeep|apply Hfetch].
Qed.

Lemma additions_stable specs elms : members_stable elms ->
  forall edx epmd st, stable wmore (decode_additions specs elms edx epmd st).
Proof.
  induction 1 as [|e elms He Hes IH]; intros edx epmd st L R pd pdR H1 H2; cbn [decode_additions]; [by apply extends_ret|].
  destruct (negb _); [by apply IH|]. destruct (per_get_few_bits epmd 1) as [[present epmd1]|]; [|done]. cbn [mbind option_bind].
  destruct (present <=? 0); [destruct (present <? 0); [by apply extends_ret|by apply IH]|].
  eapply extends_bind; [by apply open_type_stable| |].
  - intros [r v] q b q' Hr. change (r = RC_WMORE) in Hr. subst r. by intros [= <- <-].
  - intros [[] v] D L' q qR -> Hq HqR; [by apply IH|by apply extends_starved|by apply extends_ret].
Qed.

Lemma overflow_stable fuel : forall epmd, stable (fun r => r <> 0) (skip_overflow fuel epmd).
Proof.
  induction fuel as [|fuel IH]; intros epmd L R pd pdR H1 H2; cbn [skip_overflow]; [done|].
  destruct (per_get_few_bits epmd 1) as [[bit epmd1]|]; [|done]. cbn [mbind option_bind].
  destruct (bit =? -1); [by apply extends_ret|]. destruct (bit =? 0); [by apply IH|by apply skip_stable].
Qed.

Lemma extensions_stable specs elements st : members_stable elements -> stable wmore (decode_extensions specs elements st).
Proof.
  intros He L R pd pdR H1 H2. unfold decode_extensions. eapply extends_bind; [by apply nslength_stable|by intros n p b p' -> [= <- <-]|].
  intros n D L1 p pR -> Hp HpR. destruct (n <? 0); [by apply extends_starved|].
  eapply extends_bind; [by apply many_bits_stable| |].
  { intros [r dst] q b q' Hr. change (r = -1) in Hr. subst r. by intros [= <- <-]. }
  intros [r dst] D2 L2 q qR -> Hq HqR. destruct (negb (r =? 0)); [by apply extends_starved|].
  eapply extends_bind; [by apply additions_stable; [apply Forall_drop|..]| |].
  { intros [rv [st1 epmd]] x b x' Hr. change (rv = RC_WMORE) in Hr. subst rv. by intros [= <- <-]. }
  intros [[] [st1 epmd]] D3 L3 x xR -> Hx HxR; [|by apply extends_starved|by apply extends_ret].
  eapply extends_bind; [by apply overflow_stable| |].
  - intros r0 y b y' Hr. rewrite (proj2 (Z.eqb_neq r0 0) Hr). by intros [= <- <-].
  - intros r0 D4 L4 y yR -> Hy HyR. destruct (negb _); [by apply extends_starved|by apply extends_ret].
Qed.

Lemma SEQUENCE_stable tmp specs elements constraints : members_stable elements ->
  type_stable (uper_codec (SEQUENCE tmp specs elements) constraints).
Proof.
  intros He L R pd pdR H1 H2. cbn [dec uper_codec SEQUENCE]. unfold SEQUENCE_decode_uper.
  eapply (extends_bind _ _ neg).
  { destruct (0 <=? ext_before specs); [by apply few_stable|by apply extends_ret]. }
  { by intros v p b p' -> [= <- <-]. }
  intros ext D L1 p pR -> Hp HpR. destruct (ext <? 0); [by apply extends_starved|].
  eapply (extends_bind _ _ neg1).
  { destruct (negb (roms_count specs =? 0)); [by apply many_bits_stable|by apply extends_ret]. }
  { intros [r dst] q b q' Hr. change (r = -1) in Hr. subst r. by intros [= <- <-]. }
  intros [r opres] D2 L2 q qR -> Hq HqR. destruct (negb (r =? 0)); [by apply extends_starved|].
  eapply extends_bind; [by apply root_stable| |].
  { intros [rv st] x b x' Hr. change (rv = RC_WMORE) in Hr. subst rv. by intros [= <- <-]. }
  intros [[] st] D3 L3 x xR -> Hx HxR; [|by apply extends_starved|by apply extends_ret].
  eapply (extends_bind _ _ wmore).
  { destruct (negb (ext =? 0)); [by apply extensions_stable|by apply extends_ret]. }
  { intros [rv st'] y b y' Hr. change (rv = RC_WMORE) in Hr. subst rv. by intros [= <- <-]. }
  intros [[] st'] D4 L4 y yR -> Hy HyR; [|by apply extends_starved|by apply extends_ret].
  destruct (fill_defaults _ _ _ _); [by apply extends_ret|done].
Qed.

(** *** CHOICE and SEQUENCE OF *)

Lemma CHOICE_stable tmp specs elements own constraints : members_stable elements ->
  type_stable (uper_codec (CHOICE tmp specs elements own) constraints).
Proof.
  intros He. assert (Ha : forall ct value, stable wmore (decode_alternative specs elements ct value)).
  { intros ct value L R pd pdR H1 H2. unfold decode_alternative. destruct (match canonical_order specs with Some _ => _ | None => _ end); [|done].
    cbn [mbind option_bind]. destruct (rd elements _) as [elm|] eqn:Erd; [|done]. cbn [mbind option_bind].
    assert (type_stable (member_codec elm)) as Hm.
    { unfold rd in Erd. case_match; try done. exact (list.Forall_lookup_1 _ _ _ _ He Erd). }
    eapply (extends_map _ _ wmore).
    - destruct ct as [c|]; [destruct (0 <=? range_bits c); [by apply Hm|]|]; by apply open_type_stable.
    - intros [r v] p b p' Hr. by intros [= <- <-].
    - by intros [r v] p b p' [= <- <-]. }
  assert (Hd : forall ct, stable wmore (decode_choice specs elements ct)).
  { intros ct L R pd pdR H1 H2. unfold decode_choice. cbv zeta.
    assert (Hu : extends L R wmore
      (if ext_start specs =? -1 then Some (RC_FAIL, V_zero, pd) else
         '(value, pd1) ← uper_get_nsnnwn pd;
         if value <? 0 then Some (RC_WMORE, V_zero, pd1)
         else if Z.of_nat (length elements) <=? value + ext_start specs then Some (RC_FAIL, V_zero, pd1)
         else decode_alternative specs elements ct (value + ext_start specs) pd1)
      (if ext_start specs =? -1 then Some (RC_FAIL, V_zero, pdR) else
         '(value, pd1) ← uper_get_nsnnwn pdR;
         if value <? 0 then Some (RC_WMORE, V_zero, pd1)
         else if Z.of_nat (length elements) <=? value + ext_start specs then Some (RC_FAIL, V_zero, pd1)
         else decode_alternative specs elements ct (value + ext_start specs) pd1)).
    { destruct (_ =? -1); [by apply extends_ret|]. eapply extends_bind; [by apply nsnnwn_stable|by intros v p b p' -> [= <- <-]|].
      intros v D L' p pR -> Hp HpR. destruct (v <? 0); [by apply extends_starved|]. destruct (_ <=? _); [by apply extends_ret|by apply Ha]. }
    destruct ct as [c|]; [|exact Hu]. destruct (0 <=? range_bits c); [|exact Hu]. few.
    destruct (v <? 0); [by apply extends_starved|]. destruct (_ <? _); [by apply extends_ret|by apply Ha]. }
  intros L R pd pdR H1 H2. cbn [dec uper_codec CHOICE]. unfold CHOICE_decode_uper. destruct (value <$> _) as [c|]; [|by apply Hd].
  destruct (has_flag _ _); [|by apply Hd]. few. destruct (v <? 0); [by apply extends_starved|by apply Hd].
Qed.

Lemma elements_stable elm n : type_stable (member_codec elm) -> stable wmore (decode_elements elm n).
Proof.
  intros He. induction n as [|n IH]; intros L R pd pdR H1 H2; cbn [decode_elements]; [by apply extends_ret|].
  eapply extends_bind; [by apply He| |].
  - intros [r v] q b q' Hr. change (r = RC_WMORE) in Hr. subst r. by intros [= <- <-].
  - intros [[] v] D L' q qR -> Hq HqR; [|by apply extends_starved|by apply extends_ret].
    eapply extends_map; [by apply IH|by intros [r vs] x b x' Hr [= <- <-]|by intros [r vs] x b x' [= <- <-]].
Qed.

Lemma fragments_stable elm ebits n : type_stable (member_codec elm) -> forall m L R pd pdR l, pd_at L pd -> pd_at (L ++ R) pdR ->
  (length (L ++ R) < m)%nat -> extends L R wmore (decode_fragments elm n ebits l pd) (decode_fragments elm m ebits l pdR).
Proof.
  intros He. induction n as [|n IH]; intros m L R pd pdR l H1 H2 Hm; [done|]. destruct m as [|m]; [lia|]. cbn [decode_fragments].
  apply stable_length_then; [done|done|starving|]. intros len rep L' p pR Hle Hlt Hp HpR.
  destruct (Z.ltb_spec len 0); [by apply extends_starved|]. eapply extends_bind; [by apply elements_stable| |].
  - intros [r vs] q b q' Hr. change (r = RC_WMORE) in Hr. subst r. by intros [= <- <-].
  - intros [[] vs] D L2 q qR -> Hq HqR; [|by apply extends_starved|by apply extends_ret].
    destruct rep; [|by apply extends_ret]. apply IH; [done|done|]. specialize (Hlt ltac:(lia) eq_refl). rewrite !length_app in *. lia.
Qed.

Lemma SEQUENCE_OF_stable elm own constraints : type_stable (member_codec elm) ->
  type_stable (uper_codec (SEQUENCE_OF elm own) constraints).
Proof.
  intros He. assert (Hd : forall ct, stable wmore (decode_list elm ct)).
  { intros ct L R pd pdR H1 H2. unfold decode_list. cbv zeta.
    assert (Hf : forall e L pd pdR, pd_at L pd -> pd_at (L ++ R) pdR ->
      extends L R wmore (decode_fragments elm (S (Z.to_nat (nbits pd))) e [] pd) (decode_fragments elm (S (Z.to_nat (nbits pdR))) e [] pdR)).
    { intros e L' p pR Hp HpR. apply fragments_stable; [done|done|done|by apply fuel_enough]. }
    destruct ct as [c|]; [|by apply Hf]. destruct (0 <=? effective_bits c); [|by apply Hf]. few.
    destruct (v <? 0); [by apply extends_starved|]. destruct (_ <? 0); [by apply Hf|].
    eapply extends_map; [by apply elements_stable|by intros [r vs] x b x' Hr [= <- <-]|by intros [r vs] x b x' [= <- <-]]. }
  intros L R pd pdR H1 H2. cbn [dec uper_codec SEQUENCE_OF]. unfold SET_OF_decode_uper. destruct (size <$> _) as [c|]; [|by apply Hd].
  destruct (has_flag _ _); [|by apply Hd]. few. destruct (v <? 0); [by apply extends_starved|by apply Hd].
Qed.

(** ** Tables *)

(** Every descriptor that the tables can describe. *)
Lemma table_stable er tmp t : forall constraints, type_stable (uper_codec (descriptor er tmp t) constraints).
Proof.
  assert (Hms : forall ms, Forall (fun m => forall constraints, type_stable (uper_codec (descriptor er tmp (m_type m)) constraints)) ms ->
    members_stable ((field_of er tmp <$> ms).*1)).
  { intros ms H. induction H as [|m ms Hm _ IH]; constructor; [apply Hm|exact IH]. }
  induction t as [u own|own| | |specs own|sub own|specs ms IH|specs ms own IH|m own IH] using asn_table_rect'; intros constraints;
    cbn [descriptor].
  - apply NativeInteger_stable.
  - apply INTEGER_type_stable.
  - apply BOOLEAN_stable.
  - intros L R pd pdR H1 H2. by apply extends_ret.
  - apply ENUMERATED_stable.
  - apply OCTET_STRING_stable.
  - rewrite descriptor_element. apply SEQUENCE_stable. by apply Hms.
  - rewrite descriptor_element. apply CHOICE_stable. by apply Hms.
  - destruct m as [p o t c]. apply SEQUENCE_OF_stable. apply IH.
Qed.

(** A value that is cut short makes the decoder ask for more. *)
Lemma cut_short er tmp t constraints v L R pd : er <> -1 -> bytes tmp -> length tmp = 32%nat -> table_check t constraints = true ->
  valid (spec_of er tmp t constraints) v -> code (spec_of er tmp t constraints) v = L ++ R -> R <> [] -> pd_at L pd ->
  exists v' pd', dec (uper_codec (descriptor er tmp t) constraints) pd = Some (RC_WMORE, v', pd').
Proof.
  intros Her Htb Htl Hc Hv Hcode HR Hpd. destruct (table_implements er tmp Her Htb Htl t constraints Hc) as [_ Hd Hr].
  destruct (Hr pd (proj1 Hpd)) as ([r v'] & pd' & E & _). exists v', pd'.
  assert (L ++ R <> []) as Hne by (destruct L; done). destruct (octets_spec (L ++ R) Hne) as [Hb Ho].
  pose proof (bit_stream_at tmp Htl _ _ Hb Ho) as HpR. set (pdR := bit_stream _ _) in HpR.
  destruct (table_stable er tmp t constraints L R pd pdR Hpd HpR _ _ E) as [Hw|(D & L' & pdR' & _ & E' & _ & HpR')].
  - change (r = RC_WMORE) in Hw. by subst r.
  - rewrite <- Hcode, <- (app_nil_r (code _ _)) in HpR. destruct (Hd v [] pdR Hv HpR) as (q & Eq & Hq).
    rewrite Eq in E'. injection E' as <- <- <-. destruct Hq as [_ Hq], HpR' as [_ HpR']. rewrite Hq in HpR'. by destruct L', R.
Qed.
