(* ===== verification/AsnProps.v ===== *)
(** * AsnProps: the codecs of the SUPL protocols

    What the UPER codecs of the generated tables guarantee for the messages of the two
    protocols, ULP and RRLP, and what the constructed types do with extensions that are not
    known, with empty extensions and with truth values. *)
From S2P Require Import Prelude PerSupport AsnInteger PerSafe PerCodec AsnTypes AsnString AsnOpenType AsnConstructed AsnChoice AsnSequence AsnTables AsnStable.
From S2P Require UlpTables RrlpTables.

(** The messages of the protocols. *)
Definition protocol_pdus : list asn_table := [UlpTables.asn_DEF_ULP_PDU; RrlpTables.asn_DEF_PDU].

(** The tables are as the codecs need them. *)
Lemma protocol_tables t : t ∈ protocol_pdus -> table_check t None = true.
Proof.
  intros H. apply elem_of_cons in H as [->|H]; [vm_compute; done|].
  apply elem_of_cons in H as [->|H]; [vm_compute; done|]. by apply elem_of_nil in H.
Qed.

(** A stack. *)
Definition stack0 : list Z := replicate 32 0.

Lemma stack0_bytes : bytes stack0.
Proof. by repeat constructor. Qed.

(** ** Whole messages *)

(** C38: whatever octets come from the network, decoding them as a ULP or an RRLP message
    returns, reads nothing outside the buffer, and a message that is accepted is well typed:
    it has the members that its table describes, an absent one only where it is optional, an
    alternative that the table has, items of its enumerations, octets and 64-bit integers. *)
Theorem pdu_decode_any er tmp t (zero : Val (asn_DEF er tmp t)) buf :
  t ∈ protocol_pdus -> er <> -1 -> bytes tmp -> length tmp = 32%nat -> bytes buf ->
  exists r consumed v, uper_decode_complete zero buf = Some (r, consumed, v) /\ (r = RC_OK -> typed (spec_of er tmp t None) v).
Proof.
  intros Ht Her Htb Htl. apply val_decode_any. apply table_implements; [done..|]. by apply protocol_tables.
Qed.

Lemma pdu_decode_any_witness :
  exists r consumed v, uper_decode_complete (V_zero : Val (asn_DEF 0 stack0 UlpTables.asn_DEF_ULP_PDU)) [0; 16; 1; 0; 0; 128] =
    Some (r, consumed, v) /\ (r = RC_OK -> typed (spec_of 0 stack0 UlpTables.asn_DEF_ULP_PDU None) v).
Proof. apply (pdu_decode_any 0 stack0); [by left|done|apply stack0_bytes|done|by repeat constructor]. Defined.

(** C39: a ULP or RRLP message that passes [value_check] and whose code has at least one and less
    than 2^59 bits is encoded, into a new buffer and into a buffer of the caller that is large
    enough, and decoding the octets gives the message back, with all the octets consumed. The
    check is that every member is within its constraints, and it leaves out two things that
    the constraints allow and the codec does not carry: an extension addition with an empty
    code, such as a NULL ([open_type_empty]), and an alternative of a CHOICE outside
    its root. The encoder of BOOLEAN returns a result that it does not set; it has to be other
    than -1 ([boolean_stale_result]). *)
Theorem pdu_roundtrip er tmp t (v zero : Val (asn_DEF er tmp t)) :
  t ∈ protocol_pdus -> er <> -1 -> bytes tmp -> length tmp = 32%nat ->
  value_check t None v = true -> 0 < Z.of_nat (length (code_of t None v)) < 2 ^ 59 ->
  (exists o, uper_encode_to_new_buffer tmp v = Some (Z.of_nat (length o), Some o) /\
     uper_decode_complete zero o = Some (RC_OK, Z.of_nat (length o), v)) /\
  forall buffer, bytes buffer -> octets_needed (length (code_of t None v)) <= Z.of_nat (length buffer) ->
  exists buffer', uper_encode_to_buffer tmp v buffer = Some (Z.of_nat (length (code_of t None v)), buffer') /\
    uper_decode_complete zero buffer' = Some (RC_OK, octets_needed (length (code_of t None v)), v).
Proof.
  intros Ht Her Htb Htl Hv. pose proof (table_implements er tmp Her Htb Htl t None (protocol_tables t Ht)) as Himp.
  pose proof (value_check_valid er tmp t None v Hv) as Hval. unfold code_of. rewrite (code_same 0 [] er tmp). intros Hlen. split.
  - apply (val_new_buffer_roundtrip _ _ Himp); [done..|lia].
  - intros buffer Hb Hfit. destruct (val_buffer_roundtrip _ _ Himp tmp v zero buffer) as (o & He & _ & Hd); try done.
    { intros E. rewrite E in Hlen. cbn in Hlen. lia. }
    eexists. split; [exact He|exact Hd].
Qed.

(** A SUPL START message: session 1 of the subscriber with the given identity, set-based
    assisted GPS, and a GSM cell. *)
Definition start_message : asn_value :=
  let bool b := Some (V_int b) in
  let enum z := Some (V_str [z] 0) in
  V_seq
    [Some (V_int 45);
     Some (V_seq [Some (V_int 1); Some (V_int 0); Some (V_int 0)]);
     Some (V_seq [Some (V_seq [Some (V_int 1); Some (V_choice 4 (Some (V_str [0x23; 0x45; 0x67; 0x89; 0; 0; 0; 0] 0)))]); None]);
     Some (V_choice 2 (Some (V_seq
       [Some (V_seq
          [Some (V_seq [bool 0; bool 1; bool 0; bool 0; bool 0; bool 0; bool 0]); enum 1;
           Some (V_seq [bool 0; bool 1; bool 0])]);
        Some (V_seq
          [Some (V_choice 1 (Some (V_seq [Some (V_int 214); Some (V_int 3); Some (V_int 861); Some (V_int 40181); None; None])));
           enum 1]);
        None])))].

Lemma pdu_roundtrip_witness :
  (exists o, uper_encode_to_new_buffer stack0 (start_message : Val (asn_DEF 0 stack0 UlpTables.asn_DEF_ULP_PDU)) =
       Some (Z.of_nat (length o), Some o) /\
     uper_decode_complete (V_zero : Val (asn_DEF 0 stack0 UlpTables.asn_DEF_ULP_PDU)) o = Some (RC_OK, Z.of_nat (length o), start_message)) /\
  exists buffer', uper_encode_to_buffer stack0 (start_message : Val (asn_DEF 0 stack0 UlpTables.asn_DEF_ULP_PDU)) (replicate 64 0) =
      Some (Z.of_nat (length (code_of UlpTables.asn_DEF_ULP_PDU None start_message)), buffer').
Proof.
  destruct (pdu_roundtrip 0 stack0 UlpTables.asn_DEF_ULP_PDU start_message V_zero) as [H1 H2];
    [by left|done|apply stack0_bytes|done|vm_compute; done|vm_compute; done|].
  split; [exact H1|]. destruct (H2 (replicate 64 0)) as (b & Hb & _); [by repeat constructor|vm_compute; done|]. by exists b.
Defined.

(** C40: a descriptor that passes the check of its table implements its type, if the result that
    the encoder of BOOLEAN leaves unset is not -1 (see [boolean_stale_result]): every value
    that is [valid] (within its constraints, without extension additions whose code is empty
    and without alternatives outside the root of a CHOICE) is encoded as its code, whatever was
    written before and wherever the octets go, as long as the output does not refuse them, the code is decoded to the value, whatever follows, and any other input
    is decoded to a value of the type or rejected. *)
Theorem table_refines_spec er tmp t constraints :
  er <> -1 -> bytes tmp -> length tmp = 32%nat -> table_check t constraints = true ->
  let c := uper_codec (descriptor er tmp t) constraints in
  let s := spec_of er tmp t constraints in
  (forall K (HS : Sink K) B po v, valid s v -> po_at B po -> ~ refused (B ++ code s v) ->
     exists e po', enc c K HS v po = Some (e, po') /\ e <> -1 /\ po_at (B ++ code s v) po') /\
  (forall v L pd, valid s v -> pd_at (code s v ++ L) pd -> exists pd', dec c pd = Some (RC_OK, v, pd') /\ pd_at L pd') /\
  (forall pd, pd_ok pd -> exists r v pd', dec c pd = Some (r, v, pd') /\ pd_ok pd' /\ (r = RC_OK -> typed s v)).
Proof.
  intros Her Htb Htl Hc. destruct (table_implements er tmp Her Htb Htl t constraints Hc) as [He Hd Hr]. split_and!.
  - intros K HS B po v Hv Hat Hn. exact (He K HS B po v Hv Hat Hn).
  - exact Hd.
  - intros pd Hok. destruct (Hr pd Hok) as ([r v] & pd' & E & Hst & Ht). exists r, v, pd'. destruct (Hst Hok) as [? _]. auto.
Qed.

Lemma table_refines_spec_witness :
  table_check UlpTables.asn_DEF_SETCapabilities None = true /\
  let c := uper_codec (descriptor 0 stack0 UlpTables.asn_DEF_SETCapabilities) None in
  forall pd, pd_ok pd -> exists r v pd', dec c pd = Some (r, v, pd') /\ pd_ok pd' /\
    (r = RC_OK -> typed (spec_of 0 stack0 UlpTables.asn_DEF_SETCapabilities None) v).
Proof.
  split; [vm_compute; done|].
  apply (table_refines_spec 0 stack0 UlpTables.asn_DEF_SETCapabilities None); [done|apply stack0_bytes|done|vm_compute; done].
Defined.

(** ** Extensions *)

(** A SEQUENCE with the extension additions [ams] that its table has and more of them,
    present as the map [R] says: the first one that is present must have a size that is a
    multiple of three octets, otherwise the decoder asks for more input; it is skipped, and
    all the other ones are left in the stream, for the next member to be decoded from. *)
Theorem sequence_unknown_extensions er tmp specs ms rms ams R o pd L :
  er <> -1 -> bytes tmp -> length tmp = 32%nat -> table_check (T_SEQUENCE specs ms) None = true -> 0 <= ext_before specs ->
  let k := root_count specs (length ms) in
  let root := take k (field_of er tmp <$> ms) in
  let adds := drop k (field_of er tmp <$> ms) in
  Forall2 root_valid root rms -> Forall2 add_valid adds ams -> 1 <= Z.of_nat (length adds + length R) < 16384 ->
  bytes o -> o <> [] -> Z.of_nat (length o) mod 16384 <> 0 ->
  pd_at ([true] ++ concat (zip_with presence_code root rms) ++ concat (zip_with member_code root rms) ++
         nslength_code (Z.of_nat (length adds + length R)) ++ (concat (zip_with (addition_code true false) adds ams) ++ R) ++
         concat (zip_with (addition_code false true) adds ams) ++
         (if existsb id R then frag_code (length o) o else []) ++ L) pd ->
  exists pd', dec (asn_DEF er tmp (T_SEQUENCE specs ms)) pd =
      Some (if existsb id R && negb (bool_decide (length o mod 3 = 0)%nat) then RC_WMORE else RC_OK, V_seq (rms ++ ams), pd') /\
    pd_at L pd'.
Proof.
  intros Her Htb Htl Hc He k root adds Hr Ha Hn Hb Hne Hmod Hpd. cbn [table_check] in Hc. apply andb_prop in Hc as [Hs Hm].
  assert (Hok : Forall field_ok (root ++ adds)).
  { unfold root, adds. rewrite take_drop. apply fields_ok; [|done]. apply list.Forall_forall. intros m _. by apply table_implements. }
  apply Forall_app in Hok as [Hokr Hoka]. unfold asn_DEF. cbn [descriptor]. rewrite descriptor_element.
  rewrite <- (take_drop k (field_of er tmp <$> ms)). fold root adds.
  destruct (SEQUENCE_decode_overflow tmp Htb Htl specs root adds (sequence_check_wf er tmp specs ms Hs) Hokr Hoka rms ams R o pd L)
    as (pd' & E & Hpd'); [done..|].
  exists pd'. split; [|done]. cbn [dec uper_codec SEQUENCE]. rewrite E. unfold overflow_result.
  by destruct (existsb id R && _).
Qed.

(** A positioning protocol with one extension of three octets; another octet follows. *)
Lemma sequence_unknown_extensions_witness :
  exists pd', dec (asn_DEF 0 stack0 UlpTables.asn_DEF_PosProtocol)
      {| buffer := [0xA0; 0x10; 0x30; 0x10; 0x20; 0x37; 0x70]; nboff := 0; nbits := 52; moved := 0 |} =
    Some (RC_OK, V_seq [Some (V_int 0); Some (V_int 1); Some (V_int 0)], pd').
Proof.
  edestruct (sequence_unknown_extensions 0 stack0 UlpTables.asn_SPC_PosProtocol_specs_1 UlpTables.asn_MBR_PosProtocol_1
    [Some (V_int 0); Some (V_int 1); Some (V_int 0)] [] [true] [1; 2; 3]) as (pd' & E & _);
    [done|apply stack0_bytes|done|vm_compute; done|done| | | | | | | |exists pd'; exact E].
  - repeat (apply Forall2_cons_2; [cbn; auto|]). constructor.
  - constructor.
  - done.
  - by repeat constructor.
  - done.
  - done.
  - split; [|vm_compute; reflexivity]. split; [by repeat constructor|cbn; lia|cbn; lia].
Defined.

(** A value that needs no bits, such as a NULL, is put into an open type as one zero
    octet, and the decoder of open types rejects just that: it takes the octet for padding
    that is too long. *)
Theorem open_type_empty tmp c s v {K} {HS : Sink K} B (po : asn_per_outp_t K) L pd :
  bytes tmp -> length tmp = 32%nat -> implements c s -> valid s v -> code s v = [] ->
  po_at B po -> ~ refused (B ++ val_bits 8 1 ++ val_bits 8 0) -> pd_at (val_bits 8 1 ++ val_bits 8 0 ++ L) pd ->
  (exists po', uper_open_type_put tmp c v po = Some (0, po') /\ po_at (B ++ val_bits 8 1 ++ val_bits 8 0) po') /\
  exists pd', uper_open_type_get c pd = Some (RC_FAIL, v, pd') /\ pd_at L pd'.
Proof.
  intros Htb Htl Hc Hv Hnil Hat Hn Hpd. split.
  - assert (Hsm : Z.of_nat (length (code s v)) < 2 ^ 59) by by rewrite Hnil.
    pose proof (open_type_put_at tmp Htb Htl c s B po v Hc Hv Hsm Hat) as Hput. rewrite Hnil in Hput. exact (Hput Hn).
  - destruct (open_type_get_at c [0] (bitlist [0]) v L pd) as (pd' & E & Hpd'); [by repeat constructor|done|done| |exact Hpd|].
    + intros spd Hspd. apply (dec_at c s Hc v (bitlist [0]) spd Hv). by rewrite Hnil.
    + exists pd'. split; [|done]. rewrite E. by rewrite bool_decide_eq_false_2 by (cbn; lia).
Qed.

(** The request for a measurement of the time assistance in RRLP is such a NULL: an
    assistance data message with it is encoded but not decoded. *)
Definition time_request : asn_value := V_seq [None; Some (V_int 0); None].

Lemma open_type_empty_witness :
  (exists pd', uper_open_type_get (asn_DEF 0 stack0 RrlpTables.asn_DEF_NULL)
      {| buffer := [1; 0; 255]; nboff := 0; nbits := 24; moved := 0 |} = Some (RC_FAIL, V_int 0, pd')) /\
  uper_encode_to_new_buffer stack0 (time_request : Val (asn_DEF 0 stack0 RrlpTables.asn_DEF_Rel98_AssistanceData_Extension)) =
    Some (4, Some [0x80; 0xC0; 0x20; 0x00]) /\
  exists consumed v, uper_decode_complete (V_zero : Val (asn_DEF 0 stack0 RrlpTables.asn_DEF_Rel98_AssistanceData_Extension))
    [0x80; 0xC0; 0x20; 0x00] = Some (RC_FAIL, consumed, v).
Proof.
  split_and!; [|vm_compute; reflexivity|eexists _, _; vm_compute; reflexivity].
  destruct (open_type_empty stack0 (asn_DEF 0 stack0 RrlpTables.asn_DEF_NULL) null_spec (V_int 0) (HS := dyn_sink) []
    (fresh_outp stack0 {| dyn_bytes := []; allocated := 0 |}) (val_bits 8 255)
    {| buffer := [1; 0; 255]; nboff := 0; nbits := 24; moved := 0 |}) as [_ (pd' & E & _)];
    [apply stack0_bytes|done|apply NULL_implements|done|done| | | |by exists pd'].
  - apply fresh_outp_at; [apply stack0_bytes|done|done|by left].
  - intros Hr. by apply (dyn_refused ([] ++ val_bits 8 1 ++ val_bits 8 0)); [|left].
  - split; [|vm_compute; reflexivity]. split; [by repeat constructor|cbn; lia|cbn; lia].
Defined.

(** ** Truth values *)

(** The encoder of BOOLEAN returns the variable [er] that it has not set. When the stack
    holds -1 there, a structure that begins with a truth value, here the positioning
    technologies of the client, is not encoded, although its bits were written. *)
Theorem boolean_stale_result tmp bs {K} {HS : Sink K} B (po : asn_per_outp_t K) b :
  length bs = 6%nat -> po_at B po -> ~ refused ((B ++ [false]) ++ [b]) ->
  exists po', enc (asn_DEF (-1) tmp UlpTables.asn_DEF_PosTechnology) K HS
      (V_seq ((fun x : bool => Some (V_int (Z.b2z x))) <$> b :: bs)) po = Some (-1, po') /\
    po_at ((B ++ [false]) ++ [b]) po'.
Proof.
  intros Hl Hat Hn. do 7 (destruct bs as [|? bs]; try done).
  destruct (accepts_bit B po false Hat) as (po1 & E1 & Hat1); [intros Hr; by apply Hn, refused_app|].
  destruct (accepts_bit (B ++ [false]) po1 b Hat1 Hn) as (po2 & E2 & Hat2). exists po2. split; [|done].
  cbv -[per_put_few_bits]. cbn [Z.b2z] in E1. rewrite E1. destruct b; cbn [Z.b2z] in E2; cbv -[per_put_few_bits]; by rewrite E2.
Qed.

Lemma boolean_stale_result_witness :
  exists po', enc (asn_DEF (-1) stack0 UlpTables.asn_DEF_PosTechnology) _ dyn_sink
      (V_seq ((fun x : bool => Some (V_int (Z.b2z x))) <$> [false; true; false; false; false; false; false]))
      (fresh_outp stack0 {| dyn_bytes := []; allocated := 0 |}) = Some (-1, po') /\ @po_at _ dyn_sink [false; false] po'.
Proof.
  apply (boolean_stale_result stack0 [true; false; false; false; false; false] (HS := dyn_sink) [] _ false).
  - done.
  - apply fresh_outp_at; [apply stack0_bytes|done|done|by left].
  - intros Hr. by apply (dyn_refused ([] ++ [false] ++ [false])); [|left].
Defined.

(** ** Tables *)

(** The search of an enumeration value in a sorted table ends and finds the number of
    the value, and nothing else. *)
Theorem bsearch_index key l : increasing l = true ->
  bsearch (length l) key l 0 (Z.of_nat (length l)) =
    Some (if bool_decide (key ∈ l) then Some (Z.of_nat (index_of key l)) else None).
Proof.
  intros Hl. case_bool_decide as Hin.
  - pose proof (index_of_lookup key l Hin) as Hi. pose proof (lookup_lt_Some _ _ _ Hi).
    by apply (bsearch_found l _ key Hl Hi); lia.
  - by apply bsearch_absent; lia || done.
Qed.

(** The status codes of SUPL END, which are not numbered in sequence. *)
Lemma bsearch_index_witness :
  increasing UlpTables.asn_MAP_StatusCode_value2enum_1 = true /\
  bsearch 20 100 UlpTables.asn_MAP_StatusCode_value2enum_1 0 20 = Some (Some 18).
Proof. split; [done|]. exact (bsearch_index 100 UlpTables.asn_MAP_StatusCode_value2enum_1 eq_refl). Defined.

(** Every character, by evaluation. *)
Definition fqdn_check (x : Z) : bool :=
  let c := UlpTables.asn_PER_MAP_FQDN_1_v2c x in
  if nth (Z.to_nat x) UlpTables.permitted_alphabet_table_1 0 =? 0 then c =? -1
  else (0 <=? c) && (c <? 64) && (UlpTables.asn_PER_MAP_FQDN_1_c2v c =? x).

Lemma fqdn_checked x : 0 <= x < 256 -> fqdn_check x = true.
Proof.
  intros Hx. rewrite <- (Z2Nat.id x) by lia. apply (proj1 (forallb_forall (fun n => fqdn_check (Z.of_nat n)) (List.seq 0 256))).
  - vm_compute. done.
  - apply in_seq. lia.
Qed.

Lemma fqdn_codes c : 0 <= c < 64 ->
  0 <= UlpTables.asn_PER_MAP_FQDN_1_c2v c < 256 /\ UlpTables.asn_PER_MAP_FQDN_1_v2c (UlpTables.asn_PER_MAP_FQDN_1_c2v c) = c.
Proof.
  intros Hc. set (ok c := let x := UlpTables.asn_PER_MAP_FQDN_1_c2v c in (0 <=? x) && (x <? 256) && (UlpTables.asn_PER_MAP_FQDN_1_v2c x =? c)).
  assert (ok c = true) as H.
  { rewrite <- (Z2Nat.id c) by lia. apply (proj1 (forallb_forall (fun n => ok (Z.of_nat n)) (List.seq 0 64))); [by vm_compute|].
    apply in_seq. lia. }
  unfold ok in H. checks. lia.
Qed.

(** The characters of a domain name and their codes of six bits correspond one to one:
    a character is permitted exactly when it has a code, which stands for it alone, and each
    of the 64 codes is used. *)
Theorem fqdn_alphabet x c : 0 <= x < 256 ->
  (UlpTables.asn_PER_MAP_FQDN_1_v2c x = c /\ 0 <= c <-> 0 <= c < 64 /\ UlpTables.asn_PER_MAP_FQDN_1_c2v c = x) /\
  (0 <= UlpTables.asn_PER_MAP_FQDN_1_v2c x <-> nth (Z.to_nat x) UlpTables.permitted_alphabet_table_1 0 <> 0).
Proof.
  intros Hx. pose proof (fqdn_checked x Hx) as H. unfold fqdn_check in H.
  destruct (Z.eqb_spec (nth (Z.to_nat x) UlpTables.permitted_alphabet_table_1 0) 0) as [E|E]; checks.
  - split; [|lia]. split; [lia|]. intros [Hc <-]. pose proof (fqdn_codes c Hc). lia.
  - split; [|lia]. split.
    + intros [<- _]. lia.
    + intros [Hc <-]. pose proof (fqdn_codes c Hc). lia.
Qed.

Lemma fqdn_alphabet_witness : 0 <= UlpTables.asn_PER_MAP_FQDN_1_v2c 103.
Proof. apply (fqdn_alphabet 103 44); [lia|]. vm_compute. done. Defined.

(** ** Incomplete messages *)

(** What follows a message does not change it: when a decoder does not ask for more, it
    gives the same result and leaves the same rest whatever other bits [R] follow its input.
    This holds for every descriptor, valid or not. *)
Theorem decode_stable er tmp t constraints L R pd pdR r v pd' :
  let d := dec (uper_codec (descriptor er tmp t) constraints) in
  pd_at L pd -> pd_at (L ++ R) pdR -> d pd = Some (r, v, pd') -> r <> RC_WMORE ->
  exists D L' pdR', L = D ++ L' /\ d pdR = Some (r, v, pdR') /\ pd_at L' pd' /\ pd_at (L' ++ R) pdR'.
Proof.
  intros d H1 H2 E Hr. destruct (table_stable er tmp t constraints L R pd pdR H1 H2 _ _ E) as [Hw|H]; [by destruct Hr|exact H].
Qed.

(** A version number, with a fourth octet after it. *)
Lemma decode_stable_witness :
  exists pdR', dec (asn_DEF 0 stack0 UlpTables.asn_DEF_Version) {| buffer := [1; 2; 3; 4]; nboff := 0; nbits := 32; moved := 0 |} =
    Some (RC_OK, V_seq [Some (V_int 1); Some (V_int 2); Some (V_int 3)], pdR') /\ pd_at (val_bits 8 4) pdR'.
Proof.
  edestruct (decode_stable 0 stack0 UlpTables.asn_DEF_Version None (bitlist [1; 2; 3]) (val_bits 8 4)
    {| buffer := [1; 2; 3]; nboff := 0; nbits := 24; moved := 0 |} {| buffer := [1; 2; 3; 4]; nboff := 0; nbits := 32; moved := 0 |})
    as (D & L' & pdR' & HL & E & H1 & H2); [| |vm_compute; reflexivity|done|].
  - split; [|vm_compute; reflexivity]. split; [by repeat constructor|cbn; lia|cbn; lia].
  - split; [|vm_compute; reflexivity]. split; [by repeat constructor|cbn; lia|cbn; lia].
  - exists pdR'. split; [exact E|]. destruct H1 as [_ H1]. cbn in H1. by subst L'.
Defined.

(** A ULP or RRLP message that has not arrived in full makes the decoder ask for more,
    wherever it is cut; it is never taken for a complete or for a wrong message. *)
Theorem pdu_cut_short er tmp t v L R pd :
  t ∈ protocol_pdus -> er <> -1 -> bytes tmp -> length tmp = 32%nat ->
  value_check t None v = true -> code_of t None v = L ++ R -> R <> [] -> pd_at L pd ->
  exists v' pd', dec (asn_DEF er tmp t) pd = Some (RC_WMORE, v', pd').
Proof.
  intros Ht Her Htb Htl Hv Hc HR Hpd. apply (cut_short er tmp t None v L R); try done.
  - by apply protocol_tables.
  - by apply value_check_valid.
  - unfold code_of in Hc. by rewrite (code_same er tmp 0 []).
Qed.

Lemma pdu_cut_short_witness :
  exists v' pd', dec (asn_DEF 0 stack0 UlpTables.asn_DEF_ULP_PDU)
    {| buffer := [0; 45; 1; 0; 0; 128]; nboff := 0; nbits := 42; moved := 0 |} = Some (RC_WMORE, v', pd').
Proof.
  apply (pdu_cut_short 0 stack0 UlpTables.asn_DEF_ULP_PDU start_message (take 42 (code_of UlpTables.asn_DEF_ULP_PDU None start_message))
    (drop 42 (code_of UlpTables.asn_DEF_ULP_PDU None start_message)));
    [by left|done|apply stack0_bytes|done|by vm_compute|by rewrite take_drop|by vm_compute|].
  split; [|vm_compute; reflexivity]. split; [by repeat constructor|cbn; lia|cbn; lia].
Defined.
