(* ===== verification/SuplWire.v ===== *)
(** * SuplWire: the messages of the SUPL client on the wire

    The messages that [supl.c] builds, as the structures that the generated codec of ULP
    encodes: they are within the constraints of the tables, so the codec encodes them and a
    server that decodes them gets them back. *)
From S2P Require Import Prelude PerSupport AsnInteger PerSafe PerCodec Rrlp Supl AsnTypes AsnString AsnOpenType AsnConstructed AsnChoice AsnSequence AsnTables.
From S2P Require UlpTables AsnProps.

(** ** Structures *)

(** [V_zero] stands for the forms that the client does not build. *)
Definition bool_value (b : bool) : option asn_value := Some (V_int (Z.b2z b)).
Definition int_value' (z : Z) : option asn_value := Some (V_int z).
Definition enum_value (i : INTEGER_t) : option asn_value := Some (match i with Some buf => V_str buf 0 | None => V_zero end).

Definition setid_value (s : SETId) : asn_value :=
  match s with SETId_imsi o => V_choice 4 (Some (V_str o 0)) | _ => V_zero end.

Definition address_value (a : SLPAddress) : asn_value :=
  match a with
  | SLPAddress_NOTHING => V_choice 0 None
  | SLPAddress_iPAddress o => V_choice 1 (Some (V_choice (if (length o =? 4)%nat then 1 else 2) (Some (V_str o 0))))
  | SLPAddress_fQDN o => V_choice 2 (Some (V_str o 0))
  end.

Definition slp_value (s : SlpSessionID) : asn_value :=
  V_seq [Some (V_str (slp_sessionID s) 0); Some (address_value (slpId s))].

Definition capabilities_value (c : SETCapabilities) : asn_value :=
  let t := posTechnology c in
  let p := posProtocol c in
  V_seq
    [Some (V_seq (bool_value <$> [agpsSETassisted t; agpsSETBased t; autonomousGPS t; aFLT t; eCID t; eOTD t; oTDOA t]));
     enum_value (prefMethod c); Some (V_seq (bool_value <$> [tia801 p; rrlp p; rrc p]))].

Definition cell_value (c : CellInfo) : asn_value :=
  match c with
  | CellInfo_NOTHING => V_choice 0 None
  | gsmCell refMCC refMNC refLAC refCI => V_choice 1 (Some (V_seq ((int_value' <$> [refMCC; refMNC; refLAC; refCI]) ++ [None; None])))
  | wcdmaCell refMCC refMNC refUC => V_choice 2 (Some (V_seq ((int_value' <$> [refMCC; refMNC; refUC]) ++ [None; None; None])))
  | cdmaCell => V_zero
  end.

Definition location_value (l : LocationId) : asn_value := V_seq [Some (cell_value (cellInfo l)); enum_value (status l)].

Definition request_value (r : RequestedAssistData) : asn_value :=
  V_seq
    ((bool_value <$> [almanacRequested r; utcModelRequested r; ionosphericModelRequested r; dgpsCorrectionsRequested r;
                      referenceLocationRequested r; referenceTimeRequested r; acquisitionAssistanceRequested r;
                      realTimeIntegrityRequested r; navigationModelRequested r]) ++ [None]).

Definition position_value (p : Position) : asn_value :=
  V_seq
    [Some (V_str (timestamp p) 0);
     Some (V_seq [enum_value (latitudeSign p); int_value' (latitude p); int_value' (longitude p); None; None; None]); None].

Definition payload_value (p : PosPayLoad) : asn_value :=
  match p with
  | PosPayLoad_NOTHING => V_choice 0 None
  | tia801payload o => V_choice 1 (Some (V_str o 0))
  | rrcPayload o => V_choice 2 (Some (V_str o 0))
  | rrlpPayload o => V_choice 3 (Some (V_str o 0))
  end.

Definition message_value (m : UlpMessage) : asn_value :=
  match m with
  | UlpMessage_NOTHING => V_choice 0 None
  | msSUPLSTART caps loc => V_choice 2 (Some (V_seq [Some (capabilities_value caps); Some (location_value loc); None]))
  | msSUPLPOSINIT caps req loc posn =>
      V_choice 4 (Some (V_seq [Some (capabilities_value caps); Some (request_value req); Some (location_value loc);
                               position_value <$> posn; None; None]))
  | msSUPLPOS pay => V_choice 5 (Some (V_seq [Some (payload_value pay); None]))
  | _ => V_zero
  end.

Definition ulp_value (u : ULP_PDU_t) : asn_value :=
  V_seq
    [int_value' (ulp_length u);
     Some (V_seq (int_value' <$> [maj (version u); min (version u); servind (version u)]));
     Some (V_seq [(fun s => V_seq [int_value' (sessionId s); Some (setid_value (setId s))]) <$> setSessionID u;
                  slp_value <$> slpSessionID u]);
     Some (message_value (message u))].

(** ** Messages of the client *)

(** A cell of a public network: three digits for the country and for the network. *)
Definition cell_ok (ctx : supl_ctx_t) : bool :=
  let g := p_gsm ctx in
  let w := p_wcdma ctx in
  let within x hi := (0 <=? x) && (x <=? hi) in
  if ctx_flag ctx PARAM_GSM_CELL_CURRENT then
    within (mcc g) 999 && within (mnc g) 999 && within (lac g) 65535 && within (ci g) 65535
  else ctx_flag ctx PARAM_WCDMA_CELL_CURRENT && within (w_mcc w) 999 && within (w_mnc w) 999 && within (w_uc w) 268435455.

(** What the messages are made of, for a session identifier of the server that was decoded. *)
Definition ctx_ok (ctx : supl_ctx_t) (slp : option SlpSessionID) : bool :=
  cell_ok ctx && (8 <=? length (p_msisdn ctx))%nat && forallb (fun b => bool_decide (is_byte b)) (p_msisdn ctx) &&
  match slp with Some s => value_check UlpTables.asn_DEF_SlpSessionID None (slp_value s) | None => true end.

(** An INTEGER of a range that starts at zero. *)
Lemma int_check_within c z :
  has_flag c APC_SEMI_CONSTRAINED = false -> lower_bound c = 0 -> upper_bound c < 2 ^ 62 -> 0 <= z <= upper_bound c ->
  int_check false (Some c) z = true.
Proof.
  intros Hs Hl Hh Hz. unfold int_check, encodable, AsnInteger.in_root. rewrite Hs, Hl. cbn [as_field].
  rewrite bool_decide_eq_true_2, (proj2 (Z.leb_le 0 z)), (proj2 (Z.leb_le z _)) by lia. by destruct (0 <=? range_bits c).
Qed.

(** An OCTET STRING of a size that is constrained. *)
Definition no_value : asn_per_constraint_t :=
  {| flags := APC_UNCONSTRAINED; range_bits := -1; effective_bits := -1; lower_bound := 0; upper_bound := 0 |}.

Lemma string_check_octets pc buf :
  AsnTypes.value pc = no_value -> bytes buf ->
  let n := Z.of_nat (length buf) in
  let c := AsnTypes.size pc in
  0 <= effective_bits c <= 16 -> 0 <= lower_bound c <= n -> n <= upper_bound c < 2 ^ 31 ->
  n - lower_bound c < 2 ^ effective_bits c -> (effective_bits c = 0 -> n = upper_bound c) ->
  string_check ASN_OSUBV_STR (Some pc) buf 0 = true.
Proof.
  intros Hv Hb n c He Hlo Hhi Hfit Hz. unfold string_check. cbv zeta. change (default _ (Some pc)) with pc. rewrite Hv. fold c.
  change (string_units ASN_OSUBV_STR no_value) with (Some (1, 8, 8)). change (string_size ASN_OSUBV_STR buf 0) with n.
  assert (string_outside c n = false) as ->.
  { unfold string_outside. rewrite (proj2 (Z.leb_le 0 _)), (proj2 (Z.ltb_ge n _)), (proj2 (Z.ltb_ge _ n)) by lia. done. }
  rewrite (proj2 (Z.ltb_lt n _)) by lia. change (0 =? (if 1 =? 0 then unused_bits n else 0)) with true. cbn [andb negb orb].
  unfold size_check. rewrite (proj2 (Z.leb_le 0 n)), (proj2 (Z.leb_le 0 _)), (proj2 (Z.leb_le _ 16)), (proj2 (Z.leb_le _ n)),
    (proj2 (Z.leb_le n _)), (proj2 (Z.ltb_lt (n - _) _)) by lia.
  assert (negb (effective_bits c =? 0) || (n =? upper_bound c) = true) as ->.
  { destruct (Z.eqb_spec (effective_bits c) 0) as [E|]; [|done]. rewrite (Hz E), Z.eqb_refl. done. }
  unfold units_check. cbn [andb Z.eqb Pos.eqb]. unfold n. rewrite Z.eqb_refl. cbn [andb].
  apply forallb_forall. intros x Hx. unfold char_check. apply list_elem_of_In in Hx.
  pose proof (proj1 (list.Forall_forall _ _) Hb x Hx) as Hxb. rewrite bool_decide_eq_true_2 by done. unfold is_byte in Hxb.
  change (upper_bound no_value <=? 2 ^ 8) with true. change (8 =? 8) with true. cbn [andb orb]. by rewrite (proj2 (Z.ltb_lt x _)) by lia.
Qed.

Lemma capabilities_ok : value_check UlpTables.asn_DEF_SETCapabilities None (capabilities_value set_capabilities) = true.
Proof. vm_compute. done. Qed.

Lemma requested_ok r : value_check UlpTables.asn_DEF_RequestedAssistData None (request_value (requested r)) = true.
Proof. unfold requested. destruct (r =? 1); [|destruct (r =? 2)]; by vm_compute. Qed.

Lemma status_ok (b : bool) : exists v, enum_value (asn_long2INTEGER (if b then Status_stale else Status_current)) = Some v /\
  value_check UlpTables.asn_DEF_Status None v = true.
Proof. destruct b; eexists; (split; [vm_compute; reflexivity|by vm_compute]). Qed.

(** The check of a structure down to its integers. *)
Ltac integers := cbv -[int_check open_check code_of Z.le]; repeat (rewrite int_check_within by (done || lia)); cbv [andb orb negb].

Lemma cell_value_ok ctx : cell_ok ctx = true -> value_check UlpTables.asn_DEF_CellInfo None (cell_value (current_cell ctx)) = true.
Proof.
  unfold cell_ok, current_cell. intros H. destruct (ctx_flag ctx PARAM_GSM_CELL_CURRENT).
  - destruct (p_gsm ctx) as [g1 g2 g3 g4]. cbn [mcc mnc lac ci] in *. checks. by integers.
  - apply andb_prop in H as [H H3]. apply andb_prop in H as [H H2]. apply andb_prop in H as [-> H1].
    destruct (p_wcdma ctx) as [w1 w2 w3]. cbn [w_mcc w_mnc w_uc] in *. checks. by integers.
Qed.

Lemma location_ok ctx (b : bool) : cell_ok ctx = true ->
  value_check UlpTables.asn_DEF_LocationId None
    (location_value {| cellInfo := current_cell ctx; status := asn_long2INTEGER (if b then Status_stale else Status_current) |}) = true.
Proof.
  intros H. destruct (status_ok b) as (v & E & Hv). unfold location_value. cbn [cellInfo status]. rewrite E.
  cbn [value_check UlpTables.asn_DEF_LocationId UlpTables.asn_MBR_LocationId_1]. by rewrite cell_value_ok, Hv.
Qed.

Lemma session_ok ctx : (8 <=? length (p_msisdn ctx))%nat && forallb (fun b => bool_decide (is_byte b)) (p_msisdn ctx) = true ->
  value_check UlpTables.asn_DEF_SetSessionID None
    (V_seq [int_value' (sessionId (set_session ctx)); Some (setid_value (setId (set_session ctx)))]) = true.
Proof.
  intros H. apply andb_prop in H as [Hl Hb]. apply Nat.leb_le in Hl.
  assert (Hx : string_check ASN_OSUBV_STR (Some UlpTables.ASN_PER_MEMB_IMSI_CONSTR_5) (take 8 (p_msisdn ctx)) 0 = true).
  { assert (length (take 8 (p_msisdn ctx)) = 8%nat) as El by (rewrite length_take; lia).
    apply string_check_octets; rewrite ?El; cbn; try done; try lia.
    apply Forall_take. eapply forallb_impl; [|exact Hb]. intros b. apply bool_decide_eq_true_1. }
  revert Hx. unfold set_session. cbn [sessionId setId setid_value]. generalize (take 8 (p_msisdn ctx)). intros o Hx.
  cbv -[string_check open_check code_of UlpTables.ASN_PER_MEMB_IMSI_CONSTR_5]. by rewrite Hx.
Qed.

(** A whole message, from its session and its contents. *)
Lemma ulp_value_ok ctx slp m v n : ctx_ok ctx slp = true -> 0 <= n < 65536 -> message_value m = v ->
  value_check UlpTables.asn_DEF_UlpMessage None v = true ->
  value_check UlpTables.asn_DEF_ULP_PDU None
    (ulp_value {| ulp_length := n; version := ulp_version; setSessionID := Some (set_session ctx); slpSessionID := slp; message := m |}) = true.
Proof.
  intros Hctx Hn <- Hv. unfold ctx_ok in Hctx. apply andb_prop in Hctx as [Hctx Hslp]. apply andb_prop in Hctx as [Hctx Hb].
  apply andb_prop in Hctx as [_ Hl]. pose proof (session_ok ctx ltac:(by rewrite Hl, Hb)) as Hs.
  assert (value_check UlpTables.asn_DEF_SessionID None
    (V_seq [Some (V_seq [int_value' (sessionId (set_session ctx)); Some (setid_value (setId (set_session ctx)))]); slp_value <$> slp]) = true) as Hsess.
  { cbn [value_check UlpTables.asn_DEF_SessionID UlpTables.asn_MBR_SessionID_1]. rewrite Hs.
    destruct slp as [s|]; cbn [fmap option_fmap option_map]; [|done]. by rewrite Hslp. }
  unfold ulp_value. cbn [ulp_length version setSessionID slpSessionID message fmap option_fmap option_map].
  cbn [value_check UlpTables.asn_DEF_ULP_PDU UlpTables.asn_MBR_ULP_PDU_1]. rewrite Hsess, Hv.
  cbn [int_value' UlpTables.asn_DEF_NativeInteger value_check which fmap option_fmap option_map].
  rewrite int_check_within by (cbn; done || lia). by vm_compute.
Qed.

Lemma start_ok ctx n : ctx_ok ctx None = true -> 0 <= n < 65536 ->
  value_check UlpTables.asn_DEF_ULP_PDU None (ulp_value (with_length (start_pdu ctx) n)) = true.
Proof.
  intros H Hn. eapply (ulp_value_ok ctx None); [done|done|done|]. unfold ctx_ok in H. checks. cbn [message_value].
  assert (value_check UlpTables.asn_DEF_SUPLSTART None (V_seq [Some (capabilities_value set_capabilities);
    Some (location_value {| cellInfo := current_cell ctx; status := asn_long2INTEGER Status_current |}); None]) = true) as Hm.
  { cbn [value_check UlpTables.asn_DEF_SUPLSTART UlpTables.asn_MBR_SUPLSTART_1]. by rewrite capabilities_ok, (location_ok ctx false). }
  exact Hm.
Qed.

Lemma pos_init_ok known_position ctx slp n : ctx_ok ctx slp = true -> 0 <= n < 65536 ->
  (ctx_flag ctx PARAM_GSM_CELL_KNOWN = true ->
   value_check UlpTables.asn_DEF_Position None (position_value (known_position (p_known ctx))) = true) ->
  value_check UlpTables.asn_DEF_ULP_PDU None (ulp_value (with_length (pos_init_pdu known_position ctx slp) n)) = true.
Proof.
  intros H Hn Hpos. eapply (ulp_value_ok ctx slp); [done|done|done|]. unfold ctx_ok in H. apply andb_prop in H as [H _].
  apply andb_prop in H as [H _]. apply andb_prop in H as [H _]. cbn [message_value]. set (known := ctx_flag ctx PARAM_GSM_CELL_KNOWN) in *.
  assert (value_check UlpTables.asn_DEF_SUPLPOSINIT None (V_seq [Some (capabilities_value set_capabilities);
    Some (request_value (requested (p_request ctx)));
    Some (location_value {| cellInfo := current_cell ctx; status := asn_long2INTEGER (if known then Status_stale else Status_current) |});
    position_value <$> (if known then Some (known_position (p_known ctx)) else None); None; None]) = true) as Hm.
  { cbn [value_check UlpTables.asn_DEF_SUPLPOSINIT UlpTables.asn_MBR_SUPLPOSINIT_1]. rewrite capabilities_ok, requested_ok, location_ok by done.
    destruct known; cbn [fmap option_fmap option_map]; [|done]. by rewrite Hpos. }
  exact Hm.
Qed.

Lemma ack_ok ctx slp payload n : ctx_ok ctx slp = true -> 0 <= n < 65536 -> bytes payload -> 1 <= Z.of_nat (length payload) <= 8192 ->
  value_check UlpTables.asn_DEF_ULP_PDU None (ulp_value (with_length (ack_pdu ctx slp payload) n)) = true.
Proof.
  intros H Hn Hb Hl. eapply (ulp_value_ok ctx slp); [done|done|done|]. cbn [message_value payload_value].
  assert (string_check ASN_OSUBV_STR (Some UlpTables.ASN_PER_MEMB_RRLP_PAYLOAD_CONSTR_4) payload 0 = true) as Hx.
  { apply string_check_octets; try done; unfold UlpTables.ASN_PER_MEMB_RRLP_PAYLOAD_CONSTR_4, per;
      cbn [AsnTypes.size effective_bits lower_bound upper_bound]; lia. }
  exact (andb_true_intro (conj (andb_true_intro (conj Hx eq_refl)) eq_refl)).
Qed.

(** The three messages that the client sends, SUPL START, SUPL POS INIT and the
    acknowledgement of assistance data in SUPL POS, are encoded by the generated codec of ULP
    whatever the length field holds, and decoding the octets gives the message, when the cell
    is one of a public network, the subscriber has eight octets and the session identifier of
    the server is one that the codec can encode. *)
Theorem client_messages_on_wire er tmp known_position ctx slp payload n p :
  er <> -1 -> bytes tmp -> length tmp = 32%nat -> ctx_ok ctx slp = true -> 0 <= n < 65536 ->
  (ctx_flag ctx PARAM_GSM_CELL_KNOWN = true ->
   value_check UlpTables.asn_DEF_Position None (position_value (known_position (p_known ctx))) = true) ->
  bytes payload -> 1 <= Z.of_nat (length payload) <= 8192 ->
  p ∈ [start_pdu ctx; pos_init_pdu known_position ctx slp; ack_pdu ctx slp payload] ->
  let c := asn_DEF er tmp UlpTables.asn_DEF_ULP_PDU in
  let v := ulp_value (with_length p n) in
  let C := code_of UlpTables.asn_DEF_ULP_PDU None v in
  (forall K (HS : Sink K) B po, po_at B po -> ~ refused (B ++ C) ->
     exists e po', enc c K HS v po = Some (e, po') /\ e <> -1 /\ po_at (B ++ C) po') /\
  (forall L pd, pd_at (C ++ L) pd -> exists pd', dec c pd = Some (RC_OK, v, pd') /\ pd_at L pd').
Proof.
  intros Her Htb Htl Hctx Hn Hpos Hb Hl Hp c v.
  assert (value_check UlpTables.asn_DEF_ULP_PDU None v = true) as Hv.
  { unfold v. apply elem_of_cons in Hp as [->|Hp].
    - apply start_ok; [|done]. unfold ctx_ok in *. apply andb_prop in Hctx as [-> _]. done.
    - apply elem_of_cons in Hp as [->|Hp]; [by apply pos_init_ok|]. apply list_elem_of_singleton in Hp as ->. by apply ack_ok. }
  pose proof (table_implements er tmp Her Htb Htl UlpTables.asn_DEF_ULP_PDU None) as Himp.
  destruct Himp as [He Hd _]; [apply AsnProps.protocol_tables; by left|].
  pose proof (value_check_valid er tmp _ _ _ Hv) as Hval. unfold code_of. rewrite (code_same 0 [] er tmp). cbv zeta. split.
  - intros K HS B po Hat Hr. exact (He K HS B po v Hval Hat Hr).
  - intros L pd Hpd. exact (Hd v L pd Hval Hpd).
Qed.

(** A client in a GSM cell, and the answer of a server with a name. *)
Definition example_ctx : supl_ctx_t :=
  with_msisdn (supl_set_gsm_cell supl_ctx_new {| mcc := 214; mnc := 3; lac := 861; ci := 40181 |}) [0x23; 0x45; 0x67; 0x89; 0; 0; 0; 0].

Definition example_position (_ : gsm_cell * QArith_base.Q * QArith_base.Q * Z) : Position :=
  {| timestamp := []; latitudeSign := None; latitude := 0; longitude := 0 |}.

Definition example_pdu : ULP_PDU_t :=
  pos_init_pdu example_position example_ctx (Some {| slp_sessionID := [1; 2; 3; 4]; slpId := SLPAddress_fQDN [104; 45; 115] |}).

Lemma client_messages_on_wire_witness :
  length (code_of UlpTables.asn_DEF_ULP_PDU None (ulp_value (with_length example_pdu 36))) = 283%nat /\
  forall L pd, pd_at (code_of UlpTables.asn_DEF_ULP_PDU None (ulp_value (with_length example_pdu 36)) ++ L) pd ->
  exists pd', dec (asn_DEF 0 AsnProps.stack0 UlpTables.asn_DEF_ULP_PDU) pd = Some (RC_OK, ulp_value (with_length example_pdu 36), pd') /\
    pd_at L pd'.
Proof.
  split; [vm_compute; reflexivity|].
  apply (client_messages_on_wire 0 AsnProps.stack0 example_position example_ctx
    (Some {| slp_sessionID := [1; 2; 3; 4]; slpId := SLPAddress_fQDN [104; 45; 115] |}) [1] 36 example_pdu);
    [done|apply AsnProps.stack0_bytes|done|by vm_compute|done|by vm_compute|by repeat constructor|done|].
  right. by left.
Defined.
