(* ===== verification/SuplCodec.v ===== *)
(** * SuplCodec: the SUPL client with the generated codecs

    The codecs of ULP-PDU, RRLP PDU and SlpSessionID as [supl.c] uses them: structures that
    the decoders of the tables fill are read member by member ([ulp_view], [rrlp_view],
    [slp_view]; a member that is not there reads as zero), and the structures that the client
    fills are those of [SuplWire]. They meet the interfaces [CodecLaws] and [UlpLaws] of the
    client, so that the theorems on sessions hold of the client with its own codecs. *)
From S2P Require Import Prelude PerSupport AsnInteger PerSafe PerCodec Rrlp Supl AsnTypes AsnString AsnOpenType AsnConstructed AsnChoice AsnSequence AsnTables AsnStable SuplWire.
From S2P Require UlpTables RrlpTables AsnProps.

(** ** Reading structures *)

Definition member_of (i : nat) (v : option asn_value) : option asn_value :=
  match v with Some (V_seq ms) => default None (ms !! i) | _ => None end.

Definition int_of (v : option asn_value) : Z := match v with Some (V_int z) => z | _ => 0 end.
Definition bool_of (v : option asn_value) : bool := negb (int_of v =? 0).
Definition octets_view (v : option asn_value) : list Z := match v with Some (V_str o _) => o | _ => [] end.
Definition bits_view (v : option asn_value) : list bool :=
  match v with Some (V_str o unused) => take (8 * length o - Z.to_nat unused) (bitlist o) | _ => [] end.
Definition integer_of (v : option asn_value) : INTEGER_t := match v with Some (V_str o _) => Some o | _ => None end.
Definition list_of (v : option asn_value) : list (option asn_value) := match v with Some (V_list a) => a | _ => [] end.

(** The alternative of a CHOICE, 0 for none, and its contents. *)
Definition choice_of (v : option asn_value) : Z * option asn_value :=
  match v with Some (V_choice p m) => (p, m) | _ => (0, None) end.

(** *** ULP *)

Definition setid_view (v : option asn_value) : SETId :=
  let '(p, m) := choice_of v in
  match p with
  | 1 => SETId_msisdn (octets_view m) | 2 => SETId_mdn (octets_view m) | 3 => SETId_min (bits_view m)
  | 4 => SETId_imsi (octets_view m) | 5 => SETId_nai (octets_view m) | 6 => SETId_iPAddress (octets_view (choice_of m).2)
  | _ => SETId_NOTHING
  end.

Definition address_view (v : option asn_value) : SLPAddress :=
  let '(p, m) := choice_of v in
  match p with
  | 1 => SLPAddress_iPAddress (octets_view (choice_of m).2) | 2 => SLPAddress_fQDN (octets_view m)
  | _ => SLPAddress_NOTHING
  end.

Definition slp_view (v : option asn_value) : SlpSessionID :=
  {| slp_sessionID := octets_view (member_of 0 v); slpId := address_view (member_of 1 v) |}.

Definition capabilities_view (v : option asn_value) : SETCapabilities :=
  let t i := bool_of (member_of i (member_of 0 v)) in
  let p i := bool_of (member_of i (member_of 2 v)) in
  {| posTechnology := {| agpsSETassisted := t 0%nat; agpsSETBased := t 1%nat; autonomousGPS := t 2%nat; aFLT := t 3%nat; eCID := t 4%nat;
                         eOTD := t 5%nat; oTDOA := t 6%nat |};
     prefMethod := integer_of (member_of 1 v);
     posProtocol := {| tia801 := p 0%nat; rrlp := p 1%nat; rrc := p 2%nat |} |}.

Definition cell_view (v : option asn_value) : CellInfo :=
  let '(p, m) := choice_of v in
  let n i := int_of (member_of i m) in
  match p with
  | 1 => gsmCell (n 0%nat) (n 1%nat) (n 2%nat) (n 3%nat) | 2 => wcdmaCell (n 0%nat) (n 1%nat) (n 2%nat) | 3 => cdmaCell
  | _ => CellInfo_NOTHING
  end.

Definition location_view (v : option asn_value) : LocationId :=
  {| cellInfo := cell_view (member_of 0 v); status := integer_of (member_of 1 v) |}.

Definition request_view (v : option asn_value) : RequestedAssistData :=
  let b i := bool_of (member_of i v) in
  {| almanacRequested := b 0%nat; utcModelRequested := b 1%nat; ionosphericModelRequested := b 2%nat; dgpsCorrectionsRequested := b 3%nat;
     referenceLocationRequested := b 4%nat; referenceTimeRequested := b 5%nat; acquisitionAssistanceRequested := b 6%nat;
     realTimeIntegrityRequested := b 7%nat; navigationModelRequested := b 8%nat |}.

Definition position_view (v : option asn_value) : Position :=
  let e i := member_of i (member_of 1 v) in
  {| timestamp := octets_view (member_of 0 v); latitudeSign := integer_of (e 0%nat); latitude := int_of (e 1%nat); longitude := int_of (e 2%nat) |}.

Definition payload_view (v : option asn_value) : PosPayLoad :=
  let '(p, m) := choice_of v in
  match p with
  | 1 => tia801payload (octets_view m) | 2 => rrcPayload (octets_view m) | 3 => rrlpPayload (octets_view m)
  | _ => PosPayLoad_NOTHING
  end.

(** A pointer to a structure. *)
Definition pointer_view {T} (f : option asn_value -> T) (v : option asn_value) : option T := match v with Some _ => Some (f v) | None => None end.

Definition message_view (v : option asn_value) : UlpMessage :=
  let '(p, m) := choice_of v in
  match p with
  | 1 => msSUPLINIT
  | 2 => msSUPLSTART (capabilities_view (member_of 0 m)) (location_view (member_of 1 m))
  | 3 => msSUPLRESPONSE
  | 4 => msSUPLPOSINIT (capabilities_view (member_of 0 m)) (request_view (member_of 1 m)) (location_view (member_of 2 m))
           (pointer_view position_view (member_of 3 m))
  | 5 => msSUPLPOS (payload_view (member_of 0 m))
  | 6 => msSUPLEND | 7 => msDUMMY2 | 8 => msDUMMY3
  | _ => UlpMessage_NOTHING
  end.

Definition ulp_view (v : asn_value) : ULP_PDU_t :=
  let m i := member_of i (Some v) in
  {| ulp_length := int_of (m 0%nat);
     version := {| maj := int_of (member_of 0 (m 1%nat)); min := int_of (member_of 1 (m 1%nat)); servind := int_of (member_of 2 (m 1%nat)) |};
     setSessionID := pointer_view (fun s => {| sessionId := int_of (member_of 0 s); setId := setid_view (member_of 1 s) |}) (member_of 0 (m 2%nat));
     slpSessionID := pointer_view slp_view (member_of 1 (m 2%nat));
     message := message_view (m 3%nat) |}.

(** *** RRLP *)

Definition acquis_view (v : option asn_value) : AcquisElement :=
  let n i := int_of (member_of i v) in
  {| svid := n 0%nat; doppler0 := n 1%nat;
     addionalDoppler := pointer_view (fun d => {| doppler1 := int_of (member_of 0 d); dopplerUncertainty := int_of (member_of 1 d) |}) (member_of 2 v);
     codePhase := n 3%nat; intCodePhase := n 4%nat; gpsBitNumber := n 5%nat; codePhaseSearchWindow := n 6%nat;
     addionalAngle := pointer_view (fun a => {| azimuth := int_of (member_of 0 a); elevation := int_of (member_of 1 a) |}) (member_of 7 v) |}.

Definition almanac_view (v : option asn_value) : AlmanacElement :=
  let n i := int_of (member_of i v) in
  {| alm_satelliteID := n 0%nat; almanacE := n 1%nat; alamanacToa := n 2%nat; almanacKsii := n 3%nat; almanacOmegaDot := n 4%nat;
     almanacAPowerHalf := n 6%nat; almanacOmega0 := n 7%nat; almanacW := n 8%nat; almanacM0 := n 9%nat; almanacAF0 := n 10%nat;
     almanacAF1 := n 11%nat |}.

Definition ephemeris_view (v : option asn_value) : UncompressedEphemeris :=
  let n i := int_of (member_of i v) in
  {| ephemCodeOnL2 := n 0%nat; ephemURA := n 1%nat; ephemSVhealth := n 2%nat; ephemIODC := n 3%nat; ephemTgd := n 6%nat; ephemToc := n 7%nat;
     ephemAF2 := n 8%nat; ephemAF1 := n 9%nat; ephemAF0 := n 10%nat; ephemCrs := n 11%nat; ephemDeltaN := n 12%nat; ephemM0 := n 13%nat;
     ephemCuc := n 14%nat; ephemE := n 15%nat; ephemCus := n 16%nat; ephemAPowerHalf := n 17%nat; ephemToe := n 18%nat; ephemAODA := n 20%nat;
     ephemCic := n 21%nat; ephemOmegaA0 := n 22%nat; ephemCis := n 23%nat; ephemI0 := n 24%nat; ephemCrc := n 25%nat; ephemW := n 26%nat;
     ephemOmegaADot := n 27%nat; ephemIDot := n 28%nat |}.

Definition nav_view (v : option asn_value) : NavModelElement :=
  let '(p, m) := choice_of (member_of 1 v) in
  {| nav_satelliteID := int_of (member_of 0 v);
     satStatus := match p with
                  | 1 => newSatelliteAndModelUC (ephemeris_view m) | 2 => oldSatelliteAndModel | 3 => newNaviModelUC (ephemeris_view m)
                  | _ => SatStatus_NOTHING
                  end |}.

Definition iono_view (v : option asn_value) : IonosphericModel :=
  let n i := int_of (member_of i v) in
  {| alfa0 := n 0%nat; alfa1 := n 1%nat; alfa2 := n 2%nat; alfa3 := n 3%nat; beta0 := n 4%nat; beta1 := n 5%nat; beta2 := n 6%nat; beta3 := n 7%nat |}.

Definition utc_view (v : option asn_value) : UTCModel :=
  let n i := int_of (member_of i v) in
  {| utcA1 := n 0%nat; utcA0 := n 1%nat; utcTot := n 2%nat; utcWNt := n 3%nat; utcDeltaTls := n 4%nat; utcWNlsf := n 5%nat; utcDN := n 6%nat;
     utcDeltaTlsf := n 7%nat |}.

Definition header_view (v : option asn_value) : ControlHeader :=
  {| referenceTime := pointer_view (fun t => {| gpsTOW23b := int_of (member_of 0 (member_of 0 t)); gpsWeek := int_of (member_of 1 (member_of 0 t)) |})
       (member_of 0 v);
     refLocation := pointer_view (fun l => octets_view (member_of 0 l)) (member_of 1 v);
     navigationModel := pointer_view (fun m => nav_view <$> list_of (member_of 0 m)) (member_of 3 v);
     ionosphericModel := pointer_view iono_view (member_of 4 v);
     utcModel := pointer_view utc_view (member_of 5 v);
     almanac := pointer_view (fun m => almanac_view <$> list_of (member_of 1 m)) (member_of 6 v);
     acquisAssist := pointer_view (fun q => {| acq_gpsTOW := int_of (member_of 0 (member_of 0 q)); acquisList := acquis_view <$> list_of (member_of 1 q) |})
       (member_of 7 v) |}.

Definition component_view (v : option asn_value) : RRLP_Component :=
  let '(p, m) := choice_of v in
  match p with
  | 1 => msrPositionReq | 2 => msrPositionRsp
  | 3 => assistanceData {| gps_AssistData := pointer_view (fun g => header_view (member_of 0 g)) (member_of 3 m);
                           moreAssDataToBeSent := pointer_view integer_of (member_of 4 m) |}
  | 4 => assistanceDataAck | 5 => protocolError
  | _ => RRLP_NOTHING
  end.

Definition rrlp_view (v : asn_value) : PDU_t :=
  {| referenceNumber := int_of (member_of 0 (Some v)); component := component_view (member_of 1 (Some v)) |}.

(** The only RRLP message that the client builds. *)
Definition rrlp_value (r : PDU_t) : asn_value :=
  V_seq [int_value' (referenceNumber r);
         Some (match component r with assistanceDataAck => V_choice 4 (Some (V_int 0)) | _ => V_zero end)].

(** ** The codecs *)

Section codecs.
Context (er : Z) (otmp : list Z).

(** A type with the codec of the table [t], whose structures the client fills by [value] and
    reads by [view]. *)
Definition table_type {A} (t : asn_table) (value : A -> asn_value) (view : asn_value -> A) : UperType A :=
  {| uper_encoder K HS a po := enc (asn_DEF er otmp t) K HS (value a) po;
     uper_decoder pd := '(r, v, pd') ← dec (asn_DEF er otmp t) pd; Some (r, view v, pd') |}.

Definition ulp_codec : UperType ULP_PDU_t := table_type UlpTables.asn_DEF_ULP_PDU ulp_value ulp_view.
Definition rrlp_codec : UperType PDU_t := table_type RrlpTables.asn_DEF_PDU rrlp_value rrlp_view.
Definition slp_codec : UperType SlpSessionID := table_type UlpTables.asn_DEF_SlpSessionID slp_value (fun v => slp_view (Some v)).

Context (Her : er <> -1) (Hob : bytes otmp) (Hol : length otmp = 32%nat).

(** The client sends what passes the check of values; it receives any valid structure. *)
Definition table_laws {A} (t : asn_table) (value : A -> asn_value) (view : asn_value -> A) (Ht : table_check t None = true) :
  @CodecLaws A (table_type t value view).
Proof.
  pose proof (table_implements er otmp Her Hob Hol t None Ht) as Himp.
  refine {| uper_sends a C := value_check t None (value a) = true /\ C = code_of t None (value a);
            uper_receives a C := exists v, valid (spec_of er otmp t None) v /\ C = code (spec_of er otmp t None) v /\ view v = a |}.
  - intros K HS B po a C [Hv ->] Hat. unfold code_of. rewrite (code_same 0 [] er otmp).
    exact (enc_at _ _ Himp K HS B po (value a) (value_check_valid er otmp t None _ Hv) Hat).
  - intros a C L pd (v & Hv & -> & <-) Hpd. destruct (dec_at _ _ Himp v L pd Hv Hpd) as (pd' & E & Hpd'). exists pd'. cbn [uper_decoder table_type].
    change (dec (asn_DEF er otmp t) pd) with (dec (uper_codec (descriptor er otmp t) None) pd). by rewrite E.
  - intros pd c a pd' E. cbn [uper_decoder table_type] in E. destruct (dec (asn_DEF er otmp t) pd) as [[[r v] pd1]|] eqn:Ed; [|done].
    cbn [mbind option_bind] in E. injection E as <- <- <-. exact (reads_step pd _ _ _ _ (dec_reads _ _ Himp pd) Ed).
Defined.

Lemma ulp_table : table_check UlpTables.asn_DEF_ULP_PDU None = true.
Proof. apply AsnProps.protocol_tables. by left. Qed.

Lemma rrlp_table : table_check RrlpTables.asn_DEF_PDU None = true.
Proof. apply AsnProps.protocol_tables. right. by left. Qed.

Lemma slp_table : table_check UlpTables.asn_DEF_SlpSessionID None = true.
Proof. by vm_compute. Qed.

Definition ulp_codec_laws : @CodecLaws ULP_PDU_t ulp_codec := table_laws _ ulp_value ulp_view ulp_table.
Definition rrlp_codec_laws : @CodecLaws PDU_t rrlp_codec := table_laws _ rrlp_value rrlp_view rrlp_table.
Definition slp_codec_laws : @CodecLaws SlpSessionID slp_codec := table_laws _ slp_value (fun v => slp_view (Some v)) slp_table.

(** *** The length of a message *)

Definition length_ct : asn_per_constraint_t := AsnTypes.value UlpTables.ASN_PER_MEMB_LENGTH_CONSTR_2.

Lemma length_in_root n : 0 <= n < 65536 -> AsnInteger.in_root false length_ct n = true.
Proof.
  intros Hn. unfold AsnInteger.in_root. change (has_flag length_ct APC_SEMI_CONSTRAINED) with false. change (0 <=? range_bits length_ct) with true. cbn [as_field].
  change (lower_bound length_ct) with 0. change (upper_bound length_ct) with 65535. by rewrite (proj2 (Z.leb_le 0 n)), (proj2 (Z.leb_le n _)) by lia.
Qed.

Lemma encodable_length n : 0 <= n < 65536 -> encodable false (Some length_ct) n = true.
Proof. intros Hn. unfold encodable. by rewrite length_in_root. Qed.

Lemma length_code n : 0 <= n < 65536 -> native_code false (Some length_ct) n = val_bits 16 n.
Proof.
  intros Hn. unfold native_code. rewrite length_in_root by done.
  change (has_flag length_ct APC_EXTENSIBLE) with false. cbn [negb andb app]. change (range_bits length_ct) with 16. change (lower_bound length_ct) with 0.
  cbn [Z.leb Z.compare]. by rewrite Z.sub_0_r.
Qed.

(** The code of a message: its length and the other members, of which none is optional. *)
Definition rest_code (v2 v3 v4 : option asn_value) : list bool :=
  concat (zip_with member_code (field_of er otmp <$> tail UlpTables.asn_MBR_ULP_PDU_1) [v2; v3; v4]).

Lemma ulp_code n v2 v3 v4 : 0 <= n < 65536 ->
  code (spec_of er otmp UlpTables.asn_DEF_ULP_PDU None) (V_seq [Some (V_int n); v2; v3; v4]) = val_bits 16 n ++ rest_code v2 v3 v4.
Proof.
  intros Hn. rewrite <- (length_code n Hn). unfold rest_code. cbn [spec_of UlpTables.asn_DEF_ULP_PDU]. rewrite spec_field. cbn [code sequence_spec]. unfold sequence_code.
  change (root_count _ _) with 4%nat.
  change (take 4 (field_of er otmp <$> UlpTables.asn_MBR_ULP_PDU_1)) with
    (field_of er otmp (Member false false UlpTables.asn_DEF_NativeInteger (Some UlpTables.ASN_PER_MEMB_LENGTH_CONSTR_2)) ::
     (field_of er otmp <$> tail UlpTables.asn_MBR_ULP_PDU_1)).
  set (f := field_of er otmp <$> tail UlpTables.asn_MBR_ULP_PDU_1).
  change (0 <=? ext_before UlpTables.asn_SPC_ULP_PDU_specs_1) with false. cbn iota.
  change (length (_ :: f)) with 4%nat. cbn [take drop existsb]. cbn iota. rewrite app_nil_r.
  cbn [zip_with concat]. change (member_code _ (Some (V_int n))) with (native_code false (Some length_ct) n).
  assert (concat (zip_with presence_code f [v2; v3; v4]) = []) as -> by done. done.
Qed.

(** What a valid message is. *)
Lemma ulp_valid v : valid (spec_of er otmp UlpTables.asn_DEF_ULP_PDU None) v ->
  exists n v2 v3 v4, v = V_seq [Some (V_int n); v2; v3; v4] /\ 0 <= n < 65536.
Proof.
  cbn [spec_of UlpTables.asn_DEF_ULP_PDU]. rewrite spec_field. cbn [valid sequence_spec]. change (root_count _ _) with 4%nat.
  intros (rms & ams & -> & Hr & Ha).
  change (drop 4 (field_of er otmp <$> UlpTables.asn_MBR_ULP_PDU_1)) with (@nil field) in Ha. apply Forall2_nil_inv_l in Ha as ->. rewrite app_nil_r.
  change (take 4 (field_of er otmp <$> UlpTables.asn_MBR_ULP_PDU_1)) with
    (field_of er otmp (Member false false UlpTables.asn_DEF_NativeInteger (Some UlpTables.ASN_PER_MEMB_LENGTH_CONSTR_2)) ::
     (field_of er otmp <$> tail UlpTables.asn_MBR_ULP_PDU_1)) in Hr.
  apply Forall2_cons_inv_l in Hr as (m & rms' & Hm & Hr & ->). pose proof (Forall2_length Hr) as Hl. change (length _) with 3%nat in Hl at 1.
  destruct rms' as [|v2 [|v3 [|v4 [|]]]]; try done. destruct m as [v|]; [|by destruct Hm].
  change (valid (native_spec false (Some length_ct)) v) in Hm. destruct Hm as (n & -> & _ & He). exists n, v2, v3, v4. split; [done|].
  unfold encodable in He. change (has_flag length_ct APC_EXTENSIBLE) with false in He. rewrite orb_false_r in He. unfold AsnInteger.in_root in He.
  change (has_flag length_ct APC_SEMI_CONSTRAINED) with false in He. change (0 <=? range_bits length_ct) with true in He. cbn [as_field] in He.
  change (lower_bound length_ct) with 0 in He. change (upper_bound length_ct) with 65535 in He. checks. lia.
Qed.

(** The check of a message does not depend on which length it has. *)
Lemma ulp_check_length n n' v2 v3 v4 : 0 <= n' < 65536 -> value_check UlpTables.asn_DEF_ULP_PDU None (V_seq [Some (V_int n); v2; v3; v4]) = true ->
  value_check UlpTables.asn_DEF_ULP_PDU None (V_seq [Some (V_int n'); v2; v3; v4]) = true.
Proof.
  intros Hn. cbn [value_check UlpTables.asn_DEF_ULP_PDU UlpTables.asn_MBR_ULP_PDU_1 UlpTables.asn_DEF_NativeInteger which fmap option_fmap option_map]. intros [_ H]%andb_prop.
  rewrite int_check_within by (cbn; done || lia). exact H.
Qed.

(** Whatever a SEQUENCE without options and extensions gives back, its first member is what the
    decoder of that member left. *)
Lemma sequence_first specs e es pd r1 v1 pd1 r v pd' : ext_before specs = -1 -> ext_after specs = -1 -> roms_count specs = 0 -> aoms_count specs = 0 ->
  optional e = false -> dec (member_codec e) pd = Some (r1, v1, pd1) -> SEQUENCE_decode_uper specs (e :: es) pd = Some (r, v, pd') ->
  exists st, v = V_seq (Some v1 :: st).
Proof.
  intros H1 H2 H3 H4 Ho Hd Hs. unfold SEQUENCE_decode_uper in Hs. rewrite H1, H3, H4 in Hs. cbn [Z.leb Z.compare Z.ltb Z.eqb negb mbind option_bind] in Hs.
  cbn [decode_root] in Hs. unfold IN_EXTENSION_GROUP in Hs. rewrite H1, H2, Ho in Hs. cbn [Z.ltb Z.compare andb] in Hs. rewrite Hd in Hs. cbn [mbind option_bind] in Hs.
  destruct r1; cbn [mbind option_bind] in Hs; [|injection Hs as <- <- <-; by eexists..].
  destruct (decode_root _ es _ _ _) as [[[r2 st] pd2]|]; [|done]. cbn [mbind option_bind] in Hs.
  destruct r2; cbn [mbind option_bind fill_defaults Z.to_nat] in Hs; injection Hs as <- <- <-; by eexists.
Qed.

(** The length of a message that is cut short is stored as soon as its 16 bits are there. *)
Definition length_elm : asn_TYPE_member_t := elm_of er otmp (Member false false UlpTables.asn_DEF_NativeInteger (Some UlpTables.ASN_PER_MEMB_LENGTH_CONSTR_2)).

Lemma length_decoded n L k pd : 0 <= n < 65536 -> pd_at (take k (val_bits 16 n ++ L)) pd ->
  exists r pd', dec (member_codec length_elm) pd = Some (r, V_int (if (16 <=? k)%nat then n else 0), pd').
Proof.
  intros Hn Hpd. destruct (Nat.leb_spec 16 k) as [Hk|Hk].
  - rewrite take_app, take_ge in Hpd by (rewrite length_val_bits; lia). set (R := take _ L) in Hpd. rewrite <- (length_code n Hn) in Hpd.
    assert (ct_wf false (Some length_ct)) as Hwf by (apply (bool_decide_unpack _); vm_compute; exact I).
    destruct (dec_at _ _ (NativeInteger_implements false None (Some UlpTables.ASN_PER_MEMB_LENGTH_CONSTR_2) Hwf) (V_int n) R pd) with (2 := Hpd) as (pd' & E & _); [|by eexists _, _].
    exists n. split; [done|]. split; [lia|]. by apply encodable_length.
  - exists RC_WMORE, pd. pose proof (per_get_few_bits_short_stream _ pd 16 Hpd ltac:(rewrite length_take; lia)) as E.
    change (dec (member_codec length_elm) pd) with ('(r, z, pd') ← NativeInteger_decode_uper false (Some length_ct) 0 pd; Some (r, V_int z, pd')).
    unfold NativeInteger_decode_uper, INTEGER_decode_uper. change (has_flag length_ct APC_EXTENSIBLE) with false. cbn iota. unfold decode_value.
    change (negb (flags length_ct =? APC_UNCONSTRAINED) && (0 <=? range_bits length_ct)) with true. change (range_bits length_ct) with 16. cbn [Z.eqb Pos.eqb].
    by rewrite E.
Qed.

Lemma ulp_laws : @UlpLaws ulp_codec ulp_codec_laws.
Proof.
  split.
  - intros p C n [Hv ->] Hn. unfold uper_sends, ulp_codec_laws, table_laws, code_of in *. rewrite (code_same 0 [] er otmp).
    destruct (ulp_valid (ulp_value p)) as (n0 & v2 & v3 & v4 & E & Hn0); [by apply value_check_valid|].
    rewrite E, (ulp_code n0), length_app, length_val_bits by done. split; [lia|]. eexists. split; [split; [|reflexivity]|].
    + change (ulp_value (with_length p n)) with (V_seq (int_value' n :: match ulp_value p with V_seq ms => tail ms | _ => [] end)). rewrite E. cbn [tail].
      rewrite E in Hv. by apply (ulp_check_length n0).
    + change (ulp_value (with_length p n)) with (V_seq (int_value' n :: match ulp_value p with V_seq ms => tail ms | _ => [] end)). rewrite E. cbn [tail].
      unfold int_value'. rewrite (code_same 0 [] er otmp), ulp_code, length_app, length_val_bits by done. done.
  - intros p C k pd (v & Hv & -> & <-) Hk Hpd. set (s := spec_of er otmp UlpTables.asn_DEF_ULP_PDU None) in *.
    destruct (cut_short er otmp UlpTables.asn_DEF_ULP_PDU None v (take k (code s v)) (drop k (code s v)) pd Her Hob Hol ulp_table Hv) as (v' & pd' & E);
      [by rewrite take_drop|intros Hd; apply (f_equal length) in Hd; rewrite length_drop in Hd; change (length (@nil bool)) with 0%nat in Hd; lia|done|].
    destruct (ulp_valid v Hv) as (n & v2 & v3 & v4 & -> & Hn). unfold s in Hpd. rewrite ulp_code in Hpd by done.
    destruct (length_decoded n _ k pd Hn Hpd) as (r1 & pd1 & E1).
    pose proof E as E'. change (SEQUENCE_decode_uper UlpTables.asn_SPC_ULP_PDU_specs_1 (length_elm :: (elm_of er otmp <$> tail UlpTables.asn_MBR_ULP_PDU_1)) pd = Some (RC_WMORE, v', pd')) in E'.
    destruct (sequence_first UlpTables.asn_SPC_ULP_PDU_specs_1 length_elm _ _ _ _ _ _ _ _ eq_refl eq_refl eq_refl eq_refl eq_refl E1 E') as [st ->]. exists (ulp_view (V_seq (Some (V_int (if (16 <=? k)%nat then n else 0)) :: st))), pd'. split.
    + cbn [uper_decoder ulp_codec table_type]. unfold asn_DEF. by rewrite E.
    + cbn [ulp_length ulp_view member_of int_of]. by destruct (16 <=? k)%nat.
Qed.

(** *** Session identifiers and acknowledgements *)

(** A session identifier that passes the check reads as itself. *)
Lemma slp_view_value slp : value_check UlpTables.asn_DEF_SlpSessionID None (slp_value slp) = true -> slp_view (Some (slp_value slp)) = slp.
Proof. destruct slp as [o [|a|a]]; [|done..]. intros H. cbn in H. by rewrite !andb_false_r in H. Qed.

Lemma slp_receives slp C : @uper_sends _ _ slp_codec_laws slp C -> @uper_receives _ _ slp_codec_laws slp C.
Proof.
  intros [Hv ->]. exists (slp_value slp). split; [by apply value_check_valid|]. split; [unfold code_of; by rewrite (code_same er otmp 0 [])|by apply slp_view_value].
Qed.

Definition reference_ct : asn_per_constraint_t := AsnTypes.value RrlpTables.ASN_PER_MEMB_REFERENCE_NUMBER_CONSTR_2.

(** The reference number of a message that was received. *)
Lemma rrlp_reference v : valid (spec_of er otmp RrlpTables.asn_DEF_PDU None) v -> 0 <= referenceNumber (rrlp_view v) <= 7.
Proof.
  cbn [spec_of RrlpTables.asn_DEF_PDU]. rewrite spec_field. cbn [valid sequence_spec]. change (root_count _ _) with 2%nat.
  intros (rms & ams & -> & Hr & _).
  change (take 2 (field_of er otmp <$> RrlpTables.asn_MBR_PDU_1)) with
    (field_of er otmp (Member false false RrlpTables.asn_DEF_NativeInteger (Some RrlpTables.ASN_PER_MEMB_REFERENCE_NUMBER_CONSTR_2)) ::
     (field_of er otmp <$> tail RrlpTables.asn_MBR_PDU_1)) in Hr.
  apply Forall2_cons_inv_l in Hr as (m & rms' & Hm & _ & ->). destruct m as [v|]; [|by destruct Hm].
  change (valid (native_spec false (Some reference_ct)) v) in Hm. destruct Hm as (n & -> & _ & He). cbn [app referenceNumber rrlp_view member_of lookup list_lookup default from_option id int_of].
  unfold encodable in He. change (has_flag reference_ct APC_EXTENSIBLE) with false in He. rewrite orb_false_r in He. unfold AsnInteger.in_root in He.
  change (has_flag reference_ct APC_SEMI_CONSTRAINED) with false in He. change (0 <=? range_bits reference_ct) with true in He. cbn [as_field] in He.
  change (lower_bound reference_ct) with 0 in He. change (upper_bound reference_ct) with 7 in He. checks. lia.
Qed.

(** An acknowledgement is encoded in seven bits. *)
Lemma ack_code r : 0 <= referenceNumber r <= 7 ->
  value_check RrlpTables.asn_DEF_PDU None (rrlp_value (rrlp_ack r)) = true /\ length (code_of RrlpTables.asn_DEF_PDU None (rrlp_value (rrlp_ack r))) = 7%nat.
Proof.
  destruct r as [n c]. cbn [rrlp_ack rrlp_value referenceNumber component]. intros Hn.
  assert (n = 0 \/ n = 1 \/ n = 2 \/ n = 3 \/ n = 4 \/ n = 5 \/ n = 6 \/ n = 7) as H by lia. decompose [or] H; subst n; by vm_compute.
Qed.

(** ** The client *)

#[local] Existing Instances ulp_codec rrlp_codec slp_codec ulp_codec_laws rrlp_codec_laws slp_codec_laws ulp_laws.

Context {S : Type} `{HSO : SslOps S} `{HSL : !SslLaws S}.

(** C36: Receiving a ULP message with the generated codec, over a connection that gives octets of
    one record at a read: the octets of any valid structure, with their number in its length
    field and room for them in the buffer, may arrive in any number of records, cut anywhere after
    the second octet; the message is decoded to that structure, its size is exact and what the
    server sends after it is left unread. If the first read yields a single octet of a longer
    message, the message is not read to its end and the call fails. (The laws of the codec as a
    whole are used, so the result that the encoder of BOOLEAN leaves unset is not -1.) *)
Theorem supl_ulp_recv_reassembles s u (p : ULP_PDU_t) :
  ssl_up s ->
  (forall cs rest, ssl_pending s = cs ++ rest -> ulp_records (length (ubuffer u)) p cs ->
     exists u' s', supl_ulp_recv s u = Some (0, u', s') /\ pdu u' = Some p /\
       Supl.size u' = Z.of_nat (length (concat cs)) /\ length (ubuffer u') = length (ubuffer u) /\
       ssl_up s' /\ ssl_pending s' = rest /\ ssl_sent s' = ssl_sent s) /\
  (forall C x o rest, ssl_pending s = [x] :: rest -> uper_receives p C -> octets_of C (x :: o) -> o <> [] ->
     (0 < length (ubuffer u))%nat ->
     exists u' s', supl_ulp_recv s u = Some (E_SUPL_DECODE, u', s') /\ ssl_pending s' = rest).
Proof.
  intros Hup. split.
  - intros cs rest Hpend Hrec. by apply ulp_recv_at.
  - intros C x o rest Hpend Hv Ho Hne Hroom. by apply (ulp_recv_one_octet s u p C x o rest).
Qed.

Context (tmp : list Z) (Htmp : bytes tmp) (Htmp32 : length tmp = 32%nat).
Context (known_position : gsm_cell * QArith_base.Q * QArith_base.Q * Z -> Position).

(** The octets that a message of the client takes. *)
Definition ulp_octets (p : ULP_PDU_t) : Z := octets_needed (length (code_of UlpTables.asn_DEF_ULP_PDU None (ulp_value p))).

Lemma client_message p : value_check UlpTables.asn_DEF_ULP_PDU None (ulp_value p) = true -> ulp_octets p <= Z.of_nat sizeof_buffer -> client_ok sizeof_buffer p.
Proof. intros Hv Hf. eexists. split; [by split|]. unfold sizeof_buffer in *. unfold ulp_octets in Hf. lia. Qed.

(** What the messages of the client need: a cell of a public network, a position that the codec
    can encode if the cell is a known one, a session identifier of the server that can be encoded
    again, and room in the buffer of 8192 octets. *)
Record session_ok (ctx : supl_ctx_t) (slp : option SlpSessionID) : Prop := {
  so_ctx : ctx_ok ctx slp = true;
  so_position : ctx_flag ctx PARAM_GSM_CELL_KNOWN = true ->
    value_check UlpTables.asn_DEF_Position None (position_value (known_position (p_known ctx))) = true;
  so_slp : forall s, slp = Some s -> 0 < Z.of_nat (length (code_of UlpTables.asn_DEF_SlpSessionID None (slp_value s))) < 2 ^ 59;
  so_start : ulp_octets (start_pdu ctx) <= Z.of_nat sizeof_buffer;
  so_init : ulp_octets (pos_init_pdu known_position ctx slp) <= Z.of_nat sizeof_buffer;
  so_ack : forall x, is_byte x -> ulp_octets (ack_pdu ctx slp [x]) <= Z.of_nat sizeof_buffer }.

Section session.
Context (ctx : supl_ctx_t) (slp : option SlpSessionID) (Hok : session_ok ctx slp).

Lemma session_start : client_ok sizeof_buffer (start_pdu ctx).
Proof.
  apply client_message; [|apply (so_start _ _ Hok)]. apply (start_ok ctx 0); [|lia]. pose proof (so_ctx _ _ Hok) as H. unfold ctx_ok in *.
  apply andb_prop in H as [-> _]. done.
Qed.

Lemma session_init : client_ok sizeof_buffer (pos_init_pdu known_position ctx slp).
Proof. apply client_message; [|apply (so_init _ _ Hok)]. apply (pos_init_ok known_position ctx slp 0); [apply (so_ctx _ _ Hok)|lia|apply (so_position _ _ Hok)]. Qed.

Lemma session_ack r : 0 <= referenceNumber r <= 7 -> Supl.ack_ok sizeof_buffer ctx slp r.
Proof.
  intros Hr. destruct (ack_code r Hr) as [Hv Hl]. eexists. split; [split; [exact Hv|reflexivity]|]. rewrite Hl. split; [done|]. intros o Ho.
  pose proof (octets_of_length _ _ Ho) as Hlo. rewrite Hl in Hlo. change (octets_needed 7) with 1 in Hlo. destruct o as [|x [|]]; cbn [length] in Hlo; [lia| |lia].
  destruct Ho as [Hb _]. apply Forall_cons_1 in Hb as [Hx _]. apply client_message; [|by apply (so_ack _ _ Hok)].
  apply (SuplWire.ack_ok ctx slp [x] 0); [apply (so_ctx _ _ Hok)|lia|by apply Forall_cons_2; [|apply Forall_nil_2]|cbn; lia].
Qed.

Lemma session_slp s : slp = Some s -> slp_ok s.
Proof.
  intros E. pose proof (so_ctx _ _ Hok) as H. unfold ctx_ok in H. rewrite E in H. apply andb_prop in H as [_ H].
  eexists. assert (uper_sends s (code_of UlpTables.asn_DEF_SlpSessionID None (slp_value s))) as Hs by by split. split; [exact Hs|]. split; [by apply slp_receives|].
  by apply (so_slp _ _ Hok).
Qed.

End session.

Lemma served_references room rs cs : serves room rs cs -> Forall (fun r => 0 <= referenceNumber r <= 7) rs.
Proof.
  induction 1 as [p cs Hrec Hmsg|p o r cs Hrec Hmsg (C & (v & Hv & _ & <-) & _) Hmore|p o r cs rs css Hrec Hmsg (C & (v & Hv & _ & <-) & _) Hmore Hserve IH];
    repeat constructor; try (by apply rrlp_reference); done.
Qed.

(** C35: A session of the client with its generated codecs and a server that answers SUPLSTART by
    SUPLRESPONSE and SUPLPOSINIT by RRLP messages, the last of which does not announce more, or
    SUPLEND, each message cut into records anywhere after its second octet. If the client's own
    messages are within their constraints and fit the buffer ([session_ok]: a valid cell above
    all), the stack does not hold -1 where the encoder of BOOLEAN leaves its result unset, and the
    entries of the messages fit the arrays of the assistance data, the client returns 0, has sent
    SUPLSTART, SUPLPOSINIT with the session identifier of the response and one acknowledgement for
    each message that announces more, in that order, and the assistance data are those of the
    messages collected in order. *)
Theorem supl_get_assist_session fuel stack u0 ctx0 a0 s s1 p0 cs0 rs cs rest :
  length stack = 1024%nat -> length (ubuffer u0) = sizeof_buffer ->
  supl_server_connect s = (0, s1) -> ssl_up s1 -> ssl_pending s1 = cs0 ++ cs ++ rest ->
  ulp_records sizeof_buffer p0 cs0 -> message p0 = msSUPLRESPONSE ->
  let ctx := with_msisdn ctx0 set_msisdn in
  let slp := slpSessionID p0 in
  session_ok ctx slp -> serves sizeof_buffer rs cs -> (length rs < fuel)%nat ->
  (forall ts, length ts = length rs -> is_Some (collect_all rs ts zero_assist)) ->
  exists ctx1 ts a s' m1 m2 acks,
    supl_get_assist tmp known_position fuel stack u0 ctx0 a0 s = Some (0, ctx1, a, s') /\
    length ts = length rs /\ collect_all rs ts zero_assist = Some a /\
    ssl_sent s' = ssl_sent s1 ++ m1 :: m2 :: acks /\
    wire (start_pdu ctx) m1 /\ wire (pos_init_pdu known_position ctx slp) m2 /\
    Forall2 (ack_sent ctx slp) (filter (fun r => supl_more_rrlp r = true) rs) acks.
Proof.
  intros Hst Hl Hcon Hup Hpend Hrec Hmsg ctx slp Hok Hserve Hfuel Hcol.
  apply (get_assist_at tmp Htmp Htmp32 known_position sizeof_buffer fuel stack u0 ctx0 a0 s s1 p0 cs0 rs cs rest); try done.
  - intros sl Hsl. by apply (session_slp ctx slp Hok).
  - by apply session_start with slp.
  - by apply session_init.
  - eapply list.Forall_impl; [by eapply served_references|]. intros r Hr. by apply session_ack.
Qed.

(** A SUPLPOS message whose payload is not RRLP passes the checks of the loop, and
    the RRLP pointer is used without having been assigned. *)
Theorem supl_get_assist_uninitialised_rrlp f stack ctx u a s p cs rest payload :
  ssl_up s -> ssl_pending s = cs ++ rest -> ulp_records (length (ubuffer u)) p cs ->
  message p = msSUPLPOS payload -> (forall o, payload <> rrlpPayload o) ->
  assist_loop tmp (Datatypes.S f) stack ctx u a s = None.
Proof. by apply assist_loop_uninitialised. Qed.

End codecs.
