(* ===== verification/SuplExample.v ===== *)
(** * SuplExample: a session of the SUPL client

    A scripted connection that satisfies [SslLaws], messages of a server encoded by the
    generated tables and cut into records, and the theorems of [SuplCodec] applied to them. *)
From S2P Require Import Prelude PerSupport AsnInteger PerSafe PerCodec Rrlp Supl AsnTypes AsnOpenType AsnConstructed AsnTables SuplWire SuplCodec.
From S2P Require UlpTables RrlpTables AsnProps.

(** ** Connection *)

(** Records to be received, records sent, and a clock. *)
Record script := { s_rx : list (list Z); s_tx : list (list Z); s_clock : Z }.

Definition script_read (s : script) (n : Z) : Z * list Z * script :=
  match s_rx s with
  | [] => (0, [], s)
  | c :: cs =>
      let k := Z.to_nat n in
      (Z.of_nat (Nat.min k (length c)), take k c,
       {| s_rx := if (k <? length c)%nat then drop k c :: cs else cs; s_tx := s_tx s; s_clock := s_clock s |})
  end.

#[global] Instance script_ops : SslOps script :=
  {| SSL_CTX_new s := Some s; SSL_new s := Some s; server_connect s := Some s; SSL_connect s := (1, s);
     SSL_write s d := (Z.of_nat (length d), {| s_rx := s_rx s; s_tx := s_tx s ++ [d]; s_clock := s_clock s |});
     SSL_read := script_read; ssl_close s := s;
     gettimeofday s := ((s_clock s, 0), {| s_rx := s_rx s; s_tx := s_tx s; s_clock := s_clock s + 1 |}) |}.

#[global] Instance script_laws : SslLaws script.
Proof.
  refine {| ssl_up _ := True; ssl_pending := s_rx; ssl_sent := s_tx |}.
  - intros s d _ _. by eexists.
  - intros s n c cs _ Hp _ _. cbn [SSL_read script_ops]. unfold script_read. rewrite Hp, Nat2Z.id. by eexists.
  - intros s _. by eexists _, _.
  - done.
Defined.

(** ** Messages of the server *)

Definition stack0 : list Z := AsnProps.stack0.
Definition ulp_bits (v : asn_value) : list bool := code_of UlpTables.asn_DEF_ULP_PDU None v.
Definition rrlp_bits (v : asn_value) : list bool := code_of RrlpTables.asn_DEF_PDU None v.

(** The server is known by its name; its session identifier goes with every message. *)
Definition ex_session : asn_value := slp_value {| slp_sessionID := [1; 2; 3; 4]; slpId := SLPAddress_fQDN [104; 45; 115] |}.
Definition ex_ulp (n : Z) (m : asn_value) : asn_value :=
  V_seq [Some (V_int n); Some (V_seq [Some (V_int 1); Some (V_int 0); Some (V_int 0)]); Some (V_seq [None; Some ex_session]); Some m].

Definition ex_response : asn_value := ex_ulp 15 (V_choice 3 (Some (V_seq [Some (V_str [1] 0); None; None; None]))).
Definition ex_pos (n : Z) (payload : asn_value) : asn_value := ex_ulp n (V_choice 5 (Some (V_seq [Some payload; None]))).

(** Assistance data: more of them announced, and the time of week. *)
Definition ex_more : asn_value :=
  V_seq [Some (V_int 2); Some (V_choice 3 (Some (V_seq [None; None; None; None; Some (V_str [1] 0); None; None; None])))].
Definition ex_time : asn_value :=
  V_seq [Some (V_int 3); Some (V_choice 3 (Some (V_seq [None; None; None;
    Some (V_seq [Some (V_seq [Some (V_seq [Some (V_seq [Some (V_int 123456); Some (V_int 700)]); None; None]); None; None; None; None; None; None; None; None])]);
    None; None; None; None])))].

Definition ex_pos1 : asn_value := ex_pos 18 (V_choice 3 (Some (V_str [68; 10] 0))).
Definition ex_pos2 : asn_value := ex_pos 24 (V_choice 3 (Some (V_str [100; 18; 0; 1; 226; 64; 175; 0] 0))).
Definition ex_tia : asn_value := ex_pos 18 (V_choice 1 (Some (V_str [7; 7] 0))).

(** Their octets, as the server cuts them. *)
Definition ex_response_records : list (list Z) := [[0; 15]; [1; 0; 0; 64; 64; 128; 193]; [16; 43; 64; 224; 128; 32]].
Definition ex_pos1_records : list (list Z) := [[0; 18; 1; 0; 0; 64; 64; 128; 193; 16; 43; 64; 225; 4; 0; 20; 64]; [160]].
Definition ex_pos2_records : list (list Z) := [[0; 24; 1; 0; 0; 64; 64; 128; 193; 16; 43; 64; 225; 4; 0; 118; 65; 32; 0; 30; 36; 10; 240; 0]].
Definition ex_tia_records : list (list Z) := [[0; 18; 1; 0; 0; 64; 64; 128]; [193; 16; 43; 64; 225; 0; 0; 16; 112; 112]].

(** ** The client with its codecs *)

Lemma result_unset : 0 <> -1.
Proof. done. Qed.

#[local] Instance ex_ulp_codec : UperType ULP_PDU_t := ulp_codec 0 stack0.
#[local] Instance ex_rrlp_codec : UperType PDU_t := rrlp_codec 0 stack0.
#[local] Instance ex_slp_codec : UperType SlpSessionID := slp_codec 0 stack0.
#[local] Instance ex_ulp_laws : @CodecLaws ULP_PDU_t ex_ulp_codec := ulp_codec_laws 0 stack0 result_unset AsnProps.stack0_bytes eq_refl.
#[local] Instance ex_rrlp_laws : @CodecLaws PDU_t ex_rrlp_codec := rrlp_codec_laws 0 stack0 result_unset AsnProps.stack0_bytes eq_refl.
#[local] Instance ex_slp_laws : @CodecLaws SlpSessionID ex_slp_codec := slp_codec_laws 0 stack0 result_unset AsnProps.stack0_bytes eq_refl.

(** A structure that passes the check is received from its octets. *)
Lemma ex_ulp_received v o : value_check UlpTables.asn_DEF_ULP_PDU None v = true -> ulp_bits v <> [] -> octets (ulp_bits v) = o ->
  exists C, uper_receives (ulp_view v) C /\ octets_of C o.
Proof.
  intros Hv Hne <-. exists (ulp_bits v). split; [|by apply octets_spec]. exists v. split; [by apply value_check_valid|]. split; [|done].
  unfold ulp_bits, code_of. apply code_same.
Qed.

Lemma ex_records v cs : value_check UlpTables.asn_DEF_ULP_PDU None v = true -> ulp_bits v <> [] -> octets (ulp_bits v) = concat cs ->
  ulp_length (ulp_view v) = Z.of_nat (length (concat cs)) -> (length (concat cs) <= 100)%nat -> Forall (fun c => c <> []) cs ->
  (2 <= length (default [] (head cs)))%nat -> ulp_records sizeof_buffer (ulp_view v) cs.
Proof. intros Hv Hne Ho Hl Hs Hc H2. split; [by apply ex_ulp_received|]. split; [done|]. split; [unfold sizeof_buffer; lia|done]. Qed.

Ltac records := apply ex_records; [by vm_compute|by vm_compute|vm_compute; reflexivity|vm_compute; reflexivity|cbn; lia|by repeat constructor|cbn; lia].

Lemma ex_response_received : ulp_records sizeof_buffer (ulp_view ex_response) ex_response_records.
Proof. records. Qed.
Lemma ex_pos1_received : ulp_records sizeof_buffer (ulp_view ex_pos1) ex_pos1_records.
Proof. records. Qed.
Lemma ex_pos2_received : ulp_records sizeof_buffer (ulp_view ex_pos2) ex_pos2_records.
Proof. records. Qed.
Lemma ex_tia_received : ulp_records sizeof_buffer (ulp_view ex_tia) ex_tia_records.
Proof. records. Qed.

Lemma ex_payload v o : value_check RrlpTables.asn_DEF_PDU None v = true -> rrlp_bits v <> [] -> octets (rrlp_bits v) = o -> rrlp_octets (rrlp_view v) o.
Proof.
  intros Hv Hne <-. exists (rrlp_bits v). split; [|split; [done|by apply octets_spec]]. exists v. split; [by apply value_check_valid|]. split; [|done].
  unfold rrlp_bits, code_of. apply code_same.
Qed.

Lemma ex_serves : serves sizeof_buffer [rrlp_view ex_more; rrlp_view ex_time] (ex_pos1_records ++ ex_pos2_records).
Proof.
  apply (serves_more sizeof_buffer (ulp_view ex_pos1) [68; 10]); [apply ex_pos1_received|reflexivity| |vm_compute; reflexivity|].
  - apply ex_payload; [by vm_compute|by vm_compute|vm_compute; reflexivity].
  - apply (serves_last sizeof_buffer (ulp_view ex_pos2) [100; 18; 0; 1; 226; 64; 175; 0]); [apply ex_pos2_received|reflexivity| |vm_compute; reflexivity].
    apply ex_payload; [by vm_compute|by vm_compute|vm_compute; reflexivity].
Qed.

(** ** The session *)

Definition ex_tmp : list Z := replicate 32 0x5A.
Definition ex_stack : list Z := replicate 1024 0x77.
Definition ex_ulp0 : supl_ulp_t := {| pdu := None; Supl.size := 0; ubuffer := replicate sizeof_buffer 0xEE |}.
Definition ex_ctx0 : supl_ctx_t := supl_set_gsm_cell supl_ctx_new {| mcc := 214; mnc := 3; lac := 861; ci := 40181 |}.
Definition ex_ctx : supl_ctx_t := with_msisdn ex_ctx0 set_msisdn.
Definition ex_slp : option SlpSessionID := slpSessionID (ulp_view ex_response).
Definition ex_script : script := {| s_rx := ex_response_records ++ ex_pos1_records ++ ex_pos2_records; s_tx := []; s_clock := 100 |}.

Lemma ex_tmp_bytes : bytes ex_tmp.
Proof. by apply bytes_replicate. Qed.

Lemma ex_ulp0_length : length (ubuffer ex_ulp0) = sizeof_buffer.
Proof. apply length_replicate. Qed.

(** The sizes do not depend on the octet that is acknowledged. *)
Lemma ex_ack_octets x : is_byte x -> ulp_octets (ack_pdu ex_ctx ex_slp [x]) <= Z.of_nat sizeof_buffer.
Proof.
  intros Hx. unfold is_byte in Hx. apply Z.leb_le. rewrite <- (Z2Nat.id x) by lia.
  apply (proj1 (forallb_forall (fun n => ulp_octets (ack_pdu ex_ctx ex_slp [Z.of_nat n]) <=? Z.of_nat sizeof_buffer) (List.seq 0 256))); [by vm_compute|].
  apply in_seq. lia.
Qed.

Lemma ex_session_ok : session_ok example_position ex_ctx ex_slp.
Proof.
  split; [by vm_compute|by vm_compute|intros s [= <-]; by vm_compute|by vm_compute|by vm_compute|exact ex_ack_octets].
Qed.

Lemma ex_collect ts : length ts = 2%nat -> is_Some (collect_all [rrlp_view ex_more; rrlp_view ex_time] ts zero_assist).
Proof. destruct ts as [|t1 [|t2 [|]]]; [done|done| |done]. intros _. by eexists. Qed.

(** The response arrives in three records; cut after its first octet it is not received. *)
Lemma supl_ulp_recv_reassembles_witness :
  (exists u' s', supl_ulp_recv ex_script ex_ulp0 = Some (0, u', s') /\ pdu u' = Some (ulp_view ex_response) /\ Supl.size u' = 15 /\
     ssl_pending s' = ex_pos1_records ++ ex_pos2_records) /\
  exists u' s', supl_ulp_recv {| s_rx := [[0]; [15; 1; 0; 0; 64; 64; 128; 193; 16; 43; 64; 224; 128; 32]]; s_tx := []; s_clock := 0 |} ex_ulp0 =
      Some (E_SUPL_DECODE, u', s') /\ ssl_pending s' = [[15; 1; 0; 0; 64; 64; 128; 193; 16; 43; 64; 224; 128; 32]].
Proof.
  split.
  - destruct (proj1 (@supl_ulp_recv_reassembles 0 stack0 result_unset AsnProps.stack0_bytes eq_refl script script_ops script_laws ex_script ex_ulp0 (ulp_view ex_response) I)
      ex_response_records (ex_pos1_records ++ ex_pos2_records) eq_refl) as (u' & s' & H1 & H2 & H3 & _ & _ & H4 & _).
    + rewrite ex_ulp0_length. exact ex_response_received.
    + exists u', s'. split; [exact H1|]. split; [exact H2|]. split; [exact H3|exact H4].
  - destruct (ex_ulp_received ex_response (concat ex_response_records)) as (C & Hr & Ho); [by vm_compute|by vm_compute|vm_compute; reflexivity|].
    refine (proj2 (@supl_ulp_recv_reassembles 0 stack0 result_unset AsnProps.stack0_bytes eq_refl script script_ops script_laws
      {| s_rx := [[0]; [15; 1; 0; 0; 64; 64; 128; 193; 16; 43; 64; 224; 128; 32]]; s_tx := []; s_clock := 0 |} ex_ulp0 (ulp_view ex_response) I)
      C 0 [15; 1; 0; 0; 64; 64; 128; 193; 16; 43; 64; 224; 128; 32] _ eq_refl Hr Ho _ _); [discriminate|rewrite ex_ulp0_length; unfold sizeof_buffer; lia].
Defined.

Lemma supl_get_assist_session_witness :
  exists ctx1 ts a s' m1 m2 acks,
    supl_get_assist ex_tmp example_position 3 ex_stack ex_ulp0 ex_ctx0 zero_assist ex_script = Some (0, ctx1, a, s') /\
    length ts = 2%nat /\ collect_all [rrlp_view ex_more; rrlp_view ex_time] ts zero_assist = Some a /\
    ssl_sent s' = ssl_sent ex_script ++ m1 :: m2 :: acks /\
    wire (start_pdu ex_ctx) m1 /\ wire (pos_init_pdu example_position ex_ctx ex_slp) m2 /\
    Forall2 (ack_sent ex_ctx ex_slp) (filter (fun r => supl_more_rrlp r = true) [rrlp_view ex_more; rrlp_view ex_time]) acks.
Proof.
  apply (supl_get_assist_session 0 stack0 result_unset AsnProps.stack0_bytes eq_refl ex_tmp ex_tmp_bytes eq_refl example_position 3 ex_stack ex_ulp0 ex_ctx0
    zero_assist ex_script ex_script (ulp_view ex_response) ex_response_records [rrlp_view ex_more; rrlp_view ex_time] (ex_pos1_records ++ ex_pos2_records) []).
  - reflexivity.
  - apply ex_ulp0_length.
  - reflexivity.
  - exact I.
  - reflexivity.
  - exact ex_response_received.
  - reflexivity.
  - exact ex_session_ok.
  - exact ex_serves.
  - cbn. lia.
  - exact ex_collect.
Defined.

(** The time of week of the last message is in the result. *)
Lemma ex_session_time t1 t2 a : collect_all [rrlp_view ex_more; rrlp_view ex_time] [t1; t2] zero_assist = Some a ->
  gps_tow (time a) = 123456 /\ gps_week (time a) = 700.
Proof. intros E. vm_compute in E. by injection E as <-. Qed.

Lemma supl_get_assist_uninitialised_rrlp_witness :
  assist_loop ex_tmp 1 ex_stack ex_ctx ex_ulp0 zero_assist {| s_rx := ex_tia_records; s_tx := []; s_clock := 0 |} = None.
Proof.
  apply (supl_get_assist_uninitialised_rrlp 0 stack0 result_unset AsnProps.stack0_bytes eq_refl ex_tmp 0 ex_stack ex_ctx ex_ulp0 zero_assist
    {| s_rx := ex_tia_records; s_tx := []; s_clock := 0 |} (ulp_view ex_tia) ex_tia_records [] (tia801payload [7; 7])); [done|done| |done|done].
  rewrite ex_ulp0_length. apply ex_tia_received.
Defined.
