(* ===== verification/GnssSignal.v ===== *)
(** * Satellites and signals

    [Gnss_Satellite] and [Gnss_Signal] of [core/system_parameters], the values that the
    receiver's channel management moves between its lists and its channels, and the
    class [ConfigurationInterface] through which every component reads its parameters. *)
From stdpp Require Import strings.
From S2P Require Import Prelude.

#[local] Open Scope string_scope.
#[local] Open Scope list_scope.
#[local] Open Scope Z_scope.

(** ** Satellites *)

Record Gnss_Satellite := { system : string; block : string; PRN : Z; rf_link : Z }.

#[export] Instance Gnss_Satellite_eq_dec : EqDecision Gnss_Satellite.
Proof. solve_decision. Defined.

(** The members' initialisers, and [reset()]. *)
Definition Gnss_Satellite_default : Gnss_Satellite :=
  {| system := ""; block := ""; PRN := 0; rf_link := 0 |}.

Definition system_set : list string := ["GPS"; "Glonass"; "SBAS"; "Galileo"; "Beidou"].

Definition set_system (system_ : string) : string :=
  if decide (system_ ∈ system_set) then system_ else "".

Definition set_PRN (system : string) (PRN_ : Z) : Z :=
  if decide (system = "GPS") then (if (PRN_ <? 1) || (32 <? PRN_) then 0 else PRN_)
  else if decide (system = "Glonass") then (if (PRN_ <? 1) || (24 <? PRN_) then 0 else PRN_)
  else if decide (system = "SBAS") then
    (if (PRN_ =? 120) || (PRN_ =? 123) || (PRN_ =? 131) || (PRN_ =? 135) || (PRN_ =? 136) || (PRN_ =? 138)
     then PRN_ else 0)
  else if decide (system = "Galileo") then (if (PRN_ <? 1) || (36 <? PRN_) then 0 else PRN_)
  else if decide (system = "Beidou") then (if (PRN_ <? 1) || (63 <? PRN_) then 0 else PRN_)
  else 0.

(** The five [switch] statements of [what_block]; the one for GLONASS also sets the
    frequency channel. *)
Definition block_GPS (PRN_ : Z) : string :=
  match PRN_ with
  | 1 => "IIF" | 2 => "IIR" | 3 => "IIF" | 4 => "III" | 5 => "IIR-M" | 6 => "IIF" | 7 => "IIR-M" | 8 => "IIF"
  | 9 => "IIF" | 10 => "IIF" | 11 => "III" | 12 => "IIR-M" | 13 => "IIR" | 14 => "III" | 15 => "IIR-M"
  | 16 => "IIR" | 17 => "IIR-M" | 18 => "III" | 19 => "IIR" | 20 => "IIR" | 21 => "IIR" | 22 => "IIR"
  | 23 => "III" | 24 => "IIF" | 25 => "IIF" | 26 => "IIF" | 27 => "IIF" | 28 => "IIR" | 29 => "IIR-M"
  | 30 => "IIF" | 31 => "IIR-M" | 32 => "IIF"
  | _ => "Unknown"
  end.

Definition block_Glonass (PRN_ : Z) : string :=
  match PRN_ with
  | 1 => "1" | 2 => "-4" | 3 => "5" | 4 => "6" | 5 => "1" | 6 => "-4" | 7 => "5" | 8 => "6" | 9 => "-2"
  | 10 => "-7" | 11 => "0" | 12 => "-1" | 13 => "-2" | 14 => "-7" | 15 => "0" | 16 => "-1" | 17 => "4"
  | 18 => "-3" | 19 => "3" | 20 => "2" | 21 => "4" | 22 => "-3" | 23 => "3" | 24 => "2"
  | _ => "Unknown"
  end.

Definition block_SBAS (PRN_ : Z) : string :=
  match PRN_ with
  | 120 => "EGNOS Test Platform" | 123 => "EGNOS" | 131 => "WAAS" | 135 => "WAAS" | 136 => "EGNOS"
  | 138 => "WAAS"
  | _ => "Unknown"
  end.

Definition block_Galileo (PRN_ : Z) : string :=
  match PRN_ with
  | 1 => "FOC-FM10" | 2 => "FOC-FM11" | 3 => "FOC-FM12" | 4 => "FOC-FM13" | 5 => "FOC-FM14" | 7 => "FOC-FM7"
  | 8 => "FOC-FM8" | 9 => "FOC-FM9" | 11 => "IOV-PFM" | 12 => "IOV-FM2" | 13 => "FOC-FM20" | 14 => "FOC-FM2*"
  | 15 => "FOC-FM21" | 18 => "FOC-FM1*" | 19 => "IOV-FM3" | 20 => "IOV-FM4**" | 21 => "FOC-FM15"
  | 22 => "FOC-FM4**" | 24 => "FOC-FM5" | 25 => "FOC-FM16" | 26 => "FOC-FM3" | 27 => "FOC-FM17"
  | 30 => "FOC-FM6" | 31 => "FOC-FM18" | 33 => "FOC-FM22" | 36 => "FOC-FM19"
  | _ => "Unknown(Simulated)"
  end.

Definition block_Beidou (PRN_ : Z) : string :=
  match PRN_ with
  | 1 => "BeiDou-2 GEO01*" | 2 => "BeiDou-2 GEO06" | 3 => "BeiDou-2 GEO07" | 4 => "BeiDou-2 GEO04"
  | 5 => "BeiDou-2 GEO05" | 6 => "BeiDou-2 IGSO01" | 7 => "BeiDou-2 IGSO02" | 8 => "BeiDou-2 IGSO03"
  | 9 => "BeiDou-2 IGSO04" | 10 => "BeiDou-2 IGSO05" | 11 => "BeiDou-2 MEO03*" | 12 => "BeiDou-2 MEO04*"
  | 13 => "BeiDou-2 IGSO06" | 14 => "BeiDou-2 MEO06*" | 16 => "BeiDou-2 IGSO07" | 18 => "BeiDou-3 GEOG8"
  | 19 => "BeiDou-3 MEO01" | 20 => "BeiDou-3 MEO02" | 21 => "BeiDou-3 MEO03" | 22 => "BeiDou-3 MEO04"
  | 23 => "BeiDou-3 MEO05" | 24 => "BeiDou-3 MEO06" | 25 => "BeiDou-3 MEO11" | 26 => "BeiDou-3 MEO12"
  | 27 => "BeiDou-3 3M3" | 28 => "BeiDou-3 3M4" | 29 => "BeiDou-3 3M7" | 30 => "BeiDou-3 3M8"
  | 32 => "BeiDou-3 MEO13" | 33 => "BeiDou-3 MEO14" | 34 => "BeiDou-3 MEO15" | 35 => "BeiDou-3 MEO16"
  | 36 => "BeiDou-3 MEO17" | 37 => "BeiDou-3 MEO18" | 38 => "BeiDou-3 IGSOI1" | 39 => "BeiDou-3 IGSOI2"
  | 40 => "BeiDou-3 IGSOI3" | 41 => "BeiDou-3 MEO19" | 42 => "BeiDou-3 MEO20" | 43 => "BeiDou-3 MEO21"
  | 44 => "BeiDou-3 MEO22" | 45 => "BeiDou-3 MEO23" | 46 => "BeiDou-3 MEO24" | 59 => "BeiDou-3 GEOG1"
  | 60 => "BeiDou-3 GEOG2" | 61 => "BeiDou-3 GEOG3"
  | _ => "Unknown(Simulated)"
  end.

Definition rf_link_Glonass (PRN_ rf_link0 : Z) : Z :=
  match PRN_ with
  | 1 => 1 | 2 => -4 | 3 => 5 | 4 => 6 | 5 => 1 | 6 => -4 | 7 => 5 | 8 => 6 | 9 => -2 | 10 => -7 | 11 => 0
  | 12 => -1 | 13 => -2 | 14 => -7 | 15 => 0 | 16 => -1 | 17 => 4 | 18 => -3 | 19 => 3 | 20 => 2 | 21 => 4
  | 22 => -3 | 23 => 3 | 24 => 2
  | _ => rf_link0
  end.

(** Returns the block, and [rf_link] as the function leaves it. *)
Definition what_block (system_ : string) (PRN_ rf_link0 : Z) : string * Z :=
  if decide (system_ = "GPS") then (block_GPS PRN_, rf_link0)
  else if decide (system_ = "Glonass") then (block_Glonass PRN_, rf_link_Glonass PRN_ rf_link0)
  else if decide (system_ = "SBAS") then (block_SBAS PRN_, rf_link0)
  else if decide (system_ = "Galileo") then (block_Galileo PRN_, rf_link0)
  else if decide (system_ = "Beidou") then (block_Beidou PRN_, rf_link0)
  else ("Unknown", rf_link0).

(** The constructor: [reset], [set_system], [set_PRN], [set_block]. *)
Definition make_satellite (system_ : string) (PRN_ : Z) : Gnss_Satellite :=
  let sys := set_system system_ in
  let '(block_, rf) := what_block system_ PRN_ 0 in
  {| system := sys; block := block_; PRN := set_PRN sys PRN_; rf_link := rf |}.

(** [satelliteSystem.at(system)]: [None] is [std::out_of_range]. *)
Definition get_system_short (s : Gnss_Satellite) : option string :=
  if decide (system s = "GPS") then Some "G"
  else if decide (system s = "Glonass") then Some "R"
  else if decide (system s = "SBAS") then Some "S"
  else if decide (system s = "Galileo") then Some "E"
  else if decide (system s = "Beidou") then Some "C"
  else None.

(** [operator==] on satellites: the block is not compared. *)
Definition sat_eqb (a b : Gnss_Satellite) : bool :=
  bool_decide (system a = system b) && (PRN a =? PRN b) && (rf_link a =? rf_link b).

(** ** Signals *)

Record Gnss_Signal := { satellite : Gnss_Satellite; signal : string }.

#[export] Instance Gnss_Signal_eq_dec : EqDecision Gnss_Signal.
Proof. solve_decision. Defined.

(** [operator==] on signals compares [sig1.get_signal_str()] with itself. *)
Definition sig_eqb (a b : Gnss_Signal) : bool :=
  if sat_eqb (satellite a) (satellite b) then bool_decide (signal a = signal a) else false.

(** ** Kinds of signals *)

(** [GNSSFlowgraph::StringValue], with the source's names. *)
Inductive StringValue :=
  | evGPS_1C | evGPS_2S | evGPS_L5 | evSBAS_1C | evGAL_1B | evGAL_5X | evGAL_7X | evGAL_E6
  | evGLO_1G | evGLO_2G | evBDS_B1 | evBDS_B3.

#[export] Instance StringValue_eq_dec : EqDecision StringValue.
Proof. solve_decision. Defined.

(** [mapStringValues_[s]] after [init]: an unknown key is inserted with value 0, which is
    [evGPS_1C]; no key has the value [evSBAS_1C]. *)
Definition mapStringValues (s : string) : StringValue :=
  if decide (s = "1C") then evGPS_1C else if decide (s = "2S") then evGPS_2S
  else if decide (s = "L5") then evGPS_L5 else if decide (s = "1B") then evGAL_1B
  else if decide (s = "5X") then evGAL_5X else if decide (s = "7X") then evGAL_7X
  else if decide (s = "E6") then evGAL_E6 else if decide (s = "1G") then evGLO_1G
  else if decide (s = "2G") then evGLO_2G else if decide (s = "B1") then evBDS_B1
  else if decide (s = "B3") then evBDS_B3 else evGPS_1C.

(** The two-character name of a kind of signal, and the system that transmits it. *)
Definition ev_str (ev : StringValue) : string :=
  match ev with
  | evGPS_1C | evSBAS_1C => "1C" | evGPS_2S => "2S" | evGPS_L5 => "L5" | evGAL_1B => "1B"
  | evGAL_5X => "5X" | evGAL_7X => "7X" | evGAL_E6 => "E6" | evGLO_1G => "1G" | evGLO_2G => "2G"
  | evBDS_B1 => "B1" | evBDS_B3 => "B3"
  end.

Definition ev_system (ev : StringValue) : string :=
  match ev with
  | evGPS_1C | evGPS_2S | evGPS_L5 => "GPS" | evSBAS_1C => "SBAS"
  | evGAL_1B | evGAL_5X | evGAL_7X | evGAL_E6 => "Galileo"
  | evGLO_1G | evGLO_2G => "Glonass" | evBDS_B1 | evBDS_B3 => "Beidou"
  end.

(** [Gnss_Signal(Gnss_Satellite(system, prn), str)] for a kind of signal. *)
Definition make_signal (ev : StringValue) (prn : Z) : Gnss_Signal :=
  {| satellite := make_satellite (ev_system ev) prn; signal := ev_str ev |}.

(** ** Configuration *)

(** The overloads of [property(name, default)] that the receiver control uses. The text
    values of [*.prns] go through [boost::tokenizer] and [boost::lexical_cast]:
    [prns] is the resulting sequence of numbers. *)
Class ConfigurationInterface := {
  property_int : string -> Z -> Z;
  property_bool : string -> bool -> bool;
  property_str : string -> string -> string;
  prns : string -> list Z;
}.

(** ** Lemmas *)

Lemma mapStringValues_str ev : ev <> evSBAS_1C -> mapStringValues (ev_str ev) = ev.
Proof. by destruct ev. Qed.

Lemma mapStringValues_not_SBAS s : mapStringValues s <> evSBAS_1C.
Proof. unfold mapStringValues. repeat case_decide; done. Qed.

Lemma ev_system_short ev prn : get_system_short (satellite (make_signal ev prn)) <> None.
Proof.
  by destruct ev; unfold make_signal, make_satellite; cbn; destruct (what_block _ _ _).
Qed.

(** A number that the system knows. *)
Definition valid_prn (ev : StringValue) (prn : Z) : Prop := set_PRN (ev_system ev) prn = prn.

#[export] Instance valid_prn_dec ev prn : Decision (valid_prn ev prn).
Proof. unfold valid_prn. apply _. Defined.

Lemma signal_PRN ev prn : valid_prn ev prn -> PRN (satellite (make_signal ev prn)) = prn.
Proof.
  intros H. unfold make_signal, make_satellite; cbn [satellite].
  destruct (what_block _ _ _). cbn [PRN]. by destruct ev.
Qed.

(** On the signals of one kind the comparison is the one of their numbers, although it
    ignores the kind. *)
Lemma sig_eqb_make ev p q : valid_prn ev p -> valid_prn ev q ->
  sig_eqb (make_signal ev p) (make_signal ev q) = bool_decide (p = q).
Proof.
  intros Hp Hq. unfold sig_eqb, sat_eqb. rewrite !signal_PRN by done.
  rewrite (bool_decide_true (signal _ = signal _)) by done.
  destruct (decide (p = q)) as [->|Heq].
  - by rewrite !bool_decide_true, !Z.eqb_refl.
  - by rewrite (bool_decide_false (p = q)), (proj2 (Z.eqb_neq p q)), andb_false_r.
Qed.

Lemma make_signal_inj ev p q : valid_prn ev p -> valid_prn ev q ->
  make_signal ev p = make_signal ev q -> p = q.
Proof. intros Hp Hq H. by rewrite <- (signal_PRN ev p), <- (signal_PRN ev q), H by done. Qed.

(** The comparison of signals does not look at the kind: GPS L1 and GPS L5 of a satellite
    compare equal. *)
Lemma sig_eqb_ignores_kind ev ev' p : ev_system ev = ev_system ev' ->
  sig_eqb (make_signal ev p) (make_signal ev' p) = true.
Proof.
  intros H. unfold sig_eqb, sat_eqb, make_signal; cbn [satellite]. rewrite <- H.
  by rewrite !bool_decide_true, !Z.eqb_refl.
Qed.
