(* ===== verification/ChannelFsm.v ===== *)
(** * Channels

    [ChannelFsm] ([algorithms/channel/libs/channel_fsm.cc]), the message receiver that
    drives it, the [Channel] that owns it, the control queue and the table of channel
    states: what happens on the side of the signal-processing threads. The calls of a
    channel on its acquisition, tracking and telemetry blocks are recorded in order. *)
From stdpp Require Import strings pretty.
From S2P Require Import Prelude GnssSignal.

#[local] Open Scope string_scope.
#[local] Open Scope list_scope.
#[local] Open Scope Z_scope.

(** ** The control queue *)

(** The objects in the queue: [Channel_Event], [Command_Event], anything else. *)
Inductive control_msg :=
  | Channel_Event (channel_id event_type : Z)
  | Command_Event (command_id event_type : Z)
  | Other_Object.

#[export] Instance control_msg_eq_dec : EqDecision control_msg.
Proof. solve_decision. Defined.

(** [Concurrent_Queue]: each operation runs under the queue's mutex. [arrivals] is what
    other threads push while [timed_wait_and_pop] has released it. *)
Module Concurrent_Queue.

Definition push {Data} (data : Data) (the_queue : list Data) : list Data := the_queue ++ [data].

Definition empty {Data} (the_queue : list Data) : bool :=
  match the_queue with [] => true | _ => false end.

Definition try_pop {Data} (the_queue : list Data) : option Data * list Data :=
  match the_queue with
  | [] => (None, [])
  | popped_value :: q => (Some popped_value, q)
  end.

Definition timed_wait_and_pop {Data} (the_queue arrivals : list Data) : option Data * list Data :=
  match the_queue with
  | [] => match arrivals with
          | [] => (None, [])
          | popped_value :: q => (Some popped_value, q)
          end
  | popped_value :: q => (Some popped_value, q)
  end.

End Concurrent_Queue.

(** ** What the blocks exchange *)

(** The value of a [double]: its bits as it was measured, zero, or an expression over
    these ([static_cast<float>], [static_cast<int>], a quotient times a factor), with the
    frequencies in Hz. *)
Inductive double_expr :=
  | d_zero
  | d_bits (b : Z)
  | d_float (e : double_expr)
  | d_int (e : double_expr)
  | d_div_mul (e : double_expr) (den num : Z).

(** The members of [Gnss_Synchro] that the control plane reads or writes. *)
Record Gnss_Synchro := {
  System : string; Signal : string; syn_PRN : Z; Channel_ID : Z;
  Carrier_Doppler_hz : Z; RX_time : Z; Flag_valid_pseudorange : bool }.

(** Calls on the blocks of a channel. *)
Inductive block_call :=
  | acq_stop_acquisition | acq_reset | acq_set_local_code | acq_set_doppler_center (hz : double_expr)
  | trk_start_tracking | trk_stop_tracking | trk_set_gnss_synchro
  | nav_reset | nav_set_satellite (s : Gnss_Satellite).

(** ** The state machine *)

(** [state_] is 0 in standby, 1 in acquisition, 2 in tracking, 3 while a new satellite is
    requested. *)
Record ChannelFsm := { channel_ : Z; state_ : Z; calls : list block_call }.

Definition set_state (s : Z) (f : ChannelFsm) : ChannelFsm :=
  {| channel_ := channel_ f; state_ := s; calls := calls f |}.

Definition call (cs : list block_call) (f : ChannelFsm) : ChannelFsm :=
  {| channel_ := channel_ f; state_ := state_ f; calls := calls f ++ cs |}.

Definition stop_acquisition : ChannelFsm -> ChannelFsm := call [acq_stop_acquisition].
Definition stop_tracking : ChannelFsm -> ChannelFsm := call [trk_stop_tracking].
Definition start_acquisition : ChannelFsm -> ChannelFsm := call [acq_reset; nav_reset].

Definition start_tracking (f : ChannelFsm) (q : list control_msg) : ChannelFsm * list control_msg :=
  (call [trk_start_tracking] f, Concurrent_Queue.push (Channel_Event (channel_ f) 1) q).

Definition request_satellite (f : ChannelFsm) (q : list control_msg) : ChannelFsm * list control_msg :=
  (f, Concurrent_Queue.push (Channel_Event (channel_ f) 0) q).

Definition notify_stop_tracking (f : ChannelFsm) (q : list control_msg) : ChannelFsm * list control_msg :=
  (f, Concurrent_Queue.push (Channel_Event (channel_ f) 2) q).

Definition Event_stop_channel (f : ChannelFsm) : bool * ChannelFsm :=
  (true, if state_ f =? 1 then stop_acquisition (set_state 0 f)
         else if state_ f =? 2 then stop_tracking (set_state 0 f) else f).

Definition Event_start_acquisition_fpga (f : ChannelFsm) : bool * ChannelFsm :=
  if (state_ f =? 1) || (state_ f =? 2) then (false, f) else (true, set_state 1 f).

Definition Event_start_acquisition (f : ChannelFsm) : bool * ChannelFsm :=
  if (state_ f =? 1) || (state_ f =? 2) then (false, f)
  else (true, start_acquisition (set_state 1 f)).

Definition Event_valid_acquisition (f : ChannelFsm) (q : list control_msg)
  : bool * (ChannelFsm * list control_msg) :=
  if negb (state_ f =? 1) then (false, (f, q)) else (true, start_tracking (set_state 2 f) q).

Definition Event_failed_acquisition_repeat (f : ChannelFsm) (q : list control_msg)
  : bool * (ChannelFsm * list control_msg) :=
  if negb (state_ f =? 1) then (false, (f, q)) else (true, (start_acquisition (set_state 1 f), q)).

Definition Event_failed_acquisition_no_repeat (f : ChannelFsm) (q : list control_msg)
  : bool * (ChannelFsm * list control_msg) :=
  if negb (state_ f =? 1) then (false, (f, q)) else (true, request_satellite (set_state 3 f) q).

Definition Event_failed_tracking_standby (f : ChannelFsm) (q : list control_msg)
  : bool * (ChannelFsm * list control_msg) :=
  if negb (state_ f =? 2) then (false, (f, q)) else (true, notify_stop_tracking (set_state 0 f) q).

(** [channel_msg_receiver_cc]: the acquisition and tracking blocks report 1 (signal found),
    2 (not found), 3 (lock lost). *)
Definition msg_handler_channel_events (d_repeat : bool) (message : Z) (f : ChannelFsm)
    (q : list control_msg) : bool * (ChannelFsm * list control_msg) :=
  if message =? 1 then Event_valid_acquisition f q
  else if message =? 2 then
    (if d_repeat then Event_failed_acquisition_repeat f q else Event_failed_acquisition_no_repeat f q)
  else if message =? 3 then Event_failed_tracking_standby f q
  else (false, (f, q)).

(** ** The channel *)

Record Channel := {
  gnss_signal_ : Gnss_Signal; gnss_synchro_ : Gnss_Synchro; channel_fsm_ : ChannelFsm;
  repeat_ : bool; flag_enable_fpga_ : bool }.

Definition set_fsm (f : ChannelFsm) (c : Channel) : Channel :=
  {| gnss_signal_ := gnss_signal_ c; gnss_synchro_ := gnss_synchro_ c; channel_fsm_ := f;
     repeat_ := repeat_ c; flag_enable_fpga_ := flag_enable_fpga_ c |}.

(** The constructor, as far as the control plane sees it. *)
Definition make_channel `{ConfigurationInterface} (channel : Z) (signal_str : string) : Channel :=
  {| gnss_signal_ := {| satellite := Gnss_Satellite_default; signal := signal_str |};
     gnss_synchro_ := {| System := ""; Signal := ""; syn_PRN := 0; Channel_ID := channel;
                         Carrier_Doppler_hz := 0; RX_time := 0; Flag_valid_pseudorange := false |};
     channel_fsm_ := {| channel_ := channel; state_ := 0; calls := [] |};
     repeat_ := property_bool ("Acquisition_" +:+ signal_str +:+ pretty channel +:+ ".repeat_satellite") false;
     flag_enable_fpga_ := property_bool "GNSS-SDR.enable_FPGA" false |}.

(** [None]: the system of the satellite has no letter ([std::out_of_range]), or the
    signal name is empty ([str_aux[1]] is past the terminator). *)
Definition set_signal (gnss_signal : Gnss_Signal) (c : Channel) : option Channel :=
  letter ← get_system_short (satellite gnss_signal);
  if decide (signal gnss_signal = "") then None
  else
    let y := gnss_synchro_ c in
    Some {| gnss_signal_ := gnss_signal;
            gnss_synchro_ := {| System := letter; Signal := String.substring 0 2 (signal gnss_signal);
              syn_PRN := PRN (satellite gnss_signal); Channel_ID := Channel_ID y;
              Carrier_Doppler_hz := Carrier_Doppler_hz y; RX_time := RX_time y;
              Flag_valid_pseudorange := Flag_valid_pseudorange y |};
            channel_fsm_ := call (acq_set_local_code ::
              (if flag_enable_fpga_ c then [trk_set_gnss_synchro] else []) ++
              [nav_set_satellite (satellite gnss_signal)]) (channel_fsm_ c);
            repeat_ := repeat_ c; flag_enable_fpga_ := flag_enable_fpga_ c |}.

Definition stop_channel (c : Channel) : Channel := set_fsm (snd (Event_stop_channel (channel_fsm_ c))) c.

Definition assist_acquisition_doppler (hz : double_expr) (c : Channel) : Channel :=
  set_fsm (call [acq_set_doppler_center (d_int hz)] (channel_fsm_ c)) c.

(** Named after its caller: [Channel::start_acquisition]. *)
Definition Channel_start_acquisition (c : Channel) : Channel :=
  if negb (flag_enable_fpga_ c) then set_fsm (snd (Event_start_acquisition (channel_fsm_ c))) c
  else set_fsm (start_acquisition (snd (Event_start_acquisition_fpga (channel_fsm_ c)))) c.

(** A report of one of the blocks of the channel. *)
Definition block_report (message : Z) (c : Channel) (q : list control_msg) : Channel * list control_msg :=
  let '(_, (f, q')) := msg_handler_channel_events (repeat_ c) message (channel_fsm_ c) q in
  (set_fsm f c, q').

(** ** Channel status *)

(** [d_channel_status_map], a [std::map] by channel number: sorted, one entry per key. *)
Fixpoint map_set {A} (k : Z) (v : A) (m : list (Z * A)) : list (Z * A) :=
  match m with
  | [] => [(k, v)]
  | (k', v') :: m' =>
      if k <? k' then (k, v) :: m else if k =? k' then (k, v) :: m' else (k', v') :: map_set k v m'
  end.

Definition map_erase {A} (k : Z) (m : list (Z * A)) : list (Z * A) :=
  filter (fun p => p.1 <> k) m.

Definition msg_handler_channel_status (y : Gnss_Synchro) (m : list (Z * Gnss_Synchro))
  : list (Z * Gnss_Synchro) :=
  if Flag_valid_pseudorange y then map_set (Channel_ID y) y m else map_erase (Channel_ID y) m.

(** ** The state machine against its transition table *)

Inductive phase := Standby | Acquisition | Tracking | Requesting.

Definition phase_of (s : Z) : option phase :=
  match s with 0 => Some Standby | 1 => Some Acquisition | 2 => Some Tracking | 3 => Some Requesting | _ => None end.

Inductive fsm_input := In_start | In_stop | In_report (message : Z).

Definition fsm_input_step (d_repeat : bool) (i : fsm_input) (f : ChannelFsm) (q : list control_msg)
  : ChannelFsm * list control_msg :=
  match i with
  | In_start => (snd (Event_start_acquisition f), q)
  | In_stop => (snd (Event_stop_channel f), q)
  | In_report m => snd (msg_handler_channel_events d_repeat m f q)
  end.

(** From a phase, on an input, to a phase, with calls on the blocks and possibly an event
    for the control thread. Inputs without an entry are ignored. *)
Inductive fsm_trans (d_repeat : bool) : phase -> fsm_input -> phase -> list block_call -> option Z -> Prop :=
  | T_start p : p = Standby \/ p = Requesting ->
      fsm_trans d_repeat p In_start Acquisition [acq_reset; nav_reset] None
  | T_stop_acquisition : fsm_trans d_repeat Acquisition In_stop Standby [acq_stop_acquisition] None
  | T_stop_tracking : fsm_trans d_repeat Tracking In_stop Standby [trk_stop_tracking] None
  | T_found : fsm_trans d_repeat Acquisition (In_report 1) Tracking [trk_start_tracking] (Some 1)
  | T_again : d_repeat = true ->
      fsm_trans d_repeat Acquisition (In_report 2) Acquisition [acq_reset; nav_reset] None
  | T_not_found : d_repeat = false ->
      fsm_trans d_repeat Acquisition (In_report 2) Requesting [] (Some 0)
  | T_lost : fsm_trans d_repeat Tracking (In_report 3) Standby [] (Some 2).

Lemma phase_of_Some s p : phase_of s = Some p -> s = 0 \/ s = 1 \/ s = 2 \/ s = 3.
Proof. destruct s as [|[[|[]|]|[|[]|]|]|]; cbn; try done; lia. Qed.

Ltac fsm_ignored := right; split; [by intros ??? Ht; inversion Ht; subst; naive_solver|done].

Ltac fsm_taken p cs ev :=
  left; exists p, cs, ev; split; [by constructor; auto|];
  unfold call, set_state; cbn; rewrite ?app_nil_r; done.

Lemma fsm_report_step d_repeat m f q p : phase_of (state_ f) = Some p ->
  let '(f', q') := fsm_input_step d_repeat (In_report m) f q in
  (exists p' cs ev, fsm_trans d_repeat p (In_report m) p' cs ev /\ phase_of (state_ f') = Some p' /\
     f' = call cs (set_state (state_ f') f) /\
     q' = q ++ (match ev with Some e => [Channel_Event (channel_ f) e] | None => [] end)) \/
  ((forall p' cs ev, ~ fsm_trans d_repeat p (In_report m) p' cs ev) /\ f' = f /\ q' = q).
Proof.
  intros Hp. destruct f as [ch st cs]; cbn [state_] in Hp.
  destruct (phase_of_Some _ _ Hp) as [-> | [-> | [-> | ->]]]; injection Hp as <-;
    unfold fsm_input_step, msg_handler_channel_events;
    destruct (Z.eqb_spec m 1) as [->|?]; [fsm_ignored| |fsm_taken Tracking [trk_start_tracking] (Some 1)| |fsm_ignored| |fsm_ignored|];
    destruct (Z.eqb_spec m 2) as [->|?]; try (destruct (Z.eqb_spec m 3) as [->|?]);
    destruct d_repeat; try fsm_ignored.
  - fsm_taken Acquisition [acq_reset; nav_reset] (@None Z).
  - fsm_taken Requesting (@nil block_call) (Some 0).
  - fsm_taken Standby (@nil block_call) (Some 2).
  - fsm_taken Standby (@nil block_call) (Some 2).
Qed.

Lemma fsm_command_step d_repeat i f q p : phase_of (state_ f) = Some p -> i = In_start \/ i = In_stop ->
  let '(f', q') := fsm_input_step d_repeat i f q in
  (exists p' cs ev, fsm_trans d_repeat p i p' cs ev /\ phase_of (state_ f') = Some p' /\
     f' = call cs (set_state (state_ f') f) /\
     q' = q ++ (match ev with Some e => [Channel_Event (channel_ f) e] | None => [] end)) \/
  ((forall p' cs ev, ~ fsm_trans d_repeat p i p' cs ev) /\ f' = f /\ q' = q).
Proof.
  intros Hp Hi. destruct f as [ch st cs]; cbn [state_] in Hp.
  destruct (phase_of_Some _ _ Hp) as [-> | [-> | [-> | ->]]]; injection Hp as <-;
    destruct Hi as [->| ->]; try fsm_ignored.
  - fsm_taken Acquisition [acq_reset; nav_reset] (@None Z).
  - fsm_taken Standby [acq_stop_acquisition] (@None Z).
  - fsm_taken Standby [trk_stop_tracking] (@None Z).
  - fsm_taken Acquisition [acq_reset; nav_reset] (@None Z).
Qed.

(** A report leaves the state as it is, or is one of the three that the control thread
    hears of. *)
Lemma block_report_cases m ch q : exists s cs evs,
  block_report m ch q = (set_fsm (call cs (set_state s (channel_fsm_ ch))) ch,
                         q ++ ((Channel_Event (channel_ (channel_fsm_ ch))) <$> evs)) /\
  ((s = state_ (channel_fsm_ ch) /\ evs = []) \/
   (m = 1 /\ state_ (channel_fsm_ ch) = 1 /\ s = 2 /\ evs = [1]) \/
   (m = 2 /\ state_ (channel_fsm_ ch) = 1 /\ s = 3 /\ evs = [0]) \/
   (m = 3 /\ state_ (channel_fsm_ ch) = 2 /\ s = 0 /\ evs = [2])).
Proof.
  destruct ch as [sig syn f rep fpga]. cbn [channel_fsm_]. destruct f as [n st cs0]. cbn [state_ channel_].
  assert (block_report m (Build_Channel sig syn (Build_ChannelFsm n st cs0) rep fpga) q =
    (Build_Channel sig syn (Build_ChannelFsm n st cs0) rep fpga, q) ->
    exists s cs evs, block_report m (Build_Channel sig syn (Build_ChannelFsm n st cs0) rep fpga) q =
      (set_fsm (call cs (set_state s (Build_ChannelFsm n st cs0))) (Build_Channel sig syn (Build_ChannelFsm n st cs0) rep fpga),
       q ++ (Channel_Event n <$> evs)) /\
    ((s = st /\ evs = []) \/ (m = 1 /\ st = 1 /\ s = 2 /\ evs = [1]) \/ (m = 2 /\ st = 1 /\ s = 3 /\ evs = [0]) \/
     (m = 3 /\ st = 2 /\ s = 0 /\ evs = [2]))) as Hsame.
  { intros ->. exists st, [], []. unfold set_fsm, call, set_state; cbn. rewrite !app_nil_r. auto. }
  revert Hsame. unfold block_report, msg_handler_channel_events, Event_valid_acquisition,
    Event_failed_acquisition_repeat, Event_failed_acquisition_no_repeat, Event_failed_tracking_standby. cbn.
  destruct (Z.eqb_spec m 1) as [->|]; [|destruct (Z.eqb_spec m 2) as [->|]; [destruct rep|destruct (Z.eqb_spec m 3) as [->|]]];
    try (destruct (Z.eqb_spec st 1) as [->|]); try (destruct (Z.eqb_spec st 2) as [->|]);
    cbn; intros Hsame; try (by apply Hsame).
  - exists 2, [trk_start_tracking], [1]. split; [done|naive_solver].
  - exists 1, [acq_reset; nav_reset], []. cbn. rewrite !app_nil_r. split; [done|naive_solver].
  - exists 3, [], [0]. unfold set_fsm, call, set_state; cbn. rewrite !app_nil_r. split; [done|naive_solver].
  - exists 0, [], [2]. unfold set_fsm, call, set_state; cbn. rewrite !app_nil_r. split; [done|naive_solver].
Qed.
