(* ===== verification/Flowgraph.v ===== *)
(** * The flow graph's channel management

    [GNSSFlowgraph] ([core/receiver/gnss_flowgraph.cc]): the lists of signals to search
    for, the assignment of signals to channels, and the reaction to the events of the
    channels. Connecting the signal-processing blocks is not modelled. *)
From Stdlib Require Import Ascii.
From stdpp Require Import strings pretty.
From S2P Require Import Prelude GnssSignal ChannelFsm.

#[local] Open Scope string_scope.
#[local] Open Scope list_scope.
#[local] Open Scope Z_scope.

(** ** State *)

(** The lists [available_*_signals_]. *)
Record available_signals := {
  available_GPS_1C : list Gnss_Signal; available_GPS_2S : list Gnss_Signal;
  available_GPS_L5 : list Gnss_Signal; available_SBAS_1C : list Gnss_Signal;
  available_GAL_1B : list Gnss_Signal; available_GAL_5X : list Gnss_Signal;
  available_GAL_7X : list Gnss_Signal; available_GAL_E6 : list Gnss_Signal;
  available_GLO_1G : list Gnss_Signal; available_GLO_2G : list Gnss_Signal;
  available_BDS_B1 : list Gnss_Signal; available_BDS_B3 : list Gnss_Signal }.

(** The list that the [switch] statements select for a kind of signal. *)
Definition pool (ev : StringValue) (P : available_signals) : list Gnss_Signal :=
  match ev with
  | evGPS_1C => available_GPS_1C P | evGPS_2S => available_GPS_2S P | evGPS_L5 => available_GPS_L5 P
  | evSBAS_1C => available_SBAS_1C P | evGAL_1B => available_GAL_1B P | evGAL_5X => available_GAL_5X P
  | evGAL_7X => available_GAL_7X P | evGAL_E6 => available_GAL_E6 P | evGLO_1G => available_GLO_1G P
  | evGLO_2G => available_GLO_2G P | evBDS_B1 => available_BDS_B1 P | evBDS_B3 => available_BDS_B3 P
  end.

Definition set_pool (ev : StringValue) (l : list Gnss_Signal) (P : available_signals) : available_signals :=
  let '(Build_available_signals a b c d e f g h i j k m) := P in
  match ev with
  | evGPS_1C => Build_available_signals l b c d e f g h i j k m
  | evGPS_2S => Build_available_signals a l c d e f g h i j k m
  | evGPS_L5 => Build_available_signals a b l d e f g h i j k m
  | evSBAS_1C => Build_available_signals a b c l e f g h i j k m
  | evGAL_1B => Build_available_signals a b c d l f g h i j k m
  | evGAL_5X => Build_available_signals a b c d e l g h i j k m
  | evGAL_7X => Build_available_signals a b c d e f l h i j k m
  | evGAL_E6 => Build_available_signals a b c d e f g l i j k m
  | evGLO_1G => Build_available_signals a b c d e f g h l j k m
  | evGLO_2G => Build_available_signals a b c d e f g h i l k m
  | evBDS_B1 => Build_available_signals a b c d e f g h i j l m
  | evBDS_B3 => Build_available_signals a b c d e f g h i j k l
  end.

(** [channels_count_] is the length of [channels_]. [multiband_] and the configuration are
    fixed. *)
Record GNSSFlowgraph := {
  channels_ : list Channel; channels_state_ : list Z; signals : available_signals;
  acq_channels_count_ : Z; max_acq_channels_ : Z;
  channels_status_ : list (Z * Gnss_Synchro); multiband_ : bool }.

Definition set_channel (c : nat) (ch : Channel) (fg : GNSSFlowgraph) : GNSSFlowgraph :=
  {| channels_ := <[c := ch]> (channels_ fg); channels_state_ := channels_state_ fg; signals := signals fg;
     acq_channels_count_ := acq_channels_count_ fg; max_acq_channels_ := max_acq_channels_ fg;
     channels_status_ := channels_status_ fg; multiband_ := multiband_ fg |}.

Definition set_chstate (c : nat) (s : Z) (fg : GNSSFlowgraph) : GNSSFlowgraph :=
  {| channels_ := channels_ fg; channels_state_ := <[c := s]> (channels_state_ fg); signals := signals fg;
     acq_channels_count_ := acq_channels_count_ fg; max_acq_channels_ := max_acq_channels_ fg;
     channels_status_ := channels_status_ fg; multiband_ := multiband_ fg |}.

Definition set_signals (P : available_signals) (fg : GNSSFlowgraph) : GNSSFlowgraph :=
  {| channels_ := channels_ fg; channels_state_ := channels_state_ fg; signals := P;
     acq_channels_count_ := acq_channels_count_ fg; max_acq_channels_ := max_acq_channels_ fg;
     channels_status_ := channels_status_ fg; multiband_ := multiband_ fg |}.

Definition set_acq_count (n : Z) (fg : GNSSFlowgraph) : GNSSFlowgraph :=
  {| channels_ := channels_ fg; channels_state_ := channels_state_ fg; signals := signals fg;
     acq_channels_count_ := n; max_acq_channels_ := max_acq_channels_ fg;
     channels_status_ := channels_status_ fg; multiband_ := multiband_ fg |}.

(** ** Lists of signals *)

(** [std::list::remove(gs)]. *)
Definition list_remove_signal (gs : Gnss_Signal) (l : list Gnss_Signal) : list Gnss_Signal :=
  filter (fun x => sig_eqb x gs = false) l.

(** All cases of the [switch] do the same with the list of the kind; [evSBAS_1C] has none. *)
Definition push_back_signal (gs : Gnss_Signal) (P : available_signals) : available_signals :=
  let ev := mapStringValues (signal gs) in
  match ev with
  | evSBAS_1C => P
  | _ => set_pool ev (list_remove_signal gs (pool ev P) ++ [gs]) P
  end.

Definition remove_signal (gs : Gnss_Signal) (P : available_signals) : available_signals :=
  let ev := mapStringValues (signal gs) in
  match ev with
  | evSBAS_1C => P
  | _ => set_pool ev (list_remove_signal gs (pool ev P)) P
  end.

(** ** Search *)

(** [result = list.front(); list.pop_front(); if (!pop) list.push_back(result)]. [None]:
    [front()] of an empty list. *)
Definition take_front (ev : StringValue) (pop : bool) (P : available_signals)
  : option (Gnss_Signal * available_signals) :=
  match pool ev P with
  | [] => None
  | result :: l => Some (result, set_pool ev (if pop then l else l ++ [result]) P)
  end.

(** The loop over the channel status map: the first entry on the primary signal whose
    satellite is in the list, as position, signal and status. *)
Fixpoint find_assistance (primary : string) (l : list Gnss_Signal) (status : list (Z * Gnss_Synchro))
  : option (nat * Gnss_Signal * Gnss_Synchro) :=
  match status with
  | [] => None
  | (_, current_status) :: status' =>
      if decide (Signal current_status = primary) then
        match list_find (fun sig => PRN (satellite sig) = syn_PRN current_status) l with
        | Some (it2, sig) => Some (it2, sig, current_status)
        | None => find_assistance primary l status'
        end
      else find_assistance primary l status'
  end.

(** [result], the lists, [is_primary_frequency], [assistance_available] and
    [estimated_doppler] (meaningful with assistance only). *)
Definition search_result : Type := Gnss_Signal * available_signals * bool * bool * double_expr.

Section flowgraph.
Context `{ConfigurationInterface}.

(** A secondary signal with its primary one: GPS L2 and L5 with L1, Galileo E5a, E5b and
    E6 with E1. *)
Definition search_secondary (ev : StringValue) (primary : string) (pop : bool)
    (status : list (Z * Gnss_Synchro)) (P : available_signals) : option search_result :=
  match (if 0 <? property_int ("Channels_" +:+ primary +:+ ".count") 0
         then find_assistance primary (pool ev P) status else None) with
  | Some (it2, sig, st) =>
      Some (sig, (if pop then set_pool ev (delete it2 (pool ev P)) P else P), false, true,
            d_float (d_bits (Carrier_Doppler_hz st)))
  | None =>
      '(result, P') ← take_front ev pop P;
      Some (result, P', false, false, d_zero)
  end.

Definition search_plain (ev : StringValue) (is_primary_frequency pop : bool) (P : available_signals)
  : option search_result :=
  '(result, P') ← take_front ev pop P;
  Some (result, P', is_primary_frequency, false, d_zero).

Definition search_next_signal (searched_signal : string) (pop : bool)
    (status : list (Z * Gnss_Synchro)) (P : available_signals) : option search_result :=
  match mapStringValues searched_signal with
  | evGPS_1C => search_plain evGPS_1C true pop P
  | evGPS_2S => search_secondary evGPS_2S "1C" pop status P
  | evGPS_L5 => search_secondary evGPS_L5 "1C" pop status P
  | evGAL_1B => search_plain evGAL_1B true pop P
  | evGAL_5X => search_secondary evGAL_5X "1B" pop status P
  | evGAL_7X => search_secondary evGAL_7X "1B" pop status P
  | evGAL_E6 => search_secondary evGAL_E6 "1B" pop status P
  | evGLO_1G => search_plain evGLO_1G true pop P
  | evGLO_2G => search_plain evGLO_2G false pop P
  | evBDS_B1 => search_plain evBDS_B1 true pop P
  | evBDS_B3 => search_plain evBDS_B3 false pop P
  | evSBAS_1C =>
      match available_GPS_1C P with
      | [] => None
      | result :: l => Some (result, (if pop then set_pool evGPS_1C l P else P), false, false, d_zero)
      end
  end.

(** [(hz / FREQ1) * FREQn], with the frequencies of [gnss_frequencies.h]. *)
Definition project_doppler (searched_signal : string) (hz : double_expr) : double_expr :=
  match mapStringValues searched_signal with
  | evGPS_L5 | evGAL_5X => d_div_mul hz 1575420000 1176450000
  | evGAL_7X => d_div_mul hz 1575420000 1207140000
  | evGPS_2S => d_div_mul hz 1575420000 1227600000
  | evGAL_E6 => d_div_mul hz 1575420000 1278750000
  | _ => hz
  end.

(** ["Channel" + std::to_string(n) + ".satellite"], read into an [unsigned int]. *)
Definition fixed_satellite (n : Z) : Z := u32 (property_int ("Channel" +:+ pretty n +:+ ".satellite") 0).

Definition assist_dual_frequency (fg : GNSSFlowgraph) : bool :=
  property_bool "GNSS-SDR.assist_dual_frequency_acq" (multiband_ fg).

(** ** Acquisition manager *)

(** The body of the loop for one channel. *)
Definition acquisition_step (current_channel : nat) (fg : GNSSFlowgraph) : option GNSSFlowgraph :=
  let sat_ := fixed_satellite (Z.of_nat current_channel) in
  st ← channels_state_ fg !! current_channel;
  if (acq_channels_count_ fg <? max_acq_channels_ fg) && (st =? 0) then
    ch ← channels_ fg !! current_channel;
    '(gnss_signal, fg1, start, assistance_available, estimated_doppler) ←
      (if sat_ =? 0 then
         '(gs, P, is_primary_freq, assist, hz) ←
            search_next_signal (signal (gnss_signal_ ch)) true (channels_status_ fg) (signals fg);
         ch1 ← set_signal gs ch;
         Some (gs, set_channel current_channel ch1 (set_signals P fg),
               is_primary_freq || assist || negb (assist_dual_frequency fg), assist, hz)
       else
         ch1 ← set_signal (gnss_signal_ ch) ch;
         Some (gnss_signal_ ch, set_channel current_channel ch1 fg, true, false, d_zero));
    if (start : bool) then
      ch1 ← channels_ fg1 !! current_channel;
      let hz := if assistance_available && assist_dual_frequency fg
                then project_doppler (signal (gnss_signal_ ch1)) estimated_doppler else d_zero in
      Some (set_channel current_channel (Channel_start_acquisition (assist_acquisition_doppler hz ch1))
             (set_acq_count (acq_channels_count_ fg1 + 1) (set_chstate current_channel 1 fg1)))
    else Some (set_signals (push_back_signal gnss_signal (signals fg1)) fg1)
  else Some fg.

(** Steps [i], [i + 1], ..., [n] of them. *)
Fixpoint acquisition_loop (n : nat) (i who : Z) (fg : GNSSFlowgraph) : option GNSSFlowgraph :=
  match n with
  | O => Some fg
  | S n' =>
      fg1 ← acquisition_step (Z.to_nat (u32 (i + who + 1) mod Z.of_nat (length (channels_ fg)))) fg;
      acquisition_loop n' (i + 1) who fg1
  end.

Definition acquisition_manager (who : Z) (fg : GNSSFlowgraph) : option GNSSFlowgraph :=
  acquisition_loop (length (channels_ fg)) 0 who fg.

(** ** Events *)

Definition dec_acq_count (fg : GNSSFlowgraph) : GNSSFlowgraph :=
  if 0 <? acq_channels_count_ fg then set_acq_count (acq_channels_count_ fg - 1) fg else fg.

(** The loop of the standby request over the channels from [n] on. *)
Fixpoint standby_loop (chs : list Channel) (n : nat) (fg : GNSSFlowgraph) : option GNSSFlowgraph :=
  match chs with
  | [] => Some fg
  | ch :: chs' =>
      st ← channels_state_ fg !! n;
      standby_loop chs' (S n)
        (if (st =? 1) || (st =? 2)
         then set_chstate n 0 (set_channel n (stop_channel ch)
                (set_signals (push_back_signal (gnss_signal_ ch) (signals fg)) fg))
         else fg)
  end.

(** An index out of range of [channels_] or [channels_state_] is [None]. *)
Definition apply_action (who what : Z) (fg : GNSSFlowgraph) : option GNSSFlowgraph :=
  let sat := if who <? 200 then fixed_satellite who else 0 in
  let w := Z.to_nat who in
  match what with
  | 0 =>
      ch ← channels_ fg !! w;
      let gs := gnss_signal_ ch in
      fg1 ← (if decide (w < length (channels_state_ fg))%nat then Some (set_chstate w 0 fg) else None);
      fg2 ← acquisition_manager who (dec_acq_count fg1);
      Some (if sat =? 0 then set_signals (push_back_signal gs (signals fg2)) fg2 else fg2)
  | 1 =>
      ch ← channels_ fg !! w;
      let fg0 := set_signals (remove_signal (gnss_signal_ ch) (signals fg)) fg in
      fg1 ← (if decide (w < length (channels_state_ fg))%nat then Some (set_chstate w 2 fg0) else None);
      acquisition_manager who (dec_acq_count fg1)
  | 2 =>
      ch ← channels_ fg !! w;
      if decide (w < length (channels_state_ fg))%nat then
        if acq_channels_count_ fg <? max_acq_channels_ fg then
          ch1 ← set_signal (gnss_signal_ ch) ch;
          Some (set_channel w (Channel_start_acquisition ch1)
                 (set_acq_count (acq_channels_count_ fg + 1) (set_chstate w 1 fg)))
        else
          let fg1 := set_chstate w 0 fg in
          Some (if sat =? 0 then set_signals (push_back_signal (gnss_signal_ ch) (signals fg1)) fg1 else fg1)
      else None
  | 10 =>
      fg1 ← standby_loop (channels_ fg) 0 fg;
      Some (set_acq_count 0 fg1)
  | _ => Some fg
  end.

(** ** Priorities *)

(** [old_size = l.size(); l.remove(gs); if (old_size > l.size()) l.push_front(gs)]. *)
Definition to_front (gs : Gnss_Signal) (l : list Gnss_Signal) : list Gnss_Signal :=
  let l' := list_remove_signal gs l in
  if (length l' <? length l)%nat then gs :: l' else l'.

Definition priorize_kind (sat : Gnss_Satellite) (ev : StringValue) (P : available_signals) : available_signals :=
  set_pool ev (to_front {| satellite := sat; signal := ev_str ev |} (pool ev P)) P.

Definition priorize_satellite (sat : Gnss_Satellite) (P : available_signals) : available_signals :=
  if decide (system sat = "GPS") then
    priorize_kind sat evGPS_L5 (priorize_kind sat evGPS_2S (priorize_kind sat evGPS_1C P))
  else if decide (system sat = "Galileo") then
    priorize_kind sat evGAL_E6 (priorize_kind sat evGAL_7X (priorize_kind sat evGAL_5X (priorize_kind sat evGAL_1B P)))
  else P.

Definition priorize_satellites (visible_satellites : list (Z * Gnss_Satellite)) (fg : GNSSFlowgraph)
  : GNSSFlowgraph :=
  set_signals (fold_left (fun P v => priorize_satellite (snd v) P) visible_satellites (signals fg)) fg.

(** ** Initialisation *)

(** [std::set<unsigned int>] as its elements in ascending order. *)
Fixpoint set_insert (x : Z) (s : list Z) : list Z :=
  match s with
  | [] => [x]
  | y :: s' => if x <? y then x :: s else if x =? y then s else y :: set_insert x s'
  end.

Definition set_erase (x : Z) (s : list Z) : list Z := filter (fun y => y <> x) s.

(** The text up to each comma, [std::getline] until the stream is exhausted. *)
Fixpoint split_commas (s : string) (item : string) : list string :=
  match s with
  | EmptyString => [item]
  | String c s' =>
      if decide (c = ","%char) then item :: split_commas s' "" else split_commas s' (item +:+ String c "")
  end.

(** [std::stoi]; [None] is [invalid_argument] or [out_of_range]. *)
Definition digit (c : ascii) : option Z :=
  let n := Z.of_nat (nat_of_ascii c) in if (48 <=? n) && (n <=? 57) then Some (n - 48) else None.

Definition is_space (c : ascii) : bool :=
  let n := Z.of_nat (nat_of_ascii c) in (n =? 32) || ((9 <=? n) && (n <=? 13)).

Fixpoint skip_spaces (s : string) : string :=
  match s with String c s' => if is_space c then skip_spaces s' else s | _ => s end.

Fixpoint digits (s : string) (acc : Z) : Z :=
  match s with
  | String c s' => match digit c with Some d => digits s' (10 * acc + d) | None => acc end
  | _ => acc
  end.

Definition unsigned_text (s : string) : option Z :=
  match s with String c _ => match digit c with Some _ => Some (digits s 0) | None => None end | _ => None end.

Definition stoi (s : string) : option Z :=
  v ← match skip_spaces s with
      | String "-" s' => Z.opp <$> unsigned_text s'
      | String "+" s' => unsigned_text s'
      | s' => unsigned_text s'
      end;
  if (- 2 ^ 31 <=? v) && (v <? 2 ^ 31) then Some v else None.

(** One system: the configured satellites replace the default ones, then the banned ones
    are taken out; an entry that is no number is skipped. *)
Definition available_prn (name banned : string) (defaults : list Z) : list Z :=
  let chosen :=
    if decide (property_str name "" = "") then defaults
    else match fold_left (fun t x => set_insert (u32 x) t) (prns name) [] with [] => defaults | t => t end in
  if decide (property_str banned "" = "") then chosen
  else fold_left (fun t item => match stoi item with Some b => set_erase (u32 b) t | None => t end)
         (split_commas (property_str banned "") "") chosen.

Definition default_gps_prn : list Z := seqZ 1 32.
Definition default_sbas_prn : list Z := [123; 131; 135; 136; 138].
Definition default_galileo_prn : list Z := seqZ 1 36.
Definition default_glonass_prn : list Z := [1; 2; 3; 4; 9; 10; 11; 12; 18; 19; 20; 21; 24].
Definition default_beidou_prn : list Z := seqZ 1 63.

Definition system_prn (ev : StringValue) : list Z :=
  match ev with
  | evGPS_1C | evGPS_2S | evGPS_L5 => available_prn "GPS.prns" "GNSS-SDR.GPS_banned_prns" default_gps_prn
  | evSBAS_1C => available_prn "SBAS.prns" "GNSS-SDR.SBAS_banned_prns" default_sbas_prn
  | evGAL_1B | evGAL_5X | evGAL_7X | evGAL_E6 =>
      available_prn "Galileo.prns" "GNSS-SDR.Galileo_banned_prns" default_galileo_prn
  | evGLO_1G | evGLO_2G => available_prn "Glonass.prns" "GNSS-SDR.Glonass_banned_prns" default_glonass_prn
  | evBDS_B1 | evBDS_B3 => available_prn "Beidou.prns" "GNSS-SDR.Beidou_banned_prns" default_beidou_prn
  end.

(** ["Channels_XX.count"] for a kind of signal. *)
Definition count_name (ev : StringValue) : string :=
  match ev with evSBAS_1C => "Channels_SBAS.count" | _ => "Channels_" +:+ ev_str ev +:+ ".count" end.

Definition signals_of (ev : StringValue) : list Gnss_Signal :=
  if 0 <? property_int (count_name ev) 0 then make_signal ev <$> system_prn ev else [].

Definition set_signals_list : available_signals :=
  Build_available_signals (signals_of evGPS_1C) (signals_of evGPS_2S) (signals_of evGPS_L5)
    (signals_of evSBAS_1C) (signals_of evGAL_1B) (signals_of evGAL_5X) (signals_of evGAL_7X)
    (signals_of evGAL_E6) (signals_of evGLO_1G) (signals_of evGLO_2G) (signals_of evBDS_B1)
    (signals_of evBDS_B3).

Definition is_multiband : bool :=
  let count ev := 0 <? property_int (count_name ev) 0 in
  (count evGPS_1C && (count evGPS_2S || count evGPS_L5)) ||
  (count evGAL_1B && (count evGAL_5X || count evGAL_7X || count evGAL_E6)) ||
  (count evGLO_1G && count evGLO_2G) || (count evBDS_B1 && count evBDS_B3).

(** [GNSSBlockFactory::GetChannels]: the kinds in the order of the source, the channels
    numbered consecutively; every block exists. *)
Definition channel_kinds : list StringValue :=
  [evGPS_1C; evGPS_2S; evGPS_L5; evGAL_1B; evGAL_5X; evGAL_E6; evGLO_1G; evGLO_2G; evBDS_B1; evBDS_B3; evGAL_7X].

Definition configured_kinds : list StringValue :=
  mbind (fun ev => replicate (Z.to_nat (u32 (property_int (count_name ev) 0))) ev) channel_kinds.

Definition GetChannels : list Channel :=
  imap (fun id ev => make_channel (Z.of_nat id) (ev_str ev)) configured_kinds.

(** The states, and [max_acq_channels_]. *)
Definition set_channels_state (channels_count : Z) : list Z * Z :=
  let m := property_int "Channels.in_acquisition" channels_count in
  let max_acq := if channels_count <? m then channels_count else m in
  ((fun i => if i <? max_acq then 1 else 0) <$> seqZ 0 channels_count, max_acq).

(** The part of [init] that concerns the channels. *)
Definition init : GNSSFlowgraph :=
  let chs := GetChannels in
  let '(states, max_acq) := set_channels_state (Z.of_nat (length chs)) in
  {| channels_ := chs; channels_state_ := states; signals := set_signals_list;
     acq_channels_count_ := max_acq; max_acq_channels_ := max_acq; channels_status_ := [];
     multiband_ := is_multiband |}.

(** The channels fixed to a satellite, the last one first, then the rest. *)
Definition vector_of_channels (channels_count : nat) : list nat :=
  let fixed i := negb (fixed_satellite (Z.of_nat i) =? 0) in
  reverse (filter (fun i => fixed i = true) (seq 0 channels_count)) ++
  filter (fun i => fixed i = false) (seq 0 channels_count).

(** The list of a fixed channel; the [default] case is the one of GPS L1. *)
Definition fixed_kind (ev : StringValue) : StringValue :=
  match ev with evSBAS_1C => evGPS_1C | _ => ev end.

Definition assign_channel (fg : GNSSFlowgraph) (i : nat) : option GNSSFlowgraph :=
  ch ← channels_ fg !! i;
  let gnss_signal := signal (gnss_signal_ ch) in
  let sat := fixed_satellite (Z.of_nat i) in
  if sat =? 0 then
    '(gs, P, _, _, _) ← search_next_signal gnss_signal false (channels_status_ fg) (signals fg);
    ch1 ← set_signal gs ch;
    Some (set_channel i ch1 (set_signals P fg))
  else
    let ev := fixed_kind (mapStringValues gnss_signal) in
    let signal_value := {| satellite := make_satellite (ev_system ev) sat; signal := gnss_signal |} in
    ch1 ← set_signal signal_value ch;
    Some (set_channel i ch1
           (set_signals (set_pool ev (list_remove_signal signal_value (pool ev (signals fg))) (signals fg)) fg)).

Fixpoint assign_loop (order : list nat) (fg : GNSSFlowgraph) : option GNSSFlowgraph :=
  match order with
  | [] => Some fg
  | i :: order' => fg1 ← assign_channel fg i; assign_loop order' fg1
  end.

Definition assign_channels (fg : GNSSFlowgraph) : option GNSSFlowgraph :=
  assign_loop (vector_of_channels (length (channels_ fg))) fg.

(** The last loop of [connect_desktop_flowgraph]. *)
Definition activate_channels (fg : GNSSFlowgraph) : GNSSFlowgraph :=
  {| channels_ := zip_with (fun ch st => if st =? 1 then Channel_start_acquisition ch else ch)
                    (channels_ fg) (channels_state_ fg);
     channels_state_ := channels_state_ fg; signals := signals fg;
     acq_channels_count_ := acq_channels_count_ fg; max_acq_channels_ := max_acq_channels_ fg;
     channels_status_ := channels_status_ fg; multiband_ := multiband_ fg |}.

(** [connect], as far as the channels' assignment goes; without channels the flow graph is
    not connected. *)
Definition connect (fg : GNSSFlowgraph) : option GNSSFlowgraph :=
  fg1 ← assign_channels fg; Some (activate_channels fg1).

End flowgraph.

(** ** Lists of signals: lemmas *)

Definition sig_key (g : Gnss_Signal) : string * Z * Z :=
  (system (satellite g), PRN (satellite g), rf_link (satellite g)).

Lemma sig_eqb_key a b : sig_eqb a b = bool_decide (sig_key a = sig_key b).
Proof.
  unfold sig_eqb, sat_eqb, sig_key. rewrite (bool_decide_true (signal a = signal a)) by done.
  destruct (decide ((system (satellite a), PRN (satellite a), rf_link (satellite a)) =
                    (system (satellite b), PRN (satellite b), rf_link (satellite b)))) as [Heq|Hne].
  - injection Heq as -> -> ->. by rewrite !bool_decide_true, !Z.eqb_refl.
  - rewrite (bool_decide_false _ Hne). repeat case_bool_decide; try done.
    destruct (Z.eqb_spec (PRN (satellite a)) (PRN (satellite b))); [|done].
    destruct (Z.eqb_spec (rf_link (satellite a)) (rf_link (satellite b))); [|done].
    destruct Hne. congruence.
Qed.

Lemma elem_of_list_remove x gs l : x ∈ list_remove_signal gs l <-> x ∈ l /\ sig_key x <> sig_key gs.
Proof.
  unfold list_remove_signal. rewrite list_elem_of_filter, sig_eqb_key, bool_decide_eq_false. tauto.
Qed.

Lemma elem_of_remove_keys gs l k :
  k ∈ sig_key <$> list_remove_signal gs l <-> k ∈ sig_key <$> l /\ k <> sig_key gs.
Proof.
  rewrite !list_elem_of_fmap. setoid_rewrite elem_of_list_remove. split.
  - intros (y & -> & Hy & Hne). split; [by exists y|done].
  - intros [(y & -> & Hy) Hne]. by exists y.
Qed.

Lemma pool_set_pool ev l P : pool ev (set_pool ev l P) = l.
Proof. by destruct P, ev. Qed.

Lemma pool_set_pool_ne ev ev' l P : ev <> ev' -> pool ev (set_pool ev' l P) = pool ev P.
Proof. by destruct P, ev, ev'. Qed.

(** What is on the list of a kind, by key. *)
Definition pool_keys (ev : StringValue) (P : available_signals) : list (string * Z * Z) :=
  sig_key <$> pool ev P.

(** A signal of a kind that has a list, and whose system has a letter. *)
Definition wf_sig (ev : StringValue) (g : Gnss_Signal) : Prop :=
  ev <> evSBAS_1C /\ signal g = ev_str ev /\ get_system_short (satellite g) <> None.

Lemma wf_sig_kind ev g : wf_sig ev g -> mapStringValues (signal g) = ev.
Proof. intros (Hev & -> & _). by apply mapStringValues_str. Qed.

Lemma wf_set_signal ev g ch : wf_sig ev g ->
  exists ch', set_signal g ch = Some ch' /\ gnss_signal_ ch' = g /\
    state_ (channel_fsm_ ch') = state_ (channel_fsm_ ch) /\ channel_ (channel_fsm_ ch') = channel_ (channel_fsm_ ch) /\
    repeat_ ch' = repeat_ ch /\ flag_enable_fpga_ ch' = flag_enable_fpga_ ch.
Proof.
  intros (_ & Hs & Hl). unfold set_signal.
  destruct (get_system_short (satellite g)) as [l|]; [|done]. cbn [mbind option_bind].
  rewrite decide_False by (rewrite Hs; by destruct ev). by eexists.
Qed.

Lemma wf_make_signal ev p : ev <> evSBAS_1C -> wf_sig ev (make_signal ev p).
Proof. intros Hev. split_and!; [done|done|apply ev_system_short]. Qed.

Definition wf_pools (P : available_signals) : Prop :=
  forall ev, ev <> evSBAS_1C -> Forall (wf_sig ev) (pool ev P).

Lemma wf_pools_set ev l P : wf_pools P -> Forall (wf_sig ev) l -> wf_pools (set_pool ev l P).
Proof.
  intros HP Hl ev' Hev'. destruct (decide (ev' = ev)) as [->|Hne].
  - by rewrite pool_set_pool.
  - rewrite pool_set_pool_ne by done. by apply HP.
Qed.

Lemma push_back_eq ev g P : wf_sig ev g ->
  push_back_signal g P = set_pool ev (list_remove_signal g (pool ev P) ++ [g]) P.
Proof. intros Hg. unfold push_back_signal. rewrite (wf_sig_kind ev) by done. destruct Hg as [Hev _]. by destruct ev. Qed.

Lemma remove_eq ev g P : wf_sig ev g ->
  remove_signal g P = set_pool ev (list_remove_signal g (pool ev P)) P.
Proof. intros Hg. unfold remove_signal. rewrite (wf_sig_kind ev) by done. destruct Hg as [Hev _]. by destruct ev. Qed.

Lemma Forall_list_remove Q g l : Forall Q l -> Forall Q (list_remove_signal g l).
Proof. rewrite !list.Forall_forall. intros H x Hx. apply H. by apply elem_of_list_remove in Hx as [? _]. Qed.

Lemma wf_pools_push ev g P : wf_sig ev g -> wf_pools P -> wf_pools (push_back_signal g P).
Proof.
  intros Hg HP. rewrite (push_back_eq ev) by done. apply wf_pools_set; [done|].
  apply Forall_app_2; [apply Forall_list_remove, HP, Hg|by constructor].
Qed.

Lemma wf_pools_remove ev g P : wf_sig ev g -> wf_pools P -> wf_pools (remove_signal g P).
Proof.
  intros Hg HP. rewrite (remove_eq ev) by done. apply wf_pools_set; [done|].
  apply Forall_list_remove, HP, Hg.
Qed.

(** Pushing back and removing, on the keys of the lists. *)
Lemma pool_keys_push ev g P ev' k : wf_sig ev g ->
  k ∈ pool_keys ev' (push_back_signal g P) <-> k ∈ pool_keys ev' P \/ (ev' = ev /\ k = sig_key g).
Proof.
  intros Hg. rewrite (push_back_eq ev) by done. unfold pool_keys.
  destruct (decide (ev' = ev)) as [->|Hne]; [|rewrite pool_set_pool_ne by done; naive_solver].
  rewrite pool_set_pool, fmap_app, elem_of_app, elem_of_remove_keys. cbn. rewrite list_elem_of_singleton.
  destruct (decide (k = sig_key g)) as [->|Hk]; naive_solver.
Qed.

Lemma pool_keys_remove ev g P ev' k : wf_sig ev g ->
  k ∈ pool_keys ev' (remove_signal g P) <-> k ∈ pool_keys ev' P /\ ~ (ev' = ev /\ k = sig_key g).
Proof.
  intros Hg. rewrite (remove_eq ev) by done. unfold pool_keys.
  destruct (decide (ev' = ev)) as [->|Hne]; [|rewrite pool_set_pool_ne by done; naive_solver].
  rewrite pool_set_pool, elem_of_remove_keys. naive_solver.
Qed.

(** ** Search: lemmas *)

Lemma set_pool_same ev P : set_pool ev (pool ev P) P = P.
Proof. by destruct P, ev. Qed.

Lemma find_assistance_Some primary l status i g st : find_assistance primary l status = Some (i, g, st) ->
  l !! i = Some g.
Proof.
  induction status as [|[k y] status IH]; cbn [find_assistance]; [done|].
  case_decide; [|done]. destruct (list_find _ l) as [[j x]|] eqn:Hf; [|done].
  intros [= <- <- <-]. by apply list_find_Some in Hf as [? _].
Qed.

(** What a search does to the list of its kind: it takes one signal out of it, or leaves
    the list with the same elements. *)
Definition searched (pop : bool) (ev : StringValue) (P : available_signals) (g : Gnss_Signal)
    (P' : available_signals) : Prop :=
  exists l', P' = set_pool ev l' P /\ g ∈ pool ev P /\
    (if pop then pool ev P ≡ₚ g :: l' else l' ≡ₚ pool ev P).

Lemma take_front_spec ev pop P : pool ev P <> [] ->
  exists g P', take_front ev pop P = Some (g, P') /\ searched pop ev P g P'.
Proof.
  intros Hne. unfold take_front, searched. destruct (pool ev P) as [|g l]; [done|].
  eexists g, _. split; [done|]. eexists. split; [done|]. split; [left|].
  destruct pop; [done|]. symmetry. apply Permutation_cons_append.
Qed.

Section search.
Context `{ConfigurationInterface}.

Lemma search_plain_spec ev prim pop P : pool ev P <> [] ->
  exists g P', search_plain ev prim pop P = Some (g, P', prim, false, d_zero) /\ searched pop ev P g P'.
Proof.
  intros Hne. destruct (take_front_spec ev pop P Hne) as (g & P' & Ht & Hs).
  unfold search_plain. rewrite Ht. by exists g, P'.
Qed.

Lemma search_secondary_spec ev prim pop status P : pool ev P <> [] ->
  exists g P' assist hz, search_secondary ev prim pop status P = Some (g, P', false, assist, hz) /\
    searched pop ev P g P'.
Proof.
  intros Hne. unfold search_secondary.
  set (found := if 0 <? _ then _ else _). destruct found as [[[i g] st]|] eqn:Hf; subst found.
  - assert (pool ev P !! i = Some g) as Hi.
    { destruct (0 <? _); [|done]. by apply find_assistance_Some in Hf. }
    eexists g, _, _, _. split; [done|]. destruct pop.
    + eexists. split; [done|]. split; [by eapply list_elem_of_lookup_2|]. by apply delete_Permutation.
    + exists (pool ev P). rewrite set_pool_same. split_and!; [done|by eapply list_elem_of_lookup_2|done].
  - destruct (take_front_spec ev pop P Hne) as (g & P' & Ht & Hs). rewrite Ht. by eexists g, P', _, _.
Qed.

Lemma search_next_spec ev pop status P : ev <> evSBAS_1C -> pool ev P <> [] ->
  exists g P' prim assist hz, search_next_signal (ev_str ev) pop status P = Some (g, P', prim, assist, hz) /\
    searched pop ev P g P'.
Proof.
  intros Hev Hne. unfold search_next_signal. rewrite mapStringValues_str by done.
  destruct ev; try done;
    first [destruct (search_plain_spec _ true pop P Hne) as (g & P' & Hs & Hp); by eexists g, P', _, _, _; split; [exact Hs|]
          |destruct (search_plain_spec _ false pop P Hne) as (g & P' & Hs & Hp); by eexists g, P', _, _, _; split; [exact Hs|]
          |destruct (search_secondary_spec _ "1C" pop status P Hne) as (g & P' & a & hz & Hs & Hp); by eexists g, P', _, _, _; split; [exact Hs|]
          |destruct (search_secondary_spec _ "1B" pop status P Hne) as (g & P' & a & hz & Hs & Hp); by eexists g, P', _, _, _; split; [exact Hs|]].
Qed.

End search.

Lemma searched_wf pop ev P g P' : ev <> evSBAS_1C -> wf_pools P -> searched pop ev P g P' ->
  wf_sig ev g /\ wf_pools P'.
Proof.
  intros Hev HP (l' & -> & Hg & Hl). pose proof (HP ev Hev) as Hp. split.
  { rewrite list.Forall_forall in Hp. by apply Hp. }
  apply wf_pools_set; [done|]. destruct pop; [rewrite Hl in Hp; by inversion Hp|by rewrite Hl].
Qed.

Lemma searched_keys pop ev P g P' ev' k : searched pop ev P g P' ->
  k ∈ pool_keys ev' P -> k ∈ pool_keys ev' P' \/ (pop = true /\ ev' = ev /\ k = sig_key g).
Proof.
  intros (l' & -> & Hg & Hl) Hk. unfold pool_keys in *.
  destruct (decide (ev' = ev)) as [->|Hne]; [|rewrite pool_set_pool_ne by done; by left].
  rewrite pool_set_pool. destruct pop; rewrite ?Hl in *; [|by left].
  cbn in Hk. apply elem_of_cons in Hk. naive_solver.
Qed.
