(* ===== verification/FlowgraphInv.v ===== *)
(** * Invariants of the channel management

    The lists of signals never lose a satellite: every signal of the initial lists is on
    its list, or is the signal of a busy channel. From this follows that the search for a
    signal never meets an empty list when there are more satellites than channels. *)
From stdpp Require Import strings.
From S2P Require Import Prelude GnssSignal ChannelFsm Flowgraph.

#[local] Open Scope Z_scope.

Abbreviation key := (string * Z * Z)%type.

Lemma set_channel_channels c ch fg : channels_ (set_channel c ch fg) = <[c := ch]> (channels_ fg).
Proof. done. Qed.

(** ** Counting *)

Lemma filter_ne_length (c : nat) (l : list nat) : NoDup l -> c ∈ l ->
  (length (filter (fun i => i <> c) l) < length l)%nat.
Proof.
  intros Hl Hc. assert (c :: filter (fun i => i <> c) l ⊆+ l) as Hs%submseteq_length; [|by cbn in Hs].
  apply NoDup_submseteq.
  - constructor; [by rewrite list_elem_of_filter; intros [? _]|by apply list.NoDup_filter].
  - intros x [->|Hx]%elem_of_cons; [done|]. by apply list_elem_of_filter in Hx as [_ ?].
Qed.

Lemma length_omap {A B} (f : A -> option B) (l : list A) : (length (omap f l) <= length l)%nat.
Proof. induction l as [|x l IH]; cbn; [done|]. destruct (f x); cbn; lia. Qed.

(** Distinct values, each attained at some index of a list, are no more than the indices. *)
Lemma cover_length {A B} `{EqDecision B} (V : list B) (L : list A) (f : A -> option B) (extra : list B) :
  NoDup V -> (forall v, v ∈ V -> v ∈ extra \/ exists i, i ∈ L /\ f i = Some v) ->
  (length V <= length extra + length L)%nat.
Proof.
  intros HV Hc. pose proof (length_omap f L) as HL.
  assert (V ⊆+ extra ++ omap f L) as Hs%submseteq_length; [|rewrite length_app in Hs; lia].
  apply NoDup_submseteq; [done|]. intros v Hv. apply elem_of_app.
  destruct (Hc v Hv) as [?|(i & Hi & Hf)]; [by left|]. right. apply list_elem_of_omap. by exists i.
Qed.

Section invariant.
Context `{ConfigurationInterface}.

(** The kinds of the channels, and the signals to be shared, by kind. *)
Context (K : list StringValue) (U : StringValue -> list key).

(** The channel may search for any satellite. *)
Definition free (i : nat) : bool := fixed_satellite (Z.of_nat i) =? 0.

Definition free_channels (ev : StringValue) : list nat :=
  filter (fun i => K !! i = Some ev /\ free i = true) (seq 0 (length K)).

(** There are more satellites than free channels, for every kind that has any. *)
Definition enough_satellites : Prop := forall ev,
  NoDup (U ev) /\ (free_channels ev <> [] -> (length (free_channels ev) < length (U ev))%nat).

Record fg_wf (fg : GNSSFlowgraph) : Prop := {
  wf_states : length (channels_state_ fg) = length K;
  wf_length : length (channels_ fg) = length K;
  wf_channels i ch : channels_ fg !! i = Some ch -> exists ev, K !! i = Some ev /\ wf_sig ev (gnss_signal_ ch);
  wf_fixed i ch ev : channels_ fg !! i = Some ch -> K !! i = Some ev -> free i = false ->
    sig_key (gnss_signal_ ch) ∉ U ev;
  wf_lists : wf_pools (signals fg) }.

(** A busy free channel has the signal. *)
Definition held (fg : GNSSFlowgraph) (ev : StringValue) (k : key) : Prop :=
  exists i ch st, channels_ fg !! i = Some ch /\ channels_state_ fg !! i = Some st /\ K !! i = Some ev /\
    free i = true /\ st <> 0 /\ sig_key (gnss_signal_ ch) = k.

(** Nothing is lost, except possibly [ex], which an operation holds for the moment. *)
Definition covered (ex : option (StringValue * key)) (fg : GNSSFlowgraph) : Prop := forall ev k,
  ev <> evSBAS_1C -> k ∈ U ev ->
  k ∈ pool_keys ev (signals fg) \/ held fg ev k \/ ex = Some (ev, k).

Lemma elem_of_free_channels ev i : i ∈ free_channels ev <-> K !! i = Some ev /\ free i = true.
Proof.
  clear U. unfold free_channels. rewrite list_elem_of_filter, elem_of_seq. split; [tauto|].
  intros [Hi ?]. split; [done|]. apply lookup_lt_Some in Hi. lia.
Qed.

(** The list that an idle channel searches is not empty. *)
Lemma pool_not_empty ex fg c ev : enough_satellites -> fg_wf fg -> covered ex fg -> ev <> evSBAS_1C ->
  K !! c = Some ev -> free c = true -> channels_state_ fg !! c = Some 0 -> pool ev (signals fg) <> [].
Proof.
  intros He Hw Hc Hev HK Hf Hst Hp. destruct (He ev) as [Hnd Hlt].
  assert (c ∈ free_channels ev) as Hin by by apply elem_of_free_channels.
  assert (NoDup (free_channels ev)) as Hfc by (apply list.NoDup_filter, NoDup_seq).
  pose proof (filter_ne_length c _ Hfc Hin) as Hlen.
  specialize (Hlt ltac:(by intros Hn; rewrite Hn in Hin; inversion Hin)).
  assert (length (U ev) <= length (match ex with Some (_, k) => [k] | None => [] end) +
    length (filter (fun i => i <> c) (free_channels ev)))%nat as Hcount.
  { apply (cover_length _ _ (fun i => sig_key ∘ gnss_signal_ <$> channels_ fg !! i)); [done|].
    intros k Hk. destruct (Hc ev k Hev Hk) as [Hk'|[(i & ch & st & Hi & Hs & HKi & Hfi & Hz & <-)| ->]].
    - unfold pool_keys in Hk'. rewrite Hp in Hk'. inversion Hk'.
    - right. exists i. rewrite list_elem_of_filter, elem_of_free_channels, Hi. split_and!; [|done..].
      intros ->. congruence.
    - left. by apply list_elem_of_singleton. }
  destruct ex as [[??]|]; cbn in Hcount; lia.
Qed.

(** ** The acquisition manager *)

(** The state of a channel's machine after [start_acquisition]. *)
Definition started (s : Z) : Z := if (s =? 1) || (s =? 2) then s else 1.

(** A search by the idle channel [c]: its signal is replaced by one taken from the list of
    its kind, or kept when the channel is fixed. *)
Definition took (c : nat) (ev : StringValue) (fg : GNSSFlowgraph) (g : Gnss_Signal) (P : available_signals) : Prop :=
  if free c then searched true ev (signals fg) g P
  else P = signals fg /\ exists ch, channels_ fg !! c = Some ch /\ g = gnss_signal_ ch.

(** What one step of the manager does: nothing; or the channel gets a signal and starts;
    or the signal goes back to the end of its list. *)
Inductive acquisition_effect (c : nat) (fg : GNSSFlowgraph) : GNSSFlowgraph -> Prop :=
  | AE_none : ~ (acq_channels_count_ fg < max_acq_channels_ fg /\ channels_state_ fg !! c = Some 0) ->
      acquisition_effect c fg fg
  | AE_start ev ch ch' g P :
      acq_channels_count_ fg < max_acq_channels_ fg -> channels_state_ fg !! c = Some 0 ->
      channels_ fg !! c = Some ch -> K !! c = Some ev -> wf_sig ev g -> took c ev fg g P ->
      gnss_signal_ ch' = g -> repeat_ ch' = repeat_ ch -> channel_ (channel_fsm_ ch') = channel_ (channel_fsm_ ch) ->
      state_ (channel_fsm_ ch') = started (state_ (channel_fsm_ ch)) ->
      acquisition_effect c fg
        {| channels_ := <[c := ch']> (channels_ fg); channels_state_ := <[c := 1]> (channels_state_ fg);
           signals := P; acq_channels_count_ := acq_channels_count_ fg + 1;
           max_acq_channels_ := max_acq_channels_ fg; channels_status_ := channels_status_ fg;
           multiband_ := multiband_ fg |}
  | AE_back ev ch ch' g P :
      acq_channels_count_ fg < max_acq_channels_ fg -> channels_state_ fg !! c = Some 0 ->
      channels_ fg !! c = Some ch -> K !! c = Some ev -> wf_sig ev g -> free c = true -> took c ev fg g P ->
      gnss_signal_ ch' = g -> repeat_ ch' = repeat_ ch -> channel_ (channel_fsm_ ch') = channel_ (channel_fsm_ ch) ->
      state_ (channel_fsm_ ch') = state_ (channel_fsm_ ch) ->
      acquisition_effect c fg
        {| channels_ := <[c := ch']> (channels_ fg); channels_state_ := channels_state_ fg;
           signals := push_back_signal g P; acq_channels_count_ := acq_channels_count_ fg;
           max_acq_channels_ := max_acq_channels_ fg; channels_status_ := channels_status_ fg;
           multiband_ := multiband_ fg |}.

Lemma start_facts ch :
  let ch' := Channel_start_acquisition ch in
  gnss_signal_ ch' = gnss_signal_ ch /\ repeat_ ch' = repeat_ ch /\
  channel_ (channel_fsm_ ch') = channel_ (channel_fsm_ ch) /\
  state_ (channel_fsm_ ch') = started (state_ (channel_fsm_ ch)).
Proof.
  unfold Channel_start_acquisition, Event_start_acquisition, Event_start_acquisition_fpga, started.
  by destruct (flag_enable_fpga_ ch); cbn;
    destruct ((state_ (channel_fsm_ ch) =? 1) || (state_ (channel_fsm_ ch) =? 2)).
Qed.

(** The part of a step after the choice of the signal [g], with [ch1] the channel that has it. *)
Lemma acquisition_step_finish c ev fg ch ch1 g P hz start :
  acq_channels_count_ fg < max_acq_channels_ fg -> channels_state_ fg !! c = Some 0 ->
  channels_ fg !! c = Some ch -> K !! c = Some ev -> wf_sig ev g -> took c ev fg g P ->
  gnss_signal_ ch1 = g -> repeat_ ch1 = repeat_ ch -> channel_ (channel_fsm_ ch1) = channel_ (channel_fsm_ ch) ->
  state_ (channel_fsm_ ch1) = state_ (channel_fsm_ ch) -> (start = false -> free c = true) ->
  let fg1 := set_channel c ch1 (set_signals P fg) in
  acquisition_effect c fg
    (if start
     then set_channel c (Channel_start_acquisition (assist_acquisition_doppler hz ch1))
            (set_acq_count (acq_channels_count_ fg1 + 1) (set_chstate c 1 fg1))
     else set_signals (push_back_signal g (signals fg1)) fg1).
Proof.
  intros Hlt Hst Hch HK Hg Ht Hsig Hrep Hnum Hfsm Hstart fg1. destruct start.
  - destruct (start_facts (assist_acquisition_doppler hz ch1)) as (F1 & F2 & F3 & F4). cbn in F1, F2, F3, F4. rewrite Hfsm in F4.
    unfold fg1, set_channel, set_acq_count, set_chstate, set_signals; cbn. rewrite list_insert_insert_eq.
    eapply AE_start; try done; congruence.
  - unfold fg1, set_channel, set_signals; cbn. eapply AE_back; try done. by apply Hstart.
Qed.

Lemma acquisition_step_effect ex c fg : enough_satellites -> fg_wf fg -> covered ex fg ->
  (c < length K)%nat -> exists fg', acquisition_step c fg = Some fg' /\ acquisition_effect c fg fg'.
Proof.
  intros He Hw Hc Hlt. unfold acquisition_step.
  destruct (lookup_lt_is_Some_2 (channels_state_ fg) c) as [st Hst]; [by rewrite (wf_states)|].
  destruct (lookup_lt_is_Some_2 (channels_ fg) c) as [ch Hch]; [by rewrite (wf_length)|].
  rewrite Hst. cbn [mbind option_bind].
  destruct ((acq_channels_count_ fg <? max_acq_channels_ fg) && (st =? 0)) eqn:Hel.
  2:{ exists fg. split; [done|]. apply AE_none. intros [Hl Hz]. rewrite Hst in Hz. injection Hz as ->.
      apply Z.ltb_lt in Hl. by rewrite Hl in Hel. }
  apply andb_true_iff in Hel as [Hl%Z.ltb_lt ->%Z.eqb_eq]. rewrite Hch. cbn [mbind option_bind].
  destruct (wf_channels fg Hw c ch Hch) as (ev & HK & Hsig). destruct Hsig as (Hev & Hstr & Hsys).
  fold (free c). destruct (free c) eqn:Hfree.
  - pose proof (pool_not_empty ex fg c ev He Hw Hc Hev HK Hfree Hst) as Hne. rewrite Hstr.
    destruct (search_next_spec ev true (channels_status_ fg) (signals fg) Hev Hne)
      as (g & P & prim & assist & hz & -> & Hs).
    destruct (searched_wf _ _ _ _ _ Hev (wf_lists fg Hw) Hs) as [Hg _].
    destruct (wf_set_signal ev g ch Hg) as (ch1 & Hset & F1 & F2 & F3 & F4 & _).
    cbn [mbind option_bind]. rewrite Hset. cbn [mbind option_bind].
    pose proof (fun hz' => acquisition_step_finish c ev fg ch ch1 g P hz'
      (prim || assist || negb (assist_dual_frequency fg)) Hl Hst Hch HK Hg) as Hfin.
    unfold took in Hfin. rewrite Hfree in Hfin. cbn [set_channel set_signals channels_].
    rewrite list_lookup_insert_eq by (rewrite (wf_length); done). cbn [mbind option_bind].
    destruct (prim || assist || negb (assist_dual_frequency fg));
      (eexists; split; [done|]); [by apply (Hfin _ Hs F1 F4 F3 F2)|by apply (Hfin d_zero Hs F1 F4 F3 F2)].
  - destruct (wf_set_signal ev (gnss_signal_ ch) ch) as (ch1 & Hset & F1 & F2 & F3 & F4 & _); [done|].
    rewrite Hset. cbn [mbind option_bind set_channel channels_].
    rewrite list_lookup_insert_eq by (rewrite (wf_length); done). cbn [mbind option_bind].
    pose proof (fun hz' => acquisition_step_finish c ev fg ch ch1 (gnss_signal_ ch) (signals fg) hz' true) as Hfin.
    eexists. split; [done|]. unfold took in Hfin. rewrite Hfree in Hfin.
    apply Hfin; try done. split; [done|]. by exists ch.
Qed.

(** Replacing the signal of channel [c] by one of its kind keeps the structure. *)
Lemma wf_update c ev ch' sts P fg n : fg_wf fg -> K !! c = Some ev -> wf_sig ev (gnss_signal_ ch') ->
  (free c = false -> sig_key (gnss_signal_ ch') ∉ U ev) -> length sts = length K -> wf_pools P ->
  fg_wf {| channels_ := <[c := ch']> (channels_ fg); channels_state_ := sts; signals := P;
           acq_channels_count_ := n; max_acq_channels_ := max_acq_channels_ fg;
           channels_status_ := channels_status_ fg; multiband_ := multiband_ fg |}.
Proof.
  intros [W1 W2 W3 W4 W5] HK Hs Hf Hl HP. constructor; cbn; try done.
  - by rewrite length_insert.
  - intros i ch. rewrite list_lookup_insert_Some. intros [(-> & -> & _)|[_ Hi]]; [by exists ev|by apply W3].
  - intros i ch ev'. rewrite list_lookup_insert_Some. intros [(-> & -> & _)|[_ Hi]] HK' Hf'; [|by eapply W4].
    assert (ev' = ev) as -> by congruence. by apply Hf.
Qed.

Lemma took_facts c ev fg g P : fg_wf fg -> K !! c = Some ev -> wf_sig ev g -> took c ev fg g P ->
  wf_pools P /\ (free c = false -> sig_key g ∉ U ev) /\
  (forall ev' k, k ∈ pool_keys ev' (signals fg) ->
     k ∈ pool_keys ev' P \/ (free c = true /\ ev' = ev /\ k = sig_key g)).
Proof.
  intros Hw HK Hg Ht. unfold took in Ht. destruct (free c) eqn:Hf.
  - split_and!; [by eapply searched_wf; [apply Hg|apply Hw|]|done|]. intros ev' k Hk.
    destruct (searched_keys _ _ _ _ _ ev' k Ht Hk) as [?|(_ & ? & ?)]; auto.
  - destruct Ht as [-> (ch & Hch & ->)]. split_and!; [apply Hw|intros _; by eapply wf_fixed|by left].
Qed.

Lemma effect_wf c fg fg' : fg_wf fg -> acquisition_effect c fg fg' -> fg_wf fg'.
Proof.
  intros Hw He. destruct He as [_|ev ch ch' g P Hl Hst Hch HK Hg Ht <- _ _ _|ev ch ch' g P Hl Hst Hch HK Hg Hf Ht <- _ _ _];
    [done|..]; destruct (took_facts c ev fg _ P Hw HK Hg Ht) as (HP & Hfix & _);
    apply (wf_update c ev); try done.
  - rewrite length_insert. apply Hw.
  - apply Hw.
  - by eapply wf_pools_push.
Qed.

(** An idle channel holds nothing, so giving it another signal loses nothing. *)
Lemma held_update c ch' st fg P n ev k : channels_state_ fg !! c = Some 0 ->
  held fg ev k ->
  held {| channels_ := <[c := ch']> (channels_ fg); channels_state_ := <[c := st]> (channels_state_ fg);
          signals := P; acq_channels_count_ := n; max_acq_channels_ := max_acq_channels_ fg;
          channels_status_ := channels_status_ fg; multiband_ := multiband_ fg |} ev k.
Proof.
  intros Hc (i & ch & s & Hi & Hs & HK & Hf & Hz & Hk). assert (i <> c) by congruence.
  exists i, ch, s. cbn. rewrite !list_lookup_insert_ne by done. done.
Qed.

Lemma effect_covered ex c fg fg' : fg_wf fg -> acquisition_effect c fg fg' -> covered ex fg -> covered ex fg'.
Proof.
  intros Hw He Hc ev' k Hev' Hk. specialize (Hc ev' k Hev' Hk).
  destruct He as [_|ev ch ch' g P Hl Hst Hch HK Hg Ht <- _ _ _|ev ch ch' g P Hl Hst Hch HK Hg Hf Ht <- _ _ _];
    [done|..]; destruct (took_facts c ev fg _ P Hw HK Hg Ht) as (HP & _ & Hkeys);
    cbn [signals]; destruct Hc as [Hp|[Hh|Hx]]; try (by do 2 right).
  - destruct (Hkeys ev' k Hp) as [?|(Hf & -> & ->)]; [by left|]. right; left.
    exists c, ch', 1. cbn. rewrite !list_lookup_insert_eq; [done| |].
    + by eapply lookup_lt_Some.
    + by eapply lookup_lt_Some.
  - right; left. by apply held_update.
  - left. apply (pool_keys_push ev); [done|]. destruct (Hkeys ev' k Hp) as [?|(_ & -> & ->)]; auto.
  - right; left. rewrite <- (list_insert_id (channels_state_ fg) c 0) by done. by apply held_update.
Qed.

(** The manager as a whole: it returns, and keeps what every step keeps. *)
Lemma acquisition_loop_ind (Q : GNSSFlowgraph -> Prop) ex who n : forall i fg,
  enough_satellites -> fg_wf fg -> covered ex fg -> Q fg -> (0 < length K)%nat ->
  (forall c fg fg', (c < length K)%nat -> fg_wf fg -> Q fg -> acquisition_effect c fg fg' -> Q fg') ->
  exists fg', acquisition_loop n i who fg = Some fg' /\ fg_wf fg' /\ covered ex fg' /\ Q fg'.
Proof.
  induction n as [|n IH]; intros i fg He Hw Hc HQ Hpos Hstep; cbn [acquisition_loop]; [by exists fg|].
  rewrite (wf_length fg Hw). set (c := Z.to_nat _). assert (c < length K)%nat as Hlt.
  { unfold c. pose proof (Z.mod_pos_bound (u32 (i + who + 1)) (Z.of_nat (length K))). lia. }
  destruct (acquisition_step_effect ex c fg He Hw Hc Hlt) as (fg1 & -> & Heff). cbn [mbind option_bind].
  apply IH; [done|by eapply effect_wf|by eapply effect_covered|by eapply Hstep|done|done].
Qed.

Lemma acquisition_manager_ind (Q : GNSSFlowgraph -> Prop) ex who fg :
  enough_satellites -> fg_wf fg -> covered ex fg -> Q fg ->
  (forall c fg fg', (c < length K)%nat -> fg_wf fg -> Q fg -> acquisition_effect c fg fg' -> Q fg') ->
  exists fg', acquisition_manager who fg = Some fg' /\ fg_wf fg' /\ covered ex fg' /\ Q fg'.
Proof.
  intros He Hw Hc HQ Hstep. unfold acquisition_manager. rewrite (wf_length fg Hw).
  destruct (decide (length K = 0%nat)) as [->|Hn]; [by exists fg|]. apply acquisition_loop_ind; auto with lia.
Qed.

(** ** Events *)

Lemma wf_same fg fg' : channels_ fg' = channels_ fg -> length (channels_state_ fg') = length (channels_state_ fg) ->
  wf_pools (signals fg') -> fg_wf fg -> fg_wf fg'.
Proof. intros Hc Hs HP [W1 W2 W3 W4 W5]. constructor; rewrite ?Hc, ?Hs; done. Qed.

Lemma dec_acq_count_same fg : channels_ (dec_acq_count fg) = channels_ fg /\
  channels_state_ (dec_acq_count fg) = channels_state_ fg /\ signals (dec_acq_count fg) = signals fg /\
  max_acq_channels_ (dec_acq_count fg) = max_acq_channels_ fg.
Proof. unfold dec_acq_count. by destruct (0 <? _). Qed.

Lemma held_same fg fg' ev k : channels_ fg' = channels_ fg -> channels_state_ fg' = channels_state_ fg ->
  held fg ev k -> held fg' ev k.
Proof. unfold held. by intros -> ->. Qed.

(** Taking channel [w] out of its state: what it held must be accounted for elsewhere. *)
Lemma covered_release ex ex' w ev ch st fg P : channels_ fg !! w = Some ch -> K !! w = Some ev ->
  covered ex fg ->
  (forall ev' k, k ∈ U ev' -> k ∈ pool_keys ev' (signals fg) -> k ∈ pool_keys ev' P \/
     (st <> 0 /\ free w = true /\ ev' = ev /\ k = sig_key (gnss_signal_ ch))) ->
  (st = 0 -> free w = true -> sig_key (gnss_signal_ ch) ∈ pool_keys ev P \/ ex' = Some (ev, sig_key (gnss_signal_ ch))) ->
  (w < length (channels_state_ fg))%nat -> (ex' = ex \/ ex = None) ->
  covered ex' (set_chstate w st (set_signals P fg)).
Proof.
  intros Hch HK Hc Hp Hrel Hlt Hex ev' k Hev' Hk.
  assert (forall k', st <> 0 -> free w = true -> k' = sig_key (gnss_signal_ ch) ->
    held (set_chstate w st (set_signals P fg)) ev k') as Hheld.
  { intros k' Hz Hf ->. exists w, ch, st. cbn. rewrite list_lookup_insert_eq by done. done. }
  destruct (Hc ev' k Hev' Hk) as [Hin|[(i & ch0 & s & Hi & Hs & HKi & Hf & Hz & <-)|Hx]].
  - destruct (Hp ev' k Hk Hin) as [?|(Hz & Hf & -> & ->)]; [by left|]. right; left. by apply Hheld.
  - destruct (decide (i = w)) as [->|Hne].
    + assert (ch0 = ch) as -> by congruence. assert (ev' = ev) as -> by congruence.
      destruct (decide (st = 0)) as [Hst|Hst]; [|right; left; by apply Hheld].
      destruct (Hrel Hst Hf) as [?|?]; [by left|by do 2 right].
    + right; left. exists i, ch0, s. cbn. rewrite list_lookup_insert_ne by done. done.
  - destruct Hex as [-> | ->]; [by do 2 right|done].
Qed.

Lemma channel_facts who fg : fg_wf fg -> (0 <= who < Z.of_nat (length K)) ->
  exists ch ev, channels_ fg !! Z.to_nat who = Some ch /\ K !! Z.to_nat who = Some ev /\ wf_sig ev (gnss_signal_ ch) /\
    (Z.to_nat who < length (channels_state_ fg))%nat.
Proof.
  intros Hw Hlt. destruct (lookup_lt_is_Some_2 (channels_ fg) (Z.to_nat who)) as [ch Hch]; [rewrite wf_length by done; lia|].
  destruct (wf_channels fg Hw _ ch Hch) as (ev & HK & Hs). exists ch, ev. split_and!; try done.
  rewrite wf_states by done. lia.
Qed.

Lemma sat_free who : 0 <= who -> free (Z.to_nat who) = true ->
  ((if who <? 200 then fixed_satellite who else 0) =? 0) = true.
Proof. unfold free. intros H0 Hf. rewrite Z2Nat.id in Hf by done. by destruct (who <? 200). Qed.

(** A failed acquisition: the manager runs while the channel is idle, then the signal goes
    to the end of its list. *)
Lemma apply_action_failed (Q : GNSSFlowgraph -> Prop) who fg :
  enough_satellites -> fg_wf fg -> covered None fg -> 0 <= who < Z.of_nat (length K) ->
  Q (dec_acq_count (set_chstate (Z.to_nat who) 0 fg)) ->
  (forall c fg fg', (c < length K)%nat -> fg_wf fg -> Q fg -> acquisition_effect c fg fg' -> Q fg') ->
  exists ch fg2 b, channels_ fg !! Z.to_nat who = Some ch /\ Q fg2 /\ fg_wf fg2 /\
    (free (Z.to_nat who) = true -> b = true) /\
    let fg' := if b : bool then set_signals (push_back_signal (gnss_signal_ ch) (signals fg2)) fg2 else fg2 in
    apply_action who 0 fg = Some fg' /\ fg_wf fg' /\ covered None fg'.
Proof.
  intros He Hw Hc Hwho HQ Hstep. destruct (channel_facts who fg Hw Hwho) as (ch & ev & Hch & HK & Hsig & Hlt).
  set (k := sig_key (gnss_signal_ ch)). set (fg1 := dec_acq_count (set_chstate (Z.to_nat who) 0 fg)) in *.
  destruct (dec_acq_count_same (set_chstate (Z.to_nat who) 0 fg)) as (D1 & D2 & D3 & D4). fold fg1 in D1, D2, D3, D4.
  assert (covered (Some (ev, k)) fg1) as Hc1.
  { pose proof (covered_release None (Some (ev, k)) (Z.to_nat who) ev ch 0 fg (signals fg) Hch HK Hc
      ltac:(by left) ltac:(by right) Hlt ltac:(by right)) as Hr.
    intros ev' k' Hev' Hk'. destruct (Hr ev' k' Hev' Hk') as [?|[?|?]];
      [left; by rewrite D3|right; left; by eapply held_same|by do 2 right]. }
  assert (fg_wf fg1) as Hw1.
  { apply (wf_same fg); [done| |rewrite D3; apply Hw|done]. rewrite D2. cbn. apply length_insert. }
  destruct (acquisition_manager_ind Q (Some (ev, k)) who fg1 He Hw1 Hc1 HQ Hstep) as (fg2 & Hm & Hw2 & Hc2 & HQ2).
  exists ch, fg2, ((if who <? 200 then fixed_satellite who else 0) =? 0).
  split_and!; [done|done|done|by apply sat_free; lia|].
  unfold apply_action. rewrite Hch. cbn [mbind option_bind]. rewrite decide_True by done. cbn [mbind option_bind].
  fold fg1. rewrite Hm. cbn [mbind option_bind].
  destruct (_ =? 0) eqn:Hb.
  - split_and!; [done|apply (wf_same fg2); [done|done|by eapply wf_pools_push, Hw2|done]|].
    intros ev' k' Hev' Hk'. cbn [signals set_signals]. rewrite (pool_keys_push ev) by done.
    destruct (Hc2 ev' k' Hev' Hk') as [?|[?|[= <- <-]]]; [by left; left|right; left; by eapply held_same|by left; right].
  - split_and!; [done|done|]. intros ev' k' Hev' Hk'.
    destruct (Hc2 ev' k' Hev' Hk') as [?|[?|[= <- <-]]]; [by left|by right; left|]. exfalso.
    destruct (free (Z.to_nat who)) eqn:Hf; [by rewrite sat_free in Hb by (done || lia)|].
    by eapply (wf_fixed fg Hw).
Qed.

(** A successful acquisition: the signal leaves its list, the channel is in tracking. *)
Lemma apply_action_success (Q : GNSSFlowgraph -> Prop) who fg :
  enough_satellites -> fg_wf fg -> covered None fg -> 0 <= who < Z.of_nat (length K) ->
  (forall ch, channels_ fg !! Z.to_nat who = Some ch ->
    Q (dec_acq_count (set_chstate (Z.to_nat who) 2 (set_signals (remove_signal (gnss_signal_ ch) (signals fg)) fg)))) ->
  (forall c fg fg', (c < length K)%nat -> fg_wf fg -> Q fg -> acquisition_effect c fg fg' -> Q fg') ->
  exists fg', apply_action who 1 fg = Some fg' /\ Q fg' /\ fg_wf fg' /\ covered None fg'.
Proof.
  intros He Hw Hc Hwho HQ Hstep. destruct (channel_facts who fg Hw Hwho) as (ch & ev & Hch & HK & Hsig & Hlt).
  specialize (HQ ch Hch). set (fg0 := set_chstate _ 2 _) in HQ.
  destruct (dec_acq_count_same fg0) as (D1 & D2 & D3 & D4).
  assert (covered None fg0) as Hc0.
  { apply (covered_release None None (Z.to_nat who) ev ch); [done..| |done|done|by left].
    intros ev' k HkU Hk. rewrite (pool_keys_remove ev) by done.
    destruct (decide (ev' = ev /\ k = sig_key (gnss_signal_ ch))) as [[-> ->]|Hne]; [|by left].
    destruct (free (Z.to_nat who)) eqn:Hf; [by right|]. by destruct (wf_fixed fg Hw _ _ _ Hch HK Hf). }
  assert (fg_wf fg0) as Hw0.
  { apply (wf_same fg); [done|cbn; apply length_insert|by eapply wf_pools_remove, Hw|done]. }
  destruct (acquisition_manager_ind Q None who (dec_acq_count fg0) He) as (fg' & Hm & Hw' & Hc' & HQ'); [| |done|done|].
  - apply (wf_same fg0); [done|by rewrite D2|rewrite D3; apply Hw0|done].
  - intros ev' k Hev' Hk. destruct (Hc0 ev' k Hev' Hk) as [?|[?|?]]; [left; by rewrite D3|right; left; by eapply held_same|done].
  - exists fg'. unfold apply_action. rewrite Hch. cbn [mbind option_bind]. rewrite decide_True by done. by split_and!.
Qed.

(** Loss of lock: the same satellite again when acquisitions are allowed, or idle. *)
Definition lost_again (who : Z) (ch' : Channel) (fg : GNSSFlowgraph) : GNSSFlowgraph :=
  set_channel (Z.to_nat who) ch' (set_acq_count (acq_channels_count_ fg + 1) (set_chstate (Z.to_nat who) 1 fg)).

Lemma apply_action_lost who fg : fg_wf fg -> covered None fg -> 0 <= who < Z.of_nat (length K) ->
  exists ch fg', channels_ fg !! Z.to_nat who = Some ch /\ apply_action who 2 fg = Some fg' /\ fg_wf fg' /\ covered None fg' /\
    (if acq_channels_count_ fg <? max_acq_channels_ fg
     then exists ch', fg' = lost_again who ch' fg /\ gnss_signal_ ch' = gnss_signal_ ch /\ repeat_ ch' = repeat_ ch /\
        channel_ (channel_fsm_ ch') = channel_ (channel_fsm_ ch) /\
        state_ (channel_fsm_ ch') = started (state_ (channel_fsm_ ch))
     else exists b : bool, (free (Z.to_nat who) = true -> b = true) /\
        fg' = set_chstate (Z.to_nat who) 0
                (set_signals (if b then push_back_signal (gnss_signal_ ch) (signals fg) else signals fg) fg)).
Proof.
  intros Hw Hc Hwho. destruct (channel_facts who fg Hw Hwho) as (ch & ev & Hch & HK & Hsig & Hlt).
  unfold apply_action. rewrite Hch. cbn [mbind option_bind]. rewrite decide_True by done.
  destruct (acq_channels_count_ fg <? max_acq_channels_ fg).
  - destruct (wf_set_signal ev _ ch Hsig) as (ch1 & -> & F1 & F2 & F3 & F4 & F5). cbn [mbind option_bind].
    destruct (start_facts ch1) as (G1 & G2 & G3 & G4). rewrite F1 in G1. rewrite F4 in G2. rewrite F3 in G3. rewrite F2 in G4.
    set (ch' := Channel_start_acquisition ch1) in *. clearbody ch'. exists ch, (lost_again who ch' fg).
    split_and!; [done|done| | |by exists ch'].
    + apply (wf_update (Z.to_nat who) ev ch' _ (signals fg) fg); [done|done|by rewrite G1|rewrite G1; intros; by eapply wf_fixed|cbn; rewrite length_insert; apply Hw|apply Hw].
    + intros ev' k Hev' Hk. cbn [signals lost_again set_channel set_acq_count set_chstate].
      destruct (Hc ev' k Hev' Hk) as [?|[(i & ch0 & s & Hi & Hs & HKi & Hf & Hz & <-)|?]]; [by left| |done].
      right; left. destruct (decide (i = Z.to_nat who)) as [->|Hne].
      * assert (ch0 = ch) as -> by congruence. exists (Z.to_nat who), ch', 1. cbn.
        rewrite !list_lookup_insert_eq by (done || by eapply lookup_lt_Some). by rewrite G1.
      * exists i, ch0, s. cbn. rewrite !list_lookup_insert_ne by done. done.
  - set (b := (if who <? 200 then fixed_satellite who else 0) =? 0).
    assert (free (Z.to_nat who) = true -> b = true) as Hb by (apply sat_free; lia).
    eexists ch, (set_chstate (Z.to_nat who) 0
      (set_signals (if b then push_back_signal (gnss_signal_ ch) (signals fg) else signals fg) fg)).
    split_and!; [done|by destruct b| | |by exists b].
    + apply (wf_same fg); [done|cbn; apply length_insert| |done]. destruct b; cbn; [by eapply wf_pools_push, Hw|apply Hw].
    + apply (covered_release None None (Z.to_nat who) ev ch); [done..| | |done|by left].
      * intros ev' k _ Hk. left. destruct b; [rewrite (pool_keys_push ev) by done; by left|done].
      * intros _ Hf. left. rewrite (Hb Hf). apply (pool_keys_push ev); [done|by right].
Qed.

(** Standby: every busy channel gives its signal back and stops. *)
Definition busy (st : Z) : bool := (st =? 1) || (st =? 2).

Definition stopped (ch : Channel) (st : Z) : Channel := if busy st then stop_channel ch else ch.

Lemma standby_one n ev ch st fg : fg_wf fg -> covered None fg -> channels_ fg !! n = Some ch -> K !! n = Some ev ->
  wf_sig ev (gnss_signal_ ch) -> channels_state_ fg !! n = Some st ->
  let fg' := set_chstate n 0 (set_channel n (stop_channel ch)
               (set_signals (push_back_signal (gnss_signal_ ch) (signals fg)) fg)) in
  fg_wf fg' /\ covered None fg'.
Proof.
  intros Hw Hc Hch HK Hsig Hst fg'. assert (gnss_signal_ (stop_channel ch) = gnss_signal_ ch) as Hs by done. split.
  - apply (wf_update n ev (stop_channel ch) (<[n := 0]> (channels_state_ fg))
      (push_back_signal (gnss_signal_ ch) (signals fg)) fg); try done.
    + intros Hf. rewrite Hs. by eapply wf_fixed.
    + rewrite length_insert. apply Hw.
    + by eapply wf_pools_push, Hw.
  - intros ev' k Hev' Hk. cbn [signals set_chstate set_channel set_signals fg'].
    rewrite (pool_keys_push ev) by done.
    destruct (Hc ev' k Hev' Hk) as [?|[(i & ch0 & s & Hi & Hs' & HKi & Hf & Hz & <-)|?]]; [by left; left| |done].
    destruct (decide (i = n)) as [->|Hne].
    + left; right. split; congruence.
    + right; left. exists i, ch0, s. cbn. rewrite !list_lookup_insert_ne by done. done.
Qed.

(** The effect of the loop on the channels from [n] on. *)
Record standby_effect (n : nat) (fg fg' : GNSSFlowgraph) : Prop := {
  sb_channels i ch st : channels_ fg !! i = Some ch -> channels_state_ fg !! i = Some st ->
    channels_ fg' !! i = Some (if decide (n <= i)%nat then stopped ch st else ch);
  sb_states i st : channels_state_ fg !! i = Some st ->
    channels_state_ fg' !! i = Some (if decide (n <= i)%nat then (if busy st then 0 else st) else st);
  sb_max : max_acq_channels_ fg' = max_acq_channels_ fg;
  sb_count : acq_channels_count_ fg' = acq_channels_count_ fg;
  sb_status : channels_status_ fg' = channels_status_ fg }.

Lemma standby_loop_spec chs : forall n fg, fg_wf fg -> covered None fg -> chs = drop n (channels_ fg) ->
  exists fg', standby_loop chs n fg = Some fg' /\ fg_wf fg' /\ covered None fg' /\ standby_effect n fg fg'.
Proof.
  induction chs as [|ch chs IH]; intros n fg Hw Hc Hd; cbn [standby_loop].
  - exists fg. assert (forall i ch, channels_ fg !! i = Some ch -> ~ (n <= i)%nat) as Hlt.
    { intros i ch Hi%lookup_lt_Some. apply (f_equal length) in Hd. rewrite length_drop in Hd. cbn in Hd. lia. }
    split_and!; [done|done|done|]. split; [|intros i st Hi|done..].
    + intros i ch st Hi Hs. by rewrite decide_False by by eapply Hlt.
    + apply lookup_lt_Some in Hi as Hi'. rewrite wf_states, <- (wf_length fg) in Hi' by done.
      destruct (lookup_lt_is_Some_2 _ _ Hi') as [ch Hch]. by rewrite decide_False by by eapply Hlt.
  - assert (channels_ fg !! n = Some ch) as Hch.
    { rewrite <- (Nat.add_0_r n), <- lookup_drop, <- Hd. done. }
    destruct (wf_channels fg Hw n ch Hch) as (ev & HK & Hsig).
    destruct (lookup_lt_is_Some_2 (channels_state_ fg) n) as [st Hst].
    { rewrite wf_states by done. by eapply lookup_lt_Some. }
    rewrite Hst. cbn [mbind option_bind]. fold (busy st).
    assert (chs = drop (S n) (channels_ fg)) as Hd'.
    { rewrite <- Nat.add_1_r, <- drop_drop, <- Hd. done. }
    set (fg1 := if busy st then _ else fg).
    assert (fg_wf fg1 /\ covered None fg1) as [Hw1 Hc1].
    { unfold fg1. destruct (busy st); [|done]. by apply (standby_one n ev ch st). }
    assert (channels_ fg1 = <[n := stopped ch st]> (channels_ fg) /\
      channels_state_ fg1 = <[n := if busy st then 0 else st]> (channels_state_ fg)) as [E1 E2].
    { unfold fg1, stopped. destruct (busy st); [done|]. by rewrite !list_insert_id. }
    destruct (IH (S n) fg1 Hw1 Hc1) as (fg' & Hl & Hw' & Hc' & [B1 B2 B3 B4 B5]).
    { rewrite E1. by rewrite drop_insert_lt by lia. }
    exists fg'. split_and!; [done|done|done|]. split.
    + intros i ch0 st0 Hi Hs. specialize (B1 i). specialize (B2 i).
      rewrite E1, E2 in B1. destruct (decide (i = n)) as [->|Hne].
      * rewrite (B1 (stopped ch st) (if busy st then 0 else st)).
        -- rewrite decide_False by lia. rewrite decide_True by lia. congruence.
        -- rewrite list_lookup_insert_eq; [done|by eapply lookup_lt_Some].
        -- rewrite list_lookup_insert_eq; [done|by eapply lookup_lt_Some].
      * rewrite !list_lookup_insert_ne in B1 by done. rewrite (B1 ch0 st0) by done.
        by destruct (decide (S n <= i)%nat), (decide (n <= i)%nat); try lia.
    + intros i st0 Hs. specialize (B2 i). rewrite E2 in B2. destruct (decide (i = n)) as [->|Hne].
      * assert (st0 = st) as -> by congruence. rewrite (B2 (if busy st then 0 else st)).
        -- rewrite decide_False by lia. by rewrite decide_True by lia.
        -- rewrite list_lookup_insert_eq; [done|by eapply lookup_lt_Some].
      * rewrite !list_lookup_insert_ne in B2 by done. rewrite (B2 st0) by done.
        by destruct (decide (S n <= i)%nat), (decide (n <= i)%nat); try lia.
    + rewrite B3. unfold fg1. by destruct (busy st).
    + rewrite B4. unfold fg1. by destruct (busy st).
    + rewrite B5. unfold fg1. by destruct (busy st).
Qed.

Lemma apply_action_standby who fg : fg_wf fg -> covered None fg ->
  exists fg', apply_action who 10 fg = Some (set_acq_count 0 fg') /\ fg_wf (set_acq_count 0 fg') /\
    covered None (set_acq_count 0 fg') /\ standby_effect 0 fg fg'.
Proof.
  intros Hw Hc. destruct (standby_loop_spec (channels_ fg) 0 fg Hw Hc) as (fg' & Hl & Hw' & Hc' & He); [done|].
  exists fg'. unfold apply_action. rewrite Hl. split_and!; [done|apply (wf_same fg'); [done|done|apply Hw'|done]|done|done].
Qed.

(** The events that reach the flow graph. *)
Definition action_ok (who what : Z) : Prop := what = 0 \/ what = 1 \/ what = 2 -> 0 <= who < Z.of_nat (length K).

Lemma apply_action_safe who what fg : enough_satellites -> fg_wf fg -> covered None fg -> action_ok who what ->
  exists fg', apply_action who what fg = Some fg' /\ fg_wf fg' /\ covered None fg'.
Proof.
  intros He Hw Hc Ha.
  destruct (decide (what = 0)) as [->|H0].
  { destruct (apply_action_failed (fun _ => True) who fg) as (ch & fg2 & b & _ & _ & _ & _ & ? & ? & ?); auto.
    by eexists. }
  destruct (decide (what = 1)) as [->|H1].
  { destruct (apply_action_success (fun _ => True) who fg) as (fg' & ? & _ & ? & ?); auto. by exists fg'. }
  destruct (decide (what = 2)) as [->|H2].
  { destruct (apply_action_lost who fg) as (ch & fg' & _ & ? & ? & ? & _); auto. by exists fg'. }
  destruct (decide (what = 10)) as [->|H10].
  { destruct (apply_action_standby who fg) as (fg' & ? & ? & ? & _); auto. by eexists. }
  exists fg. split_and!; [|done|done]. unfold apply_action. by repeat case_match; try lia.
Qed.

(** Channels keep their numbers. *)
Definition numbered (fg : GNSSFlowgraph) : Prop :=
  forall i ch, channels_ fg !! i = Some ch -> channel_ (channel_fsm_ ch) = Z.of_nat i.

Lemma numbered_insert c ch ch' fg fg' : numbered fg -> channels_ fg !! c = Some ch ->
  channels_ fg' = <[c := ch']> (channels_ fg) -> channel_ (channel_fsm_ ch') = channel_ (channel_fsm_ ch) -> numbered fg'.
Proof.
  intros Hn Hch E Hc i ch0. rewrite E, list_lookup_insert_Some. intros [(<- & <- & _)|[_ ?]]; [|by apply Hn].
  rewrite Hc. by apply Hn.
Qed.

Lemma effect_numbered c fg fg' : numbered fg -> acquisition_effect c fg fg' -> numbered fg'.
Proof. intros Hn He. destruct He; [done|..]; by eapply numbered_insert. Qed.

Lemma apply_action_numbered who what fg fg' : enough_satellites -> fg_wf fg -> covered None fg -> action_ok who what ->
  numbered fg -> apply_action who what fg = Some fg' -> numbered fg'.
Proof.
  intros He Hw Hc Ha Hn Heq.
  assert (forall fg0, channels_ fg0 = channels_ fg -> numbered fg0) as Hsame by (unfold numbered; by intros ? ->).
  destruct (decide (what = 0)) as [->|H0].
  { destruct (apply_action_failed numbered who fg) as (ch & fg2 & b & _ & Hn2 & _ & _ & Heq' & _ & _); auto.
    { apply Hsame. by destruct (dec_acq_count_same (set_chstate (Z.to_nat who) 0 fg)) as (-> & _). }
    { intros. by eapply effect_numbered. }
    rewrite Heq in Heq'. injection Heq' as ->. by destruct b. }
  destruct (decide (what = 1)) as [->|H1].
  { destruct (apply_action_success numbered who fg He Hw Hc (Ha ltac:(auto))) as (fg2 & Heq' & Hn2 & _ & _).
    { intros ch _. apply Hsame.
      match goal with |- context [dec_acq_count ?x] => by destruct (dec_acq_count_same x) as (-> & _) end. }
    { intros. by eapply effect_numbered. }
    rewrite Heq in Heq'. by injection Heq' as ->. }
  destruct (decide (what = 2)) as [->|H2].
  { destruct (apply_action_lost who fg) as (ch & fg2 & Hch & Heq' & _ & _ & Hcase); auto.
    rewrite Heq in Heq'. injection Heq' as <-. destruct (_ <? _).
    - destruct Hcase as (ch' & -> & _ & _ & Hnum & _). by eapply numbered_insert.
    - destruct Hcase as (b & _ & ->). by apply Hsame. }
  destruct (decide (what = 10)) as [->|H10].
  { destruct (apply_action_standby who fg) as (fg2 & Heq' & Hw' & _ & [B1 _ _ _ _]); auto.
    rewrite Heq in Heq'. injection Heq' as ->. intros i ch'. cbn. intros Hi.
    assert (i < length (channels_ fg))%nat as Hlt.
    { apply lookup_lt_Some in Hi. pose proof (wf_length _ Hw') as Hl. cbn in Hl. by rewrite wf_length, <- Hl. }
    destruct (lookup_lt_is_Some_2 _ _ Hlt) as [ch Hch].
    destruct (lookup_lt_is_Some_2 (channels_state_ fg) i) as [st Hst]; [by rewrite wf_states, <- (wf_length fg)|].
    rewrite (B1 i ch st Hch Hst), decide_True in Hi by lia. injection Hi as <-.
    rewrite <- (Hn i ch Hch). unfold stopped, stop_channel, Event_stop_channel.
    destruct (busy st); [|done]. cbn. by destruct (_ =? 1); [|destruct (_ =? 2)]. }
  assert (apply_action who what fg = Some fg) as Heq' by (unfold apply_action; by repeat case_match; try lia).
  rewrite Heq in Heq'. by injection Heq' as ->.
Qed.

(** ** Priorities *)

Lemma to_front_keys g l k : k ∈ sig_key <$> to_front g l <-> k ∈ sig_key <$> l.
Proof.
  unfold to_front. set (l' := list_remove_signal g l).
  assert (forall k, k ∈ sig_key <$> l' <-> k ∈ sig_key <$> l /\ k <> sig_key g) as Hl'.
  { intros k'. apply elem_of_remove_keys. }
  assert (sig_key g ∈ sig_key <$> l <-> (length l' < length l)%nat) as Hg.
  { clear Hl'. unfold l'. induction l as [|x l IH]; cbn [list_remove_signal].
    - cbn. split; [intros Hin; inversion Hin|lia].
    - unfold list_remove_signal in *. rewrite filter_cons, sig_eqb_key, fmap_cons, elem_of_cons.
      assert (length (filter (fun x0 => sig_eqb x0 g = false) l) <= length l)%nat as Hle by apply length_filter.
      destruct (decide _) as [Hne|Heq]; cbn [length].
      + apply bool_decide_eq_false in Hne. rewrite IH. split; [intros [?|?]; [congruence|lia]|lia].
      + apply not_false_iff_true, bool_decide_eq_true in Heq. split; [lia|by left]. }
  destruct (Nat.ltb_spec (length l') (length l)).
  - rewrite fmap_cons, elem_of_cons, Hl'. destruct (decide (k = sig_key g)) as [->|?]; [|tauto]. tauto.
  - rewrite Hl'. split; [tauto|]. intros Hk. split; [done|]. intros ->. apply Hg in Hk. lia.
Qed.

(** The lists keep their elements, up to the order. *)
Definition same_pools (P P' : available_signals) : Prop :=
  (wf_pools P -> wf_pools P') /\ forall ev k, k ∈ pool_keys ev P' <-> k ∈ pool_keys ev P.

Lemma priorize_kind_same sat ev P : ev <> evSBAS_1C -> get_system_short sat <> None ->
  same_pools P (priorize_kind sat ev P).
Proof.
  intros Hev Hs. unfold priorize_kind. set (g := {| satellite := sat; signal := ev_str ev |}). split.
  - intros HP. apply wf_pools_set; [done|]. pose proof (Forall_list_remove _ g _ (HP ev Hev)) as Hr.
    unfold to_front. destruct (_ <? _)%nat; [|done]. constructor; [by split|done].
  - intros ev' k. unfold pool_keys. destruct (decide (ev' = ev)) as [->|?].
    + rewrite pool_set_pool. apply to_front_keys.
    + by rewrite pool_set_pool_ne.
Qed.

Lemma same_pools_trans P P' P'' : same_pools P P' -> same_pools P' P'' -> same_pools P P''.
Proof. intros [A B] [C D]. split; [auto|]. intros ev k. by rewrite D. Qed.

Lemma priorize_satellites_same visible fg :
  same_pools (signals fg) (signals (priorize_satellites visible fg)).
Proof.
  cbn. generalize (signals fg). induction visible as [|[z sat] visible IH]; intros P; cbn [fold_left]; [done|].
  eapply same_pools_trans; [|apply IH]. cbn [snd]. unfold priorize_satellite.
  assert (system sat = "GPS"%string \/ system sat = "Galileo"%string -> get_system_short sat <> None) as Hs.
  { unfold get_system_short. by intros [-> | ->]. }
  case_decide as H1; [|case_decide as H2; [|done]].
  - specialize (Hs (or_introl H1)).
    repeat (eapply same_pools_trans; [|by apply priorize_kind_same]). done.
  - specialize (Hs (or_intror H2)).
    repeat (eapply same_pools_trans; [|by apply priorize_kind_same]). done.
Qed.

Lemma priorize_safe visible fg : fg_wf fg -> covered None fg ->
  fg_wf (priorize_satellites visible fg) /\ covered None (priorize_satellites visible fg).
Proof.
  intros Hw Hc. destruct (priorize_satellites_same visible fg) as [HP Hk]. split.
  - apply (wf_same fg); [done|done|apply HP, Hw|done].
  - intros ev k Hev HkU. rewrite Hk. apply (Hc ev k Hev HkU).
Qed.

End invariant.

(** ** Initialisation *)

Section initialisation.
Context `{ConfigurationInterface}.

(** The signals of channels that the configuration fixes to a satellite. *)
Definition fixed_keys (ev : StringValue) : list key :=
  (fun i => sig_key (make_signal ev (fixed_satellite (Z.of_nat i)))) <$>
  filter (fun i => configured_kinds !! i = Some ev /\ free i = false) (seq 0 (length configured_kinds)).

(** The signals that the free channels share: the configured ones without the fixed ones. *)
Definition shared_signals (ev : StringValue) : list key :=
  filter (fun k => k ∉ fixed_keys ev) (remove_dups (sig_key <$> signals_of ev)).

Lemma fixed_key_not_shared i ev : configured_kinds !! i = Some ev -> free i = false ->
  sig_key (make_signal ev (fixed_satellite (Z.of_nat i))) ∉ shared_signals ev.
Proof.
  intros Hi Hf Hin. apply list_elem_of_filter in Hin as [Hn _]. apply Hn.
  apply list_elem_of_fmap. exists i. split; [done|]. apply list_elem_of_filter. split; [done|].
  apply elem_of_seq. apply lookup_lt_Some in Hi. lia.
Qed.

(** While the channels in [D] have been assigned: the others still carry the default
    satellite. *)
Record assigned (D : list nat) (fg : GNSSFlowgraph) : Prop := {
  as_states : channels_state_ fg = channels_state_ init;
  as_max : max_acq_channels_ fg = max_acq_channels_ init;
  as_count : acq_channels_count_ fg = acq_channels_count_ init;
  as_length : length (channels_ fg) = length configured_kinds;
  as_channels i ch : channels_ fg !! i = Some ch -> exists ev, configured_kinds !! i = Some ev /\
    ev <> evSBAS_1C /\ signal (gnss_signal_ ch) = ev_str ev /\ state_ (channel_fsm_ ch) = 0 /\
    channel_ (channel_fsm_ ch) = Z.of_nat i /\
    (i ∈ D -> wf_sig ev (gnss_signal_ ch) /\ (free i = false -> sig_key (gnss_signal_ ch) ∉ shared_signals ev));
  as_lists : wf_pools (signals fg);
  as_keys ev k : k ∈ shared_signals ev -> k ∈ pool_keys ev (signals fg) }.

Lemma configured_kind i ev : configured_kinds !! i = Some ev -> ev <> evSBAS_1C.
Proof.
  intros Hi%list_elem_of_lookup_2 ->. unfold configured_kinds in Hi.
  apply list_elem_of_bind in Hi as (ev & Hr & Hin). apply elem_of_replicate in Hr as [<- _].
  unfold channel_kinds in Hin. by repeat (apply elem_of_cons in Hin as [?|Hin]; [done|]); inversion Hin.
Qed.

Lemma pool_set_signals_list ev : pool ev set_signals_list = signals_of ev.
Proof. by destruct ev. Qed.

Lemma channels_init : channels_ init = GetChannels.
Proof. done. Qed.

Lemma init_assigned : assigned [] init.
Proof.
  constructor; try done.
  - rewrite channels_init. unfold GetChannels. by rewrite length_imap.
  - intros i ch. rewrite channels_init. unfold GetChannels. rewrite list_lookup_imap.
    destruct (configured_kinds !! i) as [ev|] eqn:Hi; [|done]. cbn [fmap option_fmap option_map]. intros [= <-].
    exists ev. split_and!; try done; [by eapply configured_kind|]. intros Hin; inversion Hin.
  - intros ev Hev. change (signals init) with set_signals_list. rewrite pool_set_signals_list. unfold signals_of.
    destruct (0 <? _); [|done]. apply Forall_fmap, list.Forall_forall. intros p _. by apply wf_make_signal.
  - intros ev k Hk. unfold pool_keys. change (signals init) with set_signals_list. rewrite pool_set_signals_list.
    apply list_elem_of_filter in Hk as [_ Hk]. by rewrite elem_of_remove_dups in Hk.
Qed.

Lemma assigned_insert D i ev ch ch' P fg : assigned D fg -> channels_ fg !! i = Some ch ->
  configured_kinds !! i = Some ev -> set_signal (gnss_signal_ ch') ch = Some ch' -> wf_sig ev (gnss_signal_ ch') ->
  (free i = false -> sig_key (gnss_signal_ ch') ∉ shared_signals ev) ->
  wf_pools P -> (forall ev' k, k ∈ shared_signals ev' -> k ∈ pool_keys ev' (signals fg) -> k ∈ pool_keys ev' P) ->
  assigned (i :: D) (set_channel i ch' (set_signals P fg)).
Proof.
  intros [A1 A2 A3 A4 A5 A6 A7] Hch HK Hset Hsig Hf HP Hk. destruct (A5 i ch Hch) as (ev0 & HK0 & Hev & Hstr & Hst & Hnum & _).
  destruct (wf_set_signal ev _ ch Hsig) as (ch1 & Hset1 & F1 & F2 & F3 & _). rewrite Hset in Hset1. injection Hset1 as <-.
  constructor; cbn; auto.
  - by rewrite length_insert.
  - intros j c. rewrite list_lookup_insert_Some. intros [(<- & <- & _)|[Hne Hj]].
    + exists ev. destruct Hsig as (? & ? & ?). split_and!; try done; congruence.
    + destruct (A5 j c Hj) as (ev' & ? & ? & ? & ? & ? & HD). exists ev'. split_and!; try done.
      intros [->|Hin]%elem_of_cons; [done|by apply HD].
Qed.

Lemma assign_channel_assigned D i fg : enough_satellites configured_kinds shared_signals -> assigned D fg ->
  (i < length configured_kinds)%nat -> exists fg', assign_channel fg i = Some fg' /\ assigned (i :: D) fg'.
Proof.
  intros He Ha Hi. pose proof Ha as [A1 A2 A3 A4 A5 A6 A7].
  destruct (lookup_lt_is_Some_2 (channels_ fg) i) as [ch Hch]; [by rewrite A4|].
  destruct (A5 i ch Hch) as (ev & HK & Hev & Hstr & _). unfold assign_channel. rewrite Hch. cbn [mbind option_bind].
  fold (free i). rewrite Hstr. destruct (free i) eqn:Hf.
  - assert (pool ev (signals fg) <> []) as Hne.
    { destruct (He ev) as [_ Hlt]. assert (i ∈ free_channels configured_kinds ev) as Hin by by apply elem_of_free_channels.
      specialize (Hlt ltac:(by intros Hn; rewrite Hn in Hin; inversion Hin)).
      destruct (shared_signals ev) as [|k l] eqn:HU; [cbn in Hlt; lia|].
      assert (k ∈ pool_keys ev (signals fg)) as Hk by (apply A7; rewrite HU; left).
      intros Hp. unfold pool_keys in Hk. rewrite Hp in Hk. inversion Hk. }
    destruct (search_next_spec ev false (channels_status_ fg) (signals fg) Hev Hne) as (g & P & prim & a & hz & -> & Hs).
    destruct (searched_wf _ _ _ _ _ Hev A6 Hs) as [Hg HP]. destruct (wf_set_signal ev g ch Hg) as (ch1 & Hset & F1 & _).
    cbn [mbind option_bind]. rewrite Hset. eexists. split; [done|].
    apply (assigned_insert D i ev ch); rewrite ?F1; try done; [congruence|].
    intros ev' k _ Hk. destruct (searched_keys _ _ _ _ _ ev' k Hs Hk) as [?|[? _]]; done.
  - rewrite mapStringValues_str by done.
    assert (fixed_kind ev = ev) as -> by by destruct ev.
    assert ({| satellite := make_satellite (ev_system ev) (fixed_satellite (Z.of_nat i)); signal := ev_str ev |} =
            make_signal ev (fixed_satellite (Z.of_nat i))) as -> by done.
    set (g := make_signal ev _). assert (wf_sig ev g) as Hg by by apply wf_make_signal.
    destruct (wf_set_signal ev g ch Hg) as (ch1 & Hset & F1 & _). rewrite Hset. cbn [mbind option_bind].
    eexists. split; [done|]. rewrite <- (remove_eq ev) by done.
    apply (assigned_insert D i ev ch); rewrite ?F1; try done.
    + intros _. by apply fixed_key_not_shared.
    + by eapply wf_pools_remove.
    + intros ev' k HkU Hk. apply (pool_keys_remove ev); [done|]. split; [done|]. intros [-> ->].
      by apply (fixed_key_not_shared i ev).
Qed.

Lemma assign_loop_assigned order : forall D fg, enough_satellites configured_kinds shared_signals -> assigned D fg ->
  Forall (fun i => (i < length configured_kinds)%nat) order ->
  exists fg', assign_loop order fg = Some fg' /\ assigned (reverse order ++ D) fg'.
Proof.
  induction order as [|i order IH]; intros D fg He Ha Ho; cbn [assign_loop]; [by exists fg|].
  apply Forall_cons_1 in Ho as [Hi Ho]. destruct (assign_channel_assigned D i fg He Ha Hi) as (fg1 & -> & Ha1).
  cbn [mbind option_bind]. destruct (IH (i :: D) fg1 He Ha1 Ho) as (fg' & -> & Ha'). exists fg'. split; [done|].
  by rewrite reverse_cons, <- app_assoc.
Qed.

Lemma elem_of_vector_of_channels n i : i ∈ vector_of_channels n <-> (i < n)%nat.
Proof.
  unfold vector_of_channels. rewrite elem_of_app, elem_of_reverse, !list_elem_of_filter, !elem_of_seq.
  split; [intros [[_ ?]|[_ ?]]; lia|]. intros Hi.
  destruct (negb (fixed_satellite (Z.of_nat i) =? 0)); [left|right]; (split; [done|lia]).
Qed.

Lemma init_states i st : channels_state_ init !! i = Some st ->
  st = if Z.of_nat i <? max_acq_channels_ init then 1 else 0.
Proof.
  cbn. rewrite list_lookup_fmap, fmap_Some. intros (x & Hx & ->). apply lookup_seqZ in Hx as [-> _]. done.
Qed.

(** Connecting the flow graph: it succeeds, nothing is lost, and the machines of the
    channels agree with their states. *)
Lemma connect_init : enough_satellites configured_kinds shared_signals ->
  exists fg, connect init = Some fg /\ fg_wf configured_kinds shared_signals fg /\
    covered configured_kinds shared_signals None fg /\
    (forall i ch st, channels_ fg !! i = Some ch -> channels_state_ fg !! i = Some st ->
       channel_ (channel_fsm_ ch) = Z.of_nat i /\ state_ (channel_fsm_ ch) = st /\ (st = 0 \/ st = 1)) /\
    channels_state_ fg = channels_state_ init /\ max_acq_channels_ fg = max_acq_channels_ init /\
    acq_channels_count_ fg = acq_channels_count_ init.
Proof.
  intros He. unfold connect, assign_channels.
  destruct (assign_loop_assigned (vector_of_channels (length (channels_ init))) [] init He init_assigned) as (fg & -> & Ha).
  { apply list.Forall_forall. intros i Hi%elem_of_vector_of_channels. by rewrite (as_length [] init init_assigned) in Hi. }
  cbn [mbind option_bind]. exists (activate_channels fg). split; [done|]. destruct Ha as [A1 A2 A3 A4 A5 A6 A7].
  assert (length (channels_state_ fg) = length configured_kinds) as Hst.
  { rewrite A1. cbn. rewrite length_fmap, length_seqZ. pose proof (as_length [] init init_assigned) as Hl. cbn in Hl. lia. }
  assert (forall i ch, channels_ (activate_channels fg) !! i = Some ch -> exists ch0 st,
    channels_ fg !! i = Some ch0 /\ channels_state_ fg !! i = Some st /\ ch = (if st =? 1 then Channel_start_acquisition ch0 else ch0) /\
    gnss_signal_ ch = gnss_signal_ ch0) as Hact.
  { intros i ch. cbn. rewrite lookup_zip_with. intros Hb.
    destruct (channels_ fg !! i) as [ch0|] eqn:E1; [|done]. cbn in Hb. destruct (channels_state_ fg !! i) as [st|] eqn:E2; [|done].
    injection Hb as <-. exists ch0, st. split_and!; try done. destruct (st =? 1); [|done]. by apply start_facts. }
  assert (forall i ch0, channels_ fg !! i = Some ch0 -> i ∈ reverse (vector_of_channels (length (channels_ init))) ++ []) as Hall.
  { intros i ch0 Hi%lookup_lt_Some. rewrite app_nil_r. apply elem_of_reverse, elem_of_vector_of_channels.
    by rewrite (as_length [] init init_assigned), <- A4. }
  split_and!; try done.
  - constructor; [done|cbn [activate_channels channels_]; rewrite length_zip_with, A4, Hst; apply Nat.min_id|..|done].
    + intros i ch (ch0 & st & Hi & _ & _ & ->)%Hact. destruct (A5 i ch0 Hi) as (ev & HK & _ & _ & _ & _ & HD).
      exists ev. split; [done|]. by eapply HD, Hall.
    + intros i ch ev (ch0 & st & Hi & _ & _ & ->)%Hact HK Hf. destruct (A5 i ch0 Hi) as (ev' & HK' & _ & _ & _ & _ & HD).
      assert (ev' = ev) as -> by congruence. by eapply HD; [eapply Hall|].
  - intros ev k _ Hk. left. by apply A7.
  - intros i ch st (ch0 & st' & Hi & Hs & -> & _)%Hact Hs'. cbn in Hs'. assert (st' = st) as -> by congruence.
    destruct (A5 i ch0 Hi) as (ev & _ & _ & _ & H0 & Hn & _).
    assert (st = 0 \/ st = 1) as Hor. { rewrite A1 in Hs. apply init_states in Hs as ->. destruct (_ <? _); auto. }
    destruct Hor as [-> | ->]; cbn; [by split_and!; [..|left]|].
    destruct (start_facts ch0) as (_ & _ & G3 & G4). rewrite G3, G4, H0. split_and!; [done|done|by right].
Qed.

End initialisation.
