(* ===== verification/ControlThread.v ===== *)
(** * The control thread

    [ControlThread] ([core/receiver/control_thread.cc]): the loop that takes messages from
    the control queue and acts on the flow graph, and the receiver as a whole: a sequence of
    inputs in which reports of the signal-processing blocks, channel status messages,
    commands and iterations of the loop come in any order. *)
From stdpp Require Import strings pretty.
From S2P Require Import Prelude GnssSignal ChannelFsm Flowgraph FlowgraphInv.

#[local] Open Scope Z_scope.

(** ** State *)

(** What the thread asks of the position engine and of the files with assistance data. *)
Inductive pvt_call := clear_ephemeris | read_assistance_from_XML.

Record ControlThread := {
  flowgraph_ : GNSSFlowgraph; control_queue_ : list control_msg; receiver_on_standby_ : bool;
  stop_ : bool; restart_ : bool; processed_control_messages_ : Z; applied_actions_ : Z;
  pvt_calls : list pvt_call }.

Definition set_flowgraph (fg : GNSSFlowgraph) (ct : ControlThread) : ControlThread :=
  {| flowgraph_ := fg; control_queue_ := control_queue_ ct; receiver_on_standby_ := receiver_on_standby_ ct;
     stop_ := stop_ ct; restart_ := restart_ ct; processed_control_messages_ := processed_control_messages_ ct;
     applied_actions_ := applied_actions_ ct; pvt_calls := pvt_calls ct |}.

Definition set_queue (q : list control_msg) (ct : ControlThread) : ControlThread :=
  {| flowgraph_ := flowgraph_ ct; control_queue_ := q; receiver_on_standby_ := receiver_on_standby_ ct;
     stop_ := stop_ ct; restart_ := restart_ ct; processed_control_messages_ := processed_control_messages_ ct;
     applied_actions_ := applied_actions_ ct; pvt_calls := pvt_calls ct |}.

(** The flags, and the calls made. *)
Definition set_flags (standby stop restart : bool) (calls : list pvt_call) (ct : ControlThread) : ControlThread :=
  {| flowgraph_ := flowgraph_ ct; control_queue_ := control_queue_ ct; receiver_on_standby_ := standby;
     stop_ := stop; restart_ := restart; processed_control_messages_ := processed_control_messages_ ct;
     applied_actions_ := applied_actions_ ct; pvt_calls := pvt_calls ct ++ calls |}.

Definition count_action (ct : ControlThread) : ControlThread :=
  {| flowgraph_ := flowgraph_ ct; control_queue_ := control_queue_ ct; receiver_on_standby_ := receiver_on_standby_ ct;
     stop_ := stop_ ct; restart_ := restart_ ct; processed_control_messages_ := processed_control_messages_ ct;
     applied_actions_ := applied_actions_ ct + 1; pvt_calls := pvt_calls ct |}.

Definition count_message (ct : ControlThread) : ControlThread :=
  {| flowgraph_ := flowgraph_ ct; control_queue_ := control_queue_ ct; receiver_on_standby_ := receiver_on_standby_ ct;
     stop_ := stop_ ct; restart_ := restart_ ct; processed_control_messages_ := processed_control_messages_ ct + 1;
     applied_actions_ := applied_actions_ ct; pvt_calls := pvt_calls ct |}.

(** The kinds of the channels, and the signals they share. *)
Abbreviation kinds := configured_kinds.
Abbreviation shared := shared_signals.

Section control.
Context `{ConfigurationInterface}.

(** ** Operations *)

(** [visible] is the result of [get_visible_sats]; the warm start does not use it. *)
Definition ct_apply_action (what : Z) (visible : list (Z * Gnss_Satellite)) (ct0 : ControlThread) : ControlThread :=
  let ct := count_action ct0 in
  match what with
  | 0 => set_flags (receiver_on_standby_ ct) true (restart_ ct) [] ct
  | 1 => set_flags (receiver_on_standby_ ct) true true [] ct
  | 10 => set_flags true (stop_ ct) (restart_ ct) [] ct
  | 11 => set_flags false (stop_ ct) (restart_ ct) [clear_ephemeris] ct
  | 12 => set_flags false (stop_ ct) (restart_ ct) []
            (set_flowgraph (priorize_satellites visible (flowgraph_ ct)) ct)
  | 13 => set_flags false (stop_ ct) (restart_ ct) [clear_ephemeris; read_assistance_from_XML]
            (set_flowgraph (priorize_satellites [] (flowgraph_ ct)) ct)
  | _ => ct
  end.

Definition fg_apply_action (who what : Z) (ct : ControlThread) : option ControlThread :=
  fg ← apply_action who what (flowgraph_ ct); Some (set_flowgraph fg ct).

(** [None] as the message is [valid_event == false]. *)
Definition event_dispatcher (msg : option control_msg) (visible : list (Z * Gnss_Satellite)) (ct : ControlThread)
  : option ControlThread :=
  match msg with
  | Some m =>
      let ct1 := count_message ct in
      match m with
      | Channel_Event channel_id event_type =>
          if negb (receiver_on_standby_ ct1) then fg_apply_action channel_id event_type ct1 else Some ct1
      | Command_Event command_id event_type =>
          if command_id =? 200 then Some (ct_apply_action event_type visible ct1)
          else fg_apply_action command_id event_type
                 (if command_id =? 300 then ct_apply_action event_type visible ct1 else ct1)
      | Other_Object => Some ct1
      end
  | None =>
      if negb (receiver_on_standby_ ct) then
        fg ← acquisition_manager 0 (flowgraph_ ct); Some (set_flowgraph fg ct)
      else Some ct
  end.

(** The actions of [assist_GNSS] on the flow graph, when there is a reference position. *)
Definition assist_actions (visible : list (Z * Gnss_Satellite)) (ct : ControlThread) : option ControlThread :=
  ct1 ← fg_apply_action 0 10 ct;
  fg_apply_action 0 12 (set_flowgraph (priorize_satellites visible (flowgraph_ ct1)) ct1).

(** One iteration of the loop of [run]: nothing any more once [stop_] is set. *)
Definition run_iteration (visible : list (Z * Gnss_Satellite)) (ct : ControlThread) : option ControlThread :=
  if stop_ ct then Some ct
  else
    let '(msg, q) := Concurrent_Queue.timed_wait_and_pop (control_queue_ ct) [] in
    event_dispatcher msg visible (set_queue q ct).

(** [init] and [connect]: the state in which [run] enters its loop. *)
Definition start_receiver : option ControlThread :=
  fg ← connect init;
  Some {| flowgraph_ := fg; control_queue_ := []; receiver_on_standby_ := false; stop_ := false; restart_ := false;
          processed_control_messages_ := 0; applied_actions_ := 0; pvt_calls := [] |}.

(** ** The receiver *)

(** A report of a block of channel [c]; a channel status message; a command of the
    telecommand interface, the keyboard or the signal source; an iteration of the loop; the
    assistance at startup. Each runs under a mutex, so that they take effect one after
    another. *)
Inductive input :=
  | I_report (c : nat) (message : Z)
  | I_status (y : Gnss_Synchro)
  | I_command (command_id event_type : Z)
  | I_loop (visible : list (Z * Gnss_Satellite))
  | I_assist (visible : list (Z * Gnss_Satellite)).

Definition report (c : nat) (message : Z) (ct : ControlThread) : ControlThread :=
  match channels_ (flowgraph_ ct) !! c with
  | Some ch =>
      let '(ch', q) := block_report message ch (control_queue_ ct) in
      set_queue q (set_flowgraph (set_channel c ch' (flowgraph_ ct)) ct)
  | None => ct
  end.

Definition set_status (m : list (Z * Gnss_Synchro)) (fg : GNSSFlowgraph) : GNSSFlowgraph :=
  {| channels_ := channels_ fg; channels_state_ := channels_state_ fg; signals := signals fg;
     acq_channels_count_ := acq_channels_count_ fg; max_acq_channels_ := max_acq_channels_ fg;
     channels_status_ := m; multiband_ := multiband_ fg |}.

Definition receiver_step (i : input) (ct : ControlThread) : option ControlThread :=
  match i with
  | I_report c message => Some (report c message ct)
  | I_status y =>
      Some (set_flowgraph (set_status (msg_handler_channel_status y (channels_status_ (flowgraph_ ct))) (flowgraph_ ct)) ct)
  | I_command command_id event_type =>
      Some (set_queue (Concurrent_Queue.push (Command_Event command_id event_type) (control_queue_ ct)) ct)
  | I_loop visible => run_iteration visible ct
  | I_assist visible => assist_actions visible ct
  end.

Fixpoint receiver_run (inputs : list input) (ct : ControlThread) : option ControlThread :=
  match inputs with
  | [] => Some ct
  | i :: inputs' => ct1 ← receiver_step i ct; receiver_run inputs' ct1
  end.

(** The commands that the program sends: stop, restart, standby, cold, hot, warm start. *)
Definition known_command (command_id event_type : Z) : Prop :=
  (command_id, event_type) ∈ [(200, 0); (200, 1); (300, 10); (300, 11); (300, 12); (300, 13)].

Definition known_input (i : input) : Prop :=
  match i with I_command id ty => known_command id ty | _ => True end.

(** ** Safety *)

(** The messages that the queue may hold. *)
Definition msg_ok (m : control_msg) : Prop :=
  match m with
  | Channel_Event id ty => 0 <= id < Z.of_nat (length kinds) /\ (ty = 0 \/ ty = 1 \/ ty = 2)
  | Command_Event id ty => known_command id ty
  | Other_Object => True
  end.

Record receiver_inv (ct : ControlThread) : Prop := {
  ri_wf : fg_wf kinds shared (flowgraph_ ct);
  ri_covered : covered kinds shared None (flowgraph_ ct);
  ri_numbered : numbered (flowgraph_ ct);
  ri_queue : Forall msg_ok (control_queue_ ct) }.

Lemma known_command_ok id ty : known_command id ty -> action_ok kinds id ty \/ id = 200.
Proof.
  unfold known_command. rewrite !elem_of_cons. intros Hk. destruct_or! Hk; simplify_eq; try (by right); try (by inversion Hk);
    left; intros [?|[?|?]]; lia.
Qed.

Lemma receiver_inv_ext ct ct' : flowgraph_ ct' = flowgraph_ ct -> control_queue_ ct' = control_queue_ ct ->
  receiver_inv ct -> receiver_inv ct'.
Proof. intros E1 E2 [W C N Q]. by constructor; rewrite ?E1, ?E2. Qed.

Lemma ct_apply_action_safe what visible ct : receiver_inv ct -> receiver_inv (ct_apply_action what visible ct).
Proof.
  intros Hi.
  assert (forall v, receiver_inv (set_flowgraph (priorize_satellites v (flowgraph_ ct)) ct)) as Hp.
  { destruct Hi as [W C N Q]. intros v. destruct (priorize_safe kinds shared v (flowgraph_ ct) W C) as [? ?]. by constructor. }
  unfold ct_apply_action. repeat case_match;
    first [by apply (receiver_inv_ext ct)
          |by eapply receiver_inv_ext; [| |apply (Hp visible)]
          |by eapply receiver_inv_ext; [| |apply (Hp [])]].
Qed.

Lemma fg_apply_action_safe who what ct : enough_satellites kinds shared -> receiver_inv ct -> action_ok kinds who what ->
  exists ct', fg_apply_action who what ct = Some ct' /\ receiver_inv ct'.
Proof.
  intros He [W C N Q] Ha. unfold fg_apply_action.
  destruct (apply_action_safe kinds shared who what (flowgraph_ ct) He W C Ha) as (fg' & Heq & W' & C').
  rewrite Heq. cbn [mbind option_bind]. eexists. split; [done|]. constructor; cbn; try done.
  exact (apply_action_numbered kinds shared who what _ fg' He W C Ha N Heq).
Qed.

Lemma event_dispatcher_safe msg visible ct : enough_satellites kinds shared -> receiver_inv ct ->
  (forall m, msg = Some m -> msg_ok m) -> exists ct', event_dispatcher msg visible ct = Some ct' /\ receiver_inv ct'.
Proof.
  intros He Hi Hm. assert (receiver_inv (count_message ct)) as Hi1 by by destruct Hi.
  destruct msg as [m|]; cbn [event_dispatcher].
  - specialize (Hm m eq_refl). destruct m as [id ty|id ty|]; [| |by eexists].
    + destruct (negb _); [|by eexists]. destruct Hm as [Hid Hty]. apply fg_apply_action_safe; [done..|]. by intros _.
    + destruct (Z.eqb_spec id 200) as [->|Hne]; [eexists; split; [done|]; by apply ct_apply_action_safe|].
      apply fg_apply_action_safe; [done| |by destruct (known_command_ok id ty Hm)].
      destruct (id =? 300); [by apply ct_apply_action_safe|done].
  - destruct (negb _); [|by eexists]. destruct Hi as [W C N Q].
    destruct (acquisition_manager_ind kinds shared numbered None 0 (flowgraph_ ct) He W C N) as (fg' & -> & W' & C' & N').
    { intros. by eapply effect_numbered. }
    cbn [mbind option_bind]. eexists. split; [done|]. by constructor.
Qed.

Lemma report_safe c message ct : receiver_inv ct -> receiver_inv (report c message ct).
Proof.
  intros [W C N Q]. unfold report. destruct (channels_ (flowgraph_ ct) !! c) as [ch|] eqn:Hch; [|done].
  destruct (block_report message ch (control_queue_ ct)) as [ch' q] eqn:Hb.
  assert (gnss_signal_ ch' = gnss_signal_ ch /\ channel_ (channel_fsm_ ch') = channel_ (channel_fsm_ ch) /\
    Forall msg_ok q) as (Hs & Hn & Hq).
  { pose proof (N c ch Hch) as Hnum. pose proof (lookup_lt_Some _ _ _ Hch) as Hlt. rewrite (wf_length kinds shared) in Hlt by done.
    assert (forall ty, ty = 0 \/ ty = 1 \/ ty = 2 -> msg_ok (Channel_Event (channel_ (channel_fsm_ ch)) ty)) as Hm.
    { intros ty Hty. rewrite Hnum. split; [lia|done]. }
    destruct (block_report_cases message ch (control_queue_ ct)) as (s & cs & evs & Heq & Hcase).
    rewrite Heq in Hb. injection Hb as <- <-. split_and!; [done|done|]. apply Forall_app_2; [done|].
    apply Forall_fmap. destruct Hcase as [(_ & ->)|[(_ & _ & _ & ->)|[(_ & _ & _ & ->)|(_ & _ & _ & ->)]]];
      [done|apply Forall_singleton; cbn; apply Hm; auto..]. }
  constructor; cbn; [|..|done].
  - destruct (wf_channels kinds shared _ W c ch Hch) as (ev & HK & Hsig).
    apply (wf_update kinds shared c ev ch' (channels_state_ (flowgraph_ ct)) (signals (flowgraph_ ct)) (flowgraph_ ct)); try done.
    + by rewrite Hs.
    + rewrite Hs. intros. by eapply wf_fixed.
    + apply W.
    + apply W.
  - intros ev k Hev Hk. destruct (C ev k Hev Hk) as [?|[(i & ch0 & s & Hi & Hst & HK & Hf & Hz & <-)|?]]; [by left| |done].
    right; left. destruct (decide (i = c)) as [->|Hne].
    + exists c, ch', s. cbn. rewrite list_lookup_insert_eq by (by eapply lookup_lt_Some). rewrite Hs.
      assert (ch0 = ch) as -> by congruence. done.
    + exists i, ch0, s. cbn. rewrite list_lookup_insert_ne by done. done.
  - by eapply numbered_insert.
Qed.

Lemma assist_safe visible ct : enough_satellites kinds shared -> receiver_inv ct ->
  exists ct', assist_actions visible ct = Some ct' /\ receiver_inv ct'.
Proof.
  intros He Hi. unfold assist_actions.
  destruct (fg_apply_action_safe 0 10 ct He Hi) as (ct1 & -> & Hi1); [intros [?|[?|?]]; lia|]. cbn [mbind option_bind].
  apply fg_apply_action_safe; [done| |intros [?|[?|?]]; lia]. destruct Hi1 as [W C N Q].
  destruct (priorize_safe kinds shared visible (flowgraph_ ct1) W C) as [? ?]. by constructor.
Qed.

Lemma receiver_step_safe i ct : enough_satellites kinds shared -> receiver_inv ct -> known_input i ->
  exists ct', receiver_step i ct = Some ct' /\ receiver_inv ct'.
Proof.
  intros He Hi Hk. destruct i as [c m|y|id ty|visible|visible]; cbn [receiver_step].
  - eexists. split; [done|]. by apply report_safe.
  - eexists. split; [done|]. destruct Hi as [[] C N Q]. by constructor.
  - eexists. split; [done|]. destruct Hi as [W C N Q]. constructor; try done. cbn.
    apply Forall_app_2; [done|]. by apply Forall_singleton.
  - unfold run_iteration. destruct (stop_ ct); [by eexists|]. destruct Hi as [W C N Q].
    destruct (control_queue_ ct) as [|m q]; cbn [Concurrent_Queue.timed_wait_and_pop].
    + apply event_dispatcher_safe; [done|by constructor|done].
    + apply Forall_cons_1 in Q as [Hm Q]. apply event_dispatcher_safe; [done|by constructor|]. by intros ? [= <-].
  - by apply assist_safe.
Qed.

Lemma receiver_run_safe inputs : forall ct, enough_satellites kinds shared -> receiver_inv ct -> Forall known_input inputs ->
  exists ct', receiver_run inputs ct = Some ct' /\ receiver_inv ct'.
Proof.
  induction inputs as [|i inputs IH]; intros ct He Hi Hk; cbn [receiver_run]; [by exists ct|].
  apply Forall_cons_1 in Hk as [Hk1 Hk]. destruct (receiver_step_safe i ct He Hi Hk1) as (ct1 & -> & Hi1).
  by apply IH.
Qed.

Lemma start_receiver_inv : enough_satellites kinds shared ->
  exists ct, start_receiver = Some ct /\ receiver_inv ct /\ control_queue_ ct = [] /\ receiver_on_standby_ ct = false /\
    (forall i ch st, channels_ (flowgraph_ ct) !! i = Some ch -> channels_state_ (flowgraph_ ct) !! i = Some st ->
       state_ (channel_fsm_ ch) = st /\ (st = 0 \/ st = 1)) /\
    channels_state_ (flowgraph_ ct) = channels_state_ init /\
    max_acq_channels_ (flowgraph_ ct) = max_acq_channels_ init /\
    acq_channels_count_ (flowgraph_ ct) = acq_channels_count_ init.
Proof.
  intros He. unfold start_receiver. destruct (connect_init He) as (fg & -> & W & C & Hf & E1 & E2 & E3).
  cbn [mbind option_bind]. eexists. split; [done|]. cbn. split_and!; try done.
  - constructor; cbn; try done. intros i ch Hi. destruct (lookup_lt_is_Some_2 (channels_state_ fg) i) as [st Hst].
    { rewrite (wf_states kinds shared) by done. rewrite <- (wf_length kinds shared fg) by done. by eapply lookup_lt_Some. }
    by destruct (Hf i ch st Hi Hst) as [? _].
  - intros i ch st Hi Hst. by destruct (Hf i ch st Hi Hst) as (_ & ? & ?).
Qed.

End control.
