(* ===== verification/ReceiverSync.v ===== *)
(** * Agreement of the control thread with the channels

    The flow graph's view of a channel ([channels_state_]) and the channel's own state
    machine run in different threads and meet only through the control queue. They agree up
    to the events under way, provided that a command is sent only when the one before has
    been taken from the queue. *)
From stdpp Require Import strings.
From S2P Require Import Prelude GnssSignal ChannelFsm Flowgraph FlowgraphInv ControlThread.

#[local] Open Scope Z_scope.

(** ** Events under way *)

Definition pending (i : nat) (q : list control_msg) : list Z :=
  omap (fun m => match m with
                 | Channel_Event id ty => if id =? Z.of_nat i then Some ty else None
                 | _ => None
                 end) q.

Lemma pending_app i q q' : pending i (q ++ q') = pending i q ++ pending i q'.
Proof. unfold pending. by rewrite omap_app. Qed.

Definition is_command (m : control_msg) : bool := match m with Command_Event _ _ => true | _ => false end.

(** State seen by the flow graph, state of the machine, events under way. *)
Inductive agree : Z -> Z -> list Z -> Prop :=
  | A_idle : agree 0 0 []
  | A_requesting : agree 0 3 []
  | A_acquiring : agree 1 1 []
  | A_found : agree 1 2 [1]
  | A_not_found : agree 1 3 [0]
  | A_found_lost : agree 1 0 [1; 2]
  | A_tracking : agree 2 2 []
  | A_lost : agree 2 0 [2].

#[export] Hint Constructors agree : receiver.

(** Reports of the blocks and the control thread's reactions keep the agreement. *)
Lemma agree_report st f p m s evs : agree st f p ->
  (s = f /\ evs = []) \/ (m = 1 /\ f = 1 /\ s = 2 /\ evs = [1]) \/
  (m = 2 /\ f = 1 /\ s = 3 /\ evs = [0]) \/ (m = 3 /\ f = 2 /\ s = 0 /\ evs = [2]) ->
  agree st s (p ++ evs).
Proof.
  intros Ha [[-> ->]|[(_ & -> & -> & ->)|[(_ & -> & -> & ->)|(_ & -> & -> & ->)]]]; [by rewrite app_nil_r|..];
    inversion Ha; cbn; auto with receiver.
Qed.

Lemma agree_pop st f ty p : agree st f (ty :: p) ->
  (ty = 0 /\ st = 1 /\ agree 0 f p) \/ (ty = 1 /\ st = 1 /\ agree 2 f p) \/
  (ty = 2 /\ st = 2 /\ agree 0 f p /\ agree 1 (started f) p).
Proof. inversion 1; subst; cbn; auto 8 with receiver. Qed.

Lemma agree_start f p : agree 0 f p -> agree 1 (started f) p.
Proof. inversion 1; subst; cbn; auto with receiver. Qed.

(** ** The flow graph's part *)

(** The number of channels in acquisition. *)
Definition acquiring (sts : list Z) : Z := Z.of_nat (length (filter (fun s => s = 1) sts)).

Lemma acquiring_insert sts c s s' : sts !! c = Some s ->
  acquiring (<[c := s']> sts) = acquiring sts - (if decide (s = 1) then 1 else 0) + (if decide (s' = 1) then 1 else 0).
Proof.
  revert c. induction sts as [|x sts IH]; intros [|c] Hc; cbn in Hc; try done.
  - injection Hc as ->. unfold acquiring. change (<[0%nat := s']> (s :: sts)) with (s' :: sts).
    rewrite !filter_cons. repeat case_decide; cbn [length]; lia.
  - change (<[S c := s']> (x :: sts)) with (x :: <[c := s']> sts). specialize (IH c Hc).
    unfold acquiring in *. rewrite !filter_cons. repeat case_decide; cbn [length]; lia.
Qed.

Lemma acquiring_pos sts c : sts !! c = Some 1 -> 0 < acquiring sts.
Proof.
  intros Hc. pose proof (acquiring_insert sts c 1 0 Hc) as Hi. repeat case_decide; try done.
  unfold acquiring in *. lia.
Qed.

Section sync.
Context `{ConfigurationInterface}.
Context (K : list StringValue) (U : StringValue -> list key) (M : Z).

(** Agreement of all channels, with the events under way given by [pend]; the counter of
    acquisitions is right and within its bound [M]. *)
Record sync_fg (pend : nat -> list Z) (fg : GNSSFlowgraph) : Prop := {
  sf_agree i ch st : channels_ fg !! i = Some ch -> channels_state_ fg !! i = Some st ->
    agree st (state_ (channel_fsm_ ch)) (pend i);
  sf_count : acq_channels_count_ fg = acquiring (channels_state_ fg);
  sf_max : max_acq_channels_ fg = M;
  sf_bound : acq_channels_count_ fg <= M }.

(** Replacing channel [c], its state and the counter. *)
Lemma sync_update pend pend' c ch ch' s s' fg fg' : sync_fg pend fg ->
  channels_ fg !! c = Some ch -> channels_state_ fg !! c = Some s ->
  channels_ fg' = <[c := ch']> (channels_ fg) -> channels_state_ fg' = <[c := s']> (channels_state_ fg) ->
  (forall i, i <> c -> pend' i = pend i) -> agree s' (state_ (channel_fsm_ ch')) (pend' c) ->
  acq_channels_count_ fg' =
    acq_channels_count_ fg - (if decide (s = 1) then 1 else 0) + (if decide (s' = 1) then 1 else 0) ->
  acq_channels_count_ fg' <= M -> max_acq_channels_ fg' = max_acq_channels_ fg -> sync_fg pend' fg'.
Proof.
  intros [S1 S2 S3 S4] Hch Hs E1 E2 Hp Ha Hc Hle Hm. constructor; [|by rewrite Hc, E2, (acquiring_insert _ _ s), S2|congruence|done].
  intros i ch0 st. rewrite E1, E2. destruct (decide (i = c)) as [->|Hne].
  - rewrite !list_lookup_insert_eq by by eapply lookup_lt_Some. by intros [= <-] [= <-].
  - rewrite !list_lookup_insert_ne by done. rewrite Hp by done. apply S1.
Qed.

Lemma effect_sync pend c fg fg' : fg_wf K U fg -> sync_fg pend fg -> acquisition_effect K c fg fg' -> sync_fg pend fg'.
Proof.
  intros Hw Hs He. pose proof Hs as [S1 S2 S3 S4].
  destruct He as [_|ev ch ch' g P Hl Hst Hch HK Hg Ht Hsig Hrep Hn Hf|ev ch ch' g P Hl Hst Hch HK Hg Hfr Ht Hsig Hrep Hn Hf];
    [done|..].
  - apply (sync_update pend pend c ch ch' 0 1 fg); try done; cbn [acq_channels_count_].
    + rewrite Hf. apply agree_start. by apply S1.
    + repeat case_decide; try done; lia.
    + lia.
  - apply (sync_update pend pend c ch ch' 0 0 fg); try done; cbn [acq_channels_count_ channels_state_].
    + by rewrite list_insert_id.
    + rewrite Hf. by apply S1.
    + repeat case_decide; try done; lia.
Qed.

Lemma sync_same pend fg fg' : sync_fg pend fg -> channels_ fg' = channels_ fg ->
  channels_state_ fg' = channels_state_ fg -> acq_channels_count_ fg' = acq_channels_count_ fg ->
  max_acq_channels_ fg' = max_acq_channels_ fg -> sync_fg pend fg'.
Proof. intros [S1 S2 S3 S4] E1 E2 E3 E4. constructor; rewrite ?E1, ?E2, ?E3, ?E4; done. Qed.

Lemma dec_count fg : 0 < acq_channels_count_ fg -> acq_channels_count_ (dec_acq_count fg) = acq_channels_count_ fg - 1.
Proof. intros Hp. unfold dec_acq_count. by rewrite (proj2 (Z.ltb_lt 0 _) Hp). Qed.

(** Leaving acquisition: the counter goes down with the state. *)
Lemma leave_sync pend pend' w ch s' fg fg0 : sync_fg pend fg -> channels_ fg !! w = Some ch ->
  channels_state_ fg !! w = Some 1 -> channels_ fg0 = channels_ fg -> channels_state_ fg0 = <[w := s']> (channels_state_ fg) ->
  acq_channels_count_ fg0 = acq_channels_count_ fg -> max_acq_channels_ fg0 = max_acq_channels_ fg ->
  (forall i, i <> w -> pend' i = pend i) -> agree s' (state_ (channel_fsm_ ch)) (pend' w) -> s' <> 1 ->
  sync_fg pend' (dec_acq_count fg0).
Proof.
  intros Hs Hch Hst E1 E2 E3 E4 Hp Ha Hne. pose proof Hs as [S1 S2 S3 S4].
  pose proof (acquiring_pos _ _ Hst) as Hpos. destruct (dec_acq_count_same fg0) as (D1 & D2 & _ & D4).
  assert (acq_channels_count_ (dec_acq_count fg0) = acq_channels_count_ fg - 1) as Hc by (rewrite dec_count; lia).
  apply (sync_update pend pend' w ch ch 1 s' fg); try done.
  - by rewrite D1, E1, list_insert_id.
  - by rewrite D2.
  - rewrite Hc. repeat case_decide; try done; lia.
  - lia.
  - by rewrite D4.
Qed.

Lemma action_sync pend pend' who ty fg : enough_satellites K U -> fg_wf K U fg -> covered K U None fg ->
  0 <= who < Z.of_nat (length K) -> sync_fg pend fg -> pend (Z.to_nat who) = ty :: pend' (Z.to_nat who) ->
  (forall i, i <> Z.to_nat who -> pend' i = pend i) ->
  forall fg', apply_action who ty fg = Some fg' -> sync_fg pend' fg'.
Proof.
  intros He Hw Hc Hwho Hs Hp Hp' fg' Heq. pose proof Hs as [S1 S2 S3 S4].
  destruct (channel_facts K U who fg Hw Hwho) as (ch & ev & Hch & HK & Hsig & Hlt).
  destruct (lookup_lt_is_Some_2 _ _ Hlt) as [st Hst]. pose proof (S1 _ _ _ Hch Hst) as Ha. rewrite Hp in Ha.
  destruct (agree_pop _ _ _ _ Ha) as [(-> & -> & Ha')|[(-> & -> & Ha')|(-> & -> & Ha' & Ha'')]].
  - destruct (apply_action_failed K U (sync_fg pend') who fg He Hw Hc Hwho) as (ch0 & fg2 & b & _ & Hs2 & _ & _ & Heq' & _).
    + by apply (leave_sync pend pend' (Z.to_nat who) ch 0 fg).
    + intros. by eapply effect_sync.
    + rewrite Heq in Heq'. injection Heq' as ->. by destruct b; [eapply sync_same|].
  - destruct (apply_action_success K U (sync_fg pend') who fg He Hw Hc Hwho) as (fg2 & Heq' & Hs2 & _).
    + intros ch0 Hch0. assert (ch0 = ch) as -> by congruence. by apply (leave_sync pend pend' (Z.to_nat who) ch 2 fg).
    + intros. by eapply effect_sync.
    + rewrite Heq in Heq'. by injection Heq' as ->.
  - destruct (apply_action_lost K U who fg Hw Hc Hwho) as (ch0 & fg2 & Hch0 & Heq' & _ & _ & Hcase).
    assert (ch0 = ch) as -> by congruence. rewrite Heq in Heq'. injection Heq' as <-.
    destruct (Z.ltb_spec (acq_channels_count_ fg) (max_acq_channels_ fg)) as [Hl|Hl].
    + destruct Hcase as (ch' & -> & _ & _ & _ & Hf). apply (sync_update pend pend' (Z.to_nat who) ch ch' 2 1 fg); try done.
      * by rewrite Hf.
      * cbn [lost_again set_channel set_acq_count acq_channels_count_]. repeat case_decide; try done; lia.
      * cbn [lost_again set_channel set_acq_count acq_channels_count_]. lia.
    + destruct Hcase as (b & _ & ->). apply (sync_update pend pend' (Z.to_nat who) ch ch 2 0 fg); try done.
      * cbn. by rewrite list_insert_id.
      * cbn [set_chstate set_signals acq_channels_count_]. repeat case_decide; try done; lia.
Qed.

(** ** Standby *)

Record standby_fg (fg : GNSSFlowgraph) : Prop := {
  sb_idle i ch st : channels_ fg !! i = Some ch -> channels_state_ fg !! i = Some st ->
    st = 0 /\ (state_ (channel_fsm_ ch) = 0 \/ state_ (channel_fsm_ ch) = 3);
  sb_zero : acq_channels_count_ fg = 0;
  sb_limit : max_acq_channels_ fg = M }.

Lemma agree_state st f p : agree st f p -> (st = 0 /\ (f = 0 \/ f = 3)) \/ (busy st = true /\ (f = 0 \/ f = 1 \/ f = 2 \/ f = 3)).
Proof. inversion 1; auto 8. Qed.

Lemma stop_state ch : (state_ (channel_fsm_ ch) = 0 \/ state_ (channel_fsm_ ch) = 1 \/ state_ (channel_fsm_ ch) = 2 \/ state_ (channel_fsm_ ch) = 3) ->
  state_ (channel_fsm_ (stop_channel ch)) = 0 \/ state_ (channel_fsm_ (stop_channel ch)) = 3.
Proof.
  unfold stop_channel, Event_stop_channel; cbn.
  intros [E|[E|[E|E]]]; rewrite E; cbn; auto.
Qed.

Lemma standby_effect_idle fg fg' : fg_wf K U fg -> fg_wf K U (set_acq_count 0 fg') -> standby_effect 0 fg fg' -> max_acq_channels_ fg = M ->
  (forall i ch st, channels_ fg !! i = Some ch -> channels_state_ fg !! i = Some st ->
     (st = 0 /\ (state_ (channel_fsm_ ch) = 0 \/ state_ (channel_fsm_ ch) = 3)) \/
     (busy st = true /\ (state_ (channel_fsm_ ch) = 0 \/ state_ (channel_fsm_ ch) = 1 \/ state_ (channel_fsm_ ch) = 2 \/ state_ (channel_fsm_ ch) = 3))) ->
  standby_fg (set_acq_count 0 fg').
Proof.
  intros Hw Hw' [B1 B2 B3 B4 B5] HM Hs. constructor; [|done|cbn; congruence].
  intros i ch' st' Hi Hst. cbn in Hi, Hst.
  assert (i < length K)%nat as Hlt.
  { pose proof (wf_length K U _ Hw') as Hl. cbn in Hl. rewrite <- Hl. by eapply lookup_lt_Some. }
  destruct (lookup_lt_is_Some_2 (channels_ fg) i) as [ch Hch]; [by rewrite (wf_length K U)|].
  destruct (lookup_lt_is_Some_2 (channels_state_ fg) i) as [st Hs0]; [by rewrite (wf_states K U)|].
  rewrite (B1 i ch st Hch Hs0), decide_True in Hi by lia. rewrite (B2 i st Hs0), decide_True in Hst by lia.
  injection Hi as <-. injection Hst as <-. unfold stopped.
  destruct (Hs i ch st Hch Hs0) as [[-> Hf]|[-> Hf]]; [by split|]. split; [done|]. by apply stop_state.
Qed.

Lemma standby_sync fg : standby_fg fg -> 0 <= M -> length (channels_ fg) = length (channels_state_ fg) -> sync_fg (fun _ => []) fg.
Proof.
  intros [B1 B2 B3] HM Hl. constructor; [|rewrite B2|done|lia].
  - intros i ch st Hi Hs. destruct (B1 i ch st Hi Hs) as [-> [-> | ->]]; auto with receiver.
  - assert (filter (fun s => s = 1) (channels_state_ fg) = []) as Hn; [|unfold acquiring; by rewrite Hn].
    destruct (filter _ _) as [|x l] eqn:Hf; [done|]. assert (x ∈ filter (fun s => s = 1) (channels_state_ fg)) as Hx by (rewrite Hf; left).
    apply list_elem_of_filter in Hx as [-> (i & Hi)%list_elem_of_lookup_1].
    destruct (lookup_lt_is_Some_2 (channels_ fg) i) as [ch Hch]; [rewrite Hl; by eapply lookup_lt_Some|].
    destruct (B1 i ch 1 Hch Hi) as [? _]. done.
Qed.

End sync.

(** ** The receiver *)

Section receiver.
Context `{ConfigurationInterface}.

Abbreviation M := (max_acq_channels_ init).

(** Commands come one at a time; the assistance at startup is over. *)
Definition paced (i : input) (ct : ControlThread) : Prop :=
  match i with
  | I_command id ty => known_command id ty /\ Forall (fun m => is_command m = false) (control_queue_ ct)
  | I_assist _ => False
  | _ => True
  end.

Inductive reachable : ControlThread -> Prop :=
  | R_start ct : start_receiver = Some ct -> reachable ct
  | R_step i ct ct' : reachable ct -> paced i ct -> receiver_step i ct = Some ct' -> reachable ct'.

Definition commands (q : list control_msg) : nat := length (filter (fun m => is_command m = true) q).

(** On standby nothing follows a command in the queue. *)
Definition nothing_after (q : list control_msg) : Prop := forall l1 m l2, q = l1 ++ m :: l2 -> is_command m = true ->
  forall i, pending i l2 = [].

Definition sync_state (ct : ControlThread) : Prop :=
  if receiver_on_standby_ ct then standby_fg M (flowgraph_ ct) /\ nothing_after (control_queue_ ct)
  else sync_fg M (fun i => pending i (control_queue_ ct)) (flowgraph_ ct).

Record synced (ct : ControlThread) : Prop := {
  sy_inv : receiver_inv ct;
  sy_commands : (commands (control_queue_ ct) <= 1)%nat;
  sy_state : sync_state ct }.

Lemma commands_app q q' : commands (q ++ q') = (commands q + commands q')%nat.
Proof. unfold commands. by rewrite list.filter_app, length_app. Qed.

Lemma commands_none q : Forall (fun m => is_command m = false) q -> commands q = 0%nat.
Proof.
  induction 1 as [|m q Hm Hq IH]; [done|]. unfold commands in *. rewrite filter_cons, decide_False by congruence. done.
Qed.

Lemma nothing_after_no_commands q : commands q = 0%nat -> nothing_after q.
Proof.
  intros Hq l1 m l2 -> Hm. rewrite commands_app in Hq. unfold commands in Hq.
  rewrite filter_cons, decide_True in Hq by done. cbn in Hq. lia.
Qed.

Lemma nothing_after_tail m q : nothing_after (m :: q) -> nothing_after q.
Proof. intros Hn l1 m' l2 -> Hm. by apply (Hn (m :: l1) m'). Qed.

Lemma pending_other i q evs n : n <> Z.of_nat i -> pending i (q ++ (Channel_Event n <$> evs)) = pending i q.
Proof.
  intros Hn. rewrite pending_app. replace (pending i (Channel_Event n <$> evs)) with (@nil Z); [by rewrite app_nil_r|].
  induction evs as [|e evs IH]; cbn; [done|]. rewrite (proj2 (Z.eqb_neq n (Z.of_nat i))) by done. done.
Qed.

Lemma pending_own i q evs : pending i (q ++ (Channel_Event (Z.of_nat i) <$> evs)) = pending i q ++ evs.
Proof.
  rewrite pending_app. f_equal. induction evs as [|e evs IH]; cbn; [done|]. rewrite Z.eqb_refl. cbn. by f_equal.
Qed.

Lemma commands_events n q evs : commands (q ++ (Channel_Event n <$> evs)) = commands q.
Proof.
  rewrite commands_app, (commands_none (Channel_Event n <$> evs)); [lia|]. by apply Forall_fmap, list.Forall_forall.
Qed.

Lemma report_synced c message ct : synced ct -> synced (report c message ct).
Proof.
  intros [Hi Hc Hs]. pose proof (report_safe c message ct Hi) as Hi'. unfold report in *.
  destruct (channels_ (flowgraph_ ct) !! c) as [ch|] eqn:Hch; [|done].
  destruct (block_report_cases message ch (control_queue_ ct)) as (s & cs & evs & Heq & Hcase). rewrite Heq in *.
  rewrite (ri_numbered ct Hi c ch Hch) in *. set (ch' := set_fsm _ ch) in *.
  assert (state_ (channel_fsm_ ch') = s) as Hst by done.
  split; [done|cbn [control_queue_ set_queue]; by rewrite commands_events|]. unfold sync_state in *.
  cbn [receiver_on_standby_ set_queue set_flowgraph control_queue_ flowgraph_].
  destruct (receiver_on_standby_ ct).
  - destruct Hs as [[B1 B2 B3] Hn].
    destruct (lookup_lt_is_Some_2 (channels_state_ (flowgraph_ ct)) c) as [st Hs0].
    { rewrite (wf_states kinds shared), <- (wf_length kinds shared (flowgraph_ ct)) by apply Hi. by eapply lookup_lt_Some. }
    destruct (B1 c ch st Hch Hs0) as [-> Hf].
    destruct Hcase as [(-> & ->)|[(_ & ? & _)|[(_ & ? & _)|(_ & ? & _)]]]; try lia.
    split; [|cbn; by rewrite app_nil_r]. constructor; [|done|done].
    intros i ch0 st. cbn. rewrite list_lookup_insert_Some. intros [(<- & <- & _)|[_ ?]] ?; [|by eapply B1].
    split; [congruence|]. by rewrite Hst.
  - destruct Hs as [S1 S2 S3 S4]. constructor; [|done|done|done]. intros i ch0 st. cbn [set_channel channels_ channels_state_].
    destruct (decide (i = c)) as [->|Hne].
    + rewrite list_lookup_insert_eq by by eapply lookup_lt_Some. intros [= <-] Hs0. rewrite pending_own, Hst.
      eapply agree_report; [by apply S1|done].
    + rewrite list_lookup_insert_ne by done. rewrite pending_other by lia. apply S1.
Qed.

Lemma command_synced id ty ct : synced ct -> known_command id ty ->
  Forall (fun m => is_command m = false) (control_queue_ ct) ->
  synced (set_queue (control_queue_ ct ++ [Command_Event id ty]) ct).
Proof.
  intros [[W C N Q] Hc Hs] Hk Hn. split.
  - constructor; [done..|]. cbn. apply Forall_app_2; [done|]. by apply Forall_singleton.
  - cbn [control_queue_ set_queue]. rewrite commands_app, (commands_none _ Hn). done.
  - unfold sync_state in *. cbn [receiver_on_standby_ set_queue control_queue_ flowgraph_].
    destruct (receiver_on_standby_ ct).
    + destruct Hs as [? _]. split; [done|]. intros l1 m l2 Heq Hm i.
      destruct l2 as [|y l2 _] using rev_ind; [done|]. exfalso.
      rewrite (app_assoc l1 (m :: l2) [y]) in Heq || rewrite app_comm_cons, app_assoc in Heq.
      apply app_inj_tail in Heq as [Heq _]. rewrite Heq in Hn. apply Forall_app in Hn as [_ Hn].
      apply Forall_cons_1 in Hn as [Hn _]. congruence.
    + destruct Hs as [S1 S2 S3 S4]. constructor; [|done|done|done]. intros i ch st. rewrite pending_app.
      cbn. rewrite app_nil_r. apply S1.
Qed.

Lemma pending_cons_command i id ty q : pending i (Command_Event id ty :: q) = pending i q.
Proof. done. Qed.

Lemma sync_pend m pend pend' fg : (forall i, pend' i = pend i) -> sync_fg m pend fg -> sync_fg m pend' fg.
Proof. intros Hp [S1 S2 S3 S4]. constructor; [|done..]. intros i ch st. rewrite Hp. apply S1. Qed.

Lemma commands_cons_command id ty q : (commands (Command_Event id ty :: q) <= 1)%nat -> commands q = 0%nat.
Proof. unfold commands. rewrite filter_cons, decide_True by done. cbn. lia. Qed.

(** What is left of the queue, for a state that is otherwise the same. *)
Lemma sync_state_flags ct ct' : sync_state ct -> receiver_on_standby_ ct' = receiver_on_standby_ ct ->
  control_queue_ ct' = control_queue_ ct -> flowgraph_ ct' = flowgraph_ ct -> sync_state ct'.
Proof. unfold sync_state. by intros ? -> -> ->. Qed.

Lemma set_queue_inv m q ct : receiver_inv ct -> control_queue_ ct = m :: q -> receiver_inv (set_queue q ct) /\ msg_ok m.
Proof.
  intros [W C N Q] Hq. rewrite Hq in Q. apply Forall_cons_1 in Q as [Hm Q]. split; [by constructor|done].
Qed.

(** An event of a channel. *)
Lemma channel_event_synced id ty q ct ct' visible : enough_satellites kinds shared -> synced ct ->
  control_queue_ ct = Channel_Event id ty :: q ->
  event_dispatcher (Some (Channel_Event id ty)) visible (set_queue q ct) = Some ct' -> sync_state ct'.
Proof.
  intros He [Hi Hc Hs] Hq Heq. destruct (set_queue_inv _ _ _ Hi Hq) as [Hi' [Hid Hty]].
  unfold event_dispatcher in Heq. unfold sync_state in Hs. rewrite Hq in Hs. cbn [count_message set_queue receiver_on_standby_] in Heq.
  destruct (receiver_on_standby_ ct) eqn:Hsb; cbn [negb] in Heq.
  - injection Heq as <-. unfold sync_state. cbn. rewrite Hsb. destruct Hs as [? Hn]. split; [done|]. by eapply nothing_after_tail.
  - unfold fg_apply_action in Heq. cbn [flowgraph_ count_message set_queue] in Heq.
    destruct (apply_action id ty (flowgraph_ ct)) as [fg'|] eqn:Ha; [|done]. injection Heq as <-.
    unfold sync_state. cbn. rewrite Hsb. destruct Hi as [W C N Q].
    eapply (action_sync kinds shared M (fun i => pending i (Channel_Event id ty :: q))); try done.
    + cbn. by rewrite Z2Nat.id, Z.eqb_refl by lia.
    + intros i Hne. cbn. by rewrite (proj2 (Z.eqb_neq id (Z.of_nat i))) by lia.
Qed.

Lemma start_command ty fg : ty = 11 \/ ty = 12 \/ ty = 13 -> apply_action 300 ty fg = Some fg.
Proof. by intros [->|[-> | ->]]. Qed.

(** A command that ends standby, or one that comes while the receiver runs. *)
Lemma start_synced m ct ct' : 0 <= m -> receiver_inv ct ->
  (if receiver_on_standby_ ct then standby_fg m (flowgraph_ ct) /\ forall i, pending i (control_queue_ ct) = []
   else sync_fg m (fun i => pending i (control_queue_ ct)) (flowgraph_ ct)) ->
  control_queue_ ct' = control_queue_ ct ->
  channels_ (flowgraph_ ct') = channels_ (flowgraph_ ct) -> channels_state_ (flowgraph_ ct') = channels_state_ (flowgraph_ ct) ->
  acq_channels_count_ (flowgraph_ ct') = acq_channels_count_ (flowgraph_ ct) ->
  max_acq_channels_ (flowgraph_ ct') = max_acq_channels_ (flowgraph_ ct) ->
  sync_fg m (fun i => pending i (control_queue_ ct')) (flowgraph_ ct').
Proof.
  intros Hm Hi Hs Eq E1 E2 E3 E4. apply (sync_same m _ (flowgraph_ ct)); try done. rewrite Eq.
  destruct (receiver_on_standby_ ct); [|done]. destruct Hs as [Hs Hp]. eapply sync_pend; [|apply standby_sync; [done|done|]].
  - intros i. by rewrite Hp.
  - by rewrite (wf_length kinds shared), (wf_states kinds shared) by apply Hi.
Qed.

Lemma command_event_synced id ty q ct ct' visible : 0 <= M -> enough_satellites kinds shared -> synced ct ->
  control_queue_ ct = Command_Event id ty :: q ->
  event_dispatcher (Some (Command_Event id ty)) visible (set_queue q ct) = Some ct' -> sync_state ct'.
Proof.
  intros HM He [Hi Hc Hs] Hq Heq. destruct (set_queue_inv _ _ _ Hi Hq) as [Hi' Hk].
  rewrite Hq in Hc. apply commands_cons_command in Hc. unfold sync_state in Hs. rewrite Hq in Hs.
  assert (if receiver_on_standby_ ct then standby_fg M (flowgraph_ ct) /\ forall i, pending i q = []
          else sync_fg M (fun i => pending i q) (flowgraph_ ct)) as Hs'.
  { destruct (receiver_on_standby_ ct); [|done]. destruct Hs as [? Hn]. split; [done|]. by apply (Hn [] (Command_Event id ty)). }
  unfold event_dispatcher in Heq. cbn in Hk. unfold known_command in Hk. rewrite !elem_of_cons in Hk.
  assert (forall ct1, receiver_on_standby_ ct1 = receiver_on_standby_ ct -> control_queue_ ct1 = q -> flowgraph_ ct1 = flowgraph_ ct ->
    sync_state ct1) as Hsame.
  { intros ct1 E1 E2 E3. unfold sync_state. rewrite E1, E2, E3. destruct (receiver_on_standby_ ct); [|done].
    destruct Hs as [? Hn]. split; [done|]. by eapply nothing_after_tail. }
  assert (forall ct1, receiver_on_standby_ ct1 = false -> control_queue_ ct1 = q ->
    channels_ (flowgraph_ ct1) = channels_ (flowgraph_ ct) -> channels_state_ (flowgraph_ ct1) = channels_state_ (flowgraph_ ct) ->
    acq_channels_count_ (flowgraph_ ct1) = acq_channels_count_ (flowgraph_ ct) ->
    max_acq_channels_ (flowgraph_ ct1) = max_acq_channels_ (flowgraph_ ct) -> sync_state ct1) as Hstart.
  { intros ct1 E0 E1 E2 E3 E4 E5. unfold sync_state. rewrite E0. by apply (start_synced M (set_queue q ct)). }
  destruct_or! Hk; try (by inversion Hk); injection Hk as -> ->; cbn [Z.eqb Pos.eqb] in Heq.
  - injection Heq as <-. by apply Hsame.
  - injection Heq as <-. by apply Hsame.
  - unfold fg_apply_action in Heq. cbn [flowgraph_ ct_apply_action set_flags count_action count_message set_queue] in Heq.
    destruct Hi as [W C N Q]. destruct (apply_action_standby kinds shared 300 (flowgraph_ ct) W C) as (fg' & Ha & W' & _ & Hb).
    rewrite Ha in Heq. injection Heq as <-. unfold sync_state. cbn [receiver_on_standby_ set_flowgraph set_flags flowgraph_].
    split; [|by apply nothing_after_no_commands].
    apply (standby_effect_idle kinds shared M (flowgraph_ ct)); try done.
    + destruct (receiver_on_standby_ ct); [by destruct Hs' as [[] _]|by destruct Hs'].
    + intros i ch st Hch Hst. destruct (receiver_on_standby_ ct).
      * left. destruct Hs' as [Hb' _]. by eapply sb_idle.
      * eapply agree_state. by eapply sf_agree.
  - unfold fg_apply_action in Heq. rewrite start_command in Heq by auto. injection Heq as <-. by apply Hstart.
  - unfold fg_apply_action in Heq. rewrite start_command in Heq by auto. injection Heq as <-. by apply Hstart.
  - unfold fg_apply_action in Heq. rewrite start_command in Heq by auto. injection Heq as <-. by apply Hstart.
Qed.

Lemma loop_synced visible ct ct' : 0 <= M -> enough_satellites kinds shared -> synced ct ->
  run_iteration visible ct = Some ct' -> sync_state ct'.
Proof.
  intros HM He Hs. pose proof Hs as [Hi Hc Hst]. unfold run_iteration. destruct (stop_ ct); [by intros [= <-]|].
  destruct (control_queue_ ct) as [|m q] eqn:Hq; cbn [Concurrent_Queue.timed_wait_and_pop].
  - cbn [event_dispatcher set_queue receiver_on_standby_ flowgraph_]. unfold sync_state in *. rewrite Hq in Hst.
    destruct (receiver_on_standby_ ct) eqn:Hsb; cbn [negb].
    + intros [= <-]. cbn. by rewrite Hsb.
    + destruct Hi as [W C N Q].
      destruct (acquisition_manager_ind kinds shared (sync_fg M (fun i => pending i [])) None 0 (flowgraph_ ct) He W C Hst)
        as (fg' & -> & _ & _ & Hs'); [intros; by eapply effect_sync|].
      intros [= <-]. cbn. by rewrite Hsb.
  - destruct m as [id ty|id ty|]; intros Heq.
    + by eapply channel_event_synced.
    + by eapply command_event_synced.
    + injection Heq as <-. unfold sync_state in *. cbn. rewrite Hq in Hst. destruct (receiver_on_standby_ ct); [|done].
      destruct Hst as [? Hn]. split; [done|]. by eapply nothing_after_tail.
Qed.

Lemma queue_after_loop visible ct ct' : run_iteration visible ct = Some ct' ->
  control_queue_ ct' = control_queue_ ct \/ exists m, control_queue_ ct = m :: control_queue_ ct'.
Proof.
  unfold run_iteration. destruct (stop_ ct); [intros [= <-]; by left|].
  assert (forall ct0 id ty ct1, fg_apply_action id ty ct0 = Some ct1 -> control_queue_ ct1 = control_queue_ ct0) as Hfg.
  { intros ct0 id ty ct1. unfold fg_apply_action. destruct (apply_action _ _ _); [|done]. by intros [= <-]. }
  assert (forall what ct0, control_queue_ (ct_apply_action what visible ct0) = control_queue_ ct0) as Hct.
  { intros what ct0. unfold ct_apply_action. by repeat case_match. }
  destruct (control_queue_ ct) as [|m q] eqn:Hq; cbn [Concurrent_Queue.timed_wait_and_pop].
  - cbn [event_dispatcher]. destruct (negb _); [|intros [= <-]; by left].
    destruct (acquisition_manager _ _); [|done]. intros [= <-]. by left.
  - intros Heq. right. exists m. f_equal. destruct m as [id ty|id ty|]; cbn [event_dispatcher] in Heq.
    + destruct (negb _); [by apply Hfg in Heq|]. by injection Heq as <-.
    + destruct (id =? 200); [injection Heq as <-; by rewrite Hct|]. apply Hfg in Heq. rewrite Heq.
      destruct (id =? 300); [by rewrite Hct|done].
    + by injection Heq as <-.
Qed.

Lemma receiver_step_synced i ct ct' : 0 <= M -> enough_satellites kinds shared -> synced ct -> paced i ct ->
  receiver_step i ct = Some ct' -> synced ct'.
Proof.
  intros HM He Hs Hp. destruct i as [c m|y|id ty|visible|visible]; cbn [receiver_step].
  - intros [= <-]. by apply report_synced.
  - intros [= <-]. destruct Hs as [[[] C N Q] Hc Hs]. split; [by constructor|done|].
    unfold sync_state in *. cbn. destruct (receiver_on_standby_ ct); [|by eapply sync_same].
    destruct Hs as [[B1 B2 B3] ?]. split; [constructor; [exact B1|exact B2|exact B3]|done].
  - intros [= <-]. destruct Hp as [Hk Hn]. by apply command_synced.
  - intros Heq. pose proof Hs as [Hi Hc _]. destruct (receiver_step_safe (I_loop visible) ct He Hi I) as (ct1 & Heq' & Hi1).
    cbn in Heq'. rewrite Heq in Heq'. injection Heq' as <-. split; [done| |by eapply loop_synced].
    destruct (queue_after_loop visible ct ct' Heq) as [->|[m Hq]]; [done|]. rewrite Hq in Hc.
    change (m :: control_queue_ ct') with ([m] ++ control_queue_ ct') in Hc. rewrite commands_app in Hc. lia.
  - done.
Qed.

Lemma acquiring_seqZ m (n : nat) : 0 <= m ->
  acquiring ((fun i => if i <? m then 1 else 0) <$> seqZ 0 (Z.of_nat n)) = Z.min m (Z.of_nat n).
Proof.
  intros Hm. induction n as [|n IH]; [unfold acquiring; change (Z.of_nat 0) with 0; rewrite Z.min_r by done; done|].
  rewrite seqZ_S, fmap_app. unfold acquiring in *. rewrite list.filter_app, length_app. cbn [fmap list_fmap].
  rewrite filter_cons. destruct (Z.ltb_spec (0 + Z.of_nat n) m); repeat case_decide; cbn [length filter list_filter]; try done; lia.
Qed.

Lemma acquiring_init : 0 <= M -> acquiring (channels_state_ init) = M.
Proof.
  cbn [init channels_state_ max_acq_channels_ set_channels_state]. intros Hm.
  unfold init in *. cbn [set_channels_state max_acq_channels_ channels_state_] in *.
  rewrite acquiring_seqZ by done. revert Hm. case_match; lia.
Qed.

Lemma reachable_synced ct : 0 <= M -> enough_satellites kinds shared -> reachable ct -> synced ct.
Proof.
  intros HM He. induction 1 as [ct Hst|i ct ct' _ IH Hp Heq]; [|by eapply receiver_step_synced].
  destruct (start_receiver_inv He) as (ct0 & Heq & Hi & Hq & Hsb & Hf & E1 & E2 & E3). rewrite Hst in Heq. injection Heq as <-.
  split; [done|rewrite Hq; cbn; lia|]. unfold sync_state. rewrite Hsb, Hq.
  assert (acq_channels_count_ init = M) as Ecm by done.
  constructor; [|rewrite E1, E3, Ecm|done|by rewrite E3].
  - intros i ch st Hch Hst'. destruct (Hf i ch st Hch Hst') as [-> [-> | ->]]; cbn; auto with receiver.
  - symmetry. by apply acquiring_init.
Qed.

End receiver.
