(* ===== verification/ReceiverSearch.v ===== *)
(** * How the channels share the satellites

    Exclusive use: once every busy channel has taken its signal from the lists, no two
    channels work on the same signal. *)
From stdpp Require Import strings.
From S2P Require Import Prelude GnssSignal ChannelFsm Flowgraph FlowgraphInv ControlThread ReceiverSync.

#[local] Open Scope Z_scope.

Section exclusive.
Context `{ConfigurationInterface}.
Context (K : list StringValue) (U : StringValue -> list key).
Hypothesis all_free : forall i, (i < length K)%nat -> free i = true.

(** Channel [i] of kind [ev] is busy with the signal of key [k]. *)
Definition busy_with (fg : GNSSFlowgraph) (i : nat) (ev : StringValue) (k : key) : Prop :=
  exists ch st, channels_ fg !! i = Some ch /\ channels_state_ fg !! i = Some st /\ K !! i = Some ev /\
    busy st = true /\ sig_key (gnss_signal_ ch) = k.

Record exclusive (fg : GNSSFlowgraph) : Prop := {
  ex_lists ev : ev <> evSBAS_1C -> NoDup (pool_keys ev (signals fg));
  ex_apart i ev k : busy_with fg i ev k -> k ∉ pool_keys ev (signals fg);
  ex_distinct i j ev k : busy_with fg i ev k -> busy_with fg j ev k -> i = j }.

(** Nobody has the signal. *)
Definition absent (ev : StringValue) (k : key) (fg : GNSSFlowgraph) : Prop :=
  k ∉ pool_keys ev (signals fg) /\ forall i, ~ busy_with fg i ev k.

(** The busy channels of the first are among those of the second. *)
Definition busy_sub (fg fg' : GNSSFlowgraph) : Prop := forall i ev k, busy_with fg i ev k -> busy_with fg' i ev k.

Lemma exclusive_less fg fg' : exclusive fg -> busy_sub fg' fg ->
  (forall ev, ev <> evSBAS_1C -> NoDup (pool_keys ev (signals fg'))) ->
  (forall ev k, k ∈ pool_keys ev (signals fg') -> k ∈ pool_keys ev (signals fg)) -> exclusive fg'.
Proof.
  intros [X1 X2 X3] Hb Hn Hk. constructor; [done| |].
  - intros i ev k Hi Hin. by eapply X2; [apply Hb|apply Hk].
  - intros i j ev k Hi Hj. by eapply X3; apply Hb.
Qed.

Lemma NoDup_push ev g P ev' : wf_sig ev g -> NoDup (pool_keys ev' P) -> NoDup (pool_keys ev' (push_back_signal g P)).
Proof.
  intros Hg Hn. rewrite (push_back_eq ev) by done. unfold pool_keys in *.
  destruct (decide (ev' = ev)) as [->|?]; [|by rewrite pool_set_pool_ne].
  rewrite pool_set_pool, fmap_app, list.NoDup_app. split_and!.
  - unfold list_remove_signal. clear -Hn. induction (pool ev P) as [|x l IH]; [constructor|].
    apply list.NoDup_cons in Hn as [Hx Hn]. rewrite filter_cons. destruct (decide _); [|by apply IH].
    cbn. constructor; [|by apply IH]. intros Hin. apply Hx. by apply elem_of_remove_keys in Hin as [? _].
  - intros k [_ Hk]%elem_of_remove_keys [->|Hin]%elem_of_cons; [done|inversion Hin].
  - cbn. constructor; [intros Hin; inversion Hin|constructor].
Qed.

Lemma NoDup_remove ev g P ev' : wf_sig ev g -> NoDup (pool_keys ev' P) -> NoDup (pool_keys ev' (remove_signal g P)).
Proof.
  intros Hg Hn. rewrite (remove_eq ev) by done. unfold pool_keys in *.
  destruct (decide (ev' = ev)) as [->|?]; [|by rewrite pool_set_pool_ne]. rewrite pool_set_pool.
  pose proof (NoDup_push ev g P ev Hg Hn) as Hp. rewrite (push_back_eq ev) in Hp by done. unfold pool_keys in Hp.
  rewrite pool_set_pool, fmap_app in Hp. by apply list.NoDup_app in Hp as [? _].
Qed.

(** Pushing a signal that nobody has. *)
Lemma exclusive_push ev g fg : wf_sig ev g -> exclusive fg -> absent ev (sig_key g) fg ->
  exclusive (set_signals (push_back_signal g (signals fg)) fg).
Proof.
  intros Hg [X1 X2 X3] [_ Hb]. constructor; cbn.
  - intros ev' Hev'. by eapply NoDup_push; [|apply X1].
  - intros i ev' k Hi Hin. apply (pool_keys_push ev) in Hin as [Hin|[-> ->]]; [|by eapply Hb|done]. by eapply X2.
  - intros i j ev' k Hi Hj. by eapply X3.
Qed.

(** Taking a signal from a list. *)
Lemma searched_split ev P g P' : NoDup (pool_keys ev P) -> searched true ev P g P' ->
  sig_key g ∈ pool_keys ev P /\ sig_key g ∉ pool_keys ev P' /\ NoDup (pool_keys ev P') /\
  forall ev' k, k ∈ pool_keys ev' P' -> k ∈ pool_keys ev' P.
Proof.
  intros Hn (l' & -> & Hg & Hl). unfold pool_keys in *. rewrite pool_set_pool.
  assert (sig_key <$> pool ev P ≡ₚ sig_key g :: (sig_key <$> l')) as Hp by by rewrite Hl.
  rewrite Hp in Hn. apply list.NoDup_cons in Hn as [Hn1 Hn2]. split_and!; try done.
  - rewrite Hp. left.
  - intros ev' k. destruct (decide (ev' = ev)) as [->|?]; [|by rewrite pool_set_pool_ne].
    rewrite pool_set_pool, Hp. by right.
Qed.

Lemma took_searched c ev fg g P : (c < length K)%nat -> took c ev fg g P -> searched true ev (signals fg) g P.
Proof. intros Hc. unfold took. by rewrite all_free. Qed.

(** A step of the manager, for a flow graph in exclusive use, and for a signal out of use. *)
Lemma effect_exclusive c fg fg' : (c < length K)%nat -> fg_wf K U fg -> exclusive fg -> acquisition_effect K c fg fg' ->
  exclusive fg' /\ forall ev k, ev <> evSBAS_1C -> absent ev k fg -> absent ev k fg'.
Proof.
  intros Hc Hw Hx He. pose proof Hx as [X1 X2 X3].
  destruct He as [_|ev ch ch' g P Hl Hst Hch HK Hg Ht Hsig Hrep Hn Hf|ev ch ch' g P Hl Hst Hch HK Hg Hfr Ht Hsig Hrep Hn Hf];
    [done|..]; apply took_searched in Ht; try done; pose proof Hg as (Hev & _);
    destruct (searched_split ev _ _ _ (X1 ev Hev) Ht) as (T1 & T2 & T3 & T4).
  - set (fg' := Build_GNSSFlowgraph _ _ _ _ _ _ _).
    assert (forall ev', ev' <> evSBAS_1C -> NoDup (pool_keys ev' P)) as HN.
    { intros ev' Hev'. destruct (decide (ev' = ev)) as [->|Hne]; [done|]. destruct Ht as (l' & -> & _). unfold pool_keys.
      rewrite pool_set_pool_ne by done. by apply X1. }
    assert (forall i ev' k, busy_with fg' i ev' k -> (i = c /\ ev' = ev /\ k = sig_key g) \/ (i <> c /\ busy_with fg i ev' k)) as Hb.
    { intros i ev' k (ch0 & st & Hi & Hs & HKi & Hbz & <-). cbn in Hi, Hs. destruct (decide (i = c)) as [->|Hne].
      - left. rewrite list_lookup_insert_eq in Hi by by eapply lookup_lt_Some. split_and!; congruence.
      - right. rewrite !list_lookup_insert_ne in * by done. split; [done|]. by exists ch0, st. }
    split; [constructor; cbn|].
    + done.
    + intros i ev' k [(-> & -> & ->)|[Hne Hi]]%Hb; [done|]. intros Hin%T4. by eapply X2.
    + intros i j ev' k [(-> & -> & ->)|[Hi1 Hi]]%Hb [(-> & Hj & Hj')|[Hj1 Hj]]%Hb; [done| | |by eapply X3].
      * by destruct (X2 _ _ _ Hj).
      * subst. by destruct (X2 _ _ _ Hi).
    + intros ev' k Hev' [A1 A2]. split; cbn; [by intros ?%T4|].
      intros i [(-> & -> & ->)|[_ Hi]]%Hb; [done|by eapply A2].
  - set (fg' := Build_GNSSFlowgraph _ _ _ _ _ _ _).
    assert (forall ev' k, k ∈ pool_keys ev' (push_back_signal g P) -> k ∈ pool_keys ev' (signals fg)) as Hk.
    { intros ev' k [?|[-> ->]]%(pool_keys_push ev); [by apply T4|done|done]. }
    assert (busy_sub fg' fg) as Hb.
    { intros i ev' k (ch0 & st & Hi & Hs & HKi & Hbz & <-). cbn in Hi, Hs. destruct (decide (i = c)) as [->|Hne].
      - rewrite Hst in Hs. injection Hs as <-. done.
      - rewrite list_lookup_insert_ne in Hi by done. by exists ch0, st. }
    split.
    + apply (exclusive_less fg); [done|done| |done]. intros ev' Hev'. cbn. eapply NoDup_push; [done|].
      destruct (decide (ev' = ev)) as [->|Hne]; [done|]. destruct Ht as (l' & -> & _). unfold pool_keys.
      rewrite pool_set_pool_ne by done. by apply X1.
    + intros ev' k Hev' [A1 A2]. split; [by intros ?%Hk|]. intros i Hi%Hb. by eapply A2.
Qed.

Lemma busy_same fg fg' : channels_ fg' = channels_ fg -> channels_state_ fg' = channels_state_ fg -> busy_sub fg' fg.
Proof. intros E1 E2 i ev k. unfold busy_with. by rewrite E1, E2. Qed.

Lemma exclusive_same fg fg' : exclusive fg -> channels_ fg' = channels_ fg -> channels_state_ fg' = channels_state_ fg ->
  signals fg' = signals fg -> exclusive fg'.
Proof.
  intros Hx E1 E2 E3. apply (exclusive_less fg); [done|by apply busy_same|..]; rewrite E3; [apply Hx|done].
Qed.

(** Releasing channel [w], which was busy: nobody has its signal then. *)
Lemma release w ev ch st fg : exclusive fg -> channels_ fg !! w = Some ch -> channels_state_ fg !! w = Some st ->
  K !! w = Some ev -> busy st = true ->
  exclusive (set_chstate w 0 fg) /\ absent ev (sig_key (gnss_signal_ ch)) (set_chstate w 0 fg).
Proof.
  intros Hx Hch Hst HK Hb. pose proof Hx as [X1 X2 X3].
  assert (busy_with fg w ev (sig_key (gnss_signal_ ch))) as Hw by by exists ch, st.
  assert (forall i ev' k, busy_with (set_chstate w 0 fg) i ev' k -> i <> w /\ busy_with fg i ev' k) as Hs.
  { intros i ev' k (ch0 & st0 & Hi & Hs & HKi & Hbz & <-). cbn in Hi, Hs. destruct (decide (i = w)) as [->|Hne].
    - rewrite list_lookup_insert_eq in Hs by by eapply lookup_lt_Some. injection Hs as <-. done.
    - rewrite list_lookup_insert_ne in Hs by done. split; [done|]. by exists ch0, st0. }
  split.
  - apply (exclusive_less fg); [done| |apply Hx|done]. by intros i ev' k [_ ?]%Hs.
  - split; [by eapply X2|]. intros i [Hne Hi]%Hs. by apply Hne, (X3 _ _ _ _ Hi).
Qed.

Lemma absent_same ev k fg fg' : absent ev k fg -> channels_ fg' = channels_ fg -> channels_state_ fg' = channels_state_ fg ->
  signals fg' = signals fg -> absent ev k fg'.
Proof. unfold absent, busy_with. by intros ? -> -> ->. Qed.

Definition exclusive_without (ev : StringValue) (k : key) (fg : GNSSFlowgraph) : Prop :=
  exclusive fg /\ absent ev k fg.

Lemma failed_exclusive who fg fg' : enough_satellites K U -> fg_wf K U fg -> covered K U None fg ->
  0 <= who < Z.of_nat (length K) -> exclusive fg -> channels_state_ fg !! Z.to_nat who = Some 1 ->
  apply_action who 0 fg = Some fg' -> exclusive fg'.
Proof.
  intros He Hw Hc Hwho Hx Hst Heq. destruct (channel_facts K U who fg Hw Hwho) as (ch & ev & Hch & HK & Hsig & _).
  destruct (release (Z.to_nat who) ev ch 1 fg Hx Hch Hst HK eq_refl) as [Hx1 Ha1].
  destruct (dec_acq_count_same (set_chstate (Z.to_nat who) 0 fg)) as (D1 & D2 & D3 & _).
  destruct (apply_action_failed K U (exclusive_without ev (sig_key (gnss_signal_ ch))) who fg He Hw Hc Hwho)
    as (ch0 & fg2 & b & Hch0 & [Hx2 Ha2] & Hw2 & Hb & Heq' & _).
  - split; [by eapply exclusive_same|by eapply absent_same].
  - intros c fg1 fg3 Hlt Hw1 [Hx' Ha'] Heff. destruct (effect_exclusive c fg1 fg3 Hlt Hw1 Hx' Heff) as [? Hab].
    split; [done|]. apply Hab; [apply Hsig|done].
  - rewrite Heq in Heq'. injection Heq' as ->. assert (ch0 = ch) as -> by congruence.
    rewrite Hb by (apply all_free; lia). by apply (exclusive_push ev).
Qed.

Lemma success_exclusive who fg fg' : enough_satellites K U -> fg_wf K U fg -> covered K U None fg ->
  0 <= who < Z.of_nat (length K) -> exclusive fg -> channels_state_ fg !! Z.to_nat who = Some 1 ->
  apply_action who 1 fg = Some fg' -> exclusive fg'.
Proof.
  intros He Hw Hc Hwho Hx Hst Heq. destruct (channel_facts K U who fg Hw Hwho) as (ch & ev & Hch & HK & Hsig & _).
  destruct (apply_action_success K U exclusive who fg He Hw Hc Hwho) as (fg2 & Heq' & Hx2 & _).
  - intros ch0 Hch0. assert (ch0 = ch) as -> by congruence.
    set (fg0 := set_chstate _ 2 _). destruct (dec_acq_count_same fg0) as (D1 & D2 & D3 & _).
    apply (exclusive_same fg0); [|done..]. apply (exclusive_less fg); [done| | |].
    + intros i ev' k (c0 & st & Hi & Hs & HKi & Hbz & <-). cbn in Hi, Hs. destruct (decide (i = Z.to_nat who)) as [->|Hne].
      * by exists c0, 1.
      * rewrite list_lookup_insert_ne in Hs by done. by exists c0, st.
    + intros ev' Hev'. cbn. eapply NoDup_remove; [done|]. by apply Hx.
    + intros ev' k. cbn. rewrite (pool_keys_remove ev) by done. tauto.
  - intros c fg1 fg3 Hlt Hw1 Hx' Heff. by apply (effect_exclusive c fg1 fg3 Hlt Hw1 Hx' Heff).
  - rewrite Heq in Heq'. by injection Heq' as ->.
Qed.

Lemma lost_exclusive who fg fg' : fg_wf K U fg -> covered K U None fg ->
  0 <= who < Z.of_nat (length K) -> exclusive fg -> channels_state_ fg !! Z.to_nat who = Some 2 ->
  apply_action who 2 fg = Some fg' -> exclusive fg'.
Proof.
  intros Hw Hc Hwho Hx Hst Heq. destruct (channel_facts K U who fg Hw Hwho) as (ch & ev & Hch & HK & Hsig & _).
  destruct (apply_action_lost K U who fg Hw Hc Hwho) as (ch0 & fg2 & Hch0 & Heq' & _ & _ & Hcase).
  rewrite Heq in Heq'. injection Heq' as <-. assert (ch0 = ch) as -> by congruence. destruct (_ <? _).
  - destruct Hcase as (ch' & -> & Hs & _). apply (exclusive_less fg); [done| |apply Hx|done].
    intros i ev' k (c0 & st & Hi & Hst' & HKi & Hbz & <-). cbn in Hi, Hst'. destruct (decide (i = Z.to_nat who)) as [->|Hne].
    + rewrite list_lookup_insert_eq in Hi by by eapply lookup_lt_Some. injection Hi as <-. rewrite Hs. by exists ch, 2.
    + rewrite !list_lookup_insert_ne in * by done. by exists c0, st.
  - destruct Hcase as (b & Hb & ->). rewrite Hb by (apply all_free; lia).
    destruct (release (Z.to_nat who) ev ch 2 fg Hx Hch Hst HK eq_refl) as [Hx1 Ha1].
    pose proof (exclusive_push ev (gnss_signal_ ch) _ Hsig Hx1 Ha1) as Hx2. by eapply exclusive_same.
Qed.

(** When all channels are idle only the lists matter. *)
Lemma idle_exclusive fg : (forall i st, channels_state_ fg !! i = Some st -> busy st = false) ->
  (forall ev, ev <> evSBAS_1C -> NoDup (pool_keys ev (signals fg))) -> exclusive fg.
Proof.
  intros Hi Hn. constructor; [done| |].
  - intros i ev k (ch & st & _ & Hs & _ & Hb & _). by rewrite (Hi _ _ Hs) in Hb.
  - intros i j ev k (ch & st & _ & Hs & _ & Hb & _). by rewrite (Hi _ _ Hs) in Hb.
Qed.

End exclusive.

(** ** No signal twice on a list *)

Section distinct.
Context `{ConfigurationInterface}.
Context (K : list StringValue) (U : StringValue -> list key).

Definition distinct (P : available_signals) : Prop := forall ev, ev <> evSBAS_1C -> NoDup (pool_keys ev P).

Lemma distinct_push ev g P : wf_sig ev g -> distinct P -> distinct (push_back_signal g P).
Proof. intros Hg Hd ev' Hev'. eapply NoDup_push; [done|by apply Hd]. Qed.

Lemma distinct_remove ev g P : wf_sig ev g -> distinct P -> distinct (remove_signal g P).
Proof. intros Hg Hd ev' Hev'. eapply NoDup_remove; [done|by apply Hd]. Qed.

Lemma distinct_set ev l P : distinct P -> NoDup (sig_key <$> l) -> distinct (set_pool ev l P).
Proof.
  intros Hd Hl ev' Hev'. unfold pool_keys. destruct (decide (ev' = ev)) as [->|?].
  - by rewrite pool_set_pool.
  - rewrite pool_set_pool_ne by done. by apply Hd.
Qed.

Lemma searched_distinct pop ev P g P' : ev <> evSBAS_1C -> distinct P -> searched pop ev P g P' -> distinct P'.
Proof.
  intros Hev Hd (l' & -> & _ & Hl). apply distinct_set; [done|]. specialize (Hd ev Hev). unfold pool_keys in Hd.
  destruct pop; rewrite Hl in *; [|done]. by apply list.NoDup_cons in Hd as [_ ?].
Qed.

Lemma effect_distinct c fg fg' : acquisition_effect K c fg fg' -> distinct (signals fg) -> distinct (signals fg').
Proof.
  assert (forall ev g P, wf_sig ev g -> took c ev fg g P -> distinct (signals fg) -> distinct P) as Ht.
  { intros ev g P (Hev & _) Ht Hd. unfold took in Ht. destruct (free c); [by eapply searched_distinct|].
    by destruct Ht as [-> _]. }
  intros []; cbn; eauto using distinct_push.
Qed.

Lemma to_front_distinct g l : NoDup (sig_key <$> l) -> NoDup (sig_key <$> to_front g l).
Proof.
  intros Hl. unfold to_front.
  assert (NoDup (sig_key <$> list_remove_signal g l)) as Hr.
  { unfold list_remove_signal. induction l as [|x l IH]; [constructor|].
    apply list.NoDup_cons in Hl as [Hx Hl]. rewrite filter_cons. destruct (decide _); [|by apply IH].
    cbn. constructor; [|by apply IH]. intros Hin. apply Hx. by apply elem_of_remove_keys in Hin as [? _]. }
  destruct (_ <? _)%nat; [|done]. cbn. constructor; [|done]. by intros [_ ?]%elem_of_remove_keys.
Qed.

Lemma priorize_distinct visible fg : distinct (signals fg) -> distinct (signals (priorize_satellites visible fg)).
Proof.
  cbn. generalize (signals fg). induction visible as [|[z sat] visible IH]; intros P Hd; cbn [fold_left]; [done|].
  apply IH. cbn [snd]. unfold priorize_satellite, priorize_kind.
  case_decide; [|case_decide; [|done]];
    repeat (apply distinct_set; [|apply to_front_distinct;
      repeat (rewrite pool_set_pool_ne by done); by apply Hd]); done.
Qed.

Lemma standby_distinct chs : forall n fg fg', Forall (fun ch => exists ev, wf_sig ev (gnss_signal_ ch)) chs ->
  standby_loop chs n fg = Some fg' -> distinct (signals fg) -> distinct (signals fg').
Proof.
  induction chs as [|ch chs IH]; intros n fg fg' Hc; cbn [standby_loop]; [by intros [= <-]|].
  apply Forall_cons_1 in Hc as [[ev Hev] Hc]. destruct (channels_state_ fg !! n) as [st|]; [|done]. cbn [mbind option_bind].
  intros Heq Hd. eapply IH; [done|exact Heq|]. destruct (_ || _); [|done]. cbn. by eapply distinct_push.
Qed.

Lemma action_distinct who what fg fg' : enough_satellites K U -> fg_wf K U fg -> covered K U None fg ->
  action_ok K who what -> apply_action who what fg = Some fg' -> distinct (signals fg) -> distinct (signals fg').
Proof.
  intros He Hw Hc Ha Heq Hd. set (Q := fun fg : GNSSFlowgraph => distinct (signals fg)).
  assert (forall c fg fg', (c < length K)%nat -> fg_wf K U fg -> Q fg -> acquisition_effect K c fg fg' -> Q fg') as HQ.
  { intros ????? Hq ?. by eapply effect_distinct. }
  destruct (decide (what = 0 \/ what = 1 \/ what = 2)) as [Hev|Hno].
  - specialize (Ha Hev). destruct (channel_facts K U who fg Hw Ha) as (ch & ev & Hch & HK & Hsig & _).
    destruct Hev as [->|[-> | ->]].
    + destruct (apply_action_failed K U Q who fg He Hw Hc Ha) as (ch0 & fg2 & b & Hch0 & Hq & _ & _ & Heq' & _).
      { unfold Q. by destruct (dec_acq_count_same (set_chstate (Z.to_nat who) 0 fg)) as (_ & _ & -> & _). }
      { done. }
      rewrite Heq in Heq'. injection Heq' as ->. assert (ch0 = ch) as -> by congruence.
      destruct b; [by eapply distinct_push|done].
    + destruct (apply_action_success K U Q who fg He Hw Hc Ha) as (fg2 & Heq' & Hq & _).
      { intros ch0 Hch0. assert (ch0 = ch) as -> by congruence. unfold Q.
        match goal with |- context [dec_acq_count ?x] => destruct (dec_acq_count_same x) as (_ & _ & -> & _) end.
        by eapply distinct_remove. }
      { done. }
      rewrite Heq in Heq'. by injection Heq' as ->.
    + destruct (apply_action_lost K U who fg Hw Hc Ha) as (ch0 & fg2 & Hch0 & Heq' & _ & _ & Hcase).
      rewrite Heq in Heq'. injection Heq' as <-. assert (ch0 = ch) as -> by congruence. destruct (_ <? _).
      * by destruct Hcase as (ch' & -> & _).
      * destruct Hcase as (b & _ & ->). cbn. destruct b; [by eapply distinct_push|done].
  - destruct (decide (what = 10)) as [->|H10].
    + unfold apply_action in Heq. destruct (standby_loop _ 0 fg) as [fg1|] eqn:Hl; [|done]. injection Heq as <-.
      cbn. eapply standby_distinct; [|done|done]. apply list.Forall_forall.
      intros ch (i & Hi)%list_elem_of_lookup_1. destruct (wf_channels K U fg Hw i ch Hi) as (ev & _ & ?). by exists ev.
    + assert (apply_action who what fg = Some fg) as Heq'.
      { unfold apply_action. by repeat case_match; try (exfalso; lia). }
      rewrite Heq in Heq'. by injection Heq' as ->.
Qed.

End distinct.

(** ** Exclusive use in the receiver *)

Section receiver.
Context `{ConfigurationInterface}.

Abbreviation M := (max_acq_channels_ init).

(** No satellite is configured twice. *)
Definition distinct_signals : Prop := forall ev, ev <> evSBAS_1C -> NoDup (sig_key <$> signals_of ev).

Lemma fg_apply_action_distinct who what ct ct' : enough_satellites kinds shared -> receiver_inv ct ->
  action_ok kinds who what -> fg_apply_action who what ct = Some ct' ->
  distinct (signals (flowgraph_ ct)) -> distinct (signals (flowgraph_ ct')).
Proof.
  intros He [W C N Q] Ha. unfold fg_apply_action. destruct (apply_action _ _ _) as [fg'|] eqn:Heq; [|done].
  intros [= <-]. by apply (action_distinct kinds shared who what).
Qed.

Lemma ct_apply_action_distinct what visible ct : distinct (signals (flowgraph_ ct)) ->
  distinct (signals (flowgraph_ (ct_apply_action what visible ct))).
Proof.
  intros Hd. unfold ct_apply_action. repeat case_match; try done; by apply priorize_distinct.
Qed.

Lemma event_dispatcher_distinct msg visible ct ct' : enough_satellites kinds shared -> receiver_inv ct ->
  (forall m, msg = Some m -> msg_ok m) -> event_dispatcher msg visible ct = Some ct' ->
  distinct (signals (flowgraph_ ct)) -> distinct (signals (flowgraph_ ct')).
Proof.
  intros He Hi Hm Heq Hd. assert (receiver_inv (count_message ct)) as Hi1 by by destruct Hi.
  destruct msg as [m|]; cbn [event_dispatcher] in Heq.
  - specialize (Hm m eq_refl). destruct m as [id ty|id ty|]; [| |by injection Heq as <-].
    + destruct (negb _); [|by injection Heq as <-]. destruct Hm as [Hid Hty].
      apply fg_apply_action_distinct in Heq; try done. by intros _.
    + destruct (Z.eqb_spec id 200) as [->|Hne]; [injection Heq as <-; by apply ct_apply_action_distinct|].
      apply fg_apply_action_distinct in Heq; [done|done| |by destruct (known_command_ok id ty Hm)|].
      * destruct (id =? 300); [by apply ct_apply_action_safe|done].
      * destruct (id =? 300); [by apply ct_apply_action_distinct|done].
  - destruct (negb _); [|by injection Heq as <-]. destruct Hi as [W C N Q].
    destruct (acquisition_manager_ind kinds shared (fun fg => distinct (signals fg)) None 0 (flowgraph_ ct) He W C Hd)
      as (fg' & Hm' & _ & _ & Hd').
    { intros. by eapply effect_distinct. }
    rewrite Hm' in Heq. by injection Heq as <-.
Qed.

Lemma receiver_step_distinct i ct ct' : enough_satellites kinds shared -> receiver_inv ct -> known_input i ->
  receiver_step i ct = Some ct' -> distinct (signals (flowgraph_ ct)) -> distinct (signals (flowgraph_ ct')).
Proof.
  intros He Hi Hk Heq Hd. destruct i as [c m|y|id ty|visible|visible]; cbn [receiver_step] in Heq.
  - injection Heq as <-. unfold report. by repeat case_match.
  - by injection Heq as <-.
  - by injection Heq as <-.
  - unfold run_iteration in Heq. destruct (stop_ ct); [by injection Heq as <-|]. destruct Hi as [W C N Q].
    destruct (control_queue_ ct) as [|m q]; cbn [Concurrent_Queue.timed_wait_and_pop] in Heq.
    + by apply event_dispatcher_distinct in Heq.
    + apply Forall_cons_1 in Q as [Hm Q]. apply event_dispatcher_distinct in Heq; try done.
      by intros ? [= <-].
  - unfold assist_actions in Heq. destruct (fg_apply_action 0 10 ct) as [ct1|] eqn:H1; [|done]. cbn [mbind option_bind] in Heq.
    destruct (fg_apply_action_safe 0 10 ct He Hi) as (ct2 & H2 & Hi2); [intros [?|[?|?]]; lia|].
    rewrite H1 in H2. injection H2 as <-.
    assert (distinct (signals (flowgraph_ ct1))) as Hd1.
    { apply (fg_apply_action_distinct 0 10 ct); try done. intros [?|[?|?]]; lia. }
    apply (fg_apply_action_distinct 0 12 _ ct') in Heq; try done; [|intros [?|[?|?]]; lia|by apply priorize_distinct].
    destruct Hi2 as [W C N Q]. destruct (priorize_safe kinds shared visible (flowgraph_ ct1) W C) as [? ?]. by constructor.
Qed.

(** The initial assignment turns the lists and takes the fixed satellites out. *)
Lemma assign_channel_distinct i D fg fg' : enough_satellites kinds shared -> assigned D fg -> (i < length kinds)%nat ->
  assign_channel fg i = Some fg' -> distinct (signals fg) -> distinct (signals fg').
Proof.
  intros He [A1 A2 A3 A4 A5 A6 A7] Hi Heq Hd. unfold assign_channel in Heq.
  destruct (channels_ fg !! i) as [ch|] eqn:Hch; [|done]. cbn [mbind option_bind] in Heq.
  destruct (A5 i ch Hch) as (ev & HK & Hev & Hstr & _). fold (free i) in Heq. rewrite Hstr in Heq. destruct (free i) eqn:Hf.
  - destruct (decide (pool ev (signals fg) = [])) as [Hp|Hne].
    { destruct (He ev) as [_ Hlt]. assert (i ∈ free_channels kinds ev) as Hin by by apply elem_of_free_channels.
      specialize (Hlt ltac:(by intros Hn; rewrite Hn in Hin; inversion Hin)).
      destruct (shared_signals ev) as [|k l] eqn:HU; [cbn in Hlt; lia|].
      assert (k ∈ pool_keys ev (signals fg)) as Hk by (apply A7; rewrite HU; left).
      unfold pool_keys in Hk. rewrite Hp in Hk. inversion Hk. }
    destruct (search_next_spec ev false (channels_status_ fg) (signals fg) Hev Hne) as (g & P & prim & a & hz & Hn & Hs).
    rewrite Hn in Heq. cbn [mbind option_bind] in Heq. destruct (set_signal g ch); [|done]. injection Heq as <-. cbn.
    by eapply searched_distinct.
  - destruct (set_signal _ ch); [|done]. injection Heq as <-. cbn. apply distinct_set; [done|].
    rewrite mapStringValues_str by done. assert (fixed_kind ev = ev) as -> by by destruct ev.
    rewrite <- (pool_set_pool ev (list_remove_signal _ _) (signals fg)).
    change {| satellite := make_satellite (ev_system ev) (fixed_satellite (Z.of_nat i)); signal := ev_str ev |}
      with (make_signal ev (fixed_satellite (Z.of_nat i))).
    rewrite <- (remove_eq ev) by by apply wf_make_signal.
    by apply (distinct_remove ev); [apply wf_make_signal|..].
Qed.

Lemma assign_loop_distinct order : forall D fg fg', enough_satellites kinds shared -> assigned D fg ->
  Forall (fun i => (i < length kinds)%nat) order -> assign_loop order fg = Some fg' ->
  distinct (signals fg) -> distinct (signals fg').
Proof.
  induction order as [|i order IH]; intros D fg fg' He Ha Ho; cbn [assign_loop]; [by intros [= <-]|].
  apply Forall_cons_1 in Ho as [Hi Ho]. destruct (assign_channel_assigned D i fg He Ha Hi) as (fg1 & Heq & Ha1).
  rewrite Heq. cbn [mbind option_bind]. intros Hl Hd. apply (IH (i :: D) fg1 fg'); try done.
  by apply (assign_channel_distinct i D fg).
Qed.

Lemma start_receiver_distinct ct : enough_satellites kinds shared -> distinct_signals -> start_receiver = Some ct ->
  distinct (signals (flowgraph_ ct)).
Proof.
  intros He Hd. unfold start_receiver, connect, assign_channels.
  destruct (assign_loop _ init) as [fg|] eqn:Heq; [|done]. cbn [mbind option_bind]. intros [= <-]. cbn.
  eapply assign_loop_distinct; [done|apply init_assigned| |exact Heq|].
  - apply list.Forall_forall. intros i Hi%elem_of_vector_of_channels. by rewrite (as_length [] init init_assigned) in Hi.
  - intros ev Hev. unfold pool_keys. change (signals init) with set_signals_list. rewrite pool_set_signals_list. by apply Hd.
Qed.

Lemma reachable_distinct ct : 0 <= M -> enough_satellites kinds shared -> distinct_signals -> reachable ct ->
  distinct (signals (flowgraph_ ct)).
Proof.
  intros HM He Hd. induction 1 as [ct Hst|i ct ct' Hr IH Hp Heq]; [by apply start_receiver_distinct|].
  apply (receiver_step_distinct i ct); try done.
  - by apply reachable_synced.
  - destruct i; try done. by destruct Hp.
Qed.

(** On standby every channel is idle. *)
Lemma standby_exclusive ct : 0 <= M -> enough_satellites kinds shared -> distinct_signals -> reachable ct ->
  receiver_on_standby_ ct = true -> exclusive kinds (flowgraph_ ct).
Proof.
  intros HM He Hd Hr Hsb. destruct (reachable_synced ct HM He Hr) as [Hi _ Hs]. unfold sync_state in Hs. rewrite Hsb in Hs.
  destruct Hs as [[B1 _ _] _]. apply idle_exclusive; [|by apply reachable_distinct]. intros i st Hst.
  destruct (lookup_lt_is_Some_2 (channels_ (flowgraph_ ct)) i) as [ch Hch].
  { rewrite (wf_length kinds shared), <- (wf_states kinds shared (flowgraph_ ct)) by apply Hi. by eapply lookup_lt_Some. }
  by destruct (B1 i ch st Hch Hst) as [-> _].
Qed.

Hypothesis all_free : forall i, (i < length kinds)%nat -> free i = true.

(** An event of a channel, as the control thread handles it. *)
Lemma channel_event_exclusive id ty q ct ct' visible : enough_satellites kinds shared -> synced ct ->
  control_queue_ ct = Channel_Event id ty :: q -> exclusive kinds (flowgraph_ ct) ->
  event_dispatcher (Some (Channel_Event id ty)) visible (set_queue q ct) = Some ct' -> exclusive kinds (flowgraph_ ct').
Proof.
  intros He [Hi Hc Hs] Hq Hx Heq. destruct (set_queue_inv _ _ _ Hi Hq) as [_ [Hid Hty]].
  cbn [event_dispatcher count_message set_queue receiver_on_standby_] in Heq. unfold sync_state in Hs. rewrite Hq in Hs.
  destruct (receiver_on_standby_ ct); cbn [negb] in Heq; [by injection Heq as <-|].
  unfold fg_apply_action in Heq. cbn [flowgraph_ count_message set_queue] in Heq.
  destruct (apply_action id ty (flowgraph_ ct)) as [fg'|] eqn:Ha; [|done]. injection Heq as <-. cbn. destruct Hi as [W C N Q].
  destruct (channel_facts kinds shared id (flowgraph_ ct) W Hid) as (ch & ev & Hch & HK & Hsig & Hlt).
  destruct (lookup_lt_is_Some_2 _ _ Hlt) as [st Hst]. pose proof (sf_agree _ _ _ Hs _ _ _ Hch Hst) as Hag.
  cbn in Hag. rewrite Z2Nat.id, Z.eqb_refl in Hag by lia.
  destruct (agree_pop _ _ _ _ Hag) as [(-> & -> & _)|[(-> & -> & _)|(-> & -> & _)]].
  - by apply (failed_exclusive kinds shared all_free id (flowgraph_ ct)).
  - by apply (success_exclusive kinds shared all_free id (flowgraph_ ct)).
  - by apply (lost_exclusive kinds shared all_free id (flowgraph_ ct)).
Qed.

Lemma priorize_exclusive visible fg : exclusive kinds fg -> exclusive kinds (priorize_satellites visible fg).
Proof.
  intros Hx. destruct (priorize_satellites_same visible fg) as [_ Hk].
  apply (exclusive_less kinds fg); [done|by apply busy_same|apply priorize_distinct; exact (ex_lists kinds fg Hx)|]. intros ev k. by rewrite Hk.
Qed.

Lemma ct_apply_action_exclusive what visible ct : exclusive kinds (flowgraph_ ct) ->
  exclusive kinds (flowgraph_ (ct_apply_action what visible ct)).
Proof. intros Hx. unfold ct_apply_action. repeat case_match; try done; by apply priorize_exclusive. Qed.

Lemma report_exclusive c message ct : exclusive kinds (flowgraph_ ct) -> exclusive kinds (flowgraph_ (report c message ct)).
Proof.
  intros Hx. unfold report. destruct (channels_ (flowgraph_ ct) !! c) as [ch|] eqn:Hch; [|done].
  destruct (block_report_cases message ch (control_queue_ ct)) as (s & cs & evs & -> & _). cbn.
  apply (exclusive_less kinds (flowgraph_ ct)); [done| |apply Hx|done].
  intros i ev k (ch0 & st & Hi & Hst & HKi & Hb & <-). cbn in Hi, Hst. revert Hi.
  rewrite list_lookup_insert_Some. intros [(<- & <- & _)|[_ Hi]]; [by exists ch, st|by exists ch0, st].
Qed.

Lemma step_exclusive i ct ct' : 0 <= M -> enough_satellites kinds shared -> distinct_signals -> reachable ct -> paced i ct ->
  receiver_step i ct = Some ct' -> exclusive kinds (flowgraph_ ct) -> exclusive kinds (flowgraph_ ct').
Proof.
  intros HM He Hd Hr Hp Heq Hx. pose proof (reachable_synced ct HM He Hr) as Hs.
  destruct i as [c m|y|id ty|visible|visible]; cbn [receiver_step] in Heq; [| | | |done].
  - injection Heq as <-. by apply report_exclusive.
  - injection Heq as <-. by apply (exclusive_same kinds (flowgraph_ ct)).
  - by injection Heq as <-.
  - pose proof Heq as Hrun. unfold run_iteration in Heq. destruct (stop_ ct); [by injection Heq as <-|].
    destruct (control_queue_ ct) as [|m q] eqn:Hq; cbn [Concurrent_Queue.timed_wait_and_pop] in Heq.
    + cbn [event_dispatcher set_queue receiver_on_standby_ flowgraph_] in Heq.
      destruct (negb _); [|by injection Heq as <-]. destruct Hs as [[W C N Q] _ _].
      destruct (acquisition_manager_ind kinds shared (exclusive kinds) None 0 (flowgraph_ ct) He W C Hx) as (fg' & Hm & _ & _ & Hx').
      { intros c fg1 fg2 Hc Hw1 Hx1 Hef. by apply (effect_exclusive kinds shared all_free c fg1). }
      rewrite Hm in Heq. by injection Heq as <-.
    + destruct m as [id ty|id ty|]; [by eapply channel_event_exclusive| |by injection Heq as <-].
      destruct (set_queue_inv _ _ _ (sy_inv ct Hs) Hq) as [_ Hk]. cbn [event_dispatcher] in Heq.
      destruct (Z.eqb_spec id 200) as [->|Hne]; [injection Heq as <-; by apply ct_apply_action_exclusive|].
      destruct (decide (ty = 10)) as [->|H10].
      * apply standby_exclusive; [done..|by eapply (R_step (I_loop visible))|].
        unfold fg_apply_action in Heq. destruct (apply_action _ _ _) as [fg'|]; [|done]. injection Heq as <-.
        cbn in Hk. unfold known_command in Hk. rewrite !elem_of_cons in Hk. by destruct_or! Hk; simplify_eq; try (by inversion Hk).
      * assert (id = 300 /\ (ty = 11 \/ ty = 12 \/ ty = 13)) as [-> Hty].
        { cbn in Hk. unfold known_command in Hk. rewrite !elem_of_cons in Hk.
          destruct_or! Hk; simplify_eq; auto; by inversion Hk. }
        unfold fg_apply_action in Heq. rewrite start_command in Heq by done. injection Heq as <-. cbn [Z.eqb Pos.eqb set_flowgraph flowgraph_].
        by apply ct_apply_action_exclusive.
Qed.

End receiver.
