(* ===== verification/ReceiverLive.v ===== *)
(** * Work conservation

    The acquisition manager leaves no channel idle that could search while fewer than
    [max_acq_channels_] channels are in acquisition, and the control thread gets to run it:
    a queue of events is drained in as many iterations as it has messages. *)
From stdpp Require Import strings.
From S2P Require Import Prelude GnssSignal ChannelFsm Flowgraph FlowgraphInv ControlThread ReceiverSync.

#[local] Open Scope Z_scope.

(** The signals that are searched for without the help of another one. *)
Definition primary_kind (ev : StringValue) : bool :=
  match ev with evGPS_1C | evGAL_1B | evGLO_1G | evBDS_B1 => true | _ => false end.

Section manager.
Context `{ConfigurationInterface}.
Context (K : list StringValue) (U : StringValue -> list key).

(** The channel may start whether or not another one helps. *)
Definition startable (multiband : bool) (i : nat) : Prop := free i = false \/
  (exists ev, K !! i = Some ev /\ primary_kind ev = true) \/
  property_bool "GNSS-SDR.assist_dual_frequency_acq" multiband = false.

Lemma search_primary ev pop status P g P' prim assist hz : primary_kind ev = true ->
  search_next_signal (ev_str ev) pop status P = Some (g, P', prim, assist, hz) -> prim = true.
Proof.
  unfold search_next_signal, search_plain.
  destruct ev; try done; intros _; rewrite mapStringValues_str by done;
    destruct (take_front _ _ _) as [[??]|]; cbn [mbind option_bind]; congruence.
Qed.

Lemma step_starts c ev ch fg fg' : channels_ fg !! c = Some ch -> K !! c = Some ev -> wf_sig ev (gnss_signal_ ch) ->
  startable (multiband_ fg) c -> channels_state_ fg !! c = Some 0 -> acq_channels_count_ fg < max_acq_channels_ fg ->
  acquisition_step c fg = Some fg' -> channels_state_ fg' !! c = Some 1.
Proof.
  intros Hch HK (Hev & Hstr & _) Hs Hst Hlt. unfold acquisition_step. rewrite Hst. cbn [mbind option_bind].
  rewrite (proj2 (Z.ltb_lt _ _) Hlt). cbn [andb Z.eqb]. rewrite Hch. cbn [mbind option_bind]. fold (free c).
  pose proof (lookup_lt_Some _ _ _ Hst) as Hl.
  destruct (free c) eqn:Hf.
  - destruct (search_next_signal _ _ _ _) as [[[[[g P] prim] assist] hz]|] eqn:Hsr; [|done]. cbn [mbind option_bind].
    destruct (set_signal g ch) as [ch1|]; [|done]. cbn [mbind option_bind].
    assert (prim || assist || negb (assist_dual_frequency fg) = true) as ->.
    { destruct Hs as [?|[(ev' & HK' & Hp)|Hb]]; [congruence| |unfold assist_dual_frequency; by rewrite Hb, orb_true_r].
      assert (ev' = ev) as -> by congruence. rewrite Hstr in Hsr. by rewrite (search_primary _ _ _ _ _ _ _ _ _ Hp Hsr). }
    destruct (channels_ (set_channel _ _ _) !! c); [|done]. cbn [mbind option_bind]. cbv zeta. intros [= <-]. cbn. by rewrite list_lookup_insert_eq.
  - destruct (set_signal _ ch) as [ch1|]; [|done]. cbn [mbind option_bind].
    destruct (channels_ (set_channel _ _ _) !! c); [|done]. cbn [mbind option_bind]. cbv zeta. intros [= <-]. cbn. by rewrite list_lookup_insert_eq.
Qed.

(** What a stretch of the manager's loop keeps: busy channels, and the limits. *)
Record onward (fg fg' : GNSSFlowgraph) : Prop := {
  on_busy i st : channels_state_ fg !! i = Some st -> st <> 0 -> channels_state_ fg' !! i = Some st;
  on_count : acq_channels_count_ fg <= acq_channels_count_ fg';
  on_max : max_acq_channels_ fg' = max_acq_channels_ fg;
  on_multiband : multiband_ fg' = multiband_ fg }.

#[local] Instance onward_preorder : PreOrder onward.
Proof.
  split; [done|]. intros a b c [A1 A2 A3 A4] [B1 B2 B3 B4]. split; [auto|lia|congruence..].
Qed.

Lemma effect_onward c fg fg' : acquisition_effect K c fg fg' -> onward fg fg'.
Proof.
  intros []; [done|..]; split; cbn; try done; try lia. intros i st Hi Hz.
  rewrite list_lookup_insert_ne; [done|]. intros ->. congruence.
Qed.

(** Channel [c] is not left idle, unless the limit is reached. *)
Definition served (fg : GNSSFlowgraph) (c : nat) : Prop :=
  max_acq_channels_ fg <= acq_channels_count_ fg \/ (startable (multiband_ fg) c -> channels_state_ fg !! c <> Some 0).

Lemma served_onward c fg fg' : (c < length (channels_state_ fg))%nat -> onward fg fg' -> served fg c -> served fg' c.
Proof.
  intros Hc [A1 A2 A3 A4] [Hl|Hs]; [left; lia|right]. rewrite A4. intros Hst Hz.
  destruct (lookup_lt_is_Some_2 _ _ Hc) as [st Hst']. destruct (decide (st = 0)) as [->|Hne]; [by apply Hs|].
  rewrite (A1 c st Hst' Hne) in Hz. congruence.
Qed.

(** The channel that step [i] of the manager looks at. *)
Definition visited (who i : Z) : nat := Z.to_nat (u32 (i + who + 1) mod Z.of_nat (length K)).

Lemma loop_serves who n : forall i fg fg', enough_satellites K U -> fg_wf K U fg -> covered K U None fg ->
  (0 < length K)%nat -> acquisition_loop n i who fg = Some fg' ->
  onward fg fg' /\ forall k, 0 <= k < Z.of_nat n -> served fg' (visited who (i + k)).
Proof.
  induction n as [|n IH]; intros i fg fg' He Hw Hc Hpos; cbn [acquisition_loop].
  { intros [= <-]. split; [done|lia]. }
  rewrite (wf_length K U fg Hw). fold (visited who i). set (c := visited who i). assert (c < length K)%nat as Hlt.
  { unfold c, visited. pose proof (Z.mod_pos_bound (u32 (i + who + 1)) (Z.of_nat (length K))). lia. }
  destruct (acquisition_step_effect K U None c fg He Hw Hc Hlt) as (fg1 & Hst & Heff). rewrite Hst. cbn [mbind option_bind].
  intros Hl. pose proof (effect_wf K U _ _ _ Hw Heff) as Hw1.
  destruct (IH (i + 1) fg1 fg' He Hw1) as [Hon Hsv]; [exact (effect_covered K U None c fg fg1 Hw Heff Hc)|done|done|].
  pose proof (effect_onward _ _ _ Heff) as Hon1. split; [by etransitivity|]. intros k Hk.
  destruct (decide (k = 0)) as [->|Hne].
  - rewrite Z.add_0_r. fold c. apply (served_onward c fg1); [by rewrite (wf_states K U)|done|].
    destruct (decide (max_acq_channels_ fg1 <= acq_channels_count_ fg1)) as [?|Hnl]; [by left|right]. intros Hs Hz.
    pose proof Hon1 as [A1 A2 A3 A4].
    destruct (lookup_lt_is_Some_2 (channels_ fg) c) as [ch Hch]; [by rewrite (wf_length K U)|].
    destruct (wf_channels K U fg Hw c ch Hch) as (ev & HK & Hsig). rewrite A4 in Hs.
    destruct (lookup_lt_is_Some_2 (channels_state_ fg) c) as [st Hst0]; [by rewrite (wf_states K U)|].
    destruct (decide (st = 0)) as [->|Hz']; [|by rewrite (A1 c st Hst0 Hz') in Hz; congruence].
    rewrite (step_starts c ev ch fg fg1) in Hz; try done. lia.
  - replace (i + k) with ((i + 1) + (k - 1)) by lia. apply Hsv. lia.
Qed.

(** Every channel is looked at once. *)
Lemma visited_all who c : (c < length K)%nat -> 0 <= who -> who + Z.of_nat (length K) < 2 ^ 32 ->
  exists k, 0 <= k < Z.of_nat (length K) /\ visited who (0 + k) = c.
Proof.
  intros Hc Hw Hb. set (n := Z.of_nat (length K)) in *. exists ((Z.of_nat c - who - 1) mod n).
  assert (0 < n) as Hn by lia. pose proof (Z.mod_pos_bound (Z.of_nat c - who - 1) n Hn) as Hr. split; [done|].
  unfold visited, u32. fold n. rewrite (Z.mod_small _ (2 ^ 32)) by lia.
  replace (0 + (Z.of_nat c - who - 1) mod n + who + 1) with ((Z.of_nat c - who - 1) mod n + (who + 1)) by lia.
  rewrite Zplus_mod_idemp_l. replace (Z.of_nat c - who - 1 + (who + 1)) with (Z.of_nat c) by lia.
  rewrite Z.mod_small by lia. lia.
Qed.

Lemma manager_serves who fg fg' : enough_satellites K U -> fg_wf K U fg -> covered K U None fg ->
  0 <= who -> who + Z.of_nat (length K) < 2 ^ 32 -> acquisition_manager who fg = Some fg' ->
  onward fg fg' /\ forall c, (c < length K)%nat -> served fg' c.
Proof.
  intros He Hw Hc Hwho Hb. unfold acquisition_manager. rewrite (wf_length K U fg Hw).
  destruct (decide (length K = 0)%nat) as [Hz|Hz]; [rewrite Hz; intros [= <-]; split; [done|lia]|].
  intros Hl. destruct (loop_serves who (length K) 0 fg fg' He Hw Hc ltac:(lia) Hl) as [Hon Hs]. split; [done|].
  intros c Hlt. destruct (visited_all who c Hlt Hwho Hb) as (k & Hk & <-). by apply Hs.
Qed.

End manager.

(** ** The control thread *)

Section receiver.
Context `{ConfigurationInterface}.

Abbreviation M := (max_acq_channels_ init).

Lemma reachable_run visible n : forall ct ct', reachable ct ->
  receiver_run (replicate n (I_loop visible)) ct = Some ct' -> reachable ct'.
Proof.
  induction n as [|n IH]; intros ct ct' Hr; cbn [replicate receiver_run]; [by intros [= <-]|].
  destruct (receiver_step (I_loop visible) ct) as [ct1|] eqn:Heq; [|done]. cbn [mbind option_bind]. apply IH.
  by apply (R_step (I_loop visible) ct).
Qed.

(** One iteration on a queue that starts with something other than a command. *)
Lemma iteration_pops visible m q ct : enough_satellites kinds shared -> receiver_inv ct ->
  control_queue_ ct = m :: q -> is_command m = false -> stop_ ct = false ->
  exists ct', receiver_step (I_loop visible) ct = Some ct' /\ receiver_inv ct' /\ control_queue_ ct' = q /\
    receiver_on_standby_ ct' = receiver_on_standby_ ct /\ stop_ ct' = false.
Proof.
  intros He Hi Hq Hm Hst. destruct (receiver_step_safe (I_loop visible) ct He Hi I) as (ct' & Heq & Hi').
  exists ct'. split_and!; try done; cbn [receiver_step] in Heq; unfold run_iteration in Heq; rewrite Hst, Hq in Heq;
    destruct m as [id ty|id ty|]; try done; cbn [event_dispatcher Concurrent_Queue.timed_wait_and_pop] in Heq;
    try (by injection Heq as <-); unfold fg_apply_action in Heq;
    (destruct (negb _); [destruct (apply_action _ _ _); [|done]|]); by injection Heq as <-.
Qed.

Lemma drain visible q : forall ct, enough_satellites kinds shared -> receiver_inv ct -> control_queue_ ct = q ->
  Forall (fun m => is_command m = false) q -> receiver_on_standby_ ct = false -> stop_ ct = false ->
  exists ct', receiver_run (replicate (length q) (I_loop visible)) ct = Some ct' /\ receiver_inv ct' /\
    control_queue_ ct' = [] /\ receiver_on_standby_ ct' = false /\ stop_ ct' = false.
Proof.
  induction q as [|m q IH]; intros ct He Hi Hq Hc Hsb Hst; cbn [length replicate receiver_run]; [by exists ct|].
  apply Forall_cons_1 in Hc as [Hm Hc].
  destruct (iteration_pops visible m q ct He Hi Hq Hm Hst) as (ct1 & -> & Hi1 & Hq1 & Hsb1 & Hst1).
  cbn [mbind option_bind]. apply IH; try done. congruence.
Qed.

(** The iteration after the queue has been drained runs the manager for all channels. *)
Lemma idle_iteration visible ct : enough_satellites kinds shared -> Z.of_nat (length kinds) < 2 ^ 32 -> receiver_inv ct ->
  control_queue_ ct = [] -> receiver_on_standby_ ct = false -> stop_ ct = false ->
  exists ct', receiver_step (I_loop visible) ct = Some ct' /\ control_queue_ ct' = [] /\ receiver_on_standby_ ct' = false /\
    forall c, (c < length kinds)%nat -> served kinds (flowgraph_ ct') c.
Proof.
  intros He Hb Hi Hq Hsb Hst. destruct (receiver_step_safe (I_loop visible) ct He Hi I) as (ct' & Heq & Hi').
  exists ct'. split; [done|]. cbn [receiver_step] in Heq. unfold run_iteration in Heq. rewrite Hst, Hq in Heq.
  cbn [Concurrent_Queue.timed_wait_and_pop event_dispatcher set_queue receiver_on_standby_ flowgraph_] in Heq.
  rewrite Hsb in Heq. cbn [negb] in Heq. destruct (acquisition_manager 0 _) as [fg'|] eqn:Hm; [|done]. injection Heq as <-.
  split_and!; [done|done|]. destruct Hi as [W C N Q]. by apply (manager_serves kinds shared 0 (flowgraph_ ct)).
Qed.

Lemma receiver_run_app l1 l2 ct : receiver_run (l1 ++ l2) ct = receiver_run l1 ct ≫= receiver_run l2.
Proof.
  revert ct. induction l1 as [|i l1 IH]; intros ct; cbn [app receiver_run]; [done|].
  destruct (receiver_step i ct); cbn [mbind option_bind]; [apply IH|done].
Qed.

Lemma drained_and_served visible ct : 0 <= M -> enough_satellites kinds shared -> Z.of_nat (length kinds) < 2 ^ 32 ->
  reachable ct -> Forall (fun m => is_command m = false) (control_queue_ ct) ->
  receiver_on_standby_ ct = false -> stop_ ct = false ->
  exists ct', receiver_run (replicate (S (length (control_queue_ ct))) (I_loop visible)) ct = Some ct' /\
    control_queue_ ct' = [] /\
    (acquiring (channels_state_ (flowgraph_ ct')) = M \/
     forall c, (c < length kinds)%nat -> startable kinds (multiband_ (flowgraph_ ct')) c ->
       channels_state_ (flowgraph_ ct') !! c <> Some 0).
Proof.
  intros HM He Hb Hr Hc Hsb Hst. destruct (reachable_synced ct HM He Hr) as [Hi _ _].
  destruct (drain visible (control_queue_ ct) ct He Hi eq_refl Hc Hsb Hst) as (ct1 & Hrun & Hi1 & Hq1 & Hsb1 & Hst1).
  destruct (idle_iteration visible ct1 He Hb Hi1 Hq1 Hsb1 Hst1) as (ct2 & Heq & Hq2 & Hsb2 & Hs).
  assert (receiver_run (replicate (S (length (control_queue_ ct))) (I_loop visible)) ct = Some ct2) as Hall.
  { rewrite <- Nat.add_1_r, replicate_add, receiver_run_app, Hrun. cbn [mbind option_bind replicate receiver_run]. by rewrite Heq. }
  exists ct2. split_and!; [done|done|].
  destruct (reachable_synced ct2 HM He (reachable_run _ _ _ _ Hr Hall)) as [_ _ Hsy]. unfold sync_state in Hsy.
  rewrite Hsb2 in Hsy. destruct Hsy as [_ S2 S3 S4].
  destruct (decide (M <= acq_channels_count_ (flowgraph_ ct2))) as [Hl|Hl]; [left; lia|right].
  intros c Hlt. destruct (Hs c Hlt) as [?|?]; [lia|done].
Qed.

End receiver.
