(* ===== verification/ReceiverProps.v ===== *)
(** * The receiver control: theorems

    What the channel management guarantees, against every order in which the
    signal-processing threads, the operator and the control thread may act, with the
    conditions on the configuration that it needs. *)
From Stdlib Require Import Sorted.
From stdpp Require Import strings pretty.
From S2P Require Import Prelude GnssSignal ChannelFsm Flowgraph FlowgraphInv ControlThread.
From S2P Require Import ReceiverSync ReceiverSearch ReceiverLive.

#[local] Open Scope string_scope.
#[local] Open Scope list_scope.
#[local] Open Scope Z_scope.

(** ** Priorities: lemmas *)

Lemma remove_keys g l : sig_key <$> list_remove_signal g l = filter (fun k => k <> sig_key g) (sig_key <$> l).
Proof.
  unfold list_remove_signal. induction l as [|x l IH]; [done|]. rewrite fmap_cons, !filter_cons, sig_eqb_key.
  destruct (decide (sig_key x = sig_key g)) as [Heq|Hne].
  - rewrite bool_decide_true by done. rewrite decide_False by done. by rewrite decide_False by auto.
  - rewrite bool_decide_false by done. rewrite decide_True by done. rewrite decide_True by done. by rewrite fmap_cons, IH.
Qed.

Lemma filter_ext_in {A} (P Q : A -> Prop) `{!forall x, Decision (P x), !forall x, Decision (Q x)} (l : list A) :
  (forall x, x ∈ l -> P x <-> Q x) -> filter P l = filter Q l.
Proof.
  induction l as [|x l IH]; [done|]. intros Hpq. rewrite !filter_cons, IH by (intros y Hy; apply Hpq; by right).
  pose proof (Hpq x ltac:(left)) as Hx. repeat case_decide; tauto.
Qed.

Lemma filter_ne_id {A} `{EqDecision A} (x : A) (l : list A) : x ∉ l -> filter (fun y => y <> x) l = l.
Proof.
  induction l as [|y l IH]; [done|]. rewrite not_elem_of_cons. intros [Hne Hl].
  rewrite filter_cons, decide_True by auto. by rewrite IH.
Qed.

Lemma filter_ne_shorter {A} `{EqDecision A} (x : A) (l : list A) : x ∈ l -> (length (filter (fun y => y <> x) l) < length l)%nat.
Proof.
  induction l as [|y l IH]; [by rewrite elem_of_nil|]. intros Hx. rewrite filter_cons.
  pose proof (length_filter (fun z => z <> x) l). case_decide as Hd; cbn [length]; [|lia].
  apply elem_of_cons in Hx as [->|Hx]; [done|]. specialize (IH Hx). lia.
Qed.

(** [to_front] on the keys: the signal comes first if it was there. *)
Lemma to_front_eq g l : sig_key <$> to_front g l =
  if decide (sig_key g ∈ sig_key <$> l) then sig_key g :: filter (fun k => k <> sig_key g) (sig_key <$> l) else sig_key <$> l.
Proof.
  unfold to_front. rewrite <- (length_fmap sig_key (list_remove_signal g l)), <- (length_fmap sig_key l), remove_keys.
  case_decide as Hin.
  - rewrite (proj2 (Nat.ltb_lt _ _)) by by apply filter_ne_shorter. by rewrite fmap_cons, remove_keys.
  - rewrite filter_ne_id by done. rewrite Nat.ltb_irrefl, remove_keys. by rewrite filter_ne_id.
Qed.

Lemma fold_to_front gs : forall l, NoDup (sig_key <$> gs) -> NoDup (sig_key <$> l) ->
  sig_key <$> fold_left (fun l g => to_front g l) gs l =
  reverse (filter (fun k => k ∈ sig_key <$> l) (sig_key <$> gs)) ++ filter (fun k => k ∉ sig_key <$> gs) (sig_key <$> l).
Proof.
  induction gs as [|g gs IH]; intros l Hg Hl; cbn [fold_left].
  - cbn [fmap list_fmap filter list_filter reverse]. rewrite reverse_nil. cbn [app].
    induction (sig_key <$> l) as [|k ks IHk]; [done|]. rewrite filter_cons, decide_True by apply not_elem_of_nil. f_equal.
    apply IHk. by apply list.NoDup_cons in Hl as [_ ?].
  - rewrite fmap_cons in *. apply list.NoDup_cons in Hg as [Hn Hg]. rewrite IH by (done || by apply to_front_distinct).
    rewrite (list_filter_iff (fun k => k ∈ sig_key <$> to_front g l) (fun k => k ∈ sig_key <$> l)) by (intros; apply to_front_keys).
    rewrite to_front_eq, (filter_cons _ (sig_key g)). case_decide as Hin.
    + rewrite reverse_cons, <- app_assoc. f_equal. rewrite filter_cons, decide_True by done. cbn [app]. f_equal.
      rewrite list_filter_filter. apply list_filter_iff. intros k. rewrite not_elem_of_cons. tauto.
    + f_equal. apply filter_ext_in. intros k Hk. rewrite not_elem_of_cons. naive_solver.
Qed.

Section priorities.
Context `{ConfigurationInterface}.

(** The visible satellites of the system that transmits signals of a kind, as signals. *)
Definition visible_signals (ev : StringValue) (visible : list (Z * Gnss_Satellite)) : list Gnss_Signal :=
  (fun v => {| satellite := v.2; signal := ev_str ev |}) <$> filter (fun v => system v.2 = ev_system ev) visible.

Lemma priorize_pool ev visible fg : ev_system ev = "GPS" \/ ev_system ev = "Galileo" ->
  pool ev (signals (priorize_satellites visible fg)) =
  fold_left (fun l g => to_front g l) (visible_signals ev visible) (pool ev (signals fg)).
Proof.
  intros Hev. cbn. generalize (signals fg). unfold visible_signals.
  induction visible as [|[z sat] visible IH]; intros P; cbn [fold_left]; [done|].
  rewrite IH. cbn [snd]. rewrite filter_cons. cbn [snd].
  assert (pool ev (priorize_satellite sat P) =
    if decide (system sat = ev_system ev) then to_front {| satellite := sat; signal := ev_str ev |} (pool ev P) else pool ev P) as ->.
  { unfold priorize_satellite, priorize_kind. destruct P. by destruct Hev as [Hev|Hev]; destruct ev; try done; repeat case_decide; try congruence. }
  by case_decide.
Qed.

End priorities.

(** ** The list of satellites: lemmas *)

Lemma elem_of_set_insert x y s : y ∈ set_insert x s <-> y = x \/ y ∈ s.
Proof.
  induction s as [|z s IH]; cbn [set_insert]; [rewrite list_elem_of_singleton, elem_of_nil; tauto|].
  destruct (Z.ltb_spec x z); [by rewrite !elem_of_cons|]. destruct (Z.eqb_spec x z) as [->|?].
  - rewrite elem_of_cons. tauto.
  - rewrite !elem_of_cons, IH. tauto.
Qed.

Lemma set_insert_sorted x s : StronglySorted Z.lt s -> StronglySorted Z.lt (set_insert x s).
Proof.
  induction 1 as [|z s Hs IH Hz]; cbn [set_insert]; [repeat constructor|]. pose proof Hz as Hz'. rewrite list.Forall_forall in Hz'.
  destruct (Z.ltb_spec x z); [|destruct (Z.eqb_spec x z)].
  - constructor; [by constructor|]. constructor; [done|].
    apply list.Forall_forall. intros y Hy. specialize (Hz' y Hy). lia.
  - by constructor.
  - constructor; [done|]. apply list.Forall_forall. intros y [->|Hy]%elem_of_set_insert; [lia|by apply Hz'].
Qed.

Lemma filter_sorted (P : Z -> Prop) `{!forall x, Decision (P x)} s : StronglySorted Z.lt s -> StronglySorted Z.lt (filter P s).
Proof.
  induction 1 as [|z s Hs IH Hz]; [constructor|]. rewrite filter_cons. case_decide; [|done]. constructor; [done|].
  apply list.Forall_forall. intros y [_ Hy]%list_elem_of_filter. rewrite list.Forall_forall in Hz. by apply Hz.
Qed.

(** The numbers in a comma-separated list of banned satellites. *)
Definition banned_prns (s : string) : list Z := if decide (s = "") then [] else u32 <$> omap stoi (split_commas s "").

(** The satellites configured for a system, or the default ones. *)
Definition chosen_prns `{ConfigurationInterface} (name : string) (defaults : list Z) : list Z :=
  if decide (property_str name "" = "" \/ prns name = []) then defaults else u32 <$> prns name.

Lemma fold_insert_spec l : forall s, StronglySorted Z.lt s ->
  StronglySorted Z.lt (fold_left (fun t x => set_insert (u32 x) t) l s) /\
  forall y, y ∈ fold_left (fun t x => set_insert (u32 x) t) l s <-> y ∈ s \/ y ∈ u32 <$> l.
Proof.
  induction l as [|x l IH]; intros s Hs; cbn [fold_left]; [split; [done|]; cbn; intros; rewrite elem_of_nil; tauto|].
  destruct (IH _ (set_insert_sorted (u32 x) s Hs)) as [H1 H2]. split; [done|]. intros y.
  rewrite H2, fmap_cons, elem_of_cons, elem_of_set_insert. tauto.
Qed.

Lemma fold_erase_spec items : forall s, StronglySorted Z.lt s ->
  let r := fold_left (fun t item => match stoi item with Some b => set_erase (u32 b) t | None => t end) items s in
  StronglySorted Z.lt r /\ forall y, y ∈ r <-> y ∈ s /\ y ∉ u32 <$> omap stoi items.
Proof.
  induction items as [|x items IH]; intros s Hs r; unfold r; cbn [fold_left omap list_omap].
  { split; [done|]. intros y. cbn. rewrite elem_of_nil. tauto. }
  destruct (stoi x) as [b|]; [|by apply IH].
  destruct (IH (set_erase (u32 b) s) (filter_sorted _ _ Hs)) as [H1 H2]. split; [done|]. intros y.
  rewrite H2, fmap_cons, not_elem_of_cons. unfold set_erase. rewrite list_elem_of_filter. tauto.
Qed.

Lemma available_prn_spec `{ConfigurationInterface} name banned defaults : StronglySorted Z.lt defaults ->
  StronglySorted Z.lt (available_prn name banned defaults) /\
  forall p, p ∈ available_prn name banned defaults <->
    p ∈ chosen_prns name defaults /\ p ∉ banned_prns (property_str banned "").
Proof.
  intros Hd. unfold available_prn, chosen_prns, banned_prns.
  destruct (fold_insert_spec (prns name) [] (SSorted_nil _)) as [H1 H2].
  set (chosen := if decide (property_str name "" = "") then defaults else _).
  assert (StronglySorted Z.lt chosen /\ forall p, p ∈ chosen <->
    p ∈ if decide (property_str name "" = "" \/ prns name = []) then defaults else u32 <$> prns name) as [Hs Hc].
  { subst chosen. destruct (decide (property_str name "" = "")) as [He|He]; [by rewrite decide_True by auto|].
    destruct (prns name) as [|x l] eqn:Hp; [by rewrite decide_True by auto|]. rewrite decide_False by naive_solver.
    destruct (fold_left _ (x :: l) []) as [|y t] eqn:Hf.
    - exfalso. destruct (H2 (u32 x)) as [_ Hn]. rewrite fmap_cons, elem_of_cons in Hn.
      specialize (Hn (or_intror (or_introl eq_refl))). by rewrite elem_of_nil in Hn.
    - split; [done|]. intros p. rewrite H2, elem_of_nil. tauto. }
  clearbody chosen. destruct (decide (property_str banned "" = "")) as [He|He].
  - split; [done|]. intros p. rewrite Hc, elem_of_nil. tauto.
  - destruct (fold_erase_spec (split_commas (property_str banned "") "") chosen Hs) as [H3 H4]. split; [done|].
    intros p. by rewrite H4, Hc.
Qed.

(** ** A receiver to try *)

(** GPS L1 only, with the given number of channels and satellites. *)
Definition gps_receiver (channels : Z) (sats : list Z) : ConfigurationInterface :=
  {| property_int name d := if decide (name = "Channels_1C.count") then channels else d;
     property_bool _ d := d;
     property_str name d := if decide (name = "GPS.prns") then "as in prns" else d;
     prns name := if decide (name = "GPS.prns") then sats else [] |}.

(** Two channels and three satellites. *)
Definition demo : ConfigurationInterface := gps_receiver 2 [1; 2; 3].

Definition demo_start (inputs : list input) : option ControlThread :=
  ct ← @start_receiver demo; @receiver_run demo inputs ct.

Lemma demo_enough : @enough_satellites demo (@configured_kinds demo) (@shared_signals demo).
Proof.
  intros ev. split; [apply (bool_decide_eq_true_1 _); destruct ev; vm_compute; reflexivity|].
  destruct ev; vm_compute; intros Hn; try done; lia.
Qed.

Lemma demo_distinct : @distinct_signals demo.
Proof. intros ev _. apply (bool_decide_eq_true_1 _). destruct ev; vm_compute; reflexivity. Qed.

Lemma demo_free i : (i < length (@configured_kinds demo))%nat -> @free demo i = true.
Proof. intros Hi. vm_compute in Hi. do 2 (destruct i as [|i]; [by vm_compute|]). lia. Qed.

(** Runs of the demonstration receiver without commands. *)
Lemma demo_reachable inputs : forall ct ct', @reachable demo ct ->
  Forall (fun i => match i with I_command _ _ | I_assist _ => False | _ => True end) inputs ->
  @receiver_run demo inputs ct = Some ct' -> @reachable demo ct'.
Proof.
  induction inputs as [|i inputs IH]; intros ct ct' Hr Hp; cbn [receiver_run]; [by intros [= <-]|].
  apply Forall_cons_1 in Hp as [Hi Hp]. destruct (receiver_step i ct) as [ct1|] eqn:Heq; [|done]. cbn [mbind option_bind].
  apply IH; [|done]. apply (@R_step demo i ct); [done|by destruct i|done].
Qed.

(** ** The receiver *)

Section receiver.
Context `{ConfigurationInterface}.

Abbreviation M := (max_acq_channels_ init).

(** C1: With more satellites than free channels for every kind of signal, the receiver
    starts and then survives every sequence of inputs: whatever the order of reports of the
    blocks, status messages, commands, assistance and iterations of the control loop, no
    list of signals is empty when a channel searches, no index is out of range, and no
    satellite without a letter is assigned. *)
Theorem receiver_never_crashes : enough_satellites kinds shared ->
  exists ct0, start_receiver = Some ct0 /\
    forall inputs, Forall known_input inputs -> exists ct, receiver_run inputs ct0 = Some ct.
Proof.
  intros He. destruct (start_receiver_inv He) as (ct0 & Hs & Hi & _). exists ct0. split; [done|].
  intros inputs Hk. destruct (receiver_run_safe inputs ct0 He Hi Hk) as (ct & ? & _). by exists ct.
Qed.

(** C2: No satellite is lost: at any time every satellite that the free channels share is
    on the list of its kind of signal, or a free channel of that kind is in acquisition or
    tracking with it. *)
Theorem no_satellite_lost ct0 inputs ct ev k : enough_satellites kinds shared ->
  start_receiver = Some ct0 -> Forall known_input inputs -> receiver_run inputs ct0 = Some ct ->
  ev <> evSBAS_1C -> k ∈ shared ev ->
  k ∈ pool_keys ev (signals (flowgraph_ ct)) \/
  exists i ch st, channels_ (flowgraph_ ct) !! i = Some ch /\ channels_state_ (flowgraph_ ct) !! i = Some st /\
    kinds !! i = Some ev /\ free i = true /\ st <> 0 /\ sig_key (gnss_signal_ ch) = k.
Proof.
  intros He Hs Hk Hr Hev HkU. destruct (start_receiver_inv He) as (ct1 & Hs' & Hi & _).
  rewrite Hs in Hs'. injection Hs' as <-. destruct (receiver_run_safe inputs ct0 He Hi Hk) as (ct2 & Hr' & [_ C _ _]).
  rewrite Hr in Hr'. injection Hr' as <-. destruct (C ev k Hev HkU) as [?|[?|?]]; auto. done.
Qed.

(** C3: The control thread and the channels agree in every state that is reached with enough
    satellites, no assistance after the start and commands given one at a time ([reachable]:
    a known command comes only when none is in the queue; [wedged_channel] shows what two
    commands at once do). While the receiver is not on standby, the state that the flow graph
    keeps for a channel, the state of the channel's own machine and the events of the channel
    still in the queue are one of eight combinations, and [acq_channels_count_] is the number
    of channels in acquisition and does not exceed [max_acq_channels_]. On standby the flow
    graph has every channel idle, the machine of each is idle or on standby and the count
    is zero. *)
Theorem channels_agree ct : 0 <= M -> enough_satellites kinds shared -> reachable ct ->
  if receiver_on_standby_ ct
  then (forall i ch st, channels_ (flowgraph_ ct) !! i = Some ch -> channels_state_ (flowgraph_ ct) !! i = Some st ->
          st = 0 /\ (state_ (channel_fsm_ ch) = 0 \/ state_ (channel_fsm_ ch) = 3)) /\
       acq_channels_count_ (flowgraph_ ct) = 0
  else (forall i ch st, channels_ (flowgraph_ ct) !! i = Some ch -> channels_state_ (flowgraph_ ct) !! i = Some st ->
          agree st (state_ (channel_fsm_ ch)) (pending i (control_queue_ ct))) /\
       acq_channels_count_ (flowgraph_ ct) = acquiring (channels_state_ (flowgraph_ ct)) /\
       acquiring (channels_state_ (flowgraph_ ct)) <= M.
Proof.
  intros HM He Hr. destruct (reachable_synced ct HM He Hr) as [_ _ Hs]. unfold sync_state in Hs.
  destruct (receiver_on_standby_ ct).
  - destruct Hs as [[B1 B2 _] _]. by split.
  - destruct Hs as [S1 S2 _ S4]. split_and!; [done|done|lia].
Qed.

(** C5: Exclusive use of the satellites, when no channel is fixed to one, no list of signals
    names a satellite twice, there are enough satellites and commands are given one at a
    time, without assistance after the start. In a state reached so, on standby, no two
    channels work on the same signal, no channel works on a signal of the lists, and no
    signal is twice on a list; and once this holds every such input keeps it. (It does not
    hold right after the start, see [same_satellite_twice].) *)
Theorem exclusive_use : 0 <= M -> enough_satellites kinds shared -> distinct_signals ->
  (forall i, (i < length kinds)%nat -> free i = true) -> forall ct, reachable ct ->
  (receiver_on_standby_ ct = true -> exclusive kinds (flowgraph_ ct)) /\
  forall i ct', paced i ct -> receiver_step i ct = Some ct' -> exclusive kinds (flowgraph_ ct) -> exclusive kinds (flowgraph_ ct').
Proof.
  intros HM He Hd Hf ct Hr. split.
  - by apply standby_exclusive.
  - intros i ct' Hp Heq Hx. by apply (step_exclusive Hf i ct).
Qed.

(** C4: Work conservation, with enough satellites and fewer than 2^32 channels. From any
    state that is reached with commands given one at a time and no assistance after the
    start, in which the receiver is neither on standby nor stopped and no command is in
    the queue, the control loop empties its queue in one iteration per message and one
    more, without failing; then either [max_acq_channels_] channels are in acquisition, or
    no channel is idle that may start without assistance: one fixed to a satellite, one of
    a primary signal, or any when assisted acquisition is off. *)
Theorem work_conserved visible ct : 0 <= M -> enough_satellites kinds shared -> Z.of_nat (length kinds) < 2 ^ 32 ->
  reachable ct -> Forall (fun m => is_command m = false) (control_queue_ ct) ->
  receiver_on_standby_ ct = false -> stop_ ct = false ->
  exists ct', receiver_run (replicate (S (length (control_queue_ ct))) (I_loop visible)) ct = Some ct' /\
    control_queue_ ct' = [] /\
    (acquiring (channels_state_ (flowgraph_ ct')) = M \/
     forall c, (c < length kinds)%nat -> startable kinds (multiband_ (flowgraph_ ct')) c ->
       channels_state_ (flowgraph_ ct') !! c <> Some 0).
Proof. apply drained_and_served. Qed.

(** Visible satellites first: for GPS and Galileo the list of a signal then has the
    visible satellites that were on it, and after them the others in their old order. The
    visible ones come in the reverse of the order in which they are given:
    [get_visible_sats] gives the one with the highest elevation first, so that the lowest
    one is searched for first. *)
Theorem priorities_order ev visible fg : ev_system ev = "GPS" \/ ev_system ev = "Galileo" ->
  NoDup (pool_keys ev (signals fg)) -> NoDup (sig_key <$> visible_signals ev visible) ->
  pool_keys ev (signals (priorize_satellites visible fg)) =
  reverse (filter (fun k => k ∈ pool_keys ev (signals fg)) (sig_key <$> visible_signals ev visible)) ++
  filter (fun k => k ∉ sig_key <$> visible_signals ev visible) (pool_keys ev (signals fg)).
Proof. intros Hev Hp Hv. unfold pool_keys. rewrite priorize_pool by done. by apply fold_to_front. Qed.

(** The configuration entries of a system: its satellites, the banned ones, the defaults. *)
Definition prn_entries (ev : StringValue) : string * string * list Z :=
  match ev with
  | evGPS_1C | evGPS_2S | evGPS_L5 => ("GPS.prns", "GNSS-SDR.GPS_banned_prns", default_gps_prn)
  | evSBAS_1C => ("SBAS.prns", "GNSS-SDR.SBAS_banned_prns", default_sbas_prn)
  | evGAL_1B | evGAL_5X | evGAL_7X | evGAL_E6 => ("Galileo.prns", "GNSS-SDR.Galileo_banned_prns", default_galileo_prn)
  | evGLO_1G | evGLO_2G => ("Glonass.prns", "GNSS-SDR.Glonass_banned_prns", default_glonass_prn)
  | evBDS_B1 | evBDS_B3 => ("Beidou.prns", "GNSS-SDR.Beidou_banned_prns", default_beidou_prn)
  end.

(** The satellites to search for: in ascending order without repetition, the
    configured ones if there are any and the default ones otherwise, less the banned ones;
    an entry of the list of banned satellites that is no number bans nothing. *)
Theorem searched_satellites ev : let '(name, banned, defaults) := prn_entries ev in
  StronglySorted Z.lt (system_prn ev) /\
  forall p, p ∈ system_prn ev <-> p ∈ chosen_prns name defaults /\ p ∉ banned_prns (property_str banned "").
Proof.
  assert (forall ev, StronglySorted Z.lt (prn_entries ev).2) as Hs.
  { intros ev'. by destruct ev'; repeat constructor. }
  destruct ev; cbn [prn_entries system_prn]; apply available_prn_spec;
    first [exact (Hs evGPS_1C)|exact (Hs evSBAS_1C)|exact (Hs evGAL_1B)|exact (Hs evGLO_1G)|exact (Hs evBDS_B1)].
Qed.

End receiver.

(** C6: The channel's state machine implements its transition table: on every command or
    report it takes the one transition that the table has for its phase, makes the calls
    on the blocks in the table's order and sends the table's event, if any; an input
    without an entry changes nothing. The phase is always one of the four. *)
Theorem channel_fsm_refines d_repeat i f q p : phase_of (state_ f) = Some p ->
  let '(f', q') := fsm_input_step d_repeat i f q in
  (exists p' cs ev, fsm_trans d_repeat p i p' cs ev /\ phase_of (state_ f') = Some p' /\
     f' = call cs (set_state (state_ f') f) /\
     q' = q ++ (match ev with Some e => [Channel_Event (channel_ f) e] | None => [] end)) \/
  ((forall p' cs ev, ~ fsm_trans d_repeat p i p' cs ev) /\ f' = f /\ q' = q).
Proof.
  intros Hp. destruct i as [| |m].
  - by apply fsm_command_step; [|left].
  - by apply fsm_command_step; [|right].
  - by apply fsm_report_step.
Qed.

(** ** Witnesses *)

Definition loop : input := I_loop [].

Lemma receiver_never_crashes_witness : exists ct0, @start_receiver demo = Some ct0 /\
  exists ct, @receiver_run demo [I_report 0 1; loop; I_command 300 10; loop; loop] ct0 = Some ct.
Proof.
  destruct (@receiver_never_crashes demo demo_enough) as (ct0 & Hs & Hr). exists ct0. split; [exact Hs|]. apply Hr.
  do 2 (constructor; [exact I|]). constructor; [vm_compute; do 2 right; left|]. do 2 (constructor; [exact I|]). constructor.
Defined.

(** The state of a run, to be taken where it is known to exist. *)
Definition demo_state (inputs : list input) : ControlThread :=
  match demo_start inputs with
  | Some ct => ct
  | None => {| flowgraph_ := @init demo; control_queue_ := []; receiver_on_standby_ := false; stop_ := false;
               restart_ := false; processed_control_messages_ := 0; applied_actions_ := 0; pvt_calls := [] |}
  end.

Lemma demo_started : @start_receiver demo = Some (demo_state []).
Proof. by vm_compute. Qed.

Lemma demo_state_reachable inputs : 
  Forall (fun i => match i with I_command _ _ | I_assist _ => False | _ => True end) inputs ->
  bool_decide (is_Some (demo_start inputs)) = true -> @reachable demo (demo_state inputs).
Proof.
  intros Hi Hb. apply bool_decide_eq_true_1 in Hb as [ct Hct]. unfold demo_state. rewrite Hct. unfold demo_start in Hct.
  rewrite demo_started in Hct. cbn [mbind option_bind] in Hct.
  eapply demo_reachable; [|exact Hi|exact Hct]. apply (@R_start demo). exact demo_started.
Qed.

Lemma no_satellite_lost_witness : let ct := demo_state [I_report 0 1; loop; I_report 0 3; loop] in
  ("GPS", 1, 0) ∈ @shared_signals demo evGPS_1C /\
  (("GPS", 1, 0) ∈ pool_keys evGPS_1C (signals (flowgraph_ ct)) \/
  exists i ch st, channels_ (flowgraph_ ct) !! i = Some ch /\ channels_state_ (flowgraph_ ct) !! i = Some st /\
    @configured_kinds demo !! i = Some evGPS_1C /\ @free demo i = true /\ st <> 0 /\
    sig_key (gnss_signal_ ch) = ("GPS", 1, 0)).
Proof.
  assert (("GPS", 1, 0) ∈ @shared_signals demo evGPS_1C) as Hin.
  { apply (bool_decide_eq_true_1 _). vm_compute. reflexivity. }
  split; [exact Hin|].
  apply (@no_satellite_lost demo (demo_state []) [I_report 0 1; loop; I_report 0 3; loop]).
  - exact demo_enough.
  - exact demo_started.
  - repeat constructor.
  - vm_compute. reflexivity.
  - discriminate.
  - exact Hin.
Defined.

Lemma channels_agree_witness : let ct := demo_state [I_report 0 1; loop; I_report 0 3] in
  receiver_on_standby_ ct = false /\ acq_channels_count_ (flowgraph_ ct) = acquiring (channels_state_ (flowgraph_ ct)).
Proof.
  intros ct. assert (receiver_on_standby_ ct = false) as Hsb by (vm_compute; reflexivity). split; [exact Hsb|].
  pose proof (@channels_agree demo ct) as Ha. rewrite Hsb in Ha. apply Ha.
  - vm_compute. discriminate.
  - exact demo_enough.
  - apply demo_state_reachable; [repeat constructor|vm_compute; reflexivity].
Defined.

(** Standby, then a hot start. *)
Definition standby_run : list input := [I_command 300 10; loop; I_command 300 12; loop; loop].

Lemma standby_run_reachable n : (n <= 4)%nat -> @reachable demo (demo_state (take n standby_run)).
Proof.
  assert (forall i l l', @reachable demo (demo_state l) -> paced i (demo_state l) ->
    @receiver_step demo i (demo_state l) = Some (demo_state l') -> @reachable demo (demo_state l')) as Hstep.
  { intros i l l' Hr Hp Heq. exact (@R_step demo i _ _ Hr Hp Heq). }
  assert (forall ty, ty = 10 \/ ty = 12 -> known_command 300 ty) as Hk.
  { intros ty Hty. unfold known_command. apply (bool_decide_eq_true_1 _). by destruct Hty as [-> | ->]. }
  induction n as [|n IH]; intros Hn; [apply (@R_start demo); exact demo_started|]. specialize (IH ltac:(lia)).
  destruct n as [|[|[|[|n]]]]; [| | | |lia].
  - apply (Hstep (I_command 300 10) [] _ IH); [|vm_compute; reflexivity]. split; [auto|by vm_compute; constructor].
  - apply (Hstep loop (take 1 standby_run) _ IH); [exact I|vm_compute; reflexivity].
  - apply (Hstep (I_command 300 12) (take 2 standby_run) _ IH); [|vm_compute; reflexivity]. split; [auto|by vm_compute; constructor].
  - apply (Hstep loop (take 3 standby_run) _ IH); [exact I|vm_compute; reflexivity].
Qed.

Lemma exclusive_use_witness : @exclusive (@configured_kinds demo) (flowgraph_ (demo_state (take 2 standby_run))) /\
  (@exclusive (@configured_kinds demo) (flowgraph_ (demo_state (take 4 standby_run))) ->
   @exclusive (@configured_kinds demo) (flowgraph_ (demo_state standby_run))).
Proof.
  split.
  - apply (@exclusive_use demo).
    + vm_compute. discriminate.
    + exact demo_enough.
    + exact demo_distinct.
    + exact demo_free.
    + apply standby_run_reachable. lia.
    + vm_compute. reflexivity.
  - apply (@exclusive_use demo) with (i := loop) (ct := demo_state (take 4 standby_run)).
    + vm_compute. discriminate.
    + exact demo_enough.
    + exact demo_distinct.
    + exact demo_free.
    + apply standby_run_reachable. lia.
    + exact I.
    + vm_compute. reflexivity.
Defined.

Lemma work_conserved_witness : exists ct',
  @receiver_run demo (replicate 2 loop) (demo_state [I_report 0 1]) = Some ct' /\ control_queue_ ct' = [].
Proof.
  destruct (@work_conserved demo [] (demo_state [I_report 0 1])) as (ct' & Hr & Hq & _).
  - vm_compute. discriminate.
  - exact demo_enough.
  - vm_compute. reflexivity.
  - apply demo_state_reachable; [repeat constructor|vm_compute; reflexivity].
  - vm_compute. repeat constructor.
  - vm_compute. reflexivity.
  - vm_compute. reflexivity.
  - exists ct'. split; [exact Hr|exact Hq].
Defined.

(** Satellites 1 and 3 visible, 3 higher: 1 is moved to the front last. *)
Lemma priorities_order_witness :
  pool_keys evGPS_1C (signals (priorize_satellites
    [(70, make_satellite "GPS" 3); (10, make_satellite "GPS" 1)] (@init demo))) =
  [("GPS", 1, 0); ("GPS", 3, 0); ("GPS", 2, 0)].
Proof.
  rewrite (priorities_order evGPS_1C).
  - vm_compute. reflexivity.
  - left. reflexivity.
  - apply (bool_decide_eq_true_1 _). vm_compute. reflexivity.
  - apply (bool_decide_eq_true_1 _). vm_compute. reflexivity.
Defined.

Lemma channel_fsm_refines_witness : let f := {| channel_ := 4; state_ := 1; calls := [] |} in
  phase_of (state_ f) = Some Acquisition /\
  let '(f', q') := fsm_input_step false (In_report 1) f [] in
  (exists p' cs ev, fsm_trans false Acquisition (In_report 1) p' cs ev /\ phase_of (state_ f') = Some p' /\
     f' = call cs (set_state (state_ f') f) /\
     q' = [] ++ (match ev with Some e => [Channel_Event 4 e] | None => [] end)) \/
  ((forall p' cs ev, ~ fsm_trans false Acquisition (In_report 1) p' cs ev) /\ f' = f /\ q' = []).
Proof.
  split; [reflexivity|].
  apply (channel_fsm_refines false (In_report 1) {| channel_ := 4; state_ := 1; calls := [] |} [] Acquisition). reflexivity.
Defined.

(** ** What the conditions are for *)

(** With as many channels as satellites the receiver can end up in [front()] of an empty
    list: one channel finds and loses the only satellite, and then fails to find it
    again; when the control thread looks for the next satellite, the list is empty,
    since the satellite goes back to it only afterwards. *)
Theorem too_few_satellites : let config := gps_receiver 1 [1] in
  (ct ← @start_receiver config;
   @receiver_run config [I_report 0 1; loop; I_report 0 3; loop; I_report 0 2] ct) ≫= @receiver_step config loop = None /\
  is_Some (ct ← @start_receiver config;
           @receiver_run config [I_report 0 1; loop; I_report 0 3; loop; I_report 0 2] ct).
Proof. split; [by vm_compute|]. vm_compute. by eexists. Qed.

(** After the initial assignment the satellites of the channels are still on the lists,
    so that two channels can come to track the same one: here the second channel does not
    find satellites 2 and 3 and is then given satellite 1, which the first is searching for. *)
Theorem same_satellite_twice : let ct := demo_state
    [I_report 1 2; loop; I_report 1 2; loop; I_report 0 1; I_report 1 1; loop; loop] in
  @reachable demo ct /\ channels_state_ (flowgraph_ ct) = [2; 2] /\
  (PRN ∘ satellite ∘ gnss_signal_ <$> channels_ (flowgraph_ ct)) = [1; 1] /\
  (state_ ∘ channel_fsm_ <$> channels_ (flowgraph_ ct)) = [2; 2].
Proof.
  split; [|by vm_compute]. apply demo_state_reachable; [repeat constructor|by vm_compute].
Qed.

(** Two commands in the queue at once, with an event of a channel behind them, leave the
    channel wedged: the standby request has stopped it, the event then makes the control
    thread believe that it tracks; further reports of its blocks and iterations of the loop
    leave it so. *)
Theorem wedged_channel :
  let ct := demo_state [I_command 300 10; I_command 300 12; I_report 0 1; loop; loop; loop] in
  let ct' := demo_state ([I_command 300 10; I_command 300 12; I_report 0 1; loop; loop; loop] ++
                         [I_report 0 1; I_report 0 2; I_report 0 3; loop; loop]) in
  channels_state_ (flowgraph_ ct) !! 0%nat = Some 2 /\
  (state_ ∘ channel_fsm_ <$> channels_ (flowgraph_ ct) !! 0%nat) = Some 0 /\
  control_queue_ ct = [] /\ receiver_on_standby_ ct = false /\
  channels_state_ (flowgraph_ ct') !! 0%nat = Some 2 /\
  channels_ (flowgraph_ ct') !! 0%nat = channels_ (flowgraph_ ct) !! 0%nat.
Proof. by vm_compute. Qed.
