(* ===== verification/GpsNav.v ===== *)
(** * GPS L1 C/A navigation message

    [core/system_parameters/gps_navigation_message.cc]: the fields of the five subframes, with
    the field positions and scale factors of [GPS_L1_CA.h] (module [GPS_L1_CA]). The members of
    [Gps_Navigation_Message] are grouped by the subframe that sets them.

    A subframe arrives as ten words of 32 bits in an array of 40 bytes, the lowest byte of each
    first as on the processors that the receiver runs on; each word holds the 30 bits of the
    message and, above them, the last two bits of the word before. *)
From stdpp Require Import gmap strings.
From S2P Require Import Prelude GnssSignal Doubles NavBits.

#[local] Open Scope Z_scope.

Module GPS_L1_CA.
Definition GPS_CA_PREAMBLE_LENGTH_BITS : Z := 8.
Definition GPS_L1_CA_BIT_PERIOD_MS : Z := 20.
Definition GPS_WORD_LENGTH : Z := 4.
Definition GPS_SUBFRAME_LENGTH : Z := 40.
Definition GPS_SUBFRAME_BITS : Z := 300.
Definition GPS_WORD_BITS : Z := 30.
(** ["10001011"] *)
Definition GPS_CA_PREAMBLE : list bool := [true; false; false; false; true; false; true; true].

Definition TOW : slices := [(31, 17)].
Definition INTEGRITY_STATUS_FLAG : slices := [(23, 1)].
Definition ALERT_FLAG : slices := [(48, 1)].
Definition ANTI_SPOOFING_FLAG : slices := [(49, 1)].
Definition SUBFRAME_ID : slices := [(50, 3)].
Definition GPS_WEEK : slices := [(61, 10)].
Definition CA_OR_P_ON_L2 : slices := [(71, 2)].
Definition SV_ACCURACY : slices := [(73, 4)].
Definition SV_HEALTH : slices := [(77, 6)].
Definition L2_P_DATA_FLAG : slices := [(91, 1)].
Definition T_GD : slices := [(197, 8)].
Definition T_GD_LSB : double := TWO_N31.
Definition IODC : slices := [(83, 2); (211, 8)].
Definition T_OC : slices := [(219, 16)].
Definition T_OC_LSB : Z := 16.
Definition A_F2 : slices := [(241, 8)].
Definition A_F2_LSB : double := TWO_N55.
Definition A_F1 : slices := [(249, 16)].
Definition A_F1_LSB : double := TWO_N43.
Definition A_F0 : slices := [(271, 22)].
Definition A_F0_LSB : double := TWO_N31.
Definition IODE_SF2 : slices := [(61, 8)].
Definition C_RS : slices := [(69, 16)].
Definition C_RS_LSB : double := TWO_N5.
Definition DELTA_N : slices := [(91, 16)].
Definition DELTA_N_LSB : double := PI_TWO_N43.
Definition M_0 : slices := [(107, 8); (121, 24)].
Definition M_0_LSB : double := PI_TWO_N31.
Definition C_UC : slices := [(151, 16)].
Definition C_UC_LSB : double := TWO_N29.
Definition ECCENTRICITY : slices := [(167, 8); (181, 24)].
Definition ECCENTRICITY_LSB : double := TWO_N33.
Definition C_US : slices := [(211, 16)].
Definition C_US_LSB : double := TWO_N29.
Definition SQRT_A : slices := [(227, 8); (241, 24)].
Definition SQRT_A_LSB : double := TWO_N19.
Definition T_OE : slices := [(271, 16)].
Definition T_OE_LSB : Z := 16.
Definition FIT_INTERVAL_FLAG : slices := [(271, 1)].
Definition AODO : slices := [(272, 5)].
Definition AODO_LSB : Z := 900.
Definition C_IC : slices := [(61, 16)].
Definition C_IC_LSB : double := TWO_N29.
Definition OMEGA_0 : slices := [(77, 8); (91, 24)].
Definition OMEGA_0_LSB : double := PI_TWO_N31.
Definition C_IS : slices := [(121, 16)].
Definition C_IS_LSB : double := TWO_N29.
Definition I_0 : slices := [(137, 8); (151, 24)].
Definition I_0_LSB : double := PI_TWO_N31.
Definition C_RC : slices := [(181, 16)].
Definition C_RC_LSB : double := TWO_N5.
Definition OMEGA : slices := [(197, 8); (211, 24)].
Definition OMEGA_LSB : double := PI_TWO_N31.
Definition OMEGA_DOT : slices := [(241, 24)].
Definition OMEGA_DOT_LSB : double := PI_TWO_N43.
Definition IODE_SF3 : slices := [(271, 8)].
Definition I_DOT : slices := [(279, 14)].
Definition I_DOT_LSB : double := PI_TWO_N43.
Definition SV_DATA_ID : slices := [(61, 2)].
Definition SV_PAGE : slices := [(63, 6)].
Definition ALPHA_0 : slices := [(69, 8)].
Definition ALPHA_0_LSB : double := TWO_N30.
Definition ALPHA_1 : slices := [(77, 8)].
Definition ALPHA_1_LSB : double := TWO_N27.
Definition ALPHA_2 : slices := [(91, 8)].
Definition ALPHA_2_LSB : double := TWO_N24.
Definition ALPHA_3 : slices := [(99, 8)].
Definition ALPHA_3_LSB : double := TWO_N24.
Definition BETA_0 : slices := [(107, 8)].
Definition BETA_0_LSB : double := TWO_P11.
Definition BETA_1 : slices := [(121, 8)].
Definition BETA_1_LSB : double := TWO_P14.
Definition BETA_2 : slices := [(129, 8)].
Definition BETA_2_LSB : double := TWO_P16.
Definition BETA_3 : slices := [(137, 8)].
Definition BETA_3_LSB : double := TWO_P16.
Definition A_1 : slices := [(151, 24)].
Definition A_1_LSB : double := TWO_N50.
Definition A_0 : slices := [(181, 24); (211, 8)].
Definition A_0_LSB : double := TWO_N30.
Definition T_OT : slices := [(219, 8)].
Definition T_OT_LSB : double := TWO_P12.
Definition WN_T : slices := [(227, 8)].
Definition DELTAT_LS : slices := [(241, 8)].
Definition WN_LSF : slices := [(249, 8)].
Definition DN : slices := [(257, 8)].
Definition DELTAT_LSF : slices := [(271, 8)].
Definition HEALTH_SV25 : slices := [(229, 6)].
Definition HEALTH_SV26 : slices := [(241, 6)].
Definition HEALTH_SV27 : slices := [(247, 6)].
Definition HEALTH_SV28 : slices := [(253, 6)].
Definition HEALTH_SV29 : slices := [(259, 6)].
Definition HEALTH_SV30 : slices := [(271, 6)].
Definition HEALTH_SV31 : slices := [(277, 6)].
Definition HEALTH_SV32 : slices := [(283, 6)].
Definition T_OA : slices := [(69, 8)].
Definition T_OA_LSB : Z := 4096.
Definition WN_A : slices := [(77, 8)].
Definition HEALTH_SV1 : slices := [(91, 6)].
Definition HEALTH_SV2 : slices := [(97, 6)].
Definition HEALTH_SV3 : slices := [(103, 6)].
Definition HEALTH_SV4 : slices := [(109, 6)].
Definition HEALTH_SV5 : slices := [(121, 6)].
Definition HEALTH_SV6 : slices := [(127, 6)].
Definition HEALTH_SV7 : slices := [(133, 6)].
Definition HEALTH_SV8 : slices := [(139, 6)].
Definition HEALTH_SV9 : slices := [(151, 6)].
Definition HEALTH_SV10 : slices := [(157, 6)].
Definition HEALTH_SV11 : slices := [(163, 6)].
Definition HEALTH_SV12 : slices := [(169, 6)].
Definition HEALTH_SV13 : slices := [(181, 6)].
Definition HEALTH_SV14 : slices := [(187, 6)].
Definition HEALTH_SV15 : slices := [(193, 6)].
Definition HEALTH_SV16 : slices := [(199, 6)].
Definition HEALTH_SV17 : slices := [(211, 6)].
Definition HEALTH_SV18 : slices := [(217, 6)].
Definition HEALTH_SV19 : slices := [(223, 6)].
Definition HEALTH_SV20 : slices := [(229, 6)].
Definition HEALTH_SV21 : slices := [(241, 6)].
Definition HEALTH_SV22 : slices := [(247, 6)].
Definition HEALTH_SV23 : slices := [(253, 6)].
Definition HEALTH_SV24 : slices := [(259, 6)].
End GPS_L1_CA.

(** ** The classes that hold the parameters *)

Module Gps_Ephemeris.
Record ephemeris := {
  PRN : Z; tow : Z; Crs : double; delta_n : double; M_0 : double; Cuc : double; ecc : double; Cus : double; sqrtA : double;
  toe : Z; toc : Z; Cic : double; OMEGA_0 : double; Cis : double; i_0 : double; Crc : double; omega : double; OMEGAdot : double;
  idot : double; code_on_L2 : Z; WN : Z; L2_P_data_flag : bool; SV_accuracy : Z; SV_health : Z; TGD : double; IODC : Z;
  IODE_SF2 : Z; IODE_SF3 : Z; AODO : Z; fit_interval_flag : bool; af0 : double; af1 : double; af2 : double;
  integrity_status_flag : bool; alert_flag : bool; antispoofing_flag : bool }.
End Gps_Ephemeris.

Module Gps_Iono.
Record iono := { alpha0 : double; alpha1 : double; alpha2 : double; alpha3 : double; beta0 : double; beta1 : double; beta2 : double;
  beta3 : double; valid : bool }.
End Gps_Iono.

Module Gps_Utc_Model.
Record utc_model := { A0 : double; A1 : double; tot : Z; WN_T : Z; DeltaT_LS : Z; WN_LSF : Z; DN : Z; DeltaT_LSF : Z; valid : bool }.
End Gps_Utc_Model.

(** ** The state *)

(** The members set by every subframe, by subframes 1, 2 and 3, and by page 18 of
    subframe 4. *)
Record how_data := { b_integrity_status_flag : bool; b_alert_flag : bool; b_antispoofing_flag : bool }.

Record sf1_data := { d_TOW_SF1 : Z; i_GPS_week : Z; i_SV_accuracy : Z; i_SV_health : Z; b_L2_P_data_flag : bool; i_code_on_L2 : Z;
  d_TGD : double; d_IODC : Z; d_Toc : Z; d_A_f0 : double; d_A_f1 : double; d_A_f2 : double }.

Record sf2_data := { d_TOW_SF2 : Z; d_IODE_SF2 : Z; d_Crs : double; d_Delta_n : double; d_M_0 : double; d_Cuc : double;
  d_e_eccentricity : double; d_Cus : double; d_sqrt_A : double; d_Toe : Z; b_fit_interval_flag : bool; i_AODO : Z }.

Record sf3_data := { d_TOW_SF3 : Z; d_Cic : double; d_OMEGA0 : double; d_Cis : double; d_i_0 : double; d_Crc : double;
  d_OMEGA : double; d_OMEGA_DOT : double; d_IODE_SF3 : Z; d_IDOT : double }.

Record page18_data := { d_alpha0 : double; d_alpha1 : double; d_alpha2 : double; d_alpha3 : double; d_beta0 : double;
  d_beta1 : double; d_beta2 : double; d_beta3 : double; d_A1 : double; d_A0 : double; d_t_OT : Z; i_WN_T : Z; d_DeltaT_LS : Z;
  i_WN_LSF : Z; i_DN : Z; d_DeltaT_LSF : Z }.

(** Subframe 4, subframe 5, and what the subframes do not set. *)
Record sf4_data := { d_TOW_SF4 : Z; page18 : page18_data; flag_iono_valid : bool; flag_utc_model_valid : bool }.

Record sf5_data := { d_TOW_SF5 : Z; i_Toa : Z; i_WN_A : Z }.

Record ident_data := { satelliteBlock : gmap Z string; b_valid_ephemeris_set_flag : bool; i_satellite_PRN : Z; i_channel_ID : Z }.

Record Gps_Navigation_Message := { d_TOW : Z; how : how_data; sf1 : sf1_data; sf2 : sf2_data; sf3 : sf3_data; sf4 : sf4_data;
  sf5 : sf5_data; almanacHealth : gmap Z Z; ident : ident_data }.

(** The constructor; all other members are zero. *)
Definition Gps_Navigation_Message_init : Gps_Navigation_Message :=
  let z := dbl_zero in
  {| d_TOW := 0; how := {| b_integrity_status_flag := false; b_alert_flag := false; b_antispoofing_flag := false |};
     sf1 := {| d_TOW_SF1 := 0; i_GPS_week := 0; i_SV_accuracy := 0; i_SV_health := 0; b_L2_P_data_flag := false; i_code_on_L2 := 0;
       d_TGD := z; d_IODC := 0; d_Toc := 0; d_A_f0 := z; d_A_f1 := z; d_A_f2 := z |};
     sf2 := {| d_TOW_SF2 := 0; d_IODE_SF2 := 0; d_Crs := z; d_Delta_n := z; d_M_0 := z; d_Cuc := z; d_e_eccentricity := z; d_Cus := z;
       d_sqrt_A := z; d_Toe := 0; b_fit_interval_flag := false; i_AODO := 0 |};
     sf3 := {| d_TOW_SF3 := 0; d_Cic := z; d_OMEGA0 := z; d_Cis := z; d_i_0 := z; d_Crc := z; d_OMEGA := z; d_OMEGA_DOT := z;
       d_IODE_SF3 := 0; d_IDOT := z |};
     sf4 := {| d_TOW_SF4 := 0; flag_iono_valid := false; flag_utc_model_valid := false;
       page18 := {| d_alpha0 := z; d_alpha1 := z; d_alpha2 := z; d_alpha3 := z; d_beta0 := z; d_beta1 := z; d_beta2 := z; d_beta3 := z;
         d_A1 := z; d_A0 := z; d_t_OT := 0; i_WN_T := 0; d_DeltaT_LS := 0; i_WN_LSF := 0; i_DN := 0; d_DeltaT_LSF := 0 |} |};
     sf5 := {| d_TOW_SF5 := 0; i_Toa := 0; i_WN_A := 0 |};
     almanacHealth := list_to_map ((fun i => (i, 0)) <$> seqZ 1 32);
     ident := {| satelliteBlock := list_to_map ((fun i => (i, fst (what_block "GPS" i 0))) <$> seqZ 1 32);
       b_valid_ephemeris_set_flag := false; i_satellite_PRN := 0; i_channel_ID := 0 |} |}.

(** Assignments to the flags of subframe 4 and to the members that no subframe sets. *)
Definition with_sf4_flags (iono utc : bool) (nav : Gps_Navigation_Message) : Gps_Navigation_Message :=
  {| d_TOW := d_TOW nav; how := how nav; sf1 := sf1 nav; sf2 := sf2 nav; sf3 := sf3 nav; sf5 := sf5 nav;
     almanacHealth := almanacHealth nav; ident := ident nav;
     sf4 := {| d_TOW_SF4 := d_TOW_SF4 (sf4 nav); page18 := page18 (sf4 nav); flag_iono_valid := iono; flag_utc_model_valid := utc |} |}.

Definition with_ident (valid : bool) (prn channel_id : Z) (nav : Gps_Navigation_Message) : Gps_Navigation_Message :=
  {| d_TOW := d_TOW nav; how := how nav; sf1 := sf1 nav; sf2 := sf2 nav; sf3 := sf3 nav; sf4 := sf4 nav; sf5 := sf5 nav;
     almanacHealth := almanacHealth nav;
     ident := {| satelliteBlock := satelliteBlock (ident nav); b_valid_ephemeris_set_flag := valid; i_satellite_PRN := prn;
       i_channel_ID := channel_id |} |}.

Definition set_satellite_PRN (prn : Z) (nav : Gps_Navigation_Message) : Gps_Navigation_Message :=
  with_ident (b_valid_ephemeris_set_flag (ident nav)) prn (i_channel_ID (ident nav)) nav.

Definition set_channel (channel_id : Z) (nav : Gps_Navigation_Message) : Gps_Navigation_Message :=
  with_ident (b_valid_ephemeris_set_flag (ident nav)) (i_satellite_PRN (ident nav)) channel_id nav.

(** ** The subframe decoder *)

Section Fields.
Import GPS_L1_CA.
Context (bits : list bool).

(** [static_cast<int32_t>(read_navigation_unsigned(bits, parameter))], and the same for a
    signed field. *)
Definition uint (parameter : slices) : option Z := i32 <$> read_navigation_unsigned GPS_SUBFRAME_BITS bits parameter.
Definition sint (parameter : slices) : option Z := i32 <$> read_navigation_signed GPS_SUBFRAME_BITS bits parameter.

(** [static_cast<double>(...) * LSB]. *)
Definition udbl (parameter : slices) (LSB : double) : option double :=
  (fun v => dbl_mul (dbl_of_Z v) LSB) <$> read_navigation_unsigned GPS_SUBFRAME_BITS bits parameter.
Definition sdbl (parameter : slices) (LSB : double) : option double :=
  (fun v => dbl_mul (dbl_of_Z v) LSB) <$> read_navigation_signed GPS_SUBFRAME_BITS bits parameter.
Definition flag (parameter : slices) : option bool := read_navigation_bool GPS_SUBFRAME_BITS bits parameter.

(** The first lines of each case: the time of week, in seconds, and the three flags. *)
Definition read_how : option (Z * how_data) :=
  tow ← uint TOW;
  a ← flag INTEGRITY_STATUS_FLAG; b ← flag ALERT_FLAG; c ← flag ANTI_SPOOFING_FLAG;
  Some (i32 (tow * 6), {| b_integrity_status_flag := a; b_alert_flag := b; b_antispoofing_flag := c |}).

Definition read_sf1 (tow : Z) : option sf1_data :=
  week ← uint GPS_WEEK; acc ← uint SV_ACCURACY; health ← uint SV_HEALTH; l2p ← flag L2_P_DATA_FLAG; code ← uint CA_OR_P_ON_L2;
  tgd ← sdbl T_GD T_GD_LSB; iodc ← uint IODC; toc ← uint T_OC;
  af0 ← sdbl A_F0 A_F0_LSB; af1 ← sdbl A_F1 A_F1_LSB; af2 ← sdbl A_F2 A_F2_LSB;
  Some {| d_TOW_SF1 := tow; i_GPS_week := week; i_SV_accuracy := acc; i_SV_health := health; b_L2_P_data_flag := l2p;
    i_code_on_L2 := code; d_TGD := tgd; d_IODC := iodc; d_Toc := i32 (toc * T_OC_LSB); d_A_f0 := af0; d_A_f1 := af1; d_A_f2 := af2 |}.

Definition read_sf2 (tow : Z) : option sf2_data :=
  iode ← uint IODE_SF2; crs ← sdbl C_RS C_RS_LSB; dn ← sdbl DELTA_N DELTA_N_LSB; m0 ← sdbl M_0 M_0_LSB; cuc ← sdbl C_UC C_UC_LSB;
  ecc ← udbl ECCENTRICITY ECCENTRICITY_LSB; cus ← sdbl C_US C_US_LSB; sqa ← udbl SQRT_A SQRT_A_LSB; toe ← uint T_OE;
  fit ← flag FIT_INTERVAL_FLAG; aodo ← uint AODO;
  Some {| d_TOW_SF2 := tow; d_IODE_SF2 := iode; d_Crs := crs; d_Delta_n := dn; d_M_0 := m0; d_Cuc := cuc; d_e_eccentricity := ecc;
    d_Cus := cus; d_sqrt_A := sqa; d_Toe := i32 (toe * T_OE_LSB); b_fit_interval_flag := fit; i_AODO := i32 (aodo * AODO_LSB) |}.

Definition read_sf3 (tow : Z) : option sf3_data :=
  cic ← sdbl C_IC C_IC_LSB; om0 ← sdbl OMEGA_0 OMEGA_0_LSB; cis ← sdbl C_IS C_IS_LSB; i0 ← sdbl I_0 I_0_LSB; crc ← sdbl C_RC C_RC_LSB;
  om ← sdbl OMEGA OMEGA_LSB; omd ← sdbl OMEGA_DOT OMEGA_DOT_LSB; iode ← uint IODE_SF3; idot ← sdbl I_DOT I_DOT_LSB;
  Some {| d_TOW_SF3 := tow; d_Cic := cic; d_OMEGA0 := om0; d_Cis := cis; d_i_0 := i0; d_Crc := crc; d_OMEGA := om;
    d_OMEGA_DOT := omd; d_IODE_SF3 := iode; d_IDOT := idot |}.

(** The product [d_t_OT * T_OT_LSB] is taken in [double] and converted back. *)
Definition read_page18 : option page18_data :=
  a0 ← sdbl ALPHA_0 ALPHA_0_LSB; a1 ← sdbl ALPHA_1 ALPHA_1_LSB; a2 ← sdbl ALPHA_2 ALPHA_2_LSB; a3 ← sdbl ALPHA_3 ALPHA_3_LSB;
  b0 ← sdbl BETA_0 BETA_0_LSB; b1 ← sdbl BETA_1 BETA_1_LSB; b2 ← sdbl BETA_2 BETA_2_LSB; b3 ← sdbl BETA_3 BETA_3_LSB;
  p1 ← sdbl A_1 A_1_LSB; p0 ← sdbl A_0 A_0_LSB; tot ← uint T_OT; tot1 ← Z_of_dbl (dbl_mul (dbl_of_Z tot) T_OT_LSB);
  wnt ← uint WN_T; ls ← sint DELTAT_LS; wnlsf ← uint WN_LSF; dn ← uint DN; lsf ← sint DELTAT_LSF;
  Some {| d_alpha0 := a0; d_alpha1 := a1; d_alpha2 := a2; d_alpha3 := a3; d_beta0 := b0; d_beta1 := b1; d_beta2 := b2; d_beta3 := b3;
    d_A1 := p1; d_A0 := p0; d_t_OT := tot1; i_WN_T := wnt; d_DeltaT_LS := ls; i_WN_LSF := wnlsf; i_DN := dn; d_DeltaT_LSF := lsf |}.

(** [almanacHealth[i] = ...] for the listed satellites. *)
Fixpoint read_health (sv : list (Z * slices)) (health : gmap Z Z) : option (gmap Z Z) :=
  match sv with
  | [] => Some health
  | (i, parameter) :: sv' => h ← uint parameter; read_health sv' (<[i := h]> health)
  end.

Definition health_25_32 : list (Z * slices) :=
  [(25, HEALTH_SV25); (26, HEALTH_SV26); (27, HEALTH_SV27); (28, HEALTH_SV28); (29, HEALTH_SV29); (30, HEALTH_SV30);
   (31, HEALTH_SV31); (32, HEALTH_SV32)].

Definition health_1_24 : list (Z * slices) :=
  [(1, HEALTH_SV1); (2, HEALTH_SV2); (3, HEALTH_SV3); (4, HEALTH_SV4); (5, HEALTH_SV5); (6, HEALTH_SV6); (7, HEALTH_SV7);
   (8, HEALTH_SV8); (9, HEALTH_SV9); (10, HEALTH_SV10); (11, HEALTH_SV11); (12, HEALTH_SV12); (13, HEALTH_SV13);
   (14, HEALTH_SV14); (15, HEALTH_SV15); (16, HEALTH_SV16); (17, HEALTH_SV17); (18, HEALTH_SV18); (19, HEALTH_SV19);
   (20, HEALTH_SV20); (21, HEALTH_SV21); (22, HEALTH_SV22); (23, HEALTH_SV23); (24, HEALTH_SV24)].

(** The [switch] on the subframe. *)
Definition decode_fields (nav : Gps_Navigation_Message) : option (Z * Gps_Navigation_Message) :=
  subframe_ID ← uint SUBFRAME_ID;
  match subframe_ID with
  | 1 =>
      '(tow, h) ← read_how; s ← read_sf1 tow;
      Some (subframe_ID, {| d_TOW := tow; how := h; sf1 := s; sf2 := sf2 nav; sf3 := sf3 nav; sf4 := sf4 nav; sf5 := sf5 nav;
        almanacHealth := almanacHealth nav; ident := ident nav |})
  | 2 =>
      '(tow, h) ← read_how; s ← read_sf2 tow;
      Some (subframe_ID, {| d_TOW := tow; how := h; sf1 := sf1 nav; sf2 := s; sf3 := sf3 nav; sf4 := sf4 nav; sf5 := sf5 nav;
        almanacHealth := almanacHealth nav; ident := ident nav |})
  | 3 =>
      '(tow, h) ← read_how; s ← read_sf3 tow;
      Some (subframe_ID, {| d_TOW := tow; how := h; sf1 := sf1 nav; sf2 := sf2 nav; sf3 := s; sf4 := sf4 nav; sf5 := sf5 nav;
        almanacHealth := almanacHealth nav; ident := ident nav |})
  | 4 =>
      '(tow, h) ← read_how; SV_page ← uint SV_PAGE;
      p ← (if SV_page =? 56 then read_page18 else Some (page18 (sf4 nav)));
      health ← (if SV_page =? 63 then read_health health_25_32 (almanacHealth nav) else Some (almanacHealth nav));
      Some (subframe_ID, {| d_TOW := tow; how := h; sf1 := sf1 nav; sf2 := sf2 nav; sf3 := sf3 nav; sf5 := sf5 nav;
        sf4 := {| d_TOW_SF4 := tow; page18 := p; flag_iono_valid := if SV_page =? 56 then true else flag_iono_valid (sf4 nav);
          flag_utc_model_valid := if SV_page =? 56 then true else flag_utc_model_valid (sf4 nav) |};
        almanacHealth := health; ident := ident nav |})
  | 5 =>
      '(tow, h) ← read_how; SV_page_5 ← uint SV_PAGE;
      toa ← (if SV_page_5 =? 51 then v ← uint T_OA; Some (i32 (v * T_OA_LSB)) else Some (i_Toa (sf5 nav)));
      wna ← (if SV_page_5 =? 51 then uint WN_A else Some (i_WN_A (sf5 nav)));
      health ← (if SV_page_5 =? 51 then read_health health_1_24 (almanacHealth nav) else Some (almanacHealth nav));
      Some (subframe_ID, {| d_TOW := tow; how := h; sf1 := sf1 nav; sf2 := sf2 nav; sf3 := sf3 nav; sf4 := sf4 nav;
        sf5 := {| d_TOW_SF5 := tow; i_Toa := toa; i_WN_A := wna |}; almanacHealth := health; ident := ident nav |})
  | _ => Some (subframe_ID, nav)
  end.

End Fields.

(** [memcpy] between a word of 32 bits and four bytes. *)
Definition word_bytes (w : Z) : list Z := [u8 w; u8 (Z.shiftr w 8); u8 (Z.shiftr w 16); u8 (Z.shiftr w 24)].

Definition bytes_word (subframe : list Z) (i : Z) : option Z :=
  b0 ← rd subframe i; b1 ← rd subframe (i + 1); b2 ← rd subframe (i + 2); b3 ← rd subframe (i + 3);
  Some (b0 + b1 * 2 ^ 8 + b2 * 2 ^ 16 + b3 * 2 ^ 24).

(** The ten words into one bit set, without the two bits from the word before. *)
Definition unpack_bits (subframe : list Z) : option (list bool) :=
  for_loop 10 0 (fun i bits =>
    gps_word ← bytes_word subframe (i * 4);
    for_loop 30 0 (fun j bits => wr bits (GPS_L1_CA.GPS_WORD_BITS * (9 - i) + j) (Z.testbit gps_word j)) bits)
    (replicate 300 false).

Definition subframe_decoder (subframe : list Z) (nav : Gps_Navigation_Message) : option (Z * Gps_Navigation_Message) :=
  subframe_bits ← unpack_bits subframe;
  decode_fields subframe_bits nav.

(** ** Results *)

(** The members of the ephemeris that the message does not set are left out. *)
Definition get_ephemeris (nav : Gps_Navigation_Message) : Gps_Ephemeris.ephemeris :=
  {| Gps_Ephemeris.PRN := i_satellite_PRN (ident nav); Gps_Ephemeris.tow := d_TOW nav; Gps_Ephemeris.Crs := d_Crs (sf2 nav);
     Gps_Ephemeris.delta_n := d_Delta_n (sf2 nav); Gps_Ephemeris.M_0 := d_M_0 (sf2 nav); Gps_Ephemeris.Cuc := d_Cuc (sf2 nav);
     Gps_Ephemeris.ecc := d_e_eccentricity (sf2 nav); Gps_Ephemeris.Cus := d_Cus (sf2 nav); Gps_Ephemeris.sqrtA := d_sqrt_A (sf2 nav);
     Gps_Ephemeris.toe := d_Toe (sf2 nav); Gps_Ephemeris.toc := d_Toc (sf1 nav); Gps_Ephemeris.Cic := d_Cic (sf3 nav);
     Gps_Ephemeris.OMEGA_0 := d_OMEGA0 (sf3 nav); Gps_Ephemeris.Cis := d_Cis (sf3 nav); Gps_Ephemeris.i_0 := d_i_0 (sf3 nav);
     Gps_Ephemeris.Crc := d_Crc (sf3 nav); Gps_Ephemeris.omega := d_OMEGA (sf3 nav); Gps_Ephemeris.OMEGAdot := d_OMEGA_DOT (sf3 nav);
     Gps_Ephemeris.idot := d_IDOT (sf3 nav); Gps_Ephemeris.code_on_L2 := i_code_on_L2 (sf1 nav); Gps_Ephemeris.WN := i_GPS_week (sf1 nav);
     Gps_Ephemeris.L2_P_data_flag := b_L2_P_data_flag (sf1 nav); Gps_Ephemeris.SV_accuracy := i_SV_accuracy (sf1 nav);
     Gps_Ephemeris.SV_health := i_SV_health (sf1 nav); Gps_Ephemeris.TGD := d_TGD (sf1 nav); Gps_Ephemeris.IODC := d_IODC (sf1 nav);
     Gps_Ephemeris.IODE_SF2 := d_IODE_SF2 (sf2 nav); Gps_Ephemeris.IODE_SF3 := d_IODE_SF3 (sf3 nav); Gps_Ephemeris.AODO := i_AODO (sf2 nav);
     Gps_Ephemeris.fit_interval_flag := b_fit_interval_flag (sf2 nav); Gps_Ephemeris.af0 := d_A_f0 (sf1 nav);
     Gps_Ephemeris.af1 := d_A_f1 (sf1 nav); Gps_Ephemeris.af2 := d_A_f2 (sf1 nav);
     Gps_Ephemeris.integrity_status_flag := b_integrity_status_flag (how nav); Gps_Ephemeris.alert_flag := b_alert_flag (how nav);
     Gps_Ephemeris.antispoofing_flag := b_antispoofing_flag (how nav) |}.

(** The two getters of subframe 4 clear their flag. *)
Definition get_iono (nav : Gps_Navigation_Message) : Gps_Iono.iono * Gps_Navigation_Message :=
  let p := page18 (sf4 nav) in
  ({| Gps_Iono.alpha0 := d_alpha0 p; Gps_Iono.alpha1 := d_alpha1 p; Gps_Iono.alpha2 := d_alpha2 p; Gps_Iono.alpha3 := d_alpha3 p;
      Gps_Iono.beta0 := d_beta0 p; Gps_Iono.beta1 := d_beta1 p; Gps_Iono.beta2 := d_beta2 p; Gps_Iono.beta3 := d_beta3 p;
      Gps_Iono.valid := flag_iono_valid (sf4 nav) |},
   with_sf4_flags false (flag_utc_model_valid (sf4 nav)) nav).

Definition get_utc_model (nav : Gps_Navigation_Message) : Gps_Utc_Model.utc_model * Gps_Navigation_Message :=
  let p := page18 (sf4 nav) in
  ({| Gps_Utc_Model.A0 := d_A0 p; Gps_Utc_Model.A1 := d_A1 p; Gps_Utc_Model.tot := d_t_OT p; Gps_Utc_Model.WN_T := i_WN_T p;
      Gps_Utc_Model.DeltaT_LS := d_DeltaT_LS p; Gps_Utc_Model.WN_LSF := i_WN_LSF p; Gps_Utc_Model.DN := i_DN p;
      Gps_Utc_Model.DeltaT_LSF := d_DeltaT_LSF p; Gps_Utc_Model.valid := flag_utc_model_valid (sf4 nav) |},
   with_sf4_flags (flag_iono_valid (sf4 nav)) false nav).

Definition satellite_validation (nav : Gps_Navigation_Message) : bool * Gps_Navigation_Message :=
  let valid :=
    negb (d_TOW_SF1 (sf1 nav) =? 0) && negb (d_TOW_SF2 (sf2 nav) =? 0) && negb (d_TOW_SF3 (sf3 nav) =? 0) &&
    (d_IODE_SF2 (sf2 nav) =? d_IODE_SF3 (sf3 nav)) && (d_IODC (sf1 nav) =? d_IODE_SF2 (sf2 nav)) && negb (d_IODC (sf1 nav) =? -1) in
  (valid, with_ident valid (i_satellite_PRN (ident nav)) (i_channel_ID (ident nav)) nav).

(** ** The words as one string of bits *)

Lemma bytes_word_at ws i w : ws !! i = Some w -> 0 <= w < 2 ^ 32 ->
  bytes_word (mbind word_bytes ws) (Z.of_nat i * 4) = Some w.
Proof.
  intros Hi Hw. assert (forall j, 0 <= j < 4 -> rd (mbind word_bytes ws) (Z.of_nat i * 4 + j) = word_bytes w !! Z.to_nat j) as Hr.
  { intros j Hj. replace (Z.of_nat i * 4 + j) with (Z.of_nat (4 * i + Z.to_nat j)) by lia. rewrite rd_nat.
    apply (lookup_mbind word_bytes 4); [done|done|lia]. }
  pose proof (Hr 0) as H0. rewrite Z.add_0_r in H0. unfold bytes_word.
  rewrite H0, (Hr 1), (Hr 2), (Hr 3) by lia.
  change (Some (u8 w + u8 (Z.shiftr w 8) * 2 ^ 8 + u8 (Z.shiftr w 16) * 2 ^ 16 + u8 (Z.shiftr w 24) * 2 ^ 24) = Some w).
  f_equal. unfold uwrap. rewrite !Z.shiftr_div_pow2 by lia.
  change (2 ^ 8) with 256. change (2 ^ 16) with (256 * 256). change (2 ^ 24) with (256 * 256 * 256).
  rewrite <- !Zdiv_Zdiv by lia.
  assert (0 <= w / 256 / 256 / 256 < 256).
  { split; [repeat apply Z.div_pos; lia|]. repeat (apply Z.div_lt_upper_bound; [lia|]). lia. }
  pose proof (Z.div_mod w 256 ltac:(lia)). pose proof (Z.div_mod (w / 256) 256 ltac:(lia)).
  pose proof (Z.div_mod (w / 256 / 256) 256 ltac:(lia)). pose proof (Z.mod_small (w / 256 / 256 / 256) 256 ltac:(done)). lia.
Qed.

(** A loop that writes [n] bits from [base] on. *)
Lemma write_bits n base (f : Z -> bool) (l : list bool) :
  0 <= base -> base + Z.of_nat n <= Z.of_nat (length l) ->
  for_loop n 0 (fun j bits => wr bits (base + j) (f j)) l = Some (splice l (Z.to_nat base) (f <$> seqZ 0 (Z.of_nat n))).
Proof.
  intros Hb Hl.
  destruct (for_loop_inv (fun j l' => 0 <= j <= Z.of_nat n /\ l' = splice l (Z.to_nat base) (f <$> seqZ 0 j)) n 0
    (fun j bits => wr bits (base + j) (f j)) l) as (s & -> & _ & ->); [| |done].
  - split; [lia|]. change (f <$> seqZ 0 0) with (@nil bool). by rewrite splice_nil.
  - intros j l' Hj [Hj' ->]. pose proof (length_splice l (Z.to_nat base) (f <$> seqZ 0 j)) as Hls.
    rewrite length_fmap, length_seqZ in Hls. rewrite wr_in by lia. eexists. split; [done|]. split; [lia|].
    apply list_eq. intros k. rewrite (seqZ_app _ j 1), fmap_app by lia.
    rewrite (lookup_splice _ _ (_ ++ _)) by (rewrite length_app, !length_fmap, !length_seqZ; lia).
    rewrite length_app, !length_fmap, !length_seqZ. destruct (decide (k = Z.to_nat (base + j))) as [->|Hk].
    + rewrite list_lookup_insert_eq by lia. rewrite decide_True by lia.
      rewrite lookup_app_r by (rewrite length_fmap, length_seqZ; lia). rewrite length_fmap, length_seqZ.
      replace (Z.to_nat (base + j) - Z.to_nat base - Z.to_nat j)%nat with 0%nat by lia. cbn. done.
    + rewrite list_lookup_insert_ne by lia. rewrite lookup_splice by (rewrite length_fmap, length_seqZ; lia).
      rewrite length_fmap, length_seqZ. repeat case_decide; try lia; [|done].
      rewrite lookup_app_l by (rewrite length_fmap, length_seqZ; lia). done.
Qed.

Lemma seqZ_bits w : reverse ((fun j => Z.testbit w j) <$> seqZ 0 30) = val_bits 30 w.
Proof. reflexivity. Qed.

(** The bits of ten words in the order of reception. *)
Definition words_message (ws : list Z) : list bool := mbind (val_bits 30) ws.

Lemma words_message_length ws : length (words_message ws) = (30 * length ws)%nat.
Proof. apply length_mbind. intros x. apply length_val_bits. Qed.

Lemma unpack_bits_words ws : length ws = 10%nat -> Forall (fun w => 0 <= w < 2 ^ 32) ws ->
  unpack_bits (mbind word_bytes ws) = Some (reverse (words_message ws)).
Proof.
  intros Hl Hw. unfold unpack_bits, GPS_L1_CA.GPS_WORD_BITS.
  destruct (for_loop_inv (fun i l => 0 <= i <= 10 /\ l = replicate (300 - 30 * Z.to_nat i) false ++ reverse (words_message (take (Z.to_nat i) ws)))
    10 0 (fun i bits => gps_word ← bytes_word (mbind word_bytes ws) (i * 4);
       for_loop 30 0 (fun j bits => wr bits (30 * (9 - i) + j) (Z.testbit gps_word j)) bits) (replicate 300 false)) as (s & -> & _ & ->).
  - split; [lia|]. done.
  - intros i l Hi [_ ->]. destruct (lookup_lt_is_Some_2 ws (Z.to_nat i)) as [w Hwi]; [lia|].
    pose proof (bytes_word_at ws (Z.to_nat i) w Hwi (Forall_lookup_1 _ _ _ _ Hw Hwi)) as Hb. rewrite Z2Nat.id in Hb by lia.
    rewrite Hb. cbn [mbind option_bind]. pose proof (words_message_length (take (Z.to_nat i) ws)) as Hwl.
    rewrite length_take, Nat.min_l in Hwl by lia.
    rewrite write_bits by (rewrite ?length_app, ?length_replicate, ?length_reverse; lia). eexists. split; [done|]. split; [lia|].
    replace (Z.to_nat (i + 1)) with (S (Z.to_nat i)) by lia. rewrite (take_S_r _ _ _ Hwi).
    unfold words_message at 2. rewrite bind_app, reverse_app. cbn [mbind list_bind]. rewrite app_nil_r, <- seqZ_bits, reverse_involutive.
    unfold splice. rewrite length_fmap, length_seqZ.
    replace (300 - 30 * Z.to_nat i)%nat with ((300 - 30 * S (Z.to_nat i)) + 30)%nat by lia.
    replace (Z.to_nat (30 * (9 - i))) with (300 - 30 * S (Z.to_nat i))%nat by lia.
    rewrite replicate_add, <- !app_assoc, take_app_length' by (by rewrite length_replicate).
    rewrite drop_app_add' by (by rewrite length_replicate). by rewrite drop_app_length' by done.
  - by rewrite take_ge by lia.
Qed.

(** ** Readers on messages *)

Lemma t_ot_spec v : 0 <= v < 2 ^ 31 -> Z_of_dbl (dbl_mul (dbl_of_Z v) GPS_L1_CA.T_OT_LSB) = Some (v * 2 ^ 12).
Proof.
  intros Hv. apply Z_of_dbl_value; [|lia|lia]. change GPS_L1_CA.T_OT_LSB with TWO_P12. pose proof literals_exact as (_ & _ & -> & _).
  apply scaled_value; lia.
Qed.

Section Message.
Import GPS_L1_CA.
Context (m : list bool) (Hm : Z.of_nat (length m) = 300).

Lemma uint_spec p : field_ok 300 31 p = true -> uint (reverse m) p = Some (bits_val (field m p)).
Proof.
  intros Hp. unfold field_ok in Hp. apply andb_true_iff in Hp as [[Hi Hw]%andb_true_iff Hn]. apply Z.leb_le in Hw.
  unfold uint. rewrite (read_unsigned_field 300); [|done|unfold field_ok; rewrite Hi, Hn, (proj2 (Z.leb_le _ _)) by lia; done].
  cbn. f_equal. apply swrap_small; [|lia]. pose proof (bits_val_range (field m p)) as Hr. rewrite (field_length 300) in Hr by done.
  pose proof (Z.pow_le_mono_r 2 (slices_width p) 31 ltac:(lia) Hw). change (32 - 1) with 31. lia.
Qed.

Lemma sint_spec p : field_ok 300 32 p = true -> sint (reverse m) p = Some (signed_val (field m p)).
Proof.
  intros Hp. unfold field_ok in Hp. apply andb_true_iff in Hp as [[Hi Hw]%andb_true_iff Hn]. apply Z.leb_le in Hw.
  unfold sint. rewrite (read_signed_field 300); [|done|unfold field_ok; rewrite Hi, Hn, (proj2 (Z.leb_le _ _)) by lia; done].
  cbn. f_equal. pose proof (field_length 300 m p Hm Hi) as Hl.
  destruct (decide (field m p = [])) as [->|Hne]; [done|]. pose proof (signed_val_range _ Hne) as Hr. rewrite Hl in Hr.
  apply swrap_small; [|lia]. pose proof (Z.pow_le_mono_r 2 (slices_width p - 1) (32 - 1) ltac:(lia) ltac:(lia)). lia.
Qed.

Lemma sdbl_spec p lsb : field_ok 300 62 p = true -> sdbl (reverse m) p lsb = Some (dbl_mul (dbl_of_Z (signed_val (field m p))) lsb).
Proof. intros Hp. unfold sdbl. by rewrite (read_signed_field 300). Qed.

Lemma udbl_spec p lsb : field_ok 300 64 p = true -> udbl (reverse m) p lsb = Some (dbl_mul (dbl_of_Z (bits_val (field m p))) lsb).
Proof. intros Hp. unfold udbl. by rewrite (read_unsigned_field 300). Qed.

(** A flag is the first bit of its field. *)
Definition flag_val (p : slices) : bool := match field m p with b :: _ => b | [] => false end.

Lemma flag_spec p : field_ok 300 64 p = true -> flag (reverse m) p = Some (flag_val p).
Proof.
  intros Hp. unfold field_ok in Hp. apply andb_true_iff in Hp as [[Hi _]%andb_true_iff Hn].
  destruct p as [|[first n] p]; [done|]. cbn [slices_in forallb] in Hi. apply andb_true_iff in Hi as [Hi _]. cbn in Hi.
  unfold flag. rewrite (read_bool_field GPS_SUBFRAME_BITS) by (unfold GPS_SUBFRAME_BITS; lia).
  destruct (lookup_lt_is_Some_2 m (Z.to_nat (first - 1))) as [b Hb]; [lia|]. rewrite Hb. unfold flag_val. rewrite field_cons, (drop_S _ _ _ Hb).
  destruct (Z.to_nat n) eqn:E; [lia|]. done.
Qed.

Fixpoint health_val (sv : list (Z * slices)) (health : gmap Z Z) : gmap Z Z :=
  match sv with
  | [] => health
  | (i, p) :: sv' => health_val sv' (<[i := bits_val (field m p)]> health)
  end.

Lemma read_health_spec sv health : forallb (fun q : Z * slices => field_ok 300 31 q.2) sv = true ->
  read_health (reverse m) sv health = Some (health_val sv health).
Proof.
  revert health. induction sv as [|[i p] sv IH]; intros health H; [done|]. cbn [forallb] in H. apply andb_true_iff in H as [Hp H].
  cbn [read_health health_val]. rewrite uint_spec by done. cbn [mbind option_bind]. by apply IH.
Qed.
End Message.

(** [reads] evaluates the readers of fixed fields. *)
Ltac reads := repeat first
  [ rewrite uint_spec by done | rewrite sint_spec by done | rewrite sdbl_spec by done | rewrite udbl_spec by done
  | rewrite flag_spec by done | rewrite read_health_spec by done ]; cbn [mbind option_bind].

(** The five subframes, and everything else. *)
Lemma subframe_cases id : id = 1 \/ id = 2 \/ id = 3 \/ id = 4 \/ id = 5 \/
  (~ 1 <= id <= 5 /\ forall A (a b c d e x : A), match id with 1 => a | 2 => b | 3 => c | 4 => d | 5 => e | _ => x end = x).
Proof.
  destruct (decide (1 <= id <= 5)); [lia|]. do 5 right. split; [done|]. intros. destruct id as [|p|p]; [done| |done].
  destruct p as [[p|[p|p|]|]|[p|[p|p|]|]|]; try done; lia.
Qed.

(** Every subframe is decoded, whatever its bits. *)
Lemma decode_fields_total m nav : Z.of_nat (length m) = 300 -> is_Some (decode_fields (reverse m) nav).
Proof.
  intros Hm. unfold decode_fields. reads.
  assert (is_Some (read_page18 (reverse m))) as [p18 Hp18].
  { unfold read_page18. reads. pose proof (bits_val_range (field m GPS_L1_CA.T_OT)) as Hr.
    rewrite (field_length 300) in Hr by done. change (slices_width _) with 8 in Hr. rewrite t_ot_spec by lia. cbn. eauto. }
  generalize (bits_val (field m GPS_L1_CA.SUBFRAME_ID)) as id. intros id.
  destruct (subframe_cases id) as [->|[->|[->|[->|[->|[Hid Hc]]]]]]; [..|rewrite Hc; eauto].
  - unfold read_how, read_sf1. reads. eauto.
  - unfold read_how, read_sf2. reads. eauto.
  - unfold read_how, read_sf3. reads. eauto.
  - unfold read_how. reads. rewrite Hp18. generalize (bits_val (field m GPS_L1_CA.SV_PAGE)) as page. intros page.
    destruct (page =? 56), (page =? 63); cbn [mbind option_bind]; eauto.
  - unfold read_how. reads. generalize (bits_val (field m GPS_L1_CA.SV_PAGE)) as page. intros page.
    destruct (page =? 51); cbn [mbind option_bind]; eauto.
Qed.

(** The bits 25 to 30 of each word are its parity. *)
Definition data_bit (k : Z) : bool := k mod 30 <? 24.

Section SameData.
Import GPS_L1_CA.
Context (m m' : list bool) (Hm : Z.of_nat (length m) = 300) (Hm' : Z.of_nat (length m') = 300).
Context (Hd : forall k : nat, data_bit (Z.of_nat k) = true -> m !! k = m' !! k).

(** A field outside the parity bits. *)
Definition data_field (p : slices) : bool := field_ok 300 31 p && field_within data_bit p || field_ok 300 32 p && field_within data_bit p.

Lemma same_field p : data_field p = true -> field m p = field m' p /\ field_ok 300 62 p = true.
Proof.
  intros Hp. assert (field_ok 300 32 p = true /\ field_within data_bit p = true) as [Ho Hw].
  { unfold data_field, field_ok in *. repeat match goal with H : _ || _ = true |- _ => apply orb_true_iff in H as [H|H] end;
      apply andb_true_iff in Hp as [[[? Hl]%andb_true_iff ?]%andb_true_iff ?]; apply Z.leb_le in Hl; split; [|done| |done];
      rewrite !andb_true_iff, Z.leb_le; repeat split; try done; lia. }
  unfold field_ok in Ho. apply andb_true_iff in Ho as [[Hi Hl]%andb_true_iff Hn]. split; [by apply (field_ext data_bit 300)|].
  unfold field_ok. rewrite Hi, Hn, !andb_true_r. cbn. apply Z.leb_le in Hl. apply Z.leb_le. lia.
Qed.

Lemma same_unsigned p : data_field p = true ->
  read_navigation_unsigned GPS_SUBFRAME_BITS (reverse m) p = read_navigation_unsigned GPS_SUBFRAME_BITS (reverse m') p.
Proof.
  intros Hp. destruct (same_field p Hp) as [He Ho]. assert (field_ok 300 64 p = true).
  { unfold field_ok in *. apply andb_true_iff in Ho as [[Hi Hl]%andb_true_iff Hn]. rewrite Hi, Hn, !andb_true_r. cbn. apply Z.leb_le in Hl. apply Z.leb_le. lia. }
  unfold GPS_SUBFRAME_BITS. by rewrite !read_unsigned_field, He.
Qed.

Lemma same_signed p : data_field p = true ->
  read_navigation_signed GPS_SUBFRAME_BITS (reverse m) p = read_navigation_signed GPS_SUBFRAME_BITS (reverse m') p.
Proof. intros Hp. destruct (same_field p Hp) as [He Ho]. unfold GPS_SUBFRAME_BITS. by rewrite !read_signed_field, He. Qed.

Lemma same_flag p : data_field p = true -> flag (reverse m) p = flag (reverse m') p.
Proof.
  intros Hp. destruct (same_field p Hp) as [He Ho]. assert (field_ok 300 64 p = true).
  { unfold field_ok in *. apply andb_true_iff in Ho as [[Hi Hl]%andb_true_iff Hn]. rewrite Hi, Hn, !andb_true_r. cbn. apply Z.leb_le in Hl. apply Z.leb_le. lia. }
  rewrite !flag_spec by done. unfold flag_val. by rewrite He.
Qed.

Lemma same_uint p : data_field p = true -> uint (reverse m) p = uint (reverse m') p.
Proof. intros Hp. unfold uint. by rewrite same_unsigned. Qed.
Lemma same_sint p : data_field p = true -> sint (reverse m) p = sint (reverse m') p.
Proof. intros Hp. unfold sint. by rewrite same_signed. Qed.
Lemma same_udbl p lsb : data_field p = true -> udbl (reverse m) p lsb = udbl (reverse m') p lsb.
Proof. intros Hp. unfold udbl. by rewrite same_unsigned. Qed.
Lemma same_sdbl p lsb : data_field p = true -> sdbl (reverse m) p lsb = sdbl (reverse m') p lsb.
Proof. intros Hp. unfold sdbl. by rewrite same_signed. Qed.

Lemma same_health sv health : forallb (fun q : Z * slices => data_field q.2) sv = true ->
  read_health (reverse m) sv health = read_health (reverse m') sv health.
Proof.
  revert health. induction sv as [|[i p] sv IH]; intros health H; [done|]. cbn [forallb] in H. apply andb_true_iff in H as [Hp H].
  cbn [read_health]. rewrite same_uint by done. destruct (uint (reverse m') p); [|done]. cbn [mbind option_bind]. by apply IH.
Qed.

(** The decoder reads the data bits only. *)
Lemma decode_fields_data nav : decode_fields (reverse m) nav = decode_fields (reverse m') nav.
Proof.
  assert (read_how (reverse m) = read_how (reverse m')) as Hh by (unfold read_how; by rewrite same_uint, !same_flag by done).
  assert (forall t, read_sf1 (reverse m) t = read_sf1 (reverse m') t) as H1
    by (intros t; unfold read_sf1; by rewrite !same_uint, !same_flag, !same_sdbl by done).
  assert (forall t, read_sf2 (reverse m) t = read_sf2 (reverse m') t) as H2
    by (intros t; unfold read_sf2; by rewrite !same_uint, !same_flag, !same_sdbl, !same_udbl by done).
  assert (forall t, read_sf3 (reverse m) t = read_sf3 (reverse m') t) as H3
    by (intros t; unfold read_sf3; by rewrite !same_uint, !same_sdbl by done).
  assert (read_page18 (reverse m) = read_page18 (reverse m')) as H18
    by (unfold read_page18; by rewrite !same_uint, !same_sint, !same_sdbl by done).
  unfold decode_fields. rewrite !same_uint, !same_health, Hh, H18 by done.
  destruct (uint (reverse m') SUBFRAME_ID) as [id|]; [|done]. cbn [mbind option_bind].
  destruct (read_how (reverse m')) as [[t h]|]; [|done]. cbn [mbind option_bind]. by rewrite H1, H2, H3.
Qed.
End SameData.
