(* ===== verification/GpsTlm.v ===== *)
(** * GPS L1 C/A telemetry decoder

    [algorithms/telemetry_decoder/gnuradio_blocks/gps_l1_ca_telemetry_decoder_gs.cc]: the block
    that takes the symbols of one satellite from tracking, looks for subframes, checks the
    parity of their words, has them decoded by [Gps_Navigation_Message] and adds the time of
    week to every symbol. One call of [general_work] takes one symbol; it is a step on the
    record of the members. What the block publishes ([message_port_pub]) is a list of
    messages, and the [Gnss_Synchro] that it passes on is the last component.

    [decode_subframe], [reset] and [general_work] run in the block's thread or under its
    mutex. The dump file is left out. *)
From S2P Require Import Prelude Linear GnssSignal Doubles NavBits GpsNav.

#[local] Open Scope Z_scope.

(** What one symbol carries between the blocks, as far as the decoder reads or writes it. *)
Record Gnss_Synchro := { Prompt_I : double; Carrier_phase_rads : double; TOW_at_current_symbol_ms : Z; Flag_valid_word : bool }.

Inductive tlm_msg :=
| pub_ephemeris (e : Gps_Ephemeris.ephemeris)
| pub_iono (i : Gps_Iono.iono)
| pub_utc (u : Gps_Utc_Model.utc_model)
| pub_to_trk (message : Z).

Record gps_l1_ca_telemetry_decoder := {
  d_nav : Gps_Navigation_Message; d_satellite : Gnss_Satellite;
  d_symbol_history : list float;
  d_sample_counter : Z; d_preamble_index : Z; d_last_valid_preamble : Z;
  d_CRC_error_counter : Z; d_channel : Z; d_prev_GPS_frame_4bytes : Z; d_stat : Z;
  d_TOW_at_Preamble_ms : Z; d_TOW_at_current_symbol_ms : Z;
  d_flag_frame_sync : bool; d_flag_preamble : bool; d_sent_tlm_failed_msg : bool;
  d_flag_PLL_180_deg_phase_locked : bool; d_flag_TOW_set : bool }.

(** Members that the constructor sets once. *)
Definition d_samples_per_preamble : Z := GPS_L1_CA.GPS_CA_PREAMBLE_LENGTH_BITS.
Definition d_preamble_period_symbols : Z := GPS_L1_CA.GPS_SUBFRAME_BITS.
Definition d_required_symbols : Z := GPS_L1_CA.GPS_SUBFRAME_BITS.
Definition d_max_symbols_without_valid_frame : Z := d_required_symbols * 20.
Definition d_preamble_samples : list Z := (fun b : bool => if b then 1 else -1) <$> GPS_L1_CA.GPS_CA_PREAMBLE.

Definition gps_l1_ca_telemetry_decoder_init (satellite : Gnss_Satellite) : gps_l1_ca_telemetry_decoder :=
  {| d_nav := Gps_Navigation_Message_init; d_satellite := make_satellite (system satellite) (PRN satellite); d_symbol_history := [];
     d_sample_counter := 0; d_preamble_index := 0; d_last_valid_preamble := 0; d_CRC_error_counter := 0; d_channel := 0;
     d_prev_GPS_frame_4bytes := 0; d_stat := 0; d_TOW_at_Preamble_ms := 0; d_TOW_at_current_symbol_ms := 0;
     d_flag_frame_sync := false; d_flag_preamble := false; d_sent_tlm_failed_msg := false;
     d_flag_PLL_180_deg_phase_locked := false; d_flag_TOW_set := false |}.

(** ** Parity *)

(** [my_rotl::rotl] *)
Definition rotl (x n : Z) : Z := Z.lxor (u32 (Z.shiftl x n)) (Z.shiftr x (32 - n)).

(** The six parity bits that [gps_word_parityCheck] computes from a word. *)
Definition gps_word_parity (gpsword : Z) : Z :=
  let d1 := Z.land gpsword 0xFBFFBF00 in
  let d2 := Z.land (rotl gpsword 1) 0x07FFBF01 in
  let d3 := Z.land (rotl gpsword 2) 0xFC0F8100 in
  let d4 := Z.land (rotl gpsword 3) 0xF81FFE02 in
  let d5 := Z.land (rotl gpsword 4) 0xFC00000E in
  let d6 := Z.land (rotl gpsword 5) 0x07F00001 in
  let d7 := Z.land (rotl gpsword 6) 0x00003000 in
  let t := Z.lxor (Z.lxor (Z.lxor (Z.lxor (Z.lxor (Z.lxor d1 d2) d3) d4) d5) d6) d7 in
  Z.land (Z.lxor (Z.lxor (Z.lxor (Z.lxor t (rotl t 6)) (rotl t 12)) (rotl t 18)) (rotl t 24)) 0x3F.

Definition gps_word_parityCheck (gpsword : Z) : bool := gps_word_parity gpsword =? Z.land gpsword 0x3F.

(** ** Subframes *)

(** The variables of [decode_subframe]'s loop. *)
Record subframe_acc := { frame_bit_index : Z; word_index : Z; GPS_frame_4bytes : Z; subframe_synchro_confirmation : bool;
  subframe : list Z; prev_4bytes : Z }.

(** A complete word: the last two bits of the word before are put in front, the data bits
    are inverted if the last of them is set. *)
Definition extend_word (prev frame : Z) : Z :=
  let f1 := if Z.testbit prev 0 then Z.lor frame 0x40000000 else frame in
  let f2 := if Z.testbit prev 1 then Z.lor f1 0x80000000 else f1 in
  if Z.testbit f2 30 then Z.lxor f2 0x3FFFFFC0 else f2.

(** [memcpy(&subframe[pos], &word, 4)] *)
Definition store_word (buf : list Z) (pos w : Z) : option (list Z) :=
  if decide (0 <= pos /\ pos + 4 <= Z.of_nat (length buf)) then Some (splice buf (Z.to_nat pos) (word_bytes w)) else None.

Definition decode_symbol (a : subframe_acc) (subframe_symbol : float) : option subframe_acc :=
  let frame := if gt0 subframe_symbol then u32 (GPS_frame_4bytes a + 1) else GPS_frame_4bytes a in
  let index := frame_bit_index a + 1 in
  if index =? 30 then
    let w := extend_word (prev_4bytes a) frame in
    buf ← store_word (subframe a) (word_index a * GPS_L1_CA.GPS_WORD_LENGTH) w;
    Some {| frame_bit_index := 0; word_index := word_index a + 1; GPS_frame_4bytes := 0;
      subframe_synchro_confirmation := if gps_word_parityCheck w then subframe_synchro_confirmation a else false;
      subframe := buf; prev_4bytes := w |}
  else
    Some {| frame_bit_index := index; word_index := word_index a; GPS_frame_4bytes := u32 (Z.shiftl frame 1);
      subframe_synchro_confirmation := subframe_synchro_confirmation a; subframe := subframe a; prev_4bytes := prev_4bytes a |}.

Fixpoint decode_symbols (a : subframe_acc) (history : list float) : option subframe_acc :=
  match history with
  | [] => Some a
  | s :: history' => a' ← decode_symbol a s; decode_symbols a' history'
  end.

(** The messages published for a decoded subframe. *)
Definition publish (subframe_ID : Z) (nav : Gps_Navigation_Message) : list tlm_msg * Gps_Navigation_Message :=
  match subframe_ID with
  | 1 | 2 | 3 =>
      let '(valid, nav1) := satellite_validation nav in
      (if valid then [pub_ephemeris (get_ephemeris nav1)] else [], nav1)
  | 4 =>
      let '(m1, nav1) := if flag_iono_valid (sf4 nav) then let '(i, n) := get_iono nav in ([pub_iono i], n) else ([], nav) in
      let '(m2, nav2) := if flag_utc_model_valid (sf4 nav1) then let '(u, n) := get_utc_model nav1 in ([pub_utc u], n) else ([], nav1) in
      (m1 ++ m2, nav2)
  | _ => ([], nav)
  end.

(** [decode_subframe]: the result, the messages, [d_nav] and [d_prev_GPS_frame_4bytes]. *)
Definition decode_subframe (history : list float) (nav : Gps_Navigation_Message) (prev : Z)
  : option (bool * list tlm_msg * Gps_Navigation_Message * Z) :=
  a ← decode_symbols {| frame_bit_index := 0; word_index := 0; GPS_frame_4bytes := 0; subframe_synchro_confirmation := true;
        subframe := replicate 40 0; prev_4bytes := prev |} history;
  if subframe_synchro_confirmation a then
    '(subframe_ID, nav1) ← subframe_decoder (subframe a) nav;
    if (0 <? subframe_ID) && (subframe_ID <? 6) then
      let '(msgs, nav2) := publish subframe_ID nav1 in Some (true, msgs, nav2, prev_4bytes a)
    else Some (false, [], nav1, prev_4bytes a)
  else Some (false, [], nav, prev_4bytes a).

(** ** Operations of the block *)

Definition set_satellite (satellite : Gnss_Satellite) (st : gps_l1_ca_telemetry_decoder) : gps_l1_ca_telemetry_decoder :=
  let sat := make_satellite (system satellite) (PRN satellite) in
  {| d_nav := set_satellite_PRN (PRN sat) Gps_Navigation_Message_init; d_satellite := sat; d_symbol_history := d_symbol_history st;
     d_sample_counter := d_sample_counter st; d_preamble_index := d_preamble_index st; d_last_valid_preamble := d_last_valid_preamble st;
     d_CRC_error_counter := d_CRC_error_counter st; d_channel := d_channel st; d_prev_GPS_frame_4bytes := d_prev_GPS_frame_4bytes st;
     d_stat := d_stat st; d_TOW_at_Preamble_ms := d_TOW_at_Preamble_ms st; d_TOW_at_current_symbol_ms := d_TOW_at_current_symbol_ms st;
     d_flag_frame_sync := d_flag_frame_sync st; d_flag_preamble := d_flag_preamble st; d_sent_tlm_failed_msg := d_sent_tlm_failed_msg st;
     d_flag_PLL_180_deg_phase_locked := d_flag_PLL_180_deg_phase_locked st; d_flag_TOW_set := d_flag_TOW_set st |}.

Definition set_tlm_channel (channel : Z) (st : gps_l1_ca_telemetry_decoder) : gps_l1_ca_telemetry_decoder :=
  {| d_nav := set_channel channel (d_nav st); d_satellite := d_satellite st; d_symbol_history := d_symbol_history st;
     d_sample_counter := d_sample_counter st; d_preamble_index := d_preamble_index st; d_last_valid_preamble := d_last_valid_preamble st;
     d_CRC_error_counter := d_CRC_error_counter st; d_channel := channel; d_prev_GPS_frame_4bytes := d_prev_GPS_frame_4bytes st;
     d_stat := d_stat st; d_TOW_at_Preamble_ms := d_TOW_at_Preamble_ms st; d_TOW_at_current_symbol_ms := d_TOW_at_current_symbol_ms st;
     d_flag_frame_sync := d_flag_frame_sync st; d_flag_preamble := d_flag_preamble st; d_sent_tlm_failed_msg := d_sent_tlm_failed_msg st;
     d_flag_PLL_180_deg_phase_locked := d_flag_PLL_180_deg_phase_locked st; d_flag_TOW_set := d_flag_TOW_set st |}.

Definition reset (st : gps_l1_ca_telemetry_decoder) : gps_l1_ca_telemetry_decoder :=
  {| d_nav := d_nav st; d_satellite := d_satellite st; d_symbol_history := [];
     d_sample_counter := d_sample_counter st; d_preamble_index := d_preamble_index st; d_last_valid_preamble := d_sample_counter st;
     d_CRC_error_counter := d_CRC_error_counter st; d_channel := d_channel st; d_prev_GPS_frame_4bytes := d_prev_GPS_frame_4bytes st;
     d_stat := 0; d_TOW_at_Preamble_ms := d_TOW_at_Preamble_ms st; d_TOW_at_current_symbol_ms := d_TOW_at_current_symbol_ms st;
     d_flag_frame_sync := d_flag_frame_sync st; d_flag_preamble := d_flag_preamble st; d_sent_tlm_failed_msg := false;
     d_flag_PLL_180_deg_phase_locked := d_flag_PLL_180_deg_phase_locked st; d_flag_TOW_set := false |}.

(** [boost::circular_buffer::push_back]: a full buffer loses its first element. *)
Definition push_back {A} (capacity : Z) (l : list A) (x : A) : list A :=
  if Z.of_nat (length l) <? capacity then l ++ [x] else tail l ++ [x].

(** The correlation of the oldest eight symbols with the preamble. *)
Definition correlate (history : list float) : option Z :=
  for_loop 8 0 (fun i corr_value =>
    s ← rd history i; p ← rd d_preamble_samples i;
    Some (if lt0 s then corr_value - p else corr_value + p)) 0.

(** What the [switch] on [d_stat] changes. *)
Record sync_state := { s_nav : Gps_Navigation_Message; s_prev : Z; s_index : Z; s_last_valid : Z; s_errors : Z; s_stat : Z;
  s_TOW_pre : Z; s_TOW_cur : Z; s_frame_sync : bool; s_preamble : bool; s_pll : bool; s_TOW_set : bool }.

Definition frame_sync (st : gps_l1_ca_telemetry_decoder) (history : list float) (counter : Z) : option (list tlm_msg * sync_state) :=
  let same := {| s_nav := d_nav st; s_prev := d_prev_GPS_frame_4bytes st; s_index := d_preamble_index st;
    s_last_valid := d_last_valid_preamble st; s_errors := d_CRC_error_counter st; s_stat := d_stat st;
    s_TOW_pre := d_TOW_at_Preamble_ms st; s_TOW_cur := d_TOW_at_current_symbol_ms st; s_frame_sync := d_flag_frame_sync st;
    s_preamble := false; s_pll := d_flag_PLL_180_deg_phase_locked st; s_TOW_set := d_flag_TOW_set st |} in
  match d_stat st with
  | 0 =>
      corr_value ← (if GPS_L1_CA.GPS_CA_PREAMBLE_LENGTH_BITS <=? Z.of_nat (length history) then correlate history else Some 0);
      if d_samples_per_preamble <=? Z.abs corr_value then
        '(ok, msgs, nav, prev) ← decode_subframe history (d_nav st) (d_prev_GPS_frame_4bytes st);
        Some (msgs, {| s_nav := nav; s_prev := prev; s_index := counter;
          s_last_valid := if ok : bool then counter else d_last_valid_preamble st;
          s_errors := if ok then 0 else d_CRC_error_counter st; s_stat := if ok then 1 else 0;
          s_TOW_pre := d_TOW_at_Preamble_ms st; s_TOW_cur := d_TOW_at_current_symbol_ms st;
          s_frame_sync := if ok then true else d_flag_frame_sync st; s_preamble := ok; s_pll := corr_value <? 0; s_TOW_set := false |})
      else
        Some ([], {| s_nav := d_nav st; s_prev := d_prev_GPS_frame_4bytes st; s_index := d_preamble_index st;
          s_last_valid := d_last_valid_preamble st; s_errors := d_CRC_error_counter st; s_stat := 0;
          s_TOW_pre := d_TOW_at_Preamble_ms st; s_TOW_cur := d_TOW_at_current_symbol_ms st; s_frame_sync := d_flag_frame_sync st;
          s_preamble := false; s_pll := d_flag_PLL_180_deg_phase_locked st; s_TOW_set := false |})
  | 1 =>
      if u64 (d_preamble_index st + d_preamble_period_symbols) <=? counter then
        '(ok, msgs, nav, prev) ← decode_subframe history (d_nav st) (d_prev_GPS_frame_4bytes st);
        if ok : bool then
          Some (msgs, {| s_nav := nav; s_prev := prev; s_index := counter; s_last_valid := counter; s_errors := 0; s_stat := 1;
            s_TOW_pre := d_TOW_at_Preamble_ms st; s_TOW_cur := d_TOW_at_current_symbol_ms st; s_frame_sync := true;
            s_preamble := true; s_pll := d_flag_PLL_180_deg_phase_locked st; s_TOW_set := d_flag_TOW_set st |})
        else if 2 <? d_CRC_error_counter st + 1 then
          Some (msgs, {| s_nav := nav; s_prev := prev; s_index := counter; s_last_valid := d_last_valid_preamble st; s_errors := 0;
            s_stat := 0; s_TOW_pre := 0; s_TOW_cur := 0; s_frame_sync := false;
            s_preamble := false; s_pll := d_flag_PLL_180_deg_phase_locked st; s_TOW_set := false |})
        else
          Some (msgs, {| s_nav := nav; s_prev := prev; s_index := counter; s_last_valid := d_last_valid_preamble st;
            s_errors := d_CRC_error_counter st + 1; s_stat := 1; s_TOW_pre := d_TOW_at_Preamble_ms st;
            s_TOW_cur := d_TOW_at_current_symbol_ms st; s_frame_sync := d_flag_frame_sync st;
            s_preamble := false; s_pll := d_flag_PLL_180_deg_phase_locked st; s_TOW_set := d_flag_TOW_set st |})
      else Some ([], same)
  | _ => Some ([], same)
  end.

(** [static_cast<uint32_t>(d_nav.get_TOW() * 1000.0)]; a value outside the type is undefined
    behaviour. *)
Definition tow_ms (tow : Z) : option Z :=
  v ← Z_of_dbl (dbl_mul (dbl_of_Z tow) (lit 1000 0));
  if decide (0 <= v < 2 ^ 32) then Some v else None.

(** The time of week of the current symbol: both counters and the flag. *)
Definition update_tow (s : sync_state) : option (Z * Z * bool) :=
  if s_preamble s then
    if negb (d_TOW (s_nav s) =? 0) then t ← tow_ms (d_TOW (s_nav s)); Some (t, t, true)
    else Some (s_TOW_cur s, s_TOW_pre s, s_TOW_set s)
  else if s_TOW_set s then Some (u32 (s_TOW_cur s + GPS_L1_CA.GPS_L1_CA_BIT_PERIOD_MS), s_TOW_pre s, true)
  else Some (s_TOW_cur s, s_TOW_pre s, false).

Definition general_work (st : gps_l1_ca_telemetry_decoder) (current_symbol : Gnss_Synchro)
  : option (gps_l1_ca_telemetry_decoder * list tlm_msg * option Gnss_Synchro) :=
  let history := push_back d_required_symbols (d_symbol_history st) (float_of_double (Prompt_I current_symbol)) in
  let counter := u64 (d_sample_counter st + 1) in
  let failed := (d_stat st <? 2) && negb (d_sent_tlm_failed_msg st) &&
    (d_max_symbols_without_valid_frame <? u64 (counter - d_last_valid_preamble st)) in
  '(msgs, s) ← frame_sync st history counter;
  '(tow_cur, tow_pre, tow_set) ← update_tow s;
  let st1 := {| d_nav := s_nav s; d_satellite := d_satellite st; d_symbol_history := history; d_sample_counter := counter;
    d_preamble_index := s_index s; d_last_valid_preamble := s_last_valid s; d_CRC_error_counter := s_errors s; d_channel := d_channel st;
    d_prev_GPS_frame_4bytes := s_prev s; d_stat := s_stat s; d_TOW_at_Preamble_ms := tow_pre; d_TOW_at_current_symbol_ms := tow_cur;
    d_flag_frame_sync := s_frame_sync s; d_flag_preamble := s_preamble s;
    d_sent_tlm_failed_msg := if failed then true else d_sent_tlm_failed_msg st;
    d_flag_PLL_180_deg_phase_locked := s_pll s; d_flag_TOW_set := tow_set |} in
  Some (st1, (if failed then [pub_to_trk 1] else []) ++ msgs,
    if tow_set : bool then Some {| Prompt_I := Prompt_I current_symbol; TOW_at_current_symbol_ms := tow_cur; Flag_valid_word := true;
      Carrier_phase_rads := if s_pll s then dbl_add (Carrier_phase_rads current_symbol) GNSS_PI else Carrier_phase_rads current_symbol |}
    else None).

(** A run of the block on a sequence of symbols: the messages and outputs in order. *)
Fixpoint run (st : gps_l1_ca_telemetry_decoder) (symbols : list Gnss_Synchro)
  : option (gps_l1_ca_telemetry_decoder * list tlm_msg * list (option Gnss_Synchro)) :=
  match symbols with
  | [] => Some (st, [], [])
  | x :: rest =>
      '(st1, m1, o1) ← general_work st x;
      '(st2, m2, o2) ← run st1 rest;
      Some (st2, m1 ++ m2, o1 :: o2)
  end.
