(* ===== verification/GpsTlmProps.v ===== *)
(** * The GPS L1 C/A telemetry decoder: what it promises

    The transmitter of IS-GPS-200 (words of 24 source bits, six parity bits that also cover the
    last two bits of the word before, data bits inverted after a set last bit) and what the
    decoder makes of its symbols. *)
From S2P Require Import Prelude Linear GnssSignal Doubles NavBits GpsNav GpsTlm.

#[local] Open Scope Z_scope.

(** ** Parity *)

(** IS-GPS-200, table 20-XIV: the source bits in each of the parity bits D25 to D30. Bits -1
    and 0 are D29* and D30*, the last two of the word before; bit [k] of the document is bit
    [30 - k] of a word. *)
Definition icd_equations : list (list Z) :=
  [[-1; 1; 2; 3; 5; 6; 10; 11; 12; 13; 14; 17; 18; 20; 23];
   [0; 2; 3; 4; 6; 7; 11; 12; 13; 14; 15; 18; 19; 21; 24];
   [-1; 1; 3; 4; 5; 7; 8; 12; 13; 14; 15; 16; 19; 20; 22];
   [0; 2; 4; 5; 6; 8; 9; 13; 14; 15; 16; 17; 20; 21; 23];
   [0; 1; 3; 5; 6; 7; 9; 10; 14; 15; 16; 17; 18; 21; 22; 24];
   [-1; 3; 5; 6; 8; 9; 10; 11; 13; 15; 19; 22; 23; 24]].

Definition equation (l : list Z) (w : Z) : Z := foldr (fun k acc => Z.lxor (Z.b2z (Z.testbit w (30 - k))) acc) 0 l.

(** D25 to D30, most significant first. *)
Fixpoint equations (ls : list (list Z)) (w : Z) : Z :=
  match ls with
  | [] => 0
  | l :: ls' => Z.lxor (Z.shiftl (equation l w) (Z.of_nat (length ls'))) (equations ls' w)
  end.

Definition icd_parity (w : Z) : Z := equations icd_equations w.

Lemma linear_zero : linear (fun _ => 0).
Proof. done. Qed.

Lemma linear_equation l : linear (equation l).
Proof. induction l as [|k l IH]; [apply linear_zero|]. apply (linear_lxor _ (equation l)); [apply linear_bit|done]. Qed.

Lemma linear_equations ls : linear (equations ls).
Proof.
  induction ls as [|l ls IH]; [apply linear_zero|]. apply (linear_lxor _ (equations ls)); [|done].
  apply (linear_shiftl (equation l)), linear_equation.
Qed.

Lemma linear_rotl f n : linear f -> linear (fun w => rotl (f w) n).
Proof. intros Hf. unfold rotl. auto 10 with linear. Qed.
#[export] Hint Resolve linear_rotl linear_zero : linear.

Lemma linear_word_parity : linear gps_word_parity.
Proof. unfold gps_word_parity. cbv zeta. auto 20 with linear. Qed.

(** The parallel computation is the table of the document. *)
Lemma word_parity_icd w : 0 <= w < 2 ^ 32 -> gps_word_parity w = icd_parity w.
Proof. apply (linear_ext 32); [apply linear_word_parity|apply linear_equations|by vm_compute]. Qed.

(** ** The transmitter *)

(** D29*, D30* and the 24 source bits [d] in their places. *)
Definition source_word (prev d : Z) : Z := Z.lxor (Z.shiftl (Z.land prev 3) 30) (Z.shiftl d 6).

(** The 30 bits that are transmitted for [d] after the word [prev]. *)
Definition icd_word (prev d : Z) : Z :=
  Z.lxor (Z.lxor (Z.shiftl d 6) (icd_parity (source_word prev d))) (if Z.testbit prev 0 then 0x3FFFFFC0 else 0).

Fixpoint transmit (prev : Z) (ds : list Z) : list Z :=
  match ds with
  | [] => []
  | d :: ds' => let w := icd_word prev d in w :: transmit w ds'
  end.

(** A word as it arrives when the carrier loop is locked with the phase inverted or not. *)
Definition arrives (inverted : bool) (w : Z) : Z := if inverted then Z.lxor w 0x3FFFFFFF else w.

Lemma equations_range ls w : 0 <= equations ls w < 2 ^ Z.of_nat (length ls).
Proof.
  assert (forall l, 0 <= equation l w < 2 ^ 1) as He.
  { induction l as [|k l IH]; [cbn; lia|]. apply (lxor_range 1); [destruct (Z.testbit w (30 - k)); cbn; lia|done]. }
  induction ls as [|l ls IH]; [cbn; lia|]. cbn [equations length]. specialize (He l).
  apply lxor_range.
  - rewrite Z.shiftl_mul_pow2, Nat2Z.inj_succ, Z.pow_succ_r by lia. nia.
  - rewrite Nat2Z.inj_succ, Z.pow_succ_r by lia. lia.
Qed.

Lemma icd_parity_range w : 0 <= icd_parity w < 2 ^ 6.
Proof. apply (equations_range icd_equations). Qed.

(** The parity covers the bits above it. *)
Lemma icd_parity_low v : 0 <= v < 2 ^ 6 -> icd_parity v = 0.
Proof. apply (linear_ext 6 icd_parity (fun _ => 0)); [apply linear_equations|done|by vm_compute]. Qed.

Lemma source_word_range prev d : 0 <= d < 2 ^ 24 -> 0 <= source_word prev d < 2 ^ 32.
Proof.
  intros Hd. unfold source_word. change 3 with (Z.ones 2). rewrite Z.land_ones by lia. pose proof (Z.mod_pos_bound prev (2 ^ 2) ltac:(lia)).
  apply lxor_range; rewrite Z.shiftl_mul_pow2 by lia; lia.
Qed.

Lemma icd_word_range prev d : 0 <= d < 2 ^ 24 -> 0 <= icd_word prev d < 2 ^ 30.
Proof.
  intros Hd. unfold icd_word. pose proof (icd_parity_range (source_word prev d)).
  apply lxor_range; [apply lxor_range; [rewrite Z.shiftl_mul_pow2|]; lia|]. destruct (Z.testbit prev 0); lia.
Qed.

Lemma arrives_range i w : 0 <= w < 2 ^ 30 -> 0 <= arrives i w < 2 ^ 30.
Proof. intros. destruct i; [by apply lxor_range|done]. Qed.

(** The last two bits of a word. *)
Lemma land_3 p : Z.land p 3 = Z.b2z (Z.testbit p 0) + 2 * Z.b2z (Z.testbit p 1).
Proof.
  change 3 with (Z.ones 2). rewrite Z.land_ones by lia. pose proof (bits_val_val_bits 2 p) as H. change (Z.of_nat 2) with 2 in H. rewrite <- H. clear H. cbn [val_bits bits_val fold_left].
  change (Z.of_nat 1) with 1. change (Z.of_nat 0) with 0. lia.
Qed.

Lemma lor_high f k : 0 <= f < 2 ^ 30 -> 30 <= k -> Z.lor f (2 ^ k) = Z.lxor f (2 ^ k).
Proof.
  intros Hf Hk. zbits j. rewrite Z.pow2_bits_eqb by lia. destruct (Z.eqb_spec k j) as [<-|]; [|by rewrite orb_false_r, xorb_false_r].
  by rewrite (testbit_above 30) by lia.
Qed.

(** [extend_word] combines the word with what it knows of the one before. *)
Lemma extend_word_lxor prev frame : 0 <= frame < 2 ^ 30 ->
  extend_word prev frame =
  Z.lxor (Z.lxor (Z.shiftl (Z.land prev 3) 30) frame) (if Z.testbit prev 0 then 0x3FFFFFC0 else 0).
Proof.
  intros Hf. rewrite land_3. unfold extend_word. change 0x40000000 with (2 ^ 30). change 0x80000000 with (2 ^ 31).
  assert (Z.testbit frame 30 = false) as H30 by (by apply (testbit_above 30)).
  assert (Z.lor (Z.lxor frame (2 ^ 30)) (2 ^ 31) = Z.lxor (Z.lxor frame (2 ^ 30)) (2 ^ 31)) as H31.
  { zbits j. rewrite (Z.pow2_bits_eqb 31) by lia. destruct (Z.eqb_spec 31 j) as [<-|]; [|by rewrite orb_false_r, xorb_false_r].
    rewrite (testbit_above 30 frame), (Z.pow2_bits_false 30) by lia. done. }
  destruct (Z.testbit prev 0), (Z.testbit prev 1); rewrite ?(lor_high frame), ?H31, ?Z.lxor_spec, ?H30 by lia;
    change (Z.testbit (2 ^ 30) 30) with true; change (Z.testbit (2 ^ 31) 30) with false; cbn [Z.b2z xorb]; rewrite ?Z.lxor_0_r;
    rewrite ?(Z.lxor_comm (Z.shiftl _ _) frame), ?Z.lxor_assoc; try (f_equal; done). symmetry. apply (Z.lxor_0_r frame).
Qed.

Lemma testbit_land_3 p i : 0 <= i < 2 -> Z.testbit p i = Z.testbit (Z.land p 3) i.
Proof.
  intros Hi. rewrite Z.land_spec. replace (Z.testbit 3 i) with true; [by rewrite andb_true_r|].
  assert (i = 0 \/ i = 1) as [->| ->] by lia; done.
Qed.

(** A word that arrives without errors, in either phase, after a word whose last two bits were
    seen in the same phase: the source bits are recovered, and it passes the check. *)
Definition received_word (inverted : bool) (prev d : Z) : Z :=
  Z.lxor (Z.lxor (source_word prev d) (icd_parity (source_word prev d))) (if inverted then 0xC000003F else 0).

Lemma arrives_lxor i w : arrives i w = Z.lxor w (if i then 0x3FFFFFFF else 0).
Proof. destruct i; [done|]. by rewrite Z.lxor_0_r. Qed.

Lemma extend_arrived inverted prev seen d : 0 <= d < 2 ^ 24 ->
  Z.land seen 3 = Z.land (arrives inverted prev) 3 ->
  extend_word seen (arrives inverted (icd_word prev d)) = received_word inverted prev d.
Proof.
  intros Hd Hs. rewrite extend_word_lxor by (by apply arrives_range, icd_word_range).
  rewrite (testbit_land_3 seen 0), Hs, <- testbit_land_3 by lia. unfold received_word, icd_word, source_word.
  set (P := icd_parity _). set (D := Z.shiftl d 6). clearbody P D. rewrite !land_3, !arrives_lxor, !Z.lxor_spec.
  assert (forall s m1 i m2, Z.lxor (Z.lxor s (Z.lxor (Z.lxor (Z.lxor D P) m1) i)) m2 =
    Z.lxor (Z.lxor D P) (Z.lxor (Z.lxor s (Z.lxor m1 i)) m2)) as ->.
  { intros. zbits k. by destruct (Z.testbit s k), (Z.testbit m1 k), (Z.testbit i k), (Z.testbit m2 k), (Z.testbit D k), (Z.testbit P k). }
  assert (forall q m3, Z.lxor (Z.lxor (Z.lxor q D) P) m3 = Z.lxor (Z.lxor D P) (Z.lxor q m3)) as ->.
  { intros. zbits k. by destruct (Z.testbit q k), (Z.testbit m3 k), (Z.testbit D k), (Z.testbit P k). }
  f_equal. destruct inverted, (Z.testbit prev 0), (Z.testbit prev 1); done.
Qed.

(** The check accepts it, the source bits are in place and its last bits are those that
    arrived. *)
Lemma received_word_spec inverted prev d : 0 <= d < 2 ^ 24 ->
  let x := received_word inverted prev d in
  0 <= x < 2 ^ 32 /\ gps_word_parityCheck x = true /\ Z.land x 3 = Z.land (arrives inverted (icd_word prev d)) 3 /\
  forall k, 6 <= k < 30 -> Z.testbit x k = Z.testbit d (k - 6).
Proof.
  intros Hd x. pose proof (source_word_range prev d Hd) as Hs. pose proof (icd_parity_range (source_word prev d)) as Hp.
  assert (0 <= x < 2 ^ 32) as Hx.
  { unfold x, received_word. apply lxor_range; [apply lxor_range; lia|destruct inverted; lia]. }
  split; [done|]. split; [|split].
  - unfold gps_word_parityCheck. apply Z.eqb_eq. rewrite word_parity_icd by done. unfold x, received_word.
    assert (linear icd_parity) as Hl by apply linear_equations. unfold linear in Hl.
    rewrite (Hl (Z.lxor _ _)) by (first [apply Z.lxor_nonneg; lia|destruct inverted; lia]). rewrite (Hl (source_word prev d)) by lia.
    rewrite (icd_parity_low (icd_parity (source_word prev d))), Z.lxor_0_r by done.
    unfold source_word at 2. set (P := icd_parity (source_word prev d)) in *. clearbody P. zbits k.
    destruct (decide (k < 6)) as [Hk6|].
    + replace (Z.testbit 0x3F k) with true by (symmetry; apply (Z.ones_spec_low 6); lia).
      rewrite !(Z.testbit_neg_r _ (k - _)) by lia. rewrite andb_true_r. cbn [andb xorb]. f_equal.
      destruct inverted; [|done]. change (icd_parity 0xC000003F) with (Z.ones 6). rewrite Z.ones_spec_low by lia.
      assert (Forall (fun j => Z.testbit 0xC000003F j = true) (Z.of_nat <$> seq 0 6)) as Hc by (by repeat constructor).
      symmetry. apply (Z_small_cases _ 6 Hc). lia.
    + rewrite (testbit_above 6 0x3F), andb_false_r by lia. rewrite (testbit_above 6 P) by lia. cbn [xorb].
      destruct inverted; [|by rewrite Z.bits_0]. by rewrite (testbit_above 6 (icd_parity 0xC000003F)) by (apply icd_parity_range || lia).
  - unfold x, received_word, icd_word. rewrite arrives_lxor. unfold source_word at 1. set (P := icd_parity _). clearbody P. zbits k.
    destruct (decide (k < 2)); [|by rewrite (testbit_above 2 3 k), !andb_false_r by lia].
    rewrite !(Z.testbit_neg_r _ (k - _)) by lia. f_equal. cbn [andb xorb].
    assert (k = 0 \/ k = 1) as [->| ->] by lia; destruct inverted, (Z.testbit prev 0), (Z.testbit P _); done.
  - intros k Hk. unfold x, received_word, source_word. set (P := icd_parity _) in *. unfold source_word in Hp. fold P in Hp. clearbody P.
    autorewrite with tb. rewrite (testbit_above 6 P), (Z.testbit_neg_r _ (k - 30)) by lia. cbn [andb xorb]. rewrite xorb_false_r.
    replace (Z.testbit (if inverted then 0xC000003F else 0) k) with false; [by rewrite xorb_false_r|]. destruct inverted; [|by rewrite Z.bits_0].
    assert (Forall (fun j => Z.testbit 0xC000003F (j + 6) = false) (Z.of_nat <$> seq 0 24)) as Hc by (by repeat constructor).
    symmetry. replace k with (k - 6 + 6) by lia. apply (Z_small_cases (fun j => Z.testbit 0xC000003F (j + 6) = false) 24 Hc). lia.
Qed.

(** ** From symbols to words *)

Lemma decode_symbols_app a l1 l2 : decode_symbols a (l1 ++ l2) = (a' ← decode_symbols a l1; decode_symbols a' l2).
Proof.
  revert a. induction l1 as [|s l1 IH]; intros a; [done|]. cbn [app decode_symbols]. destruct (decode_symbol a s); [|done]. apply IH.
Qed.

(** The beginning of a word. *)
Lemma decode_part l : forall a v, GPS_frame_4bytes a = 2 * v -> 0 <= v < 2 ^ frame_bit_index a -> 0 <= frame_bit_index a ->
  frame_bit_index a + Z.of_nat (length l) < 30 ->
  decode_symbols a l = Some {| frame_bit_index := frame_bit_index a + Z.of_nat (length l); word_index := word_index a;
    GPS_frame_4bytes := 2 * (v * 2 ^ Z.of_nat (length l) + bits_val (gt0 <$> l));
    subframe_synchro_confirmation := subframe_synchro_confirmation a; subframe := subframe a; prev_4bytes := prev_4bytes a |}.
Proof.
  induction l as [|s l IH]; intros a v Hf Hv Hi Hl.
  - cbn. destruct a. cbn in *. subst. f_equal. f_equal; lia.
  - cbn [decode_symbols]. cbn [length] in Hl. assert (frame_bit_index a <= 28) as H28 by lia.
    pose proof (Z.pow_le_mono_r 2 (frame_bit_index a) 28 ltac:(lia) H28) as Hp.
    set (v' := 2 * v + Z.b2z (gt0 s)).
    assert (0 <= v' < 2 ^ (frame_bit_index a + 1)) as Hv'.
    { rewrite Z.pow_add_r by lia. unfold v'. destruct (gt0 s); cbn [Z.b2z]; lia. }
    assert (decode_symbol a s = Some {| frame_bit_index := frame_bit_index a + 1; word_index := word_index a; GPS_frame_4bytes := 2 * v';
      subframe_synchro_confirmation := subframe_synchro_confirmation a; subframe := subframe a; prev_4bytes := prev_4bytes a |}) as ->.
    { unfold decode_symbol. rewrite (proj2 (Z.eqb_neq _ _)) by lia. do 2 f_equal. rewrite Hf.
      assert ((if gt0 s then u32 (2 * v + 1) else 2 * v) = v') as ->.
      { unfold v'. destruct (gt0 s); cbn [Z.b2z]; [rewrite uwrap_small|]; lia. }
      rewrite Z.shiftl_mul_pow2, Z.pow_1_r by lia. rewrite uwrap_small by (unfold v' in *; destruct (gt0 s); cbn [Z.b2z] in *; lia). lia. }
    cbn [mbind option_bind]. rewrite (IH _ v') by (cbn; lia). cbn [frame_bit_index word_index subframe_synchro_confirmation subframe prev_4bytes].
    f_equal. cbn [length fmap list_fmap]. fold (gt0 <$> l). rewrite bits_val_cons, length_fmap, Nat2Z.inj_succ, Z.pow_succ_r by lia.
    f_equal; [lia|]. unfold v'. lia.
Qed.

(** A complete word. *)
Lemma decode_word l a w : length l = 30%nat -> gt0 <$> l = val_bits 30 w -> 0 <= w < 2 ^ 30 ->
  frame_bit_index a = 0 -> GPS_frame_4bytes a = 0 -> length (subframe a) = 40%nat -> 0 <= word_index a < 10 ->
  let x := extend_word (prev_4bytes a) w in
  decode_symbols a l = Some {| frame_bit_index := 0; word_index := word_index a + 1; GPS_frame_4bytes := 0;
    subframe_synchro_confirmation := subframe_synchro_confirmation a && gps_word_parityCheck x;
    subframe := splice (subframe a) (Z.to_nat (word_index a * 4)) (word_bytes x); prev_4bytes := x |}.
Proof.
  intros Hl Hg Hw Hi Hf Hs Hwi x. assert (exists l' s, l = l' ++ [s] /\ length l' = 29%nat) as (l' & s & -> & Hl').
  { destruct (exists_last (l := l)) as (l' & s & ->); [by destruct l|]. rewrite length_app in Hl. cbn in Hl. exists l', s. split; [done|lia]. }
  rewrite decode_symbols_app, (decode_part l' a 0) by (rewrite ?Hf, ?Hi; lia). cbn [mbind option_bind decode_symbols].
  unfold decode_symbol. cbn [frame_bit_index]. rewrite Hi, Hl'. cbn [GPS_frame_4bytes Z.mul Z.add].
  change (Z.of_nat 29 + 1 =? 30) with true. cbv iota.
  rewrite fmap_app in Hg. cbn [fmap list_fmap] in Hg. fold (gt0 <$> l') in Hg.
  pose proof (f_equal bits_val Hg) as Hv. rewrite bits_val_app, bits_val_val_bits, Z.mod_small in Hv by done. cbn [length] in Hv.
  change (bits_val [gt0 s]) with (2 * 0 + Z.b2z (gt0 s)) in Hv.
  assert ((if gt0 s then u32 (2 * (0 * 2 ^ Z.of_nat 29 + bits_val (gt0 <$> l')) + 1) else 2 * (0 * 2 ^ Z.of_nat 29 + bits_val (gt0 <$> l'))) = w) as ->.
  { change (2 ^ Z.of_nat 1) with 2 in Hv. destruct (gt0 s); cbn [Z.b2z] in Hv; [rewrite uwrap_small|]; lia. }
  cbn [word_index prev_4bytes subframe subframe_synchro_confirmation]. fold x. unfold store_word, GPS_L1_CA.GPS_WORD_LENGTH.
  rewrite decide_True by lia. cbn [mbind option_bind]. do 2 f_equal. destruct (gps_word_parityCheck x); [by rewrite andb_true_r|by rewrite andb_false_r].
Qed.

Lemma last_cons_default {A} (x : A) l d : List.last (x :: l) d = List.last l x.
Proof. revert x d. induction l as [|y l IH]; intros x d; [done|]. change (List.last (x :: y :: l) d) with (List.last (y :: l) d). by rewrite !IH. Qed.

(** Each word with what the decoder puts in front of it. *)
Fixpoint extended (prev : Z) (ws : list Z) : list Z :=
  match ws with
  | [] => []
  | w :: ws' => let x := extend_word prev w in x :: extended x ws'
  end.

Lemma decode_words ws : forall l a, gt0 <$> l = words_message ws -> Forall (fun w => 0 <= w < 2 ^ 30) ws ->
  frame_bit_index a = 0 -> GPS_frame_4bytes a = 0 -> length (subframe a) = 40%nat -> 0 <= word_index a ->
  word_index a + Z.of_nat (length ws) <= 10 ->
  let xs := extended (prev_4bytes a) ws in
  decode_symbols a l = Some {| frame_bit_index := 0; word_index := word_index a + Z.of_nat (length ws); GPS_frame_4bytes := 0;
    subframe_synchro_confirmation := subframe_synchro_confirmation a && forallb gps_word_parityCheck xs;
    subframe := splice (subframe a) (Z.to_nat (word_index a * 4)) (mbind word_bytes xs); prev_4bytes := List.last xs (prev_4bytes a) |}.
Proof.
  induction ws as [|w ws IH]; intros l a Hg Hw Hi Hf Hs Hwi Hle xs.
  - assert (l = []) as -> by (destruct l; [done|discriminate Hg]). cbn. rewrite splice_nil, andb_true_r. destruct a. cbn in *. subst.
    do 2 f_equal. lia.
  - unfold words_message in Hg. rewrite mbind_cons in Hg. fold (words_message ws) in Hg. inversion_clear Hw as [|? ? Hw1 Hw2]. cbn [length] in Hle.
    assert (length l >= 30)%nat as Hll.
    { pose proof (f_equal length Hg) as Hlen. rewrite length_fmap, length_app, length_val_bits in Hlen. lia. }
    rewrite <- (take_drop 30 l) in Hg |- *. rewrite fmap_app in Hg. apply app_inj_1 in Hg as [Hg1 Hg2]; [|rewrite length_fmap, length_take, length_val_bits; lia].
    rewrite decode_symbols_app, (decode_word (take 30 l) a w) by (rewrite ?length_take; lia || done). cbn [mbind option_bind].
    set (x := extend_word (prev_4bytes a) w). set (a1 := {| frame_bit_index := 0 |}).
    assert (length (subframe a1) = 40%nat) as Hs1 by (cbn; rewrite length_splice by (cbn; lia); done).
    rewrite (IH (drop 30 l) a1 Hg2 Hw2) by (done || (cbn; lia)). unfold a1.
    cbn [word_index subframe_synchro_confirmation subframe prev_4bytes]. unfold xs. cbn [extended length]. fold x.
    f_equal. f_equal.
    + lia.
    + cbn [forallb]. by rewrite andb_assoc.
    + rewrite mbind_cons. rewrite <- (splice_splice (subframe a)).
      * f_equal. cbn. lia.
      * rewrite (length_mbind _ 4) by done. cbn [word_bytes length]. assert (forall p q, length (extended p q) = length q) as ->.
        { intros p q. revert p. induction q as [|y q IHq]; intros p; [done|]. cbn [extended length]. by rewrite IHq. }
        lia.
    + symmetry. apply last_cons_default.
Qed.

Lemma extended_length prev ws : length (extended prev ws) = length ws.
Proof. revert prev. induction ws as [|w ws IH]; intros prev; [done|]. cbn [extended length]. by rewrite IH. Qed.

Lemma extend_word_range prev w : 0 <= w < 2 ^ 30 -> 0 <= extend_word prev w < 2 ^ 32.
Proof.
  intros Hw. rewrite extend_word_lxor by done. change 3 with (Z.ones 2). rewrite Z.land_ones by lia.
  pose proof (Z.mod_pos_bound prev (2 ^ 2) ltac:(lia)).
  apply lxor_range; [apply lxor_range; [rewrite Z.shiftl_mul_pow2|]; lia|destruct (Z.testbit prev 0); lia].
Qed.

Lemma extended_range prev ws : Forall (fun w => 0 <= w < 2 ^ 30) ws -> Forall (fun x => 0 <= x < 2 ^ 32) (extended prev ws).
Proof.
  intros H. revert prev. induction H as [|w ws Hw H IH]; intros prev; [constructor|]. cbn [extended]. constructor; [by apply extend_word_range|apply IH].
Qed.

(** [decode_subframe] on ten words: they are checked, and decoded if all pass. *)
Lemma decode_subframe_words ws history nav prev : length ws = 10%nat -> Forall (fun w => 0 <= w < 2 ^ 30) ws ->
  gt0 <$> history = words_message ws ->
  let xs := extended prev ws in
  decode_subframe history nav prev =
  if forallb gps_word_parityCheck xs then
    '(id, nav1) ← decode_fields (reverse (words_message xs)) nav;
    Some (if (0 <? id) && (id <? 6) then (true, (publish id nav1).1, (publish id nav1).2, List.last xs prev)
          else (false, [], nav1, List.last xs prev))
  else Some (false, [], nav, List.last xs prev).
Proof.
  intros Hl Hw Hg xs. unfold decode_subframe. rewrite (decode_words ws) by (done || (cbn; lia)).
  cbn [mbind option_bind subframe_synchro_confirmation subframe prev_4bytes word_index andb]. fold xs.
  destruct (forallb gps_word_parityCheck xs); [|done].
  assert (splice (replicate 40 0) (Z.to_nat (0 * 4)) (mbind word_bytes xs) = mbind word_bytes xs) as ->.
  { unfold splice. rewrite take_0, drop_ge; [by rewrite app_nil_r|]. rewrite length_replicate, (length_mbind _ 4) by done.
    unfold xs. rewrite extended_length. cbn. lia. }
  unfold subframe_decoder. rewrite unpack_bits_words by (unfold xs; rewrite ?extended_length; try done; by apply extended_range).
  cbn [mbind option_bind]. destruct (decode_fields _ nav) as [[id nav1]|]; [|done]. cbn [mbind option_bind].
  destruct ((0 <? id) && (id <? 6)); [|done]. by destruct (publish id nav1).
Qed.

(** The source bits of a subframe, with zeros for the parity. *)
Definition source_message (ds : list Z) : list bool := words_message ((fun d => Z.shiftl d 6) <$> ds).

(** The words of a transmission in the decoder. *)
Fixpoint received (inverted : bool) (prev : Z) (ds : list Z) : list Z :=
  match ds with
  | [] => []
  | d :: ds' => received_word inverted prev d :: received inverted (icd_word prev d) ds'
  end.

Lemma extended_transmit inverted ds : forall prev seen, Forall (fun d => 0 <= d < 2 ^ 24) ds ->
  Z.land seen 3 = Z.land (arrives inverted prev) 3 ->
  extended seen (arrives inverted <$> transmit prev ds) = received inverted prev ds.
Proof.
  induction ds as [|d ds IH]; intros prev seen Hd Hs; [done|]. inversion_clear Hd as [|? ? Hd1 Hd2].
  cbn [transmit fmap list_fmap extended received]. rewrite (extend_arrived inverted prev) by done. f_equal.
  apply IH; [done|]. by apply received_word_spec.
Qed.

Lemma received_passes inverted ds : forall prev, Forall (fun d => 0 <= d < 2 ^ 24) ds -> forallb gps_word_parityCheck (received inverted prev ds) = true.
Proof.
  induction ds as [|d ds IH]; intros prev Hd; [done|]. inversion_clear Hd as [|? ? Hd1 Hd2]. cbn [received forallb].
  rewrite IH, andb_true_r by done. destruct (received_word_spec inverted prev d Hd1) as (_ & Hc & _). exact Hc.
Qed.

Lemma received_length i prev ds : length (received i prev ds) = length ds.
Proof. revert prev. induction ds as [|d ds IH]; intros prev; [done|]. cbn [received length]. by rewrite IH. Qed.

Lemma received_lookup i ds : forall prev j d, ds !! j = Some d -> exists p, received i prev ds !! j = Some (received_word i p d).
Proof.
  induction ds as [|d0 ds IH]; intros prev j d Hj; [done|]. destruct j as [|j]; cbn in *; [simplify_eq; eauto|eauto].
Qed.

(** A message in the decoder has the source's data bits. *)
Lemma received_data i prev ds k : Forall (fun d => 0 <= d < 2 ^ 24) ds -> data_bit (Z.of_nat k) = true ->
  words_message (received i prev ds) !! k = source_message ds !! k.
Proof.
  intros Hd Hk. unfold data_bit in Hk. apply Z.ltb_lt in Hk. pose proof (Nat.div_mod k 30 ltac:(lia)) as Hdm.
  set (j := (k / 30)%nat) in *. set (r := (k mod 30)%nat) in *. assert (r < 30)%nat by (apply Nat.mod_upper_bound; lia).
  assert (r < 24)%nat as Hr.
  { rewrite Hdm in Hk. rewrite Nat2Z.inj_add, Nat2Z.inj_mul, Z.add_comm, Z.mul_comm, Z.mod_add, Z.mod_small in Hk by lia. lia. }
  rewrite Hdm. unfold source_message, words_message. destruct (decide (j < length ds)%nat) as [Hj|Hj].
  - destruct (lookup_lt_is_Some_2 ds j Hj) as [d Hdj]. destruct (received_lookup i ds prev j d Hdj) as [p Hp].
    pose proof (Forall_lookup_1 _ _ _ _ Hd Hdj) as Hd24.
    rewrite (lookup_mbind (val_bits 30) 30 (length_val_bits 30) _ j _ r Hp) by lia.
    rewrite (lookup_mbind (val_bits 30) 30 (length_val_bits 30) _ j (Z.shiftl d 6) r) by (rewrite ?list_lookup_fmap, ?Hdj; done || lia).
    rewrite !lookup_val_bits, !decide_True by lia. f_equal. rewrite Z.shiftl_spec by lia.
    destruct (received_word_spec i p d Hd24) as (_ & _ & _ & Hb). apply Hb. lia.
  - rewrite !lookup_ge_None_2; [done| |]; rewrite (length_mbind _ 30 (length_val_bits 30)), ?received_length, ?length_fmap; lia.
Qed.

(** ** Subframes without errors *)

Definition tow_count (ds : list Z) : Z := bits_val (field (source_message ds) GPS_L1_CA.TOW).
Definition subframe_id (ds : list Z) : Z := bits_val (field (source_message ds) GPS_L1_CA.SUBFRAME_ID).

(** A subframe of ten words of 24 source bits. *)
Definition is_subframe (ds : list Z) : Prop := length ds = 10%nat /\ Forall (fun d => 0 <= d < 2 ^ 24) ds.

(** What the source bits are decoded to, and what is published for them. *)
Definition nav_step (ds : list Z) (nav : Gps_Navigation_Message) : option (list tlm_msg * Gps_Navigation_Message) :=
  '(id, nav1) ← decode_fields (reverse (source_message ds)) nav; Some (publish id nav1).

Lemma source_message_length ds : length ds = 10%nat -> Z.of_nat (length (source_message ds)) = 300.
Proof. intros Hl. unfold source_message. rewrite words_message_length, length_fmap, Hl. done. Qed.

Lemma transmit_length prev ds : length (transmit prev ds) = length ds.
Proof. revert prev. induction ds as [|d ds IH]; intros prev; [done|]. cbn [transmit length]. by rewrite IH. Qed.

Lemma transmit_range prev ds : Forall (fun d => 0 <= d < 2 ^ 24) ds -> Forall (fun w => 0 <= w < 2 ^ 30) (transmit prev ds).
Proof. intros H. revert prev. induction H as [|d ds Hd H IH]; intros prev; constructor; [by apply icd_word_range|apply IH]. Qed.

Lemma last_received i ds : forall prev seen, Forall (fun d => 0 <= d < 2 ^ 24) ds -> Z.land seen 3 = Z.land (arrives i prev) 3 ->
  Z.land (List.last (received i prev ds) seen) 3 = Z.land (arrives i (List.last (transmit prev ds) prev)) 3.
Proof.
  induction ds as [|d ds IH]; intros prev seen Hd Hs; [done|]. inversion_clear Hd as [|? ? Hd1 Hd2].
  cbn [received transmit]. rewrite !last_cons_default. apply IH; [done|].
  destruct (received_word_spec i prev d Hd1) as (_ & _ & Hl & _). exact Hl.
Qed.

(** The head of [decode_fields]: the number of the subframe and, in each of the five, the time. *)
Lemma decode_fields_head m nav id nav1 : Z.of_nat (length m) = 300 -> decode_fields (reverse m) nav = Some (id, nav1) ->
  id = bits_val (field m GPS_L1_CA.SUBFRAME_ID) /\ (1 <= id <= 5 -> d_TOW nav1 = 6 * bits_val (field m GPS_L1_CA.TOW)).
Proof.
  intros Hm. unfold decode_fields. rewrite (uint_spec m Hm GPS_L1_CA.SUBFRAME_ID) by done. cbn [mbind option_bind]. intros H.
  assert (exists h, read_how (reverse m) = Some (6 * bits_val (field m GPS_L1_CA.TOW), h)) as [h Hh].
  { unfold read_how. reads. eexists. do 2 f_equal. pose proof (bits_val_range (field m GPS_L1_CA.TOW)) as Hr.
    rewrite (field_length 300) in Hr by done. change (slices_width _) with 17 in Hr. rewrite swrap_small by lia. lia. }
  rewrite Hh in H. cbn [mbind option_bind] in H. revert H. generalize (bits_val (field m GPS_L1_CA.SUBFRAME_ID)) as z. intros z H.
  destruct (subframe_cases z) as [->|[->|[->|[->|[->|[Hz Hc]]]]]]; [..|rewrite Hc in H; simplify_eq; split; [done|lia]];
    repeat (apply bind_Some in H as (? & ? & H)); simplify_eq; done.
Qed.

Lemma publish_tow id nav : d_TOW (publish id nav).2 = d_TOW nav.
Proof. unfold publish, satellite_validation, get_iono, get_utc_model. repeat case_match; simplify_eq; done. Qed.

(** [decode_subframe] on a transmitted subframe. *)
Lemma decode_subframe_transmitted i prev ds history nav seen : is_subframe ds ->
  gt0 <$> history = words_message (arrives i <$> transmit prev ds) -> Z.land seen 3 = Z.land (arrives i prev) 3 ->
  1 <= subframe_id ds <= 5 ->
  exists msgs nav' x, nav_step ds nav = Some (msgs, nav') /\ decode_subframe history nav seen = Some (true, msgs, nav', x) /\
    Z.land x 3 = Z.land (arrives i (List.last (transmit prev ds) prev)) 3 /\ d_TOW nav' = 6 * tow_count ds.
Proof.
  intros [Hl Hd] Hg Hs Hid. rewrite (decode_subframe_words (arrives i <$> transmit prev ds)).
  - rewrite (extended_transmit i ds prev) by done. rewrite received_passes by done.
    rewrite (decode_fields_data _ (source_message ds)).
    + destruct (decode_fields_total (source_message ds) nav (source_message_length ds Hl)) as [[id nav1] Hn].
      destruct (decode_fields_head _ _ _ _ (source_message_length ds Hl) Hn) as [Hid' Ht]. unfold nav_step. rewrite Hn. cbn [mbind option_bind].
      fold (subframe_id ds) in Hid'. subst id.
      rewrite (proj2 (Z.ltb_lt 0 _)), (proj2 (Z.ltb_lt _ 6)) by lia. cbn [andb].
      exists (publish (subframe_id ds) nav1).1, (publish (subframe_id ds) nav1).2, (List.last (received i prev ds) seen).
      split; [by destruct (publish _ nav1)|]. split; [done|]. split; [by apply last_received|]. rewrite publish_tow. by apply Ht.
    + rewrite words_message_length, received_length, Hl. done.
    + by apply source_message_length.
    + intros k Hk. by apply received_data.
  - rewrite length_fmap, transmit_length. done.
  - apply Forall_fmap. pose proof (transmit_range prev ds Hd) as Hr. clear - Hr. induction Hr; constructor; [by apply arrives_range|done].
  - done.
Qed.

(** ** Errors *)

Definition syndrome (w : Z) : Z := Z.lxor (gps_word_parity w) (Z.land w 0x3F).

Lemma linear_syndrome : linear syndrome.
Proof. apply (linear_lxor gps_word_parity); [apply linear_word_parity|apply (linear_land (fun w => w)), linear_id]. Qed.

Lemma parityCheck_syndrome w : gps_word_parityCheck w = (syndrome w =? 0).
Proof.
  unfold gps_word_parityCheck, syndrome. destruct (Z.eqb_spec (gps_word_parity w) (Z.land w 0x3F)) as [->|Hne].
  - by rewrite Z.lxor_nilpotent.
  - symmetry. apply Z.eqb_neq. intros H. apply Hne. by apply Z.lxor_eq.
Qed.

(** Up to three wrong bits of a word are noticed. *)
Lemma error_noticed x e : 0 <= x -> gps_word_parityCheck x = true -> 0 <= e < 2 ^ 30 -> 1 <= weight 30 e <= 3 ->
  gps_word_parityCheck (Z.lxor x e) = false.
Proof.
  intros Hx Hc He Hw. rewrite parityCheck_syndrome in *. apply Z.eqb_eq in Hc. apply Z.eqb_neq.
  rewrite linear_syndrome, Hc, Z.lxor_0_l by lia.
  pose proof (patterns_check 30 3 (fun e => (e =? 0) || negb (syndrome e =? 0)) e ltac:(by vm_compute) He ltac:(lia)) as H.
  apply orb_true_iff in H as [H|H]; [|by apply negb_true_iff, Z.eqb_neq in H].
  apply Z.eqb_eq in H. subst. change (weight 30 0) with 0 in Hw. lia.
Qed.

Lemma extended_app prev ws1 ws2 : extended prev (ws1 ++ ws2) = extended prev ws1 ++ extended (List.last (extended prev ws1) prev) ws2.
Proof.
  revert prev. induction ws1 as [|w ws1 IH]; intros prev; [done|]. cbn [app extended]. rewrite last_cons_default. f_equal. apply IH.
Qed.

(** A wrong word after right ones. *)
Lemma wrong_word_rejected i prev seen ds1 d e rest : Forall (fun d => 0 <= d < 2 ^ 24) ds1 -> 0 <= d < 2 ^ 24 ->
  Z.land seen 3 = Z.land (arrives i prev) 3 -> 0 <= e < 2 ^ 30 -> 1 <= weight 30 e <= 3 ->
  forallb gps_word_parityCheck
    (extended seen ((arrives i <$> transmit prev ds1) ++ Z.lxor (arrives i (icd_word (List.last (transmit prev ds1) prev) d)) e :: rest)) = false.
Proof.
  intros Hds Hd Hs He Hw. rewrite extended_app, extended_transmit by done. rewrite forallb_app. apply andb_false_iff. right.
  cbn [extended forallb]. set (p := List.last (transmit prev ds1) prev). set (q := List.last (received i prev ds1) seen).
  assert (Z.land q 3 = Z.land (arrives i p) 3) as Hq by (by apply last_received).
  pose proof (icd_word_range p d Hd) as Hr. pose proof (arrives_range i _ Hr) as Hr'.
  assert (extend_word q (Z.lxor (arrives i (icd_word p d)) e) = Z.lxor (received_word i p d) e) as ->.
  { rewrite <- (extend_arrived i p q d Hd Hq), !extend_word_lxor by (try apply lxor_range; done).
    rewrite <- Z.lxor_assoc, !(Z.lxor_assoc _ e), (Z.lxor_comm e), <- !Z.lxor_assoc. done. }
  destruct (received_word_spec i p d Hd) as (Hx & Hc & _). rewrite error_noticed; [done|lia|done|done|done].
Qed.
