(* ===== verification/GpsTlmLock.v ===== *)
(** * The GPS L1 C/A telemetry decoder in lock

    A decoder that has found the subframes, fed with error-free subframes, follows them: it
    decodes what was transmitted, stays in lock and stamps every symbol with its time of
    week. *)
From S2P Require Import Prelude Linear GnssSignal Doubles NavBits GpsNav GpsTlm GpsTlmProps.

#[local] Open Scope Z_scope.

(** ** Symbols within a subframe *)

Definition symbol_bit (x : Gnss_Synchro) : bool := gt0 (float_of_double (Prompt_I x)).

(** A symbol with its time of week, as the block passes it on. *)
Definition stamp (pll : bool) (x : Gnss_Synchro) (tow : Z) : Gnss_Synchro :=
  {| Prompt_I := Prompt_I x; TOW_at_current_symbol_ms := tow; Flag_valid_word := true;
     Carrier_phase_rads := if pll then dbl_add (Carrier_phase_rads x) GNSS_PI else Carrier_phase_rads x |}.

Lemma push_back_spec {A} cap (l : list A) x : 0 < cap -> Z.of_nat (length l) <= cap ->
  push_back cap l x = drop (length l + 1 - Z.to_nat cap) (l ++ [x]).
Proof.
  intros Hc Hl. unfold push_back. destruct (Z.ltb_spec (Z.of_nat (length l)) cap).
  - replace (length l + 1 - Z.to_nat cap)%nat with 0%nat by lia. done.
  - replace (length l + 1 - Z.to_nat cap)%nat with 1%nat by lia. destruct l; [cbn in *; lia|done].
Qed.

Lemma push_back_length {A} cap (l : list A) x : 0 < cap -> Z.of_nat (length l) <= cap -> Z.of_nat (length (push_back cap l x)) <= cap.
Proof. intros Hc Hl. rewrite push_back_spec by done. rewrite length_drop, length_app. cbn. lia. Qed.

(** The buffer after several symbols holds the latest. *)
Lemma push_all {A} cap (l xs : list A) : 0 < cap -> Z.of_nat (length l) <= cap ->
  fold_left (push_back cap) xs l = drop (length l + length xs - Z.to_nat cap) (l ++ xs).
Proof.
  intros Hc. revert l. induction xs as [|x xs IH]; intros l Hl; cbn [fold_left].
  - rewrite app_nil_r. replace (length l + length (@nil A) - Z.to_nat cap)%nat with 0%nat by (cbn; lia). done.
  - rewrite IH by (by apply push_back_length). rewrite push_back_spec by done.
    replace (l ++ x :: xs) with ((l ++ [x]) ++ xs) by (by rewrite <- app_assoc).
    rewrite length_drop, length_app. cbn [length]. set (k := (length l + 1 - Z.to_nat cap)%nat).
    rewrite <- (drop_app_le (l ++ [x]) xs k) by (rewrite length_app; cbn; lia). rewrite drop_drop. f_equal. lia.
Qed.

Lemma run_app st xs ys : run st (xs ++ ys) =
  ('(st1, m1, o1) ← run st xs; '(st2, m2, o2) ← run st1 ys; Some (st2, m1 ++ m2, o1 ++ o2)).
Proof.
  revert st. induction xs as [|x xs IH]; intros st; cbn [app run].
  - cbn. destruct (run st ys) as [[[? ?] ?]|]; done.
  - destruct (general_work st x) as [[[st1 m1] o1]|]; [|done]. cbn. rewrite IH. destruct (run st1 xs) as [[[st2 m2] o2]|]; [|done]. cbn.
    destruct (run st2 ys) as [[[st3 m3] o3]|]; [|done]. cbn. by rewrite app_assoc.
Qed.

(** The state while no subframe is complete. *)
Definition coast (st : gps_l1_ca_telemetry_decoder) (xs : list Gnss_Synchro) : gps_l1_ca_telemetry_decoder :=
  {| d_nav := d_nav st; d_satellite := d_satellite st;
     d_symbol_history := fold_left (push_back d_required_symbols) ((fun x => float_of_double (Prompt_I x)) <$> xs) (d_symbol_history st);
     d_sample_counter := d_sample_counter st + Z.of_nat (length xs); d_preamble_index := d_preamble_index st;
     d_last_valid_preamble := d_last_valid_preamble st; d_CRC_error_counter := d_CRC_error_counter st; d_channel := d_channel st;
     d_prev_GPS_frame_4bytes := d_prev_GPS_frame_4bytes st; d_stat := d_stat st; d_TOW_at_Preamble_ms := d_TOW_at_Preamble_ms st;
     d_TOW_at_current_symbol_ms := d_TOW_at_current_symbol_ms st + 20 * Z.of_nat (length xs); d_flag_frame_sync := d_flag_frame_sync st;
     d_flag_preamble := false; d_sent_tlm_failed_msg := d_sent_tlm_failed_msg st;
     d_flag_PLL_180_deg_phase_locked := d_flag_PLL_180_deg_phase_locked st; d_flag_TOW_set := d_flag_TOW_set st |}.

(** In lock, the last subframe complete at the current symbol and valid, [prev] its last word as
    transmitted. *)
Record locked (inverted : bool) (prev : Z) (st : gps_l1_ca_telemetry_decoder) : Prop := {
  locked_stat : d_stat st = 1;
  locked_index : d_preamble_index st = d_sample_counter st;
  locked_valid : d_last_valid_preamble st = d_sample_counter st;
  locked_counter : 0 <= d_sample_counter st;
  locked_history : Z.of_nat (length (d_symbol_history st)) <= 300;
  locked_prev : Z.land (d_prev_GPS_frame_4bytes st) 3 = Z.land (arrives inverted prev) 3;
  locked_tow : d_flag_TOW_set st = true }.

(** Symbols before the end of the next subframe. *)
Lemma run_coast inverted prev st xs : locked inverted prev st -> (length xs < 300)%nat -> d_sample_counter st + 300 < 2 ^ 64 ->
  0 <= d_TOW_at_current_symbol_ms st -> d_TOW_at_current_symbol_ms st + 6000 < 2 ^ 32 ->
  d_flag_preamble st = false \/ xs <> [] ->
  run st xs = Some (coast st xs, [], imap (fun k x => Some (stamp (d_flag_PLL_180_deg_phase_locked st) x
    (d_TOW_at_current_symbol_ms st + 20 * (Z.of_nat k + 1)))) xs).
Proof.
  intros HL Hl Hc Ht0 Ht. induction xs as [|x xs IH] using rev_ind; intros Hp.
  - destruct Hp as [Hp|]; [|done]. cbn [run imap]. do 3 f_equal. destruct st; cbn in *. unfold coast; cbn. subst. f_equal; lia.
  - rewrite length_app in Hl. cbn [length] in Hl. rewrite run_app.
    assert (exists o, run st xs = Some (match xs with [] => st | _ => coast st xs end, [], o) /\
      o = imap (fun k x => Some (stamp (d_flag_PLL_180_deg_phase_locked st) x (d_TOW_at_current_symbol_ms st + 20 * (Z.of_nat k + 1)))) xs) as (o & -> & ->).
    { destruct xs as [|y ys]; [by exists []|]. eexists. split; [|reflexivity]. apply IH; [lia|by right]. }
    cbn [mbind option_bind].
    set (s := match xs with [] => st | _ => coast st xs end).
    assert (general_work s x = Some (coast st (xs ++ [x]), [], Some (stamp (d_flag_PLL_180_deg_phase_locked st) x
      (d_TOW_at_current_symbol_ms st + 20 * (Z.of_nat (length xs) + 1))))) as Hg.
    { destruct HL as [Hst Hix Hlv Hc0 Hh Hpr Htw].
      assert (d_stat s = 1 /\ d_flag_TOW_set s = true /\ d_sample_counter s = d_sample_counter st + Z.of_nat (length xs) /\
        d_TOW_at_current_symbol_ms s = d_TOW_at_current_symbol_ms st + 20 * Z.of_nat (length xs) /\
        d_preamble_index s = d_preamble_index st /\ d_last_valid_preamble s = d_last_valid_preamble st /\
        d_symbol_history s = fold_left (push_back d_required_symbols) ((fun x => float_of_double (Prompt_I x)) <$> xs) (d_symbol_history st)) as
        (S1 & S2 & S3 & S4 & S5 & S6 & S7).
      { unfold s. destruct xs; cbn [length coast]; [|done]. rewrite !Z.add_0_r. done. }
      unfold general_work. rewrite S3, S6, S7, Hlv. unfold frame_sync. rewrite S1, S5, Hix.
      rewrite (uwrap_small 64 (d_sample_counter st + Z.of_nat (length xs) + 1)), (uwrap_small 64 (d_sample_counter st + d_preamble_period_symbols)),
        (uwrap_small 64 (d_sample_counter st + Z.of_nat (length xs) + 1 - d_sample_counter st)) by (unfold d_preamble_period_symbols, GPS_L1_CA.GPS_SUBFRAME_BITS; lia).
      rewrite (proj2 (Z.ltb_ge d_max_symbols_without_valid_frame _)) by (unfold d_max_symbols_without_valid_frame, d_required_symbols, GPS_L1_CA.GPS_SUBFRAME_BITS; lia).
      rewrite (proj2 (Z.leb_gt _ _)) by (unfold d_preamble_period_symbols, GPS_L1_CA.GPS_SUBFRAME_BITS; lia).
      rewrite andb_false_r. cbn [mbind option_bind]. unfold update_tow. cbn [s_preamble s_TOW_set s_TOW_cur s_TOW_pre]. rewrite S2, S4. cbn [mbind option_bind].
      unfold GPS_L1_CA.GPS_L1_CA_BIT_PERIOD_MS. rewrite uwrap_small by lia.
      unfold coast at 1. rewrite length_app, fmap_app, fold_left_app. cbn [length fmap list_fmap fold_left].
      replace (Z.of_nat (length xs + 1)) with (Z.of_nat (length xs) + 1) by lia. rewrite !Z.mul_add_distr_l, !Z.add_assoc.
      unfold stamp, s. destruct xs; cbn; rewrite ?Hix, ?Hlv, ?Hst, ?Htw; rewrite ?andb_false_r; done. }
    cbn [run]. rewrite Hg. cbn [mbind option_bind]. do 2 f_equal. rewrite imap_app. cbn. do 5 f_equal. lia.
Qed.

(** ** The last symbol of a subframe *)

(** [get_TOW() * 1000.0] is exact. *)
Lemma tow_ms_exact t : 0 < t < 2 ^ 21 -> tow_ms t = Some (1000 * t).
Proof.
  intros Ht. unfold tow_ms. assert (lit 1000 0 = dbl_of_Z 1000) as -> by (by vm_compute).
  rewrite dbl_mul_int by lia. rewrite (Z_of_dbl_value _ (t * 1000) 0) by (try apply integer_value; lia).
  cbn [mbind option_bind]. rewrite Z.mul_1_r, decide_True by lia. f_equal. lia.
Qed.

(** The time of the last symbol: from the subframe, unless it says zero. *)
Definition next_tow (ds : list Z) (before : Z) : Z := if tow_count ds =? 0 then before else 6000 * tow_count ds.

(** The state after a whole subframe. *)
Definition landed (st : gps_l1_ca_telemetry_decoder) (xs : list Gnss_Synchro) (ds : list Z) (nav : Gps_Navigation_Message) (prev : Z)
  : gps_l1_ca_telemetry_decoder :=
  {| d_nav := nav; d_satellite := d_satellite st; d_symbol_history := (fun x => float_of_double (Prompt_I x)) <$> xs;
     d_sample_counter := d_sample_counter st + 300; d_preamble_index := d_sample_counter st + 300;
     d_last_valid_preamble := d_sample_counter st + 300; d_CRC_error_counter := 0; d_channel := d_channel st;
     d_prev_GPS_frame_4bytes := prev; d_stat := 1;
     d_TOW_at_Preamble_ms := if tow_count ds =? 0 then d_TOW_at_Preamble_ms st else 6000 * tow_count ds;
     d_TOW_at_current_symbol_ms := next_tow ds (d_TOW_at_current_symbol_ms st + 20 * 299);
     d_flag_frame_sync := true; d_flag_preamble := true; d_sent_tlm_failed_msg := d_sent_tlm_failed_msg st;
     d_flag_PLL_180_deg_phase_locked := d_flag_PLL_180_deg_phase_locked st; d_flag_TOW_set := true |}.

Lemma tow_count_range ds : length ds = 10%nat -> 0 <= tow_count ds < 2 ^ 17.
Proof.
  intros Hl. unfold tow_count. pose proof (bits_val_range (field (source_message ds) GPS_L1_CA.TOW)) as H.
  rewrite (field_length 300) in H by (done || by apply source_message_length). exact H.
Qed.

Lemma land_symbol i prev st xs x ds : locked i prev st -> length xs = 299%nat -> is_subframe ds -> 1 <= subframe_id ds <= 5 ->
  symbol_bit <$> xs ++ [x] = words_message (arrives i <$> transmit prev ds) -> d_sample_counter st + 300 < 2 ^ 64 ->
  exists msgs nav seen, nav_step ds (d_nav st) = Some (msgs, nav) /\
    Z.land seen 3 = Z.land (arrives i (List.last (transmit prev ds) prev)) 3 /\
    general_work (coast st xs) x = Some (landed st (xs ++ [x]) ds nav seen, msgs,
      Some (stamp (d_flag_PLL_180_deg_phase_locked st) x (next_tow ds (d_TOW_at_current_symbol_ms st + 20 * 299)))).
Proof.
  intros HL Hl Hds Hid Hb Hc. destruct HL as [Hst Hix Hlv Hc0 Hh Hpr Htw].
  destruct (decode_subframe_transmitted i prev ds ((fun x => float_of_double (Prompt_I x)) <$> xs ++ [x]) (d_nav st) (d_prev_GPS_frame_4bytes st) Hds)
    as (msgs & nav & seen & Hn & Hdec & Hx & Ht); [rewrite <- list_fmap_compose; exact Hb|done|done|].
  exists msgs, nav, seen. split; [done|]. split; [done|].
  assert (push_back d_required_symbols (d_symbol_history (coast st xs)) (float_of_double (Prompt_I x)) =
    (fun x => float_of_double (Prompt_I x)) <$> xs ++ [x]) as Hpush.
  { cbn [coast d_symbol_history]. rewrite fmap_app.
    change (push_back ?c (fold_left ?f ?a ?b) ?y) with (fold_left f [y] (fold_left f a b)). rewrite <- fold_left_app.
    rewrite push_all by (done || (unfold d_required_symbols, GPS_L1_CA.GPS_SUBFRAME_BITS; lia)).
    rewrite length_app, length_fmap, Hl. cbn [length]. change (Z.to_nat d_required_symbols) with 300%nat.
    replace (length (d_symbol_history st) + (299 + 1) - 300)%nat with (length (d_symbol_history st)) by lia.
    by rewrite drop_app_length. }
  unfold general_work. rewrite Hpush. unfold frame_sync. cbn [coast d_stat d_preamble_index d_sample_counter d_nav d_prev_GPS_frame_4bytes d_last_valid_preamble].
  rewrite Hst, Hix, Hlv, Hl. change (Z.of_nat 299) with 299. unfold d_preamble_period_symbols, GPS_L1_CA.GPS_SUBFRAME_BITS.
  replace (d_sample_counter st + 299 + 1) with (d_sample_counter st + 300) by lia.
  rewrite (uwrap_small 64 (d_sample_counter st + 300)) by lia. rewrite Z.leb_refl, Hdec. cbn [mbind option_bind].
  replace (d_sample_counter st + 300 - d_sample_counter st) with 300 by lia.
  change (d_max_symbols_without_valid_frame <? u64 300) with false. rewrite andb_false_r.
  unfold update_tow. cbn [s_preamble s_nav s_TOW_cur s_TOW_pre s_TOW_set]. rewrite Ht.
  pose proof (tow_count_range ds (proj1 Hds)) as Hr. unfold landed, next_tow.
  destruct (Z.eqb_spec (6 * tow_count ds) 0) as [H0|H0]; destruct (Z.eqb_spec (tow_count ds) 0) as [H1|H1]; try lia; cbn [negb].
  - cbn. rewrite Hl, Htw. done.
  - rewrite tow_ms_exact by lia. replace (1000 * (6 * tow_count ds)) with (6000 * tow_count ds) by lia. cbn. done.
Qed.

(** ** Streams of subframes *)

Lemma landed_locked i prev st xs ds nav seen : locked i prev st -> length xs = 300%nat ->
  Z.land seen 3 = Z.land (arrives i (List.last (transmit prev ds) prev)) 3 ->
  locked i (List.last (transmit prev ds) prev) (landed st xs ds nav seen).
Proof. intros HL Hl Hs. split; cbn; try done; [pose proof (locked_counter _ _ _ HL); lia|rewrite length_fmap; lia]. Qed.

(** The stamps of a subframe: 20 ms apart, the last one from the subframe itself. *)
Lemma run_subframe i prev st xs ds : locked i prev st -> length xs = 300%nat -> is_subframe ds -> 1 <= subframe_id ds <= 5 ->
  symbol_bit <$> xs = words_message (arrives i <$> transmit prev ds) -> d_sample_counter st + 300 < 2 ^ 64 ->
  0 <= d_TOW_at_current_symbol_ms st -> d_TOW_at_current_symbol_ms st + 6000 < 2 ^ 32 ->
  exists msgs nav seen, nav_step ds (d_nav st) = Some (msgs, nav) /\
    Z.land seen 3 = Z.land (arrives i (List.last (transmit prev ds) prev)) 3 /\
    run st xs = Some (landed st xs ds nav seen, msgs, imap (fun k x => Some (stamp (d_flag_PLL_180_deg_phase_locked st) x
      (if Nat.eqb k 299 then next_tow ds (d_TOW_at_current_symbol_ms st + 20 * 299) else d_TOW_at_current_symbol_ms st + 20 * (Z.of_nat k + 1)))) xs).
Proof.
  intros HL Hl Hds Hid Hb Hc Ht0 Ht. destruct (decide (xs = [])) as [->|Hne]; [done|].
  destruct (exists_last Hne) as (ys & x & ->). rewrite length_app in Hl. cbn [length] in Hl.
  assert (length ys = 299%nat) as Hy by lia.
  destruct (land_symbol i prev st ys x ds) as (msgs & nav & seen & Hn & Hs & Hg); try done.
  exists msgs, nav, seen. split; [done|]. split; [done|].
  rewrite run_app, (run_coast i prev) by (done || lia || (right; by destruct ys)). cbn [mbind option_bind run]. rewrite Hg. cbn [mbind option_bind].
  rewrite app_nil_r, imap_app. cbn [app imap]. rewrite Hy. do 3 f_equal.
  apply imap_ext. intros k y Hk%lookup_lt_Some. rewrite (proj2 (Nat.eqb_neq k 299)) by lia. done.
Qed.

(** What a sequence of subframes is decoded to. *)
Fixpoint nav_steps (dss : list (list Z)) (nav : Gps_Navigation_Message) : option (list tlm_msg * Gps_Navigation_Message) :=
  match dss with
  | [] => Some ([], nav)
  | ds :: dss' => '(m1, nav1) ← nav_step ds nav; '(m2, nav2) ← nav_steps dss' nav1; Some (m1 ++ m2, nav2)
  end.

(** Subframes of the five kinds, their time counts following [c]. *)
Fixpoint consecutive (c : Z) (dss : list (list Z)) : Prop :=
  match dss with
  | [] => True
  | ds :: dss' => is_subframe ds /\ 1 <= subframe_id ds <= 5 /\ tow_count ds = c + 1 /\ consecutive (c + 1) dss'
  end.

Lemma last_app_default {A} (l1 l2 : list A) d : List.last (l1 ++ l2) d = List.last l2 (List.last l1 d).
Proof. revert d. induction l1 as [|y l1 IH]; intros d; [done|]. cbn [app]. rewrite !last_cons_default. apply IH. Qed.

Lemma transmit_app prev l1 l2 : transmit prev (l1 ++ l2) = transmit prev l1 ++ transmit (List.last (transmit prev l1) prev) l2.
Proof. revert prev. induction l1 as [|d l1 IH]; intros prev; [done|]. cbn [app transmit]. rewrite last_cons_default. f_equal. apply IH. Qed.

Lemma locked_run i c dss : forall prev st xs, locked i prev st -> consecutive c dss -> 0 <= c ->
  d_TOW_at_current_symbol_ms st = 6000 * c ->
  symbol_bit <$> xs = words_message (arrives i <$> transmit prev (mjoin dss)) ->
  d_sample_counter st + 300 * Z.of_nat (length dss) < 2 ^ 64 -> c + Z.of_nat (length dss) <= 100800 ->
  exists msgs nav st', nav_steps dss (d_nav st) = Some (msgs, nav) /\
    run st xs = Some (st', msgs, imap (fun k x => Some (stamp (d_flag_PLL_180_deg_phase_locked st) x (6000 * c + 20 * (Z.of_nat k + 1)))) xs) /\
    locked i (List.last (transmit prev (mjoin dss)) prev) st' /\ d_nav st' = nav /\
    d_TOW_at_current_symbol_ms st' = 6000 * (c + Z.of_nat (length dss)).
Proof.
  revert c. induction dss as [|ds dss IH]; intros c prev st xs HL Hcs Hc Ht Hb Hn Hm.
  - cbn in Hb. apply fmap_nil_inv in Hb as ->. exists [], (d_nav st), st. cbn. repeat split; try done; [apply HL..|lia].
  - destruct Hcs as (Hds & Hid & Htc & Hcs). cbn [length] in *. cbn [mjoin list_join] in *. rewrite transmit_app in *.
    rewrite fmap_app in Hb. unfold words_message in Hb. rewrite bind_app in Hb. fold (words_message (arrives i <$> transmit prev ds)) in Hb.
    apply fmap_app_inv in Hb as (ys & zs & Hy & Hz & ->).
    assert (length ys = 300%nat) as Hl.
    { rewrite <- (length_fmap symbol_bit), <- Hy, words_message_length, length_fmap, transmit_length, (proj1 Hds). done. }
    destruct (run_subframe i prev st ys ds) as (m1 & nav1 & seen & Hn1 & Hs & Hr); try done; try lia.
    assert (next_tow ds (d_TOW_at_current_symbol_ms st + 20 * 299) = 6000 * (c + 1)) as Hnt.
    { unfold next_tow. rewrite (proj2 (Z.eqb_neq _ _)) by lia. lia. }
    destruct (IH (c + 1) (List.last (transmit prev ds) prev) (landed st ys ds nav1 seen) zs) as (m2 & nav2 & st2 & Hn2 & Hr2 & HL2 & Hnav & Ht2).
    { by apply landed_locked. } { done. } { lia. } { exact Hnt. } { done. } { cbn [landed d_sample_counter]. lia. } { lia. }
    exists (m1 ++ m2), nav2, st2. cbn [nav_steps]. rewrite Hn1. cbn [mbind option_bind]. cbn [landed d_nav] in Hn2. rewrite Hn2. split; [done|].
    rewrite run_app, Hr. cbn [mbind option_bind]. rewrite Hr2. cbn [mbind option_bind].
    rewrite last_app_default.
    split; [|repeat split; [apply HL2..|done|rewrite Ht2; lia]].
    do 2 f_equal. rewrite imap_app. f_equal.
    + apply imap_ext. intros k x Hk%lookup_lt_Some. do 2 f_equal. destruct (Nat.eqb_spec k 299); lia.
    + apply imap_ext. intros k x _. cbn [landed d_flag_PLL_180_deg_phase_locked compose]. unfold compose. do 2 f_equal. lia.
Qed.
