(* ===== verification/GpsSafe.v ===== *)
(** * The GPS L1 C/A telemetry decoder on any input

    The decoder neither reads nor writes out of bounds and never converts an out-of-range
    number, whatever symbols tracking delivers, and its members keep their invariant. *)
From S2P Require Import Prelude Linear GnssSignal Doubles NavBits GpsNav GpsTlm GpsTlmProps GpsTlmLock.

#[local] Open Scope Z_scope.

(** ** Subframes *)

(** The loop of [decode_subframe] has room for what is left of 300 symbols. *)
Record acc_ok (left : Z) (a : subframe_acc) : Prop := {
  acc_bit : 0 <= frame_bit_index a < 30;
  acc_word : 0 <= word_index a;
  acc_left : 30 * word_index a + frame_bit_index a + left <= 300;
  acc_buf : length (subframe a) = 40%nat }.

Lemma decode_symbol_ok n a s : acc_ok (n + 1) a -> 0 <= n -> exists a', decode_symbol a s = Some a' /\ acc_ok n a'.
Proof.
  intros [Hb Hw Hl Hs] Hn. unfold decode_symbol. destruct (Z.eqb_spec (frame_bit_index a + 1) 30) as [He|He].
  - unfold store_word, GPS_L1_CA.GPS_WORD_LENGTH. rewrite decide_True by (rewrite Hs; lia). cbn [mbind option_bind].
    eexists. split; [done|]. split; cbn [frame_bit_index word_index subframe]; try lia. rewrite length_splice; [done|]. cbn [length word_bytes]. lia.
  - eexists. split; [done|]. split; cbn [frame_bit_index word_index subframe]; (lia || done).
Qed.

Lemma decode_symbols_ok l a : acc_ok (Z.of_nat (length l)) a -> exists a', decode_symbols a l = Some a' /\ length (subframe a') = 40%nat.
Proof.
  revert a. induction l as [|s l IH]; intros a Ha; [exists a; split; [done|apply Ha]|]. cbn [length decode_symbols] in *.
  destruct (decode_symbol_ok (Z.of_nat (length l)) a s) as (a' & -> & Ha'); [|lia|].
  - replace (Z.of_nat (length l) + 1) with (Z.of_nat (S (length l))) by lia. done.
  - cbn [mbind option_bind]. by apply IH.
Qed.

Lemma bytes_word_total buf i : length buf = 40%nat -> 0 <= i < 10 -> is_Some (bytes_word buf (i * 4)).
Proof.
  intros Hl Hi. unfold bytes_word. assert (forall k, 0 <= k < 40 -> exists b, rd buf k = Some b) as H.
  { intros k Hk. rewrite rd_nonneg by lia. apply lookup_lt_is_Some. lia. }
  destruct (H (i * 4) ltac:(lia)) as [? ->], (H (i * 4 + 1) ltac:(lia)) as [? ->], (H (i * 4 + 2) ltac:(lia)) as [? ->],
    (H (i * 4 + 3) ltac:(lia)) as [? ->].
  cbn. eauto.
Qed.

Lemma unpack_bits_total buf : length buf = 40%nat -> exists bits, unpack_bits buf = Some bits /\ length bits = 300%nat.
Proof.
  intros Hl. unfold unpack_bits, GPS_L1_CA.GPS_WORD_BITS.
  destruct (for_loop_inv (fun i l => 0 <= i <= 10 /\ length l = 300%nat) 10 0 (fun i bits => gps_word ← bytes_word buf (i * 4);
       for_loop 30 0 (fun j bits => wr bits (30 * (9 - i) + j) (Z.testbit gps_word j)) bits) (replicate 300 false)) as (s & -> & Hs).
  - split; [lia|done].
  - intros i l Hi [Hi' Hll]. destruct (bytes_word_total buf i Hl ltac:(lia)) as [w ->]. cbn [mbind option_bind].
    rewrite write_bits by lia. eexists. split; [done|]. rewrite length_splice by (rewrite length_fmap, length_seqZ; lia). split; [lia|done].
  - destruct Hs. eauto.
Qed.

(** The TOW is a count of 17 bits times six. *)
Lemma decode_fields_tow m nav id nav1 : Z.of_nat (length m) = 300 -> 0 <= d_TOW nav < 2 ^ 20 ->
  decode_fields (reverse m) nav = Some (id, nav1) -> 0 <= d_TOW nav1 < 2 ^ 20.
Proof.
  intros Hm Hn H. destruct (decode_fields_head _ _ _ _ Hm H) as [Hid Ht]. destruct (decide (1 <= id <= 5)) as [Hi|Hi].
  - rewrite Ht by done. pose proof (bits_val_range (field m GPS_L1_CA.TOW)) as Hr. rewrite (field_length 300) in Hr by done.
    change (slices_width _) with 17 in Hr. lia.
  - unfold decode_fields in H. rewrite (uint_spec m Hm GPS_L1_CA.SUBFRAME_ID) in H by done. cbn [mbind option_bind] in H. rewrite <- Hid in H.
    destruct (subframe_cases id) as [?|[?|[?|[?|[?|[_ Hc]]]]]]; try lia. rewrite Hc in H. by simplify_eq.
Qed.

Lemma decode_subframe_ok history nav prev : (length history <= 300)%nat -> 0 <= d_TOW nav < 2 ^ 20 ->
  exists ok msgs nav' x, decode_subframe history nav prev = Some (ok, msgs, nav', x) /\ 0 <= d_TOW nav' < 2 ^ 20.
Proof.
  intros Hl Hn. unfold decode_subframe.
  destruct (decode_symbols_ok history {| frame_bit_index := 0; word_index := 0; GPS_frame_4bytes := 0;
    subframe_synchro_confirmation := true; subframe := replicate 40 0; prev_4bytes := prev |}) as (a & -> & Ha); [split; cbn; (done || lia)|].
  cbn [mbind option_bind]. destruct (subframe_synchro_confirmation a); [|by eauto 10].
  unfold subframe_decoder. destruct (unpack_bits_total _ Ha) as (bits & -> & Hb). cbn [mbind option_bind].
  assert (Z.of_nat (length (reverse bits)) = 300) as Hb' by (rewrite length_reverse; lia).
  destruct (decode_fields_total (reverse bits) nav Hb') as [[id nav1] Hd]. pose proof (decode_fields_tow _ _ _ _ Hb' Hn Hd) as Ht.
  rewrite reverse_involutive in Hd. rewrite Hd. cbn [mbind option_bind]. case_match; [|by eauto 10].
  pose proof (publish_tow id nav1) as Hp. destruct (publish id nav1) as [msgs nav2]. cbn in Hp. do 4 eexists. split; [done|]. by rewrite Hp.
Qed.

(** ** The block *)

Record tlm_ok (st : gps_l1_ca_telemetry_decoder) : Prop := {
  ok_history : Z.of_nat (length (d_symbol_history st)) <= 300;
  ok_tow : 0 <= d_TOW (d_nav st) < 2 ^ 20;
  ok_stat : d_stat st = 0 \/ d_stat st = 1;
  ok_errors : 0 <= d_CRC_error_counter st <= 2;
  ok_set : d_flag_TOW_set st = true -> d_stat st = 1;
  ok_cur : 0 <= d_TOW_at_current_symbol_ms st < 2 ^ 32;
  ok_pre : 0 <= d_TOW_at_Preamble_ms st < 2 ^ 32;
  ok_counter : 0 <= d_sample_counter st < 2 ^ 64 }.

(** The same of what the [switch] leaves. *)
Record sync_ok (s : sync_state) : Prop := {
  sok_tow : 0 <= d_TOW (s_nav s) < 2 ^ 20;
  sok_stat : s_stat s = 0 \/ s_stat s = 1;
  sok_errors : 0 <= s_errors s <= 2;
  sok_set : s_TOW_set s = true -> s_stat s = 1;
  sok_preamble : s_preamble s = true -> s_stat s = 1;
  sok_cur : 0 <= s_TOW_cur s < 2 ^ 32;
  sok_pre : 0 <= s_TOW_pre s < 2 ^ 32 }.

Lemma correlate_total history : (8 <= length history)%nat -> is_Some (correlate history).
Proof.
  intros Hl. unfold correlate. destruct (for_loop_inv (fun i (_ : Z) => 0 <= i <= 8) 8 0 (fun i corr_value =>
    s ← rd history i; p ← rd d_preamble_samples i; Some (if lt0 s then corr_value - p else corr_value + p)) 0) as (s & -> & _); [lia| |eauto].
  intros i v Hi _. rewrite !rd_nonneg by lia.
  destruct (lookup_lt_is_Some_2 history (Z.to_nat i)) as [x ->]; [lia|].
  destruct (lookup_lt_is_Some_2 d_preamble_samples (Z.to_nat i)) as [p ->]; [cbn; lia|]. cbn [mbind option_bind]. eexists. split; [done|lia].
Qed.

Lemma frame_sync_ok st history counter : tlm_ok st -> (length history <= 300)%nat ->
  exists msgs s, frame_sync st history counter = Some (msgs, s) /\ sync_ok s.
Proof.
  intros [Hh Ht Hs He Hset Hc Hp Hn] Hl. unfold frame_sync.
  destruct (decode_subframe_ok history (d_nav st) (d_prev_GPS_frame_4bytes st) Hl Ht) as (ok & msgs & nav & x & Hd & Htow).
  destruct Hs as [Hs|Hs]; rewrite Hs.
  - assert (exists c, (if GPS_L1_CA.GPS_CA_PREAMBLE_LENGTH_BITS <=? Z.of_nat (length history) then correlate history else Some 0) = Some c) as [c ->].
    { destruct (Z.leb_spec GPS_L1_CA.GPS_CA_PREAMBLE_LENGTH_BITS (Z.of_nat (length history))) as [H8|]; [|eauto].
      unfold GPS_L1_CA.GPS_CA_PREAMBLE_LENGTH_BITS in H8. destruct (correlate_total history) as [c ->]; [lia|eauto]. }
    cbn [mbind option_bind]. rewrite Hd. cbn [mbind option_bind]. destruct ok; case_match; do 2 eexists; (split; [done|]); split; cbn; (done || lia || tauto).
  - case_match; [|do 2 eexists; split; [done|]; split; cbn; (done || lia || tauto)].
    rewrite Hd. cbn [mbind option_bind]. destruct ok; [do 2 eexists; split; [done|]; split; cbn; (done || lia || tauto)|].
    destruct (Z.ltb_spec 2 (d_CRC_error_counter st + 1)); do 2 eexists; (split; [done|]); split; cbn; (done || lia || tauto).
Qed.

Lemma update_tow_ok s : sync_ok s -> exists cur pre set, update_tow s = Some (cur, pre, set) /\
  0 <= cur < 2 ^ 32 /\ 0 <= pre < 2 ^ 32 /\ (set = true -> s_stat s = 1).
Proof.
  intros [Ht Hs He Hset Hpre Hc Hp]. unfold update_tow. destruct (s_preamble s).
  - destruct (Z.eqb_spec (d_TOW (s_nav s)) 0); cbn [negb]; [by eauto 10|]. rewrite tow_ms_exact by lia. cbn [mbind option_bind].
    do 3 eexists. split; [done|]. split; [lia|]. split; [lia|]. intros _. by apply Hpre.
  - destruct (s_TOW_set s); [|by eauto 10]. do 3 eexists. split; [done|]. split; [apply uwrap_range; lia|]. split; [done|]. intros _. by apply Hset.
Qed.

Lemma general_work_ok st x : tlm_ok st -> exists st' msgs o, general_work st x = Some (st', msgs, o) /\ tlm_ok st' /\
  (is_Some o <-> d_flag_TOW_set st' = true).
Proof.
  intros Hok. unfold general_work.
  pose proof (push_back_length d_required_symbols (d_symbol_history st) (float_of_double (Prompt_I x)) ltac:(done) (ok_history _ Hok)) as Hl.
  change d_required_symbols with 300 in Hl at 2.
  destruct (frame_sync_ok st (push_back d_required_symbols (d_symbol_history st) (float_of_double (Prompt_I x)))
    (u64 (d_sample_counter st + 1)) Hok ltac:(lia)) as (msgs & s & -> & Hs). cbn [mbind option_bind].
  destruct (update_tow_ok s Hs) as (cur & pre & set & -> & Hc & Hp & Hset). cbn [mbind option_bind].
  do 3 eexists. split; [done|]. split.
  - destruct Hs. split; cbn; try done. apply uwrap_range. lia.
  - cbn. destruct set; split; try done; eauto.
Qed.

Lemma tlm_run_ok xs : forall st, tlm_ok st -> exists st' msgs outs, run st xs = Some (st', msgs, outs) /\ tlm_ok st' /\ length outs = length xs.
Proof.
  induction xs as [|x xs IH]; intros st Hok; [by eauto 10|]. cbn [run].
  destruct (general_work_ok st x Hok) as (st1 & m1 & o1 & -> & Hok1 & _). cbn [mbind option_bind].
  destruct (IH st1 Hok1) as (st2 & m2 & o2 & -> & Hok2 & Hl). cbn [mbind option_bind]. do 3 eexists. split; [done|]. split; [done|]. cbn. by rewrite Hl.
Qed.

Lemma init_ok satellite : tlm_ok (gps_l1_ca_telemetry_decoder_init satellite).
Proof. split; cbn; (done || lia || tauto). Qed.

Lemma reset_ok st : tlm_ok st -> tlm_ok (reset st).
Proof. intros [Hh Ht Hs He Hset Hc Hp Hn]. split; cbn; (done || lia || tauto). Qed.

Lemma set_satellite_ok satellite st : tlm_ok st -> tlm_ok (set_satellite satellite st).
Proof. intros [Hh Ht Hs He Hset Hc Hp Hn]. split; cbn; (done || lia || tauto). Qed.
