(* ===== verification/GpsProps.v ===== *)
(** * GPS L1 C/A: the theorems

    What the decoder of the legacy GPS message promises, from the parity of a word to the
    stamped symbols and the published ephemeris. *)
From S2P Require Import Prelude Linear GnssSignal Doubles NavBits GpsNav GpsTlm GpsTlmProps GpsTlmLock GpsSafe.

From Stdlib Require Import SpecFloat.

#[local] Open Scope Z_scope.

(** ** Concrete subframes *)

(** A symbol of the given sign. *)
Definition sym (b : bool) : Gnss_Synchro :=
  {| Prompt_I := if b then dbl_of_Z 1 else dbl_of_Z (-1); Carrier_phase_rads := dbl_zero; TOW_at_current_symbol_ms := 0;
     Flag_valid_word := false |}.

(** The source bits of a subframe: telemetry word, hand-over word, eight words of data. *)
Definition subframe_source (tow id : Z) (data : list Z) : list Z := 0x8B0000 :: tow * 2 ^ 7 + id * 2 ^ 2 :: data.

Definition demo_sf1 : list Z := subframe_source 100 1 [0x000000; 0; 0; 0; 0x000001; 0x070010; 0x000000; 0x000004].
Definition demo_sf2 : list Z := subframe_source 101 2 [0x070001; 0; 0; 0; 0; 0; 0; 0x001000].
Definition demo_sf3 : list Z := subframe_source 102 3 [0; 0; 0; 0; 0; 0; 0; 0x070000].

Definition demo_symbols (inverted : bool) (prev : Z) (ds : list Z) : list Gnss_Synchro :=
  sym <$> words_message (arrives inverted <$> transmit prev ds).

Lemma sym_bit b : symbol_bit (sym b) = b.
Proof. by destruct b. Qed.

Lemma demo_symbols_bits i prev ds : symbol_bit <$> demo_symbols i prev ds = words_message (arrives i <$> transmit prev ds).
Proof.
  unfold demo_symbols. rewrite <- list_fmap_compose. rewrite <- (list_fmap_id (words_message _)) at 2. apply list_fmap_ext. intros k b _. apply sym_bit.
Qed.

Lemma demo_symbols_nonzero i prev ds : Forall (fun x => lt0 (float_of_double (Prompt_I x)) = negb (symbol_bit x)) (demo_symbols i prev ds).
Proof. apply Forall_fmap, Forall_true. by intros []. Qed.

(** ** Finding the subframes *)

(** The eight bits of the preamble, in either phase. *)
Lemma correlate_preamble i history : (8 <= length history)%nat -> Forall (fun s => lt0 s = negb (gt0 s)) history ->
  take 8 (gt0 <$> history) = xorb i <$> GPS_L1_CA.GPS_CA_PREAMBLE -> correlate history = Some (if i then -8 else 8).
Proof.
  intros Hl Hz Hb. do 8 (destruct history as [|? history]; [cbn in Hl; lia|]). clear Hl.
  do 8 (apply Forall_cons_1 in Hz as [? Hz]). cbn -[gt0] in Hb. unfold correlate. cbn [for_loop].
  repeat match goal with |- context [rd ?l ?i] => let r := eval vm_compute in (rd l i) in change (rd l i) with r; cbn [mbind option_bind] end.
  repeat match goal with H : lt0 _ = _ |- _ => rewrite H; clear H end.
  destruct i; cbn -[gt0] in Hb; injection Hb as -> -> -> -> -> -> -> ->; done.
Qed.

(** The first bits of a transmission, when the word before ended in 00. *)
Lemma transmit_preamble i prev d ds : 0 <= d < 2 ^ 24 -> Z.land prev 3 = 0 -> Z.shiftr d 16 = 0x8B ->
  take 8 (words_message (arrives i <$> transmit prev (d :: ds))) = xorb i <$> GPS_L1_CA.GPS_CA_PREAMBLE.
Proof.
  intros Hd Hp Hpre. cbn [transmit]. rewrite fmap_cons. unfold words_message. rewrite mbind_cons.
  rewrite take_app_le by (rewrite length_val_bits; lia).
  assert (Z.testbit prev 0 = false) as Hp0 by (rewrite testbit_land_3, Hp by lia; done).
  assert (forall k, (k < 8)%nat -> Z.testbit (icd_word prev d) (29 - Z.of_nat k) = Z.testbit 0x8B (7 - Z.of_nat k)) as Hb.
  { intros k Hk. rewrite <- Hpre, Z.shiftr_spec by lia. unfold icd_word. rewrite Hp0, Z.lxor_0_r, Z.lxor_spec, Z.shiftl_spec by lia.
    pose proof (icd_parity_range (source_word prev d)) as Hr. rewrite (testbit_above 6 _ (29 - Z.of_nat k)), xorb_false_r by (done || lia). f_equal. lia. }
  apply list_eq. intros k. destruct (decide (k < 8)%nat) as [Hk|Hk]; [|rewrite !lookup_ge_None_2; [done|..]; rewrite ?length_take, ?length_fmap; cbn; lia].
  rewrite lookup_take_lt, lookup_val_bits, decide_True, arrives_lxor, Z.lxor_spec by lia.
  replace (Z.of_nat 30 - 1 - Z.of_nat k) with (29 - Z.of_nat k) by lia. rewrite Hb by done.
  do 8 (destruct k as [|k]; [by destruct i|]). lia.
Qed.

(** Nothing but the last symbol is missing from a subframe at the head of the buffer. *)
Lemma lock_step i prev st xs x d ds : d_stat st = 0 -> is_subframe (d :: ds) -> 1 <= subframe_id (d :: ds) <= 5 ->
  tow_count (d :: ds) <> 0 -> Z.shiftr d 16 = 0x8B -> Z.land prev 3 = 0 ->
  Z.land (d_prev_GPS_frame_4bytes st) 3 = Z.land (arrives i prev) 3 ->
  push_back d_required_symbols (d_symbol_history st) (float_of_double (Prompt_I x)) = (fun x => float_of_double (Prompt_I x)) <$> xs ->
  Forall (fun x => lt0 (float_of_double (Prompt_I x)) = negb (symbol_bit x)) xs ->
  symbol_bit <$> xs = words_message (arrives i <$> transmit prev (d :: ds)) ->
  0 <= d_sample_counter st -> d_sample_counter st + 1 < 2 ^ 64 ->
  exists msgs nav st' m0, nav_step (d :: ds) (d_nav st) = Some (msgs, nav) /\
    general_work st x = Some (st', m0 ++ msgs, Some (stamp i x (6000 * tow_count (d :: ds)))) /\
    locked i (List.last (transmit prev (d :: ds)) prev) st' /\ d_nav st' = nav /\ d_flag_PLL_180_deg_phase_locked st' = i /\
    d_TOW_at_current_symbol_ms st' = 6000 * tow_count (d :: ds).
Proof.
  intros Hst Hds Hid Htc Hpre Hp3 Hprev Hpush Hz Hb Hc0 Hc.
  set (h := (fun x => float_of_double (Prompt_I x)) <$> xs) in *.
  assert (gt0 <$> h = words_message (arrives i <$> transmit prev (d :: ds))) as Hg by (unfold h; rewrite <- list_fmap_compose; exact Hb).
  assert (length h = 300%nat) as Hl by (rewrite <- (length_fmap gt0), Hg, words_message_length, length_fmap, transmit_length, (proj1 Hds); done).
  assert (correlate h = Some (if i then -8 else 8)) as Hcorr.
  { apply correlate_preamble; [lia| |].
    - apply Forall_fmap. exact Hz.
    - rewrite Hg. apply transmit_preamble; [|done|done]. destruct Hds as [_ H]. by inversion_clear H. }
  destruct (decode_subframe_transmitted i prev (d :: ds) h (d_nav st) (d_prev_GPS_frame_4bytes st) Hds Hg Hprev Hid)
    as (msgs & nav & seen & Hn & Hdec & Hx & Ht).
  pose proof (tow_count_range (d :: ds) (proj1 Hds)) as Hr.
  assert (frame_sync st h (u64 (d_sample_counter st + 1)) = Some (msgs, {| s_nav := nav; s_prev := seen; s_index := d_sample_counter st + 1;
    s_last_valid := d_sample_counter st + 1; s_errors := 0; s_stat := 1; s_TOW_pre := d_TOW_at_Preamble_ms st;
    s_TOW_cur := d_TOW_at_current_symbol_ms st; s_frame_sync := true; s_preamble := true; s_pll := i; s_TOW_set := false |})) as Hsync.
  { unfold frame_sync. rewrite Hst, Hl. change (GPS_L1_CA.GPS_CA_PREAMBLE_LENGTH_BITS <=? Z.of_nat 300) with true.
    rewrite Hcorr. cbn [mbind option_bind]. rewrite uwrap_small by lia.
    assert (d_samples_per_preamble <=? Z.abs (if i then -8 else 8) = true) as -> by (by destruct i). rewrite Hdec. cbn. by destruct i. }
  exists msgs, nav. unfold general_work. rewrite Hpush, Hsync. cbn [mbind option_bind]. unfold update_tow. cbn [s_preamble s_nav]. rewrite Ht.
  rewrite (proj2 (Z.eqb_neq (6 * _) 0)) by lia. cbn [negb]. rewrite tow_ms_exact by lia. cbn [mbind option_bind].
  replace (1000 * (6 * tow_count (d :: ds))) with (6000 * tow_count (d :: ds)) by lia.
  do 2 eexists. split; [done|]. split; [reflexivity|]. rewrite (uwrap_small 64 (d_sample_counter st + 1)) by lia. split; [|done].
  split; cbn [d_stat d_preamble_index d_sample_counter d_last_valid_preamble d_symbol_history d_prev_GPS_frame_4bytes d_flag_TOW_set
    s_stat s_index s_last_valid s_prev]; try done; lia.
Qed.

(** ** Published ephemerides *)

Definition consistent (e : Gps_Ephemeris.ephemeris) : Prop :=
  Gps_Ephemeris.IODC e = Gps_Ephemeris.IODE_SF2 e /\ Gps_Ephemeris.IODE_SF2 e = Gps_Ephemeris.IODE_SF3 e /\ 0 <= Gps_Ephemeris.IODC e < 256.

Definition iode_ok (nav : Gps_Navigation_Message) : Prop := 0 <= d_IODE_SF2 (sf2 nav) < 256.

Lemma decode_fields_iode m nav id nav1 : Z.of_nat (length m) = 300 -> iode_ok nav -> decode_fields (reverse m) nav = Some (id, nav1) -> iode_ok nav1.
Proof.
  intros Hm Hn. unfold decode_fields. rewrite (uint_spec m Hm GPS_L1_CA.SUBFRAME_ID) by done. cbn [mbind option_bind].
  generalize (bits_val (field m GPS_L1_CA.SUBFRAME_ID)) as z. intros z H.
  destruct (subframe_cases z) as [->|[->|[->|[->|[->|[Hz Hc]]]]]]; [| | | | |rewrite Hc in H; by simplify_eq].
  2: { unfold read_how, read_sf2 in H. revert H. reads. intros [= <- <-]. unfold iode_ok. cbn [sf2 d_IODE_SF2].
       pose proof (bits_val_range (field m GPS_L1_CA.IODE_SF2)) as Hr. rewrite (field_length 300) in Hr by done.
       change (slices_width _) with 8 in Hr. exact Hr. }
  all: repeat (apply bind_Some in H as (? & ? & H)); repeat case_match; repeat (apply bind_Some in H as (? & ? & H)); simplify_eq; done.
Qed.

Lemma publish_consistent id nav : iode_ok nav -> iode_ok (publish id nav).2 /\ forall e, pub_ephemeris e ∈ (publish id nav).1 -> consistent e.
Proof.
  intros Hn. unfold iode_ok in *. destruct (decide (id = 4)) as [->|H4].
  - unfold publish, get_iono, get_utc_model. repeat case_match; simplify_eq; cbn in *; simplify_eq; (split; [done|]); intros e He;
      repeat (apply elem_of_cons in He as [He|He]); try done; by apply elem_of_nil in He.
  - assert (publish id nav = (if decide (1 <= id <= 3) then (if (satellite_validation nav).1 then [pub_ephemeris (get_ephemeris (satellite_validation nav).2)] else [],
      (satellite_validation nav).2) else ([], nav))) as ->.
    { unfold publish. destruct (satellite_validation nav) as [v n]. destruct (decide (1 <= id <= 3)).
      - assert (id = 1 \/ id = 2 \/ id = 3) as [->|[->| ->]] by lia; done.
      - destruct id as [|p|p]; try done. destruct p as [[p|p|]|[p|[p|p|]|]|]; try done; lia. }
    destruct (decide (1 <= id <= 3)); [|split; [done|]; cbn; intros e He; by apply elem_of_nil in He].
    split; [done|]. cbn [fst snd]. destruct (satellite_validation nav) as [v n] eqn:E. destruct v; cbn; [|by intros e He; apply elem_of_nil in He].
    intros e He. apply list_elem_of_singleton in He. injection He as ->. unfold satellite_validation in E. injection E as E1 E2. subst n.
    rewrite E1. repeat (apply andb_true_iff in E1 as [E1 ?]). unfold consistent. cbn.
    repeat match goal with H : (_ =? _) = true |- _ => apply Z.eqb_eq in H end. lia.
Qed.

(** What a decoded subframe is published as keeps to the fields that were decoded. *)
Lemma nav_steps_consistent dss : forall nav msgs nav', Forall is_subframe dss -> iode_ok nav -> nav_steps dss nav = Some (msgs, nav') ->
  iode_ok nav' /\ forall e, pub_ephemeris e ∈ msgs -> consistent e.
Proof.
  induction dss as [|ds dss IH]; intros nav msgs nav' Hd Hn H; cbn [nav_steps] in H.
  - simplify_eq. split; [done|]. intros e He. by apply elem_of_nil in He.
  - inversion_clear Hd as [|? ? Hd1 Hd2]. unfold nav_step in H.
    destruct (decode_fields (reverse (source_message ds)) nav) as [[id nav1]|] eqn:E; [|done]. cbn [mbind option_bind] in H.
    pose proof (decode_fields_iode _ _ _ _ (source_message_length ds (proj1 Hd1)) Hn E) as Hn1.
    destruct (publish_consistent id nav1 Hn1) as [Hn2 Hc]. destruct (publish id nav1) as [m1 nav2]. cbn [mbind option_bind] in H.
    destruct (nav_steps dss nav2) as [[m2 nav3]|] eqn:E2; [|done]. cbn in H. simplify_eq.
    destruct (IH _ _ _ Hd2 Hn2 E2) as [Hn3 Hc2]. split; [done|]. intros e [He|He]%elem_of_app; [by apply Hc|by apply Hc2].
Qed.

(** What the three subframes of an ephemeris say. *)
Definition raw (ds : list Z) (p : slices) : Z := bits_val (field (source_message ds) p).
Definition sraw (ds : list Z) (p : slices) : Z := signed_val (field (source_message ds) p).

Lemma sraw_range ds p : is_subframe ds -> field_ok 300 32 p = true -> Z.abs (sraw ds p) < 2 ^ 53.
Proof.
  intros [Hl _] Hp. unfold field_ok in Hp. apply andb_true_iff in Hp as [[Hi Hw]%andb_true_iff Hn]. apply Z.leb_le in Hw.
  unfold sraw. pose proof (field_length 300 _ p (source_message_length ds Hl) Hi) as Hlen.
  destruct (decide (field (source_message ds) p = [])) as [->|Hne]; [done|]. pose proof (signed_val_range _ Hne) as Hr. rewrite Hlen in Hr.
  pose proof (Z.pow_le_mono_r 2 (slices_width p - 1) 31 ltac:(lia) ltac:(lia)). lia.
Qed.

Lemma raw_range ds p : is_subframe ds -> field_ok 300 32 p = true -> 0 <= raw ds p < 2 ^ slices_width p.
Proof.
  intros [Hl _] Hp. unfold field_ok in Hp. apply andb_true_iff in Hp as [[Hi Hw]%andb_true_iff Hn].
  unfold raw. pose proof (bits_val_range (field (source_message ds) p)) as Hr.
  by rewrite (field_length 300 _ p (source_message_length ds Hl) Hi) in Hr.
Qed.

(** Fields by their place in the document: [n] bits from bit [b] of word [w], both counted
    from one. *)
Definition icd (ds : list Z) (w b n : Z) : Z := nth (Z.to_nat (w - 1)) ds 0 / 2 ^ (25 - b - n) mod 2 ^ n.

(** Two's complement. *)
Definition signed (n v : Z) : Z := if v <? 2 ^ (n - 1) then v else v - 2 ^ n.

Lemma val_bits_slice k v o n : (o + n <= k)%nat -> take n (drop o (val_bits k v)) = val_bits n (v / 2 ^ Z.of_nat (k - o - n)).
Proof.
  intros H. apply list_eq. intros i. rewrite lookup_val_bits. destruct (decide (i < n)%nat) as [Hi|Hi].
  - rewrite lookup_take_lt, lookup_drop, lookup_val_bits, decide_True by lia. f_equal.
    rewrite <- Z.shiftr_div_pow2, Z.shiftr_spec by lia. f_equal. lia.
  - apply lookup_ge_None_2. rewrite length_take, length_drop, length_val_bits. lia.
Qed.

Lemma slice_icd ds w b n : is_subframe ds -> 1 <= w <= 10 -> 1 <= b -> 1 <= n -> b + n <= 25 ->
  take (Z.to_nat n) (drop (Z.to_nat (30 * (w - 1) + b - 1)) (source_message ds)) = val_bits (Z.to_nat n) (icd ds w b n).
Proof.
  intros [Hl Hd] Hw Hb Hn Hbn. unfold source_message, words_message.
  destruct (lookup_lt_is_Some_2 ds (Z.to_nat (w - 1)) ltac:(lia)) as [d Hdw]. pose proof (Forall_lookup_1 _ _ _ _ Hd Hdw) as Hr. cbv beta in Hr.
  assert (take (Z.to_nat n) (drop (Z.to_nat (30 * (w - 1) + b - 1)) (mbind (val_bits 30) ((fun d => Z.shiftl d 6) <$> ds))) =
    take (Z.to_nat n) (drop (Z.to_nat (b - 1)) (val_bits 30 (Z.shiftl d 6)))) as ->.
  { apply list_eq. intros k. destruct (decide (k < Z.to_nat n)%nat) as [Hk|Hk].
    - rewrite !lookup_take_lt, !lookup_drop by lia.
      replace (Z.to_nat (30 * (w - 1) + b - 1) + k)%nat with (30 * Z.to_nat (w - 1) + (Z.to_nat (b - 1) + k))%nat by lia.
      apply (lookup_mbind (val_bits 30) 30 (length_val_bits 30)); [by rewrite list_lookup_fmap, Hdw|lia].
    - rewrite !lookup_ge_None_2; [done|..]; rewrite length_take; lia. }
  rewrite val_bits_slice by lia. unfold icd. rewrite (nth_lookup_Some _ _ _ _ Hdw).
  replace (Z.of_nat (30 - Z.to_nat (b - 1) - Z.to_nat n)) with (6 + (25 - b - n)) by lia.
  rewrite Z.pow_add_r, Z.shiftl_mul_pow2, <- Zdiv_Zdiv, Z.div_mul by lia.
  apply list_eq. intros k. rewrite !lookup_val_bits. destruct (decide (k < Z.to_nat n)%nat); [|done]. f_equal.
  by rewrite Z.mod_pow2_bits_low by lia.
Qed.

Lemma icd_range ds w b n : 0 <= n -> 0 <= icd ds w b n < 2 ^ n.
Proof. intros Hn. apply Z.mod_pos_bound. lia. Qed.

Lemma bits_val_icd ds w b n : 0 <= n -> bits_val (val_bits (Z.to_nat n) (icd ds w b n)) = icd ds w b n.
Proof. intros Hn. rewrite bits_val_val_bits, Z2Nat.id by done. apply Z.mod_small, icd_range. done. Qed.

Lemma signed_val_signed l : l <> [] -> signed_val l = signed (Z.of_nat (length l)) (bits_val l).
Proof.
  destruct l as [|x l]; [done|]. intros _. rewrite signed_val_cons, bits_val_cons. cbn [length]. unfold signed.
  replace (Z.of_nat (S (length l)) - 1) with (Z.of_nat (length l)) by lia. rewrite Nat2Z.inj_succ, Z.pow_succ_r by lia.
  pose proof (bits_val_range l). destruct x; cbn [Z.b2z]; destruct (Z.ltb_spec (Z.b2z true * 2 ^ Z.of_nat (length l) + bits_val l) (2 ^ Z.of_nat (length l))) as [?|?];
    cbn [Z.b2z] in *; case_match; lia.
Qed.

(** A field in one place, signed or not, and a field in two. *)
Section Places.
Context (ds : list Z) (Hds : is_subframe ds) (w b n : Z) (Hw : 1 <= w <= 10) (Hb : 1 <= b) (Hn : 1 <= n) (Hbn : b + n <= 25).

Lemma raw_icd : raw ds [(30 * (w - 1) + b, n)] = icd ds w b n.
Proof. unfold raw. rewrite field_cons, app_nil_r, slice_icd by done. by apply bits_val_icd; lia. Qed.

Lemma sraw_icd : sraw ds [(30 * (w - 1) + b, n)] = signed n (icd ds w b n).
Proof.
  unfold sraw. rewrite field_cons, app_nil_r, slice_icd by done. rewrite signed_val_signed.
  - rewrite length_val_bits, Z2Nat.id, bits_val_icd by lia. done.
  - intros H. apply (f_equal length) in H. rewrite length_val_bits in H. cbn in H. lia.
Qed.

Lemma raw_icd2 w' b' n' : 1 <= w' <= 10 -> 1 <= b' -> 1 <= n' -> b' + n' <= 25 ->
  raw ds [(30 * (w - 1) + b, n); (30 * (w' - 1) + b', n')] = icd ds w b n * 2 ^ n' + icd ds w' b' n'.
Proof.
  intros. unfold raw. rewrite !field_cons, app_nil_r, !slice_icd by done. rewrite bits_val_app, !bits_val_icd, length_val_bits, Z2Nat.id by lia. done.
Qed.

Lemma sraw_icd2 w' b' n' : 1 <= w' <= 10 -> 1 <= b' -> 1 <= n' -> b' + n' <= 25 ->
  sraw ds [(30 * (w - 1) + b, n); (30 * (w' - 1) + b', n')] = signed (n + n') (icd ds w b n * 2 ^ n' + icd ds w' b' n').
Proof.
  intros. unfold sraw. rewrite !field_cons, app_nil_r, !slice_icd by done. rewrite signed_val_signed.
  - rewrite bits_val_app, !bits_val_icd, length_app, !length_val_bits, Nat2Z.inj_add, !Z2Nat.id by lia. done.
  - intros E. apply (f_equal length) in E. rewrite length_app, !length_val_bits in E. cbn in E. lia.
Qed.
End Places.

Lemma flag_icd ds w b : is_subframe ds -> 1 <= w <= 10 -> 1 <= b <= 24 -> flag_val (source_message ds) [(30 * (w - 1) + b, 1)] = Z.testbit (icd ds w b 1) 0.
Proof. intros Hds Hw Hb. unfold flag_val. rewrite field_cons, app_nil_r, slice_icd by (done || lia). done. Qed.

(** Bits inside a field. *)
Lemma icd_part ds w b n b' n' : 1 <= b -> 0 <= n' -> b <= b' -> b' + n' <= b + n -> b + n <= 25 ->
  icd ds w b' n' = icd ds w b n / 2 ^ (b + n - b' - n') mod 2 ^ n'.
Proof.
  intros. unfold icd. replace (25 - b' - n') with ((25 - b - n) + (b + n - b' - n')) by lia. generalize (nth (Z.to_nat (w - 1)) ds 0) as v. intros v.
  rewrite Z.pow_add_r, <- Zdiv_Zdiv by lia. generalize (v / 2 ^ (25 - b - n)) as u. intros u. apply Z.bits_inj'. intros k Hk.
  destruct (decide (k < n')).
  - rewrite !Z.mod_pow2_bits_low, !Z.div_pow2_bits, Z.mod_pow2_bits_low by lia. done.
  - by rewrite !Z.mod_pow2_bits_high by lia.
Qed.

(** [publish] for the first three subframes. *)
Lemma publish_ephemeris id nav : 1 <= id <= 3 ->
  publish id nav = (if (satellite_validation nav).1 then [pub_ephemeris (get_ephemeris (satellite_validation nav).2)] else [], (satellite_validation nav).2).
Proof.
  intros Hid. unfold publish. assert (id = 1 \/ id = 2 \/ id = 3) as [->|[->| ->]] by lia; by destruct (satellite_validation nav).
Qed.

Ltac nav_fields := cbn [fst snd satellite_validation with_ident sf1 sf2 sf3 ident i_satellite_PRN d_TOW_SF1 d_IODC i_GPS_week d_Toc
  i_SV_health d_TGD d_A_f0 d_TOW_SF2 d_IODE_SF2 d_Crs d_Cuc d_Cus d_sqrt_A d_Toe d_TOW_SF3 d_IODE_SF3 d_Cic d_Cis d_Crc d_TOW].

(** What the subframes 1 to 3 leave in the navigation message. *)
Section Ephemeris.
Import GPS_L1_CA.
Context (ds : list Z) (nav : Gps_Navigation_Message) (Hds : is_subframe ds).

(** The members of a subframe, read from the 300 bits. *)
Definition how_of : how_data :=
  {| b_integrity_status_flag := flag_val (source_message ds) INTEGRITY_STATUS_FLAG; b_alert_flag := flag_val (source_message ds) ALERT_FLAG;
     b_antispoofing_flag := flag_val (source_message ds) ANTI_SPOOFING_FLAG |}.

Definition sf1_of : sf1_data :=
  {| d_TOW_SF1 := 6 * tow_count ds; i_GPS_week := raw ds GPS_WEEK; i_SV_accuracy := raw ds SV_ACCURACY; i_SV_health := raw ds SV_HEALTH;
     b_L2_P_data_flag := flag_val (source_message ds) L2_P_DATA_FLAG; i_code_on_L2 := raw ds CA_OR_P_ON_L2; d_TGD := dbl_mul (dbl_of_Z (sraw ds T_GD)) T_GD_LSB;
     d_IODC := raw ds IODC; d_Toc := 16 * raw ds T_OC; d_A_f0 := dbl_mul (dbl_of_Z (sraw ds A_F0)) A_F0_LSB;
     d_A_f1 := dbl_mul (dbl_of_Z (sraw ds A_F1)) A_F1_LSB; d_A_f2 := dbl_mul (dbl_of_Z (sraw ds A_F2)) A_F2_LSB |}.

Definition sf2_of : sf2_data :=
  {| d_TOW_SF2 := 6 * tow_count ds; d_IODE_SF2 := raw ds IODE_SF2; d_Crs := dbl_mul (dbl_of_Z (sraw ds C_RS)) C_RS_LSB;
     d_Delta_n := dbl_mul (dbl_of_Z (sraw ds DELTA_N)) DELTA_N_LSB; d_M_0 := dbl_mul (dbl_of_Z (sraw ds M_0)) M_0_LSB;
     d_Cuc := dbl_mul (dbl_of_Z (sraw ds C_UC)) C_UC_LSB; d_e_eccentricity := dbl_mul (dbl_of_Z (raw ds ECCENTRICITY)) ECCENTRICITY_LSB;
     d_Cus := dbl_mul (dbl_of_Z (sraw ds C_US)) C_US_LSB; d_sqrt_A := dbl_mul (dbl_of_Z (raw ds SQRT_A)) SQRT_A_LSB; d_Toe := 16 * raw ds T_OE;
     b_fit_interval_flag := flag_val (source_message ds) FIT_INTERVAL_FLAG; i_AODO := 900 * raw ds AODO |}.

Definition sf3_of : sf3_data :=
  {| d_TOW_SF3 := 6 * tow_count ds; d_Cic := dbl_mul (dbl_of_Z (sraw ds C_IC)) C_IC_LSB; d_OMEGA0 := dbl_mul (dbl_of_Z (sraw ds OMEGA_0)) OMEGA_0_LSB;
     d_Cis := dbl_mul (dbl_of_Z (sraw ds C_IS)) C_IS_LSB; d_i_0 := dbl_mul (dbl_of_Z (sraw ds I_0)) I_0_LSB;
     d_Crc := dbl_mul (dbl_of_Z (sraw ds C_RC)) C_RC_LSB; d_OMEGA := dbl_mul (dbl_of_Z (sraw ds OMEGA)) OMEGA_LSB;
     d_OMEGA_DOT := dbl_mul (dbl_of_Z (sraw ds OMEGA_DOT)) OMEGA_DOT_LSB; d_IODE_SF3 := raw ds IODE_SF3; d_IDOT := dbl_mul (dbl_of_Z (sraw ds I_DOT)) I_DOT_LSB |}.

Lemma read_how_spec : read_how (reverse (source_message ds)) = Some (6 * tow_count ds, how_of).
Proof.
  pose proof (source_message_length ds (proj1 Hds)) as Hm. unfold read_how. reads. unfold how_of. do 2 f_equal.
  pose proof (tow_count_range ds (proj1 Hds)). fold (tow_count ds). rewrite swrap_small by lia. lia.
Qed.

(** [step_case id] brings the goal to the members that subframe [id] sets. *)
Ltac step_case :=
  intros Hid; unfold nav_step, decode_fields; pose proof (source_message_length ds (proj1 Hds)) as Hm;
  rewrite (uint_spec _ Hm SUBFRAME_ID) by done; cbn [mbind option_bind]; fold (subframe_id ds); rewrite Hid, read_how_spec; cbn [mbind option_bind].

Lemma sf1_step : subframe_id ds = 1 -> exists m nav', nav_step ds nav = Some (m, nav') /\ sf1 nav' = sf1_of /\
  sf2 nav' = sf2 nav /\ sf3 nav' = sf3 nav /\ i_satellite_PRN (ident nav') = i_satellite_PRN (ident nav).
Proof.
  step_case. unfold read_sf1. reads. rewrite publish_ephemeris by lia. do 2 eexists. split; [done|]. nav_fields. split; [|done].
  pose proof (raw_range ds T_OC Hds ltac:(done)) as Ht. change (slices_width T_OC) with 16 in Ht.
  unfold sf1_of. f_equal. fold (raw ds T_OC). unfold T_OC_LSB. rewrite swrap_small by lia. lia.
Qed.

Lemma sf2_step : subframe_id ds = 2 -> exists m nav', nav_step ds nav = Some (m, nav') /\ sf2 nav' = sf2_of /\
  sf1 nav' = sf1 nav /\ sf3 nav' = sf3 nav /\ i_satellite_PRN (ident nav') = i_satellite_PRN (ident nav).
Proof.
  step_case. unfold read_sf2. reads. rewrite publish_ephemeris by lia. do 2 eexists. split; [done|]. nav_fields. split; [|done].
  pose proof (raw_range ds T_OE Hds ltac:(done)) as Ht. change (slices_width T_OE) with 16 in Ht.
  pose proof (raw_range ds AODO Hds ltac:(done)) as Ho. change (slices_width AODO) with 5 in Ho.
  unfold sf2_of. f_equal; [fold (raw ds T_OE); unfold T_OE_LSB|fold (raw ds AODO); unfold AODO_LSB]; rewrite swrap_small by lia; lia.
Qed.

Lemma sf3_step : subframe_id ds = 3 -> exists m nav', nav_step ds nav = Some (m, nav') /\ sf3 nav' = sf3_of /\ d_TOW nav' = 6 * tow_count ds /\ how nav' = how_of /\
  sf1 nav' = sf1 nav /\ sf2 nav' = sf2 nav /\ i_satellite_PRN (ident nav') = i_satellite_PRN (ident nav) /\
  m = (if (satellite_validation nav').1 then [pub_ephemeris (get_ephemeris nav')] else []).
Proof. step_case. unfold read_sf3. reads. rewrite publish_ephemeris by lia. do 2 eexists. split; [done|]. nav_fields. done. Qed.
End Ephemeris.

(** The heads of the words. *)
Lemma subframe_id_icd ds : is_subframe ds -> subframe_id ds = icd ds 2 20 3.
Proof. intros H. by apply (raw_icd ds H 2 20 3). Qed.

Lemma tow_count_icd ds : is_subframe ds -> tow_count ds = icd ds 2 1 17.
Proof. intros H. by apply (raw_icd ds H 2 1 17). Qed.

(** The ephemeris that three subframes leave, of which the third is the last one received. *)
Lemma three_steps ds1 ds2 ds3 nav (H1 : is_subframe ds1) (H2 : is_subframe ds2) (H3 : is_subframe ds3)
  (I1 : subframe_id ds1 = 1) (I2 : subframe_id ds2 = 2) (I3 : subframe_id ds3 = 3)
  (T1 : tow_count ds1 <> 0) (T2 : tow_count ds2 <> 0) (T3 : tow_count ds3 <> 0)
  (D1 : raw ds1 GPS_L1_CA.IODC = raw ds2 GPS_L1_CA.IODE_SF2) (D2 : raw ds2 GPS_L1_CA.IODE_SF2 = raw ds3 GPS_L1_CA.IODE_SF3) :
  exists msgs nav', nav_steps [ds1; ds2; ds3] nav = Some (msgs ++ [pub_ephemeris (get_ephemeris nav')], nav') /\
    i_satellite_PRN (ident nav') = i_satellite_PRN (ident nav) /\ d_TOW nav' = 6 * tow_count ds3 /\ how nav' = how_of ds3 /\
    sf1 nav' = sf1_of ds1 /\ sf2 nav' = sf2_of ds2 /\ sf3 nav' = sf3_of ds3.
Proof.
  cbn [nav_steps]. destruct (sf1_step ds1 nav H1 I1) as (m1 & nav1 & -> & A1 & A2 & A3 & A4). cbn [mbind option_bind].
  destruct (sf2_step ds2 nav1 H2 I2) as (m2 & nav2 & -> & B1 & B2 & B3 & B4). cbn [mbind option_bind].
  destruct (sf3_step ds3 nav2 H3 I3) as (m3 & nav3 & -> & C1 & C2 & C3 & C4 & C5 & C6 & C7). cbn [mbind option_bind].
  assert ((satellite_validation nav3).1 = true) as Hv.
  { unfold satellite_validation. cbn [fst]. rewrite C4, B2, A1, C5, B1, C1. unfold sf1_of, sf2_of, sf3_of. nav_fields. rewrite D1, D2, Z.eqb_refl.
    pose proof (raw_range ds3 GPS_L1_CA.IODE_SF3 H3 eq_refl) as Hr.
    rewrite (proj2 (Z.eqb_neq (6 * tow_count ds1) 0)), (proj2 (Z.eqb_neq (6 * tow_count ds2) 0)), (proj2 (Z.eqb_neq (6 * tow_count ds3) 0)),
      (proj2 (Z.eqb_neq (raw ds3 _) (-1))) by lia. done. }
  rewrite Hv in C7. subst m3. exists (m1 ++ m2), nav3. rewrite app_nil_r, app_assoc. split; [done|]. rewrite C6, B4, A4, C4, B2, A1, C5, B1. done.
Qed.

(** ** The transmitted ephemeris *)

(** The scale factors as the receiver has them: [2 ^ k] less [u] units in the last place, and
    the [double] of pi times [2 ^ k] plus [u] units. *)
Definition below_pow2 (k : Z) (u : positive) : double := S754_finite false (9007199254740992 - u) (k - 53).
Definition pi_pow2 (k : Z) (u : Z) : double := S754_finite false (Z.to_pos (7074237752028440 + u)) (k - 51).

Definition times_lsb (z : Z) (lsb : double) : double := dbl_mul (dbl_of_Z z) lsb.

(** The ephemeris in subframes 1, 2 and 3, each member where IS-GPS-200 puts it: word, first
    bit, number of bits. The last two members of subframe 2 are not: the flag and the age are
    made from the first six bits of the reference time, where the receiver looks for them. *)
Definition transmitted_ephemeris (ds1 ds2 ds3 : list Z) (prn : Z) : Gps_Ephemeris.ephemeris :=
  {| Gps_Ephemeris.PRN := prn; Gps_Ephemeris.tow := 6 * icd ds3 2 1 17;
     Gps_Ephemeris.WN := icd ds1 3 1 10; Gps_Ephemeris.code_on_L2 := icd ds1 3 11 2; Gps_Ephemeris.SV_accuracy := icd ds1 3 13 4;
     Gps_Ephemeris.SV_health := icd ds1 3 17 6; Gps_Ephemeris.IODC := icd ds1 3 23 2 * 2 ^ 8 + icd ds1 8 1 8;
     Gps_Ephemeris.L2_P_data_flag := Z.testbit (icd ds1 4 1 1) 0; Gps_Ephemeris.TGD := times_lsb (signed 8 (icd ds1 7 17 8)) (dbl_pow2 (-31));
     Gps_Ephemeris.toc := 16 * icd ds1 8 9 16; Gps_Ephemeris.af2 := times_lsb (signed 8 (icd ds1 9 1 8)) (below_pow2 (-55) 1);
     Gps_Ephemeris.af1 := times_lsb (signed 16 (icd ds1 9 9 16)) (below_pow2 (-43) 2); Gps_Ephemeris.af0 := times_lsb (signed 22 (icd ds1 10 1 22)) (dbl_pow2 (-31));
     Gps_Ephemeris.IODE_SF2 := icd ds2 3 1 8; Gps_Ephemeris.Crs := times_lsb (signed 16 (icd ds2 3 9 16)) (dbl_pow2 (-5));
     Gps_Ephemeris.delta_n := times_lsb (signed 16 (icd ds2 4 1 16)) (pi_pow2 (-43) 0);
     Gps_Ephemeris.M_0 := times_lsb (signed 32 (icd ds2 4 17 8 * 2 ^ 24 + icd ds2 5 1 24)) (pi_pow2 (-31) 2);
     Gps_Ephemeris.Cuc := times_lsb (signed 16 (icd ds2 6 1 16)) (dbl_pow2 (-29));
     Gps_Ephemeris.ecc := times_lsb (icd ds2 6 17 8 * 2 ^ 24 + icd ds2 7 1 24) (below_pow2 (-33) 1);
     Gps_Ephemeris.Cus := times_lsb (signed 16 (icd ds2 8 1 16)) (dbl_pow2 (-29));
     Gps_Ephemeris.sqrtA := times_lsb (icd ds2 8 17 8 * 2 ^ 24 + icd ds2 9 1 24) (dbl_pow2 (-19)); Gps_Ephemeris.toe := 16 * icd ds2 10 1 16;
     Gps_Ephemeris.fit_interval_flag := Z.testbit (icd ds2 10 1 16) 15; Gps_Ephemeris.AODO := 900 * (icd ds2 10 1 16 / 2 ^ 10 mod 2 ^ 5);
     Gps_Ephemeris.Cic := times_lsb (signed 16 (icd ds3 3 1 16)) (dbl_pow2 (-29));
     Gps_Ephemeris.OMEGA_0 := times_lsb (signed 32 (icd ds3 3 17 8 * 2 ^ 24 + icd ds3 4 1 24)) (pi_pow2 (-31) 2);
     Gps_Ephemeris.Cis := times_lsb (signed 16 (icd ds3 5 1 16)) (dbl_pow2 (-29));
     Gps_Ephemeris.i_0 := times_lsb (signed 32 (icd ds3 5 17 8 * 2 ^ 24 + icd ds3 6 1 24)) (pi_pow2 (-31) 2);
     Gps_Ephemeris.Crc := times_lsb (signed 16 (icd ds3 7 1 16)) (dbl_pow2 (-5));
     Gps_Ephemeris.omega := times_lsb (signed 32 (icd ds3 7 17 8 * 2 ^ 24 + icd ds3 8 1 24)) (pi_pow2 (-31) 2);
     Gps_Ephemeris.OMEGAdot := times_lsb (signed 24 (icd ds3 9 1 24)) (pi_pow2 (-43) 0); Gps_Ephemeris.IODE_SF3 := icd ds3 10 1 8;
     Gps_Ephemeris.idot := times_lsb (signed 14 (icd ds3 10 9 14)) (pi_pow2 (-43) 0);
     Gps_Ephemeris.integrity_status_flag := Z.testbit (icd ds3 1 23 1) 0; Gps_Ephemeris.alert_flag := Z.testbit (icd ds3 2 18 1) 0;
     Gps_Ephemeris.antispoofing_flag := Z.testbit (icd ds3 2 19 1) 0 |}.

(** The scale factors of the code. *)
Lemma scale_factors : TWO_N31 = dbl_pow2 (-31) /\ TWO_N5 = dbl_pow2 (-5) /\ TWO_N29 = dbl_pow2 (-29) /\ TWO_N19 = dbl_pow2 (-19) /\
  TWO_N33 = below_pow2 (-33) 1 /\ TWO_N43 = below_pow2 (-43) 2 /\ TWO_N55 = below_pow2 (-55) 1 /\ PI_TWO_N31 = pi_pow2 (-31) 2 /\ PI_TWO_N43 = pi_pow2 (-43) 0.
Proof. vm_compute. repeat split. Qed.

(** Fields with a sign or a scale, and the six bits at the head of the reference time. *)
Lemma toe_head ds : is_subframe ds -> flag_val (source_message ds) GPS_L1_CA.FIT_INTERVAL_FLAG = Z.testbit (icd ds 10 1 16) 15 /\
  raw ds GPS_L1_CA.AODO = icd ds 10 1 16 / 2 ^ 10 mod 2 ^ 5.
Proof.
  intros Hds. split.
  - etransitivity; [apply (flag_icd ds 10 1 Hds); lia|]. rewrite (icd_part ds 10 1 16 1 1), Z.mod_pow2_bits_low, Z.div_pow2_bits by lia. done.
  - etransitivity; [apply (raw_icd ds Hds 10 2 5); lia|]. apply (icd_part ds 10 1 16 2 5); lia.
Qed.

(** [member] reads one member where the document has it. *)
Ltac place H :=
  match goal with
  | |- _ = Z.testbit (icd _ ?w ?b _) _ => apply (flag_icd _ w b H); lia
  | |- _ = signed _ (icd _ ?w ?b ?n) => apply (sraw_icd _ H w b n); lia
  | |- _ = signed _ (icd _ ?w ?b ?n * _ + icd _ ?w2 ?b2 ?n2) => apply (sraw_icd2 _ H w b n ltac:(lia) ltac:(lia) ltac:(lia) ltac:(lia) w2 b2 n2); lia
  | |- _ = icd _ ?w ?b ?n * _ + icd _ ?w2 ?b2 ?n2 => apply (raw_icd2 _ H w b n ltac:(lia) ltac:(lia) ltac:(lia) ltac:(lia) w2 b2 n2); lia
  | |- _ = icd _ ?w ?b ?n => apply (raw_icd _ H w b n); lia
  | _ => reflexivity
  end.
Ltac member H := first [ place H | apply f_equal; place H | apply (f_equal2 dbl_mul); [apply f_equal; place H|reflexivity] ].

Lemma get_transmitted ds1 ds2 ds3 nav (H1 : is_subframe ds1) (H2 : is_subframe ds2) (H3 : is_subframe ds3) :
  d_TOW nav = 6 * tow_count ds3 -> how nav = how_of ds3 -> sf1 nav = sf1_of ds1 -> sf2 nav = sf2_of ds2 -> sf3 nav = sf3_of ds3 ->
  get_ephemeris nav = transmitted_ephemeris ds1 ds2 ds3 (i_satellite_PRN (ident nav)).
Proof.
  intros Ht Hh E1 E2 E3. unfold get_ephemeris. rewrite Ht, Hh, E1, E2, E3. destruct (toe_head ds2 H2) as [Hf Ha].
  destruct scale_factors as (P31 & P5 & P29 & P19 & P33 & P43 & P55 & Q31 & Q43). unfold transmitted_ephemeris, times_lsb.
  rewrite <- P31, <- P5, <- P29, <- P19, <- P33, <- P43, <- P55, <- Q31, <- Q43. unfold how_of, sf1_of, sf2_of, sf3_of. nav_fields. rewrite Hf, Ha, tow_count_icd by done.
  f_equal; first [member H1 | member H2 | member H3].
Qed.

(** The members whose scale factor is a power of two. *)
Lemma signed_small n v : 1 <= n <= 32 -> 0 <= v < 2 ^ n -> Z.abs (signed n v) < 2 ^ 53.
Proof.
  intros Hn Hv. unfold signed. pose proof (Z.pow_le_mono_r 2 n 32 ltac:(lia) ltac:(lia)). replace n with (1 + (n - 1)) in Hv at 1 by lia.
  rewrite Z.pow_add_r in Hv by lia. replace (2 ^ n) with (2 * 2 ^ (n - 1)) in * by (rewrite <- Z.pow_succ_r by lia; f_equal; lia). case_match; lia.
Qed.

Lemma times_lsb_icd ds w b n k : 1 <= n <= 32 -> -900 <= k <= 900 -> is_value (times_lsb (signed n (icd ds w b n)) (dbl_pow2 k)) (signed n (icd ds w b n)) k.
Proof. intros Hn Hk. apply scaled_value; [|done]. apply signed_small; [done|]. apply icd_range. lia. Qed.

Lemma transmitted_exact ds1 ds2 ds3 prn : let e := transmitted_ephemeris ds1 ds2 ds3 prn in
  is_value (Gps_Ephemeris.TGD e) (signed 8 (icd ds1 7 17 8)) (-31) /\ is_value (Gps_Ephemeris.af0 e) (signed 22 (icd ds1 10 1 22)) (-31) /\
  is_value (Gps_Ephemeris.Crs e) (signed 16 (icd ds2 3 9 16)) (-5) /\ is_value (Gps_Ephemeris.Crc e) (signed 16 (icd ds3 7 1 16)) (-5) /\
  is_value (Gps_Ephemeris.Cuc e) (signed 16 (icd ds2 6 1 16)) (-29) /\ is_value (Gps_Ephemeris.Cus e) (signed 16 (icd ds2 8 1 16)) (-29) /\
  is_value (Gps_Ephemeris.Cic e) (signed 16 (icd ds3 3 1 16)) (-29) /\ is_value (Gps_Ephemeris.Cis e) (signed 16 (icd ds3 5 1 16)) (-29) /\
  is_value (Gps_Ephemeris.sqrtA e) (icd ds2 8 17 8 * 2 ^ 24 + icd ds2 9 1 24) (-19).
Proof.
  cbn [transmitted_ephemeris Gps_Ephemeris.TGD Gps_Ephemeris.af0 Gps_Ephemeris.Crs Gps_Ephemeris.Crc Gps_Ephemeris.Cuc Gps_Ephemeris.Cus Gps_Ephemeris.Cic Gps_Ephemeris.Cis
    Gps_Ephemeris.sqrtA]. do 8 (split; [apply times_lsb_icd; lia|]).
  apply scaled_value; [|lia]. pose proof (icd_range ds2 8 17 8 ltac:(lia)). pose proof (icd_range ds2 9 1 24 ltac:(lia)). lia.
Qed.

(** ** The theorems *)

(** C28: the parallel parity computation of [gps_word_parityCheck] is the parity table of
    IS-GPS-200 (20-XIV): a word of 32 bits passes if and only if its last six bits are the six
    sums of the table. *)
Theorem word_parity_table w (Hw : 0 <= w < 2 ^ 32) : gps_word_parityCheck w = (icd_parity w =? Z.land w 0x3F).
Proof. unfold gps_word_parityCheck. by rewrite word_parity_icd. Qed.

Lemma word_parity_table_witness : gps_word_parityCheck (icd_word 0 0x8B0000) = (icd_parity (icd_word 0 0x8B0000) =? Z.land (icd_word 0 0x8B0000) 0x3F)
  /\ gps_word_parityCheck (icd_word 0 0x8B0000) = true.
Proof. split; [apply word_parity_table; vm_compute; split; congruence|reflexivity]. Defined.

(** C25: a transmitted subframe in which one word arrives with one to three wrong bits (after
    right words, before any words) is rejected: nothing is published and the navigation
    message is not touched, in either phase of the carrier loop. *)
Theorem damaged_subframe_rejected i prev seen ds1 d e rest history nav
  (H1 : Forall (fun d => 0 <= d < 2 ^ 24) ds1) (Hd : 0 <= d < 2 ^ 24) (Hs : Z.land seen 3 = Z.land (arrives i prev) 3)
  (He : 0 <= e < 2 ^ 30) (Hw : 1 <= weight 30 e <= 3) (Hr : Forall (fun w => 0 <= w < 2 ^ 30) rest)
  (Hl : (length ds1 + S (length rest) = 10)%nat)
  (Hg : gt0 <$> history = words_message ((arrives i <$> transmit prev ds1) ++
    Z.lxor (arrives i (icd_word (List.last (transmit prev ds1) prev) d)) e :: rest)) :
  exists x, decode_subframe history nav seen = Some (false, [], nav, x).
Proof.
  eexists. erewrite decode_subframe_words; [|..|exact Hg].
  - cbv zeta. by rewrite wrong_word_rejected.
  - rewrite length_app, length_fmap, transmit_length. exact Hl.
  - apply Forall_app. split; [|constructor; [|done]].
    + apply Forall_fmap. pose proof (transmit_range prev ds1 H1) as Hx. clear - Hx. induction Hx; constructor; [by apply arrives_range|done].
    + apply lxor_range; [by apply arrives_range, icd_word_range|done].
Qed.

Lemma damaged_subframe_rejected_witness : exists x, decode_subframe
  ((fun x => float_of_double (Prompt_I x)) <$> (sym <$> words_message ((arrives true <$> transmit 0 [0x8B0000]) ++
    Z.lxor (arrives true (icd_word (List.last (transmit 0 [0x8B0000]) 0) (100 * 2 ^ 7 + 4))) 0x20000081 :: replicate 8 0)))
  Gps_Navigation_Message_init 3 = Some (false, [], Gps_Navigation_Message_init, x).
Proof.
  apply (damaged_subframe_rejected true 0 3 [0x8B0000] (100 * 2 ^ 7 + 4) 0x20000081 (replicate 8 0));
    [repeat constructor; vm_compute; congruence|lia|reflexivity|lia|vm_compute; split; congruence|repeat constructor; vm_compute; congruence|reflexivity|vm_compute; reflexivity].
Defined.

(** C24: a transmitted subframe that arrives whole is decoded from either phase of the carrier
    loop: [decode_subframe] accepts it, publishes and stores exactly what its source bits
    say, and the time of week is six times the count in the hand-over word. *)
Theorem subframe_recovered i prev ds history nav seen (Hds : is_subframe ds)
  (Hg : gt0 <$> history = words_message (arrives i <$> transmit prev ds)) (Hs : Z.land seen 3 = Z.land (arrives i prev) 3)
  (Hid : 1 <= subframe_id ds <= 5) :
  exists msgs nav' x, nav_step ds nav = Some (msgs, nav') /\ decode_subframe history nav seen = Some (true, msgs, nav', x) /\
    Z.land x 3 = Z.land (arrives i (List.last (transmit prev ds) prev)) 3 /\ d_TOW nav' = 6 * tow_count ds.
Proof. by apply decode_subframe_transmitted. Qed.

Lemma subframe_recovered_witness : exists msgs nav' x, nav_step demo_sf2 Gps_Navigation_Message_init = Some (msgs, nav') /\
  decode_subframe ((fun x => float_of_double (Prompt_I x)) <$> demo_symbols true 0 demo_sf2) Gps_Navigation_Message_init 3 = Some (true, msgs, nav', x) /\
  Z.land x 3 = Z.land (arrives true (List.last (transmit 0 demo_sf2) 0)) 3 /\ d_TOW nav' = 6 * tow_count demo_sf2.
Proof.
  apply subframe_recovered; [split; [reflexivity|repeat constructor; vm_compute; congruence]|vm_compute; reflexivity|reflexivity|vm_compute; split; congruence].
Defined.

(** A decoder without lock whose buffer is completed to a subframe (preamble first, after
    a word that ended in 00) locks at that symbol, in either phase: it publishes what the
    subframe says, recognises the phase, and stamps the symbol with six seconds times the
    count of the hand-over word. *)
Theorem lock_acquired i prev st xs x d ds (Hst : d_stat st = 0) (Hds : is_subframe (d :: ds)) (Hid : 1 <= subframe_id (d :: ds) <= 5)
  (Htc : tow_count (d :: ds) <> 0) (Hpre : Z.shiftr d 16 = 0x8B) (Hp : Z.land prev 3 = 0)
  (Hprev : Z.land (d_prev_GPS_frame_4bytes st) 3 = Z.land (arrives i prev) 3)
  (Hpush : push_back d_required_symbols (d_symbol_history st) (float_of_double (Prompt_I x)) = (fun x => float_of_double (Prompt_I x)) <$> xs)
  (Hz : Forall (fun x => lt0 (float_of_double (Prompt_I x)) = negb (symbol_bit x)) xs)
  (Hb : symbol_bit <$> xs = words_message (arrives i <$> transmit prev (d :: ds)))
  (Hc : 0 <= d_sample_counter st < 2 ^ 64 - 1) :
  exists msgs nav st' m0, nav_step (d :: ds) (d_nav st) = Some (msgs, nav) /\
    general_work st x = Some (st', m0 ++ msgs, Some (stamp i x (6000 * tow_count (d :: ds)))) /\
    locked i (List.last (transmit prev (d :: ds)) prev) st' /\ d_nav st' = nav /\ d_flag_PLL_180_deg_phase_locked st' = i /\
    d_TOW_at_current_symbol_ms st' = 6000 * tow_count (d :: ds).
Proof. apply (lock_step i prev st xs); try done; lia. Qed.

(** A decoder without lock with the given symbols in its buffer. *)
Definition waiting (prev : Z) (xs : list Gnss_Synchro) : gps_l1_ca_telemetry_decoder :=
  {| d_nav := Gps_Navigation_Message_init; d_satellite := Gnss_Satellite_default;
     d_symbol_history := (fun x => float_of_double (Prompt_I x)) <$> xs; d_sample_counter := 1000; d_preamble_index := 0; d_last_valid_preamble := 0;
     d_CRC_error_counter := 0; d_channel := 0; d_prev_GPS_frame_4bytes := prev; d_stat := 0; d_TOW_at_Preamble_ms := 0;
     d_TOW_at_current_symbol_ms := 0; d_flag_frame_sync := false; d_flag_preamble := false; d_sent_tlm_failed_msg := false;
     d_flag_PLL_180_deg_phase_locked := false; d_flag_TOW_set := false |}.

Lemma lock_acquired_witness : exists msgs nav st' m0, nav_step demo_sf1 Gps_Navigation_Message_init = Some (msgs, nav) /\
  general_work (waiting 3 (removelast (demo_symbols true 0 demo_sf1))) (List.last (demo_symbols true 0 demo_sf1) (sym true)) =
    Some (st', m0 ++ msgs, Some (stamp true (List.last (demo_symbols true 0 demo_sf1) (sym true)) (6000 * tow_count demo_sf1))) /\
  locked true (List.last (transmit 0 demo_sf1) 0) st' /\ d_nav st' = nav /\ d_flag_PLL_180_deg_phase_locked st' = true /\
  d_TOW_at_current_symbol_ms st' = 6000 * tow_count demo_sf1.
Proof.
  apply (lock_acquired true 0 (waiting 3 (removelast (demo_symbols true 0 demo_sf1))) (demo_symbols true 0 demo_sf1)
    (List.last (demo_symbols true 0 demo_sf1) (sym true)) 0x8B0000 (tail demo_sf1)).
  - reflexivity.
  - split; [reflexivity|repeat constructor; vm_compute; congruence].
  - vm_compute; split; congruence.
  - vm_compute; congruence.
  - reflexivity.
  - reflexivity.
  - reflexivity.
  - vm_compute; reflexivity.
  - apply demo_symbols_nonzero.
  - vm_compute; reflexivity.
  - vm_compute; split; congruence.
Defined.

(** C23: in lock, error-free subframes with consecutive time counts (before the end of the week)
    are followed for as long as they last: every symbol is passed on, symbol [k] stamped
    [20 * (k + 1)] ms after the start, the messages published and the navigation message are
    what the subframes say one after the other, and the decoder is in lock at the end. *)
Theorem locked_stream i c dss prev st xs (HL : locked i prev st) (Hd : consecutive c dss) (Hc : 0 <= c)
  (Ht : d_TOW_at_current_symbol_ms st = 6000 * c) (Hb : symbol_bit <$> xs = words_message (arrives i <$> transmit prev (mjoin dss)))
  (Hn : d_sample_counter st + 300 * Z.of_nat (length dss) < 2 ^ 64) (Hm : c + Z.of_nat (length dss) <= 100800) :
  exists msgs nav st', nav_steps dss (d_nav st) = Some (msgs, nav) /\
    run st xs = Some (st', msgs, imap (fun k x => Some (stamp (d_flag_PLL_180_deg_phase_locked st) x (6000 * c + 20 * (Z.of_nat k + 1)))) xs) /\
    locked i (List.last (transmit prev (mjoin dss)) prev) st' /\ d_nav st' = nav.
Proof. destruct (locked_run i c dss prev st xs) as (m & nav & st' & H1 & H2 & H3 & H4 & _); eauto 10. Qed.

(** A decoder in lock after a word that ended in 00. *)
Definition in_lock (c : Z) : gps_l1_ca_telemetry_decoder :=
  {| d_nav := Gps_Navigation_Message_init; d_satellite := Gnss_Satellite_default; d_symbol_history := []; d_sample_counter := 1000;
     d_preamble_index := 1000; d_last_valid_preamble := 1000; d_CRC_error_counter := 0; d_channel := 0; d_prev_GPS_frame_4bytes := 3; d_stat := 1;
     d_TOW_at_Preamble_ms := 6000 * c; d_TOW_at_current_symbol_ms := 6000 * c; d_flag_frame_sync := true; d_flag_preamble := true;
     d_sent_tlm_failed_msg := false; d_flag_PLL_180_deg_phase_locked := true; d_flag_TOW_set := true |}.

Lemma in_lock_locked c : locked true 0 (in_lock c).
Proof. split; (done || (cbn; lia)). Qed.

Lemma demo_subframes : is_subframe demo_sf1 /\ is_subframe demo_sf2 /\ is_subframe demo_sf3.
Proof. repeat split; repeat constructor; vm_compute; congruence. Qed.

Lemma locked_stream_witness : let xs := demo_symbols true 0 (mjoin [demo_sf1; demo_sf2; demo_sf3]) in
  exists msgs nav st', nav_steps [demo_sf1; demo_sf2; demo_sf3] Gps_Navigation_Message_init = Some (msgs, nav) /\
    run (in_lock 99) xs = Some (st', msgs, imap (fun k x => Some (stamp true x (6000 * 99 + 20 * (Z.of_nat k + 1)))) xs) /\
    locked true (List.last (transmit 0 (mjoin [demo_sf1; demo_sf2; demo_sf3])) 0) st' /\ d_nav st' = nav.
Proof.
  intros xs. apply (locked_stream true 99 [demo_sf1; demo_sf2; demo_sf3] 0 (in_lock 99) xs).
  - apply in_lock_locked.
  - destruct demo_subframes as (H1 & H2 & H3). cbn [consecutive].
    split; [exact H1|]. split; [vm_compute; split; congruence|]. split; [vm_compute; reflexivity|].
    split; [exact H2|]. split; [vm_compute; split; congruence|]. split; [vm_compute; reflexivity|].
    split; [exact H3|]. split; [vm_compute; split; congruence|]. split; [vm_compute; reflexivity|exact I].
  - lia.
  - reflexivity.
  - apply demo_symbols_bits.
  - vm_compute; congruence.
  - vm_compute; congruence.
Defined.

(** C27: the decoder has no undefined behaviour and gives one answer per symbol, whatever the
    symbols are: no access outside a buffer, no conversion out of range, and the members keep
    their invariant (a buffer of at most 300 symbols, a time of week only in lock, at most two
    subframes in error). *)
Theorem decoder_total satellite xs : exists st msgs outs,
  run (gps_l1_ca_telemetry_decoder_init satellite) xs = Some (st, msgs, outs) /\ tlm_ok st /\ length outs = length xs.
Proof. apply tlm_run_ok, init_ok. Qed.

(** C26: after error-free subframes 1, 2 and 3 with non-zero time-of-week counts and one issue of
    data (all ten bits of the issue of clock data, so at most 255), in any earlier state, the last
    one publishes an ephemeris whose 36 members are those of [transmitted_ephemeris]: the
    transmitted numbers read where IS-GPS-200 puts them (word, first bit, length), times the scale
    factors of the receiver. Those of TGD, af0, Crs, Crc, Cuc, Cus, Cic, Cis and sqrtA are powers
    of two and the products exact; the others are up to two units in the last place off. Two
    members are not the transmitted ones: the fit interval flag and the age of data offset come
    from the first six bits of the reference time. *)
Theorem ephemeris_published ds1 ds2 ds3 nav (H1 : is_subframe ds1) (H2 : is_subframe ds2) (H3 : is_subframe ds3)
  (I1 : icd ds1 2 20 3 = 1) (I2 : icd ds2 2 20 3 = 2) (I3 : icd ds3 2 20 3 = 3)
  (T1 : icd ds1 2 1 17 <> 0) (T2 : icd ds2 2 1 17 <> 0) (T3 : icd ds3 2 1 17 <> 0)
  (D1 : icd ds1 3 23 2 * 2 ^ 8 + icd ds1 8 1 8 = icd ds2 3 1 8) (D2 : icd ds2 3 1 8 = icd ds3 10 1 8) :
  let e := transmitted_ephemeris ds1 ds2 ds3 (i_satellite_PRN (ident nav)) in
  (exists msgs nav', nav_steps [ds1; ds2; ds3] nav = Some (msgs ++ [pub_ephemeris e], nav')) /\
  is_value (Gps_Ephemeris.TGD e) (signed 8 (icd ds1 7 17 8)) (-31) /\ is_value (Gps_Ephemeris.af0 e) (signed 22 (icd ds1 10 1 22)) (-31) /\
  is_value (Gps_Ephemeris.Crs e) (signed 16 (icd ds2 3 9 16)) (-5) /\ is_value (Gps_Ephemeris.Crc e) (signed 16 (icd ds3 7 1 16)) (-5) /\
  is_value (Gps_Ephemeris.Cuc e) (signed 16 (icd ds2 6 1 16)) (-29) /\ is_value (Gps_Ephemeris.Cus e) (signed 16 (icd ds2 8 1 16)) (-29) /\
  is_value (Gps_Ephemeris.Cic e) (signed 16 (icd ds3 3 1 16)) (-29) /\ is_value (Gps_Ephemeris.Cis e) (signed 16 (icd ds3 5 1 16)) (-29) /\
  is_value (Gps_Ephemeris.sqrtA e) (icd ds2 8 17 8 * 2 ^ 24 + icd ds2 9 1 24) (-19).
Proof.
  intros e. split; [|by apply transmitted_exact].
  destruct (three_steps ds1 ds2 ds3 nav H1 H2 H3) as (msgs & nav' & Hs & Hp & Ht & Hh & E1 & E2 & E3); [by rewrite ?subframe_id_icd, ?tow_count_icd by done..| | |].
  { etransitivity; [apply (raw_icd2 ds1 H1 3 23 2 ltac:(lia) ltac:(lia) ltac:(lia) ltac:(lia) 8 1 8); lia|]. rewrite D1. symmetry. by apply (raw_icd ds2 H2 3 1 8). }
  { etransitivity; [by apply (raw_icd ds2 H2 3 1 8)|]. rewrite D2. symmetry. by apply (raw_icd ds3 H3 10 1 8). }
  exists msgs, nav'. unfold e. rewrite <- Hp, <- (get_transmitted ds1 ds2 ds3 nav') by done. exact Hs.
Qed.

Lemma ephemeris_published_witness : exists msgs nav', nav_steps [demo_sf1; demo_sf2; demo_sf3] Gps_Navigation_Message_init =
  Some (msgs ++ [pub_ephemeris (transmitted_ephemeris demo_sf1 demo_sf2 demo_sf3 0)], nav').
Proof.
  apply (ephemeris_published demo_sf1 demo_sf2 demo_sf3 Gps_Navigation_Message_init);
    [apply demo_subframes..|vm_compute; congruence|vm_compute; congruence|vm_compute; congruence|vm_compute; congruence|vm_compute; congruence
    |vm_compute; congruence|vm_compute; congruence|vm_compute; congruence].
Defined.

(** Whatever subframes a decoder sees, an ephemeris that it publishes comes from subframes
    with one issue of data, and that issue is below 256. An issue of clock data (ten bits) of
    256 or more has the lower eight bits of the issue of ephemeris data (eight bits), but the
    code compares all ten, so that such an ephemeris is never published. *)
Theorem published_ephemeris_consistent dss msgs nav' e (Hd : Forall is_subframe dss)
  (Hr : nav_steps dss Gps_Navigation_Message_init = Some (msgs, nav')) (He : pub_ephemeris e ∈ msgs) :
  Gps_Ephemeris.IODC e = Gps_Ephemeris.IODE_SF2 e /\ Gps_Ephemeris.IODE_SF2 e = Gps_Ephemeris.IODE_SF3 e /\ 0 <= Gps_Ephemeris.IODC e < 256.
Proof. eapply nav_steps_consistent; [exact Hd| |exact Hr|exact He]. unfold iode_ok. cbn. lia. Qed.

Lemma published_ephemeris_consistent_witness : exists msgs nav' e, nav_steps [demo_sf1; demo_sf2; demo_sf3] Gps_Navigation_Message_init = Some (msgs, nav') /\
  pub_ephemeris e ∈ msgs /\ Gps_Ephemeris.IODC e = Gps_Ephemeris.IODE_SF2 e /\ Gps_Ephemeris.IODE_SF2 e = Gps_Ephemeris.IODE_SF3 e /\
  0 <= Gps_Ephemeris.IODC e < 256.
Proof.
  assert (Forall is_subframe [demo_sf1; demo_sf2; demo_sf3]) as Hd.
  { destruct demo_subframes as (H1 & H2 & H3). repeat (apply Forall_cons; [assumption|]). apply Forall_nil. }
  destruct (nav_steps [demo_sf1; demo_sf2; demo_sf3] Gps_Navigation_Message_init) as [[msgs nav']|] eqn:E; [|vm_compute in E; discriminate].
  assert (exists e, pub_ephemeris e ∈ msgs) as [e He] by (vm_compute in E; injection E as <- <-; eexists; apply elem_of_cons; left; reflexivity).
  exists msgs, nav', e. split; [reflexivity|]. split; [exact He|]. exact (published_ephemeris_consistent _ msgs nav' e Hd E He).
Defined.

(** At the end of the week the hand-over word of the last subframe counts zero, and the
    decoder takes zero for a missing count: the last symbol gets the stamp of the symbol before
    it once more, and the stamps of the next subframe continue from there, 20 ms behind and
    beyond the end of the week. *)
Theorem week_rollover_lags i prev st xs ds (HL : locked i prev st) (Hl : length xs = 300%nat) (Hds : is_subframe ds)
  (Hid : 1 <= subframe_id ds <= 5) (Hz : tow_count ds = 0)
  (Hb : symbol_bit <$> xs = words_message (arrives i <$> transmit prev ds)) (Hc : d_sample_counter st + 300 < 2 ^ 64)
  (Ht : d_TOW_at_current_symbol_ms st = 6000 * 100799) :
  exists st' msgs outs, run st xs = Some (st', msgs, outs) /\ locked i (List.last (transmit prev ds) prev) st' /\
    d_TOW_at_current_symbol_ms st' = 604799980 /\
    (o ← outs !! 298%nat; TOW_at_current_symbol_ms <$> o) = Some 604799980 /\ (o ← outs !! 299%nat; TOW_at_current_symbol_ms <$> o) = Some 604799980.
Proof.
  destruct (run_subframe i prev st xs ds) as (msgs & nav & seen & Hn & Hs & Hr); try done; try lia.
  do 3 eexists. split; [exact Hr|]. split; [by apply landed_locked|]. unfold next_tow in *. cbn [landed d_TOW_at_current_symbol_ms]. rewrite Hz. cbn [Z.eqb].
  unfold next_tow. rewrite Hz, Ht. split; [done|]. rewrite !list_lookup_imap.
  destruct (lookup_lt_is_Some_2 xs 298%nat ltac:(lia)) as [x ->], (lookup_lt_is_Some_2 xs 299%nat ltac:(lia)) as [y ->]. done.
Qed.

Definition demo_midnight : list Z := subframe_source 0 5 [0; 0; 0; 0; 0; 0; 0; 0].

Lemma week_rollover_lags_witness : exists st' msgs outs, run (in_lock 100799) (demo_symbols true 0 demo_midnight) = Some (st', msgs, outs) /\
  locked true (List.last (transmit 0 demo_midnight) 0) st' /\ d_TOW_at_current_symbol_ms st' = 604799980 /\
  (o ← outs !! 298%nat; TOW_at_current_symbol_ms <$> o) = Some 604799980 /\ (o ← outs !! 299%nat; TOW_at_current_symbol_ms <$> o) = Some 604799980.
Proof.
  apply (week_rollover_lags true 0 (in_lock 100799) (demo_symbols true 0 demo_midnight) demo_midnight).
  - apply in_lock_locked.
  - vm_compute; reflexivity.
  - split; [reflexivity|repeat constructor; vm_compute; congruence].
  - vm_compute; split; congruence.
  - vm_compute; reflexivity.
  - apply demo_symbols_bits.
  - vm_compute; congruence.
  - reflexivity.
Defined.

(** The fit interval flag and the age of data offset that subframe 2 is decoded to are the
    first six bits of the ephemeris reference time, not the six bits that follow it: with [v]
    the raw reference time, the flag is its bit 15 and the offset 900 times its bits 10 to
    14. *)
Theorem fit_interval_from_toe ds nav (Hds : is_subframe ds) (Hid : icd ds 2 20 3 = 2) :
  exists m nav', nav_step ds nav = Some (m, nav') /\ let v := icd ds 10 1 16 in
    d_Toe (sf2 nav') = 16 * v /\ b_fit_interval_flag (sf2 nav') = Z.testbit v 15 /\ i_AODO (sf2 nav') = 900 * (v / 2 ^ 10 mod 2 ^ 5).
Proof.
  rewrite <- subframe_id_icd in Hid by done. destruct (sf2_step ds nav Hds Hid) as (m & nav' & Hn & Hs & _). exists m, nav'. split; [done|]. cbv zeta. rewrite Hs.
  destruct (toe_head ds Hds) as [<- <-]. split; [|done]. rewrite <- (raw_icd ds Hds 10 1 16) by lia. done.
Qed.

Lemma fit_interval_from_toe_witness : exists m nav', nav_step demo_sf2 Gps_Navigation_Message_init = Some (m, nav') /\
  let v := icd demo_sf2 10 1 16 in
  d_Toe (sf2 nav') = 16 * v /\ b_fit_interval_flag (sf2 nav') = Z.testbit v 15 /\ i_AODO (sf2 nav') = 900 * (v / 2 ^ 10 mod 2 ^ 5).
Proof. apply fit_interval_from_toe; [apply demo_subframes|vm_compute; reflexivity]. Defined.

(** A subframe whose first word ends in 00. *)
Definition demo_early : list Z := 0x8B0008 :: tail demo_sf1.

(** A decoder that starts (or was reset) at the beginning of a subframe does not wait for
    its 300 symbols: after the first 60 it finds the preamble in its first eight symbols,
    accepts the two words it has, takes the missing eight for zeros and locks. It stamps symbol
    60 with the time that holds at symbol 300, 4.8 seconds too late, and, in the end of the
    subframe and in the next ones, decodes at the wrong place. *)
Theorem early_lock : let xs := demo_symbols false 0 (demo_early ++ demo_early) in
  ('(st, _, outs) ← run (gps_l1_ca_telemetry_decoder_init Gnss_Satellite_default) (take 60 xs);
   '(st', _, outs') ← run st (take 300 (drop 60 xs));
   stamp60 ← (o ← outs !! 59%nat; TOW_at_current_symbol_ms <$> o); stamp300 ← (o ← outs' !! 239%nat; TOW_at_current_symbol_ms <$> o);
   Some (d_stat st, d_sample_counter st, stamp60, stamp300, d_stat st', d_CRC_error_counter st'))
  = Some (1, 60, 6000 * tow_count demo_early, 6000 * tow_count demo_early + 4800, 1, 1).
Proof. vm_compute. reflexivity. Qed.
