(* ===== verification/Rtcm.v ===== *)
(** * RTCM messages

    [algorithms/PVT/libs/rtcm.cc]: the transport layer of RTCM 10403.2, its data fields, and
    the messages with the reference station (1005) and the GPS ephemeris (1019), written and
    read. [RtcmEph] has the ephemerides of Galileo and GLONASS, [RtcmMsm] the multiple signal
    messages. A string of '0' and '1' is a [list bool], a string of octets a list of numbers
    below 256.

    The members DFxxx of [Rtcm] are assigned just before they are used and are values here,
    except DF292, which no function that is called assigns. [None] stands for an exception
    ([substr] behind the end of a string) when reading, and for the conversion of a number to a
    type that cannot hold it when writing. The CRC is that of the Boost library and a
    parameter. Logging and the network server are left out; messages for the server go to its
    queue. *)
From S2P Require Import Prelude GnssSignal Doubles DoublesErr NavBits GpsNav.

#[local] Open Scope Z_scope.

(** ** Conversions of numbers *)

(** [static_cast] of a [double] to an integer type; out of its range the behaviour is
    undefined. *)
Definition cast_range (lo hi : Z) (x : double) : option Z :=
  v ← Z_of_dbl x; if decide (lo <= v < hi) then Some v else None.
Definition to_u32 : double -> option Z := cast_range 0 (2 ^ 32).
Definition to_u64 : double -> option Z := cast_range 0 (2 ^ 64).
Definition to_i16 : double -> option Z := cast_range (- 2 ^ 15) (2 ^ 15).
Definition to_i32 : double -> option Z := cast_range (- 2 ^ 31) (2 ^ 31).
Definition to_i64 : double -> option Z := cast_range (- 2 ^ 63) (2 ^ 63).

(** [std::bitset<N>(v).to_string()] *)
Definition bitset (N : nat) (v : Z) : list bool := val_bits N v.

(** [s.substr(pos, n)] *)
Definition substr {A} (s : list A) (pos n : nat) : option (list A) :=
  if (pos <=? length s)%nat then Some (take n (drop pos s)) else None.

(** ** Transport layer *)

(** The blocks of [boost::dynamic_bitset<uint8_t>(s)], most significant first. *)
Fixpoint blocks (n : nat) (s : list bool) : list Z :=
  match n with
  | O => []
  | S n' => bits_val (take 8 s) :: blocks n' (drop 8 s)
  end.

Definition block_range (s : list bool) : list Z :=
  let r := (length s mod 8)%nat in
  (if decide (r = 0%nat) then [] else [bits_val (take r s)]) ++ blocks (length s / 8) (drop r s).

(** The loop of [bin_to_binary_data] from position [i] on. *)
Fixpoint pack_loop (fuel : nat) (s : list bool) (i : nat) : option (list Z) :=
  match fuel with
  | O => None
  | S fuel' =>
      if (i <? length s - 1)%nat then
        n ← substr s i 4; n2 ← substr s (i + 4) 4;
        rest ← pack_loop fuel' s (i + 8);
        Some (u8 (u8 (bits_val n * 16) + u8 (bits_val n2)) :: rest)
      else Some []
  end.

(** On an empty string [s.length() - 1] wraps around and [assign] throws. *)
Definition bin_to_binary_data (s : list bool) : option (list Z) :=
  if decide (s = []) then None
  else
    let r := (length s mod 8)%nat in
    rest ← pack_loop (S (length s)) s r;
    Some ((if decide (r = 0%nat) then [] else [u8 (bits_val (take r s))]) ++ rest).

Definition binary_data_to_bin (s : list Z) : list bool := mbind (val_bits 8) s.

Definition bin_to_uint (s : list bool) : Z := if (32 <? length s)%nat then 0 else u32 (bits_val s).

(** [s.substr(0, 1) != "0"] *)
Definition first_not_0 (s : list bool) : bool := match s with false :: _ => false | _ => true end.

Definition bin_to_int (s : list bool) : Z :=
  if (32 <? length s)%nat then 0
  else if first_not_0 s then i32 (- (bits_val (negb <$> s) + 1)) else i32 (bits_val s).

Definition bin_to_sint (s : list bool) : option Z :=
  if (32 <? length s)%nat then Some 0
  else
    m ← substr s 1 (length s);
    let reading := i32 (bits_val m) in
    Some (i32 ((if first_not_0 s then 1 else -1) * reading)).

Definition bin_to_double (s : list bool) : double :=
  if (64 <? length s)%nat then dbl_zero
  else dbl_of_Z (if first_not_0 s then - (bits_val (negb <$> s) + 1) else bits_val s).

Definition preamble : list bool := [true; true; false; true; false; false; true; true].
Definition reserved_field : list bool := replicate 6 false.

(** The members that outlive a call. *)
Record Rtcm := { server_is_running : bool; rtcm_message_queue : list (list Z); DF292 : list bool }.

Definition Rtcm_init : Rtcm := {| server_is_running := false; rtcm_message_queue := []; DF292 := replicate 14 false |}.

(** [if (server_is_running) rtcm_message_queue->push(msg)] *)
Definition enqueue (msg : list Z) (st : Rtcm) : Rtcm :=
  if server_is_running st then
    {| server_is_running := true; rtcm_message_queue := rtcm_message_queue st ++ [msg]; DF292 := DF292 st |}
  else st.

(** ** Data fields *)

Definition set_DF002 (message_number : Z) : list bool := bitset 12 message_number.
Definition set_DF003 (ref_station_ID : Z) : list bool := bitset 12 ref_station_ID.
Definition set_DF021 : list bool := bitset 6 0.
Definition set_DF022 (gps_indicator : bool) : list bool := [gps_indicator].
Definition set_DF023 (glonass_indicator : bool) : list bool := [glonass_indicator].
Definition set_DF024 (galileo_indicator : bool) : list bool := [galileo_indicator].

(** The three coordinates of the antenna, in tenths of millimetres. *)
Definition set_DF025 (antenna_ECEF_X_m : double) : option (list bool) :=
  v ← to_i64 (dbl_round (dbl_mul antenna_ECEF_X_m (dbl_of_Z 10000))); Some (bitset 38 v).
Definition set_DF026 (antenna_ECEF_Y_m : double) : option (list bool) :=
  v ← to_i64 (dbl_round (dbl_mul antenna_ECEF_Y_m (dbl_of_Z 10000))); Some (bitset 38 v).
Definition set_DF027 (antenna_ECEF_Z_m : double) : option (list bool) :=
  v ← to_i64 (dbl_round (dbl_mul antenna_ECEF_Z_m (dbl_of_Z 10000))); Some (bitset 38 v).

(** [static_cast<T>(std::round(x / LSB))] in [N] bits. *)
Definition scaled (cast : double -> option Z) (N : nat) (x LSB : double) : option (list bool) :=
  v ← cast (dbl_round (dbl_div x LSB)); Some (bitset N v).

(** [static_cast<uint32_t>(std::round(t / LSB))] on integers. *)
Definition scaled_time (N : nat) (t LSB : Z) : option (list bool) :=
  v ← to_u32 (dbl_round (dbl_of_Z (Z.quot t LSB))); Some (bitset N v).

(** *** GPS ephemeris *)

Section GpsFields.
Import GPS_L1_CA.
Context (gps_eph : Gps_Ephemeris.ephemeris).

Definition set_DF009 : list bool := bitset 6 (Gps_Ephemeris.PRN gps_eph).
Definition set_DF071 : list bool := bitset 8 (u32 (Gps_Ephemeris.IODE_SF2 gps_eph)).
Definition set_DF076 : list bool := bitset 10 (u32 (Gps_Ephemeris.WN gps_eph)).
Definition set_DF077 : list bool := bitset 4 (u16 (Gps_Ephemeris.SV_accuracy gps_eph)).
Definition set_DF078 : list bool := bitset 2 (u16 (Gps_Ephemeris.code_on_L2 gps_eph)).
Definition set_DF079 : option (list bool) := scaled to_u32 14 (Gps_Ephemeris.idot gps_eph) I_DOT_LSB.
Definition set_DF081 : option (list bool) := scaled_time 16 (Gps_Ephemeris.toc gps_eph) T_OC_LSB.
Definition set_DF082 : option (list bool) := scaled to_i16 8 (Gps_Ephemeris.af2 gps_eph) A_F2_LSB.
Definition set_DF083 : option (list bool) := scaled to_i32 16 (Gps_Ephemeris.af1 gps_eph) A_F1_LSB.
Definition set_DF084 : option (list bool) := scaled to_i64 22 (Gps_Ephemeris.af0 gps_eph) A_F0_LSB.
Definition set_DF085 : list bool := bitset 10 (u32 (Gps_Ephemeris.IODC gps_eph)).
Definition set_DF086 : option (list bool) := scaled to_i32 16 (Gps_Ephemeris.Crs gps_eph) C_RS_LSB.
Definition set_DF087 : option (list bool) := scaled to_i32 16 (Gps_Ephemeris.delta_n gps_eph) DELTA_N_LSB.
Definition set_DF088 : option (list bool) := scaled to_i64 32 (Gps_Ephemeris.M_0 gps_eph) M_0_LSB.
Definition set_DF089 : option (list bool) := scaled to_i32 16 (Gps_Ephemeris.Cuc gps_eph) C_UC_LSB.
Definition set_DF090 : option (list bool) := scaled to_u64 32 (Gps_Ephemeris.ecc gps_eph) ECCENTRICITY_LSB.
Definition set_DF091 : option (list bool) := scaled to_i32 16 (Gps_Ephemeris.Cus gps_eph) C_US_LSB.
Definition set_DF092 : option (list bool) := scaled to_u64 32 (Gps_Ephemeris.sqrtA gps_eph) SQRT_A_LSB.
Definition set_DF093 : option (list bool) := scaled_time 16 (Gps_Ephemeris.toe gps_eph) T_OE_LSB.
Definition set_DF094 : option (list bool) := scaled to_i32 16 (Gps_Ephemeris.Cic gps_eph) C_IC_LSB.
Definition set_DF095 : option (list bool) := scaled to_i64 32 (Gps_Ephemeris.OMEGA_0 gps_eph) OMEGA_0_LSB.
Definition set_DF096 : option (list bool) := scaled to_i32 16 (Gps_Ephemeris.Cis gps_eph) C_IS_LSB.
Definition set_DF097 : option (list bool) := scaled to_i64 32 (Gps_Ephemeris.i_0 gps_eph) I_0_LSB.
Definition set_DF098 : option (list bool) := scaled to_i32 16 (Gps_Ephemeris.Crc gps_eph) C_RC_LSB.
Definition set_DF099 : option (list bool) := scaled to_i64 32 (Gps_Ephemeris.omega gps_eph) OMEGA_LSB.
Definition set_DF100 : option (list bool) := scaled to_i64 24 (Gps_Ephemeris.OMEGAdot gps_eph) OMEGA_DOT_LSB.
Definition set_DF101 : option (list bool) := scaled to_i16 8 (Gps_Ephemeris.TGD gps_eph) T_GD_LSB.
Definition set_DF102 : list bool := bitset 6 (u16 (Gps_Ephemeris.SV_health gps_eph)).
Definition set_DF103 : list bool := [Gps_Ephemeris.L2_P_data_flag gps_eph].
Definition set_DF137 : list bool := [Gps_Ephemeris.fit_interval_flag gps_eph].

(** The data of message 1019, field after field. *)
Definition MT1019_data : option (list bool) :=
  idot ← set_DF079; toc ← set_DF081; af2 ← set_DF082; af1 ← set_DF083; af0 ← set_DF084; crs ← set_DF086; dn ← set_DF087; m0 ← set_DF088;
  cuc ← set_DF089; ecc ← set_DF090; cus ← set_DF091; sqa ← set_DF092; toe ← set_DF093; cic ← set_DF094; om0 ← set_DF095; cis ← set_DF096;
  i0 ← set_DF097; crc ← set_DF098; om ← set_DF099; omd ← set_DF100; tgd ← set_DF101;
  Some (set_DF002 1019 ++ set_DF009 ++ set_DF076 ++ set_DF077 ++ set_DF078 ++ idot ++ set_DF071 ++ toc ++ af2 ++ af1 ++ af0 ++ set_DF085 ++
    crs ++ dn ++ m0 ++ cuc ++ ecc ++ cus ++ sqa ++ toe ++ cic ++ om0 ++ cis ++ i0 ++ crc ++ om ++ omd ++ tgd ++ set_DF102 ++ set_DF103 ++ set_DF137).
End GpsFields.

(** *** Reading *)

(** A field of [n] bits and the next position. *)
Definition take_field (bits : list bool) (index n : nat) : option (list bool * nat) :=
  s ← substr bits index n; Some (s, (index + n)%nat).

(** [static_cast<double>(bin_to_int(s)) * LSB], and the unsigned one. *)
Definition idbl (s : list bool) (LSB : double) : double := dbl_mul (dbl_of_Z (bin_to_int s)) LSB.
Definition ud (s : list bool) (LSB : double) : double := dbl_mul (dbl_of_Z (bin_to_uint s)) LSB.

(** A time: the product with the integer LSB is taken in [double] and converted to
    [int32_t]. *)
Definition utime (s : list bool) (LSB : Z) : option Z := to_i32 (dbl_mul (dbl_of_Z (bin_to_uint s)) (dbl_of_Z LSB)).

Section Crc.
(** [boost::crc_optimal<24, 0x1864CFB, 0, 0, false, false>] of octets. *)
Context (crc : list Z -> Z).

Definition add_CRC (message_without_crc : list bool) : option (list Z) :=
  bin_to_binary_data (message_without_crc ++ bitset 24 (crc (block_range message_without_crc))).

Definition check_CRC (message : list Z) : option bool :=
  let message_bin := binary_data_to_bin message in
  if (length message_bin <? 24)%nat then None
  else
    read_crc ← substr message_bin (length message_bin - 24) 24;
    msg_without_crc ← substr message_bin 0 (length message_bin - 24);
    Some (bool_decide (read_crc = bitset 24 (crc (block_range msg_without_crc)))).

(** The number of octets, by [std::ceil] of a quotient that is exact for less than 2^24 bits. *)
Definition build_message (data : list bool) : option (list Z) :=
  let msg_length_bits := Z.of_nat (length data) in
  let msg_length_bytes := (msg_length_bits + 7) / 8 in
  let zeros_to_fill := 8 * msg_length_bytes - msg_length_bits in
  add_CRC (preamble ++ reserved_field ++ bitset 10 msg_length_bytes ++ (data ++ replicate (Z.to_nat zeros_to_fill) false)).

(** *** Message 1005 *)

Definition MT1005_data (ref_id : Z) (ecef_x ecef_y ecef_z : double) (gps glonass galileo non_physical single_oscillator : bool)
  (quarter_cycle_indicator : Z) : option (list bool) :=
  x ← set_DF025 ecef_x; y ← set_DF026 ecef_y; z ← set_DF027 ecef_z;
  Some (set_DF002 1005 ++ set_DF003 ref_id ++ set_DF021 ++ set_DF022 gps ++ set_DF023 glonass ++ set_DF024 galileo ++ [non_physical] ++ x ++
    [single_oscillator] ++ [false] ++ y ++ bitset 2 quarter_cycle_indicator ++ z).

Definition print_MT1005 (ref_id : Z) (ecef_x ecef_y ecef_z : double) (gps glonass galileo non_physical single_oscillator : bool)
  (quarter_cycle_indicator : Z) (st : Rtcm) : option (list Z * Rtcm) :=
  data ← MT1005_data ref_id ecef_x ecef_y ecef_z gps glonass galileo non_physical single_oscillator quarter_cycle_indicator;
  msg ← build_message data; Some (msg, enqueue msg st).

(** What [read_MT1005] assigns to its reference arguments. *)
Record station := { st_ref_id : Z; st_x : double; st_y : double; st_z : double; st_gps : bool; st_glonass : bool; st_galileo : bool }.

(** The result of the checks at the start of the readers: 1 is returned if one fails. *)
Definition read_header (message : list Z) (len number : Z) : option bool :=
  let bits := binary_data_to_bin message in
  ok ← check_CRC message;
  if negb ok then Some false
  else
    '(l, i) ← take_field bits 14 10;
    if negb (bin_to_uint l =? len) then Some false
    else
      '(n, _) ← take_field bits i 12;
      Some (bool_decide (bin_to_uint n = number)).

Definition read_MT1005 (message : list Z) (old : station) : option (Z * station) :=
  let bits := binary_data_to_bin message in
  ok ← read_header message 19 1005;
  if negb ok then Some (1, old)
  else
    '(id, i) ← take_field bits 36 12; let i := (i + 6)%nat in
    '(gps, i) ← take_field bits i 1; '(glo, i) ← take_field bits i 1; '(gal, i) ← take_field bits i 1; let i := (i + 1)%nat in
    '(x, i) ← take_field bits i 38; let i := (i + 2)%nat in
    '(y, i) ← take_field bits i 38; let i := (i + 2)%nat in
    '(z, i) ← take_field bits i 38;
    let coordinate s := dbl_div (bin_to_double s) (dbl_of_Z 10000) in
    Some (0, {| st_ref_id := bin_to_uint id; st_x := coordinate x; st_y := coordinate y; st_z := coordinate z;
      st_gps := negb (bin_to_uint gps =? 0); st_glonass := negb (bin_to_uint glo =? 0); st_galileo := negb (bin_to_uint gal =? 0) |}).

(** *** Message 1019 *)

Definition print_MT1019 (gps_eph : Gps_Ephemeris.ephemeris) (st : Rtcm) : option (list Z * Rtcm) :=
  data ← MT1019_data gps_eph; msg ← build_message data; Some (msg, enqueue msg st).

Definition read_MT1019 (message : list Z) (gps_eph : Gps_Ephemeris.ephemeris) : option (Z * Gps_Ephemeris.ephemeris) :=
  let bits := binary_data_to_bin message in
  ok ← read_header message 61 1019;
  if negb ok then Some (1, gps_eph)
  else
    '(prn, i) ← take_field bits 36 6; '(wn, i) ← take_field bits i 10; '(ura, i) ← take_field bits i 4; '(l2, i) ← take_field bits i 2; '(idot, i) ← take_field bits i 14;
    '(iode, i) ← take_field bits i 8; '(toc, i) ← take_field bits i 16; toc ← utime toc GPS_L1_CA.T_OC_LSB;
    '(af2, i) ← take_field bits i 8; '(af1, i) ← take_field bits i 16; '(af0, i) ← take_field bits i 22; '(iodc, i) ← take_field bits i 10;
    '(crs, i) ← take_field bits i 16; '(dn, i) ← take_field bits i 16; '(m0, i) ← take_field bits i 32; '(cuc, i) ← take_field bits i 16; '(ecc, i) ← take_field bits i 32;
    '(cus, i) ← take_field bits i 16; '(sqa, i) ← take_field bits i 32; '(toe, i) ← take_field bits i 16; toe ← utime toe GPS_L1_CA.T_OE_LSB;
    '(cic, i) ← take_field bits i 16; '(om0, i) ← take_field bits i 32; '(cis, i) ← take_field bits i 16; '(i0, i) ← take_field bits i 32; '(crc', i) ← take_field bits i 16;
    '(om, i) ← take_field bits i 32; '(omd, i) ← take_field bits i 24; '(tgd, i) ← take_field bits i 8; '(health, i) ← take_field bits i 6; '(l2p, i) ← take_field bits i 1;
    '(fit, i) ← take_field bits i 1;
    Some (0, {| Gps_Ephemeris.PRN := bin_to_uint prn; Gps_Ephemeris.tow := Gps_Ephemeris.tow gps_eph; Gps_Ephemeris.Crs := idbl crs GPS_L1_CA.C_RS_LSB;
      Gps_Ephemeris.delta_n := idbl dn GPS_L1_CA.DELTA_N_LSB; Gps_Ephemeris.M_0 := idbl m0 GPS_L1_CA.M_0_LSB; Gps_Ephemeris.Cuc := idbl cuc GPS_L1_CA.C_UC_LSB;
      Gps_Ephemeris.ecc := ud ecc GPS_L1_CA.ECCENTRICITY_LSB; Gps_Ephemeris.Cus := idbl cus GPS_L1_CA.C_US_LSB; Gps_Ephemeris.sqrtA := ud sqa GPS_L1_CA.SQRT_A_LSB;
      Gps_Ephemeris.toe := toe; Gps_Ephemeris.toc := toc; Gps_Ephemeris.Cic := idbl cic GPS_L1_CA.C_IC_LSB;
      Gps_Ephemeris.OMEGA_0 := idbl om0 GPS_L1_CA.OMEGA_0_LSB; Gps_Ephemeris.Cis := idbl cis GPS_L1_CA.C_IS_LSB; Gps_Ephemeris.i_0 := idbl i0 GPS_L1_CA.I_0_LSB;
      Gps_Ephemeris.Crc := idbl crc' GPS_L1_CA.C_RC_LSB; Gps_Ephemeris.omega := idbl om GPS_L1_CA.OMEGA_LSB;
      Gps_Ephemeris.OMEGAdot := idbl omd GPS_L1_CA.OMEGA_DOT_LSB; Gps_Ephemeris.idot := idbl idot GPS_L1_CA.I_DOT_LSB;
      Gps_Ephemeris.code_on_L2 := i32 (bin_to_uint l2); Gps_Ephemeris.WN := i32 (bin_to_uint wn); Gps_Ephemeris.L2_P_data_flag := negb (bin_to_uint l2p =? 0);
      Gps_Ephemeris.SV_accuracy := i32 (bin_to_uint ura); Gps_Ephemeris.SV_health := i32 (bin_to_uint health); Gps_Ephemeris.TGD := idbl tgd GPS_L1_CA.T_GD_LSB;
      Gps_Ephemeris.IODC := bin_to_uint iodc; Gps_Ephemeris.IODE_SF2 := bin_to_uint iode; Gps_Ephemeris.IODE_SF3 := bin_to_uint iode;
      Gps_Ephemeris.AODO := Gps_Ephemeris.AODO gps_eph; Gps_Ephemeris.fit_interval_flag := negb (bin_to_uint fit =? 0);
      Gps_Ephemeris.af0 := idbl af0 GPS_L1_CA.A_F0_LSB; Gps_Ephemeris.af1 := idbl af1 GPS_L1_CA.A_F1_LSB; Gps_Ephemeris.af2 := idbl af2 GPS_L1_CA.A_F2_LSB;
      Gps_Ephemeris.integrity_status_flag := Gps_Ephemeris.integrity_status_flag gps_eph; Gps_Ephemeris.alert_flag := Gps_Ephemeris.alert_flag gps_eph;
      Gps_Ephemeris.antispoofing_flag := Gps_Ephemeris.antispoofing_flag gps_eph |}).
End Crc.
