(* ===== verification/Clock.v ===== *)
(** * Clocks

    A time of week in seconds that a telemetry decoder keeps as a [double] and advances by a
    constant at every symbol: bounds on it in milliseconds, and the time stamp in milliseconds
    made from it. *)
From S2P Require Import Prelude Doubles DoublesErr DoublesInt Rtcm.
From Stdlib Require Import SpecFloat.

#[local] Open Scope Z_scope.

(** The unit of [sv], in which times are compared; arithmetic takes it as a number it does not
    look into. *)
Definition scale : Z := 2 ^ 3000.

Lemma scale_pos : 0 < scale.
Proof. apply Z.pow_pos_nonneg; lia. Qed.

(** [t] is a time between 0 and [b] milliseconds. *)
Definition clock_in (t : double) (b : Z) : Prop :=
  match t with
  | S754_zero _ => 0 <= b
  | S754_finite false m e => 2 ^ 52 <= Z.pos m < 2 ^ 53 /\ -400 <= e <= 400 /\ sv (Z.pos m) e * 1000 <= b * scale
  | _ => False
  end.

Lemma clock_in_le t b b' : clock_in t b -> b <= b' -> clock_in t b'.
Proof.
  intros Ht Hb. pose proof (Z.mul_le_mono_nonneg_r b b' scale ltac:(pose proof scale_pos; lia) Hb). destruct t as [| | |[] m e]; cbn [clock_in] in *; lia.
Qed.

Lemma small_exponent m e b : 2 ^ 52 <= Z.pos m -> -2000 <= e -> b < 2 ^ 40 -> sv (Z.pos m) e <= b * scale -> e < 0.
Proof.
  intros Hm He Hb Hs. destruct (decide (e < 0)); [done|exfalso]. unfold sv in Hs. replace (e + 3000) with (3000 + e) in Hs by (clear; lia). rewrite Z.pow_add_r in Hs by lia. change (2 ^ 3000) with scale in Hs.
  pose proof (Z.pow_le_mono_r 2 0 e ltac:(lia) ltac:(lia)) as H1. change (2 ^ 0) with 1 in H1. pose proof scale_pos as HC.
  generalize dependent scale. intros C Hs HC. generalize dependent (2 ^ e). intros t Hs Ht. assert (C * 2 ^ 52 <= C * (Z.pos m * t)) by (apply Z.mul_le_mono_nonneg_l; nia). nia.
Qed.

(** [u] is at most [c] milliseconds and a rounding error. *)
Definition step_of (u : double) (c : Z) : Prop :=
  match u with
  | S754_zero _ => 0 <= c
  | S754_finite false m e => 2 ^ 52 <= Z.pos m < 2 ^ 53 /\ -400 <= e <= 400 /\ sv (Z.pos m) e * 1000 * 2 ^ 20 <= (c * 2 ^ 20 + 1) * scale
  | _ => False
  end.

#[global] Instance step_of_dec u c : Decision (step_of u c).
Proof. destruct u as [| | |[] m e]; cbn [step_of]; apply _. Defined.

Lemma clock_in_step u c : clock_in u c -> step_of u c.
Proof.
  destruct u as [| | |[] m e]; cbn [clock_in step_of]; try done. intros (Hm & He & Hs). split; [done|]. split; [done|].
  pose proof scale_pos. lia.
Qed.

Lemma sum_bound C x y z b c : 0 < C -> 0 <= b < 2 ^ 31 -> 0 <= c < 2 ^ 31 -> x * 1000 <= b * C -> y * 1000 * 2 ^ 20 <= (c * 2 ^ 20 + 1) * C ->
  Z.abs (z - (x + y)) * 2 ^ 52 <= x + y -> z * 1000 <= (b + c + 1) * C.
Proof.
  intros HC Hb Hc Hx Hy Hz. assert (z * 2 ^ 52 <= (x + y) * (2 ^ 52 + 1)) by lia. assert (0 <= b * C <= 2 ^ 31 * C) by nia. assert (0 <= c * C <= 2 ^ 31 * C) by nia.
  assert ((x + y) * 1000 * 2 ^ 20 <= ((b + c) * 2 ^ 20 + 1) * C) by lia. lia.
Qed.

(** A sum is off by less than a millisecond. *)
Lemma clock_add t u b c : clock_in t b -> step_of u c -> 0 <= b < 2 ^ 31 -> 0 <= c < 2 ^ 31 -> clock_in (dbl_add t u) (b + c + 1).
Proof.
  intros Ht Hu Hb Hc. pose proof scale_pos as HC.
  destruct t as [s| | |[] m e]; cbn [clock_in] in Ht; try done; destruct u as [s'| | |[] m' e']; cbn [step_of] in Hu; try done.
  - destruct s, s'; cbn [dbl_add SFadd clock_in Bool.eqb]; lia.
  - cbn [dbl_add SFadd clock_in]. destruct Hu as (? & ? & Hu). split; [done|]. split; [done|]. generalize dependent scale. intros C HC Hu. nia.
  - cbn [dbl_add SFadd clock_in]. destruct Ht as (? & ? & Ht). split; [done|]. split; [done|]. generalize dependent scale. intros C HC Ht. nia.
  - destruct Ht as (Hm & He & Hs), Hu as (Hm' & He' & Hs'). destruct (add_error m e m' e' Hm Hm' He He') as (k & ek & -> & Hk & Hek & Herr). cbn [clock_in].
    assert (sv (Z.pos k) ek * 1000 <= (b + c + 1) * scale) as Hv by exact (sum_bound _ _ _ _ _ _ HC Hb Hc Hs Hs' Herr).
    pose proof (small_exponent k ek (b + c + 1) ltac:(lia) ltac:(lia) ltac:(lia)) as Hsm. assert (0 < sv (Z.pos k) ek) by (unfold sv; pose proof (Z.pow_pos_nonneg 2 (ek + 3000)); nia).
    assert (ek < 0) by (apply Hsm; lia). split; [done|]. split; [lia|done].
Qed.

(** Whole seconds. *)
Lemma clock_seconds n : 0 <= n < 2 ^ 31 -> clock_in (dbl_of_Z n) (n * 1000).
Proof.
  intros Hn. destruct (decide (n = 0)) as [->|Hz]; [done|]. destruct (int_sv n Hz ltac:(lia)) as (m & e & -> & Hm & He & Hv). change (2 ^ 3000) with scale in Hv.
  rewrite (proj2 (Z.ltb_ge n 0)) by lia. cbn [clock_in]. rewrite Hv, Z.abs_eq by lia. split; [done|]. split; [lia|]. generalize scale. lia.
Qed.

Lemma round_in_range m e b : 2 ^ 52 <= Z.pos m -> -2000 <= e -> 0 <= b < 2 ^ 32 -> sv (Z.pos m) e <= b * scale ->
  exists r, Z_of_dbl (dbl_round (S754_finite false m e)) = Some r /\ 0 <= r <= b + 1.
Proof.
  intros Hm He Hb Hs. assert (e < 0) as Hneg by (apply (small_exponent m e b); lia). cbn [dbl_round]. rewrite (proj2 (Z.leb_gt 0 e)) by lia.
  set (r := (Z.pos m + 2 ^ (- e - 1)) / 2 ^ (- e)). pose proof (Z.pow_pos_nonneg 2 (- e) ltac:(lia) ltac:(lia)) as Hp. pose proof (Z.pow_pos_nonneg 2 (- e - 1) ltac:(lia) ltac:(lia)) as Hp1.
  assert (Z.pos m <= b * 2 ^ (- e)) as Hmb.
  { unfold sv in Hs. replace scale with (2 ^ (- e) * 2 ^ (e + 3000)) in Hs by (unfold scale; rewrite <- Z.pow_add_r by (clear -He Hneg; lia); f_equal; clear; lia). rewrite Z.mul_assoc in Hs.
    apply Z.mul_le_mono_pos_r in Hs; [done|apply Z.pow_pos_nonneg; lia]. }
  assert (2 ^ (- e - 1) <= 2 ^ (- e)) by (apply Z.pow_le_mono_r; lia).
  assert (0 <= r <= b + 1) as Hr by (split; [apply Z.div_pos; lia|apply Z.div_le_upper_bound; nia]).
  exists r. split; [|done]. destruct (Z.eqb_spec r 0) as [->|]; [done|]. cbn [cond_Zopp]. apply Z_of_dbl_of_Z. lia.
Qed.

Lemma stamp_bound C x y b : 0 < C -> 0 <= b < 2 ^ 31 -> x * 1000 <= b * C -> Z.abs (y * C - x * (1000 * C)) * 2 ^ 52 <= x * (1000 * C) -> y <= (b + 1) * C.
Proof.
  intros HC Hb Hx Hy. replace (y * C - x * (1000 * C)) with ((y - x * 1000) * C) in Hy by ring. rewrite Z.abs_mul, (Z.abs_eq C) in Hy by lia.
  assert (Z.abs (y - x * 1000) * 2 ^ 52 <= x * 1000) as H1 by nia. assert (b * C < 2 ^ 31 * C) by nia. lia.
Qed.

(** The time stamp of a symbol is defined. *)
Lemma clock_ms t b : clock_in t b -> 0 <= b < 2 ^ 31 -> exists ms, to_u32 (dbl_round (dbl_mul t (dbl_of_Z 1000))) = Some ms.
Proof.
  intros Hc Hb. destruct t as [s| | |[] m e]; cbn [clock_in] in Hc; try done.
  { exists 0. by destruct s. }
  destruct Hc as (Hm & He & Hs). destruct (int_sv 1000 ltac:(lia) ltac:(lia)) as (k & ek & -> & Hk & Hek & Hv). change (2 ^ 3000) with scale in Hv. change (1000 <? 0) with false.
  destruct (mul_error false false m k e ek Hm Hk ltac:(lia) ltac:(lia)) as (m' & e' & -> & Hm' & He' & Herr). cbn [xorb]. rewrite Hv in Herr. change (2 ^ 3000) with scale in Herr. change (Z.abs 1000) with 1000 in Herr.
  destruct (round_in_range m' e' (b + 1)) as (r & Hr & Hrb); [lia|lia|lia| |].
  - pose proof scale_pos as HC. exact (stamp_bound _ _ _ _ HC Hb Hs Herr).
  - exists r. unfold to_u32, cast_range. rewrite Hr. cbn [mbind option_bind]. by rewrite decide_True by lia.
Qed.

#[global] Instance clock_in_dec t b : Decision (clock_in t b).
Proof. destruct t as [| | |[] m e]; cbn [clock_in]; apply _. Defined.
