(* ===== verification/RtcmProps.v ===== *)
(** * RTCM messages: what is written is read

    Frames carry their data, and the GPS ephemeris message brings back every ephemeris that a
    navigation message can have set; where messages do not, the theorems say how. *)
From S2P Require Import Prelude Edc GnssSignal Doubles DoublesErr NavBits GpsNav Rtcm.
From Stdlib Require Import SpecFloat.

#[local] Open Scope Z_scope.

(** ** Octets *)

Lemma octets_bits n s : length s = (8 * n)%nat -> binary_data_to_bin (blocks n s) = s.
Proof.
  revert s. induction n as [|n IH]; intros s Hl; [by destruct s|]. cbn [blocks]. unfold binary_data_to_bin in *. rewrite mbind_cons, IH by (rewrite length_drop; lia).
  rewrite <- (take_drop 8 s) at 3. f_equal. rewrite <- (val_bits_bits_val (take 8 s)) at 2. rewrite length_take. f_equal. lia.
Qed.

Lemma octets_of_bits l : Forall (fun v => 0 <= v < 256) l -> blocks (length l) (binary_data_to_bin l) = l.
Proof.
  intros H. induction H as [|v l Hv H IH]; [done|]. unfold binary_data_to_bin. rewrite mbind_cons. cbn [length blocks].
  rewrite take_app_length', drop_app_length' by (by rewrite length_val_bits). rewrite bits_val_val_bits, Z.mod_small by done. f_equal. exact IH.
Qed.

Lemma octets_range n s : length s = (8 * n)%nat -> Forall (fun v => 0 <= v < 256) (blocks n s).
Proof.
  revert s. induction n as [|n IH]; intros s Hl; constructor; [|apply IH; rewrite length_drop; lia].
  pose proof (bits_val_range (take 8 s)) as Hr. rewrite length_take, Nat.min_l in Hr by lia. exact Hr.
Qed.

Lemma block_range_octets n s : length s = (8 * n)%nat -> block_range s = blocks n s.
Proof.
  intros Hl. unfold block_range. rewrite Hl, Nat.mul_comm, Nat.Div0.mod_mul, Nat.div_mul by lia. by rewrite decide_True.
Qed.

Lemma pack_loop_octets n : forall s i fuel, length s = (i + 8 * n)%nat -> (0 < i + n)%nat -> (n < fuel)%nat ->
  pack_loop fuel s i = Some (blocks n (drop i s)).
Proof.
  induction n as [|n IH]; intros s i [|fuel] Hl Hp Hf; try lia; cbn [pack_loop].
  - rewrite (proj2 (Nat.ltb_ge _ _)) by lia. done.
  - rewrite (proj2 (Nat.ltb_lt _ _)) by lia. unfold substr. rewrite !(proj2 (Nat.leb_le _ _)) by lia. cbn [mbind option_bind].
    rewrite IH by lia. cbn [mbind option_bind blocks]. do 2 f_equal; [|f_equal; by rewrite drop_drop].
    assert (bits_val (take 8 (drop i s)) = bits_val (take 4 (drop i s)) * 16 + bits_val (take 4 (drop (i + 4) s))) as Hv.
    { replace 8%nat with (4 + 4)%nat by done. rewrite <- take_take_drop, drop_drop, bits_val_app, length_take, length_drop.
      rewrite Nat.min_l by lia. done. }
    pose proof (bits_val_range (take 4 (drop i s))) as H1. pose proof (bits_val_range (take 4 (drop (i + 4) s))) as H2.
    rewrite length_take, length_drop, Nat.min_l in H1, H2 by lia. change (2 ^ Z.of_nat 4) with 16 in *.
    rewrite Hv, !uwrap_small by (rewrite ?uwrap_small by lia; lia). done.
Qed.

Lemma pack_octets n s : length s = (8 * n)%nat -> (0 < n)%nat -> bin_to_binary_data s = Some (blocks n s).
Proof.
  intros Hl Hn. unfold bin_to_binary_data. rewrite decide_False by (intros ->; cbn in Hl; lia).
  assert (length s mod 8 = 0)%nat as Hr by (rewrite Hl, Nat.mul_comm; apply Nat.Div0.mod_mul).
  rewrite Hr, (pack_loop_octets n s 0) by lia. done.
Qed.

(** ** Frames *)

Section Frame.
Context (crc : list Z -> Z).

Definition pad (data : list bool) : list bool := replicate (Z.to_nat (8 * ((Z.of_nat (length data) + 7) / 8) - Z.of_nat (length data))) false.

(** The part of a frame that the CRC covers. *)
Definition frame_body (data : list bool) : list bool :=
  preamble ++ reserved_field ++ bitset 10 ((Z.of_nat (length data) + 7) / 8) ++ (data ++ pad data).

Lemma frame_body_length data : length (frame_body data) = (8 * (3 + Z.to_nat ((Z.of_nat (length data) + 7) / 8)))%nat.
Proof.
  unfold frame_body, pad, bitset. rewrite !length_app, length_replicate, length_val_bits. cbn [length preamble reserved_field replicate].
  pose proof (Z.div_mod (Z.of_nat (length data) + 7) 8 ltac:(lia)). pose proof (Z.mod_pos_bound (Z.of_nat (length data) + 7) 8 ltac:(lia)). lia.
Qed.

Lemma build_message_bits data : exists msg, build_message crc data = Some msg /\ Forall (fun v => 0 <= v < 256) msg /\
  binary_data_to_bin msg = frame_body data ++ bitset 24 (crc (block_range (frame_body data))).
Proof.
  pose proof (frame_body_length data) as Hl. set (n := Z.to_nat ((Z.of_nat (length data) + 7) / 8)) in *.
  assert (length (frame_body data ++ bitset 24 (crc (block_range (frame_body data)))) = (8 * (6 + n))%nat) as Hl2.
  { rewrite length_app, Hl. unfold bitset. rewrite length_val_bits. lia. }
  exists (blocks (6 + n) (frame_body data ++ bitset 24 (crc (block_range (frame_body data))))).
  split; [|split; [by apply octets_range|by apply octets_bits]].
  unfold build_message, add_CRC. fold (pad data) (frame_body data). apply pack_octets; [exact Hl2|lia].
Qed.

Lemma check_CRC_bits msg body c : binary_data_to_bin msg = body ++ bitset 24 c ->
  check_CRC crc msg = Some (bool_decide (bitset 24 c = bitset 24 (crc (block_range body)))).
Proof.
  intros Hb. unfold check_CRC. rewrite Hb. assert (length (bitset 24 c) = 24%nat) as Hl by apply length_val_bits.
  rewrite length_app, Hl. rewrite (proj2 (Nat.ltb_ge _ _)) by lia. unfold substr. rewrite !(proj2 (Nat.leb_le _ _)) by (rewrite length_app; lia).
  replace (length body + 24 - 24)%nat with (length body) by lia. cbn [mbind option_bind]. rewrite drop_app_length, drop_0, take_app_length.
  rewrite (take_ge (bitset 24 c)) by lia. done.
Qed.

Lemma frame_accepted data msg : build_message crc data = Some msg -> check_CRC crc msg = Some true.
Proof.
  intros Hm. destruct (build_message_bits data) as (m & Hm' & _ & Hb). rewrite Hm in Hm'. injection Hm' as <-.
  rewrite (check_CRC_bits _ _ _ Hb). by rewrite bool_decide_eq_true_2.
Qed.

(** *** Damage *)

(** The CRC of the Boost library: the polynomial 0x1864CFB, the register cleared at the start. *)
Class Crc24Q : Prop := crc_polynomial l : bytes l -> crc l = crc_bits 0 (bitlist l).

Lemma bytes_split l1 l2 msg : bytes msg -> bitlist msg = l1 ++ l2 -> length l2 = 24%nat -> bitlist (block_range l1) = l1 /\ bytes (block_range l1).
Proof.
  intros Hb Hs Hl. pose proof (length_bitlist msg) as Hlen. rewrite Hs, length_app, Hl in Hlen.
  assert (length l1 = (8 * (length msg - 3))%nat) as Hl1 by lia. rewrite (block_range_octets _ _ Hl1).
  split; [by apply octets_bits|by apply octets_range].
Qed.

(** A frame is accepted if and only if the register is zero behind it. *)
Lemma accepted_iff msg {HC : Crc24Q} : bytes msg -> (3 <= length msg)%nat -> check_CRC crc msg = Some (bool_decide (crc_bits 0 (bitlist msg) = 0)).
Proof.
  intros Hb Hl. set (n := (8 * (length msg - 3))%nat). pose proof (length_bitlist msg) as Hlen.
  set (body := take n (bitlist msg)). set (tail := drop n (bitlist msg)).
  assert (length tail = 24%nat) as Ht by (unfold tail; rewrite length_drop; lia).
  assert (bitlist msg = body ++ bitset 24 (bits_val tail)) as Hs.
  { unfold bitset. rewrite <- Ht, val_bits_bits_val. unfold body, tail. by rewrite take_drop. }
  rewrite (check_CRC_bits _ _ _ Hs). f_equal.
  assert (bitset 24 (bits_val tail) = tail) as Hbt by (unfold bitset; by rewrite <- Ht, val_bits_bits_val).
  rewrite Hbt in *. destruct (bytes_split body tail msg Hb Hs Ht) as [H1 H2]. rewrite crc_polynomial, H1 by done.
  rewrite Hs, crc_bits_app. pose proof (crc_bits_range 0 body ltac:(lia)) as Hr. apply bool_decide_ext.
  rewrite crc_check_field by done. split; intros H.
  - rewrite H. unfold bitset. rewrite bits_val_val_bits. by apply Z.mod_small.
  - unfold bitset. by rewrite <- H, <- Ht, val_bits_bits_val.
Qed.

Lemma damage_found {HC : Crc24Q} msg msg' p : bytes msg -> bytes msg' -> length msg' = length msg -> (3 <= length msg)%nat -> check_CRC crc msg = Some true ->
  (forall k, bitlist msg' !! k <> bitlist msg !! k -> (p <= k < p + 24)%nat) -> msg' <> msg -> check_CRC crc msg' = Some false.
Proof.
  intros Hb Hb' Hl H3 Hc Hd Hne. rewrite accepted_iff in Hc by done. injection Hc as Hc%bool_decide_eq_true. rewrite accepted_iff by (done || lia).
  f_equal. apply bool_decide_eq_false_2. intros H0. apply Hne. apply bitlist_inj; [done..|]. apply (crc_burst 0 _ _ p); [|congruence|done].
  rewrite !length_bitlist. lia.
Qed.

Lemma build_message_shape data msg : build_message crc data = Some msg -> bytes msg /\ (3 <= length msg)%nat.
Proof.
  intros Hm. destruct (build_message_bits data) as (m & Hm' & Hb & Hbits). rewrite Hm in Hm'. injection Hm' as <-. split; [done|].
  apply (f_equal length) in Hbits. change (binary_data_to_bin msg) with (bitlist msg) in Hbits.
  rewrite length_bitlist, length_app, frame_body_length in Hbits. lia.
Qed.

(** ** Reading fields *)

Lemma next_field bits i n f rest : drop i bits = f ++ rest -> length f = n -> (0 < n)%nat ->
  take_field bits i n = Some (f, (i + n)%nat) /\ drop (i + n) bits = rest.
Proof.
  intros Hd Hl Hn. assert (i < length bits)%nat as Hi.
  { apply (f_equal length) in Hd. rewrite length_drop, length_app in Hd. lia. }
  unfold take_field, substr. rewrite (proj2 (Nat.leb_le _ _)) by lia. cbn [mbind option_bind].
  rewrite Hd, take_app_length' by done. split; [done|]. rewrite <- drop_drop, Hd. by rewrite drop_app_length'.
Qed.

Lemma bin_to_uint_bitset n v : (n <= 32)%nat -> bin_to_uint (bitset n v) = v mod 2 ^ Z.of_nat n.
Proof.
  intros Hn. unfold bin_to_uint, bitset. rewrite length_val_bits, (proj2 (Nat.ltb_ge _ _)), bits_val_val_bits by lia.
  apply uwrap_small. pose proof (Z.mod_pos_bound v (2 ^ Z.of_nat n) ltac:(lia)). pose proof (Z.pow_le_mono_r 2 (Z.of_nat n) 32 ltac:(lia) ltac:(lia)). lia.
Qed.

Lemma bits_val_flip l : bits_val (negb <$> l) = 2 ^ Z.of_nat (length l) - 1 - bits_val l.
Proof.
  induction l as [|b l IH]; [done|]. rewrite fmap_cons, !bits_val_cons, length_fmap, IH. cbn [length]. rewrite Nat2Z.inj_succ, Z.pow_succ_r by lia.
  destruct b; cbn [negb Z.b2z]; lia.
Qed.

Lemma bin_to_int_signed l : l <> [] -> (length l <= 32)%nat -> bin_to_int l = signed_val l.
Proof.
  intros Hne Hl. pose proof (signed_val_range l Hne) as Hr. pose proof (Z.pow_le_mono_r 2 (Z.of_nat (length l) - 1) 31 ltac:(lia) ltac:(lia)) as Hp.
  unfold bin_to_int. rewrite (proj2 (Nat.ltb_ge _ _)) by lia. destruct l as [|[] l]; [done| |]; cbn [first_not_0].
  - rewrite bits_val_flip. replace (- (2 ^ Z.of_nat (length (true :: l)) - 1 - bits_val (true :: l) + 1)) with (signed_val (true :: l)) by (cbn [signed_val]; lia).
    apply swrap_small; [change (32 - 1) with 31; lia|lia].
  - cbn [signed_val] in *. apply swrap_small; [change (32 - 1) with 31; lia|lia].
Qed.

Lemma signed_of_bits n v : (0 < n)%nat -> - 2 ^ (Z.of_nat n - 1) <= v < 2 ^ (Z.of_nat n - 1) -> signed_val (val_bits n v) = v.
Proof.
  intros Hn Hv. destruct n as [|n]; [lia|]. replace (Z.of_nat (S n) - 1) with (Z.of_nat n) in Hv by lia.
  cbn [val_bits]. rewrite signed_val_cons, bits_val_val_bits, length_val_bits.
  pose proof (Z.pow_pos_nonneg 2 (Z.of_nat n) ltac:(lia) ltac:(lia)).
  destruct (Z.testbit v (Z.of_nat n)) eqn:E; cbn [Z.b2z].
  - assert (v < 0) by (destruct (decide (v < 0)); [done|]; rewrite (testbit_above (Z.of_nat n) v) in E by lia; done).
    rewrite <- (Z.mod_add v 1 (2 ^ Z.of_nat n)), Z.mod_small by lia. lia.
  - assert (0 <= v) as Hv0.
    { destruct (decide (0 <= v)); [done|exfalso]. rewrite <- (Z.lnot_involutive v), Z.lnot_spec in E by lia.
      rewrite (testbit_above (Z.of_nat n) (Z.lnot v)) in E by (unfold Z.lnot; lia). done. }
    rewrite Z.mod_small by lia. lia.
Qed.

Lemma bin_to_int_bitset n v : (0 < n <= 32)%nat -> - 2 ^ (Z.of_nat n - 1) <= v < 2 ^ (Z.of_nat n - 1) -> bin_to_int (bitset n v) = v.
Proof.
  intros Hn Hv. unfold bitset. rewrite bin_to_int_signed.
  - by apply signed_of_bits; lia.
  - intros H. apply (f_equal length) in H. rewrite length_val_bits in H. cbn in H. lia.
  - rewrite length_val_bits. lia.
Qed.
End Frame.

(** ** GPS ephemerides as integers *)

(** The integers that the navigation message has for an ephemeris. *)
Record raw_ephemeris := {
  r_prn : Z; r_wn : Z; r_ura : Z; r_l2 : Z; r_idot : Z; r_iode : Z; r_toc : Z; r_af2 : Z; r_af1 : Z; r_af0 : Z; r_iodc : Z; r_crs : Z; r_dn : Z;
  r_m0 : Z; r_cuc : Z; r_ecc : Z; r_cus : Z; r_sqa : Z; r_toe : Z; r_cic : Z; r_om0 : Z; r_cis : Z; r_i0 : Z; r_crc : Z; r_om : Z; r_omd : Z;
  r_tgd : Z; r_health : Z; r_l2p : bool; r_fit : bool }.

Definition unsigned_in (n v : Z) : Prop := 0 <= v < 2 ^ n.
Definition signed_in (n v : Z) : Prop := - 2 ^ (n - 1) <= v < 2 ^ (n - 1).

(** The widths of the fields. *)
Record raw_ok (r : raw_ephemeris) : Prop := {
  ok_prn : unsigned_in 6 (r_prn r); ok_wn : unsigned_in 10 (r_wn r); ok_ura : unsigned_in 4 (r_ura r); ok_l2 : unsigned_in 2 (r_l2 r);
  ok_idot : signed_in 14 (r_idot r); ok_iode : unsigned_in 8 (r_iode r); ok_toc : unsigned_in 16 (r_toc r); ok_af2 : signed_in 8 (r_af2 r);
  ok_af1 : signed_in 16 (r_af1 r); ok_af0 : signed_in 22 (r_af0 r); ok_iodc : unsigned_in 10 (r_iodc r); ok_crs : signed_in 16 (r_crs r);
  ok_dn : signed_in 16 (r_dn r); ok_m0 : signed_in 32 (r_m0 r); ok_cuc : signed_in 16 (r_cuc r); ok_ecc : unsigned_in 32 (r_ecc r);
  ok_cus : signed_in 16 (r_cus r); ok_sqa : unsigned_in 32 (r_sqa r); ok_toe : unsigned_in 16 (r_toe r); ok_cic : signed_in 16 (r_cic r);
  ok_om0 : signed_in 32 (r_om0 r); ok_cis : signed_in 16 (r_cis r); ok_i0 : signed_in 32 (r_i0 r); ok_crc : signed_in 16 (r_crc r);
  ok_om : signed_in 32 (r_om r); ok_omd : signed_in 24 (r_omd r); ok_tgd : signed_in 8 (r_tgd r); ok_health : unsigned_in 6 (r_health r) }.

(** The ephemeris of these integers; what they do not determine is that of [base]. *)
Definition ephemeris_of (r : raw_ephemeris) (base : Gps_Ephemeris.ephemeris) : Gps_Ephemeris.ephemeris :=
  let x v lsb := dbl_mul (dbl_of_Z v) lsb in
  {| Gps_Ephemeris.PRN := r_prn r; Gps_Ephemeris.tow := Gps_Ephemeris.tow base; Gps_Ephemeris.Crs := x (r_crs r) GPS_L1_CA.C_RS_LSB;
     Gps_Ephemeris.delta_n := x (r_dn r) GPS_L1_CA.DELTA_N_LSB; Gps_Ephemeris.M_0 := x (r_m0 r) GPS_L1_CA.M_0_LSB;
     Gps_Ephemeris.Cuc := x (r_cuc r) GPS_L1_CA.C_UC_LSB; Gps_Ephemeris.ecc := x (r_ecc r) GPS_L1_CA.ECCENTRICITY_LSB;
     Gps_Ephemeris.Cus := x (r_cus r) GPS_L1_CA.C_US_LSB; Gps_Ephemeris.sqrtA := x (r_sqa r) GPS_L1_CA.SQRT_A_LSB;
     Gps_Ephemeris.toe := 16 * r_toe r; Gps_Ephemeris.toc := 16 * r_toc r; Gps_Ephemeris.Cic := x (r_cic r) GPS_L1_CA.C_IC_LSB;
     Gps_Ephemeris.OMEGA_0 := x (r_om0 r) GPS_L1_CA.OMEGA_0_LSB; Gps_Ephemeris.Cis := x (r_cis r) GPS_L1_CA.C_IS_LSB;
     Gps_Ephemeris.i_0 := x (r_i0 r) GPS_L1_CA.I_0_LSB; Gps_Ephemeris.Crc := x (r_crc r) GPS_L1_CA.C_RC_LSB;
     Gps_Ephemeris.omega := x (r_om r) GPS_L1_CA.OMEGA_LSB; Gps_Ephemeris.OMEGAdot := x (r_omd r) GPS_L1_CA.OMEGA_DOT_LSB;
     Gps_Ephemeris.idot := x (r_idot r) GPS_L1_CA.I_DOT_LSB; Gps_Ephemeris.code_on_L2 := r_l2 r; Gps_Ephemeris.WN := r_wn r;
     Gps_Ephemeris.L2_P_data_flag := r_l2p r; Gps_Ephemeris.SV_accuracy := r_ura r; Gps_Ephemeris.SV_health := r_health r;
     Gps_Ephemeris.TGD := x (r_tgd r) GPS_L1_CA.T_GD_LSB; Gps_Ephemeris.IODC := r_iodc r; Gps_Ephemeris.IODE_SF2 := r_iode r;
     Gps_Ephemeris.IODE_SF3 := r_iode r; Gps_Ephemeris.AODO := Gps_Ephemeris.AODO base; Gps_Ephemeris.fit_interval_flag := r_fit r;
     Gps_Ephemeris.af0 := x (r_af0 r) GPS_L1_CA.A_F0_LSB; Gps_Ephemeris.af1 := x (r_af1 r) GPS_L1_CA.A_F1_LSB;
     Gps_Ephemeris.af2 := x (r_af2 r) GPS_L1_CA.A_F2_LSB; Gps_Ephemeris.integrity_status_flag := Gps_Ephemeris.integrity_status_flag base;
     Gps_Ephemeris.alert_flag := Gps_Ephemeris.alert_flag base; Gps_Ephemeris.antispoofing_flag := Gps_Ephemeris.antispoofing_flag base |}.

(** The fields of message 1019 for these integers, behind its number. *)
Definition raw_fields (r : raw_ephemeris) : list (list bool) :=
  [bitset 6 (r_prn r); bitset 10 (r_wn r); bitset 4 (r_ura r); bitset 2 (r_l2 r); bitset 14 (r_idot r); bitset 8 (r_iode r);
   bitset 16 (r_toc r); bitset 8 (r_af2 r); bitset 16 (r_af1 r); bitset 22 (r_af0 r); bitset 10 (r_iodc r); bitset 16 (r_crs r); bitset 16 (r_dn r);
   bitset 32 (r_m0 r); bitset 16 (r_cuc r); bitset 32 (r_ecc r); bitset 16 (r_cus r); bitset 32 (r_sqa r); bitset 16 (r_toe r); bitset 16 (r_cic r);
   bitset 32 (r_om0 r); bitset 16 (r_cis r); bitset 32 (r_i0 r); bitset 16 (r_crc r); bitset 32 (r_om r); bitset 24 (r_omd r); bitset 8 (r_tgd r);
   bitset 6 (r_health r); [r_l2p r]; [r_fit r]].

Lemma cast_in lo hi x v : Z_of_dbl x = Some v -> lo <= v < hi -> cast_range lo hi x = Some v.
Proof. intros H Hv. unfold cast_range. rewrite H. cbn [mbind option_bind]. by rewrite decide_True. Qed.

(** A scaled field is written as its integer. *)
Lemma scaled_back lo hi N v lsb : factor lsb = true -> lo <= v < hi -> Z.abs v < 2 ^ 48 ->
  scaled (cast_range lo hi) N (dbl_mul (dbl_of_Z v) lsb) lsb = Some (bitset N v).
Proof. intros Hf Hv Ha. unfold scaled. rewrite (cast_in _ _ _ v); [done| |done]. by apply scale_and_back. Qed.

Lemma round_int z : 0 <= z < 2 ^ 48 -> Z_of_dbl (dbl_round (dbl_of_Z z)) = Some z.
Proof.
  intros Hz. destruct (decide (z = 0)) as [->|Hn]; [done|]. destruct (int_sv z Hn ltac:(lia)) as (m & e & -> & Hm & He & Hv).
  rewrite (round_near (z <? 0) m e (Z.abs z)); [by rewrite cond_Zopp_abs|lia|lia|lia|]. rewrite Hv, Z.sub_diag. cbn [Z.abs]. apply Z.pow_pos_nonneg; lia.
Qed.

Lemma scaled_time_back N v lsb : 0 < lsb -> 0 <= v < 2 ^ 31 -> scaled_time N (lsb * v) lsb = Some (bitset N v).
Proof.
  intros Hl Hv. unfold scaled_time, to_u32. rewrite Z.mul_comm, Z.quot_mul by lia. rewrite (cast_in _ _ _ v); [done| |lia]. apply round_int. lia.
Qed.

(** Negative values are two's complement in a narrower field of an unsigned type, too. *)
Lemma bitset_mod N k v : (Z.of_nat N <= k) -> bitset N (uwrap k v) = bitset N v.
Proof.
  intros Hk. unfold bitset. apply list_eq. intros i. rewrite !lookup_val_bits. destruct (decide (i < N)%nat); [|done]. f_equal.
  by rewrite testbit_uwrap, (proj2 (Z.ltb_lt _ _)), andb_true_l by lia.
Qed.

Ltac factor_ok := vm_compute; reflexivity.

(** The conditions of the lemmas above. *)
Ltac side := lazymatch goal with |- factor _ = true => factor_ok | _ => lia end.

Lemma MT1019_fields r base : raw_ok r -> 0 <= r_idot r -> MT1019_data (ephemeris_of r base) = Some (mjoin (bitset 12 1019 :: raw_fields r)).
Proof.
  intros [] Hi. unfold unsigned_in, signed_in in *. unfold MT1019_data.
  unfold set_DF079, set_DF081, set_DF082, set_DF083, set_DF084, set_DF086, set_DF087, set_DF088, set_DF089, set_DF090, set_DF091, set_DF092, set_DF093,
    set_DF094, set_DF095, set_DF096, set_DF097, set_DF098, set_DF099, set_DF100, set_DF101, ephemeris_of.
  cbn [Gps_Ephemeris.Crs Gps_Ephemeris.delta_n Gps_Ephemeris.M_0 Gps_Ephemeris.Cuc Gps_Ephemeris.ecc Gps_Ephemeris.Cus Gps_Ephemeris.sqrtA Gps_Ephemeris.toe
    Gps_Ephemeris.toc Gps_Ephemeris.Cic Gps_Ephemeris.OMEGA_0 Gps_Ephemeris.Cis Gps_Ephemeris.i_0 Gps_Ephemeris.Crc Gps_Ephemeris.omega Gps_Ephemeris.OMEGAdot
    Gps_Ephemeris.idot Gps_Ephemeris.TGD Gps_Ephemeris.af0 Gps_Ephemeris.af1 Gps_Ephemeris.af2].
  unfold to_u32, to_u64, to_i16, to_i32, to_i64, GPS_L1_CA.T_OC_LSB, GPS_L1_CA.T_OE_LSB. rewrite !scaled_time_back by lia.
  rewrite !scaled_back by side. cbn [mbind option_bind].
  unfold set_DF071, set_DF076, set_DF077, set_DF078, set_DF085, set_DF102, set_DF002, set_DF009, set_DF103, set_DF137.
  cbn [Gps_Ephemeris.PRN Gps_Ephemeris.IODE_SF2 Gps_Ephemeris.WN Gps_Ephemeris.SV_accuracy Gps_Ephemeris.code_on_L2 Gps_Ephemeris.IODC Gps_Ephemeris.SV_health
    Gps_Ephemeris.L2_P_data_flag Gps_Ephemeris.fit_interval_flag].
  rewrite !bitset_mod by lia. cbn [raw_fields mjoin list_join]. by rewrite app_nil_r.
Qed.

(** A negative rate of inclination does not fit the unsigned type that it is converted to. *)
Lemma MT1019_negative_idot r base : raw_ok r -> r_idot r < 0 -> MT1019_data (ephemeris_of r base) = None.
Proof.
  intros [] Hi. unfold unsigned_in, signed_in in *. unfold MT1019_data, set_DF079. cbn [ephemeris_of Gps_Ephemeris.idot].
  unfold scaled, to_u32, cast_range. rewrite scale_and_back by side. cbn [mbind option_bind]. by rewrite decide_False by lia.
Qed.

(** ** Reading *)

Lemma flag_read b : negb (bin_to_uint [b] =? 0) = b.
Proof. by destruct b. Qed.

Lemma utime_read N v lsb : (N <= 32)%nat -> 0 <= v < 2 ^ Z.of_nat N -> 0 < lsb < 2 ^ 20 -> lsb * v < 2 ^ 31 -> utime (bitset N v) lsb = Some (lsb * v).
Proof.
  intros HN Hv Hl Hlt. unfold utime. rewrite bin_to_uint_bitset, Z.mod_small by done.
  destruct (decide (v = 0)) as [->|Hn].
  - rewrite Z.mul_0_r. apply cast_in; [|lia]. destruct (dbl_of_Z_shape lsb ltac:(lia) ltac:(lia)) as (m & e & -> & _). done.
  - rewrite dbl_mul_int by lia. rewrite Z.mul_comm. apply cast_in; [apply Z_of_dbl_of_Z|]; lia.
Qed.

Lemma idbl_read N v lsb : (0 < N <= 32)%nat -> signed_in (Z.of_nat N) v -> idbl (bitset N v) lsb = dbl_mul (dbl_of_Z v) lsb.
Proof. intros HN Hv. unfold idbl. by rewrite bin_to_int_bitset. Qed.

Lemma ud_read N v lsb : (N <= 32)%nat -> unsigned_in (Z.of_nat N) v -> ud (bitset N v) lsb = dbl_mul (dbl_of_Z v) lsb.
Proof. intros HN Hv. unfold ud. rewrite bin_to_uint_bitset by done. by rewrite Z.mod_small. Qed.

Lemma uint_read N v : (N <= 32)%nat -> unsigned_in (Z.of_nat N) v -> bin_to_uint (bitset N v) = v.
Proof. intros HN Hv. rewrite bin_to_uint_bitset by done. by rewrite Z.mod_small. Qed.

Lemma read_step {B} bits i n f rest (k : list bool * nat -> option B) : drop i bits = f ++ rest -> length f = n -> (0 < n)%nat ->
  (take_field bits i n ≫= k) = k (f, (i + n)%nat) /\ drop (i + n) bits = rest.
Proof. intros Hd Hl Hn. destruct (next_field bits i n f rest Hd Hl Hn) as [-> Hr]. done. Qed.

Lemma some_step {A B} (o : option A) x (k : A -> option B) : o = Some x -> (o ≫= k) = k x.
Proof. by intros ->. Qed.

(** Reads the next field; [Hd] says what is left of the frame. *)
Ltac read_field Hd :=
  match goal with |- (@mbind _ _ _ _ ?k (take_field ?b ?i ?n)) = _ =>
    let H1 := fresh in let H2 := fresh in
    destruct (read_step b i n _ _ k Hd ltac:(first [apply length_val_bits | reflexivity]) ltac:(lia)) as [H1 H2]; rewrite H1; cbv beta iota zeta; clear H1 Hd;
    rename H2 into Hd
  end.

Section Read.
Context (crc : list Z -> Z).

(** A frame as its reader sees it: the header passes, the fields follow. *)
Lemma read_frame number fields msg n : unsigned_in 12 number ->
  build_message crc (mjoin (bitset 12 number :: fields)) = Some msg -> Z.of_nat (length (mjoin fields)) = n -> n < 8000 ->
  read_header crc msg ((12 + n + 7) / 8) number = Some true /\
  exists rest, drop 36 (binary_data_to_bin msg) = mjoin fields ++ rest.
Proof.
  intros Hn Hm <- Hl. destruct (build_message_bits crc (mjoin (bitset 12 number :: fields))) as (m & Hm' & _ & Hb). rewrite Hm in Hm'. injection Hm' as <-.
  set (data := mjoin (bitset 12 number :: fields)) in *. assert (data = bitset 12 number ++ mjoin fields) as Hdata by done.
  assert (Z.of_nat (length data) = 12 + Z.of_nat (length (mjoin fields))) as Hdl by (rewrite Hdata, length_app; unfold bitset; rewrite length_val_bits; lia).
  set (len := (Z.of_nat (length data) + 7) / 8) in *.
  assert (0 <= len < 2 ^ 10) as Hlen by (unfold len; split; [apply Z.div_pos; lia|apply Z.div_lt_upper_bound; lia]).
  assert (exists rest, binary_data_to_bin msg = preamble ++ reserved_field ++ bitset 10 len ++ bitset 12 number ++ mjoin fields ++ rest) as [rest Hbits].
  { eexists. rewrite Hb. unfold frame_body. fold len. rewrite Hdata, <- !app_assoc. done. }
  assert (drop 14 (binary_data_to_bin msg) = bitset 10 len ++ bitset 12 number ++ mjoin fields ++ rest) as Hd.
  { rewrite Hbits. rewrite app_assoc. by rewrite drop_app_length'. }
  split.
  - unfold read_header. cbv zeta. rewrite (some_step _ _ _ (frame_accepted crc _ _ Hm)). cbn beta iota delta [negb].
    read_field Hd. rewrite uint_read by (lia || done). rewrite <- Hdl. fold len. rewrite Z.eqb_refl. cbn beta iota delta [negb].
    read_field Hd. rewrite uint_read, bool_decide_eq_true_2 by (lia || done). done.
  - exists rest. change 36%nat with (14 + 22)%nat. rewrite <- drop_drop, Hd, app_assoc. apply drop_app_length'. unfold bitset. by rewrite length_app, !length_val_bits.
Qed.

Lemma raw_fields_length r : Z.of_nat (length (mjoin (raw_fields r))) = 476.
Proof. unfold raw_fields, bitset. cbn [mjoin list_join]. rewrite !length_app, !length_val_bits. done. Qed.

Lemma read_1019 r msg base : raw_ok r -> build_message crc (mjoin (bitset 12 1019 :: raw_fields r)) = Some msg ->
  read_MT1019 crc msg base = Some (0, ephemeris_of r base).
Proof.
  intros [] Hm. assert (unsigned_in 12 1019) as Hn by (split; lia). pose proof (read_frame 1019 (raw_fields r) msg 476 Hn Hm (raw_fields_length r)) as Hf.
  destruct Hf as [Hh [rest Hd]]; [lia|]. replace ((12 + 476 + 7) / 8) with 61 in Hh by done.
  unfold read_MT1019, GPS_L1_CA.T_OC_LSB, GPS_L1_CA.T_OE_LSB. cbv zeta. rewrite (some_step _ _ _ Hh). cbn beta iota delta [negb]. clear Hh Hm.
  generalize dependent (binary_data_to_bin msg). intros bits Hd. unfold raw_fields in Hd. cbn [mjoin list_join] in Hd. rewrite <- !app_assoc in Hd.
  do 7 read_field Hd. rewrite (some_step _ _ _ (utime_read 16 (r_toc r) 16 ltac:(lia) ok_toc0 ltac:(lia) ltac:(unfold unsigned_in in *; lia))).
  do 12 read_field Hd. rewrite (some_step _ _ _ (utime_read 16 (r_toe r) 16 ltac:(lia) ok_toe0 ltac:(lia) ltac:(unfold unsigned_in in *; lia))).
  do 11 read_field Hd. clear Hd. rewrite !flag_read, !idbl_read, !ud_read, !uint_read by (lia || assumption).
  unfold unsigned_in in *. rewrite !swrap_small by lia. done.
Qed.
End Read.
