(* ===== verification/RtcmNav.v ===== *)
(** * From the GPS navigation message to RTCM

    An ephemeris that the decoder of the legacy message publishes is handed to the RTCM
    printer. The theorems follow it through message 1019: each of its numbers is an integer of
    the navigation message times its resolution, and that is enough for the reader to get the
    same numbers back, bit for bit. *)
From S2P Require Import Prelude GnssSignal Doubles DoublesErr NavBits GpsNav GpsTlm GpsTlmProps GpsTlmLock GpsProps Rtcm RtcmProps.
From Stdlib Require Import SpecFloat.

#[local] Open Scope Z_scope.

(** ** Numbers of the navigation message *)

Definition times (lsb : double) (v : Z) : double := dbl_mul (dbl_of_Z v) lsb.

(** The values of the three subframes are integers of the widths of their fields. *)
Record sf1_raw (s : sf1_data) : Prop := {
  raw_week : unsigned_in 10 (i_GPS_week s); raw_accuracy : unsigned_in 4 (i_SV_accuracy s); raw_health : unsigned_in 6 (i_SV_health s);
  raw_l2 : unsigned_in 2 (i_code_on_L2 s); raw_iodc : unsigned_in 10 (d_IODC s);
  raw_toc : exists v, unsigned_in 16 v /\ d_Toc s = 16 * v;
  raw_tgd : exists v, signed_in 8 v /\ d_TGD s = times GPS_L1_CA.T_GD_LSB v;
  raw_af0 : exists v, signed_in 22 v /\ d_A_f0 s = times GPS_L1_CA.A_F0_LSB v;
  raw_af1 : exists v, signed_in 16 v /\ d_A_f1 s = times GPS_L1_CA.A_F1_LSB v;
  raw_af2 : exists v, signed_in 8 v /\ d_A_f2 s = times GPS_L1_CA.A_F2_LSB v }.

Record sf2_raw (s : sf2_data) : Prop := {
  raw_iode2 : unsigned_in 8 (d_IODE_SF2 s);
  raw_toe : exists v, unsigned_in 16 v /\ d_Toe s = 16 * v;
  raw_crs : exists v, signed_in 16 v /\ d_Crs s = times GPS_L1_CA.C_RS_LSB v;
  raw_dn : exists v, signed_in 16 v /\ d_Delta_n s = times GPS_L1_CA.DELTA_N_LSB v;
  raw_m0 : exists v, signed_in 32 v /\ d_M_0 s = times GPS_L1_CA.M_0_LSB v;
  raw_cuc : exists v, signed_in 16 v /\ d_Cuc s = times GPS_L1_CA.C_UC_LSB v;
  raw_ecc : exists v, unsigned_in 32 v /\ d_e_eccentricity s = times GPS_L1_CA.ECCENTRICITY_LSB v;
  raw_cus : exists v, signed_in 16 v /\ d_Cus s = times GPS_L1_CA.C_US_LSB v;
  raw_sqa : exists v, unsigned_in 32 v /\ d_sqrt_A s = times GPS_L1_CA.SQRT_A_LSB v }.

Record sf3_raw (s : sf3_data) : Prop := {
  raw_cic : exists v, signed_in 16 v /\ d_Cic s = times GPS_L1_CA.C_IC_LSB v;
  raw_om0 : exists v, signed_in 32 v /\ d_OMEGA0 s = times GPS_L1_CA.OMEGA_0_LSB v;
  raw_cis : exists v, signed_in 16 v /\ d_Cis s = times GPS_L1_CA.C_IS_LSB v;
  raw_i0 : exists v, signed_in 32 v /\ d_i_0 s = times GPS_L1_CA.I_0_LSB v;
  raw_crc : exists v, signed_in 16 v /\ d_Crc s = times GPS_L1_CA.C_RC_LSB v;
  raw_om : exists v, signed_in 32 v /\ d_OMEGA s = times GPS_L1_CA.OMEGA_LSB v;
  raw_omd : exists v, signed_in 24 v /\ d_OMEGA_DOT s = times GPS_L1_CA.OMEGA_DOT_LSB v;
  raw_idot : exists v, signed_in 14 v /\ d_IDOT s = times GPS_L1_CA.I_DOT_LSB v }.

Definition nav_raw (prn : Z) (nav : Gps_Navigation_Message) : Prop :=
  sf1_raw (sf1 nav) /\ sf2_raw (sf2 nav) /\ sf3_raw (sf3 nav) /\ i_satellite_PRN (ident nav) = prn.

Lemma nav_raw_init prn : nav_raw prn (set_satellite_PRN prn Gps_Navigation_Message_init).
Proof.
  split; [|split; [|split; [|done]]]; split; cbn [sf1 sf2 sf3 set_satellite_PRN with_ident Gps_Navigation_Message_init i_GPS_week i_SV_accuracy i_SV_health
    i_code_on_L2 d_IODC d_Toc d_TGD d_A_f0 d_A_f1 d_A_f2 d_IODE_SF2 d_Toe d_Crs d_Delta_n d_M_0 d_Cuc d_e_eccentricity d_Cus d_sqrt_A d_Cic d_OMEGA0 d_Cis
    d_i_0 d_Crc d_OMEGA d_OMEGA_DOT d_IDOT]; try (unfold unsigned_in; lia);
    exists 0; (split; [unfold unsigned_in, signed_in; lia|vm_compute; reflexivity]).
Qed.

Section Decode.
Context (m : list bool) (Hm : Z.of_nat (length m) = 300).

Lemma unsigned_field p n : field_ok 300 32 p = true -> slices_width p = n -> unsigned_in n (bits_val (field m p)).
Proof.
  intros Hp <-. unfold field_ok in Hp. apply andb_true_iff in Hp as [[Hi Hw]%andb_true_iff Hn].
  pose proof (bits_val_range (field m p)) as Hr. rewrite (field_length 300 _ p Hm Hi) in Hr. exact Hr.
Qed.

Lemma signed_field p n : field_ok 300 32 p = true -> slices_width p = n -> 0 < n -> signed_in n (signed_val (field m p)).
Proof.
  intros Hp <- H0. unfold field_ok in Hp. apply andb_true_iff in Hp as [[Hi Hw]%andb_true_iff Hn].
  pose proof (field_length 300 _ p Hm Hi) as Hl. assert (field m p <> []) as Hne by (intros E; rewrite E in Hl; cbn in Hl; lia).
  pose proof (signed_val_range _ Hne) as Hr. rewrite Hl in Hr. exact Hr.
Qed.

Ltac fields := repeat match goal with
  | |- unsigned_in _ (bits_val _) => by apply unsigned_field
  | |- exists v, signed_in _ v /\ _ = times _ v => eexists; split; [|reflexivity]; by apply signed_field
  | |- exists v, unsigned_in _ v /\ _ = times _ v => eexists; split; [|reflexivity]; by apply unsigned_field
  end.

Lemma time_field p : field_ok 300 32 p = true -> slices_width p = 16 -> exists v, unsigned_in 16 v /\ i32 (bits_val (field m p) * 16) = 16 * v.
Proof.
  intros Hp Hw. pose proof (unsigned_field p 16 Hp Hw) as Hr. eexists. split; [exact Hr|]. unfold unsigned_in in Hr. rewrite swrap_small by lia. lia.
Qed.

Lemma read_sf1_raw tow : exists s, read_sf1 (reverse m) tow = Some s /\ sf1_raw s.
Proof.
  unfold read_sf1. reads. eexists. split; [reflexivity|]. split; cbn [i_GPS_week i_SV_accuracy i_SV_health i_code_on_L2 d_IODC d_Toc d_TGD d_A_f0 d_A_f1 d_A_f2]; fields.
  by apply time_field.
Qed.

Lemma read_sf2_raw tow : exists s, read_sf2 (reverse m) tow = Some s /\ sf2_raw s.
Proof.
  unfold read_sf2. reads. eexists. split; [reflexivity|].
  split; cbn [d_IODE_SF2 d_Toe d_Crs d_Delta_n d_M_0 d_Cuc d_e_eccentricity d_Cus d_sqrt_A]; fields. by apply time_field.
Qed.

Lemma read_sf3_raw tow : exists s, read_sf3 (reverse m) tow = Some s /\ sf3_raw s.
Proof.
  unfold read_sf3. reads. eexists. split; [reflexivity|]. split; cbn [d_Cic d_OMEGA0 d_Cis d_i_0 d_Crc d_OMEGA d_OMEGA_DOT d_IDOT]; fields.
Qed.

Lemma decode_fields_raw prn nav id nav1 : nav_raw prn nav -> decode_fields (reverse m) nav = Some (id, nav1) -> nav_raw prn nav1.
Proof.
  intros (H1 & H2 & H3 & Hp). unfold decode_fields. rewrite (uint_spec m Hm GPS_L1_CA.SUBFRAME_ID) by done. cbn [mbind option_bind].
  generalize (bits_val (field m GPS_L1_CA.SUBFRAME_ID)) as z. intros z H.
  destruct (subframe_cases z) as [->|[->|[->|[->|[->|[Hz Hc]]]]]]; [| | | | |rewrite Hc in H; by simplify_eq];
    apply bind_Some in H as ([tow h] & _ & H).
  - destruct (read_sf1_raw tow) as (s & Hs & Hr). rewrite Hs in H. cbn in H. simplify_eq. by split.
  - destruct (read_sf2_raw tow) as (s & Hs & Hr). rewrite Hs in H. cbn in H. simplify_eq. by split.
  - destruct (read_sf3_raw tow) as (s & Hs & Hr). rewrite Hs in H. cbn in H. simplify_eq. by split.
  - repeat (apply bind_Some in H as (? & ? & H)). simplify_eq. by split.
  - repeat (apply bind_Some in H as (? & ? & H)). simplify_eq. by split.
Qed.
End Decode.

(** What message 1019 carries of an ephemeris; the rest stays as it was at the reader. *)
Definition carried (e old : Gps_Ephemeris.ephemeris) : Gps_Ephemeris.ephemeris :=
  {| Gps_Ephemeris.PRN := Gps_Ephemeris.PRN e; Gps_Ephemeris.tow := Gps_Ephemeris.tow old; Gps_Ephemeris.Crs := Gps_Ephemeris.Crs e;
     Gps_Ephemeris.delta_n := Gps_Ephemeris.delta_n e; Gps_Ephemeris.M_0 := Gps_Ephemeris.M_0 e; Gps_Ephemeris.Cuc := Gps_Ephemeris.Cuc e;
     Gps_Ephemeris.ecc := Gps_Ephemeris.ecc e; Gps_Ephemeris.Cus := Gps_Ephemeris.Cus e; Gps_Ephemeris.sqrtA := Gps_Ephemeris.sqrtA e;
     Gps_Ephemeris.toe := Gps_Ephemeris.toe e; Gps_Ephemeris.toc := Gps_Ephemeris.toc e; Gps_Ephemeris.Cic := Gps_Ephemeris.Cic e;
     Gps_Ephemeris.OMEGA_0 := Gps_Ephemeris.OMEGA_0 e; Gps_Ephemeris.Cis := Gps_Ephemeris.Cis e; Gps_Ephemeris.i_0 := Gps_Ephemeris.i_0 e;
     Gps_Ephemeris.Crc := Gps_Ephemeris.Crc e; Gps_Ephemeris.omega := Gps_Ephemeris.omega e; Gps_Ephemeris.OMEGAdot := Gps_Ephemeris.OMEGAdot e;
     Gps_Ephemeris.idot := Gps_Ephemeris.idot e; Gps_Ephemeris.code_on_L2 := Gps_Ephemeris.code_on_L2 e; Gps_Ephemeris.WN := Gps_Ephemeris.WN e;
     Gps_Ephemeris.L2_P_data_flag := Gps_Ephemeris.L2_P_data_flag e; Gps_Ephemeris.SV_accuracy := Gps_Ephemeris.SV_accuracy e;
     Gps_Ephemeris.SV_health := Gps_Ephemeris.SV_health e; Gps_Ephemeris.TGD := Gps_Ephemeris.TGD e; Gps_Ephemeris.IODC := Gps_Ephemeris.IODC e;
     Gps_Ephemeris.IODE_SF2 := Gps_Ephemeris.IODE_SF2 e; Gps_Ephemeris.IODE_SF3 := Gps_Ephemeris.IODE_SF3 e; Gps_Ephemeris.AODO := Gps_Ephemeris.AODO old;
     Gps_Ephemeris.fit_interval_flag := Gps_Ephemeris.fit_interval_flag e; Gps_Ephemeris.af0 := Gps_Ephemeris.af0 e;
     Gps_Ephemeris.af1 := Gps_Ephemeris.af1 e; Gps_Ephemeris.af2 := Gps_Ephemeris.af2 e;
     Gps_Ephemeris.integrity_status_flag := Gps_Ephemeris.integrity_status_flag old; Gps_Ephemeris.alert_flag := Gps_Ephemeris.alert_flag old;
     Gps_Ephemeris.antispoofing_flag := Gps_Ephemeris.antispoofing_flag old |}.

(** The integers of a published ephemeris. *)
Lemma published_raw prn nav : unsigned_in 6 prn -> nav_raw prn nav -> d_IODE_SF2 (sf2 nav) = d_IODE_SF3 (sf3 nav) ->
  exists r, raw_ok r /\ get_ephemeris nav = ephemeris_of r (get_ephemeris nav) /\ r_prn r = prn.
Proof.
  intros Hp ([] & [] & [] & <-) Hi. destruct raw_toc0 as (toc & Htoc & Etoc), raw_tgd0 as (tgd & Htgd & Etgd), raw_af3 as (af0 & Haf0 & Eaf0),
    raw_af4 as (af1 & Haf1 & Eaf1), raw_af5 as (af2 & Haf2 & Eaf2), raw_toe0 as (toe & Htoe & Etoe), raw_crs0 as (crs & Hcrs & Ecrs),
    raw_dn0 as (dn & Hdn & Edn), raw_m1 as (m0 & Hm0 & Em0), raw_cuc0 as (cuc & Hcuc & Ecuc), raw_ecc0 as (ecc & Hecc & Eecc), raw_cus0 as (cus & Hcus & Ecus),
    raw_sqa0 as (sqa & Hsqa & Esqa), raw_cic0 as (cic & Hcic & Ecic), raw_om1 as (om0 & Hom0 & Eom0), raw_cis0 as (cis & Hcis & Ecis),
    raw_i1 as (i0 & Hi0 & Ei0), raw_crc0 as (crc & Hcrc & Ecrc), raw_om2 as (om & Hom & Eom), raw_omd0 as (omd & Homd & Eomd), raw_idot0 as (idot & Hidot & Eidot).
  exists {| r_prn := i_satellite_PRN (ident nav); r_wn := i_GPS_week (sf1 nav); r_ura := i_SV_accuracy (sf1 nav); r_l2 := i_code_on_L2 (sf1 nav); r_idot := idot;
    r_iode := d_IODE_SF2 (sf2 nav); r_toc := toc; r_af2 := af2; r_af1 := af1; r_af0 := af0; r_iodc := d_IODC (sf1 nav); r_crs := crs; r_dn := dn; r_m0 := m0;
    r_cuc := cuc; r_ecc := ecc; r_cus := cus; r_sqa := sqa; r_toe := toe; r_cic := cic; r_om0 := om0; r_cis := cis; r_i0 := i0; r_crc := crc; r_om := om;
    r_omd := omd; r_tgd := tgd; r_health := i_SV_health (sf1 nav); r_l2p := b_L2_P_data_flag (sf1 nav); r_fit := b_fit_interval_flag (sf2 nav) |}.
  split; [by split|]. split; [|done]. unfold get_ephemeris, ephemeris_of. cbn -[dbl_mul dbl_of_Z]. unfold times in *. by f_equal.
Qed.

Lemma publish_raw prn id nav : unsigned_in 6 prn -> nav_raw prn nav ->
  nav_raw prn (publish id nav).2 /\ forall e, pub_ephemeris e ∈ (publish id nav).1 -> exists r, raw_ok r /\ e = ephemeris_of r e.
Proof.
  intros Hp Hn. destruct (decide (1 <= id <= 3)) as [Hid|Hid].
  - rewrite publish_ephemeris by done. cbn [fst snd]. assert (nav_raw prn (satellite_validation nav).2) as Hv by exact Hn. split; [done|].
    intros e He. destruct (satellite_validation nav).1 eqn:E; [|by apply elem_of_nil in He]. apply list_elem_of_singleton in He. injection He as ->.
    destruct (published_raw prn _ Hp Hv) as (r & Hr & He & _); [|by exists r]. cbn in E. repeat (apply andb_true_iff in E as [E ?]). cbn. lia.
  - destruct (decide (id = 4)) as [->|H4].
    + unfold publish, get_iono, get_utc_model. repeat case_match; simplify_eq; cbn in *; simplify_eq; (split; [exact Hn|]); intros e He;
        repeat (apply elem_of_cons in He as [He|He]); try done; by apply elem_of_nil in He.
    + assert (publish id nav = ([], nav)) as ->.
      { unfold publish. destruct id as [|p|p]; try done. destruct p as [[p|p|]|[p|[p|p|]|]|]; try done; lia. }
      split; [done|]. intros e He. by apply elem_of_nil in He.
Qed.

Lemma nav_steps_raw prn dss : unsigned_in 6 prn -> forall nav msgs nav', Forall is_subframe dss -> nav_raw prn nav -> nav_steps dss nav = Some (msgs, nav') ->
  forall e, pub_ephemeris e ∈ msgs -> exists r, raw_ok r /\ e = ephemeris_of r e.
Proof.
  intros Hp. induction dss as [|ds dss IH]; intros nav msgs nav' Hd Hn H e He; cbn [nav_steps] in H; [simplify_eq; by apply elem_of_nil in He|].
  inversion_clear Hd as [|? ? Hd1 Hd2]. unfold nav_step in H.
  destruct (decode_fields (reverse (source_message ds)) nav) as [[id nav1]|] eqn:E; [|done]. cbn [mbind option_bind] in H.
  pose proof (decode_fields_raw _ (source_message_length ds (proj1 Hd1)) _ _ _ _ Hn E) as Hn1.
  destruct (publish_raw prn id nav1 Hp Hn1) as [Hn2 Hc]. destruct (publish id nav1) as [m1 nav2]. cbn [mbind option_bind] in H.
  destruct (nav_steps dss nav2) as [[m2 nav3]|] eqn:E2; [|done]. cbn in H. simplify_eq.
  apply elem_of_app in He as [He|He]; [by apply Hc|by eapply IH].
Qed.

(** ** Message 1019 *)

Section Message.
Context (crc : list Z -> Z).

Lemma ephemeris_of_carried r e old : e = ephemeris_of r e -> ephemeris_of r old = carried e old.
Proof. intros ->. done. Qed.

(** Printed and read again. *)
Lemma print_read_1019 r e st : raw_ok r -> e = ephemeris_of r e -> 0 <= r_idot r ->
  exists msg, print_MT1019 crc e st = Some (msg, enqueue msg st) /\ forall old, read_MT1019 crc msg old = Some (0, carried e old).
Proof.
  intros Hr He Hi. destruct (build_message_bits crc (mjoin (bitset 12 1019 :: raw_fields r))) as (msg & Hm & _). exists msg. split.
  - unfold print_MT1019. rewrite He, MT1019_fields by done. rewrite (some_step _ _ _ eq_refl). cbv beta. by rewrite Hm.
  - intros old. rewrite (read_1019 crc r msg old Hr Hm). by rewrite (ephemeris_of_carried r e old He).
Qed.

Lemma print_1019_negative r e st : raw_ok r -> e = ephemeris_of r e -> r_idot r < 0 -> print_MT1019 crc e st = None.
Proof. intros Hr He Hi. unfold print_MT1019. by rewrite He, MT1019_negative_idot. Qed.

End Message.

Lemma idot_sign r e : raw_ok r -> e = ephemeris_of r e -> lt0 (Gps_Ephemeris.idot e) = (r_idot r <? 0).
Proof. intros [] ->. unfold signed_in in *. apply (mul_sign _ GPS_L1_CA.I_DOT_LSB); [lia|vm_compute; reflexivity]. Qed.

(** C32: every ephemeris that the GPS decoder publishes, from whatever subframes, goes through
    message 1019 unchanged to the last bit: the message is written, its frame passes the
    checks of the reader, and the reader has the ephemeris again, except for what the message
    does not carry. But the rate of inclination is converted to an unsigned number, which is
    undefined when it is negative; then, and only then, nothing is promised. *)
Theorem published_through_rtcm crc prn dss msgs nav' e st (Hp : 0 <= prn < 64) (Hd : Forall is_subframe dss)
  (Hr : nav_steps dss (set_satellite_PRN prn Gps_Navigation_Message_init) = Some (msgs, nav')) (He : pub_ephemeris e ∈ msgs) :
  if lt0 (Gps_Ephemeris.idot e) then print_MT1019 crc e st = None
  else exists msg, print_MT1019 crc e st = Some (msg, enqueue msg st) /\ forall old, read_MT1019 crc msg old = Some (0, carried e old).
Proof.
  destruct (nav_steps_raw prn dss Hp _ _ _ Hd (nav_raw_init prn) Hr e He) as (r & Hraw & Hof). rewrite (idot_sign r e Hraw Hof).
  destruct (Z.ltb_spec (r_idot r) 0) as [Hn|Hn]; [by eapply print_1019_negative|by eapply print_read_1019].
Qed.

Lemma published_through_rtcm_witness : exists msgs nav' e,
  nav_steps [demo_sf1; demo_sf2; demo_sf3] (set_satellite_PRN 7 Gps_Navigation_Message_init) = Some (msgs, nav') /\ pub_ephemeris e ∈ msgs /\
  exists msg, print_MT1019 (fun _ => 0) e Rtcm_init = Some (msg, enqueue msg Rtcm_init) /\ forall old, read_MT1019 (fun _ => 0) msg old = Some (0, carried e old).
Proof.
  assert (Forall is_subframe [demo_sf1; demo_sf2; demo_sf3]) as Hd.
  { destruct demo_subframes as (H1 & H2 & H3). repeat (apply Forall_cons; [assumption|]). apply Forall_nil. }
  destruct (nav_steps [demo_sf1; demo_sf2; demo_sf3] (set_satellite_PRN 7 Gps_Navigation_Message_init)) as [[msgs nav']|] eqn:E; [|vm_compute in E; discriminate].
  assert (exists e, pub_ephemeris e ∈ msgs /\ lt0 (Gps_Ephemeris.idot e) = false) as (e & He & Hi)
    by (vm_compute in E; injection E as <- <-; eexists; split; [apply elem_of_cons; left; reflexivity|vm_compute; reflexivity]).
  exists msgs, nav', e. split; [reflexivity|]. split; [exact He|].
  pose proof (published_through_rtcm (fun _ => 0) 7 _ msgs nav' e Rtcm_init ltac:(lia) Hd E He) as H. rewrite Hi in H. exact H.
Defined.
