(* ===== verification/RtcmEph.v ===== *)
(** * RTCM messages with the ephemerides of Galileo and GLONASS

    [print_MT1045], [read_MT1045], [print_MT1020] and [read_MT1020] of
    [algorithms/PVT/libs/rtcm.cc] with the data fields that they write, the LSBs of
    [Galileo_FNAV.h] (used for writing) and [Galileo_INAV.h] (used for reading), and the parts of
    [galileo_ephemeris.h], [glonass_gnav_ephemeris.h] and [glonass_gnav_utc_model.h] that the
    messages carry. [None] is as in [Rtcm]. *)
From S2P Require Import Prelude GnssSignal Doubles DoublesErr NavBits GpsNav Rtcm.
From Stdlib Require Import SpecFloat.

#[local] Open Scope Z_scope.

(** ** Galileo *)

Module Galileo_FNAV.
Definition FNAV_AF0_1_LSB : double := TWO_N34.
Definition FNAV_AF1_1_LSB : double := TWO_N46.
Definition FNAV_AF2_1_LSB : double := TWO_N59.
Definition FNAV_BGD_1_LSB : double := TWO_N32.
Definition FNAV_M0_2_LSB : double := PI_TWO_N31.
Definition FNAV_OMEGADOT_2_LSB : double := PI_TWO_N43.
Definition FNAV_E_2_LSB : double := TWO_N33.
Definition FNAV_A12_2_LSB : double := TWO_N19.
Definition FNAV_OMEGA0_2_LSB : double := PI_TWO_N31.
Definition FNAV_IDOT_2_LSB : double := PI_TWO_N43.
Definition FNAV_I0_3_LSB : double := PI_TWO_N31.
Definition FNAV_DELTAN_3_LSB : double := PI_TWO_N43.
Definition FNAV_CUC_3_LSB : double := TWO_N29.
Definition FNAV_CUS_3_LSB : double := TWO_N29.
Definition FNAV_CRC_3_LSB : double := TWO_N5.
Definition FNAV_CRS_3_LSB : double := TWO_N5.
Definition FNAV_T0E_3_LSB : Z := 60.
Definition FNAV_CIC_4_LSB : double := TWO_N29.
Definition FNAV_CIS_4_LSB : double := TWO_N29.
End Galileo_FNAV.

Module Galileo_INAV.
Definition T0E_1_LSB : Z := 60.
Definition M0_1_LSB : double := PI_TWO_N31.
Definition E_1_LSB : double := TWO_N33.
Definition A_1_LSB_GAL : double := TWO_N19.
Definition OMEGA_0_2_LSB : double := PI_TWO_N31.
Definition I_0_2_LSB : double := PI_TWO_N31.
Definition OMEGA_2_LSB : double := PI_TWO_N31.
Definition I_DOT_2_LSB : double := PI_TWO_N43.
Definition OMEGA_DOT_3_LSB : double := PI_TWO_N43.
Definition DELTA_N_3_LSB : double := PI_TWO_N43.
Definition C_UC_3_LSB : double := TWO_N29.
Definition C_US_3_LSB : double := TWO_N29.
Definition C_RC_3_LSB : double := TWO_N5.
Definition C_RS_3_LSB : double := TWO_N5.
Definition C_IC_4_LSB : double := TWO_N29.
Definition C_IS_4_LSB : double := TWO_N29.
Definition T0C_4_LSB : Z := 60.
Definition AF0_4_LSB : double := TWO_N34.
Definition AF1_4_LSB : double := TWO_N46.
Definition AF2_4_LSB : double := TWO_N59.
End Galileo_INAV.

(** The members that message 1045 reads or writes; the others stay as they are. *)
Module Galileo_Ephemeris.
Record galileo_ephemeris := {
  PRN : Z; WN : Z; IOD_nav : Z; SISA : Z; idot : double; toc : Z; af2 : double; af1 : double; af0 : double; Crs : double; delta_n : double;
  M_0 : double; Cuc : double; ecc : double; Cus : double; sqrtA : double; toe : Z; Cic : double; OMEGA_0 : double; Cis : double; i_0 : double;
  Crc : double; omega : double; OMEGAdot : double; BGD_E1E5a : double; E5a_HS : Z; E5a_DVS : bool }.
End Galileo_Ephemeris.

Section GalFields.
Import Galileo_FNAV.
Context (gal_eph : Galileo_Ephemeris.galileo_ephemeris).

Definition set_DF252 : list bool := bitset 6 (Galileo_Ephemeris.PRN gal_eph).
Definition set_DF289 : list bool := bitset 12 (u32 (Galileo_Ephemeris.WN gal_eph)).
Definition set_DF290 : list bool := bitset 10 (u32 (Galileo_Ephemeris.IOD_nav gal_eph)).
Definition set_DF291 : list bool := bitset 8 (u16 (Galileo_Ephemeris.SISA gal_eph)).

(** Not called by [print_MT1045]. *)
Definition set_DF292 : option (list bool) := scaled to_i32 14 (Galileo_Ephemeris.idot gal_eph) FNAV_IDOT_2_LSB.

Definition set_DF293 : list bool := bitset 14 (u32 (Galileo_Ephemeris.toc gal_eph)).
Definition set_DF294 : option (list bool) := scaled to_i16 6 (Galileo_Ephemeris.af2 gal_eph) FNAV_AF2_1_LSB.
Definition set_DF295 : option (list bool) := scaled to_i64 21 (Galileo_Ephemeris.af1 gal_eph) FNAV_AF1_1_LSB.
Definition set_DF296 : option (list bool) := scaled to_u32 31 (Galileo_Ephemeris.af0 gal_eph) FNAV_AF0_1_LSB.
Definition set_DF297 : option (list bool) := scaled to_i32 16 (Galileo_Ephemeris.Crs gal_eph) FNAV_CRS_3_LSB.
Definition set_DF298 : option (list bool) := scaled to_i32 16 (Galileo_Ephemeris.delta_n gal_eph) FNAV_DELTAN_3_LSB.
Definition set_DF299 : option (list bool) := scaled to_i64 32 (Galileo_Ephemeris.M_0 gal_eph) FNAV_M0_2_LSB.
Definition set_DF300 : option (list bool) := scaled to_u32 16 (Galileo_Ephemeris.Cuc gal_eph) FNAV_CUC_3_LSB.
Definition set_DF301 : option (list bool) := scaled to_u64 32 (Galileo_Ephemeris.ecc gal_eph) FNAV_E_2_LSB.
Definition set_DF302 : option (list bool) := scaled to_i32 16 (Galileo_Ephemeris.Cus gal_eph) FNAV_CUS_3_LSB.
Definition set_DF303 : option (list bool) := scaled to_u64 32 (Galileo_Ephemeris.sqrtA gal_eph) FNAV_A12_2_LSB.
Definition set_DF304 : option (list bool) := scaled_time 14 (Galileo_Ephemeris.toe gal_eph) FNAV_T0E_3_LSB.
Definition set_DF305 : option (list bool) := scaled to_i32 16 (Galileo_Ephemeris.Cic gal_eph) FNAV_CIC_4_LSB.
Definition set_DF306 : option (list bool) := scaled to_i64 32 (Galileo_Ephemeris.OMEGA_0 gal_eph) FNAV_OMEGA0_2_LSB.
Definition set_DF307 : option (list bool) := scaled to_i32 16 (Galileo_Ephemeris.Cis gal_eph) FNAV_CIS_4_LSB.
Definition set_DF308 : option (list bool) := scaled to_i64 32 (Galileo_Ephemeris.i_0 gal_eph) FNAV_I0_3_LSB.
Definition set_DF309 : option (list bool) := scaled to_u32 16 (Galileo_Ephemeris.Crc gal_eph) FNAV_CRC_3_LSB.
Definition set_DF310 : option (list bool) := scaled to_i32 32 (Galileo_Ephemeris.omega gal_eph) FNAV_OMEGA0_2_LSB.
Definition set_DF311 : option (list bool) := scaled to_i64 24 (Galileo_Ephemeris.OMEGAdot gal_eph) FNAV_OMEGADOT_2_LSB.
Definition set_DF312 : option (list bool) := scaled to_i32 10 (Galileo_Ephemeris.BGD_E1E5a gal_eph) FNAV_BGD_1_LSB.
Definition set_DF314 : list bool := bitset 2 (Galileo_Ephemeris.E5a_HS gal_eph).
Definition set_DF315 : list bool := [Galileo_Ephemeris.E5a_DVS gal_eph].

(** The data of message 1045; [df292] is the member DF292. *)
Definition MT1045_data (df292 : list bool) : option (list bool) :=
  af2 ← set_DF294; af1 ← set_DF295; af0 ← set_DF296; crs ← set_DF297; dn ← set_DF298; m0 ← set_DF299; cuc ← set_DF300; ecc ← set_DF301;
  cus ← set_DF302; sqa ← set_DF303; toe ← set_DF304; cic ← set_DF305; om0 ← set_DF306; cis ← set_DF307; i0 ← set_DF308; crc ← set_DF309;
  om ← set_DF310; omd ← set_DF311; bgd ← set_DF312;
  Some (set_DF002 1045 ++ set_DF252 ++ set_DF289 ++ set_DF290 ++ set_DF291 ++ df292 ++ set_DF293 ++ af2 ++ af1 ++ af0 ++ crs ++ dn ++ m0 ++ cuc ++
    ecc ++ cus ++ sqa ++ toe ++ cic ++ om0 ++ cis ++ i0 ++ crc ++ om ++ omd ++ bgd ++ set_DF314 ++ set_DF315 ++ replicate 7 false).
End GalFields.

(** An unsigned field by way of a [double] into an [int32_t]. *)
Definition uvia (s : list bool) : option Z := to_i32 (dbl_of_Z (bin_to_uint s)).

Section GalMessages.
Import Galileo_INAV.
Context (crc : list Z -> Z).

Definition print_MT1045 (gal_eph : Galileo_Ephemeris.galileo_ephemeris) (st : Rtcm) : option (list Z * Rtcm) :=
  data ← MT1045_data gal_eph (DF292 st); msg ← build_message crc data; Some (msg, enqueue msg st).

Definition read_MT1045 (message : list Z) (gal_eph : Galileo_Ephemeris.galileo_ephemeris) : option (Z * Galileo_Ephemeris.galileo_ephemeris) :=
  let bits := binary_data_to_bin message in
  ok ← read_header crc message 62 1045;
  if negb ok then Some (1, gal_eph)
  else
    '(prn, i) ← take_field bits 36 6; '(wn, i) ← take_field bits i 12; wn ← uvia wn; '(iod, i) ← take_field bits i 10; '(sisa, i) ← take_field bits i 8; sisa ← uvia sisa;
    '(idot, i) ← take_field bits i 14; '(toc, i) ← take_field bits i 14; toc ← utime toc T0C_4_LSB; '(af2, i) ← take_field bits i 6; '(af1, i) ← take_field bits i 21;
    '(af0, i) ← take_field bits i 31; '(crs, i) ← take_field bits i 16; '(dn, i) ← take_field bits i 16; '(m0, i) ← take_field bits i 32; '(cuc, i) ← take_field bits i 16;
    '(ecc, i) ← take_field bits i 32; '(cus, i) ← take_field bits i 16; '(sqa, i) ← take_field bits i 32; '(toe, i) ← take_field bits i 14; toe ← utime toe T0E_1_LSB;
    '(cic, i) ← take_field bits i 16; '(om0, i) ← take_field bits i 32; '(cis, i) ← take_field bits i 16; '(i0, i) ← take_field bits i 32; '(crc', i) ← take_field bits i 16;
    '(om, i) ← take_field bits i 32; '(omd, i) ← take_field bits i 24; '(bgd, i) ← take_field bits i 10; '(hs, i) ← take_field bits i 2; '(dvs, i) ← take_field bits i 1;
    Some (0, {| Galileo_Ephemeris.PRN := bin_to_uint prn; Galileo_Ephemeris.WN := wn; Galileo_Ephemeris.IOD_nav := i32 (bin_to_uint iod);
      Galileo_Ephemeris.SISA := sisa; Galileo_Ephemeris.idot := idbl idot I_DOT_2_LSB; Galileo_Ephemeris.toc := toc; Galileo_Ephemeris.af2 := idbl af2 AF2_4_LSB;
      Galileo_Ephemeris.af1 := idbl af1 AF1_4_LSB; Galileo_Ephemeris.af0 := idbl af0 AF0_4_LSB; Galileo_Ephemeris.Crs := idbl crs C_RS_3_LSB;
      Galileo_Ephemeris.delta_n := idbl dn DELTA_N_3_LSB; Galileo_Ephemeris.M_0 := idbl m0 M0_1_LSB; Galileo_Ephemeris.Cuc := idbl cuc C_UC_3_LSB;
      Galileo_Ephemeris.ecc := ud ecc E_1_LSB; Galileo_Ephemeris.Cus := idbl cus C_US_3_LSB; Galileo_Ephemeris.sqrtA := ud sqa A_1_LSB_GAL;
      Galileo_Ephemeris.toe := toe; Galileo_Ephemeris.Cic := idbl cic C_IC_4_LSB; Galileo_Ephemeris.OMEGA_0 := idbl om0 OMEGA_0_2_LSB;
      Galileo_Ephemeris.Cis := idbl cis C_IS_4_LSB; Galileo_Ephemeris.i_0 := idbl i0 I_0_2_LSB; Galileo_Ephemeris.Crc := idbl crc' C_RC_3_LSB;
      Galileo_Ephemeris.omega := idbl om OMEGA_2_LSB; Galileo_Ephemeris.OMEGAdot := idbl omd OMEGA_DOT_3_LSB;
      Galileo_Ephemeris.BGD_E1E5a := dbl_of_Z (bin_to_int bgd); Galileo_Ephemeris.E5a_HS := i32 (bin_to_uint hs);
      Galileo_Ephemeris.E5a_DVS := negb (bin_to_uint dvs =? 0) |}).
End GalMessages.

(** ** GLONASS *)

(** The members that message 1020 reads or writes. *)
Module Glonass_Gnav_Ephemeris.
Record glonass_ephemeris := {
  i_satellite_slot_number : Z; i_satellite_freq_channel : Z; d_P_1 : double; d_t_k : double; d_B_n : double; d_P_2 : bool; d_t_b : double;
  d_VXn : double; d_Xn : double; d_AXn : double; d_VYn : double; d_Yn : double; d_AYn : double; d_VZn : double; d_Zn : double; d_AZn : double;
  d_P_3 : bool; d_gamma_n : double; d_P : double; d_l3rd_n : bool; d_tau_n : double; d_Delta_tau_n : double; d_E_n : double; d_P_4 : bool;
  d_F_T : double; d_N_T : double; d_M : double; d_l5th_n : bool }.
End Glonass_Gnav_Ephemeris.

Module Glonass_Gnav_Utc_Model.
Record glonass_utc_model := { d_N_A : double; d_tau_c : double; d_N_4 : double; d_tau_gps : double }.
End Glonass_Gnav_Utc_Model.

(** [static_cast<bool>(x)] *)
Definition bool_of_dbl (x : double) : bool := negb (SFeqb x dbl_zero).

Definition glo_sgn (val : double) : bool := lt0 val.

(** The bit set of the magnitude with the sign in its highest bit. *)
Definition set_high (sgn : bool) (s : list bool) : list bool := match s with _ :: l => sgn :: l | [] => [] end.

(** [std::bitset<N>(static_cast<int32_t>(std::round(fabs(x / LSB))))] with its highest bit set
    to the sign of [x]. *)
Definition sign_magnitude (N : nat) (x LSB : double) : option (list bool) :=
  v ← to_i32 (dbl_round (dbl_abs (dbl_div x LSB))); Some (set_high (glo_sgn x) (bitset N v)).

(** [std::bitset<N>(static_cast<uint32_t>(std::round(x)))] *)
Definition rounded (N : nat) (x : double) : option (list bool) := v ← to_u32 (dbl_round x); Some (bitset N v).

Section GloFields.
Import Glonass_Gnav_Ephemeris Glonass_Gnav_Utc_Model.
Context (glonass_gnav_eph : glonass_ephemeris) (glonass_gnav_utc_model : glonass_utc_model).

Definition set_DF038 : list bool := bitset 6 (i_satellite_slot_number glonass_gnav_eph).
Definition set_DF040 : list bool := bitset 5 (u32 (i_satellite_freq_channel glonass_gnav_eph + 7)).
Definition set_DF104 (glonass_gnav_alm_health : Z) : list bool := bitset 1 glonass_gnav_alm_health.
Definition set_DF105 (glonass_gnav_alm_health_ind : Z) : list bool := bitset 1 glonass_gnav_alm_health_ind.
Definition set_DF106 : option (list bool) := rounded 2 (dbl_sub (dbl_div (d_P_1 glonass_gnav_eph) (dbl_of_Z 15)) (dbl_of_Z 1)).

(** The seconds are what is left behind the minutes, divided by 60. *)
Definition set_DF107 : option (list bool) :=
  t ← to_i32 (d_t_k glonass_gnav_eph);
  let tk := u32 t in
  let hrs := tk / 3600 in
  let min := u32 (tk - hrs * 3600) / 60 in
  let sec := u32 (tk - hrs * 3600 - min * 60) / 60 in
  Some (bitset 5 hrs ++ bitset 6 min ++ bitset 1 sec).

Definition set_DF108 : list bool := [bool_of_dbl (d_B_n glonass_gnav_eph)].
Definition set_DF109 : list bool := [d_P_2 glonass_gnav_eph].
Definition set_DF110 : option (list bool) := rounded 7 (dbl_div (d_t_b glonass_gnav_eph) (dbl_of_Z (15 * 60))).
Definition set_DF111 : option (list bool) := sign_magnitude 24 (d_VXn glonass_gnav_eph) TWO_N20.
Definition set_DF112 : option (list bool) := sign_magnitude 27 (d_Xn glonass_gnav_eph) TWO_N11.
Definition set_DF113 : option (list bool) := sign_magnitude 5 (d_AXn glonass_gnav_eph) TWO_N30.
Definition set_DF114 : option (list bool) := sign_magnitude 24 (d_VYn glonass_gnav_eph) TWO_N20.
Definition set_DF115 : option (list bool) := sign_magnitude 27 (d_Yn glonass_gnav_eph) TWO_N11.
Definition set_DF116 : option (list bool) := sign_magnitude 5 (d_AYn glonass_gnav_eph) TWO_N30.
Definition set_DF117 : option (list bool) := sign_magnitude 24 (d_VZn glonass_gnav_eph) TWO_N20.
Definition set_DF118 : option (list bool) := sign_magnitude 27 (d_Zn glonass_gnav_eph) TWO_N11.
Definition set_DF119 : option (list bool) := sign_magnitude 5 (d_AZn glonass_gnav_eph) TWO_N30.
Definition set_DF120 : list bool := [d_P_3 glonass_gnav_eph].
Definition set_DF121 : option (list bool) := sign_magnitude 11 (d_gamma_n glonass_gnav_eph) TWO_N40.
Definition set_DF122 : option (list bool) := rounded 2 (d_P glonass_gnav_eph).
Definition set_DF123 : list bool := [d_l3rd_n glonass_gnav_eph].
Definition set_DF124 : option (list bool) := sign_magnitude 22 (d_tau_n glonass_gnav_eph) TWO_N30.
Definition set_DF125 : option (list bool) := sign_magnitude 5 (d_Delta_tau_n glonass_gnav_eph) TWO_N30.
Definition set_DF126 : option (list bool) := rounded 5 (d_E_n glonass_gnav_eph).
Definition set_DF127 : list bool := [d_P_4 glonass_gnav_eph].
Definition set_DF128 : option (list bool) := rounded 4 (d_F_T glonass_gnav_eph).
Definition set_DF129 : option (list bool) := rounded 11 (d_N_T glonass_gnav_eph).
Definition set_DF130 : option (list bool) := rounded 2 (d_M glonass_gnav_eph).
Definition set_DF131 (fifth_str_additional_data_ind : Z) : list bool := bitset 1 fifth_str_additional_data_ind.
Definition set_DF132 : option (list bool) := rounded 11 (d_N_A glonass_gnav_utc_model).
Definition set_DF133 : option (list bool) := scaled to_i32 32 (d_tau_c glonass_gnav_utc_model) TWO_N31.
Definition set_DF134 : option (list bool) := rounded 5 (d_N_4 glonass_gnav_utc_model).

(** Rounded before it is scaled. *)
Definition set_DF135 : option (list bool) :=
  v ← to_i32 (dbl_div (dbl_round (d_tau_gps glonass_gnav_utc_model)) TWO_N30); Some (bitset 22 v).
Definition set_DF136 : list bool := [d_l5th_n glonass_gnav_eph].

Definition MT1020_data : option (list bool) :=
  p1 ← set_DF106; tk ← set_DF107; tb ← set_DF110; vx ← set_DF111; x ← set_DF112; ax ← set_DF113; vy ← set_DF114; y ← set_DF115; ay ← set_DF116;
  vz ← set_DF117; z ← set_DF118; az ← set_DF119; gamma ← set_DF121; p ← set_DF122; tau ← set_DF124; dtau ← set_DF125; en ← set_DF126;
  ft ← set_DF128; nt ← set_DF129; m ← set_DF130; na ← set_DF132; tauc ← set_DF133; n4 ← set_DF134; taugps ← set_DF135;
  Some (set_DF002 1020 ++ set_DF038 ++ set_DF040 ++ set_DF104 0 ++ set_DF105 0 ++ p1 ++ tk ++ set_DF108 ++ set_DF109 ++ tb ++ vx ++ x ++ ax ++ vy ++ y ++ ay ++
    vz ++ z ++ az ++ set_DF120 ++ gamma ++ p ++ set_DF123 ++ tau ++ dtau ++ en ++ set_DF127 ++ ft ++ nt ++ m ++ set_DF131 1 ++ na ++ tauc ++ n4 ++
    taugps ++ set_DF136 ++ replicate 7 false).
End GloFields.

(** [static_cast<double>(bin_to_sint(s)) * LSB] *)
Definition sdbl_read (s : list bool) (LSB : double) : option double := v ← bin_to_sint s; Some (dbl_mul (dbl_of_Z v) LSB).
Definition udbl_read (s : list bool) : double := dbl_of_Z (bin_to_uint s).

Section GloMessages.
Import Glonass_Gnav_Ephemeris Glonass_Gnav_Utc_Model.
Context (crc : list Z -> Z).

Definition print_MT1020 (glonass_gnav_eph : glonass_ephemeris) (glonass_gnav_utc_model : glonass_utc_model) (st : Rtcm) : option (list Z * Rtcm) :=
  data ← MT1020_data glonass_gnav_eph glonass_gnav_utc_model; msg ← build_message crc data; Some (msg, enqueue msg st).

(** A field of [n] bits in sign and magnitude. *)
Definition next_sint (bits : list bool) (i n : nat) (LSB : double) : option (double * nat) :=
  '(s, i) ← take_field bits i n; v ← sdbl_read s LSB; Some (v, i).

Definition read_MT1020 (message : list Z) (old : glonass_ephemeris) (old_utc : glonass_utc_model) : option (Z * glonass_ephemeris * glonass_utc_model) :=
  let bits := binary_data_to_bin message in
  ok ← read_header crc message 45 1020;
  if negb ok then Some (1, old, old_utc)
  else
    '(slot, i) ← take_field bits 36 6; '(freq, i) ← take_field bits i 5; freq ← to_i32 (dbl_sub (dbl_of_Z (bin_to_uint freq)) (dbl_of_Z 7));
    '(_, i) ← take_field bits i 1; '(_, i) ← take_field bits i 1; '(p1, i) ← take_field bits i 2; '(h, i) ← take_field bits i 5; '(mi, i) ← take_field bits i 6; '(s, i) ← take_field bits i 1;
    '(bn, i) ← take_field bits i 1; '(p2, i) ← take_field bits i 1; '(tb, i) ← take_field bits i 7;
    '(vx, i) ← next_sint bits i 24 TWO_N20; '(x, i) ← next_sint bits i 27 TWO_N11; '(ax, i) ← next_sint bits i 5 TWO_N30;
    '(vy, i) ← next_sint bits i 24 TWO_N20; '(y, i) ← next_sint bits i 27 TWO_N11; '(ay, i) ← next_sint bits i 5 TWO_N30;
    '(vz, i) ← next_sint bits i 24 TWO_N20; '(z, i) ← next_sint bits i 27 TWO_N11; '(az, i) ← next_sint bits i 5 TWO_N30;
    '(p3, i) ← take_field bits i 1; '(gamma, i) ← next_sint bits i 11 TWO_N30; '(p, i) ← take_field bits i 2; '(l3, i) ← take_field bits i 1;
    '(tau, i) ← next_sint bits i 22 TWO_N30; '(dtau, i) ← next_sint bits i 5 TWO_N30; '(en, i) ← take_field bits i 5; '(p4, i) ← take_field bits i 1;
    '(ft, i) ← take_field bits i 4; '(nt, i) ← take_field bits i 11; '(m, i) ← take_field bits i 2; '(fifth, i) ← take_field bits i 1;
    let tk := dbl_add (dbl_add (dbl_add (d_t_k old) (dbl_mul (dbl_of_Z (bin_to_int h)) (dbl_of_Z 3600))) (dbl_mul (dbl_of_Z (bin_to_int mi)) (dbl_of_Z 60)))
      (dbl_mul (dbl_of_Z (bin_to_int s)) (dbl_of_Z 30)) in
    let eph l5 := {| i_satellite_slot_number := bin_to_uint slot; i_satellite_freq_channel := freq;
      d_P_1 := dbl_mul (dbl_add (udbl_read p1) (dbl_of_Z 1)) (dbl_of_Z 15); d_t_k := tk; d_B_n := udbl_read bn; d_P_2 := negb (bin_to_uint p2 =? 0);
      d_t_b := dbl_mul (dbl_mul (udbl_read tb) (dbl_of_Z 15)) (dbl_of_Z 60); d_VXn := vx; d_Xn := x; d_AXn := ax; d_VYn := vy; d_Yn := y; d_AYn := ay;
      d_VZn := vz; d_Zn := z; d_AZn := az; d_P_3 := negb (bin_to_uint p3 =? 0); d_gamma_n := gamma; d_P := udbl_read p; d_l3rd_n := negb (bin_to_uint l3 =? 0);
      d_tau_n := tau; d_Delta_tau_n := dtau; d_E_n := udbl_read en; d_P_4 := negb (bin_to_uint p4 =? 0); d_F_T := udbl_read ft; d_N_T := udbl_read nt;
      d_M := udbl_read m; d_l5th_n := l5 |} in
    if bin_to_uint fifth =? 1 then
      '(na, i) ← take_field bits i 11; '(tauc, i) ← next_sint bits i 32 TWO_N31; '(n4, i) ← take_field bits i 5; '(taugps, i) ← next_sint bits i 22 TWO_N30;
      '(l5, i) ← take_field bits i 1;
      Some (0, eph (negb (bin_to_uint l5 =? 0)), {| d_N_A := udbl_read na; d_tau_c := tauc; d_N_4 := udbl_read n4; d_tau_gps := taugps |})
    else Some (0, eph (d_l5th_n old), old_utc).
End GloMessages.
