(* ===== verification/RtcmEphProps.v ===== *)
(** * RTCM: Galileo and GLONASS ephemerides, written and read

    For ephemerides whose numbers are integers of the navigation message times their
    resolution, what the readers get from the messages that the writers make. Most fields come
    back unchanged; the statements say which do not. *)
From S2P Require Import Prelude GnssSignal Doubles DoublesErr NavBits GpsNav Rtcm RtcmProps RtcmEph.
From Stdlib Require Import SpecFloat.

#[local] Open Scope Z_scope.

(** ** Galileo *)

(** The integers of an ephemeris; the reference time of the clock is in seconds, that of the
    orbit in minutes. *)
Record raw_galileo := {
  g_prn : Z; g_wn : Z; g_iod : Z; g_sisa : Z; g_idot : Z; g_toc : Z; g_af2 : Z; g_af1 : Z; g_af0 : Z; g_crs : Z; g_dn : Z; g_m0 : Z; g_cuc : Z;
  g_ecc : Z; g_cus : Z; g_sqa : Z; g_toe : Z; g_cic : Z; g_om0 : Z; g_cis : Z; g_i0 : Z; g_crc : Z; g_om : Z; g_omd : Z; g_bgd : Z; g_hs : Z; g_dvs : bool }.

Record gal_ok (r : raw_galileo) : Prop := {
  gok_prn : unsigned_in 6 (g_prn r); gok_wn : unsigned_in 12 (g_wn r); gok_iod : unsigned_in 10 (g_iod r); gok_sisa : unsigned_in 8 (g_sisa r);
  gok_toc : unsigned_in 31 (g_toc r); gok_af2 : signed_in 6 (g_af2 r); gok_af1 : signed_in 21 (g_af1 r); gok_af0 : signed_in 31 (g_af0 r);
  gok_crs : signed_in 16 (g_crs r); gok_dn : signed_in 16 (g_dn r); gok_m0 : signed_in 32 (g_m0 r); gok_cuc : signed_in 16 (g_cuc r);
  gok_ecc : unsigned_in 32 (g_ecc r); gok_cus : signed_in 16 (g_cus r); gok_sqa : unsigned_in 32 (g_sqa r); gok_toe : unsigned_in 14 (g_toe r);
  gok_cic : signed_in 16 (g_cic r); gok_om0 : signed_in 32 (g_om0 r); gok_cis : signed_in 16 (g_cis r); gok_i0 : signed_in 32 (g_i0 r);
  gok_crc : signed_in 16 (g_crc r); gok_om : signed_in 32 (g_om r); gok_omd : signed_in 24 (g_omd r); gok_bgd : signed_in 10 (g_bgd r);
  gok_hs : unsigned_in 2 (g_hs r) }.

(** The ephemeris of these integers, with the rate of inclination, the reference time of the
    clock and the group delay as given. *)
Definition galileo_with (r : raw_galileo) (idot : double) (toc : Z) (bgd : double) : Galileo_Ephemeris.galileo_ephemeris :=
  let x v lsb := dbl_mul (dbl_of_Z v) lsb in
  {| Galileo_Ephemeris.PRN := g_prn r; Galileo_Ephemeris.WN := g_wn r; Galileo_Ephemeris.IOD_nav := g_iod r; Galileo_Ephemeris.SISA := g_sisa r;
     Galileo_Ephemeris.idot := idot; Galileo_Ephemeris.toc := toc; Galileo_Ephemeris.af2 := x (g_af2 r) TWO_N59; Galileo_Ephemeris.af1 := x (g_af1 r) TWO_N46;
     Galileo_Ephemeris.af0 := x (g_af0 r) TWO_N34; Galileo_Ephemeris.Crs := x (g_crs r) TWO_N5; Galileo_Ephemeris.delta_n := x (g_dn r) PI_TWO_N43;
     Galileo_Ephemeris.M_0 := x (g_m0 r) PI_TWO_N31; Galileo_Ephemeris.Cuc := x (g_cuc r) TWO_N29; Galileo_Ephemeris.ecc := x (g_ecc r) TWO_N33;
     Galileo_Ephemeris.Cus := x (g_cus r) TWO_N29; Galileo_Ephemeris.sqrtA := x (g_sqa r) TWO_N19; Galileo_Ephemeris.toe := 60 * g_toe r;
     Galileo_Ephemeris.Cic := x (g_cic r) TWO_N29; Galileo_Ephemeris.OMEGA_0 := x (g_om0 r) PI_TWO_N31; Galileo_Ephemeris.Cis := x (g_cis r) TWO_N29;
     Galileo_Ephemeris.i_0 := x (g_i0 r) PI_TWO_N31; Galileo_Ephemeris.Crc := x (g_crc r) TWO_N5; Galileo_Ephemeris.omega := x (g_om r) PI_TWO_N31;
     Galileo_Ephemeris.OMEGAdot := x (g_omd r) PI_TWO_N43; Galileo_Ephemeris.BGD_E1E5a := bgd; Galileo_Ephemeris.E5a_HS := g_hs r;
     Galileo_Ephemeris.E5a_DVS := g_dvs r |}.

Definition galileo_of (r : raw_galileo) : Galileo_Ephemeris.galileo_ephemeris :=
  galileo_with r (dbl_mul (dbl_of_Z (g_idot r)) PI_TWO_N43) (g_toc r) (dbl_mul (dbl_of_Z (g_bgd r)) TWO_N32).

Definition gal_fields (r : raw_galileo) : list (list bool) :=
  [bitset 6 (g_prn r); bitset 12 (g_wn r); bitset 10 (g_iod r); bitset 8 (g_sisa r); bitset 14 0; bitset 14 (g_toc r); bitset 6 (g_af2 r); bitset 21 (g_af1 r);
   bitset 31 (g_af0 r); bitset 16 (g_crs r); bitset 16 (g_dn r); bitset 32 (g_m0 r); bitset 16 (g_cuc r); bitset 32 (g_ecc r); bitset 16 (g_cus r);
   bitset 32 (g_sqa r); bitset 14 (g_toe r); bitset 16 (g_cic r); bitset 32 (g_om0 r); bitset 16 (g_cis r); bitset 32 (g_i0 r); bitset 16 (g_crc r);
   bitset 32 (g_om r); bitset 24 (g_omd r); bitset 10 (g_bgd r); bitset 2 (g_hs r); [g_dvs r]; replicate 7 false].

Ltac gal_proj := cbn [Galileo_Ephemeris.PRN Galileo_Ephemeris.WN Galileo_Ephemeris.IOD_nav Galileo_Ephemeris.SISA Galileo_Ephemeris.idot
  Galileo_Ephemeris.toc Galileo_Ephemeris.af2 Galileo_Ephemeris.af1 Galileo_Ephemeris.af0 Galileo_Ephemeris.Crs Galileo_Ephemeris.delta_n
  Galileo_Ephemeris.M_0 Galileo_Ephemeris.Cuc Galileo_Ephemeris.ecc Galileo_Ephemeris.Cus Galileo_Ephemeris.sqrtA Galileo_Ephemeris.toe
  Galileo_Ephemeris.Cic Galileo_Ephemeris.OMEGA_0 Galileo_Ephemeris.Cis Galileo_Ephemeris.i_0 Galileo_Ephemeris.Crc Galileo_Ephemeris.omega
  Galileo_Ephemeris.OMEGAdot Galileo_Ephemeris.BGD_E1E5a Galileo_Ephemeris.E5a_HS Galileo_Ephemeris.E5a_DVS].

Ltac gal_open := unfold MT1045_data, set_DF294, set_DF295, set_DF296, set_DF297, set_DF298, set_DF299, set_DF300, set_DF301, set_DF302, set_DF303,
  set_DF304, set_DF305, set_DF306, set_DF307, set_DF308, set_DF309, set_DF310, set_DF311, set_DF312, galileo_of, galileo_with; gal_proj;
  unfold to_u32, to_u64, to_i16, to_i32, to_i64, Galileo_FNAV.FNAV_T0E_3_LSB.

Lemma MT1045_fields r : gal_ok r -> 0 <= g_af0 r -> 0 <= g_cuc r -> 0 <= g_crc r ->
  MT1045_data (galileo_of r) (replicate 14 false) = Some (mjoin (bitset 12 1045 :: gal_fields r)).
Proof.
  intros [] H0 Hc Hr. unfold unsigned_in, signed_in in *. gal_open. rewrite !scaled_time_back by lia. rewrite !scaled_back by side.
  cbn [mbind option_bind]. unfold set_DF002, set_DF252, set_DF289, set_DF290, set_DF291, set_DF293, set_DF314, set_DF315. gal_proj. rewrite !bitset_mod by lia.
  cbn [gal_fields mjoin list_join]. by rewrite app_nil_r.
Qed.

(** A sequence with a step that fails. *)
Ltac none_later := repeat (match goal with |- mbind _ ?x = None => destruct x; [cbn [mbind option_bind]|done] end); done.

(** The three numbers that are converted to an unsigned type. *)
Lemma MT1045_negative r df : gal_ok r -> g_af0 r < 0 \/ g_cuc r < 0 \/ g_crc r < 0 -> MT1045_data (galileo_of r) df = None.
Proof.
  intros [] Hn. unfold unsigned_in, signed_in in *. gal_open.
  assert (forall N v lsb, v < 0 -> Z.abs v < 2 ^ 48 -> factor lsb = true -> scaled (cast_range 0 (2 ^ 32)) N (dbl_mul (dbl_of_Z v) lsb) lsb = None) as Hneg.
  { intros N v lsb H1 H2 H3. unfold scaled, cast_range. rewrite scale_and_back by done. cbn [mbind option_bind]. by rewrite decide_False by lia. }
  destruct (decide (g_af0 r < 0)); [rewrite (Hneg 31%nat (g_af0 r)) by side; none_later|].
  destruct (decide (g_cuc r < 0)); [rewrite (Hneg 16%nat (g_cuc r)) by side; none_later|].
  rewrite (Hneg 16%nat (g_crc r)) by side. none_later.
Qed.

Lemma uvia_read N v : (N <= 31)%nat -> unsigned_in (Z.of_nat N) v -> uvia (bitset N v) = Some v.
Proof.
  intros HN Hv. unfold uvia. rewrite uint_read by (lia || done). unfold unsigned_in in Hv. pose proof (Z.pow_le_mono_r 2 (Z.of_nat N) 31 ltac:(lia) ltac:(lia)).
  apply cast_in; [apply Z_of_dbl_of_Z; lia|lia].
Qed.

Section Gal.
Context (crc : list Z -> Z).

Lemma gal_fields_length r : Z.of_nat (length (mjoin (gal_fields r))) = 484.
Proof. unfold gal_fields, bitset. cbn [mjoin list_join]. rewrite !length_app, !length_val_bits. done. Qed.

Lemma bitset_low n v : bitset n (v mod 2 ^ Z.of_nat n) = bitset n v.
Proof. apply (bitset_mod n (Z.of_nat n)). lia. Qed.

Lemma read_1045 r msg old : gal_ok r -> build_message crc (mjoin (bitset 12 1045 :: gal_fields r)) = Some msg ->
  read_MT1045 crc msg old = Some (0, galileo_with r dbl_zero (60 * (g_toc r mod 2 ^ 14)) (dbl_of_Z (g_bgd r))).
Proof.
  intros [] Hm. assert (unsigned_in 12 1045) as Hn by (split; lia). pose proof (read_frame crc 1045 (gal_fields r) msg 484 Hn Hm (gal_fields_length r)) as Hf.
  destruct Hf as [Hh [rest Hd]]; [lia|]. replace ((12 + 484 + 7) / 8) with 62 in Hh by done.
  unfold read_MT1045, Galileo_INAV.T0C_4_LSB, Galileo_INAV.T0E_1_LSB. cbv zeta. rewrite (some_step _ _ _ Hh). cbn beta iota delta [negb]. clear Hh Hm.
  generalize dependent (binary_data_to_bin msg). intros bits Hd. unfold gal_fields in Hd. cbn [mjoin list_join] in Hd. rewrite <- !app_assoc in Hd.
  rewrite <- (bitset_low 14 (g_toc r)) in Hd. pose proof (Z.mod_pos_bound (g_toc r) (2 ^ 14) ltac:(lia)) as Htoc. change (2 ^ Z.of_nat 14) with (2 ^ 14) in Hd.
  do 2 read_field Hd. rewrite (some_step _ _ _ (uvia_read 12 (g_wn r) ltac:(lia) gok_wn0)).
  do 2 read_field Hd. rewrite (some_step _ _ _ (uvia_read 8 (g_sisa r) ltac:(lia) gok_sisa0)).
  do 2 read_field Hd. rewrite (some_step _ _ _ (utime_read 14 _ 60 ltac:(lia) Htoc ltac:(lia) ltac:(lia))).
  do 11 read_field Hd. rewrite (some_step _ _ _ (utime_read 14 (g_toe r) 60 ltac:(lia) gok_toe0 ltac:(lia) ltac:(unfold unsigned_in in *; lia))).
  do 10 read_field Hd. clear Hd. rewrite !flag_read, !bin_to_int_bitset by (lia || assumption). rewrite !idbl_read, !ud_read, !uint_read by (lia || assumption || (split; lia)).
  unfold unsigned_in in *. rewrite !swrap_small by lia. done.
Qed.
End Gal.

(** ** GLONASS *)

(** *** Fields *)

Lemma sign_magnitude_back n v lsb : factor lsb = true -> (n <= 30)%nat -> Z.abs v < 2 ^ Z.of_nat n ->
  sign_magnitude (S n) (dbl_mul (dbl_of_Z v) lsb) lsb = Some ((v <? 0) :: val_bits n (Z.abs v)).
Proof.
  intros Hf Hn Hv. pose proof (Z.pow_le_mono_r 2 (Z.of_nat n) 30 ltac:(lia) ltac:(lia)) as Hp. unfold sign_magnitude, to_i32, glo_sgn.
  rewrite (cast_in _ _ _ (Z.abs v)); [|apply scale_and_back_abs; [lia|done]|lia]. cbn [mbind option_bind]. by rewrite mul_sign by (done || lia).
Qed.

Lemma bin_to_sint_read b n v : (n <= 31)%nat -> 0 <= v < 2 ^ Z.of_nat n -> bin_to_sint (b :: val_bits n v) = Some (if b then v else - v).
Proof.
  intros Hn Hv. pose proof (Z.pow_le_mono_r 2 (Z.of_nat n) 31 ltac:(lia) ltac:(lia)) as Hp. unfold bin_to_sint. cbn [length]. rewrite length_val_bits.
  rewrite (proj2 (Nat.ltb_ge _ _)) by lia. unfold substr. cbn [length Nat.leb mbind option_bind drop]. rewrite drop_0. rewrite take_ge by (rewrite length_val_bits; lia). rewrite bits_val_val_bits, Z.mod_small by done.
  f_equal. rewrite (swrap_small 32 v) by (change (32 - 1) with 31; lia). destruct b; cbn [first_not_0]; rewrite swrap_small by (change (32 - 1) with 31; lia); lia.
Qed.

(** A field that is written in sign and magnitude is read with the opposite sign. *)
Lemma sint_flipped n v : (n <= 31)%nat -> Z.abs v < 2 ^ Z.of_nat n -> bin_to_sint ((v <? 0) :: val_bits n (Z.abs v)) = Some (- v).
Proof. intros Hn Hv. rewrite bin_to_sint_read by lia. f_equal. destruct (Z.ltb_spec v 0); lia. Qed.

(** A field in two's complement, read as sign and magnitude. *)
Lemma sint_of_complement v : signed_in 32 v -> bin_to_sint (bitset 32 v) = Some (if v <? 0 then 2 ^ 31 + v else - v).
Proof.
  intros Hv. unfold signed_in in Hv. unfold bitset. change (val_bits 32 v) with (Z.testbit v (Z.of_nat 31) :: val_bits 31 v).
  assert (val_bits 31 v = val_bits 31 (v mod 2 ^ 31)) as ->.
  { symmetry. change (2 ^ 31) with (2 ^ Z.of_nat 31). apply (bitset_low 31 v). }
  rewrite bin_to_sint_read by (lia || apply Z.mod_pos_bound; lia). f_equal. change (Z.of_nat 31) with 31. destruct (Z.ltb_spec v 0) as [Hn|Hn].
  - assert (Z.testbit v 31 = true) as ->.
    { rewrite <- (Z.lnot_involutive v), Z.lnot_spec by lia. by rewrite (testbit_above 31 (Z.lnot v)) by (unfold Z.lnot; lia). }
    rewrite <- (Z.mod_add v 1 (2 ^ 31)), Z.mod_small by lia. lia.
  - rewrite (testbit_above 31 v) by lia. rewrite Z.mod_small by lia. lia.
Qed.

Lemma rounded_back N v : 0 <= v < 2 ^ 31 -> rounded N (dbl_of_Z v) = Some (bitset N v).
Proof. intros Hv. unfold rounded, to_u32. rewrite (cast_in _ _ _ v); [done|apply round_int; lia|lia]. Qed.

Lemma round_to_zero x z : is_value x z (-30) -> Z.abs z < 2 ^ 29 -> exists s, dbl_round x = S754_zero s.
Proof.
  destruct x as [s| | |s m ex]; cbn [is_value]; try done; [by exists s|]. intros Hx Hz. exists s. cbn [dbl_round].
  assert (ex < 0 /\ Z.pos m < 2 ^ (- ex - 1)) as [He Hm].
  { assert (Z.pos m * 2 ^ (ex - Z.min ex (-30)) = Z.abs z * 2 ^ (-30 - Z.min ex (-30))) as Ha.
    { destruct s; cbn [cond_Zopp] in Hx; pose proof (Z.pow_pos_nonneg 2 (ex - Z.min ex (-30))); pose proof (Z.pow_pos_nonneg 2 (-30 - Z.min ex (-30))); nia. }
    destruct (Z.le_ge_cases ex (-30)) as [Hl|Hl].
    - rewrite Z.min_l, Z.sub_diag, Z.mul_1_r in Ha by lia. split; [lia|]. rewrite Ha. replace (- ex - 1) with (29 + (-30 - ex)) by lia.
      rewrite Z.pow_add_r by lia. apply Z.mul_lt_mono_pos_r; [apply Z.pow_pos_nonneg; lia|done].
    - rewrite Z.min_r, Z.mul_1_r in Ha by lia. replace (ex - -30) with (ex + 30) in Ha by lia. split.
      + destruct (decide (ex < 0)); [done|]. pose proof (Z.pow_le_mono_r 2 30 (ex + 30) ltac:(lia) ltac:(lia)). nia.
      + assert (ex < 0) by (destruct (decide (ex < 0)); [done|]; pose proof (Z.pow_le_mono_r 2 30 (ex + 30) ltac:(lia) ltac:(lia)); nia).
        apply (Z.mul_lt_mono_pos_r (2 ^ (ex + 30))); [apply Z.pow_pos_nonneg; lia|]. rewrite Ha, <- Z.pow_add_r by lia. by replace (- ex - 1 + (ex + 30)) with 29 by lia. }
  rewrite (proj2 (Z.leb_gt 0 ex)) by lia.
  assert (2 ^ (- ex) = 2 * 2 ^ (- ex - 1)) as Hp by (rewrite <- Z.pow_succ_r by lia; f_equal; lia). rewrite Hp, Z.div_small by lia. done.
Qed.

(** *** Messages *)

(** The integers of an ephemeris and of the time scales, with the day time in seconds. *)
Record raw_glonass := {
  l_slot : Z; l_freq : Z; l_p1 : Z; l_tk : Z; l_bn : bool; l_p2 : bool; l_tb : Z; l_vx : Z; l_x : Z; l_ax : Z; l_vy : Z; l_y : Z; l_ay : Z;
  l_vz : Z; l_z : Z; l_az : Z; l_p3 : bool; l_gamma : Z; l_p : Z; l_l3 : bool; l_tau : Z; l_dtau : Z; l_en : Z; l_p4 : bool; l_ft : Z; l_nt : Z;
  l_m : Z; l_l5 : bool; l_na : Z; l_tauc : Z; l_n4 : Z; l_taugps : Z }.

Definition magnitude_in (n v : Z) : Prop := Z.abs v < 2 ^ n.

Record glo_ok (r : raw_glonass) : Prop := {
  lok_slot : unsigned_in 6 (l_slot r); lok_freq : unsigned_in 5 (l_freq r + 7); lok_p1 : unsigned_in 2 (l_p1 r); lok_tk : 0 <= l_tk r < 86400;
  lok_tb : unsigned_in 7 (l_tb r); lok_vx : magnitude_in 23 (l_vx r); lok_x : magnitude_in 26 (l_x r); lok_ax : magnitude_in 4 (l_ax r);
  lok_vy : magnitude_in 23 (l_vy r); lok_y : magnitude_in 26 (l_y r); lok_ay : magnitude_in 4 (l_ay r); lok_vz : magnitude_in 23 (l_vz r);
  lok_z : magnitude_in 26 (l_z r); lok_az : magnitude_in 4 (l_az r); lok_gamma : magnitude_in 10 (l_gamma r); lok_p : unsigned_in 2 (l_p r);
  lok_tau : magnitude_in 21 (l_tau r); lok_dtau : magnitude_in 4 (l_dtau r); lok_en : unsigned_in 5 (l_en r); lok_ft : unsigned_in 4 (l_ft r);
  lok_nt : unsigned_in 11 (l_nt r); lok_m : unsigned_in 2 (l_m r); lok_na : unsigned_in 11 (l_na r); lok_tauc : signed_in 32 (l_tauc r);
  lok_n4 : unsigned_in 5 (l_n4 r); lok_taugps : magnitude_in 21 (l_taugps r) }.

(** The ephemeris with the day time [tk], the nine coordinates and the clock terms times
    [sg], and the resolution [g] of the frequency offset. *)
Definition glonass_with (r : raw_glonass) (tk : double) (sg : Z) (g : double) : Glonass_Gnav_Ephemeris.glonass_ephemeris :=
  let x v lsb := dbl_mul (dbl_of_Z (sg * v)) lsb in
  {| Glonass_Gnav_Ephemeris.i_satellite_slot_number := l_slot r; Glonass_Gnav_Ephemeris.i_satellite_freq_channel := l_freq r;
     Glonass_Gnav_Ephemeris.d_P_1 := dbl_of_Z (15 * (l_p1 r + 1)); Glonass_Gnav_Ephemeris.d_t_k := tk;
     Glonass_Gnav_Ephemeris.d_B_n := dbl_of_Z (Z.b2z (l_bn r)); Glonass_Gnav_Ephemeris.d_P_2 := l_p2 r; Glonass_Gnav_Ephemeris.d_t_b := dbl_of_Z (900 * l_tb r);
     Glonass_Gnav_Ephemeris.d_VXn := x (l_vx r) TWO_N20; Glonass_Gnav_Ephemeris.d_Xn := x (l_x r) TWO_N11; Glonass_Gnav_Ephemeris.d_AXn := x (l_ax r) TWO_N30;
     Glonass_Gnav_Ephemeris.d_VYn := x (l_vy r) TWO_N20; Glonass_Gnav_Ephemeris.d_Yn := x (l_y r) TWO_N11; Glonass_Gnav_Ephemeris.d_AYn := x (l_ay r) TWO_N30;
     Glonass_Gnav_Ephemeris.d_VZn := x (l_vz r) TWO_N20; Glonass_Gnav_Ephemeris.d_Zn := x (l_z r) TWO_N11; Glonass_Gnav_Ephemeris.d_AZn := x (l_az r) TWO_N30;
     Glonass_Gnav_Ephemeris.d_P_3 := l_p3 r; Glonass_Gnav_Ephemeris.d_gamma_n := x (l_gamma r) g; Glonass_Gnav_Ephemeris.d_P := dbl_of_Z (l_p r);
     Glonass_Gnav_Ephemeris.d_l3rd_n := l_l3 r; Glonass_Gnav_Ephemeris.d_tau_n := x (l_tau r) TWO_N30; Glonass_Gnav_Ephemeris.d_Delta_tau_n := x (l_dtau r) TWO_N30;
     Glonass_Gnav_Ephemeris.d_E_n := dbl_of_Z (l_en r); Glonass_Gnav_Ephemeris.d_P_4 := l_p4 r; Glonass_Gnav_Ephemeris.d_F_T := dbl_of_Z (l_ft r);
     Glonass_Gnav_Ephemeris.d_N_T := dbl_of_Z (l_nt r); Glonass_Gnav_Ephemeris.d_M := dbl_of_Z (l_m r); Glonass_Gnav_Ephemeris.d_l5th_n := l_l5 r |}.

Definition glonass_utc (r : raw_glonass) (tauc taugps : Z) : Glonass_Gnav_Utc_Model.glonass_utc_model :=
  {| Glonass_Gnav_Utc_Model.d_N_A := dbl_of_Z (l_na r); Glonass_Gnav_Utc_Model.d_tau_c := dbl_mul (dbl_of_Z tauc) TWO_N31;
     Glonass_Gnav_Utc_Model.d_N_4 := dbl_of_Z (l_n4 r); Glonass_Gnav_Utc_Model.d_tau_gps := dbl_mul (dbl_of_Z taugps) TWO_N30 |}.

Definition glonass_of (r : raw_glonass) : Glonass_Gnav_Ephemeris.glonass_ephemeris := glonass_with r (dbl_of_Z (l_tk r)) 1 TWO_N40.
Definition glonass_utc_of (r : raw_glonass) : Glonass_Gnav_Utc_Model.glonass_utc_model := glonass_utc r (l_tauc r) (l_taugps r).

Definition sm (n : nat) (v : Z) : list bool := (v <? 0) :: val_bits n (Z.abs v).

Definition glo_fields (r : raw_glonass) : list (list bool) :=
  [bitset 6 (l_slot r); bitset 5 (l_freq r + 7); bitset 1 0; bitset 1 0; bitset 2 (l_p1 r); bitset 5 (l_tk r / 3600); bitset 6 (l_tk r mod 3600 / 60);
   bitset 1 0; [l_bn r]; [l_p2 r]; bitset 7 (l_tb r); sm 23 (l_vx r); sm 26 (l_x r); sm 4 (l_ax r); sm 23 (l_vy r); sm 26 (l_y r); sm 4 (l_ay r);
   sm 23 (l_vz r); sm 26 (l_z r); sm 4 (l_az r); [l_p3 r]; sm 10 (l_gamma r); bitset 2 (l_p r); [l_l3 r]; sm 21 (l_tau r); sm 4 (l_dtau r); bitset 5 (l_en r);
   [l_p4 r]; bitset 4 (l_ft r); bitset 11 (l_nt r); bitset 2 (l_m r); bitset 1 1; bitset 11 (l_na r); bitset 32 (l_tauc r); bitset 5 (l_n4 r); sm 21 0;
   [l_l5 r]; replicate 7 false].

Lemma P_1_back v : unsigned_in 2 v -> rounded 2 (dbl_sub (dbl_div (dbl_of_Z (15 * (v + 1))) (dbl_of_Z 15)) (dbl_of_Z 1)) = Some (bitset 2 v).
Proof. intros [H1 H2]. assert (v = 0 \/ v = 1 \/ v = 2 \/ v = 3) as [->|[->|[->| ->]]] by lia; vm_compute; reflexivity. Qed.

Lemma t_b_back v : unsigned_in 7 v -> rounded 7 (dbl_div (dbl_of_Z (900 * v)) (dbl_of_Z (15 * 60))) = Some (bitset 7 v).
Proof.
  intros Hv. assert (forallb (fun v => bool_decide (rounded 7 (dbl_div (dbl_of_Z (900 * v)) (dbl_of_Z (15 * 60))) = Some (bitset 7 v))) (seqZ 0 128) = true) as H
    by (vm_compute; reflexivity).
  rewrite forallb_forall in H. specialize (H v). rewrite <- list_elem_of_In, elem_of_seqZ in H. by apply bool_decide_eq_true in H; [|unfold unsigned_in in Hv; lia].
Qed.

Lemma t_k_back t : 0 <= t < 86400 -> forall r, Glonass_Gnav_Ephemeris.d_t_k r = dbl_of_Z t ->
  set_DF107 r = Some (bitset 5 (t / 3600) ++ bitset 6 (t mod 3600 / 60) ++ bitset 1 0).
Proof.
  intros Ht r Hr. unfold set_DF107, to_i32. rewrite Hr, (cast_in _ _ _ t) by (apply Z_of_dbl_of_Z || idtac; lia). cbn [mbind option_bind].
  rewrite (uwrap_small 32 t) by lia. pose proof (Z.div_mod t 3600 ltac:(lia)). pose proof (Z.mod_pos_bound t 3600 ltac:(lia)).
  rewrite (uwrap_small 32 (t - _)) by lia. replace (t - t / 3600 * 3600) with (t mod 3600) by lia.
  pose proof (Z.div_mod (t mod 3600) 60 ltac:(lia)). pose proof (Z.mod_pos_bound (t mod 3600) 60 ltac:(lia)).
  rewrite uwrap_small by lia. rewrite (Z.div_small (_ - _) 60) by lia. done.
Qed.

Lemma tau_gps_lost r : magnitude_in 21 (l_taugps r) -> set_DF135 (glonass_utc_of r) = Some (bitset 22 0).
Proof.
  intros Hr. unfold magnitude_in in Hr. unfold set_DF135, glonass_utc_of. cbn [glonass_utc Glonass_Gnav_Utc_Model.d_tau_gps].
  pose proof literals_exact as (_ & _ & _ & _ & _ & _ & _ & _ & _ & _ & _ & _ & H & _). pose proof (scaled_value (l_taugps r) (-30) ltac:(lia) ltac:(lia)) as Hv.
  rewrite <- H in Hv. destruct (round_to_zero _ _ Hv ltac:(lia)) as [s ->]. vm_compute. by destruct s.
Qed.

Ltac glo_proj := cbn [Glonass_Gnav_Ephemeris.i_satellite_slot_number Glonass_Gnav_Ephemeris.i_satellite_freq_channel Glonass_Gnav_Ephemeris.d_P_1
  Glonass_Gnav_Ephemeris.d_t_k Glonass_Gnav_Ephemeris.d_B_n Glonass_Gnav_Ephemeris.d_P_2 Glonass_Gnav_Ephemeris.d_t_b Glonass_Gnav_Ephemeris.d_VXn
  Glonass_Gnav_Ephemeris.d_Xn Glonass_Gnav_Ephemeris.d_AXn Glonass_Gnav_Ephemeris.d_VYn Glonass_Gnav_Ephemeris.d_Yn Glonass_Gnav_Ephemeris.d_AYn
  Glonass_Gnav_Ephemeris.d_VZn Glonass_Gnav_Ephemeris.d_Zn Glonass_Gnav_Ephemeris.d_AZn Glonass_Gnav_Ephemeris.d_P_3 Glonass_Gnav_Ephemeris.d_gamma_n
  Glonass_Gnav_Ephemeris.d_P Glonass_Gnav_Ephemeris.d_l3rd_n Glonass_Gnav_Ephemeris.d_tau_n Glonass_Gnav_Ephemeris.d_Delta_tau_n Glonass_Gnav_Ephemeris.d_E_n
  Glonass_Gnav_Ephemeris.d_P_4 Glonass_Gnav_Ephemeris.d_F_T Glonass_Gnav_Ephemeris.d_N_T Glonass_Gnav_Ephemeris.d_M Glonass_Gnav_Ephemeris.d_l5th_n
  Glonass_Gnav_Utc_Model.d_N_A Glonass_Gnav_Utc_Model.d_tau_c Glonass_Gnav_Utc_Model.d_N_4 Glonass_Gnav_Utc_Model.d_tau_gps].

Lemma MT1020_fields r : glo_ok r -> MT1020_data (glonass_of r) (glonass_utc_of r) = Some (mjoin (bitset 12 1020 :: glo_fields r)).
Proof.
  intros []. unfold MT1020_data. rewrite (t_k_back (l_tk r) lok_tk0 (glonass_of r) eq_refl), tau_gps_lost by done.
  unfold set_DF106, set_DF110, set_DF111, set_DF112, set_DF113, set_DF114, set_DF115, set_DF116, set_DF117, set_DF118, set_DF119, set_DF121, set_DF122,
    set_DF124, set_DF125, set_DF126, set_DF128, set_DF129, set_DF130, set_DF132, set_DF133, set_DF134, glonass_of, glonass_utc_of, glonass_with, glonass_utc.
  glo_proj. rewrite P_1_back, t_b_back, !Z.mul_1_l by done. unfold unsigned_in, signed_in, magnitude_in in *.
  rewrite !rounded_back by lia. rewrite !sign_magnitude_back by side. unfold to_i32. rewrite scaled_back by side.
  cbn [mbind option_bind]. unfold set_DF002, set_DF038, set_DF040, set_DF104, set_DF105, set_DF108, set_DF109, set_DF120, set_DF123, set_DF127, set_DF131, set_DF136.
  glo_proj. rewrite !bitset_mod by lia. cbn [glo_fields mjoin list_join]. rewrite <- !app_assoc, app_nil_r.
  replace (bool_of_dbl (dbl_of_Z (Z.b2z (l_bn r)))) with (l_bn r) by (by destruct (l_bn r)). done.
Qed.

Lemma sint_field_step {B} bits i N f w LSB rest (k : double * nat -> option B) : drop i bits = f ++ rest -> length f = N -> (0 < N)%nat ->
  bin_to_sint f = Some w -> (next_sint bits i N LSB ≫= k) = k (dbl_mul (dbl_of_Z w) LSB, (i + N)%nat) /\ drop (i + N) bits = rest.
Proof.
  intros Hd Hl Hn Hf. unfold next_sint. destruct (next_field bits i N _ _ Hd Hl Hn) as [-> Hr].
  cbn [mbind option_bind]. unfold sdbl_read. by rewrite Hf.
Qed.

Lemma sm_length n v : length (sm n v) = S n.
Proof. cbn [sm length]. by rewrite length_val_bits. Qed.

Lemma sint_step {B} bits i N n v LSB rest (k : double * nat -> option B) : drop i bits = sm n v ++ rest -> N = S n -> (n <= 31)%nat ->
  Z.abs v < 2 ^ Z.of_nat n -> (next_sint bits i N LSB ≫= k) = k (dbl_mul (dbl_of_Z (-1 * v)) LSB, (i + N)%nat) /\ drop (i + N) bits = rest.
Proof.
  intros Hd -> Hn Hv. apply (sint_field_step _ _ _ (sm n v)); [done|apply sm_length|lia|]. unfold sm. rewrite sint_flipped by done. by replace (-1 * v) with (- v) by lia.
Qed.

(** Reads a field in sign and magnitude. *)
Ltac sint_field Hd :=
  match goal with |- (@mbind _ _ _ _ ?k (next_sint ?b ?i ?N ?lsb)) = _ =>
    let H1 := fresh in let H2 := fresh in
    destruct (sint_step b i N _ _ lsb _ k Hd ltac:(reflexivity) ltac:(lia) ltac:(assumption)) as [H1 H2]; rewrite H1; cbv beta iota zeta; clear H1 Hd;
    rename H2 into Hd
  end.

Lemma P_1_read v : unsigned_in 2 v -> dbl_mul (dbl_add (dbl_of_Z v) (dbl_of_Z 1)) (dbl_of_Z 15) = dbl_of_Z (15 * (v + 1)).
Proof. intros [H1 H2]. assert (v = 0 \/ v = 1 \/ v = 2 \/ v = 3) as [->|[->|[->| ->]]] by lia; vm_compute; reflexivity. Qed.

Lemma t_b_read v : unsigned_in 7 v -> dbl_mul (dbl_mul (dbl_of_Z v) (dbl_of_Z 15)) (dbl_of_Z 60) = dbl_of_Z (900 * v).
Proof.
  intros [H1 H2]. destruct (decide (v = 0)) as [->|Hn]; [by vm_compute|]. rewrite !dbl_mul_int by lia. f_equal. lia.
Qed.

Lemma freq_read v : unsigned_in 5 v -> to_i32 (dbl_sub (dbl_of_Z v) (dbl_of_Z 7)) = Some (v - 7).
Proof.
  intros Hv. assert (forallb (fun v => bool_decide (to_i32 (dbl_sub (dbl_of_Z v) (dbl_of_Z 7)) = Some (v - 7))) (seqZ 0 32) = true) as H by (vm_compute; reflexivity).
  rewrite forallb_forall in H. specialize (H v). rewrite <- list_elem_of_In, elem_of_seqZ in H. by apply bool_decide_eq_true in H; [|unfold unsigned_in in Hv; lia].
Qed.

Lemma bit_uint b : bin_to_uint [b] = Z.b2z b.
Proof. by destruct b. Qed.

Section Glo.
Context (crc : list Z -> Z).

Lemma glo_fields_length r : Z.of_nat (length (mjoin (glo_fields r))) = 348.
Proof. unfold glo_fields, bitset. cbn [mjoin list_join]. rewrite !length_app, !length_val_bits, !sm_length. done. Qed.

(** What the reader makes of the day time: hours and minutes are taken for signed numbers and
    added to what was there. *)
Definition t_k_read (old : double) (t : Z) : double :=
  dbl_add (dbl_add (dbl_add old (dbl_mul (dbl_of_Z (bin_to_int (bitset 5 (t / 3600)))) (dbl_of_Z 3600)))
    (dbl_mul (dbl_of_Z (bin_to_int (bitset 6 (t mod 3600 / 60)))) (dbl_of_Z 60))) dbl_zero.

Lemma read_1020 r msg old old_utc : glo_ok r -> build_message crc (mjoin (bitset 12 1020 :: glo_fields r)) = Some msg ->
  read_MT1020 crc msg old old_utc = Some (0, glonass_with r (t_k_read (Glonass_Gnav_Ephemeris.d_t_k old) (l_tk r)) (-1) TWO_N30,
    glonass_utc r (if l_tauc r <? 0 then 2 ^ 31 + l_tauc r else - l_tauc r) 0).
Proof.
  intros [] Hm. assert (unsigned_in 12 1020) as Hn by (split; lia). pose proof (read_frame crc 1020 (glo_fields r) msg 348 Hn Hm (glo_fields_length r)) as Hf.
  destruct Hf as [Hh [rest Hd]]; [lia|]. replace ((12 + 348 + 7) / 8) with 45 in Hh by done.
  unfold read_MT1020. cbv zeta. rewrite (some_step _ _ _ Hh). cbn beta iota delta [negb]. clear Hh Hm.
  generalize dependent (binary_data_to_bin msg). intros bits Hd. unfold glo_fields in Hd. cbn [mjoin list_join] in Hd. rewrite <- !app_assoc in Hd.
  do 2 read_field Hd. rewrite (uint_read 5) by (lia || done). rewrite (some_step _ _ _ (freq_read _ lok_freq0)).
  do 9 read_field Hd. do 9 sint_field Hd. read_field Hd. sint_field Hd. do 2 read_field Hd. do 2 sint_field Hd. do 6 read_field Hd.
  rewrite (uint_read 1 1) by (lia || (split; lia)). change (1 =? 1) with true. cbv iota. read_field Hd.
  match goal with |- (@mbind _ _ _ _ ?k (next_sint ?b ?i ?N ?lsb)) = _ =>
    destruct (sint_field_step b i N _ _ lsb _ k Hd (length_val_bits 32 _) ltac:(lia) (sint_of_complement _ lok_tauc0)) as [H1 H2] end.
  rewrite H1. cbv beta iota. clear H1 Hd. rename H2 into Hd. read_field Hd.
  assert (Z.abs 0 < 2 ^ Z.of_nat 21) as H0 by lia. sint_field Hd. read_field Hd. clear Hd.
  rewrite !flag_read. unfold udbl_read. rewrite !uint_read by (lia || assumption). rewrite P_1_read, t_b_read by done.
  rewrite Z.add_simpl_r, bit_uint. done.
Qed.
End Glo.
