(* ===== verification/RtcmMsm.v ===== *)
(** * RTCM multiple signal messages

    [algorithms/PVT/libs/rtcm.cc]: the masks of satellites, signals and cells (DF394 to DF396),
    the header and the contents of the messages of type MSM 1, the satellite data of MSM 4, and
    the lock time indicators. A map of observables is the list of its pairs, in the order of
    the keys. [None] stands for an exception ([at], [set], [begin] of an empty map) and for a
    conversion of a number to a type that cannot hold it. [std::sort] is a parameter: the
    standard leaves open how it orders equal elements. *)
From S2P Require Import Prelude GnssSignal Doubles DoublesErr NavBits GpsNav Rtcm.
From stdpp Require Import gmap strings.
From Stdlib Require Import SpecFloat Ascii.

#[local] Open Scope Z_scope.

(** ** Lock times *)

Definition lock_time_indicator (lock_time_period_s : Z) : Z :=
  if lock_time_period_s <=? 0 then 0
  else if lock_time_period_s <? 24 then lock_time_period_s
  else if lock_time_period_s <? 72 then u32 (lock_time_period_s + 24) / 2
  else if lock_time_period_s <? 168 then u32 (lock_time_period_s + 120) / 4
  else if lock_time_period_s <? 360 then u32 (lock_time_period_s + 408) / 8
  else if lock_time_period_s <? 744 then u32 (lock_time_period_s + 1176) / 16
  else if lock_time_period_s <? 937 then u32 (lock_time_period_s + 3096) / 32
  else 127.

Definition msm_lock_time_indicator (lock_time_period_s : Z) : Z :=
  if lock_time_period_s <? 32 then 0 else if lock_time_period_s <? 64 then 1 else if lock_time_period_s <? 128 then 2
  else if lock_time_period_s <? 256 then 3 else if lock_time_period_s <? 512 then 4 else if lock_time_period_s <? 1024 then 5
  else if lock_time_period_s <? 2048 then 6 else if lock_time_period_s <? 4096 then 7 else if lock_time_period_s <? 8192 then 8
  else if lock_time_period_s <? 16384 then 9 else if lock_time_period_s <? 32768 then 10 else if lock_time_period_s <? 65536 then 11
  else if lock_time_period_s <? 131072 then 12 else if lock_time_period_s <? 262144 then 13 else if lock_time_period_s <? 524288 then 14
  else 15.

(** One line of the table: [if (lo <= t && t < hi) return base + (t - lo) / step]. *)
Definition lock_row (t lo hi base step : Z) (rest : Z) : Z :=
  if (lo <=? t) && (t <? hi) then u32 (base + u32 (t - lo) / step) else rest.

Definition msm_extended_lock_time_indicator (t : Z) : Z :=
  if t <? 64 then t
  else lock_row t 64 128 64 2 (lock_row t 128 256 96 4 (lock_row t 256 512 128 8 (lock_row t 512 1024 160 16 (lock_row t 1024 2048 192 32
    (lock_row t 2048 4096 224 64 (lock_row t 4096 8192 256 128 (lock_row t 8192 16384 288 256 (lock_row t 16384 32768 320 512
    (lock_row t 32768 65536 352 1024 (lock_row t 65536 131072 384 2048 (lock_row t 131072 262144 416 4096 (lock_row t 262144 524288 448 8192
    (lock_row t 524288 1048576 480 16384 (lock_row t 1048576 2097152 512 32768 (lock_row t 2097152 4194304 544 65536
    (lock_row t 4194304 8388608 576 131072 (lock_row t 8388608 16777216 608 262144 (lock_row t 16777216 33554432 640 524288
    (lock_row t 33554432 67108864 672 1048576 (if 67108864 <=? t then 704 else 1023)))))))))))))))))))).

(** ** Observables *)

(** The members of [Gnss_Synchro] that the messages use. *)
Record Observable := { System : Ascii.ascii; Signal : string; obs_PRN : Z; Pseudorange_m : double }.

(** [sig_.substr(0, 2)] of the signal. *)
Definition sig (o : Observable) : string := String.substring 0 2 (Signal o).

Definition is_sys (o : Observable) (s : Ascii.ascii) : bool := bool_decide (System o = s).
Definition is_sig (o : Observable) (s : string) : bool := bool_decide (sig o = s).

Definition gps_signal_map : gmap string Z :=
  list_to_map [("1C", 2); ("1P", 3); ("1W", 4); ("2C", 8); ("2P", 9); ("2W", 10); ("2S", 15); ("2L", 16); ("2X", 17); ("5I", 22); ("5Q", 23);
    ("5X", 24); ("L5", 24)]%string.

Definition galileo_signal_map : gmap string Z :=
  list_to_map [("1C", 2); ("1A", 3); ("1B", 4); ("1X", 5); ("1Z", 6); ("6C", 8); ("6A", 9); ("6B", 10); ("6X", 11); ("6Z", 12); ("7I", 14); ("7Q", 15);
    ("7X", 16); ("8I", 18); ("8Q", 19); ("8X", 20); ("5I", 22); ("5Q", 23); ("5X", 24)]%string.

(** The value by which [has_lower_signalID] compares. *)
Definition signal_value (o : Observable) : option Z :=
  if is_sys o "G" then gps_signal_map !! sig o else if is_sys o "E" then galileo_signal_map !! sig o else Some 0.

(** ** Masks *)

(** [s.set(pos, true)] for a bit set of [N] bits. *)
Definition bit_set (N : nat) (s : list bool) (pos : Z) : option (list bool) :=
  if decide (0 <= pos < Z.of_nat N) then Some (<[Z.to_nat (Z.of_nat N - 1 - pos) := true]> s) else None.

(** [s.count()] *)
Definition count (s : list bool) : nat := length (filter (fun b => b = true) s).

(** The signals that the signal mask knows, and those that the cell mask knows. *)
Definition mask_395 (o : Observable) : option Z :=
  if is_sig o "1C" && is_sys o "G" then Some (32 - 2) else if is_sig o "2S" && is_sys o "G" then Some (32 - 15)
  else if is_sig o "5X" && is_sys o "G" then Some (32 - 24) else if is_sig o "1B" && is_sys o "E" then Some (32 - 4)
  else if is_sig o "5X" && is_sys o "E" then Some (32 - 24) else if is_sig o "7X" && is_sys o "E" then Some (32 - 16)
  else if is_sig o "1C" && is_sys o "R" then Some (32 - 2) else if is_sig o "2C" && is_sys o "R" then Some (32 - 8) else None.

Definition mask_396 (o : Observable) : option Z :=
  if is_sig o "1C" && is_sys o "G" then Some (32 - 2) else if is_sig o "2S" && is_sys o "G" then Some (32 - 15)
  else if is_sig o "5X" && is_sys o "G" then Some (32 - 24) else if is_sig o "1B" && is_sys o "E" then Some (32 - 4)
  else if is_sig o "5X" && is_sys o "E" then Some (32 - 24) else if is_sig o "7X" && is_sys o "E" then Some (32 - 16) else None.

Abbreviation observables := (list (Z * Observable)).

Fixpoint set_DF394_loop (l : observables) (df : list bool) : option (list bool) :=
  match l with
  | [] => Some df
  | (_, o) :: l' => df ← bit_set 64 df (u32 (64 - obs_PRN o)); set_DF394_loop l' df
  end.
Definition set_DF394 (gnss_synchro : observables) : option (list bool) := set_DF394_loop gnss_synchro (replicate 64 false).

Fixpoint set_DF395_loop (l : observables) (df : list bool) : option (list bool) :=
  match l with
  | [] => Some df
  | (_, o) :: l' => df ← (match mask_395 o with Some pos => bit_set 32 df pos | None => Some df end); set_DF395_loop l' df
  end.
Definition set_DF395 (gnss_synchro : observables) : option (list bool) := set_DF395_loop gnss_synchro (replicate 32 false).

(** [std::unique] and [erase]: of equal neighbours the first stays. *)
Fixpoint unique (l : list Z) : list Z :=
  match l with
  | x :: l' => x :: match l' with y :: _ => if x =? y then drop 1 (unique l') else unique l' | [] => [] end
  | [] => []
  end.

(** ** Data fields *)

Definition set_DF004 (obs_time : double) : option (list bool) :=
  tow ← to_u64 (dbl_round (dbl_mul obs_time (dbl_of_Z 1000)));
  Some (bitset 30 (if 604799999 <? tow then 604799999 else tow)).
Definition set_DF034 (obs_time : double) : option (list bool) :=
  tk ← to_u64 (dbl_round (dbl_mul obs_time (dbl_of_Z 1000)));
  Some (bitset 27 (if 86400999 <? tk then 86400999 else tk)).
Definition set_DF393 (more_messages : bool) : list bool := [more_messages].
Definition set_DF409 (iods : Z) : list bool := bitset 3 iods.
Definition set_DF411 (clock_steering_indicator : Z) : list bool := bitset 2 clock_steering_indicator.
Definition set_DF412 (external_clock_indicator : Z) : list bool := bitset 2 external_clock_indicator.
Definition set_DF417 (using_divergence_free_smoothing : bool) : list bool := [using_divergence_free_smoothing].
Definition set_DF418 (carrier_smoothing_interval_s : Z) : list bool :=
  if carrier_smoothing_interval_s <? 0 then [true; true; true]
  else if carrier_smoothing_interval_s =? 0 then [false; false; false]
  else if carrier_smoothing_interval_s <? 30 then [false; false; true]
  else if carrier_smoothing_interval_s <? 60 then [false; true; false]
  else if carrier_smoothing_interval_s <? 120 then [false; true; true]
  else if carrier_smoothing_interval_s <? 240 then [true; false; false]
  else if carrier_smoothing_interval_s <? 480 then [true; false; true]
  else [true; true; false].

Definition SPEED_OF_LIGHT_M_S : double := lit 299792458 0.
Definition meters_to_miliseconds : double := dbl_mul SPEED_OF_LIGHT_M_S (lit 1 3).

(** The rough range: the pseudorange rounded to 1/1024 of a light millisecond, in metres. *)
Definition rough_range (o : Observable) : double :=
  dbl_mul (dbl_mul (dbl_round (dbl_div (dbl_div (Pseudorange_m o) meters_to_miliseconds) TWO_N10)) meters_to_miliseconds) TWO_N10.

(** [std::lround(rough_range / meters_to_miliseconds / TWO_N10)] *)
Definition rough_steps (o : Observable) : option Z :=
  to_i64 (dbl_round (dbl_div (dbl_div (rough_range o) meters_to_miliseconds) TWO_N10)).

Definition max_range : double := dbl_mul meters_to_miliseconds (dbl_of_Z 255).

Definition set_DF397 (o : Observable) : option (list bool) :=
  let rough_range_s := rough_range o in
  int_ms ← (if SFeqb rough_range_s dbl_zero || (lt0 rough_range_s || SFltb max_range rough_range_s) then Some 255
            else n ← rough_steps o; Some (Z.shiftr (u32 n) 10));
  Some (bitset 8 int_ms).

Definition set_DF398 (o : Observable) : option (list bool) :=
  let rough_range_m := rough_range o in
  rr_mod_ms ← (if SFleb rough_range_m dbl_zero || SFltb max_range rough_range_m then Some 0
               else n ← rough_steps o; Some (Z.land (u32 n) 0x3FF));
  Some (bitset 10 rr_mod_ms).

(** The fine pseudorange with 15 or 20 bits. *)
Definition fine_range (cast : double -> option Z) (N : nat) (invalid : Z) (LSB : double) (o : Observable) : option (list bool) :=
  let psrng_s := dbl_sub (Pseudorange_m o) (rough_range o) in
  fine ← (if SFeqb psrng_s dbl_zero || SFltb (lit 2927 1) (dbl_abs psrng_s) then Some invalid
          else cast (dbl_round (dbl_div (dbl_div psrng_s meters_to_miliseconds) LSB)));
  Some (bitset N fine).
Definition set_DF400 : Observable -> option (list bool) := fine_range to_i32 15 (-16384) TWO_N24.
Definition set_DF405 : Observable -> option (list bool) := fine_range to_i64 20 (-524288) TWO_N29.

Section Msm.
(** [std::sort] with a comparison. *)
Context (sort : forall A : Type, (A -> A -> bool) -> list A -> list A).

(** The value of a cell; [at] may throw. *)
Fixpoint mask_value (list_of_signals list_of_sats : list Z) (row sat : nat) (l : observables) : option bool :=
  match l with
  | [] => Some false
  | (_, o) :: l' =>
      here ← (match mask_396 o with
        | Some pos => s ← list_of_signals !! row; if s =? pos then p ← list_of_sats !! sat; Some (obs_PRN o =? p) else Some false
        | None => Some false
        end);
      rest ← mask_value list_of_signals list_of_sats row sat l';
      Some (here || rest)
  end.

(** The matrix, written column by column. *)
Definition set_DF396 (obs : observables) : option (list bool) :=
  df394 ← set_DF394 obs; df395 ← set_DF395 obs;
  let num_signals := count df395 in
  let num_satellites := count df394 in
  if (num_signals =? 0)%nat || (num_satellites =? 0)%nat then Some []
  else
    let list_of_sats := unique (sort Z Z.ltb ((fun p : Z * Observable => obs_PRN p.2) <$> obs)) in
    let list_of_signals := unique (reverse (sort Z Z.ltb (omap (fun p : Z * Observable => mask_396 p.2) obs))) in
    mjoin <$> mapM (fun col => mapM (fun row => mask_value list_of_signals list_of_sats row col obs) (seq 0 num_signals)) (seq 0 num_satellites).

Definition sort_by_PRN_mask (l : observables) : observables :=
  reverse (sort _ (fun a b : Z * Observable => u32 (64 - obs_PRN a.2) <? u32 (64 - obs_PRN b.2)) l).

(** With two elements or more, each is compared and its signal looked up. *)
Definition sort_by_signal (l : observables) : option observables :=
  let value (p : Z * Observable) := default 0 (signal_value p.2) in
  if (2 <=? length l)%nat && bool_decide (Exists (fun p : Z * Observable => signal_value p.2 = None) l) then None
  else Some (sort _ (fun a b => value a <? value b) l).

(** ** Messages *)

(** The observables with the first of each satellite. *)
Fixpoint first_of_sats (pos : list Z) (l : observables) : observables :=
  match l with
  | [] => []
  | p :: l' =>
      let q := u32 (65 - obs_PRN p.2) in
      if bool_decide (q ∈ pos) then first_of_sats pos l' else p :: first_of_sats (pos ++ [q]) l'
  end.

(** [const std::string sys(System, 1)] with a [char]: as many characters of code 1 as the code
    of the letter. *)
Definition sys_string (o : Observable) : string := String.concat "" (replicate (Ascii.nat_of_ascii (System o)) (String "001" "")).

Definition get_MSM_header (msg_number : Z) (obs_time : double) (obs : observables) (ref_id clock_steering_indicator external_clock_indicator smooth_int : Z)
  (divergence_free more_messages : bool) : option (list bool) :=
  first ← head obs;
  df394 ← set_DF394 obs; df395 ← set_DF395 obs;
  epoch ← (if bool_decide (sys_string first.2 = "R"%string) then set_DF034 obs_time else set_DF004 obs_time);
  df396 ← set_DF396 obs;
  Some (set_DF002 msg_number ++ set_DF003 ref_id ++ epoch ++ set_DF393 more_messages ++ set_DF409 0 ++ replicate 7 false ++ set_DF411 clock_steering_indicator ++
    set_DF417 divergence_free ++ set_DF412 external_clock_indicator ++ set_DF418 smooth_int ++ df394 ++ df395 ++ df396).

(** The loops over the satellites and over the cells: [v.at(k)] for the first [n] numbers. *)
Definition sat_loop (n : nat) (v : observables) (field : Observable -> option (list bool)) : option (list bool) :=
  mjoin <$> mapM (fun k => p ← v !! k; field p.2) (seq 0 n).

Definition get_MSM_1_content_sat_data (obs : observables) : option (list bool) :=
  df394 ← set_DF394 obs;
  sat_loop (count df394) (sort_by_PRN_mask (first_of_sats [] obs)) set_DF398.

Definition get_MSM_4_content_sat_data (obs : observables) : option (list bool) :=
  df394 ← set_DF394 obs;
  let v := sort_by_PRN_mask (first_of_sats [] obs) in
  first_data ← sat_loop (count df394) v set_DF397; second_data ← sat_loop (count df394) v set_DF398;
  Some (first_data ++ second_data).

(** The order of the cells in the signal data. *)
Definition ordered_cells (obs : observables) : option observables :=
  ordered_by_signal ← sort_by_signal obs; Some (sort_by_PRN_mask (reverse ordered_by_signal)).

Definition get_MSM_1_content_signal_data (obs : observables) : option (list bool) :=
  v ← ordered_cells obs; sat_loop (length obs) v set_DF400.

(** The number of the message by the numbers of the satellites of the four ephemerides. *)
Definition MSM_1_number (gps cnav glo gal : Z) : Z :=
  if negb (gal =? 0) then 1091 else if negb (glo =? 0) then 1081 else 1071.

Definition print_MSM_1 (crc : list Z -> Z) (gps cnav gal glo : Z) (obs_time : double) (obs : observables)
  (ref_id clock_steering_indicator external_clock_indicator smooth_int : Z) (divergence_free more_messages : bool) (st : Rtcm) : option (list Z * Rtcm) :=
  header ← get_MSM_header (MSM_1_number gps cnav glo gal) obs_time obs ref_id clock_steering_indicator external_clock_indicator smooth_int divergence_free
    more_messages;
  sat_data ← get_MSM_1_content_sat_data obs; signal_data ← get_MSM_1_content_signal_data obs;
  msg ← build_message crc (header ++ sat_data ++ signal_data); Some (msg, enqueue msg st).
End Msm.
