(* ===== verification/RtcmMsmProps.v ===== *)
(** * RTCM multiple signal messages: the masks and the order of the data

    A receiver of a multiple signal message finds the satellite and the signal of a piece of
    data by its place: the satellites are those of the mask DF394, the signals those of DF395,
    and the cells those of DF396, satellite by satellite. [ones] and [masked] read the masks
    that way. *)
From S2P Require Import Prelude GnssSignal Doubles DoublesErr NavBits GpsNav Rtcm RtcmProps RtcmMsm.
From stdpp Require Import gmap strings sorting.
From Stdlib Require Import SpecFloat Ascii.

#[local] Open Scope Z_scope.

(** ** Sorting *)

(** What the standard promises of [std::sort] with a comparison by a number. *)
Class StdSort (sort : forall A : Type, (A -> A -> bool) -> list A -> list A) : Prop := {
  sort_perm A lt l : sort A lt l ≡ₚ l;
  sort_keys A (f : A -> Z) l : StronglySorted (fun a b => f a <= f b) (sort A (fun a b => f a <? f b) l) }.

(** What it does not promise: equal elements keep their order. *)
Class StableSort (sort : forall A : Type, (A -> A -> bool) -> list A -> list A) : Prop := {
  stable_std :: StdSort sort;
  sort_stable A (f : A -> Z) l k : filter (fun a => f a = k) (sort A (fun a b => f a <? f b) l) = filter (fun a => f a = k) l }.

Section Lists.
Context {A : Type}.

Lemma strongly_sorted_impl (R S : relation A) l : (forall a b, a ∈ l -> b ∈ l -> R a b -> S a b) -> StronglySorted R l -> StronglySorted S l.
Proof.
  intros H Hl. induction Hl as [|x l Hl IH Hx]; constructor.
  - apply IH. intros a b Ha Hb. apply H; by right.
  - rewrite Forall_forall in *. intros y Hy. apply H; [by left|by right|by apply Hx].
Qed.

Lemma strongly_sorted_reverse (R : relation A) l : StronglySorted R l -> StronglySorted (flip R) (reverse l).
Proof.
  induction 1 as [|x l Hl IH Hx]; [constructor|]. rewrite reverse_cons, StronglySorted_app. split; [|split; [done|repeat constructor]].
  intros a b Ha Hb. apply list_elem_of_singleton in Hb as ->. rewrite elem_of_reverse in Ha. rewrite Forall_forall in Hx. by apply Hx.
Qed.

Lemma strongly_sorted_filter (R : relation A) (P : A -> Prop) `{!forall x, Decision (P x)} l : StronglySorted R l -> StronglySorted R (filter P l).
Proof.
  induction 1 as [|x l Hl IH Hx]; [constructor|]. rewrite filter_cons. destruct (decide (P x)); [|done]. constructor; [done|].
  rewrite Forall_forall in *. intros y [_ Hy]%list_elem_of_filter. by apply Hx.
Qed.

(** A strict order leaves one list for a set of elements. *)
Lemma strict_sorted_ext (R : relation A) l k : Irreflexive R -> Transitive R -> StronglySorted R l -> StronglySorted R k -> (forall x, x ∈ l <-> x ∈ k) -> l = k.
Proof.
  intros Hi Ht Hl Hk He. assert (forall l, StronglySorted R l -> NoDup l) as Hn.
  { clear -Hi. induction 1 as [|x l Hl IH Hx]; constructor; [|done]. intros Hin. rewrite Forall_forall in Hx. by apply (Hi x), Hx. }
  apply (StronglySorted_unique_strong R); [|done|done|apply NoDup_Permutation; [by apply Hn..|done]].
  intros a b _ _ H1 H2. exfalso. by apply (Hi a), (Ht a b a).
Qed.

(** Sorted by a number, and for each value of it sorted by another relation. *)
Lemma sorted_lex (R : relation A) (f : A -> Z) l : StronglySorted (fun a b => f a <= f b) l -> (forall k, StronglySorted R (filter (fun a => f a = k) l)) ->
  StronglySorted (fun a b => f a < f b \/ f a = f b /\ R a b) l.
Proof.
  induction 1 as [|x l Hl IH Hx]; intros Hk; constructor.
  - apply IH. intros k. specialize (Hk k). rewrite filter_cons in Hk. destruct (decide (f x = k)); [by inversion Hk|done].
  - rewrite Forall_forall in *. intros y Hy. destruct (decide (f x = f y)) as [He|He]; [|left; specialize (Hx y Hy); lia]. right. split; [done|].
    specialize (Hk (f x)). rewrite filter_cons, decide_True in Hk by done. apply StronglySorted_cons in Hk as [Hk _]. rewrite Forall_forall in Hk.
    apply Hk, list_elem_of_filter. done.
Qed.
End Lists.

Definition lex (a b : Z * Z) : Prop := a.1 < b.1 \/ a.1 = b.1 /\ a.2 < b.2.

#[export] Instance lex_irreflexive : Irreflexive lex.
Proof. intros [x y] [H|[_ H]]; cbn in H; lia. Qed.
#[export] Instance lex_transitive : Transitive lex.
Proof. intros [a b] [c d] [e f]. unfold lex. cbn. lia. Qed.

Lemma strongly_sorted_keys {A} (f : A -> Z * Z) (R : relation A) l : StronglySorted R l -> NoDup (f <$> l) ->
  (forall a b, a ∈ l -> b ∈ l -> R a b -> f a <> f b -> lex (f a) (f b)) -> StronglySorted lex (f <$> l).
Proof.
  induction 1 as [|x l Hl IH Hx]; [constructor|]. rewrite fmap_cons. intros [Hn Hnd]%NoDup_cons H. constructor.
  - apply IH; [done|]. intros a b Ha Hb. apply H; by right.
  - rewrite Forall_fmap, Forall_forall in *. intros y Hy. apply H; [by left|by right|by apply Hx|]. intros He. apply Hn. rewrite He. by apply list_elem_of_fmap_2.
Qed.

(** ** Reading the masks *)

(** The numbers of the bits that are set, from [k] on. *)
Fixpoint ones (k : Z) (s : list bool) : list Z :=
  match s with
  | [] => []
  | b :: s' => (if b then [k] else []) ++ ones (k + 1) s'
  end.

(** The elements whose bit is set. *)
Definition masked {A} (l : list A) (m : list bool) : list A := fst <$> filter (fun p : A * bool => p.2 = true) (zip l m).

Definition pairs (sats sigs : list Z) : list (Z * Z) := sats ≫= fun s => pair s <$> sigs.

Lemma elem_of_ones x : forall s k, x ∈ ones k s <-> k <= x /\ s !! Z.to_nat (x - k) = Some true.
Proof.
  induction s as [|b s IH]; intros k; cbn [ones]; [rewrite lookup_nil, elem_of_nil; naive_solver|].
  rewrite elem_of_app, IH. destruct (decide (x = k)) as [->|Hn].
  - rewrite Z.sub_diag. cbn. split; [intros [H|H]; [destruct b; [done|by apply elem_of_nil in H]|lia]|]. intros [_ [= ->]]. left. by left.
  - assert (x ∈ (if b then [k] else []) <-> False) as -> by (destruct b; [rewrite list_elem_of_singleton; naive_solver|by rewrite elem_of_nil]).
    split; [intros [[]|[H1 H2]]|intros [H1 H2]; right]; (split; [lia|]).
    + replace (Z.to_nat (x - k)) with (S (Z.to_nat (x - (k + 1)))) by lia. done.
    + by replace (Z.to_nat (x - k)) with (S (Z.to_nat (x - (k + 1)))) in H2 by lia.
Qed.

Lemma ones_sorted : forall s k, StronglySorted Z.lt (ones k s).
Proof.
  induction s as [|b s IH]; intros k; cbn [ones]; [constructor|]. destruct b; cbn [app]; [|done]. constructor; [done|].
  rewrite Forall_forall. intros x Hx%elem_of_ones. lia.
Qed.

Lemma ones_count : forall s k, length (ones k s) = count s.
Proof.
  unfold count. induction s as [|b s IH]; intros k; [done|]. cbn [ones]. rewrite length_app, IH, filter_cons. by destruct b.
Qed.

Lemma pairs_sorted sats sigs : StronglySorted Z.lt sats -> StronglySorted Z.lt sigs -> StronglySorted lex (pairs sats sigs).
Proof.
  intros Hs Hg. unfold pairs. induction Hs as [|x l Hl IH Hx]; [constructor|]. rewrite mbind_cons, StronglySorted_app. split; [|split; [|done]].
  - intros a b (g & -> & Hga)%list_elem_of_fmap (s & (g' & -> & _)%list_elem_of_fmap & Hb)%list_elem_of_bind. left. cbn. rewrite Forall_forall in Hx. by apply Hx.
  - clear -Hg. induction Hg as [|y l Hl IH Hy]; [constructor|]. rewrite fmap_cons. constructor; [done|]. rewrite Forall_fmap. eapply Forall_impl; [exact Hy|]. intros z Hz. right. done.
Qed.

Lemma elem_of_pairs sats sigs s g : (s, g) ∈ pairs sats sigs <-> s ∈ sats /\ g ∈ sigs.
Proof.
  unfold pairs. rewrite list_elem_of_bind. split.
  - intros (s' & (g' & [= -> ->] & Hg)%list_elem_of_fmap & Hs). done.
  - intros [Hs Hg]. exists s. split; [|done]. apply list_elem_of_fmap. by exists g.
Qed.

Lemma masked_fmap {A} (f : A -> bool) l : masked l (f <$> l) = filter (fun x => f x = true) l.
Proof.
  unfold masked. induction l as [|x l IH]; [done|]. rewrite fmap_cons. cbn [zip zip_with]. rewrite !filter_cons. cbn [snd].
  destruct (decide (f x = true)); [|done]. rewrite fmap_cons. by f_equal.
Qed.

(** ** What the masks say *)

Definition prn_of (p : Z * Observable) : Z := obs_PRN p.2.

Definition prn_ok (obs : observables) : Prop := Forall (fun p => 1 <= prn_of p <= 64) obs.

Lemma bit_set_spec N s pos : length s = N -> 0 <= pos < Z.of_nat N -> exists s', bit_set N s pos = Some s' /\ length s' = N /\
  forall i, s' !! i = Some true <-> s !! i = Some true \/ i = Z.to_nat (Z.of_nat N - 1 - pos).
Proof.
  intros Hl Hp. unfold bit_set. rewrite decide_True by done. eexists. split; [reflexivity|]. rewrite length_insert. split; [done|]. intros i.
  destruct (decide (i = Z.to_nat (Z.of_nat N - 1 - pos))) as [->|Hn].
  - rewrite list_lookup_insert_eq by lia. naive_solver.
  - rewrite list_lookup_insert_ne by done. naive_solver.
Qed.

Lemma set_DF394_spec obs : prn_ok obs -> forall df, length df = 64%nat -> exists df', set_DF394_loop obs df = Some df' /\ length df' = 64%nat /\
  forall i, df' !! i = Some true <-> df !! i = Some true \/ exists p, p ∈ obs /\ Z.to_nat (prn_of p - 1) = i.
Proof.
  induction 1 as [|[c o] obs Ho Hobs IH]; intros df Hl; cbn [set_DF394_loop].
  - exists df. split; [done|]. split; [done|]. intros i. split; [by left|intros [H|(p & H & _)]; [done|by apply elem_of_nil in H]].
  - unfold prn_of in Ho. cbn [snd] in Ho. rewrite uwrap_small by lia.
    destruct (bit_set_spec 64 df (64 - obs_PRN o) Hl ltac:(lia)) as (df1 & -> & Hl1 & H1). cbn [mbind option_bind].
    destruct (IH df1 Hl1) as (df2 & -> & Hl2 & H2). exists df2. split; [done|]. split; [done|]. intros i. rewrite H2, H1.
    replace (Z.to_nat (Z.of_nat 64 - 1 - (64 - obs_PRN o))) with (Z.to_nat (obs_PRN o - 1)) by lia. split.
    + intros [[H| ->]|(p & Hp & He)]; [by left|right; exists (c, o); split; [by left|done]|right; exists p; split; [by right|done]].
    + intros [H|(p & [->|Hp]%elem_of_cons & He)]; [by left; left|left; right; by rewrite <- He|right; by exists p].
Qed.

Lemma sats_of_mask obs : prn_ok obs -> exists df, set_DF394 obs = Some df /\ length df = 64%nat /\ forall x, x ∈ ones 1 df <-> x ∈ prn_of <$> obs.
Proof.
  intros Ho. destruct (set_DF394_spec obs Ho (replicate 64 false) eq_refl) as (df & Hd & Hl & H). exists df. split; [done|]. split; [done|]. intros x.
  rewrite elem_of_ones, H, lookup_replicate, list_elem_of_fmap. unfold prn_ok in Ho. rewrite Forall_forall in Ho. split.
  - intros [Hx [[[=] _]|(p & Hp & He)]]. exists p. split; [|done]. specialize (Ho p Hp). cbv beta in Ho. lia.
  - intros (p & -> & Hp). specialize (Ho p Hp). cbv beta in Ho. split; [lia|]. right. exists p. done.
Qed.

(** A signal that both masks know. *)
Definition sig_ok (obs : observables) : Prop := Forall (fun p : Z * Observable => is_Some (mask_396 p.2)) obs.

Lemma mask_395_396 o pos : mask_396 o = Some pos -> mask_395 o = Some pos /\ 0 <= pos < 32 /\ signal_value o = Some (32 - pos).
Proof.
  unfold mask_395, mask_396, signal_value, is_sig, is_sys.
  repeat case_bool_decide; cbn [andb]; try done; intros [= <-]; (split; [done|]); (split; [lia|]); try congruence;
    match goal with H : sig o = _ |- _ => rewrite H end; vm_compute; reflexivity.
Qed.

Definition pos_of (p : Z * Observable) : Z := default 0 (mask_396 p.2).

Lemma pos_of_ok obs p : sig_ok obs -> p ∈ obs -> mask_396 p.2 = Some (pos_of p) /\ 0 <= pos_of p < 32 /\ signal_value p.2 = Some (32 - pos_of p).
Proof.
  intros Ho Hp. unfold sig_ok in Ho. rewrite Forall_forall in Ho. destruct (Ho p Hp) as [pos Hpos]. unfold pos_of. rewrite Hpos. cbn.
  by destruct (mask_395_396 _ _ Hpos) as (_ & H1 & H2).
Qed.

Lemma set_DF395_spec obs : sig_ok obs -> forall df, length df = 32%nat -> exists df', set_DF395_loop obs df = Some df' /\ length df' = 32%nat /\
  forall i, df' !! i = Some true <-> df !! i = Some true \/ exists p, p ∈ obs /\ Z.to_nat (31 - pos_of p) = i.
Proof.
  induction 1 as [|[c o] obs [pos Ho] Hobs IH]; intros df Hl; cbn [set_DF395_loop].
  - exists df. split; [done|]. split; [done|]. intros i. split; [by left|intros [H|(p & H & _)]; [done|by apply elem_of_nil in H]].
  - cbn [snd] in Ho. destruct (mask_395_396 _ _ Ho) as (H5 & Hr & _). rewrite H5.
    destruct (bit_set_spec 32 df pos Hl ltac:(lia)) as (df1 & -> & Hl1 & H1). cbn [mbind option_bind].
    destruct (IH df1 Hl1) as (df2 & -> & Hl2 & H2). exists df2. split; [done|]. split; [done|]. intros i. rewrite H2, H1.
    replace (Z.of_nat 32 - 1 - pos) with (31 - pos_of (c, o)) by (unfold pos_of; cbn [snd]; rewrite Ho; cbn; lia). split.
    + intros [[H| ->]|(p & Hp & He)]; [by left|right; exists (c, o); split; [by left|done]|right; exists p; split; [by right|done]].
    + intros [H|(p & [->|Hp]%elem_of_cons & He)]; [by left; left|left; right; by rewrite <- He|right; by exists p].
Qed.

Definition sid_of (p : Z * Observable) : Z := 32 - pos_of p.

Lemma sigs_of_mask obs : sig_ok obs -> exists df, set_DF395 obs = Some df /\ length df = 32%nat /\ forall x, x ∈ ones 1 df <-> x ∈ sid_of <$> obs.
Proof.
  intros Ho. destruct (set_DF395_spec obs Ho (replicate 32 false) eq_refl) as (df & Hd & Hl & H). exists df. split; [done|]. split; [done|]. intros x.
  rewrite elem_of_ones, H, lookup_replicate, list_elem_of_fmap. split.
  - intros [Hx [[[=] _]|(p & Hp & He)]]. exists p. split; [|done]. destruct (pos_of_ok obs p Ho Hp) as (_ & Hr & _). unfold sid_of. lia.
  - intros (p & -> & Hp). destruct (pos_of_ok obs p Ho Hp) as (_ & Hr & _). unfold sid_of. split; [lia|]. right. exists p. split; [done|]. lia.
Qed.

Lemma unique_cons2 x y l : unique (x :: y :: l) = if x =? y then unique (y :: l) else x :: unique (y :: l).
Proof. destruct (Z.eqb_spec x y) as [->|Hn]; cbn [unique]; [rewrite Z.eqb_refl|rewrite (proj2 (Z.eqb_neq _ _) Hn)]; done. Qed.

Lemma unique_spec (R : relation Z) `{!AntiSymm (=) R} l : StronglySorted R l ->
  StronglySorted (fun a b => R a b /\ a <> b) (unique l) /\ forall x, x ∈ unique l <-> x ∈ l.
Proof.
  induction 1 as [|x l Hl IH Hx]; [split; [constructor|done]|]. destruct IH as [IHs IHe]. destruct l as [|y l]; [split; [repeat constructor|done]|].
  rewrite unique_cons2. apply StronglySorted_cons in Hl as [Hy Hl]. destruct (Z.eqb_spec x y) as [->|Hn].
  - split; [done|]. intros z. rewrite IHe, !elem_of_cons. naive_solver.
  - split; [|intros z; by rewrite !elem_of_cons, IHe, !elem_of_cons]. constructor; [done|]. rewrite Forall_forall in *. intros z Hz%IHe. split; [by apply Hx|].
    intros <-. apply elem_of_cons in Hz as [?|Hz]; [done|]. apply Hn, (anti_symm R); [apply Hx; by left|by apply Hy].
Qed.

(** ** The cells *)

(** The satellite and the signal of an observable. *)
Definition key (p : Z * Observable) : Z * Z := (prn_of p, sid_of p).

Lemma mapM_seq {A B} (f : nat -> option B) (g : A -> B) (l : list A) : (forall i x, l !! i = Some x -> f i = Some (g x)) ->
  mapM f (seq 0 (length l)) = Some (g <$> l).
Proof.
  intros H. apply mapM_Some_2, Forall2_same_length_lookup_2; [by rewrite length_seq, length_fmap|].
  intros i x y Hx%lookup_seq Hy. destruct Hx as [-> Hi]. rewrite list_lookup_fmap in Hy. destruct (l !! i) as [a|] eqn:E; [|done]. cbn in Hy. simplify_eq.
  by apply H.
Qed.

Lemma mapM_const {B} n (b : B) (f : nat -> option B) k : (forall i, f i = Some b) -> mapM f (seq k n) = Some (replicate n b).
Proof. intros H. revert k. induction n as [|n IH]; intros k; [done|]. cbn. rewrite H. cbn. by rewrite IH. Qed.

Definition has (s g : Z) (p : Z * Observable) : bool := bool_decide (mask_396 p.2 = Some (32 - g)) && (prn_of p =? s).

Lemma mask_value_spec lsig lsat row col obs pos s : lsig !! row = Some pos -> lsat !! col = Some s ->
  mask_value lsig lsat row col obs = Some (existsb (has s (32 - pos)) obs).
Proof.
  intros Hr Hc. induction obs as [|[c o] obs IH]; [done|]. cbn [mask_value existsb]. rewrite IH, Hr, Hc. cbn [mbind option_bind].
  unfold has at 2. cbn [snd]. replace (32 - (32 - pos)) with pos by lia. unfold prn_of. cbn [snd]. destruct (mask_396 o) as [p|]; [|done].
  destruct (Z.eqb_spec pos p) as [<-|Hn]; cbn [mbind option_bind]; [by rewrite bool_decide_eq_true_2|rewrite bool_decide_eq_false_2 by congruence; done].
Qed.

Lemma has_key obs s g : sig_ok obs -> existsb (has s g) obs = true <-> (s, g) ∈ key <$> obs.
Proof.
  intros Ho. rewrite existsb_exists, list_elem_of_fmap. split.
  - intros (p & Hp%list_elem_of_In & [H1 H2]%andb_true_iff). apply bool_decide_eq_true in H1. exists p. split; [|done].
    unfold key, sid_of, pos_of. rewrite H1. cbn. f_equal; lia.
  - intros (p & [= -> ->] & Hp). exists p. split; [by apply list_elem_of_In|]. unfold has. destruct (pos_of_ok obs p Ho Hp) as (-> & _ & _).
    rewrite bool_decide_eq_true_2, Z.eqb_refl; [done|]. unfold sid_of. f_equal. lia.
Qed.

Section Cells.
Context (sort : forall A : Type, (A -> A -> bool) -> list A -> list A).

Lemma sats_list `{!StdSort sort} obs df : (forall x, x ∈ ones 1 df <-> x ∈ prn_of <$> obs) ->
  unique (sort Z Z.ltb ((fun p : Z * Observable => obs_PRN p.2) <$> obs)) = ones 1 df.
Proof.
  intros He. pose proof (sort_keys Z (fun x => x) (prn_of <$> obs)) as Hs. cbv beta in Hs.
  destruct (unique_spec Z.le _ Hs) as [Hu Hm]. apply (strict_sorted_ext Z.lt); [apply _..| |apply ones_sorted|].
  - eapply strongly_sorted_impl; [|exact Hu]. cbn. lia.
  - intros x. rewrite He. etransitivity; [apply Hm|]. by rewrite (sort_perm Z).
Qed.

#[local] Instance ge_antisymm : AntiSymm (=) (flip Z.le).
Proof. intros x y. cbn. lia. Qed.

Lemma sigs_list `{!StdSort sort} obs df : sig_ok obs -> (forall x, x ∈ ones 1 df <-> x ∈ sid_of <$> obs) ->
  (fun pos => 32 - pos) <$> unique (reverse (sort Z Z.ltb (omap (fun p : Z * Observable => mask_396 p.2) obs))) = ones 1 df.
Proof.
  intros Ho He. set (l := omap (fun p : Z * Observable => mask_396 p.2) obs). pose proof (sort_keys Z (fun x => x) l) as Hs. cbv beta in Hs.
  apply strongly_sorted_reverse in Hs. destruct (unique_spec (flip Z.le) _ Hs) as [Hu Hm].
  apply (strict_sorted_ext Z.lt); [apply _..| |apply ones_sorted|].
  - apply (StronglySorted_fmap _ (fun a b => b < a)); [cbn; intros; lia|]. eapply strongly_sorted_impl; [|exact Hu]. cbn. lia.
  - assert (forall x, x ∈ l <-> x ∈ pos_of <$> obs) as Hl.
    { intros x. unfold l. rewrite list_elem_of_omap, list_elem_of_fmap. split; intros (p & H1 & H2).
      - destruct (pos_of_ok obs p Ho H1) as (H & _). exists p. split; [congruence|done].
      - destruct (pos_of_ok obs p Ho H2) as (H & _). exists p. split; [done|congruence]. }
    intros x. rewrite He, !list_elem_of_fmap. split.
    + intros (y & -> & Hy). apply Hm in Hy. rewrite elem_of_reverse, (sort_perm Z), Hl, list_elem_of_fmap in Hy. destruct Hy as (p & -> & Hp). by exists p.
    + intros (p & -> & Hp). exists (pos_of p). split; [done|]. apply Hm. rewrite elem_of_reverse, (sort_perm Z), Hl, list_elem_of_fmap. by exists p.
Qed.

(** The cell mask has the bit of each pair of a satellite and a signal that is observed. *)
Lemma set_DF396_spec `{!StdSort sort} obs df394 df395 : sig_ok obs -> set_DF394 obs = Some df394 -> set_DF395 obs = Some df395 ->
  (forall x, x ∈ ones 1 df394 <-> x ∈ prn_of <$> obs) -> (forall x, x ∈ ones 1 df395 <-> x ∈ sid_of <$> obs) ->
  set_DF396 sort obs = Some ((fun c : Z * Z => existsb (has c.1 c.2) obs) <$> pairs (ones 1 df394) (ones 1 df395)).
Proof.
  intros Ho H4 H5 E4 E5. unfold set_DF396. rewrite H4, H5. cbn [mbind option_bind].
  pose proof (sats_list obs df394 E4) as Hsat. pose proof (sigs_list obs df395 Ho E5) as Hsig. rewrite Hsat.
  set (lsig := unique (reverse _)) in *. rewrite <- (ones_count df394 1), <- (ones_count df395 1), <- Hsig, length_fmap.
  destruct ((length lsig =? 0)%nat || (length (ones 1 df394) =? 0)%nat) eqn:E.
  - unfold pairs. apply orb_true_iff in E as [E%Nat.eqb_eq%nil_length_inv|E%Nat.eqb_eq%nil_length_inv]; rewrite E; cbn; [|done].
    clear. induction (ones 1 df394) as [|x l IH]; [done|]. exact IH.
  - rewrite (mapM_seq _ (fun s => (fun pos => existsb (has s (32 - pos)) obs) <$> lsig) (ones 1 df394)).
    + cbn [fmap option_fmap option_map]. f_equal. unfold pairs. clear. induction (ones 1 df394) as [|x l IH]; [done|].
      rewrite fmap_cons, mbind_cons, fmap_app, <- IH, <- !list_fmap_compose. done.
    + intros col x Hx. apply mapM_seq. intros row pos Hp. by apply mask_value_spec.
Qed.

(** ** The order of the data *)

Lemma same_prn_order l : prn_ok l -> StronglySorted (fun a b => u32 (64 - prn_of a) <= u32 (64 - prn_of b)) l -> StronglySorted (fun a b => prn_of b <= prn_of a) l.
Proof.
  intros Ho. apply strongly_sorted_impl. intros a b Ha Hb. unfold prn_ok in Ho. rewrite Forall_forall in Ho. pose proof (Ho a Ha). pose proof (Ho b Hb).
  cbv beta in *. rewrite !uwrap_small by lia. lia.
Qed.

Lemma prn_ok_perm l k : l ≡ₚ k -> prn_ok l -> prn_ok k.
Proof. unfold prn_ok. by intros ->. Qed.

(** By satellite, with any sort. *)
Lemma sort_by_PRN_sorted `{!StdSort sort} l : prn_ok l -> sort_by_PRN_mask sort l ≡ₚ l /\ StronglySorted (fun a b => prn_of a <= prn_of b) (sort_by_PRN_mask sort l).
Proof.
  intros Ho. unfold sort_by_PRN_mask. split; [rewrite reverse_Permutation; apply sort_perm|].
  pose proof (sort_keys _ (fun p : Z * Observable => u32 (64 - prn_of p)) l) as Hs. apply same_prn_order in Hs; [|eapply prn_ok_perm; [symmetry; apply sort_perm|done]].
  apply strongly_sorted_reverse in Hs. exact Hs.
Qed.

(** All observables, by satellite, with any sort. *)
Lemma ordered_cells_std `{!StdSort sort} obs : prn_ok obs -> sig_ok obs ->
  exists v, ordered_cells sort obs = Some v /\ v ≡ₚ obs /\ StronglySorted (fun a b => prn_of a <= prn_of b) v.
Proof.
  intros Hp Ho. unfold ordered_cells, sort_by_signal.
  assert (bool_decide (Exists (fun p : Z * Observable => signal_value p.2 = None) obs) = false) as ->.
  { apply bool_decide_eq_false_2. rewrite Exists_exists. intros (p & Hin & He). destruct (pos_of_ok obs p Ho Hin) as (_ & _ & H). congruence. }
  rewrite andb_false_r. cbn [mbind option_bind]. set (l1 := sort _ (fun a b => default 0 (signal_value a.2) <? default 0 (signal_value b.2)) obs).
  assert (reverse l1 ≡ₚ obs) as P1 by (rewrite reverse_Permutation; apply sort_perm).
  destruct (sort_by_PRN_sorted (reverse l1) (prn_ok_perm _ _ (symmetry P1) Hp)) as [P2 S2]. eexists. split; [reflexivity|]. split; [by rewrite P2|done].
Qed.

(** By satellite and signal, with a stable one. *)
Lemma ordered_cells_spec `{!StableSort sort} obs : prn_ok obs -> sig_ok obs -> NoDup (key <$> obs) ->
  exists v, ordered_cells sort obs = Some v /\ v ≡ₚ obs /\ StronglySorted lex (key <$> v).
Proof.
  intros Hp Ho Hn. unfold ordered_cells, sort_by_signal.
  assert (bool_decide (Exists (fun p : Z * Observable => signal_value p.2 = None) obs) = false) as ->.
  { apply bool_decide_eq_false_2. rewrite Exists_exists. intros (p & Hin & He). destruct (pos_of_ok obs p Ho Hin) as (_ & _ & H). congruence. }
  rewrite andb_false_r. cbn [mbind option_bind].
  set (value := fun p : Z * Observable => default 0 (signal_value p.2)). set (l1 := sort _ (fun a b => value a <? value b) obs).
  assert (l1 ≡ₚ obs) as P1 by apply sort_perm.
  assert (forall p, p ∈ l1 -> value p = sid_of p) as Hval.
  { intros p Hin. rewrite P1 in Hin. destruct (pos_of_ok obs p Ho Hin) as (_ & _ & H). unfold value. by rewrite H. }
  assert (StronglySorted (fun a b => sid_of b <= sid_of a) (reverse l1)) as S1.
  { pose proof (sort_keys _ value obs) as H. fold l1 in H. apply strongly_sorted_reverse in H. eapply strongly_sorted_impl; [|exact H].
    intros a b Ha Hb Hab. rewrite elem_of_reverse in Ha, Hb. cbn in Hab. by rewrite !Hval in Hab by done. }
  assert (reverse l1 ≡ₚ obs) as P2 by (by rewrite reverse_Permutation).
  set (w := sort _ (fun a b : Z * Observable => u32 (64 - obs_PRN a.2) <? u32 (64 - obs_PRN b.2)) (reverse l1)).
  assert (w ≡ₚ obs) as P3 by (unfold w; rewrite sort_perm; exact P2).
  exists (reverse w). split; [done|]. split; [by rewrite reverse_Permutation|].
  pose proof (sort_keys _ (fun p : Z * Observable => u32 (64 - prn_of p)) (reverse l1)) as S2. fold w in S2.
  assert (StronglySorted (fun a b => u32 (64 - prn_of a) < u32 (64 - prn_of b) \/ u32 (64 - prn_of a) = u32 (64 - prn_of b) /\ sid_of b <= sid_of a) w) as S3.
  { apply (sorted_lex (fun a b => sid_of b <= sid_of a) (fun p => u32 (64 - prn_of p))); [exact S2|]. intros k.
    assert (filter (fun a => u32 (64 - prn_of a) = k) w = filter (fun a => u32 (64 - prn_of a) = k) (reverse l1)) as ->
      by exact (sort_stable _ (fun p : Z * Observable => u32 (64 - prn_of p)) (reverse l1) k). by apply strongly_sorted_filter. }
  apply strongly_sorted_reverse in S3. eapply strongly_sorted_keys; [exact S3|by rewrite reverse_Permutation, P3|].
  intros a b Ha Hb Hab Hne. rewrite elem_of_reverse, P3 in Ha, Hb. unfold prn_ok in Hp. rewrite Forall_forall in Hp. pose proof (Hp a Ha). pose proof (Hp b Hb).
  cbv beta in *. cbn [flip] in Hab. rewrite !uwrap_small in Hab by lia. unfold lex, key in *. cbn [fst snd].
  destruct (decide (prn_of a = prn_of b)) as [He|He]; [|lia]. right. split; [done|]. destruct (decide (sid_of a = sid_of b)); [congruence|lia].
Qed.
End Cells.

Lemma first_of_sats_spec l : prn_ok l -> forall pos,
  (forall x, x ∈ prn_of <$> first_of_sats pos l <-> x ∈ prn_of <$> l /\ u32 (65 - x) ∉ pos) /\ NoDup (prn_of <$> first_of_sats pos l) /\ prn_ok (first_of_sats pos l).
Proof.
  induction 1 as [|p l Hp Hl IH]; intros pos; cbn [first_of_sats].
  - split; [intros x; cbn; rewrite elem_of_nil; naive_solver|]. split; constructor.
  - fold (prn_of p). case_bool_decide as Hin.
    + destruct (IH pos) as (He & Hn & Ho). split; [|done]. intros x. rewrite He, fmap_cons, elem_of_cons. split; [naive_solver|].
      intros [[->|H] Hx]; [done|done].
    + destruct (IH (pos ++ [u32 (65 - prn_of p)])) as (He & Hn & Ho). split; [|split].
      * intros x. rewrite !fmap_cons, !elem_of_cons, He, elem_of_app, list_elem_of_singleton. split.
        -- intros [->|[H1 H2]]; [split; [by left|done]|]. split; [by right|]. intros H. apply H2. by left.
        -- intros [[->|H] Hx]; [by left|]. destruct (decide (x = prn_of p)) as [->|Hne]; [by left|]. right. split; [done|]. intros [H'|H']; [done|].
           apply list_elem_of_fmap in H as (q & -> & Hq). rewrite Forall_forall in Hl. pose proof (Hl q Hq). cbv beta in *. rewrite !uwrap_small in H' by lia. lia.
      * rewrite fmap_cons. apply NoDup_cons. split; [|done]. rewrite He. intros [_ H]. apply H. rewrite elem_of_app, list_elem_of_singleton. by right.
      * constructor; [exact Hp|exact Ho].
Qed.

Section Data.
Context (sort : forall A : Type, (A -> A -> bool) -> list A -> list A).

(** The satellite data are in the order of the satellite mask. *)
Lemma sats_in_order `{!StdSort sort} obs df394 : prn_ok obs -> (forall x, x ∈ ones 1 df394 <-> x ∈ prn_of <$> obs) ->
  prn_of <$> sort_by_PRN_mask sort (first_of_sats [] obs) = ones 1 df394.
Proof.
  intros Hp He. destruct (first_of_sats_spec obs Hp []) as (Hm & Hn & Ho). destruct (sort_by_PRN_sorted sort _ Ho) as [Hperm Hs].
  apply (strict_sorted_ext Z.lt); [apply _..| |apply ones_sorted|].
  - rewrite <- Hperm in Hn. clear Hperm. induction Hs as [|x l Hl IH Hx]; [constructor|]. rewrite fmap_cons in *. apply NoDup_cons in Hn as [Hn Hnd]. constructor.
    + by apply IH.
    + rewrite Forall_fmap, Forall_forall in *. intros y Hy. specialize (Hx y Hy). cbv beta in Hx.
      assert (prn_of x <> prn_of y); [|unfold compose; lia]. intros E. apply Hn. rewrite E. by apply list_elem_of_fmap_2.
  - intros x. rewrite He, Hperm, Hm. split; [by intros [H _]|]. intros H. split; [done|]. apply not_elem_of_nil.
Qed.

Lemma data_loop v n (field : Observable -> option (list bool)) : length v = n -> sat_loop n v field = mjoin <$> mapM (fun p : Z * Observable => field p.2) v.
Proof.
  intros <-. unfold sat_loop. f_equal. apply option_eq. intros k. rewrite !mapM_Some.
  split; intros H.
  - pose proof (Forall2_length _ _ _ H) as Hl. rewrite length_seq in Hl. apply Forall2_same_length_lookup_2; [done|]. intros i x y Hx Hy.
    apply (Forall2_lookup_lr _ _ _ i i y) in H; [cbn in H; by rewrite Hx in H| |done]. apply lookup_seq. split; [done|by eapply lookup_lt_Some].
  - pose proof (Forall2_length _ _ _ H) as Hl. apply Forall2_same_length_lookup_2; [by rewrite length_seq|]. intros i x y [-> Hi]%lookup_seq Hy.
    cbn. destruct (lookup_lt_is_Some_2 v i Hi) as [p Hp]. rewrite Hp. cbn. by apply (Forall2_lookup_lr _ _ _ i p y) in H.
Qed.
End Data.

(** ** Two sorts *)

Fixpoint insert_sorted {A} (lt : A -> A -> bool) (x : A) (l : list A) : list A :=
  match l with
  | [] => [x]
  | y :: l' => if lt y x then y :: insert_sorted lt x l' else x :: l
  end.

(** Insertion sort, which is stable, and insertion sort of the list from its end, which is not. *)
Definition stable_sort (A : Type) (lt : A -> A -> bool) (l : list A) : list A := foldr (insert_sorted lt) [] l.
Definition unstable_sort (A : Type) (lt : A -> A -> bool) (l : list A) : list A := stable_sort A lt (reverse l).

Lemma insert_perm {A} (lt : A -> A -> bool) x l : insert_sorted lt x l ≡ₚ x :: l.
Proof. induction l as [|y l IH]; [done|]. cbn. destruct (lt y x); [|done]. rewrite IH. apply Permutation_swap. Qed.

Lemma insert_keys {A} (f : A -> Z) x l : StronglySorted (fun a b => f a <= f b) l -> StronglySorted (fun a b => f a <= f b) (insert_sorted (fun a b => f a <? f b) x l).
Proof.
  induction 1 as [|y l Hl IH Hy]; [repeat constructor|]. cbn. rewrite Forall_forall in Hy. destruct (Z.ltb_spec (f y) (f x)); constructor; try done.
  - rewrite Forall_forall. intros z Hz. rewrite insert_perm in Hz. apply elem_of_cons in Hz as [->|Hz]; [lia|by apply Hy].
  - constructor; [done|by rewrite Forall_forall].
  - rewrite Forall_forall. intros z [->|Hz]%elem_of_cons; [lia|]. specialize (Hy z Hz). cbv beta in Hy. lia.
Qed.

Lemma insert_stable {A} (f : A -> Z) x l k :
  filter (fun a => f a = k) (insert_sorted (fun a b => f a <? f b) x l) = filter (fun a => f a = k) (x :: l).
Proof.
  induction l as [|y l IH]; [done|]. cbn [insert_sorted]. destruct (Z.ltb_spec (f y) (f x)); [|done]. rewrite filter_cons, IH, !filter_cons.
  repeat case_decide; try done; lia.
Qed.

#[export] Instance stable_sort_stable : StableSort stable_sort.
Proof.
  split; [split|].
  - intros A lt l. induction l as [|x l IH]; [done|]. cbn. by rewrite insert_perm, IH.
  - intros A f l. induction l as [|x l IH]; [constructor|]. by apply insert_keys.
  - intros A f l k. induction l as [|x l IH]; [done|]. cbn [stable_sort foldr]. rewrite insert_stable, !filter_cons. unfold stable_sort in IH. by rewrite IH.
Qed.

#[export] Instance unstable_sort_std : StdSort unstable_sort.
Proof.
  split.
  - intros A lt l. unfold unstable_sort. by rewrite sort_perm, reverse_Permutation.
  - intros A f l. unfold unstable_sort. apply (sort_keys A f).
Qed.

(** ** Theorems *)

(** Sorted by satellite with one signal each, the order is that of satellite and signal. *)
Lemma single_signal_order v : StronglySorted (fun a b => prn_of a <= prn_of b) v -> NoDup (prn_of <$> v) -> StronglySorted lex (key <$> v).
Proof.
  intros Hs Hn. eapply strongly_sorted_keys; [exact Hs|apply (NoDup_fmap_1 fst); by rewrite <- list_fmap_compose|].
  intros a b Ha Hb Hab Hne. left. cbn [key fst]. cbv beta in Hab. destruct (decide (prn_of a = prn_of b)) as [E|E]; [|lia].
  exfalso. apply Hne. f_equal. clear -Hn Ha Hb E. induction v as [|x v IH]; [by apply elem_of_nil in Ha|]. rewrite fmap_cons in Hn. apply NoDup_cons in Hn as [Hx Hn].
  apply elem_of_cons in Ha as [->|Ha], Hb as [->|Hb]; [done|exfalso; apply Hx; rewrite E; by apply list_elem_of_fmap_2| |by apply IH].
  exfalso. apply Hx. rewrite <- E. by apply list_elem_of_fmap_2.
Qed.

(** What the masks and the data are, with any sort: [cells] are the observables in the order of
    the signal data. *)
Lemma masks_and_data sort `{!StdSort sort} obs : prn_ok obs -> sig_ok obs -> NoDup (key <$> obs) ->
  exists df394 df395 df396 cells sats, set_DF394 obs = Some df394 /\ set_DF395 obs = Some df395 /\ set_DF396 sort obs = Some df396 /\
    length df396 = (count df394 * count df395)%nat /\ cells ≡ₚ obs /\ ordered_cells sort obs = Some cells /\
    StronglySorted (fun a b => prn_of a <= prn_of b) cells /\ (forall x, x ∈ masked (pairs (ones 1 df394) (ones 1 df395)) df396 <-> x ∈ key <$> cells) /\
    StronglySorted lex (masked (pairs (ones 1 df394) (ones 1 df395)) df396) /\ ones 1 df394 = prn_of <$> sats /\
    get_MSM_1_content_signal_data sort obs = mjoin <$> mapM (fun p : Z * Observable => set_DF400 p.2) cells /\
    get_MSM_1_content_sat_data sort obs = mjoin <$> mapM (fun p : Z * Observable => set_DF398 p.2) sats.
Proof.
  intros Hp Ho Hn. destruct (sats_of_mask obs Hp) as (df394 & H4 & _ & E4). destruct (sigs_of_mask obs Ho) as (df395 & H5 & _ & E5).
  destruct (ordered_cells_std sort obs Hp Ho) as (v & Hv & Pv & Sv). pose proof (sats_in_order sort obs df394 Hp E4) as Hs.
  do 3 eexists. exists v, (sort_by_PRN_mask sort (first_of_sats [] obs)). split; [exact H4|]. split; [exact H5|].
  split; [exact (set_DF396_spec sort obs df394 df395 Ho H4 H5 E4 E5)|]. rewrite masked_fmap. split; [|split; [done|split; [done|split; [done|split; [|split; [|split; [done|split]]]]]]].
  - rewrite length_fmap, <- (ones_count df394 1), <- (ones_count df395 1). unfold pairs. clear. induction (ones 1 df394) as [|x l IH]; [done|].
    rewrite mbind_cons, length_app, length_fmap, IH. done.
  - intros [s g]. rewrite list_elem_of_filter. cbn [fst snd]. rewrite (has_key obs s g Ho), elem_of_pairs, E4, E5, Pv. split; [by intros [H _]|].
    intros H. split; [done|]. apply list_elem_of_fmap in H as (p & [= -> ->] & Hin). split; by apply list_elem_of_fmap_2.
  - by apply strongly_sorted_filter, pairs_sorted; apply ones_sorted.
  - unfold get_MSM_1_content_signal_data. rewrite Hv. cbn [mbind option_bind]. apply data_loop. by rewrite Pv.
  - unfold get_MSM_1_content_sat_data. rewrite H4. cbn [mbind option_bind]. apply data_loop. by rewrite <- (ones_count df394 1), <- Hs, length_fmap.
Qed.

(** The satellites of two lists of cells with the same elements, both sorted by satellite. *)
Lemma same_satellites l k : StronglySorted lex l -> StronglySorted (fun a b : Z * Z => a.1 <= b.1) k -> l ≡ₚ k -> l.*1 = k.*1.
Proof.
  intros Hl Hk Hp. apply (StronglySorted_unique Z.le); [| |by rewrite Hp].
  - apply (StronglySorted_fmap _ lex); [|done]. unfold lex. intros [a b] [c d]. cbn. lia.
  - by apply (StronglySorted_fmap _ (fun a b : Z * Z => a.1 <= b.1)).
Qed.

(** C33: the masks describe the data. For observables of GPS and Galileo whose signals the masks
    know, with satellite numbers 1 to 64 and one for each satellite and signal, and any
    [std::sort] that orders by the number compared: the three masks can be made; read as a
    receiver reads them they list exactly the cells whose data [print_MSM_1] writes, satellite by
    satellite in the same order, and the satellite data are in the order of the satellite mask.
    If no satellite has two signals, the order of the cells is the same too (if one has, it
    depends on what the sort does with equal elements). *)
Theorem msm_masks_describe_data sort `{!StdSort sort} obs (Hp : Forall (fun p => 1 <= prn_of p <= 64) obs)
  (Ho : Forall (fun p : Z * Observable => is_Some (mask_396 p.2)) obs) (Hn : NoDup (key <$> obs)) :
  exists df394 df395 df396 cells sats, set_DF394 obs = Some df394 /\ set_DF395 obs = Some df395 /\ set_DF396 sort obs = Some df396 /\
    length df396 = (count df394 * count df395)%nat /\ cells ≡ₚ obs /\
    (let announced := masked (pairs (ones 1 df394) (ones 1 df395)) df396 in
     announced ≡ₚ key <$> cells /\ announced.*1 = prn_of <$> cells /\ (NoDup (prn_of <$> obs) -> announced = key <$> cells)) /\
    ones 1 df394 = prn_of <$> sats /\
    get_MSM_1_content_signal_data sort obs = mjoin <$> mapM (fun p : Z * Observable => set_DF400 p.2) cells /\
    get_MSM_1_content_sat_data sort obs = mjoin <$> mapM (fun p : Z * Observable => set_DF398 p.2) sats.
Proof.
  destruct (masks_and_data sort obs Hp Ho Hn) as (df394 & df395 & df396 & cells & sats & H4 & H5 & H6 & Hl & Hc & _ & Hs & He & Hm & Hd).
  exists df394, df395, df396, cells, sats. split; [done|]. split; [done|]. split; [done|]. split; [done|]. split; [done|]. split; [|exact Hd].
  assert (masked (pairs (ones 1 df394) (ones 1 df395)) df396 ≡ₚ key <$> cells) as P.
  { apply NoDup_Permutation; [|by rewrite Hc|done]. clear -Hm. induction Hm as [|x l Hl IH Hx]; constructor; [|done]. intros Hin. rewrite Forall_forall in Hx.
    by apply (irreflexivity lex x), Hx. }
  split; [done|]. split.
  - rewrite (same_satellites _ (key <$> cells) Hm); [by rewrite <- list_fmap_compose| |done]. by apply (StronglySorted_fmap _ (fun a b => prn_of a <= prn_of b)).
  - intros Hu. apply (strict_sorted_ext lex); [apply _..|done| |done]. apply single_signal_order; [done|]. by rewrite Hc.
Qed.

(** With a stable sort the cells are in the order of the masks whatever signals there are. *)
Lemma msm_masks_stable sort `{!StableSort sort} obs : prn_ok obs -> sig_ok obs -> NoDup (key <$> obs) ->
  exists df394 df395 df396 cells, set_DF394 obs = Some df394 /\ set_DF395 obs = Some df395 /\ set_DF396 sort obs = Some df396 /\
    ordered_cells sort obs = Some cells /\ masked (pairs (ones 1 df394) (ones 1 df395)) df396 = key <$> cells.
Proof.
  intros Hp Ho Hn. destruct (masks_and_data sort obs Hp Ho Hn) as (df394 & df395 & df396 & cells & sats & H4 & H5 & H6 & _ & _ & Hv & _ & He & Hm & _).
  exists df394, df395, df396, cells. destruct (ordered_cells_spec sort obs Hp Ho Hn) as (v & Hv' & _ & Sv). rewrite Hv in Hv'. injection Hv' as <-.
  do 4 (split; [done|]). by apply (strict_sorted_ext lex); [apply _..|done|done|].
Qed.

(** The cell mask of GLONASS. The signals of GLONASS are in the signal mask, but
    [set_DF396] does not know them: whatever is observed, no cell is announced, while the data
    of all of them follow. *)
Theorem glonass_cells_lost sort obs df394 df395 (Hr : Forall (fun p : Z * Observable => System p.2 = "R"%char) obs)
  (H4 : set_DF394 obs = Some df394) (H5 : set_DF395 obs = Some df395) :
  set_DF396 sort obs = Some (replicate (count df394 * count df395) false).
Proof.
  unfold set_DF396. rewrite H4, H5. cbn [mbind option_bind]. destruct ((count df395 =? 0)%nat || (count df394 =? 0)%nat) eqn:E.
  { apply orb_true_iff in E as [->%Nat.eqb_eq| ->%Nat.eqb_eq]; [rewrite Nat.mul_0_r|]; done. }
  assert (forall lsig lsat row col, mask_value lsig lsat row col obs = Some false) as Hc.
  { intros lsig lsat row col. clear -Hr. induction Hr as [|[c o] l Ho Hl IH]; [done|]. cbn [mask_value]. cbn [snd] in Ho.
    assert (mask_396 o = None) as ->. { unfold mask_396, is_sys. rewrite Ho. by rewrite !andb_false_r. }
    cbn [mbind option_bind]. by rewrite IH. }
  rewrite (mapM_const (count df394) (replicate (count df395) false)).
  - cbn [fmap option_fmap option_map]. f_equal. clear. induction (count df394) as [|n IH]; [done|].
    change (replicate (count df395) false ++ mjoin (replicate n (replicate (count df395) false)) = replicate (count df395 + n * count df395) false).
    by rewrite IH, <- replicate_add.
  - intros i. by apply mapM_const.
Qed.

(** ** Concrete observables *)

Definition observable (sys : Ascii.ascii) (s : string) (prn : Z) : Z * Observable :=
  (0, {| System := sys; Signal := s; obs_PRN := prn; Pseudorange_m := dbl_of_Z 22000000 |}).

Definition demo_obs : observables := [observable "G" "2S" 7; observable "G" "1C" 12; observable "G" "1C" 7; observable "G" "1C" 3].

Lemma msm_masks_describe_data_witness : exists df394 df395 df396 cells, set_DF394 demo_obs = Some df394 /\ set_DF395 demo_obs = Some df395 /\
  set_DF396 unstable_sort demo_obs = Some df396 /\ masked (pairs (ones 1 df394) (ones 1 df395)) df396 ≡ₚ key <$> cells /\
  masked (pairs (ones 1 df394) (ones 1 df395)) df396 = [(3, 2); (7, 2); (7, 15); (12, 2)] /\ prn_of <$> cells = [3; 7; 7; 12].
Proof.
  destruct (msm_masks_describe_data unstable_sort demo_obs) as (df394 & df395 & df396 & cells & sats & H4 & H5 & H6 & _ & _ & (Hc & Hs & _) & _).
  - repeat constructor; vm_compute; congruence.
  - repeat constructor; eexists; vm_compute; reflexivity.
  - apply (bool_decide_unpack _). vm_compute. exact I.
  - exists df394, df395, df396, cells. split; [exact H4|]. split; [exact H5|]. split; [exact H6|]. split; [exact Hc|]. rewrite <- Hs.
    vm_compute in H4, H5, H6. injection H4 as <-. injection H5 as <-. injection H6 as <-. vm_compute. split; reflexivity.
Defined.

Lemma glonass_cells_lost_witness : set_DF396 stable_sort [observable "R" "1C" 4; observable "R" "1C" 9] = Some [false; false].
Proof.
  pose proof (glonass_cells_lost stable_sort [observable "R" "1C" 4; observable "R" "1C" 9]) as H. etransitivity.
  - apply H; [repeat constructor|vm_compute; reflexivity|vm_compute; reflexivity].
  - vm_compute. reflexivity.
Defined.

(** The cells as the masks announce them, and as the data follow. *)
Definition cells_of_masks (sort : forall A : Type, (A -> A -> bool) -> list A -> list A) (obs : observables) : option (list (Z * Z)) :=
  df394 ← set_DF394 obs; df395 ← set_DF395 obs; df396 ← set_DF396 sort obs; Some (masked (pairs (ones 1 df394) (ones 1 df395)) df396).
Definition cells_of_data (sort : forall A : Type, (A -> A -> bool) -> list A -> list A) (obs : observables) : option (list (Z * Z)) :=
  match ordered_cells sort obs with Some v => Some (key <$> v) | None => None end.

(** The order of the cells depends on what the standard leaves open: with a sort that
    orders by number but does not keep the order of equal elements, the data of two signals of
    a satellite change places, and the masks give each the name of the other. *)
Theorem msm_cells_unstable : exists sort, StdSort sort /\
  cells_of_masks sort [observable "G" "1C" 7; observable "G" "2S" 7] = Some [(7, 2); (7, 15)] /\
  cells_of_data sort [observable "G" "1C" 7; observable "G" "2S" 7] = Some [(7, 15); (7, 2)].
Proof. exists unstable_sort. split; [apply _|]. split; vm_compute; reflexivity. Qed.

(** The epoch time of a multiple signal message is the time of the GPS week for every
    system: the test for GLONASS compares "R" with a string that never equals it. *)
Theorem msm_header_epoch_gps sort msg_number obs_time obs ref_id cs ec si df mm h
  (Hh : get_MSM_header sort msg_number obs_time obs ref_id cs ec si df mm = Some h) :
  exists epoch rest, set_DF004 obs_time = Some epoch /\ h = set_DF002 msg_number ++ set_DF003 ref_id ++ epoch ++ rest.
Proof.
  unfold get_MSM_header in Hh. destruct (head obs) as [[c o]|]; [|done]. cbn [mbind option_bind] in Hh.
  destruct (set_DF394 obs) as [d4|]; [|done]. destruct (set_DF395 obs) as [d5|]; [|done]. cbn [mbind option_bind snd] in Hh.
  assert (bool_decide (sys_string o = "R"%string) = false) as Hs.
  { apply bool_decide_eq_false_2. unfold sys_string. destruct (Ascii.nat_of_ascii (System o)) as [|[|n]]; done. }
  rewrite Hs in Hh. destruct (set_DF004 obs_time) as [epoch|]; [|done]. cbn [mbind option_bind] in Hh.
  destruct (set_DF396 sort obs) as [d6|]; [|done]. cbn [mbind option_bind] in Hh. injection Hh as <-. by do 2 eexists.
Qed.

Lemma msm_header_epoch_gps_witness : exists h epoch rest,
  get_MSM_header stable_sort 1081 (dbl_of_Z 100) [observable "R" "1C" 4] 1 0 0 0 false false = Some h /\ set_DF004 (dbl_of_Z 100) = Some epoch /\
  h = set_DF002 1081 ++ set_DF003 1 ++ epoch ++ rest.
Proof.
  destruct (get_MSM_header stable_sort 1081 (dbl_of_Z 100) [observable "R" "1C" 4] 1 0 0 0 false false) as [h|] eqn:E; [|vm_compute in E; discriminate].
  destruct (msm_header_epoch_gps stable_sort 1081 (dbl_of_Z 100) [observable "R" "1C" 4] 1 0 0 0 false false h E) as (epoch & rest & H1 & H2).
  exists h, epoch, rest. split; [reflexivity|]. split; [exact H1|exact H2].
Defined.

(** ** Lock times *)

(** The least lock times of the indicators, by the tables that the code names. *)
Definition least_lock (v : Z) : Z :=
  if v <? 24 then v else if v <? 48 then 2 * v - 24 else if v <? 72 then 4 * v - 120 else if v <? 96 then 8 * v - 408
  else if v <? 120 then 16 * v - 1176 else if v <? 127 then 32 * v - 3096 else 937.
Definition least_msm_lock (v : Z) : Z := if v <=? 0 then 0 else 2 ^ (v + 4).
Definition least_extended_lock (v : Z) : Z := if v <? 64 then v else let k := v / 32 - 1 in 2 ^ k * (v - 32 * k).

(** A table whose steps are met by an indicator: it is the last step reached. *)
Lemma last_step (least : Z -> Z) top t x : forallb (fun v => least v <? least (v + 1)) (seqZ 0 top) = true -> 0 <= x <= top ->
  least x <= t -> (x < top -> t < least (x + 1)) -> forall v, 0 <= v <= top -> v <= x <-> least v <= t.
Proof.
  intros Hs Hx Hl Hu. rewrite forallb_forall in Hs.
  assert (forall d v, 0 <= v -> 0 <= d -> v + d <= top -> least v <= least (v + d)) as Hm.
  { intros d v Hv Hd. revert Hd. apply (natlike_ind (fun d => v + d <= top -> least v <= least (v + d))); [rewrite Z.add_0_r; lia|].
    intros e He IH Ht. specialize (IH ltac:(lia)). specialize (Hs (v + e)). rewrite <- list_elem_of_In, elem_of_seqZ in Hs.
    specialize (Hs ltac:(lia)). apply Z.ltb_lt in Hs. replace (v + Z.succ e) with (v + e + 1) by lia. lia. }
  intros v Hv. split; intros H.
  - specialize (Hm (x - v) v ltac:(lia) ltac:(lia) ltac:(lia)). replace (v + (x - v)) with x in Hm by lia. lia.
  - destruct (decide (v <= x)); [done|exfalso]. specialize (Hm (v - (x + 1)) (x + 1) ltac:(lia) ltac:(lia) ltac:(lia)).
    replace (x + 1 + (v - (x + 1))) with v in Hm by lia. specialize (Hu ltac:(lia)). lia.
Qed.

Lemma extended_row k q : 0 <= k -> 0 <= q <= 32 -> 1 <= k -> least_extended_lock (32 * (k + 1) + q) = 2 ^ k * (32 + q).
Proof.
  intros Hk Hq H1. unfold least_extended_lock. rewrite (proj2 (Z.ltb_ge _ _)) by lia. cbv zeta. destruct (decide (q = 32)) as [->|Hn].
  - replace (32 * (k + 1) + 32) with ((k + 2) * 32) by lia. rewrite Z.div_mul by lia. replace (k + 2 - 1) with (k + 1) by lia. rewrite Z.pow_add_r by lia. lia.
  - replace ((32 * (k + 1) + q) / 32) with (k + 1); [|apply (Z.div_unique _ _ _ q); lia]. replace (k + 1 - 1) with k by lia. f_equal. lia.
Qed.

(** One line of the extended table. *)
Lemma row_bracket k t : 1 <= k <= 20 -> 2 ^ (k + 5) <= t < 2 ^ (k + 6) ->
  let x := 32 * (k + 1) + (t - 2 ^ (k + 5)) / 2 ^ k in 0 <= x < 704 /\ least_extended_lock x <= t < least_extended_lock (x + 1).
Proof.
  intros Hk Ht. assert (0 < 2 ^ k) as Hp by (apply Z.pow_pos_nonneg; lia). assert (2 ^ (k + 5) = 2 ^ k * 32) as E5 by (by rewrite Z.pow_add_r by lia).
  assert (2 ^ (k + 6) = 2 ^ k * 64) as E6 by (by rewrite Z.pow_add_r by lia). rewrite E5, E6 in *.
  pose proof (Z.div_mod (t - 2 ^ k * 32) (2 ^ k) ltac:(lia)) as Hd. pose proof (Z.mod_pos_bound (t - 2 ^ k * 32) (2 ^ k) Hp) as Hm.
  set (q := (t - 2 ^ k * 32) / 2 ^ k) in *. assert (0 <= q < 32) as Hq by nia. cbv zeta. split; [lia|].
  rewrite <- Z.add_assoc, !extended_row by lia. nia.
Qed.

Lemma lock_row_hit t lo hi base step rest : lo <= t < hi -> 0 <= lo -> 0 < step -> t < 2 ^ 31 -> 0 <= base < 2 ^ 30 -> hi <= 2 ^ 30 ->
  lock_row t lo hi base step rest = base + (t - lo) / step.
Proof.
  intros Ht H0 Hs Hm Hb Hh. unfold lock_row. rewrite (proj2 (Z.leb_le _ _)), (proj2 (Z.ltb_lt _ _)) by lia. cbn [andb].
  rewrite (uwrap_small 32 (t - lo)) by lia. assert (0 <= (t - lo) / step <= t - lo) by (split; [apply Z.div_pos; lia|apply Z.div_le_upper_bound; nia]).
  by rewrite uwrap_small by lia.
Qed.

Lemma lock_row_miss t lo hi base step rest : hi <= t -> lock_row t lo hi base step rest = rest.
Proof. intros H. unfold lock_row. by rewrite (proj2 (Z.ltb_ge _ _)), andb_false_r by lia. Qed.

Lemma extended_bracket t : 0 <= t < 2 ^ 32 -> let x := msm_extended_lock_time_indicator t in
  0 <= x <= 704 /\ least_extended_lock x <= t /\ (x < 704 -> t < least_extended_lock (x + 1)).
Proof.
  intros Ht. unfold msm_extended_lock_time_indicator. destruct (Z.ltb_spec t 64) as [H|H].
  { cbv zeta. split; [lia|]. unfold least_extended_lock. rewrite (proj2 (Z.ltb_lt t 64)) by lia. split; [lia|]. intros _.
    destruct (decide (t = 63)) as [->|]; [done|]. rewrite (proj2 (Z.ltb_lt (t + 1) 64)) by lia. lia. }
  repeat match goal with |- context [lock_row t ?lo ?hi ?b ?s _] =>
    destruct (Z.lt_ge_cases t hi) as [?|?]; [rewrite (lock_row_hit t lo hi b s) by lia;
      let k := eval vm_compute in (Z.log2 s) in pose proof (row_bracket k t ltac:(lia) ltac:(lia)) as Hb;
      change (32 * (k + 1)) with b in Hb; change (2 ^ (k + 5)) with lo in Hb; change (2 ^ k) with s in Hb; cbv zeta in Hb |- *; lia
    |rewrite lock_row_miss by done] end.
  rewrite (proj2 (Z.leb_le 67108864 t)) by lia. cbv zeta. change (least_extended_lock 704) with 67108864. lia.
Qed.

(** Evaluates a table at numbers. *)
Ltac closed_values least := repeat match goal with |- context [least ?a] => let r := eval vm_compute in (least a) in change (least a) with r end.

Lemma lock_bracket t : 0 <= t < 2 ^ 32 -> let x := lock_time_indicator t in 0 <= x <= 127 /\ least_lock x <= t /\ (x < 127 -> t < least_lock (x + 1)).
Proof.
  intros Ht. unfold lock_time_indicator. destruct (Z.leb_spec t 0); [cbv zeta; closed_values least_lock; lia|].
  repeat match goal with |- context [t <? ?b] => destruct (Z.ltb_spec t b) end; cbv zeta; [| | | | | |closed_values least_lock; lia]; rewrite ?uwrap_small by lia;
    match goal with |- context [least_lock ?x] => generalize (eq_refl x); generalize x at 1; intros y Hy end; rewrite <- ?Hy;
    (assert (0 <= y <= 127) by (Z.to_euclidean_division_equations; lia)); unfold least_lock;
    repeat match goal with |- context [?a <? ?b] => destruct (Z.ltb_spec a b) end; Z.to_euclidean_division_equations; lia.
Qed.

Lemma msm_bracket t : 0 <= t < 2 ^ 32 -> let x := msm_lock_time_indicator t in 0 <= x <= 15 /\ least_msm_lock x <= t /\ (x < 15 -> t < least_msm_lock (x + 1)).
Proof.
  intros Ht. unfold msm_lock_time_indicator. repeat match goal with |- context [t <? ?b] => destruct (Z.ltb_spec t b) end; cbv zeta; closed_values least_msm_lock; lia.
Qed.

(** The lock time indicators are the last entries of their tables that the lock time has
    reached, for every lock time of 32 bits. *)
Theorem lock_time_tables t v (Ht : 0 <= t < 2 ^ 32) (Hv : 0 <= v) :
  (v <= 127 -> v <= lock_time_indicator t <-> least_lock v <= t) /\ (v <= 15 -> v <= msm_lock_time_indicator t <-> least_msm_lock v <= t) /\
  (v <= 704 -> v <= msm_extended_lock_time_indicator t <-> least_extended_lock v <= t).
Proof.
  split; [|split]; intros H.
  - destruct (lock_bracket t Ht) as (H1 & H2 & H3). apply (last_step least_lock 127); [vm_compute; reflexivity|done..|lia].
  - destruct (msm_bracket t Ht) as (H1 & H2 & H3). apply (last_step least_msm_lock 15); [vm_compute; reflexivity|done..|lia].
  - destruct (extended_bracket t Ht) as (H1 & H2 & H3). apply (last_step least_extended_lock 704); [vm_compute; reflexivity|done..|lia].
Qed.

Lemma lock_time_tables_witness : 59 <= lock_time_indicator 119 /\ ~ 60 <= lock_time_indicator 119 /\ 2 <= msm_lock_time_indicator 119.
Proof.
  split; [|split].
  - apply (proj1 (lock_time_tables 119 59 ltac:(lia) ltac:(lia))); vm_compute; congruence.
  - intros H. apply (proj1 (lock_time_tables 119 60 ltac:(lia) ltac:(lia))) in H; vm_compute in H |- *; congruence.
  - apply (proj1 (proj2 (lock_time_tables 119 2 ltac:(lia) ltac:(lia)))); vm_compute; congruence.
Defined.
