(* ===== verification/RtcmClaims.v ===== *)
(** * RTCM messages: the theorems

    Damaged frames, and the messages with the reference station and with the ephemerides of
    Galileo and GLONASS from end to end. *)
From S2P Require Import Prelude Edc GnssSignal Doubles DoublesErr NavBits GpsNav Rtcm RtcmProps RtcmEph RtcmEphProps.
From Stdlib Require Import SpecFloat.

#[local] Open Scope Z_scope.

(** ** Reference station *)

Lemma bin_to_double_bitset n v : (0 < n <= 64)%nat -> signed_in (Z.of_nat n) v -> bin_to_double (bitset n v) = dbl_of_Z v.
Proof.
  intros Hn Hv. unfold bin_to_double, bitset. rewrite length_val_bits, (proj2 (Nat.ltb_ge _ _)) by lia. f_equal.
  rewrite <- (signed_of_bits n v) at 4 by (lia || done). destruct n as [|n]; [lia|]. cbn [val_bits]. destruct (Z.testbit v (Z.of_nat n)); cbn [first_not_0 signed_val]; [|done].
  rewrite bits_val_flip. lia.
Qed.

Lemma skip_field bits i n (f rest : list bool) : drop i bits = f ++ rest -> length f = n -> drop (i + n) bits = rest.
Proof. intros Hd <-. by rewrite <- drop_drop, Hd, drop_app_length. Qed.

Definition tenth_mm (v : Z) : double := dbl_div (dbl_of_Z v) (dbl_of_Z 10000).

Definition station_fields (id : Z) (gps glonass galileo np so : bool) (q vx vy vz : Z) : list (list bool) :=
  [bitset 12 id; bitset 6 0; [gps]; [glonass]; [galileo]; [np]; bitset 38 vx; [so] ++ [false]; bitset 38 vy; bitset 2 q; bitset 38 vz].

Section Station.
Context (crc : list Z -> Z).

Lemma station_length id gps glonass galileo np so q vx vy vz :
  Z.of_nat (length (mjoin (station_fields id gps glonass galileo np so q vx vy vz))) = 140.
Proof. unfold station_fields, bitset. cbn [mjoin list_join]. rewrite !length_app, !length_val_bits. done. Qed.

Lemma MT1005_fields id x y z gps glonass galileo np so q vx vy vz : signed_in 38 vx -> signed_in 38 vy -> signed_in 38 vz ->
  Z_of_dbl (dbl_round (dbl_mul x (dbl_of_Z 10000))) = Some vx -> Z_of_dbl (dbl_round (dbl_mul y (dbl_of_Z 10000))) = Some vy ->
  Z_of_dbl (dbl_round (dbl_mul z (dbl_of_Z 10000))) = Some vz ->
  MT1005_data id x y z gps glonass galileo np so q = Some (mjoin (bitset 12 1005 :: station_fields id gps glonass galileo np so q vx vy vz)).
Proof.
  unfold signed_in. intros Hx Hy Hz Ex Ey Ez. unfold MT1005_data, set_DF025, set_DF026, set_DF027, to_i64.
  rewrite (cast_in _ _ _ vx Ex), (cast_in _ _ _ vy Ey), (cast_in _ _ _ vz Ez) by lia. cbn [mbind option_bind station_fields mjoin list_join].
  rewrite app_nil_r. unfold set_DF002, set_DF003, set_DF021, set_DF022, set_DF023, set_DF024. by rewrite <- !app_assoc.
Qed.

Lemma read_1005 id gps glonass galileo np so q vx vy vz msg old : unsigned_in 12 id -> signed_in 38 vx -> signed_in 38 vy -> signed_in 38 vz ->
  build_message crc (mjoin (bitset 12 1005 :: station_fields id gps glonass galileo np so q vx vy vz)) = Some msg ->
  read_MT1005 crc msg old = Some (0, {| st_ref_id := id; st_x := tenth_mm vx; st_y := tenth_mm vy; st_z := tenth_mm vz; st_gps := gps; st_glonass := glonass;
    st_galileo := galileo |}).
Proof.
  intros Hid Hx Hy Hz Hm. assert (unsigned_in 12 1005) as Hn by (split; lia).
  destruct (read_frame crc 1005 _ msg 140 Hn Hm (station_length _ _ _ _ _ _ _ _ _ _)) as [Hh [rest Hd]]; [lia|].
  replace ((12 + 140 + 7) / 8) with 19 in Hh by done. unfold read_MT1005. rewrite (some_step _ _ _ Hh). cbn beta iota zeta delta [negb]. clear Hh Hm.
  generalize dependent (binary_data_to_bin msg). intros bits Hd. unfold station_fields in Hd. cbn [mjoin list_join] in Hd. rewrite <- !app_assoc in Hd.
  read_field Hd. apply (skip_field _ _ 6) in Hd; [|apply length_val_bits]. do 3 read_field Hd. apply (skip_field _ _ 1) in Hd; [|done].
  read_field Hd. rewrite app_assoc in Hd.
  apply (skip_field _ _ 2) in Hd; [|done]. read_field Hd. apply (skip_field _ _ 2) in Hd; [|apply length_val_bits]. read_field Hd. clear Hd.
  rewrite !flag_read, uint_read, !bin_to_double_bitset by (lia || done). done.
Qed.

Lemma print_station id x y z gps glonass galileo np so q vx vy vz st msg : signed_in 38 vx -> signed_in 38 vy -> signed_in 38 vz ->
  Z_of_dbl (dbl_round (dbl_mul x (dbl_of_Z 10000))) = Some vx -> Z_of_dbl (dbl_round (dbl_mul y (dbl_of_Z 10000))) = Some vy ->
  Z_of_dbl (dbl_round (dbl_mul z (dbl_of_Z 10000))) = Some vz ->
  build_message crc (mjoin (bitset 12 1005 :: station_fields id gps glonass galileo np so q vx vy vz)) = Some msg ->
  print_MT1005 crc id x y z gps glonass galileo np so q st = Some (msg, enqueue msg st).
Proof.
  intros Hx Hy Hz Ex Ey Ez Hm. unfold print_MT1005. rewrite (some_step _ _ _ (MT1005_fields _ _ _ _ _ _ _ _ _ _ _ _ _ Hx Hy Hz Ex Ey Ez)).
  by rewrite (some_step _ _ _ Hm).
Qed.

Lemma tenth_mm_back v : signed_in 38 v -> Z_of_dbl (dbl_round (dbl_mul (tenth_mm v) (dbl_of_Z 10000))) = Some v.
Proof. unfold signed_in. intros Hv. apply divide_and_back; [lia|vm_compute; reflexivity]. Qed.
End Station.

(** The reference station in message 1005. Coordinates of up to about 13743 km that round
    to [vx], [vy], [vz] tenths of millimetres are written and read as these numbers; and the
    message does not change when it is written again from what was read. *)
Theorem station_roundtrip crc id x y z gps glonass galileo np so q st vx vy vz (Hid : 0 <= id < 4096)
  (Hx : Z_of_dbl (dbl_round (dbl_mul x (dbl_of_Z 10000))) = Some vx) (Hy : Z_of_dbl (dbl_round (dbl_mul y (dbl_of_Z 10000))) = Some vy)
  (Hz : Z_of_dbl (dbl_round (dbl_mul z (dbl_of_Z 10000))) = Some vz) (Rx : - 2 ^ 37 <= vx < 2 ^ 37) (Ry : - 2 ^ 37 <= vy < 2 ^ 37) (Rz : - 2 ^ 37 <= vz < 2 ^ 37) :
  exists msg, print_MT1005 crc id x y z gps glonass galileo np so q st = Some (msg, enqueue msg st) /\
    (forall old, read_MT1005 crc msg old = Some (0, {| st_ref_id := id; st_x := tenth_mm vx; st_y := tenth_mm vy; st_z := tenth_mm vz; st_gps := gps;
      st_glonass := glonass; st_galileo := galileo |})) /\
    print_MT1005 crc id (tenth_mm vx) (tenth_mm vy) (tenth_mm vz) gps glonass galileo np so q st = Some (msg, enqueue msg st).
Proof.
  destruct (build_message_bits crc (mjoin (bitset 12 1005 :: station_fields id gps glonass galileo np so q vx vy vz))) as (msg & Hm & _).
  exists msg. split; [by apply (print_station crc id x y z gps glonass galileo np so q vx vy vz)|].
  split; [intros old; by apply (read_1005 crc id gps glonass galileo np so q vx vy vz)|].
  by apply (print_station crc id _ _ _ gps glonass galileo np so q vx vy vz); try apply tenth_mm_back.
Qed.

(** ** Galileo *)

(** The ephemeris of Galileo in message 1045. The orbit comes back unchanged to the last
    bit, but for its rate of inclination: [set_DF292] is never called, and zero is sent. The
    reference time of the clock is sent in seconds in a field of 14 bits and read in minutes,
    and the group delay is read without its resolution. A negative clock bias, [Cuc] or [Crc]
    is converted to an unsigned number, which is undefined. *)
Theorem galileo_through_rtcm crc r st (Hr : gal_ok r) (Hs : DF292 st = DF292 Rtcm_init) :
  if (g_af0 r <? 0) || (g_cuc r <? 0) || (g_crc r <? 0) then print_MT1045 crc (galileo_of r) st = None
  else exists msg, print_MT1045 crc (galileo_of r) st = Some (msg, enqueue msg st) /\ DF292 (enqueue msg st) = DF292 Rtcm_init /\
    forall old, read_MT1045 crc msg old = Some (0, galileo_with r dbl_zero (60 * (g_toc r mod 2 ^ 14)) (dbl_of_Z (g_bgd r))).
Proof.
  unfold print_MT1045. rewrite Hs. cbn [Rtcm_init DF292].
  destruct ((g_af0 r <? 0) || (g_cuc r <? 0) || (g_crc r <? 0)) eqn:E.
  - rewrite MT1045_negative; [done..|]. rewrite !orb_true_iff, !Z.ltb_lt in E. tauto.
  - rewrite !orb_false_iff, !Z.ltb_ge in E. destruct E as [[H0 Hc] Hcr].
    destruct (build_message_bits crc (mjoin (bitset 12 1045 :: gal_fields r))) as (msg & Hm & _). exists msg.
    rewrite (some_step _ _ _ (MT1045_fields r Hr H0 Hc Hcr)), (some_step _ _ _ Hm). split; [done|].
    split; [unfold enqueue; by destruct (server_is_running st)|]. intros old. by apply read_1045.
Qed.

(** ** GLONASS *)

Lemma t_k_from_zero t : 0 <= t < 86400 ->
  t_k_read dbl_zero t = dbl_of_Z (3600 * (if t / 3600 <? 16 then t / 3600 else t / 3600 - 32) + 60 * (if t mod 3600 / 60 <? 32 then t mod 3600 / 60 else t mod 3600 / 60 - 64)).
Proof.
  intros Ht. assert (0 <= t / 3600 < 24) as Hh by (split; [apply Z.div_pos|apply Z.div_lt_upper_bound]; lia).
  pose proof (Z.mod_pos_bound t 3600 ltac:(lia)). assert (0 <= t mod 3600 / 60 < 60) as Hm by (split; [apply Z.div_pos|apply Z.div_lt_upper_bound]; lia).
  unfold t_k_read. generalize dependent (t mod 3600 / 60). generalize dependent (t / 3600). intros h Hh m Hm. clear -Hh Hm.
  assert (forallb (fun h => forallb (fun m => bool_decide (
    dbl_add (dbl_add (dbl_add dbl_zero (dbl_mul (dbl_of_Z (bin_to_int (bitset 5 h))) (dbl_of_Z 3600)))
      (dbl_mul (dbl_of_Z (bin_to_int (bitset 6 m))) (dbl_of_Z 60))) dbl_zero =
    dbl_of_Z (3600 * (if h <? 16 then h else h - 32) + 60 * (if m <? 32 then m else m - 64)))) (seqZ 0 60)) (seqZ 0 24) = true) as H by (vm_compute; reflexivity).
  rewrite forallb_forall in H. specialize (H h). rewrite <- list_elem_of_In, elem_of_seqZ, forallb_forall in H. specialize (H ltac:(lia) m).
  rewrite <- list_elem_of_In, elem_of_seqZ in H. by apply bool_decide_eq_true in H; [|lia].
Qed.

(** The ephemeris of GLONASS in message 1020. Times, flags and numbers come back, but
    every field that is written in sign and magnitude is read with the opposite sign, the
    frequency offset also with another resolution (2^-30 for 2^-40). The correction to UTC is
    written in two's complement and read in sign and magnitude; the correction to GPS is
    rounded to whole days before it is scaled, and zero is sent; the seconds of the day time
    are lost, and its hours above 15 and minutes above 31 are read as negative numbers. *)
Theorem glonass_through_rtcm crc r st (Hr : glo_ok r) :
  exists msg, print_MT1020 crc (glonass_of r) (glonass_utc_of r) st = Some (msg, enqueue msg st) /\
    forall old old_utc, Glonass_Gnav_Ephemeris.d_t_k old = dbl_zero -> exists tk, read_MT1020 crc msg old old_utc =
      Some (0, glonass_with r (dbl_of_Z tk) (-1) TWO_N30, glonass_utc r (if l_tauc r <? 0 then 2 ^ 31 + l_tauc r else - l_tauc r) 0) /\
      let h := l_tk r / 3600 in let m := l_tk r mod 3600 / 60 in
      tk = 3600 * (if h <? 16 then h else h - 32) + 60 * (if m <? 32 then m else m - 64).
Proof.
  destruct (build_message_bits crc (mjoin (bitset 12 1020 :: glo_fields r))) as (msg & Hm & _). exists msg. split.
  - unfold print_MT1020. by rewrite (some_step _ _ _ (MT1020_fields r Hr)), (some_step _ _ _ Hm).
  - intros old old_utc H0. eexists. split; [|reflexivity]. rewrite (read_1020 crc r msg old old_utc Hr Hm), H0, t_k_from_zero; [done|apply (lok_tk r Hr)].
Qed.

(** ** Damage *)

Lemma damaged_header crc msg len number : check_CRC crc msg = Some false -> read_header crc msg len number = Some false.
Proof. intros H. unfold read_header. by rewrite H. Qed.

(** C34: a frame that was damaged on its way, in one or more bits that lie within 24 places, is
    rejected by every reader, which returns 1 and leaves its arguments as they were. *)
Theorem damaged_frame_rejected crc {Hcrc : Crc24Q crc} data msg msg' p (Hm : build_message crc data = Some msg)
  (Hb : Forall (fun v => 0 <= v < 256) msg') (Hl : length msg' = length msg) (Hne : msg' <> msg)
  (Hd : forall k, binary_data_to_bin msg' !! k <> binary_data_to_bin msg !! k -> (p <= k < p + 24)%nat) :
  (forall old, read_MT1005 crc msg' old = Some (1, old)) /\ (forall old, read_MT1019 crc msg' old = Some (1, old)) /\
  (forall old, read_MT1045 crc msg' old = Some (1, old)) /\ (forall old utc, read_MT1020 crc msg' old utc = Some (1, old, utc)).
Proof.
  destruct (build_message_shape crc data msg Hm) as [Hb1 H3]. pose proof (frame_accepted crc data msg Hm) as Hc.
  pose proof (damage_found crc msg msg' p Hb1 Hb Hl H3 Hc Hd Hne) as Hf.
  unfold read_MT1005, read_MT1019, read_MT1045, read_MT1020. by rewrite !(damaged_header crc msg' _ _ Hf).
Qed.

(** ** Concrete messages *)

(** The table-driven CRC of the same library computes that polynomial. *)
Definition crc24q_frame (l : list Z) : Z := default 0 (crc24q l (Z.of_nat (length l)) 0).

#[export] Instance crc24q_frame_polynomial : Crc24Q crc24q_frame.
Proof.
  intros l Hl. unfold crc24q_frame. rewrite crc24q_correct by (done || lia). cbn. by rewrite take_ge by (rewrite length_bitlist; lia).
Qed.

Lemma station_roundtrip_witness : exists msg, print_MT1005 crc24q_frame 7 (dbl_of_Z 4849202) (dbl_of_Z (-360328)) (dbl_of_Z 4114913) true false true false false 0 Rtcm_init =
  Some (msg, Rtcm_init) /\ length msg = 25%nat.
Proof.
  destruct (station_roundtrip crc24q_frame 7 (dbl_of_Z 4849202) (dbl_of_Z (-360328)) (dbl_of_Z 4114913) true false true false false 0 Rtcm_init
    48492020000 (-3603280000) 41149130000) as (msg & H & _); [lia|vm_compute; reflexivity|vm_compute; reflexivity|vm_compute; reflexivity|lia|lia|lia|].
  exists msg. split; [exact H|]. vm_compute in H. injection H as <-. reflexivity.
Defined.

Definition demo_galileo : raw_galileo :=
  {| g_prn := 11; g_wn := 1130; g_iod := 93; g_sisa := 107; g_idot := -17; g_toc := 115200; g_af2 := 0; g_af1 := -8; g_af0 := 1200; g_crs := -400; g_dn := 8000;
     g_m0 := -12345; g_cuc := 55; g_ecc := 900; g_cus := 4000; g_sqa := 2852100000; g_toe := 1920; g_cic := 3; g_om0 := 77; g_cis := -9; g_i0 := 600000000;
     g_crc := 5000; g_om := -5; g_omd := -15000; g_bgd := 21; g_hs := 0; g_dvs := true |}.

Lemma galileo_through_rtcm_witness : exists msg, print_MT1045 crc24q_frame (galileo_of demo_galileo) Rtcm_init = Some (msg, Rtcm_init) /\
  forall old, read_MT1045 crc24q_frame msg old = Some (0, galileo_with demo_galileo dbl_zero 30720 (dbl_of_Z 21)).
Proof.
  assert (gal_ok demo_galileo) as Hok by (split; vm_compute; split; congruence).
  destruct (galileo_through_rtcm crc24q_frame demo_galileo Rtcm_init Hok eq_refl) as (msg & H1 & _ & H2). exists msg. split; [exact H1|exact H2].
Defined.

Definition demo_glonass : raw_glonass :=
  {| l_slot := 5; l_freq := 1; l_p1 := 1; l_tk := 61200; l_bn := false; l_p2 := true; l_tb := 69; l_vx := 1234567; l_x := -30000000; l_ax := 3; l_vy := -5;
     l_y := 42; l_ay := 0; l_vz := 1; l_z := 0; l_az := -1; l_p3 := true; l_gamma := 7; l_p := 3; l_l3 := false; l_tau := -1000; l_dtau := 4; l_en := 1;
     l_p4 := true; l_ft := 2; l_nt := 800; l_m := 1; l_l5 := false; l_na := 801; l_tauc := -64; l_n4 := 6; l_taugps := 12 |}.

Lemma glonass_through_rtcm_witness : exists msg, print_MT1020 crc24q_frame (glonass_of demo_glonass) (glonass_utc_of demo_glonass) Rtcm_init = Some (msg, Rtcm_init) /\
  length msg = 51%nat.
Proof.
  assert (glo_ok demo_glonass) as Hok.
  { split; unfold unsigned_in, signed_in, magnitude_in; cbn; lia. }
  destruct (glonass_through_rtcm crc24q_frame demo_glonass Rtcm_init Hok) as (msg & H1 & _). exists msg. split; [exact H1|].
  vm_compute in H1. injection H1 as <-. reflexivity.
Defined.

(** A frame of two octets of data and the same with one bit changed. *)
Definition demo_frame : list Z := default [] (build_message crc24q_frame (bitset 16 0x3ED0)).

Definition demo_station : station :=
  {| st_ref_id := 7; st_x := dbl_of_Z 4849202; st_y := dbl_of_Z (-360328); st_z := dbl_of_Z 4114913;
     st_gps := true; st_glonass := false; st_galileo := true |}.

Lemma damaged_frame_rejected_witness : read_MT1005 crc24q_frame (<[3%nat := 0x3FD0 / 256]> demo_frame) demo_station = Some (1, demo_station).
Proof.
  apply (damaged_frame_rejected crc24q_frame (bitset 16 0x3ED0) demo_frame (<[3%nat := 0x3FD0 / 256]> demo_frame) 24).
  - vm_compute. reflexivity.
  - vm_compute. repeat constructor; congruence.
  - vm_compute. reflexivity.
  - vm_compute. congruence.
  - intros k Hk. destruct (decide (k < 24)%nat) as [H1|H1]; [exfalso; apply Hk|destruct (decide (k < 48)%nat) as [H2|H2]; [lia|exfalso; apply Hk]].
    + do 24 (destruct k as [|k]; [vm_compute; reflexivity|]). lia.
    + do 48 (destruct k as [|k]; [lia|]). do 16 (destruct k as [|k]; [vm_compute; reflexivity|]). vm_compute. reflexivity.
Defined.
