(* ===== verification/GnavTime.v ===== *)
(** * GLONASS time

    [Glonass_Gnav_Ephemeris::glot_to_gpst] of [core/system_parameters/glonass_gnav_ephemeris.cc]:
    the day within four years and the time of day that GLONASS broadcasts, as week and time of
    week of GPS. [GLONASS_LEAP_SECONDS] is the table of [GLONASS_L1_L2_CA.h].

    The dates are those of [boost::gregorian], which is not part of the program: [day_number]
    stands for its day numbers. As it documents, a [ptime] is a date with a time of day between
    0 and 24 hours, so it is a number of seconds here; a year outside 1400 to 9999 is an
    exception, and a conversion to an integer type outside its range is undefined ([None]). *)
From S2P Require Import Prelude Doubles DoublesErr DoublesInt Rtcm.
From stdpp Require Import sorting.
From Stdlib Require Import SpecFloat.

#[local] Open Scope Z_scope.

(** Year, month, day, hours, minutes, seconds and UTC - GPS time; the last row ends the
    table. *)
Definition GLONASS_LEAP_SECONDS : list (Z * Z * Z * Z * Z * Z * Z) :=
  [(2017, 1, 1, 0, 0, 0, -18); (2015, 7, 1, 0, 0, 0, -17); (2012, 7, 1, 0, 0, 0, -16); (2009, 1, 1, 0, 0, 0, -15);
   (2006, 1, 1, 0, 0, 0, -14); (1999, 1, 1, 0, 0, 0, -13); (1997, 7, 1, 0, 0, 0, -12); (1996, 1, 1, 0, 0, 0, -11);
   (1994, 7, 1, 0, 0, 0, -10); (1993, 7, 1, 0, 0, 0, -9); (1992, 7, 1, 0, 0, 0, -8); (1991, 1, 1, 0, 0, 0, -7);
   (1990, 1, 1, 0, 0, 0, -6); (1988, 1, 1, 0, 0, 0, -5); (1985, 7, 1, 0, 0, 0, -4); (1983, 7, 1, 0, 0, 0, -3);
   (1982, 7, 1, 0, 0, 0, -2); (1981, 7, 1, 0, 0, 0, -1); (0, 0, 0, 0, 0, 0, 0)].

(** The variable [J]: the year within the four, 0 if the day is none. *)
Definition four_year_index (d_N_T : double) : Z :=
  if dbl_ge d_N_T (dbl_of_Z 1) && dbl_ge (dbl_of_Z 366) d_N_T then 1
  else if dbl_ge d_N_T (dbl_of_Z 367) && dbl_ge (dbl_of_Z 731) d_N_T then 2
  else if dbl_ge d_N_T (dbl_of_Z 732) && dbl_ge (dbl_of_Z 1096) d_N_T then 3
  else if dbl_ge d_N_T (dbl_of_Z 1097) && dbl_ge (dbl_of_Z 1461) d_N_T then 4
  else 0.

Section Time.
Context (day_number : Z -> Z -> Z -> Z).

Definition gregorian_date (y m d : Z) : option Z := if decide (1400 <= y <= 9999) then Some (day_number y m d) else None.

(** [boost::posix_time::ptime(date, time_duration(h, m, s))] in seconds. *)
Definition ptime (date h m s : Z) : Z := date * 86400 + h * 3600 + m * 60 + s.

(** The loop over the leap seconds: [Some None] is [not_a_date_time]. *)
Fixpoint leap_loop (table : list (Z * Z * Z * Z * Z * Z * Z)) (utc_time : Z) : option (option Z) :=
  match table with
  | [] => None
  | (y, mo, d, h, mi, s, delta) :: rest =>
      if 0 <? y then
        d3 ← gregorian_date y mo d;
        if ptime d3 h mi s <=? utc_time then Some (Some (utc_time + Z.abs delta)) else leap_loop rest utc_time
      else Some None
  end.

Definition glot_to_gpst (d_N_T d_yr tod_offset glot2utc_corr glot2gpst_corr : double) : option (Z * double) :=
  let J := four_year_index d_N_T in
  gps_epoch ← gregorian_date 1980 1 6;
  t ← to_i64 (dbl_sub tod_offset (dbl_of_Z (3 * 3600)));
  year ← cast_range 0 (2 ^ 16) (dbl_add (dbl_sub d_yr (dbl_of_Z J)) (dbl_of_Z 1));
  d1 ← gregorian_date year 1 1;
  d2 ← to_i32 (dbl_sub d_N_T (dbl_of_Z 1));
  let utc_time := ptime (d1 + d2) 0 0 t in
  let utc_date := utc_time / 86400 in
  gps ← leap_loop GLONASS_LEAP_SECONDS utc_time;
  gps_time ← gps;
  let days := dbl_of_Z (utc_date - gps_epoch) in
  let sec_of_day := dbl_of_Z (gps_time mod 86400) in
  let total_sec := dbl_add (dbl_mul days (dbl_of_Z 86400)) sec_of_day in
  let week := dbl_floor (dbl_div total_sec (dbl_of_Z 604800)) in
  wn ← to_i32 week;
  Some (wn, dbl_add (dbl_sub total_sec (dbl_mul (dbl_of_Z 604800) week)) (dbl_add glot2utc_corr glot2gpst_corr)).
End Time.

(** ** Leap seconds *)

Definition leap_start (day_number : Z -> Z -> Z -> Z) (row : Z * Z * Z * Z * Z * Z * Z) : Z :=
  let '(y, mo, d, h, mi, s, _) := row in ptime (day_number y mo d) h mi s.

(** The loop ends at the first row that the time has reached, if it has reached the last one
    before the row of zeros. *)
Lemma leap_loop_first day_number utc table last rest : Forall (fun '(y, _, _, _, _, _, _) => 1400 <= y <= 9999) (table ++ [last]) ->
  leap_start day_number last <= utc ->
  exists i row, (table ++ [last]) !! i = Some row /\ leap_start day_number row <= utc /\
    (forall j r, (j < i)%nat -> (table ++ [last]) !! j = Some r -> utc < leap_start day_number r) /\
    leap_loop day_number (table ++ last :: rest) utc = Some (Some (utc + Z.abs row.2)).
Proof.
  induction table as [|[[[[[[y mo] d] h] mi] s] delta] table IH]; intros Hf Hl.
  - destruct last as [[[[[[y mo] d] h] mi] s] delta]. cbn [app] in *. inversion_clear Hf as [|? ? Hy _]. exists 0%nat, (y, mo, d, h, mi, s, delta).
    split; [done|]. split; [done|]. split; [lia|]. cbn [leap_loop app]. cbn beta iota in Hy. rewrite (proj2 (Z.ltb_lt 0 y)) by lia.
    unfold gregorian_date. rewrite decide_True by lia. cbn [mbind option_bind]. cbn [leap_start] in Hl. by rewrite (proj2 (Z.leb_le _ _)) by lia.
  - cbn [app] in *. inversion_clear Hf as [|? ? Hy Hf']. cbn beta iota in Hy. cbn [leap_loop]. rewrite (proj2 (Z.ltb_lt 0 y)) by lia.
    unfold gregorian_date. rewrite decide_True by lia. cbn [mbind option_bind].
    destruct (Z.leb_spec (ptime (day_number y mo d) h mi s) utc) as [H|H].
    + exists 0%nat, (y, mo, d, h, mi, s, delta). split; [done|]. split; [done|]. split; [lia|done].
    + destruct (IH Hf' Hl) as (i & row & H1 & H2 & H3 & H4). exists (S i), row. split; [done|]. split; [done|]. split; [|done].
      intros [|j] r Hj Hr; [by injection Hr as <-|]. apply (H3 j); [lia|done].
Qed.

(** Whatever the order of the dates, the loop finds a row. *)
Lemma leap_row_found day_number utc : 86400 * day_number 1981 7 1 <= utc ->
  exists ls, leap_loop day_number GLONASS_LEAP_SECONDS utc = Some (Some (utc + ls)) /\ 1 <= ls <= 18.
Proof.
  intros Hu. destruct (leap_loop_first day_number utc (take 17 GLONASS_LEAP_SECONDS) (1981, 7, 1, 0, 0, 0, -1) [(0, 0, 0, 0, 0, 0, 0)])
    as (i & row & Hi & Hr & Hf & Hl); [repeat constructor; lia|cbn [leap_start]; unfold ptime; lia|].
  exists (Z.abs row.2). split; [exact Hl|].
  pose proof (proj1 (Forall_lookup (fun r => 1 <= Z.abs (r : Z * Z * Z * Z * Z * Z * Z).2 <= 18) (take 17 GLONASS_LEAP_SECONDS ++ [(1981, 7, 1, 0, 0, 0, -1)])) ltac:(repeat constructor; cbn; lia) i row Hi) as H. exact H.
Qed.

(** Independently of the table: the first days of the months (year, month) before which UTC had
    a leap second since the start of GPS time. *)
Definition leap_dates : list (Z * Z) :=
  [(1981, 7); (1982, 7); (1983, 7); (1985, 7); (1988, 1); (1990, 1); (1991, 1); (1992, 7); (1993, 7); (1994, 7); (1996, 1); (1997, 7); (1999, 1); (2006, 1); (2009, 1);
   (2012, 7); (2015, 7); (2017, 1)].

Lemma filter_all {A} (P : A -> Prop) `{!forall x, Decision (P x)} l : Forall P l -> filter P l = l.
Proof. induction 1 as [|x l Hx _ IH]; [done|]. by rewrite filter_cons_True, IH. Qed.

Section Leap.
Context (day_number : Z -> Z -> Z -> Z).

Definition day_start (date : Z * Z) : Z := 86400 * day_number date.1 date.2 1.

(** GPS time - UTC: the leap seconds up to a time. *)
Definition leap_seconds (utc : Z) : Z := Z.of_nat (length (filter (fun date => day_start date <= utc) leap_dates)).

(** The rows of a table for these dates, the last date first. *)
Fixpoint leap_rows (k : Z) (dates : list (Z * Z)) (rest : list (Z * Z * Z * Z * Z * Z * Z)) : list (Z * Z * Z * Z * Z * Z * Z) :=
  match dates with
  | [] => rest
  | (y, mo) :: dates' => leap_rows (k + 1) dates' ((y, mo, 1, 0, 0, 0, - k) :: rest)
  end.

Lemma leap_rows_snoc y mo dates : forall k rest, leap_rows k (dates ++ [(y, mo)]) rest = (y, mo, 1, 0, 0, 0, - (k + Z.of_nat (length dates))) :: leap_rows k dates rest.
Proof.
  induction dates as [|[y' mo'] dates IH]; intros k rest; cbn [app leap_rows length]; [do 2 f_equal; lia|]. rewrite IH. do 2 f_equal. lia.
Qed.

(** The loop over the rows of dates in order counts the dates that the time has reached. *)
Lemma leap_loop_counts utc dates : StronglySorted Z.le (day_start <$> dates) -> Forall (fun date => 1400 <= date.1 <= 9999) dates ->
  leap_loop day_number (leap_rows 1 dates [(0, 0, 0, 0, 0, 0, 0)]) utc =
  let n := Z.of_nat (length (filter (fun date => day_start date <= utc) dates)) in Some (if n =? 0 then None else Some (utc + n)).
Proof.
  induction dates as [|[y mo] dates IH] using rev_ind; intros Hs Hf; [done|]. rewrite leap_rows_snoc. apply Forall_app in Hf as [Hf Hy%Forall_inv]. cbn in Hy.
  rewrite fmap_app in Hs. apply StronglySorted_app in Hs as (Hle & Hs & _). cbn [leap_loop]. rewrite (proj2 (Z.ltb_lt 0 y)) by lia.
  unfold gregorian_date. rewrite decide_True by lia. cbn [mbind option_bind]. replace (ptime (day_number y mo 1) 0 0 0) with (day_start (y, mo)) by (unfold day_start, ptime; cbn; lia).
  rewrite filter_app. destruct (Z.leb_spec (day_start (y, mo)) utc) as [H|H].
  - assert (filter (fun date => day_start date <= utc) dates = dates) as ->.
    { apply filter_all. apply list.Forall_forall. intros d Hd. etransitivity; [|exact H]. apply (Hle (day_start d) (day_start (y, mo))); [by apply list_elem_of_fmap_2|by left]. }
    rewrite filter_cons_True by done. cbv zeta. rewrite length_app. cbn [length filter list_filter]. rewrite (proj2 (Z.eqb_neq _ 0)) by lia. do 3 f_equal. lia.
  - rewrite IH by done. rewrite filter_cons_False by lia. cbn [filter list_filter]. by rewrite app_nil_r.
Qed.
End Leap.

(** What the program relies on in [boost::gregorian] here: these dates are in order. *)
Definition dates_in_order (day_number : Z -> Z -> Z -> Z) : Prop := StronglySorted Z.le (day_start day_number <$> leap_dates).

#[global] Instance dates_in_order_dec day_number : Decision (dates_in_order day_number).
Proof. unfold dates_in_order. apply _. Defined.

(** The table of the code is that of the leap seconds. *)
Lemma leap_table : GLONASS_LEAP_SECONDS = leap_rows 1 leap_dates [(0, 0, 0, 0, 0, 0, 0)].
Proof. reflexivity. Qed.

Lemma leap_seconds_found day_number utc : dates_in_order day_number -> 86400 * day_number 1981 7 1 <= utc ->
  leap_loop day_number GLONASS_LEAP_SECONDS utc = Some (Some (utc + leap_seconds day_number utc)) /\ 1 <= leap_seconds day_number utc <= 18.
Proof.
  intros Ho Hu. assert (1 <= leap_seconds day_number utc <= 18) as Hr.
  { unfold leap_seconds. pose proof (length_filter (fun date => day_start day_number date <= utc) leap_dates) as Hl. change (length leap_dates) with 18%nat in Hl. split; [|lia].
    unfold leap_dates at 1. rewrite filter_cons_True by exact Hu. cbn [length]. lia. }
  split; [|done]. rewrite leap_table, (leap_loop_counts day_number utc leap_dates Ho) by (repeat constructor; cbn; lia). cbv zeta. fold (leap_seconds day_number utc).
  by rewrite (proj2 (Z.eqb_neq _ 0)) by lia.
Qed.

(** ** Conversion *)

Lemma four_year_index_range x : 0 <= four_year_index x <= 4.
Proof. unfold four_year_index. repeat case_match; lia. Qed.

Lemma cast_int lo hi z : Z.abs z < 2 ^ 53 -> lo <= z < hi -> cast_range lo hi (dbl_of_Z z) = Some z.
Proof. intros Hz Hr. unfold cast_range. rewrite Z_of_dbl_of_Z by done. cbn [mbind option_bind]. by rewrite decide_True. Qed.

(** The day before and the time of day after the leap seconds. *)
Lemma day_and_time utc ls E : 1 <= ls <= 18 ->
  utc + ls - 86400 * E - (if utc mod 86400 + ls <? 86400 then 0 else 86400) = (utc / 86400 - E) * 86400 + (utc + ls) mod 86400.
Proof.
  intros Hl. pose proof (Z.div_mod utc 86400 ltac:(lia)) as Hd. pose proof (Z.mod_pos_bound utc 86400 ltac:(lia)) as Hm.
  destruct (Z.ltb_spec (utc mod 86400 + ls) 86400).
  - rewrite <- (Z.mod_unique (utc + ls) 86400 (utc / 86400) (utc mod 86400 + ls)) by lia. lia.
  - rewrite <- (Z.mod_unique (utc + ls) 86400 (utc / 86400 + 1) (utc mod 86400 + ls - 86400)) by lia. lia.
Qed.

(** Day [nt] of the four years that begin with [y0], [t] seconds into it, in UTC. *)
Definition utc_seconds (day_number : Z -> Z -> Z -> Z) (y0 nt t : Z) : Z := 86400 * (day_number y0 1 1 + nt - 1) + (t - 10800).

(** The conversion, given the number of leap seconds that the loop finds. *)
Lemma glot_value day_number y0 nt t c1 c2 ls : 1400 <= y0 <= 9000 -> 0 <= nt < 2048 -> 0 <= t < 2 ^ 31 ->
  86400 * day_number 1980 1 6 <= utc_seconds day_number y0 nt t < 86400 * day_number 1980 1 6 + 2 ^ 40 -> 1 <= ls <= 18 ->
  leap_loop day_number GLONASS_LEAP_SECONDS (utc_seconds day_number y0 nt t) = Some (Some (utc_seconds day_number y0 nt t + ls)) ->
  let utc := utc_seconds day_number y0 nt t in
  let s := utc + ls - 86400 * day_number 1980 1 6 - (if utc mod 86400 + ls <? 86400 then 0 else 86400) in
  glot_to_gpst day_number (dbl_of_Z nt) (dbl_of_Z (y0 + four_year_index (dbl_of_Z nt) - 1)) (dbl_of_Z t) c1 c2 =
    Some (s / 604800, dbl_add (dbl_of_Z (s mod 604800)) (dbl_add c1 c2)).
Proof.
  intros Hy Hn Ht Hhi Hr Hls. pose proof (four_year_index_range (dbl_of_Z nt)) as HJ. unfold glot_to_gpst. generalize dependent (four_year_index (dbl_of_Z nt)). intros J HJ.
  unfold gregorian_date. rewrite (decide_True (P := 1400 <= 1980 <= 9999)) by lia. cbn [mbind option_bind].
  rewrite (dbl_sub_int t (3 * 3600)) by lia. unfold to_i64, to_i32. rewrite cast_int by lia. cbn [mbind option_bind].
  rewrite (dbl_sub_int _ J), dbl_add_int by lia. rewrite cast_int by lia. cbn [mbind option_bind].
  rewrite decide_True by lia. cbn [mbind option_bind]. rewrite dbl_sub_int by lia. rewrite cast_int by lia. cbn [mbind option_bind].
  replace (y0 + J - 1 - J + 1) with y0 by lia. unfold ptime.
  replace ((day_number y0 1 1 + (nt - 1)) * 86400 + 0 * 3600 + 0 * 60 + (t - 3 * 3600)) with (utc_seconds day_number y0 nt t) by (unfold utc_seconds; lia).
  rewrite Hls. cbn [mbind option_bind]. generalize dependent (utc_seconds day_number y0 nt t). intros utc Hhi Hls. cbv zeta.
  set (E := day_number 1980 1 6) in *. clearbody E. set (D := utc / 86400 - E). set (S := (utc + ls) mod 86400).
  assert (0 <= D < 2 ^ 30) as HD by (subst D; assert (E <= utc / 86400 < E + 2 ^ 30) by (split; [apply Z.div_le_lower_bound; lia|apply Z.div_lt_upper_bound; lia]); lia).
  assert (0 <= S < 86400) as HS by (apply Z.mod_pos_bound; lia).
  replace (utc + ls - 86400 * E - (if utc mod 86400 + ls <? 86400 then 0 else 86400)) with (D * 86400 + S) by (subst D S; symmetry; by apply day_and_time).
  rewrite (dbl_mul_nat D 86400), dbl_add_int, dbl_floor_div by lia. set (T := D * 86400 + S). assert (0 <= T < 2 ^ 47) as HT by lia.
  assert (0 <= T / 604800 < 2 ^ 28) as Hw by (split; [apply Z.div_pos; lia|apply Z.div_lt_upper_bound; lia]).
  rewrite cast_int by lia. cbn [mbind option_bind]. do 3 f_equal. rewrite dbl_mul_nat, dbl_sub_int by lia. f_equal. rewrite (Z.mod_eq T 604800) by lia. lia.
Qed.

(** C21: the conversion of GLONASS time to GPS time, for every time since the first leap second of
    July 1981: the loop over the table ends with the number of leap seconds of UTC at that
    time, and the week and the time of week are those of the time in UTC plus these leap
    seconds; but if adding them passes midnight, they are those of a day earlier, because the
    day is taken before and the time of day after the addition. The dates of the leap seconds
    have to be in order in the calendar. *)
Theorem time_of_week day_number y0 nt t c1 c2 (Hy : 1400 <= y0 <= 9000) (Hn : 0 <= nt < 2048) (Ht : 0 <= t < 2 ^ 31) (Ho : dates_in_order day_number)
  (He : day_number 1980 1 6 <= day_number 1981 7 1) (Hlo : 86400 * day_number 1981 7 1 <= utc_seconds day_number y0 nt t)
  (Hhi : utc_seconds day_number y0 nt t < 86400 * day_number 1980 1 6 + 2 ^ 40) :
  let utc := utc_seconds day_number y0 nt t in
  let ls := leap_seconds day_number utc in
  let s := utc + ls - 86400 * day_number 1980 1 6 - (if utc mod 86400 + ls <? 86400 then 0 else 86400) in
  leap_loop day_number GLONASS_LEAP_SECONDS utc = Some (Some (utc + ls)) /\
  glot_to_gpst day_number (dbl_of_Z nt) (dbl_of_Z (y0 + four_year_index (dbl_of_Z nt) - 1)) (dbl_of_Z t) c1 c2 =
    Some (s / 604800, dbl_add (dbl_of_Z (s mod 604800)) (dbl_add c1 c2)).
Proof.
  intros utc ls s. destruct (leap_seconds_found day_number utc Ho Hlo) as [Hls Hr]. split; [done|]. apply glot_value; [done|done|done|lia|done|done].
Qed.

(** Days of the Gregorian calendar, counted from 1 March of the year 0. *)
Definition gregorian_days (y m d : Z) : Z :=
  let y' := if m <=? 2 then y - 1 else y in
  let m' := if m <=? 2 then m + 9 else m - 3 in
  365 * y' + y' / 4 - y' / 100 + y' / 400 + (153 * m' + 2) / 5 + (d - 1).

(** Day 800 of the four years from 2020 is 10 March 2022: at 6:00:10 GLONASS time, and at
    2:59:50 of the next day, which is ten seconds before midnight of UTC; and 15 July 1993,
    nine leap seconds after 1980. *)
Lemma time_of_week_witness :
  glot_to_gpst gregorian_days (dbl_of_Z 800) (dbl_of_Z 2022) (dbl_of_Z 21610) dbl_zero dbl_zero = Some (2200, dbl_of_Z 356428) /\
  glot_to_gpst gregorian_days (dbl_of_Z 801) (dbl_of_Z 2022) (dbl_of_Z 10790) dbl_zero dbl_zero = Some (2200, dbl_of_Z (432008 - 86400)) /\
  glot_to_gpst gregorian_days (dbl_of_Z 562) (dbl_of_Z 1993) (dbl_of_Z 21610) dbl_zero dbl_zero = Some (705, dbl_of_Z (4 * 86400 + 10810 + 9)).
Proof.
  split; [|split].
  - destruct (time_of_week gregorian_days 2020 800 21610 dbl_zero dbl_zero) as [_ Hg]; [lia|lia|lia|by apply (bool_decide_unpack _); vm_compute|vm_compute; congruence|vm_compute; congruence|vm_compute; reflexivity|]. exact Hg.
  - destruct (time_of_week gregorian_days 2020 801 10790 dbl_zero dbl_zero) as [_ Hg]; [lia|lia|lia|by apply (bool_decide_unpack _); vm_compute|vm_compute; congruence|vm_compute; congruence|vm_compute; reflexivity|]. exact Hg.
  - destruct (time_of_week gregorian_days 1992 562 21610 dbl_zero dbl_zero) as [_ Hg]; [lia|lia|lia|by apply (bool_decide_unpack _); vm_compute|vm_compute; congruence|vm_compute; congruence|vm_compute; reflexivity|]. exact Hg.
Defined.
