(* ===== verification/Gnav.v ===== *)
(** * GLONASS navigation message

    [core/system_parameters/glonass_gnav_navigation_message.cc]: the Hamming code of a string,
    the fields of the fifteen strings with the positions and tables of [GLONASS_L1_L2_CA.h]
    (module [GLONASS_GNAV]), and the flags that tell when an ephemeris, a UTC model or an
    almanac is complete. The members of [gnav_ephemeris] are grouped by the string that sets
    them; [Glonass_Gnav_Ephemeris] and [Glonass_Gnav_Utc_Model] are the records of [RtcmEph].

    A string arrives as 85 characters, the first one being bit 85 of the interface document,
    and is kept in a [std::bitset], a list of bits by index. An index outside an array and a
    conversion outside the range of its type are undefined ([None]). *)
From stdpp Require Import strings.
From S2P Require Import Prelude Doubles DoublesErr DoublesInt NavBits Rtcm RtcmEph GnavTime.
From Stdlib Require Import SpecFloat.

#[local] Open Scope Z_scope.

Module GLONASS_GNAV.
Definition GLONASS_GNAV_STRING_BITS : Z := 85.
Definition GLONASS_CA_NBR_SATS : nat := 24.

Definition CRC_I_INDEX : list Z := [9; 10; 12; 13; 15; 17; 19; 20; 22; 24; 26; 28; 30; 32; 34; 35; 37; 39; 41; 43; 45; 47; 49; 51; 53; 55; 57; 59; 61; 63; 65;
  66; 68; 70; 72; 74; 76; 78; 80; 82; 84].
Definition CRC_J_INDEX : list Z := [9; 11; 12; 14; 15; 18; 19; 21; 22; 25; 26; 29; 30; 33; 34; 36; 37; 40; 41; 44; 45; 48; 49; 52; 53; 56; 57; 60; 61; 64; 65;
  67; 68; 71; 72; 75; 76; 79; 80; 83; 84].
Definition CRC_K_INDEX : list Z := [10; 11; 12; 16; 17; 18; 19; 23; 24; 25; 26; 31; 32; 33; 34; 38; 39; 40; 41; 46; 47; 48; 49; 54; 55; 56; 57; 62; 63; 64; 65;
  69; 70; 71; 72; 77; 78; 79; 80; 85].
Definition CRC_L_INDEX : list Z := [13; 14; 15; 16; 17; 18; 19; 27; 28; 29; 30; 31; 32; 33; 34; 42; 43; 44; 45; 46; 47; 48; 49; 58; 59; 60; 61; 62; 63; 64; 65;
  73; 74; 75; 76; 77; 78; 79; 80].
Definition CRC_M_INDEX : list Z := [20; 21; 22; 23; 24; 25; 26; 27; 28; 29; 30; 31; 32; 33; 34; 50; 51; 52; 53; 54; 55; 56; 57; 58; 59; 60; 61; 62; 63; 64; 65;
  81; 82; 83; 84; 85].
Definition CRC_N_INDEX : list Z := [35; 36; 37; 38; 39; 40; 41; 42; 43; 44; 45; 46; 47; 48; 49; 50; 51; 52; 53; 54; 55; 56; 57; 58; 59; 60; 61; 62; 63; 64; 65].
Definition CRC_P_INDEX : list Z := [66; 67; 68; 69; 70; 71; 72; 73; 74; 75; 76; 77; 78; 79; 80; 81; 82; 83; 84; 85].
Definition CRC_Q_INDEX : list Z := [9; 10; 11; 12; 13; 14; 15; 16; 17; 18; 19; 20; 21; 22; 23; 24; 25; 26; 27; 28; 29; 30; 31; 32; 33; 34; 35; 36; 37; 38; 39;
  40; 41; 42; 43; 44; 45; 46; 47; 48; 49; 50; 51; 52; 53; 54; 55; 56; 57; 58; 59; 60; 61; 62; 63; 64; 65; 66; 67; 68; 69; 70; 71; 72; 73; 74; 75; 76; 77; 78;
  79; 80; 81; 82; 83; 84; 85].

Definition STRING_ID : slices := [(2, 4)].
Definition KX : slices := [(78, 8)].
Definition P1 : slices := [(8, 2)].
Definition T_K_HR : slices := [(10, 5)].
Definition T_K_MIN : slices := [(15, 6)].
Definition T_K_SEC : slices := [(21, 1)].
Definition X_N_DOT : slices := [(22, 24)].
Definition X_N_DOT_DOT : slices := [(46, 5)].
Definition X_N : slices := [(51, 27)].
Definition B_N : slices := [(6, 3)].
Definition P2 : slices := [(9, 1)].
Definition T_B : slices := [(10, 7)].
Definition Y_N_DOT : slices := [(22, 24)].
Definition Y_N_DOT_DOT : slices := [(46, 5)].
Definition Y_N : slices := [(51, 27)].
Definition P3 : slices := [(6, 1)].
Definition GAMMA_N : slices := [(7, 11)].
Definition P : slices := [(19, 2)].
Definition EPH_L_N : slices := [(21, 1)].
Definition Z_N_DOT : slices := [(22, 24)].
Definition Z_N_DOT_DOT : slices := [(46, 5)].
Definition Z_N : slices := [(51, 27)].
Definition TAU_N : slices := [(6, 22)].
Definition DELTA_TAU_N : slices := [(28, 5)].
Definition E_N : slices := [(33, 5)].
Definition P4 : slices := [(52, 1)].
Definition F_T : slices := [(53, 4)].
Definition N_T : slices := [(60, 11)].
Definition N : slices := [(71, 5)].
Definition M : slices := [(76, 2)].
Definition DAY_NUMBER_A : slices := [(6, 11)].
Definition TAU_C : slices := [(17, 32)].
Definition N_4 : slices := [(50, 5)].
Definition TAU_GPS : slices := [(55, 22)].
Definition ALM_L_N : slices := [(77, 1)].
Definition C_N : slices := [(6, 1)].
Definition M_N_A : slices := [(7, 2)].
Definition N_A : slices := [(9, 5)].
Definition TAU_N_A : slices := [(14, 10)].
Definition LAMBDA_N_A : slices := [(24, 21)].
Definition DELTA_I_N_A : slices := [(45, 18)].
Definition EPSILON_N_A : slices := [(63, 15)].
Definition OMEGA_N_A : slices := [(6, 16)].
Definition T_LAMBDA_N_A : slices := [(22, 21)].
Definition DELTA_T_N_A : slices := [(43, 22)].
Definition DELTA_T_DOT_N_A : slices := [(65, 7)].
Definition H_N_A : slices := [(72, 5)].
Definition B1 : slices := [(6, 11)].
Definition B2 : slices := [(17, 10)].
End GLONASS_GNAV.

(** ** Hamming code *)

(** [for (int i : index) sum_bits += string_bits[i - 1]] *)
Fixpoint sum_index (string_bits : list bool) (index : list Z) (sum_bits : Z) : option Z :=
  match index with
  | [] => Some sum_bits
  | i :: rest => b ← rd string_bits (i - 1); sum_index string_bits rest (u32 (sum_bits + Z.b2z b))
  end.

(** [string_bits[k] ^ (sum_bits % 2)] *)
Definition check_term (bits : list bool) (k : Z) (index : list Z) : option Z :=
  sum_bits ← sum_index bits index 0; b ← rd bits k; Some (Z.lxor (Z.b2z b) (sum_bits mod 2)).

Definition CRC_test (bits : list bool) : option bool :=
  C1 ← check_term bits 0 GLONASS_GNAV.CRC_I_INDEX;
  C2 ← check_term bits 1 GLONASS_GNAV.CRC_J_INDEX;
  C3 ← check_term bits 2 GLONASS_GNAV.CRC_K_INDEX;
  C4 ← check_term bits 3 GLONASS_GNAV.CRC_L_INDEX;
  C5 ← check_term bits 4 GLONASS_GNAV.CRC_M_INDEX;
  C6 ← check_term bits 5 GLONASS_GNAV.CRC_N_INDEX;
  C7 ← check_term bits 6 GLONASS_GNAV.CRC_P_INDEX;
  sum_bits ← sum_index bits GLONASS_GNAV.CRC_Q_INDEX 0;
  sum_hamming ← sum_index bits [1; 2; 3; 4; 5; 6; 7; 8] 0;
  let C_Sigma := Z.lxor (sum_hamming mod 2) (sum_bits mod 2) in
  Some (if C1 + C2 + C3 + C4 + C5 + C6 + C7 + C_Sigma =? 0 then true
        else (C_Sigma =? 1) && (C1 + C2 + C3 + C4 + C5 + C6 + C7 =? 1)).

(** ** Fields *)

Section Read.
Context (bits : list bool).

Definition nav_bool (p : slices) : option bool := read_navigation_bool 85 bits p.
Definition nav_unsigned (p : slices) : option Z := read_navigation_unsigned 85 bits p.

(** [value <<= 1; if (bit) value += 1] on 64 bits, after the first bit, which is the sign. *)
Definition nav_signed (p : slices) : option Z :=
  p0 ← rd p 0; msb ← rd bits (85 - p0.1);
  value ← read_slices 85 bits (fun value b => i64 (i64 (Z.shiftl value 1) + Z.b2z b)) 1 p 0;
  Some (i64 ((if msb : bool then -1 else 1) * value)).

(** [static_cast<double>(read_navigation_unsigned(...))] and the like. *)
Definition udouble (p : slices) : option double := v ← nav_unsigned p; Some (dbl_of_Z v).
Definition sdouble (p : slices) (lsb : double) : option double := v ← nav_signed p; Some (dbl_mul (dbl_of_Z v) lsb).
End Read.

Definition get_frame_number (satellite_slot_number : Z) : Z :=
  if (1 <=? satellite_slot_number) && (satellite_slot_number <=? 5) then 1
  else if (6 <=? satellite_slot_number) && (satellite_slot_number <=? 10) then 2
  else if (11 <=? satellite_slot_number) && (satellite_slot_number <=? 15) then 3
  else if (16 <=? satellite_slot_number) && (satellite_slot_number <=? 20) then 4
  else if (21 <=? satellite_slot_number) && (satellite_slot_number <=? 24) then 5
  else 0.

(** ** State *)

Record str1_data := { d_P_1 : double; d_t_k : double; d_VXn : double; d_AXn : double; d_Xn : double }.
Record str2_data := { d_B_n : double; d_P_2 : bool; d_t_b : double; d_VYn : double; d_AYn : double; d_Yn : double; d_iode : double }.
Record str3_data := { d_P_3 : bool; d_gamma_n : double; d_P : double; d_l3rd_n : bool; d_VZn : double; d_AZn : double; d_Zn : double }.
Record str4_data := { d_tau_n : double; d_Delta_tau_n : double; d_E_n : double; d_P_4 : bool; d_F_T : double; d_N_T : double; d_n : double; d_M : double;
  i_satellite_slot_number : Z; eph_PRN : Z }.

(** The members of the ephemeris that string 5 sets. *)
Record str5_data := { d_l5th_n : bool; d_yr : double; eph_tau_c : double; d_WN : Z; d_TOW : double; d_tod : double }.

(** The strings of the ephemeris, and [gnav_ephemeris.i_satellite_freq_channel]. *)
Record strings_data := { str1 : str1_data; str2 : str2_data; str3 : str3_data; str4 : str4_data; str5 : str5_data; freq_channel : Z }.

Record utc_data := { gnav_utc_model : Glonass_Gnav_Utc_Model.glonass_utc_model; d_B1 : double; d_B2 : double }.

Record almanac := { d_n_A : double; d_H_n_A : double; d_lambda_n_A : double; d_t_lambda_n_A : double; d_Delta_i_n_A : double; d_Delta_T_n_A : double;
  d_Delta_T_n_A_dot : double; d_epsilon_n_A : double; d_omega_n_A : double; d_M_n_A : double; d_tau_n_A : double; d_C_n : bool; d_l_n : bool;
  alm_freq_channel : Z; alm_PRN : Z; alm_slot_number : Z }.

(** [flag_almanac_str_<k>] is entry [k - 6] of [flag_almanac]. *)
Record almanac_data := { gnav_almanac : list almanac; d_previous_Na : list double; i_alm_satellite_slot_number : Z; flag_almanac : list bool }.

Record string_ident := { flag_CRC_test : bool; d_frame_ID : Z; d_string_ID : Z }.
Record string_flags := { flag_ephemeris_str_1 : bool; flag_ephemeris_str_2 : bool; flag_ephemeris_str_3 : bool; flag_ephemeris_str_4 : bool;
  flag_utc_model_str_5 : bool }.
Record time_flags := { flag_update_slot_number : bool; flag_all_ephemeris : bool; flag_TOW_set : bool; flag_TOW_new : bool; d_previous_tb : double }.

Record Gnav_Message := { ident : string_ident; strs : strings_data; utc : utc_data; alm : almanac_data; sflags : string_flags; tflags : time_flags }.

Definition almanac_default : almanac :=
  {| d_n_A := dbl_zero; d_H_n_A := dbl_zero; d_lambda_n_A := dbl_zero; d_t_lambda_n_A := dbl_zero; d_Delta_i_n_A := dbl_zero; d_Delta_T_n_A := dbl_zero;
     d_Delta_T_n_A_dot := dbl_zero; d_epsilon_n_A := dbl_zero; d_omega_n_A := dbl_zero; d_M_n_A := dbl_zero; d_tau_n_A := dbl_zero; d_C_n := false;
     d_l_n := false; alm_freq_channel := 0; alm_PRN := 0; alm_slot_number := 0 |}.

Definition Gnav_Message_init : Gnav_Message :=
  {| ident := {| flag_CRC_test := false; d_frame_ID := 0; d_string_ID := 0 |};
     strs := {| str1 := {| d_P_1 := dbl_zero; d_t_k := dbl_zero; d_VXn := dbl_zero; d_AXn := dbl_zero; d_Xn := dbl_zero |};
       str2 := {| d_B_n := dbl_zero; d_P_2 := false; d_t_b := dbl_zero; d_VYn := dbl_zero; d_AYn := dbl_zero; d_Yn := dbl_zero; d_iode := dbl_zero |};
       str3 := {| d_P_3 := false; d_gamma_n := dbl_zero; d_P := dbl_zero; d_l3rd_n := false; d_VZn := dbl_zero; d_AZn := dbl_zero; d_Zn := dbl_zero |};
       str4 := {| d_tau_n := dbl_zero; d_Delta_tau_n := dbl_zero; d_E_n := dbl_zero; d_P_4 := false; d_F_T := dbl_zero; d_N_T := dbl_zero; d_n := dbl_zero;
         d_M := dbl_zero; i_satellite_slot_number := 0; eph_PRN := 0 |};
       str5 := {| d_l5th_n := false; d_yr := dbl_of_Z 1972; eph_tau_c := dbl_zero; d_WN := 0; d_TOW := dbl_zero; d_tod := dbl_zero |}; freq_channel := 0 |};
     utc := {| gnav_utc_model := {| Glonass_Gnav_Utc_Model.d_N_A := dbl_zero; Glonass_Gnav_Utc_Model.d_tau_c := dbl_zero;
       Glonass_Gnav_Utc_Model.d_N_4 := dbl_zero; Glonass_Gnav_Utc_Model.d_tau_gps := dbl_zero |}; d_B1 := dbl_zero; d_B2 := dbl_zero |};
     alm := {| gnav_almanac := replicate GLONASS_GNAV.GLONASS_CA_NBR_SATS almanac_default; d_previous_Na := replicate GLONASS_GNAV.GLONASS_CA_NBR_SATS dbl_zero;
       i_alm_satellite_slot_number := 0; flag_almanac := replicate 10 false |};
     sflags := {| flag_ephemeris_str_1 := false; flag_ephemeris_str_2 := false; flag_ephemeris_str_3 := false; flag_ephemeris_str_4 := false;
       flag_utc_model_str_5 := false |};
     tflags := {| flag_update_slot_number := false; flag_all_ephemeris := false; flag_TOW_set := false; flag_TOW_new := false; d_previous_tb := dbl_zero |} |}.

(** Assignments to groups of members. *)
Definition with_ident (x : string_ident) (n : Gnav_Message) : Gnav_Message :=
  {| ident := x; strs := strs n; utc := utc n; alm := alm n; sflags := sflags n; tflags := tflags n |}.
Definition with_strs (x : strings_data) (n : Gnav_Message) : Gnav_Message :=
  {| ident := ident n; strs := x; utc := utc n; alm := alm n; sflags := sflags n; tflags := tflags n |}.
Definition with_utc (x : utc_data) (n : Gnav_Message) : Gnav_Message :=
  {| ident := ident n; strs := strs n; utc := x; alm := alm n; sflags := sflags n; tflags := tflags n |}.
Definition with_alm (x : almanac_data) (n : Gnav_Message) : Gnav_Message :=
  {| ident := ident n; strs := strs n; utc := utc n; alm := x; sflags := sflags n; tflags := tflags n |}.
Definition with_sflags (x : string_flags) (n : Gnav_Message) : Gnav_Message :=
  {| ident := ident n; strs := strs n; utc := utc n; alm := alm n; sflags := x; tflags := tflags n |}.
Definition with_tflags (x : time_flags) (n : Gnav_Message) : Gnav_Message :=
  {| ident := ident n; strs := strs n; utc := utc n; alm := alm n; sflags := sflags n; tflags := x |}.
Definition with_freq (f : Z) (n : Gnav_Message) : Gnav_Message :=
  with_strs {| str1 := str1 (strs n); str2 := str2 (strs n); str3 := str3 (strs n); str4 := str4 (strs n); str5 := str5 (strs n); freq_channel := f |} n.

(** ** Strings of the ephemeris *)

Section Strings.
Context (bits : list bool).
Import GLONASS_GNAV.

Definition read_str1 : option str1_data :=
  p1 ← udouble bits P1; h ← udouble bits T_K_HR; m ← udouble bits T_K_MIN; s ← udouble bits T_K_SEC;
  vx ← sdouble bits X_N_DOT TWO_N20; ax ← sdouble bits X_N_DOT_DOT TWO_N30; x ← sdouble bits X_N TWO_N11;
  Some {| d_P_1 := dbl_mul (dbl_add p1 (dbl_of_Z 1)) (dbl_of_Z 15);
          d_t_k := dbl_add (dbl_add (dbl_mul h (dbl_of_Z 3600)) (dbl_mul m (dbl_of_Z 60))) (dbl_mul s (dbl_of_Z 30));
          d_VXn := vx; d_AXn := ax; d_Xn := x |}.

Definition read_str2 : option str2_data :=
  bn ← udouble bits B_N; p2 ← nav_bool bits P2; tb ← udouble bits T_B;
  vy ← sdouble bits Y_N_DOT TWO_N20; ay ← sdouble bits Y_N_DOT_DOT TWO_N30; y ← sdouble bits Y_N TWO_N11;
  Some {| d_B_n := bn; d_P_2 := p2; d_t_b := dbl_mul (dbl_mul tb (dbl_of_Z 15)) (dbl_of_Z 60); d_VYn := vy; d_AYn := ay; d_Yn := y; d_iode := tb |}.

Definition read_str3 : option str3_data :=
  p3 ← nav_bool bits P3; g ← sdouble bits GAMMA_N TWO_N40; p ← udouble bits P; l ← nav_bool bits EPH_L_N;
  vz ← sdouble bits Z_N_DOT TWO_N20; az ← sdouble bits Z_N_DOT_DOT TWO_N30; z ← sdouble bits Z_N TWO_N11;
  Some {| d_P_3 := p3; d_gamma_n := g; d_P := p; d_l3rd_n := l; d_VZn := vz; d_AZn := az; d_Zn := z |}.

Definition read_str4 : option str4_data :=
  tau ← sdouble bits TAU_N TWO_N30; dtau ← sdouble bits DELTA_TAU_N TWO_N30; en ← udouble bits E_N; p4 ← nav_bool bits P4; ft ← udouble bits F_T;
  nt ← udouble bits N_T; n ← udouble bits N; m ← udouble bits M; slot ← to_u32 n;
  Some {| d_tau_n := tau; d_Delta_tau_n := dtau; d_E_n := en; d_P_4 := p4; d_F_T := ft; d_N_T := nt; d_n := n; d_M := m;
          i_satellite_slot_number := slot; eph_PRN := slot |}.

Definition read_utc : option Glonass_Gnav_Utc_Model.glonass_utc_model :=
  na ← udouble bits DAY_NUMBER_A; tauc ← sdouble bits TAU_C TWO_N31; n4 ← udouble bits N_4; tg ← sdouble bits TAU_GPS TWO_N30;
  Some {| Glonass_Gnav_Utc_Model.d_N_A := na; Glonass_Gnav_Utc_Model.d_tau_c := tauc; Glonass_Gnav_Utc_Model.d_N_4 := n4; Glonass_Gnav_Utc_Model.d_tau_gps := tg |}.
End Strings.

(** String 5, if string 4 was received. *)
Definition decode_str5 (day_number : Z -> Z -> Z -> Z) (bits : list bool) (nav : Gnav_Message) : option Gnav_Message :=
  u ← read_utc bits;
  l5 ← nav_bool bits GLONASS_GNAV.ALM_L_N;
  let e := strs nav in
  let J := four_year_index (d_N_T (str4 e)) in
  let yr := dbl_add (dbl_add (dbl_of_Z 1996) (dbl_mul (dbl_of_Z 4) (dbl_sub (Glonass_Gnav_Utc_Model.d_N_4 u) (dbl_of_Z 1)))) (dbl_sub (dbl_of_Z J) (dbl_of_Z 1)) in
  wt ← (if flag_ephemeris_str_1 (sflags nav) then
          glot_to_gpst day_number (d_N_T (str4 e)) yr (dbl_add (d_t_k (str1 e)) (dbl_of_Z 10)) (Glonass_Gnav_Utc_Model.d_tau_c u) (Glonass_Gnav_Utc_Model.d_tau_gps u)
        else Some (d_WN (str5 e), d_TOW (str5 e)));
  let s5 := {| d_l5th_n := l5; d_yr := yr; eph_tau_c := Glonass_Gnav_Utc_Model.d_tau_c u; d_WN := wt.1; d_TOW := wt.2;
    d_tod := dbl_add (d_t_k (str1 e)) (dbl_of_Z (u32 (2 * d_string_ID (ident nav)))) |} in
  let f := sflags nav in
  let t := tflags nav in
  Some {| ident := ident nav;
    strs := {| str1 := str1 e; str2 := str2 e; str3 := str3 e; str4 := str4 e; str5 := s5; freq_channel := freq_channel e |};
    utc := {| gnav_utc_model := u; d_B1 := d_B1 (utc nav); d_B2 := d_B2 (utc nav) |}; alm := alm nav;
    sflags := {| flag_ephemeris_str_1 := flag_ephemeris_str_1 f; flag_ephemeris_str_2 := flag_ephemeris_str_2 f;
      flag_ephemeris_str_3 := flag_ephemeris_str_3 f; flag_ephemeris_str_4 := flag_ephemeris_str_4 f; flag_utc_model_str_5 := true |};
    tflags := {| flag_update_slot_number := flag_update_slot_number t; flag_all_ephemeris := flag_all_ephemeris t;
      flag_TOW_set := if flag_ephemeris_str_1 f then true else flag_TOW_set t; flag_TOW_new := if flag_ephemeris_str_1 f then true else flag_TOW_new t;
      d_previous_tb := d_previous_tb t |} |}.

(** ** Strings of the almanac *)

Definition alm_flag (a : almanac_data) (k : Z) : bool := default false (rd (flag_almanac a) (k - 6)).
Definition set_alm_flag (k : Z) (b : bool) (l : list bool) : list bool := <[Z.to_nat (k - 6) := b]> l.

(** Strings 6, 8, 10, 12 and 14. *)
Definition almanac_first (bits : list bool) (k : Z) (nav : Gnav_Message) : option (Z * Gnav_Message) :=
  slot ← nav_unsigned bits GLONASS_GNAV.N_A;
  let frame := get_frame_number slot in
  let a := alm nav in
  let nav := with_ident {| flag_CRC_test := flag_CRC_test (ident nav); d_frame_ID := frame; d_string_ID := d_string_ID (ident nav) |}
    (with_alm {| gnav_almanac := gnav_almanac a; d_previous_Na := d_previous_Na a; i_alm_satellite_slot_number := slot; flag_almanac := flag_almanac a |} nav) in
  if frame =? 0 then Some (0, nav)
  else
    old ← rd (gnav_almanac a) (slot - 1);
    c ← nav_bool bits GLONASS_GNAV.C_N; m ← udouble bits GLONASS_GNAV.M_N_A; n ← udouble bits GLONASS_GNAV.N_A;
    tau ← udouble bits GLONASS_GNAV.TAU_N_A; lambda ← sdouble bits GLONASS_GNAV.LAMBDA_N_A TWO_N20; di ← sdouble bits GLONASS_GNAV.DELTA_I_N_A TWO_N20;
    eps ← udouble bits GLONASS_GNAV.EPSILON_N_A;
    al ← wr (gnav_almanac a) (slot - 1) {| d_n_A := n; d_H_n_A := d_H_n_A old; d_lambda_n_A := dbl_mul lambda GNSS_PI; d_t_lambda_n_A := d_t_lambda_n_A old;
      d_Delta_i_n_A := dbl_mul di GNSS_PI; d_Delta_T_n_A := d_Delta_T_n_A old; d_Delta_T_n_A_dot := d_Delta_T_n_A_dot old; d_epsilon_n_A := dbl_mul eps TWO_N20;
      d_omega_n_A := d_omega_n_A old; d_M_n_A := m; d_tau_n_A := dbl_mul tau TWO_N18; d_C_n := c; d_l_n := d_l_n old; alm_freq_channel := alm_freq_channel old;
      alm_PRN := alm_PRN old; alm_slot_number := alm_slot_number old |};
    Some (k, with_alm {| gnav_almanac := al; d_previous_Na := d_previous_Na a; i_alm_satellite_slot_number := slot;
      flag_almanac := set_alm_flag k true (flag_almanac a) |} nav).

(** Strings 7, 9, 11, 13 and 15: only string 7 copies the frequency channel to the
    ephemeris. *)
Definition almanac_second (bits : list bool) (k : Z) (nav : Gnav_Message) : option (Z * Gnav_Message) :=
  let a := alm nav in
  let slot := i_alm_satellite_slot_number a in
  old ← rd (gnav_almanac a) (slot - 1);
  om ← sdouble bits GLONASS_GNAV.OMEGA_N_A TWO_N15; tl ← udouble bits GLONASS_GNAV.T_LAMBDA_N_A; dt ← sdouble bits GLONASS_GNAV.DELTA_T_N_A TWO_N9;
  dtd ← sdouble bits GLONASS_GNAV.DELTA_T_DOT_N_A TWO_N14; h ← udouble bits GLONASS_GNAV.H_N_A; l ← nav_bool bits GLONASS_GNAV.ALM_L_N;
  freq ← (if SFltb (dbl_of_Z 24) h then to_i32 (dbl_sub h (dbl_of_Z 32)) else Some (alm_freq_channel old));
  slot_nr ← to_u32 (d_n_A old);
  al ← wr (gnav_almanac a) (slot - 1) {| d_n_A := d_n_A old; d_H_n_A := h; d_lambda_n_A := d_lambda_n_A old; d_t_lambda_n_A := dbl_mul tl TWO_N5;
    d_Delta_i_n_A := d_Delta_i_n_A old; d_Delta_T_n_A := dt; d_Delta_T_n_A_dot := dtd; d_epsilon_n_A := d_epsilon_n_A old;
    d_omega_n_A := dbl_mul om GNSS_PI; d_M_n_A := d_M_n_A old; d_tau_n_A := d_tau_n_A old; d_C_n := d_C_n old; d_l_n := l; alm_freq_channel := freq;
    alm_PRN := slot_nr; alm_slot_number := slot_nr |};
  let nav1 := if (k =? 7) && (slot =? i_satellite_slot_number (str4 (strs nav))) then with_freq freq nav else nav in
  Some (k, with_alm {| gnav_almanac := al; d_previous_Na := d_previous_Na a; i_alm_satellite_slot_number := slot;
    flag_almanac := set_alm_flag k true (flag_almanac a) |} nav1).

(** ** The decoder of a string *)

Definition set_str1 (s : str1_data) (n : Gnav_Message) : Gnav_Message :=
  let e := strs n in let f := sflags n in
  with_strs {| str1 := s; str2 := str2 e; str3 := str3 e; str4 := str4 e; str5 := str5 e; freq_channel := freq_channel e |}
  (with_sflags {| flag_ephemeris_str_1 := true; flag_ephemeris_str_2 := flag_ephemeris_str_2 f; flag_ephemeris_str_3 := flag_ephemeris_str_3 f;
    flag_ephemeris_str_4 := flag_ephemeris_str_4 f; flag_utc_model_str_5 := flag_utc_model_str_5 f |} n).

Definition set_str2 (s : str2_data) (n : Gnav_Message) : Gnav_Message :=
  let e := strs n in let f := sflags n in
  with_strs {| str1 := str1 e; str2 := s; str3 := str3 e; str4 := str4 e; str5 := str5 e; freq_channel := freq_channel e |}
  (with_sflags {| flag_ephemeris_str_1 := flag_ephemeris_str_1 f; flag_ephemeris_str_2 := true; flag_ephemeris_str_3 := flag_ephemeris_str_3 f;
    flag_ephemeris_str_4 := flag_ephemeris_str_4 f; flag_utc_model_str_5 := flag_utc_model_str_5 f |} n).

Definition set_str3 (s : str3_data) (n : Gnav_Message) : Gnav_Message :=
  let e := strs n in let f := sflags n in
  with_strs {| str1 := str1 e; str2 := str2 e; str3 := s; str4 := str4 e; str5 := str5 e; freq_channel := freq_channel e |}
  (with_sflags {| flag_ephemeris_str_1 := flag_ephemeris_str_1 f; flag_ephemeris_str_2 := flag_ephemeris_str_2 f; flag_ephemeris_str_3 := true;
    flag_ephemeris_str_4 := flag_ephemeris_str_4 f; flag_utc_model_str_5 := flag_utc_model_str_5 f |} n).

Definition set_flag_update_slot_number (b : bool) (n : Gnav_Message) : Gnav_Message :=
  with_tflags {| flag_update_slot_number := b; flag_all_ephemeris := flag_all_ephemeris (tflags n); flag_TOW_set := flag_TOW_set (tflags n);
    flag_TOW_new := flag_TOW_new (tflags n); d_previous_tb := d_previous_tb (tflags n) |} n.

Definition set_flag_TOW_new (b : bool) (n : Gnav_Message) : Gnav_Message :=
  with_tflags {| flag_update_slot_number := flag_update_slot_number (tflags n); flag_all_ephemeris := flag_all_ephemeris (tflags n);
    flag_TOW_set := flag_TOW_set (tflags n); flag_TOW_new := b; d_previous_tb := d_previous_tb (tflags n) |} n.

(** Setters of the flags of the ephemeris. *)
Definition set_flag_ephemeris_str_1 (b : bool) (n : Gnav_Message) : Gnav_Message :=
  with_sflags {| flag_ephemeris_str_1 := b; flag_ephemeris_str_2 := flag_ephemeris_str_2 (sflags n);
    flag_ephemeris_str_3 := flag_ephemeris_str_3 (sflags n); flag_ephemeris_str_4 := flag_ephemeris_str_4 (sflags n); flag_utc_model_str_5 := flag_utc_model_str_5 (sflags n) |} n.
Definition set_flag_ephemeris_str_2 (b : bool) (n : Gnav_Message) : Gnav_Message :=
  with_sflags {| flag_ephemeris_str_1 := flag_ephemeris_str_1 (sflags n); flag_ephemeris_str_2 := b;
    flag_ephemeris_str_3 := flag_ephemeris_str_3 (sflags n); flag_ephemeris_str_4 := flag_ephemeris_str_4 (sflags n); flag_utc_model_str_5 := flag_utc_model_str_5 (sflags n) |} n.
Definition set_flag_ephemeris_str_3 (b : bool) (n : Gnav_Message) : Gnav_Message :=
  with_sflags {| flag_ephemeris_str_1 := flag_ephemeris_str_1 (sflags n); flag_ephemeris_str_2 := flag_ephemeris_str_2 (sflags n);
    flag_ephemeris_str_3 := b; flag_ephemeris_str_4 := flag_ephemeris_str_4 (sflags n); flag_utc_model_str_5 := flag_utc_model_str_5 (sflags n) |} n.
Definition set_flag_ephemeris_str_4 (b : bool) (n : Gnav_Message) : Gnav_Message :=
  with_sflags {| flag_ephemeris_str_1 := flag_ephemeris_str_1 (sflags n); flag_ephemeris_str_2 := flag_ephemeris_str_2 (sflags n);
    flag_ephemeris_str_3 := flag_ephemeris_str_3 (sflags n); flag_ephemeris_str_4 := b; flag_utc_model_str_5 := flag_utc_model_str_5 (sflags n) |} n.

Definition set_str4 (s : str4_data) (n : Gnav_Message) : Gnav_Message :=
  let e := strs n in let f := sflags n in
  with_strs {| str1 := str1 e; str2 := str2 e; str3 := str3 e; str4 := s; str5 := str5 e; freq_channel := freq_channel e |}
  (with_sflags {| flag_ephemeris_str_1 := flag_ephemeris_str_1 f; flag_ephemeris_str_2 := flag_ephemeris_str_2 f; flag_ephemeris_str_3 := flag_ephemeris_str_3 f;
    flag_ephemeris_str_4 := true; flag_utc_model_str_5 := flag_utc_model_str_5 f |} (set_flag_update_slot_number true n)).

Definition string_decoder (day_number : Z -> Z -> Z -> Z) (frame_string : list bool) (nav0 : Gnav_Message) : option (Z * Gnav_Message) :=
  let bits := reverse frame_string in
  ok ← CRC_test bits;
  if negb ok then Some (0, with_ident {| flag_CRC_test := false; d_frame_ID := 0; d_string_ID := d_string_ID (ident nav0) |} nav0)
  else
    id ← nav_unsigned bits GLONASS_GNAV.STRING_ID;
    let nav := with_ident {| flag_CRC_test := true; d_frame_ID := 0; d_string_ID := id |} nav0 in
    match id with
    | 1 => s ← read_str1 bits; Some (id, set_str1 s nav)
    | 2 => if flag_ephemeris_str_1 (sflags nav) then s ← read_str2 bits; Some (id, set_str2 s nav) else Some (id, nav)
    | 3 => if flag_ephemeris_str_2 (sflags nav) then s ← read_str3 bits; Some (id, set_str3 s nav) else Some (id, nav)
    | 4 => if flag_ephemeris_str_3 (sflags nav) then s ← read_str4 bits; Some (id, set_str4 s nav) else Some (id, nav)
    | 5 => if flag_ephemeris_str_4 (sflags nav) then n ← decode_str5 day_number bits nav; Some (id, n) else Some (id, nav)
    | 6 | 8 | 10 | 12 => almanac_first bits id nav
    | 7 | 9 | 11 | 13 => if alm_flag (alm nav) (id - 1) then almanac_second bits id nav else Some (id, nav)
    | 14 =>
        if d_frame_ID (ident nav) =? 5 then
          b1 ← udouble bits GLONASS_GNAV.B1; b2 ← udouble bits GLONASS_GNAV.B2;
          Some (id, with_utc {| gnav_utc_model := gnav_utc_model (utc nav); d_B1 := b1; d_B2 := b2 |} nav)
        else almanac_first bits id nav
    | 15 => if negb (d_frame_ID (ident nav) =? 5) && alm_flag (alm nav) 14 then almanac_second bits id nav else Some (id, nav)
    | _ => Some (id, nav)
    end.

(** ** Complete data *)

(** [x != y] *)
Definition dbl_ne (x y : double) : bool := negb (SFeqb x y).

Definition have_new_ephemeris (nav : Gnav_Message) : bool * Gnav_Message :=
  let f := sflags nav in
  if flag_ephemeris_str_1 f && flag_ephemeris_str_2 f && flag_ephemeris_str_3 f && flag_ephemeris_str_4 f && flag_utc_model_str_5 f then
    if dbl_ne (d_previous_tb (tflags nav)) (d_t_b (str2 (strs nav))) then
      (true, with_tflags {| flag_update_slot_number := flag_update_slot_number (tflags nav); flag_all_ephemeris := true; flag_TOW_set := flag_TOW_set (tflags nav);
          flag_TOW_new := flag_TOW_new (tflags nav); d_previous_tb := d_t_b (str2 (strs nav)) |}
        (with_sflags {| flag_ephemeris_str_1 := false; flag_ephemeris_str_2 := false; flag_ephemeris_str_3 := false; flag_ephemeris_str_4 := false;
          flag_utc_model_str_5 := true |} nav))
    else (false, nav)
  else (false, nav).

Definition have_new_utc_model (nav : Gnav_Message) : bool * Gnav_Message :=
  let f := sflags nav in
  if flag_utc_model_str_5 f then
    (true, with_sflags {| flag_ephemeris_str_1 := flag_ephemeris_str_1 f; flag_ephemeris_str_2 := flag_ephemeris_str_2 f;
      flag_ephemeris_str_3 := flag_ephemeris_str_3 f; flag_ephemeris_str_4 := flag_ephemeris_str_4 f; flag_utc_model_str_5 := false |} nav)
  else (false, nav).

(** One of the five tests of [have_new_almanac], for strings [k] and [k + 1]. *)
Definition new_almanac_pair (k : Z) (acc : bool * Gnav_Message) : option (bool * Gnav_Message) :=
  let '(new_alm, nav) := acc in
  let a := alm nav in
  if alm_flag a k && alm_flag a (k + 1) then
    prev ← rd (d_previous_Na a) (i_alm_satellite_slot_number a);
    if dbl_ne prev (Glonass_Gnav_Utc_Model.d_N_A (gnav_utc_model (utc nav))) then
      Some (true, with_alm {| gnav_almanac := gnav_almanac a; d_previous_Na := d_previous_Na a; i_alm_satellite_slot_number := i_alm_satellite_slot_number a;
        flag_almanac := set_alm_flag (k + 1) false (set_alm_flag k false (flag_almanac a)) |} nav)
    else Some (new_alm, nav)
  else Some (new_alm, nav).

Definition have_new_almanac (nav : Gnav_Message) : option (bool * Gnav_Message) :=
  a ← new_almanac_pair 6 (false, nav); b ← new_almanac_pair 8 a; c ← new_almanac_pair 10 b; d ← new_almanac_pair 12 c; new_almanac_pair 14 d.

Definition get_almanac (satellite_slot_number : Z) (nav : Gnav_Message) : option almanac := rd (gnav_almanac (alm nav)) (satellite_slot_number - 1).

(** The object [gnav_ephemeris]: what message 1020 of RTCM carries, and the rest. *)
Record gnav_ephemeris := { eph : Glonass_Gnav_Ephemeris.glonass_ephemeris; out_n : double; out_PRN : Z; out_yr : double; out_iode : double; out_tau_c : double;
  out_TOW : double; out_WN : Z; out_tod : double }.

Definition get_ephemeris (nav : Gnav_Message) : gnav_ephemeris :=
  let e := strs nav in
  {| eph := {| Glonass_Gnav_Ephemeris.i_satellite_slot_number := i_satellite_slot_number (str4 e); Glonass_Gnav_Ephemeris.i_satellite_freq_channel := freq_channel e;
       Glonass_Gnav_Ephemeris.d_P_1 := d_P_1 (str1 e); Glonass_Gnav_Ephemeris.d_t_k := d_t_k (str1 e); Glonass_Gnav_Ephemeris.d_B_n := d_B_n (str2 e);
       Glonass_Gnav_Ephemeris.d_P_2 := d_P_2 (str2 e); Glonass_Gnav_Ephemeris.d_t_b := d_t_b (str2 e); Glonass_Gnav_Ephemeris.d_VXn := d_VXn (str1 e);
       Glonass_Gnav_Ephemeris.d_Xn := d_Xn (str1 e); Glonass_Gnav_Ephemeris.d_AXn := d_AXn (str1 e); Glonass_Gnav_Ephemeris.d_VYn := d_VYn (str2 e);
       Glonass_Gnav_Ephemeris.d_Yn := d_Yn (str2 e); Glonass_Gnav_Ephemeris.d_AYn := d_AYn (str2 e); Glonass_Gnav_Ephemeris.d_VZn := d_VZn (str3 e);
       Glonass_Gnav_Ephemeris.d_Zn := d_Zn (str3 e); Glonass_Gnav_Ephemeris.d_AZn := d_AZn (str3 e); Glonass_Gnav_Ephemeris.d_P_3 := d_P_3 (str3 e);
       Glonass_Gnav_Ephemeris.d_gamma_n := d_gamma_n (str3 e); Glonass_Gnav_Ephemeris.d_P := d_P (str3 e); Glonass_Gnav_Ephemeris.d_l3rd_n := d_l3rd_n (str3 e);
       Glonass_Gnav_Ephemeris.d_tau_n := d_tau_n (str4 e); Glonass_Gnav_Ephemeris.d_Delta_tau_n := d_Delta_tau_n (str4 e); Glonass_Gnav_Ephemeris.d_E_n := d_E_n (str4 e);
       Glonass_Gnav_Ephemeris.d_P_4 := d_P_4 (str4 e); Glonass_Gnav_Ephemeris.d_F_T := d_F_T (str4 e); Glonass_Gnav_Ephemeris.d_N_T := d_N_T (str4 e);
       Glonass_Gnav_Ephemeris.d_M := d_M (str4 e); Glonass_Gnav_Ephemeris.d_l5th_n := d_l5th_n (str5 e) |};
     out_n := d_n (str4 e); out_PRN := eph_PRN (str4 e); out_yr := d_yr (str5 e); out_iode := d_iode (str2 e); out_tau_c := eph_tau_c (str5 e);
     out_TOW := d_TOW (str5 e); out_WN := d_WN (str5 e); out_tod := d_tod (str5 e) |}.
