(* ===== verification/GnavHamming.v ===== *)
(** * Hamming code of GLONASS strings

    The check of [Glonass_Gnav_Navigation_Message::CRC_test] with its tables of bit numbers is
    the extended Hamming code of the interface document: every bit has an address, the check
    bits the powers of two and the others the numbers in between, and the checksums are the
    exclusive or of the addresses of the bits that are set. It follows which damage the decoder
    notices. *)
From S2P Require Import Prelude Linear Doubles DoublesErr NavBits Rtcm RtcmEph GnavTime Gnav.
From Stdlib Require Import SpecFloat.

#[local] Open Scope Z_scope.

(** Addresses of bits 1 to 85; bit 8 is the parity of the whole string. *)
Definition addresses : list Z :=
  [1; 2; 4; 8; 16; 32; 64; 0] ++ filter (fun k => k <> 2 ^ Z.log2 k) (seqZ 3 82).

(** The exclusive or of the addresses of the set bits of [w], from bit [i] on. *)
Fixpoint syndrome_from (i : Z) (l : list Z) (w : Z) : Z :=
  match l with
  | [] => 0
  | a :: l' => Z.lxor (if Z.testbit w i then a else 0) (syndrome_from (i + 1) l' w)
  end.
Definition syndrome (w : Z) : Z := syndrome_from 0 addresses w.

Definition parity (w : Z) : bool := bits_parity (val_bits 85 w).

(** What the interface document accepts: no checksum set, or the parity and one other. *)
Definition accepted (s : Z) (p : bool) : bool :=
  if p then existsb (Z.eqb s) [1; 2; 4; 8; 16; 32; 64] else s =? 0.

(** ** The checksums of the code *)

Definition xor_index (w : Z) (index : list Z) : bool := foldr (fun i b => xorb (Z.testbit w (i - 1)) b) false index.

Lemma bit_of_string (m : list bool) i : 0 <= i < Z.of_nat (length m) -> rd (reverse m) i = Some (Z.testbit (bits_val m) i).
Proof.
  intros Hi. rewrite rd_nonneg, reverse_lookup by lia. pose proof (f_equal (lookup (length m - S (Z.to_nat i))%nat) (val_bits_bits_val m)) as H.
  cbn beta in H. rewrite <- H, lookup_val_bits, decide_True by lia. do 2 f_equal. lia.
Qed.

Lemma odd_u32 x : Z.odd (u32 x) = Z.odd x.
Proof. rewrite <- !Z.bit0_odd, testbit_uwrap by lia. done. Qed.

Lemma sum_index_parity m index acc : Forall (fun i => 1 <= i <= Z.of_nat (length m)) index ->
  exists s, sum_index (reverse m) index acc = Some s /\ Z.odd s = xorb (Z.odd acc) (xor_index (bits_val m) index).
Proof.
  revert acc. induction index as [|i index IH]; intros acc Hf; cbn [sum_index xor_index foldr].
  - exists acc. by rewrite xorb_false_r.
  - inversion_clear Hf as [|? ? Hi Hf']. rewrite bit_of_string by lia. cbn [mbind option_bind]. destruct (IH (u32 (acc + Z.b2z (Z.testbit (bits_val m) (i - 1)))) Hf') as (s & -> & Hs).
    exists s. split; [done|]. rewrite Hs, odd_u32, Z.odd_add. fold (xor_index (bits_val m) index). destruct (Z.testbit _ _); cbn [Z.b2z Z.odd]; by destruct (Z.odd acc), (xor_index _ _).
Qed.

Lemma odd_mod_2 s : s mod 2 = Z.b2z (Z.odd s).
Proof. rewrite Zmod_odd. by destruct (Z.odd s). Qed.

Definition in_string : list Z -> bool := forallb (fun i => (1 <=? i) && (i <=? 85)).

Section Check.
Context (m : list bool) (Hm : length m = 85%nat).

Lemma index_sum index : in_string index = true -> exists s, sum_index (reverse m) index 0 = Some s /\ s mod 2 = Z.b2z (xor_index (bits_val m) index).
Proof.
  intros Hi. destruct (sum_index_parity m index 0) as (s & Hs & Ho).
  { apply Forall_forall. intros i Hin. pose proof (proj1 (forallb_forall _ _) Hi i Hin) as H. cbn beta in H. lia. }
  exists s. split; [done|]. by rewrite odd_mod_2, Ho, xorb_false_l.
Qed.

Lemma check_term_spec k index : in_string index = true -> 0 <= k < 85 ->
  check_term (reverse m) k index = Some (Z.b2z (xorb (Z.testbit (bits_val m) k) (xor_index (bits_val m) index))).
Proof.
  intros Hi Hk. destruct (index_sum index Hi) as (s & Hs & H2). unfold check_term. rewrite Hs, bit_of_string by lia. cbn [mbind option_bind]. rewrite H2.
  by destruct (Z.testbit _ _), (xor_index _ _).
Qed.
End Check.

(** The seven checksums as a number. *)
Definition check_tables : list (list Z) :=
  [GLONASS_GNAV.CRC_I_INDEX; GLONASS_GNAV.CRC_J_INDEX; GLONASS_GNAV.CRC_K_INDEX; GLONASS_GNAV.CRC_L_INDEX; GLONASS_GNAV.CRC_M_INDEX; GLONASS_GNAV.CRC_N_INDEX;
   GLONASS_GNAV.CRC_P_INDEX].
Fixpoint checksums (k : Z) (tables : list (list Z)) (w : Z) : Z :=
  match tables with
  | [] => 0
  | t :: rest => Z.lxor (Z.shiftl (Z.b2z (xorb (Z.testbit w k) (xor_index w t))) k) (checksums (k + 1) rest w)
  end.

Lemma linear_xor_index index : linear (fun w => Z.b2z (xor_index w index)).
Proof.
  intros a b Ha Hb. induction index as [|i index IH]; [done|]. cbn [xor_index foldr]. fold (xor_index (Z.lxor a b) index) (xor_index a index) (xor_index b index).
  rewrite Z.lxor_spec. destruct (xor_index (Z.lxor a b) index), (xor_index a index), (xor_index b index), (Z.testbit a (i - 1)), (Z.testbit b (i - 1)); done.
Qed.

Lemma linear_b2z_xorb f g : linear (fun w => Z.b2z (f w)) -> linear (fun w => Z.b2z (g w)) -> linear (fun w => Z.b2z (xorb (f w) (g w))).
Proof.
  intros Hf Hg a b Ha Hb. specialize (Hf a b Ha Hb). specialize (Hg a b Ha Hb). cbn beta in *.
  by destruct (f (Z.lxor a b)), (f a), (f b), (g (Z.lxor a b)), (g a), (g b).
Qed.

Lemma linear_checksums k tables : linear (checksums k tables).
Proof.
  revert k. induction tables as [|t rest IH]; intros k; [done|]. apply (linear_lxor (fun w => Z.shiftl _ k) (checksums (k + 1) rest)); [|apply IH].
  apply (linear_shiftl (fun w => Z.b2z _)). apply linear_b2z_xorb; [apply linear_bit|apply linear_xor_index].
Qed.

Lemma linear_syndrome_from i l : linear (syndrome_from i l).
Proof.
  revert i. induction l as [|a l IH]; intros i; [done|]. apply (linear_lxor (fun w => if Z.testbit w i then a else 0) (syndrome_from (i + 1) l)); [|apply IH].
  intros x y Hx Hy. rewrite Z.lxor_spec. destruct (Z.testbit x i), (Z.testbit y i); cbn [xorb]; by rewrite ?Z.lxor_nilpotent, ?Z.lxor_0_r, ?Z.lxor_0_l.
Qed.

Lemma linear_parity : linear (fun w => Z.b2z (parity w)).
Proof. intros a b Ha Hb. unfold parity. rewrite bits_parity_lxor. by destruct (bits_parity (val_bits 85 a)), (bits_parity (val_bits 85 b)). Qed.

Lemma checksums_syndrome w : 0 <= w < 2 ^ 85 -> checksums 0 check_tables w = syndrome w.
Proof. apply (linear_ext 85); [apply linear_checksums|apply linear_syndrome_from|vm_compute; reflexivity]. Qed.

Lemma parity_tables w : 0 <= w < 2 ^ 85 ->
  Z.b2z (xorb (xor_index w [1; 2; 3; 4; 5; 6; 7; 8]) (xor_index w GLONASS_GNAV.CRC_Q_INDEX)) = Z.b2z (parity w).
Proof.
  apply (linear_ext 85 (fun w => Z.b2z (xorb (xor_index w [1; 2; 3; 4; 5; 6; 7; 8]) (xor_index w GLONASS_GNAV.CRC_Q_INDEX))) (fun w => Z.b2z (parity w))); [apply linear_b2z_xorb; apply linear_xor_index|apply linear_parity|vm_compute; reflexivity].
Qed.

(** The sum of the checksums tells how many are set. *)
Lemma accepted_sums c1 c2 c3 c4 c5 c6 c7 p :
  (if Z.b2z c1 + Z.b2z c2 + Z.b2z c3 + Z.b2z c4 + Z.b2z c5 + Z.b2z c6 + Z.b2z c7 + Z.b2z p =? 0 then true
   else (Z.b2z p =? 1) && (Z.b2z c1 + Z.b2z c2 + Z.b2z c3 + Z.b2z c4 + Z.b2z c5 + Z.b2z c6 + Z.b2z c7 =? 1)) =
  accepted (Z.lxor (Z.shiftl (Z.b2z c1) 0) (Z.lxor (Z.shiftl (Z.b2z c2) 1) (Z.lxor (Z.shiftl (Z.b2z c3) 2) (Z.lxor (Z.shiftl (Z.b2z c4) 3)
    (Z.lxor (Z.shiftl (Z.b2z c5) 4) (Z.lxor (Z.shiftl (Z.b2z c6) 5) (Z.lxor (Z.shiftl (Z.b2z c7) 6) 0))))))) p.
Proof. destruct c1, c2, c3, c4, c5, c6, c7, p; vm_compute; reflexivity. Qed.

(** The check of a string of 85 bits is that of the Hamming code. *)
Lemma CRC_test_hamming m : length m = 85%nat -> CRC_test (reverse m) = Some (accepted (syndrome (bits_val m)) (parity (bits_val m))).
Proof.
  intros Hm. pose proof (bits_val_range m) as Hr. rewrite Hm in Hr. change (Z.of_nat 85) with 85 in Hr. unfold CRC_test.
  rewrite !(check_term_spec m Hm) by (done || lia). cbn [mbind option_bind].
  destruct (index_sum m Hm GLONASS_GNAV.CRC_Q_INDEX ltac:(done)) as (q & -> & Hq). destruct (index_sum m Hm [1; 2; 3; 4; 5; 6; 7; 8] ltac:(done)) as (h & -> & Hh).
  cbn [mbind option_bind]. f_equal. rewrite Hq, Hh, <- (checksums_syndrome _ Hr).
  pose proof (parity_tables _ Hr) as Hp. apply Z.b2z_inj in Hp. rewrite <- Hp.
  replace (Z.lxor (Z.b2z (xor_index (bits_val m) [1; 2; 3; 4; 5; 6; 7; 8])) (Z.b2z (xor_index (bits_val m) GLONASS_GNAV.CRC_Q_INDEX)))
    with (Z.b2z (xorb (xor_index (bits_val m) [1; 2; 3; 4; 5; 6; 7; 8]) (xor_index (bits_val m) GLONASS_GNAV.CRC_Q_INDEX)))
    by (by destruct (xor_index (bits_val m) [1; 2; 3; 4; 5; 6; 7; 8]), (xor_index (bits_val m) GLONASS_GNAV.CRC_Q_INDEX)).
  unfold check_tables, checksums. change (0 + 1) with 1. change (1 + 1) with 2. change (2 + 1) with 3. change (3 + 1) with 4. change (4 + 1) with 5. change (5 + 1) with 6.
  apply accepted_sums.
Qed.

(** ** Damage *)

(** A string as the satellite sends it: its checksums are zero. *)
Definition gnav_string (m : list bool) : Prop := length m = 85%nat /\ syndrome (bits_val m) = 0 /\ parity (bits_val m) = false.

#[global] Instance gnav_string_dec m : Decision (gnav_string m).
Proof. apply _. Defined.

(** The places where two strings differ, as a number. *)
Definition difference (m m' : list bool) : Z := Z.lxor (bits_val m) (bits_val m').

(** Up to two errors are noticed, or they are in the check bits. *)
Lemma errors_noticed e : 0 <= e < 2 ^ 85 -> weight 85 e <= 2 -> accepted (syndrome e) (parity e) = true -> Z.shiftr e 8 = 0.
Proof.
  intros He Hw Ha. pose proof (patterns_check 85 2 (fun e => implb (accepted (syndrome e) (parity e)) (Z.shiftr e 8 =? 0)) e) as H. cbn beta in H.
  rewrite Ha in H. cbn [implb] in H. apply Z.eqb_eq. apply H; [vm_compute; reflexivity|done|done].
Qed.

(** ** Fields depend on the first 77 bits *)

Section Same.
Context (bits bits' : list bool) (H : forall i, 8 <= i -> rd bits i = rd bits' i).

Lemma same_slice push first n : forall j v, 0 <= j -> first + j + Z.of_nat n <= 78 -> read_slice 85 bits push first j n v = read_slice 85 bits' push first j n v.
Proof.
  induction n as [|n IH]; intros j v Hj Hn; [done|]. cbn [read_slice]. rewrite H by lia. destruct (rd bits' _); [|done]. cbn [mbind option_bind]. apply IH; lia.
Qed.

Lemma same_slices push j0 p : slices_in 77 p = true -> 0 <= j0 <= 1 -> forall v, read_slices 85 bits push j0 p v = read_slices 85 bits' push j0 p v.
Proof.
  intros Hp Hj. induction p as [|[first n] p IH]; intros v; [done|]. cbn [slices_in forallb] in Hp. apply andb_true_iff in Hp as [Hs Hp]. cbn [fst snd] in Hs.
  cbn [read_slices]. rewrite same_slice by lia. destruct (read_slice _ _ _ _ _ _ _); [|done]. cbn [mbind option_bind]. by apply IH.
Qed.

Lemma same_gnav_unsigned p : slices_in 77 p = true -> nav_unsigned bits p = nav_unsigned bits' p.
Proof. intros Hp. by apply same_slices. Qed.

Lemma same_bool p : slices_in 77 p = true -> nav_bool bits p = nav_bool bits' p.
Proof.
  destruct p as [|[first n] p]; [done|]. intros Hp. cbn [slices_in forallb] in Hp. unfold nav_bool, read_navigation_bool. change (rd ((first, n) :: p) 0) with (Some (first, n)).
  cbn [mbind option_bind fst snd] in *. apply H. lia.
Qed.

Lemma same_gnav_signed p : slices_in 77 p = true -> nav_signed bits p = nav_signed bits' p.
Proof.
  intros Hp. unfold nav_signed. rewrite (same_slices _ 1 p Hp ltac:(lia)). destruct p as [|[first n] p]; [done|]. cbn [slices_in forallb] in Hp.
  change (rd ((first, n) :: p) 0) with (Some (first, n)). cbn [mbind option_bind fst snd] in *. by rewrite H by lia.
Qed.

Ltac same := repeat match goal with
  | |- context [nav_unsigned bits ?p] => rewrite (same_gnav_unsigned p) by done
  | |- context [nav_signed bits ?p] => rewrite (same_gnav_signed p) by done
  | |- context [nav_bool bits ?p] => rewrite (same_bool p) by done
  end; try done.

Lemma same_str1 : read_str1 bits = read_str1 bits'.
Proof. unfold read_str1, udouble, sdouble. same. Qed.
Lemma same_str2 : read_str2 bits = read_str2 bits'.
Proof. unfold read_str2, udouble, sdouble. same. Qed.
Lemma same_str3 : read_str3 bits = read_str3 bits'.
Proof. unfold read_str3, udouble, sdouble. same. Qed.
Lemma same_str4 : read_str4 bits = read_str4 bits'.
Proof. unfold read_str4, udouble, sdouble. same. Qed.
Lemma same_str5 day_number nav : decode_str5 day_number bits nav = decode_str5 day_number bits' nav.
Proof. unfold decode_str5, read_utc, udouble, sdouble. same. Qed.
Lemma same_first k nav : almanac_first bits k nav = almanac_first bits' k nav.
Proof. unfold almanac_first, udouble, sdouble. same. Qed.
Lemma same_second k nav : almanac_second bits k nav = almanac_second bits' k nav.
Proof. unfold almanac_second, udouble, sdouble. same. Qed.
End Same.

(** After the check the decoder reads the first 77 bits only. *)
Lemma same_string day_number m m' nav : CRC_test (reverse m) = CRC_test (reverse m') -> (forall i, 8 <= i -> rd (reverse m) i = rd (reverse m') i) ->
  string_decoder day_number m nav = string_decoder day_number m' nav.
Proof.
  intros Hc H. unfold string_decoder. rewrite Hc. destruct (CRC_test (reverse m')) as [[]|]; [|done..]. cbn [mbind option_bind negb].
  rewrite (same_gnav_unsigned _ _ H GLONASS_GNAV.STRING_ID) by done. destruct (nav_unsigned _ _) as [id|]; [|done]. cbn [mbind option_bind].
  rewrite (same_str1 _ _ H), (same_str2 _ _ H), (same_str3 _ _ H), (same_str4 _ _ H), (same_str5 _ _ H), !(same_first _ _ H), !(same_second _ _ H).
  unfold udouble. by rewrite (same_gnav_unsigned _ _ H GLONASS_GNAV.B1), (same_gnav_unsigned _ _ H GLONASS_GNAV.B2) by done.
Qed.

Lemma same_high_bits m m' : length m = 85%nat -> length m' = 85%nat -> Z.shiftr (difference m m') 8 = 0 ->
  forall i, 8 <= i -> rd (reverse m) i = rd (reverse m') i.
Proof.
  intros Hm Hm' Hs i Hi. destruct (decide (i < 85)) as [Hlt|Hge].
  - rewrite !bit_of_string by lia. f_equal. apply (f_equal (fun z => Z.testbit z (i - 8))) in Hs. rewrite Z.shiftr_spec, Z.bits_0 in Hs by lia.
    replace (i - 8 + 8) with i in Hs by lia. unfold difference in Hs. rewrite Z.lxor_spec in Hs. by destruct (Z.testbit (bits_val m) i), (Z.testbit (bits_val m') i).
  - rewrite !rd_nonneg by lia. by rewrite !lookup_ge_None_2 by (rewrite length_reverse; lia).
Qed.

(** What is left of a string that is rejected. *)
Definition rejected (nav : Gnav_Message) : Gnav_Message :=
  with_ident {| flag_CRC_test := false; d_frame_ID := 0; d_string_ID := d_string_ID (ident nav) |} nav.

Lemma string_rejected day_number m nav : CRC_test (reverse m) = Some false -> string_decoder day_number m nav = Some (0, rejected nav).
Proof. intros H. unfold string_decoder. by rewrite H. Qed.

(** C16: damage to a string. If one or two bits of a transmitted string are received wrong and
    one of them carries information, the string is rejected, and everything decoded before is
    kept. If they are check bits, the string is rejected or decoded to what was sent. *)
Theorem damaged_string day_number m m' nav (Hm : gnav_string m) (Hl : length m' = 85%nat) (Hd : weight 85 (difference m m') <= 2) :
  (Z.shiftr (difference m m') 8 <> 0 -> string_decoder day_number m' nav = Some (0, rejected nav)) /\
  (string_decoder day_number m' nav = Some (0, rejected nav) \/ string_decoder day_number m' nav = string_decoder day_number m nav).
Proof.
  destruct Hm as (Hlm & Hs & Hp). pose proof (bits_val_range m) as Hr. pose proof (bits_val_range m') as Hr'. rewrite Hlm in Hr. rewrite Hl in Hr'. change (Z.of_nat 85) with 85 in *.
  pose proof (lxor_range 85 _ _ Hr Hr') as He. fold (difference m m') in He.
  assert (bits_val m' = Z.lxor (bits_val m) (difference m m')) as Hx by (unfold difference; by rewrite <- Z.lxor_assoc, Z.lxor_nilpotent, Z.lxor_0_l).
  pose proof (CRC_test_hamming m' Hl) as Hc. unfold syndrome in Hc. rewrite Hx, (linear_syndrome_from 0 addresses) in Hc by lia.
  fold (syndrome (bits_val m)) (syndrome (difference m m')) in Hc. rewrite Hs, Z.lxor_0_l in Hc.
  assert (parity (Z.lxor (bits_val m) (difference m m')) = parity (difference m m')) as Hpe.
  { pose proof (linear_parity (bits_val m) (difference m m') ltac:(lia) ltac:(lia)) as Hlin. cbn beta in Hlin. rewrite Hp, Z.lxor_0_l in Hlin. by apply Z.b2z_inj. }
  rewrite Hpe in Hc. pose proof (errors_noticed _ He Hd) as Hn. destruct (accepted (syndrome (difference m m')) (parity (difference m m'))).
  - split; [intros H; by destruct (H (Hn eq_refl))|]. right. symmetry. apply same_string; [|by apply same_high_bits, Hn].
    rewrite Hc, (CRC_test_hamming m Hlm), Hs, Hp. done.
  - split; [intros _|left]; by apply string_rejected.
Qed.

(** ** Strings with their check bits *)

(** The 77 bits of information with the check bits: bits 7 to 1 make the checksums zero, and
    bit 8 in front of them the parity. *)
Definition add_checks (info : list bool) : list bool :=
  let s := syndrome (bits_val info * 256) in
  info ++ xorb (bits_parity info) (bits_parity (val_bits 7 s)) :: val_bits 7 s.

(** The checksums of check bits alone are these bits. *)
Lemma syndrome_checks c : 0 <= c < 2 ^ 8 -> syndrome c = c mod 128.
Proof.
  intros Hc. change (syndrome c = uwrap 7 c). apply (linear_ext 8 syndrome (uwrap 7)); [apply linear_syndrome_from| |vm_compute; reflexivity|exact Hc].
  apply (linear_uwrap (fun w => w)); [lia|apply linear_id].
Qed.

Lemma syndrome_range i l w : Forall (fun a => 0 <= a < 2 ^ 7) l -> 0 <= syndrome_from i l w < 2 ^ 7.
Proof.
  revert i. induction l as [|a l IH]; intros i Hf; cbn [syndrome_from]; [lia|]. inversion_clear Hf. apply lxor_range; [destruct (Z.testbit w i); lia|by apply IH].
Qed.

Lemma add_checks_string info : length info = 77%nat -> gnav_string (add_checks info).
Proof.
  intros Hi. pose proof (bits_val_range info) as Hr. rewrite Hi in Hr. change (2 ^ Z.of_nat 77) with (2 ^ 77) in Hr. unfold add_checks. set (s := syndrome (bits_val info * 256)).
  assert (0 <= s < 2 ^ 7) as Hs by (apply syndrome_range; repeat constructor; lia).
  set (b := xorb (bits_parity info) (bits_parity (val_bits 7 s))).
  assert (0 <= Z.b2z b <= 1) as Hb by (case b; cbn; lia).
  assert (length (info ++ b :: val_bits 7 s) = 85%nat) as Hl by (rewrite length_app; cbn [length]; rewrite length_val_bits; lia).
  assert (bits_val (info ++ b :: val_bits 7 s) = Z.lxor (bits_val info * 256) (Z.b2z b * 128 + s)) as Hv.
  { rewrite bits_val_app, bits_val_cons. cbn [length]. rewrite length_val_bits, bits_val_val_bits. change (Z.of_nat 7) with 7. rewrite Z.mod_small by lia.
    change (2 ^ Z.of_nat 8) with 256. change (2 ^ 7) with 128. replace (bits_val info * 256) with (Z.shiftl (bits_val info) 8) by (rewrite Z.shiftl_mul_pow2; lia).
    symmetry. apply (lxor_shiftl_add (bits_val info) 8 (Z.b2z b * 128 + s)); lia. }
  split; [done|]. split.
  - rewrite Hv. unfold syndrome at 1. rewrite (linear_syndrome_from 0 addresses) by lia. fold (syndrome (bits_val info * 256)) (syndrome (Z.b2z b * 128 + s)).
    fold s. rewrite syndrome_checks by lia. replace ((Z.b2z b * 128 + s) mod 128) with s; [apply Z.lxor_nilpotent|].
    rewrite Z.add_comm, Z_mod_plus_full, Z.mod_small; lia.
  - unfold parity. rewrite <- Hl, val_bits_bits_val, bits_parity_app. cbn [bits_parity foldr]. fold (bits_parity (val_bits 7 s)). unfold b.
    by destruct (bits_parity info), (bits_parity (val_bits 7 s)).
Qed.

(** A string with its string number and nothing else, two of whose bits are changed. *)
Definition demo_info (id : Z) : list bool := false :: val_bits 4 id ++ replicate 72 false.

Lemma damaged_string_witness : string_decoder (fun _ _ _ => 0) (<[20%nat := true]> (<[60%nat := true]> (add_checks (demo_info 1)))) Gnav_Message_init =
  Some (0, rejected Gnav_Message_init).
Proof.
  apply (damaged_string (fun _ _ _ => 0) (add_checks (demo_info 1))); [by apply add_checks_string|reflexivity|vm_compute; congruence|vm_compute; congruence].
Defined.
