(* ===== verification/GnavTlm.v ===== *)
(** * GLONASS telemetry decoders

    [glonass_l1_ca_telemetry_decoder_gs.cc] and [glonass_l2_ca_telemetry_decoder_gs.cc] of
    [algorithms/telemetry_decoder/gnuradio_blocks]: symbols of one millisecond come in, a time
    mark of 300 symbols is searched, and the 1700 symbols behind it are turned into the 85 bits
    of a string for the navigation message ([Gnav]). The two blocks are the same code but for
    the name of the code period, which is a parameter here; [day_number] is as in [GnavTime].

    Left out: the dump file, and [delta_t], [flag_TOW_set], [d_flag_parity] and
    [Flag_valid_word] of the block, which nothing reads. *)
From stdpp Require Import strings.
From S2P Require Import Prelude Doubles DoublesErr DoublesInt NavBits GnssSignal Rtcm RtcmEph GnavTime Gnav.
From Stdlib Require Import SpecFloat.

#[local] Open Scope string_scope.
#[local] Open Scope list_scope.
#[local] Open Scope Z_scope.

(** The members of [Gnss_Synchro] that the block uses. *)
Record tlm_symbol := { Prompt_I : double; Tracking_sample_counter : Z; sym_PRN : Z; TOW_at_current_symbol_ms : Z; Flag_valid_word : bool }.

(** Messages on the port ["telemetry"]. *)
Inductive gnav_msg :=
  | pub_gnav_ephemeris (e : gnav_ephemeris)
  | pub_gnav_utc (u : utc_data)
  | pub_gnav_almanac (a : almanac).

Definition GLONASS_GNAV_PREAMBLE : list bool :=
  [true; true; true; true; true; false; false; false; true; true; false; true; true; true; false; true; false; true; false; false; false; false; true; false;
   false; true; false; true; true; false].
Definition GLONASS_GNAV_PREAMBLE_DURATION_S : double := lit 3 1.
Definition GLONASS_GNAV_PREAMBLE_PERIOD_SYMBOLS : Z := 2000.
Definition GLONASS_GNAV_STRING_SYMBOLS : Z := 2000.
Definition GLONASS_GNAV_TELEMETRY_SYMBOLS_PER_BIT : Z := 10.
Definition GLONASS_L1_CA_CODE_PERIOD_S : double := lit 1 3.
Definition GLONASS_L2_CA_CODE_PERIOD_S : double := lit 1 3.
Definition CRC_ERROR_LIMIT : Z := 6.
Definition d_symbols_per_preamble : Z := 300.

(** Set by the constructor: every bit ten times, as 1 or -1. *)
Definition d_preambles_symbols : list Z := mbind (fun b : bool => replicate 10 (if b then 1 else -1)) GLONASS_GNAV_PREAMBLE.

Record glonass_telemetry_decoder := { d_nav : Gnav_Message; d_satellite : Gnss_Satellite; d_symbol_history : list tlm_symbol; d_preamble_time_samples : double;
  d_TOW_at_current_symbol : double; d_sample_counter : Z; d_preamble_index : Z; d_stat : Z; d_CRC_error_counter : Z; d_channel : Z;
  d_flag_frame_sync : bool; d_flag_preamble : bool }.

Definition glonass_telemetry_decoder_init (satellite : Gnss_Satellite) : glonass_telemetry_decoder :=
  {| d_nav := Gnav_Message_init; d_satellite := make_satellite (system satellite) (PRN satellite); d_symbol_history := []; d_preamble_time_samples := dbl_zero;
     d_TOW_at_current_symbol := dbl_zero; d_sample_counter := 0; d_preamble_index := 0; d_stat := 0; d_CRC_error_counter := 0; d_channel := 0;
     d_flag_frame_sync := false; d_flag_preamble := false |}.

(** ** Symbols to bits *)

(** Ten symbols are one half of a bit. *)
Fixpoint bi_binary_code (frame_symbols : list double) (chip_acc : double) (chip_acc_counter : Z) : list bool :=
  match frame_symbols with
  | [] => []
  | s :: rest =>
      let acc := dbl_add chip_acc s in
      let n := chip_acc_counter + 1 in
      if n =? GLONASS_GNAV_TELEMETRY_SYMBOLS_PER_BIT then gt0 acc :: bi_binary_code rest dbl_zero 0 else bi_binary_code rest acc n
  end.

(** The loop over [i] for [n] bits. *)
Fixpoint relative_code (bi_binary : list bool) (i : Z) (n : nat) : option (list bool) :=
  match n with
  | O => Some []
  | S n' => a ← rd bi_binary (2 * i); b ← rd bi_binary (2 * i + 1); rest ← relative_code bi_binary (i + 1) n'; Some ((a && negb b) :: rest)
  end.

(** From bit 1 on, a data bit is the exclusive or of two neighbours. *)
Fixpoint differences (relative : list bool) : list bool :=
  match relative with
  | a :: (b :: _) as rest => xorb a b :: differences rest
  | _ => []
  end.

Definition data_bits (frame_symbols : list double) : option (list bool) :=
  r ← relative_code (bi_binary_code frame_symbols dbl_zero 0) 0 85; Some (false :: differences r).

(** ** Strings *)

Definition update_PRN (PRN_ : Z) (s : Gnss_Satellite) : Gnss_Satellite :=
  {| system := system s; block := block s; PRN := if decide (system s = "Glonass") then PRN_ else 0; rf_link := rf_link s |}.

Section Decoder.
Context (day_number : Z -> Z -> Z -> Z) (CODE_PERIOD_S : double).

(** Steps 2 to 5 of [decode_string]: the bits to the navigation message, and what is complete
    to the port. *)
Definition process_string (bits : list bool) (nav : Gnav_Message) (sat : Gnss_Satellite) : option (list gnav_msg * Gnav_Message * Gnss_Satellite) :=
  '(_, nav1) ← string_decoder day_number bits nav;
  let '(new_eph, nav2) := have_new_ephemeris nav1 in
  let nav3 := if new_eph : bool then with_freq (rf_link sat) nav2 else nav2 in
  let m1 := if new_eph then [pub_gnav_ephemeris (get_ephemeris nav3)] else [] in
  let '(new_utc, nav4) := have_new_utc_model nav3 in
  let m2 := if new_utc : bool then [pub_gnav_utc (utc nav4)] else [] in
  '(new_alm, nav5) ← have_new_almanac nav4;
  m3 ← (if new_alm : bool then a ← get_almanac (i_alm_satellite_slot_number (alm nav5)) nav5; Some [pub_gnav_almanac a] else Some []);
  if flag_update_slot_number (tflags nav5) then
    n ← to_u32 (d_n (str4 (strs nav5)));
    let sat1 := update_PRN n sat in
    let sat2 := {| system := system sat1; block := block sat1; PRN := PRN sat1; rf_link := (what_block (system sat1) n (rf_link sat1)).2 |} in
    Some (m1 ++ m2 ++ m3, set_flag_update_slot_number false nav5, sat2)
  else Some (m1 ++ m2 ++ m3, nav5, sat).

Definition decode_string (frame_symbols : list double) (nav : Gnav_Message) (sat : Gnss_Satellite) : option (list gnav_msg * Gnav_Message * Gnss_Satellite) :=
  bits ← data_bits frame_symbols; process_string bits nav sat.

(** ** Operations of the block *)

Definition set_satellite (satellite : Gnss_Satellite) (st : glonass_telemetry_decoder) : glonass_telemetry_decoder :=
  {| d_nav := d_nav st; d_satellite := make_satellite (system satellite) (PRN satellite); d_symbol_history := d_symbol_history st;
     d_preamble_time_samples := d_preamble_time_samples st; d_TOW_at_current_symbol := d_TOW_at_current_symbol st; d_sample_counter := d_sample_counter st;
     d_preamble_index := d_preamble_index st; d_stat := d_stat st; d_CRC_error_counter := d_CRC_error_counter st; d_channel := d_channel st;
     d_flag_frame_sync := d_flag_frame_sync st; d_flag_preamble := d_flag_preamble st |}.

Definition set_channel (channel : Z) (st : glonass_telemetry_decoder) : glonass_telemetry_decoder :=
  {| d_nav := d_nav st; d_satellite := d_satellite st; d_symbol_history := d_symbol_history st; d_preamble_time_samples := d_preamble_time_samples st;
     d_TOW_at_current_symbol := d_TOW_at_current_symbol st; d_sample_counter := d_sample_counter st; d_preamble_index := d_preamble_index st; d_stat := d_stat st;
     d_CRC_error_counter := d_CRC_error_counter st; d_channel := channel; d_flag_frame_sync := d_flag_frame_sync st; d_flag_preamble := d_flag_preamble st |}.

(** [reset] returns at once. *)
Definition reset (st : glonass_telemetry_decoder) : glonass_telemetry_decoder := st.

(** [boost::circular_buffer::push_back]: a full buffer loses its first element. *)
Definition push_symbol (l : list tlm_symbol) (x : tlm_symbol) : list tlm_symbol :=
  if Z.of_nat (length l) <? GLONASS_GNAV_STRING_SYMBOLS then l ++ [x] else tail l ++ [x].

(** The correlation of the oldest 300 symbols with the time mark. *)
Definition correlate (history : list tlm_symbol) : option Z :=
  if d_symbols_per_preamble <=? Z.of_nat (length history) then
    for_loop 300 0 (fun i corr_value =>
      s ← rd history i; p ← rd d_preambles_symbols i;
      Some (if lt0 (Prompt_I s) then corr_value - p else corr_value + p)) 0
  else Some 0.

(** [string_symbols]: the symbols behind the time mark, negated if it is inverted. *)
Fixpoint fetch_symbols (history : list tlm_symbol) (inverted : bool) (i : Z) (n : nat) : option (list double) :=
  match n with
  | O => Some []
  | S n' =>
      s ← rd history (i + d_symbols_per_preamble);
      rest ← fetch_symbols history inverted (i + 1) n';
      Some ((if inverted then dbl_opp (Prompt_I s) else Prompt_I s) :: rest)
  end.

(** What the frame synchronisation changes. *)
Record gnav_sync := { s_nav : Gnav_Message; s_sat : Gnss_Satellite; s_time : double; s_index : Z; s_stat : Z; s_errors : Z; s_frame_sync : bool; s_preamble : bool }.

Definition frame_sync (st : glonass_telemetry_decoder) (history : list tlm_symbol) (counter : Z) : option (list gnav_msg * gnav_sync) :=
  corr_value ← correlate history;
  let same stat index time := {| s_nav := d_nav st; s_sat := d_satellite st; s_time := time; s_index := index; s_stat := stat;
    s_errors := d_CRC_error_counter st; s_frame_sync := d_flag_frame_sync st; s_preamble := false |} in
  match d_stat st with
  | 0 =>
      if d_symbols_per_preamble <=? Z.abs corr_value then
        h ← rd history 0; Some ([], same 1 counter (dbl_of_Z (Tracking_sample_counter h)))
      else Some ([], same 0 (d_preamble_index st) (d_preamble_time_samples st))
  | 1 =>
      if d_symbols_per_preamble <=? Z.abs corr_value then
        let preamble_diff := i32 (u64 (counter - d_preamble_index st)) in
        h ← rd history 0;
        let time := dbl_of_Z (Tracking_sample_counter h) in
        if Z.abs (preamble_diff - GLONASS_GNAV_PREAMBLE_PERIOD_SYMBOLS) =? 0 then Some ([], same 2 counter time)
        else Some ([], same (if GLONASS_GNAV_PREAMBLE_PERIOD_SYMBOLS <? preamble_diff then 0 else 1) (d_preamble_index st) time)
      else Some ([], same 1 (d_preamble_index st) (d_preamble_time_samples st))
  | 2 =>
      if counter =? u64 (d_preamble_index st + GLONASS_GNAV_STRING_SYMBOLS) then
        symbols ← fetch_symbols history (negb (0 <? corr_value)) 0 1700;
        '(msgs, nav, sat) ← decode_string symbols (d_nav st) (d_satellite st);
        if flag_CRC_test (ident nav) then
          Some (msgs, {| s_nav := nav; s_sat := sat; s_time := d_preamble_time_samples st; s_index := counter; s_stat := 2; s_errors := 0; s_frame_sync := true;
            s_preamble := true |})
        else
          errors ← chk_i32 (d_CRC_error_counter st + 1);
          Some (msgs, {| s_nav := nav; s_sat := sat; s_time := d_preamble_time_samples st; s_index := counter; s_errors := errors;
            s_stat := if CRC_ERROR_LIMIT <? errors then 0 else 2; s_frame_sync := if CRC_ERROR_LIMIT <? errors then false else d_flag_frame_sync st;
            s_preamble := false |})
      else Some ([], same 2 (d_preamble_index st) (d_preamble_time_samples st))
  | stat => Some ([], same stat (d_preamble_index st) (d_preamble_time_samples st))
  end.

(** The time of week of the current symbol, and the navigation message with its flag
    cleared. *)
Definition update_time (s : gnav_sync) (tow : double) : double * Gnav_Message :=
  if s_preamble s && flag_TOW_new (tflags (s_nav s)) then
    (dbl_div (dbl_floor (dbl_mul (dbl_sub (d_TOW (str5 (strs (s_nav s)))) GLONASS_GNAV_PREAMBLE_DURATION_S) (dbl_of_Z 1000))) (dbl_of_Z 1000),
     set_flag_TOW_new false (s_nav s))
  else (dbl_add tow CODE_PERIOD_S, s_nav s).

Definition general_work (st : glonass_telemetry_decoder) (current_symbol : tlm_symbol) : option (glonass_telemetry_decoder * list gnav_msg * tlm_symbol) :=
  let history := push_symbol (d_symbol_history st) current_symbol in
  let counter := u64 (d_sample_counter st + 1) in
  '(msgs, s) ← frame_sync st history counter;
  let '(tow, nav) := update_time s (d_TOW_at_current_symbol st) in
  ms ← to_u32 (dbl_round (dbl_mul tow (dbl_of_Z 1000)));
  Some ({| d_nav := nav; d_satellite := s_sat s; d_symbol_history := history; d_preamble_time_samples := s_time s; d_TOW_at_current_symbol := tow;
           d_sample_counter := counter; d_preamble_index := s_index s; d_stat := s_stat s; d_CRC_error_counter := s_errors s; d_channel := d_channel st;
           d_flag_frame_sync := s_frame_sync s; d_flag_preamble := s_preamble s |}, msgs,
        {| Prompt_I := Prompt_I current_symbol; Tracking_sample_counter := Tracking_sample_counter current_symbol; sym_PRN := PRN (s_sat s);
           TOW_at_current_symbol_ms := ms; Flag_valid_word := s_frame_sync s && flag_TOW_set (tflags nav) |}).

(** A run of the block on a sequence of symbols. *)
Fixpoint run (st : glonass_telemetry_decoder) (symbols : list tlm_symbol) : option (glonass_telemetry_decoder * list gnav_msg * list tlm_symbol) :=
  match symbols with
  | [] => Some (st, [], [])
  | x :: rest => '(st1, m1, o1) ← general_work st x; '(st2, m2, o2) ← run st1 rest; Some (st2, m1 ++ m2, o1 :: o2)
  end.
End Decoder.

(** The two blocks. *)
Definition glonass_l1_ca_general_work (day_number : Z -> Z -> Z -> Z) := general_work day_number GLONASS_L1_CA_CODE_PERIOD_S.
Definition glonass_l2_ca_general_work (day_number : Z -> Z -> Z -> Z) := general_work day_number GLONASS_L2_CA_CODE_PERIOD_S.
