(* ===== verification/GnavTlmProps.v ===== *)
(** * GLONASS telemetry decoders: from symbols to strings

    A string whose half bits have the right sign is recovered whatever the phase of the
    carrier; the block in lock does one step of a machine on strings for every 2000 symbols;
    two time marks 2000 symbols apart bring lock. *)
From S2P Require Import Prelude Doubles DoublesErr DoublesInt Clock NavBits GnssSignal Rtcm RtcmEph GnavTime Gnav GnavTlm.
From Stdlib Require Import SpecFloat.

#[local] Open Scope Z_scope.

(** ** Strings on the air *)

(** The relative code of the bits [m] after [prev], in two halves per bit. *)
Fixpoint chips (prev : bool) (m : list bool) : list bool :=
  match m with
  | [] => []
  | d :: m' => let r := xorb prev d in r :: negb r :: chips r m'
  end.

(** The sum of ten symbols, as the decoder adds them. *)
Definition half_sum (half : list double) : double := fold_left dbl_add half dbl_zero.

(** Ten symbols whose sum is positive for [c] and not positive for its complement. *)
Definition half_bit (half : list double) (c : bool) : Prop := length half = 10%nat /\ gt0 (half_sum half) = c.

Lemma bi_binary_group half rest acc k : Z.of_nat (length half) + k = 10 -> 0 <= k < 10 ->
  bi_binary_code (half ++ rest) acc k = gt0 (fold_left dbl_add half acc) :: bi_binary_code rest dbl_zero 0.
Proof.
  revert acc k. induction half as [|s half IH]; intros acc k Hl Hk; cbn [length] in Hl; [lia|]. cbn [app bi_binary_code fold_left].
  unfold GLONASS_GNAV_TELEMETRY_SYMBOLS_PER_BIT. destruct (Z.eqb_spec (k + 1) 10).
  - destruct half; [done|cbn [length] in Hl; lia].
  - apply IH; lia.
Qed.

Lemma bi_binary_halves halves cs : Forall2 half_bit halves cs -> bi_binary_code (mjoin halves) dbl_zero 0 = cs.
Proof.
  induction 1 as [|half c halves cs [Hl Hc] _ IH]; [done|]. change (mjoin (half :: halves)) with (half ++ mjoin halves). rewrite bi_binary_group by lia. by rewrite IH, <- Hc.
Qed.

(** The relative code itself. *)
Fixpoint relative (prev : bool) (m : list bool) : list bool :=
  match m with
  | [] => []
  | d :: m' => xorb prev d :: relative (xorb prev d) m'
  end.

Lemma relative_code_chips before prev m i n : length before = (2 * i)%nat -> n = length m ->
  relative_code (before ++ chips prev m) (Z.of_nat i) n = Some (relative prev m).
Proof.
  intros Hb ->. revert before prev i Hb. induction m as [|d m IH]; intros before prev i Hb; [done|]. cbn [length relative_code chips relative].
  replace (2 * Z.of_nat i) with (Z.of_nat (length before)) by lia. replace (Z.of_nat (length before) + 1) with (Z.of_nat (S (length before))) by lia.
  rewrite !rd_nat, (list_lookup_middle before _ _ (length before)) by done. cbn [mbind option_bind].
  replace (before ++ xorb prev d :: negb (xorb prev d) :: chips (xorb prev d) m) with ((before ++ [xorb prev d]) ++ negb (xorb prev d) :: chips (xorb prev d) m)
    by by rewrite <- app_assoc.
  rewrite (list_lookup_middle _ _ _ (S (length before))) by (rewrite length_app; cbn; lia). cbn [mbind option_bind].
  replace ((before ++ [xorb prev d]) ++ negb (xorb prev d) :: chips (xorb prev d) m) with ((before ++ [xorb prev d; negb (xorb prev d)]) ++ chips (xorb prev d) m)
    by by rewrite <- !app_assoc.
  replace (Z.of_nat i + 1) with (Z.of_nat (S i)) by lia. rewrite IH by (rewrite length_app; cbn [length]; lia). cbn [mbind option_bind].
  do 2 f_equal. by destruct (xorb prev d).
Qed.

Lemma differences_relative prev m : differences (relative prev m) = tail m.
Proof.
  revert prev. induction m as [|d m IH]; intros prev; [done|]. cbn [relative tail]. destruct m as [|d' m]; [done|].
  specialize (IH (xorb prev d)). cbn [relative tail] in IH |- *. cbn [differences]. cbn [differences] in IH. rewrite IH. f_equal. by destruct prev, d, d'.
Qed.

(** The bits of a string that begins with an idle bit 0, from its symbols in either phase. *)
Lemma string_bits_recovered phase prev m halves : length m = 85%nat -> head m = Some false ->
  Forall2 half_bit halves (xorb phase <$> chips prev m) -> data_bits (mjoin halves) = Some m.
Proof.
  intros Hm H0 Hh. assert (forall p, xorb phase <$> chips p m = chips (xorb phase p) m) as Hp.
  { clear. induction m as [|d m IH]; intros p; [done|]. cbn [chips fmap list_fmap]. change (list_fmap bool bool (xorb phase)) with (fmap (M := list) (xorb phase)).
    rewrite IH. by destruct phase, p, d. }
  rewrite Hp in Hh. unfold data_bits. rewrite (bi_binary_halves _ _ Hh). pose proof (relative_code_chips [] (xorb phase prev) m 0 85 eq_refl (eq_sym Hm)) as Hr. cbn [app] in Hr.
  change (Z.of_nat 0) with 0 in Hr. rewrite Hr. cbn [mbind option_bind]. rewrite differences_relative. destruct m as [|b m]; [done|]. cbn in H0. by injection H0 as ->.
Qed.

(** ** The clock *)

Definition millisecond : positive := 4611686018427388%positive.

Lemma code_period_value : GLONASS_L1_CA_CODE_PERIOD_S = S754_finite false millisecond (-62) /\ GLONASS_L2_CA_CODE_PERIOD_S = S754_finite false millisecond (-62).
Proof. vm_compute. done. Qed.

(** One tick is at most two milliseconds. *)
Lemma clock_tick t b : clock_in t b -> 0 <= b < 2 ^ 31 -> clock_in (dbl_add t (S754_finite false millisecond (-62))) (b + 2).
Proof. intros Ht Hb. replace (b + 2) with (b + 1 + 1) by lia. apply clock_add; [done|apply (bool_decide_unpack _); vm_compute; exact I|lia..]. Qed.

(** ** The history *)

Lemma push_symbol_drop h x : (length h <= 2000)%nat -> push_symbol h x = drop (length h + 1 - 2000) (h ++ [x]).
Proof.
  intros Hh. unfold push_symbol, GLONASS_GNAV_STRING_SYMBOLS. destruct (Z.ltb_spec (Z.of_nat (length h)) 2000).
  - by replace (length h + 1 - 2000)%nat with 0%nat by lia.
  - replace (length h + 1 - 2000)%nat with 1%nat by lia. destruct h; [cbn in *; lia|done].
Qed.

(** After any symbols the history holds the last 2000 of them all. *)
Lemma history_drop xs h : (length h <= 2000)%nat -> fold_left push_symbol xs h = drop (length h + length xs - 2000) (h ++ xs).
Proof.
  revert h. induction xs as [|x xs IH]; intros h Hh; cbn [fold_left].
  - rewrite app_nil_r. by replace (length h + length ([] : list tlm_symbol) - 2000)%nat with 0%nat by (cbn; lia).
  - assert (length (push_symbol h x) = Nat.min 2000 (length h + 1)) as Hl by (rewrite push_symbol_drop, length_drop, length_app by done; cbn [length]; lia).
    rewrite IH by lia. rewrite Hl, push_symbol_drop by done. replace (h ++ x :: xs) with ((h ++ [x]) ++ xs) by by rewrite <- app_assoc.
    assert (length (h ++ [x]) = length h + 1)%nat as Hx by (rewrite length_app; cbn; lia).
    rewrite <- (drop_app_le (h ++ [x]) xs (length h + 1 - 2000)), drop_drop by lia. f_equal. cbn [length]. lia.
Qed.

Lemma history_full xs h : (length h <= 2000)%nat -> length xs = 2000%nat -> fold_left push_symbol xs h = xs.
Proof. intros Hh Hx. rewrite history_drop, Hx by done. replace (length h + 2000 - 2000)%nat with (length h) by lia. apply drop_app_length. Qed.

Lemma history_length xs h : (length h <= 2000)%nat -> (length (fold_left push_symbol xs h) <= 2000)%nat.
Proof. intros Hh. rewrite history_drop, length_drop, length_app by done. lia. Qed.

(** The correlation is always defined. *)
Lemma mark_correlates h : exists c, correlate h = Some c.
Proof.
  unfold correlate, d_symbols_per_preamble. destruct (Z.leb_spec 300 (Z.of_nat (length h))); [|by exists 0].
  match goal with |- exists c, for_loop 300 0 ?body 0 = Some c => assert (forall n i c, 0 <= i -> i + Z.of_nat n <= 300 -> exists c', for_loop n i body c = Some c') as Hl end.
  { induction n as [|n IH]; intros i c Hi Hn; [by exists c|]. cbn [for_loop].
    destruct (rd_in h i ltac:(lia)) as [s Hs]. rewrite Hs. cbn [mbind option_bind].
    destruct (rd_in d_preambles_symbols i) as [p Hp]; [change (Z.of_nat (length d_preambles_symbols)) with 300; lia|]. rewrite Hp. cbn [mbind option_bind]. apply IH; lia. }
  apply Hl; lia.
Qed.

(** ** The machine on strings *)

(** The state of the block between two strings. *)
Record string_machine := { a_nav : Gnav_Message; a_sat : Gnss_Satellite; a_errors : Z; a_sync : bool; a_locked : bool }.

(** The time of week that the block takes over from string 5. *)
Definition new_time (nav : Gnav_Message) : double :=
  dbl_div (dbl_floor (dbl_mul (dbl_sub (d_TOW (str5 (strs nav))) GLONASS_GNAV_PREAMBLE_DURATION_S) (dbl_of_Z 1000))) (dbl_of_Z 1000).

(** More than a week, in milliseconds. *)
Definition week_ms : Z := 2 ^ 30.

(** One string: it is decoded; a correct one ends a series of errors, and after the seventh
    error in series the lock is given up. [None] if the time of week is not in the week. *)
Definition string_step (day_number : Z -> Z -> Z -> Z) (bits : list bool) (a : string_machine) : option (list gnav_msg * string_machine) :=
  '(msgs, nav, sat) ← process_string day_number bits (a_nav a) (a_sat a);
  if flag_CRC_test (ident nav) then
    if flag_TOW_new (tflags nav) then
      if decide (clock_in (new_time nav) week_ms) then
        Some (msgs, {| a_nav := set_flag_TOW_new false nav; a_sat := sat; a_errors := 0; a_sync := true; a_locked := true |})
      else None
    else Some (msgs, {| a_nav := nav; a_sat := sat; a_errors := 0; a_sync := true; a_locked := true |})
  else
    let lost := CRC_ERROR_LIMIT <? a_errors a + 1 in
    Some (msgs, {| a_nav := nav; a_sat := sat; a_errors := a_errors a + 1; a_sync := if lost then false else a_sync a; a_locked := negb lost |}).

Fixpoint string_run (day_number : Z -> Z -> Z -> Z) (strings : list (list bool)) (a : string_machine) : option (list gnav_msg * string_machine) :=
  match strings with
  | [] => Some ([], a)
  | bits :: rest =>
      if a_locked a then '(m1, a1) ← string_step day_number bits a; '(m2, a2) ← string_run day_number rest a1; Some (m1 ++ m2, a2) else None
  end.

(** The bits of the string in 2000 symbols: the time mark tells the phase. *)
Definition string_of (xs : list tlm_symbol) : option (list bool) :=
  c ← correlate xs; symbols ← fetch_symbols xs (negb (0 <? c)) 0 1700; data_bits symbols.

(** [st] is a block that has just seen the last symbol of a string. *)
Record represents (st : glonass_telemetry_decoder) (a : string_machine) : Prop := {
  rep_nav : d_nav st = a_nav a; rep_sat : d_satellite st = a_sat a; rep_errors : d_CRC_error_counter st = a_errors a; rep_sync : d_flag_frame_sync st = a_sync a;
  rep_stat : d_stat st = if a_locked a then 2 else 0; rep_index : d_preamble_index st = d_sample_counter st; rep_history : (length (d_symbol_history st) <= 2000)%nat;
  rep_count : 0 <= a_errors a < 2 ^ 30 }.

(** ** One string in lock *)

Section Block.
Context (day_number : Z -> Z -> Z -> Z) (period : double) (Hperiod : period = S754_finite false millisecond (-62)).

(** What stays the same while a string comes in. *)
Record waiting (st st' : glonass_telemetry_decoder) (xs : list tlm_symbol) (b : Z) : Prop := {
  w_nav : d_nav st' = d_nav st; w_sat : d_satellite st' = d_satellite st; w_errors : d_CRC_error_counter st' = d_CRC_error_counter st;
  w_sync : d_flag_frame_sync st' = d_flag_frame_sync st; w_index : d_preamble_index st' = d_preamble_index st; w_stat : d_stat st' = d_stat st;
  w_history : d_symbol_history st' = fold_left push_symbol xs (d_symbol_history st); w_counter : d_sample_counter st' = d_sample_counter st + Z.of_nat (length xs);
  w_clock : clock_in (d_TOW_at_current_symbol st') (b + 2 * Z.of_nat (length xs)) }.

(** The time stamp of a symbol that does not end a string. *)
Lemma tick_work st x msgs s b : frame_sync day_number st (push_symbol (d_symbol_history st) x) (u64 (d_sample_counter st + 1)) = Some (msgs, s) -> s_preamble s = false ->
  clock_in (d_TOW_at_current_symbol st) b -> 0 <= b -> b + 2 < 2 ^ 31 ->
  exists ms, general_work day_number period st x = Some ({| d_nav := s_nav s; d_satellite := s_sat s; d_symbol_history := push_symbol (d_symbol_history st) x;
      d_preamble_time_samples := s_time s; d_TOW_at_current_symbol := dbl_add (d_TOW_at_current_symbol st) period; d_sample_counter := u64 (d_sample_counter st + 1);
      d_preamble_index := s_index s; d_stat := s_stat s; d_CRC_error_counter := s_errors s; d_channel := d_channel st; d_flag_frame_sync := s_frame_sync s;
      d_flag_preamble := false |}, msgs, {| Prompt_I := Prompt_I x; Tracking_sample_counter := Tracking_sample_counter x; sym_PRN := PRN (s_sat s);
      TOW_at_current_symbol_ms := ms; Flag_valid_word := s_frame_sync s && flag_TOW_set (tflags (s_nav s)) |}) /\
    clock_in (dbl_add (d_TOW_at_current_symbol st) period) (b + 2).
Proof.
  intros Hs Hp Hc H0 Hb. pose proof (clock_tick _ b Hc ltac:(lia)) as Ht. rewrite <- Hperiod in Ht. destruct (clock_ms _ _ Ht ltac:(lia)) as [ms Hms]. exists ms. split; [|exact Ht].
  unfold general_work. rewrite Hs. cbn [mbind option_bind]. unfold update_time. rewrite Hp. cbn [andb]. rewrite Hms. done.
Qed.

(** Between two time marks nothing but the time of a possible mark changes. *)
Lemma quiet_sync st x : d_stat st = 1 \/ d_stat st = 2 -> 0 <= d_preamble_index st <= d_sample_counter st -> d_sample_counter st + 1 < d_preamble_index st + 2000 ->
  d_preamble_index st + 2000 < 2 ^ 64 -> exists time,
  frame_sync day_number st (push_symbol (d_symbol_history st) x) (u64 (d_sample_counter st + 1)) =
    Some ([], {| s_nav := d_nav st; s_sat := d_satellite st; s_time := time; s_index := d_preamble_index st; s_stat := d_stat st;
      s_errors := d_CRC_error_counter st; s_frame_sync := d_flag_frame_sync st; s_preamble := false |}).
Proof.
  intros Hstat Hi Hlt Hmax. destruct (mark_correlates (push_symbol (d_symbol_history st) x)) as [c Hcor]. unfold frame_sync. rewrite Hcor. cbn [mbind option_bind].
  unfold GLONASS_GNAV_STRING_SYMBOLS, GLONASS_GNAV_PREAMBLE_PERIOD_SYMBOLS. rewrite (uwrap_small 64 (d_sample_counter st + 1)) by lia. destruct Hstat as [-> | ->].
  - destruct (d_symbols_per_preamble <=? Z.abs c); [|by eexists].
    rewrite (uwrap_small 64 (_ - _)) by lia. rewrite swrap_small by lia. rewrite (proj2 (Z.eqb_neq _ _)), (proj2 (Z.ltb_ge _ _)) by lia.
    destruct (rd_in (push_symbol (d_symbol_history st) x) 0) as [h Hh].
    { unfold push_symbol. case_match; rewrite length_app; cbn [length]; lia. }
    rewrite Hh. by eexists.
  - rewrite uwrap_small by lia. rewrite (proj2 (Z.eqb_neq _ _)) by lia. by eexists.
Qed.

Lemma wait_step st x b : d_stat st = 1 \/ d_stat st = 2 -> 0 <= d_preamble_index st <= d_sample_counter st -> d_sample_counter st + 1 < d_preamble_index st + 2000 ->
  d_preamble_index st + 2000 < 2 ^ 64 -> clock_in (d_TOW_at_current_symbol st) b -> 0 <= b -> b + 2 < 2 ^ 31 ->
  exists st' o, general_work day_number period st x = Some (st', [], o) /\ waiting st st' [x] b.
Proof.
  intros Hstat Hi Hlt Hmax Hc H0 Hb. destruct (quiet_sync st x Hstat Hi Hlt Hmax) as [time Hs].
  destruct (tick_work st x _ _ b Hs eq_refl Hc H0 Hb) as (ms & Hw & Ht). eexists _, _. split; [exact Hw|]. split; cbn [d_nav d_satellite d_CRC_error_counter d_flag_frame_sync
    d_preamble_index d_stat d_symbol_history d_sample_counter d_TOW_at_current_symbol s_nav s_sat s_errors s_frame_sync s_index s_stat]; try done.
  rewrite uwrap_small by lia. cbn [length]. lia.
Qed.

Lemma wait_run xs : forall st b, d_stat st = 1 \/ d_stat st = 2 -> 0 <= d_preamble_index st <= d_sample_counter st -> d_sample_counter st + Z.of_nat (length xs) < d_preamble_index st + 2000 ->
  d_preamble_index st + 2000 < 2 ^ 64 -> clock_in (d_TOW_at_current_symbol st) b -> 0 <= b -> b + 2 * Z.of_nat (length xs) < 2 ^ 31 ->
  exists st' outs, run day_number period st xs = Some (st', [], outs) /\ length outs = length xs /\ waiting st st' xs b.
Proof.
  induction xs as [|x xs IH]; intros st b Hstat Hi Hlt Hmax Hc H0 Hb; cbn [length] in *.
  - exists st, []. split; [done|]. split; [done|]. split; try done; cbn [length]; [lia|]. by replace (b + 2 * Z.of_nat 0) with b by lia.
  - destruct (wait_step st x b) as (st1 & o & Hw & [W1 W2 W3 W4 W5 W6 W7 W8 W9]); [done|done|lia|done|done|done|lia|]. cbn [length fold_left] in *.
    destruct (IH st1 (b + 2)) as (st2 & outs & Hr & Hl & [V1 V2 V3 V4 V5 V6 V7 V8 V9]); [by rewrite W6|lia|lia|lia| |lia|lia|].
    { by replace (b + 2) with (b + 2 * Z.of_nat 1) by lia. }
    exists st2, (o :: outs). cbn [run]. rewrite Hw. cbn [mbind option_bind]. rewrite Hr. cbn [mbind option_bind]. split; [done|]. split; [cbn; lia|].
    split; try congruence; cbn [length fold_left]; [by rewrite V7, W7|lia|]. by replace (b + 2 * Z.of_nat (S (length xs))) with (b + 2 + 2 * Z.of_nat (length xs)) by lia.
Qed.

Lemma string_run_app xs ys st st1 m1 o1 : run day_number period st xs = Some (st1, m1, o1) ->
  run day_number period st (xs ++ ys) = '(st2, m2, o2) ← run day_number period st1 ys; Some (st2, m1 ++ m2, o1 ++ o2).
Proof.
  revert st m1 o1. induction xs as [|x xs IH]; intros st m1 o1 H; cbn [run app] in *.
  - injection H as <- <- <-. destruct (run day_number period st ys) as [[[? ?] ?]|]; done.
  - destruct (general_work day_number period st x) as [[[sa ma] oa]|]; [|done]. cbn [mbind option_bind] in *.
    destruct (run day_number period sa xs) as [[[sb mb] ob]|] eqn:E; [|done]. cbn [mbind option_bind] in *. injection H as <- <- <-.
    rewrite (IH _ _ _ E). destruct (run day_number period sb ys) as [[[? ?] ?]|]; [|done]. cbn [mbind option_bind]. by rewrite <- app_assoc.
Qed.

(** The symbol that ends a string. *)
Lemma end_sync st x bits msgs nav sat : d_stat st = 2 -> 0 <= d_preamble_index st -> d_sample_counter st + 1 = d_preamble_index st + 2000 ->
  d_preamble_index st + 2000 < 2 ^ 64 -> string_of (push_symbol (d_symbol_history st) x) = Some bits ->
  process_string day_number bits (d_nav st) (d_satellite st) = Some (msgs, nav, sat) -> 0 <= d_CRC_error_counter st < 2 ^ 30 ->
  frame_sync day_number st (push_symbol (d_symbol_history st) x) (u64 (d_sample_counter st + 1)) =
    Some (msgs, if flag_CRC_test (ident nav) then
        {| s_nav := nav; s_sat := sat; s_time := d_preamble_time_samples st; s_index := d_sample_counter st + 1; s_stat := 2; s_errors := 0; s_frame_sync := true;
           s_preamble := true |}
      else {| s_nav := nav; s_sat := sat; s_time := d_preamble_time_samples st; s_index := d_sample_counter st + 1; s_errors := d_CRC_error_counter st + 1;
           s_stat := if CRC_ERROR_LIMIT <? d_CRC_error_counter st + 1 then 0 else 2;
           s_frame_sync := if CRC_ERROR_LIMIT <? d_CRC_error_counter st + 1 then false else d_flag_frame_sync st; s_preamble := false |}).
Proof.
  intros Hstat Hi Hend Hmax Hstr Hp He. unfold string_of in Hstr. unfold frame_sync. destruct (correlate _) as [c|]; [|done]. cbn [mbind option_bind] in *.
  rewrite Hstat. unfold GLONASS_GNAV_STRING_SYMBOLS. rewrite !uwrap_small by lia. rewrite (proj2 (Z.eqb_eq _ _)) by lia.
  destruct (fetch_symbols _ _ _ _) as [symbols|]; [|done]. cbn [mbind option_bind] in *. unfold decode_string. rewrite Hstr. cbn [mbind option_bind]. rewrite Hp.
  cbn [mbind option_bind]. destruct (flag_CRC_test (ident nav)); [done|]. unfold chk_i32. by rewrite decide_True by lia.
Qed.

(** Every 2000 symbols are one step of the machine. *)
Lemma string_refined st a xs bits msgs a' b : represents st a -> a_locked a = true -> length xs = 2000%nat -> string_of xs = Some bits ->
  string_step day_number bits a = Some (msgs, a') -> 0 <= d_sample_counter st -> d_sample_counter st + 2000 < 2 ^ 64 -> a_errors a + 1 < 2 ^ 30 ->
  clock_in (d_TOW_at_current_symbol st) b -> week_ms <= b -> b + 4000 < 2 ^ 31 ->
  exists st' outs, run day_number period st xs = Some (st', msgs, outs) /\ length outs = 2000%nat /\ represents st' a' /\
    d_sample_counter st' = d_sample_counter st + 2000 /\ clock_in (d_TOW_at_current_symbol st') (b + 4000).
Proof.
  intros [R1 R2 R3 R4 R5 R6 R7 R8] Hlk Hl Hstr Hstep H0 Hmax Herr Hc Hw Hb. rewrite Hlk in R5. assert (0 <= b) as Hb0 by (unfold week_ms in Hw; lia).
  destruct (exists_last (l := xs)) as (ys & x & ->); [by destruct xs|]. rewrite length_app in Hl. cbn [length] in Hl.
  destruct (wait_run ys st b) as (st1 & outs & Hr & Hlo & [W1 W2 W3 W4 W5 W6 W7 W8 W9]); [by right|lia|lia|lia|done|done|lia|].
  rewrite (string_run_app ys [x] st st1 [] outs Hr). cbn [run].
  assert (push_symbol (d_symbol_history st1) x = ys ++ [x]) as Hh.
  { rewrite W7. change (fold_left push_symbol [x] (fold_left push_symbol ys (d_symbol_history st)) = ys ++ [x]). rewrite <- fold_left_app. apply history_full; [done|].
    rewrite length_app. cbn. lia. }
  unfold string_step in Hstep. destruct (process_string day_number bits (a_nav a) (a_sat a)) as [[[msgs1 nav] sat]|] eqn:Ep; [|done]. cbn [mbind option_bind] in Hstep.
  pose proof (end_sync st1 x bits msgs1 nav sat) as Hs. rewrite Hh, W1, W2, R1, R2 in Hs. specialize (Hs ltac:(congruence) ltac:(lia) ltac:(lia) ltac:(lia) Hstr Ep ltac:(lia)).
  rewrite <- Hh in Hs. assert (length (push_symbol (d_symbol_history st1) x) <= 2000)%nat as Hh2 by (rewrite Hh, length_app; cbn; lia).
  destruct (flag_CRC_test (ident nav)) eqn:Ecrc.
  - unfold general_work. rewrite Hs. cbn [mbind option_bind s_preamble]. unfold update_time. cbn [s_preamble s_nav andb].
    destruct (flag_TOW_new (tflags nav)) eqn:Etow.
    + fold (new_time nav). destruct (decide (clock_in (new_time nav) week_ms)) as [Hn|]; [|done]. injection Hstep as <- <-.
      destruct (clock_ms _ _ Hn ltac:(unfold week_ms; lia)) as [ms Hms]. rewrite Hms. cbn [mbind option_bind app]. rewrite app_nil_r. eexists _, _. split; [done|].
      split; [rewrite length_app; cbn; lia|]. cbn [d_sample_counter d_TOW_at_current_symbol]. rewrite uwrap_small by lia.
      split; [|split; [lia|apply (clock_in_le _ _ _ Hn); lia]]. split; cbn; try done; rewrite ?uwrap_small by lia; lia.
    + injection Hstep as <- <-. pose proof (clock_tick _ _ W9 ltac:(lia)) as Ht. rewrite <- Hperiod in Ht. destruct (clock_ms _ _ Ht ltac:(lia)) as [ms Hms].
      rewrite Hms. cbn [mbind option_bind app]. rewrite app_nil_r. eexists _, _. split; [done|].
      split; [rewrite length_app; cbn; lia|]. cbn [d_sample_counter d_TOW_at_current_symbol]. rewrite uwrap_small by lia.
      split; [|split; [lia|apply (clock_in_le _ _ _ Ht); lia]]. split; cbn; try done; rewrite ?uwrap_small by lia; lia.
  - injection Hstep as <- <-. destruct (tick_work st1 x _ _ _ Hs eq_refl W9 ltac:(lia) ltac:(lia)) as (ms & Hg & Ht). rewrite Hg. cbn [mbind option_bind app].
    rewrite app_nil_r. eexists _, _. split; [done|].
    split; [rewrite length_app; cbn; lia|]. cbn [d_sample_counter d_TOW_at_current_symbol]. rewrite uwrap_small by lia.
    split; [|split; [lia|apply (clock_in_le _ _ _ Ht); lia]]. rewrite W3, R3, W4, R4. unfold CRC_ERROR_LIMIT in *.
    split; cbn; try done; rewrite ?uwrap_small by lia; try lia. by destruct (6 <? a_errors a + 1).
Qed.

(** ** Lock *)

(** Two time marks, in either phase, 2000 symbols apart, whatever comes between them. *)
Lemma two_marks st x xs c1 c2 b : d_stat st = 0 -> 0 <= d_sample_counter st -> d_sample_counter st + 4000 < 2 ^ 64 -> (length (d_symbol_history st) <= 2000)%nat ->
  length xs = 2000%nat -> correlate (push_symbol (d_symbol_history st) x) = Some c1 -> 300 <= Z.abs c1 -> correlate xs = Some c2 -> 300 <= Z.abs c2 ->
  clock_in (d_TOW_at_current_symbol st) b -> 0 <= b -> b + 4002 < 2 ^ 31 -> 0 <= d_CRC_error_counter st < 2 ^ 30 ->
  exists st' outs, run day_number period st (x :: xs) = Some (st', [], outs) /\ length outs = 2001%nat /\
    represents st' {| a_nav := d_nav st; a_sat := d_satellite st; a_errors := d_CRC_error_counter st; a_sync := d_flag_frame_sync st; a_locked := true |} /\
    d_sample_counter st' = d_sample_counter st + 2001 /\ clock_in (d_TOW_at_current_symbol st') (b + 4002).
Proof.
  intros Hst H0 Hmax Hh Hl Hc1 H1 Hc2 H2 Hc Hb0 Hb He.
  assert (exists h0, rd (push_symbol (d_symbol_history st) x) 0 = Some h0) as [h0 Hh0].
  { apply rd_in. unfold push_symbol. case_match; rewrite length_app; cbn [length]; lia. }
  assert (frame_sync day_number st (push_symbol (d_symbol_history st) x) (u64 (d_sample_counter st + 1)) =
    Some ([], {| s_nav := d_nav st; s_sat := d_satellite st; s_time := dbl_of_Z (Tracking_sample_counter h0); s_index := d_sample_counter st + 1; s_stat := 1;
      s_errors := d_CRC_error_counter st; s_frame_sync := d_flag_frame_sync st; s_preamble := false |})) as Hs.
  { unfold frame_sync. rewrite Hc1. cbn [mbind option_bind]. rewrite Hst. unfold d_symbols_per_preamble. rewrite (proj2 (Z.leb_le _ _)) by lia. rewrite Hh0.
    by rewrite uwrap_small by lia. }
  destruct (tick_work st x _ _ b Hs eq_refl Hc Hb0 ltac:(lia)) as (ms & Hg & Ht). cbn [run]. rewrite Hg. cbn [mbind option_bind].
  match goal with |- context [run day_number period ?s xs] => set (st1 := s) end.
  destruct (exists_last (l := xs)) as (ys & y & ->); [by destruct xs|]. rewrite length_app in Hl. cbn [length] in Hl.
  assert (d_sample_counter st1 = d_sample_counter st + 1) as Hn by (subst st1; cbn [d_sample_counter]; rewrite uwrap_small; lia).
  assert (d_preamble_index st1 = d_sample_counter st + 1) as Hx by done.
  destruct (wait_run ys st1 (b + 2)) as (st2 & outs & Hr & Hlo & [W1 W2 W3 W4 W5 W6 W7 W8 W9]); [by left|lia|lia|lia|done|lia|lia|].
  rewrite (string_run_app ys [y] st1 st2 [] outs Hr). cbn [run].
  assert (length (push_symbol (d_symbol_history st) x) <= 2000)%nat as Hp by (rewrite push_symbol_drop, length_drop, length_app by done; cbn [length]; lia).
  assert (push_symbol (d_symbol_history st2) y = ys ++ [y]) as Hh2.
  { rewrite W7. change (fold_left push_symbol [y] (fold_left push_symbol ys (d_symbol_history st1)) = ys ++ [y]). rewrite <- fold_left_app. apply history_full; [done|].
    rewrite length_app. cbn. lia. }
  assert (exists time, frame_sync day_number st2 (push_symbol (d_symbol_history st2) y) (u64 (d_sample_counter st2 + 1)) =
    Some ([], {| s_nav := d_nav st; s_sat := d_satellite st; s_time := time; s_index := d_sample_counter st2 + 1; s_stat := 2;
      s_errors := d_CRC_error_counter st; s_frame_sync := d_flag_frame_sync st; s_preamble := false |})) as [time Hs2].
  { unfold frame_sync. rewrite Hh2, Hc2. cbn [mbind option_bind]. rewrite W6, W5, Hx. change (d_stat st1) with 1. cbn match.
    unfold d_symbols_per_preamble, GLONASS_GNAV_PREAMBLE_PERIOD_SYMBOLS, GLONASS_GNAV_STRING_SYMBOLS. rewrite (proj2 (Z.leb_le 300 _)) by lia. rewrite (uwrap_small 64 (d_sample_counter st2 + 1)) by lia. rewrite (uwrap_small 64 (_ - _)) by lia.
    rewrite swrap_small by lia. destruct (rd_in (ys ++ [y]) 0 ltac:(rewrite length_app; cbn [length]; lia)) as [h1 Hh1]. rewrite Hh1. cbn [mbind option_bind]. rewrite (proj2 (Z.eqb_eq _ _)) by lia.
    rewrite W1, W2, W3, W4. by eexists. }
  destruct (tick_work st2 y _ _ _ Hs2 eq_refl W9 ltac:(lia) ltac:(lia)) as (ms2 & Hg2 & Ht2). rewrite Hg2. cbn [mbind option_bind app].
  eexists _, _. split; [done|]. split; [cbn [length]; rewrite length_app; cbn; lia|]. cbn [d_sample_counter d_TOW_at_current_symbol]. rewrite uwrap_small by lia.
  split; [|split; [lia|apply (clock_in_le _ _ _ Ht2); lia]]. split; cbn [d_nav d_satellite d_CRC_error_counter d_flag_frame_sync d_stat d_preamble_index d_sample_counter
    d_symbol_history s_nav s_sat s_errors s_frame_sync s_stat s_index a_nav a_sat a_errors a_sync a_locked];
    first [done|by rewrite uwrap_small by lia|rewrite Hh2, length_app; cbn; lia].
Qed.
End Block.
