(* ===== verification/GnavStrings.v ===== *)
(** * GLONASS telemetry decoders: transmissions

    A string whose half bits arrive with the right sign is recovered from its symbols, whatever
    the phase of the carrier and whatever the time mark looks like; and from two time marks on
    the block is the machine on strings of [GnavTlmProps], one step every 2000 symbols. *)
From stdpp Require Import strings.
From S2P Require Import Prelude Doubles DoublesErr DoublesInt Clock NavBits GnssSignal Rtcm RtcmEph GnavTime Gnav GnavHamming GnavTlm GnavTlmProps.
From Stdlib Require Import SpecFloat.

#[local] Open Scope Z_scope.

(** ** Half bits with a sign *)

(** Ten symbols whose sum is positive for 1 and negative for 0. *)
Definition half_signal (half : list double) (c : bool) : Prop := length half = 10%nat /\ (if c then gt0 (half_sum half) else lt0 (half_sum half)) = true.

Lemma half_sum_opp half acc acc' : dbl_same acc' (dbl_opp acc) ->
  dbl_same (fold_left dbl_add (dbl_opp <$> half) acc') (dbl_opp (fold_left dbl_add half acc)).
Proof.
  revert acc acc'. induction half as [|x half IH]; intros acc acc' H; [done|]. cbn [fmap list_fmap fold_left]. apply IH, dbl_add_opp, H.
Qed.

Lemma gt0_same x y : dbl_same x (dbl_opp y) -> gt0 x = lt0 y /\ lt0 x = gt0 y.
Proof. intros H. destruct x as [s|s| |s m e], y as [s'|s'| |s' m' e']; cbn in H; try done; try (injection H; intros; subst); try by destruct s'. Qed.

Lemma half_signal_opp half c : half_signal half c -> half_signal (dbl_opp <$> half) (negb c).
Proof.
  intros [Hl Hc]. split; [by rewrite length_fmap|]. destruct (gt0_same (half_sum (dbl_opp <$> half)) (half_sum half)) as [H1 H2]; [by apply half_sum_opp|].
  destruct c; cbn [negb]; by rewrite ?H1, ?H2.
Qed.

Lemma half_signal_bit half c : half_signal half c -> half_bit half c.
Proof. intros [Hl Hc]. split; [done|]. destruct c; [done|]. destruct (half_sum half) as [| | |[]]; cbn in *; done || by destruct s. Qed.

(** ** Strings in their symbols *)

Lemma fetch_symbols_drop history inverted n i : (300 + i + n <= length history)%nat ->
  fetch_symbols history inverted (Z.of_nat i) n = Some ((fun x => if inverted then dbl_opp x else x) <$> take n (drop (300 + i) (Prompt_I <$> history))).
Proof.
  revert i. induction n as [|n IH]; intros i Hl; [done|]. cbn [fetch_symbols]. unfold d_symbols_per_preamble. replace (Z.of_nat i + 300) with (Z.of_nat (300 + i)) by lia.
  rewrite rd_nat. destruct (lookup_lt_is_Some_2 history (300 + i)) as [s Hs]; [lia|]. rewrite Hs. cbn [mbind option_bind].
  replace (Z.of_nat i + 1) with (Z.of_nat (S i)) by lia. rewrite IH by lia. cbn [mbind option_bind].
  rewrite (drop_S (Prompt_I <$> history) (Prompt_I s) (300 + i)) by by rewrite list_lookup_fmap, Hs.
  replace (300 + S i)%nat with (S (300 + i)) by lia. done.
Qed.

Lemma length_mjoin_halves halves cs : Forall2 half_signal halves cs -> length (mjoin halves) = (10 * length cs)%nat.
Proof.
  induction 1 as [|half c halves cs [Hl _] _ IH]; [done|]. change (mjoin (half :: halves)) with (half ++ mjoin halves). rewrite length_app, IH. cbn [length]. lia.
Qed.

Lemma length_chips prev m : length (chips prev m) = (2 * length m)%nat.
Proof. revert prev. induction m as [|d m IH]; intros prev; [done|]. cbn [chips length]. rewrite IH. lia. Qed.

(** The string in 300 symbols of a time mark and the half bits behind it. *)
Lemma string_of_halves xs mark halves phase prev m : length m = 85%nat -> head m = Some false -> length mark = 300%nat ->
  Prompt_I <$> xs = mark ++ mjoin halves -> Forall2 half_signal halves (xorb phase <$> chips prev m) -> string_of xs = Some m.
Proof.
  intros Hm H0 Hk Hx Hh. pose proof (length_mjoin_halves _ _ Hh) as Hl. rewrite length_fmap, length_chips, Hm in Hl.
  assert (length xs = 2000%nat) as Hxs by (rewrite <- (length_fmap Prompt_I), Hx, length_app; lia).
  unfold string_of. destruct (mark_correlates xs) as [c ->]. cbn [mbind option_bind]. pose proof (fetch_symbols_drop xs (negb (0 <? c)) 1700 0 ltac:(lia)) as Hf.
  change (Z.of_nat 0) with 0 in Hf. rewrite Hf. cbn [mbind option_bind]. rewrite Hx. replace (300 + 0)%nat with (length mark) by lia. rewrite drop_app_length, take_ge by lia.
  destruct (negb (0 <? c)).
  - apply (string_bits_recovered (negb phase) prev) with (halves := fmap dbl_opp <$> halves) in H0; [| done |].
    + rewrite <- H0. f_equal. clear. induction halves as [|h halves IH]; [done|]. cbn [fmap list_fmap]. change (mjoin (h :: halves)) with (h ++ mjoin halves).
      rewrite fmap_app, IH. done.
    + rewrite Forall2_fmap_l. assert (xorb (negb phase) <$> chips prev m = negb <$> (xorb phase <$> chips prev m)) as ->.
      { rewrite <- list_fmap_compose. apply list_fmap_ext. intros i b _. cbn. by destruct phase, b. }
      rewrite Forall2_fmap_r. revert Hh. apply Forall2_impl. intros h c' H. by apply half_signal_bit, half_signal_opp.
  - replace ((fun x : double => x) <$> mjoin halves) with (mjoin halves) by by rewrite list_fmap_id.
    apply (string_bits_recovered phase prev); [done|done|]. revert Hh. apply Forall2_impl. intros h c'. apply half_signal_bit.
Qed.

(** [xs] are the symbols of the string [m]: those of a time mark, and half bits with the signs
    of the relative code of [m] after some bit, in some phase. *)
Definition transmits (xs : list tlm_symbol) (m : list bool) : Prop :=
  length m = 85%nat /\ head m = Some false /\ exists mark halves phase prev, length mark = 300%nat /\ Prompt_I <$> xs = mark ++ mjoin halves /\
    Forall2 half_signal halves (xorb phase <$> chips prev m).

Lemma transmits_string xs m : transmits xs m -> string_of xs = Some m /\ length xs = 2000%nat.
Proof.
  intros (Hm & H0 & mark & halves & phase & prev & Hk & Hx & Hh). split; [by eapply string_of_halves|]. pose proof (length_mjoin_halves _ _ Hh) as Hl.
  rewrite length_fmap, length_chips, Hm in Hl. rewrite <- (length_fmap Prompt_I), Hx, length_app. lia.
Qed.

(** ** Strings in series *)

Section Follow.
Context (day_number : Z -> Z -> Z -> Z).

Lemma step_errors bits a msgs a' : string_step day_number bits a = Some (msgs, a') -> 0 <= a_errors a <= 7 -> a_locked a' = true -> 0 <= a_errors a' <= 7.
Proof.
  unfold string_step. destruct (process_string day_number bits (a_nav a) (a_sat a)) as [[[m1 nav] sat]|]; [|done]. cbn [mbind option_bind]. intros H Ha Hl.
  destruct (flag_CRC_test (ident nav)); [destruct (flag_TOW_new (tflags nav)); [case_decide; [|done]|]|]; injection H as <- <-; cbn [a_errors a_locked] in *; try lia.
  unfold CRC_ERROR_LIMIT in Hl. destruct (Z.ltb_spec 6 (a_errors a + 1)); [done|lia].
Qed.

(** A block in lock follows the machine. *)
Lemma lock_followed period xss strings : period = S754_finite false millisecond (-62) -> Forall2 transmits xss strings -> forall st a msgs a' b,
  represents st a -> 0 <= a_errors a <= 7 -> string_run day_number strings a = Some (msgs, a') -> 0 <= d_sample_counter st ->
  d_sample_counter st + 2000 * Z.of_nat (length strings) < 2 ^ 64 -> clock_in (d_TOW_at_current_symbol st) b -> week_ms <= b -> b + 4000 * Z.of_nat (length strings) < 2 ^ 31 ->
  exists st' outs, run day_number period st (mjoin xss) = Some (st', msgs, outs) /\ represents st' a'.
Proof.
  intros Hp. induction 1 as [|xs m xss strings Hx Hf IH]; intros st a msgs a' b Hr He Hs H0 Hmax Hc Hw Hb.
  - injection Hs as <- <-. by exists st, [].
  - cbn [string_run length] in Hs, Hmax, Hb. destruct (a_locked a) eqn:El; [|done]. destruct (string_step day_number m a) as [[m1 a1]|] eqn:E1; [|done].
    cbn [mbind option_bind] in Hs. destruct (string_run day_number strings a1) as [[m2 a2]|] eqn:E2; [|done]. cbn [mbind option_bind] in Hs. injection Hs as <- <-.
    destruct (transmits_string xs m Hx) as [Hstr Hl].
    destruct (string_refined day_number period Hp st a xs m m1 a1 b) as (st1 & outs & Hrun & _ & Hr1 & Hn & Hc1); [done|done|done|done|done|done|lia|lia|done|done|lia|].
    change (mjoin (xs :: xss)) with (xs ++ mjoin xss). rewrite (string_run_app day_number period xs (mjoin xss) st st1 m1 outs Hrun).
    assert (exists st2 outs2, run day_number period st1 (mjoin xss) = Some (st2, m2, outs2) /\ represents st2 a2) as (st2 & outs2 & Hrun2 & Hr2).
    { destruct strings as [|s strings].
      - inversion Hf; subst. injection E2 as <- <-. by exists st1, [].
      - apply (IH st1 a1 m2 a2 (b + 4000)); [done| |done|lia|cbn [length] in *; lia|done|lia|cbn [length] in *; lia].
        cbn [string_run] in E2. destruct (a_locked a1) eqn:El1; [|done]. by apply (step_errors m a m1). }
    rewrite Hrun2. cbn [mbind option_bind]. by eexists _, _.
Qed.
End Follow.

(** C15: a string is recovered from its symbols. If ten symbols of every half bit have a sum of
    the right sign, in one phase of the carrier or the other, then the symbols that the block
    takes behind the time mark decode as the string itself, which begins with a bit 0:
    whichever phase the correlation with the mark suggests, and whatever bit came before. *)
Theorem string_recovered day_number xs mark halves phase prev m nav sat (Hm : length m = 85%nat) (H0 : head m = Some false) (Hk : length mark = 300%nat)
  (Hx : Prompt_I <$> xs = mark ++ mjoin halves) (Hh : Forall2 half_signal halves (xorb phase <$> chips prev m)) :
  exists corr_value symbols, correlate xs = Some corr_value /\ fetch_symbols xs (negb (0 <? corr_value)) 0 1700 = Some symbols /\
    decode_string day_number symbols nav sat = process_string day_number m nav sat.
Proof.
  pose proof (string_of_halves xs mark halves phase prev m Hm H0 Hk Hx Hh) as Hs. unfold string_of in Hs. destruct (correlate xs) as [c|]; [|done].
  cbn [mbind option_bind] in Hs. destruct (fetch_symbols xs (negb (0 <? c)) 0 1700) as [symbols|] eqn:E; [|done]. cbn [mbind option_bind] in Hs.
  exists c, symbols. split; [done|]. split; [done|]. unfold decode_string. by rewrite Hs.
Qed.

(** Symbols of strength 1 in phase [phase]; the string begins after a bit [prev]. *)
Definition demo_half (c : bool) : list double := replicate 10 (dbl_of_Z (if c then 1 else -1)).
Definition demo_mark (phase : bool) : list double := (fun p => dbl_of_Z (if phase then - p else p)) <$> d_preambles_symbols.
Definition demo_symbol (x : double) : tlm_symbol := {| Prompt_I := x; Tracking_sample_counter := 0; sym_PRN := 0; TOW_at_current_symbol_ms := 0; Flag_valid_word := false |}.
Definition demo_air (phase prev : bool) (m : list bool) : list tlm_symbol :=
  demo_symbol <$> demo_mark phase ++ mjoin (demo_half <$> (xorb phase <$> chips prev m)).

Lemma demo_half_signal c : half_signal (demo_half c) c.
Proof. split; [done|]. destruct c; vm_compute; reflexivity. Qed.

Lemma demo_halves cs : Forall2 half_signal (demo_half <$> cs) cs.
Proof. induction cs as [|c cs IH]; [done|]. cbn [fmap list_fmap]. constructor; [apply demo_half_signal|exact IH]. Qed.

Lemma demo_prompt (xs : list double) : Prompt_I <$> (demo_symbol <$> xs) = xs.
Proof. induction xs as [|x xs IH]; [done|]. cbn [fmap list_fmap]. by rewrite IH. Qed.

Lemma demo_transmits phase prev m : length m = 85%nat -> head m = Some false -> transmits (demo_air phase prev m) m.
Proof.
  intros Hm H0. split; [done|]. split; [done|]. exists (demo_mark phase), (demo_half <$> (xorb phase <$> chips prev m)), phase, prev.
  split; [done|]. split; [apply demo_prompt|apply demo_halves].
Qed.

Definition demo_string (id : Z) : list bool := add_checks (demo_info id).

Lemma string_recovered_witness : exists corr_value symbols, correlate (demo_air true true (demo_string 1)) = Some corr_value /\
  fetch_symbols (demo_air true true (demo_string 1)) (negb (0 <? corr_value)) 0 1700 = Some symbols /\
  decode_string (fun _ _ _ => 0) symbols Gnav_Message_init (make_satellite "Glonass" 1) =
    process_string (fun _ _ _ => 0) (demo_string 1) Gnav_Message_init (make_satellite "Glonass" 1).
Proof.
  apply (string_recovered (fun _ _ _ => 0) _ (demo_mark true) (demo_half <$> (xorb true <$> chips true (demo_string 1))) true true (demo_string 1));
    [reflexivity|reflexivity|reflexivity|apply demo_prompt|apply demo_halves].
Defined.

(** C14: the blocks for L1 and L2 refine a machine on strings. A block without lock that sees a
    time mark, and another one 2000 symbols later, is in lock; from then on it does with every
    2000 symbols, without an access outside its buffers, exactly what the machine does with the
    string they transmit: it publishes the same messages, keeps the same navigation data and
    satellite, and keeps or gives up the lock as the machine does, which gives it up at the
    seventh wrong string in a row. *)
Theorem transmission_followed day_number period st x xs c1 c2 xss strings msgs a'
  (Hp : period = GLONASS_L1_CA_CODE_PERIOD_S \/ period = GLONASS_L2_CA_CODE_PERIOD_S)
  (Hst : d_stat st = 0) (Hh : (length (d_symbol_history st) <= 2000)%nat) (He : 0 <= d_CRC_error_counter st <= 7)
  (Hc1 : correlate (push_symbol (d_symbol_history st) x) = Some c1) (H1 : 300 <= Z.abs c1)
  (Hl : length xs = 2000%nat) (Hc2 : correlate xs = Some c2) (H2 : 300 <= Z.abs c2)
  (Hx : Forall2 transmits xss strings)
  (Hrun : string_run day_number strings {| a_nav := d_nav st; a_sat := d_satellite st; a_errors := d_CRC_error_counter st; a_sync := d_flag_frame_sync st; a_locked := true |}
    = Some (msgs, a'))
  (H0 : 0 <= d_sample_counter st) (Hmax : d_sample_counter st + 4000 + 2000 * Z.of_nat (length strings) < 2 ^ 64)
  (Hc : clock_in (d_TOW_at_current_symbol st) week_ms) (Hb : Z.of_nat (length strings) < 2 ^ 18) :
  exists st' outs, run day_number period st (x :: xs ++ mjoin xss) = Some (st', msgs, outs) /\ represents st' a'.
Proof.
  assert (period = S754_finite false millisecond (-62)) as Hper by (destruct Hp as [-> | ->]; apply code_period_value).
  destruct (two_marks day_number period Hper st x xs c1 c2 week_ms) as (st1 & outs & Hr & Hlo & Hrep & Hn & Hc'); try done; try (unfold week_ms; lia).
  destruct (lock_followed day_number period xss strings Hper Hx st1 _ msgs a' (week_ms + 4002) Hrep) as (st2 & outs2 & Hr2 & Hrep2);
    [cbn [a_errors]; lia|done|lia|lia|done|lia|unfold week_ms; lia|].
  change (x :: xs ++ mjoin xss) with ((x :: xs) ++ mjoin xss). rewrite (string_run_app day_number period _ _ st st1 [] outs Hr), Hr2. cbn [mbind option_bind app].
  by eexists _, _.
Qed.

(** A block that has all but the last symbol of a string in its buffer. *)
Definition demo_block : glonass_telemetry_decoder :=
  let s := glonass_telemetry_decoder_init (make_satellite "Glonass" 1) in
  {| d_nav := d_nav s; d_satellite := d_satellite s; d_symbol_history := demo_symbol dbl_zero :: take 1999 (demo_air false false (demo_string 6));
     d_preamble_time_samples := d_preamble_time_samples s; d_TOW_at_current_symbol := d_TOW_at_current_symbol s; d_sample_counter := 2000;
     d_preamble_index := d_preamble_index s; d_stat := d_stat s; d_CRC_error_counter := d_CRC_error_counter s; d_channel := d_channel s;
     d_flag_frame_sync := d_flag_frame_sync s; d_flag_preamble := d_flag_preamble s |}.

(** Two more strings, the second one in the other phase and with two wrong bits. *)
Definition demo_bad_string : list bool := <[20%nat := true]> (<[60%nat := true]> (demo_string 2)).

Lemma transmission_followed_witness : exists st outs,
  run (fun _ _ _ => 0) GLONASS_L1_CA_CODE_PERIOD_S demo_block (demo_symbol (dbl_of_Z 1) :: demo_air true false (demo_string 9) ++
    mjoin [demo_air false true (demo_string 1); demo_air true false demo_bad_string]) = Some (st, [], outs) /\
  exists a, represents st a /\ a_errors a = 1 /\ a_sync a = true /\ d_P_1 (str1 (strs (a_nav a))) = dbl_of_Z 15.
Proof.
  destruct (string_run (fun _ _ _ => 0) [demo_string 1; demo_bad_string] {| a_nav := d_nav demo_block; a_sat := d_satellite demo_block; a_errors := 0; a_sync := false;
    a_locked := true |}) as [[msgs a]|] eqn:E; [|vm_compute in E; discriminate].
  destruct (transmission_followed (fun _ _ _ => 0) GLONASS_L1_CA_CODE_PERIOD_S demo_block (demo_symbol (dbl_of_Z 1)) (demo_air true false (demo_string 9)) 300 (-300)
    [demo_air false true (demo_string 1); demo_air true false demo_bad_string] [demo_string 1; demo_bad_string] msgs a) as (st & outs & Hr & Hrep).
  - by left.
  - reflexivity.
  - apply Nat.leb_le. vm_compute. reflexivity.
  - split; apply Z.leb_le; reflexivity.
  - vm_compute. reflexivity.
  - lia.
  - reflexivity.
  - vm_compute. reflexivity.
  - lia.
  - constructor; [by apply demo_transmits|]. constructor; [by apply demo_transmits|constructor].
  - exact E.
  - apply Z.leb_le. reflexivity.
  - apply Z.ltb_lt. vm_compute. reflexivity.
  - cbn. unfold week_ms. lia.
  - apply Z.ltb_lt. vm_compute. reflexivity.
  - vm_compute in E. injection E as <- <-. exists st, outs. split; [exact Hr|]. eexists. split; [exact Hrep|]. repeat split; vm_compute; reflexivity.
Defined.
