(* ===== verification/GnavProps.v ===== *)
(** * GLONASS: ephemerides and almanacs from strings

    What the strings of the navigation message hold, when an ephemeris is published and what is
    in it, and which strings take the decoder outside its arrays. *)
From stdpp Require Import strings.
From S2P Require Import Prelude Doubles DoublesErr DoublesInt NavBits GnssSignal Rtcm RtcmProps RtcmEph RtcmEphProps GnavTime Gnav GnavHamming GnavTlm GnavTlmProps.
From Stdlib Require Import SpecFloat.

#[local] Open Scope Z_scope.

(** ** Fields of a string *)

(** Sign and magnitude. *)
Definition sm_val (l : list bool) : Z := match l with b :: l' => if b then - bits_val l' else bits_val l' | [] => 0 end.

Definition fu (m : list bool) (p : slices) : Z := bits_val (field m p).
Definition fs (m : list bool) (p : slices) : Z := sm_val (field m p).
Definition fb (m : list bool) (p : slices) : bool := default false (head (field m p)).

Lemma fold_plain l v : 0 <= v -> v * 2 ^ Z.of_nat (length l) + bits_val l < 2 ^ 62 ->
  fold_left (fun value (b : bool) => i64 (i64 (Z.shiftl value 1) + Z.b2z b)) l v = v * 2 ^ Z.of_nat (length l) + bits_val l.
Proof.
  revert v. induction l as [|b l IH]; intros v Hv Hlt; [cbn in *; lia|]. cbn [fold_left]. rewrite bits_val_cons in *. cbn [length] in *.
  rewrite Nat2Z.inj_succ, Z.pow_succ_r in * by lia. pose proof (bits_val_range l). set (w := 2 ^ Z.of_nat (length l)) in *. assert (1 <= w) by (unfold w; lia).
  assert (0 <= Z.b2z b <= 1) by (destruct b; cbn; lia). assert (v < 2 ^ 61) by nia. rewrite Z.shiftl_mul_pow2, Z.pow_1_r by lia.
  rewrite (swrap_small 64 (v * 2)) by lia. rewrite swrap_small by lia. rewrite IH; nia.
Qed.

Section Fields.
Context (m : list bool) (Hm : length m = 85%nat).

Lemma unsigned_spec p : field_ok 85 64 p = true -> nav_unsigned (reverse m) p = Some (fu m p).
Proof. intros Hp. apply read_unsigned_field; [lia|done]. Qed.

Lemma bool_spec first n : slices_in 85 [(first, n)] = true -> nav_bool (reverse m) [(first, n)] = Some (fb m [(first, n)]).
Proof.
  intros Hp. cbn [slices_in forallb fst snd] in Hp. unfold nav_bool. rewrite (read_bool_field 85) by lia.
  destruct (lookup_lt_is_Some_2 m (Z.to_nat (first - 1))) as [b Hb]; [lia|]. rewrite Hb. f_equal. unfold fb. rewrite field_cons, (drop_S _ _ _ Hb).
  destruct (Z.to_nat n) eqn:E; [lia|]. done.
Qed.

Lemma signed_spec first n : slices_in 85 [(first, n)] = true -> n <= 60 -> nav_signed (reverse m) [(first, n)] = Some (fs m [(first, n)]).
Proof.
  intros Hp Hn. cbn [slices_in forallb fst snd] in Hp. unfold nav_signed. change (rd [(first, n)] 0) with (Some (first, n)). cbn [mbind option_bind fst].
  rewrite rd_bitset by lia. destruct (lookup_lt_is_Some_2 m (Z.to_nat (first - 1))) as [b Hb]; [lia|]. rewrite Hb. cbn [mbind option_bind read_slices].
  rewrite read_slice_spec by lia. cbn [mbind option_bind]. replace (Z.to_nat (first + 1 - 1)) with (S (Z.to_nat (first - 1))) by lia.
  unfold fs. rewrite field_cons, (drop_S _ _ _ Hb). replace (Z.to_nat n) with (S (Z.to_nat (n - 1))) by lia. cbn [take field mbind list_bind app].
  set (l := take (Z.to_nat (n - 1)) (drop (S (Z.to_nat (first - 1))) m)).
  assert (Z.of_nat (length l) <= 59) as Hl by (unfold l; rewrite length_take; lia).
  pose proof (bits_val_range l) as Hr. pose proof (Z.pow_le_mono_r 2 (Z.of_nat (length l)) 59 ltac:(lia) Hl).
  rewrite fold_plain by lia. rewrite app_nil_r. cbn [sm_val]. f_equal. rewrite Z.mul_0_l, Z.add_0_l. destruct b; rewrite swrap_small; lia.
Qed.

Lemma udouble_spec p : field_ok 85 64 p = true -> udouble (reverse m) p = Some (dbl_of_Z (fu m p)).
Proof. intros Hp. unfold udouble. by rewrite unsigned_spec. Qed.

(** One slice, of up to 60 bits. *)
Definition one_slice (p : slices) : bool := match p with [(first, n)] => slices_in 85 p && (n <=? 60) | _ => false end.

Lemma sdouble_spec p lsb : one_slice p = true -> sdouble (reverse m) p lsb = Some (dbl_mul (dbl_of_Z (fs m p)) lsb).
Proof. destruct p as [|[first n] [|]]; [done| |done]. intros [Hp Hn%Z.leb_le]%andb_true_iff. unfold sdouble. by rewrite signed_spec. Qed.

Lemma nav_bool_spec p : one_slice p = true -> nav_bool (reverse m) p = Some (fb m p).
Proof. destruct p as [|[first n] [|]]; [done| |done]. intros [Hp _]%andb_true_iff. by apply bool_spec. Qed.

Lemma fu_range p n : slices_in 85 p = true -> slices_width p = n -> unsigned_in n (fu m p).
Proof. intros Hp <-. pose proof (bits_val_range (field m p)) as Hr. by rewrite (field_length 85) in Hr by (done || lia). Qed.

Lemma fs_range first n : slices_in 85 [(first, n)] = true -> magnitude_in (n - 1) (fs m [(first, n)]).
Proof.
  intros Hp. pose proof (field_length 85 m [(first, n)] ltac:(lia) Hp) as Hl. cbn [slices_in forallb fst snd slices_width foldr] in *. unfold fs, magnitude_in.
  destruct (field m [(first, n)]) as [|b l]; cbn [length sm_val] in *; [lia|]. pose proof (bits_val_range l) as Hr. replace (n - 1) with (Z.of_nat (length l)) by lia.
  destruct b; lia.
Qed.

Lemma fs_in p w : (match p with [(first, n)] => slices_in 85 p && (n - 1 =? w) | _ => false end) = true -> magnitude_in w (fs m p).
Proof. destruct p as [|[first n] [|]]; [done| |done]. intros [Hp <-%Z.eqb_eq]%andb_true_iff. by apply fs_range. Qed.
End Fields.

(** [gnav_reads] evaluates the readers of fields. *)
Ltac gnav_reads Hm := repeat first
  [ rewrite (unsigned_spec _ Hm) by done | rewrite (udouble_spec _ Hm) by done | rewrite (nav_bool_spec _ Hm) by done
  | rewrite (sdouble_spec _ Hm) by done ]; cbn [mbind option_bind].

(** ** The integers of an ephemeris *)

Section Raw.
Import GLONASS_GNAV.

(** The time of day in string 1. *)
Definition day_time (m1 : list bool) : Z := 3600 * fu m1 T_K_HR + 60 * fu m1 T_K_MIN + 30 * fu m1 T_K_SEC.

(** What strings 1 to 5 hold, for a satellite on frequency channel [freq]. *)
Definition raw_of (m1 m2 m3 m4 m5 : list bool) (freq : Z) : raw_glonass :=
  {| l_slot := fu m4 N; l_freq := freq; l_p1 := fu m1 P1; l_tk := day_time m1; l_bn := negb (fu m2 B_N =? 0); l_p2 := fb m2 P2; l_tb := fu m2 T_B;
     l_vx := fs m1 X_N_DOT; l_x := fs m1 X_N; l_ax := fs m1 X_N_DOT_DOT; l_vy := fs m2 Y_N_DOT; l_y := fs m2 Y_N; l_ay := fs m2 Y_N_DOT_DOT;
     l_vz := fs m3 Z_N_DOT; l_z := fs m3 Z_N; l_az := fs m3 Z_N_DOT_DOT; l_p3 := fb m3 P3; l_gamma := fs m3 GAMMA_N; l_p := fu m3 P; l_l3 := fb m3 EPH_L_N;
     l_tau := fs m4 TAU_N; l_dtau := fs m4 DELTA_TAU_N; l_en := fu m4 E_N; l_p4 := fb m4 P4; l_ft := fu m4 F_T; l_nt := fu m4 N_T; l_m := fu m4 M;
     l_l5 := fb m5 ALM_L_N; l_na := fu m5 DAY_NUMBER_A; l_tauc := fs m5 TAU_C; l_n4 := fu m5 N_4; l_taugps := fs m5 TAU_GPS |}.

Lemma raw_of_ok m1 m2 m3 m4 m5 freq : length m1 = 85%nat -> length m2 = 85%nat -> length m3 = 85%nat -> length m4 = 85%nat -> length m5 = 85%nat ->
  -7 <= freq <= 24 -> day_time m1 < 86400 -> glo_ok (raw_of m1 m2 m3 m4 m5 freq).
Proof.
  intros H1 H2 H3 H4 H5 Hf Ht.
  assert (0 <= day_time m1) as H0.
  { unfold day_time. pose proof (fu_range m1 H1 T_K_HR 5 eq_refl eq_refl) as [? _]. pose proof (fu_range m1 H1 T_K_MIN 6 eq_refl eq_refl) as [? _].
    pose proof (fu_range m1 H1 T_K_SEC 1 eq_refl eq_refl) as [? _]. lia. }
  split; unfold raw_of; cbn [l_slot l_freq l_p1 l_tk l_tb l_vx l_x l_ax l_vy l_y l_ay l_vz l_z l_az l_gamma l_p l_tau l_dtau l_en l_ft l_nt l_m l_na l_tauc l_n4 l_taugps];
    try (by apply fu_range); try (by apply fs_in); [|unfold unsigned_in; lia|lia|].
  - pose proof (fu_range m4 H4 N 5 eq_refl eq_refl) as [? ?]. split; lia.
  - pose proof (fs_range m5 H5 17 32 eq_refl) as Hr. change (32 - 1) with 31 in Hr. unfold magnitude_in in Hr. fold TAU_C in Hr. unfold signed_in. lia.
Qed.
End Raw.

(** ** Decoding the strings of an ephemeris *)

(** A correct string of number [k] has been recognised. *)
Definition recognised (k : Z) (nav : Gnav_Message) : Gnav_Message := with_ident {| flag_CRC_test := true; d_frame_ID := 0; d_string_ID := k |} nav.

Lemma gnav_string_accepted m : gnav_string m -> CRC_test (reverse m) = Some true.
Proof. intros (Hl & Hs & Hp). by rewrite (CRC_test_hamming m Hl), Hs, Hp. Qed.

Section Values.
Import GLONASS_GNAV.
Context (m : list bool) (Hm : length m = 85%nat).

Definition str1_of : str1_data :=
  {| d_P_1 := dbl_of_Z (15 * (fu m P1 + 1)); d_t_k := dbl_of_Z (day_time m); d_VXn := dbl_mul (dbl_of_Z (fs m X_N_DOT)) TWO_N20;
     d_AXn := dbl_mul (dbl_of_Z (fs m X_N_DOT_DOT)) TWO_N30; d_Xn := dbl_mul (dbl_of_Z (fs m X_N)) TWO_N11 |}.
Definition str2_of : str2_data :=
  {| d_B_n := dbl_of_Z (fu m B_N); d_P_2 := fb m P2; d_t_b := dbl_of_Z (900 * fu m T_B); d_VYn := dbl_mul (dbl_of_Z (fs m Y_N_DOT)) TWO_N20;
     d_AYn := dbl_mul (dbl_of_Z (fs m Y_N_DOT_DOT)) TWO_N30; d_Yn := dbl_mul (dbl_of_Z (fs m Y_N)) TWO_N11; d_iode := dbl_of_Z (fu m T_B) |}.
Definition str3_of : str3_data :=
  {| d_P_3 := fb m P3; d_gamma_n := dbl_mul (dbl_of_Z (fs m GAMMA_N)) TWO_N40; d_P := dbl_of_Z (fu m P); d_l3rd_n := fb m EPH_L_N;
     d_VZn := dbl_mul (dbl_of_Z (fs m Z_N_DOT)) TWO_N20; d_AZn := dbl_mul (dbl_of_Z (fs m Z_N_DOT_DOT)) TWO_N30; d_Zn := dbl_mul (dbl_of_Z (fs m Z_N)) TWO_N11 |}.
Definition str4_of : str4_data :=
  {| d_tau_n := dbl_mul (dbl_of_Z (fs m TAU_N)) TWO_N30; d_Delta_tau_n := dbl_mul (dbl_of_Z (fs m DELTA_TAU_N)) TWO_N30; d_E_n := dbl_of_Z (fu m E_N);
     d_P_4 := fb m P4; d_F_T := dbl_of_Z (fu m F_T); d_N_T := dbl_of_Z (fu m N_T); d_n := dbl_of_Z (fu m N); d_M := dbl_of_Z (fu m M);
     i_satellite_slot_number := fu m N; eph_PRN := fu m N |}.
Definition utc_of : Glonass_Gnav_Utc_Model.glonass_utc_model :=
  {| Glonass_Gnav_Utc_Model.d_N_A := dbl_of_Z (fu m DAY_NUMBER_A); Glonass_Gnav_Utc_Model.d_tau_c := dbl_mul (dbl_of_Z (fs m TAU_C)) TWO_N31;
     Glonass_Gnav_Utc_Model.d_N_4 := dbl_of_Z (fu m N_4); Glonass_Gnav_Utc_Model.d_tau_gps := dbl_mul (dbl_of_Z (fs m TAU_GPS)) TWO_N30 |}.

Lemma read_str1_of : read_str1 (reverse m) = Some str1_of.
Proof.
  unfold read_str1. gnav_reads Hm. unfold str1_of. pose proof (fu_range m Hm P1 2 eq_refl eq_refl) as Hp. pose proof (fu_range m Hm T_K_HR 5 eq_refl eq_refl) as Hh.
  pose proof (fu_range m Hm T_K_MIN 6 eq_refl eq_refl) as Hmi. pose proof (fu_range m Hm T_K_SEC 1 eq_refl eq_refl) as Hs. unfold unsigned_in in *.
  do 2 f_equal.
  - rewrite dbl_add_int by lia. rewrite dbl_mul_nat by lia. f_equal. lia.
  - rewrite !dbl_mul_nat by lia. rewrite !dbl_add_int by lia. f_equal. unfold day_time. lia.
Qed.

Lemma read_str2_of : read_str2 (reverse m) = Some str2_of.
Proof.
  unfold read_str2. gnav_reads Hm. unfold str2_of. pose proof (fu_range m Hm T_B 7 eq_refl eq_refl) as Ht. unfold unsigned_in in *. do 2 f_equal.
  rewrite (dbl_mul_nat (fu m T_B)) by lia. rewrite dbl_mul_nat by lia. f_equal. lia.
Qed.

Lemma read_str3_of : read_str3 (reverse m) = Some str3_of.
Proof. unfold read_str3. gnav_reads Hm. done. Qed.

Lemma read_str4_of : read_str4 (reverse m) = Some str4_of.
Proof.
  unfold read_str4. gnav_reads Hm. pose proof (fu_range m Hm N 5 eq_refl eq_refl) as Hn. unfold unsigned_in in Hn. unfold to_u32. rewrite cast_int by lia. done.
Qed.

Lemma read_utc_of : read_utc (reverse m) = Some utc_of.
Proof. unfold read_utc. gnav_reads Hm. done. Qed.
End Values.
