(* ===== verification/GnavEph.v ===== *)
(** * GLONASS: the ephemeris

    When an ephemeris is published and what is in it: the data of strings 1 to 5, and a
    mixture of two transmissions if strings 3 and 4 of the second one are lost. *)
From stdpp Require Import strings.
From S2P Require Import Prelude Doubles DoublesErr DoublesInt NavBits GnssSignal Rtcm RtcmProps RtcmEph RtcmEphProps GnavTime Gnav GnavHamming GnavTlm GnavTlmProps GnavProps.
From Stdlib Require Import SpecFloat.

#[local] Open Scope Z_scope.

(** ** Quiet strings *)

(** No pair of strings of an almanac is complete. *)
Definition no_pair (a : almanac_data) : bool := forallb (fun k => negb (alm_flag a k && alm_flag a (k + 1))) [6; 8; 10; 12; 14].

(** Nothing waits to be published. *)
Definition idle (nav : Gnav_Message) : Prop :=
  flag_utc_model_str_5 (sflags nav) = false /\ flag_update_slot_number (tflags nav) = false /\ no_pair (alm nav) = true.

#[global] Instance idle_dec nav : Decision (idle nav).
Proof. unfold idle. apply _. Defined.

Lemma no_new_almanac nav : no_pair (alm nav) = true -> have_new_almanac nav = Some (false, nav).
Proof.
  unfold no_pair, have_new_almanac. cbn [forallb]. intros H. repeat rewrite andb_true_iff in H. destruct H as (H1 & H2 & H3 & H4 & H5 & _).
  apply negb_true_iff in H1, H2, H3, H4, H5. unfold new_almanac_pair. rewrite H1. cbn [mbind option_bind]. rewrite H2. cbn [mbind option_bind].
  rewrite H3. cbn [mbind option_bind]. rewrite H4. cbn [mbind option_bind]. by rewrite H5.
Qed.

(** What follows the decoder when nothing is complete. *)
Lemma nothing_published day_number m nav sat k nav1 : string_decoder day_number m nav = Some (k, nav1) -> flag_utc_model_str_5 (sflags nav1) = false ->
  no_pair (alm nav1) = true ->
  process_string day_number m nav sat =
    (if flag_update_slot_number (tflags nav1) then
       n ← to_u32 (d_n (str4 (strs nav1)));
       Some ([], set_flag_update_slot_number false nav1,
         {| system := system sat; block := block sat; PRN := if decide (system sat = "Glonass"%string) then n else 0; rf_link := (what_block (system sat) n (rf_link sat)).2 |})
     else Some ([], nav1, sat)).
Proof.
  intros Hd H5 Hp. unfold process_string. rewrite Hd. cbn [mbind option_bind]. unfold have_new_ephemeris. rewrite H5, andb_false_r. unfold have_new_utc_model. rewrite H5.
  rewrite (no_new_almanac nav1 Hp). done.
Qed.

Section Five.
Context (day_number : Z -> Z -> Z -> Z).
Import GLONASS_GNAV.

(** A correct string with its number. *)
Definition string_nr (k : Z) (m : list bool) : Prop := gnav_string m /\ fu m STRING_ID = k.

Lemma decoder_nr k m : string_nr k m -> CRC_test (reverse m) = Some true /\ nav_unsigned (reverse m) STRING_ID = Some k /\ length m = 85%nat.
Proof.
  intros [Hg Hk]. split; [by apply gnav_string_accepted|]. destruct Hg as [Hl _]. split; [|done]. by rewrite (unsigned_spec m Hl), Hk.
Qed.

(** [recognise H] takes the decoder to the branch of the string number in [H]. *)
Ltac recognise H := let Hc := fresh in let Hn := fresh in let Hl := fresh "Hl" in destruct (decoder_nr _ _ H) as (Hc & Hn & Hl);
  unfold string_decoder; rewrite Hc; cbn [mbind option_bind negb]; rewrite Hn; cbn [mbind option_bind with_ident sflags].

Lemma decode_1 m nav : string_nr 1 m -> string_decoder day_number m nav = Some (1, set_str1 (str1_of m) (recognised 1 nav)).
Proof. intros H. recognise H. by rewrite read_str1_of. Qed.

Lemma decode_2 m nav : string_nr 2 m -> flag_ephemeris_str_1 (sflags nav) = true ->
  string_decoder day_number m nav = Some (2, set_str2 (str2_of m) (recognised 2 nav)).
Proof. intros H Hf. recognise H. by rewrite Hf, read_str2_of. Qed.

Lemma decode_3 m nav : string_nr 3 m -> flag_ephemeris_str_2 (sflags nav) = true ->
  string_decoder day_number m nav = Some (3, set_str3 (str3_of m) (recognised 3 nav)).
Proof. intros H Hf. recognise H. by rewrite Hf, read_str3_of. Qed.

Lemma decode_4 m nav : string_nr 4 m -> flag_ephemeris_str_3 (sflags nav) = true ->
  string_decoder day_number m nav = Some (4, set_str4 (str4_of m) (recognised 4 nav)).
Proof. intros H Hf. recognise H. by rewrite Hf, read_str4_of. Qed.

Lemma decode_5 m nav : string_nr 5 m -> flag_ephemeris_str_4 (sflags nav) = true ->
  string_decoder day_number m nav = n ← decode_str5 day_number (reverse m) (recognised 5 nav); Some (5, n).
Proof. intros H Hf. recognise H. by rewrite Hf. Qed.

(** ** A sequence of strings *)

Fixpoint process_strings (strings : list (list bool)) (nav : Gnav_Message) (sat : Gnss_Satellite) : option (list gnav_msg * Gnav_Message * Gnss_Satellite) :=
  match strings with
  | [] => Some ([], nav, sat)
  | m :: rest => '(msgs, nav1, sat1) ← process_string day_number m nav sat; '(more, nav2, sat2) ← process_strings rest nav1 sat1; Some (msgs ++ more, nav2, sat2)
  end.

(** The satellite after string 4 with slot number [n]. *)
Definition slot_satellite (n : Z) (sat : Gnss_Satellite) : Gnss_Satellite :=
  {| system := system sat; block := block sat; PRN := if decide (system sat = "Glonass"%string) then n else 0; rf_link := (what_block (system sat) n (rf_link sat)).2 |}.

Lemma process_1 m nav sat : string_nr 1 m -> idle nav -> process_string day_number m nav sat = Some ([], set_str1 (str1_of m) (recognised 1 nav), sat).
Proof. intros H (H5 & Hu & Hp). rewrite (nothing_published day_number m nav sat 1 _ (decode_1 m nav H)) by done. cbn. by rewrite Hu. Qed.

Lemma process_2 m nav sat : string_nr 2 m -> idle nav -> flag_ephemeris_str_1 (sflags nav) = true ->
  process_string day_number m nav sat = Some ([], set_str2 (str2_of m) (recognised 2 nav), sat).
Proof. intros H (H5 & Hu & Hp) Hf. rewrite (nothing_published day_number m nav sat 2 _ (decode_2 m nav H Hf)) by done. cbn. by rewrite Hu. Qed.

Lemma process_3 m nav sat : string_nr 3 m -> idle nav -> flag_ephemeris_str_2 (sflags nav) = true ->
  process_string day_number m nav sat = Some ([], set_str3 (str3_of m) (recognised 3 nav), sat).
Proof. intros H (H5 & Hu & Hp) Hf. rewrite (nothing_published day_number m nav sat 3 _ (decode_3 m nav H Hf)) by done. cbn. by rewrite Hu. Qed.

Lemma process_4 m nav sat : string_nr 4 m -> idle nav -> flag_ephemeris_str_3 (sflags nav) = true ->
  process_string day_number m nav sat = Some ([], set_flag_update_slot_number false (set_str4 (str4_of m) (recognised 4 nav)), slot_satellite (fu m N) sat).
Proof.
  intros H (H5 & Hu & Hp) Hf. rewrite (nothing_published day_number m nav sat 4 _ (decode_4 m nav H Hf)) by done.
  destruct H as [[Hl _] _]. pose proof (fu_range m Hl N 5 eq_refl eq_refl) as Hn. unfold unsigned_in in Hn.
  change (to_u32 (d_n (str4 (strs (set_str4 (str4_of m) (recognised 4 nav)))))) with (to_u32 (dbl_of_Z (fu m N))). unfold to_u32. rewrite cast_int by lia. done.
Qed.

(** ** String 5 *)

(** The year of day [nt] and the number [n4] of the four years. *)
Definition year_of (nt n4 : Z) : Z := 1996 + 4 * (n4 - 1) + (four_year_index (dbl_of_Z nt) - 1).

Definition str5_of (m : list bool) (nt tk wn : Z) (tow : double) : str5_data :=
  {| d_l5th_n := fb m ALM_L_N; d_yr := dbl_of_Z (year_of nt (fu m N_4)); eph_tau_c := dbl_mul (dbl_of_Z (fs m TAU_C)) TWO_N31; d_WN := wn; d_TOW := tow;
     d_tod := dbl_of_Z (tk + 10) |}.

(** The week and the time of week of strings 1, 4 and 5, with the first at [tk] seconds and the
    second of day [nt]. *)
Definition week_of (m : list bool) (nt tk : Z) : option (Z * double) :=
  glot_to_gpst day_number (dbl_of_Z nt) (dbl_of_Z (year_of nt (fu m N_4))) (dbl_of_Z (tk + 10)) (dbl_mul (dbl_of_Z (fs m TAU_C)) TWO_N31)
    (dbl_mul (dbl_of_Z (fs m TAU_GPS)) TWO_N30).

(** The message after string 5 and what [have_new_ephemeris] and [have_new_utc_model] do. *)
Definition published (s5 : str5_data) (u : Glonass_Gnav_Utc_Model.glonass_utc_model) (freq : Z) (nav : Gnav_Message) : Gnav_Message :=
  {| ident := {| flag_CRC_test := true; d_frame_ID := 0; d_string_ID := 5 |};
     strs := {| str1 := str1 (strs nav); str2 := str2 (strs nav); str3 := str3 (strs nav); str4 := str4 (strs nav); str5 := s5; freq_channel := freq |};
     utc := {| gnav_utc_model := u; d_B1 := d_B1 (utc nav); d_B2 := d_B2 (utc nav) |}; alm := alm nav;
     sflags := {| flag_ephemeris_str_1 := false; flag_ephemeris_str_2 := false; flag_ephemeris_str_3 := false; flag_ephemeris_str_4 := false; flag_utc_model_str_5 := false |};
     tflags := {| flag_update_slot_number := flag_update_slot_number (tflags nav); flag_all_ephemeris := true; flag_TOW_set := true; flag_TOW_new := true;
       d_previous_tb := d_t_b (str2 (strs nav)) |} |}.

(** The four strings before have been received. *)
Definition four_strings (f : string_flags) : bool := flag_ephemeris_str_1 f && flag_ephemeris_str_2 f && flag_ephemeris_str_3 f && flag_ephemeris_str_4 f.

Lemma four_times n4 : 0 <= n4 < 2 ^ 5 -> dbl_mul (dbl_of_Z 4) (dbl_of_Z (n4 - 1)) = dbl_of_Z (4 * (n4 - 1)).
Proof. intros H. destruct (decide (n4 = 0)) as [->|]; [vm_compute; reflexivity|apply dbl_mul_nat; lia]. Qed.

(** The message after string 5. *)
Definition after_5 (s5 : str5_data) (u : Glonass_Gnav_Utc_Model.glonass_utc_model) (nav : Gnav_Message) : Gnav_Message :=
  {| ident := ident nav;
     strs := {| str1 := str1 (strs nav); str2 := str2 (strs nav); str3 := str3 (strs nav); str4 := str4 (strs nav); str5 := s5; freq_channel := freq_channel (strs nav) |};
     utc := {| gnav_utc_model := u; d_B1 := d_B1 (utc nav); d_B2 := d_B2 (utc nav) |}; alm := alm nav;
     sflags := {| flag_ephemeris_str_1 := true; flag_ephemeris_str_2 := flag_ephemeris_str_2 (sflags nav); flag_ephemeris_str_3 := flag_ephemeris_str_3 (sflags nav);
       flag_ephemeris_str_4 := flag_ephemeris_str_4 (sflags nav); flag_utc_model_str_5 := true |};
     tflags := {| flag_update_slot_number := flag_update_slot_number (tflags nav); flag_all_ephemeris := flag_all_ephemeris (tflags nav); flag_TOW_set := true;
       flag_TOW_new := true; d_previous_tb := d_previous_tb (tflags nav) |} |}.

Lemma decode_str5_of m nav nt tk wn tow : length m = 85%nat -> d_string_ID (ident nav) = 5 -> flag_ephemeris_str_1 (sflags nav) = true ->
  d_N_T (str4 (strs nav)) = dbl_of_Z nt -> d_t_k (str1 (strs nav)) = dbl_of_Z tk -> 0 <= tk < 2 ^ 30 -> week_of m nt tk = Some (wn, tow) ->
  decode_str5 day_number (reverse m) nav = Some (after_5 (str5_of m nt tk wn tow) (utc_of m) nav).
Proof.
  intros Hl Hid F1 Hnt Htk Hr Hw. pose proof (fu_range m Hl N_4 5 eq_refl eq_refl) as Hn4. unfold unsigned_in in Hn4.
  pose proof (four_year_index_range (dbl_of_Z nt)) as HJ. unfold decode_str5. rewrite (read_utc_of m Hl). cbn [mbind option_bind]. rewrite (nav_bool_spec m Hl) by done.
  cbn [mbind option_bind utc_of Glonass_Gnav_Utc_Model.d_N_4 Glonass_Gnav_Utc_Model.d_tau_c Glonass_Gnav_Utc_Model.d_tau_gps].
  rewrite F1, Hid, Hnt, Htk. rewrite !(dbl_sub_int _ 1) by lia. rewrite four_times by lia. rewrite !dbl_add_int by (change (u32 (2 * 5)) with 10; lia).
  fold (year_of nt (fu m N_4)). unfold week_of in Hw. rewrite Hw. cbn [mbind option_bind fst snd]. done.
Qed.

Lemma process_5 m nav sat nt tk wn tow : string_nr 5 m -> idle nav -> four_strings (sflags nav) = true ->
  d_N_T (str4 (strs nav)) = dbl_of_Z nt -> d_t_k (str1 (strs nav)) = dbl_of_Z tk -> 0 <= tk < 2 ^ 30 -> week_of m nt tk = Some (wn, tow) ->
  dbl_ne (d_previous_tb (tflags nav)) (d_t_b (str2 (strs nav))) = true ->
  let nav' := published (str5_of m nt tk wn tow) (utc_of m) (rf_link sat) nav in
  process_string day_number m nav sat = Some ([pub_gnav_ephemeris (get_ephemeris nav'); pub_gnav_utc (utc nav')], nav', sat).
Proof.
  intros H (H5 & Hu & Hp) Hf Hnt Htk Hr Hw Hne. unfold four_strings in Hf. rewrite !andb_true_iff in Hf. destruct Hf as (((F1 & F2) & F3) & F4).
  destruct (decoder_nr 5 m H) as (_ & _ & Hl).
  unfold process_string. rewrite (decode_5 m nav H F4), (decode_str5_of m (recognised 5 nav) nt tk wn tow) by done. cbn [mbind option_bind].
  unfold have_new_ephemeris. cbn [after_5 sflags flag_ephemeris_str_1 flag_ephemeris_str_2 flag_ephemeris_str_3 flag_ephemeris_str_4 flag_utc_model_str_5 andb tflags d_previous_tb
    strs str2 recognised with_ident]. rewrite F2, F3, F4, Hne. cbn [andb]. unfold have_new_utc_model. cbn [with_freq with_strs with_tflags with_sflags sflags flag_utc_model_str_5].
  rewrite no_new_almanac by exact Hp. cbn [mbind option_bind]. cbn [with_freq with_strs with_tflags with_sflags after_5 recognised with_ident tflags flag_update_slot_number]. rewrite Hu.
  unfold published. rewrite Hu. done.
Qed.

(** String 5 of data that was published before. *)
Lemma process_5_again m nav sat nt tk wn tow : string_nr 5 m -> idle nav -> four_strings (sflags nav) = true ->
  d_N_T (str4 (strs nav)) = dbl_of_Z nt -> d_t_k (str1 (strs nav)) = dbl_of_Z tk -> 0 <= tk < 2 ^ 30 -> week_of m nt tk = Some (wn, tow) ->
  dbl_ne (d_previous_tb (tflags nav)) (d_t_b (str2 (strs nav))) = false ->
  exists nav', process_string day_number m nav sat = Some ([pub_gnav_utc {| gnav_utc_model := utc_of m; d_B1 := d_B1 (utc nav); d_B2 := d_B2 (utc nav) |}], nav', sat) /\
    idle nav' /\ four_strings (sflags nav') = true /\ d_previous_tb (tflags nav') = d_previous_tb (tflags nav) /\ str3 (strs nav') = str3 (strs nav) /\
    str4 (strs nav') = str4 (strs nav) /\ d_B1 (utc nav') = d_B1 (utc nav) /\ d_B2 (utc nav') = d_B2 (utc nav).
Proof.
  intros H (H5 & Hu & Hp) Hf Hnt Htk Hr Hw Hne. unfold four_strings in Hf. rewrite !andb_true_iff in Hf. destruct Hf as (((F1 & F2) & F3) & F4).
  destruct (decoder_nr 5 m H) as (_ & _ & Hl).
  unfold process_string. rewrite (decode_5 m nav H F4), (decode_str5_of m (recognised 5 nav) nt tk wn tow) by done. cbn [mbind option_bind].
  unfold have_new_ephemeris. cbn [after_5 sflags flag_ephemeris_str_1 flag_ephemeris_str_2 flag_ephemeris_str_3 flag_ephemeris_str_4 flag_utc_model_str_5 andb tflags d_previous_tb
    strs str2 recognised with_ident]. rewrite F2, F3, F4, Hne. cbn [andb]. unfold have_new_utc_model. cbn [after_5 sflags flag_utc_model_str_5].
  rewrite no_new_almanac by exact Hp. cbn [mbind option_bind]. cbn [with_sflags after_5 tflags flag_update_slot_number recognised with_ident]. rewrite Hu. eexists. split; [done|].
  unfold idle, four_strings. cbn. rewrite F2, F3, F4. done.
Qed.

(** ** Strings 1 to 4 *)

(** The message after strings 1 and 2. *)
Definition after_2 (m1 m2 : list bool) (nav : Gnav_Message) : Gnav_Message :=
  set_str2 (str2_of m2) (recognised 2 (set_str1 (str1_of m1) (recognised 1 nav))).
Definition after_4 (m1 m2 m3 m4 : list bool) (nav : Gnav_Message) : Gnav_Message :=
  set_flag_update_slot_number false (set_str4 (str4_of m4) (recognised 4 (set_str3 (str3_of m3) (recognised 3 (after_2 m1 m2 nav))))).

Lemma process_cons m rest nav sat nav1 sat1 msgs : process_string day_number m nav sat = Some (msgs, nav1, sat1) ->
  process_strings (m :: rest) nav sat = '(more, nav2, sat2) ← process_strings rest nav1 sat1; Some (msgs ++ more, nav2, sat2).
Proof. intros H. cbn [process_strings]. by rewrite H. Qed.

Lemma process_cons_quiet m rest nav sat nav1 sat1 : process_string day_number m nav sat = Some ([], nav1, sat1) ->
  process_strings (m :: rest) nav sat = process_strings rest nav1 sat1.
Proof. intros H. rewrite (process_cons _ _ _ _ _ _ _ H). by destruct (process_strings rest nav1 sat1) as [[[? ?] ?]|]. Qed.

Lemma process_12 m1 m2 rest nav sat : string_nr 1 m1 -> string_nr 2 m2 -> idle nav ->
  process_strings (m1 :: m2 :: rest) nav sat = process_strings rest (after_2 m1 m2 nav) sat /\ idle (after_2 m1 m2 nav).
Proof.
  intros H1 H2 Hi. split; [|exact Hi]. rewrite (process_cons_quiet _ _ _ _ _ _ (process_1 m1 nav sat H1 Hi)). by rewrite (process_cons_quiet _ _ _ _ _ _ (process_2 m2 (set_str1 (str1_of m1) (recognised 1 nav)) sat H2 Hi eq_refl)).
Qed.

Lemma process_1234 m1 m2 m3 m4 rest nav sat : string_nr 1 m1 -> string_nr 2 m2 -> string_nr 3 m3 -> string_nr 4 m4 -> idle nav ->
  process_strings (m1 :: m2 :: m3 :: m4 :: rest) nav sat = process_strings rest (after_4 m1 m2 m3 m4 nav) (slot_satellite (fu m4 N) sat) /\
  idle (after_4 m1 m2 m3 m4 nav) /\ four_strings (sflags (after_4 m1 m2 m3 m4 nav)) = true.
Proof.
  intros H1 H2 H3 H4 Hi. split; [|by destruct Hi as (? & ? & ?)]. rewrite (proj1 (process_12 m1 m2 _ nav sat H1 H2 Hi)).
  rewrite (process_cons_quiet _ _ _ _ _ _ (process_3 m3 (after_2 m1 m2 nav) sat H3 Hi eq_refl)).
  by rewrite (process_cons_quiet _ _ _ _ _ _ (process_4 m4 (set_str3 (str3_of m3) (recognised 3 (after_2 m1 m2 nav))) sat H4 Hi eq_refl)).
Qed.

(** A string that fails the checksum. *)
Lemma process_rejected m rest nav sat : CRC_test (reverse m) = Some false -> idle nav -> process_strings (m :: rest) nav sat = process_strings rest (rejected nav) sat.
Proof.
  intros Hc (H5 & Hu & Hp). apply process_cons_quiet. rewrite (nothing_published day_number m nav sat 0 _ (string_rejected day_number m nav Hc)) by done. cbn. by rewrite Hu.
Qed.

Lemma day_time_range m : length m = 85%nat -> 0 <= day_time m < 2 ^ 30.
Proof.
  intros H1. unfold day_time. pose proof (fu_range m H1 T_K_HR 5 eq_refl eq_refl) as ?. pose proof (fu_range m H1 T_K_MIN 6 eq_refl eq_refl) as ?.
  pose proof (fu_range m H1 T_K_SEC 1 eq_refl eq_refl) as ?. unfold unsigned_in in *. lia.
Qed.
End Five.

(** ** Publication *)

(** The object [gnav_ephemeris] with the numbers of [r], health [bn] (three bits), week [wn] and
    time of week [tow]. *)
Definition with_B_n (bn : Z) (e : Glonass_Gnav_Ephemeris.glonass_ephemeris) : Glonass_Gnav_Ephemeris.glonass_ephemeris :=
  {| Glonass_Gnav_Ephemeris.i_satellite_slot_number := Glonass_Gnav_Ephemeris.i_satellite_slot_number e;
     Glonass_Gnav_Ephemeris.i_satellite_freq_channel := Glonass_Gnav_Ephemeris.i_satellite_freq_channel e;
     Glonass_Gnav_Ephemeris.d_P_1 := Glonass_Gnav_Ephemeris.d_P_1 e; Glonass_Gnav_Ephemeris.d_t_k := Glonass_Gnav_Ephemeris.d_t_k e;
     Glonass_Gnav_Ephemeris.d_B_n := dbl_of_Z bn; Glonass_Gnav_Ephemeris.d_P_2 := Glonass_Gnav_Ephemeris.d_P_2 e;
     Glonass_Gnav_Ephemeris.d_t_b := Glonass_Gnav_Ephemeris.d_t_b e; Glonass_Gnav_Ephemeris.d_VXn := Glonass_Gnav_Ephemeris.d_VXn e;
     Glonass_Gnav_Ephemeris.d_Xn := Glonass_Gnav_Ephemeris.d_Xn e; Glonass_Gnav_Ephemeris.d_AXn := Glonass_Gnav_Ephemeris.d_AXn e;
     Glonass_Gnav_Ephemeris.d_VYn := Glonass_Gnav_Ephemeris.d_VYn e; Glonass_Gnav_Ephemeris.d_Yn := Glonass_Gnav_Ephemeris.d_Yn e;
     Glonass_Gnav_Ephemeris.d_AYn := Glonass_Gnav_Ephemeris.d_AYn e; Glonass_Gnav_Ephemeris.d_VZn := Glonass_Gnav_Ephemeris.d_VZn e;
     Glonass_Gnav_Ephemeris.d_Zn := Glonass_Gnav_Ephemeris.d_Zn e; Glonass_Gnav_Ephemeris.d_AZn := Glonass_Gnav_Ephemeris.d_AZn e;
     Glonass_Gnav_Ephemeris.d_P_3 := Glonass_Gnav_Ephemeris.d_P_3 e; Glonass_Gnav_Ephemeris.d_gamma_n := Glonass_Gnav_Ephemeris.d_gamma_n e;
     Glonass_Gnav_Ephemeris.d_P := Glonass_Gnav_Ephemeris.d_P e; Glonass_Gnav_Ephemeris.d_l3rd_n := Glonass_Gnav_Ephemeris.d_l3rd_n e;
     Glonass_Gnav_Ephemeris.d_tau_n := Glonass_Gnav_Ephemeris.d_tau_n e; Glonass_Gnav_Ephemeris.d_Delta_tau_n := Glonass_Gnav_Ephemeris.d_Delta_tau_n e;
     Glonass_Gnav_Ephemeris.d_E_n := Glonass_Gnav_Ephemeris.d_E_n e; Glonass_Gnav_Ephemeris.d_P_4 := Glonass_Gnav_Ephemeris.d_P_4 e;
     Glonass_Gnav_Ephemeris.d_F_T := Glonass_Gnav_Ephemeris.d_F_T e; Glonass_Gnav_Ephemeris.d_N_T := Glonass_Gnav_Ephemeris.d_N_T e;
     Glonass_Gnav_Ephemeris.d_M := Glonass_Gnav_Ephemeris.d_M e; Glonass_Gnav_Ephemeris.d_l5th_n := Glonass_Gnav_Ephemeris.d_l5th_n e |}.

Definition ephemeris_of (r : raw_glonass) (bn wn : Z) (tow : double) : gnav_ephemeris :=
  {| eph := with_B_n bn (glonass_of r); out_n := dbl_of_Z (l_slot r); out_PRN := l_slot r; out_yr := dbl_of_Z (year_of (l_nt r) (l_n4 r)); out_iode := dbl_of_Z (l_tb r);
     out_tau_c := dbl_mul (dbl_of_Z (l_tauc r)) TWO_N31; out_TOW := tow; out_WN := wn; out_tod := dbl_of_Z (l_tk r + 10) |}.

Lemma get_ephemeris_of m1 m2 m3 m4 m5 nav freq wn tow :
  str1 (strs nav) = str1_of m1 -> str2 (strs nav) = str2_of m2 -> str3 (strs nav) = str3_of m3 -> str4 (strs nav) = str4_of m4 ->
  get_ephemeris (published (str5_of m5 (fu m4 GLONASS_GNAV.N_T) (day_time m1) wn tow) (utc_of m5) freq nav) =
    ephemeris_of (raw_of m1 m2 m3 m4 m5 freq) (fu m2 GLONASS_GNAV.B_N) wn tow.
Proof.
  intros H1 H2 H3 H4. unfold get_ephemeris, published. cbn [strs str1 str2 str3 str4 str5 freq_channel]. rewrite H1, H2, H3, H4. unfold ephemeris_of, with_B_n, glonass_of, glonass_with, raw_of.
  cbn [l_slot l_freq l_p1 l_tk l_bn l_p2 l_tb l_vx l_x l_ax l_vy l_y l_ay l_vz l_z l_az l_p3 l_gamma l_p l_l3 l_tau l_dtau l_en l_p4 l_ft l_nt l_m l_l5 l_na l_tauc l_n4 l_taugps].
  glo_proj. rewrite !Z.mul_1_l. done.
Qed.

Lemma idle_published s5 u freq nav : idle nav -> idle (published s5 u freq nav).
Proof. by intros (_ & Hu & Ha). Qed.

(** Strings 1 to 5. *)
Lemma publication day_number m1 m2 m3 m4 m5 nav sat wn tow : string_nr 1 m1 -> string_nr 2 m2 -> string_nr 3 m3 -> string_nr 4 m4 -> string_nr 5 m5 -> idle nav ->
  week_of day_number m5 (fu m4 GLONASS_GNAV.N_T) (day_time m1) = Some (wn, tow) ->
  dbl_ne (d_previous_tb (tflags nav)) (dbl_of_Z (900 * fu m2 GLONASS_GNAV.T_B)) = true ->
  let sat' := slot_satellite (fu m4 GLONASS_GNAV.N) sat in
  let r := raw_of m1 m2 m3 m4 m5 (rf_link sat') in
  process_strings day_number [m1; m2; m3; m4; m5] nav sat =
    Some ([pub_gnav_ephemeris (ephemeris_of r (fu m2 GLONASS_GNAV.B_N) wn tow);
           pub_gnav_utc {| gnav_utc_model := glonass_utc_of r; d_B1 := d_B1 (utc nav); d_B2 := d_B2 (utc nav) |}],
      published (str5_of m5 (fu m4 GLONASS_GNAV.N_T) (day_time m1) wn tow) (utc_of m5) (rf_link sat') (after_4 m1 m2 m3 m4 nav), sat') /\
  idle (after_4 m1 m2 m3 m4 nav).
Proof.
  intros H1 H2 H3 H4 H5 Hi Hw Hne sat' r. destruct (process_1234 day_number m1 m2 m3 m4 [m5] nav sat H1 H2 H3 H4 Hi) as (-> & Hi4 & Hf). split; [|exact Hi4].
  pose proof (process_5 day_number m5 (after_4 m1 m2 m3 m4 nav) sat' (fu m4 GLONASS_GNAV.N_T) (day_time m1) wn tow H5 Hi4 Hf eq_refl eq_refl
    (day_time_range m1 (proj1 (proj1 H1))) Hw Hne) as Hp. cbv zeta in Hp.
  by rewrite (process_cons day_number _ _ _ _ _ _ _ Hp), (get_ephemeris_of m1 m2 m3 m4 m5 (after_4 m1 m2 m3 m4 nav)) by reflexivity.
Qed.

(** C17: an ephemeris is published with the data that was sent. From a message with nothing to
    publish, the strings 1 to 5 of a satellite, with a time of reference other than that of the
    ephemeris published last, give exactly two messages: the ephemeris with the integers of the
    strings in sign and magnitude, each times its scale, with the week and time of week of
    string 5, and with the frequency channel that belongs to the slot number of string 4; and
    the UTC model. Afterwards nothing waits, the time of reference is kept, and the strings are
    marked as used, so that the next ephemeris needs all of them again. *)
Theorem gnav_ephemeris_published day_number m1 m2 m3 m4 m5 nav sat wn tow (H1 : string_nr 1 m1) (H2 : string_nr 2 m2) (H3 : string_nr 3 m3) (H4 : string_nr 4 m4)
  (H5 : string_nr 5 m5) (Hi : idle nav) (Hw : week_of day_number m5 (fu m4 GLONASS_GNAV.N_T) (day_time m1) = Some (wn, tow))
  (Hne : dbl_ne (d_previous_tb (tflags nav)) (dbl_of_Z (900 * fu m2 GLONASS_GNAV.T_B)) = true) :
  let n := fu m4 GLONASS_GNAV.N in
  let r := raw_of m1 m2 m3 m4 m5 (what_block (system sat) n (rf_link sat)).2 in
  exists nav', process_strings day_number [m1; m2; m3; m4; m5] nav sat =
      Some ([pub_gnav_ephemeris (ephemeris_of r (fu m2 GLONASS_GNAV.B_N) wn tow);
             pub_gnav_utc {| gnav_utc_model := glonass_utc_of r; d_B1 := d_B1 (utc nav); d_B2 := d_B2 (utc nav) |}], nav', slot_satellite n sat) /\
    idle nav' /\ d_previous_tb (tflags nav') = dbl_of_Z (900 * fu m2 GLONASS_GNAV.T_B) /\
    sflags nav' = {| flag_ephemeris_str_1 := false; flag_ephemeris_str_2 := false; flag_ephemeris_str_3 := false; flag_ephemeris_str_4 := false;
      flag_utc_model_str_5 := false |}.
Proof.
  intros n r. destruct (publication day_number m1 m2 m3 m4 m5 nav sat wn tow H1 H2 H3 H4 H5 Hi Hw Hne) as [Hp Hi4]. eexists. split; [exact Hp|].
  split; [by apply idle_published|]. by split.
Qed.

(** ** Mixtures *)

(** Times of reference are equal as numbers if they are as integers. *)
Lemma same_t_b a b : 0 <= a < 2 ^ 7 -> 0 <= b < 2 ^ 7 -> dbl_ne (dbl_of_Z (900 * a)) (dbl_of_Z (900 * b)) = negb (a =? b).
Proof.
  intros Ha Hb. assert (forallb (fun a => forallb (fun b => eqb (dbl_ne (dbl_of_Z (900 * a)) (dbl_of_Z (900 * b))) (negb (a =? b))) (seqZ 0 128)) (seqZ 0 128) = true) as H
    by (vm_compute; reflexivity).
  rewrite forallb_forall in H. specialize (H a). rewrite <- list_elem_of_In, elem_of_seqZ, forallb_forall in H. specialize (H ltac:(lia) b).
  rewrite <- list_elem_of_In, elem_of_seqZ in H. apply eqb_prop, H. lia.
Qed.

(** C20: an ephemeris can be a mixture of two transmissions. Let strings 1 to 5 of data that was
    published before (its t_b is the remembered one) be received again, with nothing else
    waiting to be published: no ephemeris comes of them and they stay marked as received. If the
    satellite then changes to new data with another t_b and strings 3 and 4 are lost (the
    checksums refuse them, two wrong bits are enough), strings 1, 2 and 5 complete an ephemeris
    with the X and Y coordinates of the new data and the Z coordinate and the clock of the old
    data, and it is published. The weeks of both string 5 have to be convertible. *)
Theorem mixed_ephemeris day_number a1 a2 a3 a4 a5 b1 b2 d3 d4 b5 nav sat wa wb (A1 : string_nr 1 a1) (A2 : string_nr 2 a2) (A3 : string_nr 3 a3) (A4 : string_nr 4 a4)
  (A5 : string_nr 5 a5) (B1 : string_nr 1 b1) (B2 : string_nr 2 b2) (B5 : string_nr 5 b5) (D3 : CRC_test (reverse d3) = Some false) (D4 : CRC_test (reverse d4) = Some false)
  (Hi : idle nav) (Hprev : d_previous_tb (tflags nav) = dbl_of_Z (900 * fu a2 GLONASS_GNAV.T_B)) (Hnew : fu b2 GLONASS_GNAV.T_B <> fu a2 GLONASS_GNAV.T_B)
  (Ha : week_of day_number a5 (fu a4 GLONASS_GNAV.N_T) (day_time a1) = Some wa) (Hb : week_of day_number b5 (fu a4 GLONASS_GNAV.N_T) (day_time b1) = Some wb) :
  let n := fu a4 GLONASS_GNAV.N in
  let r := raw_of b1 b2 a3 a4 b5 (what_block (system sat) n (rf_link sat)).2 in
  let utc_msg m := pub_gnav_utc {| gnav_utc_model := utc_of m; d_B1 := d_B1 (utc nav); d_B2 := d_B2 (utc nav) |} in
  exists nav', process_strings day_number [a1; a2; a3; a4; a5; b1; b2; d3; d4; b5] nav sat =
    Some ([utc_msg a5; pub_gnav_ephemeris (ephemeris_of r (fu b2 GLONASS_GNAV.B_N) wb.1 wb.2); utc_msg b5], nav', slot_satellite n sat).
Proof.
  intros n r utc_msg. destruct wa as [wna towa], wb as [wnb towb]. cbn [fst snd]. destruct (process_1234 day_number a1 a2 a3 a4 [a5; b1; b2; d3; d4; b5] nav sat A1 A2 A3 A4 Hi) as (-> & Hi4 & Hf).
  assert (Hta : 0 <= fu a2 GLONASS_GNAV.T_B < 2 ^ 7) by exact (fu_range a2 (proj1 (proj1 A2)) GLONASS_GNAV.T_B 7 eq_refl eq_refl).
  assert (Htb : 0 <= fu b2 GLONASS_GNAV.T_B < 2 ^ 7) by exact (fu_range b2 (proj1 (proj1 B2)) GLONASS_GNAV.T_B 7 eq_refl eq_refl).
  destruct (process_5_again day_number a5 (after_4 a1 a2 a3 a4 nav) (slot_satellite n sat) (fu a4 GLONASS_GNAV.N_T) (day_time a1) wna towa A5 Hi4 Hf eq_refl eq_refl
    (day_time_range a1 (proj1 (proj1 A1))) Ha) as (nav5 & Hp & Hi5 & Hf5 & Ht5 & Hs3 & Hs4 & HB1 & HB2).
  { transitivity (dbl_ne (d_previous_tb (tflags nav)) (dbl_of_Z (900 * fu a2 GLONASS_GNAV.T_B))); [reflexivity|]. by rewrite Hprev, same_t_b, Z.eqb_refl. }
  rewrite (process_cons day_number _ _ _ _ _ _ _ Hp). destruct (process_12 day_number b1 b2 [d3; d4; b5] nav5 (slot_satellite n sat) B1 B2 Hi5) as [-> Hi2].
  rewrite (process_rejected day_number d3), (process_rejected day_number d4) by done. set (navb := rejected (rejected (after_2 b1 b2 nav5))).
  assert (four_strings (sflags navb) = true) as Hfb.
  { unfold four_strings in Hf5. rewrite !andb_true_iff in Hf5. destruct Hf5 as ((_ & F3) & F4). unfold four_strings. cbn. by rewrite F3, F4. }
  pose proof (process_5 day_number b5 navb (slot_satellite n sat) (fu a4 GLONASS_GNAV.N_T) (day_time b1) wnb towb B5 Hi2 Hfb) as Hq.
  change (d_N_T (str4 (strs navb))) with (d_N_T (str4 (strs nav5))) in Hq. rewrite Hs4 in Hq.
  specialize (Hq eq_refl eq_refl (day_time_range b1 (proj1 (proj1 B1))) Hb).
  assert (dbl_ne (d_previous_tb (tflags navb)) (d_t_b (str2 (strs navb))) = true) as Hne.
  { change (dbl_ne (d_previous_tb (tflags nav5)) (dbl_of_Z (900 * fu b2 GLONASS_GNAV.T_B)) = true). rewrite Ht5. change (d_previous_tb (tflags (after_4 a1 a2 a3 a4 nav))) with (d_previous_tb (tflags nav)).
    rewrite Hprev, same_t_b by done. apply negb_true_iff, Z.eqb_neq. congruence. }
  specialize (Hq Hne). cbv zeta in Hq. rewrite (process_cons day_number _ _ _ _ _ _ _ Hq), (get_ephemeris_of b1 b2 a3 a4 b5 navb); [|reflexivity|reflexivity|exact Hs3|exact Hs4].
  cbn [process_strings mbind option_bind app]. eexists. unfold published at 1. cbn [utc]. change (utc navb) with (utc nav5). rewrite HB1, HB2. reflexivity.
Qed.

(** ** Concrete strings *)

(** A string with its number and the bits at [positions]. *)
Definition demo_bits (id : Z) (positions : list nat) : list bool := add_checks (foldr (fun i m => <[i := true]> m) (demo_info id) positions).

Lemma demo_bits_nr id positions : 0 <= id < 16 -> forallb (fun i => 5 <=? Z.of_nat i) positions = true -> string_nr id (demo_bits id positions).
Proof.
  intros Hid Hp. assert (length (foldr (fun i m => <[i := true]> m) (demo_info id) positions) = 77%nat) as Hl.
  { induction positions as [|i l IH]; [done|]. cbn [foldr forallb] in *. apply andb_true_iff in Hp as [_ Hp]. by rewrite length_insert, IH. }
  split; [by apply add_checks_string|].
  assert (take 5 (foldr (fun i m => <[i := true]> m) (demo_info id) positions) = false :: val_bits 4 id) as Ht.
  { clear Hl. induction positions as [|i l IH]; [done|]. cbn [foldr forallb] in *. apply andb_true_iff in Hp as [H5%Z.leb_le Hp]. rewrite take_insert_ge by lia. by apply IH. }
  unfold fu, demo_bits, add_checks. unfold GLONASS_GNAV.STRING_ID. rewrite field_cons. cbn [field mbind list_bind]. rewrite app_nil_r. change (Z.to_nat (2 - 1)) with 1%nat. change (Z.to_nat 4) with 4%nat.
  rewrite drop_app_le by lia. rewrite take_app_le by (rewrite length_drop; lia). change 4%nat with (5 - 1)%nat at 1. rewrite <- skipn_firstn_comm, Ht. change (drop 1 (false :: val_bits 4 id)) with (val_bits 4 id). rewrite bits_val_val_bits.
  apply Z.mod_small. change (2 ^ Z.of_nat 4) with 16. lia.
Qed.

(** Day 800 of the four years from 2020. Data with time of reference 5, and new data with time
    of reference 6, whose satellite has moved in Y and Z. *)
Definition old_1 : list bool := demo_bits 1 [60%nat].
Definition old_2 : list bool := demo_bits 2 [13%nat; 15%nat; 60%nat].
Definition old_3 : list bool := demo_bits 3 [60%nat].
Definition old_4 : list bool := demo_bits 4 [60%nat; 61%nat; 64%nat; 73%nat].
Definition old_5 : list bool := demo_bits 5 [51%nat; 52%nat; 53%nat].
Definition new_2 : list bool := demo_bits 2 [13%nat; 14%nat; 61%nat].
Definition new_3 : list bool := demo_bits 3 [61%nat].

(** The message after the old data was published. *)
Definition demo_nav : Gnav_Message :=
  with_tflags {| flag_update_slot_number := false; flag_all_ephemeris := true; flag_TOW_set := true; flag_TOW_new := false; d_previous_tb := dbl_of_Z 4500 |} Gnav_Message_init.

Lemma gnav_ephemeris_published_witness : exists nav r, process_strings gregorian_days [old_1; old_2; old_3; old_4; old_5] Gnav_Message_init (make_satellite "Glonass" 2) =
    Some ([pub_gnav_ephemeris (ephemeris_of r 0 2200 (dbl_of_Z 334828)); pub_gnav_utc {| gnav_utc_model := glonass_utc_of r; d_B1 := dbl_zero; d_B2 := dbl_zero |}], nav,
      make_satellite "Glonass" 2) /\ l_slot r = 2 /\ l_freq r = -4 /\ l_tb r = 5 /\ l_x r = 2 ^ 16.
Proof.
  destruct (gnav_ephemeris_published gregorian_days old_1 old_2 old_3 old_4 old_5 Gnav_Message_init (make_satellite "Glonass" 2) 2200 (dbl_of_Z 334828)) as (nav & Hp & _);
    [apply demo_bits_nr; [lia|reflexivity] ..|by apply (bool_decide_unpack _)|vm_compute; reflexivity|vm_compute; reflexivity|].
  eexists nav, _. split; [etransitivity; [exact Hp|reflexivity]|]. repeat split; vm_compute; reflexivity.
Defined.

(** The strings of the new data, strings 3 and 4 with two wrong bits. *)
Definition demo_mixture : list (list bool) :=
  [old_1; old_2; old_3; old_4; old_5; old_1; new_2; <[20%nat := true]> (<[25%nat := true]> new_3); <[20%nat := true]> (<[25%nat := true]> old_4); old_5].

Lemma mixed_ephemeris_witness : exists nav sat u u' e, process_strings gregorian_days demo_mixture demo_nav (make_satellite "Glonass" 2) =
    Some ([u; pub_gnav_ephemeris e; u'], nav, sat) /\ out_iode e = dbl_of_Z 6 /\ Glonass_Gnav_Ephemeris.d_Yn (eph e) = dbl_mul (dbl_of_Z (fs new_2 GLONASS_GNAV.Y_N)) TWO_N11 /\
  Glonass_Gnav_Ephemeris.d_Zn (eph e) = dbl_mul (dbl_of_Z (fs old_3 GLONASS_GNAV.Z_N)) TWO_N11 /\ fs new_3 GLONASS_GNAV.Z_N <> fs old_3 GLONASS_GNAV.Z_N.
Proof.
  destruct (mixed_ephemeris gregorian_days old_1 old_2 old_3 old_4 old_5 old_1 new_2 (<[20%nat := true]> (<[25%nat := true]> new_3)) (<[20%nat := true]> (<[25%nat := true]> old_4))
    old_5 demo_nav (make_satellite "Glonass" 2) (2200, dbl_of_Z 334828) (2200, dbl_of_Z 334828)) as (nav & Hp);
    [apply demo_bits_nr; [lia|reflexivity] ..|vm_compute; reflexivity|vm_compute; reflexivity|by apply (bool_decide_unpack _)|vm_compute; reflexivity|vm_compute; congruence|
     vm_compute; reflexivity|vm_compute; reflexivity|].
  eexists nav, _, _, _, _. split; [exact Hp|]. repeat split; vm_compute; congruence.
Defined.
