(* ===== verification/GnavRtcm.v ===== *)
(** * GLONASS: from strings to RTCM

    The strings of a satellite, the ephemeris that the telemetry decoder publishes and the
    message 1020 that [Rtcm] makes of it, composed. *)
From stdpp Require Import strings.
From S2P Require Import Prelude Doubles DoublesErr DoublesInt NavBits GnssSignal Rtcm RtcmProps RtcmEph RtcmEphProps RtcmClaims GnavTime Gnav GnavHamming GnavTlm GnavTlmProps GnavProps GnavEph.
From Stdlib Require Import SpecFloat.

#[local] Open Scope Z_scope.

(** Message 1020 has one bit for the three of the health. *)
Lemma MT1020_health bn r u : 0 <= bn < 2 ^ 3 -> l_bn r = negb (bn =? 0) -> MT1020_data (with_B_n bn (glonass_of r)) u = MT1020_data (glonass_of r) u.
Proof.
  intros Hb Hr. assert (set_DF108 (with_B_n bn (glonass_of r)) = set_DF108 (glonass_of r)) as H8.
  { unfold set_DF108, with_B_n, glonass_of, glonass_with. glo_proj. rewrite Hr.
    assert (forallb (fun b => eqb (bool_of_dbl (dbl_of_Z b)) (bool_of_dbl (dbl_of_Z (Z.b2z (negb (b =? 0)))))) (seqZ 0 8) = true) as H by (vm_compute; reflexivity).
    rewrite forallb_forall in H. specialize (H bn). rewrite <- list_elem_of_In, elem_of_seqZ in H. f_equal. apply eqb_prop, H. lia. }
  unfold MT1020_data. rewrite H8. reflexivity.
Qed.

(** The frequency channels that the program knows are those of message 1020. *)
Lemma channel_range n rf : -7 <= rf <= 24 -> -7 <= rf_link_Glonass n rf <= 24.
Proof. intros H. unfold rf_link_Glonass. repeat case_match; lia. Qed.

(** C22: a GLONASS ephemeris on its way from the satellite to a receiver of RTCM. The strings 1 to
    5 of a satellite give an ephemeris and a UTC model, and message 1020 can be made of them; in
    what the reader of that message gets, the times, flags and numbers are those of the strings,
    but every field in sign and magnitude has the opposite sign, the frequency offset also has
    another resolution (2^-30 for 2^-40), the correction to UTC is read in another code than it
    is written in, that to GPS is lost, and so are the seconds of the day time, whose hours
    above 15 and minutes above 31 become negative. *)
Theorem strings_through_rtcm crc day_number m1 m2 m3 m4 m5 nav sat wn tow rtcm (H1 : string_nr 1 m1) (H2 : string_nr 2 m2) (H3 : string_nr 3 m3) (H4 : string_nr 4 m4)
  (H5 : string_nr 5 m5) (Hi : idle nav) (Hw : week_of day_number m5 (fu m4 GLONASS_GNAV.N_T) (day_time m1) = Some (wn, tow))
  (Hne : dbl_ne (d_previous_tb (tflags nav)) (dbl_of_Z (900 * fu m2 GLONASS_GNAV.T_B)) = true) (Ht : day_time m1 < 86400)
  (Hs : system sat = "Glonass"%string) (Hf : -7 <= rf_link sat <= 24) :
  let r := raw_of m1 m2 m3 m4 m5 (rf_link_Glonass (fu m4 GLONASS_GNAV.N) (rf_link sat)) in
  exists e u nav' sat' msg, process_strings day_number [m1; m2; m3; m4; m5] nav sat = Some ([pub_gnav_ephemeris e; pub_gnav_utc u], nav', sat') /\
    print_MT1020 crc (eph e) (gnav_utc_model u) rtcm = Some (msg, enqueue msg rtcm) /\
    forall old old_utc, Glonass_Gnav_Ephemeris.d_t_k old = dbl_zero -> exists tk, read_MT1020 crc msg old old_utc =
      Some (0, glonass_with r (dbl_of_Z tk) (-1) TWO_N30, glonass_utc r (if l_tauc r <? 0 then 2 ^ 31 + l_tauc r else - l_tauc r) 0) /\
      let h := l_tk r / 3600 in let m := l_tk r mod 3600 / 60 in
      tk = 3600 * (if h <? 16 then h else h - 32) + 60 * (if m <? 32 then m else m - 64).
Proof.
  intros r. destruct (publication day_number m1 m2 m3 m4 m5 nav sat wn tow H1 H2 H3 H4 H5 Hi Hw Hne) as [Hp _]. cbn [slot_satellite rf_link] in Hp. rewrite Hs in Hp.
  change ((what_block "Glonass" (fu m4 GLONASS_GNAV.N) (rf_link sat)).2) with (rf_link_Glonass (fu m4 GLONASS_GNAV.N) (rf_link sat)) in Hp. fold r in Hp.
  assert (glo_ok r) as Hok by (apply raw_of_ok; [apply H1|apply H2|apply H3|apply H4|apply H5|by apply channel_range|done]).
  destruct (glonass_through_rtcm crc r rtcm Hok) as (msg & Hm & Hread). eexists _, _, _, _, msg. split; [exact Hp|]. split; [|exact Hread].
  unfold print_MT1020 in *. cbn [ephemeris_of eph gnav_utc_model]. rewrite MT1020_health; [exact Hm| |reflexivity].
  exact (fu_range m2 (proj1 (proj1 H2)) GLONASS_GNAV.B_N 3 eq_refl eq_refl).
Qed.

Lemma strings_through_rtcm_witness : exists e u nav sat msg,
  process_strings gregorian_days [old_1; old_2; old_3; old_4; old_5] Gnav_Message_init (make_satellite "Glonass" 2) = Some ([pub_gnav_ephemeris e; pub_gnav_utc u], nav, sat) /\
  print_MT1020 crc24q_frame (eph e) (gnav_utc_model u) Rtcm_init = Some (msg, Rtcm_init) /\ length msg = 51%nat.
Proof.
  destruct (strings_through_rtcm crc24q_frame gregorian_days old_1 old_2 old_3 old_4 old_5 Gnav_Message_init (make_satellite "Glonass" 2) 2200 (dbl_of_Z 334828) Rtcm_init)
    as (e & u & nav & sat & msg & Hp & Hm & _);
    [apply demo_bits_nr; [lia|reflexivity] ..|by apply (bool_decide_unpack _)|vm_compute; reflexivity|vm_compute; reflexivity|vm_compute; reflexivity|vm_compute; reflexivity|
     vm_compute; split; congruence|].
  exists e, u, nav, sat, msg. split; [exact Hp|]. split; [exact Hm|]. vm_compute in Hp. injection Hp as <- <- _ _. vm_compute in Hm. injection Hm as <-. reflexivity.
Defined.
