(* ===== verification/GnavSafe.v ===== *)
(** * GLONASS: the arrays of the almanac

    The navigation message decodes every string without leaving its arrays as long as the slot
    numbers of the almanac are between 1 and 23; a complete almanac of slot 24, and a slot number
    that is none between the two strings of an almanac, take it outside of them. *)
From stdpp Require Import strings.
From S2P Require Import Prelude Doubles DoublesErr DoublesInt NavBits GnssSignal Rtcm RtcmProps RtcmEph RtcmEphProps GnavTime Gnav GnavHamming GnavTlm GnavTlmProps GnavProps GnavEph.
From Stdlib Require Import SpecFloat.

#[local] Open Scope Z_scope.

(** What the program relies on in the dates of [boost::gregorian]: the order of a few dates. *)
Class Calendar (day_number : Z -> Z -> Z -> Z) : Prop := {
  cal_epoch : day_number 1980 1 6 <= day_number 1981 7 1;
  cal_year : forall y, 1992 <= y <= 2116 -> day_number 1981 7 1 + 2 <= day_number y 1 1 < day_number 1980 1 6 + 2 ^ 20 }.

#[export] Instance gregorian_calendar : Calendar gregorian_days.
Proof.
  split; [vm_compute; congruence|]. intros y Hy.
  assert (forallb (fun y => (gregorian_days 1981 7 1 + 2 <=? gregorian_days y 1 1) && (gregorian_days y 1 1 <? gregorian_days 1980 1 6 + 2 ^ 20)) (seqZ 1992 125) = true) as H
    by (vm_compute; reflexivity).
  rewrite forallb_forall in H. specialize (H y). rewrite <- list_elem_of_In, elem_of_seqZ in H. specialize (H ltac:(lia)). lia.
Qed.

(** ** Invariant *)

Record alm_ok (a : almanac_data) : Prop := {
  ok_count : length (flag_almanac a) = 10%nat; ok_almanac : length (gnav_almanac a) = 24%nat; ok_previous : length (d_previous_Na a) = 24%nat; ok_slot : 0 <= i_alm_satellite_slot_number a <= 23;
  ok_pending : i_alm_satellite_slot_number a = 0 -> Forall (fun b => b = false) (flag_almanac a);
  ok_names : Forall (fun x => exists n, 0 <= n < 2 ^ 5 /\ d_n_A x = dbl_of_Z n) (gnav_almanac a) }.

Record eph_ok (e : strings_data) : Prop := {
  ok_day : exists nt, 0 <= nt < 2 ^ 11 /\ d_N_T (str4 e) = dbl_of_Z nt; ok_time : exists tk, 0 <= tk < 2 ^ 30 /\ d_t_k (str1 e) = dbl_of_Z tk;
  ok_number : exists n, 0 <= n < 2 ^ 5 /\ d_n (str4 e) = dbl_of_Z n }.

Definition nav_ok (nav : Gnav_Message) : Prop := alm_ok (alm nav) /\ eph_ok (strs nav).

Lemma init_message_ok : nav_ok Gnav_Message_init.
Proof.
  split.
  - split; [done|done|done|cbn; lia|intros _; cbn; repeat constructor|]. cbn. repeat constructor; exists 0; (split; [lia|done]).
  - split; exists 0; (split; [lia|done]).
Qed.

Lemma pending_slot a k : alm_ok a -> alm_flag a k = true -> 1 <= i_alm_satellite_slot_number a <= 23.
Proof.
  intros [_ _ _ Hs Hp _] Hk. destruct (decide (i_alm_satellite_slot_number a = 0)) as [H0|]; [|lia]. specialize (Hp H0). unfold alm_flag in Hk.
  destruct (rd (flag_almanac a) (k - 6)) as [b|] eqn:E; [|done]. unfold rd in E. case_decide; [|done]. cbn in Hk. subst b.
  pose proof (proj1 (Forall_lookup _ _) Hp _ _ E). done.
Qed.

(** ** Strings of the almanac *)

Section Message.
Context (m : list bool) (Hm : length m = 85%nat).
Import GLONASS_GNAV.

(** [nav'] differs from [nav] in its almanac and in what is known of the string. *)
Definition same_ephemeris (nav nav' : Gnav_Message) : Prop := strs nav' = strs nav /\ sflags nav' = sflags nav /\ tflags nav' = tflags nav /\ utc nav' = utc nav.

Lemma almanac_first_ok k nav : alm_ok (alm nav) -> 1 <= fu m N_A <= 23 ->
  exists nav', almanac_first (reverse m) k nav = Some (k, nav') /\ alm_ok (alm nav') /\ strs nav' = strs nav.
Proof.
  intros [Hc Ha Hp Hs Hf Hn] Hslot. unfold almanac_first. gnav_reads Hm.
  assert ((get_frame_number (fu m N_A) =? 0) = false) as -> by (apply Z.eqb_neq; unfold get_frame_number; repeat case_match; lia).
  cbn [with_alm with_ident alm gnav_almanac]. destruct (rd_in (gnav_almanac (alm nav)) (fu m N_A - 1)) as [old Ho]; [lia|]. rewrite Ho. cbn [mbind option_bind].
  gnav_reads Hm. rewrite wr_in by lia. cbn [mbind option_bind]. eexists. split; [done|]. split; [|done]. cbn [alm with_alm with_ident].
  split; cbn [gnav_almanac d_previous_Na i_alm_satellite_slot_number flag_almanac]; [by unfold set_alm_flag; rewrite length_insert|by rewrite length_insert|done|lia|intros; lia|]. apply Forall_insert; [done|].
  exists (fu m N_A). split; [lia|done].
Qed.

Lemma almanac_second_ok k nav : alm_ok (alm nav) -> 1 <= i_alm_satellite_slot_number (alm nav) <= 23 ->
  exists nav', almanac_second (reverse m) k nav = Some (k, nav') /\ alm_ok (alm nav') /\ (eph_ok (strs nav) -> eph_ok (strs nav')).
Proof.
  intros [Hc Ha Hp Hs Hf Hn] Hslot. unfold almanac_second. set (slot := i_alm_satellite_slot_number (alm nav)) in *.
  destruct (rd_in (gnav_almanac (alm nav)) (slot - 1)) as [old Ho]; [lia|]. rewrite Ho. cbn [mbind option_bind]. gnav_reads Hm.
  unfold rd in Ho. case_decide; [|done]. destruct (proj1 (Forall_lookup _ _) Hn _ _ Ho) as (n & Hnr & Hnv).
  assert (exists freq, (if SFltb (dbl_of_Z 24) (dbl_of_Z (fu m H_N_A)) then to_i32 (dbl_sub (dbl_of_Z (fu m H_N_A)) (dbl_of_Z 32)) else Some (alm_freq_channel old)) = Some freq) as [freq ->].
  { destruct (SFltb _ _); [|by eexists]. pose proof (fu_range m Hm H_N_A 5 eq_refl eq_refl) as Hh. unfold unsigned_in in Hh. rewrite dbl_sub_int by lia.
    eexists. unfold to_i32. apply cast_int; lia. }
  cbn [mbind option_bind]. rewrite Hnv. unfold to_u32. rewrite cast_int by lia. cbn [mbind option_bind]. rewrite wr_in by lia. cbn [mbind option_bind].
  eexists. split; [done|]. split; [|intros [? ? ?]; cbn [with_alm strs]; destruct ((k =? 7) && _); by split]. cbn [alm with_alm]. 
  split; cbn [gnav_almanac d_previous_Na i_alm_satellite_slot_number flag_almanac]; [by unfold set_alm_flag; rewrite length_insert|by rewrite length_insert|done|lia|intros; lia|]. apply Forall_insert; [done|].
  by exists n.
Qed.
End Message.

(** ** New almanacs *)

Lemma alm_ok_flags a flags : alm_ok a -> length flags = 10%nat -> 1 <= i_alm_satellite_slot_number a ->
  alm_ok {| gnav_almanac := gnav_almanac a; d_previous_Na := d_previous_Na a; i_alm_satellite_slot_number := i_alm_satellite_slot_number a; flag_almanac := flags |}.
Proof. intros [? ? ? ? ? ?] Hl H. split; cbn; [done|done|done|done|intros; lia|done]. Qed.

(** The state of [have_new_almanac] between two of its tests. *)
Definition almanac_test (nav0 : Gnav_Message) (acc : bool * Gnav_Message) : Prop :=
  alm_ok (alm acc.2) /\ strs acc.2 = strs nav0 /\ tflags acc.2 = tflags nav0 /\ (acc.1 = true -> 1 <= i_alm_satellite_slot_number (alm acc.2)).

Lemma new_almanac_pair_ok nav0 k acc : almanac_test nav0 acc -> exists acc', new_almanac_pair k acc = Some acc' /\ almanac_test nav0 acc'.
Proof.
  destruct acc as [b nav]. intros (Ha & Hs & Ht & Hb). cbn [fst snd] in *. unfold new_almanac_pair.
  destruct (alm_flag (alm nav) k) eqn:Ek; cbn [andb]; [|by eexists]. destruct (alm_flag (alm nav) (k + 1)) eqn:Ek1; [|by eexists].
  pose proof (pending_slot _ _ Ha Ek) as Hslot. destruct (rd_in (d_previous_Na (alm nav)) (i_alm_satellite_slot_number (alm nav))) as [prev Hpv]; [rewrite (ok_previous _ Ha); lia|].
  rewrite Hpv. cbn [mbind option_bind]. destruct (dbl_ne _ _); [|by eexists]. eexists. split; [done|]. split; [apply alm_ok_flags; [done|unfold set_alm_flag; rewrite !length_insert; apply (ok_count _ Ha)|lia]|]. cbn. split; [done|]. split; [done|]. intros _. lia.
Qed.

Lemma have_new_almanac_ok nav : alm_ok (alm nav) -> exists acc, have_new_almanac nav = Some acc /\ almanac_test nav acc.
Proof.
  intros Ha. unfold have_new_almanac. assert (almanac_test nav (false, nav)) as H0 by done.
  destruct (new_almanac_pair_ok nav 6 _ H0) as (a1 & -> & H1). cbn [mbind option_bind]. destruct (new_almanac_pair_ok nav 8 _ H1) as (a2 & -> & H2). cbn [mbind option_bind].
  destruct (new_almanac_pair_ok nav 10 _ H2) as (a3 & -> & H3). cbn [mbind option_bind]. destruct (new_almanac_pair_ok nav 12 _ H3) as (a4 & -> & H4). cbn [mbind option_bind].
  apply (new_almanac_pair_ok nav 14 _ H4).
Qed.

(** ** Strings *)

Section Total.
Context (day_number : Z -> Z -> Z -> Z) {Hcal : Calendar day_number}.
Import GLONASS_GNAV.

(** The time of string 5 is defined. *)
Lemma week_of_ok m nt tk : length m = 85%nat -> 0 <= nt < 2 ^ 11 -> 0 <= tk < 2 ^ 30 -> exists w, week_of day_number m nt tk = Some w.
Proof.
  intros Hm Hn Ht. pose proof (fu_range m Hm N_4 5 eq_refl eq_refl) as H4. unfold unsigned_in in H4. set (y0 := 1996 + 4 * (fu m N_4 - 1)).
  pose proof cal_epoch as He. pose proof (cal_year y0 ltac:(lia)) as Hy. assert (86400 * (day_number 1981 7 1 + 1) - 10800 <= utc_seconds day_number y0 nt (tk + 10)
    < 86400 * day_number 1980 1 6 + 2 ^ 40) as Hu by (unfold utc_seconds; lia).
  destruct (leap_row_found day_number (utc_seconds day_number y0 nt (tk + 10)) ltac:(lia)) as (ls & Hls & Hr). unfold week_of, year_of.
  replace (1996 + 4 * (fu m N_4 - 1) + (four_year_index (dbl_of_Z nt) - 1)) with (y0 + four_year_index (dbl_of_Z nt) - 1) by (unfold y0; lia).
  eexists. apply (glot_value day_number y0 nt (tk + 10) _ _ ls); [lia|lia|lia|lia|done|done].
Qed.

Lemma decode_str5_ok m nav : length m = 85%nat -> d_string_ID (ident nav) = 5 -> nav_ok nav -> exists nav', decode_str5 day_number (reverse m) nav = Some nav' /\ nav_ok nav'.
Proof.
  intros Hm Hid [Ha He]. destruct (ok_day _ He) as (nt & Hnt & Hntv), (ok_time _ He) as (tk & Htk & Htkv).
  destruct (flag_ephemeris_str_1 (sflags nav)) eqn:F1.
  - destruct (week_of_ok m nt tk Hm Hnt Htk) as [[wn tow] Hw]. eexists. split; [apply (decode_str5_of day_number m nav nt tk wn tow); done|]. split; [done|].
    destruct He as [? ? ?]. by split.
  - unfold decode_str5. rewrite (read_utc_of m Hm). cbn [mbind option_bind]. rewrite (nav_bool_spec m Hm) by done. cbn [mbind option_bind]. rewrite F1.
    eexists. split; [done|]. split; [done|]. destruct He as [? ? ?]. by split.
Qed.

(** The slot number of an almanac is between 1 and 23. *)
Definition slot_known (m : list bool) : bool :=
  negb (bool_decide (fu m STRING_ID ∈ [6; 8; 10; 12; 14])) || ((1 <=? fu m N_A) && (fu m N_A <=? 23)).

Lemma string_decoder_ok m nav : length m = 85%nat -> slot_known m = true -> nav_ok nav -> exists k nav', string_decoder day_number m nav = Some (k, nav') /\ nav_ok nav'.
Proof.
  intros Hm Hs [Ha He]. unfold string_decoder. rewrite (CRC_test_hamming m Hm). cbn [mbind option_bind]. destruct (accepted _ _); cbn [negb]; [|by eexists _, _].
  gnav_reads Hm. pose proof (fu_range m Hm STRING_ID 4 eq_refl eq_refl) as Hr. unfold unsigned_in in Hr.
  set (nav0 := with_ident _ nav). assert (alm_ok (alm nav0)) as Ha0 by exact Ha. assert (eph_ok (strs nav0)) as He0 by exact He.
  assert (fu m STRING_ID ∈ [6; 8; 10; 12; 14] -> 1 <= fu m N_A <= 23) as Hslot.
  { intros Hin. unfold slot_known in Hs. rewrite (bool_decide_eq_true_2 _ Hin) in Hs. apply andb_true_iff in Hs as [H1%Z.leb_le H2%Z.leb_le]. by split. }
  assert (forall k, fu m STRING_ID ∈ [6; 8; 10; 12; 14] -> exists j nav', almanac_first (reverse m) k nav0 = Some (j, nav') /\ nav_ok nav') as Hfirst.
  { intros k Hin. destruct (almanac_first_ok m Hm k nav0 Ha0 (Hslot Hin)) as (nav' & H1 & H2 & H3). exists k, nav'. split; [done|]. split; [done|]. by rewrite H3. }
  assert (forall k j, exists i nav', (if alm_flag (alm nav0) j then almanac_second (reverse m) k nav0 else Some (k, nav0)) = Some (i, nav') /\ nav_ok nav') as Hsecond.
  { intros k j. destruct (alm_flag (alm nav0) j) eqn:Ef; [|by eexists _, _]. destruct (almanac_second_ok m Hm k nav0 Ha0 (pending_slot _ _ Ha0 Ef)) as (nav' & H1 & H2 & H3).
    exists k, nav'. split; [done|]. split; [done|]. by apply H3. }
  assert (nav_ok nav0) as Hn0 by done. pose proof (fu_range m Hm N 5 eq_refl eq_refl) as Hn. pose proof (fu_range m Hm N_T 11 eq_refl eq_refl) as Hnt. unfold unsigned_in in Hn, Hnt.
  pose proof (day_time_range m Hm) as Hdt. destruct He0 as [Hd Ht Hnr].
  remember (fu m STRING_ID) as id eqn:Eid.
  assert (id = 0 \/ id = 1 \/ id = 2 \/ id = 3 \/ id = 4 \/ id = 5 \/ id = 6 \/ id = 7 \/ id = 8 \/ id = 9 \/ id = 10 \/ id = 11 \/ id = 12 \/ id = 13 \/ id = 14 \/ id = 15)
    as Hcases by lia. clear Eid Hr Hs Hslot.
  destruct Hcases as [->|[->|[->|[->|[->|[->|[->|[->|[->|[->|[->|[->|[->|[->|[->| ->]]]]]]]]]]]]]]].
  all: try (apply Hfirst; apply (bool_decide_eq_true_1 _); reflexivity). all: try apply Hsecond. all: try by eexists _, _.
  - rewrite read_str1_of by done. eexists _, _. split; [done|]. split; [done|]. split; [done| |done]. by exists (day_time m).
  - destruct (flag_ephemeris_str_1 _); [|by eexists _, _]. rewrite read_str2_of by done. eexists _, _. split; [done|]. split; [done|]. by split.
  - destruct (flag_ephemeris_str_2 _); [|by eexists _, _]. rewrite read_str3_of by done. eexists _, _. split; [done|]. split; [done|]. by split.
  - destruct (flag_ephemeris_str_3 _); [|by eexists _, _]. rewrite read_str4_of by done. eexists _, _. split; [done|]. split; [done|].
    split; [by exists (fu m N_T)|done|by exists (fu m N)].
  - destruct (flag_ephemeris_str_4 _); [|by eexists _, _]. destruct (decode_str5_ok m nav0 Hm eq_refl Hn0) as (nav' & H1 & H2). rewrite H1. by eexists _, _.
Qed.

(** A string, with all that follows it. *)
Lemma process_string_ok m nav sat : length m = 85%nat -> slot_known m = true -> nav_ok nav ->
  exists msgs nav' sat', process_string day_number m nav sat = Some (msgs, nav', sat') /\ nav_ok nav'.
Proof.
  intros Hm Hs Hn. destruct (string_decoder_ok m nav Hm Hs Hn) as (k & nav1 & H1 & Ha & He). unfold process_string. rewrite H1. cbn [mbind option_bind].
  destruct (have_new_ephemeris nav1) as [ne nav2] eqn:E2.
  assert (alm nav2 = alm nav1 /\ strs nav2 = strs nav1) as [Ha2 He2] by (unfold have_new_ephemeris in E2; repeat case_match; by injection E2 as <- <-).
  set (nav3 := if ne then _ else _). assert (alm nav3 = alm nav1 /\ eph_ok (strs nav3)) as [Ha3 He3].
  { unfold nav3. destruct ne; [|by rewrite Ha2, He2]. cbn [with_freq with_strs alm strs]. rewrite Ha2, He2. destruct He as [? ? ?]. split; [done|]. by split. }
  destruct (have_new_utc_model nav3) as [nu nav4] eqn:E4.
  assert (alm nav4 = alm nav3 /\ strs nav4 = strs nav3) as [Ha4 He4] by (unfold have_new_utc_model in E4; case_match; by injection E4 as <- <-).
  destruct (have_new_almanac_ok nav4 ltac:(by rewrite Ha4, Ha3)) as ([na nav5] & -> & Ha5 & He5 & _ & Hb). cbn [mbind option_bind fst snd] in *.
  assert (nav_ok nav5) as Hn5 by (split; [done|]; by rewrite He5, He4).
  assert (exists m3, (if na then a ← get_almanac (i_alm_satellite_slot_number (alm nav5)) nav5; Some [pub_gnav_almanac a] else Some []) = Some m3) as [m3 ->].
  { destruct na; [|by eexists]. unfold get_almanac. destruct (rd_in (gnav_almanac (alm nav5)) (i_alm_satellite_slot_number (alm nav5) - 1)) as [a ->]; [|by eexists].
    rewrite (ok_almanac _ Ha5). pose proof (ok_slot _ Ha5). specialize (Hb eq_refl). lia. }
  cbn [mbind option_bind]. destruct (flag_update_slot_number (tflags nav5)); [|by eexists _, _, _].
  destruct (ok_number _ (proj2 Hn5)) as (n & Hnr & ->). unfold to_u32. rewrite cast_int by lia. cbn [mbind option_bind]. by eexists _, _, _.
Qed.
End Total.

(** ** Outside the arrays *)

Definition almanac_numbers : list Z := [6; 8; 10; 12; 14].

Section Outside.
Context (day_number : Z -> Z -> Z -> Z).
Import GLONASS_GNAV.

Lemma decode_first k m nav : string_nr k m -> k ∈ almanac_numbers -> string_decoder day_number m nav = almanac_first (reverse m) k (recognised k nav).
Proof.
  intros H Hk. destruct (decoder_nr k m H) as (Hc & Hn & Hl). unfold string_decoder. rewrite Hc. cbn [mbind option_bind negb]. rewrite Hn. cbn [mbind option_bind].
  unfold almanac_numbers in Hk. repeat (apply elem_of_cons in Hk as [->|Hk]; [reflexivity|]). by apply elem_of_nil in Hk.
Qed.

Lemma decode_second k m nav : string_nr (k + 1) m -> k ∈ almanac_numbers -> alm_flag (alm nav) k = true ->
  string_decoder day_number m nav = almanac_second (reverse m) (k + 1) (recognised (k + 1) nav).
Proof.
  intros H Hk Hf. destruct (decoder_nr (k + 1) m H) as (Hc & Hn & Hl). unfold string_decoder. rewrite Hc. cbn [mbind option_bind negb]. rewrite Hn. cbn [mbind option_bind].
  transitivity (if alm_flag (alm nav) k then almanac_second (reverse m) (k + 1) (recognised (k + 1) nav) else Some (k + 1, recognised (k + 1) nav)); [|by rewrite Hf].
  unfold almanac_numbers in Hk. repeat (apply elem_of_cons in Hk as [->|Hk]; [reflexivity|]). by apply elem_of_nil in Hk.
Qed.

Lemma number_range k : k ∈ almanac_numbers -> 6 <= k <= 14.
Proof. unfold almanac_numbers. intros Hk. repeat (apply elem_of_cons in Hk as [->|Hk]; [lia|]). by apply elem_of_nil in Hk. Qed.

(** The flag of string [k] after the first string of an almanac. *)
Lemma flag_set k l : length l = 10%nat -> 6 <= k <= 15 -> rd (set_alm_flag k true l) (k - 6) = Some true.
Proof. intros Hl Hk. unfold set_alm_flag, rd. rewrite decide_True by lia. apply list_lookup_insert_eq. lia. Qed.

(** A slot number of a satellite. *)
Definition known (slot : Z) : bool := (1 <=? slot) && (slot <=? 24).

Lemma first_effect k m nav r nav' : length m = 85%nat -> almanac_first (reverse m) k nav = Some (r, nav') ->
  i_alm_satellite_slot_number (alm nav') = fu m N_A /\ flag_almanac (alm nav') = (if known (fu m N_A) then set_alm_flag k true (flag_almanac (alm nav)) else flag_almanac (alm nav)) /\
  d_previous_Na (alm nav') = d_previous_Na (alm nav) /\ sflags nav' = sflags nav /\ tflags nav' = tflags nav /\ length (gnav_almanac (alm nav')) = length (gnav_almanac (alm nav)).
Proof.
  intros Hm. unfold almanac_first. gnav_reads Hm. assert ((get_frame_number (fu m N_A) =? 0) = negb (known (fu m N_A))) as ->.
  { unfold get_frame_number, known. repeat case_match; lia. }
  destruct (known (fu m N_A)) eqn:E; cbn [negb].
  - destruct (rd (gnav_almanac (alm nav)) (fu m N_A - 1)); [|done]. cbn [mbind option_bind]. gnav_reads Hm. unfold wr. case_decide; [|done]. cbn [mbind option_bind].
    intros Heq. injection Heq as <- <-. cbn [alm with_alm with_ident gnav_almanac]. by rewrite length_insert.
  - intros Heq. by injection Heq as <- <-.
Qed.

Lemma second_effect k m nav r nav' : length m = 85%nat -> almanac_second (reverse m) k nav = Some (r, nav') ->
  i_alm_satellite_slot_number (alm nav') = i_alm_satellite_slot_number (alm nav) /\ flag_almanac (alm nav') = set_alm_flag k true (flag_almanac (alm nav)) /\
  d_previous_Na (alm nav') = d_previous_Na (alm nav) /\ sflags nav' = sflags nav.
Proof.
  intros Hm. unfold almanac_second. destruct (rd (gnav_almanac (alm nav)) _); [|done]. cbn [mbind option_bind]. gnav_reads Hm. destruct (if SFltb _ _ then _ else _); [|done].
  cbn [mbind option_bind]. destruct (to_u32 _); [|done]. cbn [mbind option_bind]. destruct (wr _ _ _); [|done]. cbn [mbind option_bind]. intros Heq. injection Heq as <- <-.
  cbn. by destruct (_ && _).
Qed.

(** No second string of an almanac waits for its first one. *)
Definition no_second (flags : list bool) : bool := forallb (fun j => negb (default false (rd flags (j + 1 - 6)))) almanac_numbers.

Lemma no_second_set k flags : k ∈ almanac_numbers -> no_second (set_alm_flag k true flags) = no_second flags.
Proof.
  intros Hk. assert (forall j, j ∈ almanac_numbers -> rd (set_alm_flag k true flags) (j + 1 - 6) = rd flags (j + 1 - 6)) as H.
  { intros j Hj. pose proof (number_range j Hj). pose proof (number_range k Hk). unfold rd, set_alm_flag. rewrite !decide_True by lia. apply list_lookup_insert_ne.
    assert (j + 1 <> k); [|lia]. unfold almanac_numbers in *. rewrite !elem_of_cons, elem_of_nil in *. lia. }
  unfold no_second, almanac_numbers. cbn [forallb]. by rewrite !H by (unfold almanac_numbers; rewrite !elem_of_cons; lia).
Qed.

Lemma no_second_pair a : no_second (flag_almanac a) = true -> no_pair a = true.
Proof.
  unfold no_second, no_pair, almanac_numbers. cbn [forallb]. unfold alm_flag. rewrite !andb_true_iff, !negb_true_iff. intros (-> & -> & -> & -> & -> & _). by rewrite !andb_false_r.
Qed.

(** A complete almanac of slot 24 is outside [d_previous_Na]. *)
Lemma slot_24 nav k : k ∈ almanac_numbers -> alm_flag (alm nav) k = true -> alm_flag (alm nav) (k + 1) = true -> i_alm_satellite_slot_number (alm nav) = 24 ->
  length (d_previous_Na (alm nav)) = 24%nat -> have_new_almanac nav = None.
Proof.
  intros Hk H1 H2 Hs Hl. assert (forall j b, new_almanac_pair j (b, nav) = if alm_flag (alm nav) j && alm_flag (alm nav) (j + 1) then None else Some (b, nav)) as Hp.
  { intros j b. unfold new_almanac_pair. destruct (alm_flag (alm nav) j && alm_flag (alm nav) (j + 1)); [|done]. rewrite Hs. unfold rd. rewrite decide_True by lia.
    rewrite lookup_ge_None_2 by lia. done. }
  unfold have_new_almanac. do 4 (rewrite Hp; match goal with |- context [if ?c then None else _] => destruct c eqn:?; [done|cbn [mbind option_bind]] end). rewrite Hp.
  unfold almanac_numbers in Hk. repeat (apply elem_of_cons in Hk as [->|Hk]; [change (6 + 1) with 7 in *; by rewrite H1, H2 in *|]). by apply elem_of_nil in Hk.
Qed.

(** ** The two ways out *)

(** What follows a string that is decoded: with no complete ephemeris nothing changes before the
    almanac is looked at. *)
Lemma process_almanac m nav sat k nav1 : string_decoder day_number m nav = Some (k, nav1) -> flag_utc_model_str_5 (sflags nav1) = false -> have_new_almanac nav1 = None ->
  process_string day_number m nav sat = None.
Proof.
  intros Hd H5 Ha. unfold process_string. rewrite Hd. cbn [mbind option_bind]. unfold have_new_ephemeris. rewrite H5, andb_false_r. unfold have_new_utc_model. rewrite H5, Ha. done.
Qed.

Lemma second_unknown k m nav : length m = 85%nat -> length (gnav_almanac (alm nav)) = 24%nat ->
  known (i_alm_satellite_slot_number (alm nav)) = false -> almanac_second (reverse m) k nav = None.
Proof.
  intros Hm Hl Hs. unfold almanac_second, rd. case_decide; [|done]. rewrite lookup_ge_None_2; [done|]. unfold known in Hs. lia.
Qed.

(** The first string of an almanac, from a state that waits for one. *)
Lemma process_first k p nav sat : string_nr k p -> k ∈ almanac_numbers -> idle nav -> no_second (flag_almanac (alm nav)) = true ->
  process_string day_number p nav sat = None \/ exists nav1, process_string day_number p nav sat = Some ([], nav1, sat) /\
    i_alm_satellite_slot_number (alm nav1) = fu p N_A /\ flag_almanac (alm nav1) = (if known (fu p N_A) then set_alm_flag k true (flag_almanac (alm nav)) else flag_almanac (alm nav)) /\
    d_previous_Na (alm nav1) = d_previous_Na (alm nav) /\ length (gnav_almanac (alm nav1)) = length (gnav_almanac (alm nav)) /\ idle nav1 /\ no_second (flag_almanac (alm nav1)) = true.
Proof.
  intros Hp Hk (H5 & Hu & _) Hns. destruct (almanac_first (reverse p) k (recognised k nav)) as [[r nav1]|] eqn:E.
  2: { left. unfold process_string. by rewrite (decode_first k p nav Hp Hk), E. }
  destruct (first_effect k p _ r nav1 (proj1 (proj1 Hp)) E) as (E1 & E2 & E3 & E4 & E5 & E6). cbn [recognised with_ident alm sflags tflags] in *. right. exists nav1.
  assert (no_second (flag_almanac (alm nav1)) = true) as Hns1 by (rewrite E2; destruct (known _); [by rewrite no_second_set|done]).
  assert (no_pair (alm nav1) = true) as Hnp by by apply no_second_pair.
  rewrite (nothing_published day_number p nav sat r nav1); [|by rewrite (decode_first k p nav Hp Hk)|by rewrite E4|done]. rewrite E5, Hu.
  repeat (split; [done|]). split; [|done]. split; [by rewrite E4|]. split; [by rewrite E5|done].
Qed.
End Outside.

(** C18: the almanac stays in its arrays. Any sequence of strings, correct or not, of all numbers
    and in any order, is decoded without an access outside an array and without a conversion
    out of range, provided that the almanac is for slots 1 to 23; and whatever was received,
    the same holds for the strings that follow. *)
Theorem strings_in_bounds day_number {Hcal : Calendar day_number} strings nav sat (Hs : Forall (fun m => length m = 85%nat /\ slot_known m = true) strings) (Hn : nav_ok nav) :
  exists msgs nav' sat', process_strings day_number strings nav sat = Some (msgs, nav', sat') /\ nav_ok nav'.
Proof.
  revert nav sat Hn. induction Hs as [|m strings [Hm Hk] _ IH]; intros nav sat Hn; [by eexists _, _, _|]. cbn [process_strings].
  destruct (process_string_ok day_number m nav sat Hm Hk Hn) as (msgs & nav1 & sat1 & -> & Hn1). cbn [mbind option_bind].
  destruct (IH nav1 sat1 Hn1) as (more & nav2 & sat2 & -> & Hn2). cbn [mbind option_bind]. by eexists _, _, _.
Qed.

(** Any order of strings: an almanac, a string with an error, the ephemeris, and one of no number. *)
Lemma strings_in_bounds_witness : exists msgs nav sat,
  process_strings gregorian_days [demo_bits 6 [12%nat; 13%nat]; old_5; demo_bits 7 [30%nat]; <[7%nat := true]> (demo_bits 9 [20%nat]); old_1; old_2; old_3; old_4; old_5; demo_bits 0 []]
    Gnav_Message_init (make_satellite "Glonass" 3) = Some (msgs, nav, sat) /\ nav_ok nav.
Proof. apply (strings_in_bounds gregorian_days); [|apply init_message_ok]. repeat constructor; vm_compute; reflexivity. Defined.

(** C19: almanacs that leave the arrays. A correct almanac of slot 24, a satellite like the others,
    makes the message read the element behind the last one of [d_previous_Na]; and if a string
    with a slot number that is none comes between the two strings of an almanac, the second one
    is written outside [gnav_almanac]. *)
Theorem almanac_out_of_bounds day_number k p q nav sat (Hk : k ∈ almanac_numbers) (Hp : string_nr k p) (Hq : string_nr (k + 1) q) (Hi : idle nav) (Ha : alm_ok (alm nav))
  (Hns : no_second (flag_almanac (alm nav)) = true) :
  (fu p GLONASS_GNAV.N_A = 24 -> process_strings day_number [p; q] nav sat = None) /\
  (forall j p', j ∈ almanac_numbers -> string_nr j p' -> known (fu p GLONASS_GNAV.N_A) = true -> known (fu p' GLONASS_GNAV.N_A) = false ->
    process_strings day_number [p; p'; q] nav sat = None).
Proof.
  destruct Ha as [Hc Hl Hpv _ _ _]. pose proof (number_range k Hk) as Hr.
  destruct (process_first day_number k p nav sat Hp Hk Hi Hns) as [Hnone|(nav1 & H1 & S1 & F1 & V1 & L1 & I1 & N1)]; [cbn [process_strings]; by rewrite Hnone|].
  assert (known (fu p GLONASS_GNAV.N_A) = true -> alm_flag (alm nav1) k = true) as Hf.
  { intros Hkn. unfold alm_flag. rewrite F1, Hkn, flag_set by (done || lia). done. }
  assert (length (flag_almanac (alm nav1)) = 10%nat) as Hc1 by (rewrite F1; destruct (known _); [unfold set_alm_flag; by rewrite length_insert|done]).
  split.
  - intros H24. rewrite (process_cons_quiet day_number _ _ _ _ _ _ H1). cbn [process_strings]. rewrite H24 in Hf. specialize (Hf eq_refl).
    destruct (almanac_second (reverse q) (k + 1) (recognised (k + 1) nav1)) as [[r nav2]|] eqn:E.
    + destruct (second_effect (k + 1) q _ r nav2 (proj1 (proj1 Hq)) E) as (S2 & F2 & V2 & G2). cbn [recognised with_ident alm sflags] in *.
      rewrite (process_almanac day_number q nav1 sat r nav2); [done|by rewrite (decode_second day_number k q nav1 Hq Hk Hf)|rewrite G2; apply I1|].
      apply (slot_24 nav2 k Hk); [|unfold alm_flag; rewrite F2, flag_set; [done|done|lia]|congruence|congruence].
      unfold alm_flag in *. rewrite F2. unfold set_alm_flag, rd in *. rewrite decide_True in * by lia. by rewrite list_lookup_insert_ne by lia.
    + unfold process_string. by rewrite (decode_second day_number k q nav1 Hq Hk Hf), E.
  - intros j p' Hj Hp' Hkn Hun. rewrite (process_cons_quiet day_number _ _ _ _ _ _ H1). specialize (Hf Hkn).
    destruct (process_first day_number j p' nav1 sat Hp' Hj I1 N1) as [Hnone|(nav2 & H2 & S2 & F2 & V2 & L2 & I2 & N2)]; [cbn [process_strings]; by rewrite Hnone|].
    rewrite (process_cons_quiet day_number _ _ _ _ _ _ H2). cbn [process_strings]. rewrite Hun in F2. unfold process_string.
    rewrite (decode_second day_number k q nav2 Hq Hk) by (unfold alm_flag in *; by rewrite F2).
    rewrite (second_unknown (k + 1) q); [done|apply Hq|cbn [recognised with_ident alm]; congruence|cbn [recognised with_ident alm]; by rewrite S2].
Qed.

(** Slot 24, and slot 3 followed by slot 0. *)
Lemma almanac_out_of_bounds_witness :
  process_strings gregorian_days [demo_bits 6 [9%nat; 8%nat]; demo_bits 7 []] Gnav_Message_init (make_satellite "Glonass" 1) = None /\
  process_strings gregorian_days [demo_bits 6 [12%nat; 11%nat]; demo_bits 8 []; demo_bits 7 []] Gnav_Message_init (make_satellite "Glonass" 1) = None.
Proof.
  split.
  - apply (proj1 (almanac_out_of_bounds gregorian_days 6 (demo_bits 6 [9%nat; 8%nat]) (demo_bits 7 []) Gnav_Message_init (make_satellite "Glonass" 1)
      ltac:(by apply (bool_decide_unpack _)) ltac:(by apply demo_bits_nr) ltac:(by apply demo_bits_nr) ltac:(by apply (bool_decide_unpack _)) ltac:(apply init_message_ok) eq_refl)).
    vm_compute. reflexivity.
  - apply (proj2 (almanac_out_of_bounds gregorian_days 6 (demo_bits 6 [12%nat; 11%nat]) (demo_bits 7 []) Gnav_Message_init (make_satellite "Glonass" 1)
      ltac:(by apply (bool_decide_unpack _)) ltac:(by apply demo_bits_nr) ltac:(by apply demo_bits_nr) ltac:(by apply (bool_decide_unpack _)) ltac:(apply init_message_ok) eq_refl) 8);
      [by apply (bool_decide_unpack _)|by apply demo_bits_nr|vm_compute; reflexivity|vm_compute; reflexivity].
Defined.
