(* ===== verification/CnavNav.v ===== *)
(** * GPS CNAV navigation message

    [core/system_parameters/gps_cnav_navigation_message.cc]: the fields of message types 10, 11,
    30 and 33 with the positions and scales of [GPS_CNAV.h] (module [GPS_CNAV]), and the flags
    that tell when an ephemeris, ionospheric data or a UTC model is complete. The members of
    [ephemeris_record] are grouped by the messages that set them; members that nothing sets
    are left out.

    A page is a [std::bitset] of 300 bits, a list of bits by index. Signed overflow and an index
    outside the page are undefined ([None]). *)
From S2P Require Import Prelude Doubles NavBits.
From Stdlib Require Import SpecFloat.

#[local] Open Scope Z_scope.

Module GPS_CNAV.
Definition GPS_CNAV_DATA_PAGE_BITS : Z := 300.
Definition CNAV_PRN : slices := [(9, 6)].
Definition CNAV_MSG_TYPE : slices := [(15, 6)].
Definition CNAV_TOW : slices := [(21, 17)].
Definition CNAV_TOW_LSB : Z := 6.
Definition CNAV_ALERT_FLAG : slices := [(38, 1)].
Definition CNAV_WN : slices := [(39, 13)].
Definition CNAV_HEALTH : slices := [(52, 3)].
Definition CNAV_TOP1 : slices := [(55, 11)].
Definition CNAV_TOP1_LSB : Z := 300.
Definition CNAV_URA : slices := [(66, 5)].
Definition CNAV_TOE1 : slices := [(71, 11)].
Definition CNAV_TOE1_LSB : Z := 300.
Definition CNAV_DELTA_A : slices := [(82, 26)].
Definition CNAV_DELTA_A_LSB : double := TWO_N9.
Definition CNAV_A_DOT : slices := [(108, 25)].
Definition CNAV_A_DOT_LSB : double := TWO_N21.
Definition CNAV_DELTA_N0 : slices := [(133, 17)].
Definition CNAV_DELTA_N0_LSB : double := dbl_mul TWO_N44 GNSS_PI.
Definition CNAV_DELTA_N0_DOT : slices := [(150, 23)].
Definition CNAV_DELTA_N0_DOT_LSB : double := dbl_mul TWO_N57 GNSS_PI.
Definition CNAV_M0 : slices := [(173, 33)].
Definition CNAV_M0_LSB : double := dbl_mul TWO_N32 GNSS_PI.
Definition CNAV_E_ECCENTRICITY : slices := [(206, 33)].
Definition CNAV_E_ECCENTRICITY_LSB : double := TWO_N34.
Definition CNAV_OMEGA : slices := [(239, 33)].
Definition CNAV_OMEGA_LSB : double := dbl_mul TWO_N32 GNSS_PI.
Definition CNAV_INTEGRITY_FLAG : slices := [(272, 1)].
Definition CNAV_L2_PHASING_FLAG : slices := [(273, 1)].
Definition CNAV_TOE2 : slices := [(39, 11)].
Definition CNAV_TOE2_LSB : Z := 300.
Definition CNAV_OMEGA0 : slices := [(50, 33)].
Definition CNAV_OMEGA0_LSB : double := dbl_mul TWO_N32 GNSS_PI.
Definition CNAV_I0 : slices := [(83, 33)].
Definition CNAV_I0_LSB : double := dbl_mul TWO_N32 GNSS_PI.
Definition CNAV_DELTA_OMEGA_DOT : slices := [(116, 17)].
Definition CNAV_DELTA_OMEGA_DOT_LSB : double := dbl_mul TWO_N44 GNSS_PI.
Definition CNAV_I0_DOT : slices := [(133, 15)].
Definition CNAV_I0_DOT_LSB : double := dbl_mul TWO_N44 GNSS_PI.
Definition CNAV_CIS : slices := [(148, 16)].
Definition CNAV_CIS_LSB : double := TWO_N30.
Definition CNAV_CIC : slices := [(164, 16)].
Definition CNAV_CIC_LSB : double := TWO_N30.
Definition CNAV_CRS : slices := [(180, 24)].
Definition CNAV_CRS_LSB : double := TWO_N8.
Definition CNAV_CRC : slices := [(204, 24)].
Definition CNAV_CRC_LSB : double := TWO_N8.
Definition CNAV_CUS : slices := [(228, 21)].
Definition CNAV_CUS_LSB : double := TWO_N30.
Definition CNAV_CUC : slices := [(249, 21)].
Definition CNAV_CUC_LSB : double := TWO_N30.
Definition CNAV_TOP2 : slices := [(39, 11)].
Definition CNAV_TOP2_LSB : Z := 300.
Definition CNAV_URA_NED0 : slices := [(50, 5)].
Definition CNAV_URA_NED1 : slices := [(55, 3)].
Definition CNAV_URA_NED2 : slices := [(58, 3)].
Definition CNAV_TOC : slices := [(61, 11)].
Definition CNAV_TOC_LSB : Z := 300.
Definition CNAV_AF0 : slices := [(72, 26)].
Definition CNAV_AF0_LSB : double := TWO_N35.
Definition CNAV_AF1 : slices := [(98, 20)].
Definition CNAV_AF1_LSB : double := TWO_N48.
Definition CNAV_AF2 : slices := [(118, 10)].
Definition CNAV_AF2_LSB : double := TWO_N60.
Definition CNAV_TGD : slices := [(128, 13)].
Definition CNAV_TGD_LSB : double := TWO_N35.
Definition CNAV_ISCL1 : slices := [(141, 13)].
Definition CNAV_ISCL1_LSB : double := TWO_N35.
Definition CNAV_ISCL2 : slices := [(154, 13)].
Definition CNAV_ISCL2_LSB : double := TWO_N35.
Definition CNAV_ISCL5I : slices := [(167, 13)].
Definition CNAV_ISCL5I_LSB : double := TWO_N35.
Definition CNAV_ISCL5Q : slices := [(180, 13)].
Definition CNAV_ISCL5Q_LSB : double := TWO_N35.
Definition CNAV_ALPHA0 : slices := [(193, 8)].
Definition CNAV_ALPHA0_LSB : double := TWO_N30.
Definition CNAV_ALPHA1 : slices := [(201, 8)].
Definition CNAV_ALPHA1_LSB : double := TWO_N27.
Definition CNAV_ALPHA2 : slices := [(209, 8)].
Definition CNAV_ALPHA2_LSB : double := TWO_N24.
Definition CNAV_ALPHA3 : slices := [(217, 8)].
Definition CNAV_ALPHA3_LSB : double := TWO_N24.
Definition CNAV_BETA0 : slices := [(225, 8)].
Definition CNAV_BETA0_LSB : double := TWO_P11.
Definition CNAV_BETA1 : slices := [(233, 8)].
Definition CNAV_BETA1_LSB : double := TWO_P14.
Definition CNAV_BETA2 : slices := [(241, 8)].
Definition CNAV_BETA2_LSB : double := TWO_P16.
Definition CNAV_BETA3 : slices := [(249, 8)].
Definition CNAV_BETA3_LSB : double := TWO_P16.
Definition CNAV_WNOP : slices := [(257, 8)].
Definition CNAV_A0 : slices := [(128, 16)].
Definition CNAV_A0_LSB : double := TWO_N35.
Definition CNAV_A1 : slices := [(144, 13)].
Definition CNAV_A1_LSB : double := TWO_N51.
Definition CNAV_A2 : slices := [(157, 7)].
Definition CNAV_A2_LSB : double := TWO_N68.
Definition CNAV_DELTA_TLS : slices := [(164, 8)].
Definition CNAV_DELTA_TLS_LSB : Z := 1.
Definition CNAV_TOT : slices := [(172, 16)].
Definition CNAV_TOT_LSB : Z := 16.
Definition CNAV_WN_OT : slices := [(188, 13)].
Definition CNAV_WN_OT_LSB : Z := 1.
Definition CNAV_WN_LSF : slices := [(201, 13)].
Definition CNAV_WN_LSF_LSB : Z := 1.
Definition CNAV_DN : slices := [(214, 4)].
Definition CNAV_DN_LSB : Z := 1.
Definition CNAV_DELTA_TLSF : slices := [(218, 8)].
Definition CNAV_DELTA_TLSF_LSB : Z := 1.
Definition CNAV_A_REF : double := lit 26559710 0.
Definition CNAV_OMEGA_DOT_REF : double := dbl_opp (lit 26 10).
End GPS_CNAV.

(** [std::sqrt] *)
Definition dbl_sqrt (x : double) : double := SFsqrt 53 1024 x.

(** ** State *)

Module Gps_CNAV_Ephemeris.
Record common_data := { PRN : Z; tow : Z; alert_flag : bool }.
Record page10_data := { WN : Z; signal_health : Z; toe1 : Z; delta_A : double; Adot : double; sqrtA : double; delta_n : double; delta_ndot : double; M_0 : double;
  ecc : double; omega : double; integrity_status_flag : bool; l2c_phasing_flag : bool }.
Record page11_data := { toe2 : Z; OMEGA_0 : double; delta_OMEGAdot : double; OMEGAdot : double; i_0 : double; idot : double; Cis : double; Cic : double;
  Crs : double; Crc : double; Cus : double; Cuc : double }.
Record clock_data := { toc : Z; af0 : double; af1 : double; af2 : double }.
Record delay_data := { URA1 : double; URA2 : double; TGD : double; ISCL1 : double; ISCL2 : double; ISCL5I : double; ISCL5Q : double }.
Record cnav_ephemeris := { common : common_data; page10 : page10_data; page11 : page11_data; clock : clock_data; delay : delay_data; URA0 : double; top : Z }.
End Gps_CNAV_Ephemeris.

Module Gps_CNAV_Iono.
Record cnav_iono := { alpha0 : double; alpha1 : double; alpha2 : double; alpha3 : double; beta0 : double; beta1 : double; beta2 : double; beta3 : double }.
End Gps_CNAV_Iono.

Module Gps_CNAV_Utc_Model.
Record cnav_utc := { A0 : double; A1 : double; A2 : double; DeltaT_LS : Z; tot : Z; WN_T : Z; WN_LSF : Z; DN : Z; DeltaT_LSF : Z; valid : bool }.
End Gps_CNAV_Utc_Model.
Import Gps_CNAV_Ephemeris.

Record Gps_CNAV_Navigation_Message := { ephemeris_record : cnav_ephemeris; iono_record : Gps_CNAV_Iono.cnav_iono; utc_model_record : Gps_CNAV_Utc_Model.cnav_utc;
  cnav_TOW : Z; b_flag_ephemeris_1 : bool; b_flag_ephemeris_2 : bool; b_flag_iono_valid : bool; b_flag_utc_valid : bool }.

Definition Gps_CNAV_Navigation_Message_init : Gps_CNAV_Navigation_Message :=
  let z := dbl_zero in
  {| ephemeris_record := {| common := {| PRN := 0; tow := 0; alert_flag := false |};
       page10 := {| WN := 0; signal_health := 0; toe1 := 0; delta_A := z; Adot := z; sqrtA := z; delta_n := z; delta_ndot := z; M_0 := z; ecc := z; omega := z;
         integrity_status_flag := false; l2c_phasing_flag := false |};
       page11 := {| toe2 := 0; OMEGA_0 := z; delta_OMEGAdot := z; OMEGAdot := z; i_0 := z; idot := z; Cis := z; Cic := z; Crs := z; Crc := z; Cus := z; Cuc := z |};
       clock := {| toc := 0; af0 := z; af1 := z; af2 := z |};
       delay := {| URA1 := z; URA2 := z; TGD := z; ISCL1 := z; ISCL2 := z; ISCL5I := z; ISCL5Q := z |}; URA0 := z; top := 0 |};
     iono_record := {| Gps_CNAV_Iono.alpha0 := z; Gps_CNAV_Iono.alpha1 := z; Gps_CNAV_Iono.alpha2 := z; Gps_CNAV_Iono.alpha3 := z; Gps_CNAV_Iono.beta0 := z;
       Gps_CNAV_Iono.beta1 := z; Gps_CNAV_Iono.beta2 := z; Gps_CNAV_Iono.beta3 := z |};
     utc_model_record := {| Gps_CNAV_Utc_Model.A0 := z; Gps_CNAV_Utc_Model.A1 := z; Gps_CNAV_Utc_Model.A2 := z; Gps_CNAV_Utc_Model.DeltaT_LS := 0;
       Gps_CNAV_Utc_Model.tot := 0; Gps_CNAV_Utc_Model.WN_T := 0; Gps_CNAV_Utc_Model.WN_LSF := 0; Gps_CNAV_Utc_Model.DN := 0; Gps_CNAV_Utc_Model.DeltaT_LSF := 0;
       Gps_CNAV_Utc_Model.valid := false |};
     cnav_TOW := 0; b_flag_ephemeris_1 := false; b_flag_ephemeris_2 := false; b_flag_iono_valid := false; b_flag_utc_valid := false |}.

(** ** Fields *)

Section Page.
Context (data_bits : list bool).
Import GPS_CNAV.

(** [static_cast<int32_t>(...)] and the multiplication by an integer scale. *)
Definition page_uint (p : slices) : option Z := i32 <$> read_navigation_unsigned GPS_CNAV_DATA_PAGE_BITS data_bits p.
Definition page_sint (p : slices) : option Z := i32 <$> read_navigation_signed GPS_CNAV_DATA_PAGE_BITS data_bits p.
Definition page_utime (p : slices) (LSB : Z) : option Z := v ← page_uint p; chk_i32 (v * LSB).
Definition page_stime (p : slices) (LSB : Z) : option Z := v ← page_sint p; chk_i32 (v * LSB).

(** [static_cast<double>(...)], and [*= LSB]. *)
Definition page_udbl (p : slices) : option double := dbl_of_Z <$> read_navigation_unsigned GPS_CNAV_DATA_PAGE_BITS data_bits p.
Definition page_sdbl (p : slices) : option double := dbl_of_Z <$> read_navigation_signed GPS_CNAV_DATA_PAGE_BITS data_bits p.
Definition page_sscaled (p : slices) (LSB : double) : option double := (fun x => dbl_mul x LSB) <$> page_sdbl p.
Definition page_bool (p : slices) : option bool := read_navigation_bool GPS_CNAV_DATA_PAGE_BITS data_bits p.

(** A group delay, zero if it is not available. *)
Definition group_delay (p : slices) (LSB : double) : option double :=
  x ← page_sdbl p; Some (dbl_mul (if SFltb x (dbl_opp (lit 40959 1)) then dbl_zero else x) LSB).

Definition read_page10 : option (page10_data * double * Z) :=
  wn ← page_uint CNAV_WN; health ← page_uint CNAV_HEALTH; top ← page_utime CNAV_TOP1 CNAV_TOP1_LSB; ura ← page_sdbl CNAV_URA;
  toe ← page_utime CNAV_TOE1 CNAV_TOE1_LSB; da ← page_sscaled CNAV_DELTA_A CNAV_DELTA_A_LSB; adot ← page_sscaled CNAV_A_DOT CNAV_A_DOT_LSB;
  dn ← page_sscaled CNAV_DELTA_N0 CNAV_DELTA_N0_LSB; dnd ← page_sscaled CNAV_DELTA_N0_DOT CNAV_DELTA_N0_DOT_LSB; m0 ← page_sscaled CNAV_M0 CNAV_M0_LSB;
  e ← page_udbl CNAV_E_ECCENTRICITY; om ← page_sscaled CNAV_OMEGA CNAV_OMEGA_LSB; i ← page_bool CNAV_INTEGRITY_FLAG; l ← page_bool CNAV_L2_PHASING_FLAG;
  Some ({| WN := wn; signal_health := health; toe1 := toe; delta_A := da; Adot := adot; sqrtA := dbl_sqrt (dbl_add CNAV_A_REF da); delta_n := dn; delta_ndot := dnd;
           M_0 := m0; ecc := dbl_mul e CNAV_E_ECCENTRICITY_LSB; omega := om; integrity_status_flag := i; l2c_phasing_flag := l |}, ura, top).

Definition read_page11 : option page11_data :=
  toe ← page_utime CNAV_TOE2 CNAV_TOE2_LSB; om0 ← page_sscaled CNAV_OMEGA0 CNAV_OMEGA0_LSB; dom ← page_sscaled CNAV_DELTA_OMEGA_DOT CNAV_DELTA_OMEGA_DOT_LSB;
  i0 ← page_sscaled CNAV_I0 CNAV_I0_LSB; id ← page_sscaled CNAV_I0_DOT CNAV_I0_DOT_LSB; cis ← page_sscaled CNAV_CIS CNAV_CIS_LSB; cic ← page_sscaled CNAV_CIC CNAV_CIC_LSB;
  crs ← page_sscaled CNAV_CRS CNAV_CRS_LSB; crc ← page_sscaled CNAV_CRC CNAV_CRC_LSB; cus ← page_sscaled CNAV_CUS CNAV_CUS_LSB; cuc ← page_sscaled CNAV_CUC CNAV_CUC_LSB;
  Some {| toe2 := toe; OMEGA_0 := om0; delta_OMEGAdot := dom; OMEGAdot := dbl_add (dbl_mul CNAV_OMEGA_DOT_REF GNSS_PI) dom; i_0 := i0; idot := id; Cis := cis;
          Cic := cic; Crs := crs; Crc := crc; Cus := cus; Cuc := cuc |}.

(** In messages 30 and 33. *)
Definition read_clock : option clock_data :=
  t ← page_utime CNAV_TOC CNAV_TOC_LSB; a0 ← page_sscaled CNAV_AF0 CNAV_AF0_LSB; a1 ← page_sscaled CNAV_AF1 CNAV_AF1_LSB; a2 ← page_sscaled CNAV_AF2 CNAV_AF2_LSB;
  Some {| toc := t; af0 := a0; af1 := a1; af2 := a2 |}.

Definition read_delays : option (double * delay_data) :=
  u0 ← page_sdbl CNAV_URA_NED0; u1 ← page_udbl CNAV_URA_NED1; u2 ← page_udbl CNAV_URA_NED2; tgd ← group_delay CNAV_TGD CNAV_TGD_LSB; l1 ← group_delay CNAV_ISCL1 CNAV_ISCL1_LSB;
  l2 ← group_delay CNAV_ISCL2 CNAV_ISCL2_LSB; l5i ← group_delay CNAV_ISCL5I CNAV_ISCL5I_LSB; l5q ← group_delay CNAV_ISCL5Q CNAV_ISCL5Q_LSB;
  Some (u0, {| URA1 := u1; URA2 := u2; TGD := tgd; ISCL1 := l1; ISCL2 := l2; ISCL5I := l5i; ISCL5Q := l5q |}).

Definition read_page_iono : option Gps_CNAV_Iono.cnav_iono :=
  a0 ← page_sscaled CNAV_ALPHA0 CNAV_ALPHA0_LSB; a1 ← page_sscaled CNAV_ALPHA1 CNAV_ALPHA1_LSB; a2 ← page_sscaled CNAV_ALPHA2 CNAV_ALPHA2_LSB;
  a3 ← page_sscaled CNAV_ALPHA3 CNAV_ALPHA3_LSB; b0 ← page_sscaled CNAV_BETA0 CNAV_BETA0_LSB; b1 ← page_sscaled CNAV_BETA1 CNAV_BETA1_LSB;
  b2 ← page_sscaled CNAV_BETA2 CNAV_BETA2_LSB; b3 ← page_sscaled CNAV_BETA3 CNAV_BETA3_LSB;
  Some {| Gps_CNAV_Iono.alpha0 := a0; Gps_CNAV_Iono.alpha1 := a1; Gps_CNAV_Iono.alpha2 := a2; Gps_CNAV_Iono.alpha3 := a3; Gps_CNAV_Iono.beta0 := b0;
          Gps_CNAV_Iono.beta1 := b1; Gps_CNAV_Iono.beta2 := b2; Gps_CNAV_Iono.beta3 := b3 |}.

Definition read_page_utc (valid0 : bool) : option Gps_CNAV_Utc_Model.cnav_utc :=
  a0 ← page_sscaled CNAV_A0 CNAV_A0_LSB; a1 ← page_sscaled CNAV_A1 CNAV_A1_LSB; a2 ← page_sscaled CNAV_A2 CNAV_A2_LSB; ls ← page_stime CNAV_DELTA_TLS CNAV_DELTA_TLS_LSB;
  t ← page_stime CNAV_TOT CNAV_TOT_LSB; wn ← page_stime CNAV_WN_OT CNAV_WN_OT_LSB; wnl ← page_stime CNAV_WN_LSF CNAV_WN_LSF_LSB; d ← page_stime CNAV_DN CNAV_DN_LSB;
  lsf ← page_stime CNAV_DELTA_TLSF CNAV_DELTA_TLSF_LSB;
  Some {| Gps_CNAV_Utc_Model.A0 := a0; Gps_CNAV_Utc_Model.A1 := a1; Gps_CNAV_Utc_Model.A2 := a2; Gps_CNAV_Utc_Model.DeltaT_LS := ls; Gps_CNAV_Utc_Model.tot := t;
          Gps_CNAV_Utc_Model.WN_T := wn; Gps_CNAV_Utc_Model.WN_LSF := wnl; Gps_CNAV_Utc_Model.DN := d; Gps_CNAV_Utc_Model.DeltaT_LSF := lsf;
          Gps_CNAV_Utc_Model.valid := valid0 |}.
End Page.

Definition decode_page (data_bits : list bool) (n0 : Gps_CNAV_Navigation_Message) : option Gps_CNAV_Navigation_Message :=
  prn ← page_uint data_bits GPS_CNAV.CNAV_PRN;
  t ← page_utime data_bits GPS_CNAV.CNAV_TOW GPS_CNAV.CNAV_TOW_LSB;
  al ← page_bool data_bits GPS_CNAV.CNAV_ALERT_FLAG;
  page_type ← page_uint data_bits GPS_CNAV.CNAV_MSG_TYPE;
  let e := ephemeris_record n0 in
  let cm := {| PRN := u32 prn; tow := t; alert_flag := al |} in
  let with_parts p10 p11 ck dl ura tp := {| common := cm; page10 := p10; page11 := p11; clock := ck; delay := dl; URA0 := ura; top := tp |} in
  let build e' io ut f1 f2 fi fu := {| ephemeris_record := e'; iono_record := io; utc_model_record := ut; cnav_TOW := t; b_flag_ephemeris_1 := f1; b_flag_ephemeris_2 := f2;
    b_flag_iono_valid := fi; b_flag_utc_valid := fu |} in
  match page_type with
  | 10 =>
      '(p10, ura, tp) ← read_page10 data_bits;
      Some (build (with_parts p10 (page11 e) (clock e) (delay e) ura tp) (iono_record n0) (utc_model_record n0) true (b_flag_ephemeris_2 n0) (b_flag_iono_valid n0) (b_flag_utc_valid n0))
  | 11 =>
      p11 ← read_page11 data_bits;
      Some (build (with_parts (page10 e) p11 (clock e) (delay e) (URA0 e) (top e)) (iono_record n0) (utc_model_record n0) (b_flag_ephemeris_1 n0) true (b_flag_iono_valid n0) (b_flag_utc_valid n0))
  | 30 =>
      ck ← read_clock data_bits; '(ura, dl) ← read_delays data_bits; io ← read_page_iono data_bits;
      Some (build (with_parts (page10 e) (page11 e) ck dl ura (top e)) io (utc_model_record n0) (b_flag_ephemeris_1 n0) (b_flag_ephemeris_2 n0) true (b_flag_utc_valid n0))
  | 33 =>
      tp ← page_utime data_bits GPS_CNAV.CNAV_TOP1 GPS_CNAV.CNAV_TOP1_LSB; ck ← read_clock data_bits;
      ut ← read_page_utc data_bits (Gps_CNAV_Utc_Model.valid (utc_model_record n0));
      Some (build (with_parts (page10 e) (page11 e) ck (delay e) (URA0 e) tp) (iono_record n0) ut (b_flag_ephemeris_1 n0) (b_flag_ephemeris_2 n0) (b_flag_iono_valid n0) true)
  | _ =>
      Some (build (with_parts (page10 e) (page11 e) (clock e) (delay e) (URA0 e) (top e)) (iono_record n0) (utc_model_record n0) (b_flag_ephemeris_1 n0) (b_flag_ephemeris_2 n0)
        (b_flag_iono_valid n0) (b_flag_utc_valid n0))
  end.

(** ** Complete data *)

Definition cnav_have_new_ephemeris (n : Gps_CNAV_Navigation_Message) : bool * Gps_CNAV_Navigation_Message :=
  if b_flag_ephemeris_1 n && b_flag_ephemeris_2 n then
    if toe1 (page10 (ephemeris_record n)) =? toe2 (page11 (ephemeris_record n)) then
      (true, {| ephemeris_record := ephemeris_record n; iono_record := iono_record n; utc_model_record := utc_model_record n; cnav_TOW := cnav_TOW n;
        b_flag_ephemeris_1 := false; b_flag_ephemeris_2 := false; b_flag_iono_valid := b_flag_iono_valid n; b_flag_utc_valid := b_flag_utc_valid n |})
    else (false, n)
  else (false, n).

Definition cnav_have_new_iono (n : Gps_CNAV_Navigation_Message) : bool * Gps_CNAV_Navigation_Message :=
  if b_flag_iono_valid n then
    (true, {| ephemeris_record := ephemeris_record n; iono_record := iono_record n; utc_model_record := utc_model_record n; cnav_TOW := cnav_TOW n;
      b_flag_ephemeris_1 := b_flag_ephemeris_1 n; b_flag_ephemeris_2 := b_flag_ephemeris_2 n; b_flag_iono_valid := false; b_flag_utc_valid := b_flag_utc_valid n |})
  else (false, n).

Definition cnav_have_new_utc_model (n : Gps_CNAV_Navigation_Message) : bool * Gps_CNAV_Navigation_Message :=
  if b_flag_utc_valid n then
    (true, {| ephemeris_record := ephemeris_record n; iono_record := iono_record n; utc_model_record := utc_model_record n; cnav_TOW := cnav_TOW n;
      b_flag_ephemeris_1 := b_flag_ephemeris_1 n; b_flag_ephemeris_2 := b_flag_ephemeris_2 n; b_flag_iono_valid := b_flag_iono_valid n; b_flag_utc_valid := false |})
  else (false, n).

(** [get_utc_model] marks the record as valid. *)
Definition cnav_get_utc_model (n : Gps_CNAV_Navigation_Message) : Gps_CNAV_Utc_Model.cnav_utc * Gps_CNAV_Navigation_Message :=
  let u := utc_model_record n in
  let u' := {| Gps_CNAV_Utc_Model.A0 := Gps_CNAV_Utc_Model.A0 u; Gps_CNAV_Utc_Model.A1 := Gps_CNAV_Utc_Model.A1 u; Gps_CNAV_Utc_Model.A2 := Gps_CNAV_Utc_Model.A2 u;
    Gps_CNAV_Utc_Model.DeltaT_LS := Gps_CNAV_Utc_Model.DeltaT_LS u; Gps_CNAV_Utc_Model.tot := Gps_CNAV_Utc_Model.tot u; Gps_CNAV_Utc_Model.WN_T := Gps_CNAV_Utc_Model.WN_T u;
    Gps_CNAV_Utc_Model.WN_LSF := Gps_CNAV_Utc_Model.WN_LSF u; Gps_CNAV_Utc_Model.DN := Gps_CNAV_Utc_Model.DN u; Gps_CNAV_Utc_Model.DeltaT_LSF := Gps_CNAV_Utc_Model.DeltaT_LSF u;
    Gps_CNAV_Utc_Model.valid := true |} in
  (u', {| ephemeris_record := ephemeris_record n; iono_record := iono_record n; utc_model_record := u'; cnav_TOW := cnav_TOW n; b_flag_ephemeris_1 := b_flag_ephemeris_1 n;
     b_flag_ephemeris_2 := b_flag_ephemeris_2 n; b_flag_iono_valid := b_flag_iono_valid n; b_flag_utc_valid := b_flag_utc_valid n |}).
