(* ===== verification/CnavTlm.v ===== *)
(** * GPS L2C and L5 telemetry decoders

    [gps_l2c_telemetry_decoder_gs.cc] and [gps_l5_telemetry_decoder_gs.cc] of
    [algorithms/telemetry_decoder/gnuradio_blocks]: the symbols of a satellite go through the
    decoder of libswiftcnav ([CnavMsg]); a message goes to the navigation message ([CnavNav]),
    what is complete to the port, and its time of week to the symbols.

    Left out: the dump file, and [d_state] and [d_crc_error_count] of the L2C block, which
    nothing reads. *)
From stdpp Require Import strings.
From S2P Require Import Prelude Doubles DoublesErr NavBits Bits Edc Viterbi27 CnavMsg CnavNav GnssSignal Rtcm.
From Stdlib Require Import SpecFloat.

#[local] Open Scope Z_scope.

(** The members of [Gnss_Synchro] that the blocks use. *)
Record cnav_synchro := { Prompt_I : double; Prompt_Q : double; Carrier_phase_rads : double; TOW_at_current_symbol_ms : Z; Flag_valid_symbol_output : bool;
  Flag_valid_word : bool }.

(** What the blocks send: on the port ["telemetry"], and the alarm on ["telemetry_to_trk"]. *)
Inductive cnav_out :=
  | pub_cnav_ephemeris (e : Gps_CNAV_Ephemeris.cnav_ephemeris)
  | pub_cnav_iono (i : Gps_CNAV_Iono.cnav_iono)
  | pub_cnav_utc (u : Gps_CNAV_Utc_Model.cnav_utc)
  | bad_telemetry.

Definition GPS_L2_M_PERIOD_S : double := lit 2 2.
Definition GPS_L5I_SYMBOL_PERIOD_MS : Z := 10.
Definition GPS_L2_CNAV_DATA_PAGE_BITS : Z := 300.
Definition GPS_L5_CNAV_DATA_PAGE_BITS : Z := 300.
Definition GPS_L2_SYMBOLS_PER_BIT : Z := 2.
Definition GPS_L5_SYMBOLS_PER_BIT : Z := 2.

(** ** Messages *)

(** The loop that fills [raw_bits], the last bit of the message at index 0. *)
Definition expand_page (raw : list Z) : option (list bool) :=
  for_loop 300 0 (fun i raw_bits =>
    c ← rd raw (i / 8); wr raw_bits (GPS_L2_CNAV_DATA_PAGE_BITS - 1 - i) (Z.odd (Z.land (Z.shiftr c (7 - i mod 8)) 1))) (replicate 300 false).

(** [decode_page] and the publication of what is new, in both blocks. *)
Definition process_page (raw : list Z) (n : Gps_CNAV_Navigation_Message) : option (list cnav_out * Gps_CNAV_Navigation_Message) :=
  raw_bits ← expand_page raw;
  n1 ← decode_page raw_bits n;
  let '(new_eph, n2) := cnav_have_new_ephemeris n1 in
  let m1 := if new_eph : bool then [pub_cnav_ephemeris (ephemeris_record n2)] else [] in
  let '(new_iono, n3) := cnav_have_new_iono n2 in
  let m2 := if new_iono : bool then [pub_cnav_iono (iono_record n3)] else [] in
  let '(new_utc, n4) := cnav_have_new_utc_model n3 in
  let '(m3, n5) := if new_utc : bool then let '(u, n5) := cnav_get_utc_model n4 in ([pub_cnav_utc u], n5) else ([], n4) in
  Some (m1 ++ m2 ++ m3, n5).

(** [static_cast<uint8_t>(prompt > 0) * 255] *)
Definition symbol_clip (prompt : double) : Z := if gt0 prompt then 255 else 0.

(** ** L2C *)

Record gps_l2c_decoder := { l2c_satellite : Gnss_Satellite; l2c_cnav_decoder : cnav_msg_decoder_t; l2c_CNAV_Message : Gps_CNAV_Navigation_Message;
  l2c_TOW_at_current_symbol : double; l2c_TOW_at_Preamble : double; l2c_sample_counter : Z; l2c_last_valid_preamble : Z; l2c_channel : Z;
  l2c_max_symbols_without_valid_frame : Z; l2c_sent_tlm_failed_msg : bool; l2c_flag_PLL_180_deg_phase_locked : bool; l2c_flag_valid_word : bool }.

Definition gps_l2c_decoder_init (satellite : Gnss_Satellite) : option gps_l2c_decoder :=
  d ← cnav_msg_decoder_init;
  Some {| l2c_satellite := make_satellite (system satellite) (PRN satellite); l2c_cnav_decoder := d; l2c_CNAV_Message := Gps_CNAV_Navigation_Message_init;
    l2c_TOW_at_current_symbol := dbl_zero; l2c_TOW_at_Preamble := dbl_zero; l2c_sample_counter := 0; l2c_last_valid_preamble := 0; l2c_channel := 0;
    l2c_max_symbols_without_valid_frame := u32 (GPS_L2_CNAV_DATA_PAGE_BITS * GPS_L2_SYMBOLS_PER_BIT * 5); l2c_sent_tlm_failed_msg := false;
    l2c_flag_PLL_180_deg_phase_locked := false; l2c_flag_valid_word := false |}.

Definition l2c_set_satellite (satellite : Gnss_Satellite) (st : gps_l2c_decoder) : gps_l2c_decoder :=
  {| l2c_satellite := make_satellite (system satellite) (PRN satellite); l2c_cnav_decoder := l2c_cnav_decoder st; l2c_CNAV_Message := l2c_CNAV_Message st;
     l2c_TOW_at_current_symbol := l2c_TOW_at_current_symbol st; l2c_TOW_at_Preamble := l2c_TOW_at_Preamble st; l2c_sample_counter := l2c_sample_counter st;
     l2c_last_valid_preamble := l2c_last_valid_preamble st; l2c_channel := l2c_channel st; l2c_max_symbols_without_valid_frame := l2c_max_symbols_without_valid_frame st;
     l2c_sent_tlm_failed_msg := l2c_sent_tlm_failed_msg st; l2c_flag_PLL_180_deg_phase_locked := l2c_flag_PLL_180_deg_phase_locked st;
     l2c_flag_valid_word := l2c_flag_valid_word st |}.

Definition l2c_set_channel (channel : Z) (st : gps_l2c_decoder) : gps_l2c_decoder :=
  {| l2c_satellite := l2c_satellite st; l2c_cnav_decoder := l2c_cnav_decoder st; l2c_CNAV_Message := l2c_CNAV_Message st;
     l2c_TOW_at_current_symbol := l2c_TOW_at_current_symbol st; l2c_TOW_at_Preamble := l2c_TOW_at_Preamble st; l2c_sample_counter := l2c_sample_counter st;
     l2c_last_valid_preamble := l2c_last_valid_preamble st; l2c_channel := channel; l2c_max_symbols_without_valid_frame := l2c_max_symbols_without_valid_frame st;
     l2c_sent_tlm_failed_msg := l2c_sent_tlm_failed_msg st; l2c_flag_PLL_180_deg_phase_locked := l2c_flag_PLL_180_deg_phase_locked st;
     l2c_flag_valid_word := l2c_flag_valid_word st |}.

Definition l2c_reset (st : gps_l2c_decoder) : gps_l2c_decoder :=
  {| l2c_satellite := l2c_satellite st; l2c_cnav_decoder := l2c_cnav_decoder st; l2c_CNAV_Message := l2c_CNAV_Message st;
     l2c_TOW_at_current_symbol := l2c_TOW_at_current_symbol st; l2c_TOW_at_Preamble := l2c_TOW_at_Preamble st; l2c_sample_counter := l2c_sample_counter st;
     l2c_last_valid_preamble := l2c_sample_counter st; l2c_channel := l2c_channel st; l2c_max_symbols_without_valid_frame := l2c_max_symbols_without_valid_frame st;
     l2c_sent_tlm_failed_msg := false; l2c_flag_PLL_180_deg_phase_locked := l2c_flag_PLL_180_deg_phase_locked st; l2c_flag_valid_word := l2c_flag_valid_word st |}.

(** The alarm that no valid message has come for too long. *)
Definition alarm (sent : bool) (counter last max : Z) : bool := negb sent && (max <? u64 (counter - last)).

(** One of the two parts of the decoder has found an inverted preamble. *)
Definition phase_180 (d : cnav_msg_decoder_t) : bool := invert (part1 d) || invert (part2 d).

Definition l2c_general_work (st : gps_l2c_decoder) (x : cnav_synchro) : option (gps_l2c_decoder * list cnav_out * cnav_synchro) :=
  '(d, frame) ← cnav_msg_decoder_add_symbol (l2c_cnav_decoder st) (symbol_clip (Prompt_I x));
  let counter := u64 (l2c_sample_counter st + 1) in
  let a := alarm (l2c_sent_tlm_failed_msg st) counter (l2c_last_valid_preamble st) (l2c_max_symbols_without_valid_frame st) in
  let m0 := if a then [bad_telemetry] else [] in
  let sent := l2c_sent_tlm_failed_msg st || a in
  '(msgs, nav, time, preamble_time, last, pll, valid) ←
    match frame with
    | Some (msg, delay) =>
        '(m1, nav) ← process_page (raw_msg msg) (l2c_CNAV_Message st);
        let t := dbl_add (dbl_add (dbl_mul (dbl_of_Z (tow msg)) (dbl_of_Z 6)) (dbl_mul (dbl_of_Z delay) GPS_L2_M_PERIOD_S)) (dbl_mul (dbl_of_Z 12) GPS_L2_M_PERIOD_S) in
        Some (m1, nav, t, dbl_of_Z (tow msg), counter, phase_180 d, true)
    | None => Some ([], l2c_CNAV_Message st, dbl_add (l2c_TOW_at_current_symbol st) GPS_L2_M_PERIOD_S, l2c_TOW_at_Preamble st, l2c_last_valid_preamble st,
        l2c_flag_PLL_180_deg_phase_locked st, if Flag_valid_symbol_output x then l2c_flag_valid_word st else false)
    end;
  ms ← to_u32 (dbl_round (dbl_mul time (dbl_of_Z 1000)));
  Some ({| l2c_satellite := l2c_satellite st; l2c_cnav_decoder := d; l2c_CNAV_Message := nav; l2c_TOW_at_current_symbol := time; l2c_TOW_at_Preamble := preamble_time;
           l2c_sample_counter := counter; l2c_last_valid_preamble := last; l2c_channel := l2c_channel st;
           l2c_max_symbols_without_valid_frame := l2c_max_symbols_without_valid_frame st; l2c_sent_tlm_failed_msg := sent; l2c_flag_PLL_180_deg_phase_locked := pll;
           l2c_flag_valid_word := valid |}, m0 ++ msgs,
        {| Prompt_I := Prompt_I x; Prompt_Q := Prompt_Q x; Carrier_phase_rads := if pll then dbl_add (Carrier_phase_rads x) GNSS_PI else Carrier_phase_rads x;
           TOW_at_current_symbol_ms := ms; Flag_valid_symbol_output := Flag_valid_symbol_output x; Flag_valid_word := valid |}).

(** ** L5 *)

Record gps_l5_decoder := { l5_satellite : Gnss_Satellite; l5_cnav_decoder : cnav_msg_decoder_t; l5_CNAV_Message : Gps_CNAV_Navigation_Message;
  l5_sample_counter : Z; l5_last_valid_preamble : Z; l5_channel : Z; l5_TOW_at_current_symbol_ms : Z; l5_TOW_at_Preamble_ms : Z;
  l5_max_symbols_without_valid_frame : Z; l5_flag_PLL_180_deg_phase_locked : bool; l5_flag_valid_word : bool; l5_sent_tlm_failed_msg : bool }.

Definition gps_l5_decoder_init (satellite : Gnss_Satellite) : option gps_l5_decoder :=
  d ← cnav_msg_decoder_init;
  Some {| l5_satellite := make_satellite (system satellite) (PRN satellite); l5_cnav_decoder := d; l5_CNAV_Message := Gps_CNAV_Navigation_Message_init;
    l5_sample_counter := 0; l5_last_valid_preamble := 0; l5_channel := 0; l5_TOW_at_current_symbol_ms := 0; l5_TOW_at_Preamble_ms := 0;
    l5_max_symbols_without_valid_frame := u32 (GPS_L5_CNAV_DATA_PAGE_BITS * GPS_L5_SYMBOLS_PER_BIT * 10); l5_flag_PLL_180_deg_phase_locked := false;
    l5_flag_valid_word := false; l5_sent_tlm_failed_msg := false |}.

Definition l5_set_satellite (satellite : Gnss_Satellite) (st : gps_l5_decoder) : gps_l5_decoder :=
  {| l5_satellite := make_satellite (system satellite) (PRN satellite); l5_cnav_decoder := l5_cnav_decoder st; l5_CNAV_Message := Gps_CNAV_Navigation_Message_init;
     l5_sample_counter := l5_sample_counter st; l5_last_valid_preamble := l5_last_valid_preamble st; l5_channel := l5_channel st;
     l5_TOW_at_current_symbol_ms := l5_TOW_at_current_symbol_ms st; l5_TOW_at_Preamble_ms := l5_TOW_at_Preamble_ms st;
     l5_max_symbols_without_valid_frame := l5_max_symbols_without_valid_frame st; l5_flag_PLL_180_deg_phase_locked := l5_flag_PLL_180_deg_phase_locked st;
     l5_flag_valid_word := l5_flag_valid_word st; l5_sent_tlm_failed_msg := l5_sent_tlm_failed_msg st |}.

Definition l5_set_channel (channel : Z) (st : gps_l5_decoder) : gps_l5_decoder :=
  {| l5_satellite := l5_satellite st; l5_cnav_decoder := l5_cnav_decoder st; l5_CNAV_Message := Gps_CNAV_Navigation_Message_init;
     l5_sample_counter := l5_sample_counter st; l5_last_valid_preamble := l5_last_valid_preamble st; l5_channel := channel;
     l5_TOW_at_current_symbol_ms := l5_TOW_at_current_symbol_ms st; l5_TOW_at_Preamble_ms := l5_TOW_at_Preamble_ms st;
     l5_max_symbols_without_valid_frame := l5_max_symbols_without_valid_frame st; l5_flag_PLL_180_deg_phase_locked := l5_flag_PLL_180_deg_phase_locked st;
     l5_flag_valid_word := l5_flag_valid_word st; l5_sent_tlm_failed_msg := l5_sent_tlm_failed_msg st |}.

Definition l5_reset (st : gps_l5_decoder) : gps_l5_decoder :=
  {| l5_satellite := l5_satellite st; l5_cnav_decoder := l5_cnav_decoder st; l5_CNAV_Message := l5_CNAV_Message st;
     l5_sample_counter := l5_sample_counter st; l5_last_valid_preamble := l5_sample_counter st; l5_channel := l5_channel st;
     l5_TOW_at_current_symbol_ms := 0; l5_TOW_at_Preamble_ms := l5_TOW_at_Preamble_ms st;
     l5_max_symbols_without_valid_frame := l5_max_symbols_without_valid_frame st; l5_flag_PLL_180_deg_phase_locked := l5_flag_PLL_180_deg_phase_locked st;
     l5_flag_valid_word := false; l5_sent_tlm_failed_msg := false |}.

(** The time of the last symbol, in milliseconds, that a message announces. *)
Definition message_ms (msg : cnav_msg_t) (delay : Z) : Z := u32 (u32 (tow msg * 6000) + u32 (u32 (delay + 12) * GPS_L5I_SYMBOL_PERIOD_MS)).

(** The consistency check: the new time, the last valid preamble and whether the words are
    valid. *)
Definition l5_time (last new counter last_valid : Z) : Z * Z * bool :=
  if negb (last =? 0) && (GPS_L5I_SYMBOL_PERIOD_MS <? Z.abs (new - last)) then (0, last_valid, false) else (new, counter, true).

(** The result is an output only if the words are valid. *)
Definition l5_general_work (st : gps_l5_decoder) (x : cnav_synchro) : option (gps_l5_decoder * list cnav_out * option cnav_synchro) :=
  let counter := u64 (l5_sample_counter st + 1) in
  let a := alarm (l5_sent_tlm_failed_msg st) counter (l5_last_valid_preamble st) (l5_max_symbols_without_valid_frame st) in
  let m0 := if a then [bad_telemetry] else [] in
  let sent := l5_sent_tlm_failed_msg st || a in
  '(d, frame) ← cnav_msg_decoder_add_symbol (l5_cnav_decoder st) (symbol_clip (Prompt_Q x));
  '(msgs, nav, time, preamble_time, last, pll, valid) ←
    match frame with
    | Some (msg, delay) =>
        '(m1, nav) ← process_page (raw_msg msg) (l5_CNAV_Message st);
        let '(time, last, valid) := l5_time (l5_TOW_at_current_symbol_ms st) (message_ms msg delay) counter (l5_last_valid_preamble st) in
        Some (m1, nav, time, u32 (tow msg * 6000), last, phase_180 d, valid)
    | None => Some ([], l5_CNAV_Message st, if l5_flag_valid_word st then u32 (l5_TOW_at_current_symbol_ms st + GPS_L5I_SYMBOL_PERIOD_MS) else l5_TOW_at_current_symbol_ms st,
        l5_TOW_at_Preamble_ms st, l5_last_valid_preamble st, l5_flag_PLL_180_deg_phase_locked st, l5_flag_valid_word st && Flag_valid_symbol_output x)
    end;
  Some ({| l5_satellite := l5_satellite st; l5_cnav_decoder := d; l5_CNAV_Message := nav; l5_sample_counter := counter; l5_last_valid_preamble := last;
           l5_channel := l5_channel st; l5_TOW_at_current_symbol_ms := time; l5_TOW_at_Preamble_ms := preamble_time;
           l5_max_symbols_without_valid_frame := l5_max_symbols_without_valid_frame st; l5_flag_PLL_180_deg_phase_locked := pll; l5_flag_valid_word := valid;
           l5_sent_tlm_failed_msg := sent |}, m0 ++ msgs,
        if valid then
          Some {| Prompt_I := Prompt_I x; Prompt_Q := Prompt_Q x; Carrier_phase_rads := if pll then dbl_add (Carrier_phase_rads x) GNSS_PI else Carrier_phase_rads x;
                  TOW_at_current_symbol_ms := time; Flag_valid_symbol_output := Flag_valid_symbol_output x; Flag_valid_word := true |}
        else None).

(** ** Calls *)

(** What the flow graph and the channel call. *)
Inductive decoder_call :=
  | call_work (x : cnav_synchro)
  | call_set_satellite (satellite : Gnss_Satellite)
  | call_set_channel (channel : Z)
  | call_reset.

Definition l2c_call (st : gps_l2c_decoder) (c : decoder_call) : option (gps_l2c_decoder * list cnav_out * list cnav_synchro) :=
  match c with
  | call_work x => '(st1, m, o) ← l2c_general_work st x; Some (st1, m, [o])
  | call_set_satellite satellite => Some (l2c_set_satellite satellite st, [], [])
  | call_set_channel channel => Some (l2c_set_channel channel st, [], [])
  | call_reset => Some (l2c_reset st, [], [])
  end.

Definition l5_call (st : gps_l5_decoder) (c : decoder_call) : option (gps_l5_decoder * list cnav_out * list cnav_synchro) :=
  match c with
  | call_work x => '(st1, m, o) ← l5_general_work st x; Some (st1, m, option_list o)
  | call_set_satellite satellite => Some (l5_set_satellite satellite st, [], [])
  | call_set_channel channel => Some (l5_set_channel channel st, [], [])
  | call_reset => Some (l5_reset st, [], [])
  end.

Fixpoint run_calls {St} (step : St -> decoder_call -> option (St * list cnav_out * list cnav_synchro)) (st : St) (calls : list decoder_call)
  : option (St * list cnav_out * list cnav_synchro) :=
  match calls with
  | [] => Some (st, [], [])
  | c :: rest => '(st1, m1, o1) ← step st c; '(st2, m2, o2) ← run_calls step st1 rest; Some (st2, m1 ++ m2, o1 ++ o2)
  end.
