(* ===== verification/CnavPages.v ===== *)
(** * GPS CNAV: the content of a message

    A message is a list [m] of 300 bits, the first bit first. [decode_page] is total, reads the
    fields at the positions of [GPS_CNAV.h] and stores the transmitted integers times their
    scales; [process_page] publishes what is complete. *)
From stdpp Require Import strings.
From S2P Require Import Prelude Doubles NavBits Bits CnavMsg CnavNav CnavTlm.
From Stdlib Require Import SpecFloat.

#[local] Open Scope Z_scope.

Definition pu (m : list bool) (p : slices) : Z := bits_val (field m p).
Definition ps (m : list bool) (p : slices) : Z := signed_val (field m p).
Definition pb (m : list bool) (p : slices) : bool := match p with (first, _) :: _ => m !!! Z.to_nat (first - 1) | [] => false end.

(** A field of at most 31 bits whose value times [LSB] is an [int32_t]. *)
Definition time_field (p : slices) (LSB : Z) : bool := field_ok 300 31 p && (0 <=? LSB) && (2 ^ slices_width p * LSB <? 2 ^ 31).

Section Reads.
Context (m : list bool) (Hm : length m = 300%nat).

Lemma field_ok_wider w w' p : field_ok 300 w p = true -> w <= w' -> field_ok 300 w' p = true.
Proof. unfold field_ok. intros [[Hi Hw%Z.leb_le]%andb_true_iff Hn]%andb_true_iff Hle. by rewrite Hi, Hn, (proj2 (Z.leb_le _ _)) by lia. Qed.

Lemma pu_range p : field_ok 300 64 p = true -> 0 <= pu m p < 2 ^ slices_width p.
Proof.
  intros [[Hi _]%andb_true_iff _]%andb_true_iff. pose proof (bits_val_range (field m p)) as Hr. rewrite (field_length 300) in Hr by (done || lia). exact Hr.
Qed.

Lemma ps_range p : field_ok 300 64 p = true -> - 2 ^ (slices_width p - 1) <= ps m p < 2 ^ (slices_width p - 1).
Proof.
  unfold field_ok. intros Hp. pose proof Hp as [[Hi _]%andb_true_iff Hn]%andb_true_iff. unfold ps. pose proof (field_length 300 m p ltac:(lia) Hi) as Hl.
  rewrite <- Hl. apply signed_val_range. intros E. rewrite E in Hl. destruct p as [|[first n] p]; [done|]. cbn [slices_in forallb] in Hi.
  apply andb_true_iff in Hi as [[[_ H1%Z.leb_le]%andb_true_iff _]%andb_true_iff H2]. change (slices_width ((first, n) :: p)) with (n + slices_width p) in Hl.
  cbn [snd length] in H1, Hl. assert (0 <= slices_width p) by (rewrite <- (field_length 300 m p ltac:(lia) H2); lia). lia.
Qed.

Lemma page_uint_spec p : field_ok 300 31 p = true -> page_uint (reverse m) p = Some (pu m p).
Proof.
  intros Hp. pose proof (pu_range p (field_ok_wider 31 64 p Hp ltac:(lia))) as Hr. pose proof Hp as [[_ Hw%Z.leb_le]%andb_true_iff _]%andb_true_iff.
  unfold page_uint, GPS_CNAV.GPS_CNAV_DATA_PAGE_BITS. rewrite read_unsigned_field by (lia || by apply (field_ok_wider 31)). cbn [fmap option_fmap option_map].
  fold (pu m p). pose proof (Z.pow_le_mono_r 2 (slices_width p) 31 ltac:(lia) Hw). by rewrite swrap_small by lia.
Qed.

Lemma page_sint_spec p : field_ok 300 31 p = true -> page_sint (reverse m) p = Some (ps m p).
Proof.
  intros Hp. pose proof (ps_range p (field_ok_wider 31 64 p Hp ltac:(lia))) as Hr. pose proof Hp as [[_ Hw%Z.leb_le]%andb_true_iff _]%andb_true_iff.
  unfold page_sint, GPS_CNAV.GPS_CNAV_DATA_PAGE_BITS. rewrite read_signed_field by (lia || by apply (field_ok_wider 31)). cbn [fmap option_fmap option_map].
  fold (ps m p). pose proof (Z.pow_le_mono_r 2 (slices_width p - 1) 31 ltac:(lia) ltac:(lia)). by rewrite swrap_small by lia.
Qed.

Lemma page_utime_spec p LSB : time_field p LSB = true -> page_utime (reverse m) p LSB = Some (pu m p * LSB).
Proof.
  intros [[Hp Hl%Z.leb_le]%andb_true_iff Hb%Z.ltb_lt]%andb_true_iff. pose proof (pu_range p (field_ok_wider 31 64 p Hp ltac:(lia))). unfold page_utime.
  rewrite page_uint_spec by done. cbn [mbind option_bind]. unfold chk_i32. by rewrite decide_True by nia.
Qed.

Lemma page_stime_spec p LSB : time_field p LSB = true -> page_stime (reverse m) p LSB = Some (ps m p * LSB).
Proof.
  intros [[Hp Hl%Z.leb_le]%andb_true_iff Hb%Z.ltb_lt]%andb_true_iff. pose proof (ps_range p (field_ok_wider 31 64 p Hp ltac:(lia))). unfold page_stime.
  pose proof (Z.pow_le_mono_r 2 (slices_width p - 1) (slices_width p) ltac:(lia) ltac:(lia)). rewrite page_sint_spec by done. cbn [mbind option_bind]. unfold chk_i32.
  by rewrite decide_True by nia.
Qed.

Lemma page_udbl_spec p : field_ok 300 64 p = true -> page_udbl (reverse m) p = Some (dbl_of_Z (pu m p)).
Proof. intros Hp. unfold page_udbl, GPS_CNAV.GPS_CNAV_DATA_PAGE_BITS. by rewrite read_unsigned_field by (done || lia). Qed.

Lemma page_sdbl_spec p : field_ok 300 62 p = true -> page_sdbl (reverse m) p = Some (dbl_of_Z (ps m p)).
Proof. intros Hp. unfold page_sdbl, GPS_CNAV.GPS_CNAV_DATA_PAGE_BITS. by rewrite read_signed_field by (done || lia). Qed.

Lemma page_sscaled_spec p LSB : field_ok 300 62 p = true -> page_sscaled (reverse m) p LSB = Some (dbl_mul (dbl_of_Z (ps m p)) LSB).
Proof. intros Hp. unfold page_sscaled. by rewrite page_sdbl_spec. Qed.

Lemma page_bool_spec p : match p with (first, _) :: _ => (1 <=? first) && (first <=? 300) | [] => false end = true -> page_bool (reverse m) p = Some (pb m p).
Proof.
  destruct p as [|[first n] p]; [done|]. intros [H1%Z.leb_le H2%Z.leb_le]%andb_true_iff. unfold page_bool, GPS_CNAV.GPS_CNAV_DATA_PAGE_BITS.
  rewrite read_bool_field by lia. cbn [pb]. apply list_lookup_lookup_total_lt. lia.
Qed.

(** A group delay, zero if it is not available (IS-GPS-200, table 30-IV). *)
Definition delay_of (p : slices) (LSB : double) : double := dbl_mul (if ps m p =? -4096 then dbl_zero else dbl_of_Z (ps m p)) LSB.

Lemma not_available z : -4096 <= z < 4096 -> SFltb (dbl_of_Z z) (dbl_opp (lit 40959 1)) = (z =? -4096).
Proof.
  intros Hz. destruct (Z.eqb_spec z (-4096)) as [->|Hn]; [reflexivity|]. destruct (decide (z = 0)) as [->|Hz0]; [reflexivity|].
  replace (dbl_opp (lit 40959 1)) with (S754_finite true 9006979352415437 (-41)) by reflexivity.
  destruct (dbl_of_Z_shape z Hz0 ltac:(lia)) as (k & e & -> & He & Hk & Hv). unfold SFltb, SFcompare. destruct (Z.ltb_spec z 0) as [Hneg|]; [|done]. cbn [cond_Zopp] in Hv.
  assert (Z.pos k = - z * 2 ^ (- e)) as Hv' by lia. destruct (Z.compare_spec e (-41)) as [->|Hlt|Hgt]; [|done|].
  - assert (forall a b, Pos.compare_cont Eq a b = Pos.compare a b) as Hc by done. rewrite Hc. destruct (Pos.compare_spec k 9006979352415437); [done|done|exfalso; lia].
  - exfalso. pose proof (Z.pow_le_mono_r 2 (- e) 40 ltac:(lia) ltac:(lia)). pose proof (Z.pow_pos_nonneg 2 (- e) ltac:(lia) ltac:(lia)). nia.
Qed.

Lemma group_delay_spec p LSB : field_ok 300 62 p && (slices_width p =? 13) = true -> group_delay (reverse m) p LSB = Some (delay_of p LSB).
Proof.
  intros [Hp Hw%Z.eqb_eq]%andb_true_iff. unfold group_delay, delay_of. rewrite page_sdbl_spec by done. cbn [mbind option_bind].
  pose proof (ps_range p (field_ok_wider 62 64 p Hp ltac:(lia))) as Hr. rewrite Hw in Hr. by rewrite not_available by (change (2 ^ (13 - 1)) with 4096 in Hr; lia).
Qed.
End Reads.

(** [page_reads Hm] evaluates the readers of fields of the message in [Hm]. *)
Ltac page_reads Hm := repeat first
  [ rewrite (page_utime_spec _ Hm) by done | rewrite (page_stime_spec _ Hm) by done | rewrite (page_uint_spec _ Hm) by done | rewrite (page_sscaled_spec _ Hm) by done
  | rewrite (page_sdbl_spec _ Hm) by done | rewrite (page_udbl_spec _ Hm) by done | rewrite (page_bool_spec _ Hm) by done | rewrite (group_delay_spec _ Hm) by done ];
  cbn [mbind option_bind].

(** ** The values of a message *)

Section Values.
Import GPS_CNAV Gps_CNAV_Ephemeris.
Context (m : list bool).

Definition sc (p : slices) (LSB : double) : double := dbl_mul (dbl_of_Z (ps m p)) LSB.

Definition common_of : common_data := {| PRN := pu m CNAV_PRN; tow := pu m CNAV_TOW * 6; alert_flag := pb m CNAV_ALERT_FLAG |}.
Definition page10_of : page10_data :=
  {| WN := pu m CNAV_WN; signal_health := pu m CNAV_HEALTH; toe1 := pu m CNAV_TOE1 * 300; delta_A := sc CNAV_DELTA_A TWO_N9; Adot := sc CNAV_A_DOT TWO_N21;
     sqrtA := dbl_sqrt (dbl_add (lit 26559710 0) (sc CNAV_DELTA_A TWO_N9)); delta_n := sc CNAV_DELTA_N0 (dbl_mul TWO_N44 GNSS_PI);
     delta_ndot := sc CNAV_DELTA_N0_DOT (dbl_mul TWO_N57 GNSS_PI); M_0 := sc CNAV_M0 (dbl_mul TWO_N32 GNSS_PI);
     ecc := dbl_mul (dbl_of_Z (pu m CNAV_E_ECCENTRICITY)) TWO_N34; omega := sc CNAV_OMEGA (dbl_mul TWO_N32 GNSS_PI); integrity_status_flag := pb m CNAV_INTEGRITY_FLAG;
     l2c_phasing_flag := pb m CNAV_L2_PHASING_FLAG |}.
Definition page11_of : page11_data :=
  {| toe2 := pu m CNAV_TOE2 * 300; OMEGA_0 := sc CNAV_OMEGA0 (dbl_mul TWO_N32 GNSS_PI); delta_OMEGAdot := sc CNAV_DELTA_OMEGA_DOT (dbl_mul TWO_N44 GNSS_PI);
     OMEGAdot := dbl_add (dbl_mul (dbl_opp (lit 26 10)) GNSS_PI) (sc CNAV_DELTA_OMEGA_DOT (dbl_mul TWO_N44 GNSS_PI)); i_0 := sc CNAV_I0 (dbl_mul TWO_N32 GNSS_PI);
     idot := sc CNAV_I0_DOT (dbl_mul TWO_N44 GNSS_PI); Cis := sc CNAV_CIS TWO_N30; Cic := sc CNAV_CIC TWO_N30; Crs := sc CNAV_CRS TWO_N8; Crc := sc CNAV_CRC TWO_N8;
     Cus := sc CNAV_CUS TWO_N30; Cuc := sc CNAV_CUC TWO_N30 |}.
Definition clock_of : clock_data :=
  {| toc := pu m CNAV_TOC * 300; af0 := sc CNAV_AF0 TWO_N35; af1 := sc CNAV_AF1 TWO_N48; af2 := sc CNAV_AF2 TWO_N60 |}.
Definition delays_of : delay_data :=
  {| URA1 := dbl_of_Z (pu m CNAV_URA_NED1); URA2 := dbl_of_Z (pu m CNAV_URA_NED2); TGD := delay_of m CNAV_TGD TWO_N35; ISCL1 := delay_of m CNAV_ISCL1 TWO_N35;
     ISCL2 := delay_of m CNAV_ISCL2 TWO_N35; ISCL5I := delay_of m CNAV_ISCL5I TWO_N35; ISCL5Q := delay_of m CNAV_ISCL5Q TWO_N35 |}.
Definition iono_of : Gps_CNAV_Iono.cnav_iono :=
  {| Gps_CNAV_Iono.alpha0 := sc CNAV_ALPHA0 TWO_N30; Gps_CNAV_Iono.alpha1 := sc CNAV_ALPHA1 TWO_N27; Gps_CNAV_Iono.alpha2 := sc CNAV_ALPHA2 TWO_N24;
     Gps_CNAV_Iono.alpha3 := sc CNAV_ALPHA3 TWO_N24; Gps_CNAV_Iono.beta0 := sc CNAV_BETA0 TWO_P11; Gps_CNAV_Iono.beta1 := sc CNAV_BETA1 TWO_P14;
     Gps_CNAV_Iono.beta2 := sc CNAV_BETA2 TWO_P16; Gps_CNAV_Iono.beta3 := sc CNAV_BETA3 TWO_P16 |}.
Definition utc_of (v : bool) : Gps_CNAV_Utc_Model.cnav_utc :=
  {| Gps_CNAV_Utc_Model.A0 := sc CNAV_A0 TWO_N35; Gps_CNAV_Utc_Model.A1 := sc CNAV_A1 TWO_N51; Gps_CNAV_Utc_Model.A2 := sc CNAV_A2 TWO_N68;
     Gps_CNAV_Utc_Model.DeltaT_LS := ps m CNAV_DELTA_TLS; Gps_CNAV_Utc_Model.tot := ps m CNAV_TOT * 16; Gps_CNAV_Utc_Model.WN_T := ps m CNAV_WN_OT;
     Gps_CNAV_Utc_Model.WN_LSF := ps m CNAV_WN_LSF; Gps_CNAV_Utc_Model.DN := ps m CNAV_DN; Gps_CNAV_Utc_Model.DeltaT_LSF := ps m CNAV_DELTA_TLSF;
     Gps_CNAV_Utc_Model.valid := v |}.

(** What a message changes: its type says which part of the record, and which flag. *)
Definition message_type : Z := pu m CNAV_MSG_TYPE.

Definition apply_page (n : Gps_CNAV_Navigation_Message) : Gps_CNAV_Navigation_Message :=
  let e := ephemeris_record n in let t := message_type in
  {| ephemeris_record :=
       {| common := common_of; page10 := if t =? 10 then page10_of else page10 e; page11 := if t =? 11 then page11_of else page11 e;
          clock := if (t =? 30) || (t =? 33) then clock_of else clock e; delay := if t =? 30 then delays_of else delay e;
          URA0 := if t =? 10 then dbl_of_Z (ps m CNAV_URA) else if t =? 30 then dbl_of_Z (ps m CNAV_URA_NED0) else URA0 e;
          top := if (t =? 10) || (t =? 33) then pu m CNAV_TOP1 * 300 else top e |};
     iono_record := if t =? 30 then iono_of else iono_record n;
     utc_model_record := if t =? 33 then utc_of (Gps_CNAV_Utc_Model.valid (utc_model_record n)) else utc_model_record n; cnav_TOW := pu m CNAV_TOW * 6;
     b_flag_ephemeris_1 := (t =? 10) || b_flag_ephemeris_1 n; b_flag_ephemeris_2 := (t =? 11) || b_flag_ephemeris_2 n;
     b_flag_iono_valid := (t =? 30) || b_flag_iono_valid n; b_flag_utc_valid := (t =? 33) || b_flag_utc_valid n |}.

Context (Hm : length m = 300%nat).

Lemma read_page10_of : read_page10 (reverse m) = Some (page10_of, dbl_of_Z (ps m CNAV_URA), pu m CNAV_TOP1 * 300).
Proof. unfold read_page10. page_reads Hm. reflexivity. Qed.
Lemma read_page11_of : read_page11 (reverse m) = Some page11_of.
Proof. unfold read_page11. page_reads Hm. reflexivity. Qed.
Lemma read_clock_of : read_clock (reverse m) = Some clock_of.
Proof. unfold read_clock. page_reads Hm. reflexivity. Qed.
Lemma read_delays_of : read_delays (reverse m) = Some (dbl_of_Z (ps m CNAV_URA_NED0), delays_of).
Proof. unfold read_delays. page_reads Hm. reflexivity. Qed.
Lemma read_page_iono_of : read_page_iono (reverse m) = Some iono_of.
Proof. unfold read_page_iono. page_reads Hm. reflexivity. Qed.
Lemma read_page_utc_of v : read_page_utc (reverse m) v = Some (utc_of v).
Proof. unfold read_page_utc. page_reads Hm. unfold utc_of. by rewrite !Z.mul_1_r. Qed.

(** The [switch] on the message type. *)
Lemma type_switch {A} (t : Z) (a b c d e : A) :
  match t with 10 => a | 11 => b | 30 => c | 33 => d | _ => e end = if t =? 10 then a else if t =? 11 then b else if t =? 30 then c else if t =? 33 then d else e.
Proof. destruct t as [|t|t]; [done| |done]. do 6 (destruct t as [t|t|]; try done). Qed.

(** Decoding is total, and does what [apply_page] says. *)
Lemma decode_page_of n : decode_page (reverse m) n = Some (apply_page n).
Proof.
  pose proof (pu_range m Hm CNAV_PRN eq_refl) as Hp. change (2 ^ slices_width CNAV_PRN) with 64 in Hp.
  unfold decode_page. page_reads Hm. rewrite type_switch. unfold apply_page, message_type, common_of. rewrite uwrap_small by lia.
  destruct (Z.eqb_spec (pu m CNAV_MSG_TYPE) 10) as [->|N10]; [by rewrite read_page10_of|].
  destruct (Z.eqb_spec (pu m CNAV_MSG_TYPE) 11) as [->|N11]; [by rewrite read_page11_of|].
  destruct (Z.eqb_spec (pu m CNAV_MSG_TYPE) 30) as [->|N30]; [by rewrite read_clock_of, read_delays_of, read_page_iono_of|].
  destruct (Z.eqb_spec (pu m CNAV_MSG_TYPE) 33) as [_|N33]; [|done]. rewrite read_clock_of. cbn [mbind option_bind]. by rewrite read_page_utc_of.
Qed.
End Values.

(** ** From the decoder to the port *)

(** The bits of a message in the order of the bit set. *)
Lemma expand_page_spec raw m : length m = 300%nat -> take 300 (bitlist raw) = m -> expand_page raw = Some (reverse m).
Proof.
  intros Hl Hm. assert (300 <= 8 * Z.of_nat (length raw)) as Hr.
  { rewrite <- Hm, length_take, length_bitlist in Hl. lia. }
  unfold expand_page. edestruct (for_loop_inv (fun i b => length b = 300%nat /\ forall k, (k < Z.to_nat i)%nat -> b !! (299 - k)%nat = m !! k) 300 0) as (b & -> & Hb & Hk).
  - split; [done|]. intros k Hk. lia.
  - intros i b Hi [Hb Hk]. destruct (rd_bitlist raw i ltac:(lia)) as (c & -> & _ & Hc). cbn [mbind option_bind].
    unfold wr, GPS_L2_CNAV_DATA_PAGE_BITS. rewrite decide_True by lia. eexists. split; [done|]. split; [by rewrite length_insert|].
    intros k Hlt. destruct (decide (k = Z.to_nat i)) as [->|].
    + replace (Z.to_nat (300 - 1 - i)) with (299 - Z.to_nat i)%nat by lia. rewrite list_lookup_insert_eq by lia. rewrite <- Hm, lookup_take_lt, Hc by lia.
      f_equal. rewrite <- Z.bit0_odd, Z.land_spec, Z.shiftr_spec by lia. by rewrite andb_true_r.
    + rewrite list_lookup_insert_ne by lia. apply Hk. lia.
  - f_equal. apply list_eq. intros i. destruct (decide (i < 300)%nat).
    + rewrite reverse_lookup by lia. rewrite Hl. replace i with (299 - (299 - i))%nat at 1 by lia. rewrite Hk by lia. f_equal.
    + rewrite !lookup_ge_None_2; [done|rewrite length_reverse; lia|lia].
Qed.

(** What the block publishes of a decoded message, and the message after that. *)
Definition new_ephemeris (n : Gps_CNAV_Navigation_Message) : bool :=
  b_flag_ephemeris_1 n && b_flag_ephemeris_2 n && (Gps_CNAV_Ephemeris.toe1 (Gps_CNAV_Ephemeris.page10 (ephemeris_record n)) =? Gps_CNAV_Ephemeris.toe2 (Gps_CNAV_Ephemeris.page11 (ephemeris_record n))).

Definition utc_valid (u : Gps_CNAV_Utc_Model.cnav_utc) : Gps_CNAV_Utc_Model.cnav_utc :=
  {| Gps_CNAV_Utc_Model.A0 := Gps_CNAV_Utc_Model.A0 u; Gps_CNAV_Utc_Model.A1 := Gps_CNAV_Utc_Model.A1 u; Gps_CNAV_Utc_Model.A2 := Gps_CNAV_Utc_Model.A2 u;
     Gps_CNAV_Utc_Model.DeltaT_LS := Gps_CNAV_Utc_Model.DeltaT_LS u; Gps_CNAV_Utc_Model.tot := Gps_CNAV_Utc_Model.tot u; Gps_CNAV_Utc_Model.WN_T := Gps_CNAV_Utc_Model.WN_T u;
     Gps_CNAV_Utc_Model.WN_LSF := Gps_CNAV_Utc_Model.WN_LSF u; Gps_CNAV_Utc_Model.DN := Gps_CNAV_Utc_Model.DN u; Gps_CNAV_Utc_Model.DeltaT_LSF := Gps_CNAV_Utc_Model.DeltaT_LSF u;
     Gps_CNAV_Utc_Model.valid := true |}.

Definition publications (n : Gps_CNAV_Navigation_Message) : list cnav_out :=
  (if new_ephemeris n then [pub_cnav_ephemeris (ephemeris_record n)] else []) ++ (if b_flag_iono_valid n then [pub_cnav_iono (iono_record n)] else []) ++
  (if b_flag_utc_valid n then [pub_cnav_utc (utc_valid (utc_model_record n))] else []).

Definition after_publication (n : Gps_CNAV_Navigation_Message) : Gps_CNAV_Navigation_Message :=
  {| ephemeris_record := ephemeris_record n; iono_record := iono_record n;
     utc_model_record := if b_flag_utc_valid n then utc_valid (utc_model_record n) else utc_model_record n; cnav_TOW := cnav_TOW n;
     b_flag_ephemeris_1 := b_flag_ephemeris_1 n && negb (new_ephemeris n); b_flag_ephemeris_2 := b_flag_ephemeris_2 n && negb (new_ephemeris n);
     b_flag_iono_valid := false; b_flag_utc_valid := false |}.

Lemma process_page_of raw m n : length m = 300%nat -> take 300 (bitlist raw) = m ->
  process_page raw n = Some (publications (apply_page m n), after_publication (apply_page m n)).
Proof.
  intros Hl Hr. unfold process_page. rewrite (expand_page_spec raw m Hl Hr). cbn [mbind option_bind]. rewrite (decode_page_of m Hl). cbn [mbind option_bind].
  generalize (apply_page m n). clear n. intros [e i u t f1 f2 fi fu]. unfold publications, after_publication, new_ephemeris, cnav_have_new_ephemeris.
  cbn [ephemeris_record b_flag_ephemeris_1 b_flag_ephemeris_2 b_flag_iono_valid b_flag_utc_valid iono_record utc_model_record cnav_TOW].
  destruct f1, f2, fi, fu; cbn; try done; destruct (_ =? _); done.
Qed.
