(* ===== verification/CnavTlmProps.v ===== *)
(** * GPS L2C and L5 telemetry decoders: properties

    Everything the blocks publish is the content of messages with a valid CRC, whatever
    symbols they receive; an ephemeris consists of a message of type 10 and one of type 11 with
    the same reference time; a message whose time does not fit the running time costs the L5
    block one message of outputs. *)
From stdpp Require Import strings.
From S2P Require Import Prelude Doubles DoublesErr DoublesInt Clock NavBits Bits Edc Viterbi27 CnavMsg CnavNav GnssSignal Rtcm CnavTlm CnavPages.
From Stdlib Require Import SpecFloat.
Import Gps_CNAV_Ephemeris.

#[local] Open Scope Z_scope.

(** ** What a sequence of messages publishes *)

(** 300 bits with the right CRC. *)
Definition valid_msg (m : list bool) : Prop := length m = 300%nat /\ crc_bits 0 m = 0.

(** The 300 bits in a buffer. *)
Definition message_of (raw : list Z) : list bool := take 300 (bitlist raw).

(** The specification: a machine that takes messages ([Some]) one after the other, and starts
    anew where the block does ([None]). *)
Fixpoint message_machine (n : Gps_CNAV_Navigation_Message) (trace : list (option (list bool))) : list cnav_out :=
  match trace with
  | [] => []
  | Some m :: rest => publications (apply_page m n) ++ message_machine (after_publication (apply_page m n)) rest
  | None :: rest => message_machine Gps_CNAV_Navigation_Message_init rest
  end.

(** The messages that the CNAV decoder delivers for the calls on a block: [symbol] is the
    component of the signal that the block takes, [renew] whether a change of satellite or
    channel starts anew. *)
Section Trace.
Context (symbol : cnav_synchro -> double) (renew : bool).

Fixpoint received (d : cnav_msg_decoder_t) (calls : list decoder_call) : option (list (option (list bool))) :=
  match calls with
  | [] => Some []
  | call_work x :: rest =>
      '(d1, frame) ← cnav_msg_decoder_add_symbol d (symbol_clip (symbol x));
      t ← received d1 rest;
      Some (match frame with Some (msg, _) => Some (message_of (raw_msg msg)) :: t | None => t end)
  | call_set_satellite _ :: rest | call_set_channel _ :: rest => t ← received d rest; Some (if renew then None :: t else t)
  | call_reset :: rest => received d rest
  end.
End Trace.

Definition is_publication (o : cnav_out) : bool := match o with bad_telemetry => false | _ => true end.

(** ** Where the data come from *)

Section From.
Context (M : list (list bool)).

Definition clock_from (c : clock_data) : Prop :=
  c = clock (ephemeris_record Gps_CNAV_Navigation_Message_init) \/ exists m, m ∈ M /\ (message_type m = 30 \/ message_type m = 33) /\ c = clock_of m.

(** The content of messages of [M]. *)
Definition published_from (o : cnav_out) : Prop :=
  match o with
  | pub_cnav_ephemeris e => exists m10 m11, m10 ∈ M /\ m11 ∈ M /\ message_type m10 = 10 /\ message_type m11 = 11 /\
      pu m10 GPS_CNAV.CNAV_TOE1 = pu m11 GPS_CNAV.CNAV_TOE2 /\ page10 e = page10_of m10 /\ page11 e = page11_of m11 /\
      (common e = common_of m10 \/ common e = common_of m11) /\ clock_from (clock e)
  | pub_cnav_iono i => exists m, m ∈ M /\ message_type m = 30 /\ i = iono_of m
  | pub_cnav_utc u => exists m, m ∈ M /\ message_type m = 33 /\ u = utc_of m true
  | bad_telemetry => True
  end.

(** Between two messages: what is flagged came in a message of [M], and nothing waits to be
    published. *)
Record nav_ok (n : Gps_CNAV_Navigation_Message) : Prop := {
  no_1 : b_flag_ephemeris_1 n = true -> exists m, m ∈ M /\ message_type m = 10 /\ page10 (ephemeris_record n) = page10_of m;
  no_2 : b_flag_ephemeris_2 n = true -> exists m, m ∈ M /\ message_type m = 11 /\ page11 (ephemeris_record n) = page11_of m;
  no_clock : clock_from (clock (ephemeris_record n));
  no_eph : new_ephemeris n = false;
  no_iono : b_flag_iono_valid n = false;
  no_utc : b_flag_utc_valid n = false }.

Lemma nav_ok_init : nav_ok Gps_CNAV_Navigation_Message_init.
Proof. split; try done. by left. Qed.

Lemma apply_flag_1 m n : nav_ok n -> m ∈ M -> b_flag_ephemeris_1 (apply_page m n) = true ->
  exists m', m' ∈ M /\ message_type m' = 10 /\ page10 (ephemeris_record (apply_page m n)) = page10_of m' /\ (message_type m = 10 -> m' = m).
Proof.
  intros Hn Hm. cbn [apply_page b_flag_ephemeris_1 ephemeris_record page10]. destruct (Z.eqb_spec (message_type m) 10) as [E|E]; cbn [orb]; [by exists m|].
  intros H. destruct (no_1 n Hn H) as (m' & ? & ? & ?). by exists m'.
Qed.

Lemma apply_flag_2 m n : nav_ok n -> m ∈ M -> b_flag_ephemeris_2 (apply_page m n) = true ->
  exists m', m' ∈ M /\ message_type m' = 11 /\ page11 (ephemeris_record (apply_page m n)) = page11_of m' /\ (message_type m = 11 -> m' = m).
Proof.
  intros Hn Hm. cbn [apply_page b_flag_ephemeris_2 ephemeris_record page11]. destruct (Z.eqb_spec (message_type m) 11) as [E|E]; cbn [orb]; [by exists m|].
  intros H. destruct (no_2 n Hn H) as (m' & ? & ? & ?). by exists m'.
Qed.

(** Only a message of type 10 or 11 completes an ephemeris. *)
Lemma completed_by m n : new_ephemeris n = false -> new_ephemeris (apply_page m n) = true -> message_type m = 10 \/ message_type m = 11.
Proof.
  unfold new_ephemeris. cbn [apply_page b_flag_ephemeris_1 b_flag_ephemeris_2 ephemeris_record page10 page11].
  destruct (Z.eqb_spec (message_type m) 10); [by left|]. destruct (Z.eqb_spec (message_type m) 11); [by right|]. cbn [orb]. congruence.
Qed.

Lemma clock_from_apply m n : nav_ok n -> m ∈ M -> clock_from (clock (ephemeris_record (apply_page m n))).
Proof.
  intros Hn Hm. cbn [apply_page ephemeris_record clock]. destruct (_ || _) eqn:E; [|exact (no_clock n Hn)]. right. exists m. split; [done|]. split; [|done].
  apply orb_true_iff in E as [E%Z.eqb_eq|E%Z.eqb_eq]; auto.
Qed.

Lemma after_publication_ok m n : nav_ok n -> m ∈ M -> nav_ok (after_publication (apply_page m n)).
Proof.
  intros Hn Hm. pose proof (clock_from_apply m n Hn Hm) as Hc.
  split; cbn [after_publication b_flag_ephemeris_1 b_flag_ephemeris_2 ephemeris_record b_flag_iono_valid b_flag_utc_valid]; try done.
  - intros [H _]%andb_true_iff. destruct (apply_flag_1 m n Hn Hm H) as (m' & ? & ? & ? & _). by exists m'.
  - intros [H _]%andb_true_iff. destruct (apply_flag_2 m n Hn Hm H) as (m' & ? & ? & ? & _). by exists m'.
  - unfold new_ephemeris at 1. cbn [after_publication b_flag_ephemeris_1 b_flag_ephemeris_2 ephemeris_record].
    destruct (new_ephemeris (apply_page m n)) eqn:E; cbn [negb]; [by rewrite !andb_false_r|]. rewrite !andb_true_r. exact E.
Qed.

Lemma publications_from m n : nav_ok n -> m ∈ M -> Forall published_from (publications (apply_page m n)).
Proof.
  intros Hn Hm. pose proof (clock_from_apply m n Hn Hm) as Hc. unfold publications. apply Forall_app. split; [|apply Forall_app; split].
  - destruct (new_ephemeris (apply_page m n)) eqn:E; [|constructor]. constructor; [|constructor]. cbn [published_from].
    pose proof (completed_by m n (no_eph n Hn) E) as Ht. unfold new_ephemeris in E. apply andb_true_iff in E as [[E1 E2]%andb_true_iff E3%Z.eqb_eq].
    destruct (apply_flag_1 m n Hn Hm E1) as (m10 & V10 & T10 & P10 & S10). destruct (apply_flag_2 m n Hn Hm E2) as (m11 & V11 & T11 & P11 & S11).
    exists m10, m11. rewrite P10, P11 in E3. cbn [page10_of page11_of toe1 toe2] in E3. split_and!; try done; [lia|].
    cbn [apply_page ephemeris_record common]. destruct Ht as [Ht|Ht]; [left; by rewrite (S10 Ht)|right; by rewrite (S11 Ht)].
  - cbn [apply_page b_flag_iono_valid iono_record]. rewrite (no_iono n Hn), orb_false_r. destruct (Z.eqb_spec (message_type m) 30); [|constructor].
    constructor; [|constructor]. by exists m.
  - cbn [apply_page b_flag_utc_valid utc_model_record]. rewrite (no_utc n Hn), orb_false_r. destruct (Z.eqb_spec (message_type m) 33); [|constructor].
    constructor; [|constructor]. by exists m.
Qed.

(** Everything the machine publishes is the content of its messages. *)
Lemma machine_from trace : forall n, nav_ok n -> (forall m, Some m ∈ trace -> m ∈ M) -> Forall published_from (message_machine n trace).
Proof.
  induction trace as [|[m|] trace IH]; intros n Hn Ht; cbn [message_machine]; [constructor| |].
  - assert (m ∈ M) as Hm by (apply Ht; left). apply Forall_app. split; [by apply publications_from|]. apply IH; [by apply after_publication_ok|]. intros m' H. apply Ht. by right.
  - apply IH; [apply nav_ok_init|]. intros m' H. apply Ht. by right.
Qed.
End From.

(** What a block publishes follows from the messages it received. *)
Definition publishes_received (trace : list (option (list bool))) (msgs : list cnav_out) : Prop :=
  (forall m, Some m ∈ trace -> valid_msg m) /\
  filter (fun o => is_publication o = true) msgs = message_machine Gps_CNAV_Navigation_Message_init trace /\
  Forall (published_from (omap id trace)) msgs.

Lemma machine_publishes trace msgs : (forall m, Some m ∈ trace -> valid_msg m) ->
  filter (fun o => is_publication o = true) msgs = message_machine Gps_CNAV_Navigation_Message_init trace -> publishes_received trace msgs.
Proof.
  intros Hv Hm. split; [done|]. split; [done|]. pose proof (machine_from (omap id trace) trace _ (nav_ok_init _)) as Hf.
  rewrite <- Hm in Hf. apply Forall_forall. intros o Ho. destruct (is_publication o) eqn:E; [|by destruct o].
  refine (proj1 (Forall_forall _ _) (Hf _) o _); [|by apply list_elem_of_In, list_elem_of_filter; split; [|apply list_elem_of_In]]. intros m Hm'. apply list_elem_of_omap. by exists (Some m).
Qed.

(** ** One symbol *)

Lemma symbol_clip_byte p : is_byte (symbol_clip p).
Proof. unfold symbol_clip, is_byte. destruct (gt0 p); lia. Qed.

(** What the decoder returns is a valid message, and the navigation message takes it. *)
Lemma frame_ok d n s : decoder_ok d -> is_byte s ->
  exists d' res, cnav_msg_decoder_add_symbol d s = Some (d', res) /\ decoder_ok d' /\
    match res with
    | Some (msg, delay) => let m := message_of (raw_msg msg) in valid_msg m /\
        process_page (raw_msg msg) n = Some (publications (apply_page m n), after_publication (apply_page m n)) /\ 0 <= CnavMsg.tow msg < 2 ^ 17 /\ 0 <= delay < 256
    | None => True
    end.
Proof.
  intros Hd Hs. destruct (add_symbol_ok d s Hd Hs) as (d' & res & Ha & Hd' & Hres). exists d', res. split; [done|]. split; [done|].
  destruct res as [[msg delay]|]; [|done]. destruct Hres as (m & Hl & Hc & (_ & _ & Ht & _ & Hr) & Hdl). unfold message_of. rewrite Hr.
  pose proof (bits_val_take_range (drop 20 m) 17) as Hb. rewrite <- Ht in Hb. change (Z.of_nat 17) with 17 in Hb. cbv zeta. split; [done|]. split; [by apply process_page_of|done].
Qed.

Lemma publications_only m n : filter (fun o => is_publication o = true) (publications (apply_page m n)) = publications (apply_page m n).
Proof. unfold publications. destruct (new_ephemeris _), (b_flag_iono_valid _), (b_flag_utc_valid _); done. Qed.

(** What is published, an alarm aside. *)
Lemma with_alarm (a : bool) msgs : filter (fun o => is_publication o = true) ((if a then [bad_telemetry] else []) ++ msgs) = filter (fun o => is_publication o = true) msgs.
Proof. by destruct a. Qed.

(** One call on a block: it does with the CNAV decoder and the navigation message what the
    machine does. [dec] and [nav] are these members of the block. *)
Definition call_follows {St} (dec : St -> cnav_msg_decoder_t) (nav : St -> Gps_CNAV_Navigation_Message) (symbol : cnav_synchro -> double) (renew : bool)
  (st : St) (c : decoder_call) (st' : St) (msgs : list cnav_out) : Prop :=
  exists trace, received symbol renew (dec st) [c] = Some trace /\ (forall rest, received symbol renew (dec st) (c :: rest) = (app trace) <$> received symbol renew (dec st') rest) /\
    (forall m, Some m ∈ trace -> valid_msg m) /\
    forall rest, message_machine (nav st) (trace ++ rest) = filter (fun o => is_publication o = true) msgs ++ message_machine (nav st') rest.

Section Work.
Context {St : Type} (dec : St -> cnav_msg_decoder_t) (nav : St -> Gps_CNAV_Navigation_Message) (symbol : cnav_synchro -> double) (renew : bool).

Lemma follows_frame st st' x msg delay a d' : cnav_msg_decoder_add_symbol (dec st) (symbol_clip (symbol x)) = Some (d', Some (msg, delay)) -> dec st' = d' ->
  let m := message_of (raw_msg msg) in valid_msg m -> nav st' = after_publication (apply_page m (nav st)) ->
  call_follows dec nav symbol renew st (call_work x) st' ((if a : bool then [bad_telemetry] else []) ++ publications (apply_page m (nav st))).
Proof.
  intros Ha Hd m Hm Hn. exists [Some m]. cbn [received]. rewrite Ha. cbn [mbind option_bind]. split; [done|]. rewrite Hd. split; [intros rest; by destruct (received _ _ d' rest)|].
  split; [intros m' [= ->]%list_elem_of_singleton; done|]. intros rest. rewrite with_alarm, publications_only, Hn. done.
Qed.

Lemma follows_silent st st' x a d' : cnav_msg_decoder_add_symbol (dec st) (symbol_clip (symbol x)) = Some (d', None) -> dec st' = d' -> nav st' = nav st ->
  call_follows dec nav symbol renew st (call_work x) st' ((if a : bool then [bad_telemetry] else []) ++ []).
Proof.
  intros Ha Hd Hn. exists []. cbn [received]. rewrite Ha. cbn [mbind option_bind]. split; [done|]. rewrite Hd. split; [intros rest; by destruct (received _ _ d' rest)|].
  split; [intros m' H; by apply elem_of_nil in H|]. intros rest. rewrite with_alarm, Hn. done.
Qed.

Lemma follows_change st st' c : (exists sat, c = call_set_satellite sat) \/ (exists ch, c = call_set_channel ch) -> dec st' = dec st ->
  nav st' = (if renew then Gps_CNAV_Navigation_Message_init else nav st) -> call_follows dec nav symbol renew st c st' [].
Proof.
  intros Hc Hd Hn. exists (if renew then [None] else []).
  assert (forall rest, received symbol renew (dec st) (c :: rest) = app (if renew then [None] else []) <$> received symbol renew (dec st) rest) as Hr
    by (intros rest; destruct Hc as [[sat ->]|[ch ->]]; cbn [received]; destruct (received symbol renew (dec st) rest); by destruct renew).
  split; [rewrite Hr; by destruct renew|]. rewrite Hd. split; [done|]. split; [intros m H; destruct renew; [by apply list_elem_of_singleton in H|by apply elem_of_nil in H]|].
  intros rest. rewrite Hn. by destruct renew.
Qed.

Lemma follows_reset st st' : dec st' = dec st -> nav st' = nav st -> call_follows dec nav symbol renew st call_reset st' [].
Proof.
  intros Hd Hn. exists []. split; [done|]. rewrite Hd. split; [intros rest; cbn [received]; by destruct (received symbol renew (dec st) rest)|].
  split; [intros m H; by apply elem_of_nil in H|]. intros rest. by rewrite Hn.
Qed.

(** A block whose every call is defined and follows the machine while [P] holds, with [P]
    indexed by the calls to come. *)
Lemma run_calls_follow (step : St -> decoder_call -> option (St * list cnav_out * list cnav_synchro)) (P : nat -> St -> Prop) calls :
  (forall k st c, P (S k) st -> exists st' msgs o, step st c = Some (st', msgs, o) /\ P k st' /\ call_follows dec nav symbol renew st c st' msgs) ->
  forall st, P (length calls) st -> exists st' msgs o trace, run_calls step st calls = Some (st', msgs, o) /\ received symbol renew (dec st) calls = Some trace /\
    (forall m, Some m ∈ trace -> valid_msg m) /\ filter (fun o => is_publication o = true) msgs = message_machine (nav st) trace.
Proof.
  intros Hstep. induction calls as [|c calls IH]; intros st Hst.
  - exists st, [], [], []. split; [done|]. split; [done|]. split; [intros m H; by apply elem_of_nil in H|done].
  - cbn [run_calls]. destruct (Hstep _ st c Hst) as (st1 & m1 & o1 & -> & H1 & t1 & _ & Hr & Hv & Hm). cbn [mbind option_bind].
    destruct (IH st1 H1) as (st2 & m2 & o2 & t2 & -> & Hr2 & Hv2 & Hm2). cbn [mbind option_bind]. exists st2, (m1 ++ m2), (o1 ++ o2), (t1 ++ t2). split; [done|].
    split; [by rewrite Hr, Hr2|]. split; [intros m [H|H]%elem_of_app; auto|]. by rewrite list.filter_app, Hm, Hm2.
Qed.
End Work.

(** ** The L5 block *)

Notation l5_follows := (call_follows l5_cnav_decoder l5_CNAV_Message Prompt_Q true).

Lemma l5_call_ok st c : decoder_ok (l5_cnav_decoder st) ->
  exists st' msgs o, l5_call st c = Some (st', msgs, o) /\ decoder_ok (l5_cnav_decoder st') /\ l5_follows st c st' msgs.
Proof.
  intros Hd. destruct c as [x|sat|ch|]; cbn [l5_call].
  - destruct (frame_ok _ (l5_CNAV_Message st) _ Hd (symbol_clip_byte (Prompt_Q x))) as (d' & res & Ha & Hd' & Hres). unfold l5_general_work. rewrite Ha. cbn [mbind option_bind].
    destruct res as [[msg delay]|].
    + destruct Hres as (Hm & -> & _). cbn [mbind option_bind]. destruct (l5_time _ _ _ _) as [[t last] v]. cbn [mbind option_bind].
      eexists _, _, _. split; [done|]. split; [done|]. by eapply follows_frame.
    + cbn [mbind option_bind]. eexists _, _, _. split; [done|]. split; [done|]. by eapply follows_silent.
  - eexists _, _, _. split; [done|]. split; [done|]. apply follows_change; [eauto|done..].
  - eexists _, _, _. split; [done|]. split; [done|]. apply follows_change; [eauto|done..].
  - eexists _, _, _. split; [done|]. split; [done|]. by apply follows_reset.
Qed.

(** ** The L2C block *)

(** The time in a message, in milliseconds. *)
Definition week_end : Z := 2 ^ 17 * 6000.

Definition symbol_period : positive := 5764607523034235%positive.

Lemma symbol_period_value : GPS_L2_M_PERIOD_S = S754_finite false symbol_period (-58).
Proof. vm_compute. reflexivity. Qed.

Lemma symbol_period_sv : sv (Z.pos symbol_period) (-58) * 1000 * 2 ^ 40 <= (20 * 2 ^ 40 + 1) * scale.
Proof. apply Z.leb_le. vm_compute. reflexivity. Qed.

Lemma delay_bound C p y d : 0 < C -> 0 < d < 256 -> 0 <= p -> p * 1000 * 2 ^ 40 <= (20 * 2 ^ 40 + 1) * C -> Z.abs (y * C - d * C * p) * 2 ^ 52 <= d * C * p ->
  y * 1000 * 2 ^ 20 <= (5120 * 2 ^ 20 + 1) * C.
Proof.
  intros HC Hd Hp Hps Hy. replace (y * C - d * C * p) with ((y - d * p) * C) in Hy by ring. rewrite Z.abs_mul, (Z.abs_eq C) in Hy by lia.
  assert (Z.abs (y - d * p) * 2 ^ 52 <= d * p) as H1 by nia. assert (y * 2 ^ 52 <= d * p * (2 ^ 52 + 1)) by lia.
  assert (d * p <= 255 * p) by nia. assert (y * 2 ^ 52 <= 255 * p * (2 ^ 52 + 1)) by lia. lia.
Qed.

Lemma symbol_delays delay : 0 <= delay < 256 -> step_of (dbl_mul (dbl_of_Z delay) GPS_L2_M_PERIOD_S) 5120.
Proof.
  intros Hd. rewrite symbol_period_value. destruct (decide (delay = 0)) as [->|Hz]; [by apply (bool_decide_unpack _); vm_compute|].
  destruct (int_sv delay Hz ltac:(lia)) as (m & e & -> & Hm & He & Hv). change (2 ^ 3000) with scale in Hv. rewrite (proj2 (Z.ltb_ge delay 0)) by lia.
  assert (2 ^ 52 <= Z.pos symbol_period < 2 ^ 53) as Hp by (vm_compute; split; congruence).
  destruct (mul_error false false m symbol_period e (-58) Hm Hp ltac:(lia) ltac:(lia)) as (m' & e' & -> & Hm' & He' & Herr). change (2 ^ 3000) with scale in Herr.
  cbn [xorb step_of]. rewrite Hv, (Z.abs_eq delay) in Herr by lia. split; [done|]. split; [lia|].
  assert (0 <= sv (Z.pos symbol_period) (-58)) as Hs by (apply Z.mul_nonneg_nonneg; [lia|apply Z.pow_nonneg; lia]).
  exact (delay_bound _ _ _ delay scale_pos ltac:(lia) Hs symbol_period_sv Herr).
Qed.

Lemma message_clock tow delay : 0 <= tow < 2 ^ 17 -> 0 <= delay < 256 ->
  clock_in (dbl_add (dbl_add (dbl_mul (dbl_of_Z tow) (dbl_of_Z 6)) (dbl_mul (dbl_of_Z delay) GPS_L2_M_PERIOD_S)) (dbl_mul (dbl_of_Z 12) GPS_L2_M_PERIOD_S)) week_end.
Proof.
  intros Ht Hd. rewrite dbl_mul_nat by lia. pose proof (clock_seconds (tow * 6) ltac:(lia)) as H1.
  pose proof (clock_add _ _ _ _ H1 (symbol_delays delay Hd) ltac:(lia) ltac:(lia)) as H2.
  assert (step_of (dbl_mul (dbl_of_Z 12) GPS_L2_M_PERIOD_S) 240) as H3 by (apply (bool_decide_unpack _); vm_compute; exact I).
  pose proof (clock_add _ _ _ _ H2 H3 ltac:(lia) ltac:(lia)) as H4. apply (clock_in_le _ _ _ H4). unfold week_end. lia.
Qed.

Lemma symbol_tick t b : clock_in t b -> 0 <= b < 2 ^ 31 -> clock_in (dbl_add t GPS_L2_M_PERIOD_S) (b + 21).
Proof. intros Ht Hb. replace (b + 21) with (b + 20 + 1) by lia. apply clock_add; [done|apply (bool_decide_unpack _); vm_compute; exact I|lia..]. Qed.

Definition l2c_ok (b : Z) (st : gps_l2c_decoder) : Prop := decoder_ok (l2c_cnav_decoder st) /\ clock_in (l2c_TOW_at_current_symbol st) b.

Notation l2c_follows := (call_follows l2c_cnav_decoder l2c_CNAV_Message Prompt_I false).

Lemma l2c_call_ok b st c : l2c_ok b st -> week_end <= b -> b + 21 < 2 ^ 31 ->
  exists st' msgs o, l2c_call st c = Some (st', msgs, o) /\ l2c_ok (b + 21) st' /\ l2c_follows st c st' msgs.
Proof.
  intros [Hd Hc] Hw Hb. assert (0 <= week_end) by (unfold week_end; lia). assert (clock_in (l2c_TOW_at_current_symbol st) (b + 21)) as Hc1 by (apply (clock_in_le _ _ _ Hc); lia).
  destruct c as [x|sat|ch|]; cbn [l2c_call].
  - destruct (frame_ok _ (l2c_CNAV_Message st) _ Hd (symbol_clip_byte (Prompt_I x))) as (d' & res & Ha & Hd' & Hres). unfold l2c_general_work. rewrite Ha. cbn [mbind option_bind].
    destruct res as [[msg delay]|].
    + destruct Hres as (Hm & -> & Ht & Hdl). cbn [mbind option_bind]. pose proof (message_clock _ _ Ht Hdl) as Hc'. set (t := dbl_add _ (dbl_mul (dbl_of_Z 12) _)) in *.
      apply (clock_in_le _ _ (b + 21)) in Hc'; [|lia]. destruct (clock_ms t (b + 21) Hc' ltac:(lia)) as [ms ->]. cbn [mbind option_bind].
      eexists _, _, _. split; [done|]. split; [done|]. by eapply follows_frame.
    + pose proof (symbol_tick _ _ Hc ltac:(lia)) as Hc'. cbn [mbind option_bind]. destruct (clock_ms _ (b + 21) Hc' ltac:(lia)) as [ms ->]. cbn [mbind option_bind].
      eexists _, _, _. split; [done|]. split; [done|]. by eapply follows_silent.
  - eexists _, _, _. split; [done|]. split; [done|]. apply follows_change; [eauto|done..].
  - eexists _, _, _. split; [done|]. split; [done|]. apply follows_change; [eauto|done..].
  - eexists _, _, _. split; [done|]. split; [done|]. by apply follows_reset.
Qed.

(** ** Properties *)

Lemma length_message_of raw : (38 <= length raw)%nat -> length (message_of raw) = 300%nat.
Proof. intros H. unfold message_of. rewrite length_take, length_bitlist. lia. Qed.

(** The ephemeris of messages [m10] and [m11], the last of them [last], received in state [n]. *)
Definition ephemeris_of (m10 m11 last : list bool) (n : Gps_CNAV_Navigation_Message) : cnav_ephemeris :=
  {| common := common_of last; page10 := page10_of m10; page11 := page11_of m11; clock := clock (ephemeris_record n); delay := delay (ephemeris_record n);
     URA0 := dbl_of_Z (ps m10 GPS_CNAV.CNAV_URA); top := pu m10 GPS_CNAV.CNAV_TOP1 * 300 |}.

(** No flag is set. *)
Definition no_flags (n : Gps_CNAV_Navigation_Message) : bool :=
  negb (b_flag_ephemeris_1 n) && negb (b_flag_ephemeris_2 n) && negb (b_flag_iono_valid n) && negb (b_flag_utc_valid n).

Lemma same_reference a b : (a * 300 =? b * 300) = (a =? b).
Proof. destruct (Z.eqb_spec a b), (Z.eqb_spec (a * 300) (b * 300)); lia. Qed.

(** [page_flags] computes the flags after pages. *)
Ltac page_flags := unfold publications, new_ephemeris;
  cbn [apply_page after_publication b_flag_ephemeris_1 b_flag_ephemeris_2 b_flag_iono_valid b_flag_utc_valid ephemeris_record iono_record utc_model_record cnav_TOW
    common page10 page11 clock delay URA0 top page10_of page11_of toe1 toe2 orb andb negb app Z.eqb Pos.eqb].

(** C30: A message of type 10 and one of type 11, in either order, publish an ephemeris when the
    second has arrived, if their reference times agree, and nothing otherwise: its members are
    the transmitted integers times their scales. The clock correction and the group delays are
    those of earlier messages, and are not waited for. *)
Theorem cnav_ephemeris_published n raw10 raw11 :
  (38 <= length raw10)%nat -> (38 <= length raw11)%nat -> message_type (message_of raw10) = 10 -> message_type (message_of raw11) = 11 -> no_flags n = true ->
  let m10 := message_of raw10 in let m11 := message_of raw11 in
  (exists n1 n2, process_page raw10 n = Some ([], n1) /\
     process_page raw11 n1 = Some (if pu m10 GPS_CNAV.CNAV_TOE1 =? pu m11 GPS_CNAV.CNAV_TOE2 then [pub_cnav_ephemeris (ephemeris_of m10 m11 m11 n)] else [], n2)) /\
  (exists n1 n2, process_page raw11 n = Some ([], n1) /\
     process_page raw10 n1 = Some (if pu m10 GPS_CNAV.CNAV_TOE1 =? pu m11 GPS_CNAV.CNAV_TOE2 then [pub_cnav_ephemeris (ephemeris_of m10 m11 m10 n)] else [], n2)).
Proof.
  intros H10 H11 T10 T11 Hf m10 m11. apply length_message_of in H10, H11. fold m10 in H10, T10. fold m11 in H11, T11. unfold no_flags in Hf. destruct n as [e i u t f1 f2 fi fu].
  cbn in Hf. destruct f1, f2, fi, fu; try discriminate Hf.
  assert (forall raw m n, length m = 300%nat -> message_of raw = m -> process_page raw n = Some (publications (apply_page m n), after_publication (apply_page m n))) as Hp
    by (intros; by apply process_page_of).
  split; eexists _, _.
  - split; [rewrite (Hp raw10 m10) by done; page_flags; rewrite T10; reflexivity|]. rewrite (Hp raw11 m11) by done. page_flags. rewrite T10, T11. page_flags.
    apply f_equal, (f_equal2 pair); [|reflexivity]. rewrite same_reference, ?T10, ?T11. page_flags. by destruct (_ =? _).
  - split; [rewrite (Hp raw11 m11) by done; page_flags; rewrite T11; reflexivity|]. rewrite (Hp raw10 m10) by done. page_flags. rewrite T10, T11. page_flags.
    apply f_equal, (f_equal2 pair); [|reflexivity]. rewrite same_reference, ?T10, ?T11. page_flags. by destruct (_ =? _).
Qed.

(** A message of type 10 and one of type 11, both for reference time 5 * 300 s. *)
Definition sample_10 : list Z := pack (val_bits 8 0x8B ++ val_bits 6 17 ++ val_bits 6 10 ++ val_bits 17 12345 ++ [false] ++ val_bits 32 (7 ^ 11) ++ val_bits 11 5 ++ val_bits 219 (7 ^ 75)).
Definition sample_11 : list Z := pack (val_bits 8 0x8B ++ val_bits 6 17 ++ val_bits 6 11 ++ val_bits 17 12346 ++ [false] ++ val_bits 11 5 ++ val_bits 251 (7 ^ 85)).

Lemma cnav_ephemeris_published_witness :
  exists n1 n2, process_page sample_10 Gps_CNAV_Navigation_Message_init = Some ([], n1) /\
    process_page sample_11 n1 = Some ([pub_cnav_ephemeris (ephemeris_of (message_of sample_10) (message_of sample_11) (message_of sample_11) Gps_CNAV_Navigation_Message_init)], n2) /\
    af0 (clock (ephemeris_of (message_of sample_10) (message_of sample_11) (message_of sample_11) Gps_CNAV_Navigation_Message_init)) = dbl_zero.
Proof.
  destruct (cnav_ephemeris_published Gps_CNAV_Navigation_Message_init sample_10 sample_11) as [(n1 & n2 & H1 & H2) _];
    [vm_compute; lia|vm_compute; lia|vm_compute; reflexivity|vm_compute; reflexivity|reflexivity|].
  assert ((pu (message_of sample_10) GPS_CNAV.CNAV_TOE1 =? pu (message_of sample_11) GPS_CNAV.CNAV_TOE2) = true) as E by (vm_compute; reflexivity).
  rewrite E in H2. exists n1, n2. split; [exact H1|]. split; [exact H2|reflexivity].
Defined.

(** C29: Whatever symbols arrive and whenever the channel calls [set_satellite], [set_channel] or
    [reset], both blocks work without a read or write outside a buffer and without an undefined
    conversion (the L2C block for up to 2^25 calls, a week of symbols: its clock is converted to
    32 bits of milliseconds). The messages that the CNAV decoder delivers to the block on the
    way, [trace], all have 300 bits and CRC zero, and what the block publishes is what the
    machine on messages publishes for exactly these, in this order: in particular an ephemeris is
    the content of a received message of type 10 and a received one of type 11 with the same
    reference time, ionospheric data come from one of type 30, a UTC model from one of type 33.
    The L5 block starts anew at a change of satellite or channel, the L2C block does not. *)
Theorem cnav_publications_valid satellite calls :
  (exists st st' msgs out d trace, gps_l5_decoder_init satellite = Some st /\ run_calls l5_call st calls = Some (st', msgs, out) /\
     cnav_msg_decoder_init = Some d /\ received Prompt_Q true d calls = Some trace /\ publishes_received trace msgs) /\
  (Z.of_nat (length calls) <= 2 ^ 25 ->
   exists st st' msgs out d trace, gps_l2c_decoder_init satellite = Some st /\ run_calls l2c_call st calls = Some (st', msgs, out) /\
     cnav_msg_decoder_init = Some d /\ received Prompt_I false d calls = Some trace /\ publishes_received trace msgs).
Proof.
  destruct decoder_init_ok as (d & Hd & Hok). split.
  - unfold gps_l5_decoder_init. rewrite Hd. cbn [mbind option_bind]. set (st := Build_gps_l5_decoder _ _ _ _ _ _ _ _ _ _ _ _).
    destruct (run_calls_follow l5_cnav_decoder l5_CNAV_Message Prompt_Q true l5_call (fun _ st => decoder_ok (l5_cnav_decoder st)) calls (fun _ st c => l5_call_ok st c) st Hok)
      as (st' & msgs & out & trace & Hr & Ht & Hv & Hp).
    exists st, st', msgs, out, d, trace. split_and!; try done. by apply machine_publishes.
  - intros Hl. unfold gps_l2c_decoder_init. rewrite Hd. cbn [mbind option_bind]. set (st := Build_gps_l2c_decoder _ _ _ _ _ _ _ _ _ _ _ _).
    set (top := week_end + 21 * Z.of_nat (length calls)). assert (top < 2 ^ 31) by (unfold top, week_end; lia).
    destruct (run_calls_follow l2c_cnav_decoder l2c_CNAV_Message Prompt_I false l2c_call (fun k st => (k <= length calls)%nat /\ l2c_ok (top - 21 * Z.of_nat k) st) calls)
      with (st := st) as (st' & msgs & out & trace & Hr & Ht & Hv & Hp).
    + intros k s c [Hk Hs]. destruct (l2c_call_ok _ s c Hs ltac:(lia) ltac:(lia)) as (s' & m & o & Hc & Hs' & Hp). exists s', m, o. split; [done|]. split; [|done].
      split; [lia|]. by replace (top - 21 * Z.of_nat k) with (top - 21 * Z.of_nat (S k) + 21) by lia.
    + split; [lia|]. split; [done|]. cbn. unfold top, week_end. lia.
    + exists st, st', msgs, out, d, trace. split_and!; try done. by apply machine_publishes.
Qed.

(** A symbol of the sample transmission as a block receives it, on both components. *)
Definition sample_symbol (s : Z) : cnav_synchro :=
  let p := if s =? 255 then dbl_of_Z 1 else dbl_of_Z (-1) in
  {| Prompt_I := p; Prompt_Q := p; Carrier_phase_rads := dbl_zero; TOW_at_current_symbol_ms := 0; Flag_valid_symbol_output := true; Flag_valid_word := false |}.

Definition sample_satellite : Gnss_Satellite := make_satellite "GPS" 17.

(** Symbols on one component. *)
Definition clips (symbol : cnav_synchro -> double) (xs : list cnav_synchro) : list Z := (fun x => symbol_clip (symbol x)) <$> xs.

Lemma clips_samples syms : Forall (fun s => s = 0 \/ s = 255) syms -> clips Prompt_Q (sample_symbol <$> syms) = syms /\ clips Prompt_I (sample_symbol <$> syms) = syms.
Proof.
  induction 1 as [|s syms Hs _ [IH1 IH2]]; [done|]. unfold clips in *. rewrite !fmap_cons, IH1, IH2.
  by destruct Hs as [-> | ->].
Qed.

Lemma received_silent symbol renew rest xs : forall d d1, cnav_run d (clips symbol xs) = Some (d1, []) ->
  received symbol renew d ((call_work <$> xs) ++ rest) = received symbol renew d1 rest.
Proof.
  induction xs as [|x xs IH]; intros d d1 Hr; cbn [clips fmap list_fmap] in Hr |- *; cbn [cnav_run received app] in Hr |- *; [by injection Hr as <-|].
  fold (clips symbol xs) in Hr. destruct (cnav_msg_decoder_add_symbol _ _) as [[d' [f|]]|]; cbn [mbind option_bind] in Hr |- *; [|..|done].
  { by destruct (cnav_run _ _) as [[? ?]|]. }
  rewrite (IH d' d1) by (by destruct (cnav_run _ _) as [[? [|]]|]). by destruct (received _ _ _ _).
Qed.

Lemma sample_syms_binary : Forall (fun s => s = 0 \/ s = 255) sample_syms.
Proof. apply (bool_decide_unpack _). vm_compute. exact I. Qed.

(** The calls of the sample transmission, and the message they bring to both blocks. *)
Definition sample_calls : list decoder_call := (call_work <$> (sample_symbol <$> take 703 sample_syms)) ++ [call_work (sample_symbol (sample_syms !!! 703%nat))].

Lemma sample_received d trace symbol renew : symbol = Prompt_Q \/ symbol = Prompt_I ->
  cnav_msg_decoder_init = Some d -> received symbol renew d sample_calls = Some trace -> exists m, trace = [Some m].
Proof.
  intros Hs Hd Ht. destruct cnav_decodes_sample_transmission as (Hl & d' & d1 & d2 & msg & Hd' & Hr & Ha & _). rewrite Hd in Hd'. injection Hd' as <-.
  destruct (clips_samples _ (Forall_take _ 703%nat _ sample_syms_binary)) as [Hq Hi].
  assert (clips symbol (sample_symbol <$> take 703 sample_syms) = take 703 sample_syms) as Hc by by destruct Hs as [-> | ->].
  unfold sample_calls in Ht. rewrite (received_silent symbol renew _ _ d d1) in Ht by by rewrite Hc. cbn [received] in Ht.
  replace (symbol_clip (symbol (sample_symbol (sample_syms !!! 703%nat)))) with (sample_syms !!! 703%nat) in Ht.
  - rewrite Ha in Ht. cbn [mbind option_bind] in Ht. injection Ht as <-. by eexists.
  - assert (sample_syms !!! 703%nat ∈ sample_syms) as He by (apply list_elem_of_lookup_total_2; lia).
    pose proof (proj1 (Forall_forall _ _) sample_syms_binary _ (proj1 (list_elem_of_In _ _) He)) as [-> | ->]; by destruct Hs as [-> | ->].
Qed.

Lemma sample_calls_length : length sample_calls = 704%nat.
Proof.
  destruct cnav_decodes_sample_transmission as [Hl _]. unfold sample_calls. rewrite length_app, !length_fmap, length_take, Hl. reflexivity.
Qed.

Lemma cnav_publications_valid_witness :
  exists st st' msgs out m, gps_l2c_decoder_init sample_satellite = Some st /\ run_calls l2c_call st sample_calls = Some (st', msgs, out) /\ valid_msg m /\
    filter (fun o => is_publication o = true) msgs = message_machine Gps_CNAV_Navigation_Message_init [Some m].
Proof.
  destruct (cnav_publications_valid sample_satellite sample_calls) as [_ H].
  destruct H as (st & st' & msgs & out & d & trace & H1 & H2 & H3 & H4 & Hv & Hm & _); [rewrite sample_calls_length; vm_compute; discriminate|].
  destruct (sample_received d trace Prompt_I false (or_intror eq_refl) H3 H4) as [m ->].
  exists st, st', msgs, out, m. split; [exact H1|]. split; [exact H2|]. split; [apply Hv; left|exact Hm].
Defined.

(** Symbols without a message. *)
Lemma l5_silent xs : forall st d, cnav_run (l5_cnav_decoder st) (clips Prompt_Q xs) = Some (d, []) -> l5_flag_valid_word st = false ->
  exists st' msgs, run_calls l5_call st (call_work <$> xs) = Some (st', msgs, []) /\ l5_cnav_decoder st' = d /\ l5_CNAV_Message st' = l5_CNAV_Message st /\
    l5_flag_valid_word st' = false /\ l5_TOW_at_current_symbol_ms st' = l5_TOW_at_current_symbol_ms st.
Proof.
  induction xs as [|x xs IH]; intros st d Hr Hv; cbn [clips fmap list_fmap] in Hr |- *; cbn [cnav_run run_calls] in Hr |- *.
  - injection Hr as <-. by exists st, [].
  - destruct (cnav_msg_decoder_add_symbol _ _) as [[d1 [[msg delay]|]]|] eqn:Ha; cbn [mbind option_bind] in Hr; [|fold (clips Prompt_Q xs) in Hr|done].
    { by destruct (cnav_run _ _) as [[? ?]|]. }
    cbn [l5_call]. unfold l5_general_work at 1. rewrite Ha. cbn [mbind option_bind]. rewrite Hv. cbn [andb].
    match goal with |- context [run_calls l5_call ?s _] => destruct (IH s d) as (st' & msgs & -> & E1 & E2 & E3 & E4) end; [|done|].
    + cbn [l5_cnav_decoder]. by destruct (cnav_run _ _) as [[? [|]]|].
    + cbn [mbind option_bind option_list app]. eexists _, _. split; [done|]. by rewrite E2, E3, E4.
Qed.

(** C31: An L5 message whose time is more than one symbol from the time the block has kept (at the
    end of the week, where the kept time does not start again at zero; after symbols that were
    not valid, during which it stands still) is not taken as the new time: it is decoded and its
    data are published, but the time is cleared and the block has no output, for that symbol and
    for all that follow, until the next message, whose time is accepted unchecked. *)
Theorem l5_message_discarded st x d1 msg delay xs d2 :
  decoder_ok (l5_cnav_decoder st) -> cnav_msg_decoder_add_symbol (l5_cnav_decoder st) (symbol_clip (Prompt_Q x)) = Some (d1, Some (msg, delay)) ->
  l5_TOW_at_current_symbol_ms st <> 0 -> 10 < Z.abs (message_ms msg delay - l5_TOW_at_current_symbol_ms st) -> cnav_run d1 (clips Prompt_Q xs) = Some (d2, []) ->
  exists st' msgs, run_calls l5_call st (call_work x :: (call_work <$> xs)) = Some (st', msgs, []) /\ l5_cnav_decoder st' = d2 /\
    l5_TOW_at_current_symbol_ms st' = 0 /\ l5_flag_valid_word st' = false /\
    forall x2 d3 msg2 delay2, cnav_msg_decoder_add_symbol d2 (symbol_clip (Prompt_Q x2)) = Some (d3, Some (msg2, delay2)) ->
      exists st2 msgs2 o, l5_general_work st' x2 = Some (st2, msgs2, Some o) /\ TOW_at_current_symbol_ms o = message_ms msg2 delay2 /\ Flag_valid_word o = true.
Proof.
  intros Hd Ha Ht Hdiff Hr. destruct (frame_ok _ (l5_CNAV_Message st) _ Hd (symbol_clip_byte (Prompt_Q x))) as (d1' & res & Ha' & Hd1 & Hres).
  rewrite Ha in Ha'. injection Ha' as <- <-. destruct Hres as (_ & Hp & _). cbn [run_calls l5_call]. unfold l5_general_work at 1. rewrite Ha.
  cbn [mbind option_bind]. rewrite Hp. cbn [mbind option_bind]. unfold l5_time, GPS_L5I_SYMBOL_PERIOD_MS. rewrite (proj2 (Z.eqb_neq _ 0)), (proj2 (Z.ltb_lt 10 _)) by done.
  cbn [negb andb mbind option_bind]. match goal with |- context [run_calls l5_call ?s _] => destruct (l5_silent xs s d2 Hr eq_refl) as (st' & m' & -> & E1 & E2 & E3 & E4) end.
  cbn [mbind option_bind option_list app]. eexists _, _. split; [done|]. split_and!; [done..|]. intros x2 d3 msg2 delay2 Ha2. rewrite <- E1 in Ha2.
  assert (decoder_ok (l5_cnav_decoder st')) as Hd2.
  { destruct (run_ok d1 (clips Prompt_Q xs) Hd1) as (d2' & ms & Hr' & Hok2 & _); [apply Forall_fmap, Forall_true; intros; apply symbol_clip_byte|]. rewrite Hr in Hr'. injection Hr' as <- <-.
    by rewrite E1. }
  destruct (frame_ok _ (l5_CNAV_Message st') _ Hd2 (symbol_clip_byte (Prompt_Q x2))) as (d3' & res & Ha' & _ & Hres). rewrite Ha2 in Ha'. injection Ha' as <- <-.
  destruct Hres as (_ & Hp2 & _). unfold l5_general_work. rewrite Ha2. cbn [mbind option_bind]. rewrite Hp2. cbn [mbind option_bind]. unfold l5_time. rewrite E4.
  cbn [l5_TOW_at_current_symbol_ms Z.eqb negb andb mbind option_bind]. eexists _, _, _. split; [done|]. done.
Qed.

(** The decoder before the symbol that completes the sample message. *)
Lemma sample_decoder : exists d0 d1 msg delay, decoder_ok d0 /\
  cnav_msg_decoder_add_symbol d0 (symbol_clip (Prompt_Q (sample_symbol (sample_syms !!! 703%nat)))) = Some (d1, Some (msg, delay)) /\ message_ms msg delay = 74071040.
Proof.
  destruct decoder_init_ok as (d & Hd & Hok). destruct cnav_decodes_sample_transmission as (Hl & d' & d0 & d1 & msg & Hd' & Hr & Ha & _ & _ & Ht & _).
  rewrite Hd in Hd'. injection Hd' as <-. destruct (run_ok d (take 703 sample_syms) Hok) as (d0' & msgs & Hr' & Hok0 & _).
  { apply (bool_decide_unpack _). vm_compute. exact I. }
  rewrite Hr in Hr'. injection Hr' as <- <-. exists d0, d1, msg, 92. split; [done|]. split; [|unfold message_ms; by rewrite Ht].
  replace (symbol_clip _) with (sample_syms !!! 703%nat); [done|]. assert (sample_syms !!! 703%nat ∈ sample_syms) as He by (apply list_elem_of_lookup_total_2; lia).
  by pose proof (proj1 (Forall_forall _ _) sample_syms_binary _ (proj1 (list_elem_of_In _ _) He)) as [-> | ->].
Qed.

(** The block with a time kept since one second before the message. *)
Definition stale_block (d : cnav_msg_decoder_t) : gps_l5_decoder :=
  {| l5_satellite := sample_satellite; l5_cnav_decoder := d; l5_CNAV_Message := Gps_CNAV_Navigation_Message_init; l5_sample_counter := 703; l5_last_valid_preamble := 0;
     l5_channel := 0; l5_TOW_at_current_symbol_ms := 74070040; l5_TOW_at_Preamble_ms := 0; l5_max_symbols_without_valid_frame := 6000;
     l5_flag_PLL_180_deg_phase_locked := false; l5_flag_valid_word := false; l5_sent_tlm_failed_msg := false |}.

Lemma l5_message_discarded_witness :
  exists d0 d1 msg delay st' msgs, cnav_msg_decoder_add_symbol d0 (symbol_clip (Prompt_Q (sample_symbol (sample_syms !!! 703%nat)))) = Some (d1, Some (msg, delay)) /\
    run_calls l5_call (stale_block d0) [call_work (sample_symbol (sample_syms !!! 703%nat))] = Some (st', msgs, []) /\ l5_TOW_at_current_symbol_ms st' = 0.
Proof.
  destruct sample_decoder as (d0 & d1 & msg & delay & Hd & Ha & Ht).
  destruct (l5_message_discarded (stale_block d0) (sample_symbol (sample_syms !!! 703%nat)) d1 msg delay [] d1) as (st' & msgs & H1 & _ & H2 & _).
  - exact Hd.
  - exact Ha.
  - discriminate.
  - rewrite Ht. cbn. lia.
  - reflexivity.
  - exists d0, d1, msg, delay, st', msgs. split; [exact Ha|]. split; [exact H1|exact H2].
Defined.
